(* ===== verification/_CoqProject ===== *)
-Q . S2P
Prelude.v
Bytes.v
GoMem.v
Checksum.v
TsChecksum.v
GvChecksum.v
Tcpip.v
Netip.v
TunOptions.v
TunOptionsSpec.v
HdrChecksum.v
IPv4Options.v
IPv4.v
IPv6.v
Seqnum.v
TCP.v
TCPOptions.v
UDP.v
ICMP.v
Ndp.v
NdpSpec.v
Eth.v
TunRules.v
TunRulesSpec.v
Netlink.v
RouteMark.v
Ipvs.v
IpvsParse.v
IpvsSpec.v
PolicyRules.v
PolicyRulesSpec.v
PolicyDecision.v
PolicyInstall.v
Nft.v
RedirectNft.v
NftSpec.v
RedirectSets.v
RedirectGuards.v
RedirectSpec.v
RedirectSample.v
DnatNft.v
Monitor.v
Iptables.v
RedirectIptables.v
RedirectIptablesSpec.v
IptablesDecision.v
IptablesSetup.v
DnatIptables.v
IpvsRefresh.v
Ping.v
PingSpec.v
PingConn.v
PingConnSpec.v
PingUnprivileged.v
PingUnprivilegedSpec.v
PingMessages.v
Offload.v
Virtio.v
Gro.v
GroSpec.v
GroBufs.v
GroGroup.v
GroTcp.v
GroInv.v
GroUdp.v
GroAccount.v
GroHandle.v
GroPool.v
TunLinux.v
TcpNat.v
TcpNatSpec.v
Rewrite.v
System.v
SystemNat.v
SystemPackets.v
SystemUdp.v
SystemIcmp.v
SystemSafe.v
SystemLoops.v
Mixed.v
