(* ===== verification/Prelude.v ===== *)
(** * sing-tun: verification of the system stack and of the rules around it

    sing-tun gives user-space programs the traffic of a tun device.  Its
    [System] stack (src/stack_system.go) lets the kernel terminate TCP: a packet
    a client sends is rewritten in place, so that it appears to come from the
    second address of the interface and to go to a listener of the program; the
    packets the listener sends back are rewritten the other way round.  UDP
    datagrams are handed to a handler and answered by packet writers, echo
    requests are answered or forwarded, and what cannot be served is reset or
    rejected.  Below it are the header types of src/internal/gtcpip (views of a
    byte buffer with accessors) and two implementations of the Internet
    checksum.  Beside it the program tells the kernel which traffic goes into the
    device: policy routing rules and routes (src/tun_linux.go, src/tun_rules.go),
    nftables or iptables chains that redirect forwarded and local connections
    (src/redirect_nftables*.go, src/redirect_iptables*.go), and bypasses for what Docker and IPVS translate
    (src/route_dnat_linux.go, src/route_ipvs_linux.go).

    ** Files, from the bottom up

    - [Prelude] (this file): unsigned integers at their width ([u8], [u16],
      [u32], [u64]), tactics, hint databases, generic lemmas.
    - [Bytes]: byte arrays as [list Z]; big-endian reads and writes, windows.
    - [GoMem]: Go slices (offset, length, capacity) over one backing array,
      and the monad [M] of code that reads and writes it; an index or slice
      expression out of range is [Panic].  [runs c m a m'] says that [c] returns
      [a] and turns the array [m] into [m'].
    - [Checksum]: [rfc1071], the reference checksum, the theory of one's
      complement sums, and the class [ChecksumImpl] that packet code uses.
    - [TsChecksum]: src/internal/tschecksum (all four Go routines, both byte
      orders).  [GvChecksum]: src/internal/gtcpip/checksum.  Both are instances
      of [ChecksumImpl].
    - [Tcpip]: addresses, masks and subnets of src/internal/gtcpip/tcpip.go.
      [Netip]: what the sources use of net/netip, and HasNextAddress of
      src/stack.go.
    - [TunOptions]: the options of a device, src/tun.go; [TunOptionsSpec]: their
      theorems.
    - [HdrChecksum], [IPv4Options], [IPv4], [IPv6], [TCP], [TCPOptions], [UDP],
      [ICMP], [Seqnum]: the files of src/internal/gtcpip/header and seqnum; a
      method of a header type is a computation in [M] on the slice.
      [Ndp]: the Neighbor Discovery messages and options of the same directory,
      [NdpSpec] their theorems.  [Eth]: the Ethernet header.
    - [TunRules]: src/tun_rules.go, the routes and user ranges computed from the
      options of a device; [TunRulesSpec]: what they mean.
    - [Netlink]: the policy rules of Linux as netlink has them: which flows a rule
      selects, the order of rules, and the class [PolicyRouting] of a kernel that
      looks a flow up.  [PolicyRules]: routes, rules, setRules, unsetRules and
      resetRules of src/tun_linux.go; [PolicyRulesSpec], [PolicyDecision] and
      [PolicyInstall]: what the rules decide and how they are installed.
    - [RouteMark]: the marks of src/route_dnat_linux.go.  [Ipvs], [IpvsParse]:
      destinations, rules and parser of src/route_ipvs_linux.go; [IpvsSpec]:
      their lemmas.
    - [Nft]: nftables expressions, sets and chains, their meaning for a packet
      (nft(8)), and the monad [nft] of code that sends them over a connection,
      every fallible operation of which may fail.  [NftSpec]: chains as lists of
      guards; [emits] composes along the sequence of calls.
    - [RedirectNft]: src/redirect_nftables.go, redirect_nftables_exprs.go,
      redirect_nftables_rules.go and redirect_nftables_dns_hijack.go.
      [RedirectSets], [RedirectGuards] and [RedirectSpec] are its proof library,
      [RedirectSample] instances and examples.
    - [DnatNft]: the nftables chains of src/route_dnat_linux.go and
      src/route_ipvs_output_linux.go, with their theorems.
    - [Iptables]: iptables commands as words, tables, the meaning of a chain for
      a packet (iptables(8)), and a host whose commands may fail.
      [RedirectIptables]: src/redirect_iptables.go,
      src/redirect_iptables_dns_hijack.go and src/redirect_linux.go;
      [RedirectIptablesSpec], [IptablesDecision] and [IptablesSetup]: the words of
      the commands, what the chain decides, and the tables after every prefix of
      a setup.
    - [DnatIptables]: src/route_dnat_linux.go and src/route_ipvs_output_linux.go
      where nftables cannot be used ([Start] and [Close] are those of a bypass
      whose useNFTables is false), with the sysctl files, and their theorems.
    - [IpvsRefresh]: updateIPVSDNSOutput of src/route_ipvs_output_linux.go over
      the two files above, updateIPVSDNSRules and refreshIPVSDNSBypass of
      src/route_ipvs_linux.go, and that rules, chains and records stay in step.
    - [Monitor]: the monitors of src/monitor*.go, the check, its timer and the
      subscribers as steps that any order interleaves, and what subscribers know.
    - [Ping]: src/ping/source_rewriter.go, destination_rewriter.go and the
      request table of destination.go; [PingSpec]: their theorems.
    - [PingConn]: src/ping/ping.go and the packet path of destination.go;
      [PingConnSpec]: a ping over a raw socket.  [PingUnprivileged]:
      src/ping/socket_linux_unprivileged.go, the goroutines as events that any
      order interleaves; [PingUnprivilegedSpec]: the invariant of its sockets;
      [PingMessages]: responses that are read as messages.
    - [Offload]: src/tun_offload.go, the segmentation of large packets.  [Virtio]:
      the virtio header and handleVirtioRead of src/tun_offload_linux.go and
      src/tun_linux.go.
    - [Gro]: the receive offload of src/tun_offload_linux.go: flow tables with
      their pool of slices, the tests whether packets can be merged, merging, and
      the final accounting.  Buffers are slices over a store of arrays, so that
      the exchange of buffers when a packet is prepended is modelled as it is.
      [GroSpec], [GroBufs], [GroGroup], [GroTcp], [GroInv], [GroUdp],
      [GroAccount], [GroHandle] and [GroPool] are its proof library: what a buffer
      holds, what a merged group is, the invariant of the loop over a batch.
    - [TunLinux]: Read, Write, BatchRead and BatchWrite of src/tun_linux.go.
    - [TcpNat]: src/stack_system_nat.go.  The sessions that both maps and the
      callers share are a heap; the class [NatTable] is what the stack relies
      on, and [TCPNat_NatTable] shows that the table provides it.
      [TcpNatSpec]: the table as one finite map, and the refinement.
    - [Rewrite]: rewriteIPv4TCP and rewriteIPv6TCP of src/stack_system.go.
    - [System]: the other handlers of src/stack_system.go, with src/stack.go,
      src/stack_system_packet.go and src/route_direct.go.  A handler is a
      computation over the packet's array and a [world] (the two NAT tables,
      the direct-route cache and the log of what was written or delivered).
    - [SystemNat], [SystemPackets], [SystemUdp], [SystemIcmp]: the theorems
      about the handlers.
    - [SystemSafe]: the invariant of a running stack; every handler keeps it and
      does not panic on complete packets, wherever they lie in their buffer.
    - [SystemLoops]: start and the read loops of src/stack_system.go, the Linux
      loop composed with [TunLinux].
    - [Mixed]: src/stack_mixed.go over the model of the system stack, NewStack, and
      how the two stacks relate.

    ** What the theorems show

    - Checksums: every routine computes the reference for every buffer, byte
      order and address alignment, partial sums chain, and the incremental
      updates keep a valid checksum valid.
    - Headers: Encode and the accessors are inverse to each other, with the rest
      of the array untouched; the option parsers terminate without reading out
      of range on any input, and invert the encoders.
    - NAT table: in every reachable state of a transition system in which
      lookups, refreshes and the two phases of the timeout interleave, the table
      is a bijection between connections and ports; lookups find what was
      stored; the timeout removes exactly what has expired, so a full table gives
      the ports of idle connections to new ones and live connections keep theirs.
      Every run of the table is a run of a finite map from connections to ports
      ([TcpNatSpec.spec_step]), which leaves only the choice of a free port open.
    - Stack: a client's TCP packet goes to the listener under its NAT port, and
      the listener's answers come back from the address the client talked to,
      with valid checksums on every packet.  The packets the stack makes itself
      (resets, UDP replies, echo replies, unreachable messages) are well formed,
      carry the right addresses and data, and verify, whatever the buffer pool
      held.
    - Segmentation: the segments GSOSplit makes carry the data of the packet in
      order, each under a header with its own length, sequence number and flags
      and with valid checksums.
    - Receive offload: a batch write neither loses nor duplicates a packet: the
      frames handed to the kernel stand for exactly the packets of the batch.
    - Composition: a stack made by NewSystem and start is well formed, stays so,
      and no read loop panics on packets with complete headers; what the Linux
      loop writes back is what processPacket made of the packets it read.
    - Neighbor Discovery: the option iterator terminates on any bytes without
      reading out of range, and reads back what the serializer wrote.
    - Rules: the routes cover exactly the addresses the options ask for, and the
      excluded user ranges exactly the ids.
    - Ping: a reply goes back to the client that sent the request, with valid
      checksums, whatever requests and replies of other identifiers come between; the table of requests stays bounded; a Destination hands the
      client the answer to its request once, under its own identifier, and the
      sockets of an UnprivilegedConn are neither lost nor confused.
    - Policy routing: the rules of the device, installed among those of the
      system, decide about a flow as the options say, in both modes; resetRules
      leaves exactly the new rules and those of others.
    - Redirection: the chain that setupNFTables builds decides about every packet
      by a list of conditions on the packet, the options and the addresses of
      the host; so does the chain of setupIPTables, and whichever of its commands
      fail, Close gives back the tables of before.
    - Mixed stack: of the packets to one host, UDP goes to the endpoint of gVisor
      whole and in order, and the rest is what the system stack does with the
      packets that are not UDP; the others are written back.
    - Monitor: in every interleaving, a subscriber knows the default interface
      when no check is at work, and no change of the network is forgotten.
    - Translated connections: the chains of the DNAT and IPVS bypass change the
      marks of exactly the packets meant, over nftables and over iptables, and the
      policy rules take them up; over iptables, a Close without an error gives back
      the tables of before after any history of failures; the
      refresh of the IPVS rules keeps rules, output chains and the recorded
      destinations in step through every failure; the parser of the IPVS table
      reads what the kernel prints.
    - Five theorems describe behaviour that is probably not meant: a truncated
      transport header makes the packet path panic, the ICMPv4 reject message
      checksums the wrong bytes, the sets of local addresses are never updated,
      the mixed stack writes broadcast and multicast packets back to the device,
      and a failed check on Android forgets that a VPN came up.  An example
      ([GroHandle.handleGRO_stale_header]) shows a packet whose checksum is found
      invalid while merging written behind a stale virtio header.

    ** Parameters

    Code outside the repository is a parameter with its documented behaviour as
    laws: the buffer package ([BufPackage]; pooled memory has arbitrary
    contents), common.ClearArray ([SingCommon]), the device, the handler and the
    LRU cache ([Environment], no laws), the constants of golang.org/x/sys/unix
    ([UnixVirtio]), the prefix sets of go4.org/netipx and the ranges of
    sing/common ([IPSetPackage], [RangesPackage], [UniqPackage], with naive
    instances in [TunRulesSpec.naive]; [IPRangesPackage], with an instance in
    [RedirectSample]), the kernel's lookups in policy rules ([PolicyRouting], with
    the instance [PolicyRouting_ref]) and in sets ([SetLookup]), its lists of rules
    ([NetlinkRules], [RuleStore]), what iptables reads in the text of an address
    ([IptablesAddresses], with the reader of [IptablesDecision]) and how it lists
    its rules ([IptablesList], with an instance in [DnatIptables]), netip.ParseAddr, M.AddrFromIP and the interfaces of
    sing/common ([ControlInterface]), the contexts that echo packets are
    written to, the order in which Go ranges over a map (a permutation), and the
    kernel's answers to reads and writes.  [System.zero_pool] and
    [System.null_environment] instantiate them, and the witnesses use these
    instances.  The generic slice functions of sing/common (Filter, Map, FlatMap,
    Contains) are read as the list functions of the same name.
    The clock is an argument [now].  GOOS is a value of [GOOS], or the flag [darwin]
    where only that is asked.

    ** Bounds

    Loops over a buffer use its length as fuel, since each turn consumes at
    least one byte; the theorems state that a result is reached.  The port
    search has its own bound in the source (55536 turns).  The elements of a set are
    sent with their number as fuel, since each turn sends at least one.  Lengths in a header
    are 16 bits wide; hypotheses such as [20 + ... <= l] say that a slice is
    long enough for the header written to it.

    ** Not modelled

    The assembly checksum; sockets and listeners beyond their answers; the
    gVisor and mipstack stacks, which wrap other packages; the sockets and
    control messages of package ping beyond what they give and take; methods that only print; device configuration and
    operating-system bindings; the OpenWRT integration, which runs commands of
    other programs.
    Addresses have no zones, so the tests for one in the DNS hijack rules are left
    out, and the lists of policy rules of both families are one list.
    The default elements of an empty route address set are sent as in the source,
    but what the kernel makes of an empty interval is left open.
    Locks are not modelled as such: an operation that holds a lock throughout is
    one step, and the timeout, which releases it between its phases, is several. *)
From Stdlib Require Export ZArith Lia Znumtheory.
From stdpp Require Export base list numbers gmap strings.
#[global] Open Scope Z_scope.

(** ** Tactics and hint databases of the development *)

(** [golen] collects the rewriting lemmas on buffer lengths, [gobytes] the
    range facts on bytes and words, [gorun] the execution lemmas of the memory
    monad. *)
Create HintDb gorun discriminated.
#[export] Hint Constants Opaque : gorun.
Create HintDb gobytes.
Create Rewrite HintDb golen.

(** Linear arithmetic with division and remainder by constants. *)
Ltac zdm := Z.div_mod_to_equations; lia.

(** Split on every comparison of the goal. *)
Ltac zcase :=
  repeat match goal with
  | |- context [?a =? ?b] => destruct (Z.eqb_spec a b)
  | |- context [?a <? ?b] => destruct (Z.ltb_spec a b)
  | |- context [?a <=? ?b] => destruct (Z.leb_spec a b)
  | |- context [?a >? ?b] => rewrite (Z.gtb_ltb a b)
  | |- context [?a >=? ?b] => rewrite (Z.geb_leb a b)
  end.

(** ** Fixed-width unsigned integers *)

(** Conversion to an unsigned type of the given width. *)
Definition u8 (x : Z) : Z := x mod 256.
Definition u16 (x : Z) : Z := x mod 65536.
Definition u32 (x : Z) : Z := x mod 4294967296.
Definition u64 (x : Z) : Z := x mod 18446744073709551616.

(** [int32(x)] of a uint32: two's complement reading. *)
Definition s32 (x : Z) : Z := if x <? 2147483648 then x else x - 4294967296.

(** [^x] at widths 8 and 16. *)
Definition not8 (x : Z) : Z := Z.lxor x 255.
Definition not16 (x : Z) : Z := Z.lxor x 65535.

Abbreviation is_u8 x := (0 <= x < 256).
Abbreviation is_u16 x := (0 <= x < 65536).
Abbreviation is_u32 x := (0 <= x < 4294967296).

Lemma lxor_ones_sub (w x : Z) : 0 <= w -> 0 <= x < 2 ^ w -> Z.lxor x (Z.ones w) = Z.ones w - x.
Proof.
  intros Hw Hx.
  assert (Z.land x (Z.lxor x (Z.ones w)) = 0) as Hl.
  { apply Z.bits_inj'. intros n Hn.
    rewrite Z.land_spec, Z.lxor_spec, Z.bits_0, Z.testbit_ones_nonneg by lia.
    destruct (Z.ltb_spec n w) as [|Hge]; [by destruct (Z.testbit x n)|].
    rewrite <- (Z.mod_small x (2 ^ w)), Z.mod_pow2_bits_high by lia. done. }
  pose proof (Z.add_nocarry_lxor _ _ Hl) as Ha.
  rewrite <- Z.lxor_assoc, Z.lxor_nilpotent, Z.lxor_0_l in Ha. lia.
Qed.

Lemma not16_sub x : is_u16 x -> not16 x = 65535 - x.
Proof. intros. apply (lxor_ones_sub 16); simpl; lia. Qed.

Lemma not8_sub x : is_u8 x -> not8 x = 255 - x.
Proof. intros. apply (lxor_ones_sub 8); simpl; lia. Qed.

Lemma not16_range x : is_u16 x -> is_u16 (not16 x).
Proof. intros. rewrite not16_sub by done. lia. Qed.

Lemma not16_invol x : is_u16 x -> not16 (not16 x) = x.
Proof. intros. rewrite !not16_sub; rewrite ?not16_sub; lia. Qed.

Lemma u8_range x : is_u8 (u8 x).
Proof. apply Z.mod_pos_bound. lia. Qed.
Lemma u16_range x : is_u16 (u16 x).
Proof. apply Z.mod_pos_bound. lia. Qed.
Lemma u32_range x : is_u32 (u32 x).
Proof. apply Z.mod_pos_bound. lia. Qed.
Lemma u8_small x : is_u8 x -> u8 x = x.
Proof. apply Z.mod_small. Qed.
Lemma u16_small x : is_u16 x -> u16 x = x.
Proof. apply Z.mod_small. Qed.
Lemma u32_small x : is_u32 x -> u32 x = x.
Proof. apply Z.mod_small. Qed.

#[export] Hint Resolve u8_range u16_range u32_range not16_range : gobytes.

(** Disjoint bit fields add up. *)
Lemma lor_add_high h x n : 0 <= n -> 0 <= x < 2 ^ n -> Z.lor (h * 2 ^ n) x = h * 2 ^ n + x.
Proof.
  intros Hn Hx. pose proof (Z.add_lor_land (h * 2 ^ n) x) as H.
  assert (Z.land (h * 2 ^ n) x = 0); [|lia].
  apply Z.bits_inj'. intros k Hk. rewrite Z.land_spec, Z.bits_0.
  destruct (Z.ltb_spec k n).
  - by rewrite Z.mul_pow2_bits_low.
  - rewrite <- (Z.mod_small x (2 ^ n)), Z.mod_pow2_bits_high by lia. by rewrite andb_false_r.
Qed.
Lemma land_1 x : Z.land x 1 = x mod 2.
Proof. apply (Z.land_ones x 1). lia. Qed.
