(* ===== verification/Bytes.v ===== *)
(** * Byte buffers

    A Go byte array is a [list Z] whose elements are in [0,256).  This file
    holds indexing with [Z] offsets, in-place update, windows (the contents of
    a sub-slice), and the big- and little-endian integer accessors of
    encoding/binary, with the read-after-write and framing lemmas the
    components share. *)
From S2P Require Import Prelude.

Definition Zlen {A} (l : list A) : Z := Z.of_nat (length l).

(** Every element is a byte. *)
Definition bytes (l : list Z) : Prop := Forall (fun x => is_u8 x) l.

Definition byte_at (l : list Z) (i : Z) : Z := default 0 (l !! Z.to_nat i).
Definition upd (l : list Z) (i v : Z) : list Z := <[Z.to_nat i := v]> l.

(** The bytes [off, off+len) of the buffer. *)
Definition window (l : list Z) (off len : Z) : list Z :=
  take (Z.to_nat len) (drop (Z.to_nat off) l).

(** [copy(l[off:], src)] when it fits: overwrite in place. *)
Fixpoint write_at (l : list Z) (off : Z) (src : list Z) : list Z :=
  match src with
  | [] => l
  | x :: src' => write_at (upd l off x) (off + 1) src'
  end.

(** encoding/binary: BigEndian.Uint16/Uint32, PutUint16/PutUint32. *)
Definition get16 (l : list Z) (i : Z) : Z := byte_at l i * 256 + byte_at l (i + 1).
Definition get32 (l : list Z) (i : Z) : Z := get16 l i * 65536 + get16 l (i + 2).
Definition put16 (l : list Z) (i v : Z) : list Z :=
  upd (upd l i (u8 (v / 256))) (i + 1) (u8 v).
Definition put32 (l : list Z) (i v : Z) : list Z :=
  put16 (put16 l i (u16 (v / 65536))) (i + 2) (u16 v).

(** ** Lengths *)

Lemma Zlen_nonneg {A} (l : list A) : 0 <= Zlen l.
Proof. unfold Zlen. lia. Qed.
Lemma Zlen_app {A} (l k : list A) : Zlen (l ++ k) = Zlen l + Zlen k.
Proof. unfold Zlen. rewrite length_app. lia. Qed.
Lemma Zlen_nil {A} : Zlen (@nil A) = 0.
Proof. done. Qed.
Lemma Zlen_cons {A} x (l : list A) : Zlen (x :: l) = Zlen l + 1.
Proof. unfold Zlen. simpl. lia. Qed.
Lemma Zlen_upd l i v : Zlen (upd l i v) = Zlen l.
Proof. unfold Zlen, upd. by rewrite length_insert. Qed.
Lemma Zlen_put16 l i v : Zlen (put16 l i v) = Zlen l.
Proof. unfold put16. by rewrite !Zlen_upd. Qed.
Lemma Zlen_put32 l i v : Zlen (put32 l i v) = Zlen l.
Proof. unfold put32. by rewrite !Zlen_put16. Qed.
Lemma Zlen_write_at l off src : Zlen (write_at l off src) = Zlen l.
Proof. revert l off. induction src; intros; simpl; [done|]. by rewrite IHsrc, Zlen_upd. Qed.
Lemma Zlen_window l off len :
  0 <= off -> 0 <= len -> off + len <= Zlen l -> Zlen (window l off len) = len.
Proof. unfold Zlen, window. intros. rewrite length_take, length_drop. lia. Qed.
Lemma Zlen_window_le l off len : 0 <= len -> Zlen (window l off len) <= len.
Proof. unfold Zlen, window. intros. rewrite length_take. lia. Qed.
Lemma Zlen_take {A} n (l : list A) : Zlen (take n l) = Z.min (Z.of_nat n) (Zlen l).
Proof. unfold Zlen. rewrite length_take. lia. Qed.
Lemma Zlen_drop {A} n (l : list A) : Zlen (drop n l) = Z.max 0 (Zlen l - Z.of_nat n).
Proof. unfold Zlen. rewrite length_drop. lia. Qed.

#[export] Hint Rewrite @Zlen_nil @Zlen_app @Zlen_cons Zlen_upd Zlen_put16 Zlen_put32 Zlen_write_at : golen.

(** ** Reads after writes *)

Lemma byte_at_upd_eq l i v : 0 <= i < Zlen l -> byte_at (upd l i v) i = v.
Proof. unfold byte_at, upd, Zlen. intros. by rewrite list_lookup_insert_eq by lia. Qed.
Lemma byte_at_upd_ne l i j v : 0 <= i -> 0 <= j -> i <> j -> byte_at (upd l i v) j = byte_at l j.
Proof. unfold byte_at, upd. intros. rewrite list_lookup_insert_ne by lia. done. Qed.
Lemma byte_at_window l off len j :
  0 <= off -> 0 <= j < len -> byte_at (window l off len) j = byte_at l (off + j).
Proof.
  unfold byte_at, window. intros.
  rewrite lookup_take_lt, lookup_drop by lia. do 2 f_equal. lia.
Qed.
Lemma byte_at_app_l l k i : 0 <= i < Zlen l -> byte_at (l ++ k) i = byte_at l i.
Proof. unfold byte_at, Zlen. intros. by rewrite lookup_app_l by lia. Qed.
Lemma byte_at_app_r l k i : Zlen l <= i -> byte_at (l ++ k) i = byte_at k (i - Zlen l).
Proof.
  unfold byte_at, Zlen. intros. rewrite lookup_app_r by lia. do 2 f_equal. lia.
Qed.
Lemma byte_at_write_at l off src j :
  0 <= off -> 0 <= j -> off + Zlen src <= Zlen l ->
  byte_at (write_at l off src) j =
    if (off <=? j) && (j <? off + Zlen src) then byte_at src (j - off) else byte_at l j.
Proof.
  revert l off. induction src as [|x src IH]; intros l off Hoff Hj Hlen; simpl.
  - destruct (_ && _) eqn:E; [|done]. rewrite Zlen_nil in E. lia.
  - rewrite Zlen_cons in *. pose proof (Zlen_nonneg src).
    rewrite IH by (rewrite ?Zlen_upd; lia).
    destruct (Z.eq_dec j off) as [->|Hne].
    + replace ((off + 1 <=? off) && (off <? off + 1 + Zlen src)) with false by lia.
      replace ((off <=? off) && (off <? off + (Zlen src + 1))) with true by lia.
      rewrite byte_at_upd_eq by lia. by rewrite Z.sub_diag.
    + rewrite byte_at_upd_ne by lia.
      replace (off + (Zlen src + 1)) with (off + 1 + Zlen src) by lia.
      destruct (Z.leb_spec (off + 1) j).
      * replace (off <=? j) with true by lia. simpl.
        destruct (_ <? _) eqn:?; [|done].
        change (x :: src) with ([x] ++ src). rewrite byte_at_app_r by (unfold Zlen; simpl; lia).
        f_equal. unfold Zlen; simpl; lia.
      * by replace (off <=? j) with false by lia.
Qed.

Lemma bytes_ext l k :
  Zlen l = Zlen k -> (forall i, 0 <= i < Zlen l -> byte_at l i = byte_at k i) -> l = k.
Proof.
  unfold Zlen, byte_at. intros Hlen H. apply list_eq. intros i.
  destruct (decide (i < length l)%nat) as [Hi|Hi].
  - specialize (H (Z.of_nat i)). rewrite Nat2Z.id in H.
    destruct (lookup_lt_is_Some_2 l i) as [x Hx]; [lia|].
    destruct (lookup_lt_is_Some_2 k i) as [y Hy]; [lia|].
    rewrite Hx, Hy in *. simpl in H. f_equal. apply H. lia.
  - rewrite !lookup_ge_None_2 by lia. done.
Qed.

(** ** Bytes stay bytes *)

Lemma bytes_byte_at l i : bytes l -> is_u8 (byte_at l i).
Proof.
  unfold bytes, byte_at. intros H. destruct (l !! Z.to_nat i) as [x|] eqn:E; simpl; [|lia].
  by apply (Forall_lookup_1 _ _ _ _ H E).
Qed.
Lemma bytes_upd l i v : bytes l -> is_u8 v -> bytes (upd l i v).
Proof. intros. by apply Forall_insert. Qed.
Lemma bytes_put16 l i v : bytes l -> bytes (put16 l i v).
Proof. intros. unfold put16. auto using bytes_upd with gobytes. Qed.
Lemma bytes_put32 l i v : bytes l -> bytes (put32 l i v).
Proof. intros. unfold put32. auto using bytes_put16. Qed.
Lemma bytes_window l off len : bytes l -> bytes (window l off len).
Proof. intros. by apply Forall_take, Forall_drop. Qed.
Lemma bytes_app l k : bytes (l ++ k) <-> bytes l /\ bytes k.
Proof. apply Forall_app. Qed.
Lemma bytes_write_at l off src : bytes l -> bytes src -> bytes (write_at l off src).
Proof.
  revert l off. induction src; intros l off Hl Hs; simpl; [done|].
  apply Forall_cons in Hs as [??]. apply IHsrc; [|done]. by apply bytes_upd.
Qed.

#[export] Hint Resolve bytes_byte_at bytes_upd bytes_put16 bytes_put32 bytes_window
  bytes_write_at : gobytes.

Lemma get16_range l i : bytes l -> is_u16 (get16 l i).
Proof.
  intros. unfold get16. pose proof (bytes_byte_at l i). pose proof (bytes_byte_at l (i + 1)).
  intuition lia.
Qed.
Lemma get32_range l i : bytes l -> is_u32 (get32 l i).
Proof.
  intros. unfold get32. pose proof (get16_range l i). pose proof (get16_range l (i + 2)).
  intuition lia.
Qed.
#[export] Hint Resolve get16_range get32_range : gobytes.

(** ** Multi-byte accessors *)

Lemma byte_at_put16 l i v j :
  0 <= i -> 0 <= j -> i + 2 <= Zlen l ->
  byte_at (put16 l i v) j =
    if j =? i then u8 (v / 256) else if j =? i + 1 then u8 v else byte_at l j.
Proof.
  intros. unfold put16. zcase; subst.
  - rewrite byte_at_upd_ne, byte_at_upd_eq by lia. done.
  - rewrite byte_at_upd_eq by (rewrite Zlen_upd; lia). done.
  - rewrite !byte_at_upd_ne by lia. done.
Qed.

Lemma get16_put16_eq l i v : 0 <= i -> i + 2 <= Zlen l -> is_u16 v -> get16 (put16 l i v) i = v.
Proof.
  intros. unfold get16. rewrite !byte_at_put16 by lia. zcase; try lia.
  unfold u8. zdm.
Qed.
Lemma get16_put16_ne l i j v :
  0 <= i -> 0 <= j -> i + 2 <= Zlen l -> (j + 2 <= i \/ i + 2 <= j) ->
  get16 (put16 l i v) j = get16 l j.
Proof. intros. unfold get16. rewrite !byte_at_put16 by lia. zcase; lia. Qed.
Lemma get16_upd_ne l i j v :
  0 <= i -> 0 <= j -> (j + 2 <= i \/ i + 1 <= j) -> get16 (upd l i v) j = get16 l j.
Proof. intros. unfold get16. by rewrite !byte_at_upd_ne by lia. Qed.
Lemma byte_at_put16_ne l i v j :
  0 <= i -> 0 <= j -> i + 2 <= Zlen l -> (j < i \/ i + 2 <= j) ->
  byte_at (put16 l i v) j = byte_at l j.
Proof. intros. rewrite byte_at_put16 by lia. zcase; lia. Qed.
Lemma get32_put32_eq l i v : 0 <= i -> i + 4 <= Zlen l -> is_u32 v -> get32 (put32 l i v) i = v.
Proof.
  intros. unfold get32, put32.
  rewrite get16_put16_ne, get16_put16_eq, get16_put16_eq by (rewrite ?Zlen_put16; auto with gobytes; lia).
  unfold u16. zdm.
Qed.
Lemma get16_put32_ne l i j v :
  0 <= i -> 0 <= j -> i + 4 <= Zlen l -> (j + 2 <= i \/ i + 4 <= j) ->
  get16 (put32 l i v) j = get16 l j.
Proof. intros. unfold put32. rewrite !get16_put16_ne by (rewrite ?Zlen_put16; lia). done. Qed.
Lemma byte_at_put32_ne l i j v :
  0 <= i -> 0 <= j -> i + 4 <= Zlen l -> (j < i \/ i + 4 <= j) ->
  byte_at (put32 l i v) j = byte_at l j.
Proof. intros. unfold put32. rewrite !byte_at_put16_ne by (rewrite ?Zlen_put16; lia). done. Qed.

(** ** Windows and writes *)

Lemma window_upd_out l i v off len :
  0 <= off -> 0 <= i -> (i < off \/ off + len <= i) ->
  window (upd l i v) off len = window l off len.
Proof.
  intros Ho Hi H. unfold window, upd. destruct H.
  - rewrite drop_insert_lt by lia. done.
  - destruct (decide (0 <= len)); [|by replace (Z.to_nat len) with 0%nat by lia].
    rewrite drop_insert_ge, take_insert_ge by lia. done.
Qed.
Lemma window_upd_in l i v off len :
  0 <= off -> off <= i < off + len ->
  window (upd l i v) off len = upd (window l off len) (i - off) v.
Proof.
  intros. unfold window, upd. rewrite drop_insert_ge, take_insert_lt by lia.
  f_equal. lia.
Qed.
Lemma window_put16_out l i v off len :
  0 <= off -> 0 <= i -> (i + 2 <= off \/ off + len <= i) ->
  window (put16 l i v) off len = window l off len.
Proof. intros. unfold put16. by rewrite !window_upd_out by lia. Qed.
Lemma window_put16_in l i v off len :
  0 <= off -> off <= i -> i + 2 <= off + len ->
  window (put16 l i v) off len = put16 (window l off len) (i - off) v.
Proof.
  intros. unfold put16. rewrite !window_upd_in by lia. do 2 f_equal; lia.
Qed.
Lemma window_put32_out l i v off len :
  0 <= off -> 0 <= i -> (i + 4 <= off \/ off + len <= i) ->
  window (put32 l i v) off len = window l off len.
Proof. intros. unfold put32. by rewrite !window_put16_out by lia. Qed.
Lemma window_write_at_out l o src off len :
  0 <= off -> 0 <= o -> (o + Zlen src <= off \/ off + len <= o) ->
  window (write_at l o src) off len = window l off len.
Proof.
  revert l o. induction src as [|x src IH]; intros l o ?? H; simpl; [done|].
  rewrite Zlen_cons in H. pose proof (Zlen_nonneg src).
  rewrite IH by lia. apply window_upd_out; lia.
Qed.
Lemma window_write_at_eq l o src :
  0 <= o -> o + Zlen src <= Zlen l -> window (write_at l o src) o (Zlen src) = src.
Proof.
  intros. pose proof (Zlen_nonneg src).
  assert (Zlen (window (write_at l o src) o (Zlen src)) = Zlen src) as Hl
    by (apply Zlen_window; rewrite ?Zlen_write_at; lia).
  apply bytes_ext; [done|]. intros i Hi. rewrite Hl in Hi.
  rewrite byte_at_window, byte_at_write_at by lia.
  replace (_ && _) with true by lia. f_equal. lia.
Qed.
Lemma window_app l off a b :
  0 <= off -> 0 <= a -> 0 <= b ->
  window l off (a + b) = window l off a ++ window l (off + a) b.
Proof.
  intros. unfold window. rewrite !Z2Nat.inj_add by lia.
  by rewrite <- take_take_drop, drop_drop.
Qed.
Lemma window_window l o1 n1 o2 n2 :
  0 <= o1 -> 0 <= o2 -> 0 <= n2 -> o2 + n2 <= n1 ->
  window (window l o1 n1) o2 n2 = window l (o1 + o2) n2.
Proof.
  intros. unfold window. rewrite skipn_firstn_comm, firstn_firstn, drop_drop.
  f_equal; [lia|f_equal; lia].
Qed.
Lemma window_all l : window l 0 (Zlen l) = l.
Proof. unfold window, Zlen. rewrite Nat2Z.id. simpl. apply take_ge. lia. Qed.
Lemma get16_window l off len j :
  0 <= off -> 0 <= j -> j + 2 <= len -> get16 (window l off len) j = get16 l (off + j).
Proof.
  intros. unfold get16. rewrite !byte_at_window by lia. do 2 f_equal. lia.
Qed.

(** ** Reading through writes, by tactic *)

Lemma byte_at_write_at_out m i a j :
  0 <= i -> 0 <= j -> j < i \/ i + Zlen a <= j -> byte_at (write_at m i a) j = byte_at m j.
Proof.
  revert m i. induction a as [|x a IH]; intros m i Hi Hj Hd; simpl; [done|].
  rewrite Zlen_cons in Hd. pose proof (Zlen_nonneg a). rewrite IH by lia. apply byte_at_upd_ne; lia.
Qed.
Lemma get16_write_at_out m i a j :
  0 <= i -> 0 <= j -> j + 2 <= i \/ i + Zlen a <= j -> get16 (write_at m i a) j = get16 m j.
Proof. intros. unfold get16. by rewrite !byte_at_write_at_out by lia. Qed.
Lemma get32_write_at_out m i a j :
  0 <= i -> 0 <= j -> j + 4 <= i \/ i + Zlen a <= j -> get32 (write_at m i a) j = get32 m j.
Proof. intros. unfold get32. by rewrite !get16_write_at_out by lia. Qed.
Lemma get32_put16_ne l i j v :
  0 <= i -> 0 <= j -> i + 2 <= Zlen l -> (j + 4 <= i \/ i + 2 <= j) -> get32 (put16 l i v) j = get32 l j.
Proof. intros. unfold get32. rewrite !get16_put16_ne by lia. done. Qed.
Lemma get32_put32_ne l i j v :
  0 <= i -> 0 <= j -> i + 4 <= Zlen l -> (j + 4 <= i \/ i + 4 <= j) -> get32 (put32 l i v) j = get32 l j.
Proof. intros. unfold get32. rewrite !get16_put32_ne by lia. done. Qed.
Lemma get32_upd_ne l i j v :
  0 <= i -> 0 <= j -> (j + 4 <= i \/ i + 1 <= j) -> get32 (upd l i v) j = get32 l j.
Proof. intros. unfold get32. by rewrite !get16_upd_ne by lia. Qed.
Lemma window_write_at_eq' l o src n :
  0 <= o -> o + Zlen src <= Zlen l -> n = Zlen src -> window (write_at l o src) o n = src.
Proof. intros ?? ->. by apply window_write_at_eq. Qed.

(** Windows and words depend on their bytes only. *)
Lemma window_agree m m' off len :
  Zlen m' = Zlen m -> 0 <= off -> 0 <= len ->
  (forall j, off <= j < off + len -> byte_at m' j = byte_at m j) -> window m' off len = window m off len.
Proof.
  intros HZ Ho Hl Hj.
  assert (Zlen (window m' off len) = Zlen (window m off len)) as HL
    by (unfold Zlen, window in *; rewrite !length_take, !length_drop; lia).
  apply bytes_ext; [done|]. intros j Hj'.
  assert (j < len) by (pose proof (Zlen_window_le m' off len Hl); lia).
  rewrite !byte_at_window by lia. apply Hj. lia.
Qed.
Lemma get16_agree m m' i :
  byte_at m' i = byte_at m i -> byte_at m' (i + 1) = byte_at m (i + 1) -> get16 m' i = get16 m i.
Proof. unfold get16. by intros -> ->. Qed.
Lemma get32_agree m m' i :
  (forall j, i <= j < i + 4 -> byte_at m' j = byte_at m j) -> get32 m' i = get32 m i.
Proof. intros Hj. unfold get32, get16. by rewrite !Hj by lia. Qed.

Ltac rd_side := autorewrite with golen; lia.
(** Simplify one read of a nest of writes. *)
Ltac rd := repeat first
  [ rewrite byte_at_upd_eq by rd_side | rewrite byte_at_upd_ne by rd_side
  | rewrite byte_at_put16_ne by rd_side | rewrite byte_at_put32_ne by rd_side
  | rewrite byte_at_write_at_out by rd_side
  | rewrite get16_put16_eq by rd_side | rewrite get16_put16_ne by rd_side
  | rewrite get16_put32_ne by rd_side
  | rewrite get16_upd_ne by rd_side | rewrite get16_write_at_out by rd_side
  | rewrite get32_put32_eq by rd_side | rewrite get32_put32_ne by rd_side
  | rewrite get32_put16_ne by rd_side
  | rewrite get32_upd_ne by rd_side | rewrite get32_write_at_out by rd_side
  | rewrite window_write_at_eq' by rd_side | rewrite window_upd_out by rd_side
  | rewrite window_put16_out by rd_side | rewrite window_put32_out by rd_side
  | rewrite window_write_at_out by rd_side ].

(** Side conditions on concrete buffers. *)
#[export] Instance bytes_dec l : Decision (bytes l).
Proof. unfold bytes. apply _. Defined.
Ltac concrete :=
  lazymatch goal with
  | |- bytes ?l => refine (bool_decide_unpack (bytes l) _); vm_compute; exact I
  | |- _ = _ => vm_compute; reflexivity
  | |- _ => vm_compute; repeat first [by intros | constructor]
  end.
