(* ===== verification/GoMem.v ===== *)
(** * Go slices over one backing array

    Header types such as [header.IPv4] and [header.TCP] are Go slices; the
    transport header of a packet is a sub-slice of the same array, so a write
    through one is seen through the other.  A slice is modelled as its offset,
    length and capacity into the backing array, and a method as a computation
    in a state monad over that array.  Out-of-range indexing and slicing
    panics, as in Go. *)
From S2P Require Import Prelude Bytes.

(** Result of Go code: a value, or a run-time panic. *)
Inductive res (A : Type) : Type :=
| Ok (a : A)
| Panic.
Arguments Ok {A} a.
Arguments Panic {A}.

(** Sequencing of pure code that may panic. *)
Definition rbind {A B} (r : res A) (k : A -> res B) : res B :=
  match r with Ok a => k a | Panic => Panic end.

Definition M (A : Type) : Type := list Z -> res (A * list Z).

Definition ret {A} (a : A) : M A := fun m => Ok (a, m).
Definition panic {A} : M A := fun _ => Panic.
Definition bind {A B} (c : M A) (k : A -> M B) : M B :=
  fun m => match c m with
           | Ok (a, m') => k a m'
           | Panic => Panic
           end.

(** A pure result inside the memory monad. *)
Definition lift {A} (r : res A) : M A := fun m =>
  match r with Ok a => Ok (a, m) | Panic => Panic end.

Declare Scope go_scope.
Delimit Scope go_scope with go.
Notation "x <- c ;; k" := (bind c (fun x => k))
  (at level 100, c at next level, right associativity) : go_scope.
Notation "c ;;; k" := (bind c (fun _ => k))
  (at level 100, right associativity) : go_scope.
#[global] Open Scope go_scope.

(** A conditional statement with no else branch. *)
Definition when (b : bool) (c : M unit) : M unit := if b then c else ret tt.

(** Slice header: s[0] is byte [sl_off] of the array. *)
Record slice := Slice { sl_off : Z; sl_len : Z; sl_cap : Z }.

(** [s[lo:hi]]: bounds are checked against the capacity. *)
Definition reslice (s : slice) (lo hi : Z) : M slice :=
  if (0 <=? lo) && (lo <=? hi) && (hi <=? sl_cap s)
  then ret (Slice (sl_off s + lo) (hi - lo) (sl_cap s - lo))
  else panic.

(** [s[lo:hi:max]] *)
Definition reslice3 (s : slice) (lo hi max : Z) : M slice :=
  if (0 <=? lo) && (lo <=? hi) && (hi <=? max) && (max <=? sl_cap s)
  then ret (Slice (sl_off s + lo) (hi - lo) (max - lo))
  else panic.

(** [s[lo:]] *)
Definition tail (s : slice) (lo : Z) : M slice := reslice s lo (sl_len s).

(** [s[i]] and [s[i] = v] *)
Definition idx (s : slice) (i : Z) : M Z := fun m =>
  if (0 <=? i) && (i <? sl_len s) then Ok (byte_at m (sl_off s + i), m) else Panic.
Definition set_idx (s : slice) (i v : Z) : M unit := fun m =>
  if (0 <=? i) && (i <? sl_len s) then Ok (tt, upd m (sl_off s + i) v) else Panic.

(** The bytes of [s], as a value. *)
Definition contents (s : slice) : M (list Z) := fun m =>
  Ok (window m (sl_off s) (sl_len s), m).

(** [binary.BigEndian.Uint16(s)], [Uint32], [PutUint16], [PutUint32]: they
    panic on a slice that is too short. *)
Definition Uint16 (s : slice) : M Z := fun m =>
  if 2 <=? sl_len s then Ok (get16 m (sl_off s), m) else Panic.
Definition Uint32 (s : slice) : M Z := fun m =>
  if 4 <=? sl_len s then Ok (get32 m (sl_off s), m) else Panic.
Definition PutUint16 (s : slice) (v : Z) : M unit := fun m =>
  if 2 <=? sl_len s then Ok (tt, put16 m (sl_off s) v) else Panic.
Definition PutUint32 (s : slice) (v : Z) : M unit := fun m =>
  if 4 <=? sl_len s then Ok (tt, put32 m (sl_off s) v) else Panic.

(** [copy(dst, src)]: the shorter of the two lengths is copied. *)
Definition copy_to (dst : slice) (src : list Z) : M Z := fun m =>
  let n := Z.min (sl_len dst) (Zlen src) in
  Ok (n, write_at m (sl_off dst) (take (Z.to_nat n) src)).

(** ** Execution lemmas *)

(** [runs c m a m']: from array [m], [c] returns [a] and leaves [m']. *)
Definition runs {A} (c : M A) (m : list Z) (a : A) (m' : list Z) : Prop := c m = Ok (a, m').
Definition panics {A} (c : M A) (m : list Z) : Prop := c m = Panic.

Lemma runs_ret {A} (a : A) m : runs (ret a) m a m.
Proof. done. Qed.
Lemma runs_bind {A B} (c : M A) (k : A -> M B) m a m' b m'' :
  runs c m a m' -> runs (k a) m' b m'' -> runs (bind c k) m b m''.
Proof. unfold runs, bind. by intros ->. Qed.
Lemma runs_bind_inv {A B} (c : M A) (k : A -> M B) m b m'' :
  runs (bind c k) m b m'' -> exists a m', runs c m a m' /\ runs (k a) m' b m''.
Proof. unfold runs, bind. destruct (c m) as [[a m']|]; [eauto|done]. Qed.
Lemma runs_det {A} (c : M A) m a b m1 m2 : runs c m a m1 -> runs c m b m2 -> a = b /\ m1 = m2.
Proof. unfold runs. intros -> [= -> ->]. done. Qed.
Lemma runs_eq {A} (c : M A) m a m' a' m'' :
  runs c m a m' -> a = a' -> m' = m'' -> runs c m a' m''.
Proof. by intros ? <- <-. Qed.
Lemma panics_bind {A B} (c : M A) (k : A -> M B) m : panics c m -> panics (bind c k) m.
Proof. unfold panics, bind. by intros ->. Qed.
Lemma panics_bind_r {A B} (c : M A) (k : A -> M B) m a m' :
  runs c m a m' -> panics (k a) m' -> panics (bind c k) m.
Proof. unfold panics, runs, bind. by intros ->. Qed.
Lemma runs_if {A} (b : bool) (c d : M A) m a m' :
  runs (if b then c else d) m a m' <-> (if b then runs c m a m' else runs d m a m').
Proof. by destruct b. Qed.

Lemma runs_reslice o l c lo hi m :
  0 <= lo -> lo <= hi -> hi <= c ->
  runs (reslice (Slice o l c) lo hi) m (Slice (o + lo) (hi - lo) (c - lo)) m.
Proof. intros. unfold reslice, runs; simpl. by replace (_ && _) with true by lia. Qed.
Lemma panics_reslice o l c lo hi m :
  ~ (0 <= lo /\ lo <= hi /\ hi <= c) -> panics (reslice (Slice o l c) lo hi) m.
Proof. intros. unfold reslice, panics; simpl. by replace (_ && _) with false by lia. Qed.
Lemma runs_tail o l c lo m :
  0 <= lo -> lo <= l -> l <= c -> runs (tail (Slice o l c) lo) m (Slice (o + lo) (l - lo) (c - lo)) m.
Proof. apply runs_reslice. Qed.
Lemma runs_idx o l c i m : 0 <= i -> i < l -> runs (idx (Slice o l c) i) m (byte_at m (o + i)) m.
Proof. intros. unfold idx, runs; simpl. by replace (_ && _) with true by lia. Qed.
Lemma panics_idx o l c i m : ~ (0 <= i < l) -> panics (idx (Slice o l c) i) m.
Proof. intros. unfold idx, panics; simpl. by replace (_ && _) with false by lia. Qed.
Lemma runs_set_idx o l c i v m :
  0 <= i -> i < l -> runs (set_idx (Slice o l c) i v) m tt (upd m (o + i) v).
Proof. intros. unfold set_idx, runs; simpl. by replace (_ && _) with true by lia. Qed.
Lemma runs_contents o l c m : runs (contents (Slice o l c)) m (window m o l) m.
Proof. done. Qed.
Lemma runs_Uint16 o l c m : 2 <= l -> runs (Uint16 (Slice o l c)) m (get16 m o) m.
Proof. intros. unfold Uint16, runs; simpl. by replace (_ <=? _) with true by lia. Qed.
Lemma panics_Uint16 o l c m : l < 2 -> panics (Uint16 (Slice o l c)) m.
Proof. intros. unfold Uint16, panics; simpl. by replace (_ <=? _) with false by lia. Qed.
Lemma runs_Uint32 o l c m : 4 <= l -> runs (Uint32 (Slice o l c)) m (get32 m o) m.
Proof. intros. unfold Uint32, runs; simpl. by replace (_ <=? _) with true by lia. Qed.
Lemma runs_PutUint16 o l c v m : 2 <= l -> runs (PutUint16 (Slice o l c) v) m tt (put16 m o v).
Proof. intros. unfold PutUint16, runs; simpl. by replace (_ <=? _) with true by lia. Qed.
Lemma panics_PutUint16 o l c v m : l < 2 -> panics (PutUint16 (Slice o l c) v) m.
Proof. intros. unfold PutUint16, panics; simpl. by replace (_ <=? _) with false by lia. Qed.
Lemma runs_PutUint32 o l c v m : 4 <= l -> runs (PutUint32 (Slice o l c) v) m tt (put32 m o v).
Proof. intros. unfold PutUint32, runs; simpl. by replace (_ <=? _) with true by lia. Qed.
Lemma runs_copy_to o l c src m :
  Zlen src <= l -> runs (copy_to (Slice o l c) src) m (Zlen src) (write_at m o src).
Proof.
  intros. unfold copy_to, runs; simpl. rewrite Z.min_r by lia.
  unfold Zlen. by rewrite Nat2Z.id, firstn_all.
Qed.

#[export] Hint Resolve runs_ret runs_reslice runs_tail runs_idx runs_set_idx runs_contents
  runs_Uint16 runs_Uint32 runs_PutUint16 runs_PutUint32 runs_copy_to : gorun.
#[export] Hint Extern 5 (_ <= _) => lia : gorun.
#[export] Hint Extern 5 (_ < _) => lia : gorun.

(** A slice that lies inside the array. *)
Definition in_array (m : list Z) (s : slice) : Prop :=
  0 <= sl_off s /\ 0 <= sl_len s <= sl_cap s /\ sl_off s + sl_cap s <= Zlen m.

(** github.com/metacubex/sing/common: [ClearArray] zeroes every element of its
    argument. *)
Class SingCommon := {
  ClearArray : slice -> M unit;
  ClearArray_zeroes : forall o l c m, in_array m (Slice o l c) ->
    runs (ClearArray (Slice o l c)) m tt (write_at m o (repeat 0 (Z.to_nat l)))
}.
#[export] Hint Resolve ClearArray_zeroes : gorun.

(** An instance: a loop over the elements. *)
Fixpoint clear_loop (n : nat) (s : slice) (i : Z) : M unit :=
  match n with
  | O => ret tt
  | S n' => set_idx s i 0 ;;; clear_loop n' s (i + 1)
  end.
Lemma runs_clear_loop n o l c i m :
  0 <= i -> i + Z.of_nat n <= l ->
  runs (clear_loop n (Slice o l c) i) m tt (write_at m (o + i) (repeat 0 n)).
Proof.
  revert i m. induction n as [|n IH]; intros i m Hi Hl; simpl; [done|].
  eapply runs_bind; [apply runs_set_idx; lia|].
  eapply runs_eq; [apply IH; lia|done|]. by rewrite Z.add_assoc.
Qed.
Definition sing_common_loop : SingCommon.
Proof.
  refine {| ClearArray := fun s => clear_loop (Z.to_nat (sl_len s)) s 0 |}.
  intros o l c m (Ho & Hl & Hc). simpl in *. rewrite <- (Z.add_0_r o) at 2.
  apply runs_clear_loop; lia.
Defined.

(** One step of symbolic execution, and execution to the end. *)
Ltac go_step :=
  lazymatch goal with
  | |- runs (bind _ _) _ _ _ => eapply runs_bind; [solve [eauto 2 with gorun]|]
  | |- runs _ _ _ _ => solve [eauto 2 with gorun]
  end; cbn beta iota.
Ltac go_run := repeat go_step.
