(* ===== verification/Checksum.v ===== *)
(** * The Internet checksum: reference definition and interface

    [rfc1071] is the reference: 16-bit one's-complement addition, with the
    end-around carry, of the big-endian words of the buffer (RFC 1071).  The
    class [ChecksumImpl] is what checksum.Checksum promises to the rest of the
    program; the implementations of internal/tschecksum and
    internal/gtcpip/checksum discharge it in TsChecksum.v and GvChecksum.v.
    [Combine] and [Put] are internal/gtcpip/checksum/checksum.go. *)
From S2P Require Import Prelude Bytes GoMem.

(** ** Reference definition *)

(** One's-complement addition of 16-bit words. *)
Definition oc_add (a b : Z) : Z := let s := a + b in if s <? 65536 then s else s - 65535.

(** Big-endian 16-bit words; an odd last byte is padded with a zero byte. *)
Fixpoint be_words (b : list Z) : list Z :=
  match b with
  | x :: y :: t => (x * 256 + y) :: be_words t
  | [x] => [x * 256]
  | [] => []
  end.

Definition rfc1071 (b : list Z) (initial : Z) : Z := fold_left oc_add (be_words b) initial.

(** ** checksum.go *)

Definition Size : Z := 2.

Definition Put (b : slice) (xsum : Z) : M unit := PutUint16 b xsum.

Definition Combine (a b : Z) : Z :=
  let v := u32 (a + b) in
  u16 (u32 (v + Z.shiftr v 16)).

(** ** The interface of checksum.Checksum *)

Class ChecksumImpl := {
  Checksum : list Z -> Z -> Z;
  Checksum_rfc1071 : forall b initial,
    bytes b -> is_u16 initial -> Checksum b initial = rfc1071 b initial
}.

(** ** The integer sum of the words, and its canonical representative *)

Fixpoint wsum (b : list Z) : Z :=
  match b with
  | x :: y :: t => x * 256 + y + wsum t
  | [x] => x * 256
  | [] => 0
  end.

(** [OC x s]: the 16-bit word [x] represents the non-negative integer [s] in
    one's-complement arithmetic; zero is represented by zero only. *)
Definition OC (x s : Z) : Prop :=
  (x = 0 /\ s = 0) \/ (0 < x <= 65535 /\ 0 < s /\ exists k, s = x + 65535 * k).

(** The representative, as a function. *)
Definition ocn (s : Z) : Z := if s =? 0 then 0 else (s - 1) mod 65535 + 1.

Lemma list_pair_ind {A} (P : list A -> Prop) :
  P [] -> (forall x, P [x]) -> (forall x y t, P t -> P (x :: y :: t)) -> forall l, P l.
Proof.
  intros H0 H1 H2. fix IH 1. intros [|x [|y t]]; [done|apply H1|apply H2, IH].
Qed.

Ltac oc := unfold OC in *; intuition subst;
  repeat match goal with H : exists _, _ |- _ => destruct H end; subst.

(** Close [exists k, a = b + 65535 * k] by the multipliers in the context. *)
Ltac oc_ex := match goal with |- exists k, ?a = ?b + 65535 * k =>
  exists ((a - b) / 65535); zdm end.
Ltac oc_done := first [left; lia | right; split_and!; [lia|lia|lia|oc_ex]].

Lemma OC_unique x y s : OC x s -> OC y s -> x = y.
Proof. oc; lia. Qed.
Lemma OC_range x s : OC x s -> is_u16 x.
Proof. oc; lia. Qed.
Lemma OC_nonneg x s : OC x s -> 0 <= s.
Proof. oc; lia. Qed.
Lemma OC_self x : is_u16 x -> OC x x.
Proof. intros. unfold OC. destruct (Z.eq_dec x 0); [by left|right]. split_and!; try lia. exists 0. lia. Qed.
Lemma OC_ocn s : 0 <= s -> OC (ocn s) s.
Proof.
  intros. unfold OC, ocn. destruct (Z.eqb_spec s 0); [by left|right].
  pose proof (Z.mod_pos_bound (s - 1) 65535). split_and!; try lia.
  exists ((s - 1) / 65535). zdm.
Qed.
Lemma OC_iff x s : 0 <= s -> OC x s <-> x = ocn s.
Proof.
  intros Hs. split; [|by intros ->; apply OC_ocn].
  intros. eapply OC_unique; eauto using OC_ocn.
Qed.
Lemma OC_cong x s t : OC x s -> 0 < s -> 0 < t -> (exists k, t = s + 65535 * k) -> OC x t.
Proof. oc; oc_done. Qed.
Lemma OC_add x y s t : OC x s -> OC y t -> OC (oc_add x y) (s + t).
Proof.
  intros Hx Hy. unfold oc_add. destruct (Z.ltb_spec (x + y) 65536); oc; oc_done.
Qed.
(** The verification rule of RFC 1071: the sum is all ones exactly when it is
    a positive multiple of 65535. *)
Lemma OC_ones x s : OC x s -> x = 65535 <-> 0 < s /\ s mod 65535 = 0.
Proof.
  intros H. split; oc; try lia.
  - zdm.
  - zdm.
Qed.

Lemma Combine_oc_add a b : is_u16 a -> is_u16 b -> Combine a b = oc_add a b.
Proof.
  intros. unfold Combine, oc_add, u16, u32. rewrite Z.shiftr_div_pow2 by lia.
  change (2 ^ 16) with 65536. destruct (Z.ltb_spec (a + b) 65536); zdm.
Qed.
Lemma OC_Combine x y s t : OC x s -> OC y t -> OC (Combine x y) (s + t).
Proof.
  intros Hx Hy. rewrite Combine_oc_add by eauto using OC_range. by apply OC_add.
Qed.

Lemma wsum_nonneg b : bytes b -> 0 <= wsum b.
Proof.
  induction b as [|x|x y t IH] using list_pair_ind; intros Hb; simpl; [lia| |].
  - apply Forall_cons in Hb as [??]. lia.
  - apply Forall_cons in Hb as [? Hb]. apply Forall_cons in Hb as [??]. specialize (IH H1). lia.
Qed.

Lemma rfc1071_OC b initial : bytes b -> is_u16 initial -> OC (rfc1071 b initial) (initial + wsum b).
Proof.
  intros Hb Hi. unfold rfc1071.
  assert (forall x s, OC x s -> OC (fold_left oc_add (be_words b) x) (s + wsum b)) as H.
  { clear Hi. induction b as [|x|x y t IH] using list_pair_ind; intros z s Hz; simpl.
    - by rewrite Z.add_0_r.
    - apply Forall_cons in Hb as [??]. apply OC_add; [done|]. apply OC_self. lia.
    - apply Forall_cons in Hb as [? Hb]. apply Forall_cons in Hb as [??].
      rewrite Z.add_assoc. apply IH; [done|]. apply OC_add; [done|]. apply OC_self. lia. }
  apply H, OC_self, Hi.
Qed.

Lemma Checksum_OC `{ChecksumImpl} b x s :
  bytes b -> OC x s -> OC (Checksum b x) (s + wsum b).
Proof.
  intros Hb Hx. pose proof (OC_range _ _ Hx) as Hr. pose proof (wsum_nonneg b Hb) as Hw.
  rewrite Checksum_rfc1071 by done.
  pose proof (rfc1071_OC b x Hb Hr) as H1.
  destruct (Z.eq_dec (x + wsum b) 0) as [He|Hne].
  - assert (s = 0) by (oc; lia). replace (s + wsum b) with (x + wsum b) by (oc; lia). done.
  - eapply OC_cong; [done|lia| |]; [oc; lia|]. clear H1. oc; oc_ex.
Qed.
Lemma Checksum_range `{ChecksumImpl} b x : bytes b -> is_u16 x -> is_u16 (Checksum b x).
Proof. intros. eapply OC_range, Checksum_OC; eauto using OC_self. Qed.
#[export] Hint Resolve Checksum_range : gobytes.

(** ** The sum of a buffer under concatenation and update *)

Lemma wsum_app a b : Z.Even (Zlen a) -> wsum (a ++ b) = wsum a + wsum b.
Proof.
  induction a as [|x|x y t IH] using list_pair_ind; intros [n Hn]; simpl.
  - lia.
  - unfold Zlen in Hn; simpl in Hn. lia.
  - rewrite !Zlen_cons in Hn. rewrite IH; [lia|]. exists (n - 1). lia.
Qed.

(** Weight of byte [i] of a buffer in its sum. *)
Definition wt (i : Z) : Z := if Z.even i then 256 else 1.

Lemma wsum_upd l i v : 0 <= i < Zlen l -> wsum (upd l i v) = wsum l + wt i * (v - byte_at l i).
Proof.
  revert i. induction l as [|x|x y t IH] using list_pair_ind; intros i Hi.
  - unfold Zlen in Hi; simpl in Hi. lia.
  - unfold Zlen in Hi; simpl in Hi. replace i with 0 by lia.
    unfold upd, byte_at, wt. simpl. lia.
  - rewrite 2 Zlen_cons in Hi.
    destruct (decide (i = 0)) as [->|]; [unfold upd, byte_at, wt; simpl; lia|].
    destruct (decide (i = 1)) as [->|]; [unfold upd, byte_at, wt; simpl; lia|].
    specialize (IH (i - 2) ltac:(lia)).
    unfold upd, byte_at, wt in *. replace (Z.to_nat i) with (S (S (Z.to_nat (i - 2)))) by lia.
    simpl. rewrite Z.even_sub in IH. simpl in IH. destruct (Z.even i); simpl in IH; lia.
Qed.

Lemma wsum_put16 l i v :
  Z.Even i -> 0 <= i -> i + 2 <= Zlen l -> is_u16 v -> wsum (put16 l i v) = wsum l - get16 l i + v.
Proof.
  intros [k ->] ???. unfold put16, get16.
  rewrite !wsum_upd by (rewrite ?Zlen_upd; lia). rewrite byte_at_upd_ne by lia.
  unfold wt. rewrite Z.add_1_r, Z.even_succ, <- Z.negb_even, Z.even_mul. simpl.
  unfold u8. zdm.
Qed.
Lemma wsum_get16 l : Zlen l = 2 -> wsum l = get16 l 0.
Proof.
  unfold Zlen. destruct l as [|x [|y [|]]]; simpl; try lia. intros _.
  unfold get16, byte_at. simpl. lia.
Qed.

(** ** Accumulators wider than 16 bits

    [Rep v s]: [v] is congruent to the integer sum [s] modulo 65535, and is
    zero exactly when [s] is.  The accumulators of every implementation
    satisfy it; folding to 16 bits turns [Rep] into [OC]. *)
Definition Rep (v s : Z) : Prop :=
  0 <= v /\ 0 <= s /\ (v = 0 <-> s = 0) /\ exists k, v = s + 65535 * k.

Ltac rep_split := unfold Rep; split_and!; try lia.

Lemma Rep_refl s : 0 <= s -> Rep s s.
Proof. intros. rep_split. exists 0. lia. Qed.
Lemma Rep_add v w s t : Rep v s -> Rep w t -> Rep (v + w) (s + t).
Proof. intros (?&?&?&k1&?) (?&?&?&k2&?). rep_split. exists (k1 + k2). lia. Qed.
Lemma Rep_trans u v s : Rep u v -> Rep v s -> Rep u s.
Proof. intros (?&?&?&k1&?) (?&?&?&k2&?). rep_split. exists (k1 + k2). lia. Qed.
Lemma Rep_OC x s : Rep x s -> x <= 65535 -> OC x s.
Proof.
  intros (?&?&?&k&?) ?. unfold OC. destruct (Z.eq_dec x 0); [left; lia|right].
  split_and!; try lia. exists (- k). lia.
Qed.
Lemma OC_Rep x s : OC x s -> Rep x s.
Proof.
  intros [[-> ->]|(?&?&k&->)]; [by apply Rep_refl|]. rep_split. exists (- k). lia.
Qed.
(** Scaling by 256, the effect of a byte swap. *)
Lemma Rep_scale v s : Rep v s -> Rep (256 * v) (256 * s).
Proof. intros (?&?&?&k&?). rep_split. exists (256 * k). lia. Qed.
Lemma Rep_unscale v s : Rep v (256 * (256 * s)) -> Rep v s.
Proof. intros (?&?&?&k&?). rep_split. exists (s + k). lia. Qed.

(** The end-around carry: splitting off a carry at 2^32 or 2^64. *)
Lemma Rep_carry64 lo c s : 0 <= lo -> 0 <= c -> Rep (lo + 18446744073709551616 * c) s -> Rep (lo + c) s.
Proof.
  intros ?? (?&?&?&k&?). rep_split. exists (k - 281479271743489 * c). lia.
Qed.
Lemma Rep_carry32 lo c s : 0 <= lo -> 0 <= c -> Rep (lo + 4294967296 * c) s -> Rep (lo + c) s.
Proof. intros ?? (?&?&?&k&?). rep_split. exists (k - 65537 * c). lia. Qed.
Lemma Rep_carry16 lo c s : 0 <= lo -> 0 <= c -> Rep (lo + 65536 * c) s -> Rep (lo + c) s.
Proof. intros ?? (?&?&?&k&?). rep_split. exists (k - c). lia. Qed.

(** ** The sum of a window under writes at even distance *)

Lemma window_split3 m o n i k :
  0 <= o -> o <= i -> 0 <= k -> i + k <= o + n ->
  window m o n = window m o (i - o) ++ window m i k ++ window m (i + k) (o + n - (i + k)).
Proof.
  intros. replace n with ((i - o) + (k + (o + n - (i + k)))) at 1 by lia.
  rewrite !window_app by lia. do 3 f_equal; lia.
Qed.
Lemma wsum_window_split3 m o n i k :
  0 <= o -> o <= i -> 0 <= k -> i + k <= o + n -> i + k <= Zlen m -> Z.Even (i - o) -> Z.Even k ->
  wsum (window m o n)
    = wsum (window m o (i - o)) + wsum (window m i k) + wsum (window m (i + k) (o + n - (i + k))).
Proof.
  intros. rewrite (window_split3 m o n i k) by lia.
  rewrite !wsum_app; [lia| |]; rewrite Zlen_window by lia; done.
Qed.
Lemma wsum_window_write_at m o n i a :
  0 <= o -> o <= i -> i + Zlen a <= o + n -> i + Zlen a <= Zlen m -> Z.Even (i - o) -> Z.Even (Zlen a) ->
  wsum (window (write_at m i a) o n) = wsum (window m o n) - wsum (window m i (Zlen a)) + wsum a.
Proof.
  intros. pose proof (Zlen_nonneg a).
  rewrite (wsum_window_split3 _ o n i (Zlen a)), (wsum_window_split3 m o n i (Zlen a))
    by (rewrite ?Zlen_write_at; try done; lia).
  rewrite window_write_at_eq, !window_write_at_out by lia. lia.
Qed.
Lemma put16_write_at m i v : put16 m i v = write_at m i [u8 (v / 256); u8 v].
Proof. done. Qed.
Lemma wsum_window_put16 m o n i v :
  0 <= o -> o <= i -> i + 2 <= o + n -> i + 2 <= Zlen m -> Z.Even (i - o) -> is_u16 v ->
  wsum (window (put16 m i v) o n) = wsum (window m o n) - get16 m i + v.
Proof.
  intros. rewrite put16_write_at, wsum_window_write_at; try done; try (unfold Zlen; simpl; lia); [|by exists 1].
  change (Zlen [u8 (v / 256); u8 v]) with 2.
  rewrite (wsum_get16 (window m i 2)) by (apply Zlen_window; lia). rewrite get16_window by lia.
  rewrite Z.add_0_r. simpl. unfold u8. zdm.
Qed.
Lemma wsum_pos l : bytes l -> 0 < byte_at l 0 -> 0 < wsum l.
Proof.
  intros Hb H0. destruct l as [|x [|y t]]; unfold byte_at in H0; simpl in H0.
  - lia.
  - simpl. lia.
  - apply Forall_cons in Hb as [? Hb]. apply Forall_cons in Hb as [? Hb].
    pose proof (wsum_nonneg t Hb). simpl. lia.
Qed.
Lemma wsum_window_app m o a b :
  0 <= o -> 0 <= a -> 0 <= b -> o + a <= Zlen m -> Z.Even a ->
  wsum (window m o (a + b)) = wsum (window m o a) + wsum (window m (o + a) b).
Proof. intros. rewrite window_app by lia. apply wsum_app. by rewrite Zlen_window by lia. Qed.
