(* ===== verification/TsChecksum.v ===== *)
(** * internal/tschecksum: the portable checksum routines

    [checksumGeneric64], [checksumGeneric32] and their "Alternate" variants,
    the folding functions and the pseudo-header routines of
    internal/tschecksum/checksum.go, on a little- or big-endian machine
    ([IsBigEndian] is golang.org/x/sys/cpu's constant).  Each is shown to
    compute the reference [rfc1071].  The unrolled additions of the source
    are the iterations of [add_words64]/[add_words32]/[sum_words]. *)
From S2P Require Import Prelude Bytes GoMem Checksum.

(** ** math/bits and encoding/binary *)

Definition Add64 (x y carry : Z) : Z * Z :=
  let s := x + y + carry in (s mod 18446744073709551616, s / 18446744073709551616).
Definition Add32 (x y carry : Z) : Z * Z :=
  let s := x + y + carry in (s mod 4294967296, s / 4294967296).
Definition ReverseBytes16 (x : Z) : Z := x mod 256 * 256 + x / 256.

Fixpoint le_val (l : list Z) : Z :=
  match l with
  | [] => 0
  | x :: t => x + 256 * le_val t
  end.
Definition be_val (l : list Z) : Z := fold_left (fun a x => a * 256 + x) l 0.

Module tschecksum.

Section Machine.
Context (IsBigEndian : bool).

(** [binary.{Big,Little}Endian.Uint{16,32,64}(b)] for [n] = 2, 4, 8. *)
Definition load (n : nat) (b : list Z) : Z :=
  if IsBigEndian then be_val (take n b) else le_val (take n b).

(** The last odd byte: [b[0]<<8] or [b[0]]. *)
Definition load_last (b : list Z) : Z :=
  if IsBigEndian then Z.shiftl (byte_at b 0) 8 else byte_at b 0.

(** ** Folding *)

Definition ipChecksumFold64 (unfolded initialCarry : Z) : Z :=
  let '(sum, carry) := Add32 (u32 (Z.shiftr unfolded 32)) (u32 (Z.land unfolded 4294967295))
                             (u32 initialCarry) in
  let sum := u32 (u32 (Z.shiftr sum 16 + Z.land sum 65535) + carry) in
  let sum := u32 (Z.shiftr sum 16 + Z.land sum 65535) in
  u16 sum.

Definition ipChecksumFold32 (unfolded initialCarry : Z) : Z :=
  let sum := u32 (u32 (Z.shiftr unfolded 16 + Z.land unfolded 65535) + initialCarry) in
  let sum := u32 (Z.shiftr sum 16 + Z.land sum 65535) in
  let sum := u32 (Z.shiftr sum 16 + Z.land sum 65535) in
  u16 sum.

(** ** The main routines *)

(** State of a routine: the rest of [b] and the accumulator with its carry. *)
Abbreviation st := (list Z * (Z * Z))%type.

(** [cnt] additions with carry of consecutive [n]-byte words. *)
Fixpoint add_words (add : Z -> Z -> Z -> Z * Z) (n cnt : nat) (b : list Z) (a : Z * Z) : Z * Z :=
  match cnt with
  | O => a
  | S cnt' => add_words add n cnt' (drop n b) (add a.1 (load n b) a.2)
  end.

(** [if len(b) >= n { cnt words of w bytes; b = b[n:] }] *)
Definition block (add : Z -> Z -> Z -> Z * Z) (n w cnt : nat) (s : st) : st :=
  if (n <=? length s.1)%nat
  then (drop n s.1, add_words add w cnt s.1 s.2)
  else s.

(** [for len(b) >= n { ... }]: the buffer shrinks by [n] > 0 on every turn, so
    its length bounds the number of turns. *)
Fixpoint block_loop (fuel : nat) (add : Z -> Z -> Z -> Z * Z) (n w cnt : nat) (s : st) : st :=
  match fuel with
  | O => s
  | S fuel' =>
      if (n <=? length s.1)%nat
      then block_loop fuel' add n w cnt (drop n s.1, add_words add w cnt s.1 s.2)
      else s
  end.

(** [if len(b) >= 1 { ... }], the last byte. *)
Definition block_last (add : Z -> Z -> Z -> Z * Z) (s : st) : st :=
  if (1 <=? length s.1)%nat then (s.1, add s.2.1 (load_last s.1) s.2.2) else s.

Definition unswap (folded : Z) : Z := if IsBigEndian then folded else ReverseBytes16 folded.
Definition enter (initial : Z) : Z := if IsBigEndian then initial else ReverseBytes16 initial.

Definition checksumGeneric64 (b : list Z) (initial : Z) : Z :=
  let s := (b, (enter initial, 0)) in
  let s := block_loop (length b) Add64 128 8 16 s in
  let s := block Add64 64 8 8 s in
  let s := block Add64 32 8 4 s in
  let s := block Add64 16 8 2 s in
  let s := block Add64 8 8 1 s in
  let s := block Add64 4 4 1 s in
  let s := block Add64 2 2 1 s in
  let '(_, (ac, carry)) := block_last Add64 s in
  unswap (ipChecksumFold64 ac carry).

Definition checksumGeneric32 (b : list Z) (initial : Z) : Z :=
  let s := (b, (enter initial, 0)) in
  let s := block_loop (length b) Add32 64 4 16 s in
  let s := block Add32 32 4 8 s in
  let s := block Add32 16 4 4 s in
  let s := block Add32 8 4 2 s in
  let s := block Add32 4 4 1 s in
  let s := block Add32 2 2 1 s in
  let '(_, (ac, carry)) := block_last Add32 s in
  unswap (ipChecksumFold32 ac carry).

(** [ac += w], without a carry: the carry component stays zero. *)
Definition wadd32 (x y _carry : Z) : Z * Z := (u32 (x + y), 0).
Definition wadd64 (x y _carry : Z) : Z * Z := (u64 (x + y), 0).

Definition checksumGeneric32Alternate (b : list Z) (initial : Z) : Z :=
  let s := (b, (enter initial, 0)) in
  let s := block_loop (length b) wadd32 64 2 32 s in
  let s := block wadd32 32 2 16 s in
  let s := block wadd32 16 2 8 s in
  let s := block wadd32 8 2 4 s in
  let s := block wadd32 4 2 2 s in
  let s := block wadd32 2 2 1 s in
  let '(_, (ac, _)) := block_last wadd32 s in
  unswap (ipChecksumFold32 ac 0).

Definition checksumGeneric64Alternate (b : list Z) (initial : Z) : Z :=
  let s := (b, (enter initial, 0)) in
  let s := block_loop (length b) wadd64 64 4 16 s in
  let s := block wadd64 32 4 8 s in
  let s := block wadd64 16 4 4 s in
  let s := block wadd64 8 4 2 s in
  let s := block wadd64 4 4 1 s in
  let s := block wadd64 2 2 1 s in
  let '(_, (ac, _)) := block_last wadd64 s in
  unswap (ipChecksumFold64 ac 0).

(** ** Pseudo-header checksums *)

Definition addrPartialChecksum64 (addr : list Z) (initial carryIn : Z) : res (Z * Z) :=
  match length addr with
  | 4%nat => Ok (Add64 initial (load 4 addr) carryIn)
  | 16%nat =>
      let '(sum, carry) := Add64 initial (load 8 addr) carryIn in
      Ok (Add64 sum (load 8 (drop 8 addr)) carry)
  | _ => Panic
  end.

Definition addrPartialChecksum32 (addr : list Z) (initial carryIn : Z) : res (Z * Z) :=
  match length addr with
  | 4%nat => Ok (Add32 initial (load 4 addr) carryIn)
  | 16%nat =>
      let '(sum, carry) := Add32 initial (load 4 addr) carryIn in
      let '(sum, carry) := Add32 sum (load 4 (drop 4 addr)) carry in
      let '(sum, carry) := Add32 sum (load 4 (drop 8 addr)) carry in
      Ok (Add32 sum (load 4 (drop 12 addr)) carry)
  | _ => Panic
  end.

Definition pseudoHeaderChecksum64 (protocol : Z) (srcAddr dstAddr : list Z) (totalLen : Z) : res Z :=
  let sum := if IsBigEndian then totalLen + protocol
             else ReverseBytes16 totalLen + Z.shiftl protocol 8 in
  match addrPartialChecksum64 srcAddr sum 0 with
  | Panic => Panic
  | Ok (sum, carry) =>
      match addrPartialChecksum64 dstAddr sum carry with
      | Panic => Panic
      | Ok (sum, carry) => Ok (unswap (ipChecksumFold64 sum carry))
      end
  end.

Definition pseudoHeaderChecksum32 (protocol : Z) (srcAddr dstAddr : list Z) (totalLen : Z) : res Z :=
  let sum := if IsBigEndian then totalLen + protocol
             else ReverseBytes16 totalLen + Z.shiftl protocol 8 in
  match addrPartialChecksum32 srcAddr sum 0 with
  | Panic => Panic
  | Ok (sum, carry) =>
      match addrPartialChecksum32 dstAddr sum carry with
      | Panic => Panic
      | Ok (sum, carry) => Ok (unswap (ipChecksumFold32 sum carry))
      end
  end.

(** Dispatch on strconv.IntSize. *)
Definition PseudoHeaderChecksum (IntSize : Z) (protocol : Z) (srcAddr dstAddr : list Z)
    (totalLen : Z) : res Z :=
  if IntSize <? 64 then pseudoHeaderChecksum32 protocol srcAddr dstAddr totalLen
  else pseudoHeaderChecksum64 protocol srcAddr dstAddr totalLen.

(** checksum_generic.go *)
Definition Checksum (IntSize : Z) (data : list Z) (initial : Z) : Z :=
  if IntSize <? 64 then checksumGeneric32 data initial else checksumGeneric64 data initial.

End Machine.

(** ** Loads are congruent to the sum of their 16-bit words *)

(** Sum of the 16-bit words in the byte order of the machine. *)
Fixpoint lsum (b : list Z) : Z :=
  match b with
  | x :: y :: t => x + 256 * y + lsum t
  | [x] => x
  | [] => 0
  end.
Definition nsum (be : bool) (b : list Z) : Z := if be then wsum b else lsum b.

Lemma lsum_Rep b : bytes b -> Rep (256 * lsum b) (wsum b) /\ Rep (lsum b) (256 * wsum b).
Proof.
  induction b as [|x|x y t IH] using list_pair_ind; intros Hb; simpl.
  - split; apply Rep_refl; lia.
  - apply Forall_cons in Hb as [??]. split; rep_split; oc_ex.
  - apply Forall_cons in Hb as [? Hb]. apply Forall_cons in Hb as [??].
    destruct (IH H1) as [(?&?&?&k1&?) (?&?&?&k2&?)].
    split; rep_split; [exists (k1 + y)|exists (k2 - x)]; lia.
Qed.

Lemma nsum_app be a b : Z.Even (Zlen a) -> nsum be (a ++ b) = nsum be a + nsum be b.
Proof.
  destruct be; [apply wsum_app|]. simpl.
  induction a as [|x|x y t IH] using list_pair_ind; intros [n Hn]; simpl.
  - lia.
  - unfold Zlen in Hn; simpl in Hn. lia.
  - rewrite !Zlen_cons in Hn. rewrite IH; [lia|]. exists (n - 1). lia.
Qed.
Lemma nsum_nonneg be b : bytes b -> 0 <= nsum be b.
Proof. destruct be; [apply wsum_nonneg|]. intros. simpl. by destruct (lsum_Rep b) as [_ [? _]]. Qed.

Lemma le_val_Rep b : bytes b -> Z.Even (Zlen b) -> Rep (le_val b) (lsum b).
Proof.
  induction b as [|x|x y t IH] using list_pair_ind; intros Hb [n Hn]; simpl.
  - by apply Rep_refl.
  - unfold Zlen in Hn; simpl in Hn. lia.
  - rewrite !Zlen_cons in Hn. apply Forall_cons in Hb as [? Hb]. apply Forall_cons in Hb as [??].
    destruct (IH H1 ltac:(exists (n - 1); lia)) as (?&?&?&k&?).
    rep_split. exists (k + le_val t). lia.
Qed.
Lemma be_val_Rep b : bytes b -> Z.Even (Zlen b) -> Rep (be_val b) (wsum b).
Proof.
  intros Hb He. unfold be_val.
  assert (forall v s, Rep v s -> Rep (fold_left (fun a x => a * 256 + x) b v) (s + wsum b)) as H.
  { induction b as [|x|x y t IH] using list_pair_ind; intros v s Hv; destruct He as [n Hn]; simpl.
    - by rewrite Z.add_0_r.
    - unfold Zlen in Hn; simpl in Hn. lia.
    - rewrite !Zlen_cons in Hn. apply Forall_cons in Hb as [? Hb]. apply Forall_cons in Hb as [??].
      rewrite Z.add_assoc. apply IH; [done|exists (n - 1); lia|].
      destruct Hv as (?&?&?&k&?). rep_split. exists (k + v). lia. }
  apply (H 0 0). by apply Rep_refl.
Qed.
Lemma load_Rep be n b : bytes b -> Nat.Even n -> (n <= length b)%nat -> Rep (load be n b) (nsum be (take n b)).
Proof.
  intros Hb [k Hk] Hl. unfold load, nsum.
  assert (bytes (take n b)) by by apply Forall_take.
  assert (Z.Even (Zlen (take n b))).
  { exists (Z.of_nat k). rewrite Zlen_take. unfold Zlen. lia. }
  destruct be; auto using le_val_Rep, be_val_Rep.
Qed.
Lemma load_last_nsum be b : length b = 1%nat -> load_last be b = nsum be b.
Proof.
  destruct b as [|x [|]]; try done. intros _. unfold load_last, byte_at. simpl.
  destruct be; [|done]. rewrite Z.shiftl_mul_pow2 by lia. simpl. lia.
Qed.

Lemma le_val_bound b : bytes b -> 0 <= le_val b < 256 ^ Zlen b.
Proof.
  induction b as [|x t IH]; intros Hb; [by unfold Zlen|].
  apply Forall_cons in Hb as [? Hb]. specialize (IH Hb). pose proof (Zlen_nonneg t).
  rewrite Zlen_cons, Z.pow_add_r by lia. simpl. lia.
Qed.
Lemma be_val_bound b : bytes b -> 0 <= be_val b < 256 ^ Zlen b.
Proof.
  unfold be_val. intros Hb.
  assert (forall v n, 0 <= n -> 0 <= v < 256 ^ n ->
    0 <= fold_left (fun a x => a * 256 + x) b v < 256 ^ (n + Zlen b)) as H.
  { induction b as [|x t IH]; intros v n Hn Hv; simpl.
    - unfold Zlen. simpl. by rewrite Z.add_0_r.
    - apply Forall_cons in Hb as [? Hb]. rewrite Zlen_cons.
      replace (n + (Zlen t + 1)) with (n + 1 + Zlen t) by lia. apply IH; [done|lia|].
      rewrite Z.pow_add_r by lia. lia. }
  apply (H 0 0); simpl; lia.
Qed.
Lemma load_bound be n b : bytes b -> (n <= length b)%nat -> 0 <= load be n b < 256 ^ Z.of_nat n.
Proof.
  intros Hb Hl. assert (bytes (take n b)) by by apply Forall_take.
  replace (Z.of_nat n) with (Zlen (take n b)) by (unfold Zlen; rewrite length_take; lia).
  unfold load. destruct be; auto using le_val_bound, be_val_bound.
Qed.

(** ** The unrolled routines, for any accumulator

    [I n a s]: after [n] 16-bit words, the accumulator [a] stands for the
    integer sum [s].  An addition may consume [k] words at once, up to
    [kmax]; [nmax] bounds the number of words (overflow of the accumulators
    that have no carry). *)
Section Adder.
Context (be : bool) (add : Z -> Z -> Z -> Z * Z) (I : Z -> Z * Z -> Z -> Prop) (kmax nmax : Z).
Hypothesis add_ok : forall n k a w s t,
  I n a s -> 0 <= n -> 1 <= k <= kmax -> n + k <= nmax ->
  0 <= w < 65536 ^ k -> Rep w t -> I (n + k) (add a.1 w a.2) (s + t).

Lemma add_words_ok k cnt b a m s :
  bytes b -> 1 <= Z.of_nat k <= kmax -> (2 * k * cnt <= length b)%nat -> 0 <= m ->
  m + Z.of_nat (k * cnt) <= nmax -> I m a s ->
  I (m + Z.of_nat (k * cnt)) (add_words be add (2 * k) cnt b a) (s + nsum be (take (2 * k * cnt) b)).
Proof.
  revert b a m s. induction cnt as [|cnt IH]; intros b a m s Hb Hk Hl Hm Hn Ha.
  - rewrite !Nat.mul_0_r. simpl. rewrite !Z.add_0_r. destruct be; simpl; by rewrite Z.add_0_r.
  - simpl add_words.
    replace (take (2 * k * S cnt) b) with (take (2 * k) b ++ take (2 * k * cnt) (drop (2 * k) b))
      by (rewrite take_take_drop; f_equal; lia).
    assert (Zlen (take (2 * k) b) = 2 * Z.of_nat k) as Hlk by (unfold Zlen; rewrite length_take; lia).
    rewrite nsum_app by (exists (Z.of_nat k); lia). rewrite Z.add_assoc.
    replace (m + Z.of_nat (k * S cnt)) with (m + Z.of_nat k + Z.of_nat (k * cnt)) by lia.
    apply IH; try lia.
    + by apply Forall_drop.
    + rewrite length_drop. lia.
    + apply add_ok; try lia; [done| |].
      * pose proof (load_bound be (2 * k) b Hb ltac:(lia)) as Hlb.
        rewrite Nat2Z.inj_mul, Z.pow_mul_r in Hlb by lia. exact Hlb.
      * apply load_Rep; [done|by exists k|lia].
Qed.

(** Invariant between blocks: a whole number of words of [b0] is consumed. *)
Definition Inv (b0 : list Z) (s0 : Z) (x : list Z * (Z * Z)) : Prop :=
  exists p, b0 = p ++ x.1 /\ Z.Even (Zlen p) /\ I (Zlen p / 2) x.2 (s0 + nsum be p).

Lemma Inv_step b0 s0 x k cnt :
  bytes b0 -> (Zlen b0 + 1) / 2 <= nmax -> 1 <= Z.of_nat k <= kmax ->
  (2 * k * cnt <= length x.1)%nat -> Inv b0 s0 x ->
  Inv b0 s0 (drop (2 * k * cnt) x.1, add_words be add (2 * k) cnt x.1 x.2).
Proof.
  intros Hb Hn Hk Hl (p & -> & [e He] & Hi). destruct x as [b a]; simpl in *.
  apply bytes_app in Hb as [Hp Hb]. rewrite Zlen_app in Hn.
  exists (p ++ take (2 * k * cnt) b).
  assert (Zlen (take (2 * k * cnt) b) = 2 * Z.of_nat (k * cnt)) as Hlt
    by (unfold Zlen; rewrite length_take; lia).
  cbn [fst snd]. rewrite <- app_assoc, take_drop, Zlen_app, Hlt, He.
  assert (2 * Z.of_nat (k * cnt) <= Zlen b) by (unfold Zlen; lia).
  split; [done|]. split; [exists (e + Z.of_nat (k * cnt)); lia|].
  rewrite nsum_app by by exists e. rewrite Z.add_assoc.
  replace ((2 * e + 2 * Z.of_nat (k * cnt)) / 2) with (Zlen p / 2 + Z.of_nat (k * cnt))
    by (rewrite He; zdm).
  apply add_words_ok; try done; try lia; rewrite He; pose proof (Zlen_nonneg p); zdm.
Qed.

Lemma Inv_block b0 s0 x k cnt :
  bytes b0 -> (Zlen b0 + 1) / 2 <= nmax -> 1 <= Z.of_nat k <= kmax ->
  Inv b0 s0 x -> Inv b0 s0 (block be add (2 * k * cnt) (2 * k) cnt x).
Proof.
  intros. unfold block. destruct (Nat.leb_spec (2 * k * cnt) (length x.1)); [|done].
  by apply Inv_step.
Qed.
Lemma Inv_block_loop fuel b0 s0 x k cnt :
  bytes b0 -> (Zlen b0 + 1) / 2 <= nmax -> 1 <= Z.of_nat k <= kmax ->
  Inv b0 s0 x -> Inv b0 s0 (block_loop be fuel add (2 * k * cnt) (2 * k) cnt x).
Proof.
  revert x. induction fuel as [|fuel IH]; intros x ???; cbn [block_loop]; [done|].
  destruct (Nat.leb_spec (2 * k * cnt) (length x.1)); [|done].
  intros. apply IH; try done. by apply Inv_step.
Qed.

Lemma Inv_last b0 s0 x :
  bytes b0 -> (Zlen b0 + 1) / 2 <= nmax -> 1 <= kmax -> (length x.1 < 2)%nat -> Inv b0 s0 x ->
  exists n, 0 <= n <= nmax /\ I n (block_last be add x).2 (s0 + nsum be b0).
Proof.
  intros Hb Hn Hk Hl (p & -> & He & Hi). destruct x as [b a]. simpl in *.
  rewrite Zlen_app in Hn. pose proof (Zlen_nonneg p) as Hp.
  unfold block_last; cbn [fst snd]. destruct (Nat.leb_spec 1 (length b)); cbn [fst snd].
  - rewrite load_last_nsum by lia. exists (Zlen p / 2 + 1).
    assert (Zlen b = 1) as Hb1 by (unfold Zlen; lia). apply bytes_app in Hb as [_ Hb].
    pose proof (nsum_nonneg be b Hb). rewrite nsum_app, Z.add_assoc by done.
    split; [zdm|]. apply add_ok; try done; try zdm; [|by apply Rep_refl].
    destruct b as [|y [|]]; [simpl in *; lia| |simpl in *; lia].
    apply Forall_cons in Hb as [??]. destruct be; simpl; lia.
  - destruct b; [|simpl in *; lia]. rewrite app_nil_r. exists (Zlen p / 2). split; [|done].
    unfold Zlen in Hn at 2; simpl in Hn. zdm.
Qed.
End Adder.

(** The loop runs out of blocks before it runs out of fuel. *)
Lemma block_loop_length be add n w cnt fuel x :
  (0 < n)%nat -> (length x.1 <= fuel)%nat -> (length (block_loop be fuel add n w cnt x).1 < n)%nat.
Proof.
  intros Hn. revert x. induction fuel as [|fuel IH]; intros x Hx; simpl; [lia|].
  destruct (Nat.leb_spec n (length x.1)); [|lia].
  apply IH. simpl. rewrite length_drop. lia.
Qed.
Lemma block_length be add n w cnt x :
  (length x.1 < 2 * n)%nat -> (length (block be add n w cnt x).1 < n)%nat.
Proof.
  intros. unfold block. destruct (Nat.leb_spec n (length x.1)); simpl; [rewrite length_drop|]; lia.
Qed.

(** ** The accumulators *)

Definition Acc64 (_ : Z) (a : Z * Z) (s : Z) : Prop :=
  0 <= a.1 < 18446744073709551616 /\ 0 <= a.2 <= 1 /\ a.1 + a.2 < 18446744073709551616 /\
  Rep (a.1 + a.2) s.
Definition Acc32 (_ : Z) (a : Z * Z) (s : Z) : Prop :=
  0 <= a.1 < 4294967296 /\ 0 <= a.2 <= 1 /\ Rep (a.1 + a.2) s.
(** Without carries the accumulator must not wrap: its value is bounded by the
    number of words added. *)
Definition AccW (n : Z) (a : Z * Z) (s : Z) : Prop :=
  0 <= a.1 <= 65535 * (n + 1) /\ Rep a.1 s.
Definition AccW32 (n : Z) (a : Z * Z) (s : Z) : Prop :=
  0 <= a.1 <= 4294967295 * (n + 1) /\ Rep a.1 s.

Lemma pow65536_le k n : 1 <= k <= n -> 65536 ^ k <= 65536 ^ n.
Proof. intros. apply Z.pow_le_mono_r; lia. Qed.

Lemma Add64_ok n k a w s t :
  Acc64 n a s -> 1 <= k <= 4 -> 0 <= w < 65536 ^ k -> Rep w t -> Acc64 (n + k) (Add64 a.1 w a.2) (s + t).
Proof.
  intros (?&?&?&Hr) Hk Hw Ht. pose proof (pow65536_le k 4 Hk) as Hp. change (65536 ^ 4) with 18446744073709551616 in Hp.
  unfold Acc64, Add64; simpl. split_and!; try zdm.
  apply Rep_carry64; [zdm|zdm|]. pose proof (Rep_add _ _ _ _ Hr Ht) as Hs.
  replace (_ + _) with (a.1 + a.2 + w) by zdm. done.
Qed.
Lemma Add32_ok n k a w s t :
  Acc32 n a s -> 1 <= k <= 2 -> 0 <= w < 65536 ^ k -> Rep w t -> Acc32 (n + k) (Add32 a.1 w a.2) (s + t).
Proof.
  intros (?&?&Hr) Hk Hw Ht. pose proof (pow65536_le k 2 Hk) as Hp. change (65536 ^ 2) with 4294967296 in Hp.
  unfold Acc32, Add32; simpl. split_and!; try zdm.
  apply Rep_carry32; [zdm|zdm|]. pose proof (Rep_add _ _ _ _ Hr Ht) as Hs.
  replace (_ + _) with (a.1 + a.2 + w) by zdm. done.
Qed.
Lemma wadd32_ok n k a w s t :
  AccW n a s -> 0 <= n -> 1 <= k <= 1 -> n + k <= 65536 -> 0 <= w < 65536 ^ k -> Rep w t ->
  AccW (n + k) (wadd32 a.1 w a.2) (s + t).
Proof.
  intros (?&Hr) ? Hk ? Hw Ht. replace k with 1 in * by lia. simpl in Hw.
  unfold AccW, wadd32; simpl. rewrite u32_small by lia. split; [lia|by apply Rep_add].
Qed.
Lemma wadd64_ok n k a w s t :
  AccW32 n a s -> 0 <= n -> 1 <= k <= 2 -> n + k <= 4294967296 -> 0 <= w < 65536 ^ k -> Rep w t ->
  AccW32 (n + k) (wadd64 a.1 w a.2) (s + t).
Proof.
  intros (?&Hr) ? Hk ? Hw Ht. pose proof (pow65536_le k 2 Hk) as Hp. change (65536 ^ 2) with 4294967296 in Hp.
  unfold AccW32, wadd64, u64; simpl. rewrite Z.mod_small by lia. split; [lia|by apply Rep_add].
Qed.

(** ** Folding *)

Lemma land_ffff x : Z.land x 65535 = x mod 65536.
Proof. apply (Z.land_ones x 16). lia. Qed.
Lemma land_ffffffff x : Z.land x 4294967295 = x mod 4294967296.
Proof. apply (Z.land_ones x 32). lia. Qed.

Lemma fold_step x s : 0 <= x -> Rep x s -> Rep (x / 65536 + x mod 65536) s.
Proof.
  intros ? Hr. rewrite Z.add_comm. apply Rep_carry16; [zdm|zdm|].
  by replace (_ + _) with x by zdm.
Qed.

(** The 64-bit fold is exact provided the accumulator is not all ones with a
    pending carry, which [Acc64] excludes. *)
Lemma ipChecksumFold64_OC n a s : Acc64 n a s -> OC (ipChecksumFold64 a.1 a.2) s.
Proof.
  destruct a as [a c]. intros (?&?&?&Hr). simpl in *. unfold ipChecksumFold64, Add32.
  rewrite !Z.shiftr_div_pow2, !land_ffff, land_ffffffff by lia.
  change (2 ^ 32) with 4294967296. change (2 ^ 16) with 65536.
  assert (Rep (a mod 4294967296 + c + a / 4294967296) s) as Hr1.
  { apply Rep_carry32; [zdm|zdm|]. by replace (_ + _ + _) with (a + c) by zdm. }
  replace (u32 (a / 4294967296) + u32 (a mod 4294967296) + u32 c)
    with (a mod 4294967296 + c + a / 4294967296) by (unfold u32; zdm).
  set (T := a mod 4294967296 + c + a / 4294967296) in *.
  assert (0 <= T <= 8589934590) as HT by (subst T; zdm). clearbody T.
  assert (Rep (T mod 4294967296 + T / 4294967296) s) as Hr2.
  { apply Rep_carry32; [zdm|zdm|]. by replace (_ + _) with T by zdm. }
  set (s1 := T mod 4294967296) in *. set (c1 := T / 4294967296) in *.
  assert (0 <= s1 < 4294967296 /\ 0 <= c1 <= 1 /\ s1 + c1 < 4294967296) as (?&?&?) by (subst s1 c1; zdm).
  clearbody s1 c1.
  replace (u32 (u32 (s1 / 65536 + s1 mod 65536) + c1)) with (s1 / 65536 + s1 mod 65536 + c1)
    by (unfold u32; zdm).
  assert (Rep (s1 / 65536 + s1 mod 65536 + c1) s) as Hr3.
  { replace (_ + _ + _) with (s1 mod 65536 + c1 + s1 / 65536) by lia.
    apply Rep_carry16; [zdm|zdm|]. by replace (_ + _ + _) with (s1 + c1) by zdm. }
  set (x := s1 / 65536 + s1 mod 65536 + c1) in *.
  assert (0 <= x <= 131070) as Hx by (subst x; zdm). clearbody x.
  apply fold_step in Hr3; [|lia].
  replace (u16 (u32 (x / 65536 + x mod 65536))) with (x / 65536 + x mod 65536) by (unfold u16, u32; zdm).
  apply Rep_OC; [done|zdm].
Qed.
Lemma ipChecksumFold32_OC n a s : Acc32 n a s -> OC (ipChecksumFold32 a.1 a.2) s.
Proof.
  destruct a as [a c]. intros (?&?&Hr). simpl in *. unfold ipChecksumFold32.
  rewrite !Z.shiftr_div_pow2, !land_ffff by lia. change (2 ^ 16) with 65536.
  replace (u32 (u32 (a / 65536 + a mod 65536) + c)) with (a / 65536 + a mod 65536 + c) by (unfold u32; zdm).
  assert (Rep (a / 65536 + a mod 65536 + c) s) as Hr1.
  { replace (_ + _ + _) with (a mod 65536 + c + a / 65536) by lia.
    apply Rep_carry16; [zdm|zdm|]. by replace (_ + _ + _) with (a + c) by zdm. }
  set (x := a / 65536 + a mod 65536 + c) in *.
  assert (0 <= x <= 131071) as Hx by (subst x; zdm). clearbody x.
  replace (u32 (x / 65536 + x mod 65536)) with (x / 65536 + x mod 65536) by (unfold u32; zdm).
  apply fold_step in Hr1; [|lia]. set (y := x / 65536 + x mod 65536) in *.
  assert (0 <= y <= 65536) as Hy by (subst y; zdm). clearbody y.
  replace (u16 (u32 (y / 65536 + y mod 65536))) with (y / 65536 + y mod 65536) by (unfold u16, u32; zdm).
  apply fold_step in Hr1; [|lia]. apply Rep_OC; [done|zdm].
Qed.

Lemma ReverseBytes16_range x : is_u16 x -> is_u16 (ReverseBytes16 x).
Proof. unfold ReverseBytes16. intros. zdm. Qed.
Lemma ReverseBytes16_Rep x : is_u16 x -> Rep (ReverseBytes16 x) (256 * x).
Proof. intros. unfold ReverseBytes16. rep_split; try zdm. exists (- (x / 256)). zdm. Qed.

(** The final byte swap undoes the initial one. *)
Lemma unswap_OC be f initial b :
  bytes b -> is_u16 initial -> OC f (enter be initial + nsum be b) ->
  OC (unswap be f) (initial + wsum b).
Proof.
  intros Hb Hi Hf. unfold unswap, enter, nsum in *. destruct be; [done|].
  pose proof (OC_range _ _ Hf) as Hfr. pose proof (ReverseBytes16_range f Hfr).
  apply Rep_OC; [|lia]. apply Rep_unscale.
  eapply Rep_trans; [by apply ReverseBytes16_Rep|]. apply Rep_scale.
  eapply Rep_trans; [by apply OC_Rep|]. rewrite Z.mul_add_distr_l.
  apply Rep_add; [by apply ReverseBytes16_Rep|by apply lsum_Rep].
Qed.
Lemma enter_range be initial : is_u16 initial -> is_u16 (enter be initial).
Proof. destruct be; [done|]. apply ReverseBytes16_range. Qed.

Lemma Inv_start be I b a s0 : I 0 a s0 -> Inv be I b s0 (b, a).
Proof.
  intros. exists []. split; [done|]. split; [by exists 0|].
  destruct be; simpl; by rewrite Z.add_0_r.
Qed.

(** Chain the blocks of a routine: side conditions are arithmetic. *)
Ltac run_blocks lem :=
  repeat match goal with
  | |- Inv _ _ _ _ (block _ _ ?n ?w ?c _) =>
      let k := eval compute in (Nat.div2 w) in
      eapply (Inv_block _ _ _ _ _ lem _ _ _ k c); [done|lia|lia|]
  | |- Inv _ _ _ _ (block_loop _ _ _ ?n ?w ?c _) =>
      let k := eval compute in (Nat.div2 w) in
      eapply (Inv_block_loop _ _ _ _ _ lem _ _ _ _ k c); [done|lia|lia|]
  end; apply Inv_start.
Ltac run_lengths :=
  repeat (apply block_length; simpl Nat.mul); apply block_loop_length; [lia|simpl; lia].

Lemma checksumGeneric64_rfc be b initial :
  bytes b -> is_u16 initial -> checksumGeneric64 be b initial = rfc1071 b initial.
Proof.
  intros Hb Hi. unfold checksumGeneric64. set (N := (Zlen b + 1) / 2).
  match goal with |- context [block_last be Add64 ?x] => set (fin := x) end.
  pose proof (fun n k a w s t H (_ : 0 <= n) Hk (_ : n + k <= N) => Add64_ok n k a w s t H Hk) as lem.
  pose proof (enter_range be initial Hi).
  destruct (Inv_last be Add64 Acc64 4 N lem b (enter be initial) fin Hb) as (n & _ & Ha); try lia.
  - subst fin. run_lengths.
  - subst fin. run_blocks lem. split_and!; simpl; try lia. rewrite Z.add_0_r. apply Rep_refl. lia.
  - destruct (block_last be Add64 fin) as [rest [ac carry]]. simpl in Ha.
    apply ipChecksumFold64_OC in Ha. simpl in Ha.
    eapply OC_unique; [by apply (unswap_OC be _ initial b)|by apply rfc1071_OC].
Qed.

Lemma checksumGeneric32_rfc be b initial :
  bytes b -> is_u16 initial -> checksumGeneric32 be b initial = rfc1071 b initial.
Proof.
  intros Hb Hi. unfold checksumGeneric32. set (N := (Zlen b + 1) / 2).
  match goal with |- context [block_last be Add32 ?x] => set (fin := x) end.
  pose proof (fun n k a w s t H (_ : 0 <= n) Hk (_ : n + k <= N) => Add32_ok n k a w s t H Hk) as lem.
  pose proof (enter_range be initial Hi).
  destruct (Inv_last be Add32 Acc32 2 N lem b (enter be initial) fin Hb) as (n & _ & Ha); try lia.
  - subst fin. run_lengths.
  - subst fin. run_blocks lem. split_and!; simpl; try lia. rewrite Z.add_0_r. apply Rep_refl. lia.
  - destruct (block_last be Add32 fin) as [rest [ac carry]]. simpl in Ha.
    apply ipChecksumFold32_OC in Ha. simpl in Ha.
    eapply OC_unique; [by apply (unswap_OC be _ initial b)|by apply rfc1071_OC].
Qed.

Lemma checksumGeneric32Alternate_rfc be b initial :
  bytes b -> is_u16 initial -> Zlen b <= 131072 ->
  checksumGeneric32Alternate be b initial = rfc1071 b initial.
Proof.
  intros Hb Hi Hl. unfold checksumGeneric32Alternate.
  match goal with |- context [block_last be wadd32 ?x] => set (fin := x) end.
  pose proof wadd32_ok as lem. pose proof (enter_range be initial Hi).
  assert ((Zlen b + 1) / 2 <= 65536) as HN by zdm.
  destruct (Inv_last be wadd32 AccW 1 65536 lem b (enter be initial) fin Hb) as (n & Hn & Ha); try lia.
  - subst fin. run_lengths.
  - subst fin. run_blocks lem. split; simpl; [lia|]. apply Rep_refl. lia.
  - destruct (block_last be wadd32 fin) as [rest [ac carry]]. destruct Ha as [? Ha]. simpl in *.
    eapply OC_unique; [apply (unswap_OC be _ initial b); try done|by apply rfc1071_OC].
    apply (ipChecksumFold32_OC 0 (ac, 0)). split_and!; simpl; try lia. by rewrite Z.add_0_r.
Qed.

Lemma checksumGeneric64Alternate_rfc be b initial :
  bytes b -> is_u16 initial -> Zlen b <= 4294967296 ->
  checksumGeneric64Alternate be b initial = rfc1071 b initial.
Proof.
  intros Hb Hi Hl. unfold checksumGeneric64Alternate.
  match goal with |- context [block_last be wadd64 ?x] => set (fin := x) end.
  assert (forall n k a w s t, AccW32 n a s -> 0 <= n -> 1 <= k <= 2 -> n + k <= 4294967294 ->
    0 <= w < 65536 ^ k -> Rep w t -> AccW32 (n + k) (wadd64 a.1 w a.2) (s + t)) as lem
    by (intros; apply wadd64_ok; auto; lia).
  pose proof (enter_range be initial Hi).
  assert ((Zlen b + 1) / 2 <= 4294967294) as HN by zdm.
  destruct (Inv_last be wadd64 AccW32 2 4294967294 lem b (enter be initial) fin Hb) as (n & Hn & Ha); try lia.
  - subst fin. run_lengths.
  - subst fin. run_blocks lem. split; simpl; [lia|]. apply Rep_refl. lia.
  - destruct (block_last be wadd64 fin) as [rest [ac carry]]. destruct Ha as [? Ha]. simpl in *.
    eapply OC_unique; [apply (unswap_OC be _ initial b); try done|by apply rfc1071_OC].
    apply (ipChecksumFold64_OC 0 (ac, 0)). split_and!; simpl; try lia. by rewrite Z.add_0_r.
Qed.

(** The dispatcher of checksum_generic.go is an implementation of the
    checksum interface, on 32- and 64-bit machines of either byte order. *)
#[export] Instance ts_impl (be : bool) (IntSize : Z) : ChecksumImpl.
Proof.
  refine {| Checksum.Checksum := Checksum be IntSize |}.
  intros b initial Hb Hi. unfold Checksum. destruct (IntSize <? 64).
  - by apply checksumGeneric32_rfc.
  - by apply checksumGeneric64_rfc.
Defined.

(** C13: the 64-bit and the 32-bit routine of tschecksum compute the RFC 1071
    sum of every buffer from every initial value, on little- and big-endian
    machines alike; in particular the 64-bit fold never loses the pending
    carry. *)
Theorem checksumGeneric_correct be b initial :
  bytes b -> is_u16 initial ->
  checksumGeneric64 be b initial = rfc1071 b initial /\
  checksumGeneric32 be b initial = rfc1071 b initial.
Proof. intros. split; [by apply checksumGeneric64_rfc|by apply checksumGeneric32_rfc]. Qed.

(** the variants without carry agree with the reference as long as their
    accumulator cannot overflow: 131072 bytes for the 32-bit one (every IP
    packet is shorter), 4 GiB for the 64-bit one. *)
Lemma checksumAlternate_correct be b initial :
  bytes b -> is_u16 initial ->
  (Zlen b <= 131072 -> checksumGeneric32Alternate be b initial = rfc1071 b initial) /\
  (Zlen b <= 4294967296 -> checksumGeneric64Alternate be b initial = rfc1071 b initial).
Proof.
  intros. split; intros; [by apply checksumGeneric32Alternate_rfc|by apply checksumGeneric64Alternate_rfc].
Qed.

(** ** Pseudo-header checksums *)

Definition addr_len_ok (addr : list Z) : Prop := length addr = 4%nat \/ length addr = 16%nat.

Lemma nsum_split be n b :
  Nat.Even n -> (n <= length b)%nat -> nsum be b = nsum be (take n b) + nsum be (drop n b).
Proof.
  intros [k ->] ?. rewrite <- nsum_app, take_drop; [done|].
  exists (Z.of_nat k). unfold Zlen. rewrite length_take. lia.
Qed.

Lemma Add64_load be n b a s k :
  Acc64 0 a s -> bytes b -> n = (2 * k)%nat -> (1 <= k <= 4)%nat -> (n <= length b)%nat ->
  Acc64 0 (Add64 a.1 (load be n b) a.2) (s + nsum be (take n b)).
Proof.
  intros Ha Hb -> Hk Hl. apply (Add64_ok 0 (Z.of_nat k)); [done|lia| |].
  - pose proof (load_bound be (2 * k) b Hb Hl) as Hlb.
    rewrite Nat2Z.inj_mul, Z.pow_mul_r in Hlb by lia. exact Hlb.
  - apply load_Rep; [done|by exists k|done].
Qed.
Lemma Add32_load be n b a s k :
  Acc32 0 a s -> bytes b -> n = (2 * k)%nat -> (1 <= k <= 2)%nat -> (n <= length b)%nat ->
  Acc32 0 (Add32 a.1 (load be n b) a.2) (s + nsum be (take n b)).
Proof.
  intros Ha Hb -> Hk Hl. apply (Add32_ok 0 (Z.of_nat k)); [done|lia| |].
  - pose proof (load_bound be (2 * k) b Hb Hl) as Hlb.
    rewrite Nat2Z.inj_mul, Z.pow_mul_r in Hlb by lia. exact Hlb.
  - apply load_Rep; [done|by exists k|done].
Qed.

Lemma addrPartialChecksum64_ok be addr a s :
  bytes addr -> addr_len_ok addr -> Acc64 0 a s ->
  exists a', addrPartialChecksum64 be addr a.1 a.2 = Ok a' /\ Acc64 0 a' (s + nsum be addr).
Proof.
  intros Hb Hl Ha. unfold addrPartialChecksum64. destruct Hl as [Hl|Hl]; rewrite Hl.
  - eexists; split; [done|]. rewrite <- (take_ge addr 4) at 2 by lia.
    apply (Add64_load be 4 addr a s 2); auto; lia.
  - pose proof (Add64_load be 8 addr a s 4 Ha Hb eq_refl ltac:(lia) ltac:(lia)) as H1.
    destruct (Add64 a.1 (load be 8 addr) a.2) as [sum carry]. eexists; split; [done|].
    rewrite (nsum_split be 8 addr) by (try lia; by exists 4%nat). rewrite Z.add_assoc.
    assert (Hb' : bytes (drop 8 addr)) by by apply Forall_drop.
    rewrite <- (take_ge (drop 8 addr) 8) at 2 by (rewrite length_drop; lia).
    apply (Add64_load be 8 (drop 8 addr) (sum, carry) _ 4); auto; rewrite ?length_drop; lia.
Qed.
Lemma addrPartialChecksum32_ok be addr a s :
  bytes addr -> addr_len_ok addr -> Acc32 0 a s ->
  exists a', addrPartialChecksum32 be addr a.1 a.2 = Ok a' /\ Acc32 0 a' (s + nsum be addr).
Proof.
  intros Hb Hl Ha. unfold addrPartialChecksum32. destruct Hl as [Hl|Hl]; rewrite Hl.
  - eexists; split; [done|]. rewrite <- (take_ge addr 4) at 2 by lia.
    apply (Add32_load be 4 addr a s 2); auto; lia.
  - assert (forall n, bytes (drop n addr)) as Hd by (intros; by apply Forall_drop).
    pose proof (Add32_load be 4 addr a s 2 Ha Hb eq_refl ltac:(lia) ltac:(lia)) as H1.
    destruct (Add32 a.1 _ a.2) as [s1 c1].
    pose proof (Add32_load be 4 (drop 4 addr) _ _ 2 H1 (Hd _) eq_refl ltac:(lia) ltac:(rewrite length_drop; lia)) as H2.
    destruct (Add32 (s1, c1).1 _ _) as [s2 c2] eqn:E2. simpl in E2. rewrite E2.
    pose proof (Add32_load be 4 (drop 8 addr) _ _ 2 H2 (Hd _) eq_refl ltac:(lia) ltac:(rewrite length_drop; lia)) as H3.
    destruct (Add32 (s2, c2).1 _ _) as [s3 c3] eqn:E3. simpl in E3. rewrite E3.
    pose proof (Add32_load be 4 (drop 12 addr) _ _ 2 H3 (Hd _) eq_refl ltac:(lia) ltac:(rewrite length_drop; lia)) as H4.
    eexists; split; [done|]. simpl in H4.
    rewrite (nsum_split be 4 addr), (nsum_split be 4 (drop 4 addr)), (nsum_split be 4 (drop 4 (drop 4 addr)))
      by (rewrite ?length_drop; try lia; by exists 2%nat).
    rewrite !drop_drop, !Z.add_assoc. simpl Nat.add.
    rewrite <- (take_ge (drop 12 addr) 4) at 2 by (rewrite length_drop; lia). exact H4.
Qed.

(** The pseudo header of RFC 793 and RFC 768: addresses, protocol, length. *)
Definition pseudo_header (protocol : Z) (src dst : list Z) (totalLen : Z) : list Z :=
  src ++ dst ++ [0; protocol; totalLen / 256; totalLen mod 256].

Lemma wsum_pseudo_header protocol src dst len :
  Z.Even (Zlen src) -> Z.Even (Zlen dst) -> 0 <= len ->
  wsum (pseudo_header protocol src dst len) = wsum src + wsum dst + protocol + len.
Proof.
  intros. unfold pseudo_header. rewrite !wsum_app by done. simpl. zdm.
Qed.

Lemma addr_len_even addr : addr_len_ok addr -> Z.Even (Zlen addr).
Proof. unfold Zlen. intros [-> | ->]; [by exists 2|by exists 8]. Qed.

Lemma pseudo_start (be : bool) protocol totalLen :
  is_u8 protocol -> is_u16 totalLen ->
  (if be then totalLen + protocol else ReverseBytes16 totalLen + Z.shiftl protocol 8)
  = enter be totalLen + nsum be [0; protocol].
Proof.
  intros. destruct be; simpl; [lia|]. rewrite Z.shiftl_mul_pow2 by lia. simpl. lia.
Qed.

Lemma pseudo_finish be f protocol src dst totalLen :
  bytes src -> bytes dst -> addr_len_ok src -> addr_len_ok dst -> is_u8 protocol -> is_u16 totalLen ->
  OC f (enter be totalLen + nsum be [0; protocol] + nsum be src + nsum be dst) ->
  unswap be f = rfc1071 (pseudo_header protocol src dst totalLen) 0.
Proof.
  intros Hs Hd Hls Hld Hp Ht Hf.
  assert (bytes ([0; protocol] ++ src ++ dst)) by (apply bytes_app; split; [repeat constructor; lia|by apply bytes_app]).
  assert (bytes (pseudo_header protocol src dst totalLen)).
  { unfold pseudo_header. rewrite !bytes_app. split_and!; [done|done|]. repeat constructor; zdm. }
  assert (Z.Even (Zlen [0; protocol])) by by exists 1.
  eapply OC_unique.
  - apply (unswap_OC be f totalLen ([0; protocol] ++ src ++ dst)); try done.
    rewrite !nsum_app by auto using addr_len_even. by rewrite !Z.add_assoc in *.
  - replace (totalLen + _) with (0 + wsum (pseudo_header protocol src dst totalLen)); [by apply rfc1071_OC|].
    rewrite wsum_pseudo_header, !wsum_app by (auto using addr_len_even; lia). simpl. lia.
Qed.

Lemma PseudoHeaderChecksum_panics be IntSize protocol src dst totalLen :
  ~ (addr_len_ok src /\ addr_len_ok dst) ->
  PseudoHeaderChecksum be IntSize protocol src dst totalLen = Panic.
Proof.
  intros Hn.
  assert (forall a x y, ~ addr_len_ok a -> addrPartialChecksum64 be a x y = Panic /\
    addrPartialChecksum32 be a x y = Panic) as Hbad.
  { unfold addr_len_ok, addrPartialChecksum64, addrPartialChecksum32. intros a x y H.
    do 17 (destruct a as [|? a]; [simpl in *; try done; exfalso; apply H; auto|]). done. }
  unfold PseudoHeaderChecksum, pseudoHeaderChecksum32, pseudoHeaderChecksum64.
  destruct (decide (length src = 4%nat \/ length src = 16%nat)) as [Hs|Hs].
  - assert (~ addr_len_ok dst) as Hd by (intros ?; by apply Hn).
    destruct (IntSize <? 64).
    + destruct (addrPartialChecksum32 be src _ 0) as [[??]|]; [|done].
      destruct (Hbad dst z z0 Hd) as [_ ->]. done.
    + destruct (addrPartialChecksum64 be src _ 0) as [[??]|]; [|done].
      destruct (Hbad dst z z0 Hd) as [-> _]. done.
  - destruct (Hbad src (if be then totalLen + protocol else ReverseBytes16 totalLen + Z.shiftl protocol 8) 0 Hs)
      as [-> ->]. by destruct (IntSize <? 64).
Qed.

(** the pseudo-header routines, 32- and 64-bit, compute the RFC 1071 sum of
    the pseudo header for IPv4 and IPv6 addresses on either byte order, and
    panic exactly on addresses that are not 4 or 16 bytes long. *)
Lemma PseudoHeaderChecksum_correct be IntSize protocol src dst totalLen :
  bytes src -> bytes dst -> is_u8 protocol -> is_u16 totalLen ->
  (addr_len_ok src /\ addr_len_ok dst ->
     PseudoHeaderChecksum be IntSize protocol src dst totalLen
     = Ok (rfc1071 (pseudo_header protocol src dst totalLen) 0)) /\
  (PseudoHeaderChecksum be IntSize protocol src dst totalLen = Panic <->
     ~ (addr_len_ok src /\ addr_len_ok dst)).
Proof.
  intros Hs Hd Hp Ht.
  assert (addr_len_ok src /\ addr_len_ok dst ->
     PseudoHeaderChecksum be IntSize protocol src dst totalLen
     = Ok (rfc1071 (pseudo_header protocol src dst totalLen) 0)) as Hok.
  { intros [Hls Hld]. pose proof (enter_range be totalLen Ht).
    assert (0 <= nsum be [0; protocol] <= 65280) by (destruct be; simpl; lia).
    unfold PseudoHeaderChecksum. destruct (IntSize <? 64).
    - unfold pseudoHeaderChecksum32. rewrite pseudo_start by done.
      destruct (addrPartialChecksum32_ok be src (enter be totalLen + nsum be [0; protocol], 0)
        (enter be totalLen + nsum be [0; protocol])) as ([s1 c1] & E1 & H1); try done.
      { split_and!; simpl; try lia. rewrite Z.add_0_r. apply Rep_refl. lia. }
      simpl in E1. rewrite E1.
      destruct (addrPartialChecksum32_ok be dst (s1, c1) _ Hd Hld H1) as ([s2 c2] & E2 & H2).
      simpl in E2. rewrite E2. f_equal. apply pseudo_finish; try done.
      by apply (ipChecksumFold32_OC 0 (s2, c2)).
    - unfold pseudoHeaderChecksum64. rewrite pseudo_start by done.
      destruct (addrPartialChecksum64_ok be src (enter be totalLen + nsum be [0; protocol], 0)
        (enter be totalLen + nsum be [0; protocol])) as ([s1 c1] & E1 & H1); try done.
      { split_and!; simpl; try lia. rewrite Z.add_0_r. apply Rep_refl. lia. }
      simpl in E1. rewrite E1.
      destruct (addrPartialChecksum64_ok be dst (s1, c1) _ Hd Hld H1) as ([s2 c2] & E2 & H2).
      simpl in E2. rewrite E2. f_equal. apply pseudo_finish; try done.
      by apply (ipChecksumFold64_OC 0 (s2, c2)). }
  split; [done|]. split; [by intros HP Hl; rewrite Hok in HP|].
  intros Hn. apply PseudoHeaderChecksum_panics. done.
Qed.

Lemma PseudoHeaderChecksum_correct_witness :
  PseudoHeaderChecksum false 64 6 [10; 0; 0; 1] [255; 255; 255; 255] 65535
    = Ok (rfc1071 (pseudo_header 6 [10; 0; 0; 1] [255; 255; 255; 255] 65535) 0).
Proof.
  apply (PseudoHeaderChecksum_correct false 64 6 [10; 0; 0; 1] [255; 255; 255; 255] 65535);
    first [lia | (unfold bytes; repeat constructor; lia) | (split; by left)].
Defined.

Example sample_packet : list Z := [69; 0; 0; 40; 0; 1; 0; 0; 64; 6; 0; 0; 10; 0; 0; 1; 10; 0; 0; 2; 255].

Lemma checksumGeneric_correct_witness :
  checksumGeneric64 false sample_packet 65535 = rfc1071 sample_packet 65535 /\
  checksumGeneric32 false sample_packet 65535 = rfc1071 sample_packet 65535.
Proof. apply (checksumGeneric_correct false); [unfold bytes; repeat constructor; lia|lia]. Defined.

Lemma checksumAlternate_correct_witness :
  (Zlen sample_packet <= 131072 ->
     checksumGeneric32Alternate true sample_packet 7 = rfc1071 sample_packet 7) /\
  (Zlen sample_packet <= 4294967296 ->
     checksumGeneric64Alternate true sample_packet 7 = rfc1071 sample_packet 7).
Proof. apply (checksumAlternate_correct true); [unfold bytes; repeat constructor; lia|lia]. Defined.

End tschecksum.
