(* ===== verification/GvChecksum.v ===== *)
(** * internal/gtcpip/checksum: the portable checksum routine

    [calculateChecksum] of checksum_unsafe.go reads the buffer through aligned
    native loads, so its control flow depends on the address of the buffer
    ([addr], the value of [sliceAddr]) and on the byte order of the machine.
    It is shown to compute the reference [rfc1071] for every address and both
    byte orders, and to chain across buffers of odd length. *)
From S2P Require Import Prelude Bytes GoMem Checksum TsChecksum.
Import tschecksum (load, load_last, add_words, nsum, Acc64, Inv).

Definition ReverseBytes32 (x : Z) : Z :=
  ReverseBytes16 (x mod 65536) * 65536 + ReverseBytes16 (x / 65536).

Module gvchecksum.

Section Machine.
Context (IsBigEndian : bool).

Definition bswapIfLittleEndian32 (val : Z) : Z := if IsBigEndian then val else ReverseBytes32 val.
Definition bswapIfLittleEndian16 (val : Z) : Z := if IsBigEndian then val else ReverseBytes16 val.
Definition bswapIfBigEndian16 (val : Z) : Z := if IsBigEndian then ReverseBytes16 val else val.

Definition reduce (acc : Z) : Z :=
  let acc := u64 (Z.shiftr acc 32 + Z.land acc 4294967295) in
  let acc32 := u32 (u64 (Z.shiftr acc 32 + acc)) in
  let acc32 := u32 (Z.shiftr acc32 16 + Z.land acc32 65535) in
  u16 (u32 (Z.shiftr acc32 16 + acc32)).

(** The branch for fewer than 8 bytes. *)
Definition small (buf : list Z) (acc : Z) : Z :=
  let '(buf, acc) :=
    if 4 <=? Zlen buf then
      (drop 4 buf,
       u64 (u64 (acc + (Z.shiftl (byte_at buf 0) 8 + byte_at buf 1))
            + (Z.shiftl (byte_at buf 2) 8 + byte_at buf 3)))
    else (buf, acc) in
  let '(buf, acc) :=
    if 2 <=? Zlen buf then
      (drop 2 buf, u64 (acc + (Z.shiftl (byte_at buf 0) 8 + byte_at buf 1)))
    else (buf, acc) in
  if 1 <=? Zlen buf then u64 (acc + Z.shiftl (byte_at buf 0) 8) else acc.

(** Alignment of [&buf[0]] to 8 bytes: state (rest, acc, address). *)
Definition align1 (s : list Z * Z * Z) : (list Z * Z * Z) * bool :=
  let '(buf, acc, addr) := s in
  if negb (Z.land addr 1 =? 0) then
    let acc := ReverseBytes32 (u32 acc) in
    let acc := u64 (acc + bswapIfLittleEndian16 (byte_at buf 0)) in
    ((drop 1 buf, acc, addr + 1), true)
  else (s, false).
Definition alignN (n : nat) (s : list Z * Z * Z) : list Z * Z * Z :=
  let '(buf, acc, addr) := s in
  if negb (Z.land addr (Z.of_nat n) =? 0) then
    (drop n buf, u64 (acc + load IsBigEndian n buf), addr + Z.of_nat n)
  else s.

(** One block: [cnt] words of [w] bytes with carries, then the last carry. *)
Definition sum_block (w cnt : nat) (buf : list Z) (acc : Z) : Z :=
  let '(acc, carry) := add_words IsBigEndian Add64 w cnt buf (acc, 0) in
  (Add64 acc 0 carry).1.
Definition block (n w cnt : nat) (s : list Z * Z) : list Z * Z :=
  if (n <=? length s.1)%nat then (drop n s.1, sum_block w cnt s.1 s.2) else s.
Fixpoint block_loop (fuel n w cnt : nat) (s : list Z * Z) : list Z * Z :=
  match fuel with
  | O => s
  | S fuel' =>
      if (n <=? length s.1)%nat
      then block_loop fuel' n w cnt (drop n s.1, sum_block w cnt s.1 s.2)
      else s
  end.
Definition last_byte (s : list Z * Z) : Z :=
  if (1 <=? length s.1)%nat then
    let '(acc, carry) := Add64 s.2 (bswapIfBigEndian16 (byte_at s.1 0)) 0 in
    (Add64 acc 0 carry).1
  else s.2.

Definition sum_rest (buf : list Z) (acc : Z) : Z :=
  let s := block_loop (length buf) 64 8 8 (buf, acc) in
  let s := block 32 8 4 s in
  let s := block 16 8 2 s in
  let s := block 8 8 1 s in
  let s := block 4 4 1 s in
  let s := block 2 2 1 s in
  last_byte s.

Definition calculateChecksum (addr : Z) (buf : list Z) (odd : bool) (initial : Z) : res (Z * bool) :=
  match (if odd
         then match buf with
              | [] => Panic
              | x :: buf' => Ok (buf', initial + x, addr + 1)
              end
         else Ok (buf, initial, addr)) with
  | Panic => Panic
  | Ok (buf, acc, addr) =>
      let odd := negb (Z.land (Zlen buf) 1 =? 0) in
      if Zlen buf <? 8 then Ok (reduce (small buf acc), odd)
      else
        let acc := bswapIfLittleEndian32 (u32 acc) in
        let '(s, bswapped) := align1 (buf, acc, addr) in
        let '(buf, acc, _) := alignN 4 (alignN 2 s) in
        let acc := sum_rest buf acc in
        let acc16 := bswapIfLittleEndian16 (reduce acc) in
        Ok (if bswapped then ReverseBytes16 acc16 else acc16, odd)
  end.

(** checksum_default.go *)
Definition Checksum (addr : Z) (buf : list Z) (initial : Z) : Z :=
  match calculateChecksum addr buf false initial with
  | Ok (s, _) => s
  | Panic => 0
  end.

End Machine.

(** ** Folding and byte swaps *)

Lemma reduce_OC acc s : 0 <= acc < 18446744073709551616 -> Rep acc s -> OC (reduce acc) s.
Proof.
  intros Ha Hr. unfold reduce.
  rewrite !Z.shiftr_div_pow2, tschecksum.land_ffff, tschecksum.land_ffffffff by lia.
  change (2 ^ 32) with 4294967296. change (2 ^ 16) with 65536.
  assert (Rep (acc mod 4294967296 + acc / 4294967296) s) as H1.
  { apply Rep_carry32; [zdm|zdm|]. by replace (_ + _) with acc by zdm. }
  set (x := u64 (acc / 4294967296 + acc mod 4294967296)).
  replace (acc mod 4294967296 + acc / 4294967296) with x in H1 by (subst x; unfold u64; zdm).
  assert (0 <= x <= 8589934590) as Hx by (subst x; unfold u64; zdm). clearbody x.
  assert (Rep (x mod 4294967296 + x / 4294967296) s) as H2.
  { apply Rep_carry32; [zdm|zdm|]. by replace (_ + _) with x by zdm. }
  set (y := u32 (u64 (x / 4294967296 + x))).
  replace (x mod 4294967296 + x / 4294967296) with y in H2 by (subst y; unfold u32, u64; zdm).
  assert (0 <= y < 4294967296) as Hy by (subst y; unfold u32; zdm). clearbody y.
  apply tschecksum.fold_step in H2; [|lia].
  set (z := u32 (y / 65536 + y mod 65536)).
  replace (y / 65536 + y mod 65536) with z in H2 by (subst z; unfold u32; zdm).
  assert (0 <= z <= 131070) as Hz by (subst z; unfold u32; zdm). clearbody z.
  apply tschecksum.fold_step in H2; [|lia].
  replace (u16 (u32 (z / 65536 + z))) with (z / 65536 + z mod 65536) by (unfold u16, u32; zdm).
  apply Rep_OC; [done|zdm].
Qed.

Lemma ReverseBytes32_Rep x : is_u32 x -> is_u32 (ReverseBytes32 x) /\ Rep (ReverseBytes32 x) (256 * x).
Proof.
  intros. unfold ReverseBytes32, ReverseBytes16. split; [zdm|].
  set (h := x / 65536). set (l := x mod 65536).
  replace x with (65536 * h + l) by (subst h l; zdm).
  assert (0 <= h < 65536 /\ 0 <= l < 65536) by (subst h l; zdm). clearbody h l.
  rep_split; try zdm.
  exists (l mod 256 * 256 + l / 256 - 256 * h - l / 256 - h / 256). zdm.
Qed.

(** Shifting a buffer by one byte scales its sum by 256. *)
Lemma wsum_shift x t : bytes (x :: t) -> Rep (x + wsum t) (256 * wsum (x :: t)).
Proof.
  revert x. induction t as [|y|y z t IH] using list_pair_ind; intros x Hb.
  - apply Forall_cons in Hb as [??]. simpl. rep_split. oc_ex.
  - apply Forall_cons in Hb as [? Hb]. apply Forall_cons in Hb as [??]. simpl.
    rep_split. exists (- x). lia.
  - apply Forall_cons in Hb as [? Hb]. apply Forall_cons in Hb as [? Hb].
    destruct (IH z Hb) as (?&?&?&k&?).
    change (wsum (x :: y :: z :: t)) with (x * 256 + y + wsum (z :: t)).
    change (wsum (y :: z :: t)) with (y * 256 + z + wsum t).
    rep_split. exists (k - x). lia.
Qed.
Lemma lsum_shift x t :
  bytes (x :: t) -> Rep (256 * x + tschecksum.lsum t) (256 * tschecksum.lsum (x :: t)).
Proof.
  revert x. induction t as [|y|y z t IH] using list_pair_ind; intros x Hb.
  - apply Forall_cons in Hb as [??]. simpl. rewrite Z.add_0_r. apply Rep_refl. lia.
  - apply Forall_cons in Hb as [? Hb]. apply Forall_cons in Hb as [??]. simpl.
    rep_split. exists (- y). lia.
  - apply Forall_cons in Hb as [? Hb]. apply Forall_cons in Hb as [? Hb].
    destruct (IH z Hb) as (?&?&?&k&?).
    change (tschecksum.lsum (x :: y :: z :: t)) with (x + 256 * y + tschecksum.lsum (z :: t)).
    change (tschecksum.lsum (y :: z :: t)) with (y + 256 * z + tschecksum.lsum t).
    rep_split. exists (k - y). lia.
Qed.
Lemma nsum_shift be x t :
  bytes (x :: t) -> Rep (bswapIfLittleEndian16 be x + nsum be t) (256 * nsum be (x :: t)).
Proof.
  intros Hb. unfold bswapIfLittleEndian16, nsum. destruct be; [by apply wsum_shift|].
  pose proof (lsum_shift x t Hb). apply Forall_cons in Hb as [? _].
  replace (ReverseBytes16 x) with (256 * x) by (unfold ReverseBytes16; zdm). done.
Qed.

(** ** The blocks *)

(** Invariant: the accumulator has no pending carry. *)
Definition GInv (be : bool) (b0 : list Z) (s0 : Z) (x : list Z * Z) : Prop :=
  Inv be Acc64 b0 s0 (x.1, (x.2, 0)).

Lemma end_around n a s : Acc64 n a s -> Acc64 n ((Add64 a.1 0 a.2).1, 0) s.
Proof.
  intros (?&?&?&Hr). unfold Acc64, Add64; simpl.
  rewrite !Z.add_0_r in *. rewrite Z.mod_small by lia. split_and!; try lia. done.
Qed.

Lemma GInv_step be b0 s0 x k cnt :
  bytes b0 -> 1 <= Z.of_nat k <= 4 -> (2 * k * cnt <= length x.1)%nat -> GInv be b0 s0 x ->
  GInv be b0 s0 (drop (2 * k * cnt) x.1, sum_block be (2 * k) cnt x.1 x.2).
Proof.
  intros Hb Hk Hl Hx. unfold GInv, sum_block.
  pose proof (tschecksum.Inv_step be Add64 Acc64 4 ((Zlen b0 + 1) / 2)
    ltac:(intros; by apply tschecksum.Add64_ok) b0 s0 (x.1, (x.2, 0)) k cnt Hb ltac:(lia) Hk Hl Hx)
    as (p & He & Hp & Hi).
  exists p. cbn [fst snd] in *. split; [done|]. split; [done|].
  apply end_around in Hi. destruct (add_words be Add64 (2 * k) cnt x.1 (x.2, 0)). done.
Qed.
Lemma GInv_block be b0 s0 x k cnt :
  bytes b0 -> 1 <= Z.of_nat k <= 4 -> GInv be b0 s0 x ->
  GInv be b0 s0 (block be (2 * k * cnt) (2 * k) cnt x).
Proof.
  intros. unfold block. destruct (Nat.leb_spec (2 * k * cnt) (length x.1)); [|done].
  by apply GInv_step.
Qed.
Lemma GInv_block_loop be fuel b0 s0 x k cnt :
  bytes b0 -> 1 <= Z.of_nat k <= 4 -> GInv be b0 s0 x ->
  GInv be b0 s0 (block_loop be fuel (2 * k * cnt) (2 * k) cnt x).
Proof.
  revert x. induction fuel as [|fuel IH]; intros x ???; cbn [block_loop]; [done|].
  destruct (Nat.leb_spec (2 * k * cnt) (length x.1)); [|done].
  apply IH; try done. by apply GInv_step.
Qed.
Lemma block_loop_len be fuel n w cnt x :
  (0 < n)%nat -> (length x.1 <= fuel)%nat -> (length (block_loop be fuel n w cnt x).1 < n)%nat.
Proof.
  intros Hn. revert x. induction fuel as [|fuel IH]; intros x Hx; simpl; [lia|].
  destruct (Nat.leb_spec n (length x.1)); [|lia]. apply IH. simpl. rewrite length_drop. lia.
Qed.
Lemma block_len be n w cnt x : (length x.1 < 2 * n)%nat -> (length (block be n w cnt x).1 < n)%nat.
Proof.
  intros. unfold block. destruct (Nat.leb_spec n (length x.1)); simpl; [rewrite length_drop|]; lia.
Qed.

Lemma last_byte_ok be b0 s0 x :
  bytes b0 -> (length x.1 < 2)%nat -> GInv be b0 s0 x ->
  0 <= last_byte be x < 18446744073709551616 /\ Rep (last_byte be x) (s0 + nsum be b0).
Proof.
  intros Hb Hl Hx. destruct x as [b acc].
  destruct (tschecksum.Inv_last be Add64 Acc64 4 ((Zlen b0 + 1) / 2)
    ltac:(intros; by apply tschecksum.Add64_ok) b0 s0 (b, (acc, 0)) Hb ltac:(lia) ltac:(lia) Hl Hx)
    as (n & _ & Ha).
  assert (Acc64 n (last_byte be (b, acc), 0) (s0 + nsum be b0)) as (?&?&?&Hr).
  { unfold last_byte, tschecksum.block_last in *. cbn [fst snd] in *.
    destruct (Nat.leb_spec 1 (length b)); [|done].
    replace (bswapIfBigEndian16 be (byte_at b 0)) with (load_last be b).
    - apply end_around in Ha. by destruct (Add64 acc (load_last be b) 0).
    - destruct b as [|x t]; [simpl in *; lia|].
      destruct Hx as (p & -> & _). cbn [fst] in Hb. apply bytes_app in Hb as [_ Hb].
      apply Forall_cons in Hb as [? _]. unfold load_last, bswapIfBigEndian16, byte_at. simpl.
      destruct be; [|done]. rewrite Z.shiftl_mul_pow2 by lia. unfold ReverseBytes16. zdm. }
  simpl in *. rewrite Z.add_0_r in *. done.
Qed.

Lemma sum_rest_ok be b acc s :
  bytes b -> 0 <= acc < 18446744073709551616 -> Rep acc s ->
  0 <= sum_rest be b acc < 18446744073709551616 /\ Rep (sum_rest be b acc) (s + nsum be b).
Proof.
  intros Hb Ha Hr. apply last_byte_ok; [done| |].
  - repeat (apply block_len; simpl Nat.mul). apply block_loop_len; [lia|simpl; lia].
  - eapply (GInv_block be _ _ _ 1 1); [done|lia|].
    eapply (GInv_block be _ _ _ 2 1); [done|lia|].
    eapply (GInv_block be _ _ _ 4 1); [done|lia|].
    eapply (GInv_block be _ _ _ 4 2); [done|lia|].
    eapply (GInv_block be _ _ _ 4 4); [done|lia|].
    eapply (GInv_block_loop be _ _ _ _ 4 8); [done|lia|].
    apply tschecksum.Inv_start. split_and!; simpl; try lia. by rewrite Z.add_0_r.
Qed.

(** ** Alignment *)

Lemma alignN_ok be k buf acc addr s B :
  bytes buf -> 1 <= Z.of_nat k <= 2 -> (2 * k <= length buf)%nat -> 0 <= acc <= B -> B <= 17179869184 ->
  Rep acc s ->
  exists p buf' acc' addr', alignN be (2 * k) (buf, acc, addr) = (buf', acc', addr') /\
    buf = p ++ buf' /\ Z.Even (Zlen p) /\ Zlen p <= Z.of_nat (2 * k) /\
    0 <= acc' <= B + 4294967296 /\ Rep acc' (s + nsum be p).
Proof.
  intros Hb Hk Hl Ha HB Hr. unfold alignN. destruct (negb _).
  - exists (take (2 * k) buf). do 3 eexists. split; [done|].
    pose proof (tschecksum.load_bound be (2 * k) buf Hb Hl) as Hlb.
    assert (256 ^ Z.of_nat (2 * k) <= 4294967296)
      by (change 4294967296 with (256 ^ 4); apply Z.pow_le_mono_r; lia).
    rewrite take_drop. unfold Zlen. rewrite length_take.
    unfold u64. rewrite Z.mod_small by lia. split_and!; try lia; try done.
    + exists (Z.of_nat k). lia.
    + apply Rep_add; [done|]. apply tschecksum.load_Rep; [done|by exists k|done].
  - exists [], buf, acc, addr. split_and!; try done; try (unfold Zlen; simpl; lia).
    + by exists 0.
    + destruct be; simpl; by rewrite Z.add_0_r.
Qed.

(** The loads at alignment 2, 4 and the rest of the buffer. *)
Lemma align_rest_ok be buf acc addr s :
  bytes buf -> (7 <= length buf)%nat -> 0 <= acc <= 4294967296 + 65536 -> Rep acc s ->
  exists b' acc' addr', alignN be 4 (alignN be 2 (buf, acc, addr)) = (b', acc', addr') /\
    OC (reduce (sum_rest be b' acc')) (s + nsum be buf).
Proof.
  intros Hb Hl Ha Hr.
  destruct (alignN_ok be 1 buf acc addr s 4295032832) as (p1 & b1 & a1 & d1 & E1 & -> & Hp1 & ? & ? & Hr1);
    try done; try lia.
  rewrite length_app in Hl. change (2 * 1)%nat with 2%nat in *. rewrite E1. unfold Zlen in *.
  apply bytes_app in Hb as [Hb1 Hb2].
  destruct (alignN_ok be 2 b1 a1 d1 (s + nsum be p1) 8590000128) as (p2 & b2 & a2 & d2 & E2 & -> & Hp2 & ? & ? & Hr2);
    try done; try lia.
  change (2 * 2)%nat with 4%nat in *. rewrite E2. do 3 eexists. split; [done|].
  apply bytes_app in Hb2 as [Hb2 Hb3].
  destruct (sum_rest_ok be b2 a2 (s + nsum be p1 + nsum be p2) Hb3 ltac:(lia) Hr2) as [? Hr3].
  rewrite !tschecksum.nsum_app, !Z.add_assoc by done. by apply reduce_OC.
Qed.

Lemma bswap32_Rep be acc : 0 <= acc < 65536 + 256 ->
  is_u32 (bswapIfLittleEndian32 be (u32 acc)) /\
  Rep (bswapIfLittleEndian32 be (u32 acc)) (if be then acc else 256 * acc).
Proof.
  intros. unfold bswapIfLittleEndian32. rewrite u32_small by lia.
  destruct be; [split; [lia|apply Rep_refl; lia]|]. apply ReverseBytes32_Rep. lia.
Qed.

(** Undoing the swap of the machine, and of an odd address. *)
Lemma bswap16_OC (be : bool) f acc b :
  bytes b -> 0 <= acc -> OC f ((if be then acc else 256 * acc) + nsum be b) ->
  OC (bswapIfLittleEndian16 be f) (acc + wsum b).
Proof.
  intros Hb Ha Hf. unfold bswapIfLittleEndian16, nsum in *. destruct be; [done|].
  pose proof (OC_range _ _ Hf) as Hfr. pose proof (tschecksum.ReverseBytes16_range f Hfr).
  apply Rep_OC; [|lia]. apply Rep_unscale.
  eapply Rep_trans; [by apply tschecksum.ReverseBytes16_Rep|]. apply Rep_scale.
  eapply Rep_trans; [by apply OC_Rep|]. rewrite Z.mul_add_distr_l.
  apply Rep_add; [apply Rep_refl; lia|by apply tschecksum.lsum_Rep].
Qed.
Lemma Rep_mult v s : Rep v (256 * s) -> Rep (256 * v) s.
Proof. intros H. apply Rep_unscale. by apply Rep_scale in H. Qed.
Lemma swap_OC f s : 0 <= s -> OC f (256 * s) -> OC (ReverseBytes16 f) s.
Proof.
  intros Hs Hf. pose proof (OC_range _ _ Hf) as Hfr. pose proof (tschecksum.ReverseBytes16_range f Hfr).
  apply Rep_OC; [|lia]. eapply Rep_trans; [by apply tschecksum.ReverseBytes16_Rep|].
  apply Rep_mult. by apply OC_Rep.
Qed.
Lemma Rep_OC_trans f v s : OC f v -> Rep v s -> OC f s.
Proof.
  intros Hf Hr. pose proof (OC_range _ _ Hf). apply Rep_OC; [|lia].
  eapply Rep_trans; [by apply OC_Rep|done].
Qed.

Lemma small_ok buf acc :
  bytes buf -> 0 <= acc < 65792 -> Zlen buf < 8 -> OC (reduce (small buf acc)) (acc + wsum buf).
Proof.
  intros Hb Ha Hl. cut (small buf acc = acc + wsum buf).
  { intros ->. pose proof (wsum_nonneg buf Hb).
    assert (wsum buf <= 4 * 65535).
    { unfold Zlen in Hl.
      do 8 (destruct buf as [|? buf]; [simpl; repeat match goal with H : bytes (_ :: _) |- _ =>
        apply Forall_cons in H as [??] end; unfold bytes in *;
        repeat match goal with H : Forall _ (_ :: _) |- _ => apply Forall_cons in H as [??] end; lia|]).
      simpl in Hl. lia. }
    apply reduce_OC; [lia|apply Rep_refl; lia]. }
  unfold small, Zlen, u64, byte_at in *.
  do 8 (destruct buf as [|? buf]; [simpl; unfold bytes in Hb;
    repeat match goal with H : Forall _ (_ :: _) |- _ => apply Forall_cons in H as [??] end;
    rewrite ?Z.shiftl_mul_pow2 by lia; simpl (2 ^ 8); zdm|]).
  simpl in Hl. lia.
Qed.

(** The routine after the initial odd byte. *)
Lemma body_ok be addr buf acc :
  bytes buf -> 0 <= acc < 65792 -> 8 <= Zlen buf ->
  OC (let acc := bswapIfLittleEndian32 be (u32 acc) in
      let '(s, bswapped) := align1 be (buf, acc, addr) in
      let '(buf, acc, _) := alignN be 4 (alignN be 2 s) in
      let acc := sum_rest be buf acc in
      let acc16 := bswapIfLittleEndian16 be (reduce acc) in
      if bswapped then ReverseBytes16 acc16 else acc16) (acc + wsum buf).
Proof.
  intros Hb Ha Hl. cbv zeta. destruct (bswap32_Rep be acc ltac:(lia)) as [Hr0 Hr].
  set (a0 := bswapIfLittleEndian32 be (u32 acc)) in *. clearbody a0.
  unfold align1. destruct (negb (Z.land addr 1 =? 0)).
  - destruct buf as [|x t]; [unfold Zlen in Hl; simpl in Hl; lia|].
    pose proof (nsum_shift be x t Hb) as Hsh. rewrite Zlen_cons in Hl.
    rewrite u32_small by done. destruct (ReverseBytes32_Rep a0 Hr0) as [Hr1 Hr2].
    assert (is_u8 x /\ bytes t) as [Hx Ht] by by apply Forall_cons in Hb.
    assert (0 <= bswapIfLittleEndian16 be x <= 65280)
      by (unfold bswapIfLittleEndian16, ReverseBytes16; destruct be; zdm).
    change (byte_at (x :: t) 0) with x. change (drop 1 (x :: t)) with t.
    set (w := bswapIfLittleEndian16 be x) in *.
    unfold u64. rewrite Z.mod_small by lia.
    destruct (align_rest_ok be t (ReverseBytes32 a0 + w) (addr + 1) (ReverseBytes32 a0 + w))
      as (b' & a' & d' & -> & HO); [done|unfold Zlen in Hl; lia|lia|apply Rep_refl; lia|].
    apply swap_OC; [pose proof (wsum_nonneg (x :: t) Hb); lia|].
    (* the odd address scales the whole sum by 256 *)
    assert (OC (reduce (sum_rest be b' a')) (256 * ((if be then acc else 256 * acc) + nsum be (x :: t)))) as HO'.
    { eapply Rep_OC_trans; [done|]. rewrite <- Z.add_assoc, Z.mul_add_distr_l. apply Rep_add; [|done].
      eapply Rep_trans; [done|]. by apply Rep_scale. }
    unfold bswapIfLittleEndian16, nsum in *. destruct be; [done|].
    pose proof (OC_range _ _ HO') as Hfr. pose proof (tschecksum.ReverseBytes16_range _ Hfr).
    apply Rep_OC; [|lia]. eapply Rep_trans; [by apply tschecksum.ReverseBytes16_Rep|]. apply Rep_scale.
    eapply Rep_trans; [by apply OC_Rep|]. rewrite !Z.mul_add_distr_l.
    apply Rep_add; [apply Rep_unscale, Rep_refl; lia|by apply tschecksum.lsum_Rep].
  - destruct (align_rest_ok be buf a0 addr (if be then acc else 256 * acc) Hb) as (b' & a' & d' & -> & HO);
      [unfold Zlen in Hl; lia|lia|done|]. apply bswap16_OC; [done|lia|done].
Qed.

Lemma land1_odd n : negb (Z.land n 1 =? 0) = Z.odd n.
Proof.
  change 1 with (Z.ones 1). rewrite Z.land_ones by lia. simpl. rewrite Zmod_odd.
  by destruct (Z.odd n).
Qed.

Lemma calculateChecksum_even be addr buf initial :
  bytes buf -> is_u16 initial ->
  calculateChecksum be addr buf false initial = Ok (rfc1071 buf initial, Z.odd (Zlen buf)).
Proof.
  intros Hb Hi. unfold calculateChecksum. rewrite land1_odd. destruct (Z.ltb_spec (Zlen buf) 8).
  - do 2 f_equal. eapply OC_unique; [apply small_ok; [done|lia|lia]|by apply rfc1071_OC].
  - pose proof (body_ok be addr buf initial Hb ltac:(lia) ltac:(lia)) as HO. cbv zeta in *.
    destruct (align1 be _) as [s0 sw]. destruct (alignN be 4 (alignN be 2 s0)) as [[b' a'] d'].
    do 2 f_equal. eapply OC_unique; [exact HO|by apply rfc1071_OC].
Qed.

Lemma calculateChecksum_odd be addr x t initial :
  bytes (x :: t) -> is_u16 initial ->
  exists r, calculateChecksum be addr (x :: t) true initial = Ok (r, Z.odd (Zlen t)) /\
            OC r (initial + x + wsum t).
Proof.
  intros Hb Hi. unfold calculateChecksum. rewrite land1_odd. apply Forall_cons in Hb as [Hx Hb].
  destruct (Z.ltb_spec (Zlen t) 8).
  - eexists. split; [done|]. apply small_ok; [done|lia|lia].
  - pose proof (body_ok be (addr + 1) t (initial + x) Hb ltac:(lia) ltac:(lia)) as HO. cbv zeta in *.
    destruct (align1 be _) as [s0 sw]. destruct (alignN be 4 (alignN be 2 s0)) as [[b' a'] d'].
    eexists. split; [done|exact HO].
Qed.

(** Sum of a concatenation whose first part has odd length. *)
Lemma wsum_app_odd a x t : Z.Odd (Zlen a) -> wsum (a ++ x :: t) = wsum a + x + wsum t.
Proof.
  intros Ho. destruct (exists_last (l := a)) as (p & y & ->).
  { intros ->. destruct Ho as [k Hk]. unfold Zlen in Hk. simpl in Hk. lia. }
  assert (Z.Even (Zlen p)).
  { destruct Ho as [k Hk]; exists k. rewrite Zlen_app in Hk. unfold Zlen in *. simpl in Hk. lia. }
  rewrite <- app_assoc, (wsum_app p ([y] ++ _)), (wsum_app p [y]) by done. simpl. lia.
Qed.

(** The non-amd64 checksum.Checksum, for any placement of the buffer. *)
#[export] Instance gv_impl (be : bool) (addr : Z) : ChecksumImpl.
Proof.
  refine {| Checksum.Checksum := Checksum be addr |}.
  intros b initial Hb Hi. unfold Checksum. by rewrite calculateChecksum_even.
Defined.

(** C14: calculateChecksum computes the RFC 1071 sum of the buffer for every
    address of the buffer modulo 8 and both byte orders, and reports whether
    the length was odd. *)
Theorem calculateChecksum_correct be addr buf initial :
  bytes buf -> is_u16 initial ->
  calculateChecksum be addr buf false initial = Ok (rfc1071 buf initial, Z.odd (Zlen buf)).
Proof. apply calculateChecksum_even. Qed.

(** Summing two non-empty buffers one after the other, passing on the odd
    flag and the partial sum, gives the sum of their concatenation wherever
    the two buffers lie in memory. *)
Lemma calculateChecksum_chain be addr1 addr2 b1 b2 initial s odd :
  bytes b1 -> bytes b2 -> b2 <> [] -> is_u16 initial ->
  calculateChecksum be addr1 b1 false initial = Ok (s, odd) ->
  calculateChecksum be addr2 b2 odd s
    = Ok (rfc1071 (b1 ++ b2) initial, Z.odd (Zlen (b1 ++ b2))).
Proof.
  intros Hb1 Hb2 Hne Hi. rewrite calculateChecksum_even by done. intros [= <- <-].
  pose proof (rfc1071_OC b1 initial Hb1 Hi) as HO1. pose proof (OC_range _ _ HO1) as Hr1.
  assert (bytes (b1 ++ b2)) as Hb by by apply bytes_app.
  assert (Z.odd (Zlen (b1 ++ b2)) = xorb (Z.odd (Zlen b1)) (Z.odd (Zlen b2))) as ->
    by (rewrite Zlen_app; apply Z.odd_add).
  destruct (Z.odd (Zlen b1)) eqn:Eo; simpl xorb.
  - destruct b2 as [|x t]; [done|].
    destruct (calculateChecksum_odd be addr2 x t _ Hb2 Hr1) as (r & -> & HO2).
    do 2 f_equal; [|by rewrite Zlen_cons, Z.odd_add; destruct (Z.odd (Zlen t))].
    eapply OC_unique; [|by apply rfc1071_OC].
  rewrite wsum_app_odd by by apply Z.odd_spec.
    eapply Rep_OC_trans; [exact HO2|]. rewrite !Z.add_assoc, <- Z.add_assoc.
    rewrite <- (Z.add_assoc (initial + wsum b1)).
    pose proof (wsum_nonneg t). apply Forall_cons in Hb2 as [??].
    apply Rep_add; [by apply OC_Rep|]. apply Rep_refl. intuition lia.
  - rewrite calculateChecksum_even by done. do 2 f_equal.
    eapply OC_unique; [|by apply rfc1071_OC].
    rewrite wsum_app, Z.add_assoc by (apply Z.even_spec; by rewrite <- Z.negb_odd, Eo).
    eapply Rep_OC_trans; [by apply rfc1071_OC|].
    apply Rep_add; [by apply OC_Rep|]. apply Rep_refl. by apply wsum_nonneg.
Qed.

Definition sample_buf : list Z :=
  [69; 0; 0; 29; 255; 255; 64; 0; 64; 17; 0; 0; 10; 0; 0; 1; 10; 0; 0; 2; 255; 254; 1].

Lemma calculateChecksum_correct_witness :
  calculateChecksum false 3 sample_buf false 9 = Ok (rfc1071 sample_buf 9, true).
Proof. apply (calculateChecksum_correct false 3 sample_buf 9); [unfold bytes; repeat constructor; lia|lia]. Defined.

End gvchecksum.
