(* ===== verification/Tcpip.v ===== *)
(** * internal/gtcpip/tcpip.go: addresses, masks and subnets

    [Address] and [AddressMask] are a 16-byte array with a length; equality of
    the Go structs is equality of both fields. *)
From S2P Require Import Prelude Bytes GoMem.

Module tcpip.

Record Address := mkAddress { addr : list Z; addr_length : Z }.
#[global] Instance Address_eq_dec : EqDecision Address.
Proof. solve_decision. Defined.

(** [copy(ret[:], b)] into a zeroed 16-byte array. *)
Definition pad16 (b : list Z) : list Z := take 16 (b ++ repeat 0 16).

Definition AddressZero : Address := mkAddress (repeat 0 16%nat) 0.

Definition AddrFrom4 (a : list Z) : Address := mkAddress (pad16 a) 4.
Definition AddrFrom16 (a : list Z) : Address := mkAddress (pad16 a) 16.
Definition AddrFrom4Slice (a : list Z) : res Address :=
  if Zlen a =? 4 then Ok (AddrFrom4 a) else Panic.
Definition AddrFrom16Slice (a : list Z) : res Address :=
  if Zlen a =? 16 then Ok (AddrFrom16 a) else Panic.
Definition AddrFromSlice (a : list Z) : res Address :=
  if Zlen a =? 4 then AddrFrom4Slice a
  else if Zlen a =? 16 then AddrFrom16Slice a
  else Ok AddressZero.

Definition Len (a : Address) : Z := addr_length a.
Definition BitLen (a : Address) : Z := Len a * 8.
(** [a.addr[:a.length]]; the length of an [Address] is at most 16 ([wf_Address]
    below, kept by every constructor), so the slice expression is in range. *)
Definition AsSlice (a : Address) : list Z := take (Z.to_nat (addr_length a)) (addr a).
Definition As4 (a : Address) : res (list Z) := if Len a =? 4 then Ok (take 4 (addr a)) else Panic.
Definition As16 (a : Address) : res (list Z) := if Len a =? 16 then Ok (take 16 (addr a)) else Panic.
Definition Unspecified (a : Address) : bool := forallb (fun b => b =? 0) (addr a).
Definition Equal (a other : Address) : bool := bool_decide (a = other).

(** ** MatchingPrefix *)

(** The inner loop: bits from the most significant one, while they agree. *)
Fixpoint matching_bits (fuel : nat) (aByte bByte mask prefix : Z) : Z :=
  match fuel with
  | O => prefix
  | S fuel' =>
      if Z.land aByte mask =? Z.land bByte mask
      then matching_bits fuel' aByte bByte (Z.shiftr mask 1) (u8 (prefix + 1))
      else prefix
  end.
Fixpoint matching_bytes (a b : list Z) (prefix : Z) : Z :=
  match a, b with
  | aByte :: a', bByte :: b' =>
      if aByte =? bByte then matching_bytes a' b' (u8 (prefix + 8))
      else matching_bits 8 aByte bByte 128 prefix
  | _, _ => prefix
  end.
Definition MatchingPrefix (a b : Address) : res Z :=
  if negb (Len a =? Len b) then Panic
  else Ok (matching_bytes (AsSlice a) (AsSlice b) 0).

(** ** Masks *)

Record AddressMask := mkMask { mask : list Z; mask_length : Z }.
#[global] Instance AddressMask_eq_dec : EqDecision AddressMask.
Proof. solve_decision. Defined.

Definition MaskFromBytes (bs : list Z) : AddressMask := mkMask (pad16 bs) (Zlen bs).
Definition MaskAsSlice (m : AddressMask) : res (list Z) :=
  if mask_length m <=? 16 then Ok (take (Z.to_nat (mask_length m)) (mask m)) else Panic.
Definition MaskBitLen (m : AddressMask) : Z := mask_length m * 8.
Definition MaskLen (m : AddressMask) : Z := mask_length m.
(** [bits.LeadingZeros8] *)
Definition LeadingZeros8 (x : Z) : Z := if x =? 0 then 8 else 7 - Z.log2 x.
Definition MaskPrefix (m : AddressMask) : res Z :=
  rbind (MaskAsSlice m) (fun s => Ok (fold_left (fun p b => p + LeadingZeros8 (not8 b)) s 0)).

(** ** Subnets *)

Record Subnet := mkSubnet { sn_address : Address; sn_mask : AddressMask }.
#[global] Instance Subnet_eq_dec : EqDecision Subnet.
Proof. solve_decision. Defined.

Inductive subnet_error := errSubnetLengthMismatch | errSubnetAddressMasked.

(** [a &^ m] on bytes. *)
Definition andnot8 (a m : Z) : Z := Z.land a (not8 m).

Definition NewSubnet (a : Address) (m : AddressMask) : Subnet + subnet_error :=
  if negb (Len a =? MaskLen m) then inr errSubnetLengthMismatch
  else if forallb (fun p => andnot8 p.1 p.2 =? 0)
            (take (Z.to_nat (Len a)) (zip (addr a) (mask m)))
  then inl (mkSubnet a m)
  else inr errSubnetAddressMasked.

Definition Contains (s : Subnet) (a : Address) : bool :=
  if negb (Len a =? Len (sn_address s)) then false
  else forallb (fun p => Z.land p.1.1 p.1.2 =? p.2)
         (take (Z.to_nat (Len a)) (zip (zip (addr a) (mask (sn_mask s))) (addr (sn_address s)))).

Definition ID (s : Subnet) : Address := sn_address s.
Definition Prefix (s : Subnet) : res Z := MaskPrefix (sn_mask s).
Definition Bits (s : Subnet) : res (Z * Z) :=
  rbind (MaskPrefix (sn_mask s)) (fun ones => Ok (ones, MaskBitLen (sn_mask s) - ones)).
Definition Broadcast (s : Subnet) : Address :=
  let n := Z.to_nat (Len (sn_address s)) in
  mkAddress
    (zip_with (fun a m => Z.lor a (not8 m)) (take n (addr (sn_address s))) (take n (mask (sn_mask s)))
     ++ drop n (addr (sn_address s)))
    (Len (sn_address s)).
Definition IsBroadcast (s : Subnet) (address : Address) : res bool :=
  if negb (Len address =? 4) then Ok false
  else rbind (Prefix s) (fun p => Ok ((p <=? 30) && Equal (Broadcast s) address)).

(** ** AddressWithPrefix *)

Record AddressWithPrefix := mkAWP { awp_Address : Address; awp_PrefixLen : Z }.

Definition WithPrefix (a : Address) : AddressWithPrefix := mkAWP a (BitLen a).

(** The loop of [AddressWithPrefix.Subnet]: bytes of the address and of the
    mask, with [n] prefix bits left. *)
Fixpoint subnet_bytes (n : Z) (a : list Z) : list (Z * Z) :=
  match a with
  | [] => []
  | x :: a' =>
      if 8 <=? n then (x, 255) :: subnet_bytes (n - 8) a'
      else let m := not8 (Z.shiftr 255 n) in (Z.land x m, m) :: subnet_bytes 0 a'
  end.

Definition AWP_Subnet (a : AddressWithPrefix) : res Subnet :=
  let addrLen := addr_length (awp_Address a) in
  if awp_PrefixLen a <=? 0 then
    Ok (mkSubnet (mkAddress (repeat 0 16) addrLen) (mkMask (repeat 0 16) addrLen))
  else if addrLen * 8 <=? awp_PrefixLen a then
    Ok (mkSubnet (awp_Address a) (mkMask (pad16 (repeat 255 (Z.to_nat addrLen))) addrLen))
  else
    let bs := subnet_bytes (awp_PrefixLen a) (AsSlice (awp_Address a)) in
    match NewSubnet (mkAddress (pad16 bs.*1) addrLen) (mkMask (pad16 bs.*2) addrLen) with
    | inl s => Ok s
    | inr _ => Panic
    end.

(** ** Well-formedness *)

Definition wf_Address (a : Address) : Prop :=
  length (addr a) = 16%nat /\ bytes (addr a) /\ (addr_length a = 0 \/ addr_length a = 4 \/ addr_length a = 16).

Lemma length_pad16 b : length (pad16 b) = 16%nat.
Proof. unfold pad16. rewrite length_take, length_app, repeat_length. lia. Qed.
Lemma bytes_repeat x n : is_u8 x -> bytes (repeat x n).
Proof. intros. induction n; simpl; [constructor|]. by constructor. Qed.
Lemma bytes_pad16 b : bytes b -> bytes (pad16 b).
Proof. intros. unfold pad16. apply Forall_take, bytes_app. split; [done|]. apply bytes_repeat. lia. Qed.
Lemma take_pad16 b n : (length b <= 16)%nat -> n = length b -> take n (pad16 b) = b.
Proof.
  intros ? ->. unfold pad16. rewrite firstn_firstn, Nat.min_l by lia. by rewrite take_app_le, take_ge by lia.
Qed.
Lemma wf_AddrFrom4 b : bytes b -> wf_Address (AddrFrom4 b).
Proof. intros. unfold wf_Address; simpl. auto using length_pad16, bytes_pad16. Qed.
Lemma wf_AddrFrom16 b : bytes b -> wf_Address (AddrFrom16 b).
Proof. intros. unfold wf_Address; simpl. auto using length_pad16, bytes_pad16. Qed.
Lemma AsSlice_AddrFrom4 b : length b = 4%nat -> AsSlice (AddrFrom4 b) = b.
Proof. intros. unfold AsSlice; simpl. apply take_pad16; [lia|simpl; lia]. Qed.
Lemma AsSlice_AddrFrom16 b : length b = 16%nat -> AsSlice (AddrFrom16 b) = b.
Proof. intros. unfold AsSlice; simpl. apply take_pad16; [lia|simpl; lia]. Qed.
Lemma Zlen_AsSlice a : wf_Address a -> Zlen (AsSlice a) = Len a.
Proof. intros (?&_&H). unfold AsSlice, Len, Zlen. rewrite length_take. lia. Qed.
Lemma bytes_AsSlice a : wf_Address a -> bytes (AsSlice a).
Proof. intros (_&?&_). by apply Forall_take. Qed.
Lemma AddrFrom4_inj a b :
  length a = 4%nat -> length b = 4%nat -> AddrFrom4 a = AddrFrom4 b -> a = b.
Proof. intros Ha Hb He. apply (f_equal AsSlice) in He. by rewrite !AsSlice_AddrFrom4 in He. Qed.
Lemma AddrFrom16_inj a b :
  length a = 16%nat -> length b = 16%nat -> AddrFrom16 a = AddrFrom16 b -> a = b.
Proof. intros Ha Hb He. apply (f_equal AsSlice) in He. by rewrite !AsSlice_AddrFrom16 in He. Qed.

(** ** Matching bits of one byte *)

Lemma land_eq_lxor x y m : (Z.land x m =? Z.land y m) = (Z.land (Z.lxor x y) m =? Z.land 0 m).
Proof.
  rewrite Z.land_0_l. apply eq_true_iff_eq. rewrite !Z.eqb_eq.
  assert (Z.land (Z.lxor x y) m = Z.lxor (Z.land x m) (Z.land y m)) as ->.
  { apply Z.bits_inj'. intros n Hn. rewrite Z.lxor_spec, !Z.land_spec, Z.lxor_spec.
    by destruct (Z.testbit x n), (Z.testbit y n), (Z.testbit m n). }
  by rewrite Z.lxor_eq_0_iff.
Qed.
Lemma matching_bits_lxor f x y m p : matching_bits f x y m p = matching_bits f (Z.lxor x y) 0 m p.
Proof. revert m p. induction f as [|f IH]; intros; simpl; [done|]. by rewrite land_eq_lxor, IH. Qed.

Lemma byte_cases (P : Z -> bool) :
  forallb P (map Z.of_nat (seq 0 256)) = true -> forall d, is_u8 d -> P d = true.
Proof.
  rewrite forallb_forall. intros H d Hd. apply H. apply in_map_iff. exists (Z.to_nat d).
  split; [lia|]. apply in_seq. lia.
Qed.
Lemma lxor_u8 x y : is_u8 x -> is_u8 y -> is_u8 (Z.lxor x y).
Proof.
  intros Hx Hy. assert (0 <= Z.lxor x y) by (apply Z.lxor_nonneg; lia).
  split; [done|]. destruct (Z.eq_dec (Z.lxor x y) 0); [lia|].
  apply (Z.log2_lt_pow2 _ 8); [lia|]. pose proof (Z.log2_lxor x y ltac:(lia) ltac:(lia)) as Hl.
  assert (forall z, is_u8 z -> Z.log2 z < 8) as H8.
  { intros z Hz. destruct (Z.eq_dec z 0) as [->|]; [done|]. apply Z.log2_lt_pow2; simpl; lia. }
  pose proof (H8 x Hx). pose proof (H8 y Hy). lia.
Qed.
Lemma byte_table :
  forallb (fun d => let r := matching_bits 8 d 0 128 0 in
    (d =? 0) || ((r <? 8) && forallb (fun n => Bool.eqb (Z.land d (not8 (Z.shiftr 255 n)) =? 0) (n <=? r))
      (map Z.of_nat (seq 0 8)))) (map Z.of_nat (seq 0 256)) = true.
Proof. vm_compute. reflexivity. Qed.

(** For distinct bytes, a mask of [n] leading ones cannot tell them apart
    exactly when [n] is at most the number of matching bits. *)
Lemma matching_bits_mask x y n :
  is_u8 x -> is_u8 y -> x <> y -> 0 <= n < 8 ->
  matching_bits 8 x y 128 0 < 8 /\
  (Z.land y (not8 (Z.shiftr 255 n)) =? Z.land x (not8 (Z.shiftr 255 n)))
    = (n <=? matching_bits 8 x y 128 0).
Proof.
  intros Hx Hy Hne Hn. rewrite Z.eqb_sym, land_eq_lxor, matching_bits_lxor, Z.land_0_l.
  pose proof (byte_cases _ byte_table (Z.lxor x y) (lxor_u8 _ _ Hx Hy)) as Ht. cbv zeta in Ht.
  apply orb_true_iff in Ht as [Ht|Ht].
  - apply Z.eqb_eq, Z.lxor_eq in Ht. done.
  - apply andb_true_iff in Ht as [H1 H2]. apply Z.ltb_lt in H1. split; [done|].
    rewrite forallb_forall in H2. apply Bool.eqb_prop, H2, in_map_iff. exists (Z.to_nat n).
    split; [lia|]. apply in_seq. lia.
Qed.

Lemma matching_bits_acc f x y m p :
  0 <= p -> p + Z.of_nat f < 256 ->
  p <= matching_bits f x y m p <= p + Z.of_nat f /\
  matching_bits f x y m p = p + matching_bits f x y m 0.
Proof.
  revert m p. induction f as [|f IH]; intros m p Hp Hf; simpl; [lia|].
  destruct (_ =? _); [|lia]. rewrite !u8_small by lia.
  destruct (IH (Z.shiftr m 1) (p + 1) ltac:(lia) ltac:(lia)) as [? ->].
  destruct (IH (Z.shiftr m 1) (0 + 1) ltac:(lia) ltac:(lia)) as [? E]. rewrite E.
  destruct (IH (Z.shiftr m 1) 0 ltac:(lia) ltac:(lia)). lia.
Qed.
Lemma matching_bytes_acc a b p :
  length a = length b -> 0 <= p -> p + 8 * Zlen a < 256 ->
  p <= matching_bytes a b p <= p + 8 * Zlen a /\ matching_bytes a b p = p + matching_bytes a b 0.
Proof.
  revert b p. induction a as [|x a IH]; intros [|y b] p Hl Hp Hb; simpl in Hl; cbn [matching_bytes]; try (unfold Zlen; simpl; lia).
  rewrite Zlen_cons in *. pose proof (Zlen_nonneg a). destruct (Z.eqb_spec x y).
  - rewrite !u8_small by lia. destruct (IH b (p + 8) ltac:(lia) ltac:(lia) ltac:(lia)) as [? ->].
    destruct (IH b (0 + 8) ltac:(lia) ltac:(lia) ltac:(lia)) as [? ->].
    destruct (IH b 0 ltac:(lia) ltac:(lia) ltac:(lia)). lia.
  - destruct (matching_bits_acc 8 x y 128 p ltac:(lia) ltac:(lia)). lia.
Qed.

(** ** Subnets and prefixes *)

Lemma land_255 y : is_u8 y -> Z.land y 255 = y.
Proof. intros. change 255 with (Z.ones 8). rewrite Z.land_ones by lia. apply Z.mod_small. simpl. lia. Qed.


(** The test of [Contains] on the bytes within the length. *)
Definition contains_bytes (bs : list (Z * Z)) (ys : list Z) : bool :=
  forallb (fun p => Z.land p.1.1 p.1.2 =? p.2) (zip (zip ys bs.*2) bs.*1).

Lemma contains_bytes_cons x m bs y ys :
  contains_bytes ((x, m) :: bs) (y :: ys) = (Z.land y m =? x) && contains_bytes bs ys.
Proof. done. Qed.
Lemma contains_zero xs ys :
  length xs = length ys -> contains_bytes (subnet_bytes 0 xs) ys = true.
Proof.
  revert ys. induction xs as [|x xs IH]; intros [|y ys] Hl; simpl in *; try done.
  change (not8 (Z.shiftr 255 0)) with 0. rewrite contains_bytes_cons, !Z.land_0_r. apply IH. lia.
Qed.
Lemma contains_matching n xs ys :
  bytes xs -> bytes ys -> length xs = length ys -> 0 <= n -> Zlen xs <= 16 ->
  contains_bytes (subnet_bytes n xs) ys = (Z.min n (8 * Zlen xs) <=? matching_bytes xs ys 0).
Proof.
  revert n ys. induction xs as [|x xs IH]; intros n [|y ys] Hx Hy Hl Hn H16; simpl in Hl; try lia.
  - symmetry. apply Z.leb_le. unfold Zlen. cbn [length matching_bytes]. lia.
  - apply Forall_cons in Hx as [Hx Hxs]. apply Forall_cons in Hy as [Hy Hys].
    rewrite Zlen_cons in *. pose proof (Zlen_nonneg xs). cbn [subnet_bytes matching_bytes].
    assert (0 <= matching_bytes xs ys 0) by (destruct (matching_bytes_acc xs ys 0); lia).
    destruct (Z.leb_spec 8 n) as [H8|H8].
    + rewrite contains_bytes_cons.
      replace (Z.land y 255) with y by (symmetry; by apply land_255).
      rewrite IH by (auto; lia).
      destruct (Z.eqb_spec x y) as [->|Hne].
      * rewrite Z.eqb_refl, u8_small by lia. simpl andb.
        destruct (matching_bytes_acc xs ys (0 + 8)) as [? ->]; lia.
      * replace (y =? x) with false by lia. destruct (matching_bits_mask x y 0 Hx Hy Hne ltac:(lia)). lia.
    + cbv zeta. rewrite contains_bytes_cons, contains_zero, andb_true_r by lia.
      destruct (Z.eqb_spec x y) as [->|Hne].
      * rewrite Z.eqb_refl, u8_small by lia.
        destruct (matching_bytes_acc xs ys (0 + 8)) as [? ?]; lia.
      * destruct (matching_bits_mask x y n Hx Hy Hne ltac:(lia)) as [_ ->]. lia.
Qed.

Lemma length_subnet_bytes n xs : length (subnet_bytes n xs) = length xs.
Proof. revert n. induction xs; intros n; simpl; [done|]. destruct (8 <=? n); simpl; by rewrite IHxs. Qed.

(** [Contains] only looks at the bytes within the length. *)
Lemma Contains_bytes (bs : list (Z * Z)) b A K :
  wf_Address b -> Zlen bs = Len b -> length A = 16%nat -> length K = 16%nat ->
  take (length bs) A = bs.*1 -> take (length bs) K = bs.*2 ->
  Contains (mkSubnet (mkAddress A (Len b)) (mkMask K (Len b))) b = contains_bytes bs (AsSlice b).
Proof.
  intros (Hl & _ & _) Hbs HA HK H1 H2. unfold Contains. simpl. unfold Len at 1 2.
  rewrite Z.eqb_refl. simpl. unfold contains_bytes, AsSlice. f_equal.
  replace (Z.to_nat (Len b)) with (length bs) by (unfold Zlen in Hbs; lia).
  replace (Z.to_nat (addr_length b)) with (length bs) by (unfold Zlen, Len in Hbs; lia).
  rewrite <- H1, <- H2. rewrite !zip_with_take. done.
Qed.

Lemma andnot8_land x m : is_u8 m -> andnot8 (Z.land x m) m = 0.
Proof.
  intros. unfold andnot8, not8. apply Z.bits_inj'. intros n Hn.
  rewrite !Z.land_spec, Z.lxor_spec, Z.bits_0. change 255 with (Z.ones 8).
  rewrite Z.testbit_ones_nonneg by lia. destruct (Z.ltb_spec n 8).
  - by destruct (Z.testbit x n), (Z.testbit m n).
  - replace (Z.testbit m n) with false; [by rewrite andb_false_r|].
    rewrite <- (Z.mod_small m (2 ^ 8)), Z.mod_pow2_bits_high by (simpl; lia). done.
Qed.
Lemma mask_byte_table :
  forallb (fun n => let m := not8 (Z.shiftr 255 n) in
     (0 <=? m) && (m <? 256) && (LeadingZeros8 (not8 m) =? n)) (map Z.of_nat (seq 0 8)) = true.
Proof. vm_compute. reflexivity. Qed.
Lemma mask_byte n : 0 <= n < 8 ->
  is_u8 (not8 (Z.shiftr 255 n)) /\ LeadingZeros8 (not8 (not8 (Z.shiftr 255 n))) = n.
Proof.
  intros Hn. pose proof mask_byte_table as H. rewrite forallb_forall in H.
  specialize (H n). cbv zeta in H.
  assert (In n (map Z.of_nat (seq 0 8))) as Hin
    by (apply in_map_iff; exists (Z.to_nat n); split; [lia|apply in_seq; lia]).
  specialize (H Hin). apply andb_true_iff in H as [H1 H2]. apply andb_true_iff in H1 as [??].
  apply Z.eqb_eq in H2. apply Z.leb_le in H. apply Z.ltb_lt in H0. done.
Qed.
Lemma subnet_bytes_masked n xs :
  bytes xs -> 0 <= n ->
  forallb (fun p => andnot8 p.1 p.2 =? 0) (subnet_bytes n xs) = true /\
  bytes (subnet_bytes n xs).*2.
Proof.
  revert n. induction xs as [|x xs IH]; intros n Hx Hn; [split; [done|constructor]|].
  apply Forall_cons in Hx as [Hx Hxs]. simpl. destruct (Z.leb_spec 8 n); simpl.
  - destruct (IH (n - 8) Hxs ltac:(lia)) as [-> Hb]. split; [|constructor; [lia|done]].
    rewrite andb_true_r. apply Z.eqb_eq. rewrite <- (land_255 x) by done. apply andnot8_land. lia.
  - destruct (IH 0 Hxs ltac:(lia)) as [-> Hb]. destruct (mask_byte n ltac:(lia)) as [? _].
    split; [|by constructor]. rewrite andb_true_r. by apply Z.eqb_eq, andnot8_land.
Qed.
Lemma prefix_subnet_bytes n xs p :
  0 <= n ->
  fold_left (fun p b => p + LeadingZeros8 (not8 b)) (subnet_bytes n xs).*2 p
    = p + Z.min n (8 * Zlen xs).
Proof.
  revert n p. induction xs as [|x xs IH]; intros n p Hn; simpl; [unfold Zlen; simpl; lia|].
  rewrite Zlen_cons. pose proof (Zlen_nonneg xs). destruct (Z.leb_spec 8 n); simpl.
  - rewrite IH by lia. change (LeadingZeros8 (not8 255)) with 8. lia.
  - rewrite IH by lia. destruct (mask_byte n ltac:(lia)) as [_ ->]. lia.
Qed.

(** The three cases of [AddressWithPrefix.Subnet], seen as one. *)
Lemma subnet_bytes_0 xs : subnet_bytes 0 xs = zip (repeat 0 (length xs)) (repeat 0 (length xs)).
Proof.
  induction xs; simpl; [done|]. rewrite IHxs.
  change (not8 255) with 0. by rewrite Z.land_0_r.
Qed.
Lemma subnet_bytes_full n xs : 8 * Zlen xs <= n -> subnet_bytes n xs = zip xs (repeat 255 (length xs)).
Proof.
  revert n. induction xs as [|x xs IH]; intros n Hn; simpl; [done|]. rewrite Zlen_cons in Hn.
  pose proof (Zlen_nonneg xs). replace (8 <=? n) with true by lia. rewrite IH by lia. done.
Qed.
Lemma take_repeat_pad k n : (k <= n)%nat -> take k (repeat 0 n : list Z) = repeat 0 k.
Proof. intros. revert n H. induction k; intros [|n] ?; simpl; try done; try lia. f_equal. apply IHk. lia. Qed.

Lemma AWP_Subnet_shape a n :
  wf_Address a ->
  exists A K, AWP_Subnet (mkAWP a n) = Ok (mkSubnet (mkAddress A (Len a)) (mkMask K (Len a))) /\
    length A = 16%nat /\ length K = 16%nat /\
    take (length (AsSlice a)) A = (subnet_bytes (Z.max 0 n) (AsSlice a)).*1 /\
    take (length (AsSlice a)) K = (subnet_bytes (Z.max 0 n) (AsSlice a)).*2.
Proof.
  intros Hwf. pose proof (Zlen_AsSlice a Hwf) as HL. pose proof (bytes_AsSlice a Hwf) as Hb.
  destruct a as [ad len]. destruct Hwf as (Hl & _ & Hlen). unfold Len in *. simpl in *.
  set (xs := AsSlice (mkAddress ad len)) in *. unfold AWP_Subnet. simpl.
  assert (length xs <= 16)%nat as H16 by (unfold Zlen in HL; lia).
  destruct (Z.leb_spec n 0); [|destruct (Z.leb_spec (len * 8) n)].
  - exists (repeat 0 16), (repeat 0 16). split; [done|]. split; [done|]. split; [done|].
    rewrite Z.max_l, subnet_bytes_0, fst_zip, snd_zip by (rewrite ?repeat_length; lia).
    by rewrite take_repeat_pad.
  - exists ad, (pad16 (repeat 255 (Z.to_nat len))). split; [done|]. split; [done|].
    split; [apply length_pad16|].
    rewrite subnet_bytes_full, fst_zip, snd_zip by (rewrite ?repeat_length; lia).
    replace (Z.to_nat len) with (length xs) by (unfold Zlen in HL; lia).
    rewrite take_pad16 by (rewrite repeat_length; lia). split; [|done].
    subst xs. unfold AsSlice. simpl. f_equal. rewrite length_take. lia.
  - rewrite Z.max_r by lia. fold xs. destruct (subnet_bytes_masked n xs Hb ltac:(lia)) as [Hm Hb2].
    set (bs := subnet_bytes n xs) in *.
    assert (length bs = length xs) as Hlb by apply length_subnet_bytes.
    assert (take (length xs) (pad16 bs.*1) = bs.*1) as E1 by (apply take_pad16; rewrite length_fmap; lia).
    assert (take (length xs) (pad16 bs.*2) = bs.*2) as E2 by (apply take_pad16; rewrite length_fmap; lia).
    exists (pad16 bs.*1), (pad16 bs.*2). split; [|auto using length_pad16].
    unfold NewSubnet, Len, MaskLen. cbn [addr_length mask_length addr mask]. rewrite Z.eqb_refl. simpl.
    replace (Z.to_nat len) with (length xs) by (unfold Zlen in HL; lia).
    rewrite zip_with_take, E1, E2, zip_fst_snd, Hm. done.
Qed.

(** AddressWithPrefix.Subnet never panics, and the subnet it returns
    contains an address of the same family exactly when the two addresses
    agree on at least the (clamped) prefix length, as counted by
    MatchingPrefix; its mask has that many leading ones. *)
Lemma Subnet_Contains_MatchingPrefix a b n :
  wf_Address a -> wf_Address b -> Len a = Len b ->
  exists s p, AWP_Subnet (mkAWP a n) = Ok s /\ MatchingPrefix a b = Ok p /\
    Contains s b = (Z.min (Z.max 0 n) (BitLen a) <=? p) /\
    Prefix s = Ok (Z.min (Z.max 0 n) (BitLen a)).
Proof.
  intros Ha Hb Hlen. pose proof (Zlen_AsSlice a Ha) as HLa. pose proof (Zlen_AsSlice b Hb) as HLb.
  destruct (AWP_Subnet_shape a n Ha) as (A & K & -> & HA & HK & E1 & E2).
  assert (Len a <= 16) by (destruct Ha as (_ & _ & ?); unfold Len; lia).
  eexists _, _. split; [done|]. unfold MatchingPrefix, BitLen. rewrite Hlen, Z.eqb_refl. simpl.
  split; [done|]. set (bs := subnet_bytes (Z.max 0 n) (AsSlice a)) in *.
  assert (length bs = length (AsSlice a)) as Hlb by apply length_subnet_bytes. split.
  - rewrite Contains_bytes with (bs := bs); try done; try congruence; [|unfold Zlen in *; lia].
    subst bs. rewrite contains_matching; auto using bytes_AsSlice; unfold Zlen in *; lia.
  - unfold Prefix, MaskPrefix, MaskAsSlice. simpl. replace (Len b <=? 16) with true by lia. simpl.
    replace (Z.to_nat (Len b)) with (length (AsSlice a)) by (unfold Zlen in *; lia).
    rewrite E2. subst bs. rewrite prefix_subnet_bytes by lia.
    by replace (8 * Zlen (AsSlice a)) with (Len b * 8) by lia.
Qed.

Lemma Subnet_Contains_MatchingPrefix_witness :
  exists s p, AWP_Subnet (mkAWP (AddrFrom4 [169; 254; 7; 1]) 16) = Ok s /\
    MatchingPrefix (AddrFrom4 [169; 254; 7; 1]) (AddrFrom4 [169; 254; 7; 9]) = Ok p /\
    Contains s (AddrFrom4 [169; 254; 7; 9]) = (16 <=? p) /\ Prefix s = Ok 16.
Proof.
  apply (Subnet_Contains_MatchingPrefix (AddrFrom4 [169; 254; 7; 1]) (AddrFrom4 [169; 254; 7; 9]) 16);
    [| |done]; (split; [done|]; split; [unfold bytes, pad16; simpl; repeat constructor; lia|simpl; lia]).
Defined.

End tcpip.
