(* ===== verification/Netip.v ===== *)
(** * net/netip, as the sources use it

    [netip.Addr] without zones (the sources build addresses from header bytes
    and configured prefixes), [netip.AddrPort] and [netip.Prefix] of the Go
    standard library; then the arithmetic of stack.go on configured prefixes. *)
From S2P Require Import Prelude Bytes GoMem TsChecksum.

Module netip.

(** The zero [Addr], an IPv4 address (4 bytes), an IPv6 address (16 bytes). *)
Inductive Addr := AddrInvalid | Addr4 (b : list Z) | Addr6 (b : list Z).
#[global] Instance Addr_eq_dec : EqDecision Addr.
Proof. solve_decision. Defined.
#[global] Instance Addr_countable : Countable Addr.
Proof.
  refine (inj_countable'
    (fun a => match a with AddrInvalid => inl tt | Addr4 b => inr (true, b) | Addr6 b => inr (false, b) end)
    (fun s => match s with inl _ => AddrInvalid | inr (true, b) => Addr4 b | inr (false, b) => Addr6 b end) _).
  by intros [].
Defined.

Definition IsValid (ip : Addr) : bool := match ip with AddrInvalid => false | _ => true end.
Definition Is4 (ip : Addr) : bool := match ip with Addr4 _ => true | _ => false end.
Definition AddrFrom4 (b : list Z) : Addr := Addr4 b.
Definition AddrFrom16 (b : list Z) : Addr := Addr6 b.
Definition AsSlice (ip : Addr) : list Z :=
  match ip with AddrInvalid => [] | Addr4 b => b | Addr6 b => b end.

Definition v4InV6 : list Z := repeat 0 10 ++ [255; 255].
Definition Is4In6 (ip : Addr) : bool :=
  match ip with Addr6 b => bool_decide (take 12 b = v4InV6) | _ => false end.
Definition Unmap (ip : Addr) : Addr :=
  match ip with
  | Addr6 b => if Is4In6 ip then Addr4 (drop 12 b) else ip
  | _ => ip
  end.
Definition As4 (ip : Addr) : res (list Z) :=
  match ip with
  | Addr4 b => Ok b
  | Addr6 b => if Is4In6 ip then Ok (drop 12 b) else Panic
  | AddrInvalid => Panic
  end.
Definition As16 (ip : Addr) : list Z :=
  match ip with AddrInvalid => repeat 0 16 | Addr4 b => v4InV6 ++ b | Addr6 b => b end.

(** The address as an integer, and its width in bits. *)
Definition val (ip : Addr) : Z := be_val (AsSlice ip).
Definition BitLen (ip : Addr) : Z := 8 * Zlen (AsSlice ip).

(** [n] big-endian bytes of an integer. *)
Fixpoint be_bytes (n : nat) (v : Z) : list Z :=
  match n with O => [] | S n' => be_bytes n' (v / 256) ++ [v mod 256] end.

(** [Next]: the zero [Addr] after the last address. *)
Definition Next (ip : Addr) : Addr :=
  match ip with
  | AddrInvalid => AddrInvalid
  | Addr4 b => if be_val b + 1 =? 2 ^ 32 then AddrInvalid else Addr4 (be_bytes 4 (be_val b + 1))
  | Addr6 b => if be_val b + 1 =? 2 ^ 128 then AddrInvalid else Addr6 (be_bytes 16 (be_val b + 1))
  end.

(** [IsGlobalUnicast]: not unspecified, limited broadcast, loopback, multicast
    or link-local unicast; since Go 1.22.5 IPv4-mapped addresses are unmapped
    first by the loopback, multicast and link-local tests. *)
Definition b0 (ip : Addr) : Z := byte_at (AsSlice ip) 0.
Definition b1 (ip : Addr) : Z := byte_at (AsSlice ip) 1.
Definition IsLoopback (ip : Addr) : bool :=
  let ip := Unmap ip in
  match ip with
  | AddrInvalid => false
  | Addr4 _ => b0 ip =? 127
  | Addr6 b => bool_decide (b = repeat 0 15 ++ [1])
  end.
Definition IsMulticast (ip : Addr) : bool :=
  let ip := Unmap ip in
  match ip with
  | AddrInvalid => false
  | Addr4 _ => Z.land (b0 ip) 240 =? 224
  | Addr6 _ => b0 ip =? 255
  end.
Definition IsLinkLocalUnicast (ip : Addr) : bool :=
  let ip := Unmap ip in
  match ip with
  | AddrInvalid => false
  | Addr4 _ => (b0 ip =? 169) && (b1 ip =? 254)
  | Addr6 _ => (b0 ip =? 254) && (Z.land (b1 ip) 192 =? 128)
  end.
Definition IsGlobalUnicast (ip : Addr) : bool :=
  match ip with
  | AddrInvalid => false
  | _ =>
      negb (bool_decide (ip = Addr4 [0; 0; 0; 0]) || bool_decide (ip = Addr4 [255; 255; 255; 255])) &&
      negb (bool_decide (ip = Addr6 (repeat 0 16))) &&
      negb (IsLoopback ip) && negb (IsMulticast ip) && negb (IsLinkLocalUnicast ip)
  end.

Record AddrPort := AddrPortFrom { ap_addr : Addr; ap_port : Z }.
#[global] Instance AddrPort_eq_dec : EqDecision AddrPort.
Proof. solve_decision. Defined.
#[global] Instance AddrPort_countable : Countable AddrPort.
Proof.
  refine (inj_countable' (fun a => (ap_addr a, ap_port a)) (fun p => AddrPortFrom p.1 p.2) _).
  by intros [].
Defined.

(** A prefix with a valid number of bits. *)
Record Prefix := PrefixFrom { pf_addr : Addr; pf_bits : Z }.

Definition Contains (p : Prefix) (ip : Addr) : bool :=
  if negb (IsValid (pf_addr p)) || negb (IsValid ip) || negb (BitLen ip =? BitLen (pf_addr p))
  then false
  else let w := BitLen ip - pf_bits p in
       Z.shiftr (val (pf_addr p)) w =? Z.shiftr (val ip) w.

(** [Masked().Addr()] *)
Definition MaskedAddr (p : Prefix) : Addr :=
  let w := BitLen (pf_addr p) - pf_bits p in
  let v := Z.shiftl (Z.shiftr (val (pf_addr p)) w) w in
  match pf_addr p with
  | AddrInvalid => AddrInvalid
  | Addr4 _ => Addr4 (be_bytes 4 v)
  | Addr6 _ => Addr6 (be_bytes 16 v)
  end.

(** Addresses as the constructors make them. *)
Definition wf (ip : Addr) : Prop :=
  match ip with
  | AddrInvalid => True
  | Addr4 b => bytes b /\ length b = 4%nat
  | Addr6 b => bytes b /\ length b = 16%nat
  end.

Lemma length_be_bytes n v : length (be_bytes n v) = n.
Proof. revert v. induction n; intros; simpl; [done|]. rewrite length_app, IHn. simpl. lia. Qed.
Lemma bytes_be_bytes n v : bytes (be_bytes n v).
Proof.
  revert v. induction n; intros; simpl; [constructor|]. apply bytes_app. split; [done|].
  constructor; [zdm|constructor].
Qed.
Lemma be_val_snoc l x : be_val (l ++ [x]) = be_val l * 256 + x.
Proof. unfold be_val. by rewrite fold_left_app. Qed.
Lemma be_val_be_bytes n v : 0 <= v < 256 ^ Z.of_nat n -> be_val (be_bytes n v) = v.
Proof.
  revert v. induction n as [|n IH]; intros v Hv; simpl.
  - unfold be_val. simpl in *. lia.
  - rewrite Nat2Z.inj_succ, Z.pow_succ_r in Hv by lia. rewrite be_val_snoc, IH; zdm.
Qed.
Lemma be_bytes_be_val l : bytes l -> be_bytes (length l) (be_val l) = l.
Proof.
  induction l as [|x l IH] using rev_ind; intros Hb; [done|].
  apply bytes_app in Hb as [Hl Hx]. apply Forall_cons in Hx as [Hx _].
  rewrite length_app, Nat.add_1_r, be_val_snoc. simpl.
  replace ((be_val l * 256 + x) / 256) with (be_val l) by zdm.
  replace ((be_val l * 256 + x) mod 256) with x by zdm. by rewrite IH.
Qed.
(** An address is given by its length and its value. *)
Lemma wf_inj a b : wf a -> wf b -> BitLen a = BitLen b -> val a = val b -> a = b.
Proof.
  assert (forall n x y, bytes x /\ length x = n -> bytes y /\ length y = n -> be_val x = be_val y -> x = y) as HI.
  { intros n x y [Hb Hl] [Hb' Hl'] E. rewrite <- (be_bytes_be_val x), <- (be_bytes_be_val y), Hl, Hl', E by done. done. }
  unfold BitLen, val, wf, Zlen. intros Ha Hb HB HV.
  destruct a as [|x|x], b as [|y|y]; cbn [AsSlice length] in *; try lia; [done|f_equal; by eapply HI|f_equal; by eapply HI].
Qed.
Lemma wf_Next ip : wf ip -> wf (Next ip).
Proof.
  destruct ip; cbn [Next]; intros; try done; destruct (_ =? _); try done;
    (split; [apply bytes_be_bytes|apply length_be_bytes]).
Qed.
Lemma be_val_range l n : bytes l -> length l = n -> 0 <= be_val l < 256 ^ Z.of_nat n.
Proof. intros ? <-. by apply tschecksum.be_val_bound. Qed.
(** The next address is the successor, when there is one. *)
Lemma val_Next ip : wf ip -> IsValid (Next ip) = true -> val (Next ip) = val ip + 1 /\ BitLen (Next ip) = BitLen ip.
Proof.
  unfold val, BitLen, Zlen. destruct ip as [|b|b]; cbn [Next wf]; [done| |]; intros [Hb Hl].
  - pose proof (be_val_range b 4 Hb Hl) as Hr. change (256 ^ Z.of_nat 4) with 4294967296 in Hr.
    destruct (Z.eqb_spec (be_val b + 1) (2 ^ 32)); [done|]. intros _. cbn [AsSlice].
    change (2 ^ 32) with 4294967296 in *.
    rewrite be_val_be_bytes, length_be_bytes, Hl; [done|]. change (256 ^ Z.of_nat 4) with 4294967296. lia.
  - pose proof (be_val_range b 16 Hb Hl) as Hr. change (256 ^ Z.of_nat 16) with (2 ^ 128) in Hr.
    destruct (Z.eqb_spec (be_val b + 1) (2 ^ 128)); [done|]. intros _. cbn [AsSlice].
    rewrite be_val_be_bytes, length_be_bytes, Hl; [done|]. change (256 ^ Z.of_nat 16) with (2 ^ 128). lia.
Qed.

End netip.

(** ** stack.go *)

Definition HasNextAddress_loop (n : nat) (checkAddr : netip.Addr) : netip.Addr := Nat.iter n netip.Next checkAddr.
Definition HasNextAddress (prefix : netip.Prefix) (count : Z) : bool :=
  netip.Contains prefix (HasNextAddress_loop (Z.to_nat count) (netip.pf_addr prefix)).

Lemma HasNextAddress_valid p : HasNextAddress p 1 = true -> netip.IsValid (netip.Next (netip.pf_addr p)) = true.
Proof.
  unfold HasNextAddress. change (HasNextAddress_loop _ _) with (netip.Next (netip.pf_addr p)). unfold netip.Contains.
  by destruct (netip.IsValid (netip.Next (netip.pf_addr p))), (netip.IsValid (netip.pf_addr p)).
Qed.
