(* ===== verification/TunOptions.v ===== *)
(** * tun.go: the options of a tun device

    The fields of Options that the modelled code reads, the choice of the DNS
    servers and of the gateways, and the name of a new interface. *)
From Stdlib Require Import Ascii String.
From S2P Require Import Prelude Bytes GoMem TsChecksum Netip.

(** runtime.GOOS *)
Inductive GOOS := Linux | Android | Darwin | Windows | OtherOS.
#[global] Instance GOOS_eq_dec : EqDecision GOOS.
Proof. solve_decision. Defined.

(** sing/common/ranges: an inclusive range. *)
Record Range := mkRange { r_Start : Z; r_End : Z }.
#[global] Instance Range_eq_dec : EqDecision Range.
Proof. solve_decision. Defined.

(** dns_hijack.go *)
Record DNSHijackRule := mkHijack { h_Network : string; h_Address : netip.AddrPort }.

Record Options := mkOptions {
  Name : string;
  Inet4Address : list netip.Prefix;
  Inet6Address : list netip.Prefix;
  AutoRoute : bool;
  Inet4Gateway : netip.Addr;
  Inet6Gateway : netip.Addr;
  DNSMode : string;
  DNSServers : list netip.Addr;
  DNSHijack : option (list DNSHijackRule);
  IPRoute2TableIndex : Z;
  IPRoute2RuleIndex : Z;
  IPRoute2AutoRedirectFallbackRuleIndex : Z;
  AutoRedirectMarkMode : bool;
  AutoRedirectInputMark : Z;
  AutoRedirectOutputMark : Z;
  ExcludeMPTCP : bool;
  Inet4LoopbackAddress : list netip.Addr;
  Inet6LoopbackAddress : list netip.Addr;
  StrictRoute : bool;
  Inet4RouteAddress : list netip.Prefix;
  Inet6RouteAddress : list netip.Prefix;
  Inet4RouteExcludeAddress : list netip.Prefix;
  Inet6RouteExcludeAddress : list netip.Prefix;
  IncludeInterface : list string;
  ExcludeInterface : list string;
  IncludeUID : list Range;
  ExcludeUID : list Range;
  ExcludeSrcPort : list Range;
  ExcludeDstPort : list Range;
  IncludeAndroidUser : list Z;
  IncludePackage : list string;
  ExcludePackage : list string;
  IncludeMACAddress : list (list Z);
  ExcludeMACAddress : list (list Z);
  FileDescriptor : Z
}.

(** The options after BuildAndroidRules: five fields are replaced. *)
Definition with_users (o : Options) (includeUID excludeUID : list Range) (users : list Z) (includePackage excludePackage : list string) : Options :=
  mkOptions (Name o) (Inet4Address o) (Inet6Address o) (AutoRoute o) (Inet4Gateway o) (Inet6Gateway o) (DNSMode o) (DNSServers o) (DNSHijack o)
    (IPRoute2TableIndex o) (IPRoute2RuleIndex o) (IPRoute2AutoRedirectFallbackRuleIndex o) (AutoRedirectMarkMode o) (AutoRedirectInputMark o)
    (AutoRedirectOutputMark o) (ExcludeMPTCP o) (Inet4LoopbackAddress o) (Inet6LoopbackAddress o) (StrictRoute o) (Inet4RouteAddress o)
    (Inet6RouteAddress o) (Inet4RouteExcludeAddress o) (Inet6RouteExcludeAddress o) (IncludeInterface o) (ExcludeInterface o)
    includeUID excludeUID (ExcludeSrcPort o) (ExcludeDstPort o) users includePackage excludePackage (IncludeMACAddress o) (ExcludeMACAddress o) (FileDescriptor o).

Definition DNSModeDisabled : string := "disabled".
Definition DNSModeNative : string := "native".
Definition DNSModeHijack : string := "hijack".
Definition DefaultIPRoute2TableIndex : Z := 2022.
Definition DefaultIPRoute2RuleIndex : Z := 9000.
Definition DefaultIPRoute2AutoRedirectFallbackRuleIndex : Z := 32768.

Definition DNSModeOrDefault (os : GOOS) (o : Options) : string :=
  if String.eqb (DNSMode o) "" then
    if AutoRoute o && negb (bool_decide (os = Darwin)) then DNSModeHijack else DNSModeDisabled
  else DNSMode o.

(** ** DNS servers *)

Inductive dns_error := NoServer4 (p : netip.Prefix) | NoServer6 (p : netip.Prefix).
Definition Is6 (a : netip.Addr) : bool := match a with netip.Addr6 _ => true | _ => false end.
Definition has_next (ps : list netip.Prefix) : bool := match ps with p :: _ => HasNextAddress p 1 | [] => false end.

Definition Inet4DNSAddress (o : Options) : dns_error + list netip.Addr :=
  match Inet4Address o with
  | [] => inr []
  | p :: _ =>
      if negb (bool_decide (DNSServers o = [])) then inr (List.filter netip.Is4 (DNSServers o))
      else if HasNextAddress p 1 then inr [netip.Next (netip.pf_addr p)]
      else if negb (has_next (Inet6Address o)) then inl (NoServer4 p)
      else inr []
  end.
Definition Inet6DNSAddress (o : Options) : dns_error + list netip.Addr :=
  match Inet6Address o with
  | [] => inr []
  | p :: _ =>
      if negb (bool_decide (DNSServers o = [])) then inr (List.filter Is6 (DNSServers o))
      else if HasNextAddress p 1 then inr [netip.Next (netip.pf_addr p)]
      else if negb (has_next (Inet4Address o)) then inl (NoServer6 p)
      else inr []
  end.
Definition DNSServerAddress (o : Options) : dns_error + list netip.Addr :=
  match Inet4DNSAddress o with
  | inl e => inl e
  | inr inet4DNS =>
      match Inet6DNSAddress o with
      | inl e => inl e
      | inr inet6DNS => inr (inet4DNS ++ inet6DNS)
      end
  end.

(** ** Gateways *)

Definition IPv4Unspecified : netip.Addr := netip.Addr4 (repeat 0 4).
Definition IPv6Unspecified : netip.Addr := netip.Addr6 (repeat 0 16).
Definition IsUnspecified (a : netip.Addr) : bool := bool_decide (a = IPv4Unspecified) || bool_decide (a = IPv6Unspecified).

Definition Inet4GatewayAddr (os : GOOS) (o : Options) : netip.Addr :=
  if netip.IsValid (Inet4Gateway o) then Inet4Gateway o
  else match Inet4Address o with
       | [] => IPv4Unspecified
       | p :: _ =>
           match os with
           | Android => IPv4Unspecified
           | Linux => if HasNextAddress p 1 then netip.Next (netip.pf_addr p) else IPv4Unspecified
           | Darwin => netip.pf_addr p
           | _ => if HasNextAddress p 1 then netip.Next (netip.pf_addr p) else netip.pf_addr p
           end
       end.
Definition Inet6GatewayAddr (os : GOOS) (o : Options) : netip.Addr :=
  if netip.IsValid (Inet6Gateway o) then Inet6Gateway o
  else match Inet6Address o with
       | [] => IPv6Unspecified
       | p :: _ =>
           match os with
           | Android => IPv6Unspecified
           | Linux => if HasNextAddress p 1 then netip.Next (netip.pf_addr p) else IPv6Unspecified
           | Darwin => netip.pf_addr p
           | _ => if HasNextAddress p 1 then netip.Next (netip.pf_addr p) else netip.pf_addr p
           end
       end.

(** ** The name of a new interface *)

(** strconv *)
Definition digit_value (c : Ascii.ascii) : option Z :=
  let n := Z.of_N (Ascii.N_of_ascii c) in if (48 <=? n) && (n <=? 57) then Some (n - 48) else None.
Fixpoint parse_digits (s : string) (acc : Z) : option Z :=
  match s with
  | EmptyString => Some acc
  | String c s' => match digit_value c with Some d => parse_digits s' (acc * 10 + d) | None => None end
  end.
(** ParseUint(s, 10, 32) *)
Definition ParseUint32 (s : string) : option Z :=
  match s with
  | EmptyString => None
  | _ => match parse_digits s 0 with Some v => if v <? 4294967296 then Some v else None | None => None end
  end.
(** ParseInt(s, 10, 16): an optional sign and digits. *)
Definition unsigned (s : string) : option Z := match s with EmptyString => None | _ => parse_digits s 0 end.
Definition ParseInt16 (s : string) : option Z :=
  let v := match s with
           | String c s' =>
               if Ascii.eqb c "-"%char then option_map Z.opp (unsigned s')
               else if Ascii.eqb c "+"%char then unsigned s'
               else unsigned s
           | EmptyString => None
           end in
  match v with Some v => if (-32768 <=? v) && (v <? 32768) then Some v else None | None => None end.

(** The decimal digits of a natural number, as format.ToString prints it. *)
Fixpoint itoa_loop (fuel : nat) (n : Z) (acc : string) : string :=
  let acc := String (Ascii.ascii_of_N (Z.to_N (48 + n mod 10))) acc in
  match fuel with
  | O => acc
  | S fuel' => if n <? 10 then acc else itoa_loop fuel' (n / 10) acc
  end.
Definition itoa (n : Z) : string := itoa_loop (Z.to_nat (Z.log2 n)) n "".

(** strings.HasPrefix, and the rest. *)
Fixpoint strip_prefix (p s : string) : option string :=
  match p, s with
  | EmptyString, _ => Some s
  | String a p', String b s' => if Ascii.eqb a b then strip_prefix p' s' else None
  | _, _ => None
  end.

Definition next_index (tunName : string) (tunIndex : Z) (name : string) : Z :=
  match strip_prefix tunName name with
  | Some rest =>
      match ParseInt16 rest with
      | Some index => if tunIndex <=? index then index + 1 else tunIndex
      | None => tunIndex
      end
  | None => tunIndex
  end.
Definition base_name (os : GOOS) (name : string) : string :=
  if bool_decide (os = Darwin) then "utun" else if negb (String.eqb name "") then name else "tun".
(** The names of net.Interfaces(), or its error. *)
Definition CalculateInterfaceName (os : GOOS) (name : string) (interfaces : option (list string)) : string :=
  let tunName := base_name os name in
  match interfaces with
  | None => tunName
  | Some names => String.append tunName (itoa (fold_left (next_index tunName) names 0))
  end.
