(* ===== verification/TunOptionsSpec.v ===== *)
(** * What tun.go chooses

    The name of a new interface is not in use, and the DNS servers are the
    configured ones or addresses of the interface's own prefixes. *)
From Stdlib Require Import Ascii String.
From S2P Require Import Prelude Bytes GoMem TsChecksum Netip TunOptions.

(** ** Decimal numbers *)

Lemma digit_value_digit d : 0 <= d < 10 -> digit_value (ascii_of_N (Z.to_N (48 + d))) = Some d.
Proof.
  intros Hd. unfold digit_value. rewrite N_ascii_embedding by lia. rewrite Z2N.id by lia.
  replace ((48 <=? 48 + d) && (48 + d <=? 57)) with true by lia. f_equal. lia.
Qed.
Lemma parse_itoa_loop fuel n acc : 0 <= n < 10 ^ Z.of_nat (S fuel) -> parse_digits (itoa_loop fuel n acc) 0 = parse_digits acc n.
Proof.
  revert n acc. induction fuel as [|fuel IH]; intros n acc Hn; cbn [itoa_loop].
  - cbn in Hn. cbn [parse_digits]. rewrite digit_value_digit by zdm. f_equal. zdm.
  - destruct (Z.ltb_spec n 10).
    + cbn [parse_digits]. rewrite digit_value_digit by zdm. f_equal. zdm.
    + rewrite Nat2Z.inj_succ, Z.pow_succ_r in Hn by lia. rewrite IH by zdm.
      cbn [parse_digits]. rewrite digit_value_digit by zdm. f_equal. zdm.
Qed.
Lemma itoa_loop_first fuel n acc : 0 <= n -> exists d s, 0 <= d < 10 /\ itoa_loop fuel n acc = String (ascii_of_N (Z.to_N (48 + d))) s.
Proof.
  revert n acc. induction fuel as [|fuel IH]; intros n acc Hn; cbn [itoa_loop].
  - exists (n mod 10). eexists. split; [zdm|done].
  - destruct (n <? 10); [|apply IH; zdm]. exists (n mod 10). eexists. split; [zdm|done].
Qed.
Lemma parse_itoa n : 0 <= n -> unsigned (itoa n) = Some n.
Proof.
  intros Hn. unfold itoa. destruct (itoa_loop_first (Z.to_nat (Z.log2 n)) n "" Hn) as (d & s & _ & E).
  transitivity (parse_digits (itoa_loop (Z.to_nat (Z.log2 n)) n "") 0); [by rewrite E|]. rewrite parse_itoa_loop; [done|].
  split; [done|]. rewrite Nat2Z.inj_succ, Z2Nat.id by apply Z.log2_nonneg. destruct (Z.eq_dec n 0) as [->|]; [done|].
  pose proof (Z.log2_spec n ltac:(lia)) as [_ Hl]. eapply Z.lt_le_trans; [exact Hl|]. apply Z.pow_le_mono_l. lia.
Qed.
Lemma ParseInt16_itoa n : 0 <= n < 32768 -> ParseInt16 (itoa n) = Some n.
Proof.
  intros Hn. pose proof (parse_itoa n ltac:(lia)) as HP. unfold itoa in *.
  destruct (itoa_loop_first (Z.to_nat (Z.log2 n)) n "" ltac:(lia)) as (d & s & Hd & E). rewrite E in *. unfold ParseInt16.
  assert (forall c, Z.of_N (N_of_ascii c) < 48 -> Ascii.eqb (ascii_of_N (Z.to_N (48 + d))) c = false) as Hne.
  { intros c Hc. apply Ascii.eqb_neq. intros <-. rewrite N_ascii_embedding in Hc by lia. lia. }
  rewrite !Hne by (cbn; lia). rewrite HP. by replace ((-32768 <=? n) && (n <? 32768)) with true by lia.
Qed.

(** ** Interface names *)

Lemma strip_prefix_append p s : strip_prefix p (String.append p s) = Some s.
Proof. induction p as [|c p IH]; [by destruct s|].
  change (strip_prefix (String c p) (String.append (String c p) s)) with (if Ascii.eqb c c then strip_prefix p (String.append p s) else None).
  by rewrite Ascii.eqb_refl.
Qed.
Lemma next_index_le tunName i name : i <= next_index tunName i name.
Proof.
  unfold next_index. destruct (strip_prefix tunName name); [|done]. destruct (ParseInt16 s); [|done]. destruct (Z.leb_spec i z); lia.
Qed.
Lemma fold_next_index tunName names i : i <= fold_left (next_index tunName) names i.
Proof.
  revert i. induction names as [|n names IH]; intros i; cbn [fold_left]; [done|]. etransitivity; [apply next_index_le|apply IH].
Qed.
Lemma fold_next_index_elem tunName names i name j : name ∈ names -> strip_prefix tunName name = Some (itoa j) -> 0 <= j < 32768 ->
  j < fold_left (next_index tunName) names i.
Proof.
  intros Hin Hs Hj. revert i. induction Hin as [name names|name n names Hin IH]; intros i; cbn [fold_left].
  - eapply Z.lt_le_trans; [|apply fold_next_index]. unfold next_index. rewrite Hs, ParseInt16_itoa by done. destruct (Z.leb_spec i j); lia.
  - by apply IH.
Qed.

(** The name chosen for a new interface is not the name of an existing one,
    as long as the index found is at most 32767 (beyond, ParseInt with 16 bits
    no longer sees the existing names), and it is the configured base name (utun
    on Darwin) followed by an index above every index in use. *)
Lemma CalculateInterfaceName_fresh os name names :
  let index := fold_left (next_index (base_name os name)) names 0 in
  index < 32768 ->
  CalculateInterfaceName os name (Some names) = String.append (base_name os name) (itoa index) /\
  (CalculateInterfaceName os name (Some names) ∉ names) /\
  (forall j, 0 <= j < 32768 -> String.append (base_name os name) (itoa j) ∈ names -> j < index).
Proof.
  intros index Hi. assert (0 <= index) as H0 by apply fold_next_index.
  assert (forall j, 0 <= j < 32768 -> String.append (base_name os name) (itoa j) ∈ names -> j < index) as HJ.
  { intros j Hj Hin. eapply fold_next_index_elem; [exact Hin|apply strip_prefix_append|done]. }
  split; [done|]. split; [|done]. unfold CalculateInterfaceName. fold index. intros Hin. specialize (HJ index ltac:(lia) Hin). lia.
Qed.
Lemma CalculateInterfaceName_fresh_witness :
  CalculateInterfaceName Linux "" (Some ["lo"; "tun0"; "eth0"; "tun3"; "tunnel"]%string) = "tun4"%string /\
  ("tun4"%string ∉ ["lo"; "tun0"; "eth0"; "tun3"; "tunnel"]%string).
Proof.
  destruct (CalculateInterfaceName_fresh Linux "" ["lo"; "tun0"; "eth0"; "tun3"; "tunnel"]%string) as (E & Hn & _); [by vm_compute|].
  split; [by vm_compute|exact Hn].
Defined.

(** ** DNS servers *)

(** Addresses usable as a server: configured, or next in the first prefix. *)
Definition server_of (o : Options) (ps : list netip.Prefix) (fam : netip.Addr -> bool) (a : netip.Addr) : Prop :=
  ps <> [] /\
  if decide (DNSServers o = []) then exists p rest, ps = p :: rest /\ a = netip.Next (netip.pf_addr p) /\ netip.Contains p a = true
  else a ∈ DNSServers o /\ fam a = true.

Lemma HasNextAddress_1 p : HasNextAddress p 1 = netip.Contains p (netip.Next (netip.pf_addr p)).
Proof. done. Qed.

(** One family: what is answered, and when there is no answer. *)
Definition family_exact (o : Options) (ps other : list netip.Prefix) (fam : netip.Addr -> bool) (r : dns_error + list netip.Addr) : Prop :=
  match r with
  | inr l => forall a, a ∈ l <-> server_of o ps fam a
  | inl _ => DNSServers o = [] /\ ps <> [] /\ has_next ps = false /\ has_next other = false
  end.
Lemma family_DNSAddress o ps other fam err :
  family_exact o ps other fam
    match ps with
    | [] => inr []
    | p :: _ =>
        if negb (bool_decide (DNSServers o = [])) then inr (List.filter fam (DNSServers o))
        else if HasNextAddress p 1 then inr [netip.Next (netip.pf_addr p)]
        else if negb (has_next other) then inl (err p)
        else inr []
    end.
Proof.
  unfold family_exact, server_of. destruct ps as [|p ps]; [intros a; rewrite elem_of_nil; naive_solver|].
  destruct (decide (DNSServers o = [])) as [HD|HD].
  - rewrite bool_decide_eq_true_2 by done. cbn [negb has_next]. rewrite HasNextAddress_1.
    destruct (netip.Contains p (netip.Next (netip.pf_addr p))) eqn:EC.
    + intros a. rewrite list_elem_of_singleton. split.
      * intros ->. split; [done|]. by exists p, ps.
      * intros (_ & p' & rest & [= <- <-] & -> & _). done.
    + destruct (has_next other); cbn [negb]; [|done]. intros a. rewrite elem_of_nil. split; [done|].
      intros (_ & p' & rest & [= <- <-] & -> & H). congruence.
  - rewrite bool_decide_eq_false_2 by done. cbn [negb]. intros a. rewrite !list_elem_of_In, filter_In. naive_solver.
Qed.

(** The servers of DNSServerAddress are the configured ones, family by family,
    or the second address of the first prefix of each family; it fails only when
    none is configured and no prefix of either family has a second address. *)
Lemma DNSServerAddress_exact o :
  match DNSServerAddress o with
  | inr l => forall a, a ∈ l <-> server_of o (Inet4Address o) netip.Is4 a \/ server_of o (Inet6Address o) Is6 a
  | inl _ => DNSServers o = [] /\ (Inet4Address o <> [] \/ Inet6Address o <> []) /\ has_next (Inet4Address o) = false /\ has_next (Inet6Address o) = false
  end.
Proof.
  pose proof (family_DNSAddress o (Inet4Address o) (Inet6Address o) netip.Is4 NoServer4) as H4.
  pose proof (family_DNSAddress o (Inet6Address o) (Inet4Address o) Is6 NoServer6) as H6.
  fold (Inet4DNSAddress o) in H4. fold (Inet6DNSAddress o) in H6. unfold DNSServerAddress, family_exact in *.
  destruct (Inet4DNSAddress o) as [e4|l4]; [naive_solver|]. destruct (Inet6DNSAddress o) as [e6|l6]; [naive_solver|].
  intros a. by rewrite elem_of_app, H4, H6.
Qed.
