(* ===== verification/HdrChecksum.v ===== *)
(** * internal/gtcpip/header/checksum.go

    The pseudo-header checksum and the incremental checksum updates.  Values
    are compared in one's-complement arithmetic, that is modulo 65535: [cong]
    is an equivalence with [Proper] instances for the ring operations, so that
    the effect of an update is found by rewriting. *)
From S2P Require Import Prelude Bytes GoMem Checksum Tcpip.

(** ** Congruence modulo 65535 *)

Definition cong (a b : Z) : Prop := exists k, a = b + 65535 * k.
Infix "≡₁" := cong (at level 70) : go_scope.

#[export] Instance cong_equiv : Equivalence cong.
Proof.
  split.
  - intros x. exists 0. lia.
  - intros x y [k ->]. exists (- k). lia.
  - intros x y z [k ->] [k' ->]. exists (k + k'). lia.
Qed.
#[export] Instance cong_add : Proper (cong ==> cong ==> cong) Z.add.
Proof. intros x y [k ->] x' y' [k' ->]. exists (k + k'). lia. Qed.
#[export] Instance cong_sub : Proper (cong ==> cong ==> cong) Z.sub.
Proof. intros x y [k ->] x' y' [k' ->]. exists (k - k'). lia. Qed.
#[export] Instance cong_opp : Proper (cong ==> cong) Z.opp.
Proof. intros x y [k ->]. exists (- k). lia. Qed.

Lemma cong_refl_eq a b : a = b -> a ≡₁ b.
Proof. by intros ->. Qed.
Lemma OC_cong_eq x s : OC x s -> x ≡₁ s.
Proof. intros [[-> ->]|(_&_&k&->)]; [done|]. exists (- k). lia. Qed.
Lemma cong_0_mod s : s ≡₁ 0 <-> s mod 65535 = 0.
Proof.
  split; [intros [k ->]; zdm|]. intros H. exists (s / 65535). zdm.
Qed.
(** A sum is accepted when it is a positive multiple of 65535. *)
Lemma OC_valid x s : OC x s -> 0 < s -> (x =? 65535) = true <-> s ≡₁ 0.
Proof.
  intros H Hs. rewrite Z.eqb_eq, (OC_ones _ _ H), cong_0_mod. intuition.
Qed.
Lemma not16_cong x : is_u16 x -> not16 x ≡₁ - x.
Proof. intros. rewrite not16_sub by done. exists 1. lia. Qed.
Lemma Combine_cong a b : is_u16 a -> is_u16 b -> Combine a b ≡₁ a + b.
Proof. intros. apply OC_cong_eq, OC_Combine; by apply OC_self. Qed.
Lemma Combine_range a b : is_u16 a -> is_u16 b -> is_u16 (Combine a b).
Proof. intros. eapply OC_range, OC_Combine; by apply OC_self. Qed.
Lemma Checksum_cong `{ChecksumImpl} b x : bytes b -> is_u16 x -> Checksum b x ≡₁ x + wsum b.
Proof. intros. apply OC_cong_eq, Checksum_OC; [done|by apply OC_self]. Qed.
#[export] Hint Resolve Combine_range : gobytes.

(** ** The functions of checksum.go *)

Section HeaderChecksum.
Context `{ChecksumImpl}.

Definition PseudoHeaderChecksum (protocol : Z) (srcAddr dstAddr : list Z) (totalLen : Z) : Z :=
  let xsum := Checksum srcAddr 0 in
  let xsum := Checksum dstAddr xsum in
  let xsum := Checksum (put16 [0; 0] 0 totalLen) xsum in
  Checksum [0; u8 protocol] xsum.

End HeaderChecksum.

Definition checksumUpdate2ByteAlignedUint16 (xsum old new : Z) : Z :=
  if old =? new then xsum else Combine xsum (Combine new (not16 old)).

(** The loop over two addresses of the same even length; a leftover odd byte
    would index out of range. *)
Fixpoint update_words (xsum : Z) (oldAddr newAddr : list Z) : res Z :=
  match oldAddr, newAddr with
  | [], _ => Ok xsum
  | o0 :: o1 :: old', n0 :: n1 :: new' =>
      update_words (checksumUpdate2ByteAlignedUint16 xsum (u16 (Z.shiftl o0 8 + o1)) (u16 (Z.shiftl n0 8 + n1)))
        old' new'
  | _, _ => Panic
  end.

Definition checksumUpdate2ByteAlignedAddress (xsum : Z) (old new : tcpip.Address) : res Z :=
  if negb (tcpip.BitLen old =? tcpip.BitLen new) then Panic
  else if negb (tcpip.BitLen old mod 16 =? 0) then Panic
  else update_words xsum (tcpip.AsSlice old) (tcpip.AsSlice new).

(** ** Correctness *)

Lemma PseudoHeaderChecksum_OC `{ChecksumImpl} protocol src dst len :
  bytes src -> bytes dst -> is_u8 protocol -> is_u16 len ->
  OC (PseudoHeaderChecksum protocol src dst len) (wsum src + wsum dst + len + protocol).
Proof.
  intros Hs Hd Hp Hl. unfold PseudoHeaderChecksum.
  assert (bytes (put16 [0; 0] 0 len)) by (apply bytes_put16; repeat constructor; lia).
  rewrite u8_small by done.
  assert (wsum (put16 [0; 0] 0 len) = len) as Hw
    by (rewrite wsum_put16; [unfold get16, byte_at; simpl; lia|by exists 0|lia|unfold Zlen; simpl; lia|done]).
  replace (wsum src + wsum dst + len + protocol)
    with (0 + wsum src + wsum dst + wsum (put16 [0; 0] 0 len) + wsum [0; protocol]) by (rewrite Hw; simpl; lia).
  apply Checksum_OC; [repeat constructor; lia|]. do 3 (apply Checksum_OC; [done|]). by left.
Qed.
Lemma PseudoHeaderChecksum_range `{ChecksumImpl} protocol src dst len :
  bytes src -> bytes dst -> is_u8 protocol -> is_u16 len ->
  is_u16 (PseudoHeaderChecksum protocol src dst len).
Proof. intros. by eapply OC_range, PseudoHeaderChecksum_OC. Qed.

Lemma update16_range xsum old new :
  is_u16 xsum -> is_u16 old -> is_u16 new -> is_u16 (checksumUpdate2ByteAlignedUint16 xsum old new).
Proof.
  intros. unfold checksumUpdate2ByteAlignedUint16. destruct (_ =? _); [done|].
  apply Combine_range; auto with gobytes.
Qed.
Lemma update16_cong xsum old new :
  is_u16 xsum -> is_u16 old -> is_u16 new ->
  checksumUpdate2ByteAlignedUint16 xsum old new ≡₁ xsum - old + new.
Proof.
  intros. unfold checksumUpdate2ByteAlignedUint16. destruct (Z.eqb_spec old new) as [->|].
  - apply cong_refl_eq. lia.
  - rewrite !Combine_cong, not16_cong by auto with gobytes. apply cong_refl_eq. lia.
Qed.

Lemma word_of_bytes x y : is_u8 x -> is_u8 y -> u16 (Z.shiftl x 8 + y) = x * 256 + y.
Proof. intros. rewrite Z.shiftl_mul_pow2 by lia. apply u16_small. simpl. lia. Qed.

Lemma update_words_ok xsum old new :
  is_u16 xsum -> bytes old -> bytes new -> Zlen old = Zlen new -> Z.Even (Zlen old) ->
  exists x', update_words xsum old new = Ok x' /\ is_u16 x' /\ x' ≡₁ xsum - wsum old + wsum new.
Proof.
  revert xsum new. induction old as [|x|x y old IH] using list_pair_ind; intros xsum new Hx Ho Hn Hl He.
  - exists xsum. split; [done|]. split; [done|]. destruct new; [|rewrite Zlen_cons in Hl; pose proof (Zlen_nonneg new); unfold Zlen in *; simpl in *; lia].
    apply cong_refl_eq. simpl. lia.
  - destruct He as [k Hk]. unfold Zlen in Hk. simpl in Hk. lia.
  - destruct new as [|x' [|y' new]]; rewrite ?Zlen_cons in Hl;
      [unfold Zlen in Hl; simpl in Hl; lia|unfold Zlen in Hl; simpl in Hl; lia|].
    apply Forall_cons in Ho as [Hx1 Ho]. apply Forall_cons in Ho as [Hy1 Ho].
    apply Forall_cons in Hn as [Hx2 Hn]. apply Forall_cons in Hn as [Hy2 Hn].
    assert (is_u16 (x * 256 + y)) by lia. assert (is_u16 (x' * 256 + y')) by lia.
    cbn [update_words]. rewrite !word_of_bytes by done.
    destruct (IH (checksumUpdate2ByteAlignedUint16 xsum (x * 256 + y) (x' * 256 + y')) new)
      as (r & -> & Hr & Hc); try done.
    + by apply update16_range.
    + lia.
    + destruct He as [k Hk]. exists (k - 1). rewrite !Zlen_cons in Hk. lia.
    + exists r. split; [done|]. split; [done|]. rewrite Hc, update16_cong by done.
      apply cong_refl_eq. simpl. lia.
Qed.

Lemma updateAddress_ok xsum old new :
  is_u16 xsum -> tcpip.wf_Address old -> tcpip.wf_Address new -> tcpip.Len old = tcpip.Len new ->
  exists x', checksumUpdate2ByteAlignedAddress xsum old new = Ok x' /\ is_u16 x' /\
    x' ≡₁ xsum - wsum (tcpip.AsSlice old) + wsum (tcpip.AsSlice new).
Proof.
  intros Hx Ho Hn Hl. unfold checksumUpdate2ByteAlignedAddress, tcpip.BitLen.
  rewrite Hl, Z.eqb_refl. simpl.
  pose proof (tcpip.Zlen_AsSlice _ Ho) as E1. pose proof (tcpip.Zlen_AsSlice _ Hn) as E2.
  assert (tcpip.Len new = 0 \/ tcpip.Len new = 4 \/ tcpip.Len new = 16) as HL by apply Hn.
  replace ((tcpip.Len new * 8) mod 16 =? 0) with true by (by destruct HL as [->|[->| ->]]). simpl.
  apply update_words_ok; auto using tcpip.bytes_AsSlice; [lia|].
  rewrite E1, Hl. destruct HL as [->|[->| ->]]; [by exists 0|by exists 2|by exists 8].
Qed.

(** ** Checksum fields inside a buffer *)

(** A 16-bit field at [i] replaced and the checksum field at [k] updated
    incrementally: the sum of the buffer is unchanged modulo 65535. *)
Lemma field_update_cong m o n i k new :
  bytes m -> 0 <= o -> o <= i -> i + 2 <= o + n -> o <= k -> k + 2 <= o + n -> o + n <= Zlen m ->
  Z.Even (i - o) -> Z.Even (k - o) -> i + 2 <= k \/ k + 2 <= i -> is_u16 new ->
  wsum (window (put16 (put16 m i new) k
    (not16 (checksumUpdate2ByteAlignedUint16 (not16 (get16 m k)) (get16 m i) new))) o n)
  ≡₁ wsum (window m o n).
Proof.
  intros Hb Ho ??????? Hd Hn.
  pose proof (get16_range m k Hb). pose proof (get16_range m i Hb).
  assert (is_u16 (not16 (get16 m k))) by auto with gobytes.
  assert (is_u16 (checksumUpdate2ByteAlignedUint16 (not16 (get16 m k)) (get16 m i) new))
    by (apply update16_range; done).
  rewrite wsum_window_put16; auto with gobytes; rewrite ?Zlen_put16; try lia.
  rewrite wsum_window_put16; auto; try lia.
  rewrite get16_put16_ne by lia.
  rewrite not16_cong, update16_cong, not16_cong by done. apply cong_refl_eq. lia.
Qed.
(** The checksum field adjusted for a change of the pseudo header. *)
Lemma pseudo_update_cong m o n k x old new :
  bytes m -> 0 <= o -> o <= k -> k + 2 <= o + n -> o + n <= Zlen m -> Z.Even (k - o) ->
  is_u16 x -> x ≡₁ not16 (get16 m k) - old + new ->
  new + wsum (window (put16 m k (not16 x)) o n) ≡₁ old + wsum (window m o n).
Proof.
  intros Hb Ho ???? Hx Hc. pose proof (get16_range m k Hb).
  rewrite wsum_window_put16; auto with gobytes; try lia.
  rewrite (not16_cong x), Hc, not16_cong by done. apply cong_refl_eq. lia.
Qed.
(** A checksum field filled with the complement of the sum of everything else
    makes the sum zero. *)
Lemma store_sum m t l k x p :
  bytes m -> 0 <= t -> t <= k -> k + 2 <= t + l -> t + l <= Zlen m -> Z.Even (k - t) -> is_u16 x ->
  x ≡₁ p + wsum (window m t l) - get16 m k ->
  p + wsum (window (put16 m k (not16 x)) t l) ≡₁ 0.
Proof.
  intros Hb ????? Hx Hc. rewrite wsum_window_put16; auto with gobytes; try lia.
  rewrite not16_cong, Hc by done. apply cong_refl_eq. lia.
Qed.
