(* ===== verification/IPv4Options.v ===== *)
(** * internal/gtcpip/header/ipv4.go: the options of the IPv4 header

    The serializer ([IPv4OptionsSerializer]), the parsing iterator
    ([IPv4OptionIterator]) with its replacement buffer, and the operations on
    the Timestamp, Record Route and Router Alert options.  The main result is
    the round trip between the serializer and the iterator. *)
From S2P Require Import Prelude Bytes GoMem Tcpip.

Definition IPv4MinimumSize : Z := 20.
Definition IPv4MaximumHeaderSize : Z := 60.
Definition IPv4MaximumOptionsSize : Z := IPv4MaximumHeaderSize - IPv4MinimumSize.
Definition IPv4IHLStride : Z := 4.
Definition IPv4AddressSize : Z := 4.

Definition IPv4OptionListEndType : Z := 0.
Definition IPv4OptionNOPType : Z := 1.
Definition IPv4OptionRouterAlertType : Z := Z.lor 20 128.
Definition IPv4OptionRecordRouteType : Z := 7.
Definition IPv4OptionTimestampType : Z := 68.
Definition IPv4OptionTimestampHdrLength : Z := 4.
Definition IPv4OptionRecordRouteHdrLength : Z := 3.
Definition IPv4OptionRouterAlertLength : Z := 4.

Definition padIPv4OptionsLength (length : Z) : Z :=
  Z.land (u8 (u8 (length + IPv4IHLStride) - 1)) (not8 (IPv4IHLStride - 1)).

(** ** The serializer *)

(** The implementations of the interface IPv4SerializableOption. *)
Inductive IPv4SerializableOption := RouterAlertOption | NOPOption | ListEndOption.

Definition optionType (o : IPv4SerializableOption) : Z :=
  match o with
  | RouterAlertOption => IPv4OptionRouterAlertType
  | NOPOption => IPv4OptionNOPType
  | ListEndOption => IPv4OptionListEndType
  end.

(** The implementations of IPv4SerializableOptionPayload: [length] and
    [serializeInto]; the other options do not implement it. *)
Definition payload (o : IPv4SerializableOption) : option (Z * (slice -> M Z)) :=
  match o with
  | RouterAlertOption =>
      let len := IPv4OptionRouterAlertLength - 2 in
      Some (len, fun buffer => PutUint16 buffer 0 ;;; ret len)
  | _ => None
  end.

Definition SerializerLength (s : list IPv4SerializableOption) : Z :=
  padIPv4OptionsLength
    (fold_left (fun total opt =>
       let total := u8 (total + 1) in
       match payload opt with Some (len, _) => u8 (total + u8 (1 + len)) | None => total end) s 0).

Fixpoint serialize_loop (s : list IPv4SerializableOption) (b : slice) (total : Z) : M (slice * Z) :=
  match s with
  | [] => ret (b, total)
  | opt :: s' =>
      let ty := optionType opt in
      match payload opt with
      | Some (_, serializeInto) =>
          b2 <- tail b 2 ;;
          n <- serializeInto b2 ;;
          let l := u8 (2 + n) in
          set_idx b 0 ty ;;;
          set_idx b 1 l ;;;
          b' <- tail b l ;;
          serialize_loop s' b' (u8 (total + l))
      | None =>
          set_idx b 0 ty ;;;
          b' <- tail b 1 ;;
          serialize_loop s' b' (u8 (total + 1))
      end
  end.

Definition Serialize `{SingCommon} (s : list IPv4SerializableOption) (b : slice) : M Z :=
  r <- serialize_loop s b 0 ;;
  let padded := padIPv4OptionsLength r.2 in
  b' <- reslice r.1 0 (u8 (padded - r.2)) ;;
  ClearArray b' ;;;
  ret padded.

(** ** The iterator *)

(** The dynamic types behind the interface IPv4Option. *)
Inductive IPv4Option :=
| OptionGeneric (b : list Z)
| OptionTimestamp (b : list Z)
| OptionRecordRoute (b : list Z)
| OptionRouterAlert (b : list Z).

Definition Contents (o : IPv4Option) : list Z :=
  match o with
  | OptionGeneric b | OptionTimestamp b | OptionRecordRoute b | OptionRouterAlert b => b
  end.
Definition OptSize (o : IPv4Option) : Z := u8 (Zlen (Contents o)).
Definition OptType (o : IPv4Option) : res Z :=
  match o with
  | OptionGeneric b => match b with x :: _ => Ok x | [] => Panic end
  | OptionTimestamp _ => Ok IPv4OptionTimestampType
  | OptionRecordRoute _ => Ok IPv4OptionRecordRouteType
  | OptionRouterAlert _ => Ok IPv4OptionRouterAlertType
  end.

Record IPv4OptParameterProblem := mkProblem { Pointer : Z; NeedICMP : bool }.

Record IPv4OptionIterator := mkIter {
  it_options : list Z;
  ErrCursor : Z;
  nextErrCursor : Z;
  newOptions : list Z;
  writePoint : Z
}.

Definition MakeIterator (o : list Z) : IPv4OptionIterator :=
  mkIter o 0 IPv4MinimumSize (repeat 0 40%nat) 0.

Definition RemainingBuffer (i : IPv4OptionIterator) : res (list Z) :=
  if (0 <=? writePoint i) && (writePoint i <=? 40) then Ok (drop (Z.to_nat (writePoint i)) (newOptions i))
  else Panic.
Definition InitReplacement (i : IPv4OptionIterator) (opt : IPv4Option) : res IPv4OptionIterator :=
  rbind (RemainingBuffer i) (fun rem =>
    if negb (OptSize opt <=? Zlen rem) then Panic
    else if negb (Z.min (OptSize opt) (Zlen (Contents opt)) =? OptSize opt) then Panic
    else Ok (mkIter (it_options i) (ErrCursor i) (nextErrCursor i)
           (write_at (newOptions i) (writePoint i) (take (Z.to_nat (OptSize opt)) (Contents opt)))
           (writePoint i))).
Definition ConsumeBuffer (i : IPv4OptionIterator) (size : Z) : IPv4OptionIterator :=
  mkIter (it_options i) (ErrCursor i) (nextErrCursor i) (newOptions i) (writePoint i + size).
Definition PushNOPOrEnd (i : IPv4OptionIterator) (v : Z) : res IPv4OptionIterator :=
  if IPv4OptionNOPType <? v then Panic
  else if negb ((0 <=? writePoint i) && (writePoint i <? 40)) then Panic
  else Ok (mkIter (it_options i) (ErrCursor i) (nextErrCursor i)
             (upd (newOptions i) (writePoint i) v) (writePoint i + 1)).
Definition Finalize (i : IPv4OptionIterator) : res (list Z * IPv4OptionIterator) :=
  let n := Z.land (writePoint i + 3) (Z.lnot 3) in
  if (0 <=? n) && (n <=? 40)
  then Ok (take (Z.to_nat n) (newOptions i),
           mkIter (it_options i) (ErrCursor i) (nextErrCursor i) (newOptions i) 40)
  else Panic.

(** The three results of [Next]. *)
Definition next_result : Type := option IPv4Option * bool * option IPv4OptParameterProblem.

Definition Next (i : IPv4OptionIterator) : next_result * IPv4OptionIterator :=
  match it_options i with
  | [] => ((None, true, None), i)
  | optType :: rest =>
      let cur := nextErrCursor i in
      let problem c := (None, false, Some (mkProblem c true)) in
      let iter opts err nxt := mkIter opts err nxt (newOptions i) (writePoint i) in
      if (optType =? IPv4OptionNOPType) || (optType =? IPv4OptionListEndType) then
        ((Some (OptionGeneric [optType]), false, None), iter rest cur (u8 (cur + 1)))
      else match rest with
      | [] => (problem cur, iter (it_options i) cur cur)
      | optLen :: _ =>
          if (optLen <=? 1) || (u8 (Zlen (it_options i)) <? optLen) then
            (problem cur, iter (it_options i) cur (nextErrCursor i))
          else
            let optionBody := take (Z.to_nat optLen) (it_options i) in
            let nxt := u8 (cur + optLen) in
            let opts := drop (Z.to_nat optLen) (it_options i) in
            if optType =? IPv4OptionTimestampType then
              if optLen <? IPv4OptionTimestampHdrLength
              then (problem (u8 (cur + 1)), iter opts (u8 (cur + 1)) nxt)
              else ((Some (OptionTimestamp optionBody), false, None), iter opts cur nxt)
            else if optType =? IPv4OptionRecordRouteType then
              if optLen <? IPv4OptionRecordRouteHdrLength
              then (problem (u8 (cur + 1)), iter opts (u8 (cur + 1)) nxt)
              else ((Some (OptionRecordRoute optionBody), false, None), iter opts cur nxt)
            else if optType =? IPv4OptionRouterAlertType then
              if negb (optLen =? IPv4OptionRouterAlertLength)
              then (problem (u8 (cur + 1)), iter opts (u8 (cur + 1)) nxt)
              else ((Some (OptionRouterAlert optionBody), false, None), iter opts cur nxt)
            else ((Some (OptionGeneric optionBody), false, None), iter opts cur nxt)
      end
  end.

(** ** Operations on single options *)

(** Timestamp: pointer, flags, overflow counter; [now] is the value of
    [ipv4TimestampTime(clock)]. *)
Definition TS_Pointer (ts : slice) : M Z := idx ts 2.
Definition TS_Flags (ts : slice) : M Z := v <- idx ts 3 ;; ret (Z.land v 15).
Definition TS_Overflow (ts : slice) : M Z := v <- idx ts 3 ;; ret (Z.shiftr v 4).
Definition TS_IncOverflow (ts : slice) : M Z :=
  v <- idx ts 3 ;; set_idx ts 3 (u8 (v + 16)) ;;; TS_Overflow ts.

Definition bump_pointer (ts : slice) (n : Z) : M unit :=
  p <- idx ts 2 ;; set_idx ts 2 (u8 (p + n)).

Definition TS_UpdateTimestamp (ts : slice) (addr : tcpip.Address) (now : Z) : M unit :=
  p <- TS_Pointer ts ;;
  slot <- tail ts (u8 (p - 1)) ;;
  flags <- TS_Flags ts ;;
  if flags =? 0 then
    PutUint32 slot now ;;; bump_pointer ts 4
  else if flags =? 1 then
    n <- copy_to slot (tcpip.AsSlice addr) ;;
    if negb (n =? IPv4AddressSize) then panic
    else s4 <- tail slot IPv4AddressSize ;; PutUint32 s4 now ;;; bump_pointer ts 8
  else if flags =? 3 then
    a <- reslice slot 0 IPv4AddressSize ;;
    ab <- contents a ;;
    if decide (tcpip.AddrFrom4 ab = addr) then
      s4 <- tail slot IPv4AddressSize ;; PutUint32 s4 now ;;; bump_pointer ts 8
    else ret tt
  else ret tt.

Definition RR_Pointer (rr : slice) : M Z := idx rr 2.
Definition RR_StoreAddress (rr : slice) (addr : tcpip.Address) : M unit :=
  p <- RR_Pointer rr ;;
  dst <- tail rr (u8 (p - 1)) ;;
  n <- copy_to dst (tcpip.AsSlice addr) ;;
  if negb (n =? IPv4AddressSize) then panic else bump_pointer rr IPv4AddressSize.

Definition RA_Value (ra : slice) : M Z := v <- tail ra 2 ;; Uint16 v.

(** ** Serialized form *)

Definition option_bytes (o : IPv4SerializableOption) : list Z :=
  match o with
  | RouterAlertOption => [148; 4; 0; 0]
  | NOPOption => [1]
  | ListEndOption => [0]
  end.
Definition options_bytes (s : list IPv4SerializableOption) : list Z := concat (map option_bytes s).
Definition pad4 (n : Z) : Z := (n + 3) / 4 * 4.
Definition padded_bytes (s : list IPv4SerializableOption) : list Z :=
  let b := options_bytes s in b ++ repeat 0 (Z.to_nat (pad4 (Zlen b) - Zlen b)).

Lemma pad_table :
  forallb (fun n => (252 <? n) || (padIPv4OptionsLength n =? pad4 n)) (map Z.of_nat (seq 0 256)) = true.
Proof. vm_compute. reflexivity. Qed.
Lemma padIPv4OptionsLength_pad4 n : 0 <= n <= 252 -> padIPv4OptionsLength n = pad4 n.
Proof.
  intros Hn. pose proof (tcpip.byte_cases _ pad_table n ltac:(lia)) as H.
  apply orb_true_iff in H as [H|H]; [lia|]. by apply Z.eqb_eq.
Qed.
Lemma pad4_bound n : 0 <= n -> n <= pad4 n <= n + 3 /\ pad4 n mod 4 = 0.
Proof. intros. unfold pad4. zdm. Qed.

Lemma upd_comm l i j v w : 0 <= i -> 0 <= j -> i <> j -> upd (upd l i v) j w = upd (upd l j w) i v.
Proof. intros. unfold upd. apply list_insert_insert_ne. lia. Qed.

Lemma option_bytes_len o : Zlen (option_bytes o) = match o with RouterAlertOption => 4 | _ => 1 end.
Proof. by destruct o. Qed.

Lemma write_at_app l o a b : write_at l o (a ++ b) = write_at (write_at l o a) (o + Zlen a) b.
Proof.
  revert l o. induction a as [|x a IH]; intros l o; simpl.
  - f_equal. unfold Zlen. simpl. lia.
  - rewrite IH. f_equal. rewrite Zlen_cons. lia.
Qed.

Lemma runs_serialize_loop s o l c m total :
  in_array m (Slice o l c) -> Zlen (options_bytes s) <= l -> 0 <= total ->
  total + Zlen (options_bytes s) <= 252 ->
  runs (serialize_loop s (Slice o l c) total) m
    (Slice (o + Zlen (options_bytes s)) (l - Zlen (options_bytes s)) (c - Zlen (options_bytes s)),
     total + Zlen (options_bytes s))
    (write_at m o (options_bytes s)).
Proof.
  revert o l c m total. induction s as [|opt s IH]; intros o l c m total Hin Hl Ht Hb; simpl.
  - eapply runs_eq; [apply runs_ret| |done]. unfold Zlen. simpl. by rewrite !Z.add_0_r, !Z.sub_0_r.
  - unfold options_bytes in *. simpl in *. rewrite Zlen_app, option_bytes_len in *.
    pose proof (Zlen_nonneg (concat (map option_bytes s))) as Hn.
    destruct Hin as (Ho & Hlc & Hoc). simpl in Ho, Hlc, Hoc.
    rewrite write_at_app, option_bytes_len. destruct opt; simpl.
    + go_step. eapply runs_bind; [go_run|]. cbv beta zeta.
      change (u8 (2 + (IPv4OptionRouterAlertLength - 2))) with 4. go_step. go_step. go_step.
      rewrite u8_small by lia. eapply runs_eq; [apply IH; try lia; rewrite ?Zlen_upd, ?Zlen_put16;
        (split_and!; simpl; rewrite ?Zlen_upd, ?Zlen_put16; lia)| |].
      * f_equal; [f_equal; lia|lia].
      * f_equal. unfold put16. change (u8 (0 / 256)) with 0. change (u8 0) with 0. change (Z.lor 20 128) with 148.
        rewrite !Z.add_0_r. replace (o + 2 + 1) with (o + 1 + 1 + 1) by lia. replace (o + 2) with (o + 1 + 1) by lia.
        rewrite (upd_comm _ (o + 1 + 1 + 1) o), (upd_comm _ (o + 1 + 1) o) by lia.
        rewrite (upd_comm _ (o + 1 + 1 + 1) (o + 1)), (upd_comm _ (o + 1 + 1) (o + 1)) by lia. done.
    + go_step. go_step. rewrite u8_small by lia.
      eapply runs_eq; [apply IH; try lia; (split_and!; simpl; rewrite ?Zlen_upd; lia)| |].
      * f_equal; [f_equal; lia|lia].
      * rewrite Z.add_0_r. done.
    + go_step. go_step. rewrite u8_small by lia.
      eapply runs_eq; [apply IH; try lia; (split_and!; simpl; rewrite ?Zlen_upd; lia)| |].
      * f_equal; [f_equal; lia|lia].
      * rewrite Z.add_0_r. done.
Qed.

Lemma Zlen_repeat {A} (x : A) n : Zlen (repeat x n) = Z.of_nat n.
Proof. unfold Zlen. by rewrite repeat_length. Qed.

Lemma runs_Serialize `{SingCommon} s o l c m :
  in_array m (Slice o l c) -> Zlen (options_bytes s) <= 252 -> pad4 (Zlen (options_bytes s)) <= l ->
  runs (Serialize s (Slice o l c)) m (pad4 (Zlen (options_bytes s))) (write_at m o (padded_bytes s)).
Proof.
  intros Hin Hb Hl. pose proof (Zlen_nonneg (options_bytes s)) as Hn.
  destruct (pad4_bound _ Hn) as [Hp _]. unfold Serialize.
  pose proof Hin as (Ho & Hlc & Hoc). simpl in Ho, Hlc, Hoc.
  eapply runs_bind; [apply runs_serialize_loop; [done|lia|lia|lia]|].
  cbn [fst snd]. rewrite Z.add_0_l, padIPv4OptionsLength_pad4, u8_small by lia.
  go_step. eapply runs_bind; [apply ClearArray_zeroes; split_and!; simpl; rewrite ?Zlen_write_at; lia|].
  eapply runs_eq; [apply runs_ret|done|]. unfold padded_bytes.
  by rewrite write_at_app, Z.sub_0_r, Z.add_0_r.
Qed.

Lemma SerializerLength_pad4 s :
  Zlen (options_bytes s) <= 252 -> SerializerLength s = pad4 (Zlen (options_bytes s)).
Proof.
  intros Hb. unfold SerializerLength. pose proof (Zlen_nonneg (options_bytes s)).
  rewrite <- padIPv4OptionsLength_pad4 by lia. f_equal.
  set (f := fun _ _ => _).
  assert (forall t, 0 <= t -> t + Zlen (options_bytes s) <= 252 ->
    fold_left f s t = t + Zlen (options_bytes s)) as Hf; [|by rewrite Hf by lia].
  clear Hb H. induction s as [|opt s IH]; intros t Ht Hs; simpl; [unfold options_bytes, Zlen; simpl; lia|].
  unfold options_bytes in *. simpl in *. rewrite Zlen_app, option_bytes_len in *.
  pose proof (Zlen_nonneg (concat (map option_bytes s))).
  destruct opt; unfold f at 2; cbn [payload]; rewrite ?(u8_small (t + 1)) by lia.
  - change (u8 (1 + (IPv4OptionRouterAlertLength - 2))) with 3.
    rewrite (u8_small (t + 1 + 3)) by lia. rewrite IH; lia.
  - rewrite IH; lia.
  - rewrite IH; lia.
Qed.

(** ** Driving the iterator to the end *)

(** The options up to the end or the first problem; [None] if the fuel does
    not suffice. *)
Fixpoint parse_all (fuel : nat) (i : IPv4OptionIterator)
    : option (list IPv4Option * option IPv4OptParameterProblem) :=
  match fuel with
  | O => None
  | S fuel' =>
      match Next i with
      | ((_, _, Some p), _) => Some ([], Some p)
      | ((Some o, _, None), i') =>
          match parse_all fuel' i' with
          | Some (os, e) => Some (o :: os, e)
          | None => None
          end
      | ((None, _, None), _) => Some ([], None)
      end
  end.

(** The iterator has consumed all but the current options of [b]. *)
Definition at_cursor (b : list Z) (i : IPv4OptionIterator) : Prop :=
  exists p, b = p ++ it_options i /\ nextErrCursor i = 20 + Zlen p.

(** One call of [Next]: the end, an option which is the next piece of the
    buffer, or a problem that points into the current option. *)
Lemma Next_cases b i :
  bytes b -> Zlen b <= 40 -> at_cursor b i ->
  (it_options i = [] /\ Next i = ((None, true, None), i)) \/
  (exists o i', Next i = ((Some o, false, None), i') /\ at_cursor b i' /\
     it_options i = Contents o ++ it_options i' /\ Contents o <> []) \/
  (exists pr i', Next i = ((None, false, Some pr), i') /\ NeedICMP pr = true /\
     20 <= Pointer pr < 20 + Zlen b).
Proof.
  intros Hb Hl (p & -> & Hc). destruct i as [opts err nxt new wp]. simpl in *. subst nxt.
  rewrite Zlen_app in Hl. pose proof (Zlen_nonneg p) as Hp.
  destruct opts as [|ty rest]; [left; done|right]. unfold Next; cbn [it_options nextErrCursor newOptions writePoint].
  assert (Zlen (ty :: rest) >= 1) as Hl1 by (rewrite Zlen_cons; pose proof (Zlen_nonneg rest); lia).
  destruct ((ty =? IPv4OptionNOPType) || (ty =? IPv4OptionListEndType)).
  { left. do 2 eexists. split; [done|]. split; [|done]. exists (p ++ [ty]). simpl.
    rewrite <- app_assoc. split; [done|]. rewrite Zlen_app, u8_small by lia. unfold Zlen; simpl. lia. }
  destruct rest as [|optLen rest].
  { right. do 2 eexists. split; [done|]. simpl. rewrite Zlen_app. split; [done|lia]. }
  set (opts := ty :: optLen :: rest) in *.
  destruct ((optLen <=? 1) || (u8 (Zlen opts) <? optLen)) eqn:Eb.
  { right. do 2 eexists. split; [done|]. simpl. rewrite Zlen_app. split; [done|lia]. }
  rewrite u8_small in Eb by lia.
  assert (1 < optLen <= Zlen opts) as Hol by lia.
  assert (Zlen (take (Z.to_nat optLen) opts) = optLen) as Hlt by (rewrite Zlen_take; lia).
  assert (forall o err wp,
    Contents o = take (Z.to_nat optLen) opts ->
    at_cursor (p ++ opts) (mkIter (drop (Z.to_nat optLen) opts) err (u8 (20 + Zlen p + optLen)) new wp) /\
    opts = Contents o ++ drop (Z.to_nat optLen) opts /\ Contents o <> []) as Hgood.
  { intros o e w ->. split_and!.
    - exists (p ++ take (Z.to_nat optLen) opts). simpl. rewrite <- app_assoc, take_drop. split; [done|].
      rewrite Zlen_app, Hlt, u8_small by lia. lia.
    - by rewrite take_drop.
    - intros E. rewrite E in Hlt. unfold Zlen in Hlt. simpl in Hlt. lia. }
  assert (20 <= u8 (20 + Zlen p + 1) < 20 + Zlen (p ++ opts)) as Hbad
    by (rewrite Zlen_app, u8_small by lia; lia).
  repeat match goal with |- context [if ?c then _ else _] => destruct c end;
    first [ right; do 2 eexists; split; [done|]; split; [done|exact Hbad]
          | left; do 2 eexists; split; [reflexivity|]; eapply Hgood; reflexivity ].
Qed.

Lemma parse_all_total fuel b i :
  bytes b -> Zlen b <= 40 -> at_cursor b i -> (length (it_options i) < fuel)%nat ->
  exists os e, parse_all fuel i = Some (os, e) /\
    match e with
    | None => concat (map Contents os) = it_options i
    | Some pr => NeedICMP pr = true /\ 20 <= Pointer pr < 20 + Zlen b
    end.
Proof.
  intros Hb Hl. revert i. induction fuel as [|fuel IH]; intros i Hi Hf; [lia|].
  cbn [parse_all].
  destruct (Next_cases b i Hb Hl Hi) as [[E ->]|[(o & i' & -> & Hi' & E & Hne)|(pr & i' & -> & Hpr)]].
  - exists [], None. rewrite E. done.
  - assert (length (Contents o) <> 0%nat) by (destruct (Contents o); [done|simpl; lia]).
    destruct (IH i' Hi') as (os & e & -> & He).
    { rewrite E, length_app in Hf. lia. }
    exists (o :: os), e. split; [done|]. destruct e; [done|]. simpl. by rewrite He.
  - exists [], (Some pr). done.
Qed.

(** iterating over the options of any IPv4 header terminates within one
    step per byte; either the options returned are exactly the bytes of the
    buffer, in order and without gaps, or a parameter problem is reported whose
    pointer lies inside the option area of the header. *)
Lemma IPv4OptionIterator_total b :
  bytes b -> Zlen b <= 40 ->
  exists os e, parse_all (S (length b)) (MakeIterator b) = Some (os, e) /\
    match e with
    | None => concat (map Contents os) = b
    | Some pr => NeedICMP pr = true /\ 20 <= Pointer pr < 20 + Zlen b
    end.
Proof.
  intros Hb Hl. apply (parse_all_total _ b); try done; [|simpl; lia].
  exists []. split; [done|]. unfold Zlen. simpl. done.
Qed.

Lemma IPv4OptionIterator_total_witness :
  exists os e, parse_all 5 (MakeIterator [1; 7; 2; 0]) = Some (os, e) /\
    match e with
    | None => concat (map Contents os) = [1; 7; 2; 0]
    | Some pr => NeedICMP pr = true /\ 20 <= Pointer pr < 20 + Zlen [1; 7; 2; 0]
    end.
Proof. apply (IPv4OptionIterator_total [1; 7; 2; 0]); [unfold bytes; repeat constructor; lia|unfold Zlen; simpl; lia]. Defined.

(** What the iterator returns for a serialized option. *)
Definition parsed (o : IPv4SerializableOption) : IPv4Option :=
  match o with RouterAlertOption => OptionRouterAlert [148; 4; 0; 0] | _ => OptionGeneric (option_bytes o) end.

Lemma parse_all_options s rest fuel err nxt new wp os e :
  Zlen (options_bytes s) + Zlen rest <= 255 -> 0 <= nxt ->
  (forall err' nxt', parse_all fuel (mkIter rest err' nxt' new wp) = Some (os, e)) ->
  parse_all (length s + fuel) (mkIter (options_bytes s ++ rest) err nxt new wp)
    = Some (map parsed s ++ os, e).
Proof.
  revert err nxt. induction s as [|opt s IH]; intros err nxt Hl Hn Hr; [apply Hr|].
  unfold options_bytes in *. simpl in Hl. rewrite Zlen_app, option_bytes_len in Hl.
  pose proof (Zlen_nonneg (concat (map option_bytes s))). pose proof (Zlen_nonneg rest).
  cbn [length Nat.add parse_all map concat]. rewrite <- app_assoc.
  assert (forall x, 0 <= u8 x) as Hu by (intros; apply u8_range).
  destruct opt; simpl app; unfold Next; cbn [it_options nextErrCursor newOptions writePoint].
  - rewrite (u8_small (Zlen (148 :: _))) by (rewrite !Zlen_cons, Zlen_app; lia).
    replace (_ <? 4) with false by (rewrite !Zlen_cons, Zlen_app; lia).
    simpl. rewrite IH by (auto; lia). done.
  - simpl. rewrite IH by (auto; lia). done.
  - simpl. rewrite IH by (auto; lia). done.
Qed.
Lemma parse_all_zeros n err nxt new wp :
  parse_all (S n) (mkIter (repeat 0 n) err nxt new wp) = Some (repeat (OptionGeneric [0]) n, None).
Proof.
  revert err nxt. induction n as [|n IH]; intros; [done|].
  change (parse_all (S (S n)) (mkIter (repeat 0 (S n)) err nxt new wp))
    with (match parse_all (S n) (mkIter (repeat 0 n) nxt (u8 (nxt + 1)) new wp) with
          | Some (os, e) => Some (OptionGeneric [0] :: os, e) | None => None end).
  by rewrite IH.
Qed.

(** serializing a list of options and iterating over the result gives the
    options back, followed by one List End per padding byte; the returned size
    is SerializerLength, a multiple of four, and nothing outside the written
    area changes. *)
Lemma Serialize_roundtrip `{SingCommon} s o l c m :
  in_array m (Slice o l c) -> Zlen (options_bytes s) <= 252 -> SerializerLength s <= l ->
  exists m' pad, runs (Serialize s (Slice o l c)) m (SerializerLength s) m' /\
    SerializerLength s mod 4 = 0 /\
    parse_all (S (length s + pad)) (MakeIterator (window m' o (SerializerLength s)))
      = Some (map parsed s ++ repeat (OptionGeneric [0]) pad, None) /\
    (forall off len, 0 <= off -> off + len <= o \/ o + SerializerLength s <= off ->
       window m' off len = window m off len).
Proof.
  intros Hin Hb Hl. rewrite SerializerLength_pad4 in * by done.
  pose proof (Zlen_nonneg (options_bytes s)) as Hn. destruct (pad4_bound _ Hn) as [Hp Hm].
  pose proof Hin as (Ho & Hlc & Hoc). simpl in Ho, Hlc, Hoc.
  assert (Zlen (padded_bytes s) = pad4 (Zlen (options_bytes s))) as HL
    by (unfold padded_bytes; rewrite Zlen_app, Zlen_repeat; lia).
  eexists _, (Z.to_nat (pad4 (Zlen (options_bytes s)) - Zlen (options_bytes s))).
  split; [by apply runs_Serialize|]. split; [done|]. split.
  - rewrite <- HL at 2. rewrite window_write_at_eq by lia. unfold MakeIterator, padded_bytes.
    rewrite <- Nat.add_succ_r. apply parse_all_options; [rewrite Zlen_repeat; lia|unfold IPv4MinimumSize; lia|].
    intros. apply parse_all_zeros.
  - intros off len Hoff Hd. apply window_write_at_out; [lia|lia|]. rewrite HL. lia.
Qed.

Lemma Serialize_roundtrip_witness :
  exists m' pad,
    runs (Serialize (H := sing_common_loop) [NOPOption; RouterAlertOption] (Slice 0 40 40))
      (repeat 9 40) 8 m' /\
    8 mod 4 = 0 /\
    parse_all (S (2 + pad)) (MakeIterator (window m' 0 8))
      = Some ([OptionGeneric [1]; OptionRouterAlert [148; 4; 0; 0]] ++ repeat (OptionGeneric [0]) pad, None) /\
    (forall off len, 0 <= off -> off + len <= 0 \/ 8 <= off ->
       window m' off len = window (repeat 9 40) off len).
Proof.
  apply (Serialize_roundtrip (H := sing_common_loop) [NOPOption; RouterAlertOption] 0 40 40 (repeat 9 40));
    [split_and!; simpl; unfold Zlen; simpl; lia|vm_compute; discriminate|vm_compute; discriminate].
Defined.
