(* ===== verification/IPv4.v ===== *)
(** * internal/gtcpip/header/ipv4.go: the IPv4 header

    A header is a slice of the packet's array; every method is a computation
    in the memory monad.  The theorems: an encoded header reads back and is
    valid, a header whose checksum was just stored verifies, and the
    incremental updates of the addresses keep a valid checksum valid. *)
From S2P Require Import Prelude Bytes GoMem Checksum TsChecksum Tcpip Netip HdrChecksum IPv4Options.

Definition IPVersion_shift : Z := 4.
Definition IPv4Version : Z := 4.
Definition IPv6Version : Z := 6.
Definition IPv4ProtocolNumber : Z := 2048.
Definition IPv4FlagMoreFragments : Z := 1.
Definition IPv4FlagDontFragment : Z := 2.
Definition IPv4MinimumProcessableDatagramSize : Z := 576.

(** [IPVersion(b)]: -1 for an empty slice. *)
Definition IPVersion (b : slice) : M Z :=
  if sl_len b <? 1 then ret (-1)
  else v <- idx b 0 ;; ret (Z.shiftr v IPVersion_shift).

Module IPv4.

Definition HeaderLength (b : slice) : M Z :=
  v <- idx b 0 ;; ret (u8 (Z.land v 15 * IPv4IHLStride)).
Definition SetHeaderLength (b : slice) (hdrLen : Z) : M unit :=
  if IPv4MaximumHeaderSize <? hdrLen then panic
  else set_idx b 0 (Z.lor (u8 (Z.shiftl IPv4Version IPVersion_shift)) (Z.land (hdrLen / IPv4IHLStride) 15)).
Definition ID (b : slice) : M Z := s <- tail b 4 ;; Uint16 s.
Definition Protocol (b : slice) : M Z := idx b 9.
Definition Flags (b : slice) : M Z := s <- tail b 6 ;; v <- Uint16 s ;; ret (u8 (Z.shiftr v 13)).
Definition More (b : slice) : M bool :=
  f <- Flags b ;; ret (negb (Z.land f IPv4FlagMoreFragments =? 0)).
Definition TTL (b : slice) : M Z := idx b 8.
Definition FragmentOffset (b : slice) : M Z := s <- tail b 6 ;; v <- Uint16 s ;; ret (u16 (Z.shiftl v 3)).
Definition TotalLength (b : slice) : M Z := s <- tail b 2 ;; Uint16 s.
Definition Checksum_ (b : slice) : M Z := s <- tail b 10 ;; Uint16 s.
Definition SourceAddressSlice (b : slice) : M (list Z) :=
  s <- reslice b 12 (12 + IPv4AddressSize) ;; contents s.
Definition DestinationAddressSlice (b : slice) : M (list Z) :=
  s <- reslice b 16 (16 + IPv4AddressSize) ;; contents s.
Definition SourceAddress (b : slice) : M tcpip.Address :=
  a <- SourceAddressSlice b ;; ret (tcpip.AddrFrom4 a).
Definition DestinationAddress (b : slice) : M tcpip.Address :=
  a <- DestinationAddressSlice b ;; ret (tcpip.AddrFrom4 a).
(** netip.go *)
Definition SourceAddr (b : slice) : M netip.Addr :=
  a <- SourceAddressSlice b ;; ret (netip.AddrFrom4 a).
Definition DestinationAddr (b : slice) : M netip.Addr :=
  a <- DestinationAddressSlice b ;; ret (netip.AddrFrom4 a).

Definition TransportProtocol (b : slice) : M Z := Protocol b.
Definition PayloadLength (b : slice) : M Z :=
  t <- TotalLength b ;; h <- HeaderLength b ;; ret (u16 (t - h)).
Definition Payload (b : slice) : M slice :=
  h <- HeaderLength b ;; s <- tail b h ;; n <- PayloadLength b ;; reslice s 0 n.
Definition TOS (b : slice) : M (Z * Z) := v <- idx b 1 ;; ret (v, 0).
Definition Options (b : slice) : M slice :=
  h <- HeaderLength b ;; reslice3 b 20 h h.

Definition SetTOS (b : slice) (v _l : Z) : M unit := set_idx b 1 v.
Definition SetTTL (b : slice) (v : Z) : M unit := set_idx b 8 v.
Definition SetTotalLength (b : slice) (v : Z) : M unit := s <- tail b 2 ;; PutUint16 s v.
Definition SetChecksum (b : slice) (v : Z) : M unit := s <- tail b 10 ;; Put s v.
Definition SetFlagsFragmentOffset (b : slice) (flags offset : Z) : M unit :=
  let v := Z.lor (u16 (Z.shiftl flags 13)) (Z.shiftr offset 3) in
  s <- tail b 6 ;; PutUint16 s v.
Definition SetID (b : slice) (v : Z) : M unit := s <- tail b 4 ;; PutUint16 s v.
(** [copy(b[lo:lo+4], a)] *)
Definition set_addr (b : slice) (lo : Z) (a : list Z) : M unit :=
  s <- reslice b lo (lo + IPv4AddressSize) ;; _n <- copy_to s a ;; ret tt.
Definition SetSourceAddress (b : slice) (a : tcpip.Address) : M unit := set_addr b 12 (tcpip.AsSlice a).
Definition SetDestinationAddress (b : slice) (a : tcpip.Address) : M unit := set_addr b 16 (tcpip.AsSlice a).
Definition SetSourceAddr (b : slice) (a : netip.Addr) : M unit := set_addr b 12 (netip.AsSlice a).
Definition SetDestinationAddr (b : slice) (a : netip.Addr) : M unit := set_addr b 16 (netip.AsSlice a).

Definition SetSourceAddressWithChecksumUpdate (b : slice) (new : tcpip.Address) : M unit :=
  x <- Checksum_ b ;; old <- SourceAddress b ;;
  x' <- lift (checksumUpdate2ByteAlignedAddress (not16 x) old new) ;;
  SetChecksum b (not16 x') ;;;
  SetSourceAddress b new.
Definition SetDestinationAddressWithChecksumUpdate (b : slice) (new : tcpip.Address) : M unit :=
  x <- Checksum_ b ;; old <- DestinationAddress b ;;
  x' <- lift (checksumUpdate2ByteAlignedAddress (not16 x) old new) ;;
  SetChecksum b (not16 x') ;;;
  SetDestinationAddress b new.

Section WithChecksum.
Context `{ChecksumImpl}.

Definition CalculateChecksum (b : slice) : M Z :=
  s1 <- reslice b 0 10 ;; c1 <- contents s1 ;;
  let xsum0 := Checksum c1 0 in
  h <- HeaderLength b ;;
  s2 <- reslice b (10 + 2) h ;; c2 <- contents s2 ;;
  ret (Checksum c2 xsum0).

Definition IsChecksumValid (b : slice) : M bool :=
  h <- HeaderLength b ;;
  s <- reslice b 0 h ;; c <- contents s ;;
  ret (Checksum c 0 =? 65535).

Definition EncodePartial (b : slice) (partialChecksum totalLength : Z) : M unit :=
  SetTotalLength b totalLength ;;;
  s <- reslice b 2 (2 + 2) ;; c <- contents s ;;
  let xsum := Checksum c partialChecksum in
  SetChecksum b (not16 xsum).
End WithChecksum.

Record IPv4Fields := mkFields {
  f_TOS : Z;
  f_TotalLength : Z;
  f_ID : Z;
  f_Flags : Z;
  f_FragmentOffset : Z;
  f_TTL : Z;
  f_Protocol : Z;
  f_Checksum : Z;
  f_SrcAddr : netip.Addr;
  f_DstAddr : netip.Addr;
  f_Options : list IPv4SerializableOption
}.

Definition Encode `{SingCommon} (b : slice) (i : IPv4Fields) : M unit :=
  hdrLen <- (if (0 <? Zlen (f_Options i))
             then s <- tail b 20 ;; n <- Serialize (f_Options i) s ;; ret (u8 (IPv4MinimumSize + n))
             else ret IPv4MinimumSize) ;;
  if IPv4MaximumHeaderSize <? hdrLen then panic
  else
    SetHeaderLength b hdrLen ;;;
    set_idx b 1 (f_TOS i) ;;;
    SetTotalLength b (f_TotalLength i) ;;;
    SetID b (f_ID i) ;;;
    SetFlagsFragmentOffset b (f_Flags i) (f_FragmentOffset i) ;;;
    set_idx b 8 (f_TTL i) ;;;
    set_idx b 9 (f_Protocol i) ;;;
    SetChecksum b (f_Checksum i) ;;;
    set_addr b 12 (netip.AsSlice (f_SrcAddr i)) ;;;
    set_addr b 16 (netip.AsSlice (f_DstAddr i)).

Definition IsValid (b : slice) (pktSize : Z) : M bool :=
  if sl_len b <? IPv4MinimumSize then ret false
  else
    hlen <- HeaderLength b ;;
    tlen <- TotalLength b ;;
    if (hlen <? IPv4MinimumSize) || (tlen <? hlen) || (pktSize <? tlen) then ret false
    else
      v <- IPVersion b ;;
      ret (v =? IPv4Version).

(** Address predicates. *)
Definition IsV4MulticastAddress (addr : tcpip.Address) : res bool :=
  if negb (tcpip.BitLen addr =? 32) then Ok false
  else rbind (tcpip.As4 addr) (fun a => Ok (Z.land (byte_at a 0) 240 =? 224)).
Definition IsV4LoopbackAddress (addr : tcpip.Address) : res bool :=
  if negb (tcpip.BitLen addr =? 32) then Ok false
  else rbind (tcpip.As4 addr) (fun a => Ok (byte_at a 0 =? 127)).

(** ** Execution of the accessors *)

(** Header length of the header at offset [o]. *)
Definition hlen (m : list Z) (o : Z) : Z := byte_at m o mod 16 * 4.

Lemma u8_hlen m o : u8 (Z.land (byte_at m o) 15 * 4) = hlen m o.
Proof.
  unfold hlen. change 15 with (Z.ones 4). rewrite Z.land_ones by lia. apply u8_small. simpl. zdm.
Qed.
Lemma hlen_range m o : 0 <= hlen m o <= 60 /\ hlen m o mod 4 = 0.
Proof. unfold hlen. zdm. Qed.

Ltac go_def := eapply runs_eq; [go_run| |]; repeat (f_equal; try lia).

Lemma runs_IPVersion o l c m : 1 <= l -> runs (IPVersion (Slice o l c)) m (Z.shiftr (byte_at m o) 4) m.
Proof.
  intros. unfold IPVersion. cbn [sl_len]. replace (l <? 1) with false by lia.
  eapply runs_eq; [go_run| |done]. unfold IPVersion_shift. by rewrite Z.add_0_r.
Qed.
Lemma runs_HeaderLength o l c m : 1 <= l -> runs (HeaderLength (Slice o l c)) m (hlen m o) m.
Proof.
  intros. unfold HeaderLength, IPv4IHLStride. eapply runs_eq; [go_run| |done]. by rewrite Z.add_0_r, u8_hlen.
Qed.
Lemma runs_TotalLength o l c m : 4 <= l -> l <= c -> runs (TotalLength (Slice o l c)) m (get16 m (o + 2)) m.
Proof. intros. unfold TotalLength. go_run. Qed.
Lemma runs4_Checksum_ o l c m : 12 <= l -> l <= c -> runs (Checksum_ (Slice o l c)) m (get16 m (o + 10)) m.
Proof. intros. unfold Checksum_. go_run. Qed.
Lemma runs_ID o l c m : 6 <= l -> l <= c -> runs (ID (Slice o l c)) m (get16 m (o + 4)) m.
Proof. intros. unfold ID. go_run. Qed.
Lemma runs_Protocol o l c m : 10 <= l -> runs (Protocol (Slice o l c)) m (byte_at m (o + 9)) m.
Proof. intros. unfold Protocol. go_run. Qed.
Lemma runs4_TransportProtocol o l c m : 10 <= l -> runs (TransportProtocol (Slice o l c)) m (byte_at m (o + 9)) m.
Proof. apply runs_Protocol. Qed.
Lemma runs4_Flags o l c m :
  8 <= l -> l <= c -> runs (Flags (Slice o l c)) m (u8 (Z.shiftr (get16 m (o + 6)) 13)) m.
Proof. intros. unfold Flags. go_run. Qed.
Lemma runs_FragmentOffset o l c m :
  8 <= l -> l <= c -> runs (FragmentOffset (Slice o l c)) m (u16 (Z.shiftl (get16 m (o + 6)) 3)) m.
Proof. intros. unfold FragmentOffset. go_run. Qed.
Lemma runs4_SourceAddressSlice o l c m :
  16 <= c -> runs (SourceAddressSlice (Slice o l c)) m (window m (o + 12) 4) m.
Proof. intros. unfold SourceAddressSlice, IPv4AddressSize. go_run. Qed.
Lemma runs4_DestinationAddressSlice o l c m :
  20 <= c -> runs (DestinationAddressSlice (Slice o l c)) m (window m (o + 16) 4) m.
Proof. intros. unfold DestinationAddressSlice, IPv4AddressSize. go_run. Qed.
#[global] Hint Resolve runs_IPVersion runs_HeaderLength runs_TotalLength runs4_Checksum_ runs_ID runs_Protocol
  runs4_TransportProtocol runs4_Flags runs_FragmentOffset runs4_SourceAddressSlice
  runs4_DestinationAddressSlice : gorun.

Lemma runs4_SourceAddress o l c m :
  16 <= c -> runs (SourceAddress (Slice o l c)) m (tcpip.AddrFrom4 (window m (o + 12) 4)) m.
Proof. intros. unfold SourceAddress. go_run. Qed.
Lemma runs4_DestinationAddress o l c m :
  20 <= c -> runs (DestinationAddress (Slice o l c)) m (tcpip.AddrFrom4 (window m (o + 16) 4)) m.
Proof. intros. unfold DestinationAddress. go_run. Qed.
Lemma runs4_SourceAddr o l c m :
  16 <= c -> runs (SourceAddr (Slice o l c)) m (netip.Addr4 (window m (o + 12) 4)) m.
Proof. intros. unfold SourceAddr. go_run. Qed.
Lemma runs4_DestinationAddr o l c m :
  20 <= c -> runs (DestinationAddr (Slice o l c)) m (netip.Addr4 (window m (o + 16) 4)) m.
Proof. intros. unfold DestinationAddr. go_run. Qed.
Lemma runs4_PayloadLength o l c m :
  4 <= l -> l <= c -> runs (PayloadLength (Slice o l c)) m (u16 (get16 m (o + 2) - hlen m o)) m.
Proof. intros. unfold PayloadLength. go_run. Qed.
#[global] Hint Resolve runs4_SourceAddress runs4_DestinationAddress runs4_SourceAddr runs4_DestinationAddr
  runs4_PayloadLength : gorun.

(** The payload of a valid packet. *)
Lemma runs4_Payload o l c m :
  bytes m -> 20 <= l -> l <= c -> hlen m o <= get16 m (o + 2) -> get16 m (o + 2) <= l ->
  runs (Payload (Slice o l c)) m
    (Slice (o + hlen m o) (get16 m (o + 2) - hlen m o) (c - hlen m o)) m.
Proof.
  intros Hb ????. destruct (hlen_range m o) as [? _]. pose proof (get16_range m (o + 2) Hb).
  unfold Payload. go_step. go_step. go_step. rewrite u16_small by lia.
  eapply runs_eq; [go_run| |done]. f_equal; lia.
Qed.

Lemma runs4_SetChecksum o l c v m :
  12 <= l -> l <= c -> runs (SetChecksum (Slice o l c) v) m tt (put16 m (o + 10) v).
Proof. intros. unfold SetChecksum, Put. go_run. Qed.
Lemma runs_SetTotalLength o l c v m :
  4 <= l -> l <= c -> runs (SetTotalLength (Slice o l c) v) m tt (put16 m (o + 2) v).
Proof. intros. unfold SetTotalLength. go_run. Qed.
Lemma runs_SetID o l c v m : 6 <= l -> l <= c -> runs (SetID (Slice o l c) v) m tt (put16 m (o + 4) v).
Proof. intros. unfold SetID. go_run. Qed.
Lemma runs4_set_addr o l c lo a m :
  0 <= lo -> lo + 4 <= c -> Zlen a <= 4 -> runs (set_addr (Slice o l c) lo a) m tt (write_at m (o + lo) a).
Proof. intros. unfold set_addr, IPv4AddressSize. go_run. Qed.
Lemma runs4_SetSourceAddress o l c a m :
  16 <= c -> Zlen (tcpip.AsSlice a) <= 4 ->
  runs (SetSourceAddress (Slice o l c) a) m tt (write_at m (o + 12) (tcpip.AsSlice a)).
Proof. intros. by apply runs4_set_addr. Qed.
Lemma runs4_SetDestinationAddress o l c a m :
  20 <= c -> Zlen (tcpip.AsSlice a) <= 4 ->
  runs (SetDestinationAddress (Slice o l c) a) m tt (write_at m (o + 16) (tcpip.AsSlice a)).
Proof. intros. by apply runs4_set_addr. Qed.
Lemma runs4_SetSourceAddr o l c a m :
  16 <= c -> Zlen (netip.AsSlice a) <= 4 ->
  runs (SetSourceAddr (Slice o l c) a) m tt (write_at m (o + 12) (netip.AsSlice a)).
Proof. intros. by apply runs4_set_addr. Qed.
Lemma runs4_SetDestinationAddr o l c a m :
  20 <= c -> Zlen (netip.AsSlice a) <= 4 ->
  runs (SetDestinationAddr (Slice o l c) a) m tt (write_at m (o + 16) (netip.AsSlice a)).
Proof. intros. by apply runs4_set_addr. Qed.
#[global] Hint Resolve runs4_SetChecksum runs_SetTotalLength runs_SetID runs4_set_addr
  runs4_SetSourceAddress runs4_SetDestinationAddress runs4_SetSourceAddr runs4_SetDestinationAddr : gorun.

(** ** Validity *)

(** What [IsValid] tests. *)
Definition valid_header (m : list Z) (o l pktSize : Z) : Prop :=
  20 <= l /\ 20 <= hlen m o /\ hlen m o <= get16 m (o + 2) /\ get16 m (o + 2) <= pktSize /\
  byte_at m o / 16 = 4.

Lemma runs4_IsValid o l c pktSize m :
  l <= c ->
  exists b, runs (IsValid (Slice o l c) pktSize) m b m /\ (b = true <-> valid_header m o l pktSize).
Proof.
  intros Hc. unfold IsValid, valid_header, IPv4MinimumSize. cbn [sl_len].
  destruct (Z.ltb_spec l 20); [exists false; split; [done|]; split; [done|lia]|].
  destruct ((hlen m o <? 20) || (get16 m (o + 2) <? hlen m o) || (pktSize <? get16 m (o + 2))) eqn:E.
  - exists false. split; [|split; [done|lia]]. go_step. go_step. rewrite E. apply runs_ret.
  - eexists. split; [go_step; go_step; rewrite E; go_run|].
    unfold IPv4Version. rewrite Z.eqb_eq, Z.shiftr_div_pow2 by lia. change (2 ^ 4) with 16. lia.
Qed.

(** The header checksum verifies: the words sum to a positive multiple of
    65535. *)
Definition checksum_ok (m : list Z) (o : Z) : Prop := wsum (window m o (hlen m o)) ≡₁ 0.

Lemma header_sum_pos m o : bytes m -> 0 <= o -> 20 <= hlen m o -> 0 < wsum (window m o (hlen m o)).
Proof.
  intros Hb Ho Hh. apply wsum_pos; [by apply bytes_window|]. rewrite byte_at_window by lia.
  rewrite Z.add_0_r. pose proof (bytes_byte_at m o Hb). unfold hlen in Hh. zdm.
Qed.

Lemma runs4_IsChecksumValid `{ChecksumImpl} o l c m :
  bytes m -> 0 <= o -> 20 <= hlen m o -> hlen m o <= l -> l <= c ->
  exists b, runs (IsChecksumValid (Slice o l c)) m b m /\ (b = true <-> checksum_ok m o).
Proof.
  intros Hb Ho Hh Hl Hc. eexists. split; [unfold IsChecksumValid; go_run|].
  rewrite Z.add_0_r, Z.sub_0_r. unfold checksum_ok.
  rewrite <- (OC_valid (Checksum (window m o (hlen m o)) 0)); [done| |by apply header_sum_pos].
  apply (Checksum_OC _ 0 0); [by apply bytes_window|by left].
Qed.

(** The value computed by [CalculateChecksum]: the header without its
    checksum field. *)
Lemma runs4_CalculateChecksum `{ChecksumImpl} o l c m :
  bytes m -> 0 <= o -> 20 <= hlen m o -> hlen m o <= l -> l <= c -> o + c <= Zlen m ->
  exists x, runs (CalculateChecksum (Slice o l c)) m x m /\ is_u16 x /\
    x ≡₁ wsum (window m o (hlen m o)) - get16 m (o + 10).
Proof.
  intros Hb Ho Hh Hl Hc Hm. eexists. split; [unfold CalculateChecksum; go_run|].
  rewrite Z.add_0_r, Z.sub_0_r. change (10 + 2) with 12.
  set (x := Checksum (window m o 10) 0).
  assert (OC x (0 + wsum (window m o 10))) as Hx by (apply Checksum_OC; [by apply bytes_window|by left]).
  pose proof (OC_range _ _ Hx). split; [apply Checksum_range; [by apply bytes_window|done]|].
  rewrite Checksum_cong by (auto with gobytes). rewrite (OC_cong_eq _ _ Hx).
  rewrite (wsum_window_split3 m o (hlen m o) (o + 10) 2);
    [|lia|lia|lia|lia|lia|exists 5; lia|by exists 1].
  rewrite (wsum_get16 (window m (o + 10) 2)) by (apply Zlen_window; lia).
  rewrite get16_window, Z.add_0_r by lia.
  replace (o + 10 - o) with 10 by lia. replace (o + 10 + 2) with (o + 12) by lia.
  replace (o + hlen m o - (o + 12)) with (hlen m o - 12) by lia.
  apply cong_refl_eq. lia.
Qed.

Lemma hlen_put16 m o i v : 0 <= o -> o < i -> hlen (put16 m i v) o = hlen m o.
Proof. intros. unfold hlen, put16. by rewrite !byte_at_upd_ne by lia. Qed.
Lemma hlen_write_at m o i a : 0 <= o -> o < i -> hlen (write_at m i a) o = hlen m o.
Proof. intros. unfold hlen. by rewrite byte_at_write_at_out by lia. Qed.

(** Storing the complement of [CalculateChecksum] makes the header verify. *)
Lemma store_checksum `{ChecksumImpl} o l c m x :
  bytes m -> 0 <= o -> 20 <= hlen m o -> hlen m o <= l -> l <= c -> o + c <= Zlen m ->
  is_u16 x -> x ≡₁ wsum (window m o (hlen m o)) - get16 m (o + 10) ->
  checksum_ok (put16 m (o + 10) (not16 x)) o.
Proof.
  intros Hb Ho Hh Hl Hc Hm Hx Hcong. unfold checksum_ok. rewrite hlen_put16 by lia.
  rewrite wsum_window_put16; auto with gobytes; try lia; [|exists 5; lia].
  rewrite not16_cong, Hcong by done. apply cong_refl_eq. lia.
Qed.

(** After SetChecksum(^CalculateChecksum()), whatever the checksum field
    held before, IsChecksumValid returns true; only the checksum field has
    changed. *)
Lemma IPv4_SetChecksum_valid `{ChecksumImpl} o l c m :
  bytes m -> 0 <= o -> 20 <= hlen m o -> hlen m o <= l -> l <= c -> o + c <= Zlen m ->
  exists x, runs (CalculateChecksum (Slice o l c)) m x m /\
    runs (SetChecksum (Slice o l c) (not16 x)) m tt (put16 m (o + 10) (not16 x)) /\
    runs (IsChecksumValid (Slice o l c)) (put16 m (o + 10) (not16 x)) true (put16 m (o + 10) (not16 x)).
Proof.
  intros Hb Ho Hh Hl Hc Hm.
  destruct (runs4_CalculateChecksum o l c m) as (x & Hr & Hx & Hcong); try done.
  exists x. split; [done|]. split; [apply runs4_SetChecksum; lia|].
  pose proof (store_checksum o l c m x Hb Ho Hh Hl Hc Hm Hx Hcong) as Hok.
  destruct (runs4_IsChecksumValid o l c (put16 m (o + 10) (not16 x))) as (b & Hrun & Hb');
    rewrite ?hlen_put16 by lia; auto with gobytes. apply Hb' in Hok. by subst b.
Qed.

(** ** Incremental updates *)

Lemma runs_lift {A} (r : res A) a m : r = Ok a -> runs (lift r) m a m.
Proof. by intros ->. Qed.

(** One address replaced, with the checksum updated incrementally; [lo] is 12
    or 16. *)
Lemma address_update_ok o lo m new x' :
  bytes m -> 0 <= o -> 20 <= hlen m o -> o + hlen m o <= Zlen m -> lo = 12 \/ lo = 16 ->
  tcpip.wf_Address new -> tcpip.Len new = 4 -> is_u16 x' ->
  x' ≡₁ not16 (get16 m (o + 10)) - wsum (window m (o + lo) 4) + wsum (tcpip.AsSlice new) ->
  checksum_ok m o ->
  checksum_ok (write_at (put16 m (o + 10) (not16 x')) (o + lo) (tcpip.AsSlice new)) o.
Proof.
  intros Hb Ho Hh Hm Hlo Hwf Hlen Hx Hc Hok. unfold checksum_ok in *.
  pose proof (tcpip.Zlen_AsSlice _ Hwf) as HL. rewrite Hlen in HL.
  pose proof (get16_range m (o + 10) Hb).
  rewrite hlen_write_at, hlen_put16 by lia.
  rewrite wsum_window_write_at; rewrite ?Zlen_put16, ?HL; try lia;
    [|destruct Hlo as [-> | ->]; [exists 6; lia|exists 8; lia]|by exists 2].
  rewrite wsum_window_put16; auto with gobytes; try lia; [|exists 5; lia].
  rewrite window_put16_out by lia.
  rewrite not16_cong, Hc, not16_cong, Hok by done. apply cong_refl_eq. lia.
Qed.

Lemma runs_SetSourceAddressWithChecksumUpdate o l c m new :
  bytes m -> 0 <= o -> 20 <= hlen m o -> hlen m o <= l -> l <= c -> o + c <= Zlen m ->
  tcpip.wf_Address new -> tcpip.Len new = 4 ->
  exists x', is_u16 x' /\
    runs (SetSourceAddressWithChecksumUpdate (Slice o l c) new) m tt
      (write_at (put16 m (o + 10) (not16 x')) (o + 12) (tcpip.AsSlice new)) /\
    x' ≡₁ not16 (get16 m (o + 10)) - wsum (window m (o + 12) 4) + wsum (tcpip.AsSlice new).
Proof.
  intros Hb Ho Hh Hl Hc Hm Hwf Hlen. pose proof (tcpip.Zlen_AsSlice _ Hwf) as HL.
  assert (length (window m (o + 12) 4) = 4%nat) as Hw
    by (pose proof (Zlen_window m (o + 12) 4); unfold Zlen in *; lia).
  destruct (updateAddress_ok (not16 (get16 m (o + 10))) (tcpip.AddrFrom4 (window m (o + 12) 4)) new)
    as (x' & E & Hx & Hcong); auto with gobytes.
  { apply tcpip.wf_AddrFrom4. by apply bytes_window. }
  rewrite tcpip.AsSlice_AddrFrom4 in Hcong by done.
  exists x'. split; [done|]. split; [|done].
  unfold SetSourceAddressWithChecksumUpdate. go_step. go_step.
  eapply runs_bind; [by apply runs_lift|]. go_step. apply runs4_SetSourceAddress; lia.
Qed.
Lemma runs_SetDestinationAddressWithChecksumUpdate o l c m new :
  bytes m -> 0 <= o -> 20 <= hlen m o -> hlen m o <= l -> l <= c -> o + c <= Zlen m ->
  tcpip.wf_Address new -> tcpip.Len new = 4 ->
  exists x', is_u16 x' /\
    runs (SetDestinationAddressWithChecksumUpdate (Slice o l c) new) m tt
      (write_at (put16 m (o + 10) (not16 x')) (o + 16) (tcpip.AsSlice new)) /\
    x' ≡₁ not16 (get16 m (o + 10)) - wsum (window m (o + 16) 4) + wsum (tcpip.AsSlice new).
Proof.
  intros Hb Ho Hh Hl Hc Hm Hwf Hlen. pose proof (tcpip.Zlen_AsSlice _ Hwf) as HL.
  assert (length (window m (o + 16) 4) = 4%nat) as Hw
    by (pose proof (Zlen_window m (o + 16) 4); unfold Zlen in *; lia).
  destruct (updateAddress_ok (not16 (get16 m (o + 10))) (tcpip.AddrFrom4 (window m (o + 16) 4)) new)
    as (x' & E & Hx & Hcong); auto with gobytes.
  { apply tcpip.wf_AddrFrom4. by apply bytes_window. }
  rewrite tcpip.AsSlice_AddrFrom4 in Hcong by done.
  exists x'. split; [done|]. split; [|done].
  unfold SetDestinationAddressWithChecksumUpdate. go_step. go_step.
  eapply runs_bind; [by apply runs_lift|]. go_step. apply runs4_SetDestinationAddress; lia.
Qed.

(** ** Encoding *)

(** Fields that fit the header: the fragment offset is a multiple of 8. *)
Definition fields_ok (i : IPv4Fields) : Prop :=
  is_u8 (f_TOS i) /\ is_u16 (f_TotalLength i) /\ is_u16 (f_ID i) /\ 0 <= f_Flags i < 8 /\
  (is_u16 (f_FragmentOffset i) /\ f_FragmentOffset i mod 8 = 0) /\ is_u8 (f_TTL i) /\
  is_u8 (f_Protocol i) /\ is_u16 (f_Checksum i) /\
  (netip.wf (f_SrcAddr i) /\ netip.Is4 (f_SrcAddr i) = true) /\
  (netip.wf (f_DstAddr i) /\ netip.Is4 (f_DstAddr i) = true) /\
  Zlen (options_bytes (f_Options i)) <= 40.

Lemma is4_shape a : netip.wf a -> netip.Is4 a = true ->
  exists b, a = netip.Addr4 b /\ bytes b /\ Zlen b = 4.
Proof.
  destruct a as [|b|]; try done. intros [??] _. exists b. split; [done|]. split; [done|]. unfold Zlen. lia.
Qed.
Lemma flags_fo_word flags off :
  0 <= flags < 8 -> is_u16 off ->
  Z.lor (u16 (Z.shiftl flags 13)) (Z.shiftr off 3) = flags * 8192 + off / 8.
Proof.
  intros. rewrite Z.shiftl_mul_pow2, Z.shiftr_div_pow2 by lia. change (2 ^ 3) with 8.
  rewrite u16_small by (simpl; lia). rewrite lor_add_high; [done|lia|]. simpl. zdm.
Qed.

(** The array after [Encode] of a header with [L] bytes of options. *)
Definition encoded (m : list Z) (o L : Z) (i : IPv4Fields) : list Z :=
  let m := upd m o (64 + (20 + L) / 4) in
  let m := upd m (o + 1) (f_TOS i) in
  let m := put16 m (o + 2) (f_TotalLength i) in
  let m := put16 m (o + 4) (f_ID i) in
  let m := put16 m (o + 6) (f_Flags i * 8192 + f_FragmentOffset i / 8) in
  let m := upd m (o + 8) (f_TTL i) in
  let m := upd m (o + 9) (f_Protocol i) in
  let m := put16 m (o + 10) (f_Checksum i) in
  let m := write_at m (o + 12) (netip.AsSlice (f_SrcAddr i)) in
  write_at m (o + 16) (netip.AsSlice (f_DstAddr i)).

Lemma vers_ihl L : 0 <= L <= 40 ->
  Z.lor (u8 (Z.shiftl 4 4)) (Z.land ((20 + L) / 4) 15) = 64 + (20 + L) / 4.
Proof.
  intros. change (u8 (Z.shiftl 4 4)) with (4 * 2 ^ 4). change 15 with (Z.ones 4).
  rewrite Z.land_ones, Z.mod_small by (simpl; zdm). apply lor_add_high; [lia|]. simpl. zdm.
Qed.

Lemma runs4_Encode `{SingCommon} o l c m i :
  in_array m (Slice o l c) -> fields_ok i ->
  20 + pad4 (Zlen (options_bytes (f_Options i))) <= l ->
  let L := pad4 (Zlen (options_bytes (f_Options i))) in
  runs (Encode (Slice o l c) i) m tt (encoded (write_at m (o + 20) (padded_bytes (f_Options i))) o L i).
Proof.
  intros Hin Hf Hl L. destruct Hf as (?&?&?&?&(?&?)&?&?&?&[Hs1 Hs2]&[Hd1 Hd2]&Ho).
  destruct (is4_shape _ Hs1 Hs2) as (sb & Es & Hsb & Hsl).
  destruct (is4_shape _ Hd1 Hd2) as (db & Ed & Hdb & Hdl).
  pose proof Hin as (Hoff & Hlc & Hoc). simpl in Hoff, Hlc, Hoc.
  pose proof (Zlen_nonneg (options_bytes (f_Options i))) as Hn. destruct (pad4_bound _ Hn) as [HL _].
  assert (0 <= L <= 40) as HL40 by (subst L; unfold pad4 in *; zdm).
  set (m0 := write_at m (o + 20) (padded_bytes (f_Options i))).
  unfold Encode. eapply (runs_bind _ _ _ (20 + L) m0).
  - destruct (f_Options i) as [|opt opts] eqn:Eopt.
    + simpl. subst L m0. apply runs_ret.
    + rewrite Zlen_cons. replace (0 <? _) with true by (pose proof (Zlen_nonneg opts); lia).
      go_step. eapply runs_bind; [apply runs_Serialize; [split_and!; simpl; lia|lia|lia]|].
      fold L. unfold IPv4MinimumSize. rewrite u8_small by lia. apply runs_ret.
  - unfold IPv4MaximumHeaderSize. replace (60 <? 20 + L) with false by lia.
    unfold SetHeaderLength, SetFlagsFragmentOffset, IPv4MaximumHeaderSize, IPv4IHLStride, IPv4Version, IPVersion_shift.
    replace (60 <? 20 + L) with false by lia. rewrite vers_ihl, flags_fo_word by lia.
    unfold encoded. rewrite Es, Ed. cbn [netip.AsSlice].
    do 4 go_step. eapply runs_bind; [go_run|]. do 4 go_step.
    eapply runs_eq; [go_run|done|]. rewrite !Z.add_0_r. done.
Qed.

(** a header written by Encode reads back field by field (version 4, header
    length 20 plus the padded options, and every field of the struct), and
    nothing after the header is touched. *)
Lemma IPv4_Encode_roundtrip `{SingCommon} o l c m i :
  in_array m (Slice o l c) -> bytes m -> fields_ok i ->
  20 + SerializerLength (f_Options i) <= l ->
  exists m', runs (Encode (Slice o l c) i) m tt m' /\
    runs (IPVersion (Slice o l c)) m' 4 m' /\
    runs (HeaderLength (Slice o l c)) m' (20 + SerializerLength (f_Options i)) m' /\
    runs (TotalLength (Slice o l c)) m' (f_TotalLength i) m' /\
    runs (ID (Slice o l c)) m' (f_ID i) m' /\
    runs (Flags (Slice o l c)) m' (f_Flags i) m' /\
    runs (FragmentOffset (Slice o l c)) m' (f_FragmentOffset i) m' /\
    runs (TTL (Slice o l c)) m' (f_TTL i) m' /\
    runs (Protocol (Slice o l c)) m' (f_Protocol i) m' /\
    runs (Checksum_ (Slice o l c)) m' (f_Checksum i) m' /\
    runs (SourceAddr (Slice o l c)) m' (f_SrcAddr i) m' /\
    runs (DestinationAddr (Slice o l c)) m' (f_DstAddr i) m' /\
    (forall off len, o + 20 + SerializerLength (f_Options i) <= off -> window m' off len = window m off len).
Proof.
  intros Hin Hb Hf Hl.
  pose proof Hf as (?&?&?&?&(?&?)&?&?&?&[Hs1 Hs2]&[Hd1 Hd2]&Ho).
  rewrite SerializerLength_pad4 in * by lia.
  destruct (is4_shape _ Hs1 Hs2) as (sb & Es & Hsb & Hsl).
  destruct (is4_shape _ Hd1 Hd2) as (db & Ed & Hdb & Hdl).
  pose proof Hin as (Hoff & Hlc & Hoc). simpl in Hoff, Hlc, Hoc.
  pose proof (Zlen_nonneg (options_bytes (f_Options i))) as Hn. destruct (pad4_bound _ Hn) as [HL HL4].
  eexists. split; [by apply runs4_Encode|].
  set (L := pad4 (Zlen (options_bytes (f_Options i)))) in *.
  assert (0 <= L <= 40) as HL40 by (subst L; unfold pad4 in *; zdm).
  assert (Zlen (padded_bytes (f_Options i)) = L) as HP
    by (unfold padded_bytes; rewrite Zlen_app, Zlen_repeat; lia).
  set (m0 := write_at m (o + 20) (padded_bytes (f_Options i))).
  assert (Zlen m0 = Zlen m) as Hm0 by apply Zlen_write_at.
  unfold encoded. rewrite Es, Ed. cbn [netip.AsSlice].
  assert (is_u16 (f_Flags i * 8192 + f_FragmentOffset i / 8)) by zdm.
  split_and!.
  - eapply runs_eq; [apply runs_IPVersion; lia| |done]. rd. rewrite Z.shiftr_div_pow2 by lia. simpl. zdm.
  - eapply runs_eq; [apply runs_HeaderLength; lia| |done]. unfold hlen. rd. zdm.
  - eapply runs_eq; [apply runs_TotalLength; lia| |done]. by rd.
  - eapply runs_eq; [apply runs_ID; lia| |done]. by rd.
  - eapply runs_eq; [apply runs4_Flags; lia| |done]. rd. rewrite Z.shiftr_div_pow2 by lia.
    change (2 ^ 13) with 8192. rewrite u8_small; zdm.
  - eapply runs_eq; [apply runs_FragmentOffset; lia| |done]. rd. rewrite Z.shiftl_mul_pow2 by lia.
    change (2 ^ 3) with 8. unfold u16. zdm.
  - unfold TTL. eapply runs_eq; [go_run| |done]. by rd.
  - eapply runs_eq; [apply runs_Protocol; lia| |done]. by rd.
  - eapply runs_eq; [apply runs4_Checksum_; lia| |done]. by rd.
  - eapply runs_eq; [apply runs4_SourceAddr; lia| |done]. by rd.
  - eapply runs_eq; [apply runs4_DestinationAddr; lia| |done]. by rd.
  - intros off len Hoff'. rd. subst m0. apply window_write_at_out; lia.
Qed.

(** ** Witnesses *)

Definition sample_header : list Z :=
  [69; 0; 0; 28; 18; 52; 64; 0; 64; 17; 0; 0; 10; 0; 0; 1; 10; 0; 0; 2; 0; 53; 48; 57; 0; 8; 0; 0].
Lemma IPv4_SetChecksum_valid_witness :
  exists x, runs (CalculateChecksum (H := tschecksum.ts_impl false 64) (Slice 0 28 28)) sample_header x sample_header /\
    runs (SetChecksum (Slice 0 28 28) (not16 x)) sample_header tt (put16 sample_header (0 + 10) (not16 x)) /\
    runs (IsChecksumValid (H := tschecksum.ts_impl false 64) (Slice 0 28 28))
      (put16 sample_header (0 + 10) (not16 x)) true (put16 sample_header (0 + 10) (not16 x)).
Proof.
  apply (IPv4_SetChecksum_valid (H := tschecksum.ts_impl false 64) 0 28 28 sample_header); concrete.
Defined.

Definition sample_fields : IPv4Fields :=
  mkFields 0 28 4660 2 8 64 17 0 (netip.Addr4 [10; 0; 0; 1]) (netip.Addr4 [10; 0; 0; 2]) [RouterAlertOption].
Lemma IPv4_Encode_roundtrip_witness :
  exists m', runs (Encode (H := sing_common_loop) (Slice 0 28 28) sample_fields) (repeat 255 28) tt m' /\
    runs (HeaderLength (Slice 0 28 28)) m' 24 m' /\ runs (FragmentOffset (Slice 0 28 28)) m' 8 m'.
Proof.
  destruct (IPv4_Encode_roundtrip (H := sing_common_loop) 0 28 28 (repeat 255 28) sample_fields)
    as (m' & H1 & _ & H2 & _ & _ & _ & H3 & _); [concrete..|].
  exists m'. by split_and!.
Defined.

End IPv4.
