(* ===== verification/IPv6.v ===== *)
(** * internal/gtcpip/header/ipv6.go, ipv6_fragment.go, ipv6_extension_headers.go

    The IPv6 header, the serializer of extension headers (Hop by Hop options
    and Fragment) and the Fragment header's accessors. *)
From S2P Require Import Prelude Bytes GoMem Checksum Tcpip Netip IPv4Options IPv4.

Definition IPv6MinimumSize : Z := 40.
Definition IPv6AddressSize : Z := 16.
Definition IPv6MinimumMTU : Z := 1280.
Definition IPv6ProtocolNumber : Z := 34525.
Definition IPv6FragmentHeaderSize : Z := 8.

(** ** Extension headers *)

Module IPv6Ext.

Definition padIPv6OptionsLength (length : Z) : Z := Z.land (length + 8 - 1) (Z.lnot (8 - 1)).
Definition ipv6OptionsAlignmentPadding (headerOffset align alignOffset : Z) : Z :=
  let padLen := headerOffset - alignOffset in
  Z.land (padLen + align - 1) (Z.lnot (align - 1)) - padLen.

Definition padIPv6Option `{SingCommon} (b : slice) : M unit :=
  if sl_len b =? 0 then ret tt
  else if sl_len b =? 1 then set_idx b 0 0
  else
    s <- tail b 2 ;;
    ClearArray s ;;;
    set_idx b 0 1 ;;;
    set_idx b 1 (u8 (sl_len s)).

(** The only hop by hop option: Router Alert. *)
Record IPv6RouterAlertOption := mkRouterAlert { ra_Value : Z }.
Definition ra_identifier : Z := 5.
Definition ra_length : Z := 2.
Definition ra_alignment : Z * Z := (2, 0).
Definition ra_serializeInto (o : IPv6RouterAlertOption) (b : slice) : M Z :=
  PutUint16 b (ra_Value o) ;;; ret 2.

(** The implementations of IPv6SerializableExtHdr. *)
Inductive IPv6SerializableExtHdr :=
| HopByHop (opts : list IPv6RouterAlertOption)
| Fragment (FragmentOffset : Z) (more : bool) (Identification : Z).

Definition identifier (h : IPv6SerializableExtHdr) : Z :=
  match h with HopByHop _ => 0 | Fragment _ _ _ => 44 end.

Definition hbh_length (h : list IPv6RouterAlertOption) : Z :=
  padIPv6OptionsLength (2 +
    fold_left (fun total _opt =>
      let total := total + ipv6OptionsAlignmentPadding total ra_alignment.1 ra_alignment.2 in
      total + (2 + ra_length)) h 0).

Definition length_ (h : IPv6SerializableExtHdr) : Z :=
  match h with HopByHop opts => hbh_length opts | Fragment _ _ _ => IPv6FragmentHeaderSize end.

(** The loop over the options: the rest of the buffer and the total length. *)
Fixpoint hbh_loop `{SingCommon} (h : list IPv6RouterAlertOption) (optBuffer : slice) (totalLength : Z)
    : M (slice * Z) :=
  match h with
  | [] => ret (optBuffer, totalLength)
  | opt :: h' =>
      let padLen := ipv6OptionsAlignmentPadding totalLength ra_alignment.1 ra_alignment.2 in
      st <- (if negb (padLen =? 0)
             then p <- reslice optBuffer 0 padLen ;;
                  padIPv6Option p ;;;
                  rest <- tail optBuffer padLen ;;
                  ret (rest, totalLength + padLen)
             else ret (optBuffer, totalLength)) ;;
      let '(optBuffer, totalLength) := st in
      pb <- tail optBuffer 2 ;;
      l <- ra_serializeInto opt pb ;;
      set_idx optBuffer 0 ra_identifier ;;;
      set_idx optBuffer 1 l ;;;
      let l := u8 (l + 2) in
      rest <- tail optBuffer l ;;
      hbh_loop h' rest (totalLength + l)
  end.

Definition hbh_serializeInto `{SingCommon} (h : list IPv6RouterAlertOption) (nextHeader : Z) (b : slice) : M Z :=
  optBuffer <- tail b 2 ;;
  st <- hbh_loop h optBuffer 2 ;;
  let '(optBuffer, totalLength) := st in
  let padded := padIPv6OptionsLength totalLength in
  totalLength <- (if negb (padded =? totalLength)
                  then p <- reslice optBuffer 0 (padded - totalLength) ;;
                       padIPv6Option p ;;;
                       ret padded
                  else ret totalLength) ;;
  let wordsLen := totalLength / 8 - 1 in
  if 255 <? wordsLen then panic
  else
    set_idx b 0 nextHeader ;;;
    set_idx b 1 (u8 wordsLen) ;;;
    ret totalLength.

Definition frag_serializeInto (off : Z) (M_ : bool) (ident : Z) (nextHeader : Z) (b : slice) : M Z :=
  _t <- tail b IPv6FragmentHeaderSize ;;
  s4 <- tail b 4 ;; PutUint32 s4 ident ;;;
  s2 <- tail b 2 ;; PutUint16 s2 (u16 (Z.shiftl off 3)) ;;;
  set_idx b 0 nextHeader ;;;
  when M_ (v <- idx b 3 ;; set_idx b 3 (Z.lor v 1)) ;;;
  ret IPv6FragmentHeaderSize.

Definition serializeInto `{SingCommon} (h : IPv6SerializableExtHdr) (nextHeader : Z) (b : slice) : M Z :=
  match h with
  | HopByHop opts => hbh_serializeInto opts nextHeader b
  | Fragment off mo ident => frag_serializeInto off mo ident nextHeader b
  end.

(** All headers but the last carry the identifier of their successor. *)
Fixpoint serialize_loop `{SingCommon} (s : list IPv6SerializableExtHdr) (nextHeader : Z) (b : slice)
    (totalLength : Z) : M Z :=
  match s with
  | [] => ret totalLength
  | [h] => n <- serializeInto h nextHeader b ;; ret (totalLength + n)
  | h :: ((h' :: _) as s') =>
      n <- serializeInto h (u8 (identifier h')) b ;;
      b' <- tail b n ;;
      serialize_loop s' nextHeader b' (totalLength + n)
  end.
Definition Serialize `{SingCommon} (s : list IPv6SerializableExtHdr) (transportProtocol : Z) (b : slice)
    : M (Z * Z) :=
  let nextHeader := u8 transportProtocol in
  match s with
  | [] => ret (nextHeader, 0)
  | h :: _ => n <- serialize_loop s nextHeader b 0 ;; ret (u8 (identifier h), n)
  end.
Definition Length (s : list IPv6SerializableExtHdr) : Z :=
  fold_left (fun t h => t + length_ h) s 0.

End IPv6Ext.

(** ** The Fragment header *)

Module IPv6Fragment.
Definition IsValid (b : slice) : bool := IPv6FragmentHeaderSize <=? sl_len b.
Definition NextHeader (b : slice) : M Z := idx b 0.
Definition FragmentOffset (b : slice) : M Z := s <- tail b 2 ;; v <- Uint16 s ;; ret (Z.shiftr v 3).
Definition More (b : slice) : M bool := v <- idx b 3 ;; ret (0 <? Z.land v 1).
Definition Payload (b : slice) : M slice := tail b IPv6FragmentHeaderSize.
Definition ID (b : slice) : M Z := s <- tail b 4 ;; Uint32 s.
Definition TransportProtocol (b : slice) : M Z := NextHeader b.
End IPv6Fragment.

(** ** The IPv6 header *)

Module IPv6.

Definition PayloadLength (b : slice) : M Z := s <- tail b 4 ;; Uint16 s.
Definition HopLimit (b : slice) : M Z := idx b 7.
Definition NextHeader (b : slice) : M Z := idx b 6.
Definition TransportProtocol (b : slice) : M Z := NextHeader b.
Definition Payload (b : slice) : M slice :=
  s <- tail b IPv6MinimumSize ;; n <- PayloadLength b ;; reslice s 0 n.
Definition SourceAddressSlice (b : slice) : M (list Z) :=
  s <- tail b 8 ;; a <- reslice s 0 IPv6AddressSize ;; contents a.
Definition DestinationAddressSlice (b : slice) : M (list Z) :=
  s <- tail b 24 ;; a <- reslice s 0 IPv6AddressSize ;; contents a.
Definition SourceAddress (b : slice) : M tcpip.Address :=
  a <- SourceAddressSlice b ;; ret (tcpip.AddrFrom16 a).
Definition DestinationAddress (b : slice) : M tcpip.Address :=
  a <- DestinationAddressSlice b ;; ret (tcpip.AddrFrom16 a).
(** netip.go *)
Definition SourceAddr (b : slice) : M netip.Addr :=
  a <- SourceAddressSlice b ;; ret (netip.AddrFrom16 a).
Definition DestinationAddr (b : slice) : M netip.Addr :=
  a <- DestinationAddressSlice b ;; ret (netip.AddrFrom16 a).
Definition Checksum_ (_ : slice) : M Z := ret 0.
Definition SetChecksum (_ : slice) (_ : Z) : M unit := ret tt.

Definition TOS (b : slice) : M (Z * Z) :=
  s <- tail b 0 ;; v <- Uint32 s ;; ret (u8 (Z.shiftr v 20), Z.land v 1048575).
Definition SetTOS (b : slice) (t l : Z) : M unit :=
  let vtf := Z.lor (Z.lor (u32 (Z.shiftl 6 28)) (u32 (Z.shiftl t 20))) (Z.land l 1048575) in
  s <- tail b 0 ;; PutUint32 s vtf.
Definition SetPayloadLength (b : slice) (v : Z) : M unit := s <- tail b 4 ;; PutUint16 s v.
Definition SetHopLimit (b : slice) (v : Z) : M unit := set_idx b 7 v.
Definition SetNextHeader (b : slice) (v : Z) : M unit := set_idx b 6 v.
(** [copy(b[lo:][:16], a)] *)
Definition set_addr (b : slice) (lo : Z) (a : list Z) : M unit :=
  s <- tail b lo ;; d <- reslice s 0 IPv6AddressSize ;; _n <- copy_to d a ;; ret tt.
Definition SetSourceAddress (b : slice) (a : tcpip.Address) : M unit := set_addr b 8 (tcpip.AsSlice a).
Definition SetDestinationAddress (b : slice) (a : tcpip.Address) : M unit := set_addr b 24 (tcpip.AsSlice a).
Definition SetSourceAddr (b : slice) (a : netip.Addr) : M unit := set_addr b 8 (netip.AsSlice a).
Definition SetDestinationAddr (b : slice) (a : netip.Addr) : M unit := set_addr b 24 (netip.AsSlice a).

Record IPv6Fields := mkFields {
  f_TrafficClass : Z;
  f_FlowLabel : Z;
  f_PayloadLength : Z;
  f_TransportProtocol : Z;
  f_HopLimit : Z;
  f_SrcAddr : netip.Addr;
  f_DstAddr : netip.Addr;
  f_ExtensionHeaders : list IPv6Ext.IPv6SerializableExtHdr
}.

Definition Encode `{SingCommon} (b : slice) (i : IPv6Fields) : M unit :=
  extHdr <- tail b IPv6MinimumSize ;;
  SetTOS b (f_TrafficClass i) (f_FlowLabel i) ;;;
  SetPayloadLength b (f_PayloadLength i) ;;;
  set_idx b 7 (f_HopLimit i) ;;;
  SetSourceAddr b (f_SrcAddr i) ;;;
  SetDestinationAddr b (f_DstAddr i) ;;;
  r <- IPv6Ext.Serialize (f_ExtensionHeaders i) (f_TransportProtocol i) extHdr ;;
  set_idx b 6 r.1.

Definition IsValid (b : slice) (pktSize : Z) : M bool :=
  if sl_len b <? IPv6MinimumSize then ret false
  else
    dlen <- PayloadLength b ;;
    if pktSize - IPv6MinimumSize <? dlen then ret false
    else v <- IPVersion b ;; ret (v =? IPv6Version).

(** Address predicates. *)
Definition is16 (addr : tcpip.Address) : bool := tcpip.BitLen addr =? 128.
Definition IPv4MappedIPv6Subnet : res tcpip.Subnet :=
  tcpip.AWP_Subnet (tcpip.mkAWP (tcpip.AddrFrom16 [0;0;0;0;0;0;0;0;0;0;255;255;0;0;0;0]) 96).
Definition IsV4MappedAddress (addr : tcpip.Address) : res bool :=
  if negb (is16 addr) then Ok false
  else rbind IPv4MappedIPv6Subnet (fun s => Ok (tcpip.Contains s addr)).
Definition IsV6MulticastAddress (addr : tcpip.Address) : res bool :=
  if negb (is16 addr) then Ok false
  else rbind (tcpip.As16 addr) (fun a => Ok (byte_at a 0 =? 255)).
Definition IsV6UnicastAddress (addr : tcpip.Address) : res bool :=
  if negb (is16 addr) then Ok false
  else if decide (addr = tcpip.AddrFrom16 (repeat 0 16)) then Ok false
  else rbind (tcpip.As16 addr) (fun a => Ok (negb (byte_at a 0 =? 255))).
Definition IsV6LinkLocalUnicastAddress (addr : tcpip.Address) : res bool :=
  if negb (is16 addr) then Ok false
  else rbind (tcpip.As16 addr) (fun a => Ok ((byte_at a 0 =? 254) && (Z.land (byte_at a 1) 192 =? 128))).
Definition IsV6LoopbackAddress (addr : tcpip.Address) : bool :=
  bool_decide (addr = tcpip.AddrFrom16 [0;0;0;0;0;0;0;0;0;0;0;0;0;0;0;1]).
Definition solicitedNodeMulticastPrefix : list Z := [255;2;0;0;0;0;0;0;0;0;0;1;255].
Definition SolicitedNodeAddr (addr : tcpip.Address) : res tcpip.Address :=
  rbind (tcpip.As16 addr) (fun a => Ok (tcpip.AddrFrom16 (solicitedNodeMulticastPrefix ++ drop 13 a))).
Definition IsSolicitedNodeAddr (addr : tcpip.Address) : res bool :=
  rbind (tcpip.As16 addr) (fun a => Ok (bool_decide (solicitedNodeMulticastPrefix = take 13 a))).
Definition V6MulticastScope (addr : tcpip.Address) : res Z :=
  rbind (tcpip.As16 addr) (fun a => Ok (Z.land (byte_at a 1) 15)).
Definition IsV6LinkLocalMulticastAddress (addr : tcpip.Address) : res bool :=
  rbind (IsV6MulticastAddress addr) (fun b =>
    if b then rbind (V6MulticastScope addr) (fun s => Ok (s =? 2)) else Ok false).
Inductive IPv6AddressScope := LinkLocalScope | GlobalScope.
(** The error ErrBadAddress accompanies [GlobalScope]. *)
Definition ScopeForIPv6Address (addr : tcpip.Address) : res (IPv6AddressScope * bool) :=
  if negb (is16 addr) then Ok (GlobalScope, true)
  else rbind (IsV6LinkLocalMulticastAddress addr) (fun b =>
    if b then Ok (LinkLocalScope, false)
    else rbind (IsV6LinkLocalUnicastAddress addr) (fun b =>
      if b then Ok (LinkLocalScope, false) else Ok (GlobalScope, false))).

(** ** Execution of the accessors *)

Lemma runs6_PayloadLength o l c m : 6 <= l -> l <= c -> runs (PayloadLength (Slice o l c)) m (get16 m (o + 4)) m.
Proof. intros. unfold PayloadLength. go_run. Qed.
Lemma runs_NextHeader o l c m : 7 <= l -> runs (NextHeader (Slice o l c)) m (byte_at m (o + 6)) m.
Proof. intros. unfold NextHeader. go_run. Qed.
Lemma runs6_TransportProtocol o l c m : 7 <= l -> runs (TransportProtocol (Slice o l c)) m (byte_at m (o + 6)) m.
Proof. apply runs_NextHeader. Qed.
Lemma runs6_SourceAddressSlice o l c m :
  24 <= l -> l <= c -> runs (SourceAddressSlice (Slice o l c)) m (window m (o + 8) 16) m.
Proof.
  intros. unfold SourceAddressSlice, IPv6AddressSize. eapply runs_eq; [go_run| |done]. by rewrite Z.add_0_r.
Qed.
Lemma runs6_DestinationAddressSlice o l c m :
  40 <= l -> l <= c -> runs (DestinationAddressSlice (Slice o l c)) m (window m (o + 24) 16) m.
Proof.
  intros. unfold DestinationAddressSlice, IPv6AddressSize. eapply runs_eq; [go_run| |done]. by rewrite Z.add_0_r.
Qed.
#[global] Hint Resolve runs6_PayloadLength runs_NextHeader runs6_TransportProtocol runs6_SourceAddressSlice
  runs6_DestinationAddressSlice : gorun.
Lemma runs6_SourceAddress o l c m :
  24 <= l -> l <= c -> runs (SourceAddress (Slice o l c)) m (tcpip.AddrFrom16 (window m (o + 8) 16)) m.
Proof. intros. unfold SourceAddress. go_run. Qed.
Lemma runs6_DestinationAddress o l c m :
  40 <= l -> l <= c -> runs (DestinationAddress (Slice o l c)) m (tcpip.AddrFrom16 (window m (o + 24) 16)) m.
Proof. intros. unfold DestinationAddress. go_run. Qed.
Lemma runs6_SourceAddr o l c m :
  24 <= l -> l <= c -> runs (SourceAddr (Slice o l c)) m (netip.Addr6 (window m (o + 8) 16)) m.
Proof. intros. unfold SourceAddr. go_run. Qed.
Lemma runs6_DestinationAddr o l c m :
  40 <= l -> l <= c -> runs (DestinationAddr (Slice o l c)) m (netip.Addr6 (window m (o + 24) 16)) m.
Proof. intros. unfold DestinationAddr. go_run. Qed.
Lemma runs6_Payload o l c m :
  bytes m -> 40 <= l -> l <= c -> 40 + get16 m (o + 4) <= l ->
  runs (Payload (Slice o l c)) m (Slice (o + 40) (get16 m (o + 4)) (c - 40)) m.
Proof.
  intros Hb ???. pose proof (get16_range m (o + 4) Hb). unfold Payload, IPv6MinimumSize.
  go_step. go_step. eapply runs_eq; [go_run| |done]. f_equal; lia.
Qed.
Lemma runs6_set_addr o l c lo a m :
  0 <= lo -> lo <= l -> lo + 16 <= c -> l <= c -> Zlen a <= 16 ->
  runs (set_addr (Slice o l c) lo a) m tt (write_at m (o + lo) a).
Proof.
  intros. unfold set_addr, IPv6AddressSize. eapply runs_eq; [go_run|done|]. by rewrite Z.add_0_r.
Qed.
Lemma runs6_SetSourceAddress o l c a m :
  8 <= l -> 24 <= c -> l <= c -> Zlen (tcpip.AsSlice a) <= 16 ->
  runs (SetSourceAddress (Slice o l c) a) m tt (write_at m (o + 8) (tcpip.AsSlice a)).
Proof. intros. by apply runs6_set_addr. Qed.
Lemma runs6_SetDestinationAddress o l c a m :
  24 <= l -> 40 <= c -> l <= c -> Zlen (tcpip.AsSlice a) <= 16 ->
  runs (SetDestinationAddress (Slice o l c) a) m tt (write_at m (o + 24) (tcpip.AsSlice a)).
Proof. intros. by apply runs6_set_addr. Qed.
Lemma runs6_SetSourceAddr o l c a m :
  8 <= l -> 24 <= c -> l <= c -> Zlen (netip.AsSlice a) <= 16 ->
  runs (SetSourceAddr (Slice o l c) a) m tt (write_at m (o + 8) (netip.AsSlice a)).
Proof. intros. by apply runs6_set_addr. Qed.
Lemma runs6_SetDestinationAddr o l c a m :
  24 <= l -> 40 <= c -> l <= c -> Zlen (netip.AsSlice a) <= 16 ->
  runs (SetDestinationAddr (Slice o l c) a) m tt (write_at m (o + 24) (netip.AsSlice a)).
Proof. intros. by apply runs6_set_addr. Qed.
Lemma runs_SetPayloadLength o l c v m :
  6 <= l -> l <= c -> runs (SetPayloadLength (Slice o l c) v) m tt (put16 m (o + 4) v).
Proof. intros. unfold SetPayloadLength. go_run. Qed.
#[global] Hint Resolve runs6_SourceAddress runs6_DestinationAddress runs6_SourceAddr runs6_DestinationAddr
  runs6_set_addr runs6_SetSourceAddress runs6_SetDestinationAddress runs6_SetSourceAddr
  runs6_SetDestinationAddr runs_SetPayloadLength : gorun.

Definition valid_header (m : list Z) (o l pktSize : Z) : Prop :=
  40 <= l /\ 40 + get16 m (o + 4) <= pktSize /\ byte_at m o / 16 = 6.
Lemma runs6_IsValid o l c pktSize m :
  l <= c ->
  exists b, runs (IsValid (Slice o l c) pktSize) m b m /\ (b = true <-> valid_header m o l pktSize).
Proof.
  intros Hc. unfold IsValid, valid_header, IPv6MinimumSize. cbn [sl_len].
  destruct (Z.ltb_spec l 40); [exists false; split; [done|]; split; [done|lia]|].
  destruct (pktSize - 40 <? get16 m (o + 4)) eqn:E.
  - exists false. split; [|split; [done|lia]]. go_step. rewrite E. apply runs_ret.
  - eexists. split; [go_step; rewrite E; go_run|].
    unfold IPv6Version. rewrite Z.eqb_eq, Z.shiftr_div_pow2 by lia. change (2 ^ 4) with 16. lia.
Qed.

(** ** Encoding *)

Lemma is6_shape a : netip.wf a -> netip.IsValid a = true -> netip.Is4 a = false ->
  exists b, a = netip.Addr6 b /\ bytes b /\ Zlen b = 16.
Proof.
  destruct a as [| |b]; try done. intros [??] _ _. exists b. split; [done|]. split; [done|]. unfold Zlen. lia.
Qed.

Lemma vtf_word t l : is_u8 t -> 0 <= l < 1048576 ->
  Z.lor (Z.lor (u32 (Z.shiftl 6 28)) (u32 (Z.shiftl t 20))) (Z.land l 1048575)
  = 1610612736 + t * 1048576 + l.
Proof.
  intros. change (u32 (Z.shiftl 6 28)) with (6 * 2 ^ 28).
  rewrite Z.shiftl_mul_pow2, u32_small by (simpl; lia).
  change 1048575 with (Z.ones 20). rewrite Z.land_ones, Z.mod_small by (simpl; lia).
  change (2 ^ 20) with 1048576. rewrite (lor_add_high 6 (t * 1048576) 28) by (simpl; lia).
  replace (6 * 2 ^ 28 + t * 1048576) with ((1536 + t) * 2 ^ 20) by (simpl; lia).
  rewrite lor_add_high by (simpl; lia). simpl. lia.
Qed.

Definition fields_ok (i : IPv6Fields) : Prop :=
  is_u8 (f_TrafficClass i) /\ 0 <= f_FlowLabel i < 1048576 /\ is_u16 (f_PayloadLength i) /\
  is_u8 (f_TransportProtocol i) /\ is_u8 (f_HopLimit i) /\
  (netip.wf (f_SrcAddr i) /\ netip.IsValid (f_SrcAddr i) = true /\ netip.Is4 (f_SrcAddr i) = false) /\
  (netip.wf (f_DstAddr i) /\ netip.IsValid (f_DstAddr i) = true /\ netip.Is4 (f_DstAddr i) = false).

Definition encoded (m : list Z) (o : Z) (i : IPv6Fields) : list Z :=
  let m := put32 m o (1610612736 + f_TrafficClass i * 1048576 + f_FlowLabel i) in
  let m := put16 m (o + 4) (f_PayloadLength i) in
  let m := upd m (o + 7) (f_HopLimit i) in
  let m := write_at m (o + 8) (netip.AsSlice (f_SrcAddr i)) in
  let m := write_at m (o + 24) (netip.AsSlice (f_DstAddr i)) in
  upd m (o + 6) (f_TransportProtocol i).

Lemma runs6_Encode `{SingCommon} o l c m i :
  in_array m (Slice o l c) -> 40 <= l -> fields_ok i -> f_ExtensionHeaders i = [] ->
  runs (Encode (Slice o l c) i) m tt (encoded m o i).
Proof.
  intros (Hoff & Hlc & Hoc) Hl Hf He. simpl in *.
  destruct Hf as (?&?&?&?&?&(Hs1&Hs2&Hs3)&(Hd1&Hd2&Hd3)).
  destruct (is6_shape _ Hs1 Hs2 Hs3) as (sb & Es & Hsb & Hsl).
  destruct (is6_shape _ Hd1 Hd2 Hd3) as (db & Ed & Hdb & Hdl).
  unfold Encode, encoded, IPv6MinimumSize, SetTOS. rewrite vtf_word, He, Es, Ed by done.
  cbn [netip.AsSlice]. go_step. eapply runs_bind; [go_run|]. go_step. go_step.
  eapply runs_bind; [apply runs6_set_addr; simpl; lia|]. eapply runs_bind; [apply runs6_set_addr; simpl; lia|].
  eapply runs_bind; [apply runs_ret|]. cbn [fst netip.AsSlice]. rewrite (u8_small (f_TransportProtocol i)) by done.
  eapply runs_eq; [go_run|done|]. by rewrite !Z.add_0_r.
Qed.

(** An IPv6 header written by Encode without extension headers reads back
    field by field, and nothing after its 40 bytes is touched. *)
Lemma IPv6_Encode_roundtrip `{SingCommon} o l c m i :
  in_array m (Slice o l c) -> 40 <= l -> fields_ok i -> f_ExtensionHeaders i = [] ->
  exists m', runs (Encode (Slice o l c) i) m tt m' /\
    runs (IPVersion (Slice o l c)) m' 6 m' /\
    runs (TOS (Slice o l c)) m' (f_TrafficClass i, f_FlowLabel i) m' /\
    runs (PayloadLength (Slice o l c)) m' (f_PayloadLength i) m' /\
    runs (NextHeader (Slice o l c)) m' (f_TransportProtocol i) m' /\
    runs (HopLimit (Slice o l c)) m' (f_HopLimit i) m' /\
    runs (SourceAddr (Slice o l c)) m' (f_SrcAddr i) m' /\
    runs (DestinationAddr (Slice o l c)) m' (f_DstAddr i) m' /\
    (forall off len, o + 40 <= off -> window m' off len = window m off len).
Proof.
  intros Hin Hl Hf He. eexists. split; [by apply runs6_Encode|].
  destruct Hin as (Hoff & Hlc & Hoc). simpl in *.
  destruct Hf as (?&?&?&?&?&(Hs1&Hs2&Hs3)&(Hd1&Hd2&Hd3)).
  destruct (is6_shape _ Hs1 Hs2 Hs3) as (sb & Es & Hsb & Hsl).
  destruct (is6_shape _ Hd1 Hd2 Hd3) as (db & Ed & Hdb & Hdl).
  unfold encoded. rewrite Es, Ed. cbn [netip.AsSlice].
  set (w := 1610612736 + f_TrafficClass i * 1048576 + f_FlowLabel i).
  assert (is_u32 w) by (subst w; lia).
  split_and!.
  - eapply runs_eq; [apply IPv4.runs_IPVersion; lia| |done].
    rd. unfold put32. rd. rewrite byte_at_put16, Z.eqb_refl by lia.
    rewrite Z.shiftr_div_pow2 by lia. change (2 ^ 4) with 16. unfold u8, u16. subst w. zdm.
  - unfold TOS. eapply runs_eq; [go_run| |done]. rewrite Z.add_0_r. rd. unfold Z.land.
    fold (Z.land w 1048575). change 1048575 with (Z.ones 20). rewrite Z.land_ones, Z.shiftr_div_pow2 by lia.
    change (2 ^ 20) with 1048576. unfold u8. subst w. f_equal; zdm.
  - eapply runs_eq; [apply runs6_PayloadLength; lia| |done]. by rd.
  - eapply runs_eq; [apply runs_NextHeader; lia| |done]. by rd.
  - unfold HopLimit. eapply runs_eq; [go_run| |done]. by rd.
  - eapply runs_eq; [apply runs6_SourceAddr; lia| |done]. by rd.
  - eapply runs_eq; [apply runs6_DestinationAddr; lia| |done]. by rd.
  - intros off len Hoff'. by rd.
Qed.

(** A Fragment extension header written by serializeInto reads back through
    the accessors of IPv6Fragment. *)
Lemma Fragment_roundtrip o l c m off mo ident nextHeader :
  in_array m (Slice o l c) -> 8 <= l -> 0 <= off < 8192 -> is_u32 ident -> is_u8 nextHeader ->
  exists m', runs (IPv6Ext.frag_serializeInto off mo ident nextHeader (Slice o l c)) m 8 m' /\
    runs (IPv6Fragment.NextHeader (Slice o l c)) m' nextHeader m' /\
    runs (IPv6Fragment.FragmentOffset (Slice o l c)) m' off m' /\
    runs (IPv6Fragment.More (Slice o l c)) m' mo m' /\
    runs (IPv6Fragment.ID (Slice o l c)) m' ident m'.
Proof.
  intros (Hoff & Hlc & Hoc) Hl Ho Hi Hn. simpl in *.
  assert (u16 (Z.shiftl off 3) = 8 * off) as Eo by (rewrite Z.shiftl_mul_pow2, u16_small; simpl; lia).
  set (m1 := upd (put16 (put32 m (o + 4) ident) (o + 2) (8 * off)) o nextHeader).
  assert (Zlen m1 = Zlen m) as Hm1 by (subst m1; by autorewrite with golen).
  assert (byte_at m1 (o + 3) = off * 8 mod 256) as E3.
  { subst m1. rd. rewrite byte_at_put16 by rd_side. replace (o + 3 =? o + 2) with false by lia.
    replace (o + 3 =? o + 2 + 1) with true by lia. unfold u8. f_equal. lia. }
  exists (if mo then upd m1 (o + 3) (off * 8 mod 256 + 1) else m1). split.
  - unfold IPv6Ext.frag_serializeInto, IPv6FragmentHeaderSize. rewrite Eo. do 6 go_step.
    rewrite Z.add_0_r. fold m1. unfold when. destruct mo; [|go_run].
    eapply runs_bind; [go_run|]. eapply runs_eq; [go_run|done|]. rewrite E3. f_equal.
    replace (off * 8 mod 256) with (off * 4 mod 128 * 2 ^ 1) by (simpl; zdm). apply lor_add_high; simpl; lia.
  - assert (byte_at m1 o = nextHeader) as E0 by (subst m1; by rd).
    assert (get16 m1 (o + 2) = 8 * off) as E2 by (subst m1; by rd).
    assert (get32 m1 (o + 4) = ident) as E4 by (subst m1; by rd).
    assert (byte_at m1 (o + 2) * 256 + off * 8 mod 256 = 8 * off) as E23
      by (rewrite <- E3; unfold get16 in E2; by replace (o + 2 + 1) with (o + 3) in E2 by lia).
    split_and!.
    + unfold IPv6Fragment.NextHeader. eapply runs_eq; [go_run| |done]. rewrite Z.add_0_r. destruct mo; by rd.
    + unfold IPv6Fragment.FragmentOffset. eapply runs_eq; [go_run| |done].
      rewrite Z.shiftr_div_pow2 by lia. change (2 ^ 3) with 8. destruct mo; [|rewrite E2; zdm].
      unfold get16. replace (o + 2 + 1) with (o + 3) by lia. rd. zdm.
    + unfold IPv6Fragment.More. eapply runs_eq; [go_run| |done]. rewrite land_1. destruct mo; rd; [apply Z.ltb_lt; zdm|]. rewrite E3. apply Z.ltb_ge. zdm.
    + unfold IPv6Fragment.ID. eapply runs_eq; [go_run| |done]. destruct mo; rd; done.
Qed.

(** ** Witnesses *)

Definition sample_src : netip.Addr := netip.Addr6 [32; 1; 13; 184; 0; 0; 0; 0; 0; 0; 0; 0; 0; 0; 0; 1].
Definition sample_fields : IPv6Fields := mkFields 3 70000 20 6 64 sample_src sample_src [].
Lemma IPv6_Encode_roundtrip_witness :
  exists m', runs (Encode (H := sing_common_loop) (Slice 0 60 60) sample_fields) (repeat 255 60) tt m' /\
    runs (TOS (Slice 0 60 60)) m' (3, 70000) m'.
Proof.
  destruct (IPv6_Encode_roundtrip (H := sing_common_loop) 0 60 60 (repeat 255 60) sample_fields)
    as (m' & H1 & _ & H2 & _); [concrete..|].
  exists m'. by split_and!.
Defined.
Lemma Fragment_roundtrip_witness :
  exists m', runs (IPv6Ext.frag_serializeInto 185 true 77 6 (Slice 0 8 8)) (repeat 255 8) 8 m' /\
    runs (IPv6Fragment.FragmentOffset (Slice 0 8 8)) m' 185 m'.
Proof.
  destruct (Fragment_roundtrip 0 8 8 (repeat 255 8) 185 true 77 6) as (m' & H1 & _ & H2 & _); [concrete..|].
  exists m'. by split_and!.
Defined.

End IPv6.
