(* ===== verification/Seqnum.v ===== *)
(** * internal/gtcpip/seqnum: sequence numbers modulo 2^32 *)
From S2P Require Import Prelude.

Module seqnum.

Definition LessThan (v w : Z) : bool := s32 (u32 (v - w)) <? 0.
Definition LessThanEq (v w : Z) : bool := if v =? w then true else LessThan v w.
Definition InRange (v a b : Z) : bool := u32 (v - a) <? u32 (b - a).
Definition Add (v s : Z) : Z := u32 (v + s).
Definition InWindow (v first size : Z) : bool := InRange v first (Add first size).
Definition Size (v w : Z) : Z := u32 (w - v).
(** [*v += Value(s)]: the new value of the receiver. *)
Definition UpdateForward (v s : Z) : Z := u32 (v + s).

(** [v] is [k] steps after [a] on the circle of sequence numbers. *)
Definition ahead (a v k : Z) : Prop := v = u32 (a + k).

Lemma sub_ahead a k : is_u32 a -> is_u32 k -> u32 (u32 (a + k) - a) = k.
Proof. intros. unfold u32. zdm. Qed.

Lemma LessThan_ahead v d : is_u32 v -> is_u32 d -> LessThan v (u32 (v + d)) = ((0 <? d) && (d <=? 2147483648)).
Proof.
  intros. unfold LessThan, s32.
  assert (u32 (v - u32 (v + d)) = u32 (- d)) as -> by (unfold u32; zdm).
  unfold u32. destruct (Z.eqb_spec d 0) as [->|]; [done|].
  replace ((- d) mod 4294967296) with (4294967296 - d) by zdm.
  destruct (Z.ltb_spec (4294967296 - d) 2147483648); lia.
Qed.
Lemma InWindow_ahead v first size :
  is_u32 v -> is_u32 first -> is_u32 size ->
  InWindow v first size = true <-> exists k, 0 <= k < size /\ v = u32 (first + k).
Proof.
  intros Hv Hf Hs. unfold InWindow, InRange, Add. rewrite sub_ahead by done. rewrite Z.ltb_lt. split.
  - intros. exists (u32 (v - first)). split; [unfold u32 in *; zdm|]. unfold u32. zdm.
  - intros (k & Hk & ->). rewrite sub_ahead; lia.
Qed.

(** On the circle of 2^32 sequence numbers, LessThan(v, v+d) holds exactly
    for 0 < d <= 2^31, Size inverts Add, and InWindow(v, first, size) holds
    exactly when v is one of the size numbers that start at first, also when
    the window wraps around zero. *)
Lemma seqnum_order v w d first size :
  is_u32 v -> is_u32 w -> is_u32 d -> is_u32 first -> is_u32 size ->
  (LessThan v (Add v d) = true <-> 0 < d <= 2147483648) /\
  Size v (Add v d) = d /\ Add v (Size v w) = w /\
  (InWindow v first size = true <-> exists k, 0 <= k < size /\ v = Add first k).
Proof.
  intros Hv Hw Hd Hf Hs. split_and!.
  - unfold Add. rewrite LessThan_ahead by done. lia.
  - by apply sub_ahead.
  - unfold Add, Size, u32. zdm.
  - by apply InWindow_ahead.
Qed.
Lemma seqnum_order_witness :
  (LessThan 4294967290 (Add 4294967290 10) = true <-> 0 < 10 <= 2147483648) /\
  Size 4294967290 (Add 4294967290 10) = 10 /\ Add 4294967290 (Size 4294967290 4) = 4 /\
  (InWindow 4294967290 4294967280 20 = true <-> exists k, 0 <= k < 20 /\ 4294967290 = Add 4294967280 k).
Proof. apply (seqnum_order 4294967290 4 10 4294967280 20); lia. Defined.

End seqnum.
