(* ===== verification/TCP.v ===== *)
(** * internal/gtcpip/header/tcp.go: the TCP header and its options

    Accessors, encoders and checksum methods of [header.TCP], the option
    parsers and encoders, and the window test [Acceptable]. *)
From S2P Require Import Prelude Bytes GoMem Checksum Tcpip HdrChecksum Seqnum.

Module TCP.

Definition TCPMinimumSize : Z := 20.
Definition TCPProtocolNumber : Z := 6.
Definition TCPDefaultMSS : Z := 536.
Definition TCPMinimumSendMSS : Z := 40 + 8.
Definition MaxWndScale : Z := 14.
Definition TCPMaxSACKBlocks : Z := 4.

(** Flags. *)
Definition TCPFlagFin : Z := 1.
Definition TCPFlagSyn : Z := 2.
Definition TCPFlagRst : Z := 4.
Definition TCPFlagPsh : Z := 8.
Definition TCPFlagAck : Z := 16.
Definition FlagsIntersects (f o : Z) : bool := negb (Z.land f o =? 0).
Definition FlagsContains (f o : Z) : bool := Z.land f o =? o.

Record TCPFields := mkFields {
  f_SrcPort : Z;
  f_DstPort : Z;
  f_SeqNum : Z;
  f_AckNum : Z;
  f_DataOffset : Z;
  f_Flags : Z;
  f_WindowSize : Z;
  f_Checksum : Z;
  f_UrgentPointer : Z
}.

(** ** Accessors *)

Definition SourcePort (b : slice) : M Z := s <- tail b 0 ;; Uint16 s.
Definition DestinationPort (b : slice) : M Z := s <- tail b 2 ;; Uint16 s.
Definition SequenceNumber (b : slice) : M Z := s <- tail b 4 ;; Uint32 s.
Definition AckNumber (b : slice) : M Z := s <- tail b 8 ;; Uint32 s.
Definition DataOffset (b : slice) : M Z := v <- idx b 12 ;; ret (u8 (Z.shiftr v 4 * 4)).
Definition Payload (b : slice) : M slice := d <- DataOffset b ;; tail b d.
Definition Flags (b : slice) : M Z := idx b 13.
Definition WindowSize (b : slice) : M Z := s <- tail b 14 ;; Uint16 s.
Definition Checksum_ (b : slice) : M Z := s <- tail b 16 ;; Uint16 s.
Definition UrgentPointer (b : slice) : M Z := s <- tail b 18 ;; Uint16 s.
Definition SetSourcePort (b : slice) (port : Z) : M unit := s <- tail b 0 ;; PutUint16 s port.
Definition SetDestinationPort (b : slice) (port : Z) : M unit := s <- tail b 2 ;; PutUint16 s port.
Definition SetChecksum (b : slice) (xsum : Z) : M unit := s <- tail b 16 ;; Put s xsum.
Definition SetDataOffset (b : slice) (headerLen : Z) : M unit :=
  set_idx b 12 (u8 (Z.shiftl (headerLen / 4) 4)).
Definition SetSequenceNumber (b : slice) (v : Z) : M unit := s <- tail b 4 ;; PutUint32 s v.
Definition SetAckNumber (b : slice) (v : Z) : M unit := s <- tail b 8 ;; PutUint32 s v.
Definition SetFlags (b : slice) (v : Z) : M unit := set_idx b 13 v.
Definition SetWindowSize (b : slice) (v : Z) : M unit := s <- tail b 14 ;; PutUint16 s v.
Definition SetUrgentPointer (b : slice) (v : Z) : M unit := s <- tail b 18 ;; PutUint16 s v.
Definition Options (b : slice) : M slice := d <- DataOffset b ;; reslice b TCPMinimumSize d.

Definition encodeSubset (b : slice) (seq ack flags rcvwnd : Z) : M unit :=
  s <- tail b 4 ;; PutUint32 s seq ;;;
  s <- tail b 8 ;; PutUint32 s ack ;;;
  set_idx b 13 flags ;;;
  s <- tail b 14 ;; PutUint16 s rcvwnd.
Definition Encode (b : slice) (t : TCPFields) : M unit :=
  encodeSubset b (f_SeqNum t) (f_AckNum t) (f_Flags t) (f_WindowSize t) ;;;
  SetSourcePort b (f_SrcPort t) ;;;
  SetDestinationPort b (f_DstPort t) ;;;
  SetDataOffset b (f_DataOffset t) ;;;
  SetChecksum b (f_Checksum t) ;;;
  SetUrgentPointer b (f_UrgentPointer t).

(** ** Checksums *)

Section WithChecksum.
Context `{ChecksumImpl}.

Definition CalculateChecksum (b : slice) (partialChecksum : Z) : M Z :=
  s1 <- reslice b 0 16 ;; c1 <- contents s1 ;;
  let xsum := Checksum c1 partialChecksum in
  d <- DataOffset b ;;
  s2 <- reslice b (16 + 2) d ;; c2 <- contents s2 ;;
  ret (Checksum c2 xsum).

Definition IsChecksumValid (b : slice) (src dst : tcpip.Address) (payloadChecksum payloadLength : Z) : M bool :=
  d <- DataOffset b ;;
  let xsum := PseudoHeaderChecksum TCPProtocolNumber (tcpip.AsSlice src) (tcpip.AsSlice dst) (u16 (d + payloadLength)) in
  let xsum := Combine xsum payloadChecksum in
  s <- reslice b 0 d ;; c <- contents s ;;
  ret (Checksum c xsum =? 65535).

Definition EncodePartial (b : slice) (partialChecksum length seqnum acknum flags rcvwnd : Z) : M unit :=
  let tmp := put16 (put16 (repeat 0 4%nat) 0 length) 2 (u16 flags) in
  let xsum := Checksum tmp partialChecksum in
  encodeSubset b seqnum acknum flags rcvwnd ;;;
  s <- reslice b 4 (4 + 8) ;; c <- contents s ;;
  let xsum := Checksum c xsum in
  s <- reslice b 14 (14 + 2) ;; c <- contents s ;;
  let xsum := Checksum c xsum in
  SetChecksum b (not16 xsum).

(** [payloadChecksum] is called at most once. *)
Definition TCPValid (hdr : slice) (payloadChecksum : M Z) (payloadSize : Z) (srcAddr dstAddr : tcpip.Address)
    (skipChecksumValidation : bool) : M (Z * bool * bool) :=
  offset <- DataOffset hdr ;;
  if (offset <? TCPMinimumSize) || (sl_len hdr <? offset) then ret (0, false, false)
  else if skipChecksumValidation then ret (0, true, true)
  else
    csum <- Checksum_ hdr ;;
    pc <- payloadChecksum ;;
    v <- IsChecksumValid hdr srcAddr dstAddr pc payloadSize ;;
    ret (csum, v, true).
End WithChecksum.

Definition SetSourcePortWithChecksumUpdate (b : slice) (new : Z) : M unit :=
  old <- SourcePort b ;;
  SetSourcePort b new ;;;
  x <- Checksum_ b ;;
  SetChecksum b (not16 (checksumUpdate2ByteAlignedUint16 (not16 x) old new)).
Definition SetDestinationPortWithChecksumUpdate (b : slice) (new : Z) : M unit :=
  old <- DestinationPort b ;;
  SetDestinationPort b new ;;;
  x <- Checksum_ b ;;
  SetChecksum b (not16 (checksumUpdate2ByteAlignedUint16 (not16 x) old new)).
Definition UpdateChecksumPseudoHeaderAddress (b : slice) (old new : tcpip.Address) (fullChecksum : bool) : M unit :=
  x <- Checksum_ b ;;
  let xsum := if fullChecksum then not16 x else x in
  xsum <- lift (checksumUpdate2ByteAlignedAddress xsum old new) ;;
  let xsum := if fullChecksum then not16 xsum else xsum in
  SetChecksum b xsum.

(** ** Option parsing *)

Record TCPSynOptions := mkSynOptions {
  MSS : Z;
  WS : Z;
  TS : bool;
  TSVal : Z;
  TSEcr : Z;
  SACKPermitted : bool;
  syn_Flags : Z
}.
Record SACKBlock := mkSACKBlock { Start : Z; End_ : Z }.
Record TCPOptions := mkOptions {
  o_TS : bool;
  o_TSVal : Z;
  o_TSEcr : Z;
  SACKBlocks : list SACKBlock
}.
Definition SACK_Less (r b : SACKBlock) : bool := seqnum.LessThan (Start r) (Start b).
Definition SACK_Contains (r b : SACKBlock) : bool :=
  seqnum.LessThanEq (Start r) (Start b) && seqnum.LessThanEq (End_ b) (End_ r).

(** Checked reads of the option bytes: [opts[i]], [Uint32(opts[i:])]. *)
Definition ridx (l : list Z) (i : Z) : res Z :=
  if (0 <=? i) && (i <? Zlen l) then Ok (byte_at l i) else Panic.
Definition rget32 (l : list Z) (i : Z) : res Z :=
  if (0 <=? i) && (i + 4 <=? Zlen l) then Ok (get32 l i) else Panic.

Notation "x <~ r ; k" := (rbind r (fun x => k)) (at level 100, r at next level, right associativity) : go_scope.

(** A turn of a parsing loop: stop with a result, or go on at a new index. *)
Inductive turn (A : Type) := Return (a : A) | Continue (a : A) (i : Z).
Arguments Return {A} a.
Arguments Continue {A} a i.

(** [for i := 0; i < limit; { ... }]; [None] when the fuel runs out. *)
Fixpoint parse_loop {A} (step : A -> Z -> res (turn A)) (limit : Z) (fuel : nat) (a : A) (i : Z)
    : option (res A) :=
  match fuel with
  | O => None
  | S fuel' =>
      if i <? limit then
        match step a i with
        | Panic => Some Panic
        | Ok (Return a') => Some (Ok a')
        | Ok (Continue a' i') => parse_loop step limit fuel' a' i'
        end
      else Some (Ok a)
  end.

(** The default branch of both parsers: skip an unknown option. *)
Definition skip_option {A} (opts : list Z) (limit : Z) (a : A) (i : Z) : res (turn A) :=
  if limit <? i + 2 then Ok (Return a)
  else
    l <~ ridx opts (i + 1) ;
    if (l <? 2) || (limit <? i + l) then Ok (Return a) else Ok (Continue a (i + l)).

Definition syn_step (opts : list Z) (isAck : bool) (a : TCPSynOptions) (i : Z) : res (turn TCPSynOptions) :=
  let limit := Zlen opts in
  ty <~ ridx opts i ;
  if ty =? 0 then Ok (Continue a limit)
  else if ty =? 1 then Ok (Continue a (i + 1))
  else if ty =? 2 then
    if limit <? i + 4 then Ok (Return a) else
    n <~ ridx opts (i + 1) ;
    if negb (n =? 4) then Ok (Return a) else
    hi <~ ridx opts (i + 2) ;
    lo <~ ridx opts (i + 3) ;
    let mss := Z.lor (u16 (Z.shiftl hi 8)) lo in
    if mss =? 0 then Ok (Return a)
    else
      let mss := if mss <? TCPMinimumSendMSS then TCPMinimumSendMSS else mss in
      Ok (Continue (mkSynOptions mss (WS a) (TS a) (TSVal a) (TSEcr a) (SACKPermitted a) (syn_Flags a)) (i + 4))
  else if ty =? 3 then
    if limit <? i + 3 then Ok (Return a) else
    n <~ ridx opts (i + 1) ;
    if negb (n =? 3) then Ok (Return a) else
    ws <~ ridx opts (i + 2) ;
    let ws := if MaxWndScale <? ws then MaxWndScale else ws in
    Ok (Continue (mkSynOptions (MSS a) ws (TS a) (TSVal a) (TSEcr a) (SACKPermitted a) (syn_Flags a)) (i + 3))
  else if ty =? 8 then
    if limit <? i + 10 then Ok (Return a) else
    n <~ ridx opts (i + 1) ;
    if negb (n =? 10) then Ok (Return a) else
    tsval <~ rget32 opts (i + 2) ;
    tsecr <~ (if isAck then rget32 opts (i + 6) else Ok (TSEcr a)) ;
    Ok (Continue (mkSynOptions (MSS a) (WS a) true tsval tsecr (SACKPermitted a) (syn_Flags a)) (i + 10))
  else if ty =? 4 then
    if limit <? i + 2 then Ok (Return a) else
    n <~ ridx opts (i + 1) ;
    if negb (n =? 2) then Ok (Return a)
    else Ok (Continue (mkSynOptions (MSS a) (WS a) (TS a) (TSVal a) (TSEcr a) true (syn_Flags a)) (i + 2))
  else skip_option opts limit a i.

Definition ParseSynOptions (opts : list Z) (isAck : bool) : option (res TCPSynOptions) :=
  parse_loop (syn_step opts isAck) (Zlen opts) (S (length opts))
    (mkSynOptions TCPDefaultMSS (-1) false 0 0 false 0) 0.

(** The blocks of a SACK option at [i]. *)
Fixpoint sack_blocks (b : list Z) (i : Z) (j : Z) (n : nat) (acc : list SACKBlock) : res (list SACKBlock) :=
  match n with
  | O => Ok acc
  | S n' =>
      start <~ rget32 b (i + 2 + j * 8) ;
      end_ <~ rget32 b (i + 2 + j * 8 + 4) ;
      sack_blocks b i (j + 1) n' (acc ++ [mkSACKBlock start end_])
  end.

Definition options_step (b : list Z) (a : TCPOptions) (i : Z) : res (turn TCPOptions) :=
  let limit := Zlen b in
  ty <~ ridx b i ;
  if ty =? 0 then Ok (Continue a limit)
  else if ty =? 1 then Ok (Continue a (i + 1))
  else if ty =? 8 then
    if limit <? i + 10 then Ok (Return a) else
    n <~ ridx b (i + 1) ;
    if negb (n =? 10) then Ok (Return a) else
    tsval <~ rget32 b (i + 2) ;
    tsecr <~ rget32 b (i + 6) ;
    Ok (Continue (mkOptions true tsval tsecr (SACKBlocks a)) (i + 10))
  else if ty =? 5 then
    if limit <? i + 2 then Ok (Return a) else
    sackOptionLen <~ ridx b (i + 1) ;
    if (limit <? i + sackOptionLen) || negb (Z.rem (sackOptionLen - 2) 8 =? 0) then Ok (Return a) else
    let numBlocks := Z.quot (sackOptionLen - 2) 8 in
    bl <~ sack_blocks b i 0 (Z.to_nat numBlocks) [] ;
    Ok (Continue (mkOptions (o_TS a) (o_TSVal a) (o_TSEcr a) bl) (i + sackOptionLen))
  else skip_option b limit a i.

Definition ParseTCPOptions (b : list Z) : option (res TCPOptions) :=
  parse_loop (options_step b) (Zlen b) (S (length b)) (mkOptions false 0 0 []) 0.

Definition ParsedOptions (b : slice) : M (option (res TCPOptions)) :=
  s <- Options b ;; c <- contents s ;; ret (ParseTCPOptions c).

(** ** Option encoding *)

Definition EncodeMSSOption (mss : Z) (b : slice) : M Z :=
  if sl_len b <? 4 then ret 0
  else
    set_idx b 0 2 ;;; set_idx b 1 4 ;;;
    set_idx b 2 (u8 (Z.shiftr mss 8)) ;;; set_idx b 3 (u8 mss) ;;;
    ret 4.
Definition EncodeWSOption (ws : Z) (b : slice) : M Z :=
  if sl_len b <? 3 then ret 0
  else
    set_idx b 0 3 ;;; set_idx b 1 3 ;;; set_idx b 2 (u8 ws) ;;; idx b 1.
Definition EncodeTSOption (tsVal tsEcr : Z) (b : slice) : M Z :=
  if sl_len b <? 10 then ret 0
  else
    set_idx b 0 8 ;;; set_idx b 1 10 ;;;
    s <- tail b 2 ;; PutUint32 s tsVal ;;;
    s <- tail b 6 ;; PutUint32 s tsEcr ;;;
    idx b 1.
Definition EncodeSACKPermittedOption (b : slice) : M Z :=
  if sl_len b <? 2 then ret 0
  else set_idx b 0 4 ;;; set_idx b 1 2 ;;; idx b 1.

Fixpoint encode_blocks (blocks : list SACKBlock) (i : Z) (b : slice) : M unit :=
  match blocks with
  | [] => ret tt
  | bl :: blocks' =>
      s <- tail b (i * 8 + 2) ;; PutUint32 s (Start bl) ;;;
      s <- tail b (i * 8 + 6) ;; PutUint32 s (End_ bl) ;;;
      encode_blocks blocks' (i + 1) b
  end.
Definition EncodeSACKBlocks (sackBlocks : list SACKBlock) (b : slice) : M Z :=
  if Zlen sackBlocks =? 0 then ret 0
  else
    let l := Zlen sackBlocks in
    let l := if TCPMaxSACKBlocks <? l then TCPMaxSACKBlocks else l in
    let ll := Z.quot (sl_len b - 2) 8 in
    let l := if ll <? l then ll else l in
    if l =? 0 then ret 0
    else
      set_idx b 0 5 ;;; set_idx b 1 (u8 (l * 8 + 2)) ;;;
      encode_blocks (take (Z.to_nat l) sackBlocks) 0 b ;;;
      idx b 1.
Definition EncodeNOP (b : slice) : M Z :=
  if sl_len b =? 0 then ret 0 else set_idx b 0 1 ;;; ret 1.

Fixpoint pad_loop (n : nat) (options : slice) (i : Z) : M unit :=
  match n with
  | O => ret tt
  | S n' => set_idx options i 1 ;;; pad_loop n' options (i + 1)
  end.
Definition AddTCPOptionPadding (options : slice) (offset : Z) : M Z :=
  let paddingToAdd := Z.land (- offset) 3 in
  pad_loop (Z.to_nat paddingToAdd) options offset ;;; ret paddingToAdd.

(** ** The receive window *)

Definition Acceptable (segSeq segLen rcvNxt rcvAcc : Z) : bool :=
  if rcvNxt =? rcvAcc then (segLen =? 0) && (segSeq =? rcvNxt)
  else if segLen =? 0 then seqnum.InRange segSeq rcvNxt (seqnum.Add rcvAcc 1)
  else seqnum.LessThan rcvNxt (seqnum.Add segSeq segLen) && seqnum.LessThanEq segSeq rcvAcc.

(** ** Execution of the accessors *)

Definition doff (m : list Z) (o : Z) : Z := byte_at m (o + 12) / 16 * 4.

Lemma runs_tcp_SourcePort o l c m : 2 <= l -> l <= c -> runs (SourcePort (Slice o l c)) m (get16 m o) m.
Proof. intros. unfold SourcePort. eapply runs_eq; [go_run| |done]. by rewrite Z.add_0_r. Qed.
Lemma runs_tcp_DestinationPort o l c m : 4 <= l -> l <= c -> runs (DestinationPort (Slice o l c)) m (get16 m (o + 2)) m.
Proof. intros. unfold DestinationPort. go_run. Qed.
Lemma runs_SequenceNumber o l c m : 8 <= l -> l <= c -> runs (SequenceNumber (Slice o l c)) m (get32 m (o + 4)) m.
Proof. intros. unfold SequenceNumber. go_run. Qed.
Lemma runs_AckNumber o l c m : 12 <= l -> l <= c -> runs (AckNumber (Slice o l c)) m (get32 m (o + 8)) m.
Proof. intros. unfold AckNumber. go_run. Qed.
Lemma runs_tcp_Checksum_ o l c m : 18 <= l -> l <= c -> runs (Checksum_ (Slice o l c)) m (get16 m (o + 16)) m.
Proof. intros. unfold Checksum_. go_run. Qed.
Lemma runs_tcp_Flags o l c m : 14 <= l -> runs (Flags (Slice o l c)) m (byte_at m (o + 13)) m.
Proof. intros. unfold Flags. go_run. Qed.
Lemma doff_range m o : bytes m -> 0 <= doff m o <= 60 /\ doff m o mod 4 = 0.
Proof. intros Hb. pose proof (bytes_byte_at m (o + 12) Hb). unfold doff. zdm. Qed.
Lemma runs_DataOffset o l c m : bytes m -> 13 <= l -> runs (DataOffset (Slice o l c)) m (doff m o) m.
Proof.
  intros Hb ?. pose proof (doff_range m o Hb). unfold DataOffset. eapply runs_eq; [go_run| |done].
  rewrite Z.shiftr_div_pow2 by lia. change (2 ^ 4) with 16. apply u8_small. unfold doff in *. lia.
Qed.
Lemma runs_tcp_SetSourcePort o l c v m : 2 <= l -> l <= c -> runs (SetSourcePort (Slice o l c) v) m tt (put16 m o v).
Proof. intros. unfold SetSourcePort. eapply runs_eq; [go_run|done|]. by rewrite Z.add_0_r. Qed.
Lemma runs_tcp_SetDestinationPort o l c v m :
  4 <= l -> l <= c -> runs (SetDestinationPort (Slice o l c) v) m tt (put16 m (o + 2) v).
Proof. intros. unfold SetDestinationPort. go_run. Qed.
Lemma runs_tcp_SetChecksum o l c v m : 18 <= l -> l <= c -> runs (SetChecksum (Slice o l c) v) m tt (put16 m (o + 16) v).
Proof. intros. unfold SetChecksum, Put. go_run. Qed.
Lemma runs_SetUrgentPointer o l c v m :
  20 <= l -> l <= c -> runs (SetUrgentPointer (Slice o l c) v) m tt (put16 m (o + 18) v).
Proof. intros. unfold SetUrgentPointer. go_run. Qed.
Lemma runs_SetDataOffset o l c v m :
  13 <= l -> runs (SetDataOffset (Slice o l c) v) m tt (upd m (o + 12) (u8 (Z.shiftl (v / 4) 4))).
Proof. intros. unfold SetDataOffset. go_run. Qed.
#[global] Hint Resolve runs_tcp_SourcePort runs_tcp_DestinationPort runs_SequenceNumber runs_AckNumber runs_tcp_Checksum_
  runs_tcp_Flags runs_DataOffset runs_tcp_SetSourcePort runs_tcp_SetDestinationPort runs_tcp_SetChecksum
  runs_SetUrgentPointer runs_SetDataOffset : gorun.
Lemma runs_tcp_Payload o l c m :
  bytes m -> 13 <= l -> doff m o <= l -> l <= c ->
  runs (Payload (Slice o l c)) m (Slice (o + doff m o) (l - doff m o) (c - doff m o)) m.
Proof. intros Hb ???. pose proof (doff_range m o Hb). unfold Payload. go_run. Qed.
#[global] Hint Resolve runs_tcp_Payload : gorun.

(** ** Encoding *)

Definition fields_ok (t : TCPFields) : Prop :=
  is_u16 (f_SrcPort t) /\ is_u16 (f_DstPort t) /\ is_u32 (f_SeqNum t) /\ is_u32 (f_AckNum t) /\
  (0 <= f_DataOffset t <= 60 /\ f_DataOffset t mod 4 = 0) /\ is_u8 (f_Flags t) /\
  is_u16 (f_WindowSize t) /\ is_u16 (f_Checksum t) /\ is_u16 (f_UrgentPointer t).

Definition encoded (m : list Z) (o : Z) (t : TCPFields) : list Z :=
  let m := put32 m (o + 4) (f_SeqNum t) in
  let m := put32 m (o + 8) (f_AckNum t) in
  let m := upd m (o + 13) (f_Flags t) in
  let m := put16 m (o + 14) (f_WindowSize t) in
  let m := put16 m o (f_SrcPort t) in
  let m := put16 m (o + 2) (f_DstPort t) in
  let m := upd m (o + 12) (f_DataOffset t / 4 * 16) in
  let m := put16 m (o + 16) (f_Checksum t) in
  put16 m (o + 18) (f_UrgentPointer t).

Lemma runs_tcp_Encode o l c m t :
  20 <= l -> l <= c -> fields_ok t -> runs (Encode (Slice o l c) t) m tt (encoded m o t).
Proof.
  intros Hl Hc (?&?&?&?&[??]&?). unfold Encode, encodeSubset, encoded.
  eapply runs_bind; [go_run|]. do 4 go_step. eapply runs_eq; [go_run|done|].
  replace (u8 (Z.shiftl (f_DataOffset t / 4) 4)) with (f_DataOffset t / 4 * 16); [done|].
  rewrite Z.shiftl_mul_pow2, u8_small by (try lia; simpl; zdm). done.
Qed.

(** a TCP header written by Encode reads back field by field, and nothing
    outside its first 20 bytes is touched. *)
Lemma TCP_Encode_roundtrip o l c m t :
  in_array m (Slice o l c) -> bytes m -> 20 <= l -> fields_ok t ->
  exists m', runs (Encode (Slice o l c) t) m tt m' /\
    runs (SourcePort (Slice o l c)) m' (f_SrcPort t) m' /\
    runs (DestinationPort (Slice o l c)) m' (f_DstPort t) m' /\
    runs (SequenceNumber (Slice o l c)) m' (f_SeqNum t) m' /\
    runs (AckNumber (Slice o l c)) m' (f_AckNum t) m' /\
    runs (DataOffset (Slice o l c)) m' (f_DataOffset t) m' /\
    runs (Flags (Slice o l c)) m' (f_Flags t) m' /\
    runs (WindowSize (Slice o l c)) m' (f_WindowSize t) m' /\
    runs (Checksum_ (Slice o l c)) m' (f_Checksum t) m' /\
    runs (UrgentPointer (Slice o l c)) m' (f_UrgentPointer t) m' /\
    (forall off len, 0 <= off -> off + len <= o \/ o + 20 <= off -> window m' off len = window m off len).
Proof.
  intros (Ho & Hlc & Hoc) Hb Hl Hf. simpl in *. eexists. split; [apply runs_tcp_Encode; [lia|lia|done]|].
  pose proof Hf as (?&?&?&?&[??]&?&?&?&?).
  assert (bytes (encoded m o t)) as Hb'
    by (unfold encoded; repeat first [apply bytes_put16 | apply bytes_put32 | apply bytes_upd]; auto; zdm).
  split_and!; unfold encoded.
  - eapply runs_eq; [apply runs_tcp_SourcePort; lia| |done]. by rd.
  - eapply runs_eq; [apply runs_tcp_DestinationPort; lia| |done]. by rd.
  - eapply runs_eq; [apply runs_SequenceNumber; lia| |done]. by rd.
  - eapply runs_eq; [apply runs_AckNumber; lia| |done]. by rd.
  - eapply runs_eq; [apply runs_DataOffset; [done|lia]| |done]. unfold doff. rd. zdm.
  - eapply runs_eq; [apply runs_tcp_Flags; lia| |done]. by rd.
  - unfold WindowSize. eapply runs_eq; [go_run| |done]. by rd.
  - eapply runs_eq; [apply runs_tcp_Checksum_; lia| |done]. by rd.
  - unfold UrgentPointer. eapply runs_eq; [go_run| |done]. by rd.
  - intros off len ??. by rd.
Qed.

(** ** Checksums *)

(** The segment at [o], of [l] bytes, sums to zero with the pseudo header. *)
Definition checksum_ok (m : list Z) (o l : Z) (src dst : list Z) : Prop :=
  wsum src + wsum dst + l + 6 + wsum (window m o l) ≡₁ 0.

Section Valid.
Context `{ChecksumImpl}.

Lemma runs_tcp_CalculateChecksum o l c m p :
  bytes m -> 0 <= o -> 20 <= doff m o -> doff m o <= l -> l <= c -> o + c <= Zlen m -> is_u16 p ->
  exists x, runs (CalculateChecksum (Slice o l c) p) m x m /\ is_u16 x /\
    x ≡₁ p + wsum (window m o (doff m o)) - get16 m (o + 16).
Proof.
  intros Hb Ho Hd Hl Hc Hm Hp. eexists. split; [unfold CalculateChecksum; go_run|].
  rewrite Z.add_0_r, Z.sub_0_r. change (16 + 2) with 18.
  assert (is_u16 (Checksum (window m o 16) p)) by auto with gobytes.
  split; [apply Checksum_range; auto with gobytes|].
  rewrite !Checksum_cong by auto with gobytes.
  rewrite (wsum_window_split3 m o (doff m o) (o + 16) 2); [|lia|lia|lia|lia|lia|exists 8; lia|by exists 1].
  rewrite (wsum_get16 (window m (o + 16) 2)) by (apply Zlen_window; lia).
  rewrite get16_window, Z.add_0_r by lia. replace (o + 16 - o) with 16 by lia.
  replace (o + 16 + 2) with (o + 18) by lia. replace (o + doff m o - (o + 18)) with (doff m o - 18) by lia.
  apply cong_refl_eq. lia.
Qed.

(** IsChecksumValid, with the checksum of the payload of the segment. *)
Lemma runs_tcp_IsChecksumValid o l c m src dst :
  bytes m -> 0 <= o -> 20 <= doff m o -> doff m o <= l -> l <= 65535 -> l <= c -> o + c <= Zlen m ->
  tcpip.wf_Address src -> tcpip.wf_Address dst ->
  exists b, runs (IsChecksumValid (Slice o l c) src dst
      (Checksum (window m (o + doff m o) (l - doff m o)) 0) (l - doff m o)) m b m /\
    (b = true <-> checksum_ok m o l (tcpip.AsSlice src) (tcpip.AsSlice dst)).
Proof.
  intros Hb Ho Hd Hl Hl16 Hc Hm Hsrc Hdst. pose proof (doff_range m o Hb) as [? Hd4].
  eexists. split; [unfold IsChecksumValid; go_run|]. rewrite Z.add_0_r, Z.sub_0_r.
  replace (doff m o + (l - doff m o)) with l by lia. rewrite u16_small by lia.
  pose proof (tcpip.bytes_AsSlice _ Hsrc) as Hbs. pose proof (tcpip.bytes_AsSlice _ Hdst) as Hbd.
  pose proof (wsum_nonneg _ Hbs). pose proof (wsum_nonneg _ Hbd).
  pose proof (PseudoHeaderChecksum_OC TCPProtocolNumber _ _ l Hbs Hbd ltac:(unfold TCPProtocolNumber; lia) ltac:(lia)) as HP.
  set (pay := window m (o + doff m o) (l - doff m o)).
  assert (bytes pay) as Hpay by by apply bytes_window.
  pose proof (Checksum_OC pay 0 0 Hpay ltac:(by left)) as HC.
  pose proof (OC_Combine _ _ _ _ HP HC) as HX.
  pose proof (Checksum_OC (window m o (doff m o)) _ _ ltac:(by apply bytes_window) HX) as HF.
  pose proof (wsum_nonneg _ Hpay). pose proof (wsum_nonneg _ (bytes_window m o (doff m o) Hb)).
  rewrite (OC_valid _ _ HF) by (unfold TCPProtocolNumber; lia). unfold checksum_ok, TCPProtocolNumber.
  replace (window m o l) with (window m o (doff m o) ++ pay)
    by (subst pay; rewrite <- window_app by lia; by rewrite Zplus_minus).
  rewrite wsum_app by (rewrite Zlen_window by lia; exists (doff m o / 2); zdm).
  split; intros Hx; (etransitivity; [apply cong_refl_eq|exact Hx]); lia.
Qed.
End Valid.

(** ** Incremental updates *)

Lemma runs_tcp_SetSourcePortWithChecksumUpdate o l c m new :
  bytes m -> 0 <= o -> 18 <= l -> l <= c -> o + c <= Zlen m -> is_u16 new ->
  runs (SetSourcePortWithChecksumUpdate (Slice o l c) new) m tt
    (put16 (put16 m o new) (o + 16)
       (not16 (checksumUpdate2ByteAlignedUint16 (not16 (get16 m (o + 16))) (get16 m o) new))).
Proof.
  intros. unfold SetSourcePortWithChecksumUpdate. go_step. go_step. go_step.
  rewrite get16_put16_ne by lia. apply runs_tcp_SetChecksum; lia.
Qed.
Lemma runs_tcp_SetDestinationPortWithChecksumUpdate o l c m new :
  bytes m -> 0 <= o -> 18 <= l -> l <= c -> o + c <= Zlen m -> is_u16 new ->
  runs (SetDestinationPortWithChecksumUpdate (Slice o l c) new) m tt
    (put16 (put16 m (o + 2) new) (o + 16)
       (not16 (checksumUpdate2ByteAlignedUint16 (not16 (get16 m (o + 16))) (get16 m (o + 2)) new))).
Proof.
  intros. unfold SetDestinationPortWithChecksumUpdate. go_step. go_step. go_step.
  rewrite get16_put16_ne by lia. apply runs_tcp_SetChecksum; lia.
Qed.
Lemma runs_UpdateChecksumPseudoHeaderAddress o l c m old new :
  bytes m -> 0 <= o -> 18 <= l -> l <= c -> tcpip.wf_Address old -> tcpip.wf_Address new ->
  tcpip.Len old = tcpip.Len new ->
  exists x, is_u16 x /\
    runs (UpdateChecksumPseudoHeaderAddress (Slice o l c) old new true) m tt (put16 m (o + 16) (not16 x)) /\
    x ≡₁ not16 (get16 m (o + 16)) - wsum (tcpip.AsSlice old) + wsum (tcpip.AsSlice new).
Proof.
  intros Hb Ho Hl Hc Hwo Hwn Hlen.
  destruct (updateAddress_ok (not16 (get16 m (o + 16))) old new) as (x & E & Hx & Hcong); auto with gobytes.
  exists x. split; [done|]. split; [|done]. unfold UpdateChecksumPseudoHeaderAddress. go_step.
  eapply (runs_bind _ _ _ x m); [by rewrite E|]. go_run.
Qed.

(** ** Witness *)

Lemma TCP_Encode_roundtrip_witness :
  exists m', runs (Encode (Slice 4 20 24) (mkFields 443 50000 7 9 20 18 1024 0 0)) (repeat 255 28) tt m' /\
    runs (SourcePort (Slice 4 20 24)) m' 443 m'.
Proof.
  destruct (TCP_Encode_roundtrip 4 20 24 (repeat 255 28) (mkFields 443 50000 7 9 20 18 1024 0 0))
    as (m' & H1 & H2 & _); [concrete..|].
  exists m'. by split.
Defined.

End TCP.
