(* ===== verification/TCPOptions.v ===== *)
(** * TCP options: the parsers are total, and invert the encoders

    Theorems on ParseSynOptions, ParseTCPOptions and the Encode*Option
    functions of internal/gtcpip/header/tcp.go (definitions in TCP.v). *)
From S2P Require Import Prelude Bytes GoMem IPv4Options TCP.
Import TCP.

(** ** Totality *)

(** A turn keeps [P], advances, and does not panic. *)
Definition good_turn {A} (P : A -> Prop) (i : Z) (t : res (turn A)) : Prop :=
  match t with
  | Ok (Return a) => P a
  | Ok (Continue a i') => P a /\ i < i'
  | Panic => False
  end.

(** A loop whose turns are good terminates within one turn per byte. *)
Lemma parse_loop_total {A} (P : A -> Prop) (step : A -> Z -> res (turn A)) limit fuel a i :
  (forall a i, P a -> 0 <= i < limit -> good_turn P i (step a i)) ->
  P a -> 0 <= i -> Z.max 0 (limit - i) < Z.of_nat fuel ->
  exists a', parse_loop step limit fuel a i = Some (Ok a') /\ P a'.
Proof.
  intros Hstep. revert a i. induction fuel as [|fuel IH]; intros a i Ha Hi Hf; simpl; [lia|].
  destruct (Z.ltb_spec i limit); [|eauto].
  pose proof (Hstep a i Ha ltac:(lia)) as Hg. unfold good_turn in Hg.
  destruct (step a i) as [[a'|a' i']|]; [eauto| |done]. destruct Hg. apply IH; [done|lia|lia].
Qed.

Lemma ridx_ok l i : 0 <= i < Zlen l -> ridx l i = Ok (byte_at l i).
Proof. intros. unfold ridx. by replace (_ && _) with true by lia. Qed.
Lemma rget32_ok l i : 0 <= i -> i + 4 <= Zlen l -> rget32 l i = Ok (get32 l i).
Proof. intros. unfold rget32. by replace (_ && _) with true by lia. Qed.

(** Case analysis on the tests of a turn, outermost first, with the checked
    reads resolved. *)
Ltac turn_cases :=
  repeat lazymatch goal with
  | |- good_turn _ _ (rbind (ridx ?l ?i) _) => rewrite (ridx_ok l i) by lia; cbn [rbind]
  | |- good_turn _ _ (rbind (rget32 ?l ?i) _) => rewrite (rget32_ok l i) by lia; cbn [rbind]
  | |- good_turn _ _ (if ?a <? ?b then _ else _) => destruct (Z.ltb_spec a b)
  | |- good_turn _ _ (if ?a =? ?b then _ else _) => destruct (Z.eqb_spec a b)
  | |- good_turn _ _ (if negb (?a =? ?b) then _ else _) => destruct (Z.eqb_spec a b); cbn [negb]
  end.

Lemma skip_option_turn {A} (P : A -> Prop) opts (a : A) i :
  P a -> 0 <= i < Zlen opts -> good_turn P i (skip_option opts (Zlen opts) a i).
Proof.
  intros Ha Hi. unfold skip_option. turn_cases; [done|].
  destruct ((_ <? 2) || _) eqn:E; [done|]. split; [done|lia].
Qed.

Definition syn_ok (a : TCPSynOptions) : Prop :=
  (48 <= MSS a <= 65535) /\ (-1 <= WS a <= 14) /\ is_u32 (TSVal a) /\ is_u32 (TSEcr a).

Lemma mss_word hi lo : is_u8 hi -> is_u8 lo -> Z.lor (u16 (Z.shiftl hi 8)) lo = hi * 256 + lo.
Proof.
  intros. rewrite Z.shiftl_mul_pow2, u16_small by (simpl; lia). apply lor_add_high; simpl; lia.
Qed.

Lemma syn_step_turn opts isAck a i :
  bytes opts -> syn_ok a -> 0 <= i < Zlen opts -> good_turn syn_ok i (syn_step opts isAck a i).
Proof.
  intros Hb Ha Hi. pose proof Ha as (?&?&?&?). unfold syn_step, TCPMinimumSendMSS, MaxWndScale. cbv zeta.
  assert (forall j, is_u8 (byte_at opts j)) as Hu by (intros; by apply bytes_byte_at).
  assert (forall j, is_u32 (get32 opts j)) as Hu32 by (intros; by apply get32_range).
  pose proof (Hu (i + 2)). pose proof (Hu (i + 3)).
  turn_cases; try done; try (by apply skip_option_turn); rewrite ?mss_word in * by done.
  all: try (destruct isAck; turn_cases).
  all: split; [|lia]; unfold syn_ok; simpl; split_and!; try done; try apply Hu32; zcase; lia.
Qed.

Lemma sack_blocks_ok b i j n acc :
  0 <= i -> 0 <= j -> i + 2 + (j + Z.of_nat n) * 8 <= Zlen b ->
  exists bl, sack_blocks b i j n acc = Ok (acc ++ bl) /\ length bl = n.
Proof.
  revert j acc. induction n as [|n IH]; intros j acc Hi Hj Hl; simpl.
  - exists []. by rewrite app_nil_r.
  - rewrite !rget32_ok by lia. cbn [rbind].
    destruct (IH (j + 1) (acc ++ [mkSACKBlock (get32 b (i + 2 + j * 8)) (get32 b (i + 2 + j * 8 + 4))]))
      as (bl & -> & Hbl); try lia.
    exists (mkSACKBlock (get32 b (i + 2 + j * 8)) (get32 b (i + 2 + j * 8 + 4)) :: bl).
    rewrite <- app_assoc. simpl. auto.
Qed.

Lemma options_step_turn b a i :
  bytes b -> 0 <= i < Zlen b -> Zlen (SACKBlocks a) <= 31 ->
  good_turn (fun a => Zlen (SACKBlocks a) <= 31) i (options_step b a i).
Proof.
  intros Hb Hi Ha. unfold options_step. cbv zeta.
  assert (is_u8 (byte_at b (i + 1))) as Hu by (by apply bytes_byte_at).
  turn_cases; try done; try (split; [done|lia]); try (by apply skip_option_turn).
  set (sl := byte_at b (i + 1)) in *.
  destruct ((Zlen b <? i + sl) || negb (Z.rem (sl - 2) 8 =? 0)) eqn:E; [done|].
  assert (2 <= sl) as Hs.
  { destruct (decide (sl = 0)) as [E0|]; [rewrite E0 in E; simpl in E; lia|].
    destruct (decide (sl = 1)) as [E1|]; [rewrite E1 in E; simpl in E; lia|]. lia. }
  rewrite Z.quot_div_nonneg by lia. rewrite Z.rem_mod_nonneg in E by lia.
  destruct (sack_blocks_ok b i 0 (Z.to_nat ((sl - 2) / 8)) []) as (bl & -> & Hbl); [lia|lia|zdm|].
  cbn [rbind]. split; [|lia]. cbn [SACKBlocks]. simpl app. unfold Zlen. rewrite Hbl. zdm.
Qed.

(** the option parsers return for every byte string: they never read out
    of range and need at most one turn per byte.  A parsed SYN always has an
    MSS between 48 and 65535 and a window scale of at most 14 (or -1). *)
Lemma parse_options_total opts isAck :
  bytes opts ->
  (exists a, ParseSynOptions opts isAck = Some (Ok a) /\ 48 <= MSS a <= 65535 /\ -1 <= WS a <= 14) /\
  (exists a, ParseTCPOptions opts = Some (Ok a) /\ Zlen (SACKBlocks a) <= 31).
Proof.
  intros Hb. split.
  - destruct (parse_loop_total syn_ok (syn_step opts isAck) (Zlen opts) (S (length opts))
      (mkSynOptions TCPDefaultMSS (-1) false 0 0 false 0) 0) as (a & E & Ha).
    + intros. by apply syn_step_turn.
    + unfold syn_ok, TCPDefaultMSS. simpl. lia.
    + lia.
    + unfold Zlen. lia.
    + exists a. unfold syn_ok in Ha. intuition.
  - apply (parse_loop_total (fun a => Zlen (SACKBlocks a) <= 31)); [|by unfold Zlen|lia|unfold Zlen; lia].
    intros. by apply options_step_turn.
Qed.
Lemma parse_options_total_witness :
  (exists a, ParseSynOptions [2; 4; 0; 9; 3; 3; 200; 5; 0] false = Some (Ok a) /\ 48 <= MSS a <= 65535 /\ -1 <= WS a <= 14) /\
  (exists a, ParseTCPOptions [2; 4; 0; 9; 3; 3; 200; 5; 0] = Some (Ok a) /\ Zlen (SACKBlocks a) <= 31).
Proof. apply (parse_options_total [2; 4; 0; 9; 3; 3; 200; 5; 0] false). unfold bytes. repeat constructor; lia. Defined.

(** ** Round trips *)

(** An option as the encoders write it. *)
Inductive item :=
| INOP
| IMSS (mss : Z)
| IWS (ws : Z)
| ITS (tsVal tsEcr : Z)
| ISACKPermitted
| ISACK (blocks : list SACKBlock).

Definition item_ok (it : item) : Prop :=
  match it with
  | INOP | ISACKPermitted => True
  | IMSS mss => 48 <= mss <= 65535
  | IWS ws => 0 <= ws <= 14
  | ITS v e => is_u32 v /\ is_u32 e
  | ISACK bl => (1 <= length bl <= 4)%nat /\ Forall (fun b => is_u32 (Start b) /\ is_u32 (End_ b)) bl
  end.

Definition be32 (v : Z) : list Z :=
  [u8 (u16 (v / 65536) / 256); u8 (u16 (v / 65536)); u8 (u16 v / 256); u8 (u16 v)].
Definition blocks_bytes (bl : list SACKBlock) : list Z := concat (map (fun b => be32 (Start b) ++ be32 (End_ b)) bl).
Definition item_bytes (it : item) : list Z :=
  match it with
  | INOP => [1]
  | IMSS mss => [2; 4; u8 (Z.shiftr mss 8); u8 mss]
  | IWS ws => [3; 3; u8 ws]
  | ITS v e => [8; 10] ++ be32 v ++ be32 e
  | ISACKPermitted => [4; 2]
  | ISACK bl => [5; u8 (Zlen bl * 8 + 2)] ++ blocks_bytes bl
  end.

(** The encoder of each option, and a sequence of them: each one writes where
    the previous one stopped. *)
Definition encode_item (it : item) (b : slice) : M Z :=
  match it with
  | INOP => EncodeNOP b
  | IMSS mss => EncodeMSSOption mss b
  | IWS ws => EncodeWSOption ws b
  | ITS v e => EncodeTSOption v e b
  | ISACKPermitted => EncodeSACKPermittedOption b
  | ISACK bl => EncodeSACKBlocks bl b
  end.
Fixpoint encode_items (its : list item) (b : slice) : M unit :=
  match its with
  | [] => ret tt
  | it :: its' => n <- encode_item it b ;; b' <- tail b n ;; encode_items its' b'
  end.

(** What a parsed option contributes. *)
Definition apply_syn (isAck : bool) (a : TCPSynOptions) (it : item) : TCPSynOptions :=
  match it with
  | IMSS mss => mkSynOptions mss (WS a) (TS a) (TSVal a) (TSEcr a) (SACKPermitted a) (syn_Flags a)
  | IWS ws => mkSynOptions (MSS a) ws (TS a) (TSVal a) (TSEcr a) (SACKPermitted a) (syn_Flags a)
  | ITS v e => mkSynOptions (MSS a) (WS a) true v (if isAck then e else TSEcr a) (SACKPermitted a) (syn_Flags a)
  | ISACKPermitted => mkSynOptions (MSS a) (WS a) (TS a) (TSVal a) (TSEcr a) true (syn_Flags a)
  | INOP | ISACK _ => a
  end.
Definition apply_opt (a : TCPOptions) (it : item) : TCPOptions :=
  match it with
  | ITS v e => mkOptions true v e (SACKBlocks a)
  | ISACK bl => mkOptions (o_TS a) (o_TSVal a) (o_TSEcr a) bl
  | _ => a
  end.

(** *** Bytes of an option inside the buffer *)

Lemma byte_at_mid pre mid rest k :
  0 <= k < Zlen mid -> byte_at (pre ++ mid ++ rest) (Zlen pre + k) = byte_at mid k.
Proof.
  intros. rewrite byte_at_app_r by lia. rewrite Z.add_simpl_l. by rewrite byte_at_app_l.
Qed.
Lemma get32_mid pre mid rest k :
  0 <= k -> k + 4 <= Zlen mid -> get32 (pre ++ mid ++ rest) (Zlen pre + k) = get32 mid k.
Proof.
  intros. unfold get32, get16. rewrite <- !Z.add_assoc. rewrite !byte_at_mid by lia. done.
Qed.
Lemma get32_be32 v rest : is_u32 v -> get32 (be32 v ++ rest) 0 = v.
Proof. intros. unfold get32, get16, byte_at, be32. simpl. unfold u8, u16. zdm. Qed.
Lemma get32_be32_at pre v rest : is_u32 v -> get32 (pre ++ be32 v ++ rest) (Zlen pre) = v.
Proof.
  intros. rewrite <- (Z.add_0_r (Zlen pre)). rewrite get32_mid by (unfold Zlen; simpl; lia).
  rewrite <- (app_nil_r (be32 v)). by apply get32_be32.
Qed.
Lemma Zlen_be32 v : Zlen (be32 v) = 4.
Proof. done. Qed.
Lemma Zlen_blocks_bytes bl : Zlen (blocks_bytes bl) = Zlen bl * 8.
Proof.
  induction bl as [|b bl IH]; [done|]. unfold blocks_bytes in *. cbn [map concat].
  rewrite !Zlen_app, !Zlen_be32, Zlen_cons, IH. lia.
Qed.
Lemma Zlen_item it : item_ok it -> Zlen (item_bytes it) =
  match it with INOP => 1 | IMSS _ => 4 | IWS _ => 3 | ITS _ _ => 10 | ISACKPermitted => 2
  | ISACK bl => Zlen bl * 8 + 2 end.
Proof.
  destruct it; try done. intros _. cbn [item_bytes]. rewrite Zlen_app, Zlen_blocks_bytes. unfold Zlen. simpl. lia.
Qed.

Lemma sack_blocks_mid pre hd bl rest j acc :
  Zlen hd = 2 + j * 8 -> 0 <= j -> Forall (fun b => is_u32 (Start b) /\ is_u32 (End_ b)) bl ->
  sack_blocks (pre ++ (hd ++ blocks_bytes bl) ++ rest) (Zlen pre) j (length bl) acc = Ok (acc ++ bl).
Proof.
  revert hd j acc. induction bl as [|b bl IH]; intros hd j acc Hh Hj Hf; simpl; [by rewrite app_nil_r|].
  apply Forall_cons in Hf as [[Hs He] Hf].
  unfold blocks_bytes. cbn [map concat]. fold (blocks_bytes bl).
  pose proof (Zlen_nonneg pre). pose proof (Zlen_nonneg (blocks_bytes bl)). pose proof (Zlen_nonneg rest).
  set (buf := pre ++ (hd ++ (be32 (Start b) ++ be32 (End_ b)) ++ blocks_bytes bl) ++ rest).
  assert (Zlen buf = Zlen pre + Zlen hd + 8 + Zlen (blocks_bytes bl) + Zlen rest) as Hbuf
    by (subst buf; rewrite !Zlen_app, !Zlen_be32; lia).
  rewrite !rget32_ok by lia. cbn [rbind].
  assert (get32 buf (Zlen pre + 2 + j * 8) = Start b) as ->.
  { replace (Zlen pre + 2 + j * 8) with (Zlen (pre ++ hd)) by (rewrite Zlen_app; lia).
    rewrite <- (get32_be32_at (pre ++ hd) (Start b) (be32 (End_ b) ++ blocks_bytes bl ++ rest)) by done.
    f_equal. subst buf. by rewrite <- !app_assoc. }
  assert (get32 buf (Zlen pre + 2 + j * 8 + 4) = End_ b) as ->.
  { replace (Zlen pre + 2 + j * 8 + 4) with (Zlen ((pre ++ hd) ++ be32 (Start b)))
      by (rewrite !Zlen_app, Zlen_be32; lia).
    rewrite <- (get32_be32_at ((pre ++ hd) ++ be32 (Start b)) (End_ b) (blocks_bytes bl ++ rest)) by done.
    f_equal. subst buf. by rewrite <- !app_assoc. }
  replace buf with (pre ++ ((hd ++ be32 (Start b) ++ be32 (End_ b)) ++ blocks_bytes bl) ++ rest)
    by (subst buf; by rewrite <- !app_assoc).
  rewrite IH; [|rewrite !Zlen_app, !Zlen_be32; lia|lia|done].
  rewrite <- app_assoc. simpl. by destruct b.
Qed.

(** *** One turn of a parser on an encoded option *)

Section Turn.
Context (pre rest : list Z).

(** The checked reads of a turn inside [item_bytes it]. *)
Lemma ridx_item it k :
  0 <= k < Zlen (item_bytes it) ->
  ridx (pre ++ item_bytes it ++ rest) (Zlen pre + k) = Ok (byte_at (item_bytes it) k).
Proof.
  intros. pose proof (Zlen_nonneg pre). pose proof (Zlen_nonneg rest).
  rewrite ridx_ok by (rewrite !Zlen_app; lia). by rewrite byte_at_mid.
Qed.
Lemma rget32_item it k :
  0 <= k -> k + 4 <= Zlen (item_bytes it) ->
  rget32 (pre ++ item_bytes it ++ rest) (Zlen pre + k) = Ok (get32 (item_bytes it) k).
Proof.
  intros. pose proof (Zlen_nonneg pre). pose proof (Zlen_nonneg rest).
  rewrite rget32_ok by (rewrite ?Zlen_app; lia). by rewrite get32_mid.
Qed.
Lemma limit_item it n :
  n <= Zlen (item_bytes it) -> (Zlen (pre ++ item_bytes it ++ rest) <? Zlen pre + n) = false.
Proof. intros. pose proof (Zlen_nonneg rest). rewrite !Zlen_app. lia. Qed.

Lemma get32_ts v e : is_u32 v -> is_u32 e ->
  get32 (item_bytes (ITS v e)) 2 = v /\ get32 (item_bytes (ITS v e)) 6 = e.
Proof.
  intros. unfold get32, get16, byte_at. simpl. unfold u8, u16. split; zdm.
Qed.
Lemma skip_item {A} it (a : A) :
  byte_at (item_bytes it) 1 = Zlen (item_bytes it) -> 2 <= Zlen (item_bytes it) ->
  skip_option (pre ++ item_bytes it ++ rest) (Zlen (pre ++ item_bytes it ++ rest)) a (Zlen pre)
    = Ok (Continue a (Zlen pre + Zlen (item_bytes it))).
Proof.
  intros H1 H2. unfold skip_option. rewrite limit_item by lia. rewrite ridx_item by lia. cbn [rbind].
  rewrite H1, limit_item by lia. by replace (_ <? 2) with false by lia.
Qed.

Lemma syn_step_item isAck a it :
  item_ok it ->
  syn_step (pre ++ item_bytes it ++ rest) isAck a (Zlen pre)
    = Ok (Continue (apply_syn isAck a it) (Zlen pre + Zlen (item_bytes it))).
Proof.
  intros Hok. pose proof (Zlen_item it Hok) as HL. unfold syn_step. cbv zeta.
  rewrite <- (Z.add_0_r (Zlen pre)) at 1.
  rewrite ridx_item by (destruct it; rewrite HL; simpl in Hok; unfold Zlen; lia). cbn [rbind].
  destruct it as [|mss|ws|v e| |bl]; simpl in Hok.
  - done.
  - change (byte_at (item_bytes (IMSS mss)) 0) with 2. cbn [Z.eqb Pos.eqb].
    rewrite limit_item by (rewrite ?HL; lia). rewrite !ridx_item by (rewrite ?HL; lia). cbn [rbind].
    unfold byte_at. cbn [item_bytes Z.to_nat Pos.to_nat Pos.iter_op Nat.add lookup list_lookup default negb Z.eqb Pos.eqb].
    change (Z.to_nat 1) with 1%nat. change (Z.to_nat 2) with 2%nat. change (Z.to_nat 3) with 3%nat. simpl.
    rewrite mss_word by apply u8_range. rewrite Z.shiftr_div_pow2 by lia. change (2 ^ 8) with 256.
    assert (u8 (mss / 256) * 256 + u8 mss = mss) as -> by (unfold u8; zdm). unfold TCPMinimumSendMSS.
    replace (mss =? 0) with false by lia. replace (mss <? 40 + 8) with false by lia. done.
  - change (byte_at (item_bytes (IWS ws)) 0) with 3. cbn [Z.eqb Pos.eqb].
    rewrite limit_item by (rewrite ?HL; lia). rewrite !ridx_item by (rewrite ?HL; lia). cbn [rbind].
    change (byte_at (item_bytes (IWS ws)) 1) with 3. cbn [Z.eqb Pos.eqb negb].
    change (byte_at (item_bytes (IWS ws)) 2) with (u8 ws). rewrite u8_small by lia.
    unfold MaxWndScale. replace (14 <? ws) with false by lia. done.
  - change (byte_at (item_bytes (ITS v e)) 0) with 8. cbn [Z.eqb Pos.eqb].
    rewrite limit_item by (rewrite ?HL; lia). rewrite ridx_item by (rewrite ?HL; lia). cbn [rbind].
    change (byte_at (item_bytes (ITS v e)) 1) with 10. cbn [Z.eqb Pos.eqb negb].
    rewrite !rget32_item by (rewrite ?HL; lia). destruct (get32_ts v e) as [-> ->]; [easy|easy|].
    cbn [rbind]. by destruct isAck.
  - change (byte_at (item_bytes ISACKPermitted) 0) with 4. cbn [Z.eqb Pos.eqb].
    rewrite limit_item by (rewrite ?HL; lia). rewrite ridx_item by (rewrite ?HL; lia). done.
  - change (byte_at (item_bytes (ISACK bl)) 0) with 5. cbn [Z.eqb Pos.eqb]. apply skip_item; rewrite HL.
    + change (byte_at (item_bytes (ISACK bl)) 1) with (u8 (Zlen bl * 8 + 2)). apply u8_small. unfold Zlen. lia.
    + unfold Zlen. lia.
Qed.

Lemma options_step_item a it :
  item_ok it ->
  options_step (pre ++ item_bytes it ++ rest) a (Zlen pre)
    = Ok (Continue (apply_opt a it) (Zlen pre + Zlen (item_bytes it))).
Proof.
  intros Hok. pose proof (Zlen_item it Hok) as HL. unfold options_step. cbv zeta.
  rewrite <- (Z.add_0_r (Zlen pre)) at 1.
  rewrite ridx_item by (destruct it; rewrite HL; simpl in Hok; unfold Zlen; lia). cbn [rbind].
  destruct it as [|mss|ws|v e| |bl]; simpl in Hok.
  - done.
  - change (byte_at (item_bytes (IMSS mss)) 0) with 2. cbn [Z.eqb Pos.eqb]. apply skip_item; rewrite HL; [done|lia].
  - change (byte_at (item_bytes (IWS ws)) 0) with 3. cbn [Z.eqb Pos.eqb]. apply skip_item; rewrite HL; [done|lia].
  - change (byte_at (item_bytes (ITS v e)) 0) with 8. cbn [Z.eqb Pos.eqb].
    rewrite limit_item by (rewrite ?HL; lia). rewrite ridx_item by (rewrite ?HL; lia). cbn [rbind].
    change (byte_at (item_bytes (ITS v e)) 1) with 10. cbn [Z.eqb Pos.eqb negb].
    rewrite !rget32_item by (rewrite ?HL; lia). destruct (get32_ts v e) as [-> ->]; easy.
  - change (byte_at (item_bytes ISACKPermitted) 0) with 4. cbn [Z.eqb Pos.eqb]. apply skip_item; rewrite HL; [done|lia].
  - change (byte_at (item_bytes (ISACK bl)) 0) with 5. cbn [Z.eqb Pos.eqb]. destruct Hok as [Hl Hf].
    assert (1 <= Zlen bl <= 4) as Hbl by (unfold Zlen; lia).
    rewrite limit_item by (rewrite ?HL; lia). rewrite ridx_item by (rewrite ?HL; lia). cbn [rbind].
    change (byte_at (item_bytes (ISACK bl)) 1) with (u8 (Zlen bl * 8 + 2)). rewrite u8_small by lia.
    rewrite limit_item by (rewrite ?HL; lia). replace (Zlen bl * 8 + 2 - 2) with (Zlen bl * 8) by lia.
    rewrite Z.rem_mul, Z.quot_mul by lia. cbn [Z.eqb negb orb].
    replace (Z.to_nat (Zlen bl)) with (length bl) by (unfold Zlen; lia).
    cbn [item_bytes]. rewrite (sack_blocks_mid pre [5; u8 (Zlen bl * 8 + 2)] bl rest 0 []) by easy.
    cbn [rbind app apply_opt]. do 3 f_equal. rewrite <- HL. done.
Qed.
End Turn.

Lemma parse_loop_items {A} (step : list Z -> A -> Z -> res (turn A)) (app1 : A -> item -> A) its pre a fuel :
  (forall pre rest a it, item_ok it ->
     step (pre ++ item_bytes it ++ rest) a (Zlen pre)
       = Ok (Continue (app1 a it) (Zlen pre + Zlen (item_bytes it)))) ->
  Forall item_ok its -> (length its < fuel)%nat ->
  parse_loop (step (pre ++ concat (map item_bytes its))) (Zlen (pre ++ concat (map item_bytes its))) fuel a (Zlen pre)
    = Some (Ok (fold_left app1 its a)).
Proof.
  intros Hstep. revert pre a fuel. induction its as [|it its IH]; intros pre a fuel Hok Hf.
  - destruct fuel; [simpl in Hf; lia|]. simpl. rewrite app_nil_r. by rewrite Z.ltb_irrefl.
  - destruct fuel; [simpl in Hf; lia|]. apply Forall_cons in Hok as [Hit Hok]. cbn [map concat fold_left parse_loop].
    rewrite Hstep by done.
    replace (Zlen pre <? _) with true.
    + replace (Zlen pre + Zlen (item_bytes it)) with (Zlen (pre ++ item_bytes it)) by apply Zlen_app.
      rewrite app_assoc. apply IH; [done|]. simpl in Hf. lia.
    + symmetry. apply Z.ltb_lt. rewrite !Zlen_app. pose proof (Zlen_nonneg (concat (map item_bytes its))).
      rewrite (Zlen_item it Hit). destruct it; simpl in Hit; unfold Zlen; lia.
Qed.

(** *** The encoders write the bytes of their option *)

Lemma put32_write_at m i v : put32 m i v = write_at m i (be32 v).
Proof.
  unfold put32, put16, be32. simpl. replace (i + 2 + 1) with (i + 1 + 1 + 1) by lia.
  by replace (i + 2) with (i + 1 + 1) by lia.
Qed.

Lemma runs_encode_blocks bl i o l c m :
  0 <= i -> (i + Zlen bl) * 8 + 2 <= l -> l <= c ->
  runs (encode_blocks bl i (Slice o l c)) m tt (write_at m (o + (i * 8 + 2)) (blocks_bytes bl)).
Proof.
  revert i m. induction bl as [|b bl IH]; intros i m Hi Hl Hc; [done|].
  rewrite Zlen_cons in Hl. pose proof (Zlen_nonneg bl). cbn [encode_blocks].
  do 4 go_step. eapply runs_eq; [apply IH; lia|done|].
  unfold blocks_bytes. cbn [map concat]. rewrite !write_at_app, !put32_write_at, !Zlen_app, !Zlen_be32.
  f_equal; [|lia]. f_equal. lia.
Qed.

Lemma runs_encode_item it o l c m :
  item_ok it -> 0 <= o -> o + c <= Zlen m -> Zlen (item_bytes it) <= l -> l <= c ->
  runs (encode_item it (Slice o l c)) m (Zlen (item_bytes it)) (write_at m o (item_bytes it)).
Proof.
  intros Hok Ho Hm Hl Hc. rewrite Zlen_item in Hl |- * by done.
  destruct it as [|mss|ws|v e| |bl]; cbn [encode_item item_bytes].
  - unfold EncodeNOP. cbn [sl_len]. replace (l =? 0) with false by lia.
    eapply runs_eq; [go_run|done|]. by rewrite Z.add_0_r.
  - unfold EncodeMSSOption. cbn [sl_len]. replace (l <? 4) with false by lia.
    eapply runs_eq; [go_run|done|]. simpl. rewrite Z.add_0_r. f_equal; [|lia]. f_equal; lia.
  - unfold EncodeWSOption. cbn [sl_len]. replace (l <? 3) with false by lia.
    eapply runs_eq; [go_run| |].
    + by rd.
    + simpl. rewrite Z.add_0_r. f_equal; lia.
  - unfold EncodeTSOption. cbn [sl_len]. replace (l <? 10) with false by lia.
    eapply runs_eq; [go_run| |].
    + rd. done.
    + rewrite write_at_app, write_at_app, !put32_write_at. simpl (Zlen [8; 10]). rewrite Zlen_be32.
      change (Zlen [8; 10]) with 2. f_equal; [|lia]. f_equal. simpl. by rewrite Z.add_0_r.
  - unfold EncodeSACKPermittedOption. cbn [sl_len]. replace (l <? 2) with false by lia.
    eapply runs_eq; [go_run| |].
    + by rd.
    + simpl. by rewrite Z.add_0_r.
  - simpl in Hok. destruct Hok as [Hn _]. assert (1 <= Zlen bl <= 4) as Hbl by (unfold Zlen; lia).
    unfold EncodeSACKBlocks, TCPMaxSACKBlocks. cbn [sl_len].
    replace (Zlen bl =? 0) with false by lia. replace (4 <? Zlen bl) with false by lia.
    rewrite Z.quot_div_nonneg by lia. replace ((l - 2) / 8 <? Zlen bl) with false by (symmetry; apply Z.ltb_ge; zdm).
    replace (Zlen bl =? 0) with false by lia. rewrite take_ge by (unfold Zlen; lia).
    go_step. go_step. eapply runs_bind; [apply runs_encode_blocks; lia|].
    eapply runs_eq; [go_run| |].
    + rd. apply u8_small. lia.
    + rewrite write_at_app. simpl. rewrite Z.add_0_r. by change (Zlen [5; u8 (Zlen bl * 8 + 2)]) with 2.
Qed.

Lemma runs_encode_items its o l c m :
  Forall item_ok its -> 0 <= o -> o + c <= Zlen m -> Zlen (concat (map item_bytes its)) <= l -> l <= c ->
  runs (encode_items its (Slice o l c)) m tt (write_at m o (concat (map item_bytes its))).
Proof.
  intros Hok. revert o l c m. induction its as [|it its IH]; intros o l c m Ho Hm Hl Hc; [done|].
  apply Forall_cons in Hok as [Hit Hok]. cbn [encode_items map concat] in *. rewrite Zlen_app in Hl.
  pose proof (Zlen_nonneg (item_bytes it)). pose proof (Zlen_nonneg (concat (map item_bytes its))).
  eapply runs_bind; [apply runs_encode_item; try done; lia|]. go_step.
  eapply runs_eq; [apply IH; rewrite ?Zlen_write_at; auto; lia|done|]. by rewrite write_at_app.
Qed.

(** A sequence of options (NOP, MSS, window scale, timestamps, SACK
    permitted, SACK blocks) written by the Encode functions one after the other
    is read back exactly, in order, by ParseSynOptions and by ParseTCPOptions;
    each parser skips the options it does not know. *)
Lemma TCPOptions_roundtrip its o l c m isAck :
  Forall item_ok its -> in_array m (Slice o l c) -> Zlen (concat (map item_bytes its)) <= l ->
  exists m', runs (encode_items its (Slice o l c)) m tt m' /\
    let opts := window m' o (Zlen (concat (map item_bytes its))) in
    ParseSynOptions opts isAck
      = Some (Ok (fold_left (apply_syn isAck) its (mkSynOptions 536 (-1) false 0 0 false 0))) /\
    ParseTCPOptions opts = Some (Ok (fold_left apply_opt its (mkOptions false 0 0 []))).
Proof.
  intros Hok (Ho & Hlc & Hm) Hl. simpl in *. eexists.
  split; [apply runs_encode_items; auto; lia|]. cbv zeta.
  rewrite window_write_at_eq by lia. set (b := concat (map item_bytes its)).
  assert (length its < S (length b))%nat as Hf.
  { subst b. clear Hl. induction its as [|it its IH]; [simpl; lia|]. apply Forall_cons in Hok as [Hit Hok].
    cbn [map concat length]. rewrite length_app. specialize (IH Hok).
    pose proof (Zlen_item it Hit) as HL. unfold Zlen in HL. destruct it; simpl in Hit; unfold Zlen in HL; lia. }
  split.
  - apply (parse_loop_items (fun opts => syn_step opts isAck) (apply_syn isAck) its [] _ (S (length b)));
      [intros; by apply syn_step_item|done|done].
  - apply (parse_loop_items options_step apply_opt its [] _ (S (length b)));
      [intros; by apply options_step_item|done|done].
Qed.

Definition sample_items : list item :=
  [IMSS 1460; ISACKPermitted; ITS 4294967295 7; INOP; IWS 7; ISACK [mkSACKBlock 1 2; mkSACKBlock 4294967290 5]].
Lemma TCPOptions_roundtrip_witness :
  exists m', runs (encode_items sample_items (Slice 0 40 40)) (repeat 0 40) tt m' /\
    let opts := window m' 0 (Zlen (concat (map item_bytes sample_items))) in
    ParseSynOptions opts true = Some (Ok (mkSynOptions 1460 7 true 4294967295 7 true 0)) /\
    ParseTCPOptions opts = Some (Ok (mkOptions true 4294967295 7 [mkSACKBlock 1 2; mkSACKBlock 4294967290 5])).
Proof.
  apply (TCPOptions_roundtrip sample_items 0 40 40 (repeat 0 40) true).
  - repeat constructor; simpl; lia.
  - split_and!; simpl; unfold Zlen; simpl; lia.
  - vm_compute. discriminate.
Defined.
