(* ===== verification/UDP.v ===== *)
(** * internal/gtcpip/header/udp.go: the UDP header

    A zero checksum field means "no checksum" (RFC 768), so a computed zero is
    stored as 0xffff ([NormalizeUDPChecksum]) and the incremental updates leave
    a zero field alone. *)
From S2P Require Import Prelude Bytes GoMem Checksum Tcpip HdrChecksum IPv4.

Module UDP.

Definition UDPMinimumSize : Z := 8.
Definition UDPProtocolNumber : Z := 17.

Record UDPFields := mkFields { f_SrcPort : Z; f_DstPort : Z; f_Length : Z; f_Checksum : Z }.

Definition SourcePort (b : slice) : M Z := s <- tail b 0 ;; Uint16 s.
Definition DestinationPort (b : slice) : M Z := s <- tail b 2 ;; Uint16 s.
Definition Length (b : slice) : M Z := s <- tail b 4 ;; Uint16 s.
Definition Payload (b : slice) : M slice := tail b UDPMinimumSize.
Definition Checksum_ (b : slice) : M Z := s <- tail b 6 ;; Uint16 s.
Definition SetSourcePort (b : slice) (port : Z) : M unit := s <- tail b 0 ;; PutUint16 s port.
Definition SetDestinationPort (b : slice) (port : Z) : M unit := s <- tail b 2 ;; PutUint16 s port.
Definition SetChecksum (b : slice) (xsum : Z) : M unit := s <- tail b 6 ;; Put s xsum.
Definition SetLength (b : slice) (length : Z) : M unit := s <- tail b 4 ;; PutUint16 s length.

Definition Encode (b : slice) (u : UDPFields) : M unit :=
  SetSourcePort b (f_SrcPort u) ;;;
  SetDestinationPort b (f_DstPort u) ;;;
  SetLength b (f_Length u) ;;;
  SetChecksum b (f_Checksum u).

Definition NormalizeUDPChecksum (xsum : Z) : Z := if xsum =? 0 then 65535 else xsum.

Section WithChecksum.
Context `{ChecksumImpl}.

Definition CalculateChecksum (b : slice) (partialChecksum : Z) : M Z :=
  s1 <- reslice b 0 6 ;; c1 <- contents s1 ;;
  let xsum := Checksum c1 partialChecksum in
  s2 <- reslice b (6 + 2) UDPMinimumSize ;; c2 <- contents s2 ;;
  ret (Checksum c2 xsum).

(** The source passes the destination first; the sum does not depend on it. *)
Definition IsChecksumValid (b : slice) (src dst : tcpip.Address) (payloadChecksum : Z) : M bool :=
  len <- Length b ;;
  let xsum := PseudoHeaderChecksum UDPProtocolNumber (tcpip.AsSlice dst) (tcpip.AsSlice src) len in
  let xsum := Combine xsum payloadChecksum in
  s <- reslice b 0 UDPMinimumSize ;; c <- contents s ;;
  ret (Checksum c xsum =? 65535).

Definition UDPValid (hdr : slice) (payloadChecksum : M Z) (payloadSize netProto : Z)
    (srcAddr dstAddr : tcpip.Address) (skipChecksumValidation : bool) : M (bool * bool) :=
  length <- Length hdr ;;
  if (u16 (payloadSize + UDPMinimumSize) <? length) || (length <? UDPMinimumSize) then ret (false, false)
  else
    x <- Checksum_ hdr ;;
    if x =? 0 then ret (true, netProto =? IPv4ProtocolNumber)
    else if skipChecksumValidation then ret (true, true)
    else
      pc <- payloadChecksum ;;
      v <- IsChecksumValid hdr srcAddr dstAddr pc ;;
      ret (true, v).
End WithChecksum.

Definition SetSourcePortWithChecksumUpdate (b : slice) (new : Z) : M unit :=
  old <- SourcePort b ;;
  SetSourcePort b new ;;;
  x <- Checksum_ b ;;
  if x =? 0 then ret tt
  else
    x <- Checksum_ b ;;
    SetChecksum b (NormalizeUDPChecksum (not16 (checksumUpdate2ByteAlignedUint16 (not16 x) old new))).
Definition SetDestinationPortWithChecksumUpdate (b : slice) (new : Z) : M unit :=
  old <- DestinationPort b ;;
  SetDestinationPort b new ;;;
  x <- Checksum_ b ;;
  if x =? 0 then ret tt
  else
    x <- Checksum_ b ;;
    SetChecksum b (NormalizeUDPChecksum (not16 (checksumUpdate2ByteAlignedUint16 (not16 x) old new))).
Definition UpdateChecksumPseudoHeaderAddress (b : slice) (old new : tcpip.Address) (fullChecksum : bool) : M unit :=
  xsum <- Checksum_ b ;;
  if fullChecksum && (xsum =? 0) then ret tt
  else
    let xsum := if fullChecksum then not16 xsum else xsum in
    xsum <- lift (checksumUpdate2ByteAlignedAddress xsum old new) ;;
    let xsum := if fullChecksum then NormalizeUDPChecksum (not16 xsum) else xsum in
    SetChecksum b xsum.

(** ** Execution *)

Lemma runs_udp_SourcePort o l c m : 2 <= l -> l <= c -> runs (SourcePort (Slice o l c)) m (get16 m o) m.
Proof. intros. unfold SourcePort. eapply runs_eq; [go_run| |done]. by rewrite Z.add_0_r. Qed.
Lemma runs_udp_DestinationPort o l c m : 4 <= l -> l <= c -> runs (DestinationPort (Slice o l c)) m (get16 m (o + 2)) m.
Proof. intros. unfold DestinationPort. go_run. Qed.
Lemma runs_Length o l c m : 6 <= l -> l <= c -> runs (Length (Slice o l c)) m (get16 m (o + 4)) m.
Proof. intros. unfold Length. go_run. Qed.
Lemma runs_udp_Checksum_ o l c m : 8 <= l -> l <= c -> runs (Checksum_ (Slice o l c)) m (get16 m (o + 6)) m.
Proof. intros. unfold Checksum_. go_run. Qed.
Lemma runs_udp_Payload o l c m : 8 <= l -> l <= c -> runs (Payload (Slice o l c)) m (Slice (o + 8) (l - 8) (c - 8)) m.
Proof. intros. unfold Payload, UDPMinimumSize. go_run. Qed.
Lemma runs_udp_SetSourcePort o l c v m : 2 <= l -> l <= c -> runs (SetSourcePort (Slice o l c) v) m tt (put16 m o v).
Proof. intros. unfold SetSourcePort. eapply runs_eq; [go_run|done|]. by rewrite Z.add_0_r. Qed.
Lemma runs_udp_SetDestinationPort o l c v m :
  4 <= l -> l <= c -> runs (SetDestinationPort (Slice o l c) v) m tt (put16 m (o + 2) v).
Proof. intros. unfold SetDestinationPort. go_run. Qed.
Lemma runs_SetLength o l c v m : 6 <= l -> l <= c -> runs (SetLength (Slice o l c) v) m tt (put16 m (o + 4) v).
Proof. intros. unfold SetLength. go_run. Qed.
Lemma runs_udp_SetChecksum o l c v m : 8 <= l -> l <= c -> runs (SetChecksum (Slice o l c) v) m tt (put16 m (o + 6) v).
Proof. intros. unfold SetChecksum, Put. go_run. Qed.
#[global] Hint Resolve runs_udp_SourcePort runs_udp_DestinationPort runs_Length runs_udp_Checksum_ runs_udp_Payload
  runs_udp_SetSourcePort runs_udp_SetDestinationPort runs_SetLength runs_udp_SetChecksum : gorun.

Lemma Normalize_range x : is_u16 x -> is_u16 (NormalizeUDPChecksum x).
Proof. intros. unfold NormalizeUDPChecksum. destruct (_ =? _); lia. Qed.
Lemma Normalize_cong x : NormalizeUDPChecksum x ≡₁ x.
Proof. unfold NormalizeUDPChecksum. destruct (Z.eqb_spec x 0) as [->|]; [by exists 1|done]. Qed.
Lemma Normalize_nonzero x : is_u16 x -> 0 < NormalizeUDPChecksum x.
Proof. intros. unfold NormalizeUDPChecksum. zcase; lia. Qed.
#[global] Hint Resolve Normalize_range : gobytes.

(** ** Checksums *)

(** The datagram at [o], of [l] bytes, sums to zero with the pseudo header. *)
Definition checksum_ok (m : list Z) (o l : Z) (src dst : list Z) : Prop :=
  wsum src + wsum dst + l + 17 + wsum (window m o l) ≡₁ 0.

Section Valid.
Context `{ChecksumImpl}.

Lemma runs_udp_CalculateChecksum o l c m p :
  bytes m -> 0 <= o -> 8 <= l -> l <= c -> o + c <= Zlen m -> is_u16 p ->
  exists x, runs (CalculateChecksum (Slice o l c) p) m x m /\ is_u16 x /\
    x ≡₁ p + wsum (window m o 8) - get16 m (o + 6).
Proof.
  intros Hb Ho Hl Hc Hm Hp. eexists. split; [unfold CalculateChecksum, UDPMinimumSize; go_run|].
  rewrite Z.add_0_r, Z.sub_0_r. change (6 + 2) with 8. change (8 - 8) with 0.
  assert (is_u16 (Checksum (window m o 6) p)) by auto with gobytes.
  split; [apply Checksum_range; auto with gobytes|].
  rewrite !Checksum_cong by auto with gobytes.
  rewrite (wsum_window_split3 m o 8 (o + 6) 2); [|lia|lia|lia|lia|lia|exists 3; lia|by exists 1].
  rewrite (wsum_get16 (window m (o + 6) 2)) by (apply Zlen_window; lia).
  rewrite get16_window, Z.add_0_r by lia. replace (o + 6 - o) with 6 by lia.
  replace (o + 6 + 2) with (o + 8) by lia. replace (o + 8 - (o + 8)) with 0 by lia.
  change (wsum (window m (o + 8) 0)) with 0. rewrite !Z.add_0_r. apply cong_refl_eq. lia.
Qed.

Lemma runs_udp_IsChecksumValid o l c m src dst :
  bytes m -> 0 <= o -> 8 <= l -> get16 m (o + 4) = l -> l <= c -> o + c <= Zlen m ->
  tcpip.wf_Address src -> tcpip.wf_Address dst ->
  exists b, runs (IsChecksumValid (Slice o l c) src dst (Checksum (window m (o + 8) (l - 8)) 0)) m b m /\
    (b = true <-> checksum_ok m o l (tcpip.AsSlice src) (tcpip.AsSlice dst)).
Proof.
  intros Hb Ho Hl Hlen Hc Hm Hsrc Hdst. pose proof (get16_range m (o + 4) Hb) as Hr.
  eexists. split; [unfold IsChecksumValid, UDPMinimumSize; go_run|]. rewrite Z.add_0_r, Z.sub_0_r, Hlen.
  pose proof (tcpip.bytes_AsSlice _ Hsrc) as Hbs. pose proof (tcpip.bytes_AsSlice _ Hdst) as Hbd.
  pose proof (wsum_nonneg _ Hbs). pose proof (wsum_nonneg _ Hbd).
  pose proof (PseudoHeaderChecksum_OC UDPProtocolNumber _ _ l Hbd Hbs ltac:(unfold UDPProtocolNumber; lia) ltac:(lia)) as HP.
  set (pay := window m (o + 8) (l - 8)).
  assert (bytes pay) as Hpay by by apply bytes_window.
  pose proof (Checksum_OC pay 0 0 Hpay ltac:(by left)) as HC.
  pose proof (OC_Combine _ _ _ _ HP HC) as HX.
  pose proof (Checksum_OC (window m o 8) _ _ ltac:(by apply bytes_window) HX) as HF.
  pose proof (wsum_nonneg _ Hpay). pose proof (wsum_nonneg _ (bytes_window m o 8 Hb)).
  rewrite (OC_valid _ _ HF) by (unfold UDPProtocolNumber; lia). unfold checksum_ok, UDPProtocolNumber.
  replace (window m o l) with (window m o (8 + (l - 8))) by (f_equal; lia). rewrite wsum_window_app by (try lia; by exists 4). fold pay.
  split; intros Hx; (etransitivity; [apply cong_refl_eq|exact Hx]); lia.
Qed.
End Valid.

(** ** Incremental updates *)

(** A port replaced by [new] at [i] (0 or 2): the field is left zero, or holds
    a non-zero checksum with the same sum. *)
Definition port_updated (m : list Z) (o i new : Z) (m' : list Z) : Prop :=
  (get16 m (o + 6) = 0 /\ m' = put16 m (o + i) new) \/
  (get16 m (o + 6) <> 0 /\ exists x, is_u16 x /\ 0 < x /\ m' = put16 (put16 m (o + i) new) (o + 6) x /\
     forall n, 8 <= n -> o + n <= Zlen m -> wsum (window m' o n) ≡₁ wsum (window m o n)).

Lemma port_update_cong m o i new n :
  bytes m -> 0 <= o -> i = 0 \/ i = 2 -> 8 <= n -> o + n <= Zlen m -> is_u16 new ->
  wsum (window (put16 (put16 m (o + i) new) (o + 6) (NormalizeUDPChecksum
    (not16 (checksumUpdate2ByteAlignedUint16 (not16 (get16 m (o + 6))) (get16 m (o + i)) new)))) o n)
  ≡₁ wsum (window m o n).
Proof.
  intros Hb Ho Hi Hn Hm Hnew. pose proof (get16_range m (o + 6) Hb). pose proof (get16_range m (o + i) Hb).
  etransitivity; [|apply (field_update_cong m o n (o + i) (o + 6) new); try lia; try done].
  - rewrite !wsum_window_put16; rewrite ?Zlen_put16; auto with gobytes; try lia;
      try (apply Normalize_range); auto 6 using update16_range with gobytes; try (exists 3; lia);
      try (destruct Hi as [-> | ->]; [exists 0|exists 1]; lia).
    rewrite Normalize_cong. done.
  - destruct Hi as [-> | ->]; [exists 0|exists 1]; lia.
  - exists 3. lia.
Qed.

Lemma runs_udp_SetSourcePortWithChecksumUpdate o l c m new :
  bytes m -> 0 <= o -> 8 <= l -> l <= c -> o + c <= Zlen m -> is_u16 new ->
  exists m', runs (SetSourcePortWithChecksumUpdate (Slice o l c) new) m tt m' /\ port_updated m o 0 new m'.
Proof.
  intros Hb Ho Hl Hc Hm Hnew. unfold SetSourcePortWithChecksumUpdate, port_updated. rewrite Z.add_0_r.
  pose proof (get16_range m (o + 6) Hb). pose proof (get16_range m o Hb).
  destruct (Z.eqb_spec (get16 m (o + 6)) 0) as [E|E].
  - eexists. split; [|by left]. go_step. go_step. go_step. rewrite get16_put16_ne, E by lia. simpl. go_run.
  - eexists. split; [|right; split; [done|eexists; split; [|split; [|split; [done|]]]]].
    + go_step. go_step. go_step. rewrite get16_put16_ne by lia.
      replace (get16 m (o + 6) =? 0) with false by lia. go_step.
      rewrite get16_put16_ne by lia. apply runs_udp_SetChecksum; lia.
    + auto 6 using update16_range with gobytes.
    + apply Normalize_nonzero. auto 6 using update16_range with gobytes.
    + intros n Hn Hz. pose proof (port_update_cong m o 0 new n) as HP. rewrite Z.add_0_r in HP. apply HP; auto.
Qed.
Lemma runs_udp_SetDestinationPortWithChecksumUpdate o l c m new :
  bytes m -> 0 <= o -> 8 <= l -> l <= c -> o + c <= Zlen m -> is_u16 new ->
  exists m', runs (SetDestinationPortWithChecksumUpdate (Slice o l c) new) m tt m' /\ port_updated m o 2 new m'.
Proof.
  intros Hb Ho Hl Hc Hm Hnew. unfold SetDestinationPortWithChecksumUpdate, port_updated.
  pose proof (get16_range m (o + 6) Hb). pose proof (get16_range m (o + 2) Hb).
  destruct (Z.eqb_spec (get16 m (o + 6)) 0) as [E|E].
  - eexists. split; [|by left]. go_step. go_step. go_step. rewrite get16_put16_ne, E by lia. simpl. go_run.
  - eexists. split; [|right; split; [done|eexists; split; [|split; [|split; [done|]]]]].
    + go_step. go_step. go_step. rewrite get16_put16_ne by lia.
      replace (get16 m (o + 6) =? 0) with false by lia. go_step.
      rewrite get16_put16_ne by lia. apply runs_udp_SetChecksum; lia.
    + auto 6 using update16_range with gobytes.
    + apply Normalize_nonzero. auto 6 using update16_range with gobytes.
    + intros n Hn Hz. by apply port_update_cong; auto.
Qed.

(** replacing a UDP port with the incremental update keeps a valid checksum
    valid and never turns it into the "no checksum" value zero; a datagram
    without checksum stays without one. *)
Lemma UDP_port_update_valid o l c m new src dst :
  bytes m -> 0 <= o -> 8 <= l -> l <= c -> o + c <= Zlen m -> is_u16 new ->
  exists m1 m2,
    runs (SetSourcePortWithChecksumUpdate (Slice o l c) new) m tt m1 /\
    runs (SetDestinationPortWithChecksumUpdate (Slice o l c) new) m tt m2 /\
    get16 m1 o = new /\ get16 m2 (o + 2) = new /\
    (get16 m1 (o + 6) = 0 <-> get16 m (o + 6) = 0) /\ (get16 m2 (o + 6) = 0 <-> get16 m (o + 6) = 0) /\
    (get16 m (o + 6) <> 0 -> checksum_ok m o l src dst ->
       checksum_ok m1 o l src dst /\ checksum_ok m2 o l src dst).
Proof.
  intros Hb Ho Hl Hc Hm Hnew.
  destruct (runs_udp_SetSourcePortWithChecksumUpdate o l c m new) as (m1 & R1 & U1); try done.
  destruct (runs_udp_SetDestinationPortWithChecksumUpdate o l c m new) as (m2 & R2 & U2); try done.
  exists m1, m2. split; [done|]. split; [done|]. unfold port_updated in *. rewrite Z.add_0_r in U1.
  destruct U1 as [[E1 ->]|(E1 & x1 & Hx1 & Hp1 & -> & C1)];
    destruct U2 as [[E2 ->]|(E2 & x2 & Hx2 & Hp2 & -> & C2)]; try done.
  - split_and!; rd; try done.
  - specialize (C1 l ltac:(lia) ltac:(lia)). specialize (C2 l ltac:(lia) ltac:(lia)).
    split_and!; try (rd; done); try (rd; lia).
    intros _ Hok. unfold checksum_ok in *. rewrite C1, C2. done.
Qed.

Definition sample_udp : list Z := [0; 53; 48; 57; 0; 12; 206; 141; 1; 2; 3; 4].
Lemma UDP_port_update_valid_witness :
  exists m1 m2,
    runs (SetSourcePortWithChecksumUpdate (Slice 0 12 12) 8080) sample_udp tt m1 /\
    runs (SetDestinationPortWithChecksumUpdate (Slice 0 12 12) 8080) sample_udp tt m2 /\
    get16 m1 0 = 8080 /\ get16 m2 (0 + 2) = 8080 /\
    (get16 m1 (0 + 6) = 0 <-> get16 sample_udp (0 + 6) = 0) /\ (get16 m2 (0 + 6) = 0 <-> get16 sample_udp (0 + 6) = 0) /\
    (get16 sample_udp (0 + 6) <> 0 -> checksum_ok sample_udp 0 12 [10; 0; 0; 1] [10; 0; 0; 2] ->
       checksum_ok m1 0 12 [10; 0; 0; 1] [10; 0; 0; 2] /\ checksum_ok m2 0 12 [10; 0; 0; 1] [10; 0; 0; 2]).
Proof.
  apply (UDP_port_update_valid 0 12 12 sample_udp 8080 [10; 0; 0; 1] [10; 0; 0; 2]);
    try (unfold Zlen; simpl; lia). unfold bytes. repeat constructor; lia.
Defined.

End UDP.
