(* ===== verification/ICMP.v ===== *)
(** * internal/gtcpip/header/icmpv4.go and icmpv6.go *)
From S2P Require Import Prelude Bytes GoMem Checksum TsChecksum Tcpip HdrChecksum.

Module ICMPv4.

Definition ICMPv4MinimumSize : Z := 8.
Definition ICMPv4MinimumErrorPayloadSize : Z := 8.
Definition ICMPv4ProtocolNumber : Z := 1.
Definition ICMPv4EchoReply : Z := 0.
Definition ICMPv4DstUnreachable : Z := 3.
Definition ICMPv4Echo : Z := 8.
Definition ICMPv4HostUnreachable : Z := 1.

Definition Type_ (b : slice) : M Z := idx b 0.
Definition SetType (b : slice) (t : Z) : M unit := set_idx b 0 t.
Definition Code (b : slice) : M Z := idx b 1.
Definition SetCode (b : slice) (c : Z) : M unit := set_idx b 1 c.
Definition Pointer (b : slice) : M Z := idx b 4.
Definition SetPointer (b : slice) (c : Z) : M unit := set_idx b 4 c.
Definition Checksum_ (b : slice) : M Z := s <- tail b 2 ;; Uint16 s.
Definition SetChecksum (b : slice) (cs : Z) : M unit := s <- tail b 2 ;; Put s cs.
Definition Payload (b : slice) : M slice := tail b 8.
Definition MTU (b : slice) : M Z := s <- tail b 6 ;; Uint16 s.
Definition SetMTU (b : slice) (v : Z) : M unit := s <- tail b 6 ;; PutUint16 s v.
Definition Ident (b : slice) : M Z := s <- tail b 4 ;; Uint16 s.
Definition SetIdent (b : slice) (v : Z) : M unit := s <- tail b 4 ;; PutUint16 s v.
Definition SetIdentWithChecksumUpdate (b : slice) (new : Z) : M unit :=
  old <- Ident b ;;
  SetIdent b new ;;;
  x <- Checksum_ b ;;
  SetChecksum b (not16 (checksumUpdate2ByteAlignedUint16 (not16 x) old new)).
Definition Sequence (b : slice) : M Z := s <- tail b 6 ;; Uint16 s.
Definition SetSequence (b : slice) (v : Z) : M unit := s <- tail b 6 ;; PutUint16 s v.

Definition ICMPv4Checksum `{ChecksumImpl} (h : slice) (payloadCsum : Z) : M Z :=
  s1 <- reslice h 0 2 ;; c1 <- contents s1 ;;
  let xsum := Checksum c1 payloadCsum in
  s2 <- tail h 4 ;; c2 <- contents s2 ;;
  ret (not16 (Checksum c2 xsum)).

End ICMPv4.

Module ICMPv6.

Definition ICMPv6MinimumSize : Z := 8.
Definition ICMPv6ErrorHeaderSize : Z := 8.
Definition ICMPv6DstUnreachableMinimumSize : Z := ICMPv6MinimumSize.
Definition ICMPv6ProtocolNumber : Z := 58.
Definition ICMPv6DstUnreachable : Z := 1.
Definition ICMPv6EchoRequest : Z := 128.
Definition ICMPv6EchoReply : Z := 129.
Definition ICMPv6AddressUnreachable : Z := 3.

Definition IsErrorType (typ : Z) : bool := Z.land typ 128 =? 0.
Definition Type_ (b : slice) : M Z := idx b 0.
Definition SetType (b : slice) (t : Z) : M unit := set_idx b 0 t.
Definition Code (b : slice) : M Z := idx b 1.
Definition SetCode (b : slice) (c : Z) : M unit := set_idx b 1 c.
Definition TypeSpecific (b : slice) : M Z := s <- tail b 4 ;; Uint32 s.
Definition SetTypeSpecific (b : slice) (v : Z) : M unit := s <- tail b 4 ;; PutUint32 s v.
Definition Checksum_ (b : slice) : M Z := s <- tail b 2 ;; Uint16 s.
Definition SetChecksum (b : slice) (cs : Z) : M unit := s <- tail b 2 ;; Put s cs.
Definition MTU (b : slice) : M Z := s <- tail b 4 ;; Uint32 s.
Definition SetMTU (b : slice) (v : Z) : M unit := s <- tail b 4 ;; PutUint32 s v.
Definition Ident (b : slice) : M Z := s <- tail b 4 ;; Uint16 s.
Definition SetIdent (b : slice) (v : Z) : M unit := s <- tail b 4 ;; PutUint16 s v.
Definition SetIdentWithChecksumUpdate (b : slice) (new : Z) : M unit :=
  old <- Ident b ;;
  SetIdent b new ;;;
  x <- Checksum_ b ;;
  SetChecksum b (not16 (checksumUpdate2ByteAlignedUint16 (not16 x) old new)).
Definition Sequence (b : slice) : M Z := s <- tail b 6 ;; Uint16 s.
Definition SetSequence (b : slice) (v : Z) : M unit := s <- tail b 6 ;; PutUint16 s v.
Definition MessageBody (b : slice) : M slice := tail b 4.
Definition Payload (b : slice) : M slice := tail b 8.

Definition ICMPv6Checksum `{ChecksumImpl} (h : slice) (src dst : list Z) (payloadCsum payloadLen : Z) : M Z :=
  let xsum := PseudoHeaderChecksum ICMPv6ProtocolNumber src dst (u16 (sl_len h + payloadLen)) in
  let xsum := Combine xsum payloadCsum in
  s1 <- reslice h 0 2 ;; c1 <- contents s1 ;;
  let xsum := Checksum c1 xsum in
  s2 <- tail h 4 ;; c2 <- contents s2 ;;
  ret (not16 (Checksum c2 xsum)).

Definition UpdateChecksumPseudoHeaderAddress (b : slice) (old new : tcpip.Address) : M unit :=
  x <- Checksum_ b ;;
  x' <- lift (checksumUpdate2ByteAlignedAddress (not16 x) old new) ;;
  SetChecksum b (not16 x').

End ICMPv6.

(** ** Checksums of ICMP messages *)

(** The message of [n] bytes at [o] sums to zero on top of [s]. *)
Definition icmp_ok (m : list Z) (o n s : Z) : Prop := s + wsum (window m o n) ≡₁ 0.

Section ICMPChecksum.
Context `{ChecksumImpl}.

Lemma skip_checksum m o n x s :
  bytes m -> 0 <= o -> 4 <= n -> o + n <= Zlen m -> is_u16 x -> x ≡₁ s ->
  let y := Checksum (window m (o + 4) (n - 4)) (Checksum (window m o 2) x) in
  is_u16 y /\ y ≡₁ s + wsum (window m o n) - get16 m (o + 2).
Proof.
  intros Hb Ho Hn Hm Hx Hc y. assert (is_u16 (Checksum (window m o 2) x)) by auto with gobytes.
  split; [apply Checksum_range; auto with gobytes|]. subst y.
  rewrite !Checksum_cong, Hc by auto with gobytes.
  rewrite (wsum_window_split3 m o n (o + 2) 2); [|lia|lia|lia|lia|lia|exists 1; lia|by exists 1].
  rewrite (wsum_get16 (window m (o + 2) 2)) by (apply Zlen_window; lia).
  rewrite get16_window, Z.add_0_r by lia. replace (o + 2 - o) with 2 by lia.
  replace (o + 2 + 2) with (o + 4) by lia. replace (o + n - (o + 4)) with (n - 4) by lia.
  apply cong_refl_eq. lia.
Qed.
Lemma store_icmp m o n y s :
  bytes m -> 0 <= o -> 4 <= n -> o + n <= Zlen m -> is_u16 y ->
  y ≡₁ s + wsum (window m o n) - get16 m (o + 2) ->
  icmp_ok (put16 m (o + 2) (not16 y)) o n s.
Proof.
  intros Hb Ho Hn Hm Hy Hc. unfold icmp_ok.
  rewrite wsum_window_put16; auto with gobytes; try lia; [|exists 1; lia].
  rewrite not16_cong, Hc by done. apply cong_refl_eq. lia.
Qed.

Lemma runs_ICMPv4Checksum o l c m p :
  bytes m -> 0 <= o -> 4 <= l -> l <= c -> o + c <= Zlen m -> is_u16 p ->
  exists y, is_u16 y /\ runs (ICMPv4.ICMPv4Checksum (Slice o l c) p) m (not16 y) m /\
    y ≡₁ p + wsum (window m o l) - get16 m (o + 2).
Proof.
  intros Hb Ho Hl Hc Hm Hp.
  destruct (skip_checksum m o l p p Hb Ho Hl ltac:(lia) Hp ltac:(done)) as [Hy Hcong].
  eexists. split; [exact Hy|]. split; [|exact Hcong].
  unfold ICMPv4.ICMPv4Checksum. eapply runs_eq; [go_run| |done]. by rewrite Z.add_0_r.
Qed.
Lemma runs_ICMPv6Checksum o l c m src dst p n :
  bytes m -> 0 <= o -> 4 <= l -> l <= c -> o + c <= Zlen m -> is_u16 p -> bytes src -> bytes dst ->
  0 <= n -> l + n <= 65535 ->
  exists y, is_u16 y /\ runs (ICMPv6.ICMPv6Checksum (Slice o l c) src dst p n) m (not16 y) m /\
    y ≡₁ wsum src + wsum dst + (l + n) + 58 + p + wsum (window m o l) - get16 m (o + 2).
Proof.
  intros Hb Ho Hl Hc Hm Hp Hs Hd Hn Hln.
  pose proof (PseudoHeaderChecksum_OC ICMPv6.ICMPv6ProtocolNumber src dst (l + n) Hs Hd
    ltac:(unfold ICMPv6.ICMPv6ProtocolNumber; lia) ltac:(lia)) as HP.
  pose proof (OC_range _ _ HP) as HPr.
  set (x := Combine (PseudoHeaderChecksum ICMPv6.ICMPv6ProtocolNumber src dst (l + n)) p).
  assert (is_u16 x) as Hx by (by apply Combine_range).
  assert (x ≡₁ wsum src + wsum dst + (l + n) + 58 + p) as Hxc.
  { subst x. rewrite Combine_cong by done. rewrite (OC_cong_eq _ _ HP). done. }
  destruct (skip_checksum m o l x _ Hb Ho Hl ltac:(lia) Hx Hxc) as [Hy Hcong].
  eexists. split; [exact Hy|]. split; [|exact Hcong].
  unfold ICMPv6.ICMPv6Checksum. cbn [sl_len]. rewrite u16_small by lia. fold x.
  eapply runs_eq; [go_run| |done]. by rewrite Z.add_0_r.
Qed.

Lemma runs_SetChecksum4 o l c v m :
  4 <= l -> l <= c -> runs (ICMPv4.SetChecksum (Slice o l c) v) m tt (put16 m (o + 2) v).
Proof. intros. unfold ICMPv4.SetChecksum, Put. go_run. Qed.
Lemma runs_SetChecksum6 o l c v m :
  4 <= l -> l <= c -> runs (ICMPv6.SetChecksum (Slice o l c) v) m tt (put16 m (o + 2) v).
Proof. intros. unfold ICMPv6.SetChecksum, Put. go_run. Qed.

(** storing ICMPv4Checksum(h, payloadCsum) (or ICMPv6Checksum, with the
    pseudo header) in the checksum field makes the message verify: header,
    payload and pseudo header sum to zero in one's complement, whatever the
    field held before. *)
Lemma ICMP_checksum_valid o l c m src dst p n :
  bytes m -> 0 <= o -> 4 <= l -> l <= c -> o + c <= Zlen m -> is_u16 p ->
  bytes src -> bytes dst -> 0 <= n -> l + n <= 65535 ->
  (exists x m', runs (ICMPv4.ICMPv4Checksum (Slice o l c) p) m x m /\
     runs (ICMPv4.SetChecksum (Slice o l c) x) m tt m' /\ icmp_ok m' o l p) /\
  (exists x m', runs (ICMPv6.ICMPv6Checksum (Slice o l c) src dst p n) m x m /\
     runs (ICMPv6.SetChecksum (Slice o l c) x) m tt m' /\
     icmp_ok m' o l (wsum src + wsum dst + (l + n) + 58 + p)).
Proof.
  intros Hb Ho Hl Hc Hm Hp Hs Hd Hn Hln. split.
  - destruct (runs_ICMPv4Checksum o l c m p) as (y & Hy & Hr & Hcong); try done.
    do 2 eexists. split; [done|]. split; [apply runs_SetChecksum4; lia|].
    apply store_icmp; auto; lia.
  - destruct (runs_ICMPv6Checksum o l c m src dst p n) as (y & Hy & Hr & Hcong); try done.
    do 2 eexists. split; [done|]. split; [apply runs_SetChecksum6; lia|].
    apply store_icmp; auto; lia.
Qed.
End ICMPChecksum.

(** ** Witness *)

Definition sample_echo : list Z := [8; 0; 255; 255; 0; 1; 0; 1; 97; 98; 99].
Lemma ICMP_checksum_valid_witness :
  exists x m', runs (ICMPv4.ICMPv4Checksum (H := tschecksum.ts_impl false 64) (Slice 0 11 11) 0) sample_echo x sample_echo /\
     runs (ICMPv4.SetChecksum (Slice 0 11 11) x) sample_echo tt m' /\ icmp_ok m' 0 11 0.
Proof.
  apply (ICMP_checksum_valid (H := tschecksum.ts_impl false 64) 0 11 11 sample_echo [] [] 0 0); concrete.
Defined.
