(* ===== verification/Ndp.v ===== *)
(** * internal/gtcpip/header/ndp_*.go: Neighbor Discovery messages

    The four messages are views of the body of an ICMPv6 packet; the options
    behind them are parsed by an iterator over a byte buffer and written by a
    serializer.  An option is the Go value behind the interface NDPOption: its
    dynamic type with the bytes of its body.  Bodies are only read, so they are
    byte lists whose capacity is their length; an index out of range is
    [Panic]. *)
From S2P Require Import Prelude Bytes GoMem Tcpip IPv4Options IPv4 IPv6.

Module NDP.

Definition ndpSourceLinkLayerAddressOptionType : Z := 1.
Definition ndpTargetLinkLayerAddressOptionType : Z := 2.
Definition ndpPrefixInformationType : Z := 3.
Definition ndpNonceOptionType : Z := 14.
Definition ndpRouteInformationType : Z := 24.
Definition ndpRecursiveDNSServerOptionType : Z := 25.
Definition ndpDNSSearchListOptionType : Z := 31.
Definition ndpPrefixInformationLength : Z := 30.
Definition ndpRouteInformationMaxLength : Z := 22.
Definition minNDPRecursiveDNSServerBodySize : Z := 22.
Definition minNDPDNSSearchListBodySize : Z := 14.
Definition maxDomainNameLabelLength : Z := 63.
Definition maxDomainNameLength : Z := 255.
Definition lengthByteUnits : Z := 8.
(** time.Duration counts nanoseconds. *)
Definition time_Second : Z := 1000000000.
Definition time_Millisecond : Z := 1000000.
Definition NDPInfiniteLifetime : Z := time_Second * 4294967295.

(** ** Options *)

Inductive NDPOption :=
| NDPSourceLinkLayerAddressOption (b : list Z)
| NDPTargetLinkLayerAddressOption (b : list Z)
| NDPNonceOption (b : list Z)
| NDPRouteInformation (b : list Z)
| NDPPrefixInformation (b : list Z)
| NDPRecursiveDNSServer (b : list Z)
| NDPDNSSearchList (b : list Z).

Definition body (o : NDPOption) : list Z :=
  match o with
  | NDPSourceLinkLayerAddressOption b | NDPTargetLinkLayerAddressOption b | NDPNonceOption b
  | NDPRouteInformation b | NDPPrefixInformation b | NDPRecursiveDNSServer b | NDPDNSSearchList b => b
  end.
Definition kind (o : NDPOption) : Z :=
  match o with
  | NDPSourceLinkLayerAddressOption _ => ndpSourceLinkLayerAddressOptionType
  | NDPTargetLinkLayerAddressOption _ => ndpTargetLinkLayerAddressOptionType
  | NDPNonceOption _ => ndpNonceOptionType
  | NDPRouteInformation _ => ndpRouteInformationType
  | NDPPrefixInformation _ => ndpPrefixInformationType
  | NDPRecursiveDNSServer _ => ndpRecursiveDNSServerOptionType
  | NDPDNSSearchList _ => ndpDNSSearchListOptionType
  end.
(** [length]: a constant for the prefix information. *)
Definition length_ (o : NDPOption) : Z :=
  match o with NDPPrefixInformation _ => ndpPrefixInformationLength | _ => Zlen (body o) end.

(** The sentinel errors that the returned errors wrap. *)
Inductive ndp_error := ErrUnexpectedEOF | ErrNDPOptMalformedBody | ErrNDPOptMalformedHeader.

(** Reading a byte list the way Go reads a slice. *)
Definition at_ (b : list Z) (i : Z) : res Z := if (0 <=? i) && (i <? Zlen b) then Ok (byte_at b i) else Panic.
Definition from_ (b : list Z) (lo : Z) : res (list Z) := if lo <=? Zlen b then Ok (drop (Z.to_nat lo) b) else Panic.
Definition upto_ (b : list Z) (hi : Z) : res (list Z) := if hi <=? Zlen b then Ok (take (Z.to_nat hi) b) else Panic.
Definition uint32_ (b : list Z) (lo : Z) : res Z :=
  rbind (from_ b lo) (fun s => if 4 <=? Zlen s then Ok (get32 s 0) else Panic).

(** *** Link layer addresses *)

Definition EthernetAddressSize : Z := 6.
Definition EthernetAddress (o : list Z) : list Z :=
  if EthernetAddressSize <=? Zlen o then take (Z.to_nat EthernetAddressSize) o else [].

(** *** Prefix information *)

Definition PrefixLength (o : list Z) : res Z := at_ o 0.
Definition OnLinkFlag (o : list Z) : res bool := rbind (at_ o 1) (fun x => Ok (negb (Z.land x 128 =? 0))).
Definition AutonomousAddressConfigurationFlag (o : list Z) : res bool :=
  rbind (at_ o 1) (fun x => Ok (negb (Z.land x 64 =? 0))).
Definition ValidLifetime (o : list Z) : res Z := rbind (uint32_ o 2) (fun x => Ok (time_Second * x)).
Definition PreferredLifetime (o : list Z) : res Z := rbind (uint32_ o 6) (fun x => Ok (time_Second * x)).
Definition Prefix (o : list Z) : res tcpip.Address :=
  rbind (from_ o 14) (fun s => rbind (upto_ s 16) tcpip.AddrFrom16Slice).
Definition Subnet (o : list Z) : res tcpip.Subnet :=
  rbind (Prefix o) (fun a => rbind (PrefixLength o) (fun n => tcpip.AWP_Subnet (tcpip.mkAWP a n))).

(** *** Recursive DNS servers *)

Definition Lifetime (o : list Z) : res Z := rbind (uint32_ o 2) (fun x => Ok (time_Second * x)).

(** The addresses given to [fn], in order, and the error. *)
Fixpoint addresses_loop (fuel : nat) (o : list Z) (acc : list tcpip.Address) : res (list tcpip.Address * option ndp_error) :=
  match fuel with
  | O => Panic
  | S fuel' =>
      if Zlen o =? 0 then Ok (acc, None)
      else
        rbind (upto_ o 16) (fun s => rbind (tcpip.AddrFrom16Slice s) (fun addr => rbind (IPv6.IsV6UnicastAddress addr) (fun u =>
          if negb u then Ok (acc, Some ErrNDPOptMalformedBody)
          else rbind (from_ o 16) (fun o' => addresses_loop fuel' o' (acc ++ [addr])))))
  end.
Definition iterAddresses (o : list Z) : res (list tcpip.Address * option ndp_error) :=
  if Zlen o <? minNDPRecursiveDNSServerBodySize then Ok ([], Some ErrUnexpectedEOF)
  else rbind (from_ o 6) (fun o =>
    if negb (Zlen o mod 16 =? 0) then Ok ([], Some ErrNDPOptMalformedBody)
    else addresses_loop (S (length o)) o []).
Definition Addresses : list Z -> res (list tcpip.Address * option ndp_error) := iterAddresses.
Definition checkAddresses (o : list Z) : res (option ndp_error) := rbind (iterAddresses o) (fun r => Ok r.2).

(** *** The DNS search list *)

Definition isUpperLetter (b : Z) : bool := (65 <=? b) && (b <=? 90).
Definition isLetter (b : Z) : bool := ((97 <=? b) && (b <=? 122)) || isUpperLetter b.
Definition isDigit (b : Z) : bool := (48 <=? b) && (b <=? 57).

(** The tests of one character of a label, and the byte that is stored. *)
Definition label_byte (i labelLen b : Z) : ndp_error + Z :=
  let lower := if isUpperLetter b then b - 65 + 97 else b in
  if isLetter b then inr lower
  else if i =? 0 then inl ErrNDPOptMalformedBody
  else if b =? 45 then (if i =? labelLen - 1 then inl ErrNDPOptMalformedBody else inr lower)
  else if negb (isDigit b) then inl ErrNDPOptMalformedBody
  else inr lower.
(** [for i := 0; i < labelLen; i++], [k] turns left. *)
Fixpoint label_loop (k : nat) (i labelLen : Z) (searchList domainName : list Z) : ndp_error + (list Z * list Z) :=
  match k with
  | O => inr (searchList, domainName)
  | S k' =>
      match searchList with
      | [] => inl ErrUnexpectedEOF
      | b :: searchList' =>
          match label_byte i labelLen b with
          | inl e => inl e
          | inr b' => label_loop k' (i + 1) labelLen searchList' (domainName ++ [b'])
          end
      end
  end.
(** The inner loop: labels up to the empty one; the name with its trailing
    period. *)
Fixpoint name_loop (fuel : nat) (searchList domainName : list Z) : res (ndp_error + (list Z * list Z)) :=
  match fuel with
  | O => Panic
  | S fuel' =>
      match searchList with
      | [] => Ok (inl ErrUnexpectedEOF)
      | labelLen :: searchList' =>
          if labelLen =? 0 then Ok (inr (searchList', domainName))
          else if maxDomainNameLabelLength <? labelLen then Ok (inl ErrNDPOptMalformedBody)
          else if maxDomainNameLength - Zlen domainName <? labelLen + 1 then Ok (inl ErrNDPOptMalformedBody)
          else match label_loop (Z.to_nat labelLen) 0 labelLen searchList' domainName with
               | inl e => Ok (inl e)
               | inr (searchList'', domainName') => name_loop fuel' searchList'' (domainName' ++ [46])
               end
      end
  end.
(** The outer loop; [fn] says whether there is a callback. *)
Fixpoint names_loop (fuel : nat) (fn : bool) (searchList : list Z) (acc : list (list Z)) : res (list (list Z) * option ndp_error) :=
  match fuel with
  | O => Panic
  | S fuel' =>
      if Zlen searchList =? 0 then Ok (acc, None)
      else rbind (name_loop (S (length searchList)) searchList []) (fun r =>
        match r with
        | inl e => Ok (acc, Some e)
        | inr (searchList', domainName) =>
            names_loop fuel' fn searchList'
              (if (Zlen domainName =? 0) || negb fn then acc else acc ++ [take (Z.to_nat (Zlen domainName - 1)) domainName])
        end)
  end.
Definition iterDomainNames (fn : bool) (o : list Z) : res (list (list Z) * option ndp_error) :=
  if Zlen o <? minNDPDNSSearchListBodySize then Ok ([], Some ErrUnexpectedEOF)
  else rbind (from_ o 6) (fun o => names_loop (S (length o)) fn o []).
Definition DomainNames : list Z -> res (list (list Z) * option ndp_error) := iterDomainNames true.
Definition checkDomainNames (o : list Z) : res (option ndp_error) := rbind (iterDomainNames false o) (fun r => Ok r.2).

(** *** Route information *)

Definition RoutePreference (o : list Z) : res Z := rbind (at_ o 1) (fun x => Ok (Z.shiftr (Z.land x 24) 3)).
Definition RouteLifetime (o : list Z) : res Z := rbind (uint32_ o 2) (fun x => Ok (time_Second * x)).
(** [None] is the error for a prefix length over 128. *)
Definition RoutePrefix (o : list Z) : res (option tcpip.Subnet) :=
  rbind (PrefixLength o) (fun prefixLength =>
  if 128 <? prefixLength then Ok None
  else rbind (from_ o 6) (fun prefix =>
    if negb (Z.min 16 (Zlen prefix) =? Zlen prefix) then Panic
    else rbind (tcpip.AWP_Subnet (tcpip.mkAWP (tcpip.AddrFrom16 (write_at (repeat 0 16) 0 prefix)) prefixLength)) (fun s =>
      Ok (Some s)))).
Definition hasError (o : list Z) : res (option ndp_error) :=
  if Zlen o <? 6 then Ok (Some ErrNDPOptMalformedBody)
  else rbind (PrefixLength o) (fun prefixLength =>
    if 128 <? prefixLength then Ok (Some ErrNDPOptMalformedBody)
    else
      let lengthField := (Zlen o + 2) / lengthByteUnits in
      Ok (if 64 <? prefixLength then (if negb (lengthField =? 3) then Some ErrNDPOptMalformedBody else None)
          else if 0 <? prefixLength then
            (if negb (lengthField =? 2) && negb (lengthField =? 3) then Some ErrNDPOptMalformedBody else None)
          else if (lengthField =? 0) || (3 <? lengthField) then Some ErrNDPOptMalformedBody else None)).

(** ** The iterator *)

(** The option of a body, an error, or nothing for a type that is skipped. *)
Definition checked (r : res (option ndp_error)) (o : NDPOption) : res (option (NDPOption + ndp_error)) :=
  rbind r (fun e => Ok (Some (match e with Some e => inr e | None => inl o end))).
Definition option_of (kind : Z) (body : list Z) : res (option (NDPOption + ndp_error)) :=
  if kind =? ndpSourceLinkLayerAddressOptionType then Ok (Some (inl (NDPSourceLinkLayerAddressOption body)))
  else if kind =? ndpTargetLinkLayerAddressOptionType then Ok (Some (inl (NDPTargetLinkLayerAddressOption body)))
  else if kind =? ndpNonceOptionType then Ok (Some (inl (NDPNonceOption body)))
  else if kind =? ndpRouteInformationType then
    if ndpRouteInformationMaxLength <? Zlen body then Ok (Some (inr ErrNDPOptMalformedBody))
    else checked (hasError body) (NDPRouteInformation body)
  else if kind =? ndpPrefixInformationType then
    if negb (Zlen body =? ndpPrefixInformationLength) then Ok (Some (inr ErrNDPOptMalformedBody))
    else Ok (Some (inl (NDPPrefixInformation body)))
  else if kind =? ndpRecursiveDNSServerOptionType then checked (checkAddresses body) (NDPRecursiveDNSServer body)
  else if kind =? ndpDNSSearchListOptionType then checked (checkDomainNames body) (NDPDNSSearchList body)
  else Ok None.

(** The results of [Next] (option, done, error), and the bytes left. *)
Definition next_result : Type := option NDPOption * bool * option ndp_error * list Z.
Definition failed (e : ndp_error) (rest : list Z) : next_result := (None, true, Some e, rest).

Fixpoint next_loop (fuel : nat) (opts : list Z) : res next_result :=
  match fuel with
  | O => Panic
  | S fuel' =>
      match opts with
      | [] => Ok (None, true, None, [])
      | [_] => Ok (failed ErrUnexpectedEOF [])
      | kind :: length :: rest =>
          if length =? 0 then Ok (failed ErrNDPOptMalformedHeader rest)
          else
            let numBodyBytes := length * lengthByteUnits - 2 in
            let body := take (Z.to_nat numBodyBytes) rest in
            let rest := drop (Z.to_nat numBodyBytes) rest in
            if Zlen body <? numBodyBytes then Ok (failed ErrUnexpectedEOF rest)
            else rbind (option_of kind body) (fun o =>
              match o with
              | Some (inl o) => Ok (Some o, false, None, rest)
              | Some (inr e) => Ok (failed e rest)
              | None => next_loop fuel' rest
              end)
      end
  end.
Definition Next (opts : list Z) : res next_result := next_loop (S (length opts)) opts.

(** [Iter(check)]: the error of the integrity check. *)
Fixpoint check_loop (fuel : nat) (opts : list Z) : res (option ndp_error) :=
  match fuel with
  | O => Panic
  | S fuel' =>
      rbind (Next opts) (fun '(_, done, err, rest) =>
        match err with
        | Some e => Ok (Some e)
        | None => if (done : bool) then Ok None else check_loop fuel' rest
        end)
  end.
Definition Iter (b : list Z) (check : bool) : res (option ndp_error) :=
  if check then check_loop (S (length b)) b else Ok None.

(** ** The serializer *)

Definition paddedLength (o : NDPOption) : Z :=
  let l := length_ o in
  if l =? 0 then 0
  else let l := Z.land (l + 2 + 7) (Z.lnot 7) in
       if 255 <? l / lengthByteUnits then 0 else l.
Definition Length (b : list NDPOption) : Z := fold_left (fun l o => l + paddedLength o) b 0.

Definition serializeInto `{SingCommon} (o : NDPOption) (b : slice) : M Z :=
  used <- copy_to b (body o) ;;
  match o with
  | NDPPrefixInformation _ =>
      x <- idx b 1 ;; set_idx b 1 (Z.land x (not8 63)) ;;;
      r <- tail b 10 ;; r <- reslice r 0 4 ;; ClearArray r ;;;
      ret used
  | NDPRecursiveDNSServer _ | NDPDNSSearchList _ =>
      r <- reslice b 0 2 ;; ClearArray r ;;; ret used
  | _ => ret used
  end.

Fixpoint Serialize `{SingCommon} (s : list NDPOption) (b : slice) (done : Z) : M Z :=
  match s with
  | [] => ret done
  | o :: s' =>
      let l := paddedLength o in
      if l =? 0 then Serialize s' b done
      else
        set_idx b 0 (kind o) ;;;
        set_idx b 1 (u8 (l / lengthByteUnits)) ;;;
        b2 <- tail b 2 ;;
        used <- serializeInto o b2 ;;
        when (used + 2 <? l) (r <- reslice b (used + 2) l ;; ClearArray r) ;;;
        b' <- tail b l ;;
        Serialize s' b' (done + l)
  end.
End NDP.

(** ** Messages *)

Module NDPNeighborAdvert.
Definition TargetAddress (b : slice) : M tcpip.Address :=
  s <- tail b 4 ;; s <- reslice s 0 16 ;; d <- contents s ;; lift (tcpip.AddrFrom16Slice d).
Definition SetTargetAddress (b : slice) (addr : tcpip.Address) : M unit :=
  s <- tail b 4 ;; s <- reslice s 0 16 ;; copy_to s (tcpip.AsSlice addr) ;;; ret tt.
Definition get_flag (b : slice) (mask : Z) : M bool := x <- idx b 0 ;; ret (negb (Z.land x mask =? 0)).
Definition set_flag (b : slice) (mask : Z) (f : bool) : M unit :=
  x <- idx b 0 ;; set_idx b 0 (if f then Z.lor x mask else Z.land x (not8 mask)).
Definition RouterFlag (b : slice) : M bool := get_flag b 128.
Definition SetRouterFlag (b : slice) (f : bool) : M unit := set_flag b 128 f.
Definition SolicitedFlag (b : slice) : M bool := get_flag b 64.
Definition SetSolicitedFlag (b : slice) (f : bool) : M unit := set_flag b 64 f.
Definition OverrideFlag (b : slice) : M bool := get_flag b 32.
Definition SetOverrideFlag (b : slice) (f : bool) : M unit := set_flag b 32 f.
Definition Options (b : slice) : M slice := tail b 20.
End NDPNeighborAdvert.

Module NDPNeighborSolicit.
Definition TargetAddress (b : slice) : M tcpip.Address :=
  s <- tail b 4 ;; s <- reslice s 0 16 ;; d <- contents s ;; lift (tcpip.AddrFrom16Slice d).
Definition SetTargetAddress (b : slice) (addr : tcpip.Address) : M unit :=
  s <- tail b 4 ;; s <- reslice s 0 16 ;; copy_to s (tcpip.AsSlice addr) ;;; ret tt.
Definition Options (b : slice) : M slice := tail b 20.
End NDPNeighborSolicit.

Module NDPRouterAdvert.
Definition CurrHopLimit (b : slice) : M Z := idx b 0.
Definition ManagedAddrConfFlag (b : slice) : M bool := x <- idx b 1 ;; ret (negb (Z.land x 128 =? 0)).
Definition OtherConfFlag (b : slice) : M bool := x <- idx b 1 ;; ret (negb (Z.land x 64 =? 0)).
Definition DefaultRouterPreference (b : slice) : M Z := x <- idx b 1 ;; ret (Z.shiftr (Z.land x 24) 3).
Definition RouterLifetime (b : slice) : M Z := s <- tail b 2 ;; x <- Uint16 s ;; ret (NDP.time_Second * x).
Definition ReachableTime (b : slice) : M Z := s <- tail b 4 ;; x <- Uint32 s ;; ret (NDP.time_Millisecond * x).
Definition RetransTimer (b : slice) : M Z := s <- tail b 8 ;; x <- Uint32 s ;; ret (NDP.time_Millisecond * x).
Definition Options (b : slice) : M slice := tail b 12.
End NDPRouterAdvert.

Module NDPRouterSolicit.
Definition Options (b : slice) : M slice := tail b 4.
End NDPRouterSolicit.
