(* ===== verification/NdpSpec.v ===== *)
(** * Neighbor Discovery options: totality of the iterator and the round trip *)
From S2P Require Import Prelude Bytes GoMem Tcpip IPv4Options IPv4 IPv6 Ndp.

Module NDPSpec.
Import NDP.

(** ** All options of a buffer, as a caller of Next collects them *)

Fixpoint options_loop (fuel : nat) (opts : list Z) : res (list NDPOption * option ndp_error) :=
  match fuel with
  | O => Panic
  | S fuel' =>
      rbind (Next opts) (fun '(o, _, err, rest) =>
        match o with
        | Some o => rbind (options_loop fuel' rest) (fun '(os, e) => Ok (o :: os, e))
        | None => Ok ([], err)
        end)
  end.
Definition all_options (b : list Z) : res (list NDPOption * option ndp_error) := options_loop (S (length b)) b.

(** ** Bodies *)

Lemma Zlen_0_inv (l : list Z) : Zlen l = 0 -> l = [].
Proof. destruct l; [done|]. rewrite Zlen_cons. pose proof (Zlen_nonneg l). lia. Qed.

Lemma at_Ok b i : 0 <= i < Zlen b -> at_ b i = Ok (byte_at b i).
Proof. intros. unfold at_. by destruct (Z.leb_spec 0 i), (Z.ltb_spec i (Zlen b)); try lia. Qed.
Lemma from_Ok b lo : lo <= Zlen b -> from_ b lo = Ok (drop (Z.to_nat lo) b).
Proof. intros. unfold from_. by destruct (Z.leb_spec lo (Zlen b)); try lia. Qed.
Lemma upto_Ok b hi : hi <= Zlen b -> upto_ b hi = Ok (take (Z.to_nat hi) b).
Proof. intros. unfold upto_. by destruct (Z.leb_spec hi (Zlen b)); try lia. Qed.
Lemma uint32_Ok b lo : 0 <= lo -> lo + 4 <= Zlen b -> exists x, uint32_ b lo = Ok x.
Proof.
  intros. unfold uint32_. rewrite from_Ok by lia. cbn. rewrite (proj2 (Z.leb_le 4 _)); [by eexists|]. rewrite Zlen_drop; lia.
Qed.

(** *** Addresses *)

Definition unicast (a : tcpip.Address) : Prop := IPv6.IsV6UnicastAddress a = Ok true.

Lemma IsV6UnicastAddress_total b : exists u, IPv6.IsV6UnicastAddress (tcpip.AddrFrom16 b) = Ok u.
Proof. unfold IPv6.IsV6UnicastAddress. cbn. destruct (decide _); by eexists. Qed.

Lemma addresses_loop_ok fuel o acc :
  (length o < fuel)%nat -> Zlen o mod 16 = 0 -> Forall unicast acc ->
  exists as_ e, addresses_loop fuel o acc = Ok (acc ++ as_, e) /\ Forall unicast (acc ++ as_) /\
    (e = None -> Zlen as_ = Zlen o / 16).
Proof.
  revert o acc. induction fuel as [|fuel IH]; intros o acc Hf Hm Hacc; [lia|]. cbn [addresses_loop].
  destruct (Z.eqb_spec (Zlen o) 0) as [E|E].
  { exists [], None. rewrite app_nil_r, E. done. }
  pose proof (Zlen_nonneg o). assert (16 <= Zlen o) by zdm.
  rewrite upto_Ok by lia. cbn [rbind]. unfold tcpip.AddrFrom16Slice. rewrite Zlen_take, Z2Nat.id by lia.
  rewrite (proj2 (Z.eqb_eq _ 16)) by lia. cbn [rbind].
  destruct (IsV6UnicastAddress_total (take (Z.to_nat 16) o)) as (u & Hu). rewrite Hu. cbn [rbind].
  destruct u; cbn [negb]; [|exists [], (Some ErrNDPOptMalformedBody); by rewrite app_nil_r].
  rewrite from_Ok by lia. cbn [rbind].
  destruct (IH (drop (Z.to_nat 16) o) (acc ++ [tcpip.AddrFrom16 (take (Z.to_nat 16) o)])) as (as_ & e & -> & Ha & He).
  - rewrite length_drop. unfold Zlen in *. lia.
  - rewrite Zlen_drop by lia. zdm.
  - apply Forall_app. split; [done|]. by constructor.
  - eexists (_ :: as_), e. rewrite <- app_assoc in *. split; [done|]. split; [done|]. intros E'. rewrite Zlen_cons, (He E'), Zlen_drop by lia. zdm.
Qed.

Lemma iterAddresses_total o : exists as_ e, iterAddresses o = Ok (as_, e) /\ Forall unicast as_ /\ (e = None -> as_ <> [] /\ 22 <= Zlen o).
Proof.
  unfold iterAddresses, minNDPRecursiveDNSServerBodySize. destruct (Z.ltb_spec (Zlen o) 22).
  { by exists [], (Some ErrUnexpectedEOF). }
  rewrite from_Ok by lia. cbn [rbind]. destruct (Z.eqb_spec (Zlen (drop (Z.to_nat 6) o) mod 16) 0) as [Hm|]; cbn [negb].
  - destruct (addresses_loop_ok (S (length (drop (Z.to_nat 6) o))) (drop (Z.to_nat 6) o) []) as (as_ & e & -> & Ha & He); try done; [lia|].
    exists as_, e. split; [done|]. split; [done|]. intros E. specialize (He E). split; [|done]. intros ->.
    rewrite Zlen_drop in He by lia. rewrite Zlen_drop in Hm by lia. change (Zlen (@nil tcpip.Address)) with 0 in He. zdm.
  - by exists [], (Some ErrNDPOptMalformedBody).
Qed.

(** *** Domain names *)

(** The characters a parsed name can have, periods included. *)
Definition name_char (c : Z) : Prop := 97 <= c <= 122 \/ 48 <= c <= 57 \/ c = 45 \/ c = 46.

Lemma label_byte_char i n b c : label_byte i n b = inr c -> name_char c.
Proof.
  unfold label_byte, isLetter, isUpperLetter, isDigit, name_char.
  repeat match goal with |- context [if ?x then _ else _] => destruct x eqn:? end; intros [= <-]; lia.
Qed.
Lemma label_loop_ok k i n sl dn r dn' :
  label_loop k i n sl dn = inr (r, dn') -> Forall name_char dn ->
  Forall name_char dn' /\ Zlen dn' = Zlen dn + Z.of_nat k /\ r = drop k sl.
Proof.
  revert i sl dn. induction k as [|k IH]; intros i sl dn; cbn [label_loop].
  { intros [= <- <-] Hd. split_and!; try done; lia. }
  destruct sl as [|b sl]; [done|]. destruct (label_byte i n b) as [e|b'] eqn:E; [done|]. intros H Hd.
  destruct (IH _ _ _ H) as (H1 & H2 & H3).
  { apply Forall_app. split; [done|]. constructor; [by eapply label_byte_char|done]. }
  rewrite Zlen_app in H2. change (Zlen [b']) with 1 in H2. split_and!; try done; lia.
Qed.

Lemma name_loop_ok fuel sl dn :
  (length sl < fuel)%nat -> bytes sl -> Forall name_char dn -> Zlen dn <= 255 ->
  exists r, name_loop fuel sl dn = Ok r /\
    match r with
    | inl _ => True
    | inr (sl', dn') => bytes sl' /\ (length sl' < length sl)%nat /\ Forall name_char dn' /\ Zlen dn' <= 255
    end.
Proof.
  revert sl dn. induction fuel as [|fuel IH]; intros sl dn Hf Hb Hd Hl; [lia|]. cbn [name_loop].
  destruct sl as [|labelLen sl]; [by eexists|]. apply Forall_cons in Hb as [Hb0 Hb]. destruct (Z.eqb_spec labelLen 0).
  { eexists. split; [reflexivity|]. cbn. split_and!; try done; lia. }
  unfold maxDomainNameLabelLength, maxDomainNameLength.
  destruct (63 <? labelLen); [by eexists|]. destruct (Z.ltb_spec (255 - Zlen dn) (labelLen + 1)); [by eexists|].
  destruct (label_loop (Z.to_nat labelLen) 0 labelLen sl dn) as [e|[sl' dn']] eqn:E; [by eexists|].
  destruct (label_loop_ok _ _ _ _ _ _ _ E Hd) as (H1 & H2 & ->). cbn [length] in *.
  pose proof (length_drop sl (Z.to_nat labelLen)) as HL.
  destruct (IH (drop (Z.to_nat labelLen) sl) (dn' ++ [46])) as (r & -> & Hr).
  - lia.
  - by apply Forall_drop.
  - apply Forall_app. split; [done|]. constructor; [unfold name_char; lia|done].
  - rewrite Zlen_app. change (Zlen [46]) with 1. lia.
  - exists r. split; [done|]. destruct r as [|[sl'' dn'']]; [done|]. destruct Hr as (? & ? & ? & ?). split_and!; try done; lia.
Qed.

(** A name of the search list: not empty, at most 254 characters. *)
Definition domain_name (d : list Z) : Prop := Forall name_char d /\ Zlen d <= 254.

Lemma names_loop_ok fuel fn sl acc :
  (length sl < fuel)%nat -> bytes sl -> Forall domain_name acc ->
  exists ns e, names_loop fuel fn sl acc = Ok (ns, e) /\ Forall domain_name ns.
Proof.
  revert sl acc. induction fuel as [|fuel IH]; intros sl acc Hf Hb Ha; [lia|]. cbn [names_loop].
  destruct (Z.eqb_spec (Zlen sl) 0); [by exists acc, None|].
  destruct (name_loop_ok (S (length sl)) sl []) as (r & -> & Hr); [lia|done|by constructor|done|]. cbn [rbind].
  destruct r as [e|[sl' dn]]; [by exists acc, (Some e)|]. destruct Hr as (H0 & H1 & H2 & H3). apply IH; [lia|done|].
  destruct (Z.eqb_spec (Zlen dn) 0); [done|]. destruct fn; [|done]. apply Forall_app. split; [done|]. constructor; [|done].
  pose proof (Zlen_nonneg dn). split; [by apply Forall_take|]. rewrite Zlen_take, Z2Nat.id by lia. lia.
Qed.

(** With and without a callback the loop takes the same path. *)
Lemma names_loop_fn fuel sl acc acc' ns e :
  names_loop fuel false sl acc = Ok (ns, e) -> exists ns', names_loop fuel true sl acc' = Ok (ns', e).
Proof.
  revert sl acc acc'. induction fuel as [|fuel IH]; intros sl acc acc'; [done|]. cbn [names_loop].
  destruct (_ =? 0); [intros [= _ <-]; by eexists|]. destruct (name_loop _ sl []) as [[e'|[sl' dn]]|]; cbn [rbind]; [|apply IH|done].
  intros [= _ <-]. by eexists.
Qed.

Lemma iterDomainNames_total fn o : bytes o -> exists ns e, iterDomainNames fn o = Ok (ns, e) /\ Forall domain_name ns /\ (e = None -> 14 <= Zlen o).
Proof.
  intros Hb. unfold iterDomainNames, minNDPDNSSearchListBodySize. destruct (Z.ltb_spec (Zlen o) 14).
  { by exists [], (Some ErrUnexpectedEOF). }
  rewrite from_Ok by lia. cbn [rbind].
  destruct (names_loop_ok (S (length (drop (Z.to_nat 6) o))) fn (drop (Z.to_nat 6) o) []) as (ns & e & -> & Hn); [lia|by apply Forall_drop|done|].
  by exists ns, e.
Qed.
Lemma checkDomainNames_DomainNames o : bytes o -> checkDomainNames o = Ok None -> exists ns, DomainNames o = Ok (ns, None) /\ Forall domain_name ns.
Proof.
  intros Hb H. destruct (iterDomainNames_total true o Hb) as (ns & e & E & Hn & _). exists ns. split; [|done].
  unfold DomainNames. rewrite E. unfold checkDomainNames, iterDomainNames in *. destruct (Zlen o <? _); [done|].
  destruct (from_ o 6) as [o'|]; [|done]. cbn [rbind] in *. destruct (names_loop _ false o' []) as [[ns' e']|] eqn:E'; [|done].
  cbn in H. injection H as ->. destruct (names_loop_fn _ _ _ [] _ _ E') as (ns'' & E''). rewrite E'' in E. congruence.
Qed.

(** ** The iterator *)

(** What the accessors of an option the iterator returned give: no panic, and
    addresses and names that are valid. *)
Definition usable (o : NDPOption) : Prop :=
  match o with
  | NDPPrefixInformation b =>
      exists n on auto v p a s, PrefixLength b = Ok n /\ OnLinkFlag b = Ok on /\ AutonomousAddressConfigurationFlag b = Ok auto /\
        ValidLifetime b = Ok v /\ PreferredLifetime b = Ok p /\ Prefix b = Ok a /\ Subnet b = Ok s
  | NDPRouteInformation b =>
      exists n pref v s, PrefixLength b = Ok n /\ n <= 128 /\ RoutePreference b = Ok pref /\ RouteLifetime b = Ok v /\
        RoutePrefix b = Ok (Some s)
  | NDPRecursiveDNSServer b =>
      exists v addrs, Lifetime b = Ok v /\ Addresses b = Ok (addrs, None) /\ addrs <> [] /\ Forall unicast addrs
  | NDPDNSSearchList b =>
      exists v names, Lifetime b = Ok v /\ DomainNames b = Ok (names, None) /\ Forall domain_name names
  | _ => True
  end.

Lemma AWP_Subnet_total d n : bytes d -> exists s, tcpip.AWP_Subnet (tcpip.mkAWP (tcpip.AddrFrom16 d) n) = Ok s.
Proof.
  intros Hb. destruct (tcpip.AWP_Subnet_shape (tcpip.AddrFrom16 d) n) as (A & K & E & _); [by apply tcpip.wf_AddrFrom16|].
  by eexists.
Qed.

Lemma usable_prefix b : bytes b -> Zlen b = 30 -> usable (NDPPrefixInformation b).
Proof.
  intros Hb Hl. unfold usable, PrefixLength, OnLinkFlag, AutonomousAddressConfigurationFlag, ValidLifetime, PreferredLifetime, Subnet, Prefix, PrefixLength.
  rewrite !at_Ok by lia. destruct (uint32_Ok b 2) as (x & ->); [lia..|]. destruct (uint32_Ok b 6) as (y & ->); [lia..|].
  rewrite from_Ok by lia. cbn [rbind]. rewrite upto_Ok by (rewrite Zlen_drop; lia). cbn [rbind]. unfold tcpip.AddrFrom16Slice.
  rewrite Zlen_take by lia. rewrite (proj2 (Z.eqb_eq _ 16)) by (rewrite Z2Nat.id, Zlen_drop; lia). cbn [rbind].
  destruct (AWP_Subnet_total (take (Z.to_nat 16) (drop (Z.to_nat 14) b)) (byte_at b 0)) as (s & ->); [by apply Forall_take, Forall_drop|].
  by repeat eexists.
Qed.
Lemma usable_route b : bytes b -> hasError b = Ok None -> Zlen b <= 22 -> usable (NDPRouteInformation b).
Proof.
  intros Hb H Hl. unfold hasError, usable, RoutePrefix, RoutePreference, RouteLifetime, PrefixLength in *.
  destruct (Z.ltb_spec (Zlen b) 6); [done|]. rewrite !at_Ok in * by lia. cbn [rbind] in *.
  destruct (Z.ltb_spec 128 (byte_at b 0)); [done|]. destruct (uint32_Ok b 2) as (x & ->); [lia..|].
  rewrite from_Ok by lia. cbn [rbind]. rewrite Zlen_drop by lia. rewrite (proj2 (Z.eqb_eq _ _)) by lia. cbn [negb].
  destruct (AWP_Subnet_total (write_at (repeat 0 16) 0 (drop (Z.to_nat 6) b)) (byte_at b 0)) as (s & ->);
    [apply bytes_write_at; [by apply tcpip.bytes_repeat|by apply Forall_drop]|].
  by repeat eexists.
Qed.

Lemma hasError_total b : exists e, hasError b = Ok e.
Proof.
  unfold hasError, PrefixLength. destruct (Z.ltb_spec (Zlen b) 6); [by eexists|]. rewrite at_Ok by lia. cbn [rbind].
  destruct (128 <? _); by eexists.
Qed.

Lemma option_of_ok k b : bytes b ->
  exists r, option_of k b = Ok r /\ match r with Some (inl o) => usable o /\ body o = b /\ kind o = k | _ => True end.
Proof.
  intros Hb. unfold option_of.
  destruct (Z.eqb_spec k ndpSourceLinkLayerAddressOptionType) as [->|_]; [by eexists|].
  destruct (Z.eqb_spec k ndpTargetLinkLayerAddressOptionType) as [->|_]; [by eexists|].
  destruct (Z.eqb_spec k ndpNonceOptionType) as [->|_]; [by eexists|].
  destruct (Z.eqb_spec k ndpRouteInformationType) as [->|_].
  { unfold ndpRouteInformationMaxLength. destruct (Z.ltb_spec 22 (Zlen b)); [by eexists|].
    destruct (hasError_total b) as (e & E). unfold checked. rewrite E. eexists. split; [reflexivity|]. destruct e; [done|].
    split; [by apply usable_route|done]. }
  destruct (Z.eqb_spec k ndpPrefixInformationType) as [->|_].
  { unfold ndpPrefixInformationLength. destruct (Z.eqb_spec (Zlen b) 30); [|by eexists]. eexists. split; [reflexivity|].
    split; [by apply usable_prefix|done]. }
  destruct (Z.eqb_spec k ndpRecursiveDNSServerOptionType) as [->|_].
  { destruct (iterAddresses_total b) as (as_ & e & E & Ha & He). unfold checked, checkAddresses. rewrite E. eexists. split; [reflexivity|].
    cbn. destruct e; [done|]. split; [|done]. destruct (He eq_refl). unfold usable, Addresses, Lifetime.
    destruct (uint32_Ok b 2) as (x & ->); [lia..|]. by exists (time_Second * x), as_. }
  destruct (Z.eqb_spec k ndpDNSSearchListOptionType) as [->|_]; [|by eexists].
  destruct (iterDomainNames_total false b Hb) as (ns & e & E & _ & He). unfold checked, checkDomainNames. rewrite E. eexists. split; [reflexivity|].
  cbn. destruct e; [done|]. split; [|done]. specialize (He eq_refl). unfold usable, Lifetime.
  destruct (checkDomainNames_DomainNames b Hb) as (ns' & E' & Hn'); [unfold checkDomainNames; by rewrite E|].
  destruct (uint32_Ok b 2) as (x & ->); [lia..|]. by exists (time_Second * x), ns'.
Qed.

(** The result of a turn, with the bytes left. *)
Ltac next_is := eexists _, _, _, _; split; [reflexivity|]; split; [first [done|by constructor]|].

Lemma next_loop_ok fuel opts :
  (length opts < fuel)%nat -> bytes opts ->
  exists o done err rest, next_loop fuel opts = Ok (o, done, err, rest) /\ bytes rest /\
    match o with
    | Some o => done = false /\ err = None /\ usable o /\ (length rest < length opts)%nat
    | None => done = true
    end.
Proof.
  revert opts. induction fuel as [|fuel IH]; intros opts Hf Hb; [lia|]. cbn [next_loop].
  destruct opts as [|k [|n rest]]; [by next_is|by next_is|].
  apply Forall_cons in Hb as [_ Hb]. apply Forall_cons in Hb as [Hn Hb]. cbn [length] in *.
  destruct (n =? 0); [by next_is|]. set (nb := n * lengthByteUnits - 2).
  assert (bytes (drop (Z.to_nat nb) rest)) by by apply Forall_drop.
  destruct (Zlen (take (Z.to_nat nb) rest) <? nb); [by next_is|].
  destruct (option_of_ok k (take (Z.to_nat nb) rest)) as (r & -> & Hr); [by apply Forall_take|]. cbn [rbind].
  pose proof (length_drop rest (Z.to_nat nb)).
  destruct r as [[o|e]|].
  - next_is. destruct Hr. split_and!; try done. lia.
  - by next_is.
  - destruct (IH (drop (Z.to_nat nb) rest)) as (o & d & err & rest' & -> & Hb' & Ho); [lia|done|].
    next_is. destruct o; [|done]. destruct Ho as (-> & -> & ? & ?). split_and!; try done. lia.
Qed.
Lemma Next_ok opts : bytes opts ->
  exists o done err rest, Next opts = Ok (o, done, err, rest) /\ bytes rest /\
    match o with
    | Some o => done = false /\ err = None /\ usable o /\ (length rest < length opts)%nat
    | None => done = true
    end.
Proof. intros. apply next_loop_ok; [lia|done]. Qed.

Lemma options_loop_ok fuel opts : (length opts < fuel)%nat -> bytes opts ->
  exists os e, options_loop fuel opts = Ok (os, e) /\ check_loop fuel opts = Ok e /\ Forall usable os.
Proof.
  revert opts. induction fuel as [|fuel IH]; intros opts Hf Hb; [lia|]. cbn [options_loop check_loop].
  destruct (Next_ok opts Hb) as (o & d & err & rest & -> & Hb' & Ho). cbn [rbind].
  destruct o as [o|]; [|subst d; exists [], err; by destruct err]. destruct Ho as (-> & -> & Hu & Hl).
  destruct (IH rest) as (os & e & -> & -> & Hus); [lia|done|]. exists (o :: os), e. cbn. split_and!; try done. by constructor.
Qed.

(** ** The serializer *)

Lemma write_at_inner m o b i a :
  0 <= o -> 0 <= i -> i + Zlen a <= Zlen b -> o + Zlen b <= Zlen m ->
  write_at (write_at m o b) (o + i) a = write_at m o (write_at b i a).
Proof.
  intros. pose proof (Zlen_nonneg a). apply bytes_ext; [by autorewrite with golen|]. autorewrite with golen. intros j Hj.
  rewrite (byte_at_write_at (write_at m o b)), (byte_at_write_at m o (write_at b i a)), (byte_at_write_at m o b) by (autorewrite with golen; lia).
  autorewrite with golen.
  destruct (Z.leb_spec (o + i) j), (Z.ltb_spec j (o + i + Zlen a)), (Z.leb_spec o j), (Z.ltb_spec j (o + Zlen b)); cbn [andb]; try lia; try done.
  - rewrite byte_at_write_at by lia. rewrite (proj2 (Z.leb_le i (j - o))), (proj2 (Z.ltb_lt (j - o) (i + Zlen a))) by lia. cbn [andb]. f_equal. lia.
  - rewrite byte_at_write_at by lia. by rewrite (proj2 (Z.ltb_ge (j - o) (i + Zlen a))), andb_false_r by lia.
  - rewrite byte_at_write_at by lia. by rewrite (proj2 (Z.leb_gt i (j - o))) by lia.
Qed.

(** The body as it is written: reserved bits cleared, padded with zeros. *)
Definition cleared (o : NDPOption) : list Z :=
  match o with
  | NDPPrefixInformation b => write_at (write_at b 1 [Z.land (byte_at b 1) (not8 63)]) 10 (repeat 0 4)
  | NDPRecursiveDNSServer b | NDPDNSSearchList b => write_at b 0 (repeat 0 2)
  | _ => body o
  end.
Definition wire_body (o : NDPOption) : list Z := cleared o ++ repeat 0 (Z.to_nat (paddedLength o - 2 - Zlen (body o))).
Definition wire (o : NDPOption) : NDPOption :=
  let b := wire_body o in
  match o with
  | NDPSourceLinkLayerAddressOption _ => NDPSourceLinkLayerAddressOption b
  | NDPTargetLinkLayerAddressOption _ => NDPTargetLinkLayerAddressOption b
  | NDPNonceOption _ => NDPNonceOption b
  | NDPRouteInformation _ => NDPRouteInformation b
  | NDPPrefixInformation _ => NDPPrefixInformation b
  | NDPRecursiveDNSServer _ => NDPRecursiveDNSServer b
  | NDPDNSSearchList _ => NDPDNSSearchList b
  end.

(** An option a sender may put in a message: a body that fits and passes the
    option's own check. *)
Definition sendable (o : NDPOption) : Prop :=
  bytes (body o) /\ 0 < Zlen (body o) <= 2038 /\
  match o with
  | NDPPrefixInformation b => Zlen b = 30
  | NDPRouteInformation b => hasError b = Ok None /\ Zlen b <= 22 /\ (Zlen b + 2) mod 8 = 0
  | NDPRecursiveDNSServer b => checkAddresses b = Ok None
  | NDPDNSSearchList b => checkDomainNames b = Ok None
  | _ => True
  end.

Lemma land_mask7 x : Z.land x (Z.lnot 7) = x / 8 * 8.
Proof.
  change 7 with (Z.ones 3). rewrite <- Z.ldiff_land, Z.ldiff_ones_r, Z.shiftl_mul_pow2, Z.shiftr_div_pow2 by lia. done.
Qed.
Lemma length_body o : sendable o -> length_ o = Zlen (body o).
Proof. intros (_ & _ & H). by destruct o. Qed.
Lemma paddedLength_ok o : sendable o ->
  paddedLength o = (Zlen (body o) + 9) / 8 * 8 /\ Zlen (body o) + 2 <= paddedLength o <= 2040 /\ paddedLength o mod 8 = 0.
Proof.
  intros HS. pose proof (length_body o HS) as HL. destruct HS as (_ & Hn & _). unfold paddedLength. rewrite HL.
  destruct (Z.eqb_spec (Zlen (body o)) 0); [lia|]. rewrite land_mask7. replace (Zlen (body o) + 2 + 7) with (Zlen (body o) + 9) by lia.
  unfold lengthByteUnits. destruct (Z.ltb_spec 255 ((Zlen (body o) + 9) / 8 * 8 / 8)); [exfalso|]; zdm.
Qed.
Lemma Zlen_cleared o : Zlen (cleared o) = Zlen (body o).
Proof. by destruct o; cbn; autorewrite with golen. Qed.
Lemma Zlen_wire_body o : sendable o -> Zlen (wire_body o) = paddedLength o - 2.
Proof.
  intros HS. destruct (paddedLength_ok o HS) as (_ & ? & _). unfold wire_body. rewrite Zlen_app, Zlen_cleared. unfold Zlen at 2.
  rewrite repeat_length. lia.
Qed.

Lemma serializeInto_ok `{SingCommon} o st l c m : sendable o -> in_array m (Slice st l c) -> Zlen (body o) <= l ->
  runs (serializeInto o (Slice st l c)) m (Zlen (body o)) (write_at m st (cleared o)).
Proof.
  intros (Hb & Hn & HS) Hin Hl. pose proof Hin as (I1 & I2 & I3). cbn in I1, I2, I3. unfold serializeInto.
  eapply runs_bind; [by apply runs_copy_to|]. cbn beta.
  assert (forall a, Zlen a = Zlen (body o) -> 2 <= Zlen a -> 
    runs (r <- reslice (Slice st l c) 0 2 ;; ClearArray r ;;; ret (Zlen (body o))) (write_at m st a) (Zlen (body o)) (write_at m st (write_at a 0 (repeat 0 2)))) as H2.
  { intros a Ha H2. eapply runs_bind; [apply runs_reslice; lia|]. rewrite Z.sub_0_r.
    eapply runs_bind; [apply ClearArray_zeroes; split_and!; cbn [sl_off sl_len sl_cap]; autorewrite with golen; lia|].
    eapply runs_eq; [apply runs_ret|done|]. apply write_at_inner; rewrite ?Zlen_repeat; lia. }
  destruct o as [b|b|b|b|b|b|b]; cbn [body cleared] in *; try (apply runs_ret).
  - eapply runs_bind; [apply runs_idx; lia|]. eapply runs_bind; [apply runs_set_idx; lia|].
    eapply runs_bind; [apply runs_tail; lia|]. eapply runs_bind; [apply runs_reslice; lia|].
    eapply runs_bind; [apply ClearArray_zeroes; split_and!; cbn [sl_off sl_len sl_cap]; autorewrite with golen; lia|].
    eapply runs_eq; [apply runs_ret|done|]. rewrite byte_at_write_at by lia.
    rewrite (proj2 (Z.leb_le st (st + 1))), (proj2 (Z.ltb_lt (st + 1) _)) by lia. cbn [andb]. replace (st + 1 - st) with 1 by lia.
    change (upd ?a ?i ?v) with (write_at a i [v]). rewrite write_at_inner by (change (Zlen [_]) with 1; lia). rewrite Z.add_0_r.
    apply write_at_inner; rewrite ?Zlen_write_at, ?Zlen_repeat; lia.
  - apply H2; [done|]. destruct (iterAddresses_total b) as (as_ & e & E & _ & He). unfold checkAddresses in HS. rewrite E in HS.
    cbn in HS. injection HS as ->. destruct (He eq_refl). lia.
  - apply H2; [done|]. destruct (iterDomainNames_total false b Hb) as (ns & e & E & _ & He). unfold checkDomainNames in HS. rewrite E in HS.
    cbn in HS. injection HS as ->. specialize (He eq_refl). lia.
Qed.
(** The bytes of an option, and of all options that are written. *)
Definition encoded (o : NDPOption) : list Z := kind o :: paddedLength o / 8 :: wire_body o.
Definition written (o : NDPOption) : bool := negb (paddedLength o =? 0).
Definition encoded_all (os : list NDPOption) : list Z := concat (map (fun o => if written o then encoded o else []) os).
Definition listed (o : NDPOption) : Prop := written o = true -> sendable o.

Lemma Zlen_encoded o : sendable o -> Zlen (encoded o) = paddedLength o.
Proof. intros HS. unfold encoded. rewrite !Zlen_cons, Zlen_wire_body by done. lia. Qed.
Lemma encoded_all_cons o os : encoded_all (o :: os) = (if written o then encoded o else []) ++ encoded_all os.
Proof. done. Qed.
Lemma Length_encoded os : Forall listed os -> Length os = Zlen (encoded_all os).
Proof.
  intros HF. unfold Length. enough (forall d, fold_left (fun l o => l + paddedLength o) os d = d + Zlen (encoded_all os)) as E by (rewrite E; lia).
  induction HF as [|o os Ho HF IH]; intros d; cbn [fold_left]; [change (Zlen (encoded_all [])) with 0; lia|].
  rewrite IH, encoded_all_cons, Zlen_app. unfold listed, written in *. destruct (Z.eqb_spec (paddedLength o) 0) as [->|]; cbn [negb] in *.
  - change (Zlen (@nil Z)) with 0. lia.
  - rewrite Zlen_encoded by auto. lia.
Qed.

Lemma Serialize_runs `{SingCommon} os : Forall listed os -> forall st l c m d,
  in_array m (Slice st l c) -> Zlen (encoded_all os) <= l ->
  runs (Serialize os (Slice st l c) d) m (d + Zlen (encoded_all os)) (write_at m st (encoded_all os)).
Proof.
  induction 1 as [|o os Ho HF IH]; intros st l c m d Hin Hl; cbn [Serialize].
  { change (encoded_all []) with (@nil Z). rewrite Z.add_0_r. apply runs_ret. }
  rewrite encoded_all_cons in *. unfold listed, written in *. destruct (Z.eqb_spec (paddedLength o) 0); cbn [negb app] in *; [by apply IH|].
  specialize (Ho eq_refl). destruct (paddedLength_ok o Ho) as (_ & Hp & Hm8). pose proof Hin as (I1 & I2 & I3). cbn in I1, I2, I3.
  rewrite Zlen_app, Zlen_encoded in * by done. pose proof (Zlen_nonneg (encoded_all os)). pose proof (Zlen_nonneg (body o)).
  eapply runs_bind; [apply runs_set_idx; lia|]. eapply runs_bind; [apply runs_set_idx; lia|].
  eapply runs_bind; [apply runs_tail; lia|]. rewrite Z.add_0_r. unfold lengthByteUnits. rewrite u8_small by (split; zdm).
  eapply runs_bind; [apply serializeInto_ok; [done| |lia]; split_and!; cbn; rewrite ?Zlen_upd; lia|]. cbn beta.
  set (m2 := write_at _ (st + 2) (cleared o)). assert (Zlen m2 = Zlen m) as Hm2 by (subst m2; by autorewrite with golen).
  set (pad := repeat 0 (Z.to_nat (paddedLength o - 2 - Zlen (body o)))).
  assert (Zlen pad = paddedLength o - 2 - Zlen (body o)) as Hpad by (subst pad; rewrite Zlen_repeat; lia).
  eapply (runs_bind _ _ _ tt (write_at m2 (st + 2 + Zlen (body o)) pad)).
  { unfold when. destruct (Z.ltb_spec (Zlen (body o) + 2) (paddedLength o)).
    - eapply runs_bind; [apply runs_reslice; lia|]. replace (st + (Zlen (body o) + 2)) with (st + 2 + Zlen (body o)) by lia.
      replace (paddedLength o - (Zlen (body o) + 2)) with (paddedLength o - 2 - Zlen (body o)) by lia.
      apply ClearArray_zeroes. split_and!; cbn [sl_off sl_len sl_cap]; lia.
    - replace pad with (@nil Z); [apply runs_ret|]. symmetry. apply Zlen_0_inv. lia. }
  eapply runs_bind; [apply runs_tail; lia|]. eapply runs_eq; [apply IH; [|lia]|lia|].
  { split_and!; cbn [sl_off sl_len sl_cap]; rewrite ?Zlen_write_at; lia. }
  rewrite write_at_app, Zlen_encoded by done. f_equal. unfold encoded. cbn [write_at].
  replace (st + 1 + 1) with (st + 2) by lia. unfold wire_body. fold pad. rewrite write_at_app, Zlen_cleared. done.
Qed.

(** *** Reading back what was written *)

Lemma label_loop_suffix k i n sl dn r dn' z :
  label_loop k i n sl dn = inr (r, dn') -> label_loop k i n (sl ++ z) dn = inr (r ++ z, dn').
Proof.
  revert i sl dn. induction k as [|k IH]; intros i sl dn; cbn [label_loop]; [by intros [= <- <-]|].
  destruct sl as [|b sl]; [done|]. cbn [app]. destruct (label_byte i n b); [done|]. apply IH.
Qed.
Lemma name_loop_suffix f f' sl dn r dn' z : (f <= f')%nat ->
  name_loop f sl dn = Ok (inr (r, dn')) -> name_loop f' (sl ++ z) dn = Ok (inr (r ++ z, dn')).
Proof.
  revert f' sl dn. induction f as [|f IH]; intros f' sl dn Hf; [done|]. destruct f' as [|f']; [lia|]. cbn [name_loop].
  destruct sl as [|n sl]; [done|]. cbn [app]. destruct (n =? 0); [by intros [= <- <-]|]. destruct (_ <? n); [done|].
  destruct (_ <? n + 1); [done|]. destruct (label_loop _ _ _ sl dn) as [|[sl' dn1]] eqn:E; [done|].
  rewrite (label_loop_suffix _ _ _ _ _ _ _ z E). apply IH. lia.
Qed.
Lemma names_loop_zeros k f fn acc : names_loop (S f + k) fn (repeat 0 k) acc = Ok (acc, None).
Proof.
  induction k as [|k IH]; [done|]. replace (S f + S k)%nat with (S (S f + k)) by lia. cbn [names_loop repeat].
  rewrite (proj2 (Z.eqb_neq _ 0)) by (rewrite Zlen_cons; pose proof (Zlen_nonneg (repeat 0 k)); lia). cbn. apply IH.
Qed.
Lemma names_loop_suffix f fn sl acc ns k :
  names_loop f fn sl acc = Ok (ns, None) -> names_loop (f + k) fn (sl ++ repeat 0 k) acc = Ok (ns, None).
Proof.
  revert sl acc. induction f as [|f IH]; intros sl acc; [done|]. cbn [names_loop plus]. destruct (Z.eqb_spec (Zlen sl) 0) as [E|E].
  { intros [= <-]. apply Zlen_0_inv in E as ->. cbn [app]. exact (names_loop_zeros k f fn acc). }
  destruct (name_loop (S (length sl)) sl []) as [[e|[sl' dn]]|] eqn:En; cbn [rbind]; [done| |done]. intros H.
  rewrite (proj2 (Z.eqb_neq _ 0)) by (rewrite Zlen_app; pose proof (Zlen_nonneg (repeat 0 k)); pose proof (Zlen_nonneg sl); lia).
  rewrite (name_loop_suffix (S (length sl)) (S (length (sl ++ repeat 0 k))) sl [] sl' dn) by (rewrite ?length_app; done || lia).
  cbn [rbind]. by apply IH.
Qed.

Lemma clear_front (b : list Z) : 6 <= Zlen b ->
  Zlen (write_at b 0 (repeat 0 2)) = Zlen b /\ drop (Z.to_nat 6) (write_at b 0 (repeat 0 2)) = drop (Z.to_nat 6) b.
Proof.
  intros. split; [by rewrite Zlen_write_at|]. destruct b as [|x [|y b]]; [done..|]. done.
Qed.
Lemma no_padding o : sendable o -> (Zlen (body o) + 2) mod 8 = 0 -> wire_body o = cleared o.
Proof.
  intros HS Hm. destruct (paddedLength_ok o HS) as (E & _). unfold wire_body.
  replace (Z.to_nat (paddedLength o - 2 - Zlen (body o))) with O by (rewrite E; zdm). apply app_nil_r.
Qed.

Lemma checkAddresses_cleared b : checkAddresses b = Ok None ->
  checkAddresses (write_at b 0 (repeat 0 2)) = Ok None /\ (Zlen b + 2) mod 8 = 0.
Proof.
  unfold checkAddresses, iterAddresses, minNDPRecursiveDNSServerBodySize. rewrite Zlen_write_at.
  destruct (Z.ltb_spec (Zlen b) 22); [done|]. destruct (clear_front b) as [HL HD]; [lia|].
  rewrite !from_Ok by (rewrite ?HL; lia). cbn [rbind]. rewrite HD. destruct (Z.eqb_spec (Zlen (drop (Z.to_nat 6) b) mod 16) 0) as [E|]; [|done].
  intros H'. split; [done|]. rewrite Zlen_drop in E by lia. zdm.
Qed.
Lemma checkDomainNames_padded b k : checkDomainNames b = Ok None ->
  checkDomainNames (write_at b 0 (repeat 0 2) ++ repeat 0 k) = Ok None.
Proof.
  unfold checkDomainNames, iterDomainNames, minNDPDNSSearchListBodySize. rewrite Zlen_app, Zlen_write_at, Zlen_repeat.
  destruct (Z.ltb_spec (Zlen b) 14); [done|]. destruct (Z.ltb_spec (Zlen b + Z.of_nat k) 14); [lia|].
  destruct (clear_front b) as [HL HD]; [lia|]. rewrite !from_Ok by (rewrite ?Zlen_app, ?HL, ?Zlen_repeat; lia). cbn [rbind].
  rewrite drop_app_le by (unfold Zlen in *; rewrite ?length_write_at; lia). rewrite HD.
  destruct (names_loop _ false _ []) as [[ns e]|] eqn:E; [|done]. cbn [rbind]. intros [= ->].
  rewrite length_app, repeat_length. change (S (length (drop (Z.to_nat 6) b) + k))%nat with (S (length (drop (Z.to_nat 6) b)) + k)%nat.
  by rewrite (names_loop_suffix _ _ _ _ _ k E).
Qed.

Lemma option_of_wire o : sendable o -> option_of (kind o) (wire_body o) = Ok (Some (inl (wire o))).
Proof.
  intros HS. pose proof (no_padding o HS) as HN. pose proof (Zlen_wire_body o HS) as HW. destruct (paddedLength_ok o HS) as (HP & _).
  pose proof HS as (Hb & Hl & H). destruct o as [b|b|b|b|b|b|b]; try done; cbn [body cleared kind wire] in *.
  - destruct H as (HE & H22 & H8). rewrite (HN H8). unfold option_of. cbn [Z.eqb]. cbn.
    unfold ndpRouteInformationMaxLength, checked. destruct (Z.ltb_spec 22 (Zlen b)); [lia|]. by rewrite HE.
  - unfold option_of. cbn -[Zlen wire_body]. unfold ndpPrefixInformationLength. by rewrite HW, HP, H.
  - destruct (checkAddresses_cleared b H) as [HC H8]. rewrite (HN H8). unfold option_of. cbn -[checkAddresses write_at repeat]. unfold checked. by rewrite HC.
  - unfold wire_body in *. cbn [cleared body] in *. unfold option_of. cbn -[checkDomainNames paddedLength write_at repeat]. unfold checked.
    by rewrite checkDomainNames_padded.
Qed.

Lemma Next_encoded o rest : sendable o -> Next (encoded o ++ rest) = Ok (Some (wire o), false, None, rest).
Proof.
  intros HS. destruct (paddedLength_ok o HS) as (_ & Hp & H8). pose proof (Zlen_nonneg (body o)). pose proof (Zlen_wire_body o HS) as HW.
  unfold Next, encoded. cbn [app next_loop]. destruct (Z.eqb_spec (paddedLength o / 8) 0); [zdm|].
  replace (paddedLength o / 8 * lengthByteUnits - 2) with (Zlen (wire_body o)) by (rewrite HW; unfold lengthByteUnits; zdm).
  replace (Z.to_nat (Zlen (wire_body o))) with (length (wire_body o)) by (unfold Zlen; lia).
  rewrite take_app_length, drop_app_length, Z.ltb_irrefl, option_of_wire by done. done.
Qed.
Lemma options_loop_encoded os : Forall listed os -> forall fuel, (length (encoded_all os) < fuel)%nat ->
  options_loop fuel (encoded_all os) = Ok (map wire (filter (fun o => written o = true) os), None).
Proof.
  induction 1 as [|o os Ho HF IH]; intros fuel Hf; (destruct fuel as [|fuel]; [lia|]); [done|].
  rewrite encoded_all_cons in *. unfold listed in Ho. rewrite filter_cons. destruct (written o) eqn:E; [|rewrite decide_False by done; by apply IH].
  rewrite decide_True by done. cbn [options_loop]. rewrite Next_encoded by auto. cbn [rbind map].
  rewrite IH; [done|]. unfold encoded in Hf. rewrite length_app in Hf. cbn [length] in Hf. lia.
Qed.

(** C30: what NDPOptions.Serialize writes is what the iterator reads.  For a
    buffer with room for Length bytes and options whose bodies fit and pass their
    own checks (options with an empty or too long body are skipped), Serialize
    returns Length, writes nothing outside those bytes, and iterating over them
    gives the options in order, each with its reserved bits cleared and its body
    padded with zeros to a multiple of eight bytes, without an error. *)
Theorem NDP_roundtrip `{SingCommon} os st l c m :
  Forall listed os -> in_array m (Slice st l c) -> Length os <= l ->
  exists m', runs (Serialize os (Slice st l c) 0) m (Length os) m' /\
    all_options (window m' st (Length os)) = Ok (map wire (filter (fun o => written o = true) os), None) /\
    (forall off len, 0 <= off -> off + len <= st \/ st + Length os <= off -> window m' off len = window m off len).
Proof.
  intros HF Hin Hl. pose proof Hin as (I1 & I2 & I3). cbn in I1, I2, I3. rewrite Length_encoded in * by done.
  eexists. split; [by apply (Serialize_runs os HF st l c m 0)|]. split.
  - rewrite window_write_at_eq by lia. apply options_loop_encoded; [done|lia].
  - intros off len Hoff Hd. apply window_write_at_out; lia.
Qed.

(** C31: iterating over any bytes as NDP options ends without a panic.  The
    integrity check of Iter returns the error the iteration ends with, if any, and
    every option returned before is usable: its accessors do not panic, a prefix
    length of a route is at most 128, the DNS server addresses are unicast
    addresses, and the domain names consist of lower-case letters, digits,
    hyphens and periods and have at most 254 characters. *)
Theorem NDP_iterator_total b : bytes b ->
  exists os e, all_options b = Ok (os, e) /\ Iter b true = Ok e /\ Forall usable os.
Proof. intros Hb. apply options_loop_ok; [lia|done]. Qed.

Definition sample_options : list Z :=
  [1; 1; 2; 3; 4; 5; 6; 7] ++ [5; 1; 0; 0; 0; 0; 0; 0] ++
  [31; 2; 0; 0; 0; 0; 1; 44; 3; 67; 111; 109; 0; 0; 0; 0].
Lemma NDP_iterator_total_witness :
  exists os e, all_options sample_options = Ok (os, e) /\ Iter sample_options true = Ok e /\ Forall usable os.
Proof. apply (NDP_iterator_total sample_options). concrete. Defined.
Lemma NDP_roundtrip_witness :
  exists m', runs (Serialize (H := sing_common_loop) [NDPNonceOption [1; 2; 3]; NDPNonceOption []; NDPTargetLinkLayerAddressOption [1; 2; 3; 4; 5; 6]]
      (Slice 0 16 16) 0) (repeat 9 16) 16 m' /\
    all_options (window m' 0 16)
      = Ok ([NDPNonceOption [1; 2; 3; 0; 0; 0]; NDPTargetLinkLayerAddressOption [1; 2; 3; 4; 5; 6]], None).
Proof.
  destruct (NDP_roundtrip (H := sing_common_loop)
    [NDPNonceOption [1; 2; 3]; NDPNonceOption []; NDPTargetLinkLayerAddressOption [1; 2; 3; 4; 5; 6]] 0 16 16 (repeat 9 16)) as (m' & R & A & _).
  - repeat constructor; try done; cbn; lia.
  - split_and!; vm_compute; congruence.
  - vm_compute. congruence.
  - exists m'. split; [exact R|exact A].
Defined.
Example sample_options_parsed :
  all_options sample_options = Ok ([NDPSourceLinkLayerAddressOption [2; 3; 4; 5; 6; 7];
    NDPDNSSearchList [0; 0; 0; 0; 1; 44; 3; 67; 111; 109; 0; 0; 0; 0]], None) /\
  DomainNames [0; 0; 0; 0; 1; 44; 3; 67; 111; 109; 0; 0; 0; 0] = Ok ([[99; 111; 109]], None).
Proof. split; vm_compute; reflexivity. Qed.
End NDPSpec.
