(* ===== verification/Eth.v ===== *)
(** * internal/gtcpip/header/eth.go: the Ethernet header *)
From S2P Require Import Prelude Bytes GoMem Tcpip.

Module Ethernet.

Definition EthernetMinimumSize : Z := 14.
Definition EthernetAddressSize : Z := 6.
Definition UnspecifiedEthernetAddress : list Z := repeat 0 6.
Definition EthernetBroadcastAddress : list Z := repeat 255 6.
Definition EthernetProtocolAll : Z := 3.
Definition EthernetProtocolPUP : Z := 512.
Definition Ethertypes : list Z := [EthernetProtocolAll; EthernetProtocolPUP].

(** A LinkAddress is a string of bytes. *)
Record EthernetFields := mkFields { f_SrcAddr : list Z; f_DstAddr : list Z; f_Type : Z }.

Definition SourceAddress (b : slice) : M (list Z) := s <- tail b 6 ;; s <- reslice s 0 6 ;; contents s.
Definition DestinationAddress (b : slice) : M (list Z) := s <- tail b 0 ;; s <- reslice s 0 6 ;; contents s.
Definition Type_ (b : slice) : M Z := s <- tail b 12 ;; Uint16 s.
Definition Encode (b : slice) (e : EthernetFields) : M unit :=
  s <- tail b 12 ;; PutUint16 s (u16 (f_Type e)) ;;;
  s <- tail b 6 ;; s <- reslice s 0 6 ;; copy_to s (f_SrcAddr e) ;;;
  s <- tail b 0 ;; s <- reslice s 0 6 ;; copy_to s (f_DstAddr e) ;;;
  ret tt.

Definition IsMulticastEthernetAddress (addr : list Z) : bool :=
  if negb (Zlen addr =? EthernetAddressSize) then false else negb (Z.land (byte_at addr 0) 1 =? 0).
Definition IsValidUnicastEthernetAddress (addr : list Z) : bool :=
  if negb (Zlen addr =? EthernetAddressSize) then false
  else if bool_decide (addr = UnspecifiedEthernetAddress) then false
  else if negb (Z.land (byte_at addr 0) 1 =? 0) then false
  else true.

Definition EthernetAddressFromMulticastIPv4Address (addr : tcpip.Address) : res (list Z) :=
  rbind (tcpip.As4 addr) (fun addrBytes =>
    let linkAddrBytes := upd (upd (upd (repeat 0 6) 0 1) 2 94) 3 (Z.land (byte_at addrBytes 1) 127) in
    Ok (write_at linkAddrBytes 4 (drop 2 addrBytes))).
Definition EthernetAddressFromMulticastIPv6Address (addr : tcpip.Address) : res (list Z) :=
  rbind (tcpip.As16 addr) (fun addrBytes => Ok (upd (upd (drop 10 addrBytes) 0 51) 1 51)).

(** ** Properties *)

(** Decoding an encoded header gives the fields back; the payload is kept. *)
Lemma Encode_roundtrip o l c m e :
  0 <= o -> 14 <= l -> l <= c -> o + c <= Zlen m ->
  Zlen (f_SrcAddr e) = 6 -> Zlen (f_DstAddr e) = 6 -> is_u16 (f_Type e) ->
  exists m', runs (Encode (Slice o l c) e) m tt m' /\
    runs (SourceAddress (Slice o l c)) m' (f_SrcAddr e) m' /\ runs (DestinationAddress (Slice o l c)) m' (f_DstAddr e) m' /\
    runs (Type_ (Slice o l c)) m' (f_Type e) m' /\
    (forall j, 0 <= j -> j < o \/ o + 14 <= j -> byte_at m' j = byte_at m j).
Proof.
  intros Ho Hl Hc Hm Hs Hd Ht. rewrite <- (u16_small (f_Type e)) by lia.
  exists (write_at (write_at (put16 m (o + 12) (u16 (f_Type e))) (o + 6) (f_SrcAddr e)) o (f_DstAddr e)).
  set (m' := write_at _ o _). pose proof (u16_range (f_Type e)). split_and!.
  - unfold Encode. eapply runs_bind; [apply runs_tail; lia|]. eapply runs_bind; [apply runs_PutUint16; lia|].
    eapply runs_bind; [apply runs_tail; lia|]. eapply runs_bind; [apply runs_reslice; lia|]. rewrite Z.add_0_r.
    eapply runs_bind; [apply runs_copy_to; lia|]. eapply runs_bind; [apply runs_tail; lia|].
    eapply runs_bind; [apply runs_reslice; lia|]. rewrite !Z.add_0_r. eapply runs_bind; [apply runs_copy_to; lia|].
    apply runs_ret.
  - unfold SourceAddress. eapply runs_bind; [apply runs_tail; lia|]. eapply runs_bind; [apply runs_reslice; lia|].
    eapply runs_eq; [apply runs_contents| |done]. rewrite Z.add_0_r. subst m'. rewrite window_write_at_out by lia.
    apply window_write_at_eq'; autorewrite with golen; lia.
  - unfold DestinationAddress. eapply runs_bind; [apply runs_tail; lia|]. eapply runs_bind; [apply runs_reslice; lia|].
    eapply runs_eq; [apply runs_contents| |done]. rewrite !Z.add_0_r. apply window_write_at_eq'; autorewrite with golen; lia.
  - unfold Type_. eapply runs_bind; [apply runs_tail; lia|]. eapply runs_eq; [apply runs_Uint16; lia| |done].
    subst m'. rewrite !get16_write_at_out by lia. apply get16_put16_eq; lia.
  - intros j Hj Hd'. subst m'. by rewrite !byte_at_write_at_out, byte_at_put16_ne by lia.
Qed.

(** The mapped addresses are multicast addresses, and carry the low bits of the
    IP address. *)
Lemma multicast4_mapped b : length b = 4%nat -> bytes b ->
  exists a, EthernetAddressFromMulticastIPv4Address (tcpip.AddrFrom4 b) = Ok a /\
    a = [1; 0; 94; Z.land (byte_at b 1) 127; byte_at b 2; byte_at b 3] /\ IsMulticastEthernetAddress a = true.
Proof.
  intros Hl Hb. destruct b as [|b0 [|b1 [|b2 [|b3 [|]]]]]; try done. by eexists.
Qed.
Lemma multicast6_mapped b : length b = 16%nat -> bytes b ->
  exists a, EthernetAddressFromMulticastIPv6Address (tcpip.AddrFrom16 b) = Ok a /\
    a = [51; 51] ++ drop 12 b /\ IsMulticastEthernetAddress a = true.
Proof.
  intros Hl Hb. do 16 (destruct b as [|? b]; [done|]). destruct b; [|done]. by eexists.
Qed.
End Ethernet.
