(* ===== verification/TunRules.v ===== *)
(** * tun_rules.go: the routes and user ranges of a tun device

    BuildAutoRouteRanges computes the prefixes routed into the device, and
    ExcludedRanges and BuildAndroidRules the user ids whose traffic is left
    alone.  The packages go4.org/netipx and sing/common/ranges are parameters,
    with what they document of the sets they compute as laws. *)
From stdpp Require Import sorting.
From Stdlib Require Import String.
From S2P Require Import Prelude Bytes GoMem TsChecksum Netip TunOptions.

(** ** Sets of addresses *)

Definition covered (ps : list netip.Prefix) (ip : netip.Addr) : bool := existsb (fun p => netip.Contains p ip) ps.
Definition valid_prefix (p : netip.Prefix) : Prop :=
  netip.wf (netip.pf_addr p) /\ netip.IsValid (netip.pf_addr p) = true /\ 0 <= netip.pf_bits p <= netip.BitLen (netip.pf_addr p).
Definition valid_addr (ip : netip.Addr) : Prop := netip.wf ip /\ netip.IsValid ip = true.

(** go4.org/netipx: the prefixes of an IPSetBuilder to which prefixes were
    added and from which then others were removed. *)
Inductive ipset_error := InvalidIPSet.
(** The error of BuildAutoRouteRanges, with the family it names. *)
Inductive route_error := IPv4RouteError (e : ipset_error) | IPv6RouteError (e : ipset_error).
Class IPSetPackage := {
  IPSet : list netip.Prefix -> list netip.Prefix -> ipset_error + list netip.Prefix;
  IPSet_exact : forall adds removes, Forall valid_prefix adds -> Forall valid_prefix removes ->
    exists ps, IPSet adds removes = inr ps /\
      forall ip, valid_addr ip -> covered ps ip = covered adds ip && negb (covered removes ip)
}.

(** sing/common/ranges at uint32. *)
Definition in_range (r : Range) (u : Z) : Prop := r_Start r <= u <= r_End r.
Definition in_ranges (rs : list Range) (u : Z) : Prop := Exists (fun r => in_range r u) rs.
Definition NewSingle (u : Z) : Range := mkRange u u.
Definition range_ok (r : Range) : Prop := 0 <= r_Start r <= r_End r /\ r_End r < 2 ^ 32.
Definition within (s e : Z) (r : Range) : Prop := s <= r_Start r <= r_End r /\ r_End r <= e.
Class RangesPackage := {
  Revert : Z -> Z -> list Range -> list Range;
  Exclude : list Range -> list Range -> list Range;
  Merge : list Range -> list Range;
  Revert_exact : forall s e rs u, Forall (within s e) rs -> in_ranges (Revert s e rs) u <-> s <= u <= e /\ ~ in_ranges rs u;
  Exclude_exact : forall a b u, Forall range_ok a -> Forall range_ok b -> in_ranges (Exclude a b) u <-> in_ranges a u /\ ~ in_ranges b u;
  Exclude_within : forall s e a b, Forall range_ok b -> Forall (within s e) a -> Forall (within s e) (Exclude a b);
  Revert_ok : forall s e rs, 0 <= s -> e < 2 ^ 32 -> Forall (within s e) rs -> Forall range_ok (Revert s e rs);
  Merge_exact : forall rs u, Forall range_ok rs -> in_ranges (Merge rs) u <-> in_ranges rs u
}.
(** common.Uniq of sing/common: each element once. *)
Class UniqPackage := {
  Uniq : forall {A} `{EqDecision A}, list A -> list A;
  Uniq_exact : forall {A} `{EqDecision A} (l : list A), NoDup (Uniq l) /\ forall x, x ∈ Uniq l <-> x ∈ l
}.

Definition androidUserRange : Z := 100000.
Definition userEnd : Z := 4294967295 - 1.

(** ** Routes *)

Definition Masked (p : netip.Prefix) : netip.Prefix := netip.PrefixFrom (netip.MaskedAddr p) (netip.pf_bits p).
Definition sub_ranges4 : list netip.Prefix :=
  map (fun e => netip.PrefixFrom (netip.AddrFrom4 (e.1 :: repeat 0 3)) e.2) [(1, 8); (2, 7); (4, 6); (8, 5); (16, 4); (32, 3); (64, 2); (128, 1)].
Definition sub_ranges6 : list netip.Prefix :=
  map (fun e => netip.PrefixFrom (netip.AddrFrom16 (e.1 :: repeat 0 15)) e.2) [(1, 8); (2, 7); (4, 6); (8, 5); (16, 4); (32, 3); (64, 2); (128, 1)].

Section Routes.
Context `{IPSetPackage}.
(** GOOS = darwin, which is also [autoRouteUseSubRanges]. *)
Context (darwin underNetworkExtension : bool).

(** The ranges of one family before the excluded addresses are taken out. *)
Definition route_ranges (addresses routeAddresses subRanges : list netip.Prefix) (all : netip.Prefix) : list netip.Prefix :=
  match routeAddresses with
  | _ :: _ =>
      routeAddresses ++
      (if darwin then map Masked (filter (fun a => netip.pf_bits a < 32) addresses) else [])
  | [] => if darwin && negb underNetworkExtension then subRanges else [all]
  end.
Definition without_excluded (ranges excluded : list netip.Prefix) : ipset_error + list netip.Prefix :=
  match excluded with [] => inr ranges | _ => IPSet ranges excluded end.

Definition BuildAutoRouteRanges (o : Options) : route_error + list netip.Prefix :=
  let r4 :=
    match AutoRoute o, Inet4Address o with
    | true, _ :: _ =>
        without_excluded
          (route_ranges (Inet4Address o) (Inet4RouteAddress o) sub_ranges4 (netip.PrefixFrom (netip.Addr4 (repeat 0 4)) 0))
          (Inet4RouteExcludeAddress o)
    | _, _ => inr []
    end in
  match r4 with
  | inl e => inl (IPv4RouteError e)
  | inr routeRanges =>
      let r6 :=
        match Inet6Address o with
        | _ :: _ =>
            without_excluded
              (route_ranges (Inet6Address o) (Inet6RouteAddress o) sub_ranges6 (netip.PrefixFrom (netip.Addr6 (repeat 0 16)) 0))
              (Inet6RouteExcludeAddress o)
        | [] => inr []
        end in
      match r6 with inl e => inl (IPv6RouteError e) | inr ranges6 => inr (routeRanges ++ ranges6) end
  end.
End Routes.

(** ** User ids *)

Section Users.
Context `{RangesPackage} `{UniqPackage}.

Definition buildExcludedRanges (includeRanges excludeRanges : list Range) : list Range :=
  Merge (match includeRanges with
         | _ :: _ => Revert 0 userEnd (Exclude includeRanges excludeRanges)
         | [] => excludeRanges
         end).
Definition ExcludedRanges (o : Options) : list Range := buildExcludedRanges (IncludeUID o) (ExcludeUID o).

(** The PackageManager, and the entries of /data/user or the error. *)
Context (IDBySharedPackage IDByPackage : string -> option Z).
Context (ReadDir : option (list string)).

Definition user_range (androidUser : Z) : Range :=
  mkRange (u32 (u32 androidUser * androidUserRange)) (u32 (u32 (androidUser + 1) * androidUserRange - 1)).
(** The ids of a package for the users. *)
Definition package_uids (id : Z) (users : list Z) : list Range :=
  map (fun androidUser => NewSingle (u32 (id + u32 (androidUser * androidUserRange)))) users.

(** The ranges appended for the packages, and the packages not found. *)
Fixpoint include_packages (packages : list string) (users : list Z) : list Range * list string :=
  match packages with
  | [] => ([], [])
  | p :: packages' =>
      let '(rs, errs) := include_packages packages' users in
      match IDBySharedPackage p, IDByPackage p with
      | Some id, _ => (package_uids id users ++ rs, errs)
      | None, Some id => (package_uids id users ++ rs, errs)
      | None, None => (rs, p :: errs)
      end
  end.
(** There is no [continue] after a shared package here. *)
Fixpoint exclude_packages (packages : list string) (users : list Z) : list Range * list string :=
  match packages with
  | [] => ([], [])
  | p :: packages' =>
      let '(rs, errs) := exclude_packages packages' users in
      let shared := match IDBySharedPackage p with Some id => package_uids id users | None => [] end in
      match IDByPackage p with
      | Some id => (shared ++ package_uids id users ++ rs, errs)
      | None => (shared ++ rs, p :: errs)
      end
  end.

Definition directory_users : list Z := match ReadDir with Some names => omap ParseUint32 names | None => [] end.

(** The options afterwards and the errors given to the handler: packages to
    include that were not found, then packages to exclude. *)
Definition BuildAndroidRules (o : Options) : Options * (list string * list string) :=
  let users := match IncludeAndroidUser o with [] => [] | _ => merge_sort Z.le (Uniq (IncludeAndroidUser o)) end in
  let excludeUID :=
    match IncludeAndroidUser o with
    | [] => ExcludeUID o
    | _ => ExcludeUID o ++ Revert 0 userEnd (map user_range users)
    end in
  let includeUser := match map u32 users with [] => directory_users | l => l end in
  let includeUser := match includeUser with [] => [0] | l => l end in
  let includePackage := match IncludePackage o with [] => [] | _ => Uniq (IncludePackage o) end in
  let excludePackage := match ExcludePackage o with [] => [] | _ => Uniq (ExcludePackage o) end in
  let '(inc, errs1) := include_packages includePackage includeUser in
  let '(exc, errs2) := exclude_packages excludePackage includeUser in
  (with_users o (IncludeUID o ++ inc) (excludeUID ++ exc) users includePackage excludePackage, (errs1, errs2)).
End Users.

