(* ===== verification/TunRulesSpec.v ===== *)
(** * What the routes and user ranges of tun_rules.go mean

    ExcludedRanges after BuildAndroidRules excludes exactly the ids the options
    name, and BuildAutoRouteRanges covers exactly the addresses the options
    route; with concrete instances of the packages both theorems assume. *)
From stdpp Require Import sorting.
From Stdlib Require Import String.
From S2P Require Import Prelude Bytes GoMem TsChecksum Netip TunOptions TunRules.

(** ** What the user ranges mean *)

Section UserSpec.
Context `{RangesPackage} `{UniqPackage}.
Context (IDBySharedPackage IDByPackage : string -> option Z) (ReadDir : option (list string)).

(** The users whose packages are looked at. *)
Definition package_users (o : Options) : list Z :=
  let users := match map u32 (match IncludeAndroidUser o with [] => [] | _ => merge_sort Z.le (Uniq (IncludeAndroidUser o)) end) with
               | [] => directory_users ReadDir | l => l end in
  match users with [] => [0] | l => l end.

(** [uid] is the id of package [id] for one of the users. *)
Definition package_uid (o : Options) (id uid : Z) : Prop :=
  exists user, user ∈ package_users o /\ uid = u32 (id + u32 (user * androidUserRange)).

Definition chosen (o : Options) (uid : Z) : Prop :=
  in_ranges (IncludeUID o) uid \/
  exists p id, p ∈ IncludePackage o /\ package_uid o id uid /\
    (IDBySharedPackage p = Some id \/ (IDBySharedPackage p = None /\ IDByPackage p = Some id)).
Definition denied (o : Options) (uid : Z) : Prop :=
  in_ranges (ExcludeUID o) uid \/
  (IncludeAndroidUser o <> [] /\ uid / androidUserRange ∉ IncludeAndroidUser o) \/
  exists p id, p ∈ ExcludePackage o /\ package_uid o id uid /\ (IDBySharedPackage p = Some id \/ IDByPackage p = Some id).

Lemma in_ranges_app a b u : in_ranges (a ++ b) u <-> in_ranges a u \/ in_ranges b u.
Proof. apply Exists_app. Qed.
Lemma in_ranges_nil u : in_ranges [] u <-> False.
Proof. unfold in_ranges. by rewrite Exists_nil. Qed.
Lemma in_package_uids id users u : in_ranges (package_uids id users) u <-> exists user, user ∈ users /\ u = u32 (id + u32 (user * androidUserRange)).
Proof.
  unfold in_ranges, package_uids. rewrite Exists_exists. split.
  - intros (r & Hr & Hu). apply list_elem_of_fmap in Hr as (user & -> & Huser). exists user. split; [done|]. unfold in_range in Hu. cbn in Hu. lia.
  - intros (user & Huser & ->). eexists. split; [apply list_elem_of_fmap; by exists user|]. unfold in_range. cbn. lia.
Qed.

Lemma include_packages_exact ps users u :
  in_ranges (include_packages IDBySharedPackage IDByPackage ps users).1 u <->
  exists p id, p ∈ ps /\ (exists user, user ∈ users /\ u = u32 (id + u32 (user * androidUserRange))) /\
    (IDBySharedPackage p = Some id \/ (IDBySharedPackage p = None /\ IDByPackage p = Some id)).
Proof.
  induction ps as [|p ps IH]; cbn [include_packages fst].
  { rewrite in_ranges_nil. split; [done|]. intros (p & id & Hp & _). by apply elem_of_nil in Hp. }
  destruct (include_packages _ _ ps users) as [rs errs]. cbn [fst] in IH.
  assert (forall id, (IDBySharedPackage p = Some id \/ (IDBySharedPackage p = None /\ IDByPackage p = Some id)) ->
    in_ranges (package_uids id users ++ rs) u <-> exists q i, q ∈ p :: ps /\ (exists user, user ∈ users /\ u = u32 (i + u32 (user * androidUserRange))) /\
      (IDBySharedPackage q = Some i \/ (IDBySharedPackage q = None /\ IDByPackage q = Some i))) as Hfound.
  { intros id Hid. rewrite in_ranges_app, in_package_uids, IH. split.
    - intros [Hu|(q & i & Hq & Hu & Hi)]; [exists p, id|exists q, i]; (split; [by constructor|done]).
    - intros (q & i & Hq & Hu & Hi). apply elem_of_cons in Hq as [->|Hq]; [left|right; by exists q, i].
      destruct Hid as [Hid|[Hid Hid']], Hi as [Hi|[Hi Hi']]; by simplify_eq. }
  destruct (IDBySharedPackage p) as [id|] eqn:E1; [apply Hfound; by left|].
  destruct (IDByPackage p) as [id|] eqn:E2; [apply Hfound; by right|]. cbn [fst]. rewrite IH. split.
  - intros (q & i & Hq & Hr). exists q, i. split; [by constructor|done].
  - intros (q & i & Hq & Hu & Hi). apply elem_of_cons in Hq as [->|Hq]; [destruct Hi as [?|[??]]; congruence|by exists q, i].
Qed.

Lemma exclude_packages_exact ps users u :
  in_ranges (exclude_packages IDBySharedPackage IDByPackage ps users).1 u <->
  exists p id, p ∈ ps /\ (exists user, user ∈ users /\ u = u32 (id + u32 (user * androidUserRange))) /\
    (IDBySharedPackage p = Some id \/ IDByPackage p = Some id).
Proof.
  induction ps as [|p ps IH]; cbn [exclude_packages fst].
  { rewrite in_ranges_nil. split; [done|]. intros (p & id & Hp & _). by apply elem_of_nil in Hp. }
  destruct (exclude_packages _ _ ps users) as [rs errs]. cbn [fst] in IH.
  set (of_id := fun o : option Z => match o with Some id => package_uids id users | None => [] end).
  assert (in_ranges (of_id (IDBySharedPackage p) ++ of_id (IDByPackage p) ++ rs) u <->
    exists q i, q ∈ p :: ps /\ (exists user, user ∈ users /\ u = u32 (i + u32 (user * androidUserRange))) /\
      (IDBySharedPackage q = Some i \/ IDByPackage q = Some i)) as Hgoal.
  { assert (forall o, in_ranges (of_id o) u <-> exists id, o = Some id /\ exists user, user ∈ users /\ u = u32 (id + u32 (user * androidUserRange))) as Hof.
    { intros [id|]; cbn [of_id]; [rewrite in_package_uids|rewrite in_ranges_nil]; split; [by eexists|by intros (? & [= ->] & ?)|done|by intros (? & ? & ?)]. }
    rewrite !in_ranges_app, !Hof, IH. split.
    - intros [(i & E & Hu)|[(i & E & Hu)|(q & i & Hq & Hr)]]; [exists p, i|exists p, i|exists q, i]; (split; [by constructor|]); try done; (split; [done|]); [by left|by right].
    - intros (q & i & Hq & Hu & Hi). apply elem_of_cons in Hq as [->|Hq]; [|right; right; by exists q, i].
      destruct Hi as [Hi|Hi]; [left|right; left]; by exists i. }
  unfold of_id in Hgoal. destruct (IDByPackage p); exact Hgoal.
Qed.

Lemma in_user_range user u : 0 <= user <= 42948 -> in_range (user_range user) u <-> u / androidUserRange = user.
Proof.
  intros Hu. unfold in_range, user_range, androidUserRange, u32. cbn [r_Start r_End].
  rewrite (Z.mod_small user), (Z.mod_small (user + 1)), !Z.mod_small by lia. zdm.
Qed.
Lemma in_user_ranges users u : Forall (fun x => 0 <= x <= 42948) users -> in_ranges (map user_range users) u <-> u / androidUserRange ∈ users.
Proof.
  intros HF. rewrite Forall_forall in HF. unfold in_ranges. rewrite Exists_exists. split.
  - intros (r & Hr & Hu). apply list_elem_of_fmap in Hr as (user & -> & Huser). by apply in_user_range in Hu as ->; [|apply HF].
  - intros Hin. eexists. split; [apply list_elem_of_fmap; by exists (u / androidUserRange)|]. apply in_user_range; [by apply HF|done].
Qed.

Lemma elem_of_uniq_or_nil {A} `{EqDecision A} (l : list A) x : x ∈ match l with [] => [] | _ => Uniq l end <-> x ∈ l.
Proof. destruct l; [done|]. apply Uniq_exact. Qed.

Lemma android_users o :
  let users := match IncludeAndroidUser o with [] => [] | _ => merge_sort Z.le (Uniq (IncludeAndroidUser o)) end in
  forall x, x ∈ users <-> x ∈ IncludeAndroidUser o.
Proof.
  cbv zeta. intros x. destruct (IncludeAndroidUser o) as [|a l]; [done|]. rewrite merge_sort_Permutation. apply Uniq_exact.
Qed.

(** The ranges made for packages and users are uint32 ranges. *)
Lemma package_uids_ok id users : Forall range_ok (package_uids id users).
Proof.
  apply Forall_fmap, Forall_forall. intros user _. cbn. pose proof (u32_range (id + u32 (user * androidUserRange))) as Hu. change (2 ^ 32) with 4294967296 in *. unfold range_ok. cbn [NewSingle r_Start r_End]. change (2 ^ 32) with 4294967296. lia.
Qed.
Lemma include_packages_ok ps users : Forall range_ok (include_packages IDBySharedPackage IDByPackage ps users).1.
Proof.
  induction ps as [|p ps IH]; [constructor|]. cbn [include_packages]. destruct (include_packages _ _ ps users) as [rs errs].
  destruct (IDBySharedPackage p); [|destruct (IDByPackage p)]; cbn [fst] in *; rewrite ?Forall_app; auto using package_uids_ok.
Qed.
Lemma exclude_packages_ok ps users : Forall range_ok (exclude_packages IDBySharedPackage IDByPackage ps users).1.
Proof.
  induction ps as [|p ps IH]; [constructor|]. cbn [exclude_packages]. destruct (exclude_packages _ _ ps users) as [rs errs].
  destruct (IDBySharedPackage p), (IDByPackage p); cbn [fst] in *; rewrite ?Forall_app; auto using package_uids_ok.
Qed.
Lemma user_ranges_within users : Forall (fun x => 0 <= x <= 42948) users -> Forall (within 0 userEnd) (map user_range users).
Proof.
  intros HF. apply Forall_fmap. eapply Forall_impl; [exact HF|]. intros x Hx. cbn beta in Hx. unfold within, user_range, androidUserRange, userEnd, u32. cbn [compose r_Start r_End].
  rewrite (Z.mod_small x), (Z.mod_small (x + 1)), !Z.mod_small by lia. lia.
Qed.

(** The options afterwards: the ids included and excluded, as uint32 ranges. *)
Lemma BuildAndroidRules_exact o :
  Forall (fun x => 0 <= x <= 42948) (IncludeAndroidUser o) -> Forall range_ok (IncludeUID o) -> Forall range_ok (ExcludeUID o) ->
  let o' := (BuildAndroidRules IDBySharedPackage IDByPackage ReadDir o).1 in
  (Forall range_ok (IncludeUID o') /\ Forall range_ok (ExcludeUID o')) /\
  (forall uid, in_ranges (IncludeUID o') uid <-> chosen o uid) /\
  (forall uid, 0 <= uid <= userEnd -> in_ranges (ExcludeUID o') uid <-> denied o uid).
Proof.
  intros HF HoI HoE. cbv zeta. unfold BuildAndroidRules. cbv zeta.
  pose proof (android_users o) as Hus. cbv zeta in Hus. set (users := match IncludeAndroidUser o with [] => [] | _ => _ end) in *.
  assert (Forall (fun x => 0 <= x <= 42948) users) as HFu.
  { apply Forall_forall. intros x Hx. rewrite Forall_forall in HF. by apply HF, Hus. }
  pose proof (user_ranges_within users HFu) as HW.
  change (match match map u32 users with [] => directory_users ReadDir | l => l end with [] => [0] | l => l end) with (package_users o).
  pose proof (fun ps => include_packages_exact ps (package_users o)) as HI.
  pose proof (fun ps => exclude_packages_exact ps (package_users o)) as HE.
  specialize (HI (match IncludePackage o with [] => [] | _ => Uniq (IncludePackage o) end)).
  specialize (HE (match ExcludePackage o with [] => [] | _ => Uniq (ExcludePackage o) end)).
  pose proof (include_packages_ok (match IncludePackage o with [] => [] | _ => Uniq (IncludePackage o) end) (package_users o)) as KI.
  pose proof (exclude_packages_ok (match ExcludePackage o with [] => [] | _ => Uniq (ExcludePackage o) end) (package_users o)) as KE.
  destruct (include_packages _ _ _ _) as [inc errs1]. destruct (exclude_packages _ _ _ _) as [exc errs2]. cbn [fst with_users IncludeUID ExcludeUID] in *.
  split; [|split].
  - rewrite !Forall_app. split; [done|]. split; [|done]. destruct (IncludeAndroidUser o); [done|]. apply Forall_app. split; [done|].
    by apply Revert_ok.
  - intros uid. rewrite !in_ranges_app, HI. unfold chosen, package_uid. setoid_rewrite elem_of_uniq_or_nil. tauto.
  - intros uid Hu. rewrite !in_ranges_app, HE. unfold denied, package_uid. setoid_rewrite elem_of_uniq_or_nil.
    enough (in_ranges (match IncludeAndroidUser o with [] => ExcludeUID o | _ => ExcludeUID o ++ Revert 0 userEnd (map user_range users) end) uid <->
      in_ranges (ExcludeUID o) uid \/ (IncludeAndroidUser o <> [] /\ uid / androidUserRange ∉ IncludeAndroidUser o)) as -> by tauto.
    destruct (IncludeAndroidUser o) as [|a l] eqn:E; [tauto|]. rewrite in_ranges_app, (Revert_exact _ _ _ _ HW), in_user_ranges by done.
    rewrite Hus. split; [intros [?|[_ ?]]; [by left|by right]|intros [?|[_ ?]]; [by left|by right]].
Qed.

(** uint32 ranges without the last id lie within the ids of users. *)
Lemma within_users rs : Forall range_ok rs -> ~ in_ranges rs (userEnd + 1) -> Forall (within 0 userEnd) rs.
Proof.
  intros HF HN. apply Forall_forall. intros r Hr. rewrite Forall_forall in HF. destruct (HF r Hr) as [? ?].
  split; [lia|]. unfold in_ranges in HN. rewrite Exists_exists in HN. destruct (Z.le_gt_cases (r_End r) userEnd) as [|Hgt]; [done|].
  destruct HN. exists r. split; [done|]. unfold in_range, userEnd in *. lia.
Qed.

(** C29: the user ids left out of the device.  After BuildAndroidRules and
    ExcludedRanges, for uint32 ranges, Android users up to 42948 (whose ids fit
    32 bits) and options that do not choose the id 0xFFFFFFFF, the excluded ids
    are the denied ids when nothing is included, and otherwise everything but
    the chosen ids that are not denied, where an id is chosen by IncludeUID or
    as a package to include of one of the users, and denied by ExcludeUID, by
    belonging to a user that is not included, or as a package to exclude.  A
    package to exclude is reported as not found exactly when it has no id of
    its own, even if it was found as a shared package. *)
Theorem ExcludedRanges_exact o uid :
  Forall (fun x => 0 <= x <= 42948) (IncludeAndroidUser o) -> Forall range_ok (IncludeUID o) -> Forall range_ok (ExcludeUID o) ->
  ~ chosen o (userEnd + 1) -> 0 <= uid <= userEnd ->
  let r := BuildAndroidRules IDBySharedPackage IDByPackage ReadDir o in
  (in_ranges (ExcludedRanges r.1) uid <-> if decide (IncludeUID r.1 = []) then denied o uid else ~ (chosen o uid /\ ~ denied o uid)) /\
  (forall p, p ∈ r.2.2 <-> p ∈ ExcludePackage o /\ IDByPackage p = None).
Proof.
  intros HF HoI HoE HN Hu. cbv zeta. destruct (BuildAndroidRules_exact o HF HoI HoE) as ((KI & KE) & HI & HE). split.
  - assert (Forall (within 0 userEnd) (IncludeUID (BuildAndroidRules IDBySharedPackage IDByPackage ReadDir o).1)) as HW by (apply within_users; [done|by rewrite HI]).
    unfold ExcludedRanges, buildExcludedRanges. destruct (IncludeUID (BuildAndroidRules IDBySharedPackage IDByPackage ReadDir o).1) as [|r rs] eqn:E.
    + rewrite Merge_exact by done. by apply HE.
    + rewrite decide_False by done. pose proof (Exclude_within 0 userEnd _ _ KE HW) as HX.
      rewrite Merge_exact by by apply Revert_ok. rewrite Revert_exact, Exclude_exact, HI, HE by done. tauto.
  - intros p. unfold BuildAndroidRules. cbv zeta.
    assert (forall ps users, p ∈ (exclude_packages IDBySharedPackage IDByPackage ps users).2 <-> p ∈ ps /\ IDByPackage p = None) as HP.
    { induction ps as [|q ps IH]; intros users; cbn [exclude_packages snd]; [split; [by intros ?%elem_of_nil|by intros [?%elem_of_nil _]]|].
      specialize (IH users). destruct (exclude_packages _ _ ps users) as [rs errs]. cbn [snd] in IH.
      destruct (IDByPackage q) eqn:Eq; cbn [snd]; rewrite ?elem_of_cons, ?IH; split; intuition (subst; congruence). }
    destruct (include_packages _ _ _ _) as [inc errs1].
    match goal with |- context [exclude_packages ?a ?b ?ps ?us] => specialize (HP ps us); destruct (exclude_packages a b ps us) as [exc errs2] end.
    cbn [snd] in *. rewrite HP, elem_of_uniq_or_nil. done.
Qed.
End UserSpec.

(** ** What the routes cover *)

Definition is_v4 (p : netip.Prefix) : Prop := exists b, netip.pf_addr p = netip.Addr4 b.
Definition is_v6 (p : netip.Prefix) : Prop := exists b, netip.pf_addr p = netip.Addr6 b.
Definition addr4 (b : list Z) : Prop := bytes b /\ length b = 4%nat.
Definition addr6 (b : list Z) : Prop := bytes b /\ length b = 16%nat.
Definition options_valid (o : Options) : Prop :=
  Forall (fun p => valid_prefix p /\ is_v4 p) (Inet4Address o ++ Inet4RouteAddress o ++ Inet4RouteExcludeAddress o) /\
  Forall (fun p => valid_prefix p /\ is_v6 p) (Inet6Address o ++ Inet6RouteAddress o ++ Inet6RouteExcludeAddress o).

Lemma covered_app a b ip : covered (a ++ b) ip = covered a ip || covered b ip.
Proof. apply existsb_app. Qed.
Lemma covered_cons p ps ip : covered (p :: ps) ip = netip.Contains p ip || covered ps ip.
Proof. done. Qed.
Lemma covered_none ps ip : Forall (fun p => netip.BitLen ip <> netip.BitLen (netip.pf_addr p)) ps -> covered ps ip = false.
Proof.
  induction 1 as [|p ps Hp _ IH]; [done|]. rewrite covered_cons. rewrite IH. unfold netip.Contains. rewrite (proj2 (Z.eqb_neq _ _) Hp), orb_true_r. done.
Qed.
Lemma BitLen4 b : addr4 b -> netip.BitLen (netip.Addr4 b) = 32.
Proof. intros [_ E]. unfold netip.BitLen, Zlen. cbn [netip.AsSlice]. by rewrite E. Qed.
Lemma BitLen6 b : addr6 b -> netip.BitLen (netip.Addr6 b) = 128.
Proof. intros [_ E]. unfold netip.BitLen, Zlen. cbn [netip.AsSlice]. by rewrite E. Qed.
Lemma valid4_addr p : valid_prefix p -> is_v4 p -> exists b, netip.pf_addr p = netip.Addr4 b /\ addr4 b /\ 0 <= netip.pf_bits p <= 32.
Proof. intros (Hwf & _ & Hb) [b E]. exists b. rewrite E in *. split; [done|]. split; [done|]. by rewrite (BitLen4 b Hwf) in Hb. Qed.
Lemma valid6_addr p : valid_prefix p -> is_v6 p -> exists b, netip.pf_addr p = netip.Addr6 b /\ addr6 b /\ 0 <= netip.pf_bits p <= 128.
Proof. intros (Hwf & _ & Hb) [b E]. exists b. rewrite E in *. split; [done|]. split; [done|]. by rewrite (BitLen6 b Hwf) in Hb. Qed.

(** The whole family, and the halves that leave out the first eighth bit
    pattern: every address whose first byte is not zero. *)
Lemma all4 b : addr4 b -> netip.Contains (netip.PrefixFrom (netip.Addr4 (repeat 0 4)) 0) (netip.Addr4 b) = true.
Proof.
  intros Hb. unfold netip.Contains. cbn [netip.pf_addr netip.IsValid negb orb]. rewrite (BitLen4 b Hb). change (netip.BitLen (netip.Addr4 (repeat 0 4))) with 32.
  cbn [Z.eqb negb]. pose proof (netip.be_val_range b 4 (proj1 Hb) (proj2 Hb)). cbn [netip.pf_bits]. rewrite !Z.shiftr_div_pow2 by lia.
  apply Z.eqb_eq. unfold netip.val. cbn [netip.AsSlice]. rewrite Z.div_small; [|done]. symmetry. by apply Z.div_small.
Qed.
Lemma all6 b : addr6 b -> netip.Contains (netip.PrefixFrom (netip.Addr6 (repeat 0 16)) 0) (netip.Addr6 b) = true.
Proof.
  intros Hb. unfold netip.Contains. cbn [netip.pf_addr netip.IsValid negb orb]. rewrite (BitLen6 b Hb). change (netip.BitLen (netip.Addr6 (repeat 0 16))) with 128.
  cbn [Z.eqb negb]. pose proof (netip.be_val_range b 16 (proj1 Hb) (proj2 Hb)). cbn [netip.pf_bits]. rewrite !Z.shiftr_div_pow2 by lia.
  apply Z.eqb_eq. unfold netip.val. cbn [netip.AsSlice]. rewrite Z.div_small; [|done]. symmetry. by apply Z.div_small.
Qed.

(** The first byte of an address of [n + 1] bytes. *)
Lemma first_byte b n : bytes b -> length b = S n -> be_val b / 256 ^ Z.of_nat n = byte_at b 0.
Proof.
  intros Hb Hl. destruct b as [|x b]; [done|]. apply Forall_cons in Hb as [Hx Hb]. injection Hl as Hl.
  assert (be_val (x :: b) = x * 256 ^ Z.of_nat n + be_val b) as ->.
  { subst n. clear Hb. induction b as [|y b IH] using rev_ind; [unfold be_val; cbn; lia|].
    rewrite app_comm_cons, !netip.be_val_snoc, IH, length_app. cbn [length]. rewrite Nat.add_1_r, Nat2Z.inj_succ, Z.pow_succ_r by lia. lia. }
  pose proof (netip.be_val_range b n Hb Hl). change (byte_at (x :: b) 0) with x.
  rewrite Z.div_add_l by lia. rewrite Z.div_small by lia. lia.
Qed.

Lemma sub_range (mk : list Z -> netip.Addr) (n : nat) (W : Z) b x k :
  W = 8 * Z.of_nat (S n) -> 0 <= k <= 8 -> netip.BitLen (mk b) = W -> netip.BitLen (mk (x :: repeat 0 n)) = W ->
  netip.IsValid (mk b) = true -> netip.IsValid (mk (x :: repeat 0 n)) = true ->
  netip.val (mk b) / 256 ^ Z.of_nat n = byte_at b 0 -> netip.val (mk (x :: repeat 0 n)) / 256 ^ Z.of_nat n = x ->
  netip.Contains (netip.PrefixFrom (mk (x :: repeat 0 n)) k) (mk b) = (x / 2 ^ (8 - k) =? byte_at b 0 / 2 ^ (8 - k)).
Proof.
  intros HW Hk B1 B2 V1 V2 E1 E2. unfold netip.Contains. cbn [netip.pf_addr netip.pf_bits]. rewrite B1, B2, V1, V2, Z.eqb_refl. cbn [negb orb].
  rewrite !Z.shiftr_div_pow2 by lia. replace (W - k) with (8 * Z.of_nat n + (8 - k)) by lia.
  rewrite Z.pow_add_r, Z.pow_mul_r by lia. change (2 ^ 8) with 256. rewrite <- !Z.div_div, E1, E2 by lia. done.
Qed.
Definition any_half (x : Z) : bool :=
  existsb (fun e => e.1 / 2 ^ (8 - e.2) =? x / 2 ^ (8 - e.2)) [(1, 8); (2, 7); (4, 6); (8, 5); (16, 4); (32, 3); (64, 2); (128, 1)].
Lemma any_half_exact x : is_u8 x -> any_half x = negb (x =? 0).
Proof.
  intros Hx. assert (forallb (fun y => Bool.eqb (any_half y) (negb (y =? 0))) (seqZ 0 256) = true) as HF by (vm_compute; reflexivity).
  rewrite forallb_forall in HF. apply Bool.eqb_prop, HF, list_elem_of_In, elem_of_seqZ. lia.
Qed.

Lemma sub_ranges4_covered b : addr4 b -> covered sub_ranges4 (netip.Addr4 b) = negb (byte_at b 0 =? 0).
Proof.
  intros Hb. rewrite <- any_half_exact by (apply bytes_byte_at, Hb).
  assert (forall x k, 0 <= k <= 8 -> is_u8 x -> netip.Contains (netip.PrefixFrom (netip.Addr4 (x :: repeat 0 3)) k) (netip.Addr4 b) = (x / 2 ^ (8 - k) =? byte_at b 0 / 2 ^ (8 - k))) as HC.
  { intros x k Hk Hx. assert (addr4 (x :: repeat 0 3)) as Hx4 by (split; [by repeat constructor; lia|done]).
    apply (sub_range netip.Addr4 3 32); try done; [by apply BitLen4|by apply (first_byte b 3); apply Hb|by apply (first_byte (x :: repeat 0 3) 3); apply Hx4]. }
  unfold covered, sub_ranges4, any_half, netip.AddrFrom4. cbn [map existsb fst snd]. by rewrite !HC by lia.
Qed.
Lemma sub_ranges6_covered b : addr6 b -> covered sub_ranges6 (netip.Addr6 b) = negb (byte_at b 0 =? 0).
Proof.
  intros Hb. rewrite <- any_half_exact by (apply bytes_byte_at, Hb).
  assert (forall x k, 0 <= k <= 8 -> is_u8 x -> netip.Contains (netip.PrefixFrom (netip.Addr6 (x :: repeat 0 15)) k) (netip.Addr6 b) = (x / 2 ^ (8 - k) =? byte_at b 0 / 2 ^ (8 - k))) as HC.
  { intros x k Hk Hx. assert (addr6 (x :: repeat 0 15)) as Hx6 by (split; [by repeat constructor; lia|done]).
    apply (sub_range netip.Addr6 15 128); try done; [by apply BitLen6|by apply (first_byte b 15); apply Hb|by apply (first_byte (x :: repeat 0 15) 15); apply Hx6]. }
  unfold covered, sub_ranges6, any_half, netip.AddrFrom16. cbn [map existsb fst snd]. by rewrite !HC by lia.
Qed.

Section RouteSpec.
Context `{IPSetPackage} (darwin underNetworkExtension : bool).

(** What one family routes before exclusions: the configured routes (with the
    interface prefixes shorter than 32 bits on Darwin), or else everything, on
    Darwin outside a network extension everything whose first byte is not zero. *)
Definition base (addresses routeAddresses : list netip.Prefix) (ip : netip.Addr) : bool :=
  match routeAddresses with
  | _ :: _ => covered routeAddresses ip || (darwin && covered (map Masked (filter (fun a => netip.pf_bits a < 32) addresses)) ip)
  | [] => if darwin && negb underNetworkExtension then negb (byte_at (netip.AsSlice ip) 0 =? 0) else true
  end.

Lemma Masked_valid4 p : valid_prefix p -> is_v4 p -> valid_prefix (Masked p) /\ is_v4 (Masked p).
Proof.
  intros HV H4. destruct (valid4_addr p HV H4) as (b & E & Hb & Hbits). unfold Masked, netip.MaskedAddr. rewrite E.
  split; [|by eexists]. split; [split; [apply netip.bytes_be_bytes|apply netip.length_be_bytes]|]. split; [done|].
  cbn [netip.pf_addr netip.pf_bits]. rewrite BitLen4; [lia|]. split; [apply netip.bytes_be_bytes|apply netip.length_be_bytes].
Qed.
Lemma Masked_valid6 p : valid_prefix p -> is_v6 p -> valid_prefix (Masked p) /\ is_v6 (Masked p).
Proof.
  intros HV H6. destruct (valid6_addr p HV H6) as (b & E & Hb & Hbits). unfold Masked, netip.MaskedAddr. rewrite E.
  split; [|by eexists]. split; [split; [apply netip.bytes_be_bytes|apply netip.length_be_bytes]|]. split; [done|].
  cbn [netip.pf_addr netip.pf_bits]. rewrite BitLen6; [lia|]. split; [apply netip.bytes_be_bytes|apply netip.length_be_bytes].
Qed.

Lemma route_ranges_family (fam : netip.Prefix -> Prop) addresses routeAddresses subRanges all :
  Forall (fun p => valid_prefix p /\ fam p) (addresses ++ routeAddresses) ->
  Forall (fun p => valid_prefix p /\ fam p) (all :: subRanges) ->
  (forall p, valid_prefix p -> fam p -> valid_prefix (Masked p) /\ fam (Masked p)) ->
  Forall (fun p => valid_prefix p /\ fam p) (route_ranges darwin underNetworkExtension addresses routeAddresses subRanges all).
Proof.
  intros HF HS HM. apply Forall_app in HF as [HA HR]. apply Forall_cons in HS as [Hall HS]. unfold route_ranges. destruct routeAddresses as [|r rs].
  - destruct (darwin && _); [exact HS|]. constructor; [exact Hall|constructor].
  - apply Forall_app. split; [done|]. destruct darwin; [|constructor]. apply Forall_fmap, Forall_forall. intros a Ha.
    apply list_elem_of_filter in Ha as [_ Ha]. rewrite Forall_forall in HA. destruct (HA a Ha). by apply HM.
Qed.

(** One family, for any constructor of its prefixes. *)
Lemma family_routes (fam : netip.Prefix -> Prop) addresses routeAddresses excluded subRanges all :
  Forall (fun p => valid_prefix p /\ fam p) (addresses ++ routeAddresses ++ excluded) ->
  Forall (fun p => valid_prefix p /\ fam p) (all :: subRanges) ->
  (forall p, valid_prefix p -> fam p -> valid_prefix (Masked p) /\ fam (Masked p)) ->
  exists ps, without_excluded (route_ranges darwin underNetworkExtension addresses routeAddresses subRanges all) excluded = inr ps /\
    forall ip, valid_addr ip ->
      covered ps ip = covered (route_ranges darwin underNetworkExtension addresses routeAddresses subRanges all) ip && negb (covered excluded ip).
Proof.
  intros HF HS HM. pose proof HF as HF'. rewrite app_assoc in HF'. apply Forall_app in HF' as [HF' HX].
  pose proof (route_ranges_family fam _ _ _ _ HF' HS HM) as Hr. set (ranges := route_ranges _ _ _ _ _ _) in *.
  unfold without_excluded. destruct excluded as [|e es].
  - exists ranges. split; [done|]. intros ip _. by rewrite andb_true_r.
  - apply IPSet_exact; (eapply Forall_impl; [eassumption|]); by intros p [? _].
Qed.

Lemma valid_all4 : Forall (fun p => valid_prefix p /\ is_v4 p) (netip.PrefixFrom (netip.Addr4 (repeat 0 4)) 0 :: sub_ranges4).
Proof.
  repeat constructor; try (by eexists); cbn; try lia; try done.
Qed.
Lemma valid_all6 : Forall (fun p => valid_prefix p /\ is_v6 p) (netip.PrefixFrom (netip.Addr6 (repeat 0 16)) 0 :: sub_ranges6).
Proof.
  repeat constructor; try (by eexists); cbn; try lia; try done.
Qed.

Lemma base_ranges4 addresses routeAddresses b : addr4 b ->
  covered (route_ranges darwin underNetworkExtension addresses routeAddresses sub_ranges4 (netip.PrefixFrom (netip.Addr4 (repeat 0 4)) 0)) (netip.Addr4 b)
    = base addresses routeAddresses (netip.Addr4 b).
Proof.
  intros Hb. unfold route_ranges, base. destruct routeAddresses; [|rewrite covered_app; by destruct darwin].
  destruct (darwin && _); [by apply sub_ranges4_covered|]. cbn [covered existsb]. by rewrite all4.
Qed.
Lemma base_ranges6 addresses routeAddresses b : addr6 b ->
  covered (route_ranges darwin underNetworkExtension addresses routeAddresses sub_ranges6 (netip.PrefixFrom (netip.Addr6 (repeat 0 16)) 0)) (netip.Addr6 b)
    = base addresses routeAddresses (netip.Addr6 b).
Proof.
  intros Hb. unfold route_ranges, base. destruct routeAddresses; [|rewrite covered_app; by destruct darwin].
  destruct (darwin && _); [by apply sub_ranges6_covered|]. cbn [covered existsb]. by rewrite all6.
Qed.

(** Prefixes of one family cover nothing of the other. *)
Lemma other_family ps ip (P : netip.Prefix -> Prop) :
  Forall (fun p => valid_prefix p /\ P p) ps -> (forall p, valid_prefix p -> P p -> netip.BitLen ip <> netip.BitLen (netip.pf_addr p)) ->
  covered ps ip = false.
Proof. intros HF HP. apply covered_none. eapply Forall_impl; [exact HF|]. intros p [??]. by apply HP. Qed.
Lemma v4_not_6 b p : addr6 b -> valid_prefix p -> is_v4 p -> netip.BitLen (netip.Addr6 b) <> netip.BitLen (netip.pf_addr p).
Proof. intros Hb HV H4. destruct (valid4_addr p HV H4) as (c & -> & Hc & _). by rewrite BitLen4, BitLen6. Qed.
Lemma v6_not_4 b p : addr4 b -> valid_prefix p -> is_v6 p -> netip.BitLen (netip.Addr4 b) <> netip.BitLen (netip.pf_addr p).
Proof. intros Hb HV H6. destruct (valid6_addr p HV H6) as (c & -> & Hc & _). by rewrite BitLen4, BitLen6. Qed.

Lemma family4 addresses routeAddresses excluded :
  Forall (fun p => valid_prefix p /\ is_v4 p) (addresses ++ routeAddresses ++ excluded) ->
  exists ps, without_excluded (route_ranges darwin underNetworkExtension addresses routeAddresses sub_ranges4 (netip.PrefixFrom (netip.Addr4 (repeat 0 4)) 0)) excluded = inr ps /\
    (forall b, addr4 b -> covered ps (netip.Addr4 b) = base addresses routeAddresses (netip.Addr4 b) && negb (covered excluded (netip.Addr4 b))) /\
    (forall b, addr6 b -> covered ps (netip.Addr6 b) = false).
Proof.
  intros HF. pose proof HF as HF'. rewrite app_assoc in HF'. apply Forall_app in HF' as [HF' _].
  pose proof (route_ranges_family is_v4 _ _ _ _ HF' valid_all4 Masked_valid4) as HR.
  destruct (family_routes is_v4 _ _ _ _ _ HF valid_all4 Masked_valid4) as (ps & E & HC). exists ps. split; [done|]. split.
  - intros b Hb. by rewrite HC, base_ranges4 by (done || by split).
  - intros b Hb. rewrite HC by by split. by rewrite (other_family _ _ is_v4 HR (fun p => v4_not_6 b p Hb)).
Qed.
Lemma family6 addresses routeAddresses excluded :
  Forall (fun p => valid_prefix p /\ is_v6 p) (addresses ++ routeAddresses ++ excluded) ->
  exists ps, without_excluded (route_ranges darwin underNetworkExtension addresses routeAddresses sub_ranges6 (netip.PrefixFrom (netip.Addr6 (repeat 0 16)) 0)) excluded = inr ps /\
    (forall b, addr6 b -> covered ps (netip.Addr6 b) = base addresses routeAddresses (netip.Addr6 b) && negb (covered excluded (netip.Addr6 b))) /\
    (forall b, addr4 b -> covered ps (netip.Addr4 b) = false).
Proof.
  intros HF. pose proof HF as HF'. rewrite app_assoc in HF'. apply Forall_app in HF' as [HF' _].
  pose proof (route_ranges_family is_v6 _ _ _ _ HF' valid_all6 Masked_valid6) as HR.
  destruct (family_routes is_v6 _ _ _ _ _ HF valid_all6 Masked_valid6) as (ps & E & HC). exists ps. split; [done|]. split.
  - intros b Hb. by rewrite HC, base_ranges6 by (done || by split).
  - intros b Hb. rewrite HC by by split. by rewrite (other_family _ _ is_v6 HR (fun p => v6_not_4 b p Hb)).
Qed.

(** C28: the routes of the device.  For valid options BuildAutoRouteRanges
    returns prefixes that cover exactly: of IPv4, when AutoRoute is set and there
    is an IPv4 address, what the configuration routes less the excluded prefixes;
    of IPv6 the same when there is an IPv6 address, whether AutoRoute is set or
    not.  With no routes configured everything is routed (on Darwin outside a
    network extension, every address whose first byte is not zero). *)
Theorem BuildAutoRouteRanges_exact o :
  options_valid o ->
  exists ps, BuildAutoRouteRanges darwin underNetworkExtension o = inr ps /\
    (forall b, addr4 b ->
       covered ps (netip.Addr4 b) =
         AutoRoute o && negb (bool_decide (Inet4Address o = [])) &&
         (base (Inet4Address o) (Inet4RouteAddress o) (netip.Addr4 b) && negb (covered (Inet4RouteExcludeAddress o) (netip.Addr4 b)))) /\
    (forall b, addr6 b ->
       covered ps (netip.Addr6 b) =
         negb (bool_decide (Inet6Address o = [])) &&
         (base (Inet6Address o) (Inet6RouteAddress o) (netip.Addr6 b) && negb (covered (Inet6RouteExcludeAddress o) (netip.Addr6 b)))).
Proof.
  intros [H4 H6]. unfold BuildAutoRouteRanges.
  destruct (family4 (Inet4Address o) (Inet4RouteAddress o) (Inet4RouteExcludeAddress o) H4) as (ps4 & E4 & C4 & N4).
  destruct (family6 (Inet6Address o) (Inet6RouteAddress o) (Inet6RouteExcludeAddress o) H6) as (ps6 & E6 & C6 & N6).
  rewrite E4, E6. set (r4 := match AutoRoute o with true => _ | false => _ end).
  assert (exists q, r4 = inr q /\ (forall b, addr6 b -> covered q (netip.Addr6 b) = false) /\
    forall b, addr4 b -> covered q (netip.Addr4 b) = AutoRoute o && negb (bool_decide (Inet4Address o = [])) &&
      (base (Inet4Address o) (Inet4RouteAddress o) (netip.Addr4 b) && negb (covered (Inet4RouteExcludeAddress o) (netip.Addr4 b)))) as (q & -> & Nq & Cq).
  { subst r4. destruct (AutoRoute o); [|by exists []]. destruct (Inet4Address o) as [|a l] eqn:E; [by exists []|].
    exists ps4. split; [done|]. split; [done|]. intros b Hb. by rewrite C4, bool_decide_eq_false_2 by done. }
  destruct (Inet6Address o) as [|a l] eqn:E.
  - exists (q ++ []). rewrite app_nil_r. split; [done|]. split; [done|]. intros b Hb. by rewrite Nq.
  - exists (q ++ ps6). split; [done|]. split; intros b Hb; rewrite covered_app; [by rewrite N6, orb_false_r, Cq|].
    by rewrite Nq, C6, bool_decide_eq_false_2 by done.
Qed.
End RouteSpec.

(** ** The packages, implemented naively

    Small implementations of the parameters show their laws satisfiable. *)

Module naive.

(** The part of [a] before [b] and the part after it. *)
Definition cut (a b : Range) : list Range :=
  filter (fun r => r_Start r <= r_End r)
    [mkRange (r_Start a) (Z.min (r_End a) (r_Start b - 1)); mkRange (Z.max (r_Start a) (r_End b + 1)) (r_End a)].
Definition exclude (a b : list Range) : list Range := fold_left (fun rs r => flat_map (fun x => cut x r) rs) b a.

Lemma cut_exact a b u : r_Start b <= r_End b -> in_ranges (cut a b) u <-> in_range a u /\ ~ in_range b u.
Proof.
  intros Hb. unfold in_ranges. rewrite Exists_exists. unfold cut. split.
  - intros (r & Hr & Hu). apply list_elem_of_filter in Hr as [_ Hr]. unfold in_range in *.
    rewrite !elem_of_cons in Hr. destruct Hr as [->|[->|Hr%elem_of_nil]]; cbn [r_Start r_End] in Hu; [lia|lia|done].
  - unfold in_range. intros [Ha Hn]. destruct (Z.lt_ge_cases u (r_Start b)); eexists; (split; [apply list_elem_of_filter; split; cycle 1|]);
      [by left| |cbn [r_Start r_End]; lia|by right; left| |cbn [r_Start r_End]; lia]; cbn [r_Start r_End]; lia.
Qed.
Lemma in_ranges_flat_map (f : Range -> list Range) rs u : in_ranges (flat_map f rs) u <-> Exists (fun r => in_ranges (f r) u) rs.
Proof.
  induction rs as [|r rs IH]; cbn [flat_map]; [rewrite Exists_nil; apply in_ranges_nil|]. by rewrite in_ranges_app, Exists_cons, IH.
Qed.
Lemma exclude_exact a b u : Forall (fun r => r_Start r <= r_End r) b -> in_ranges (exclude a b) u <-> in_ranges a u /\ ~ in_ranges b u.
Proof.
  intros Hb. unfold exclude. revert a. induction Hb as [|r b Hr _ IH]; intros a; cbn [fold_left].
  { rewrite in_ranges_nil. tauto. }
  rewrite IH, in_ranges_flat_map. change (r :: b) with ([r] ++ b). rewrite in_ranges_app.
  assert (in_ranges [r] u <-> in_range r u) as -> by (unfold in_ranges; rewrite Exists_cons, Exists_nil; tauto).
  enough (Exists (fun x => in_ranges (cut x r) u) a <-> in_ranges a u /\ ~ in_range r u) as -> by tauto.
  unfold in_ranges at 2. rewrite !Exists_exists. split.
  - intros (x & Hx & Hc). apply cut_exact in Hc as [? ?]; [|done]. split; [by exists x|done].
  - intros [(x & Hx & Hin) Hn]. exists x. split; [done|]. by apply cut_exact.
Qed.
Lemma cut_within s e a b : r_Start b <= r_End b -> within s e a -> Forall (within s e) (cut a b).
Proof.
  intros Hb [Ha He]. apply Forall_forall. intros r Hr. apply list_elem_of_filter in Hr as [Hle Hr].
  rewrite !elem_of_cons in Hr. unfold within. destruct Hr as [->|[->|Hr%elem_of_nil]]; cbn [r_Start r_End] in *; [lia|lia|done].
Qed.
Lemma exclude_within s e a b : Forall (fun r => r_Start r <= r_End r) b -> Forall (within s e) a -> Forall (within s e) (exclude a b).
Proof.
  intros Hb. unfold exclude. revert a. induction Hb as [|r b Hr _ IH]; intros a Ha; [done|]. cbn [fold_left]. apply IH.
  clear IH. induction Ha as [|x a Hx _ IH]; [constructor|]. cbn [flat_map]. apply Forall_app. split; [by apply cut_within|done].
Qed.

Lemma ok_le rs : Forall range_ok rs -> Forall (fun r => r_Start r <= r_End r) rs.
Proof. intros HF. eapply Forall_impl; [exact HF|]. intros r [? ?]. lia. Qed.
Lemma within_le s e rs : Forall (within s e) rs -> Forall (fun r => r_Start r <= r_End r) rs.
Proof. intros HF. eapply Forall_impl; [exact HF|]. intros r [? ?]. lia. Qed.

#[local] Instance ranges_package : RangesPackage.
Proof.
  refine {| Revert := fun s e rs => if s <=? e then exclude [mkRange s e] rs else []; Exclude := exclude; Merge := fun rs => rs |}.
  - intros s e rs u HF. destruct (Z.leb_spec s e).
    + rewrite exclude_exact by by eapply within_le. unfold in_ranges at 1. rewrite Exists_cons, Exists_nil. unfold in_range at 1. cbn [r_Start r_End]. tauto.
    + rewrite in_ranges_nil. split; [done|lia].
  - intros a b u _ Hb. by apply exclude_exact, ok_le.
  - intros s e a b Hb. by apply exclude_within, ok_le.
  - intros s e rs Hs He HF. destruct (Z.leb_spec s e); [|constructor].
    assert (Forall (within s e) (exclude [mkRange s e] rs)) as HX.
    { apply exclude_within; [by eapply within_le|]. constructor; [|constructor]. unfold within. cbn [r_Start r_End]. lia. }
    eapply Forall_impl; [exact HX|]. intros r [? ?]. unfold range_ok. lia.
  - done.
Defined.
#[local] Instance uniq_package : UniqPackage.
Proof.
  refine {| Uniq := fun A _ l => remove_dups l |}. intros A dec l. split; [apply NoDup_remove_dups|intros x; apply elem_of_remove_dups].
Defined.

(** A node of the binary trie: the first [k] bits of an address are [q]. *)
Definition in_node (w : Z) (x : Z * Z) (v : Z) : bool := Z.shiftr v (w - x.2) =? x.1.
Definition inside (x r : Z * Z) : bool := (r.2 <=? x.2) && (Z.shiftr x.1 (x.2 - r.2) =? r.1).
Fixpoint carve (n : nat) (x : Z * Z) (removes : list (Z * Z)) : list (Z * Z) :=
  if existsb (inside x) removes then []
  else match n with
       | O => [x]
       | S n' =>
           if existsb (fun r => inside r x) removes
           then carve n' (2 * x.1, x.2 + 1) removes ++ carve n' (2 * x.1 + 1, x.2 + 1) removes
           else [x]
       end.

Definition in_nodes (w : Z) (xs : list (Z * Z)) (v : Z) : bool := existsb (fun x => in_node w x v) xs.

Lemma in_node_inside w x r v : r.2 <= x.2 -> x.2 <= w -> in_node w x v = true -> in_node w r v = inside x r.
Proof.
  unfold in_node, inside. intros Hk Hw Hx%Z.eqb_eq. rewrite (proj2 (Z.leb_le _ _) Hk). cbn [andb]. rewrite <- Hx, Z.shiftr_shiftr by lia.
  do 2 f_equal. lia.
Qed.
Lemma in_node_halves w x v : x.2 < w ->
  in_node w x v = in_node w (2 * x.1, x.2 + 1) v || in_node w (2 * x.1 + 1, x.2 + 1) v.
Proof.
  intros Hk. unfold in_node. cbn [fst snd]. replace (w - x.2) with ((w - (x.2 + 1)) + 1) by lia.
  rewrite <- Z.shiftr_shiftr by lia. rewrite (Z.shiftr_div_pow2 _ 1) by lia. change (2 ^ 1) with 2.
  apply Bool.eq_true_iff_eq. rewrite orb_true_iff, !Z.eqb_eq. zdm.
Qed.
Lemma in_nodes_app w a b v : in_nodes w (a ++ b) v = in_nodes w a v || in_nodes w b v.
Proof. apply existsb_app. Qed.

(** A node with no removed node around or inside it keeps its addresses. *)
Lemma node_kept w x rs v : x.2 <= w -> Forall (fun r => r.2 <= w) rs ->
  Forall (fun r => inside x r = false /\ (x.2 < r.2 -> inside r x = false)) rs -> in_node w x v = true -> in_nodes w rs v = false.
Proof.
  intros Hx Hw HF Hv. unfold in_nodes. induction HF as [|r rs [H1 H2] _ IH]; [done|]. apply Forall_cons in Hw as [Hr Hw]. cbn [existsb]. rewrite IH by done.
  rewrite orb_false_r. destruct (Z.le_gt_cases r.2 x.2) as [Hle|Hgt]; [by rewrite (in_node_inside w x r v)|].
  destruct (in_node w r v) eqn:E; [|done]. pose proof (in_node_inside w r x v) as HI. rewrite HI, H2 in Hv; [done|lia..|done].
Qed.
Lemma existsb_false {A} (f : A -> bool) l : existsb f l = false -> Forall (fun x => f x = false) l.
Proof. induction l as [|x l IH]; cbn [existsb]; intros HE; [constructor|]. apply orb_false_iff in HE as [? ?]. constructor; auto. Qed.

Lemma carve_exact w rs n x v : x.2 + Z.of_nat n = w -> Forall (fun r => r.2 <= w) rs ->
  in_nodes w (carve n x rs) v = in_node w x v && negb (in_nodes w rs v).
Proof.
  intros Hn Hw. revert x Hn. induction n as [|n IH]; intros x Hn; cbn [carve]; destruct (existsb (inside x) rs) eqn:E.
  1, 3: apply existsb_exists in E as (r & Hr & Hin); destruct (in_node w x v) eqn:Ev; [|done]; symmetry; apply negb_false_iff, existsb_exists;
    exists r; split; [done|]; rewrite (in_node_inside w x r v); [done|unfold inside in Hin; lia..|done].
  - apply existsb_false in E. unfold in_nodes at 1. cbn [existsb]. rewrite orb_false_r. destruct (in_node w x v) eqn:Ev; [|done].
    rewrite (node_kept w x rs v); [done|lia|done| |done]. rewrite Forall_forall in *. intros r Hr. split; [by apply E|]. intros Hlt. specialize (Hw r Hr). cbn in Hw. lia.
  - destruct (existsb (fun r => inside r x) rs) eqn:E2.
    + rewrite in_nodes_app, !IH by (cbn [snd]; lia). rewrite (in_node_halves w x v) by lia. by destruct (in_node w (2 * x.1, _) v), (in_node w (2 * x.1 + 1, _) v), (in_nodes w rs v).
    + apply existsb_false in E, E2. unfold in_nodes at 1. cbn [existsb]. rewrite orb_false_r. destruct (in_node w x v) eqn:Ev; [|done].
      rewrite (node_kept w x rs v); [done|lia|done| |done]. rewrite Forall_forall in *. intros r Hr. split; [by apply E|]. intros _. by apply E2.
Qed.

(** Prefixes as nodes, and back. *)
Definition node (p : netip.Prefix) : Z * Z :=
  (Z.shiftr (netip.val (netip.pf_addr p)) (netip.BitLen (netip.pf_addr p) - netip.pf_bits p), netip.pf_bits p).
Definition same_family (a b : netip.Addr) : bool := netip.IsValid a && netip.IsValid b && (netip.BitLen a =? netip.BitLen b).
Definition of_node (like : netip.Addr) (x : Z * Z) : netip.Prefix :=
  let v := Z.shiftl x.1 (netip.BitLen like - x.2) in
  netip.PrefixFrom
    match like with
    | netip.AddrInvalid => netip.AddrInvalid
    | netip.Addr4 _ => netip.Addr4 (netip.be_bytes 4 v)
    | netip.Addr6 _ => netip.Addr6 (netip.be_bytes 16 v)
    end x.2.
Definition ipset_one (p : netip.Prefix) (removes : list netip.Prefix) : list netip.Prefix :=
  map (of_node (netip.pf_addr p))
    (carve (Z.to_nat (netip.BitLen (netip.pf_addr p) - netip.pf_bits p)) (node p)
       (map node (filter (fun r => same_family (netip.pf_addr p) (netip.pf_addr r) = true) removes))).
Definition ipset (adds removes : list netip.Prefix) : list netip.Prefix := flat_map (fun p => ipset_one p removes) adds.

Lemma same_family_sym a b : same_family a b = same_family b a.
Proof. unfold same_family. rewrite (Z.eqb_sym (netip.BitLen a)). by destruct (netip.IsValid a), (netip.IsValid b). Qed.
Lemma same_family_trans a b c : same_family a b = true -> same_family a c = same_family b c.
Proof. unfold same_family. intros HS. rewrite !andb_true_iff, Z.eqb_eq in HS. destruct HS as [[-> ->] ->]. done. Qed.
Lemma Contains_node p ip : netip.Contains p ip = same_family (netip.pf_addr p) ip && in_node (netip.BitLen ip) (node p) (netip.val ip).
Proof.
  unfold netip.Contains, same_family, in_node, node. cbn [fst snd]. rewrite (Z.eqb_sym (netip.BitLen (netip.pf_addr p))).
  destruct (netip.IsValid (netip.pf_addr p)), (netip.IsValid ip); cbn [negb orb andb]; try done.
  destruct (Z.eqb_spec (netip.BitLen ip) (netip.BitLen (netip.pf_addr p))) as [->|]; cbn [negb]; [|done]. by rewrite Z.eqb_sym.
Qed.

Definition node_ok (w : Z) (x : Z * Z) : Prop := 0 <= x.1 < 2 ^ x.2 /\ 0 <= x.2 <= w.
Lemma carve_ok w rs n x : x.2 + Z.of_nat n = w -> node_ok w x -> Forall (node_ok w) (carve n x rs).
Proof.
  revert x. induction n as [|n IH]; intros x Hn Hx; cbn [carve]; (destruct (existsb (inside x) rs); [constructor|]); [by apply Forall_singleton|].
  destruct (existsb (fun r => inside r x) rs); [|by apply Forall_singleton]. destruct Hx as [? ?].
  assert (2 ^ (x.2 + 1) = 2 * 2 ^ x.2) by (rewrite Z.pow_add_r by lia; lia).
  apply Forall_app. split; apply IH; cbn [fst snd]; unfold node_ok; cbn [fst snd]; lia.
Qed.
Lemma valid_range a : netip.wf a -> 0 <= netip.val a < 2 ^ netip.BitLen a.
Proof.
  destruct a as [|b|b]; cbn [netip.wf]; [by vm_compute| |]; intros [Hb Hl]; pose proof (netip.be_val_range b _ Hb Hl) as Hr; unfold netip.val, netip.BitLen, Zlen; cbn [netip.AsSlice]; rewrite Hl in *; exact Hr.
Qed.
Lemma node_valid p : valid_prefix p -> node_ok (netip.BitLen (netip.pf_addr p)) (node p).
Proof.
  intros (Hwf & _ & Hb). pose proof (valid_range _ Hwf) as Hr. unfold node_ok, node. cbn [fst snd]. split; [|done].
  rewrite Z.shiftr_div_pow2 by lia. split; [apply Z.div_pos; lia|]. apply Z.div_lt_upper_bound; [lia|]. rewrite <- Z.pow_add_r by lia.
  replace (_ - _ + _) with (netip.BitLen (netip.pf_addr p)) by lia. lia.
Qed.
Lemma shiftl_ok w x : node_ok w x -> 0 <= Z.shiftl x.1 (w - x.2) < 2 ^ w.
Proof.
  intros [[H1 H2] H3]. rewrite Z.shiftl_mul_pow2 by lia. assert (2 ^ w = 2 ^ x.2 * 2 ^ (w - x.2)) as -> by (rewrite <- Z.pow_add_r by lia; f_equal; lia).
  split; [nia|]. apply Z.mul_lt_mono_pos_r; lia.
Qed.
Lemma of_node_addr like x : valid_addr like -> node_ok (netip.BitLen like) x ->
  netip.BitLen (netip.pf_addr (of_node like x)) = netip.BitLen like /\ netip.IsValid (netip.pf_addr (of_node like x)) = true /\
  netip.val (netip.pf_addr (of_node like x)) = Z.shiftl x.1 (netip.BitLen like - x.2).
Proof.
  intros [Hwf HV] Hx. apply shiftl_ok in Hx. unfold of_node, netip.val, netip.BitLen, Zlen in *. destruct like as [|b|b]; [done| |]; destruct Hwf as [_ Hl];
    cbn [netip.AsSlice netip.pf_addr netip.IsValid] in *; rewrite Hl, netip.length_be_bytes in *; (split; [done|]; split; [done|]; by apply netip.be_val_be_bytes).
Qed.
Lemma Contains_of_node like x ip : valid_addr like -> node_ok (netip.BitLen like) x ->
  netip.Contains (of_node like x) ip = same_family like ip && in_node (netip.BitLen like) x (netip.val ip).
Proof.
  intros HV Hx. destruct (of_node_addr like x HV Hx) as (EB & EV & Ev). rewrite Contains_node. unfold same_family. rewrite EB, EV, (proj2 HV).
  unfold node, in_node. rewrite EB, Ev. cbn [fst snd of_node netip.pf_bits]. destruct (netip.IsValid ip); [|done]. cbn [andb].
  destruct (Z.eqb_spec (netip.BitLen like) (netip.BitLen ip)) as [<-|]; [|done]. cbn [andb].
  destruct Hx. rewrite Z.shiftr_shiftl_l by lia. rewrite Z.sub_diag. by rewrite Z.shiftl_0_r.
Qed.

Lemma covered_removes p ip rs : same_family (netip.pf_addr p) ip = true ->
  in_nodes (netip.BitLen (netip.pf_addr p)) (map node (filter (fun r => same_family (netip.pf_addr p) (netip.pf_addr r) = true) rs)) (netip.val ip) = covered rs ip.
Proof.
  intros HS. induction rs as [|r rs IH]; [done|]. rewrite covered_cons. rewrite <- IH, Contains_node.
  rewrite filter_cons. rewrite (same_family_sym _ ip), <- (same_family_trans _ _ _ HS).
  assert (netip.BitLen ip = netip.BitLen (netip.pf_addr p)) as -> by (unfold same_family in HS; lia).
  by destruct (decide _) as [->|Hn%not_true_is_false]; [|rewrite Hn].
Qed.
Lemma ipset_one_exact p rs ip : valid_prefix p -> Forall valid_prefix rs ->
  covered (ipset_one p rs) ip = netip.Contains p ip && negb (covered rs ip).
Proof.
  intros HV Hrs. pose proof (node_valid p HV) as Hn. destruct HV as (Hwf & HI & Hb). unfold ipset_one.
  set (w := netip.BitLen (netip.pf_addr p)) in *. set (rs' := map node _).
  assert (Forall (fun r => r.2 <= w) rs') as Hw.
  { apply Forall_fmap, Forall_forall. intros r [HS Hr]%list_elem_of_filter. rewrite Forall_forall in Hrs. destruct (Hrs r Hr) as (_ & _ & ?). unfold same_family in HS. cbn. lia. }
  assert (Forall (node_ok w) (carve (Z.to_nat (w - netip.pf_bits p)) (node p) rs')) as Hok by (apply carve_ok; [cbn [node snd]; lia|done]).
  transitivity (same_family (netip.pf_addr p) ip && in_nodes w (carve (Z.to_nat (w - netip.pf_bits p)) (node p) rs') (netip.val ip)).
  - clear Hw. induction Hok as [|x xs Hx _ IH]; [by rewrite andb_false_r|]. cbn [map]. rewrite covered_cons, IH, Contains_of_node by done. unfold in_nodes. cbn [existsb]. by destruct (same_family _ _).
  - rewrite (carve_exact w rs' _ (node p)) by (done || cbn [node snd]; lia). rewrite Contains_node. destruct (same_family (netip.pf_addr p) ip) eqn:HS; [|done]. cbn [andb].
    unfold rs', w. rewrite covered_removes by done. do 2 f_equal. unfold same_family in HS. lia.
Qed.
#[local] Instance ipset_package : IPSetPackage.
Proof.
  refine {| IPSet := fun adds removes => inr (ipset adds removes) |}. intros adds removes HA HR. eexists. split; [done|]. intros ip _.
  unfold ipset. induction HA as [|p ps Hp _ IH]; [done|]. cbn [flat_map]. rewrite covered_app, IH, ipset_one_exact by done.
  rewrite covered_cons. by destruct (netip.Contains p ip), (covered ps ip), (covered removes ip).
Defined.

(** A device of users 0 and 10 with one package included and a shared one
    excluded, which routes everything but 10.0.0.0/8. *)
Definition sample : Options :=
  mkOptions "tun0" [netip.PrefixFrom (netip.Addr4 [172; 19; 0; 1]) 30] [] true netip.AddrInvalid netip.AddrInvalid "" [] None 2022 9000 32768
    false 0 0 false [] [] false [] [] [netip.PrefixFrom (netip.Addr4 [10; 0; 0; 0]) 8] [] [] [] [] [] [] []
    [10; 0; 10] ["browser"%string] ["media"%string] [] [] 0.
Definition sample_shared (p : string) : option Z := if String.eqb p "media" then Some 5000 else None.
Definition sample_id (p : string) : option Z := if String.eqb p "browser" then Some 10123 else None.

Lemma sample_not_chosen : ~ chosen sample_shared sample_id None sample (userEnd + 1).
Proof.
  unfold chosen. intros [?%in_ranges_nil|(p & id & Hp & (user & Hu & E) & Hid)]; [done|].
  apply list_elem_of_singleton in Hp as ->. destruct Hid as [Hid|[_ Hid]]; [done|]. injection Hid as <-.
  change (package_users None sample) with [0; 10] in Hu. rewrite !elem_of_cons in Hu. destruct Hu as [->|[->|Hu%elem_of_nil]]; [done|done|done].
Qed.

Lemma ExcludedRanges_exact_witness :
  let r := BuildAndroidRules sample_shared sample_id None sample in
  r.2 = ([], ["media"%string]) /\
  ExcludedRanges r.1 = [mkRange 0 10122; mkRange 10124 1010122; mkRange 1010124 4294967294] /\
  (forall p, p ∈ r.2.2 <-> p ∈ ExcludePackage sample /\ sample_id p = None).
Proof.
  cbv zeta. split; [vm_compute; reflexivity|]. split; [vm_compute; reflexivity|].
  refine (proj2 (ExcludedRanges_exact sample_shared sample_id None sample 0 _ _ _ sample_not_chosen _)).
  - repeat constructor; lia.
  - constructor.
  - constructor.
  - unfold userEnd. lia.
Defined.

Lemma BuildAutoRouteRanges_exact_witness :
  exists ps, BuildAutoRouteRanges false false sample = inr ps /\ length ps = 8%nat /\
    covered ps (netip.Addr4 [10; 9; 8; 7]) = false /\ covered ps (netip.Addr4 [11; 9; 8; 7]) = true.
Proof.
  destruct (BuildAutoRouteRanges_exact false false sample) as (ps & E & H4 & H6).
  - split; repeat constructor; try (by eexists); cbn; try lia; try done.
  - exists ps. split; [exact E|]. split; [vm_compute in E; injection E as <-; reflexivity|].
    split; (rewrite H4; [vm_compute; reflexivity|split; [repeat constructor; lia|reflexivity]]).
Defined.
End naive.
