(* ===== verification/Netlink.v ===== *)
(** * Policy rules of the kernel

    The rules that netlink.RuleAdd installs and what the kernel documents of
    them (ip-rule(8)): which flows a rule selects, the order in which the rules
    are examined, and what a selected rule decides.  The kernel itself is a
    parameter, the class [PolicyRouting]; [resolve_ref] is one instance. *)
From Stdlib Require Import String.
From S2P Require Import Prelude Bytes GoMem TsChecksum Netip TunOptions.

Definition AF_INET : Z := 2.
Definition AF_INET6 : Z := 10.
Definition RT_TABLE_MAIN : Z := 254.
Definition FR_ACT_UNREACHABLE : Z := 7.
Definition IPPROTO_TCP : Z := 6.
Definition IPPROTO_UDP : Z := 17.

(** netlink.Rule; a field that NewRule leaves unset is [None], the empty string
    or 0. *)
Record Rule := mkRule {
  Priority : Z;
  Family : Z;
  Table : Z;
  Mark : Z;
  MarkSet : bool;
  Mask : option Z;
  IifName : string;
  OifName : string;
  Src : option netip.Prefix;
  Dst : option netip.Prefix;
  IPProto : Z;
  Sport : option Range;
  Dport : option Range;
  UIDRange : option Range;
  Goto : option Z;
  Invert : bool;
  Type_ : Z;
  SuppressPrefixlen : option Z
}.

(** NewRule() with the priority and the family, which every caller sets, and
    one setter per further field. *)
Definition NewRule (family priority : Z) : Rule := mkRule priority family 0 0 false None "" "" None None 0 None None None None false 0 None.
Definition with_table (t : Z) (r : Rule) : Rule :=
  mkRule (Priority r) (Family r) t (Mark r) (MarkSet r) (Mask r) (IifName r) (OifName r) (Src r) (Dst r) (IPProto r) (Sport r) (Dport r) (UIDRange r) (Goto r) (Invert r) (Type_ r) (SuppressPrefixlen r).
Definition with_mark (m : Z) (r : Rule) : Rule :=
  mkRule (Priority r) (Family r) (Table r) m true (Mask r) (IifName r) (OifName r) (Src r) (Dst r) (IPProto r) (Sport r) (Dport r) (UIDRange r) (Goto r) (Invert r) (Type_ r) (SuppressPrefixlen r).
Definition with_mask (m : Z) (r : Rule) : Rule :=
  mkRule (Priority r) (Family r) (Table r) (Mark r) (MarkSet r) (Some m) (IifName r) (OifName r) (Src r) (Dst r) (IPProto r) (Sport r) (Dport r) (UIDRange r) (Goto r) (Invert r) (Type_ r) (SuppressPrefixlen r).
Definition with_iif (n : string) (r : Rule) : Rule :=
  mkRule (Priority r) (Family r) (Table r) (Mark r) (MarkSet r) (Mask r) n (OifName r) (Src r) (Dst r) (IPProto r) (Sport r) (Dport r) (UIDRange r) (Goto r) (Invert r) (Type_ r) (SuppressPrefixlen r).
Definition with_oif (n : string) (r : Rule) : Rule :=
  mkRule (Priority r) (Family r) (Table r) (Mark r) (MarkSet r) (Mask r) (IifName r) n (Src r) (Dst r) (IPProto r) (Sport r) (Dport r) (UIDRange r) (Goto r) (Invert r) (Type_ r) (SuppressPrefixlen r).
Definition with_src (p : netip.Prefix) (r : Rule) : Rule :=
  mkRule (Priority r) (Family r) (Table r) (Mark r) (MarkSet r) (Mask r) (IifName r) (OifName r) (Some p) (Dst r) (IPProto r) (Sport r) (Dport r) (UIDRange r) (Goto r) (Invert r) (Type_ r) (SuppressPrefixlen r).
Definition with_dst (p : netip.Prefix) (r : Rule) : Rule :=
  mkRule (Priority r) (Family r) (Table r) (Mark r) (MarkSet r) (Mask r) (IifName r) (OifName r) (Src r) (Some p) (IPProto r) (Sport r) (Dport r) (UIDRange r) (Goto r) (Invert r) (Type_ r) (SuppressPrefixlen r).
Definition with_proto (p : Z) (r : Rule) : Rule :=
  mkRule (Priority r) (Family r) (Table r) (Mark r) (MarkSet r) (Mask r) (IifName r) (OifName r) (Src r) (Dst r) p (Sport r) (Dport r) (UIDRange r) (Goto r) (Invert r) (Type_ r) (SuppressPrefixlen r).
Definition with_sport (p : Range) (r : Rule) : Rule :=
  mkRule (Priority r) (Family r) (Table r) (Mark r) (MarkSet r) (Mask r) (IifName r) (OifName r) (Src r) (Dst r) (IPProto r) (Some p) (Dport r) (UIDRange r) (Goto r) (Invert r) (Type_ r) (SuppressPrefixlen r).
Definition with_dport (p : Range) (r : Rule) : Rule :=
  mkRule (Priority r) (Family r) (Table r) (Mark r) (MarkSet r) (Mask r) (IifName r) (OifName r) (Src r) (Dst r) (IPProto r) (Sport r) (Some p) (UIDRange r) (Goto r) (Invert r) (Type_ r) (SuppressPrefixlen r).
Definition with_uids (u : Range) (r : Rule) : Rule :=
  mkRule (Priority r) (Family r) (Table r) (Mark r) (MarkSet r) (Mask r) (IifName r) (OifName r) (Src r) (Dst r) (IPProto r) (Sport r) (Dport r) (Some u) (Goto r) (Invert r) (Type_ r) (SuppressPrefixlen r).
Definition with_goto (g : Z) (r : Rule) : Rule :=
  mkRule (Priority r) (Family r) (Table r) (Mark r) (MarkSet r) (Mask r) (IifName r) (OifName r) (Src r) (Dst r) (IPProto r) (Sport r) (Dport r) (UIDRange r) (Some g) (Invert r) (Type_ r) (SuppressPrefixlen r).
Definition inverted (r : Rule) : Rule :=
  mkRule (Priority r) (Family r) (Table r) (Mark r) (MarkSet r) (Mask r) (IifName r) (OifName r) (Src r) (Dst r) (IPProto r) (Sport r) (Dport r) (UIDRange r) (Goto r) true (Type_ r) (SuppressPrefixlen r).
Definition with_type (t : Z) (r : Rule) : Rule :=
  mkRule (Priority r) (Family r) (Table r) (Mark r) (MarkSet r) (Mask r) (IifName r) (OifName r) (Src r) (Dst r) (IPProto r) (Sport r) (Dport r) (UIDRange r) (Goto r) (Invert r) t (SuppressPrefixlen r).
Definition with_suppress (n : Z) (r : Rule) : Rule :=
  mkRule (Priority r) (Family r) (Table r) (Mark r) (MarkSet r) (Mask r) (IifName r) (OifName r) (Src r) (Dst r) (IPProto r) (Sport r) (Dport r) (UIDRange r) (Goto r) (Invert r) (Type_ r) (Some n).

#[global] Instance Prefix_eq_dec : EqDecision netip.Prefix.
Proof. solve_decision. Defined.
#[global] Instance Rule_eq_dec : EqDecision Rule.
Proof. solve_decision. Defined.

(** ** Flows *)

(** What the kernel knows of a flow when it looks for its route; a flow that
    starts on this host comes from [lo]. *)
Record Flow := mkFlow {
  f_iif : string; f_oif : string; f_mark : Z; f_uid : Z;
  f_src : netip.Addr; f_dst : netip.Addr;
  f_proto : Z; f_sport : Z; f_dport : Z
}.

Definition in_rangeb (r : Range) (x : Z) : bool := (r_Start r <=? x) && (x <=? r_End r).
Definition opt_range (r : option Range) (x : Z) : bool := match r with None => true | Some r => in_rangeb r x end.
Definition opt_name (n s : string) : bool := String.eqb n "" || String.eqb n s.
Definition opt_prefix (p : option netip.Prefix) (a : netip.Addr) : bool := match p with None => true | Some p => netip.Contains p a end.
(** A source selector of an IPv6 rule never selects a flow whose source is not
    yet chosen. *)
Definition src_selects (r : Rule) (f : Flow) : bool :=
  match Src r with
  | None => true
  | Some p => negb ((Family r =? AF_INET6) && bool_decide (f_src f = IPv6Unspecified)) && netip.Contains p (f_src f)
  end.
(** fwmark/mask; a mark other than 0 without a mask is compared as a whole. *)
Definition mark_selects (r : Rule) (mark : Z) : bool :=
  let mask := match Mask r with Some m => m | None => if MarkSet r && negb (Mark r =? 0) then 4294967295 else 0 end in
  Z.land (Z.lxor mark (if MarkSet r then Mark r else 0)) mask =? 0.
Definition selects (r : Rule) (f : Flow) : bool :=
  xorb (Invert r)
    (opt_name (IifName r) (f_iif f) && opt_name (OifName r) (f_oif f) && mark_selects r (f_mark f) && opt_range (UIDRange r) (f_uid f)
     && src_selects r f && opt_prefix (Dst r) (f_dst f) && ((IPProto r =? 0) || (IPProto r =? f_proto f))
     && opt_range (Sport r) (f_sport f) && opt_range (Dport r) (f_dport f)).

(** ** The order of the rules *)

(** A new rule comes after the rules of its priority. *)
Fixpoint insert_rule (r : Rule) (rs : list Rule) : list Rule :=
  match rs with
  | [] => [r]
  | x :: rs' => if Priority r <? Priority x then r :: rs else x :: insert_rule r rs'
  end.
Definition install (rules rs : list Rule) : list Rule := fold_left (fun acc r => insert_rule r acc) rules rs.
(** The rules from the target of a goto on. *)
Fixpoint from_priority (p : Z) (rs : list Rule) : list Rule :=
  match rs with
  | [] => []
  | x :: rs' => if Priority x =? p then rs else from_priority p rs'
  end.
Lemma from_priority_length p rs : (length (from_priority p rs) <= length rs)%nat.
Proof. induction rs as [|x rs IH]; cbn; [done|]. destruct (Priority x =? p); cbn; lia. Qed.

(** ** Decisions *)

(** [Continue]: none of the rules decides. *)
Inductive Decision (R : Type) := Via (route : R) | Unreachable | Continue.
Arguments Via {R}. Arguments Unreachable {R}. Arguments Continue {R}.
Definition or_else {R} (d e : Decision R) : Decision R := match d with Continue => e | _ => d end.

(** The routing tables: the route of a flow in a table and the length of its
    prefix. *)
Section Kernel.
Context {R : Type} (lookup : Z -> Flow -> option (R * Z)).

(** The decision of a selected rule that is not a goto. *)
Definition act (r : Rule) (f : Flow) : Decision R :=
  if Type_ r =? FR_ACT_UNREACHABLE then Unreachable
  else if Table r =? 0 then Continue
  else match lookup (Table r) f with
       | None => Continue
       | Some (route, len) => match SuppressPrefixlen r with Some n => if len <=? n then Continue else Via route | None => Via route end
       end.

(** fib_rules_lookup over the rules of one family in order. *)
Class PolicyRouting := {
  resolve : list Rule -> Flow -> Decision R;
  resolve_nil : forall f, resolve [] f = Continue;
  resolve_skip : forall r rs f, selects r f = false -> resolve (r :: rs) f = resolve rs f;
  resolve_goto : forall r rs f p, selects r f = true -> Goto r = Some p -> resolve (r :: rs) f = resolve (from_priority p rs) f;
  resolve_act : forall r rs f, selects r f = true -> Goto r = None -> resolve (r :: rs) f = or_else (act r f) (resolve rs f)
}.

Fixpoint resolve_fuel (n : nat) (rs : list Rule) (f : Flow) : Decision R :=
  match n, rs with
  | S n', r :: rs' =>
      if selects r f then
        match Goto r with
        | Some p => resolve_fuel n' (from_priority p rs') f
        | None => or_else (act r f) (resolve_fuel n' rs' f)
        end
      else resolve_fuel n' rs' f
  | _, _ => Continue
  end.
Definition resolve_ref (rs : list Rule) (f : Flow) : Decision R := resolve_fuel (length rs) rs f.
Lemma resolve_fuel_enough n rs f : (length rs <= n)%nat -> resolve_fuel n rs f = resolve_ref rs f.
Proof.
  unfold resolve_ref. revert rs. induction n as [n IH] using lt_wf_ind. intros rs Hn.
  destruct n as [|n], rs as [|r rs]; cbn in *; [done|lia|done|].
  destruct (selects r f); [destruct (Goto r) as [p|]|].
  - pose proof (from_priority_length p rs). rewrite (IH n), (IH (length rs)) by lia. done.
  - by rewrite (IH n) by lia.
  - by rewrite (IH n) by lia.
Qed.
#[refine, global] Instance PolicyRouting_ref : PolicyRouting := {| resolve := resolve_ref |}.
Proof.
  - done.
  - intros r rs f E. unfold resolve_ref. cbn. by rewrite E.
  - intros r rs f p E EG. unfold resolve_ref at 1. cbn. rewrite E, EG. apply resolve_fuel_enough, from_priority_length.
  - intros r rs f E EG. unfold resolve_ref at 1. cbn. by rewrite E, EG.
Defined.
End Kernel.

(** ** Lists of rules in order *)

Definition all_below (n : Z) (rs : list Rule) : Prop := Forall (fun r => Priority r <= n) rs.
Definition all_above (n : Z) (rs : list Rule) : Prop := Forall (fun r => n < Priority r) rs.

Lemma insert_rule_split r a b : all_below (Priority r) a -> all_above (Priority r) b -> insert_rule r (a ++ b) = a ++ r :: b.
Proof.
  intros Ha Hb. induction Ha as [|x a Hx Ha IH]; cbn.
  - destruct b as [|y b]; [done|]. inversion Hb; subst. cbn. by replace (Priority r <? Priority y) with true by lia.
  - replace (Priority r <? Priority x) with false by lia. by rewrite IH.
Qed.
(** Rules given in order of priority end up side by side. *)
Inductive ordered : list Rule -> Prop :=
  | ordered_nil : ordered []
  | ordered_cons r rs : Forall (fun x => Priority r <= Priority x) rs -> ordered rs -> ordered (r :: rs).
#[export] Hint Constructors ordered : core.
Lemma ordered_app a b : ordered (a ++ b) <-> ordered a /\ ordered b /\ Forall (fun x => Forall (fun y => Priority x <= Priority y) b) a.
Proof.
  induction a as [|r a IH]; cbn; [split; [intros; by split_and!|by intros (_ & ? & _)]|]. split.
  - intros H. inversion H as [|r' rs Hf Ho]; subst. apply Forall_app in Hf as [? ?]. apply IH in Ho as (? & ? & ?). split_and!; [by constructor|done|by constructor].
  - intros (Ha & Hb & Hc). inversion Ha; subst. inversion Hc; subst. constructor; [by apply Forall_app|by apply IH].
Qed.
Lemma install_between rs lo hi : ordered rs -> Forall (fun r => all_below (Priority r) lo) rs -> Forall (fun r => all_above (Priority r) hi) rs ->
  install rs (lo ++ hi) = lo ++ rs ++ hi.
Proof.
  revert lo. induction rs as [|r rs IH]; intros lo Ho Hl Hh; [done|]. inversion Ho as [|r' rs' Hf Ho']; subst. inversion Hl; subst. inversion Hh; subst.
  unfold install. cbn [fold_left]. fold (install rs (insert_rule r (lo ++ hi))). rewrite insert_rule_split by done.
  change (r :: hi) with ([r] ++ hi). rewrite app_assoc, IH; [by rewrite <- app_assoc|done| |done].
  rewrite !Forall_forall in *. intros x Hx. unfold all_below. apply Forall_app. split; [by apply H2|]. constructor; [|done]. by apply Hf.
Qed.

(** ** Evaluation of segments *)

Section Walk.
Context {R : Type} {lookup : Z -> Flow -> option (R * Z)} `{!PolicyRouting lookup}.

Lemma resolve_cons r rs f :
  resolve lookup (r :: rs) f =
  if selects r f then match Goto r with Some p => resolve lookup (from_priority p rs) f | None => or_else (act lookup r f) (resolve lookup rs f) end
  else resolve lookup rs f.
Proof.
  destruct (selects r f) eqn:E; [|by apply resolve_skip]. destruct (Goto r) eqn:EG; [by apply resolve_goto|by apply resolve_act].
Qed.
Lemma from_priority_app p a b : Forall (fun r => Priority r <> p) a -> from_priority p (a ++ b) = from_priority p b.
Proof. induction 1 as [|r a Hr Ha IH]; cbn; [done|]. by replace (Priority r =? p) with false by lia. Qed.
(** Rules that all jump to the same later rule. *)
Lemma resolve_gotos p rs rest f :
  Forall (fun r => Goto r = Some p /\ Priority r <> p) rs ->
  resolve lookup (rs ++ rest) f = if existsb (fun r => selects r f) rs then resolve lookup (from_priority p rest) f else resolve lookup rest f.
Proof.
  induction 1 as [|r rs [Hg Hp] Hf IH]; cbn [app existsb]; [done|]. rewrite resolve_cons, Hg.
  destruct (selects r f); cbn [orb]; [|done]. rewrite from_priority_app; [done|].
  eapply Forall_impl; [exact Hf|]. cbn. tauto.
Qed.
(** Rules that all look into the same table. *)
Lemma resolve_tables t rs rest f : t <> 0 ->
  Forall (fun r => Goto r = None /\ Table r = t /\ Type_ r = 0 /\ SuppressPrefixlen r = None) rs ->
  resolve lookup (rs ++ rest) f =
  or_else (if existsb (fun r => selects r f) rs then match lookup t f with Some (route, _) => Via route | None => Continue end else Continue) (resolve lookup rest f).
Proof.
  intros Ht. induction 1 as [|r rs (Hg & Htb & Hty & Hs) Hf IH]; cbn [app existsb]; [done|]. rewrite resolve_cons, Hg.
  destruct (selects r f); cbn [orb]; [|done]. rewrite IH. unfold act. rewrite Hty, Htb, Hs. cbn. replace (t =? 0) with false by lia.
  destruct (lookup t f) as [[route len]|]; [done|]. by destruct (existsb _ rs).
Qed.
End Walk.
