(* ===== verification/RouteMark.v ===== *)
(** * route_dnat_linux.go: the mark of translated connections

    Packets of connections that another component translates (Docker's DNAT)
    carry a mark in a field of the packet mark.  The field is chosen so that it
    holds a mark other than 0 and, next to the auto-redirect marks, so that the
    input mark is never taken for it. *)
From S2P Require Import Prelude Bytes GoMem TsChecksum Netip TunOptions.

Definition DefaultAutoRedirectInputMark : Z := 8227.
Definition DefaultAutoRedirectOutputMark : Z := 8228.
Definition conntrackStatusDNAT : Z := 32.
Definition autoRouteDNATBypassMarkFieldMask : Z := 4095.

Definition output_mark (o : Options) : Z :=
  if AutoRedirectOutputMark o =? 0 then DefaultAutoRedirectOutputMark else AutoRedirectOutputMark o.
Definition autoRouteDNATBypassMask (o : Options) : Z :=
  let outputMark := output_mark o in
  let mask := autoRouteDNATBypassMarkFieldMask in
  let mask := if Z.land outputMark mask =? 0 then outputMark else mask in
  if AutoRedirectMarkMode o then
    let difference := Z.lxor (AutoRedirectInputMark o) outputMark in
    if Z.land difference mask =? 0 then Z.lor mask (Z.land difference (u32 (- difference))) else mask
  else mask.
Definition autoRouteDNATBypassMark (o : Options) : Z := Z.land (output_mark o) (autoRouteDNATBypassMask o).

(** The marks are uint32 values. *)
Definition marks_ok (o : Options) : Prop := is_u32 (AutoRedirectInputMark o) /\ is_u32 (AutoRedirectOutputMark o).

Lemma u32_land x m : is_u32 x -> 0 <= m -> is_u32 (Z.land x m).
Proof.
  intros Hx Hm. split; [apply Z.land_nonneg; lia|]. destruct (Z.eq_dec (Z.land x m) 0) as [->|]; [lia|].
  assert (0 <= Z.land x m) by (apply Z.land_nonneg; lia). apply (Z.log2_lt_pow2 (Z.land x m) 32); [lia|].
  pose proof (Z.log2_land x m ltac:(lia) Hm). destruct (Z.eq_dec x 0) as [->|]; [done|].
  assert (Z.log2 x < 32) by (apply Z.log2_lt_pow2; lia). lia.
Qed.
Lemma u32_bits x n : is_u32 x -> 32 <= n -> Z.testbit x n = false.
Proof.
  intros Hx Hn. destruct (Z.eq_dec x 0) as [->|]; [apply Z.bits_0|]. apply Z.bits_above_log2; [lia|].
  assert (Z.log2 x < 32) by (apply Z.log2_lt_pow2; lia). lia.
Qed.
Lemma u32_of_bits x : 0 <= x -> (forall n, 32 <= n -> Z.testbit x n = false) -> is_u32 x.
Proof.
  intros Hx Hb. split; [done|]. destruct (Z.eq_dec x 0) as [->|]; [lia|]. apply (Z.log2_lt_pow2 x 32); [lia|].
  destruct (Z.lt_ge_cases (Z.log2 x) 32) as [|H]; [done|]. specialize (Hb _ H). rewrite Z.bit_log2 in Hb by lia. done.
Qed.
Lemma u32_lxor x y : is_u32 x -> is_u32 y -> is_u32 (Z.lxor x y).
Proof.
  intros Hx Hy. apply u32_of_bits; [apply Z.lxor_nonneg; lia|]. intros n Hn. rewrite Z.lxor_spec, !u32_bits by done. done.
Qed.
Lemma u32_lor x y : is_u32 x -> is_u32 y -> is_u32 (Z.lor x y).
Proof.
  intros Hx Hy. apply u32_of_bits; [apply Z.lor_nonneg; lia|]. intros n Hn. rewrite Z.lor_spec, !u32_bits by done. done.
Qed.
(** [x & -x] keeps a bit of [x]. *)
Lemma lowest_bit x : is_u32 x -> x <> 0 -> Z.land x (u32 (- x)) <> 0.
Proof.
  intros Hx Hne E.
  assert (u32 (- x) = Z.lxor (x - 1) (Z.ones 32)) as EN.
  { rewrite lxor_ones_sub by (change (2 ^ 32) with 4294967296; lia). change (Z.ones 32) with 4294967295. unfold u32. zdm. }
  rewrite EN in E.
  assert (forall n, 0 <= n < 32 -> Z.testbit x n = true -> Z.testbit (x - 1) n = true) as HB.
  { intros n Hn Hb. apply (f_equal (fun v => Z.testbit v n)) in E. rewrite Z.land_spec, Z.lxor_spec, Z.bits_0, Hb in E.
    rewrite Z.ones_spec_low in E by lia. by destruct (Z.testbit (x - 1) n). }
  assert (Z.ldiff x (x - 1) = 0) as HD.
  { apply Z.bits_inj'. intros n Hn. rewrite Z.ldiff_spec, Z.bits_0. destruct (Z.lt_ge_cases n 32).
    - destruct (Z.testbit x n) eqn:Eb; [|done]. by rewrite HB by (done || lia).
    - by rewrite (u32_bits x n) by lia. }
  pose proof (Z.ldiff_le x (x - 1) ltac:(lia) HD). lia.
Qed.
Lemma land_lxor_l a b m : Z.land (Z.lxor a b) m = Z.lxor (Z.land a m) (Z.land b m).
Proof. apply Z.bits_inj'. intros n Hn. rewrite !Z.lxor_spec, !Z.land_spec, Z.lxor_spec. by destruct (Z.testbit a n), (Z.testbit b n), (Z.testbit m n). Qed.
Lemma masked_differ a b m : Z.land (Z.lxor a b) m <> 0 <-> Z.land a m <> Z.land b m.
Proof. rewrite land_lxor_l. pose proof (Z.lxor_eq_0_iff (Z.land a m) (Z.land b m)). tauto. Qed.

Lemma output_mark_ok o : marks_ok o -> is_u32 (output_mark o) /\ output_mark o <> 0.
Proof. intros [_ H]. unfold output_mark, DefaultAutoRedirectOutputMark. zcase; lia. Qed.
(** The field before the distinguishing bit is added. *)
Lemma field_mask o : marks_ok o -> let m := if Z.land (output_mark o) autoRouteDNATBypassMarkFieldMask =? 0 then output_mark o else autoRouteDNATBypassMarkFieldMask in
  is_u32 m /\ Z.land (output_mark o) m <> 0.
Proof.
  intros Ho. destruct (output_mark_ok o Ho) as [Hu Hn]. cbv zeta. destruct (Z.eqb_spec (Z.land (output_mark o) autoRouteDNATBypassMarkFieldMask) 0).
  - by rewrite Z.land_diag.
  - by split.
Qed.
Lemma land_lor_nonzero x a b : 0 <= x -> 0 <= a -> 0 <= b -> Z.land x a <> 0 -> Z.land x (Z.lor a b) <> 0.
Proof. intros Hx Ha Hb H E. rewrite Z.land_lor_distr_r in E. apply Z.lor_eq_0_iff in E as [E _]. done. Qed.

(** The mark is inside its mask and is not 0, and the input mark of
    auto-redirect does not carry it. *)
Lemma bypass_mark_facts o : marks_ok o ->
  is_u32 (autoRouteDNATBypassMask o) /\ is_u32 (autoRouteDNATBypassMark o) /\
  Z.land (autoRouteDNATBypassMark o) (autoRouteDNATBypassMask o) = autoRouteDNATBypassMark o /\
  autoRouteDNATBypassMark o <> 0 /\
  (AutoRedirectMarkMode o = true -> AutoRedirectInputMark o <> output_mark o ->
   Z.land (AutoRedirectInputMark o) (autoRouteDNATBypassMask o) <> autoRouteDNATBypassMark o).
Proof.
  intros Ho. destruct (output_mark_ok o Ho) as [Hu Hn]. destruct (field_mask o Ho) as [Hm Hf]. destruct Ho as [Hi _].
  set (m := if Z.land (output_mark o) autoRouteDNATBypassMarkFieldMask =? 0 then output_mark o else autoRouteDNATBypassMarkFieldMask) in *.
  set (d := Z.lxor (AutoRedirectInputMark o) (output_mark o)). assert (is_u32 d) as Hd by by apply u32_lxor.
  assert (is_u32 (Z.land d (u32 (- d)))) as Hl by (apply u32_land; [done|apply u32_range]).
  assert (autoRouteDNATBypassMask o = if AutoRedirectMarkMode o then if Z.land d m =? 0 then Z.lor m (Z.land d (u32 (- d))) else m else m) as EM by done.
  clearbody m. assert (is_u32 (autoRouteDNATBypassMask o)) as HM.
  { rewrite EM. destruct (AutoRedirectMarkMode o); [|done]. destruct (_ =? _); [|done]. by apply u32_lor. }
  split_and!; [apply HM|apply HM|apply u32_land; [done|lia]|apply u32_land; [done|lia]|..].
  - unfold autoRouteDNATBypassMark. by rewrite <- Z.land_assoc, Z.land_diag.
  - unfold autoRouteDNATBypassMark. rewrite EM. destruct (AutoRedirectMarkMode o); [|done]. destruct (_ =? _); [|done]. apply land_lor_nonzero; [lia|lia|lia|exact Hf].
  - intros Hmode Hne. unfold autoRouteDNATBypassMark. apply masked_differ. fold d. rewrite EM, Hmode. destruct (Z.eqb_spec (Z.land d m) 0) as [|]; [|done].
    assert (d <> 0) by (intros E; apply Z.lxor_eq in E; congruence).
    rewrite Z.lor_comm. apply land_lor_nonzero; try lia. rewrite Z.land_assoc, Z.land_diag. by apply lowest_bit.
Qed.
(** Clearing the field and setting the mark leaves the other bits alone, and
    the result is recognised by a comparison under the mask. *)
Lemma marked_recognised m mask mark : 0 <= mask -> Z.land mark mask = mark -> let m' := Z.lxor (Z.land m (Z.lnot mask)) mark in
  Z.land (Z.lxor m' mark) mask = 0 /\ Z.land m' (Z.lnot mask) = Z.land m (Z.lnot mask).
Proof.
  intros Hmask Hm. cbv zeta. split.
  - rewrite Z.lxor_assoc, Z.lxor_nilpotent, Z.lxor_0_r, <- Z.land_assoc, (Z.land_comm (Z.lnot mask)), Z.land_lnot_diag. apply Z.land_0_r.
  - rewrite land_lxor_l, <- Z.land_assoc, Z.land_diag. replace (Z.land mark (Z.lnot mask)) with 0; [by rewrite Z.lxor_0_r|].
    rewrite <- Hm, <- Z.land_assoc, Z.land_lnot_diag. by rewrite Z.land_0_r.
Qed.
