(* ===== verification/Ipvs.v ===== *)
(** * route_ipvs_linux.go: DNS backends behind IPVS

    The kernel's table of virtual services names the backends of DNS services;
    each gets a policy rule around the tun device, and the rules follow the
    table while it changes ([IpvsRefresh]).  The kernel's rules are a parameter
    with their documented behaviour as laws. *)
From stdpp Require Import gmap sorting.
From Stdlib Require Import Ascii String.
From S2P Require Import Prelude Bytes GoMem TsChecksum Netip TunOptions Netlink.

Record ipvsDNSDestination := mkDest { protocol : Z; endpoint : netip.AddrPort }.
#[global] Instance ipvsDNSDestination_eq_dec : EqDecision ipvsDNSDestination.
Proof. solve_decision. Defined.
#[global] Instance ipvsDNSDestination_countable : Countable ipvsDNSDestination.
Proof.
  refine (inj_countable' (fun d => (protocol d, endpoint d)) (fun p => mkDest p.1 p.2) _). by intros [].
Defined.
Definition d_addr (d : ipvsDNSDestination) : netip.Addr := netip.ap_addr (endpoint d).
Definition d_port (d : ipvsDNSDestination) : Z := netip.ap_port (endpoint d).

(** ** The order of destinations *)

(** Addr.Compare: by length, then by value. *)
Definition AddrCompare (a b : netip.Addr) : comparison :=
  match Z.compare (netip.BitLen a) (netip.BitLen b) with Eq => Z.compare (netip.val a) (netip.val b) | c => c end.
(** The less function given to sort.Slice, as the order it sorts by. *)
Definition dest_less (x y : ipvsDNSDestination) : bool :=
  match AddrCompare (d_addr x) (d_addr y) with
  | Lt => true
  | Gt => false
  | Eq => if negb (protocol x =? protocol y) then protocol x <? protocol y else d_port x <? d_port y
  end.
Definition dest_le (x y : ipvsDNSDestination) : Prop := dest_less y x = false.
#[global] Instance dest_le_dec : RelDecision dest_le.
Proof. intros x y. unfold dest_le. apply _. Defined.

Definition sortedIPVSDNSDestinations (destinationSet : gset ipvsDNSDestination) : list ipvsDNSDestination :=
  merge_sort dest_le (elements destinationSet).

(** ** Changes *)

Definition ipvsDNSDestinationsChanged (oldDestinations newDestinations : list ipvsDNSDestination) : bool :=
  if negb (length oldDestinations =? length newDestinations)%nat then true
  else existsb (fun p => negb (bool_decide (p.1 = p.2))) (combine oldDestinations newDestinations).
Definition ipvsDNSDestinationDifference (destinations excluded : list ipvsDNSDestination) : list ipvsDNSDestination :=
  let excludedSet : gset ipvsDNSDestination := list_to_set excluded in
  List.filter (fun d => negb (bool_decide (d ∈ excludedSet))) destinations.

(** ** The rule of a destination *)

Definition ipvsDNSRule (o : Options) (dnatBypass : bool) (d : ipvsDNSDestination) : option Rule :=
  let mk family :=
    Some (with_goto (IPRoute2RuleIndex o + 10)
           (with_dport (mkRange (d_port d) (d_port d))
             (with_proto (protocol d)
               (with_dst (netip.PrefixFrom (d_addr d) (netip.BitLen (d_addr d)))
                 (NewRule family (if dnatBypass then IPRoute2RuleIndex o + 1 else IPRoute2RuleIndex o)))))) in
  if netip.Is4 (d_addr d) then
    match Inet4Address o with [] => None | _ => mk AF_INET end
  else
    match Inet6Address o with [] => None | _ => mk AF_INET6 end.

(** ** The kernel *)

Inductive errno := EEXIST | ENOENT | ESRCH | OtherErrno (n : Z).
#[global] Instance errno_eq_dec : EqDecision errno.
Proof. solve_decision. Defined.

Class RuleStore (W : Type) := {
  RuleAdd : W -> Rule -> W * option errno;
  RuleDel : W -> Rule -> W * option errno;
  has_rule : W -> Rule -> Prop;
  RuleAdd_ok : forall w r w' e, RuleAdd w r = (w', e) ->
    (forall r', has_rule w' r' <-> has_rule w r' \/ (e = None /\ r' = r)) /\ (e = Some EEXIST -> has_rule w r);
  RuleDel_ok : forall w r w' e, RuleDel w r = (w', e) ->
    (forall r', has_rule w' r' <-> has_rule w r' /\ (e = None -> r' <> r)) /\
    (e = Some ENOENT \/ e = Some ESRCH -> ~ has_rule w r)
}.

Inductive ipvs_error :=
  | AddRuleError (d : ipvsDNSDestination) (e : errno)
  | DeleteRuleError (d : ipvsDNSDestination) (e : errno)
  | OutputError (ipv6 : list bool).

(** autoRouteDNATBypass.ipvsOutput *)
Record ipvsOutput := mkOutput { out4 : list ipvsDNSDestination; out6 : list ipvsDNSDestination }.

Section Update.
Context {W : Type} `{RuleStore W} (o : Options).

Definition addIPVSDNSRule (w : W) (r : Rule) : W * option errno :=
  let '(w, err) := RuleAdd w r in
  if bool_decide (err = Some EEXIST) then (w, None) else (w, err).
Definition deleteIPVSDNSRule (w : W) (r : Rule) : W * option errno :=
  let '(w, err) := RuleDel w r in
  if bool_decide (err = Some ENOENT) || bool_decide (err = Some ESRCH) then (w, None) else (w, err).

(** The destinations of a family that the interface has. *)
Definition family_dests (ipv6 : bool) (ds : list ipvsDNSDestination) : list ipvsDNSDestination :=
  List.filter (fun d => if netip.Is4 (d_addr d) then negb ipv6 && negb (bool_decide (Inet4Address o = []))
                        else ipv6 && negb (bool_decide (Inet6Address o = []))) ds.
Fixpoint add_loop (dnat : bool) (ds : list ipvsDNSDestination) (w : W) (current : gset ipvsDNSDestination) : W * gset ipvsDNSDestination * option ipvs_error :=
  match ds with
  | [] => (w, current, None)
  | d :: ds' =>
      match ipvsDNSRule o dnat d with
      | Some rule =>
          let '(w, err) := addIPVSDNSRule w rule in
          match err with
          | Some e => (w, current, Some (AddRuleError d e))
          | None => add_loop dnat ds' w ({[d]} ∪ current)
          end
      | None => add_loop dnat ds' w ({[d]} ∪ current)
      end
  end.
Fixpoint delete_loop (dnat : bool) (ds : list ipvsDNSDestination) (w : W) (current : gset ipvsDNSDestination) : W * gset ipvsDNSDestination * option ipvs_error :=
  match ds with
  | [] => (w, current, None)
  | d :: ds' =>
      match ipvsDNSRule o dnat d with
      | Some rule =>
          let '(w, err) := deleteIPVSDNSRule w rule in
          match err with
          | Some e => (w, current, Some (DeleteRuleError d e))
          | None => delete_loop dnat ds' w (current ∖ {[d]})
          end
      | None => delete_loop dnat ds' w (current ∖ {[d]})
      end
  end.

Definition is_some {A} (x : option A) : bool := match x with Some _ => true | None => false end.
End Update.
