(* ===== verification/IpvsParse.v ===== *)
(** * route_ipvs_linux.go: reading /proc/net/ip_vs

    The text of the table, line by line as bufio.Scanner gives it.  The text is
    ASCII.  netip.ParseAddr is a parameter: an address between brackets is left
    to it. *)
From stdpp Require Import gmap sorting.
From Stdlib Require Import Ascii String.
From S2P Require Import Prelude Bytes GoMem TsChecksum Netip TunOptions Netlink Ipvs.
#[local] Open Scope string_scope.
#[local] Open Scope Z_scope.
#[local] Arguments String.append : simpl nomatch.

(** ** strings and strconv *)

Definition code (c : ascii) : Z := Z.of_N (N_of_ascii c).
Definition is_space (c : ascii) : bool := ((9 <=? code c) && (code c <=? 13)) || (code c =? 32).
(** strings.Fields: [cur] is the field being read. *)
Fixpoint fields_loop (s : string) (cur : string) : list string :=
  match s with
  | EmptyString => if String.eqb cur "" then [] else [cur]
  | String c s' =>
      if is_space c then (if String.eqb cur "" then [] else [cur]) ++ fields_loop s' ""
      else fields_loop s' (cur ++ String c "")
  end%list%string.
Definition Fields (s : string) : list string := fields_loop s "".

(** strings.LastIndexByte, as the text before and after the separator. *)
Fixpoint split_last (sep : ascii) (s : string) : option (string * string) :=
  match s with
  | EmptyString => None
  | String c s' =>
      match split_last sep s' with
      | Some (a, b) => Some (String c a, b)
      | None => if Ascii.eqb c sep then Some (EmptyString, s') else None
      end
  end.
Fixpoint contains_char (x : ascii) (s : string) : bool :=
  match s with EmptyString => false | String c s' => Ascii.eqb c x || contains_char x s' end.
(** strings.Trim(s, cutset) *)
Fixpoint trim_left (cutset : string) (s : string) : string :=
  match s with String c s' => if contains_char c cutset then trim_left cutset s' else s | EmptyString => EmptyString end.
Fixpoint trim_right (cutset : string) (s : string) : string :=
  match s with
  | EmptyString => EmptyString
  | String c s' => match trim_right cutset s' with EmptyString => if contains_char c cutset then EmptyString else String c EmptyString | r => String c r end
  end.
Definition Trim (s cutset : string) : string := trim_right cutset (trim_left cutset s).

Definition hex_value (c : ascii) : option Z :=
  let n := code c in
  if (48 <=? n) && (n <=? 57) then Some (n - 48)
  else if (97 <=? n) && (n <=? 102) then Some (n - 87)
  else if (65 <=? n) && (n <=? 70) then Some (n - 55)
  else None.
Fixpoint parse_hex (s : string) (acc : Z) : option Z :=
  match s with
  | EmptyString => Some acc
  | String c s' => match hex_value c with Some d => parse_hex s' (acc * 16 + d) | None => None end
  end.
(** strconv.ParseUint(s, 16, 16) *)
Definition ParseUint16Hex (s : string) : option Z :=
  match s with
  | EmptyString => None
  | _ => match parse_hex s 0 with Some v => if v <? 65536 then Some v else None | None => None end
  end.
(** hex.DecodeString *)
Fixpoint DecodeString (s : string) : option (list Z) :=
  match s with
  | EmptyString => Some []
  | String a (String b s') =>
      match hex_value a, hex_value b, DecodeString s' with
      | Some x, Some y, Some l => Some (x * 16 + y :: l)%list
      | _, _, _ => None
      end
  | _ => None
  end.

Section Parse.
Context (ParseAddr : string -> option netip.Addr).

Definition parseIPVSAddressPort (value : string) : option (netip.Addr * Z) :=
  match split_last ":" value with
  | None => None
  | Some (before, after) =>
      match ParseUint16Hex after with
      | None => None
      | Some portValue =>
          let addressValue := Trim before "[]" in
          if (String.length addressValue =? 8)%nat && negb (contains_char ":" addressValue) then
            match DecodeString addressValue with
            | Some addressBytes => Some (netip.AddrFrom4 addressBytes, portValue)
            | None => None
            end
          else match ParseAddr addressValue with Some address => Some (address, portValue) | None => None end
      end
  end.

(** One line: the protocol of the DNS service it belongs to (0 for none) and
    the destinations so far. *)
Definition parse_line (st : Z * gset ipvsDNSDestination) (line : string) : Z * gset ipvsDNSDestination :=
  let '(dnsProtocol, destinationSet) := st in
  match Fields line with
  | [] => st
  | kind :: rest =>
      if String.eqb kind "TCP" || String.eqb kind "UDP" then
        match rest with
        | [] => (0, destinationSet)
        | value :: _ =>
            match parseIPVSAddressPort value with
            | Some (_, port) =>
                (if port =? 53 then (if String.eqb kind "TCP" then IPPROTO_TCP else IPPROTO_UDP) else 0, destinationSet)
            | None => (0, destinationSet)
            end
        end
      else if String.eqb kind "->" then
        match rest with
        | [] => st
        | value :: _ =>
            if dnsProtocol =? 0 then st
            else match parseIPVSAddressPort value with
                 | Some (address, port) =>
                     let port := if port =? 0 then 53 else port in
                     (dnsProtocol, {[mkDest dnsProtocol (netip.AddrPortFrom address port)]} ∪ destinationSet)
                 | None => st
                 end
        end
      else (0, destinationSet)
  end.
(** The lines and whether the scanner failed after them. *)
Definition parseIPVSDNSDestinations (lines : list string) (failed : bool) : option (list ipvsDNSDestination) :=
  let '(_, destinationSet) := fold_left parse_line lines (0, ∅) in
  if failed then None else Some (sortedIPVSDNSDestinations destinationSet).

(** Load: the file may be missing. *)
Inductive file := Missing | OpenError | Contents (lines : list string) (failed : bool).
Definition Load (f : file) : option (list ipvsDNSDestination) :=
  match f with
  | Missing => Some []
  | OpenError => None
  | Contents lines failed => parseIPVSDNSDestinations lines failed
  end.
End Parse.

(** ** The table as the kernel prints it *)

(** A virtual service or a backend; an address is IPv4, or IPv6 with the text
    between the brackets. *)
Inductive ip_text := Text4 (b : list Z) | Text6 (text : string) (a : netip.Addr).
Inductive table_line :=
  | VirtualService (tcp : bool) (ip : ip_text) (port : Z) (rest : string)
  | Backend (ip : ip_text) (port : Z) (rest : string)
  | OtherService (kind rest : string).

Definition hex_digit (d : Z) : ascii := ascii_of_N (Z.to_N (if d <? 10 then 48 + d else 55 + d)).
Definition hex_byte (b : Z) : string := String (hex_digit (b / 16)) (String (hex_digit (b mod 16)) "").
Fixpoint hex_bytes (l : list Z) : string := match l with [] => "" | b :: l' => hex_byte b ++ hex_bytes l' end.
(** %08X and %04X, or [%pI6]:%04X *)
Definition print_ip (ip : ip_text) : string := match ip with Text4 b => hex_bytes b | Text6 text _ => "[" ++ text ++ "]" end.
Definition print_addr (ip : ip_text) (port : Z) : string := print_ip ip ++ ":" ++ hex_bytes [port / 256; port mod 256].
Definition print_line (l : table_line) : string :=
  match l with
  | VirtualService tcp ip port rest => (if tcp then "TCP" else "UDP") ++ "  " ++ print_addr ip port ++ " " ++ rest
  | Backend ip port rest => "  -> " ++ print_addr ip port ++ "      " ++ rest
  | OtherService kind rest => kind ++ "  " ++ rest
  end.
Definition addr_of (ip : ip_text) : netip.Addr := match ip with Text4 b => netip.Addr4 b | Text6 _ a => a end.
Definition no_char (P : ascii -> bool) (s : string) : Prop := forall c, contains_char c s = true -> P c = false.
(** What can stand in a line: a text that ParseAddr reads, between brackets. *)
Definition ip_ok (ParseAddr : string -> option netip.Addr) (ip : ip_text) : Prop :=
  match ip with
  | Text4 b => bytes b /\ length b = 4%nat
  | Text6 text a => ParseAddr text = Some a /\ contains_char ":" text = true /\ no_char (fun c => is_space c || contains_char c "[]") text
  end.
Definition line_ok (ParseAddr : string -> option netip.Addr) (l : table_line) : Prop :=
  match l with
  | VirtualService _ ip port _ | Backend ip port _ => ip_ok ParseAddr ip /\ is_u16 port
  | OtherService kind rest => kind <> "" /\ kind <> "TCP" /\ kind <> "UDP" /\ kind <> "->" /\ no_char is_space kind
  end.

(** The destinations of the DNS services: the backends below a virtual service
    with port 53, at their own port or at 53. *)
Fixpoint table_dests (service : option Z) (ls : list table_line) : list ipvsDNSDestination :=
  match ls with
  | [] => []
  | VirtualService tcp _ port _ :: ls' => table_dests (if port =? 53 then Some (if tcp then IPPROTO_TCP else IPPROTO_UDP) else None) ls'
  | Backend ip port _ :: ls' =>
      match service with
      | Some p => mkDest p (netip.AddrPortFrom (addr_of ip) (if port =? 0 then 53 else port)) :: table_dests service ls'
      | None => table_dests service ls'
      end
  | OtherService _ _ :: ls' => table_dests None ls'
  end.

(** ** Strings *)

Lemma append_assoc (a b c : string) : (a ++ b) ++ c = a ++ (b ++ c).
Proof. induction a; cbn; [done|]. f_equal. done. Qed.
Lemma append_nil_r (a : string) : a ++ "" = a.
Proof. induction a; cbn; [done|]. f_equal. done. Qed.
Lemma contains_append x a b : contains_char x (a ++ b) = contains_char x a || contains_char x b.
Proof. induction a as [|c a IH]; cbn; [done|]. rewrite IH. by rewrite orb_assoc. Qed.
Lemma no_char_append P a b : no_char P (a ++ b) <-> no_char P a /\ no_char P b.
Proof.
  unfold no_char. split.
  - intros H. split; intros c Hc; apply H; rewrite contains_append, Hc; by rewrite ?orb_true_r.
  - intros [Ha Hb] c. rewrite contains_append. intros [H|H]%orb_true_iff; auto.
Qed.
Lemma no_char_cons P c s : no_char P (String c s) <-> P c = false /\ no_char P s.
Proof.
  unfold no_char. cbn. split.
  - intros H. split; [apply H; by rewrite Ascii.eqb_refl|]. intros x Hx. apply H. by rewrite Hx, orb_true_r.
  - intros [Hc Hs] x [H|H]%orb_true_iff; [|auto]. apply Ascii.eqb_eq in H. by subst.
Qed.
(** A word without spaces, ended by a space. *)
Lemma fields_loop_word w c s cur : no_char is_space w -> is_space c = true -> cur ++ w <> "" ->
  fields_loop (w ++ String c s) cur = (cur ++ w)%string :: fields_loop s "".
Proof.
  revert cur. induction w as [|x w IH]; intros cur Hw Hc Hne; cbn [String.append fields_loop].
  - rewrite append_nil_r in *. cbn. rewrite Hc. destruct (String.eqb_spec cur ""); [done|]. done.
  - apply no_char_cons in Hw as [Hx Hw]. cbn. rewrite Hx. rewrite IH; [|done|done|].
    + by rewrite append_assoc.
    + rewrite append_assoc. cbn. by destruct cur.
Qed.
Lemma Fields_word w c s : no_char is_space w -> is_space c = true -> w <> "" -> Fields (w ++ String c s) = w :: Fields s.
Proof. intros. unfold Fields. by rewrite fields_loop_word. Qed.
Lemma Fields_space c s : is_space c = true -> Fields (String c s) = Fields s.
Proof. intros H. unfold Fields. cbn. by rewrite H. Qed.
Lemma split_last_none sep s : contains_char sep s = false -> split_last sep s = None.
Proof. induction s as [|c s IH]; cbn; [done|]. intros [H1 H2]%orb_false_iff. rewrite IH by done. by rewrite H1. Qed.
Lemma split_last_append sep a b : contains_char sep b = false -> split_last sep (a ++ String sep b) = Some (a, b).
Proof.
  intros Hb. induction a as [|c a IH]; cbn; [|by rewrite IH]. rewrite split_last_none by done. by rewrite Ascii.eqb_refl.
Qed.
Lemma trim_left_id cut s : no_char (fun c => contains_char c cut) s -> trim_left cut s = s.
Proof. destruct s as [|c s]; cbn; [done|]. intros [Hc _]%no_char_cons. by rewrite Hc. Qed.
Lemma trim_right_id cut s : no_char (fun c => contains_char c cut) s -> trim_right cut s = s.
Proof. induction s as [|c s IH]; cbn; [done|]. intros [Hc Hs]%no_char_cons. rewrite IH by done. destruct s; by rewrite ?Hc. Qed.
Lemma trim_right_snoc cut s c : no_char (fun c => contains_char c cut) s -> contains_char c cut = true -> trim_right cut (s ++ String c "") = s.
Proof.
  intros Hs Hc. induction s as [|x s IH]; cbn; [by rewrite Hc|]. apply no_char_cons in Hs as [Hx Hs]. rewrite IH by done.
  destruct s; by rewrite ?Hx.
Qed.

(** ** Hexadecimal numbers *)

Lemma hex_digit_facts d : 0 <= d < 16 -> hex_value (hex_digit d) = Some d /\ is_space (hex_digit d) = false /\
  Ascii.eqb (hex_digit d) ":" = false /\ contains_char (hex_digit d) "[]" = false.
Proof.
  intros Hd. assert (d ∈ map Z.of_nat (seq 0 16)) as Hin.
  { apply list_elem_of_In, in_map_iff. exists (Z.to_nat d). split; [lia|]. apply in_seq. lia. }
  revert Hin. apply (Forall_forall (fun d => hex_value (hex_digit d) = Some d /\ is_space (hex_digit d) = false /\ Ascii.eqb (hex_digit d) ":" = false /\ contains_char (hex_digit d) "[]" = false)).
  repeat constructor.
Qed.
Lemma DecodeString_hex_bytes l : bytes l -> DecodeString (hex_bytes l) = Some l.
Proof.
  induction l as [|b l IH]; [done|]. intros Hb. inversion Hb as [|b' l' Hb1 Hb2]; subst. cbn.
  destruct (hex_digit_facts (b / 16)) as [-> _]; [zdm|]. destruct (hex_digit_facts (b mod 16)) as [-> _]; [zdm|].
  rewrite IH by done. do 2 f_equal. zdm.
Qed.
Lemma hex_bytes_chars l (P : ascii -> bool) : bytes l -> (forall d, 0 <= d < 16 -> P (hex_digit d) = false) -> no_char P (hex_bytes l).
Proof.
  intros Hl HP. induction l as [|b l IH]; cbn [hex_bytes]; [done|]. inversion Hl; subst. apply no_char_append. split; [|auto].
  unfold hex_byte. apply no_char_cons. split; [apply HP; zdm|]. apply no_char_cons. split; [apply HP; zdm|done].
Qed.
Lemma hex_bytes_length l : String.length (hex_bytes l) = (2 * length l)%nat.
Proof. induction l as [|b l IH]; [done|]. cbn. rewrite IH. lia. Qed.
Lemma ParseUint16Hex_port p : is_u16 p -> ParseUint16Hex (hex_bytes [p / 256; p mod 256]) = Some p.
Proof.
  intros Hp. cbn. destruct (hex_digit_facts (p / 256 / 16)) as [-> _]; [zdm|]. destruct (hex_digit_facts ((p / 256) mod 16)) as [-> _]; [zdm|].
  destruct (hex_digit_facts (p mod 256 / 16)) as [-> _]; [zdm|]. destruct (hex_digit_facts ((p mod 256) mod 16)) as [-> _]; [zdm|].
  replace (_ * 16 + (p mod 256) mod 16) with p by zdm. by replace (p <? 65536) with true by lia.
Qed.
