(* ===== verification/IpvsSpec.v ===== *)
(** * The IPVS rules follow the table

    Reading back the kernel's table gives the backends of its DNS services, in
    an order that depends on the set only; each destination has a rule of its
    own. *)
From stdpp Require Import gmap sorting.
From Stdlib Require Import Ascii String.
From S2P Require Import Prelude Bytes GoMem TsChecksum Netip TunOptions Netlink Ipvs IpvsParse.

(** ** The order is total *)

Definition dest_key (d : ipvsDNSDestination) : Z * Z * Z * Z := (netip.BitLen (d_addr d), netip.val (d_addr d), protocol d, d_port d).
Lemma dest_less_key x y : dest_less x y = true <->
  netip.BitLen (d_addr x) < netip.BitLen (d_addr y) \/ (netip.BitLen (d_addr x) = netip.BitLen (d_addr y) /\
    (netip.val (d_addr x) < netip.val (d_addr y) \/ (netip.val (d_addr x) = netip.val (d_addr y) /\
      (protocol x < protocol y \/ (protocol x = protocol y /\ d_port x < d_port y))))).
Proof.
  unfold dest_less, AddrCompare.
  destruct (Z.compare_spec (netip.BitLen (d_addr x)) (netip.BitLen (d_addr y))); [|split; [lia|done]|split; [done|lia]].
  destruct (Z.compare_spec (netip.val (d_addr x)) (netip.val (d_addr y))); [|split; [lia|done]|split; [done|lia]].
  destruct (Z.eqb_spec (protocol x) (protocol y)); cbn [negb]; rewrite Z.ltb_lt; lia.
Qed.
Lemma dest_le_key x y : dest_le x y <-> ~ (dest_less y x = true).
Proof. unfold dest_le. by destruct (dest_less y x). Qed.
#[global] Instance dest_le_trans : Transitive dest_le.
Proof. intros x y z. rewrite !dest_le_key, !dest_less_key. lia. Qed.
#[global] Instance dest_le_total : Total dest_le.
Proof. intros x y. rewrite !dest_le_key, !dest_less_key. lia. Qed.
Lemma dest_le_antisym x y : netip.wf (d_addr x) -> netip.wf (d_addr y) -> dest_le x y -> dest_le y x -> x = y.
Proof.
  rewrite !dest_le_key, !dest_less_key. intros Hx Hy H1 H2.
  assert (netip.BitLen (d_addr x) = netip.BitLen (d_addr y) /\ netip.val (d_addr x) = netip.val (d_addr y) /\ protocol x = protocol y /\ d_port x = d_port y)
    as (HB & HV & HP & HQ) by lia.
  destruct x as [px [ax qx]], y as [py [ay qy]]. unfold d_addr, d_port in *. cbn in *. subst. do 2 f_equal.
  by apply netip.wf_inj.
Qed.
Definition dests_wf (ds : list ipvsDNSDestination) : Prop := Forall (fun d => netip.wf (d_addr d)) ds.

(** Whatever order the map is walked in, sort.Slice ends with the same list. *)
Lemma sorted_canonical (s : gset ipvsDNSDestination) l : dests_wf l -> NoDup l -> StronglySorted dest_le l -> (forall d, d ∈ l <-> d ∈ s) ->
  sortedIPVSDNSDestinations s = l.
Proof.
  intros Hw Hn Hs He. unfold sortedIPVSDNSDestinations.
  assert (elements s ≡ₚ l) as HP by (apply NoDup_Permutation; [apply NoDup_elements|done|]; intros d; rewrite elem_of_elements; symmetry; apply He).
  assert (merge_sort dest_le (elements s) ≡ₚ l) as HP' by (rewrite merge_sort_Permutation; exact HP).
  pose proof (StronglySorted_merge_sort dest_le (elements s)) as Hms. revert HP' Hms. generalize (merge_sort dest_le (elements s)). clear HP He Hn.
  intros l'. revert l' Hs. induction l as [|x l IH]; intros l' Hs HP Hms; [by apply Permutation_nil_r in HP|].
  destruct l' as [|y l']; [by apply Permutation_nil_l in HP|]. inversion Hw; subst. inversion Hs; subst. inversion Hms; subst.
  assert (x = y) as ->.
  { assert (dests_wf (y :: l')) as Hw' by (unfold dests_wf; rewrite HP; done).
    assert (y ∈ x :: l) as Hy by (rewrite <- HP; left). assert (x ∈ y :: l') as Hx by (rewrite HP; left).
    apply elem_of_cons in Hy as [->|Hy]; [done|]. apply elem_of_cons in Hx as [->|Hx]; [done|].
    inversion Hw'; subst. rewrite Forall_forall in *. apply dest_le_antisym; auto. }
  f_equal. apply IH; [done|done| |done]. by apply Permutation_cons_inv in HP.
Qed.
Lemma elem_of_sorted s d : d ∈ sortedIPVSDNSDestinations s <-> d ∈ s.
Proof. unfold sortedIPVSDNSDestinations. rewrite merge_sort_Permutation. apply elem_of_elements. Qed.
Lemma sorted_NoDup s : NoDup (sortedIPVSDNSDestinations s).
Proof. unfold sortedIPVSDNSDestinations. rewrite merge_sort_Permutation. apply NoDup_elements. Qed.
Lemma sorted_sorted s : StronglySorted dest_le (sortedIPVSDNSDestinations s).
Proof. apply StronglySorted_merge_sort; apply _. Qed.
(** A list that came out of the sort comes out again. *)
Definition canonical (ds : list ipvsDNSDestination) : Prop := NoDup ds /\ StronglySorted dest_le ds.
Lemma sorted_is_canonical s : canonical (sortedIPVSDNSDestinations s).
Proof. split; [apply sorted_NoDup|apply sorted_sorted]. Qed.

(** ** Reading the table *)

Section Table.
Context (ParseAddr : string -> option netip.Addr).

Lemma print_ip_chars ip : ip_ok ParseAddr ip -> no_char is_space (print_ip ip) /\ print_ip ip <> ""%string.
Proof.
  destruct ip as [b|text a]; cbn [ip_ok print_ip].
  - intros [Hb Hl]. split; [apply hex_bytes_chars; [done|]; intros d Hd; by apply hex_digit_facts|].
    destruct b as [|x b]; [done|]. cbn. done.
  - intros (_ & _ & Hn). split; [|done]. apply no_char_cons. split; [done|]. apply no_char_append. split; [|by apply no_char_cons].
    intros c Hc. specialize (Hn c Hc). by apply orb_false_iff in Hn as [? _].
Qed.
Lemma port_chars p : is_u16 p -> bytes [p / 256; p mod 256].
Proof. intros. repeat constructor; zdm. Qed.
Lemma print_addr_chars ip port : ip_ok ParseAddr ip -> is_u16 port -> no_char is_space (print_addr ip port) /\ print_addr ip port <> ""%string.
Proof.
  intros Hip Hp. destruct (print_ip_chars ip Hip) as [Hc Hne]. unfold print_addr. split.
  - apply no_char_append. split; [done|]. apply no_char_cons. split; [done|]. apply hex_bytes_chars; [by apply port_chars|]. intros d Hd. by apply hex_digit_facts.
  - by destruct (print_ip ip).
Qed.
Lemma Trim_print_ip ip : ip_ok ParseAddr ip -> Trim (print_ip ip) "[]" = match ip with Text4 b => hex_bytes b | Text6 text _ => text end.
Proof.
  destruct ip as [b|text a]; cbn [ip_ok print_ip]; unfold Trim.
  - intros [Hb Hl]. assert (no_char (fun c => contains_char c "[]") (hex_bytes b)) by (apply hex_bytes_chars; [done|]; intros d Hd; by apply hex_digit_facts).
    by rewrite trim_left_id, trim_right_id.
  - intros (_ & _ & Hn). assert (no_char (fun c => contains_char c "[]") text) as Ht.
    { intros c Hc. specialize (Hn c Hc). by apply orb_false_iff in Hn as [_ ?]. }
    change (trim_left "[]" ("[" ++ text ++ "]")) with (trim_left "[]" (text ++ "]")).
    assert (trim_left "[]" (text ++ "]") = match text with EmptyString => ""%string | _ => (text ++ "]")%string end) as ->.
    { destruct text as [|c text]; [done|]. apply no_char_cons in Ht as [Hc _].
      change (trim_left "[]" (String c text ++ "]")) with (if contains_char c "[]" then trim_left "[]" (text ++ "]") else String c (text ++ "]")). by rewrite Hc. }
    destruct text as [|c text]; [done|]. by apply trim_right_snoc.
Qed.
Lemma parse_print_addr ip port : ip_ok ParseAddr ip -> is_u16 port -> parseIPVSAddressPort ParseAddr (print_addr ip port) = Some (addr_of ip, port).
Proof.
  intros Hip Hp. unfold parseIPVSAddressPort, print_addr.
  change (":" ++ hex_bytes [port / 256; port mod 256])%string with (String ":" (hex_bytes [port / 256; port mod 256])).
  assert (no_char (fun c => Ascii.eqb c ":") (hex_bytes [port / 256; port mod 256])) as Hcol.
  { apply hex_bytes_chars; [by apply port_chars|]. intros d Hd. by apply hex_digit_facts. }
  rewrite split_last_append.
  2:{ destruct (contains_char ":" _) eqn:E; [|done]. apply Hcol in E. done. }
  rewrite ParseUint16Hex_port, Trim_print_ip by done. destruct ip as [b|text a]; cbn [ip_ok addr_of] in *.
  - destruct Hip as [Hb Hl]. rewrite hex_bytes_length, Hl. cbn [Nat.eqb Nat.mul Nat.add andb].
    assert (contains_char ":" (hex_bytes b) = false) as ->.
    { assert (no_char (fun c => Ascii.eqb c ":") (hex_bytes b)) as Hc by (apply hex_bytes_chars; [done|]; intros d Hd; by apply hex_digit_facts).
      destruct (contains_char ":" _) eqn:E; [|done]. by apply Hc in E. }
    cbn. by rewrite DecodeString_hex_bytes.
  - destruct Hip as (HP & Hc & _). rewrite Hc, andb_false_r, HP. done.
Qed.
Lemma Fields_print_line l : line_ok ParseAddr l ->
  match l with
  | VirtualService tcp ip port rest => exists more, Fields (print_line l) = (if tcp then "TCP" else "UDP")%string :: print_addr ip port :: more
  | Backend ip port rest => exists more, Fields (print_line l) = "->"%string :: print_addr ip port :: more
  | OtherService kind rest => exists more, Fields (print_line l) = kind :: more
  end.
Proof.
  destruct l as [tcp ip port rest|ip port rest|kind rest]; cbn [line_ok print_line].
  - intros [Hip Hp]. destruct (print_addr_chars ip port Hip Hp) as [Hc Hne]. eexists.
    change ("  " ++ print_addr ip port ++ " " ++ rest)%string with (String " " (String " " (print_addr ip port ++ String " " rest))).
    rewrite Fields_word; [|by destruct tcp; repeat (apply no_char_cons; split; [done|])|done|by destruct tcp].
    rewrite Fields_space, Fields_word by done. done.
  - intros [Hip Hp]. destruct (print_addr_chars ip port Hip Hp) as [Hc Hne]. eexists.
    change ("  -> " ++ print_addr ip port ++ "      " ++ rest)%string with (String " " (String " " ("->" ++ String " " (print_addr ip port ++ String " " ("     " ++ rest))))).
    rewrite !Fields_space by done. rewrite Fields_word; [|by repeat (apply no_char_cons; split; [done|])|done|done]. by rewrite Fields_word.
  - intros (Hne & _ & _ & _ & Hn). eexists. change ("  " ++ rest)%string with (String " " (" " ++ rest)). by rewrite Fields_word.
Qed.
Definition proto_of (service : option Z) : Z := match service with Some p => p | None => 0 end.
Lemma parse_print_lines ls service s : Forall (line_ok ParseAddr) ls -> service <> Some 0 ->
  (fold_left (parse_line ParseAddr) (map print_line ls) (proto_of service, s)).2 = list_to_set (table_dests service ls) ∪ s.
Proof.
  intros Hls. revert service s. induction Hls as [|l ls Hl Hls IH]; intros service s Hs; cbn [map fold_left table_dests]; [set_solver|].
  pose proof (Fields_print_line l Hl) as HF. unfold parse_line at 2. destruct l as [tcp ip port rest|ip port rest|kind rest]; destruct HF as [more ->].
  - destruct Hl as [Hip Hp]. rewrite parse_print_addr by done.
    replace (String.eqb (if tcp then "TCP" else "UDP") "TCP" || String.eqb (if tcp then "TCP" else "UDP") "UDP") with true by by destruct tcp.
    replace (if String.eqb (if tcp then "TCP" else "UDP") "TCP" then IPPROTO_TCP else IPPROTO_UDP) with (if tcp then IPPROTO_TCP else IPPROTO_UDP) by by destruct tcp.
    transitivity ((fold_left (parse_line ParseAddr) (map print_line ls) (proto_of (if port =? 53 then Some (if tcp then IPPROTO_TCP else IPPROTO_UDP) else None), s)).2).
    { by destruct (port =? 53). }
    apply IH. destruct (port =? 53), tcp; done.
  - destruct Hl as [Hip Hp]. cbn [String.eqb orb Ascii.eqb]. destruct service as [p|]; cbn [proto_of].
    + assert (p <> 0) by congruence. rewrite parse_print_addr by done. replace (p =? 0) with false by lia.
      change (("->" =? "TCP")%string || ("->" =? "UDP")%string) with false. change ("->" =? "->")%string with true. cbv iota.
      etransitivity; [by apply (IH (Some p))|]. cbn [list_to_set]. set_solver.
    + change (("->" =? "TCP")%string || ("->" =? "UDP")%string) with false. change ("->" =? "->")%string with true. cbv iota. cbn [Z.eqb].
      by apply (IH None).
  - destruct Hl as (_ & H1 & H2 & H3 & _). rewrite (proj2 (String.eqb_neq kind "TCP")), (proj2 (String.eqb_neq kind "UDP")), (proj2 (String.eqb_neq kind "->")) by done.
    cbn [orb]. by apply (IH None).
Qed.
End Table.

(** The table as the kernel prints it (a line per virtual service, a line
    per backend, other lines) is read back as the backends of the TCP and UDP
    services with port 53, each at its own port or at 53 when it has none,
    sorted and without duplicates; a scanner error gives an error. *)
Lemma parseIPVSDNSDestinations_roundtrip ParseAddr ls failed : Forall (line_ok ParseAddr) ls ->
  parseIPVSDNSDestinations ParseAddr (map print_line ls) failed = (if failed then None else Some (sortedIPVSDNSDestinations (list_to_set (table_dests None ls)))) /\
  (forall d, d ∈ sortedIPVSDNSDestinations (list_to_set (table_dests None ls)) <-> d ∈ table_dests None ls) /\
  canonical (sortedIPVSDNSDestinations (list_to_set (table_dests None ls))).
Proof.
  intros Hls. split_and!; [|intros d; by rewrite elem_of_sorted, elem_of_list_to_set|apply sorted_is_canonical].
  unfold parseIPVSDNSDestinations. pose proof (parse_print_lines ParseAddr ls None ∅ Hls ltac:(done)) as HP. cbn [proto_of] in HP.
  destruct (fold_left _ _ _) as [p s]. cbn in HP. destruct failed; [done|]. do 2 f_equal. rewrite HP. set_solver.
Qed.
Definition sample_table : list table_line :=
  [OtherService "IP" "Virtual Server version 1.2.1 (size=4096)"; OtherService "Prot" "LocalAddress:Port Scheduler Flags";
   VirtualService true (Text4 [10; 96; 0; 10]) 53 "rr"; Backend (Text4 [10; 244; 0; 7]) 0 "Masq 1 0 0";
   VirtualService true (Text4 [10; 96; 0; 1]) 443 "rr"; Backend (Text4 [10; 1; 2; 3]) 6443 "Masq 1 0 0";
   VirtualService false (Text6 "fd00::a" (netip.Addr6 (253 :: repeat 0 14 ++ [10]))) 53 "rr";
   Backend (Text6 "fd00::b" (netip.Addr6 (253 :: repeat 0 14 ++ [11]))) 5353 "Masq 1 0 0";
   Backend (Text4 [10; 244; 0; 7]) 53 "Masq 1 0 0"].
Definition sample_ParseAddr (s : string) : option netip.Addr :=
  if String.eqb s "fd00::a" then Some (netip.Addr6 (253 :: repeat 0 14 ++ [10]))
  else if String.eqb s "fd00::b" then Some (netip.Addr6 (253 :: repeat 0 14 ++ [11])) else None.
Lemma parseIPVSDNSDestinations_roundtrip_witness :
  parseIPVSDNSDestinations sample_ParseAddr (map print_line sample_table) false =
  Some [mkDest 6 (netip.AddrPortFrom (netip.Addr4 [10; 244; 0; 7]) 53); mkDest 17 (netip.AddrPortFrom (netip.Addr4 [10; 244; 0; 7]) 53);
        mkDest 17 (netip.AddrPortFrom (netip.Addr6 (253 :: repeat 0 14 ++ [11])) 5353)].
Proof.
  destruct (parseIPVSDNSDestinations_roundtrip sample_ParseAddr sample_table false) as [E _].
  { unfold sample_table. repeat (apply Forall_cons; split); try apply Forall_nil_2; cbn; split_and?; try lia; try done;
      try (repeat constructor; cbn; lia); repeat (apply no_char_cons; split; [done|]); done. }
  rewrite E. vm_compute. reflexivity.
Defined.

(** ** The rules follow the destinations *)

Lemma ipvsDNSRule_inj o b d d' r : ipvsDNSRule o b d = Some r -> ipvsDNSRule o b d' = Some r -> d = d'.
Proof.
  intros E E'.
  assert (forall d, ipvsDNSRule o b d = Some r -> Dst r = Some (netip.PrefixFrom (d_addr d) (netip.BitLen (d_addr d))) /\ IPProto r = protocol d /\ Dport r = Some (mkRange (d_port d) (d_port d))) as HF.
  { clear. intros d. unfold ipvsDNSRule. destruct (netip.Is4 (d_addr d)); [destruct (Inet4Address o)|destruct (Inet6Address o)]; intros [= <-]; done. }
  apply HF in E as (E1 & E2 & E3). apply HF in E' as (E1' & E2' & E3'). rewrite E1 in E1'. rewrite E2 in E2'. rewrite E3 in E3'.
  destruct d as [p [a q]], d' as [p' [a' q']]. unfold d_addr, d_port in *. cbn in *. simplify_eq. done.
Qed.
