(* ===== verification/PolicyRules.v ===== *)
(** * tun_linux.go: the policy rules and routes of the tun device

    [rules] builds the rules that NativeTun installs, block by block as the
    source does: each block appends the rules of both families and advances the
    priorities.  [unsetRules] takes them out again. *)
From Stdlib Require Import String.
From S2P Require Import Prelude Bytes GoMem TsChecksum Netip TunOptions TunRules RouteMark Netlink Ipvs.

(** ** Routes *)

Record net_route := mkRoute { rt_Dst : list Z * (Z * Z); rt_Gw : option (list Z); rt_LinkIndex : Z; rt_Table : Z }.
(** net.IPNet: the address and the mask CIDRMask(ones, bits). *)
Definition prefixToIPNet (p : netip.Prefix) : list Z * (Z * Z) := (netip.AsSlice (netip.pf_addr p), (netip.pf_bits p, netip.BitLen (netip.pf_addr p))).
Definition route_of (o : Options) (gateway4 gateway6 : netip.Addr) (linkIndex : Z) (it : netip.Prefix) : net_route :=
  let gateway :=
    if netip.Is4 (netip.pf_addr it) && negb (IsUnspecified gateway4) then Some (netip.AsSlice gateway4)
    else if Is6 (netip.pf_addr it) && negb (IsUnspecified gateway6) then Some (netip.AsSlice gateway6)
    else None in
  mkRoute (prefixToIPNet it) gateway linkIndex (IPRoute2TableIndex o).
Definition routes `{IPSetPackage} (os : GOOS) (o : Options) (linkIndex : Z) : route_error + list net_route :=
  match BuildAutoRouteRanges (bool_decide (os = Darwin)) false o with
  | inl err => inl err
  | inr routeRanges => inr (map (route_of o (Inet4GatewayAddr os o) (Inet6GatewayAddr os o) linkIndex) routeRanges)
  end.

(** ** Rules *)

(** NativeTun: what rules reads of it. *)
Record native_tun := mkNative {
  options : Options;
  t_dnatBypass : bool;
  t_ipvsDNSBypass : option (list ipvsDNSDestination);
  ruleIndex6 : list Z
}.

(** The answer of netlink.RuleList for IPv6: the priorities, or an error. *)
Definition nextIndex6 (ruleList : option (list Z)) (t : native_tun) : Z * native_tun :=
  match ruleList with
  | None => (-1, t)
  | Some priorities =>
      let minIndex := fold_left (fun m p => if (0 <? p) && ((m =? 0) || (p <? m)) then p else m) priorities 0 in
      let minIndex := minIndex - 1 in
      (minIndex, mkNative (options t) (t_dnatBypass t) (t_ipvsDNSBypass t) (ruleIndex6 t ++ [minIndex]))
  end.

(** The rules built for the families the interface has, IPv4 first, each at the
    priority of its family. *)
Definition families (p4 p6 : bool) (priority priority6 : Z) (f : Z -> Z -> Rule) : list Rule :=
  (if p4 then [f AF_INET priority] else []) ++ (if p6 then [f AF_INET6 priority6] else []).
Definition inc (p : bool) (priority : Z) : Z := if p then priority + 1 else priority.

(** New: "auto redirect input and output marks must be different" *)
Definition marks_conflict (o : Options) : bool :=
  AutoRoute o && AutoRedirectMarkMode o && (AutoRedirectInputMark o =? output_mark o).

(** AutoRedirectMarkMode: one family. *)
Definition mark_rules (o : Options) (dnat : bool) (family priority : Z) : list Rule :=
  let mark := if dnat then with_mask (autoRouteDNATBypassMask o) (with_mark (autoRouteDNATBypassMark o) (NewRule family priority))
              else with_mark (AutoRedirectOutputMark o) (NewRule family priority) in
  [with_goto (priority + 2) mark;
   with_table (IPRoute2TableIndex o) (with_mark (AutoRedirectInputMark o) (NewRule family (priority + 1)));
   NewRule family (priority + 2)].
Definition rules_mark_mode (o : Options) (dnat p4 p6 : bool) : list Rule :=
  (if p4 then mark_rules o dnat AF_INET (IPRoute2RuleIndex o) else []) ++
  (if p6 then mark_rules o dnat AF_INET6 (IPRoute2RuleIndex o) else []) ++
  families p4 p6 (IPRoute2AutoRedirectFallbackRuleIndex o) (IPRoute2AutoRedirectFallbackRuleIndex o)
    (fun family priority => with_table (IPRoute2TableIndex o) (NewRule family priority)).

(** The blocks of the other mode: rules and the priorities after them. *)
Definition dnat_block (o : Options) (p4 p6 : bool) (nop priority priority6 : Z) : list Rule :=
  families p4 p6 priority priority6 (fun family priority =>
    with_goto nop (with_mask (autoRouteDNATBypassMask o) (with_mark (autoRouteDNATBypassMark o) (NewRule family priority)))).
Definition ipvs_block (o : Options) (dnat : bool) (ds : list ipvsDNSDestination) : list Rule :=
  omap (ipvsDNSRule o dnat) ds.
Definition exclude_block (o : Options) (excludeRanges : list Range) (p4 p6 : bool) (nop priority priority6 : Z) : list Rule :=
  flat_map (fun excludePort => families p4 p6 priority priority6 (fun family priority => with_goto nop (with_sport excludePort (NewRule family priority)))) (ExcludeSrcPort o) ++
  flat_map (fun excludePort => families p4 p6 priority priority6 (fun family priority => with_goto nop (with_dport excludePort (NewRule family priority)))) (ExcludeDstPort o) ++
  flat_map (fun excludeRange => families p4 p6 priority priority6 (fun family priority => with_goto nop (with_uids excludeRange (NewRule family priority)))) excludeRanges.
Definition has_excludes (o : Options) (excludeRanges : list Range) : bool :=
  negb (bool_decide (ExcludeSrcPort o = [])) || negb (bool_decide (ExcludeDstPort o = [])) || negb (bool_decide (length excludeRanges = 0%nat)).

(** IncludeInterface: the named interfaces skip the jump that takes the others
    away. *)
Definition include_block (o : Options) (p4 p6 : bool) (nop priority priority6 : Z) : list Rule :=
  let matchPriority := priority + 2 in
  let matchPriority6 := priority6 + 2 in
  flat_map (fun includeInterface =>
    (if p4 then [with_goto matchPriority (with_iif includeInterface (NewRule AF_INET priority))] else []) ++
    (if p6 then [with_goto matchPriority6 (with_iif includeInterface (NewRule AF_INET6 priority6))] else [])) (IncludeInterface o) ++
  (if p4 then [with_goto nop (NewRule AF_INET (priority + 1)); NewRule AF_INET matchPriority] else []) ++
  (if p6 then [with_goto nop (NewRule AF_INET6 (priority6 + 1)); NewRule AF_INET6 matchPriority6] else []).
Definition exclude_interfaces (o : Options) (p4 p6 : bool) (nop priority priority6 : Z) : list Rule :=
  flat_map (fun excludeInterface => families p4 p6 priority priority6 (fun family priority => with_goto nop (with_iif excludeInterface (NewRule family priority)))) (ExcludeInterface o).
Definition interface_block (o : Options) (p4 p6 : bool) (nop priority priority6 : Z) : list Rule * (Z * Z) :=
  match IncludeInterface o, ExcludeInterface o with
  | _ :: _, _ => (include_block o p4 p6 nop priority priority6, (if p4 then priority + 3 else priority, if p6 then priority6 + 3 else priority6))
  | [], _ :: _ => (exclude_interfaces o p4 p6 nop priority priority6, (inc p4 priority, inc p6 priority6))
  | [], [] => ([], (priority, priority6))
  end.

(** The interface monitor on Android: AndroidVPNEnabled and OverrideAndroidVPN. *)
Record android_vpn := mkVPN { AndroidVPNEnabled : bool; OverrideAndroidVPN : bool }.
Definition protectedFromVPN : Z := 131072.
Definition android_block (os : GOOS) (vpn : android_vpn) (p4 p6 : bool) (nop priority priority6 : Z) : list Rule * (Z * Z) :=
  if bool_decide (os = Android) && AndroidVPNEnabled vpn then
    (families p4 p6 priority priority6 (fun family priority =>
       let it := NewRule family priority in
       let it := if OverrideAndroidVPN vpn then with_mark protectedFromVPN it else it in
       with_goto nop (with_mask protectedFromVPN it)), (inc p4 priority, inc p6 priority6))
  else ([], (priority, priority6)).
Definition strict_block (o : Options) (p4 p6 : bool) (priority priority6 : Z) : list Rule * (Z * Z) :=
  if StrictRoute o then
    (families (negb p4) (negb p6) priority priority6 (fun family priority => with_type FR_ACT_UNREACHABLE (NewRule family priority)),
     (inc (negb p4) priority, inc (negb p6) priority6))
  else ([], (priority, priority6)).
Definition not_dns (family priority : Z) : Rule :=
  with_suppress 0 (with_table RT_TABLE_MAIN (with_dport (mkRange 53 53) (inverted (NewRule family priority)))).
Definition main_block (os : GOOS) (o : Options) (p4 p6 : bool) (priority priority6 : Z) : list Rule * (Z * Z) :=
  if negb (bool_decide (os = Android)) then
    ((if p4 then map (fun address => with_table (IPRoute2TableIndex o) (with_dst (Masked address) (NewRule AF_INET priority))) (Inet4Address o) else []) ++
     families p4 p6 (inc p4 priority) priority6 not_dns,
     (inc p4 priority, priority6))
  else ([], (priority, priority6)).
Definition tun_block4 (o : Options) (nop priority : Z) : list Rule :=
  with_goto nop (with_iif (Name o) (NewRule AF_INET priority)) ::
  with_table (IPRoute2TableIndex o) (with_iif "lo" (inverted (NewRule AF_INET (priority + 1)))) ::
  with_table (IPRoute2TableIndex o) (with_src (netip.PrefixFrom IPv4Unspecified 32) (with_iif "lo" (NewRule AF_INET (priority + 1)))) ::
  map (fun address => with_table (IPRoute2TableIndex o) (with_src (Masked address) (with_iif "lo" (NewRule AF_INET (priority + 1))))) (Inet4Address o).
Definition tun_block6 (o : Options) (nop priority6 : Z) : list Rule :=
  map (fun address => with_table (IPRoute2TableIndex o) (with_src (Masked address) (with_iif "lo" (NewRule AF_INET6 priority6)))) (Inet6Address o) ++
  [with_goto nop (with_iif (Name o) (NewRule AF_INET6 (priority6 + 1)));
   with_goto nop (with_src (netip.PrefixFrom IPv6Unspecified 1) (with_iif "lo" (NewRule AF_INET6 (priority6 + 1))));
   with_goto nop (with_src (netip.PrefixFrom (netip.AddrFrom16 (128 :: repeat 0 15)) 1) (with_iif "lo" (NewRule AF_INET6 (priority6 + 1))));
   with_table (IPRoute2TableIndex o) (NewRule AF_INET6 (priority6 + 2))].

Definition rules_auto (os : GOOS) (vpn : android_vpn) (excludeRanges : list Range) (t : native_tun) (p4 p6 : bool) : list Rule :=
  let o := options t in
  let priority := IPRoute2RuleIndex o in
  let priority6 := priority in
  let nopPriority := priority + 10 in
  let dnat := t_dnatBypass t in
  let r1 := if dnat then dnat_block o p4 p6 nopPriority priority priority6 else [] in
  let '(priority, priority6) := if dnat then (inc p4 priority, inc p6 priority6) else (priority, priority6) in
  let '(r2, (priority, priority6)) :=
    match t_ipvsDNSBypass t with
    | Some ds => (ipvs_block o dnat ds, (inc p4 priority, inc p6 priority6))
    | None => ([], (priority, priority6))
    end in
  let r3 := exclude_block o excludeRanges p4 p6 nopPriority priority priority6 in
  let '(priority, priority6) := if has_excludes o excludeRanges then (inc p4 priority, inc p6 priority6) else (priority, priority6) in
  let '(r4, (priority, priority6)) := interface_block o p4 p6 nopPriority priority priority6 in
  let '(r5, (priority, priority6)) := android_block os vpn p4 p6 nopPriority priority priority6 in
  let '(r6, (priority, priority6)) := strict_block o p4 p6 priority priority6 in
  let '(r7, (priority, priority6)) := main_block os o p4 p6 priority priority6 in
  let r8 := if p4 then tun_block4 o nopPriority priority else [] in
  let r9 := if p6 then tun_block6 o nopPriority priority6 else [] in
  let r10 := families p4 p6 nopPriority nopPriority NewRule in
  r1 ++ r2 ++ r3 ++ r4 ++ r5 ++ r6 ++ r7 ++ r8 ++ r9 ++ r10.

Definition rules `{RangesPackage} (os : GOOS) (vpn : android_vpn) (ruleList6 : option (list Z)) (t : native_tun) : list Rule * native_tun :=
  let o := options t in
  let p4 := negb (bool_decide (Inet4Address o = [])) in
  let p6 := negb (bool_decide (Inet6Address o = [])) in
  if negb (AutoRoute o) then
    if p6 then
      let '(index, t) := nextIndex6 ruleList6 t in
      ([with_oif (Name o) (with_table (IPRoute2TableIndex o) (NewRule AF_INET6 index))], t)
    else ([], t)
  else if negb p4 && negb p6 then ([], t)
  else if AutoRedirectMarkMode o then (rules_mark_mode o (t_dnatBypass t) p4 p6, t)
  else (rules_auto os vpn (ExcludedRanges o) t p4 p6, t).

(** ** Installing and removing *)

(** A rule with only a family and a priority deletes the first rule of both. *)
Fixpoint remove_first (family priority : Z) (rs : list Rule) : option (list Rule) :=
  match rs with
  | [] => None
  | r :: rs' => if (Family r =? family) && (Priority r =? priority) then Some rs' else option_map (cons r) (remove_first family priority rs')
  end.
(** netlink over the rules of the kernel, in their order; an operation that
    fails changes nothing. *)
Class NetlinkRules (W : Type) := {
  NetlinkRuleAdd : W -> Rule -> W * option errno;
  NetlinkRuleDel : W -> Z -> Z -> W * option errno;
  RuleList : W -> W * (errno + list Rule);
  rules_in : W -> list Rule;
  NetlinkRuleAdd_ok : forall w r w' e, NetlinkRuleAdd w r = (w', e) -> rules_in w' = match e with None => insert_rule r (rules_in w) | Some _ => rules_in w end;
  NetlinkRuleDel_ok : forall w family priority w' e, NetlinkRuleDel w family priority = (w', e) ->
    match e with None => remove_first family priority (rules_in w) = Some (rules_in w') | Some _ => rules_in w' = rules_in w end;
  RuleList_ok : forall w w' l, RuleList w = (w', l) -> rules_in w' = rules_in w /\ match l with inr rs => rs = rules_in w | inl _ => True end
}.

Section Install.
Context {W : Type} `{NetlinkRules W}.

(** The index of the rule that could not be added, and its error. *)
Fixpoint setRules_loop (i : Z) (rs : list Rule) (s : W) : W * option (Z * errno) :=
  match rs with
  | [] => (s, None)
  | r :: rs' => let '(s, err) := NetlinkRuleAdd s r in match err with Some e => (s, Some (i, e)) | None => setRules_loop (i + 1) rs' s end
  end.
Definition setRules (rs : list Rule) (s : W) : W * option (Z * errno) := setRules_loop 0 rs s.

Inductive unset_error := UnsetRule6 (index : Z) (e : errno) | ListError (e : errno) | UnsetRule (priority family : Z) (e : errno).
Fixpoint unset_indexes (indexes : list Z) (s : W) : W * option unset_error :=
  match indexes with
  | [] => (s, None)
  | index :: indexes' =>
      let '(s, err) := NetlinkRuleDel s AF_INET6 index in
      match err with Some e => (s, Some (UnsetRule6 index e)) | None => unset_indexes indexes' s end
  end.
Definition in_our_range (o : Options) (priority : Z) : bool :=
  ((IPRoute2RuleIndex o <=? priority) && (priority <=? IPRoute2RuleIndex o + 10)) ||
  (AutoRedirectMarkMode o && (priority =? IPRoute2AutoRedirectFallbackRuleIndex o)).
Fixpoint unset_listed (o : Options) (ruleList : list Rule) (s : W) : W * option unset_error :=
  match ruleList with
  | [] => (s, None)
  | rule :: ruleList' =>
      if in_our_range o (Priority rule) then
        let '(s, err) := NetlinkRuleDel s (Family rule) (Priority rule) in
        match err with Some e => (s, Some (UnsetRule (Priority rule) (Family rule) e)) | None => unset_listed o ruleList' s end
      else unset_listed o ruleList' s
  end.
Definition unsetRules (t : native_tun) (s : W) : W * native_tun * option unset_error :=
  let o := options t in
  if 0 <? FileDescriptor o then (s, t, None)
  else
    let '(s, err) := unset_indexes (ruleIndex6 t) s in
    match err with
    | Some e => (s, t, Some e)
    | None =>
        let t := mkNative o (t_dnatBypass t) (t_ipvsDNSBypass t) [] in
        if AutoRoute o then
          let '(s, list) := RuleList s in
          match list with
          | inl e => (s, t, Some (ListError e))
          | inr ruleList => let '(s, err) := unset_listed o ruleList s in (s, t, err)
          end
        else (s, t, None)
    end.
Inductive reset_error := Unset (e : unset_error) | SetRule (i : Z) (e : errno).
Definition resetRules `{RangesPackage} (os : GOOS) (vpn : android_vpn) (ruleList6 : option (list Z)) (t : native_tun) (s : W) : W * native_tun * option reset_error :=
  let '(s, t, err) := unsetRules t s in
  match err with
  | Some e => (s, t, Some (Unset e))
  | None =>
      let '(rs, t) := rules os vpn ruleList6 t in
      let '(s, err) := setRules rs s in
      (s, t, option_map (fun e => SetRule e.1 e.2) err)
  end.
End Install.
