(* ===== verification/PolicyRulesSpec.v ===== *)
(** * The policy rules, family by family

    The list that [rules] builds interleaves both families; [rules_auto_family]
    gives the rules of one of them, with their priorities. *)
From Stdlib Require Import String.
From S2P Require Import Prelude Bytes GoMem TsChecksum Netip TunOptions TunRules TunRulesSpec RouteMark Netlink Ipvs PolicyRules.

(** ** Prefixes *)

Lemma Masked_Contains p ip : valid_prefix p -> netip.Contains (Masked p) ip = netip.Contains p ip.
Proof.
  intros (Hw & Hv & Hb). destruct p as [a n]. unfold Masked, netip.MaskedAddr. cbn [netip.pf_addr netip.pf_bits] in *.
  set (w := netip.BitLen a - n). assert (0 <= w) by lia.
  assert (0 <= netip.val a < 2 ^ netip.BitLen a) as Hr by by apply naive.valid_range.
  assert (0 <= Z.shiftl (Z.shiftr (netip.val a) w) w < 2 ^ netip.BitLen a) as Hs.
  { rewrite Z.shiftl_mul_pow2, Z.shiftr_div_pow2 by lia. pose proof (Z.mul_div_le (netip.val a) (2 ^ w) ltac:(lia)).
    pose proof (Z.div_pos (netip.val a) (2 ^ w) ltac:(lia) ltac:(lia)). nia. }
  assert (forall m, Z.shiftr (Z.shiftl (Z.shiftr m w) w) w = Z.shiftr m w) as HS.
  { intros m. rewrite Z.shiftr_shiftl_l, Z.sub_diag, Z.shiftl_0_r by lia. done. }
  unfold netip.Contains. cbn [netip.pf_addr netip.pf_bits]. unfold w in *.
  destruct a as [|b|b]; [done| |]; destruct Hw as [Hb1 Hl]; unfold netip.BitLen, netip.val, Zlen in *; cbn [netip.AsSlice netip.IsValid] in *;
    rewrite ?netip.length_be_bytes, Hl in *;
    (destruct (negb (netip.IsValid ip)); [done|]; cbn [negb orb]; destruct (8 * Z.of_nat (length (netip.AsSlice ip)) =? _) eqn:E; cbn [negb]; [|done];
     apply Z.eqb_eq in E; rewrite E, netip.be_val_be_bytes by (cbn in *; lia); by rewrite HS).
Qed.
Lemma covered_Masked ps ip : Forall valid_prefix ps -> covered (map Masked ps) ip = covered ps ip.
Proof. induction 1 as [|p ps Hp Hps IH]; [done|]. unfold covered in *. cbn. by rewrite Masked_Contains, IH. Qed.

(** ** Families *)

Definition of_family (fam : Z) (rs : list Rule) : list Rule := List.filter (fun r => Family r =? fam) rs.
Lemma of_family_app fam a b : of_family fam (a ++ b) = of_family fam a ++ of_family fam b.
Proof. unfold of_family. apply List.filter_app. Qed.
Lemma of_family_all fam rs : Forall (fun r => Family r = fam) rs -> of_family fam rs = rs.
Proof. induction 1 as [|r rs Hr Hrs IH]; [done|]. cbn. rewrite Hr, Z.eqb_refl. f_equal. exact IH. Qed.
Lemma of_family_none fam fam' rs : fam' <> fam -> Forall (fun r => Family r = fam') rs -> of_family fam rs = [].
Proof. intros Hn. induction 1 as [|r rs Hr Hrs IH]; [done|]. cbn. rewrite Hr. by replace (fam' =? fam) with false by lia. Qed.
(** A block that builds the same rule for both families. *)
Definition pick (fam : Z) (p4 p6 : bool) : bool := if fam =? AF_INET then p4 else p6.
Definition is_fam (fam : Z) : Prop := fam = AF_INET \/ fam = AF_INET6.
Lemma of_family_families fam p4 p6 a b (f : Z -> Z -> Rule) : is_fam fam -> (forall fam p, Family (f fam p) = fam) ->
  of_family fam (families p4 p6 a b f) = if pick fam p4 p6 then [f fam (if fam =? AF_INET then a else b)] else [].
Proof. intros [->| ->] HF; unfold families, of_family, pick; destruct p4, p6; cbn; rewrite ?HF; done. Qed.
Lemma of_family_flat_map {A} fam p4 p6 a b (f : A -> Z -> Z -> Rule) l : is_fam fam -> (forall x fam p, Family (f x fam p) = fam) ->
  of_family fam (flat_map (fun x => families p4 p6 a b (f x)) l) = if pick fam p4 p6 then map (fun x => f x fam (if fam =? AF_INET then a else b)) l else [].
Proof.
  intros Hf HF. induction l as [|x l IH]; [by destruct (pick _ _ _)|]. cbn [flat_map]. rewrite of_family_app, of_family_families, IH by done.
  by destruct (pick _ _ _).
Qed.

(** ** The rules of one family *)

Section OneFamily.
Context (os : GOOS) (vpn : android_vpn) (excludeRanges : list Range) (t : native_tun) (fam : Z).
Let o := options t.
Let start := IPRoute2RuleIndex o.
Let nop := start + 10.
Definition addresses : list netip.Prefix := if fam =? AF_INET then Inet4Address (options t) else Inet6Address (options t).

Definition dnat_rules (p : Z) : list Rule :=
  if t_dnatBypass t then [with_goto nop (with_mask (autoRouteDNATBypassMask o) (with_mark (autoRouteDNATBypassMark o) (NewRule fam p)))] else [].
Definition ipvs_rules : list Rule := match t_ipvsDNSBypass t with Some ds => of_family fam (ipvs_block o (t_dnatBypass t) ds) | None => [] end.
Definition exclude_rules (p : Z) : list Rule :=
  map (fun x => with_goto nop (with_sport x (NewRule fam p))) (ExcludeSrcPort o) ++
  map (fun x => with_goto nop (with_dport x (NewRule fam p))) (ExcludeDstPort o) ++
  map (fun x => with_goto nop (with_uids x (NewRule fam p))) excludeRanges.
Definition interface_rules (p : Z) : list Rule :=
  match IncludeInterface o with
  | _ :: _ => map (fun x => with_goto (p + 2) (with_iif x (NewRule fam p))) (IncludeInterface o) ++ [with_goto nop (NewRule fam (p + 1)); NewRule fam (p + 2)]
  | [] => map (fun x => with_goto nop (with_iif x (NewRule fam p))) (ExcludeInterface o)
  end.
Definition android_rules (p : Z) : list Rule :=
  if bool_decide (os = Android) && AndroidVPNEnabled vpn then
    [with_goto nop (with_mask protectedFromVPN (if OverrideAndroidVPN vpn then with_mark protectedFromVPN (NewRule fam p) else NewRule fam p))]
  else [].
Definition main_rules (p : Z) : list Rule :=
  if bool_decide (os = Android) then []
  else if fam =? AF_INET then map (fun a => with_table (IPRoute2TableIndex o) (with_dst (Masked a) (NewRule fam p))) (Inet4Address o) ++ [not_dns fam (p + 1)]
  else [not_dns fam p].
Definition tun_rules (p : Z) : list Rule := if fam =? AF_INET then tun_block4 o nop p else tun_block6 o nop p.

(** The priorities after each block. *)
Definition prio1 : Z := if t_dnatBypass t then start + 1 else start.
Definition prio2 : Z := match t_ipvsDNSBypass t with Some _ => prio1 + 1 | None => prio1 end.
Definition prio3 : Z := if has_excludes o excludeRanges then prio2 + 1 else prio2.
Definition prio4 : Z := match IncludeInterface o, ExcludeInterface o with _ :: _, _ => prio3 + 3 | [], _ :: _ => prio3 + 1 | [], [] => prio3 end.
Definition prio5 : Z := if bool_decide (os = Android) && AndroidVPNEnabled vpn then prio4 + 1 else prio4.
Definition prio6 : Z := if bool_decide (os = Android) then prio5 else if fam =? AF_INET then prio5 + 1 else prio5.

Definition body_rules : list Rule :=
  dnat_rules start ++ ipvs_rules ++ exclude_rules prio2 ++ interface_rules prio3 ++ android_rules prio4 ++ main_rules prio5 ++ tun_rules prio6.
Definition enabled_rules : list Rule := body_rules ++ [NewRule fam nop].
Lemma prio_bounds : start <= prio1 <= start + 1 /\ prio1 <= prio2 <= prio1 + 1 /\ prio2 <= prio3 <= prio2 + 1 /\ prio3 <= prio4 <= prio3 + 3 /\
  prio4 <= prio5 <= prio4 + 1 /\ prio5 <= prio6 <= prio5 + 1 /\ (os = Android -> prio6 = prio5) /\ (os <> Android -> prio5 = prio4) /\ (fam <> AF_INET -> prio6 = prio5).
Proof.
  unfold prio6, prio5, prio4, prio3, prio2, prio1.
  repeat match goal with |- context [bool_decide ?P] => case_bool_decide end; repeat case_match; cbn [andb] in *; split_and!; try lia; try done; intros; try lia; try congruence.
Qed.
End OneFamily.

(** Each block, seen from one family. *)
Section Blocks.
Context (o : Options) (p4 p6 : bool) (nop a b fam : Z) (Hf : is_fam fam).
Let p := if fam =? AF_INET then a else b.

Lemma exclude_block_family ex : of_family fam (exclude_block o ex p4 p6 nop a b) =
  if pick fam p4 p6 then
    map (fun x => with_goto nop (with_sport x (NewRule fam p))) (ExcludeSrcPort o) ++ map (fun x => with_goto nop (with_dport x (NewRule fam p))) (ExcludeDstPort o) ++
    map (fun x => with_goto nop (with_uids x (NewRule fam p))) ex
  else [].
Proof.
  unfold exclude_block. rewrite !of_family_app.
  rewrite (of_family_flat_map fam p4 p6 a b (fun x fam p => with_goto nop (with_sport x (NewRule fam p)))) by done.
  rewrite (of_family_flat_map fam p4 p6 a b (fun x fam p => with_goto nop (with_dport x (NewRule fam p)))) by done.
  rewrite (of_family_flat_map fam p4 p6 a b (fun x fam p => with_goto nop (with_uids x (NewRule fam p)))) by done. by destruct (pick fam p4 p6).
Qed.
Lemma exclude_interfaces_family : of_family fam (exclude_interfaces o p4 p6 nop a b) =
  if pick fam p4 p6 then map (fun x => with_goto nop (with_iif x (NewRule fam p))) (ExcludeInterface o) else [].
Proof. apply (of_family_flat_map fam p4 p6 a b (fun x fam p => with_goto nop (with_iif x (NewRule fam p)))); done. Qed.
Lemma include_block_family : of_family fam (include_block o p4 p6 nop a b) =
  if pick fam p4 p6 then map (fun x => with_goto (p + 2) (with_iif x (NewRule fam p))) (IncludeInterface o) ++ [with_goto nop (NewRule fam (p + 1)); NewRule fam (p + 2)] else [].
Proof.
  unfold include_block. rewrite !of_family_app.
  rewrite (of_family_flat_map fam p4 p6 a b (fun x fam p => with_goto (p + 2) (with_iif x (NewRule fam p)))) by done.
  unfold p, pick. destruct Hf as [->| ->], p4, p6; cbn; by rewrite ?app_nil_r.
Qed.
(** Priorities advance for the families the interface has. *)
Definition iface_inc : Z := match IncludeInterface o, ExcludeInterface o with _ :: _, _ => 3 | [], _ :: _ => 1 | [], [] => 0 end.
Definition adv (q : bool) (d x : Z) : Z := if q then x + d else x.
Lemma interface_block_family : (interface_block o p4 p6 nop a b).2 = (adv p4 iface_inc a, adv p6 iface_inc b) /\
  of_family fam (interface_block o p4 p6 nop a b).1 =
  if pick fam p4 p6 then
    match IncludeInterface o with
    | _ :: _ => map (fun x => with_goto (p + 2) (with_iif x (NewRule fam p))) (IncludeInterface o) ++ [with_goto nop (NewRule fam (p + 1)); NewRule fam (p + 2)]
    | [] => map (fun x => with_goto nop (with_iif x (NewRule fam p))) (ExcludeInterface o)
    end
  else [].
Proof.
  unfold interface_block, iface_inc. pose proof include_block_family as HI. pose proof exclude_interfaces_family as HE.
  destruct (IncludeInterface o) as [|i il]; [destruct (ExcludeInterface o) as [|e es]|]; cbn [fst snd].
  - split; [|by destruct (pick _ _ _)]. unfold adv. destruct p4, p6; f_equal; lia.
  - split; [|exact HE]. done.
  - split; [|exact HI]. done.
Qed.
Lemma android_block_family os vpn : let on := bool_decide (os = Android) && AndroidVPNEnabled vpn in
  (android_block os vpn p4 p6 nop a b).2 = (adv p4 (if on then 1 else 0) a, adv p6 (if on then 1 else 0) b) /\
  of_family fam (android_block os vpn p4 p6 nop a b).1 =
  if pick fam p4 p6 then
    if on then [with_goto nop (with_mask protectedFromVPN (if OverrideAndroidVPN vpn then with_mark protectedFromVPN (NewRule fam p) else NewRule fam p))] else []
  else [].
Proof.
  cbv zeta. unfold android_block. destruct (bool_decide (os = Android) && AndroidVPNEnabled vpn); cbn [fst snd].
  - split; [done|]. rewrite of_family_families by (done || by intros; destruct (OverrideAndroidVPN vpn)). done.
  - split; [|by destruct (pick _ _ _)]. unfold adv. destruct p4, p6; f_equal; lia.
Qed.
Lemma strict_block_family : (pick fam p4 p6 = true -> (if fam =? AF_INET then (strict_block o p4 p6 a b).2.1 else (strict_block o p4 p6 a b).2.2) = p) /\
  of_family fam (strict_block o p4 p6 a b).1 =
  if pick fam p4 p6 then [] else if StrictRoute o then [with_type FR_ACT_UNREACHABLE (NewRule fam p)] else [].
Proof.
  unfold strict_block, p, pick. destruct (StrictRoute o); cbn [fst snd].
  - rewrite of_family_families by done. unfold pick. destruct Hf as [->| ->], p4, p6; done.
  - split; [done|]. by destruct (fam =? AF_INET), p4, p6.
Qed.
Lemma main_block_family os : (if fam =? AF_INET then (main_block os o p4 p6 a b).2.1 else (main_block os o p4 p6 a b).2.2) =
    (if bool_decide (os = Android) then p else if fam =? AF_INET then inc p4 p else p) /\
  of_family fam (main_block os o p4 p6 a b).1 =
  if pick fam p4 p6 then
    if bool_decide (os = Android) then []
    else if fam =? AF_INET then map (fun x => with_table (IPRoute2TableIndex o) (with_dst (Masked x) (NewRule fam p))) (Inet4Address o) ++ [not_dns fam (p + 1)]
    else [not_dns fam p]
  else [].
Proof.
  unfold main_block, p, pick. destruct (bool_decide (os = Android)); cbn [negb fst snd]; [by destruct (fam =? AF_INET), p4, p6|].
  split; [by destruct Hf as [->| ->]|]. rewrite of_family_app, of_family_families by done. unfold pick.
  assert (Forall (fun r => Family r = AF_INET) (map (fun x => with_table (IPRoute2TableIndex o) (with_dst (Masked x) (NewRule AF_INET a))) (Inet4Address o))) as HA
    by (apply Forall_map, Forall_forall; done).
  destruct Hf as [->| ->]; cbn [AF_INET AF_INET6 Z.eqb Pos.eqb].
  - destruct p4; [|done]. by rewrite of_family_all.
  - destruct p4; [rewrite (of_family_none AF_INET6 AF_INET) by done|]; by destruct p6.
Qed.
Lemma tun_block4_family : Forall (fun r => Family r = AF_INET) (tun_block4 o nop a).
Proof. unfold tun_block4. repeat constructor. apply Forall_map, Forall_forall. done. Qed.
Lemma tun_block6_family : Forall (fun r => Family r = AF_INET6) (tun_block6 o nop b).
Proof. unfold tun_block6. apply Forall_app. split; [apply Forall_map, Forall_forall; done|repeat constructor]. Qed.
End Blocks.

Lemma ipvs_block_enabled o dnat ds fam : is_fam fam -> (if fam =? AF_INET then Inet4Address o else Inet6Address o) = [] -> of_family fam (ipvs_block o dnat ds) = [].
Proof.
  intros Hf He. induction ds as [|d ds IH]; [done|]. unfold ipvs_block in *. cbn [omap list_omap].
  destruct (ipvsDNSRule o dnat d) as [r|] eqn:Er; [|done]. change (r :: omap (ipvsDNSRule o dnat) ds) with ([r] ++ omap (ipvsDNSRule o dnat) ds).
  rewrite of_family_app, IH, app_nil_r. revert Er. unfold ipvsDNSRule.
  destruct (netip.Is4 (d_addr d)); destruct Hf as [->| ->]; cbn in He; [destruct (Inet4Address o); [done|done]| | |destruct (Inet6Address o); [done|done]].
  - destruct (Inet4Address o); intros [= <-]. done.
  - destruct (Inet6Address o); intros [= <-]. done.
Qed.

(** The rules of an enabled family, and of one the interface does not have. *)
Lemma rules_auto_family os vpn ex t fam : let o := options t in
  let p4 := negb (bool_decide (Inet4Address o = [])) in let p6 := negb (bool_decide (Inet6Address o = [])) in
  is_fam fam ->
  of_family fam (rules_auto os vpn ex t p4 p6) =
  if pick fam p4 p6 then enabled_rules os vpn ex t fam
  else if StrictRoute o then [with_type FR_ACT_UNREACHABLE (NewRule fam (IPRoute2RuleIndex o))] else [].
Proof.
  intros o p4 p6 Hf.
  assert (pick fam p4 p6 = false -> forall ds, of_family fam (ipvs_block o (t_dnatBypass t) ds) = []) as HI.
  { intros Hp ds. apply ipvs_block_enabled; [done|]. unfold pick, p4, p6 in Hp. destruct (fam =? AF_INET); by case_bool_decide. }
  clearbody p4 p6. unfold rules_auto, enabled_rules, body_rules, dnat_rules, ipvs_rules, prio6, prio5, prio4, prio3, prio2, prio1. fold o. cbv zeta.
  set (s := IPRoute2RuleIndex o).
  assert (exists a b, (if t_dnatBypass t then (inc p4 s, inc p6 s) else (s, s)) = (a, b) /\
    (if fam =? AF_INET then a else b) = (if pick fam p4 p6 then if t_dnatBypass t then s + 1 else s else s)) as (a1 & b1 & E1 & Q1).
  { destruct (t_dnatBypass t); eexists _, _; (split; [done|]); unfold inc, pick; destruct Hf as [->| ->], p4, p6; done. }
  rewrite E1. set (q1 := if t_dnatBypass t then s + 1 else s) in *.
  assert (exists a b, (if t_ipvsDNSBypass t is Some ds then (ipvs_block o (t_dnatBypass t) ds, (inc p4 a1, inc p6 b1)) else ([], (a1, b1))) =
    (if t_ipvsDNSBypass t is Some ds then ipvs_block o (t_dnatBypass t) ds else [], (a, b)) /\
    (if fam =? AF_INET then a else b) = (if pick fam p4 p6 then if t_ipvsDNSBypass t is Some _ then q1 + 1 else q1 else s)) as (a2 & b2 & E2 & Q2).
  { destruct (t_ipvsDNSBypass t); eexists _, _; (split; [done|]); revert Q1; unfold inc, pick; destruct Hf as [->| ->], p4, p6; cbn; intros ->; done. }
  rewrite E2. set (q2 := if t_ipvsDNSBypass t is Some _ then q1 + 1 else q1) in *.
  assert (exists a b, (if has_excludes o ex then (inc p4 a2, inc p6 b2) else (a2, b2)) = (a, b) /\
    (if fam =? AF_INET then a else b) = (if pick fam p4 p6 then if has_excludes o ex then q2 + 1 else q2 else s)) as (a3 & b3 & E3 & Q3).
  { destruct (has_excludes o ex); eexists _, _; (split; [done|]); revert Q2; unfold inc, pick; destruct Hf as [->| ->], p4, p6; cbn; intros ->; done. }
  rewrite E3. set (q3 := if has_excludes o ex then q2 + 1 else q2) in *.
  destruct (interface_block_family o p4 p6 (s + 10) a3 b3 fam Hf) as [E4 F4]. destruct (interface_block o p4 p6 (s + 10) a3 b3) as [r4 [a4 b4]]. cbn [fst snd] in E4, F4.
  destruct (android_block_family p4 p6 (s + 10) a4 b4 fam Hf os vpn) as [E5 F5]. destruct (android_block os vpn p4 p6 (s + 10) a4 b4) as [r5 [a5 b5]]. cbn [fst snd] in E5, F5.
  destruct (strict_block_family o p4 p6 a5 b5 fam Hf) as [E6 F6]. destruct (strict_block o p4 p6 a5 b5) as [r6 [a6 b6]]. cbn [fst snd] in E6, F6.
  destruct (main_block_family o p4 p6 a6 b6 fam Hf os) as [E7 F7]. destruct (main_block os o p4 p6 a6 b6) as [r7 [a7 b7]]. cbn [fst snd] in E7, F7.
  rewrite !of_family_app, (exclude_block_family o p4 p6 (s + 10) a2 b2 fam Hf), F4, F5, F6, F7, of_family_families by done.
  injection E4 as -> ->. injection E5 as -> ->. rewrite Q2, Q3.
  set (on := bool_decide (os = Android) && AndroidVPNEnabled vpn) in *. set (q4 := match IncludeInterface o, ExcludeInterface o with _ :: _, _ => q3 + 3 | [], _ :: _ => q3 + 1 | [], [] => q3 end).
  assert (forall d (x y : Z), (if fam =? AF_INET then adv p4 d x else adv p6 d y) = if pick fam p4 p6 then (if fam =? AF_INET then x else y) + d else (if fam =? AF_INET then x else y)) as HA.
  { intros d x y. unfold adv, pick. destruct (fam =? AF_INET), p4, p6; done. }
  rewrite !HA in E6. rewrite !HA, Q3. assert (q4 = q3 + iface_inc o) as E4.
  { unfold q4, iface_inc. destruct (IncludeInterface o), (ExcludeInterface o); lia. }
  destruct (pick fam p4 p6) eqn:EP.
  - specialize (E6 eq_refl). rewrite E6, Q3, <- E4 in *. set (q5 := if on then q4 + 1 else q4). replace (q4 + (if on then 1 else 0)) with q5 in * by (unfold q5; destruct on; lia).
    rewrite <- !app_assoc. cbn [app].
    assert (of_family fam (if t_dnatBypass t then dnat_block o p4 p6 (s + 10) s s else []) =
      if t_dnatBypass t then [with_goto (s + 10) (with_mask (autoRouteDNATBypassMask o) (with_mark (autoRouteDNATBypassMark o) (NewRule fam s)))] else []) as ->.
    { destruct (t_dnatBypass t); [|done]. unfold dnat_block. rewrite of_family_families, EP by done. by destruct (fam =? AF_INET). }
    assert (of_family fam (if t_ipvsDNSBypass t is Some ds then ipvs_block o (t_dnatBypass t) ds else []) =
      if t_ipvsDNSBypass t is Some ds then of_family fam (ipvs_block o (t_dnatBypass t) ds) else []) as -> by by destruct (t_ipvsDNSBypass t).
    assert (of_family fam (if p4 then tun_block4 o (s + 10) a7 else []) ++ of_family fam (if p6 then tun_block6 o (s + 10) b7 else []) =
      tun_rules t fam (if bool_decide (os = Android) then q5 else if fam =? AF_INET then q5 + 1 else q5)) as HT.
    { unfold tun_rules. fold o. clear -Hf EP E7. revert EP E7. unfold pick. destruct Hf as [->| ->]; cbn [AF_INET AF_INET6 Z.eqb Pos.eqb]; intros -> ->.
      - rewrite of_family_all by apply tun_block4_family. destruct p6; [|by rewrite app_nil_r].
        by rewrite (of_family_none AF_INET AF_INET6), app_nil_r by (done || apply tun_block6_family).
      - destruct p4; [rewrite (of_family_none AF_INET6 AF_INET) by (done || apply tun_block4_family)|];
          apply of_family_all, tun_block6_family. }
    rewrite <- HT. unfold exclude_rules, interface_rules, android_rules, main_rules. fold o s on. rewrite <- !app_assoc. by destruct (fam =? AF_INET).
  - assert (of_family fam (if t_dnatBypass t then dnat_block o p4 p6 (s + 10) s s else []) = []) as ->.
    { destruct (t_dnatBypass t); [|done]. unfold dnat_block. by rewrite of_family_families, EP. }
    assert (of_family fam (if t_ipvsDNSBypass t is Some ds then ipvs_block o (t_dnatBypass t) ds else []) = []) as ->.
    { destruct (t_ipvsDNSBypass t); [|done]. by apply HI. }
    assert (of_family fam (if p4 then tun_block4 o (s + 10) a7 else []) = [] /\ of_family fam (if p6 then tun_block6 o (s + 10) b7 else []) = []) as [-> ->].
    { revert EP. unfold pick. destruct Hf as [->| ->]; cbn [AF_INET AF_INET6 Z.eqb Pos.eqb]; intros ->; (split; [|]; [try done|try done]).
      - destruct p6; [|done]. apply (of_family_none AF_INET AF_INET6); [done|apply tun_block6_family].
      - destruct p4; [|done]. apply (of_family_none AF_INET6 AF_INET); [done|apply tun_block4_family]. }
    cbn [app]. by rewrite app_nil_r.
Qed.

(** *** Priorities *)

Definition within_prio (a b : Z) (rs : list Rule) : Prop := ordered rs /\ Forall (fun r => a <= Priority r <= b) rs.
Lemma within_app a m b xs ys : within_prio a m xs -> within_prio m b ys -> a <= m <= b -> within_prio a b (xs ++ ys).
Proof.
  intros [Ox Bx] [Oy By] Hm. rewrite Forall_forall in *. split.
  - apply ordered_app. split_and!; [done|done|]. apply Forall_forall. intros x Hx. apply Forall_forall. intros y Hy. specialize (Bx x Hx). specialize (By y Hy). cbn in *. lia.
  - apply Forall_forall. intros r Hr. apply elem_of_app in Hr as [Hr|Hr]; [specialize (Bx r Hr)|specialize (By r Hr)]; cbn in *; lia.
Qed.
Lemma within_const a p b rs : a <= p <= b -> Forall (fun r => Priority r = p) rs -> within_prio a b rs.
Proof.
  intros Hp. induction 1 as [|r rs Hr Hrs [IO IB]]; [split; constructor|]. split; constructor; try done; [|lia].
  eapply Forall_impl; [exact Hrs|]. cbn. lia.
Qed.
Lemma within_nil a b : within_prio a b [].
Proof. split; constructor. Qed.
Ltac const_prio p := apply (within_const _ p); [lia|repeat first [apply Forall_nil_2 | apply Forall_cons; split; [done|] | apply Forall_app; split | by apply Forall_map, Forall_forall]].

Section Bounds.
Context (os : GOOS) (vpn : android_vpn) (ex : list Range) (t : native_tun) (fam : Z).
Let o := options t.
Let start := IPRoute2RuleIndex o.

Lemma ipvs_rules_prio : Forall (fun r => Priority r = prio1 t) (ipvs_rules t fam).
Proof.
  unfold ipvs_rules. destruct (t_ipvsDNSBypass t) as [ds|]; [|constructor]. apply Forall_forall. intros r. unfold of_family. rewrite list_elem_of_In, filter_In, <- list_elem_of_In. intros [Hr _].
  unfold ipvs_block in Hr. apply list_elem_of_omap in Hr as (d & _ & Hd). revert Hd. unfold ipvsDNSRule, prio1. repeat case_match; intros [= <-]; done.
Qed.
Lemma body_rules_within : within_prio start (start + 9) (body_rules os vpn ex t fam).
Proof.
  pose proof (prio_bounds os vpn ex t fam) as (H1 & H2 & H3 & H4 & H5 & H6 & HA & HN & HV). fold o start in H1.
  assert (start <= prio4 ex t /\ prio6 os vpn ex t fam + 2 <= start + 9) as [HS HE].
  { split; [lia|]. destruct (decide (os = Android)) as [E|E]; [specialize (HA E)|specialize (HN E)]; lia. }
  unfold body_rules. fold o start.
  apply (within_app _ (prio1 t)); [unfold dnat_rules; destruct (t_dnatBypass t); [const_prio start|apply within_nil]| |lia].
  apply (within_app _ (prio2 t)); [apply (within_const _ (prio1 t)); [lia|apply ipvs_rules_prio]| |lia].
  apply (within_app _ (prio3 ex t)); [unfold exclude_rules; const_prio (prio2 t)| |lia].
  apply (within_app _ (prio4 ex t)); [| |lia].
  { unfold interface_rules, prio4. fold o. set (p := prio3 ex t). destruct (IncludeInterface o) as [|i il]; [destruct (ExcludeInterface o); [apply within_nil|const_prio p]|].
    apply (within_app _ (p + 1)); [const_prio p| |lia]. change [?x; ?y] with ([x] ++ [y]). apply (within_app _ (p + 2)); [const_prio (p + 1)|const_prio (p + 2)|lia]. }
  apply (within_app _ (prio5 os vpn ex t)); [unfold android_rules; destruct (_ && _); [|apply within_nil]; destruct (OverrideAndroidVPN vpn); const_prio (prio4 ex t)| |lia].
  apply (within_app _ (prio6 os vpn ex t fam)); [| |lia].
  { unfold main_rules, prio6. fold o. set (p := prio5 os vpn ex t). destruct (bool_decide (os = Android)); [apply within_nil|]. destruct (fam =? AF_INET); [|const_prio p].
    apply (within_app _ (p + 1)); [const_prio p|const_prio (p + 1)|lia]. }
  set (p := prio6 os vpn ex t fam) in *. unfold tun_rules. fold o start.
  destruct (fam =? AF_INET).
  - unfold tun_block4. change (?x :: ?y) with ([x] ++ y) at 1. apply (within_app _ (p + 1)); [const_prio p|const_prio (p + 1)|lia].
  - unfold tun_block6. apply (within_app _ (p + 1)); [const_prio p| |lia]. change [?a; ?b; ?c; ?d] with ([a; b; c] ++ [d]).
    apply (within_app _ (p + 2)); [const_prio (p + 1)|const_prio (p + 2)|lia].
Qed.
Lemma enabled_rules_within : within_prio start (start + 10) (enabled_rules os vpn ex t fam).
Proof.
  unfold enabled_rules. fold o start. apply (within_app _ (start + 9)); [apply body_rules_within|const_prio (start + 10)|lia].
Qed.
End Bounds.
