(* ===== verification/PolicyDecision.v ===== *)
(** * What the policy rules decide

    A flow leaves the tun device's table when it is marked, excluded or comes
    from an interface that is not covered, and reaches it otherwise: the
    decision of the rules that [rules] builds is computed for every flow. *)
From Stdlib Require Import String.
From S2P Require Import Prelude Bytes GoMem TsChecksum Netip TunOptions TunRules TunRulesSpec RouteMark Netlink Ipvs PolicyRules PolicyRulesSpec.

(** ** The decision *)

(** A flow of the family, with addresses as the kernel has them. *)
Definition flow_in (fam : Z) (f : Flow) : Prop :=
  if fam =? AF_INET then exists s d, f_src f = netip.Addr4 s /\ f_dst f = netip.Addr4 d /\ addr4 s /\ addr4 d
  else exists s d, f_src f = netip.Addr6 s /\ f_dst f = netip.Addr6 d /\ addr6 s /\ addr6 d.

Section Decision.
Context (os : GOOS) (vpn : android_vpn) (ex : list Range) (t : native_tun).
Let o := options t.

Definition dest_selected (f : Flow) (d : ipvsDNSDestination) : bool :=
  bool_decide (f_dst f = d_addr d) && (protocol d =? f_proto f) && (d_port d =? f_dport f).
(** Flows that are left to the other rules of the system. *)
Definition bypassed (f : Flow) : bool :=
  (t_dnatBypass t && (Z.land (Z.lxor (f_mark f) (autoRouteDNATBypassMark o)) (autoRouteDNATBypassMask o) =? 0))
  || (match t_ipvsDNSBypass t with Some ds => existsb (dest_selected f) ds | None => false end)
  || existsb (fun r => in_rangeb r (f_sport f)) (ExcludeSrcPort o)
  || existsb (fun r => in_rangeb r (f_dport f)) (ExcludeDstPort o)
  || existsb (fun r => in_rangeb r (f_uid f)) ex
  || (match IncludeInterface o with
      | _ :: _ => negb (existsb (fun i => String.eqb i (f_iif f)) (IncludeInterface o))
      | [] => existsb (fun i => String.eqb i (f_iif f)) (ExcludeInterface o)
      end)
  || (bool_decide (os = Android) && AndroidVPNEnabled vpn &&
      (Z.land (f_mark f) protectedFromVPN =? if OverrideAndroidVPN vpn then protectedFromVPN else 0)).

Context {R : Type} (lookup : Z -> Flow -> option (R * Z)).
(** The route in the device's table; the route in the main table unless it is
    a default route. *)
Definition tun_route (f : Flow) : Decision R := match lookup (IPRoute2TableIndex o) f with Some (r, _) => Via r | None => Continue end.
Definition main_route (f : Flow) : Decision R :=
  match lookup RT_TABLE_MAIN f with Some (r, len) => if len <=? 0 then Continue else Via r | None => Continue end.
(** What happens to the other flows of a family the interface has. *)
Definition covered_decision (fam : Z) (f : Flow) : Decision R :=
  let android := bool_decide (os = Android) in
  let main := if android || (f_dport f =? 53) then Continue else main_route f in
  let lo := String.eqb "lo" (f_iif f) in
  let tun_iif := String.eqb (Name o) (f_iif f) in
  if fam =? AF_INET then
    or_else (if negb android && covered (Inet4Address o) (f_dst f) then tun_route f else Continue)
    (or_else main
    (if tun_iif then Continue
     else if negb lo then tun_route f
     else if bool_decide (f_src f = IPv4Unspecified) || covered (Inet4Address o) (f_src f) then tun_route f else Continue))
  else
    let chosen := negb (bool_decide (f_src f = IPv6Unspecified)) in
    or_else main
    (or_else (if lo && chosen && covered (Inet6Address o) (f_src f) then tun_route f else Continue)
    (if tun_iif then Continue else if lo && chosen then Continue else tun_route f)).
Definition decision (fam : Z) (f : Flow) : Decision R :=
  if negb (pick fam (negb (bool_decide (Inet4Address o = []))) (negb (bool_decide (Inet6Address o = [])))) then
    if StrictRoute o then Unreachable else Continue
  else if bypassed f then Continue
  else covered_decision fam f.
End Decision.

(** *** What the built rules select *)

Ltac selected := unfold selects, mark_selects, opt_name, src_selects; cbn [Priority Family Table Mark MarkSet Mask IifName OifName Src Dst IPProto Sport Dport UIDRange Goto Invert Type_ SuppressPrefixlen with_goto with_mark with_mask with_table with_iif with_oif with_src with_dst with_proto with_sport with_dport with_uids with_type with_suppress inverted NewRule not_dns opt_range opt_prefix andb negb orb xorb];
  rewrite ?Z.land_0_r; cbn [Z.eqb String.eqb orb andb xorb negb]; rewrite ?andb_true_r, ?andb_true_l, ?xorb_false_l.
Lemma opt_name_some n s : n <> ""%string -> String.eqb n "" || String.eqb n s = String.eqb n s.
Proof. intros. by rewrite (proj2 (String.eqb_neq n "")). Qed.

Section Selects.
Context (fam p : Z) (f : Flow).
Lemma selects_any : selects (NewRule fam p) f = true.
Proof. by selected. Qed.
Lemma selects_goto_any g : selects (with_goto g (NewRule fam p)) f = true.
Proof. by selected. Qed.
Lemma selects_type ty : selects (with_type ty (NewRule fam p)) f = true.
Proof. by selected. Qed.
Lemma selects_sport g x : selects (with_goto g (with_sport x (NewRule fam p))) f = in_rangeb x (f_sport f).
Proof. by selected. Qed.
Lemma selects_dport g x : selects (with_goto g (with_dport x (NewRule fam p))) f = in_rangeb x (f_dport f).
Proof. by selected. Qed.
Lemma selects_uids g x : selects (with_goto g (with_uids x (NewRule fam p))) f = in_rangeb x (f_uid f).
Proof. by selected. Qed.
Lemma selects_iif g x : x <> ""%string -> selects (with_goto g (with_iif x (NewRule fam p))) f = String.eqb x (f_iif f).
Proof. intros. selected. by rewrite opt_name_some. Qed.
Lemma selects_mark g m k : selects (with_goto g (with_mask k (with_mark m (NewRule fam p)))) f = (Z.land (Z.lxor (f_mark f) m) k =? 0).
Proof. by selected. Qed.
Lemma selects_dst tb x : selects (with_table tb (with_dst x (NewRule fam p))) f = netip.Contains x (f_dst f).
Proof. by selected. Qed.
Lemma selects_not_dns : selects (not_dns fam p) f = negb (f_dport f =? 53).
Proof. selected. unfold in_rangeb. cbn [r_Start r_End]. destruct (Z.eqb_spec (f_dport f) 53) as [->|]; [done|]. destruct (Z.leb_spec 53 (f_dport f)), (Z.leb_spec (f_dport f) 53); try done. lia. Qed.
Lemma selects_not_lo tb : selects (with_table tb (with_iif "lo" (inverted (NewRule fam p)))) f = negb (String.eqb "lo" (f_iif f)).
Proof. selected. by destruct (String.eqb "lo" (f_iif f)). Qed.
Lemma selects_src tb x : fam = AF_INET -> selects (with_table tb (with_src x (with_iif "lo" (NewRule fam p)))) f = String.eqb "lo" (f_iif f) && netip.Contains x (f_src f).
Proof. intros ->. by selected. Qed.
Lemma selects_src6 x r : fam = AF_INET6 -> r = with_src x (with_iif "lo" (NewRule fam p)) ->
  (forall tb, selects (with_table tb r) f = String.eqb "lo" (f_iif f) && negb (bool_decide (f_src f = IPv6Unspecified)) && netip.Contains x (f_src f)) /\
  (forall g, selects (with_goto g r) f = String.eqb "lo" (f_iif f) && negb (bool_decide (f_src f = IPv6Unspecified)) && netip.Contains x (f_src f)).
Proof. intros -> ->. split; intros; selected; by rewrite andb_assoc. Qed.
End Selects.

(** *** Segments before the final rule *)

Section Segments.
Context {R : Type} {lookup : Z -> Flow -> option (R * Z)} `{!PolicyRouting lookup}.
Context (fam nop : Z) (hi : list Rule) (f : Flow).
Abbreviation final := (NewRule fam nop :: hi).
Definition before (rs : list Rule) : Prop := Forall (fun r => Priority r < nop) rs.

Lemma resolve_any p rs : resolve lookup (NewRule fam p :: rs) f = resolve lookup rs f.
Proof. by rewrite resolve_cons, selects_any. Qed.
Lemma exit_final rs : before rs -> resolve lookup (from_priority nop (rs ++ final)) f = resolve lookup hi f.
Proof.
  intros Hb. rewrite from_priority_app by (eapply Forall_impl; [exact Hb|]; cbn; lia). cbn [from_priority Priority NewRule].
  rewrite Z.eqb_refl. apply resolve_any.
Qed.
(** Rules that jump to the end. *)
Lemma segment_gotos rs rest : Forall (fun r => Goto r = Some nop) rs -> before rs -> before rest ->
  resolve lookup (rs ++ rest ++ final) f = if existsb (fun r => selects r f) rs then resolve lookup hi f else resolve lookup (rest ++ final) f.
Proof.
  intros Hg Hb Hr. rewrite (resolve_gotos nop); [|unfold before in *; rewrite Forall_forall in *; intros r Hin; split; [by apply Hg|specialize (Hb r Hin); cbn in Hb; lia]].
  destruct (existsb _ rs); [|done]. by apply exit_final.
Qed.
(** Included interfaces: a jump over the jump to the end. *)
Lemma segment_include names p rest : Forall (fun n => n <> ""%string) names -> p + 2 < nop -> before rest ->
  resolve lookup ((map (fun x => with_goto (p + 2) (with_iif x (NewRule fam p))) names ++ [with_goto nop (NewRule fam (p + 1)); NewRule fam (p + 2)]) ++ rest ++ final) f =
  if existsb (fun i => String.eqb i (f_iif f)) names then resolve lookup (rest ++ final) f else resolve lookup hi f.
Proof.
  intros Hn Hp Hr. rewrite <- app_assoc. rewrite (resolve_gotos (p + 2)) by (apply Forall_map, Forall_forall; intros x _; cbn; split; [done|lia]).
  assert (existsb (fun r => selects r f) (map (fun x => with_goto (p + 2) (with_iif x (NewRule fam p))) names) = existsb (fun i => String.eqb i (f_iif f)) names) as ->.
  { induction Hn as [|n names Hn Hns IH]; [done|]. cbn [map existsb]. by rewrite selects_iif, IH. }
  cbn [app from_priority]. replace (Priority (with_goto nop (NewRule fam (p + 1))) =? p + 2) with false by (cbn; lia).
  replace (Priority (NewRule fam (p + 2)) =? p + 2) with true by (cbn; lia). destruct (existsb _ names); [apply resolve_any|].
  rewrite resolve_cons, selects_goto_any. cbn [Goto with_goto]. cbn [from_priority]. replace (Priority (NewRule fam (p + 2)) =? nop) with false by (cbn; lia).
  by apply exit_final.
Qed.
Lemma existsb_map_ext {A} (g : A -> Rule) (h : A -> bool) l : (forall x, x ∈ l -> selects (g x) f = h x) -> existsb (fun r => selects r f) (map g l) = existsb h l.
Proof.
  intros He. induction l as [|x l IH]; [done|]. cbn [map existsb]. rewrite He by left. f_equal. apply IH. intros y Hy. apply He. by right.
Qed.
End Segments.

(** *** Addresses *)

Lemma Contains_full a b : valid_addr a -> valid_addr b -> netip.Contains (netip.PrefixFrom a (netip.BitLen a)) b = bool_decide (b = a).
Proof.
  intros [Ha Va] [Hb Vb]. unfold netip.Contains. cbn [netip.pf_addr netip.pf_bits]. rewrite Va, Vb. cbn [negb orb].
  destruct (Z.eqb_spec (netip.BitLen b) (netip.BitLen a)) as [E|E]; cbn [negb].
  - rewrite E, Z.sub_diag, !Z.shiftr_0_r. destruct (Z.eqb_spec (netip.val a) (netip.val b)) as [EV|EV].
    + symmetry. apply bool_decide_eq_true. by apply netip.wf_inj.
    + symmetry. apply bool_decide_eq_false. congruence.
  - symmetry. apply bool_decide_eq_false. congruence.
Qed.
Lemma flow_in_valid fam f : flow_in fam f -> valid_addr (f_src f) /\ valid_addr (f_dst f).
Proof. unfold flow_in. destruct (fam =? AF_INET); intros (s & d & -> & -> & ? & ?); by split. Qed.
Lemma flow_in_src4 f : flow_in AF_INET f -> netip.Contains (netip.PrefixFrom IPv4Unspecified 32) (f_src f) = bool_decide (f_src f = IPv4Unspecified).
Proof.
  intros Hf. apply flow_in_valid in Hf as [Hs _]. apply (Contains_full IPv4Unspecified); [|done]. split; [|done]. split; [|done]. repeat constructor; lia.
Qed.
(** The two halves of the IPv6 addresses. *)
Lemma flow_in_src6 f : flow_in AF_INET6 f ->
  netip.Contains (netip.PrefixFrom IPv6Unspecified 1) (f_src f) || netip.Contains (netip.PrefixFrom (netip.AddrFrom16 (128 :: repeat 0 15)) 1) (f_src f) = true.
Proof.
  intros (s & d & -> & _ & [Hb Hl] & _). unfold netip.Contains, netip.BitLen, netip.val, netip.AddrFrom16, IPv6Unspecified, Zlen.
  cbn [netip.pf_addr netip.pf_bits netip.IsValid netip.AsSlice negb orb]. rewrite Hl. rewrite !repeat_length. cbn [length Z.of_nat].
  rewrite repeat_length. cbn [Z.eqb negb]. pose proof (netip.be_val_range s 16 Hb Hl) as Hr.
  change (8 * Z.of_nat 16 - 1) with 127. change (8 * Z.of_nat 16 =? 8 * Z.of_nat 16) with true. change (8 * Z.of_nat 16 =? 8 * Z.of_nat 16) with true.
  assert (Z.shiftr (be_val s) 127 = 0 \/ Z.shiftr (be_val s) 127 = 1) as [E|E].
  { rewrite Z.shiftr_div_pow2 by lia. change (256 ^ Z.of_nat 16) with (2 * 2 ^ 127) in Hr. pose proof (Z.div_lt_upper_bound (be_val s) (2 ^ 127) 2). pose proof (Z.div_pos (be_val s) (2 ^ 127)). lia. }
  - rewrite E. by vm_compute.
  - rewrite E. by vm_compute.
Qed.

(** *** Evaluation *)

(** Options as New leaves them: a table, names, valid prefixes, destinations of
    a TCP or UDP service. *)
Definition policy_ok (t : native_tun) : Prop :=
  let o := options t in
  IPRoute2TableIndex o <> 0 /\ Name o <> ""%string /\
  Forall (fun n => n <> ""%string) (IncludeInterface o) /\ Forall (fun n => n <> ""%string) (ExcludeInterface o) /\
  Forall valid_prefix (Inet4Address o) /\ Forall valid_prefix (Inet6Address o) /\
  match t_ipvsDNSBypass t with Some ds => Forall (fun d => valid_addr (d_addr d) /\ protocol d <> 0) ds | None => True end.

Section Evaluation.
Context {R : Type} {lookup : Z -> Flow -> option (R * Z)} `{!PolicyRouting lookup}.
Context (os : GOOS) (vpn : android_vpn) (ex : list Range) (t : native_tun) (fam : Z) (hi : list Rule) (f : Flow).
Let o := options t.
Let nop := IPRoute2RuleIndex o + 10.
Context (Hfam : is_fam fam) (Hok : policy_ok t) (Hflow : flow_in fam f).
Context (Hon : pick fam (negb (bool_decide (Inet4Address o = []))) (negb (bool_decide (Inet6Address o = []))) = true).
Abbreviation final := (NewRule fam nop :: hi).

Lemma ipvs_rule_facts d : valid_addr (d_addr d) -> protocol d <> 0 ->
  match ipvsDNSRule o (t_dnatBypass t) d with
  | Some r => Goto r = Some nop /\ Priority r = prio1 t /\ (Family r = fam -> selects r f = dest_selected f d) /\ (Family r <> fam -> dest_selected f d = false)
  | None => dest_selected f d = false
  end.
Proof.
  intros Hd Hp. destruct (flow_in_valid fam f Hflow) as [_ Hfd]. unfold ipvsDNSRule, prio1. fold o. cbv zeta.
  assert (forall g pr fam', selects (with_goto g (with_dport (mkRange (d_port d) (d_port d)) (with_proto (protocol d) (with_dst (netip.PrefixFrom (d_addr d) (netip.BitLen (d_addr d))) (NewRule fam' pr))))) f = dest_selected f d) as HS.
  { intros g pr fam'. selected. rewrite Contains_full by done. unfold dest_selected, in_rangeb. cbn [r_Start r_End].
    replace (protocol d =? 0) with false by lia. cbn [orb]. f_equal. destruct (Z.eqb_spec (d_port d) (f_dport f)); lia. }
  assert (forall b, netip.Is4 (d_addr d) = b -> (if fam =? AF_INET then true else false) <> b -> dest_selected f d = false) as HN.
  { intros b Hb Hne. unfold dest_selected. rewrite bool_decide_eq_false_2; [done|]. intros E. apply Hne. rewrite <- Hb, <- E.
    clear -Hflow. unfold flow_in in Hflow. destruct (fam =? AF_INET); destruct Hflow as (s & x & _ & -> & _); done. }
  destruct (netip.Is4 (d_addr d)) eqn:E4.
  - destruct (Inet4Address o) as [|p ps] eqn:EA.
    + apply (HN true); [done|]. revert Hon. unfold pick. destruct (fam =? AF_INET); [|done]. rewrite ?EA. done.
    + split_and!; [done|done|intros _; apply HS|]. cbn. intros Hne. apply (HN true); [done|]. by destruct Hfam as [->| ->].
  - destruct (Inet6Address o) as [|p ps] eqn:EA.
    + apply (HN false); [done|]. revert Hon. unfold pick. destruct (fam =? AF_INET); [done|]. rewrite ?EA. done.
    + split_and!; [done|done|intros _; apply HS|]. cbn. intros Hne. apply (HN false); [done|]. by destruct Hfam as [->| ->].
Qed.
Lemma ipvs_rules_facts : Forall (fun r => Goto r = Some nop) (ipvs_rules t fam) /\ Forall (fun r => Priority r = prio1 t) (ipvs_rules t fam) /\
  existsb (fun r => selects r f) (ipvs_rules t fam) = match t_ipvsDNSBypass t with Some ds => existsb (dest_selected f) ds | None => false end.
Proof.
  destruct Hok as (_ & _ & _ & _ & _ & _ & Hds). unfold ipvs_rules. destruct (t_ipvsDNSBypass t) as [ds|]; [|done]. fold o.
  induction Hds as [|d ds [Hd Hp] Hds IH]; [done|]. unfold ipvs_block in *. cbn [omap list_omap existsb]. pose proof (ipvs_rule_facts d Hd Hp) as HF.
  destruct (ipvsDNSRule o (t_dnatBypass t) d) as [r|]; [|by rewrite HF]. destruct HF as (HG & HP & HS & HN). destruct IH as (IG & IP & IS).
  unfold of_family in *. cbn [List.filter]. destruct (Z.eqb_spec (Family r) fam) as [E|E].
  - split_and!; [by constructor|by constructor|]. cbn [existsb]. by rewrite IS, HS.
  - split_and!; [done|done|]. by rewrite IS, HN.
Qed.

Lemma covered_dst ps tb p : Forall valid_prefix ps ->
  existsb (fun r => selects r f) (map (fun a => with_table tb (with_dst (Masked a) (NewRule fam p))) ps) = covered ps (f_dst f).
Proof. intros Hv. apply existsb_map_ext. intros x Hx. rewrite selects_dst. apply Masked_Contains. by eapply Forall_forall in Hv. Qed.
Lemma main_eval p rest : p + 1 < nop ->
  resolve lookup (main_rules os t fam p ++ rest ++ final) f =
  or_else (if (fam =? AF_INET) && negb (bool_decide (os = Android)) && covered (Inet4Address o) (f_dst f) then tun_route t lookup f else Continue)
    (or_else (if bool_decide (os = Android) || (f_dport f =? 53) then Continue else main_route lookup f) (resolve lookup (rest ++ final) f)).
Proof.
  intros Hp. destruct Hok as (HT & _ & _ & _ & Hv & _). fold o in HT, Hv. unfold main_rules. fold o.
  destruct (bool_decide (os = Android)); [by rewrite andb_false_r|]. cbn [negb orb].
  assert (forall q l, resolve lookup (not_dns fam q :: l) f = or_else (if f_dport f =? 53 then Continue else main_route lookup f) (resolve lookup l f)) as HM.
  { intros q l. rewrite resolve_cons, selects_not_dns. destruct (f_dport f =? 53); cbn [negb]; [done|]. done. }
  destruct (fam =? AF_INET); cbn [andb].
  - rewrite <- app_assoc. rewrite (resolve_tables (IPRoute2TableIndex o)) by (done || by apply Forall_map, Forall_forall).
    rewrite covered_dst by done. cbn [app]. by rewrite HM.
  - cbn [app]. by rewrite HM.
Qed.
Lemma tun_eval4 p : fam = AF_INET -> p < nop -> p + 1 < nop ->
  resolve lookup (tun_block4 o nop p ++ final) f =
  or_else (if String.eqb (Name o) (f_iif f) then Continue else if negb (String.eqb "lo" (f_iif f)) then tun_route t lookup f
           else if bool_decide (f_src f = IPv4Unspecified) || covered (Inet4Address o) (f_src f) then tun_route t lookup f else Continue) (resolve lookup hi f).
Proof.
  intros Hf4 Hp Hp1. destruct Hok as (HT & HN & _ & _ & Hv & _). fold o in HT, Hv, HN. unfold tun_block4.
  set (rs := with_table _ (with_iif "lo" (inverted _)) :: _). change ((?x :: rs) ++ final) with ([x] ++ rs ++ final).
  assert (before nop rs) as Hb by (unfold rs, before; repeat (apply Forall_cons; split; [cbn; lia|]); apply Forall_map, Forall_forall; intros; cbn; lia).
  rewrite <- Hf4 at 1. rewrite segment_gotos; [|by repeat constructor|by repeat constructor|done]. cbn [existsb]. rewrite selects_iif, orb_false_r by done.
  destruct (String.eqb (Name o) (f_iif f)); [done|].
  rewrite (resolve_tables (IPRoute2TableIndex o)); [|done|unfold rs; repeat (apply Forall_cons; split; [done|]); by apply Forall_map, Forall_forall].
  rewrite resolve_any. f_equal. unfold rs. cbn [existsb]. rewrite selects_not_lo, selects_src by done.
  rewrite (existsb_map_ext _ _ (fun a => String.eqb "lo" (f_iif f) && netip.Contains a (f_src f))).
  2:{ intros x Hx. rewrite selects_src by done. f_equal. apply Masked_Contains. by eapply Forall_forall in Hv. }
  rewrite flow_in_src4 by by rewrite <- Hf4. unfold tun_route. fold o.
  assert (existsb (fun a => String.eqb "lo" (f_iif f) && netip.Contains a (f_src f)) (Inet4Address o) = String.eqb "lo" (f_iif f) && covered (Inet4Address o) (f_src f)) as ->.
  { unfold covered. clear. induction (Inet4Address o) as [|a l IH]; cbn [existsb]; [by rewrite andb_false_r|]. rewrite IH. by destruct (String.eqb "lo" (f_iif f)). }
  by destruct (String.eqb "lo" (f_iif f)), (bool_decide (f_src f = IPv4Unspecified)), (covered (Inet4Address o) (f_src f)).
Qed.
Lemma tun_eval6 p : fam = AF_INET6 -> p + 2 < nop -> let chosen := negb (bool_decide (f_src f = IPv6Unspecified)) in
  resolve lookup (tun_block6 o nop p ++ final) f =
  or_else (if String.eqb "lo" (f_iif f) && chosen && covered (Inet6Address o) (f_src f) then tun_route t lookup f else Continue)
    (or_else (if String.eqb (Name o) (f_iif f) then Continue else if String.eqb "lo" (f_iif f) && chosen then Continue else tun_route t lookup f) (resolve lookup hi f)).
Proof.
  intros Hf6 Hp. cbv zeta. destruct Hok as (HT & HN & _ & _ & _ & Hv & _). fold o in HT, Hv, HN. unfold tun_block6. rewrite <- app_assoc.
  rewrite (resolve_tables (IPRoute2TableIndex o)) by (done || by apply Forall_map, Forall_forall).
  set (g := with_goto nop _). set (g1 := with_goto nop _). set (g2 := with_goto nop _). set (last := with_table _ _).
  change ([g; g1; g2; last] ++ final) with ([g; g1; g2] ++ [last] ++ final).
  rewrite segment_gotos; [|by repeat constructor|repeat constructor; cbn; lia|repeat constructor; cbn; lia].
  assert (existsb (fun r => selects r f) (map (fun a => with_table (IPRoute2TableIndex o) (with_src (Masked a) (with_iif "lo" (NewRule AF_INET6 p)))) (Inet6Address o)) =
    String.eqb "lo" (f_iif f) && negb (bool_decide (f_src f = IPv6Unspecified)) && covered (Inet6Address o) (f_src f)) as ->.
  { rewrite (existsb_map_ext _ _ (fun a => String.eqb "lo" (f_iif f) && negb (bool_decide (f_src f = IPv6Unspecified)) && netip.Contains a (f_src f))).
    - unfold covered. clear. induction (Inet6Address o) as [|a l IH]; cbn [existsb]; [by rewrite andb_false_r|]. rewrite IH.
      by destruct (String.eqb "lo" (f_iif f) && negb (bool_decide (f_src f = IPv6Unspecified))).
    - intros x Hx. destruct (selects_src6 AF_INET6 p f (Masked x) _ eq_refl eq_refl) as [-> _]. f_equal. apply Masked_Contains. by eapply Forall_forall in Hv. }
  cbn [existsb]. unfold g, g1, g2. rewrite selects_iif by done.
  destruct (selects_src6 AF_INET6 (p + 1) f (netip.PrefixFrom IPv6Unspecified 1) _ eq_refl eq_refl) as [_ ->].
  destruct (selects_src6 AF_INET6 (p + 1) f (netip.PrefixFrom (netip.AddrFrom16 (128 :: repeat 0 15)) 1) _ eq_refl eq_refl) as [_ ->].
  rewrite orb_false_r, <- andb_orb_distrib_r, flow_in_src6, andb_true_r by by rewrite <- Hf6.
  f_equal. destruct (String.eqb (Name o) (f_iif f)); [done|]. cbn [orb]. destruct (String.eqb "lo" (f_iif f) && _); [done|].
  cbn [app]. rewrite resolve_cons. replace (selects last f) with true by (unfold last; by selected). cbn [Goto last with_table NewRule].
  unfold last, act, tun_route. cbn. fold o. replace (IPRoute2TableIndex o =? 0) with false by lia. rewrite Hf6, resolve_any. by destruct (lookup _ f) as [[]|].
Qed.

(** The segments up to the Android rule all jump to the end. *)
Lemma exclude_eval p rest : before nop (exclude_rules ex t fam p) -> before nop rest ->
  resolve lookup (exclude_rules ex t fam p ++ rest ++ final) f =
  if existsb (fun r => in_rangeb r (f_sport f)) (ExcludeSrcPort o) || existsb (fun r => in_rangeb r (f_dport f)) (ExcludeDstPort o) || existsb (fun r => in_rangeb r (f_uid f)) ex
  then resolve lookup hi f else resolve lookup (rest ++ final) f.
Proof.
  intros Hb Hr. rewrite segment_gotos; [|unfold exclude_rules; rewrite !Forall_app; split_and!; by apply Forall_map, Forall_forall|done|done].
  unfold exclude_rules. fold o. rewrite !existsb_app. rewrite (existsb_map_ext _ _ (fun r => in_rangeb r (f_sport f))) by (intros; apply selects_sport).
  rewrite (existsb_map_ext _ _ (fun r => in_rangeb r (f_dport f))) by (intros; apply selects_dport).
  rewrite (existsb_map_ext _ _ (fun r => in_rangeb r (f_uid f))) by (intros; apply selects_uids). by rewrite orb_assoc.
Qed.
Lemma interface_eval p rest : p + 2 < nop -> before nop rest ->
  resolve lookup (interface_rules t fam p ++ rest ++ final) f =
  if match IncludeInterface o with
     | _ :: _ => negb (existsb (fun i => String.eqb i (f_iif f)) (IncludeInterface o))
     | [] => existsb (fun i => String.eqb i (f_iif f)) (ExcludeInterface o)
     end
  then resolve lookup hi f else resolve lookup (rest ++ final) f.
Proof.
  intros Hp Hr. destruct Hok as (_ & _ & Hin & Hexc & _). fold o in Hin, Hexc. unfold interface_rules. fold o nop. destruct (IncludeInterface o) as [|i il] eqn:EI.
  - rewrite segment_gotos; [|by apply Forall_map, Forall_forall|apply Forall_map, Forall_forall; intros; cbn; lia|done].
    rewrite (existsb_map_ext _ _ (fun i => String.eqb i (f_iif f))); [done|]. intros x Hx. apply selects_iif. by eapply Forall_forall in Hexc.
  - rewrite segment_include by done. by destruct (existsb _ (i :: il)).
Qed.
Lemma android_eval p rest : p < nop -> before nop rest ->
  resolve lookup (android_rules os vpn t fam p ++ rest ++ final) f =
  if bool_decide (os = Android) && AndroidVPNEnabled vpn && (Z.land (f_mark f) protectedFromVPN =? if OverrideAndroidVPN vpn then protectedFromVPN else 0)
  then resolve lookup hi f else resolve lookup (rest ++ final) f.
Proof.
  intros Hp Hr. unfold android_rules. destruct (bool_decide (os = Android) && AndroidVPNEnabled vpn); cbn [andb]; [|done].
  rewrite segment_gotos; [|by repeat constructor|destruct (OverrideAndroidVPN vpn); by repeat constructor|done]. cbn [existsb]. rewrite orb_false_r.
  destruct (OverrideAndroidVPN vpn).
  - rewrite selects_mark, land_lxor_l. change (Z.land protectedFromVPN protectedFromVPN) with protectedFromVPN.
    destruct (Z.eqb_spec (Z.lxor (Z.land (f_mark f) protectedFromVPN) protectedFromVPN) 0) as [E|E], (Z.eqb_spec (Z.land (f_mark f) protectedFromVPN) protectedFromVPN) as [E'|E']; try done.
    + apply Z.lxor_eq in E. done.
    + rewrite E' in E. done.
  - replace (selects _ f) with (Z.land (f_mark f) protectedFromVPN =? 0); [done|]. selected. by rewrite Z.lxor_0_r.
Qed.
Lemma dnat_eval p rest : p < nop -> before nop rest ->
  resolve lookup (dnat_rules t fam p ++ rest ++ final) f =
  if t_dnatBypass t && (Z.land (Z.lxor (f_mark f) (autoRouteDNATBypassMark o)) (autoRouteDNATBypassMask o) =? 0)
  then resolve lookup hi f else resolve lookup (rest ++ final) f.
Proof.
  intros Hp Hr. unfold dnat_rules. fold o nop. destruct (t_dnatBypass t); cbn [andb]; [|done].
  rewrite segment_gotos; [|by repeat constructor|by repeat constructor|done]. cbn [existsb]. by rewrite orb_false_r, selects_mark.
Qed.
Lemma enabled_decision : resolve lookup (enabled_rules os vpn ex t fam ++ hi) f =
  or_else (if bypassed os vpn ex t f then Continue else covered_decision os t lookup fam f) (resolve lookup hi f).
Proof.
  pose proof (prio_bounds os vpn ex t fam) as (H1 & H2 & H3 & H4 & H5 & H6 & HA & HN & HV). fold o in H1.
  assert (prio6 os vpn ex t fam + 2 < nop /\ prio5 os vpn ex t + 1 < nop /\ prio3 ex t + 2 < nop) as (B6 & B5 & B3).
  { unfold nop. destruct (decide (os = Android)) as [E|E]; [specialize (HA E)|specialize (HN E)]; lia. }
  assert (before nop (body_rules os vpn ex t fam)) as HB by (destruct (body_rules_within os vpn ex t fam) as [_ HB]; eapply Forall_impl; [exact HB|]; cbn; unfold nop, o; lia).
  unfold enabled_rules. fold o nop. rewrite <- app_assoc. cbn [app]. unfold body_rules in *. fold o in HB |- *.
  apply Forall_app in HB as [_ Hb1]. pose proof Hb1 as Hb2. apply Forall_app in Hb2 as [Hbi Hb2]. pose proof Hb2 as Hb3. apply Forall_app in Hb3 as [Hbe Hb3].
  pose proof Hb3 as Hb4. apply Forall_app in Hb4 as [_ Hb4]. pose proof Hb4 as Hb5. apply Forall_app in Hb5 as [_ Hb5].
  destruct ipvs_rules_facts as (IG & _ & IS).
  rewrite <- app_assoc, dnat_eval by (done || unfold nop; lia). rewrite <- app_assoc, segment_gotos, IS by done.
  rewrite <- app_assoc, exclude_eval by done. rewrite <- app_assoc, interface_eval by done. rewrite <- app_assoc, android_eval by (done || lia).
  rewrite <- app_assoc, main_eval by done. unfold bypassed. fold o.
  repeat match goal with |- (if ?c then resolve lookup hi f else _) = _ => let E := fresh "E" in destruct c eqn:E; [cbn [orb]; rewrite ?orb_true_r; cbn [orb]; done|cbn [orb]; rewrite ?orb_false_r] end.
  assert (forall x y z : Decision R, or_else (or_else x y) z = or_else x (or_else y z)) as HO by by intros [].
  unfold covered_decision, tun_rules. fold o nop. destruct Hfam as [Ef|Ef].
  - replace (fam =? AF_INET) with true by (by rewrite Ef). rewrite tun_eval4, !HO by (done || lia). done.
  - replace (fam =? AF_INET) with false by (by rewrite Ef). cbn [andb]. rewrite tun_eval6, !HO by (done || lia). done.
Qed.
End Evaluation.

(** C9: the rules of one family sit together between the rules of the system
    below and above their eleven priorities, and decide as follows (with
    AutoRoute and without the mark mode): a family the interface does not have
    is unreachable under StrictRoute and left alone otherwise; flows that carry
    the DNAT mark, go to an IPVS backend of a DNS service, are excluded by port,
    user or interface, or are protected from the VPN on Android fall through to
    the system's rules; the others reach the device's table, after the routes of
    the main table other than default routes (for anything but port 53) and
    unless they come from the device itself or, on this host, from a source
    address of another interface. *)
Theorem rules_decision {R} {lookup : Z -> Flow -> option (R * Z)} `{!PolicyRouting lookup} `{RangesPackage} os vpn ruleList6 t fam lo hi f :
  let o := options t in
  let rs := of_family fam (rules os vpn ruleList6 t).1 in
  AutoRoute o = true -> AutoRedirectMarkMode o = false -> (Inet4Address o <> [] \/ Inet6Address o <> []) ->
  is_fam fam -> policy_ok t -> flow_in fam f ->
  Forall (fun r => Priority r < IPRoute2RuleIndex o) lo -> Forall (fun r => IPRoute2RuleIndex o + 10 < Priority r) hi ->
  install rs (lo ++ hi) = lo ++ rs ++ hi /\
  resolve lookup (rs ++ hi) f = or_else (decision os vpn (ExcludedRanges o) t lookup fam f) (resolve lookup hi f).
Proof.
  intros o rs Hauto Hmark Hany Hfam Hok Hflow Hlo Hhi.
  assert (rs = if pick fam (negb (bool_decide (Inet4Address o = []))) (negb (bool_decide (Inet6Address o = []))) then enabled_rules os vpn (ExcludedRanges o) t fam
               else if StrictRoute o then [with_type FR_ACT_UNREACHABLE (NewRule fam (IPRoute2RuleIndex o))] else []) as Ers.
  { unfold rs, rules. fold o. rewrite Hauto, Hmark. cbn [negb].
    replace (negb (negb (bool_decide (Inet4Address o = []))) && negb (negb (bool_decide (Inet6Address o = [])))) with false
      by (symmetry; rewrite !negb_involutive; apply andb_false_iff; rewrite !bool_decide_eq_false; tauto).
    cbn [fst]. by apply rules_auto_family. }
  assert (within_prio (IPRoute2RuleIndex o) (IPRoute2RuleIndex o + 10) rs) as [Hord Hw].
  { rewrite Ers. destruct (pick _ _ _); [apply enabled_rules_within|]. destruct (StrictRoute o); [const_prio (IPRoute2RuleIndex o)|apply within_nil]. }
  split.
  - apply install_between; [done| |]; rewrite Forall_forall in Hw; apply Forall_forall; intros r Hr; specialize (Hw r Hr); cbn in Hw.
    + eapply Forall_impl; [exact Hlo|]. cbn. lia.
    + eapply Forall_impl; [exact Hhi|]. cbn. lia.
  - rewrite Ers. unfold decision. fold o. destruct (pick _ _ _) eqn:EP; cbn [negb].
    + apply enabled_decision; done.
    + destruct (StrictRoute o); [|done]. cbn [app]. by rewrite resolve_cons, selects_type.
Qed.

(** ** The mark mode *)

(** The mark that skips the device's table: the DNAT field, or the output mark
    as a whole; an output mark of 0 without the DNAT bypass is carried by every
    flow. *)
Definition carries_output (t : native_tun) (mark : Z) : bool :=
  let o := options t in
  if t_dnatBypass t then Z.land (Z.lxor mark (autoRouteDNATBypassMark o)) (autoRouteDNATBypassMask o) =? 0
  else (AutoRedirectOutputMark o =? 0) || (mark =? AutoRedirectOutputMark o).
Lemma land_u32 x : is_u32 x -> Z.land x 4294967295 = x.
Proof. intros Hx. change 4294967295 with (Z.ones 32). rewrite Z.land_ones by lia. by apply Z.mod_small. Qed.
Lemma whole_mark m k : is_u32 m -> is_u32 k -> (Z.land (Z.lxor m k) (if negb (k =? 0) then 4294967295 else 0) =? 0) = (k =? 0) || (m =? k).
Proof.
  intros Hm Hk. destruct (Z.eqb_spec k 0) as [->|Hne]; cbn [negb orb]; [by rewrite Z.land_0_r|]. rewrite land_u32 by by apply u32_lxor.
  destruct (Z.eqb_spec m k) as [->|E]; [by rewrite Z.lxor_nilpotent|]. apply Z.eqb_neq. intros EL. by apply Z.lxor_eq in EL.
Qed.
Lemma install_app a b rs : install (a ++ b) rs = install b (install a rs).
Proof. unfold install. apply fold_left_app. Qed.

(** C17: in the mark mode the rules of a family the interface has are a first
    group and one rule further down (behind the system's main and default
    rules).  A flow with the output mark skips the first group; the input mark
    selects the device's table; every other flow goes through the system's rules
    and reaches the device's table only when none of them decides.  With the
    DNAT bypass the marks that New accepts are told apart: a flow with the input
    mark is never taken for a translated one. *)
Theorem rules_mark_decision {R} {lookup : Z -> Flow -> option (R * Z)} `{!PolicyRouting lookup} `{RangesPackage} os vpn ruleList6 t fam lo mid hi f :
  let o := options t in
  let rs := of_family fam (rules os vpn ruleList6 t).1 in
  let fallback := with_table (IPRoute2TableIndex o) (NewRule fam (IPRoute2AutoRedirectFallbackRuleIndex o)) in
  AutoRoute o = true -> AutoRedirectMarkMode o = true -> is_fam fam ->
  pick fam (negb (bool_decide (Inet4Address o = []))) (negb (bool_decide (Inet6Address o = []))) = true ->
  marks_ok o -> marks_conflict o = false -> IPRoute2TableIndex o <> 0 -> is_u32 (f_mark f) ->
  Forall (fun r => Priority r < IPRoute2RuleIndex o) lo ->
  Forall (fun r => IPRoute2RuleIndex o + 2 < Priority r <= IPRoute2AutoRedirectFallbackRuleIndex o) mid ->
  Forall (fun r => IPRoute2AutoRedirectFallbackRuleIndex o < Priority r) hi ->
  IPRoute2RuleIndex o + 2 < IPRoute2AutoRedirectFallbackRuleIndex o ->
  exists first, install rs (lo ++ mid ++ hi) = lo ++ first ++ mid ++ fallback :: hi /\
    resolve lookup (first ++ mid ++ fallback :: hi) f =
      (if carries_output t (f_mark f) then resolve lookup (mid ++ fallback :: hi) f
       else or_else (if (AutoRedirectInputMark o =? 0) || (f_mark f =? AutoRedirectInputMark o) then tun_route t lookup f else Continue) (resolve lookup (mid ++ fallback :: hi) f)) /\
    (t_dnatBypass t = true -> carries_output t (AutoRedirectInputMark o) = false).
Proof.
  intros o rs fallback Hauto Hmark Hfam Hon Hmk Hne HT Hfm Hlo Hmid Hhi Hfb. exists (mark_rules o (t_dnatBypass t) fam (IPRoute2RuleIndex o)).
  set (s := IPRoute2RuleIndex o) in *. set (first := mark_rules o (t_dnatBypass t) fam s).
  assert (rs = first ++ [fallback]) as Ers.
  { unfold rs, rules. fold o. rewrite Hauto, Hmark. cbn [negb]. revert Hon. unfold pick.
    destruct (bool_decide (Inet4Address o = [])), (bool_decide (Inet6Address o = [])); destruct Hfam as [Ef|Ef]; cbn [negb andb fst]; rewrite Ef; intros Hp; try done;
      unfold rules_mark_mode, first, mark_rules; fold s; rewrite !of_family_app, of_family_families by (done || by (left + right)); destruct (t_dnatBypass t); unfold fallback; by rewrite Ef. }
  split_and!.
  - rewrite Ers, install_app. rewrite (install_between first lo (mid ++ hi)).
    + unfold install. cbn [fold_left]. rewrite !app_assoc. rewrite insert_rule_split; [by rewrite <- !app_assoc| |exact Hhi].
      rewrite <- app_assoc. apply Forall_app. split; [eapply Forall_impl; [exact Hlo|]; cbn; lia|]. apply Forall_app. split; [|eapply Forall_impl; [exact Hmid|]; cbn; lia].
      unfold first, mark_rules. destruct (t_dnatBypass t); repeat constructor; cbn; lia.
    + unfold first, mark_rules. destruct (t_dnatBypass t); repeat constructor; cbn; lia.
    + unfold first, mark_rules. destruct (t_dnatBypass t); repeat constructor; (eapply Forall_impl; [exact Hlo|]; cbn; lia).
    + unfold first, mark_rules. destruct (t_dnatBypass t); repeat constructor; (apply Forall_app; split; [eapply Forall_impl; [exact Hmid|]|eapply Forall_impl; [exact Hhi|]]; cbn; lia).
  - set (rest := mid ++ fallback :: hi). destruct Hmk as [Hmi Hmo].
    assert (resolve lookup (first ++ rest) f = resolve lookup ([with_goto (s + 2) (if t_dnatBypass t then with_mask (autoRouteDNATBypassMask o) (with_mark (autoRouteDNATBypassMark o) (NewRule fam s)) else with_mark (AutoRedirectOutputMark o) (NewRule fam s))] ++
      [with_table (IPRoute2TableIndex o) (with_mark (AutoRedirectInputMark o) (NewRule fam (s + 1)))] ++ NewRule fam (s + 2) :: rest) f) as ->.
    { unfold first, mark_rules. by destruct (t_dnatBypass t). }
    rewrite (segment_gotos fam (s + 2)); [|by repeat constructor|destruct (t_dnatBypass t); repeat constructor; cbn; lia|repeat constructor; cbn; lia].
    cbn [existsb]. rewrite orb_false_r.
    assert (selects (with_goto (s + 2) (if t_dnatBypass t then with_mask (autoRouteDNATBypassMask o) (with_mark (autoRouteDNATBypassMark o) (NewRule fam s)) else with_mark (AutoRedirectOutputMark o) (NewRule fam s))) f = carries_output t (f_mark f)) as ->.
    { unfold carries_output. fold o. destruct (t_dnatBypass t); [apply selects_mark|]. selected. by apply whole_mark. }
    destruct (carries_output t (f_mark f)); [done|]. rewrite (resolve_tables (IPRoute2TableIndex o)) by (done || by repeat constructor). rewrite resolve_any. cbn [existsb]. rewrite orb_false_r.
    assert (selects (with_table (IPRoute2TableIndex o) (with_mark (AutoRedirectInputMark o) (NewRule fam (s + 1)))) f = (AutoRedirectInputMark o =? 0) || (f_mark f =? AutoRedirectInputMark o)) as ->.
    { selected. by apply whole_mark. }
    done.
  - intros Hd. destruct (bypass_mark_facts o Hmk) as (_ & _ & HI & _ & HF). unfold carries_output. fold o. rewrite Hd. apply Z.eqb_neq, masked_differ. rewrite HI. apply HF; [done|].
    intros E. revert Hne. unfold marks_conflict. rewrite Hauto, Hmark, E, Z.eqb_refl. done.
Qed.

(** ** Samples *)

Definition sample_tun (mark_mode : bool) : native_tun :=
  mkNative
    (mkOptions "tun0" [netip.PrefixFrom (netip.Addr4 [172; 19; 0; 1]) 30] [] true netip.AddrInvalid netip.AddrInvalid "" [] None 2022 9000 32768 mark_mode 8227 8228 false [] [] true
       [] [] [] [] [] ["docker0"%string] [] [mkRange 1000 1000] [] [mkRange 123 123] [] [] [] [] [] 0)
    true (Some [mkDest 17 (netip.AddrPortFrom (netip.Addr4 [10; 244; 0; 7]) 53)]) [].
Definition sample_lookup (table : Z) (f : Flow) : option (string * Z) :=
  if table =? 2022 then Some ("tun0"%string, 0) else if table =? 254 then Some ("eth0"%string, 0) else None.
Definition sample_flow (iif : string) (mark uid : Z) (src dst : list Z) (dport : Z) : Flow :=
  mkFlow iif "" mark uid (netip.Addr4 src) (netip.Addr4 dst) 17 40000 dport.
Definition system_main : Rule := with_table RT_TABLE_MAIN (NewRule AF_INET 32766).

Lemma sample_ok b : policy_ok (sample_tun b).
Proof. destruct b; (split_and!; [done|done|constructor|by repeat constructor| |constructor|]); repeat constructor; cbn; try lia; try done. Qed.
Lemma sample_flow_in iif mark uid dport : flow_in AF_INET (sample_flow iif mark uid [0; 0; 0; 0] [1; 1; 1; 1] dport).
Proof. exists [0; 0; 0; 0], [1; 1; 1; 1]. repeat split; try done; repeat constructor; lia. Qed.

(** A query of this host is routed to the device; a query of an excluded user
    is left to the main table. *)
Lemma rules_decision_witness :
  let rs := of_family AF_INET (rules (H := naive.ranges_package) Linux (mkVPN false false) None (sample_tun false)).1 in
  let f uid := sample_flow "lo" 0 uid [0; 0; 0; 0] [1; 1; 1; 1] 53 in
  resolve sample_lookup (rs ++ [system_main]) (f 0) = Via "tun0"%string /\
  resolve sample_lookup (rs ++ [system_main]) (f 1000) = Via "eth0"%string.
Proof.
  cbv zeta.
  pose proof (rules_decision (H := naive.ranges_package) (lookup := sample_lookup) Linux (mkVPN false false) None (sample_tun false) AF_INET [] [system_main]) as HD.
  split.
  - destruct (HD (sample_flow "lo" 0 0 [0; 0; 0; 0] [1; 1; 1; 1] 53)) as [_ ->]; try done; [by left|by left|apply sample_ok|apply sample_flow_in|by repeat constructor].
  - destruct (HD (sample_flow "lo" 0 1000 [0; 0; 0; 0] [1; 1; 1; 1] 53)) as [_ ->]; try done; [by left|by left|apply sample_ok|apply sample_flow_in|by repeat constructor].
Defined.
Lemma rules_mark_decision_witness :
  exists first, resolve sample_lookup (first ++ [system_main] ++ [with_table 2022 (NewRule AF_INET 32768)]) (sample_flow "lo" 8227 0 [0; 0; 0; 0] [1; 1; 1; 1] 53) = Via "tun0"%string.
Proof.
  destruct (rules_mark_decision (H := naive.ranges_package) (lookup := sample_lookup) Linux (mkVPN false false) None (sample_tun true) AF_INET [] [system_main] []
    (sample_flow "lo" 8227 0 [0; 0; 0; 0] [1; 1; 1; 1] 53)) as (first & _ & E & _); try done; try (by left).
  - by repeat constructor.
  - exists first. etransitivity; [exact E|]. by vm_compute.
Defined.
