(* ===== verification/PolicyInstall.v ===== *)
(** * Installing and removing the policy rules

    [unsetRules] removes the rules in the device's priorities and no other,
    whatever the operations of netlink answer, and [resetRules] ends with
    exactly the rules of [rules] next to the others. *)
From Stdlib Require Import String.
From S2P Require Import Prelude Bytes GoMem TsChecksum Netip TunOptions TunRules TunRulesSpec RouteMark Netlink Ipvs PolicyRules PolicyRulesSpec.

(** ** The rules lie in the device's priorities *)

Lemma of_family_cover rs (P : Rule -> Prop) : Forall (fun r => is_fam (Family r)) rs -> Forall P (of_family AF_INET rs) -> Forall P (of_family AF_INET6 rs) -> Forall P rs.
Proof.
  intros Hf H4 H6. rewrite Forall_forall in *. intros r Hr. specialize (Hf r Hr). unfold of_family in *.
  destruct Hf as [E|E]; [apply H4|apply H6]; rewrite list_elem_of_In, filter_In, <- list_elem_of_In, E; done.
Qed.
Ltac each_fam := repeat (apply Forall_cons; split); try apply Forall_nil_2; first [by left|by right].
Lemma families_fam p4 p6 a b f : (forall fam p, Family (f fam p) = fam) -> Forall (fun r => is_fam (Family r)) (families p4 p6 a b f).
Proof. intros HF. unfold families. destruct p4, p6; cbn [app]; repeat (apply Forall_cons; split); try apply Forall_nil_2; rewrite HF; first [by left|by right]. Qed.
Lemma flat_families_fam {A} p4 p6 a b (f : A -> Z -> Z -> Rule) l : (forall x fam p, Family (f x fam p) = fam) -> Forall (fun r => is_fam (Family r)) (flat_map (fun x => families p4 p6 a b (f x)) l).
Proof. intros HF. induction l as [|x l IH]; [constructor|]. cbn. apply Forall_app. split; [by apply families_fam|done]. Qed.
Lemma ipvs_block_fam o d ds : Forall (fun r => is_fam (Family r)) (ipvs_block o d ds).
Proof.
  apply Forall_forall. intros r Hr. unfold ipvs_block in Hr. apply list_elem_of_omap in Hr as (x & _ & Hx). revert Hx. unfold ipvsDNSRule.
  repeat case_match; intros [= <-]; first [by left|by right].
Qed.
Lemma rules_auto_fam os vpn ex t p4 p6 : Forall (fun r => is_fam (Family r)) (rules_auto os vpn ex t p4 p6).
Proof.
  assert (forall o nop a, Forall (fun r => is_fam (Family r)) (tun_block4 o nop a)) as H4 by (intros; eapply Forall_impl; [apply tun_block4_family|]; cbn; intros r ->; by left).
  assert (forall o nop a, Forall (fun r => is_fam (Family r)) (tun_block6 o nop a)) as H6 by (intros; eapply Forall_impl; [apply tun_block6_family|]; cbn; intros r ->; by right).
  unfold rules_auto. cbv zeta. destruct (if t_dnatBypass t then _ else _) as [a1 b1].
  destruct (match t_ipvsDNSBypass t with Some _ => _ | None => _ end) as [r2 [a2 b2]] eqn:E2.
  assert (Forall (fun r => is_fam (Family r)) r2) as F2 by (destruct (t_ipvsDNSBypass t); injection E2 as <- <- <-; [apply ipvs_block_fam|constructor]). clear E2.
  destruct (if has_excludes _ _ then _ else _) as [a3 b3].
  destruct (interface_block _ p4 p6 _ a3 b3) as [r4 [a4 b4]] eqn:E4.
  assert (Forall (fun r => is_fam (Family r)) r4) as F4.
  { revert E4. unfold interface_block. destruct (IncludeInterface _) as [|i il] eqn:EI; [destruct (ExcludeInterface _) eqn:EE|]; intros [= <- <- <-]; [constructor| |].
    - unfold exclude_interfaces. rewrite EE. apply (flat_families_fam p4 p6 a3 b3 (fun x fam p => with_goto _ (with_iif x (NewRule fam p)))). done.
    - unfold include_block. rewrite EI. rewrite !Forall_app. split_and!; [|destruct p4; [each_fam|constructor]|destruct p6; [each_fam|constructor]].
      apply (flat_families_fam p4 p6 a3 b3 (fun x fam p => with_goto (p + 2) (with_iif x (NewRule fam p)))). done. }
  destruct (android_block os vpn p4 p6 _ a4 b4) as [r5 [a5 b5]] eqn:E5.
  assert (Forall (fun r => is_fam (Family r)) r5) as F5.
  { revert E5. unfold android_block. destruct (_ && _); intros [= <- <- <-]; [|constructor]. apply families_fam. intros. by destruct (OverrideAndroidVPN vpn). }
  destruct (strict_block _ p4 p6 a5 b5) as [r6 [a6 b6]] eqn:E6.
  assert (Forall (fun r => is_fam (Family r)) r6) as F6 by (revert E6; unfold strict_block; destruct (StrictRoute _); intros [= <- <- <-]; [by apply families_fam|constructor]).
  destruct (main_block os _ p4 p6 a6 b6) as [r7 [a7 b7]] eqn:E7.
  assert (Forall (fun r => is_fam (Family r)) r7) as F7.
  { revert E7. unfold main_block. destruct (negb _); intros [= <- <- <-]; [|constructor]. apply Forall_app. split; [|by apply families_fam].
    destruct p4; [|constructor]. apply Forall_map, Forall_forall. intros. by left. }
  rewrite !Forall_app. split_and!; try done.
  - destruct (t_dnatBypass t); [by apply families_fam|constructor].
  - unfold exclude_block. rewrite !Forall_app. split_and!;
      [apply (flat_families_fam p4 p6 a2 b2 (fun x fam p => with_goto _ (with_sport x (NewRule fam p))))
      |apply (flat_families_fam p4 p6 a2 b2 (fun x fam p => with_goto _ (with_dport x (NewRule fam p))))
      |apply (flat_families_fam p4 p6 a2 b2 (fun x fam p => with_goto _ (with_uids x (NewRule fam p))))]; done.
  - destruct p4; [apply H4|constructor].
  - destruct p6; [apply H6|constructor].
  - by apply families_fam.
Qed.
(** Every rule the device installs under AutoRoute is one that unsetRules
    looks for. *)
Lemma rules_in_our_range `{RangesPackage} os vpn ruleList6 t : AutoRoute (options t) = true ->
  Forall (fun r => in_our_range (options t) (Priority r) = true) (rules os vpn ruleList6 t).1 /\ (rules os vpn ruleList6 t).2 = t.
Proof.
  intros Hauto. unfold rules. rewrite Hauto. cbn [negb]. destruct (_ && _); [by split; [constructor|]|]. destruct (AutoRedirectMarkMode (options t)) eqn:Hm; cbn [fst snd].
  - split; [|done]. unfold rules_mark_mode, mark_rules, families, in_our_range. rewrite Hm, !Forall_app.
    split_and!; [destruct (negb _)|destruct (negb _)|destruct (negb _)|destruct (negb _)]; destruct (t_dnatBypass t); repeat constructor; cbn; lia.
  - split; [|done]. assert (forall fam, is_fam fam -> Forall (fun r => in_our_range (options t) (Priority r) = true)
      (of_family fam (rules_auto os vpn (ExcludedRanges (options t)) t (negb (bool_decide (Inet4Address (options t) = []))) (negb (bool_decide (Inet6Address (options t) = [])))))) as HF.
    { intros fam Hf. rewrite rules_auto_family by done. unfold in_our_range. rewrite Hm. destruct (pick _ _ _).
      - destruct (enabled_rules_within os vpn (ExcludedRanges (options t)) t fam) as [_ Hw]. eapply Forall_impl; [exact Hw|]. cbn. lia.
      - destruct (StrictRoute _); repeat constructor. cbn. lia. }
    apply of_family_cover; [apply rules_auto_fam|apply HF; by left|apply HF; by right].
Qed.

(** ** Removing *)

Section Removing.
Context {W : Type} `{NetlinkRules W}.

Definition foreign (o : Options) (rs : list Rule) : list Rule := List.filter (fun r => negb (in_our_range o (Priority r))) rs.
Lemma foreign_app o a b : foreign o (a ++ b) = foreign o a ++ foreign o b.
Proof. apply List.filter_app. Qed.
Lemma remove_first_kept o kept r rs : Forall (fun x => in_our_range o (Priority x) = false) kept -> in_our_range o (Priority r) = true ->
  remove_first (Family r) (Priority r) (kept ++ r :: rs) = Some (kept ++ rs).
Proof.
  intros Hk Hr. induction Hk as [|x kept Hx Hk IH]; cbn [app remove_first].
  - by rewrite !Z.eqb_refl.
  - destruct (Z.eqb_spec (Priority x) (Priority r)) as [E|E]; [rewrite E in Hx; congruence|]. rewrite andb_false_r, IH. done.
Qed.
(** While the list is worked off, the rules kept so far are foreign ones. *)
Lemma unset_listed_ok o l kept w w' err : Forall (fun x => in_our_range o (Priority x) = false) kept -> rules_in w = kept ++ l ->
  unset_listed o l w = (w', err) ->
  foreign o (rules_in w') = foreign o (kept ++ l) /\ (err = None -> rules_in w' = foreign o (kept ++ l)).
Proof.
  revert kept w. induction l as [|r l IH]; intros kept w Hk Hw; cbn [unset_listed].
  { intros [= <- <-]. rewrite Hw. split; [done|]. intros _. rewrite app_nil_r. unfold foreign. clear -Hk. induction Hk as [|x kept Hx Hk IH]; [done|]. cbn. rewrite Hx. cbn. by f_equal. }
  destruct (in_our_range o (Priority r)) eqn:Er.
  - destruct (NetlinkRuleDel w (Family r) (Priority r)) as [w1 e1] eqn:E1. apply NetlinkRuleDel_ok in E1. rewrite Hw, (remove_first_kept o) in E1 by done.
    assert (foreign o (kept ++ r :: l) = foreign o (kept ++ l)) as -> by (rewrite !foreign_app; f_equal; unfold foreign; cbn; by rewrite Er).
    destruct e1 as [e1|].
    + intros [= <- <-]. split; [|done]. rewrite E1, !foreign_app. f_equal. unfold foreign. cbn. by rewrite Er.
    + injection E1 as E1. intros EL. by eapply IH in EL.
  - intros EL. apply (IH (kept ++ [r])) in EL; [|by apply Forall_app; split; [|repeat constructor]|by rewrite <- app_assoc].
    by rewrite <- app_assoc in EL.
Qed.
Lemma setRules_ok rs i w w' err : setRules_loop i rs w = (w', err) ->
  match err with
  | None => rules_in w' = install rs (rules_in w)
  | Some (j, _) => exists k : nat, j = i + Z.of_nat k /\ (k < length rs)%nat /\ rules_in w' = install (take k rs) (rules_in w)
  end.
Proof.
  revert i w. induction rs as [|r rs IH]; intros i w; cbn [setRules_loop]; [by intros [= <- <-]|].
  destruct (NetlinkRuleAdd w r) as [w1 e1] eqn:E1. apply NetlinkRuleAdd_ok in E1. destruct e1 as [e1|].
  - intros [= <- <-]. exists 0%nat. split_and!; [lia|cbn; lia|done].
  - intros EL. apply IH in EL. destruct err as [[j e]|].
    + destruct EL as (k & -> & Hk & ->). exists (S k). split_and!; [lia|cbn; lia|]. cbn. by rewrite E1.
    + by rewrite EL, E1.
Qed.
End Removing.

Lemma in_insert_rule r rs x : x ∈ insert_rule r rs <-> x = r \/ x ∈ rs.
Proof.
  induction rs as [|y rs IH]; cbn; [by rewrite list_elem_of_singleton, elem_of_nil; tauto|].
  destruct (_ <? _); rewrite !elem_of_cons; [done|]. rewrite IH. tauto.
Qed.

(** C11: with AutoRoute, a reset without an error leaves the rules that were not
    the device's as they were, in their order, and puts the rules of [rules]
    among them by priority; all of these lie in the priorities that the next
    unsetRules clears.  When an operation fails, no foreign rule is lost, and
    the error names the rule that could not be added with exactly those before
    it installed. *)
Theorem resetRules_exact {W} `{NetlinkRules W} `{RangesPackage} os vpn ruleList6 t w w' t' err :
  let o := options t in
  AutoRoute o = true -> FileDescriptor o <= 0 -> ruleIndex6 t = [] ->
  resetRules os vpn ruleList6 t w = (w', t', err) ->
  t' = t /\
  Forall (fun r => in_our_range o (Priority r) = true) (rules os vpn ruleList6 t).1 /\
  match err with
  | None => rules_in w' = install (rules os vpn ruleList6 t).1 (foreign o (rules_in w))
  | Some (SetRule i _) => exists k : nat, i = Z.of_nat k /\ (k < length (rules os vpn ruleList6 t).1)%nat /\ rules_in w' = install (take k (rules os vpn ruleList6 t).1) (foreign o (rules_in w))
  | Some (Unset _) => foreign o (rules_in w') = foreign o (rules_in w)
  end.
Proof.
  intros o Hauto Hfd Hidx. destruct (rules_in_our_range os vpn ruleList6 t Hauto) as [HR Ht].
  unfold resetRules, unsetRules. fold o. replace (0 <? FileDescriptor o) with false by lia. rewrite Hidx. cbn [unset_indexes]. rewrite Hauto.
  assert (mkNative o (t_dnatBypass t) (t_ipvsDNSBypass t) [] = t) as -> by (destruct t; cbn in *; by subst).
  destruct (RuleList w) as [w1 l] eqn:EL. apply RuleList_ok in EL as [HL1 HL2]. destruct l as [e|l].
  { intros [= <- <- <-]. split_and!; [done|done|]. by rewrite HL1. }
  subst l. destruct (unset_listed o (rules_in w) w1) as [w2 e2] eqn:EU. apply (unset_listed_ok o (rules_in w) []) in EU as [HF HE]; [|constructor|done]. cbn [app] in HF, HE.
  destruct e2 as [e2|]; [intros [= <- <- <-]; by split_and!|]. specialize (HE eq_refl).
  destruct (rules os vpn ruleList6 t) as [rs t1] eqn:ER. cbn in Ht. subst t1. cbn [fst].
  destruct (setRules rs w2) as [w3 e3] eqn:ES. apply setRules_ok in ES. rewrite HE in ES. intros [= <- <- <-]. split_and!; [done|done|].
  destruct e3 as [[j e]|]; cbn [option_map fst snd]; [|done]. destruct ES as (k & -> & ? & ?). exists k. split_and!; [lia|done|done].
Qed.

(** A kernel whose operations fail where a script says so. *)
Record scripted_rules := mkScript { sr_rules : list Rule; sr_script : list bool }.
Definition step_script (w : scripted_rules) : bool * scripted_rules :=
  match sr_script w with [] => (false, w) | b :: bs => (b, mkScript (sr_rules w) bs) end.
#[refine] Instance scripted_netlink : NetlinkRules scripted_rules := {|
  NetlinkRuleAdd w r := let '(fail, w) := step_script w in
    if fail || bool_decide (r ∈ sr_rules w) then (w, Some EEXIST) else (mkScript (insert_rule r (sr_rules w)) (sr_script w), None);
  NetlinkRuleDel w family priority := let '(fail, w) := step_script w in
    if fail : bool then (w, Some (OtherErrno 1)) else match remove_first family priority (sr_rules w) with Some rs => (mkScript rs (sr_script w), None) | None => (w, Some ENOENT) end;
  RuleList w := let '(fail, w) := step_script w in (w, if fail : bool then inl (OtherErrno 1) else inr (sr_rules w));
  rules_in := sr_rules
|}.
Proof.
  - intros [rs [|[] sc]] r w' e; cbn; try case_bool_decide; by intros [= <- <-].
  - intros [rs [|[] sc]] fam p w' e; cbn; try (destruct (remove_first fam p rs) eqn:E); intros [= <- <-]; try done; by rewrite E.
  - intros [rs [|[] sc]] w' l; cbn; by intros [= <- <-].
Defined.
Definition sample_native : native_tun :=
  mkNative
    (mkOptions "tun0" [netip.PrefixFrom (netip.Addr4 [172; 19; 0; 1]) 30] [] true netip.AddrInvalid netip.AddrInvalid "" [] None 2022 9000 32768 false 0 0 false [] [] false
       [] [] [] [] [] [] [] [] [] [] [] [] [] [] [] 0) false None [].
Definition stale : list Rule := [NewRule AF_INET 0; with_goto 9010 (NewRule AF_INET 9003); NewRule AF_INET 9010; NewRule AF_INET 32766].
(** Two stale rules of the device are replaced; the rules of the system stay. *)
Lemma resetRules_exact_witness :
  let '(w', t', err) := resetRules (H0 := naive.ranges_package) Linux (mkVPN false false) None sample_native (mkScript stale []) in
  t' = sample_native /\ err = None /\ map Priority (rules_in w') = [0; 9000; 9001; 9001; 9002; 9002; 9002; 9010; 32766].
Proof.
  destruct (resetRules (H0 := naive.ranges_package) Linux (mkVPN false false) None sample_native (mkScript stale [])) as [[w' t'] err] eqn:E.
  destruct (resetRules_exact (H0 := naive.ranges_package) Linux (mkVPN false false) None sample_native (mkScript stale []) w' t' err eq_refl ltac:(cbn; lia) eq_refl E) as (Ht & _ & HW).
  assert (err = None) as -> by (vm_compute in E; congruence). split_and!; [exact Ht|done|]. rewrite HW. vm_compute. reflexivity.
Defined.
