(* ===== verification/Nft.v ===== *)
(** * nftables: expressions, sets and their evaluation

    The expressions of a rule as the nftables package has them, the connection
    to which rules and sets are added, and the documented meaning of a chain
    (nft(8)): the expressions of a rule run in order over registers, a
    comparison or lookup that fails ends the rule, a verdict ends the chain.
    What the kernel holds in a set is the parameter [SetLookup]. *)
From Stdlib Require Import String Ascii.
From S2P Require Import Prelude Bytes GoMem TsChecksum Netip TunOptions Netlink.

(** ** Expressions *)

Inductive MetaKey := MetaKeyNFPROTO | MetaKeyL4PROTO | MetaKeyMARK | MetaKeyIIFNAME | MetaKeyOIFNAME | MetaKeyIIFTYPE | MetaKeySKUID.
Inductive CtKey := CtKeySTATUS | CtKeyMARK.
Inductive PayloadBase := PayloadBaseLLHeader | PayloadBaseNetworkHeader | PayloadBaseTransportHeader.
Inductive CmpOp := CmpOpEq | CmpOpNeq.
Inductive VerdictKind := VerdictReturn | VerdictDrop.
(** A register is 1 or 2; [SourceRegister] of Meta and Ct sets instead of
    loading. *)
Inductive expr :=
  | Meta (Key : MetaKey) (Register : Z) (SourceRegister : bool)
  | Ct (Key : CtKey) (Register : Z) (SourceRegister : bool)
  | Cmp (Op : CmpOp) (Register : Z) (Data : list Z)
  | Bitwise (SourceRegister DestRegister : Z) (Mask Xor : list Z)
  | Payload (DestRegister : Z) (Base : PayloadBase) (Offset Len : Z)
  | Lookup (SourceRegister SetID : Z) (SetName : string) (Invert : bool)
  | ExthdrTcpopt (DestRegister Type_ : Z)
  | FibDaddrType (Register : Z)
  | Immediate (Register : Z) (Data : list Z)
  | Redir (RegisterProtoMin : Z)
  | DestNAT (Family RegAddrMin : Z) (RegProtoMin : option Z)
  | Reject
  | Counter
  | Verdict (Kind : VerdictKind).
Definition NFPROTO_IPV4 : Z := 2.
Definition NFPROTO_IPV6 : Z := 10.
Definition IPPROTO_ICMP : Z := 1.
Definition IPPROTO_ICMPV6 : Z := 58.
Definition ARPHRD_ETHER : Z := 1.
Definition RTN_LOCAL : Z := 2.
Definition TCPOPT_MPTCP : Z := 30.

(** binaryutil.BigEndian and NativeEndian (of a host that is little-endian or
    not). *)
Definition be32 (v : Z) : list Z := netip.be_bytes 4 v.
Definition be16 (v : Z) : list Z := netip.be_bytes 2 v.
Definition native32 (le : bool) (v : Z) : list Z := if le then rev (be32 v) else be32 v.
Definition native16 (le : bool) (v : Z) : list Z := if le then rev (be16 v) else be16 v.
Definition of_native (le : bool) (l : list Z) : Z := be_val (if le then rev l else l).

(** ** Sets *)

Record SetElement := mkElement { Key : list Z; IntervalEnd : bool }.
Record nft_set := mkSet { s_ID : Z; s_Name : string; s_Anonymous : bool; s_Interval : bool; s_Elements : list SetElement }.

(** Intervals in the order of their keys, which the kernel compares byte by
    byte. *)
Fixpoint increasing (last : Z) (els : list SetElement) : Prop :=
  match els with [] => True | e :: els' => last < be_val (Key e) /\ increasing (be_val (Key e)) els' end.
(** An element that is not an end opens an interval up to the next end, or up
    to the last key. *)
Fixpoint in_intervals (els : list SetElement) (k : Z) : bool :=
  match els with
  | [] => false
  | e :: els' =>
      if IntervalEnd e then in_intervals els' k
      else match els' with
           | e' :: _ => if IntervalEnd e' then ((be_val (Key e) <=? k) && (k <? be_val (Key e'))) || in_intervals els' k
                        else (be_val (Key e) <=? k) || in_intervals els' k
           | [] => be_val (Key e) <=? k
           end
  end.
Definition keys_of_length (n : nat) (els : list SetElement) : Prop := Forall (fun e => length (Key e) = n /\ bytes (Key e)) els.
(** The kernel's membership test. *)
Class SetLookup := {
  set_has : nft_set -> list Z -> bool;
  set_has_keys : forall s k, s_Interval s = false -> keys_of_length (length k) (s_Elements s) -> set_has s k = bool_decide (k ∈ map Key (s_Elements s));
  set_has_intervals : forall s k, s_Interval s = true -> bytes k -> keys_of_length (length k) (s_Elements s) -> increasing (-1) (s_Elements s) ->
    set_has s k = in_intervals (s_Elements s) (be_val k)
}.

(** A named set is found by its name, an anonymous one by its identifier. *)
Definition find_set (sets : list nft_set) (id : Z) (name : string) : option nft_set :=
  find (fun s => if s_Anonymous s then String.eqb name "__set%d" && (s_ID s =? id) else String.eqb (s_Name s) name) sets.

(** ** Packets *)

(** What the expressions can load of a packet. *)
Record packet := mkPacket {
  p_iifname : string; p_oifname : string; p_iiftype : Z; p_mac : list Z;
  p_src : netip.Addr; p_dst : netip.Addr; p_l4proto : Z; p_dport : Z;
  p_skuid : option Z; p_ctstatus : Z; p_mptcp : bool; p_dst_local : bool
}.
Definition nfproto (p : packet) : Z := if netip.Is4 (p_dst p) then NFPROTO_IPV4 else NFPROTO_IPV6.
Definition to_bytes (s : string) : list Z := map (fun c => Z.of_N (N_of_ascii c)) (list_ascii_of_string s).
Definition string_bytes (s : string) : list Z := to_bytes s.
(** A name in the 16 bytes of IFNAMSIZ. *)
Definition ifname16 (s : string) : list Z := take 16 (string_bytes s ++ repeat 0 16).

Record machine := mkMachine { m_mark : Z; m_ctmark : Z; m_regs : Z -> list Z }.
Definition set_reg (m : machine) (r : Z) (v : list Z) : machine := mkMachine (m_mark m) (m_ctmark m) (fun x => if x =? r then v else m_regs m x).

Definition meta_load (le : bool) (p : packet) (m : machine) (k : MetaKey) : option (list Z) :=
  match k with
  | MetaKeyNFPROTO => Some [nfproto p]
  | MetaKeyL4PROTO => Some [p_l4proto p]
  | MetaKeyMARK => Some (native32 le (m_mark m))
  | MetaKeyIIFNAME => Some (ifname16 (p_iifname p))
  | MetaKeyOIFNAME => Some (ifname16 (p_oifname p))
  | MetaKeyIIFTYPE => Some (native16 le (p_iiftype p))
  | MetaKeySKUID => option_map (native32 le) (p_skuid p)
  end.
Definition payload_load (p : packet) (base : PayloadBase) (offset len : Z) : option (list Z) :=
  match base with
  | PayloadBaseLLHeader => if (offset =? 6) && (len =? 6) then Some (p_mac p) else None
  | PayloadBaseNetworkHeader =>
      match p_src p, p_dst p with
      | netip.Addr4 s, netip.Addr4 d => if len =? 4 then if offset =? 12 then Some s else if offset =? 16 then Some d else None else None
      | netip.Addr6 s, netip.Addr6 d => if len =? 16 then if offset =? 8 then Some s else if offset =? 24 then Some d else None else None
      | _, _ => None
      end
  | PayloadBaseTransportHeader => if (offset =? 2) && (len =? 2) then Some (be16 (p_dport p)) else None
  end.
Definition bitwise (l mask xor : list Z) : list Z := zip_with Z.lxor (zip_with Z.land l mask) xor.

(** ** Running a rule and a chain *)

Inductive outcome := Returned | Dropped | Rejected | Redirected (port : list Z) | Translated (addr : list Z) (port : option (list Z)).
Inductive step := Next (m : machine) | Break | Stop (v : outcome).

Section Run.
Context `{SetLookup} (le : bool) (sets : list nft_set) (p : packet).

Definition exec1 (m : machine) (e : expr) : step :=
  match e with
  | Meta k r false => match meta_load le p m k with Some v => Next (set_reg m r v) | None => Break end
  | Meta MetaKeyMARK r true => Next (mkMachine (of_native le (m_regs m r)) (m_ctmark m) (m_regs m))
  | Meta _ _ true => Break
  | Ct CtKeySTATUS r false => Next (set_reg m r (native32 le (p_ctstatus p)))
  | Ct CtKeyMARK r false => Next (set_reg m r (native32 le (m_ctmark m)))
  | Ct CtKeyMARK r true => Next (mkMachine (m_mark m) (of_native le (m_regs m r)) (m_regs m))
  | Ct _ _ true => Break
  | Cmp CmpOpEq r d => if bool_decide (m_regs m r = d) then Next m else Break
  | Cmp CmpOpNeq r d => if bool_decide (m_regs m r = d) then Break else Next m
  | Bitwise s d mask xor => Next (set_reg m d (bitwise (m_regs m s) mask xor))
  | Payload r base off len => match payload_load p base off len with Some v => Next (set_reg m r v) | None => Break end
  | Lookup r id name inv =>
      match find_set sets id name with
      | Some s => if xorb inv (set_has s (m_regs m r)) then Next m else Break
      | None => Break
      end
  | ExthdrTcpopt r ty => Next (set_reg m r [if (ty =? TCPOPT_MPTCP) && p_mptcp p then 1 else 0])
  | FibDaddrType r => Next (set_reg m r (native32 le (if p_dst_local p then RTN_LOCAL else 1)))
  | Immediate r d => Next (set_reg m r d)
  | Redir r => Stop (Redirected (m_regs m r))
  | DestNAT _ a pr => Stop (Translated (m_regs m a) (option_map (m_regs m) pr))
  | Reject => Stop Rejected
  | Counter => Next m
  | Verdict VerdictReturn => Stop Returned
  | Verdict VerdictDrop => Stop Dropped
  end.
(** The marks set before a rule breaks stay set. *)
Fixpoint exec (m : machine) (es : list expr) : machine * option outcome :=
  match es with
  | [] => (m, None)
  | e :: es' => match exec1 m e with Next m' => exec m' es' | Break => (m, None) | Stop v => (m, Some v) end
  end.
Fixpoint run_chain (m : machine) (rules : list (list expr)) : machine * option outcome :=
  match rules with
  | [] => (m, None)
  | r :: rules' => let '(m', v) := exec m r in match v with Some v => (m', Some v) | None => run_chain m' rules' end
  end.
End Run.

(** ** The connection *)

Inductive chain_type := ChainTypeNAT | ChainTypeRoute | ChainTypeFilter.
Inductive chain_hook := ChainHookPrerouting | ChainHookOutput.
Record chain := mkChain { ch_Name : string; ch_Hooknum : chain_hook; ch_Type : chain_type; ch_Priority : Z }.
#[global] Instance chain_type_eq_dec : EqDecision chain_type.
Proof. solve_decision. Defined.
#[global] Instance chain_hook_eq_dec : EqDecision chain_hook.
Proof. solve_decision. Defined.

(** What was sent so far, the identifier last given to a set, and which of the
    operations that can fail do so. *)
Record conn := mkConn {
  c_sets : list nft_set; c_chains : list chain; c_rules : list (string * list expr);
  c_allocSetID : Z; c_fail : list bool
}.
(** Computations with a connection that may end with an error. *)
Inductive nft_error := ConnError | IPSetError | NoDNSServer (e : dns_error) | InterfaceError.
Definition nft (A : Type) : Type := conn -> conn * (nft_error + A).
Definition nret {A} (x : A) : nft A := fun c => (c, inr x).
Definition nfail {A} (e : nft_error) : nft A := fun c => (c, inl e).
Definition nbind {A B} (x : nft A) (f : A -> nft B) : nft B := fun c => let '(c, r) := x c in match r with inl e => (c, inl e) | inr a => f a c end.
Declare Scope nft_scope.
Delimit Scope nft_scope with nft.
Notation "x <~~ c ;; k" := (nbind c (fun x => k)) (at level 100, c at next level, right associativity) : nft_scope.
Notation "c ;;~ k" := (nbind c (fun _ => k)) (at level 100, right associativity) : nft_scope.
Definition nwhen (b : bool) (x : nft unit) : nft unit := if b then x else nret tt.
Fixpoint nfor {A} (l : list A) (f : A -> nft unit) : nft unit :=
  match l with [] => nret tt | x :: l' => nbind (f x) (fun _ => nfor l' f) end.

(** An operation that the script makes fail or not. *)
Definition attempt : nft unit := fun c =>
  match c_fail c with
  | true :: fs => (mkConn (c_sets c) (c_chains c) (c_rules c) (c_allocSetID c) fs, inl ConnError)
  | false :: fs => (mkConn (c_sets c) (c_chains c) (c_rules c) (c_allocSetID c) fs, inr tt)
  | [] => (c, inr tt)
  end.
Definition AddRule (ch : chain) (es : list expr) : nft unit := fun c =>
  (mkConn (c_sets c) (c_chains c) (c_rules c ++ [(ch_Name ch, es)]) (c_allocSetID c) (c_fail c), inr tt).
Definition AddChain (ch : chain) : nft chain := fun c =>
  (mkConn (c_sets c) (c_chains c ++ [ch]) (c_rules c) (c_allocSetID c) (c_fail c), inr ch).
(** AddSet numbers a set without an identifier and names an anonymous one. *)
Definition AddSet (s : nft_set) (els : list SetElement) : nft nft_set :=
  nbind attempt (fun _ c =>
    let '(id, alloc) := if s_ID s =? 0 then (c_allocSetID c + 1, c_allocSetID c + 1) else (s_ID s, c_allocSetID c) in
    let name := if (s_ID s =? 0) && s_Anonymous s then "__set%d"%string else s_Name s in
    let s' := mkSet id name (s_Anonymous s) (s_Interval s) els in
    (mkConn (c_sets c ++ [s']) (c_chains c) (c_rules c) alloc (c_fail c), inr s')).
Definition map_named (name : string) (f : nft_set -> nft_set) (sets : list nft_set) : list nft_set :=
  map (fun s => if negb (s_Anonymous s) && String.eqb (s_Name s) name then f s else s) sets.
Definition with_elements (els : list SetElement) (s : nft_set) : nft_set := mkSet (s_ID s) (s_Name s) (s_Anonymous s) (s_Interval s) els.
Definition FlushSet (name : string) : nft unit := fun c =>
  (mkConn (map_named name (with_elements []) (c_sets c)) (c_chains c) (c_rules c) (c_allocSetID c) (c_fail c), inr tt).
Definition SetAddElements (name : string) (els : list SetElement) : nft unit :=
  nbind attempt (fun _ c =>
    (mkConn (map_named name (fun s => with_elements (s_Elements s ++ els) s) (c_sets c)) (c_chains c) (c_rules c) (c_allocSetID c) (c_fail c), inr tt)).
Definition Flush : nft unit := attempt.
(** The rules of a chain, in order. *)
Definition rules_of_chain (c : conn) (name : string) : list (list expr) :=
  map snd (List.filter (fun r => String.eqb r.1 name) (c_rules c)).
