(* ===== verification/RedirectNft.v ===== *)
(** * redirect_nftables*.go: the rules of auto-redirect

    The sets, chains and rules that setupNFTables sends, one definition per
    function of the source.  go4.org/netipx is a parameter. *)
From Stdlib Require Import String.
From S2P Require Import Prelude Bytes GoMem TsChecksum Netip TunOptions TunRules RouteMark Netlink Ipvs Nft.
#[local] Open Scope nft_scope.

(** netipx: the ranges of an IPSet built from prefixes and other sets. *)
Definition in_ip_range (ip : netip.Addr) (r : netip.Addr * netip.Addr) : bool :=
  netip.IsValid ip && (netip.BitLen (r.1) =? netip.BitLen ip) && (netip.val (r.1) <=? netip.val ip) && (netip.val ip <=? netip.val (r.2)).
(** Ranges of one address length in order, none touching the next. *)
Fixpoint ranges_sorted (last : Z) (rs : list (netip.Addr * netip.Addr)) : Prop :=
  match rs with [] => True | (a, b) :: rs' => last < netip.val a /\ netip.val a <= netip.val b /\ ranges_sorted (netip.val b + 1) rs' end.
Definition of_len (n : Z) (rs : list (netip.Addr * netip.Addr)) : list (netip.Addr * netip.Addr) := List.filter (fun r => netip.BitLen (r.1) =? n) rs.
Class IPRangesPackage := {
  IPSetT : Type;
  set_covers : IPSetT -> netip.Addr -> bool;
  BuildRanges : list netip.Prefix -> list IPSetT -> ipset_error + list (netip.Addr * netip.Addr);
  BuildRanges_ok : forall ps ss, Forall valid_prefix ps ->
    exists rs, BuildRanges ps ss = inr rs /\
      Forall (fun r => valid_addr (r.1) /\ valid_addr (r.2) /\ netip.BitLen (r.1) = netip.BitLen (r.2)) rs /\
      (forall n, ranges_sorted (-1) (of_len n rs)) /\
      forall ip, valid_addr ip -> existsb (in_ip_range ip) rs = covered ps ip || existsb (fun s => set_covers s ip) ss
}.

(** autoRedirect, with the family constants of nftables. *)
Definition TableFamilyIPv4 : Z := NFPROTO_IPV4.
Definition TableFamilyIPv6 : Z := NFPROTO_IPV6.

Section Redirect.
Context `{IPRangesPackage} (le : bool) (os : GOOS).

Record autoRedirect := mkRedirect {
  tunOptions : Options; enableIPv4 : bool; enableIPv6 : bool;
  routeAddressSet : list IPSetT; routeExcludeAddressSet : list IPSetT;
  redirectPort : Z; localAddresses : list netip.Prefix
}.

(** ** redirect_nftables_exprs.go *)

(** copy(b, n+"\x00") into 16 bytes *)
Definition nftablesIfname (n : string) : list Z :=
  let src := string_bytes n ++ [0] in
  take 16 src ++ repeat 0 (16 - length src).

Definition nftablesCreateDestinationIPSetExprs (id : Z) (name : string) (family : Z) (invert : bool) : list expr :=
  [Meta MetaKeyNFPROTO 1 false; Cmp CmpOpEq 1 [family]] ++
  (if family =? TableFamilyIPv4 then [Payload 1 PayloadBaseNetworkHeader 16 4] else [Payload 1 PayloadBaseNetworkHeader 24 16]) ++
  [Lookup 1 id name invert].
Definition nftablesCreateExcludeDestinationIPSet (ch : chain) (id : Z) (name : string) (family : Z) (invert : bool) : nft unit :=
  AddRule ch (nftablesCreateDestinationIPSetExprs id name family invert ++ [Counter; Verdict VerdictReturn]).

(** The elements of a set are sent a thousand at a time. *)
Fixpoint add_elements (fuel : nat) (name : string) (setElements : list SetElement) : nft unit :=
  match fuel, setElements with
  | S fuel', _ :: _ =>
      let toAdd := take 1000 setElements in
      SetAddElements name toAdd ;;~ Flush ;;~ add_elements fuel' name (drop (length toAdd) setElements)
  | _, _ => nret tt
  end.
Definition nftablesCreateIPConst (id : Z) (name : string) (addressList : list netip.Addr) : nft nft_set :=
  let setElements := map (fun addr => mkElement (netip.AsSlice addr) false) addressList in
  if id =? 0 then AddSet (mkSet id name true false []) setElements
  else
    mySet <~~ AddSet (mkSet id name false false []) [] ;;
    add_elements (length setElements) name setElements ;;~ nret mySet.

Definition range_elements (family : Z) (rr : netip.Addr * netip.Addr) : list SetElement :=
  if negb (Bool.eqb (family =? TableFamilyIPv4) (netip.Is4 (rr.1))) then []
  else
    mkElement (netip.AsSlice (rr.1)) false ::
    (let endAddr := netip.Next (rr.2) in if netip.IsValid endAddr then [mkElement (netip.AsSlice endAddr) true] else []).
Definition default_elements (family : Z) : list SetElement :=
  let zero := netip.AsSlice (if family =? TableFamilyIPv4 then IPv4Unspecified else IPv6Unspecified) in
  [mkElement zero false; mkElement zero true].
Definition ipset_elements (family : Z) (ipRanges : list (netip.Addr * netip.Addr)) (appendDefault : bool) : list SetElement :=
  let setElements := flat_map (range_elements family) ipRanges in
  if appendDefault && bool_decide (length setElements = 0%nat) then default_elements family else setElements.
Definition nftablesCreateIPSet (id : Z) (name : string) (family : Z) (setList : list IPSetT) (prefixList : list netip.Prefix) (appendDefault update : bool) : nft nft_set :=
  match BuildRanges prefixList setList with
  | inl _ => nfail IPSetError
  | inr ipRanges =>
      let setElements := ipset_elements family ipRanges appendDefault in
      if id =? 0 then AddSet (mkSet id name true true []) setElements
      else
        let mySet := mkSet id name false true [] in
        (if update then FlushSet name else (_ <~~ AddSet mySet [] ;; nret tt)) ;;~
        add_elements (length setElements) name setElements ;;~ nret mySet
  end.

(** ** redirect_nftables_rules.go: sets *)

Definition nftablesCreateAddressSets (r : autoRedirect) (update : bool) : nft unit :=
  match routeAddressSet r, routeExcludeAddressSet r with
  | [], [] => nret tt
  | _, _ =>
      nwhen (negb (bool_decide (length (routeAddressSet r) = 0%nat)))
        (nwhen (enableIPv4 r) (nftablesCreateIPSet 1 "inet4_route_address_set" TableFamilyIPv4 (routeAddressSet r) [] true update ;;~ nret tt) ;;~
         nwhen (enableIPv6 r) (nftablesCreateIPSet 2 "inet6_route_address_set" TableFamilyIPv6 (routeAddressSet r) [] true update ;;~ nret tt)) ;;~
      nwhen (negb (bool_decide (length (routeExcludeAddressSet r) = 0%nat)))
        (nwhen (enableIPv4 r) (nftablesCreateIPSet 3 "inet4_route_exclude_address_set" TableFamilyIPv4 (routeExcludeAddressSet r) [] false update ;;~ nret tt) ;;~
         nwhen (enableIPv6 r) (nftablesCreateIPSet 4 "inet6_route_exclude_address_set" TableFamilyIPv6 (routeExcludeAddressSet r) [] false update ;;~ nret tt))
  end.

(** Both lists are filtered from the new addresses. *)
Definition local_update (is_family : netip.Addr -> bool) (new last : list netip.Prefix) : bool :=
  let localAddresses := List.filter (fun it => is_family (netip.pf_addr it)) new in
  let updateAddresses := List.filter (fun it => is_family (netip.pf_addr it)) new in
  negb (bool_decide (length last = 0%nat)) && negb (bool_decide (localAddresses = updateAddresses)).
Definition local_set (id : Z) (name : string) (family : Z) (is_family : netip.Addr -> bool) (new last : list netip.Prefix) : nft unit :=
  let update := local_update is_family new last in
  nwhen (bool_decide (length last = 0%nat) || update)
    (nftablesCreateIPSet id name family [] (List.filter (fun it => is_family (netip.pf_addr it)) new) false update ;;~ nret tt).
Definition nftablesCreateLocalAddressSets (r : autoRedirect) (new last : list netip.Prefix) : nft unit :=
  nwhen (enableIPv4 r) (local_set 5 "inet4_local_address_set" TableFamilyIPv4 netip.Is4 new last) ;;~
  nwhen (enableIPv6 r) (local_set 6 "inet6_local_address_set" TableFamilyIPv6 Is6 new last).
Definition nftablesCreateLoopbackAddressSets (r : autoRedirect) : nft unit :=
  let o := tunOptions r in
  nwhen (enableIPv4 r && negb (bool_decide (Inet4LoopbackAddress o = [])))
    (nftablesCreateIPConst 7 "inet4_local_redirect_address_set" (Inet4LoopbackAddress o) ;;~ nret tt) ;;~
  nwhen (enableIPv6 r && negb (bool_decide (Inet6LoopbackAddress o = [])))
    (nftablesCreateIPConst 8 "inet6_local_redirect_address_set" (Inet6LoopbackAddress o) ;;~ nret tt).

(** ** redirect_nftables_rules.go: rules *)

(** route_dnat_linux.go *)
Definition nftablesDNATStatusExpressions : list expr :=
  [Ct CtKeySTATUS 1 false; Bitwise 1 1 (native32 le conntrackStatusDNAT) (repeat 0 4); Cmp CmpOpEq 1 (native32 le conntrackStatusDNAT)].
Definition return_ : list expr := [Counter; Verdict VerdictReturn].
(** An anonymous constant set of keys. *)
Definition anonymous (interval : bool) : nft_set := mkSet 0 "" true interval [].
Definition udp_icmp : list SetElement := [mkElement [IPPROTO_UDP] false; mkElement [IPPROTO_ICMP] false; mkElement [IPPROTO_ICMPV6] false].

Definition exclude_output (r : autoRedirect) (ch : chain) : nft unit :=
  let o := tunOptions r in
  nwhen (bool_decide (ch_Type ch = ChainTypeRoute))
    (ipProto <~~ AddSet (anonymous false) udp_icmp ;;
     AddRule ch [Meta MetaKeyL4PROTO 1 false; Lookup 1 (s_ID ipProto) (s_Name ipProto) true; Verdict VerdictReturn]) ;;~
  AddRule ch ([Meta MetaKeyMARK 1 false; Cmp CmpOpEq 1 (native32 le (AutoRedirectOutputMark o))] ++ return_) ;;~
  nwhen (bool_decide (ch_Type ch = ChainTypeRoute))
    (AddRule ch ([Ct CtKeyMARK 1 false; Cmp CmpOpEq 1 (native32 le (AutoRedirectOutputMark o))] ++ return_)).

(** A list of names: a set when there are several, a comparison for one. *)
Definition ifname_rule (ch : chain) (names : list string) (exclude : bool) : nft unit :=
  match names with
  | [] => nret tt
  | [n] => AddRule ch ([Meta MetaKeyIIFNAME 1 false; Cmp (if exclude then CmpOpEq else CmpOpNeq) 1 (nftablesIfname n)] ++ return_)
  | _ =>
      s <~~ AddSet (anonymous false) (map (fun it => mkElement (nftablesIfname it) false) names) ;;
      AddRule ch ([Meta MetaKeyIIFNAME 1 false; Lookup 1 (s_ID s) (s_Name s) (negb exclude)] ++ return_)
  end.
Definition mac_rule (ch : chain) (macs : list (list Z)) (exclude : bool) : nft unit :=
  match macs with
  | [] => nret tt
  | [m] => AddRule ch ([Payload 1 PayloadBaseLLHeader 6 6; Cmp (if exclude then CmpOpEq else CmpOpNeq) 1 m] ++ return_)
  | _ =>
      s <~~ AddSet (anonymous false) (map (fun it => mkElement it false) macs) ;;
      AddRule ch ([Payload 1 PayloadBaseLLHeader 6 6; Lookup 1 (s_ID s) (s_Name s) (negb exclude)] ++ return_)
  end.
Definition exclude_prerouting (r : autoRedirect) (ch : chain) : nft unit :=
  let o := tunOptions r in
  AddRule ch ([Meta MetaKeyIIFNAME 1 false; Cmp CmpOpEq 1 (nftablesIfname (Name o))] ++ return_) ;;~
  ifname_rule ch (IncludeInterface o) false ;;~
  ifname_rule ch (ExcludeInterface o) true ;;~
  nwhen (negb (bool_decide (IncludeMACAddress o = [])))
    (AddRule ch ([Meta MetaKeyIIFTYPE 1 false; Cmp CmpOpNeq 1 (native16 le ARPHRD_ETHER)] ++ return_) ;;~
     mac_rule ch (IncludeMACAddress o) false) ;;~
  mac_rule ch (ExcludeMACAddress o) true.
(** The single included id is compared in network order, the excluded one in
    the order of the host. *)
Definition uid_elements (uids : list Range) : list SetElement :=
  flat_map (fun it => [mkElement (native32 le (r_Start it)) false; mkElement (native32 le (u32 (r_End it + 1))) true]) uids.
Definition uid_rule (ch : chain) (uids : list Range) (exclude : bool) : nft unit :=
  let with_set :=
    s <~~ AddSet (anonymous true) (uid_elements uids) ;;
    AddRule ch ([Meta MetaKeySKUID 1 false; Lookup 1 (s_ID s) (s_Name s) (negb exclude)] ++ return_) in
  match uids with
  | [] => nret tt
  | [it] =>
      if negb (r_Start it =? r_End it) then with_set
      else AddRule ch ([Meta MetaKeySKUID 1 false;
                        Cmp (if exclude then CmpOpEq else CmpOpNeq) 1 (if exclude then native32 le (r_Start it) else be32 (r_Start it))] ++ return_)
  | _ => with_set
  end.
Definition exclude_uids (r : autoRedirect) (ch : chain) : nft unit :=
  uid_rule ch (IncludeUID (tunOptions r)) false ;;~ uid_rule ch (ExcludeUID (tunOptions r)) true.

(** A rule for a list of destination prefixes. *)
Definition route_rule (ch : chain) (family : Z) (prefixes : list netip.Prefix) (invert : bool) : nft unit :=
  match prefixes with
  | [] => nret tt
  | _ =>
      s <~~ nftablesCreateIPSet 0 "" family [] prefixes false false ;;
      nftablesCreateExcludeDestinationIPSet ch (s_ID s) (s_Name s) family invert
  end.

Definition nftablesCreateDNSHijackRulesForFamily (r : autoRedirect) (ch : chain) (family : Z) (setID : Z) (setName : string) (destination : option DNSHijackRule) : nft unit :=
  let o := tunOptions r in
  let protocols := [mkElement [IPPROTO_TCP] false; mkElement [IPPROTO_UDP] false] in
  let protocols :=
    match destination with
    | Some d => if String.eqb (h_Network d) "tcp" then take 1 protocols else if String.eqb (h_Network d) "udp" then drop 1 protocols else protocols
    | None => protocols
    end in
  ipProto <~~ AddSet (anonymous false) protocols ;;
  match (if family =? TableFamilyIPv4 then Inet4DNSAddress o else Inet6DNSAddress o) with
  | inl e => nfail (NoDNSServer e)
  | inr [] => nret tt
  | inr (dnsServer :: _) =>
      let any := match destination with Some d => IsUnspecified (netip.ap_addr (h_Address d)) | None => true end in
      let source :=
        if bool_decide (ch_Hooknum ch = ChainHookOutput) then [Meta MetaKeyOIFNAME 1 false; Cmp CmpOpNeq 1 (nftablesIfname "lo")]
        else if any then
          [if family =? TableFamilyIPv4 then Payload 1 PayloadBaseNetworkHeader 12 4 else Payload 1 PayloadBaseNetworkHeader 8 16;
           Lookup 1 setID setName false]
        else [] in
      let port := match destination with Some d => netip.ap_port (h_Address d) | None => 53 end in
      let target :=
        match destination with
        | Some d =>
            if negb any then
              [FibDaddrType 1; Cmp CmpOpNeq 1 (native32 le RTN_LOCAL);
               Payload 1 PayloadBaseNetworkHeader (if family =? TableFamilyIPv6 then 24 else 16) (netip.BitLen (netip.ap_addr (h_Address d)) / 8);
               Cmp CmpOpEq 1 (netip.AsSlice (netip.ap_addr (h_Address d)))]
            else []
        | None => []
        end in
      let nat :=
        match destination with
        | Some _ => [Immediate 2 (be16 53); DestNAT family 1 (Some 2)]
        | None => [DestNAT family 1 None]
        end in
      AddRule ch
        ([Meta MetaKeyNFPROTO 1 false; Cmp CmpOpEq 1 [family]] ++ source ++ target ++
         [Meta MetaKeyL4PROTO 1 false; Lookup 1 (s_ID ipProto) (s_Name ipProto) false;
          Payload 1 PayloadBaseTransportHeader 2 2; Cmp CmpOpEq 1 (be16 port); Counter; Immediate 1 (netip.AsSlice dnsServer)] ++ nat)
  end.

(** ** redirect_nftables_dns_hijack.go *)

Definition nftablesCreateConfiguredDNSHijackRules (r : autoRedirect) (ch : chain) : nft unit :=
  nfor [TableFamilyIPv4; TableFamilyIPv6] (fun family =>
    if ((family =? TableFamilyIPv4) && negb (enableIPv4 r)) || ((family =? TableFamilyIPv6) && negb (enableIPv6 r)) then nret tt
    else
      let '(setID, setName) := if family =? TableFamilyIPv6 then (6, "inet6_local_address_set"%string) else (5, "inet4_local_address_set"%string) in
      match DNSHijack (tunOptions r) with
      | None => nftablesCreateDNSHijackRulesForFamily r ch family setID setName None
      | Some destinations =>
          nfor destinations (fun destination =>
            let address := netip.ap_addr (h_Address destination) in
            if negb (IsUnspecified address) && negb (Bool.eqb (netip.Is4 address) (family =? TableFamilyIPv4)) then nret tt
            else nftablesCreateDNSHijackRulesForFamily r ch family setID setName (Some destination))
      end).

(** ** redirect_nftables_rules.go: chains *)

Definition mptcp_rule (o : Options) : list expr :=
  [Meta MetaKeyL4PROTO 1 false; Cmp CmpOpEq 1 [IPPROTO_TCP]; ExthdrTcpopt 1 TCPOPT_MPTCP; Cmp CmpOpEq 1 [1]; Counter;
   Verdict (if ExcludeMPTCP o then VerdictReturn else VerdictDrop)].
Definition hijacks_dns (o : Options) (ch : chain) : bool :=
  String.eqb (DNSModeOrDefault os o) DNSModeHijack &&
  ((bool_decide (ch_Hooknum ch = ChainHookPrerouting) && bool_decide (ch_Type ch = ChainTypeNAT)) ||
   (AutoRedirectMarkMode o && bool_decide (ch_Hooknum ch = ChainHookOutput) && bool_decide (ch_Type ch = ChainTypeNAT))).
Definition exclude_destinations (r : autoRedirect) (ch : chain) : nft unit :=
  let o := tunOptions r in
  route_rule ch TableFamilyIPv4 (Inet4RouteAddress o) true ;;~
  route_rule ch TableFamilyIPv6 (Inet6RouteAddress o) true ;;~
  route_rule ch TableFamilyIPv4 (Inet4RouteExcludeAddress o) false ;;~
  route_rule ch TableFamilyIPv6 (Inet6RouteExcludeAddress o) false ;;~
  nwhen (hijacks_dns o ch) (nftablesCreateConfiguredDNSHijackRules r ch) ;;~
  nwhen (enableIPv4 r) (nftablesCreateExcludeDestinationIPSet ch 5 "inet4_local_address_set" TableFamilyIPv4 false) ;;~
  nwhen (enableIPv6 r) (nftablesCreateExcludeDestinationIPSet ch 6 "inet6_local_address_set" TableFamilyIPv6 false) ;;~
  nwhen (enableIPv4 r && negb (bool_decide (length (routeAddressSet r) = 0%nat))) (nftablesCreateExcludeDestinationIPSet ch 1 "inet4_route_address_set" TableFamilyIPv4 true) ;;~
  nwhen (enableIPv6 r && negb (bool_decide (length (routeAddressSet r) = 0%nat))) (nftablesCreateExcludeDestinationIPSet ch 2 "inet6_route_address_set" TableFamilyIPv6 true) ;;~
  nwhen (enableIPv4 r && negb (bool_decide (length (routeExcludeAddressSet r) = 0%nat))) (nftablesCreateExcludeDestinationIPSet ch 3 "inet4_route_exclude_address_set" TableFamilyIPv4 false) ;;~
  nwhen (enableIPv6 r && negb (bool_decide (length (routeExcludeAddressSet r) = 0%nat))) (nftablesCreateExcludeDestinationIPSet ch 4 "inet6_route_exclude_address_set" TableFamilyIPv6 false) ;;~
  AddRule ch (mptcp_rule o).
Definition nftablesCreateExcludeRules (r : autoRedirect) (ch : chain) : nft unit :=
  let o := tunOptions r in
  nwhen (AutoRoute o && bool_decide (ch_Hooknum ch = ChainHookPrerouting)) (AddRule ch (nftablesDNATStatusExpressions ++ return_)) ;;~
  nwhen (AutoRedirectMarkMode o && bool_decide (ch_Hooknum ch = ChainHookOutput)) (exclude_output r ch) ;;~
  (if bool_decide (ch_Hooknum ch = ChainHookPrerouting) then exclude_prerouting r ch else exclude_uids r ch) ;;~
  exclude_destinations r ch.

Definition set_mark : list expr := [Meta MetaKeyMARK 1 true].
Definition copy_mark : list expr := [Meta MetaKeyMARK 1 false; Ct CtKeyMARK 1 true].
Definition nftablesCreateMark (r : autoRedirect) (ch : chain) : nft unit :=
  AddRule ch ([Immediate 1 (native32 le (AutoRedirectInputMark (tunOptions r)))] ++ set_mark ++ copy_mark ++ return_).
Definition is_nfproto (family : Z) : list expr := [Meta MetaKeyNFPROTO 1 false; Cmp CmpOpEq 1 [family]].
Definition redirect_exprs (r : autoRedirect) : list expr :=
  [Meta MetaKeyL4PROTO 1 false; Cmp CmpOpEq 1 [IPPROTO_TCP]; Counter; Immediate 1 (be16 (redirectPort r)); Redir 1; Verdict VerdictReturn].
Definition nftablesCreateRedirect (r : autoRedirect) (ch : chain) (exprs : list expr) : nft unit :=
  let o := tunOptions r in
  let no_loopback := bool_decide (Inet4LoopbackAddress o = []) && bool_decide (Inet6LoopbackAddress o = []) in
  if no_loopback then
    let family :=
      if enableIPv4 r && negb (enableIPv6 r) then is_nfproto TableFamilyIPv4
      else if negb (enableIPv4 r) && enableIPv6 r then is_nfproto TableFamilyIPv6 else [] in
    AddRule ch (exprs ++ family ++ redirect_exprs r)
  else
    nwhen (enableIPv4 r)
      (AddRule ch (exprs ++ (match Inet4LoopbackAddress o with
                             | _ :: _ => nftablesCreateDestinationIPSetExprs 7 "inet4_local_redirect_address_set" TableFamilyIPv4 true
                             | [] => is_nfproto TableFamilyIPv4
                             end) ++ redirect_exprs r)) ;;~
    nwhen (enableIPv6 r)
      (AddRule ch (exprs ++ (match Inet6LoopbackAddress o with
                             | _ :: _ => nftablesCreateDestinationIPSetExprs 8 "inet6_local_redirect_address_set" TableFamilyIPv6 true
                             | [] => is_nfproto TableFamilyIPv6
                             end) ++ redirect_exprs r)).
Definition nftablesCreateLoopbackReroute (r : autoRedirect) (ch : chain) : nft unit :=
  let o := tunOptions r in
  let exprs := [Meta MetaKeyL4PROTO 1 false; Cmp CmpOpEq 1 [IPPROTO_TCP]; Meta MetaKeyMARK 1 false; Cmp CmpOpNeq 1 (native32 le (AutoRedirectInputMark o))] in
  let mark := [Immediate 1 (native32 le (AutoRedirectInputMark o))] ++ set_mark ++
              (if bool_decide (ch_Hooknum ch = ChainHookPrerouting) then [] else copy_mark) ++ [Counter] in
  nwhen (enableIPv4 r && negb (bool_decide (Inet4LoopbackAddress o = [])))
    (AddRule ch (exprs ++ nftablesCreateDestinationIPSetExprs 7 "inet4_local_redirect_address_set" TableFamilyIPv4 false ++ mark)) ;;~
  nwhen (enableIPv6 r && negb (bool_decide (Inet6LoopbackAddress o = [])))
    (AddRule ch (exprs ++ nftablesCreateDestinationIPSetExprs 8 "inet6_local_redirect_address_set" TableFamilyIPv6 false ++ mark)).
Definition nftablesCreateUnreachable (r : autoRedirect) (ch : chain) : nft unit :=
  if (enableIPv4 r && enableIPv6 r) || negb (StrictRoute (tunOptions r)) then nret tt
  else AddRule ch (is_nfproto (if enableIPv4 r then TableFamilyIPv6 else TableFamilyIPv4) ++ [Counter; Reject]).

(** ** redirect_nftables.go *)

Definition ChainPriorityMangle : Z := -150.
Definition ChainPriorityNATDest : Z := -100.
Definition chainOutput : chain := mkChain "output" ChainHookOutput ChainTypeNAT ChainPriorityMangle.
Definition chainOutputRoute : chain := mkChain "output_route" ChainHookOutput ChainTypeRoute ChainPriorityMangle.
Definition chainOutputUDP : chain := mkChain "output_udp_icmp" ChainHookOutput ChainTypeRoute ChainPriorityMangle.
Definition chainPreRouting : chain := mkChain "prerouting" ChainHookPrerouting ChainTypeNAT (ChainPriorityNATDest + 1).
Definition chainPreRoutingFilter : chain := mkChain "prerouting_filter" ChainHookPrerouting ChainTypeFilter (ChainPriorityNATDest + 1).
Definition chainPreRoutingUDP : chain := mkChain "prerouting_udp_icmp" ChainHookPrerouting ChainTypeFilter (ChainPriorityNATDest + 2).

(** The interfaces of the InterfaceFinder: name and addresses. *)
Definition local_prefixes (interfaces : list (string * list netip.Prefix)) : list netip.Prefix :=
  flat_map (fun it => List.filter (fun prefix => String.eqb (it.1) "lo" || netip.IsGlobalUnicast (netip.pf_addr prefix)) (it.2)) interfaces.
Definition has_loopback (o : Options) : bool := negb (bool_decide (Inet4LoopbackAddress o = [])) || negb (bool_decide (Inet6LoopbackAddress o = [])).
Definition skip_output (o : Options) : bool :=
  (negb (bool_decide (IncludeInterface o = [])) && negb (bool_decide ("lo"%string ∈ IncludeInterface o))) || bool_decide ("lo"%string ∈ ExcludeInterface o).

Definition setup_output (r : autoRedirect) : nft unit :=
  let o := tunOptions r in
  AddChain chainOutput ;;~
  if AutoRedirectMarkMode o then
    nftablesCreateExcludeRules r chainOutput ;;~ nftablesCreateUnreachable r chainOutput ;;~ nftablesCreateRedirect r chainOutput [] ;;~
    nwhen (has_loopback o) (AddChain chainOutputRoute ;;~ nftablesCreateLoopbackReroute r chainOutputRoute) ;;~
    AddChain chainOutputUDP ;;~ nftablesCreateExcludeRules r chainOutputUDP ;;~ nftablesCreateUnreachable r chainOutputUDP ;;~ nftablesCreateMark r chainOutputUDP
  else nftablesCreateRedirect r chainOutput [Meta MetaKeyOIFNAME 1 false; Cmp CmpOpEq 1 (nftablesIfname (Name o))].
Definition prerouting_udp_rules (o : Options) (ipProto : nft_set) : list (list expr) :=
  [[Meta MetaKeyL4PROTO 1 false; Lookup 1 (s_ID ipProto) (s_Name ipProto) true; Verdict VerdictReturn];
   [Meta MetaKeyIIFNAME 1 false; Cmp CmpOpEq 1 (nftablesIfname (Name o))] ++ return_;
   [Meta MetaKeyIIFNAME 1 false; Cmp CmpOpNeq 1 (nftablesIfname (Name o)); Ct CtKeyMARK 1 false; Cmp CmpOpEq 1 (native32 le (AutoRedirectInputMark o))] ++ set_mark ++ [Counter];
   [Ct CtKeyMARK 1 false; Cmp CmpOpNeq 1 (native32 le (AutoRedirectInputMark o)); Immediate 1 (native32 le (AutoRedirectOutputMark o))] ++ set_mark ++ copy_mark ++ [Counter]].
Definition setup_prerouting (r : autoRedirect) : nft unit :=
  let o := tunOptions r in
  AddChain chainPreRouting ;;~
  nftablesCreateExcludeRules r chainPreRouting ;;~ nftablesCreateUnreachable r chainPreRouting ;;~ nftablesCreateRedirect r chainPreRouting [] ;;~
  nwhen (AutoRedirectMarkMode o)
    (nftablesCreateMark r chainPreRouting ;;~
     nwhen (has_loopback o) (AddChain chainPreRoutingFilter ;;~ nftablesCreateLoopbackReroute r chainPreRoutingFilter) ;;~
     AddChain chainPreRoutingUDP ;;~
     ipProto <~~ AddSet (anonymous false) udp_icmp ;;
     nfor (prerouting_udp_rules o ipProto) (AddRule chainPreRoutingUDP)).
Definition with_local (r : autoRedirect) (l : list netip.Prefix) : autoRedirect :=
  mkRedirect (tunOptions r) (enableIPv4 r) (enableIPv6 r) (routeAddressSet r) (routeExcludeAddressSet r) (redirectPort r) l.
(** The chains and rules, once the sets are there; [openwrt] is the result of
    the OpenWRT integration. *)
Definition setup_chains (r : autoRedirect) (openwrt : bool) : nft unit :=
  nftablesCreateLocalAddressSets r (localAddresses r) [] ;;~
  nftablesCreateLoopbackAddressSets r ;;~
  nwhen (negb (skip_output (tunOptions r))) (setup_output r) ;;~
  setup_prerouting r ;;~
  (if openwrt then nret tt else nfail ConnError) ;;~
  Flush.
(** The interfaces, or the error of InterfaceFinder.Update.  The addresses are
    recorded before the sets are sent. *)
Definition setupNFTables (r : autoRedirect) (interfaces : option (list (string * list netip.Prefix))) (openwrt : bool) (c : conn) : conn * autoRedirect * (nft_error + unit) :=
  let '(c, err) := (attempt ;;~ nftablesCreateAddressSets r false) c in
  match err, interfaces with
  | inl e, _ => (c, r, inl e)
  | inr _, None => (c, r, inl InterfaceError)
  | inr _, Some interfaces =>
      let r := with_local r (local_prefixes interfaces) in
      let '(c, err) := setup_chains r openwrt c in (c, r, err)
  end.
(** The connection and the table may be missing; the new addresses are recorded
    before the batch is sent. *)
Definition nftablesUpdateLocalAddressSet (r : autoRedirect) (interfaces : list (string * list netip.Prefix)) (c : conn) : conn * autoRedirect * (nft_error + unit) :=
  let newLocalAddresses := local_prefixes interfaces in
  if bool_decide (newLocalAddresses = localAddresses r) then (c, r, inr tt)
  else
    let '(c, err) := (attempt ;;~ attempt ;;~ nftablesCreateLocalAddressSets r newLocalAddresses (localAddresses r)) c in
    match err with
    | inl e => (c, r, inl e)
    | inr _ => let '(c, err) := Flush c in (c, with_local r newLocalAddresses, err)
    end.
Definition nftablesUpdateRouteAddressSet (r : autoRedirect) : nft unit :=
  attempt ;;~ attempt ;;~ nftablesCreateAddressSets r true ;;~ Flush.
End Redirect.
