(* ===== verification/NftSpec.v ===== *)
(** * Chains of guards

    Most rules of auto-redirect are guards: they compare, and end the chain with
    a verdict when every comparison holds.  [emits] says of a piece of the
    connection's work that it appends to a chain rules that act as a list of
    guards, whatever else is sent; it composes along the sequence of calls. *)
From Stdlib Require Import String Ascii.
From S2P Require Import Prelude Bytes GoMem TsChecksum Netip TunOptions Netlink Nft.
#[local] Open Scope nft_scope.

Abbreviation guard := (bool * outcome)%type.
Fixpoint first_match (gs : list guard) : option outcome :=
  match gs with [] => None | (b, v) :: gs' => if b then Some v else first_match gs' end.
Lemma first_match_app a b : first_match (a ++ b) = match first_match a with Some v => Some v | None => first_match b end.
Proof. induction a as [|[c v] a IH]; [done|]. cbn. by destruct c. Qed.

(** The marks and the verdict; the registers are left out. *)
Definition view (r : machine * option outcome) : Z * Z * option outcome := (m_mark (r.1), m_ctmark (r.1), r.2).

Section Emits.
Context `{SetLookup} (le : bool) (p : packet).

(** The anonymous sets made by a computation, with fresh identifiers. *)
Fixpoint fresh (lo hi : Z) (ss : list nft_set) : Prop :=
  match ss with
  | [] => lo <= hi
  | s :: ss' => s_Anonymous s = true /\ s_Name s = "__set%d"%string /\ lo < s_ID s /\ fresh (s_ID s) hi ss'
  end.
Definition found (sets : list nft_set) (ss : list nft_set) : Prop := Forall (fun s => find_set sets (s_ID s) (s_Name s) = Some s) ss.
Lemma fresh_le lo hi ss : fresh lo hi ss -> lo <= hi.
Proof. revert lo. induction ss as [|s ss IH]; intros lo; cbn; [done|]. intros (_ & _ & ? & ?%IH). lia. Qed.
Lemma fresh_app lo mid hi a b : fresh lo mid a -> fresh mid hi b -> fresh lo hi (a ++ b).
Proof.
  revert lo. induction a as [|s a IH]; intros lo; cbn.
  - intros Hl. destruct b as [|t b]; cbn; [lia|]. intros (? & ? & ? & ?). split_and!; try done. lia.
  - intros (? & ? & ? & Ha) Hb. split_and!; try done. by apply IH.
Qed.

(** After a success: new sets, new rules of the chain, nothing else. *)
Definition grows (ch : chain) (c c' : conn) (ss : list nft_set) (rs : list (list expr)) : Prop :=
  c_sets c' = c_sets c ++ ss /\ fresh (c_allocSetID c) (c_allocSetID c') ss /\
  c_rules c' = c_rules c ++ map (pair (ch_Name ch)) rs /\ c_chains c' = c_chains c.
Definition acts_as (sets : list nft_set) (rs : list (list expr)) (G : Z -> Z -> list guard) : Prop :=
  forall m, view (run_chain le sets p m rs) = (m_mark m, m_ctmark m, first_match (G (m_mark m) (m_ctmark m))).
Definition emits (x : nft unit) (ch : chain) (G : list nft_set -> Z -> Z -> list guard) : Prop :=
  forall c c', x c = (c', inr tt) -> exists ss rs, grows ch c c' ss rs /\ forall sets, found sets ss -> acts_as sets rs (G sets).

Lemma run_chain_app sets m a b : run_chain le sets p m (a ++ b) =
  let '(m', v) := run_chain le sets p m a in match v with Some v => (m', Some v) | None => run_chain le sets p m' b end.
Proof. revert m. induction a as [|r a IH]; intros m; cbn; [done|]. destruct (exec le sets p m r) as [m' [v|]]; [done|]. apply IH. Qed.
Lemma acts_as_app sets a b G G' : acts_as sets a G -> acts_as sets b G' -> acts_as sets (a ++ b) (fun x y => G x y ++ G' x y).
Proof.
  intros Ha Hb m. rewrite run_chain_app, first_match_app. specialize (Ha m). unfold view in *. destruct (run_chain le sets p m a) as [m' v]. cbn in Ha.
  injection Ha as H1 H2 H3. rewrite <- H3. destruct v as [v|]; cbn; [by rewrite H1, H2|]. rewrite <- H1, <- H2. apply Hb.
Qed.
Lemma emits_nret ch : emits (nret tt) ch (fun _ _ _ => []).
Proof.
  intros c c' [= <-]. exists [], []. split; [|by intros sets _ m]. repeat split; [by rewrite app_nil_r|cbn; lia|by rewrite app_nil_r].
Qed.
Lemma emits_seq x y ch G G' : emits x ch G -> emits y ch G' -> emits (x ;;~ y) ch (fun s a b => G s a b ++ G' s a b).
Proof.
  intros Hx Hy c c'. unfold nbind. destruct (x c) as [c1 [e|[]]] eqn:Ex; [done|]. intros Ey.
  destruct (Hx c c1 Ex) as (ss1 & rs1 & (S1 & F1 & R1 & C1) & A1). destruct (Hy c1 c' Ey) as (ss2 & rs2 & (S2 & F2 & R2 & C2) & A2).
  exists (ss1 ++ ss2), (rs1 ++ rs2). split.
  - repeat split; [by rewrite S2, S1, app_assoc|by eapply fresh_app|by rewrite R2, R1, map_app, app_assoc|by rewrite C2].
  - intros sets [Hf1 Hf2]%Forall_app. apply acts_as_app; auto.
Qed.
Lemma emits_when (b : bool) x ch G : emits x ch G -> emits (nwhen b x) ch (fun s m k => if b then G s m k else []).
Proof. intros Hx. destruct b; [exact Hx|apply emits_nret]. Qed.
Lemma emits_if (b : bool) x y ch G G' : emits x ch G -> emits y ch G' -> emits (if b then x else y) ch (fun s m k => if b then G s m k else G' s m k).
Proof. intros Hx Hy. by destruct b. Qed.
Lemma emits_ext x ch (G G' : list nft_set -> Z -> Z -> list guard) : emits x ch G -> (forall s m k, first_match (G s m k) = first_match (G' s m k)) -> emits x ch G'.
Proof. intros Hx HE c c' E. destruct (Hx c c' E) as (ss & rs & Hg & Ha). exists ss, rs. split; [done|]. intros sets Hf m. by rewrite <- HE, Ha. Qed.
Lemma emits_for {A} (l : list A) f ch G : (forall x, x ∈ l -> emits (f x) ch (G x)) -> emits (nfor l f) ch (fun s m k => flat_map (fun x => G x s m k) l).
Proof.
  induction l as [|x l IH]; intros Hf; [apply emits_nret|]. cbn [nfor flat_map]. apply (emits_seq _ _ ch (G x) (fun s m k => flat_map (fun x => G x s m k) l)); [apply Hf; left|].
  apply IH. intros y Hy. apply Hf. by right.
Qed.
Definition one_rule (sets : list nft_set) (es : list expr) (G : Z -> Z -> list guard) : Prop :=
  forall m, view (exec le sets p m es) = (m_mark m, m_ctmark m, first_match (G (m_mark m) (m_ctmark m))).
Lemma acts_as_one sets es G : one_rule sets es G -> acts_as sets [es] G.
Proof. intros Ho m. rewrite <- Ho. cbn [run_chain]. destruct (exec le sets p m es) as [m' [v|]]; done. Qed.
Lemma emits_rule ch es G : (forall sets, one_rule sets es (G sets)) -> emits (AddRule ch es) ch G.
Proof.
  intros Ho c c' [= <-]. exists [], [es]. split; [|intros sets _; by apply acts_as_one]. repeat split; [by rewrite app_nil_r|cbn; lia].
Qed.
(** A set of its own for one rule. *)
Lemma emits_set_rule ch s els (k : nft_set -> list expr) G : s_ID s = 0 -> s_Anonymous s = true ->
  (forall sets s', find_set sets (s_ID s') (s_Name s') = Some s' -> s_Elements s' = els -> s_Interval s' = s_Interval s -> one_rule sets (k s') (G sets)) ->
  emits (s' <~~ AddSet s els ;; AddRule ch (k s')) ch G.
Proof.
  intros Hid Han Hk c c'. unfold AddSet, AddRule, nbind, attempt. rewrite Hid, Han. cbn [Z.eqb andb].
  assert (forall c1, c_sets c1 = c_sets c -> c_chains c1 = c_chains c -> c_rules c1 = c_rules c -> c_allocSetID c1 = c_allocSetID c ->
    let s' := mkSet (c_allocSetID c1 + 1) "__set%d" true (s_Interval s) els in
    grows ch c (mkConn (c_sets c1 ++ [s']) (c_chains c1) (c_rules c1 ++ [(ch_Name ch, k s')]) (c_allocSetID c1 + 1) (c_fail c1)) [s'] [k s'] /\
    forall sets, found sets [s'] -> acts_as sets [k s'] (G sets)) as HG.
  { intros c1 H1 H2 H3 H4 s'. split.
    - repeat split; cbn; rewrite ?H1, ?H2, ?H3, ?H4; try done; lia.
    - intros sets Hf. apply Forall_cons in Hf as [Hf _]. apply acts_as_one. by apply Hk. }
  destruct (c_fail c) as [|[] fs]; cbn; intros [= <-]; [specialize (HG c)|specialize (HG (mkConn (c_sets c) (c_chains c) (c_rules c) (c_allocSetID c) fs))];
    specialize (HG eq_refl eq_refl eq_refl eq_refl); cbn in HG; eauto.
Qed.

(** A set without a rule, and a computation that always fails. *)
Lemma emits_set_only ch s els : s_ID s = 0 -> s_Anonymous s = true -> emits (_ <~~ AddSet s els ;; nret tt) ch (fun _ _ _ => []).
Proof.
  intros Hid Han c c'. unfold AddSet, nbind, attempt, nret. rewrite Hid, Han. cbn [Z.eqb andb].
  destruct (c_fail c) as [|[] fs]; cbn; intros [= <-]; (exists [mkSet (c_allocSetID c + 1) "__set%d" true (s_Interval s) els], [];
    split; [repeat split; cbn; rewrite ?app_nil_r; try done; lia|by intros sets _ m]).
Qed.
Lemma emits_never (x : nft unit) ch G : (forall c c', x c <> (c', inr tt)) -> emits x ch G.
Proof. intros Hx c c' E. by apply Hx in E. Qed.

(** ** Conditions in front of a rule *)

(** The expressions let the rule go on when the condition holds and end it
    otherwise; the marks stay. *)
Definition same_marks (m m' : machine) : Prop := m_mark m' = m_mark m /\ m_ctmark m' = m_ctmark m.
Definition checks (sets : list nft_set) (pre : list expr) (b : bool) : Prop :=
  forall m rest, if b then exists m', same_marks m m' /\ exec le sets p m (pre ++ rest) = exec le sets p m' rest
                 else view (exec le sets p m (pre ++ rest)) = (m_mark m, m_ctmark m, None).
Lemma checks_nil sets : checks sets [] true.
Proof. intros m rest. by exists m. Qed.
Lemma checks_app sets a b ca cb : checks sets a ca -> (ca = true -> checks sets b cb) -> checks sets (a ++ b) (ca && cb).
Proof.
  intros Ha Hb m rest. rewrite <- app_assoc. specialize (Ha m (b ++ rest)). destruct ca; cbn [andb]; [|done]. destruct Ha as (m1 & [M1 C1] & ->).
  specialize (Hb eq_refl m1 rest). destruct cb; [|by rewrite Hb, M1, C1]. destruct Hb as (m2 & [M2 C2] & E2). exists m2. split; [split; congruence|done].
Qed.
(** A verdict that the rest of the rule gives in any state. *)
Definition ends (sets : list nft_set) (tail : list expr) (v : outcome) : Prop :=
  forall m, view (exec le sets p m tail) = (m_mark m, m_ctmark m, Some v).
Lemma checked_rule sets pre tail b v : checks sets pre b -> (b = true -> ends sets tail v) -> one_rule sets (pre ++ tail) (fun _ _ => [(b, v)]).
Proof.
  intros Hc He m. specialize (Hc m tail). destruct b; [|done]. destruct Hc as (m' & [Hm Hk] & ->). rewrite He by done. by rewrite Hm, Hk.
Qed.
End Emits.

(** ** The sets of a connection are found *)

(** The sets of a finished connection: named ones with different names, then
    anonymous ones numbered upwards. *)
Lemma find_anonymous lo hi ss s : fresh lo hi ss -> s ∈ ss -> find_set ss (s_ID s) (s_Name s) = Some s.
Proof.
  revert lo. induction ss as [|t ss IH]; intros lo; [by intros _ ?%elem_of_nil|]. intros (Ha & Hn & Hlt & Hf) Hin. unfold find_set. cbn [find]. rewrite Ha.
  assert (s_Name s = "__set%d"%string) as Hns.
  { clear IH. revert Hin. assert (Forall (fun x => s_Name x = "__set%d"%string) (t :: ss)) as HF.
    { constructor; [done|]. clear -Hf. revert Hf. generalize (s_ID t). induction ss as [|u ss IH]; intros z; [constructor|]. intros (? & ? & ? & ?). constructor; eauto. }
    intros Hin. by eapply Forall_forall in HF. }
  rewrite Hns. cbn. apply elem_of_cons in Hin as [->|Hin]; [by rewrite Z.eqb_refl|].
  assert (s_ID t < s_ID s) as Hid.
  { clear -Hf Hin. revert Hf. generalize (s_ID t). induction ss as [|u ss IH]; intros z; [by apply elem_of_nil in Hin|]. intros (? & ? & ? & Hf).
    apply elem_of_cons in Hin as [->|Hin]; [done|]. specialize (IH Hin _ Hf). lia. }
  replace (s_ID t =? s_ID s) with false by lia. specialize (IH _ Hf Hin). unfold find_set in IH. rewrite Hns in IH. exact IH.
Qed.
Definition named (s : nft_set) : Prop := s_Anonymous s = false /\ s_Name s <> "__set%d"%string.
Lemma find_set_app_named ns ss id : Forall named ns -> find_set (ns ++ ss) id "__set%d" = find_set ss id "__set%d".
Proof.
  intros Hn. unfold find_set. induction Hn as [|n ns [Ha Hne] Hns IH]; [done|]. cbn. rewrite Ha.
  by rewrite (proj2 (String.eqb_neq (s_Name n) "__set%d")).
Qed.
Lemma found_final ns ss sub lo hi : Forall named ns -> fresh lo hi ss -> sub ⊆ ss -> found (ns ++ ss) sub.
Proof.
  intros Hn Hf Hs. apply Forall_forall. intros s Hin. apply Hs in Hin. pose proof (find_anonymous lo hi ss s Hf Hin) as HF.
  assert (s_Name s = "__set%d"%string) as E.
  { clear -Hf Hin. revert lo Hf. induction ss as [|u ss IH]; intros lo; [by apply elem_of_nil in Hin|]. intros (? & ? & ? & Hf). apply elem_of_cons in Hin as [->|Hin]; eauto. }
  rewrite E in *. by rewrite find_set_app_named.
Qed.
