(* ===== verification/RedirectSets.v ===== *)
(** * The sets of auto-redirect

    A set built by nftablesCreateIPSet holds exactly the addresses of its
    prefixes and address sets, up to and including the last address of the
    family; sending the elements a thousand at a time loses none.  The bytes
    that are compared stand for the names, marks and addresses meant. *)
From Stdlib Require Import String Ascii.
From S2P Require Import Prelude Bytes GoMem TsChecksum Netip TunOptions TunRules TunRulesSpec RouteMark Netlink Nft NftSpec RedirectNft.
#[local] Open Scope nft_scope.

(** ** Names *)

Definition name_ok (s : string) : Prop := (String.length s <= 15)%nat /\ Forall (fun c => Z.of_N (N_of_ascii c) <> 0) (list_ascii_of_string s).
Lemma string_bytes_length s : length (string_bytes s) = String.length s.
Proof. unfold string_bytes, to_bytes. rewrite length_map. induction s as [|c s IH]; [done|]. cbn. by rewrite IH. Qed.
Lemma take_repeat n m (x : Z) : (n <= m)%nat -> take n (repeat x m) = repeat x n.
Proof. revert m. induction n as [|n IH]; intros [|m] Hm; cbn; [done|done|lia|]. f_equal. apply IH. lia. Qed.
Lemma ifname16_ok s : name_ok s -> ifname16 s = string_bytes s ++ repeat 0 (16 - String.length s) /\ nftablesIfname s = ifname16 s.
Proof.
  intros [Hl _]. pose proof (string_bytes_length s) as HL. assert (ifname16 s = string_bytes s ++ repeat 0 (16 - String.length s)) as E.
  { unfold ifname16. rewrite take_app, HL, take_ge by lia. f_equal. apply take_repeat. lia. }
  split; [done|]. rewrite E. unfold nftablesIfname. rewrite take_ge by (rewrite length_app, HL; cbn; lia). rewrite length_app, HL, <- app_assoc. f_equal. cbn [length app].
  replace (16 - String.length s)%nat with (S (16 - (String.length s + 1))) by lia. done.
Qed.
Lemma string_bytes_inj a b : string_bytes a = string_bytes b -> a = b.
Proof.
  unfold string_bytes, to_bytes. intros E. rewrite <- (string_of_list_ascii_of_string a), <- (string_of_list_ascii_of_string b). f_equal.
  revert E. generalize (list_ascii_of_string a), (list_ascii_of_string b). intros l. induction l as [|x l IH]; intros [|y l']; cbn; try done. intros [= E1 E2]. f_equal; [|by apply IH].
  rewrite <- (ascii_N_embedding x), <- (ascii_N_embedding y). f_equal. lia.
Qed.
Lemma ifname_eq a b : name_ok a -> name_ok b -> bool_decide (ifname16 a = nftablesIfname b) = String.eqb b a.
Proof.
  intros Ha Hb. destruct (ifname16_ok a Ha) as [Ea _]. destruct (ifname16_ok b Hb) as [Eb ->]. rewrite Ea, Eb.
  destruct (String.eqb_spec b a) as [->|Hne]; [by apply bool_decide_eq_true|]. apply bool_decide_eq_false. intros E. apply Hne. apply string_bytes_inj. symmetry.
  destruct Ha as [_ Ha], Hb as [_ Hb]. revert E. assert (forall s, Forall (fun c => Z.of_N (N_of_ascii c) <> 0) (list_ascii_of_string s) -> Forall (fun x => x <> 0) (string_bytes s)) as HZ.
  { intros s Hs. unfold string_bytes, to_bytes. by apply Forall_map. }
  apply HZ in Ha. apply HZ in Hb. revert Ha Hb. generalize (string_bytes a), (string_bytes b). generalize (16 - String.length a)%nat, (16 - String.length b)%nat. clear. intros n k l.
  induction l as [|x l IH]; intros [|y l'] Ha Hb E; cbn in E; [done| | |].
  - inversion Hb; subst. destruct n; cbn in E; [done|]. injection E as E _. congruence.
  - inversion Ha; subst. destruct k; cbn in E; [done|]. injection E as E _. congruence.
  - injection E as -> E. inversion Ha; inversion Hb; subst. f_equal. by apply IH.
Qed.
Lemma ifname_in a names : name_ok a -> Forall name_ok names -> bool_decide (ifname16 a ∈ map (fun n => nftablesIfname n) names) = existsb (fun n => String.eqb n a) names.
Proof.
  intros Ha. induction 1 as [|n names Hn Hns IH]; [done|]. cbn [map existsb]. rewrite <- IH, <- (ifname_eq a n) by done.
  destruct (bool_decide_reflect (ifname16 a = nftablesIfname n)) as [E|E]; cbn [orb].
  - apply bool_decide_eq_true. rewrite E. left.
  - apply bool_decide_ext. rewrite elem_of_cons. tauto.
Qed.
Lemma ifname_length n : length (nftablesIfname n) = 16%nat.
Proof. unfold nftablesIfname. cbv zeta. rewrite length_app, length_take, repeat_length. lia. Qed.
Lemma ifname16_length n : length (ifname16 n) = 16%nat.
Proof. unfold ifname16. rewrite length_take, length_app, repeat_length. lia. Qed.
Lemma bytes_zeros n : bytes (repeat 0 n).
Proof. induction n; constructor; [lia|done]. Qed.
Lemma bytes_string s : bytes (string_bytes s).
Proof.
  unfold string_bytes, to_bytes. apply Forall_map, Forall_forall. intros c _. cbn. pose proof (N_ascii_bounded c). lia.
Qed.
Lemma bytes_take n l : bytes l -> bytes (take n l).
Proof. apply Forall_take. Qed.
Lemma ifname_bytes n : bytes (nftablesIfname n).
Proof. unfold nftablesIfname. apply Forall_app. split; [apply bytes_take, Forall_app; split; [apply bytes_string|repeat constructor; lia]|apply bytes_zeros]. Qed.

(** ** Words of the host *)

Lemma be_bytes_inj n a b : 0 <= a < 256 ^ Z.of_nat n -> 0 <= b < 256 ^ Z.of_nat n -> netip.be_bytes n a = netip.be_bytes n b -> a = b.
Proof. intros Ha Hb E. rewrite <- (netip.be_val_be_bytes n a), <- (netip.be_val_be_bytes n b) by done. by rewrite E. Qed.
Lemma native32_eq le a b : is_u32 a -> is_u32 b -> bool_decide (native32 le a = native32 le b) = (a =? b).
Proof.
  intros Ha Hb. destruct (Z.eqb_spec a b) as [->|Hne]; [by apply bool_decide_eq_true|]. apply bool_decide_eq_false. intros E. apply Hne.
  apply (be_bytes_inj 4); [done|done|]. unfold native32, be32 in E. destruct le; [|done]. apply (f_equal (@rev Z)) in E. by rewrite !rev_involutive in E.
Qed.
Lemma native16_eq le a b : is_u16 a -> is_u16 b -> bool_decide (native16 le a = native16 le b) = (a =? b).
Proof.
  intros Ha Hb. destruct (Z.eqb_spec a b) as [->|Hne]; [by apply bool_decide_eq_true|]. apply bool_decide_eq_false. intros E. apply Hne.
  apply (be_bytes_inj 2); [done|done|]. unfold native16, be16 in E. destruct le; [|done]. apply (f_equal (@rev Z)) in E. by rewrite !rev_involutive in E.
Qed.
Lemma of_native_native32 le a : is_u32 a -> of_native le (native32 le a) = a.
Proof. intros Ha. unfold of_native, native32, be32. destruct le; rewrite ?rev_involutive; by apply netip.be_val_be_bytes. Qed.
Lemma be_bytes_bitwise n a m k : bitwise (netip.be_bytes n a) (netip.be_bytes n m) (netip.be_bytes n k) = netip.be_bytes n (Z.lxor (Z.land a m) k).
Proof.
  revert a m k. induction n as [|n IH]; intros a m k; [done|]. cbn [netip.be_bytes]. unfold bitwise in *.
  rewrite !zip_with_app by (rewrite ?length_zip_with, !netip.length_be_bytes; lia). cbn [zip_with]. rewrite IH. f_equal.
  - f_equal. change 256 with (2 ^ 8). rewrite <- !Z.shiftr_div_pow2, <- Z.shiftr_land, <- Z.shiftr_lxor by lia. done.
  - f_equal. change 256 with (2 ^ 8). rewrite <- !Z.land_ones by lia. apply Z.bits_inj'. intros i Hi.
    rewrite !Z.land_spec, !Z.lxor_spec, !Z.land_spec. by destruct (Z.testbit a i), (Z.testbit m i), (Z.testbit k i), (Z.testbit (Z.ones 8) i).
Qed.
Lemma zip_with_rev {A B C} (f : A -> B -> C) l l' : length l = length l' -> zip_with f (rev l) (rev l') = rev (zip_with f l l').
Proof.
  revert l'. induction l as [|x l IH]; intros [|y l'] Hl; try done. cbn [rev zip_with]. injection Hl as Hl.
  rewrite zip_with_app by by rewrite !length_rev. by rewrite IH.
Qed.
Lemma native32_bitwise le a m k : bitwise (native32 le a) (native32 le m) (native32 le k) = native32 le (Z.lxor (Z.land a m) k).
Proof.
  unfold native32, be32. destruct le; [|apply be_bytes_bitwise]. rewrite <- be_bytes_bitwise. unfold bitwise.
  rewrite !zip_with_rev; [done| |]; by rewrite ?length_zip_with, ?length_rev, !netip.length_be_bytes.
Qed.
Lemma native32_zero le : repeat 0 4 = native32 le 0.
Proof. by destruct le. Qed.

(** ** Intervals of addresses *)

Section Intervals.
Context `{SetLookup} `{IPRangesPackage}.

Definition elements_of (rs : list (netip.Addr * netip.Addr)) : list SetElement :=
  flat_map (fun rr => mkElement (netip.AsSlice (rr.1)) false :: (if netip.IsValid (netip.Next (rr.2)) then [mkElement (netip.AsSlice (netip.Next (rr.2))) true] else [])) rs.
Definition range_valid (n : Z) (r : netip.Addr * netip.Addr) : Prop := valid_addr (r.1) /\ valid_addr (r.2) /\ netip.BitLen (r.1) = n /\ netip.BitLen (r.2) = n.
Lemma Next_end b : valid_addr b -> netip.IsValid (netip.Next b) = false -> netip.val b + 1 = 2 ^ netip.BitLen b.
Proof.
  intros [Hw Hv]. destruct b as [|l|l]; [done| |]; destruct Hw as [Hb Hl]; cbn [netip.Next]; unfold netip.val, netip.BitLen, Zlen; cbn [netip.AsSlice]; rewrite Hl.
  - destruct (Z.eqb_spec (be_val l + 1) (2 ^ 32)) as [E|E]; [intros _; exact E|done].
  - destruct (Z.eqb_spec (be_val l + 1) (2 ^ 128)) as [E|E]; [intros _; exact E|done].
Qed.
Lemma elements_increasing n rs last : Forall (range_valid n) rs -> ranges_sorted last rs -> increasing last (elements_of rs).
Proof.
  intros Hv. revert last. induction Hv as [|[a b] rs (Ha & Hb & Hn & Hn') Hrs IH]; intros last; [done|]. cbn [ranges_sorted elements_of flat_map fst snd app].
  intros (H1 & H2 & H3). destruct (netip.IsValid (netip.Next b)) eqn:EN.
  - cbn [app increasing Key]. fold (elements_of rs). destruct Hb as [Hwb Hvb]. destruct (netip.val_Next b Hwb EN) as [EV _]. unfold netip.val in *. rewrite EV. split_and!; [done|lia|].
    apply IH. exact H3.
  - destruct rs as [|[a' b'] rs]; [by cbn|]. exfalso. cbn in H3. inversion Hrs as [|? ? Hr Hr']; subst. destruct Hr as (Ha' & _ & Hn2 & _). cbn in Ha', Hn2.
    pose proof (Next_end b Hb EN) as HE. destruct Ha' as [Hwa _]. pose proof (naive.valid_range a' Hwa) as HR. rewrite Hn2 in HR. cbn in Hn'. rewrite Hn' in HE. lia.
Qed.
Lemma elements_member n rs last ip : Forall (range_valid n) rs -> ranges_sorted last rs -> valid_addr ip -> netip.BitLen ip = n ->
  in_intervals (elements_of rs) (netip.val ip) = existsb (in_ip_range ip) rs.
Proof.
  intros Hv Hs [Hwi Hvi] Hn. revert last Hs. induction Hv as [|[a b] rs (Ha & Hb & Hna & Hnb) Hrs IH]; intros last; [done|]. cbn [ranges_sorted elements_of flat_map fst snd app].
  intros (H1 & H2 & H3). cbn [existsb]. rewrite <- (IH (netip.val b + 1) H3). unfold in_ip_range. cbn [fst snd] in *. rewrite Hvi, Hna, Hn, Z.eqb_refl. cbn [andb].
  destruct (netip.IsValid (netip.Next b)) eqn:EN.
  - fold (elements_of rs). cbn [app in_intervals IntervalEnd Key]. destruct Hb as [Hwb Hvb]. destruct (netip.val_Next b Hwb EN) as [EV _].
    unfold netip.val in EV at 1. rewrite EV. f_equal. fold (netip.val a). f_equal. destruct (Z.leb_spec (netip.val ip) (netip.val b)); lia.
  - assert (rs = []) as ->.
    { destruct rs as [|[a' b'] rs]; [done|]. exfalso. cbn in H3. inversion Hrs as [|? ? Hr Hr']; subst. destruct Hr as (Ha' & _ & Hn2 & _). cbn in Ha', Hn2.
      pose proof (Next_end b Hb EN) as HE. destruct Ha' as [Hwa _]. pose proof (naive.valid_range a' Hwa) as HR. rewrite Hn2 in HR. rewrite Hnb in HE. lia. }
    cbn [flat_map app in_intervals IntervalEnd Key]. rewrite orb_false_r. fold (netip.val a). pose proof (Next_end b Hb EN) as HE. pose proof (naive.valid_range ip Hwi) as HR.
    rewrite Hnb in HE. rewrite Hn in HR. replace (netip.val ip <=? netip.val b) with true by lia. by rewrite andb_true_r.
Qed.
Lemma elements_keys n rs : Forall (range_valid (8 * Z.of_nat n)) rs -> keys_of_length n (elements_of rs).
Proof.
  assert (forall a, valid_addr a -> netip.BitLen a = 8 * Z.of_nat n -> length (netip.AsSlice a) = n /\ bytes (netip.AsSlice a)) as HA.
  { intros a [Hw Hv] HB. unfold netip.BitLen, Zlen in HB. split; [lia|]. destruct a; [done|by destruct Hw|by destruct Hw]. }
  induction 1 as [|[a b] rs (Ha & Hb & Hna & Hnb) Hrs IH]; [constructor|]. cbn [elements_of flat_map fst snd]. apply Forall_app. split; [|exact IH]. constructor; [by apply HA|].
  destruct (netip.IsValid (netip.Next b)) eqn:EN; [|constructor]. constructor; [|constructor]. cbn [Key fst snd] in *. destruct Hb as [Hwb Hvb]. destruct (netip.val_Next b Hwb EN) as [_ EB].
  apply HA; [|by rewrite EB]. split; [by apply netip.wf_Next|done].
Qed.

(** The family of a set and of an address. *)
Definition family_bits (family : Z) : nat := if family =? TableFamilyIPv4 then 4%nat else 16%nat.
Definition of_family_addr (family : Z) (a : netip.Addr) : Prop := valid_addr a /\ netip.Is4 a = (family =? TableFamilyIPv4).
Lemma family_BitLen family a : of_family_addr family a -> netip.BitLen a = 8 * Z.of_nat (family_bits family).
Proof.
  intros [[Hw Hv] Hf]. unfold family_bits, netip.BitLen, Zlen. destruct a as [|b|b]; [done| |]; destruct Hw as [_ Hl]; cbn in *; rewrite <- Hf; cbn; lia.
Qed.
Lemma ipset_elements_of family rs : Forall (fun r => valid_addr (r.1) /\ valid_addr (r.2) /\ netip.BitLen (r.1) = netip.BitLen (r.2)) rs ->
  flat_map (range_elements family) rs = elements_of (of_len (8 * Z.of_nat (family_bits family)) rs) /\
  Forall (range_valid (8 * Z.of_nat (family_bits family))) (of_len (8 * Z.of_nat (family_bits family)) rs).
Proof.
  induction 1 as [|[a b] rs (Ha & Hb & Hab) Hrs [IH1 IH2]]; [by split; [|constructor]|]. cbn [flat_map]. unfold of_len in *. cbn [List.filter fst snd] in *.
  assert ((netip.BitLen a =? 8 * Z.of_nat (family_bits family)) = Bool.eqb (family =? TableFamilyIPv4) (netip.Is4 a)) as ->.
  { destruct Ha as [Hw Hv]. unfold family_bits, netip.BitLen, Zlen. destruct a as [|l|l]; [done| |]; destruct Hw as [_ Hl]; cbn [netip.AsSlice netip.Is4]; rewrite Hl; by destruct (family =? TableFamilyIPv4). }
  unfold range_elements at 1. cbn [fst snd]. destruct (Bool.eqb (family =? TableFamilyIPv4) (netip.Is4 a)) eqn:EF; cbn [negb]; [|by split].
  assert (netip.BitLen a = 8 * Z.of_nat (family_bits family)) as HB.
  { apply family_BitLen. split; [done|]. apply eqb_prop in EF. done. }
  split; [rewrite IH1; reflexivity|]. constructor; [|done]. split_and!; cbn; try done. by rewrite <- Hab.
Qed.
(** Membership in a set built from prefixes and address sets. *)
Lemma ipset_member family ps ss rs s ip : Forall valid_prefix ps -> BuildRanges ps ss = inr rs ->
  s_Interval s = true -> s_Elements s = flat_map (range_elements family) rs -> of_family_addr family ip ->
  set_has s (netip.AsSlice ip) = covered ps ip || existsb (fun x => set_covers x ip) ss.
Proof.
  intros Hps ER Hi He Hip. destruct (BuildRanges_ok ps ss Hps) as (rs' & ER' & Hv & Hsort & Hcov). rewrite ER in ER'. injection ER' as <-.
  destruct (ipset_elements_of family rs Hv) as [EE EV]. pose proof (family_BitLen family ip Hip) as HB. destruct Hip as [Hip Hf].
  rewrite <- Hcov by done. rewrite EE in He. set (rs4 := of_len (8 * Z.of_nat (family_bits family)) rs) in *.
  assert (length (netip.AsSlice ip) = family_bits family /\ bytes (netip.AsSlice ip)) as [HL HY].
  { unfold netip.BitLen, Zlen in HB. split; [lia|]. destruct Hip as [Hw Hvi]. destruct ip; [done|by destruct Hw|by destruct Hw]. }
  rewrite set_has_intervals; [|done|done|rewrite He, HL; by apply elements_keys|rewrite He; eapply elements_increasing; [exact EV|apply Hsort]].
  rewrite He. fold (netip.val ip). rewrite (elements_member (8 * Z.of_nat (family_bits family)) rs4 (-1)); [|done|apply Hsort|done|done].
  unfold rs4, of_len. clear -HB. induction rs as [|[a b] rs IH]; [done|]. cbn [List.filter fst snd existsb]. destruct (Z.eqb_spec (netip.BitLen a) (8 * Z.of_nat (family_bits family))) as [E|E]; cbn [existsb]; rewrite IH; [done|].
  unfold in_ip_range at 2. cbn [fst snd]. rewrite HB. replace (netip.BitLen a =? 8 * Z.of_nat (family_bits family)) with false by lia. by rewrite andb_false_r.
Qed.
End Intervals.

(** ** Sending sets *)

Definition same_but_fail (c c' : conn) : Prop :=
  c_sets c' = c_sets c /\ c_chains c' = c_chains c /\ c_rules c' = c_rules c /\ c_allocSetID c' = c_allocSetID c.
Lemma attempt_ok c c' u : attempt c = (c', inr u) -> same_but_fail c c'.
Proof. unfold attempt. destruct (c_fail c) as [|[] fs]; intros [= <- _]; by repeat split. Qed.
Definition named_as (name : string) (s : nft_set) : bool := negb (s_Anonymous s) && String.eqb (s_Name s) name.
Lemma map_named_comp name f g ss : (forall s, named_as name s = true -> named_as name (f s) = true) -> map_named name g (map_named name f ss) = map_named name (fun s => g (f s)) ss.
Proof.
  intros Hf. unfold map_named. rewrite map_map. apply map_ext. intros s. fold (named_as name s). destruct (named_as name s) eqn:E.
  - specialize (Hf s E). unfold named_as in Hf. by rewrite Hf.
  - unfold named_as in E. by rewrite E.
Qed.
Lemma add_elements_ok fuel name els c c' u : (length els <= fuel)%nat -> add_elements fuel name els c = (c', inr u) ->
  c_sets c' = map_named name (fun s => with_elements (s_Elements s ++ els) s) (c_sets c) /\
  c_chains c' = c_chains c /\ c_rules c' = c_rules c /\ c_allocSetID c' = c_allocSetID c.
Proof.
  assert (forall c, c_sets c = map_named name (fun s => with_elements (s_Elements s ++ []) s) (c_sets c)) as Hid.
  { intros c0. unfold map_named. rewrite <- (map_id (c_sets c0)) at 1. apply map_ext. intros s. destruct (_ && _); [|done]. unfold with_elements. rewrite app_nil_r. by destruct s. }
  revert els c. induction fuel as [|fuel IH]; intros els c Hl.
  { destruct els; [|cbn in Hl; lia]. intros [= <- _]. by rewrite <- Hid. }
  destruct els as [|e els]; [intros [= <- _]; by rewrite <- Hid|]. cbn [add_elements]. set (l := e :: els) in *. assert (0 < length l)%nat as Hp by (unfold l; cbn; lia). clearbody l. unfold nbind, SetAddElements, Flush, nbind.
  destruct (attempt c) as [c1 [er|[]]] eqn:E1; [done|]. apply attempt_ok in E1 as (S1 & C1 & R1 & A1).
  set (c2 := mkConn _ _ _ _ _). destruct (attempt c2) as [c3 [er|[]]] eqn:E3; [done|]. apply attempt_ok in E3 as (S3 & C3 & R3 & A3).
  intros EL. apply IH in EL as (S4 & C4 & R4 & A4).
  - unfold c2 in S3, C3, R3, A3. cbn in S3, C3, R3, A3. split_and!; [|by rewrite C4, C3, C1|by rewrite R4, R3, R1|by rewrite A4, A3, A1].
    rewrite S4, S3, S1, map_named_comp by done. unfold map_named. apply map_ext. intros s. destruct (_ && _); [|done]. unfold with_elements. cbn. f_equal.
    rewrite <- app_assoc. f_equal. rewrite length_take. destruct (Nat.le_gt_cases (length l) 1000).
    + rewrite take_ge, drop_ge by lia. apply app_nil_r.
    + rewrite Nat.min_l by lia. apply take_drop.
  - rewrite length_drop, length_take. lia.
Qed.
Section Sets.
Context `{IPRangesPackage}.
(** Names in use are not used again. *)
Definition new_name (name : string) (c : conn) : Prop := Forall (fun s => named_as name s = false) (c_sets c).
Lemma map_named_new name f ss : Forall (fun s => named_as name s = false) ss -> map_named name f ss = ss.
Proof. intros Hn. unfold map_named. induction Hn as [|s ss Hs Hss IH]; [done|]. cbn. unfold named_as in Hs. rewrite Hs. by rewrite IH. Qed.
Lemma send_named id name interval els fuel c c' u : id <> 0 -> new_name name c -> (length els <= fuel)%nat ->
  (_ <~~ AddSet (mkSet id name false interval []) [] ;; add_elements fuel name els) c = (c', inr u) ->
  c_sets c' = c_sets c ++ [mkSet id name false interval els] /\ c_chains c' = c_chains c /\ c_rules c' = c_rules c /\ c_allocSetID c' = c_allocSetID c.
Proof.
  intros Hid Hn Hl. unfold nbind, AddSet, nbind. destruct (attempt c) as [c1 [er|[]]] eqn:E1; [done|]. apply attempt_ok in E1 as (S1 & C1 & R1 & A1).
  cbn [s_ID s_Anonymous]. replace (id =? 0) with false by lia. cbn [andb]. set (c2 := mkConn _ _ _ _ _). intros EL. apply add_elements_ok in EL as (S3 & C3 & R3 & A3); [|done].
  unfold c2 in S3, C3, R3, A3. cbn in S3, C3, R3, A3. split_and!; [|by rewrite C3|by rewrite R3|by rewrite A3]. rewrite S3, S1. unfold map_named. rewrite map_app. f_equal.
  - by apply map_named_new.
  - cbn. by rewrite String.eqb_refl.
Qed.
(** A named set of addresses, as sent. *)
Lemma nftablesCreateIPSet_named id name family ss ps default c c' s : id <> 0 -> new_name name c ->
  nftablesCreateIPSet id name family ss ps default false c = (c', inr s) ->
  exists rs, BuildRanges ps ss = inr rs /\ c_sets c' = c_sets c ++ [mkSet id name false true (ipset_elements family rs default)] /\
    c_chains c' = c_chains c /\ c_rules c' = c_rules c /\ c_allocSetID c' = c_allocSetID c.
Proof.
  intros Hid Hn. unfold nftablesCreateIPSet. destruct (BuildRanges ps ss) as [e|rs]; [done|]. replace (id =? 0) with false by lia. intros E. exists rs. split; [done|].
  eapply (send_named id name true (ipset_elements family rs default) (length (ipset_elements family rs default)) c c' tt); [done|done|done|].
  revert E. unfold nbind. destruct (AddSet (mkSet id name false true []) [] c) as [c1 [e|s1]]; [done|]. cbn.
  destruct (add_elements _ name _ c1) as [c2 [e|[]]]; [done|]. by intros [= <- _].
Qed.
(** An anonymous set of addresses. *)
Lemma nftablesCreateIPSet_anonymous family ps c c' s : nftablesCreateIPSet 0 "" family [] ps false false c = (c', inr s) ->
  exists rs, BuildRanges ps [] = inr rs /\ s = mkSet (c_allocSetID c + 1) "__set%d" true true (flat_map (range_elements family) rs) /\
    c_sets c' = c_sets c ++ [s] /\ c_chains c' = c_chains c /\ c_rules c' = c_rules c /\ c_allocSetID c' = c_allocSetID c + 1.
Proof.
  unfold nftablesCreateIPSet. destruct (BuildRanges ps []) as [e|rs]; [done|]. cbn [Z.eqb]. unfold AddSet, nbind.
  destruct (attempt c) as [c1 [er|[]]] eqn:E1; [done|]. apply attempt_ok in E1 as (S1 & C1 & R1 & A1). cbn. intros [= <- <-]. exists rs. cbn. by rewrite S1, C1, R1, A1.
Qed.
Lemma nftablesCreateIPConst_named id name addrs c c' s : id <> 0 -> new_name name c ->
  nftablesCreateIPConst id name addrs c = (c', inr s) ->
  c_sets c' = c_sets c ++ [mkSet id name false false (map (fun a => mkElement (netip.AsSlice a) false) addrs)] /\
    c_chains c' = c_chains c /\ c_rules c' = c_rules c /\ c_allocSetID c' = c_allocSetID c.
Proof.
  intros Hid Hn. unfold nftablesCreateIPConst. replace (id =? 0) with false by lia. intros E.
  eapply (send_named id name false (map (fun a => mkElement (netip.AsSlice a) false) addrs) (length (map (fun a => mkElement (netip.AsSlice a) false) addrs)) c c' tt); [done|done|done|].
  revert E. unfold nbind. destruct (AddSet (mkSet id name false false []) [] c) as [c1 [e|s1]]; [done|]. cbn.
  destruct (add_elements _ name _ c1) as [c2 [e|[]]]; [done|]. by intros [= <- _].
Qed.
End Sets.
