(* ===== verification/RedirectGuards.v ===== *)
(** * The rules of auto-redirect as guards

    Each function of redirect_nftables_rules.go adds rules that act as the
    guards given here in terms of the packet. *)
From Stdlib Require Import String Ascii.
From S2P Require Import Prelude Bytes GoMem TsChecksum Netip TunOptions TunRules TunRulesSpec RouteMark Netlink Nft NftSpec RedirectNft RedirectSets.
#[local] Open Scope nft_scope.

(** A packet as the kernel shows it. *)
Definition packet_ok (p : packet) : Prop :=
  name_ok (p_iifname p) /\ name_ok (p_oifname p) /\ is_u16 (p_iiftype p) /\ (bytes (p_mac p) /\ length (p_mac p) = 6%nat) /\
  ((exists s d, p_src p = netip.Addr4 s /\ p_dst p = netip.Addr4 d /\ addr4 s /\ addr4 d) \/
   (exists s d, p_src p = netip.Addr6 s /\ p_dst p = netip.Addr6 d /\ addr6 s /\ addr6 d)) /\
  is_u8 (p_l4proto p) /\ is_u16 (p_dport p) /\ is_u32 (p_ctstatus p) /\ match p_skuid p with Some u => is_u32 u | None => True end.

Section Guards.
Context `{SetLookup} `{IPRangesPackage} (le : bool) (os : GOOS) (r : autoRedirect) (p : packet).
Let o := tunOptions r.
Context (Hp : packet_ok p).

(** The options that reach the firewall: names that fit, MAC addresses of six
    bytes, valid prefixes, 32-bit marks. *)
Definition redirect_ok : Prop :=
  let o := tunOptions r in
  name_ok (Name o) /\ Forall name_ok (IncludeInterface o) /\ Forall name_ok (ExcludeInterface o) /\
  Forall (fun m => bytes m /\ length m = 6%nat) (IncludeMACAddress o) /\ Forall (fun m => bytes m /\ length m = 6%nat) (ExcludeMACAddress o) /\
  Forall valid_prefix (Inet4RouteAddress o ++ Inet6RouteAddress o ++ Inet4RouteExcludeAddress o ++ Inet6RouteExcludeAddress o) /\
  marks_ok o /\ is_u16 (redirectPort r) /\
  match DNSHijack o with Some ds => Forall (fun d => is_u16 (netip.ap_port (h_Address d)) /\ valid_addr (netip.ap_addr (h_Address d))) ds | None => True end.
Context (Hr : redirect_ok).

Definition family_of (family : Z) : bool := nfproto p =? family.
Lemma dst_family family : family = TableFamilyIPv4 \/ family = TableFamilyIPv6 -> family_of family = true -> of_family_addr family (p_dst p).
Proof.
  destruct Hp as (_ & _ & _ & _ & [(s & d & _ & Ed & _ & Hd)|(s & d & _ & Ed & _ & Hd)] & _); unfold family_of, nfproto, of_family_addr; rewrite Ed; intros [->| ->]; cbn; intros; try done; by split.
Qed.
Lemma dst_payload family : family = TableFamilyIPv4 \/ family = TableFamilyIPv6 -> family_of family = true ->
  (if family =? TableFamilyIPv4 then payload_load p PayloadBaseNetworkHeader 16 4 else payload_load p PayloadBaseNetworkHeader 24 16) = Some (netip.AsSlice (p_dst p)).
Proof.
  destruct Hp as (_ & _ & _ & _ & [(s & d & Es & Ed & _ & Hd)|(s & d & Es & Ed & _ & Hd)] & _); unfold family_of, nfproto, payload_load; rewrite Es, Ed; intros [->| ->]; cbn; done.
Qed.

(** A set found under its name or number: the lookup of a key. *)
Definition set_match (sets : list nft_set) (id : Z) (name : string) (invert : bool) (key : list Z) : bool :=
  match find_set sets id name with Some s => xorb invert (set_has s key) | None => false end.

(** The same of an address. *)
Definition look_in (sets : list nft_set) (id : Z) (name : string) (invert : bool) (a : netip.Addr) : bool := set_match sets id name invert (netip.AsSlice a).

Lemma one_rule_dst sets id name family invert v : family = TableFamilyIPv4 \/ family = TableFamilyIPv6 ->
  one_rule le p sets (nftablesCreateDestinationIPSetExprs id name family invert ++ [Counter; Verdict v])
    (fun _ _ => [(family_of family && set_match sets id name invert (netip.AsSlice (p_dst p)), match v with VerdictReturn => Returned | VerdictDrop => Dropped end)]).
Proof.
  intros Hf m. unfold nftablesCreateDestinationIPSetExprs, set_match.
  assert (bool_decide ([nfproto p] = [family]) = family_of family) as HD.
  { unfold family_of. destruct (Z.eqb_spec (nfproto p) family) as [->|E]; [by apply bool_decide_eq_true|]. apply bool_decide_eq_false. intros [= ?]. done. }
  pose proof (dst_payload family Hf) as HP. cbn -[payload_load]. rewrite HD. destruct (family_of family); [|done]. specialize (HP eq_refl).
  destruct Hf as [->| ->]; cbn -[payload_load] in *; rewrite HP; cbn; (destruct (find_set sets id name) as [s|]; [|done]); destruct (xorb invert _); [by destruct v|done|by destruct v|done].
Qed.

Definition ch_route (family : Z) (prefixes : list netip.Prefix) (invert : bool) : list guard :=
  match prefixes with [] => [] | _ => [(family_of family && xorb invert (covered prefixes (p_dst p)), Returned)] end.
Lemma route_rule_emits ch family prefixes invert : family = TableFamilyIPv4 \/ family = TableFamilyIPv6 -> Forall valid_prefix prefixes ->
  emits le p (route_rule ch family prefixes invert) ch (fun _ _ _ => ch_route family prefixes invert).
Proof.
  intros Hf Hv. unfold route_rule, ch_route. destruct prefixes as [|x xs] eqn:EX; [apply emits_nret|]. rewrite <- EX in *. intros c c'. unfold nbind.
  destruct (nftablesCreateIPSet 0 "" family [] prefixes false false c) as [c1 [e|s]] eqn:E; [done|].
  apply nftablesCreateIPSet_anonymous in E as (rs & ER & Es & S1 & C1 & R1 & A1). unfold nftablesCreateExcludeDestinationIPSet, AddRule. intros [= <-].
  exists [s], [nftablesCreateDestinationIPSetExprs (s_ID s) (s_Name s) family invert ++ [Counter; Verdict VerdictReturn]]. split; [repeat split; cbn; try done|].
  - by rewrite Es.
  - by rewrite Es.
  - rewrite Es. cbn. lia.
  - rewrite Es, A1. cbn. lia.
  - by rewrite R1.
  - intros sets Hfound. apply Forall_cons in Hfound as [Hfound _]. apply acts_as_one. intros m. rewrite (one_rule_dst sets _ _ family invert VerdictReturn Hf m). do 3 f_equal. f_equal.
    destruct (family_of family) eqn:EF; [|done]. cbn [andb]. unfold set_match. rewrite Hfound. f_equal.
    rewrite (ipset_member family prefixes [] rs s (p_dst p)); [by rewrite orb_false_r|done|done|by rewrite Es|by rewrite Es|by apply dst_family].
Qed.

(** A comparison of the incoming interface with a list of names. *)
Definition ifname_guard (names : list string) (exclude : bool) : list guard :=
  match names with [] => [] | _ => [(xorb (negb exclude) (existsb (fun n => String.eqb n (p_iifname p)) names), Returned)] end.
Lemma ifname_rule_emits ch names exclude : Forall name_ok names -> emits le p (ifname_rule ch names exclude) ch (fun _ _ _ => ifname_guard names exclude).
Proof.
  intros Hn. destruct Hp as (Hi & _). unfold ifname_rule, ifname_guard. destruct names as [|n [|n' names]].
  - apply emits_nret.
  - apply emits_rule. intros sets m. inversion Hn; subst. cbn [existsb]. rewrite orb_false_r, <- (ifname_eq (p_iifname p) n) by done.
    destruct exclude; cbn; by destruct (bool_decide (ifname16 (p_iifname p) = nftablesIfname n)).
  - apply (emits_set_rule le p ch (anonymous false) _ (fun s => [Meta MetaKeyIIFNAME 1 false; Lookup 1 (s_ID s) (s_Name s) (negb exclude)] ++ return_)); [done|done|].
    intros sets s Hf He Hi' m. cbn [app exec exec1 meta_load set_reg m_regs Z.eqb Pos.eqb]. rewrite Hf.
    rewrite set_has_keys; [|by rewrite Hi'|rewrite He, ifname16_length; apply Forall_map, Forall_forall; intros y _; split; [apply ifname_length|apply ifname_bytes]].
    rewrite He, map_map. cbn [Key]. rewrite (ifname_in (p_iifname p) (n :: n' :: names)) by done. cbn. by destruct exclude, (_ || _).
Qed.
Definition mac_guard (macs : list (list Z)) (exclude : bool) : list guard :=
  match macs with [] => [] | _ => [(xorb (negb exclude) (bool_decide (p_mac p ∈ macs)), Returned)] end.
Lemma mac_rule_emits ch macs exclude : Forall (fun m => bytes m /\ length m = 6%nat) macs -> emits le p (mac_rule ch macs exclude) ch (fun _ _ _ => mac_guard macs exclude).
Proof.
  intros Hn. destruct Hp as (_ & _ & _ & [Hmb Hml] & _). unfold mac_rule, mac_guard. destruct macs as [|n [|n' macs]].
  - apply emits_nret.
  - apply emits_rule. intros sets m. rewrite (bool_decide_ext (p_mac p ∈ [n]) (p_mac p = n)) by apply list_elem_of_singleton.
    destruct exclude; cbn; by destruct (bool_decide (p_mac p = n)).
  - apply (emits_set_rule le p ch (anonymous false) _ (fun s => [Payload 1 PayloadBaseLLHeader 6 6; Lookup 1 (s_ID s) (s_Name s) (negb exclude)] ++ return_)); [done|done|].
    intros sets s Hf He Hi' m. cbn [app exec exec1 payload_load set_reg m_regs Z.eqb Pos.eqb andb]. rewrite Hf.
    rewrite set_has_keys; [|by rewrite Hi'|rewrite He, Hml; apply Forall_map; eapply Forall_impl; [exact Hn|]; cbn; tauto].
    rewrite He, map_map, map_id. cbn. by destruct exclude, (bool_decide _).
Qed.

(** Connections that another component translates. *)
Lemma dnat_rule_emits ch : emits le p (AddRule ch (nftablesDNATStatusExpressions le ++ return_)) ch (fun _ _ _ => [(Z.testbit (p_ctstatus p) 5, Returned)]).
Proof.
  apply emits_rule. intros sets m. destruct Hp as (_ & _ & _ & _ & _ & _ & _ & Hct & _).
  cbn [app nftablesDNATStatusExpressions return_ exec exec1 set_reg m_regs Z.eqb Pos.eqb]. rewrite (native32_zero le), native32_bitwise, Z.lxor_0_r.
  rewrite native32_eq by (done || apply u32_land; done). change conntrackStatusDNAT with (2 ^ 5).
  assert ((Z.land (p_ctstatus p) (2 ^ 5) =? 2 ^ 5) = Z.testbit (p_ctstatus p) 5) as ->; [|by destruct (Z.testbit (p_ctstatus p) 5)].
  destruct (Z.testbit (p_ctstatus p) 5) eqn:E.
  - apply Z.eqb_eq, Z.bits_inj'. intros n Hn. rewrite Z.land_spec, Z.pow2_bits_eqb by lia. destruct (Z.eqb_spec 5 n) as [<-|]; [by rewrite E|by rewrite andb_false_r].
  - apply Z.eqb_neq. intros EL. apply (f_equal (fun v => Z.testbit v 5)) in EL. by rewrite Z.land_spec, E in EL.
Qed.
(** The incoming interface of the device; frames of other links. *)
Lemma tun_iif_emits ch : emits le p (AddRule ch ([Meta MetaKeyIIFNAME 1 false; Cmp CmpOpEq 1 (nftablesIfname (Name o))] ++ return_)) ch (fun _ _ _ => [(String.eqb (Name o) (p_iifname p), Returned)]).
Proof.
  apply emits_rule. intros sets m. destruct Hp as (Hi & _). destruct Hr as (Hn & _). rewrite <- (ifname_eq (p_iifname p) (Name o)) by done.
  cbn. by destruct (bool_decide (ifname16 (p_iifname p) = nftablesIfname (Name o))).
Qed.
Lemma ether_emits ch : emits le p (AddRule ch ([Meta MetaKeyIIFTYPE 1 false; Cmp CmpOpNeq 1 (native16 le ARPHRD_ETHER)] ++ return_)) ch (fun _ _ _ => [(negb (p_iiftype p =? ARPHRD_ETHER), Returned)]).
Proof.
  apply emits_rule. intros sets m. destruct Hp as (_ & _ & Ht & _). rewrite <- (native16_eq le (p_iiftype p) ARPHRD_ETHER) by (done || unfold ARPHRD_ETHER; lia).
  cbn. by destruct (bool_decide (native16 le (p_iiftype p) = native16 le ARPHRD_ETHER)).
Qed.
Definition prerouting_guards : list guard :=
  [(String.eqb (Name o) (p_iifname p), Returned)] ++ ifname_guard (IncludeInterface o) false ++ ifname_guard (ExcludeInterface o) true ++
  (if negb (bool_decide (IncludeMACAddress o = [])) then [(negb (p_iiftype p =? ARPHRD_ETHER), Returned)] ++ mac_guard (IncludeMACAddress o) false else []) ++
  mac_guard (ExcludeMACAddress o) true.
Lemma exclude_prerouting_emits ch : emits le p (exclude_prerouting le r ch) ch (fun _ _ _ => prerouting_guards).
Proof.
  destruct Hr as (_ & Hin & Hex & Hmi & Hme & _). unfold exclude_prerouting, prerouting_guards. fold o.
  apply (emits_seq le p _ _ ch (fun _ _ _ => _)); [apply tun_iif_emits|].
  apply (emits_seq le p _ _ ch (fun _ _ _ => _) (fun _ _ _ => _)); [by apply ifname_rule_emits|].
  apply (emits_seq le p _ _ ch (fun _ _ _ => _) (fun _ _ _ => _)); [by apply ifname_rule_emits|].
  apply (emits_seq le p _ _ ch (fun _ _ _ => _) (fun _ _ _ => _)); [|by apply mac_rule_emits].
  apply (emits_when le p _ _ ch (fun _ _ _ => _)). apply (emits_seq le p _ _ ch (fun _ _ _ => _) (fun _ _ _ => _)); [apply ether_emits|by apply mac_rule_emits].
Qed.

(** Marks. *)
Definition marks_valid (mark ctmark : Z) : Prop := is_u32 mark /\ is_u32 ctmark.
Lemma mptcp_emits ch : emits le p (AddRule ch (mptcp_rule o)) ch
  (fun _ _ _ => [((p_l4proto p =? IPPROTO_TCP) && p_mptcp p, if ExcludeMPTCP o then Returned else Dropped)]).
Proof.
  apply emits_rule. intros sets m. unfold mptcp_rule. cbn.
  assert (bool_decide ([p_l4proto p] = [IPPROTO_TCP]) = (p_l4proto p =? IPPROTO_TCP)) as ->.
  { destruct (Z.eqb_spec (p_l4proto p) IPPROTO_TCP) as [->|E]; [by apply bool_decide_eq_true|]. apply bool_decide_eq_false. by intros [= ?]. }
  destruct (p_l4proto p =? IPPROTO_TCP); [|done]. cbn. destruct (p_mptcp p); [|done]. cbn. by destruct (ExcludeMPTCP o).
Qed.
Lemma byte_eq x y : bool_decide ([x] = [y]) = (x =? y).
Proof. destruct (Z.eqb_spec x y) as [->|E]; [by apply bool_decide_eq_true|]. apply bool_decide_eq_false. by intros [= ?]. Qed.
Lemma unreachable_emits ch : emits le p (nftablesCreateUnreachable r ch) ch
  (fun _ _ _ => if (enableIPv4 r && enableIPv6 r) || negb (StrictRoute o) then [] else [(family_of (if enableIPv4 r then TableFamilyIPv6 else TableFamilyIPv4), Rejected)]).
Proof.
  unfold nftablesCreateUnreachable. fold o. destruct (_ || _); [apply emits_nret|]. apply emits_rule. intros sets m. cbn. unfold family_of. rewrite byte_eq.
  by destruct (nfproto p =? _).
Qed.

(** The destination compared with a named set. *)
Lemma exclude_dst_emits ch id name family invert : family = TableFamilyIPv4 \/ family = TableFamilyIPv6 ->
  emits le p (nftablesCreateExcludeDestinationIPSet ch id name family invert) ch
    (fun sets _ _ => [(family_of family && set_match sets id name invert (netip.AsSlice (p_dst p)), Returned)]).
Proof. intros Hf. apply emits_rule. intros sets. by apply (one_rule_dst sets id name family invert VerdictReturn). Qed.

(** *** Conditions *)

Lemma checks_nfproto sets family : checks le p sets [Meta MetaKeyNFPROTO 1 false; Cmp CmpOpEq 1 [family]] (family_of family).
Proof. intros m rest. cbn. rewrite byte_eq. unfold family_of. destruct (nfproto p =? family); [|done]. eexists. split; [|reflexivity]. done. Qed.
Lemma checks_tcp sets : checks le p sets [Meta MetaKeyL4PROTO 1 false; Cmp CmpOpEq 1 [IPPROTO_TCP]] (p_l4proto p =? IPPROTO_TCP).
Proof. intros m rest. cbn. rewrite byte_eq. destruct (p_l4proto p =? IPPROTO_TCP); [|done]. eexists. split; [|reflexivity]. done. Qed.
Lemma checks_dst sets id name family invert : family = TableFamilyIPv4 \/ family = TableFamilyIPv6 ->
  checks le p sets (nftablesCreateDestinationIPSetExprs id name family invert) (family_of family && set_match sets id name invert (netip.AsSlice (p_dst p))).
Proof.
  intros Hf. unfold nftablesCreateDestinationIPSetExprs. apply checks_app; [apply checks_nfproto|]. intros EF m rest. pose proof (dst_payload family Hf EF) as HP. unfold set_match.
  destruct Hf as [->| ->]; cbn -[payload_load] in *; rewrite HP; cbn; (destruct (find_set sets id name) as [s|]; [|done]); (destruct (xorb invert _); [|done]); (eexists; split; [|reflexivity]; done).
Qed.
Lemma checks_oif sets n b : name_ok n -> checks le p sets [Meta MetaKeyOIFNAME 1 false; Cmp (if b : bool then CmpOpEq else CmpOpNeq) 1 (nftablesIfname n)] (xorb (negb b) (String.eqb n (p_oifname p))).
Proof.
  intros Hn m rest. destruct Hp as (_ & Ho & _). rewrite <- (ifname_eq (p_oifname p) n) by done.
  destruct b; cbn; destruct (bool_decide (ifname16 (p_oifname p) = nftablesIfname n)); cbn; try done; (eexists; split; [|reflexivity]; done).
Qed.

(** The redirection of TCP. *)
Definition redirect_guards (look : Z -> string -> bool -> netip.Addr -> bool) (b : bool) : list guard :=
  let tcp := p_l4proto p =? IPPROTO_TCP in
  let v := Redirected (be16 (redirectPort r)) in
  if bool_decide (Inet4LoopbackAddress o = []) && bool_decide (Inet6LoopbackAddress o = []) then
    [(b && (if enableIPv4 r && negb (enableIPv6 r) then family_of TableFamilyIPv4 else if negb (enableIPv4 r) && enableIPv6 r then family_of TableFamilyIPv6 else true) && tcp, v)]
  else
    (if enableIPv4 r then
       [(b && (family_of TableFamilyIPv4 &&
               (bool_decide (Inet4LoopbackAddress o = []) || look 7 "inet4_local_redirect_address_set"%string true (p_dst p))) && tcp, v)] else []) ++
    (if enableIPv6 r then
       [(b && (family_of TableFamilyIPv6 &&
               (bool_decide (Inet6LoopbackAddress o = []) || look 8 "inet6_local_redirect_address_set"%string true (p_dst p))) && tcp, v)] else []).
Lemma redirect_rule sets pre b : checks le p sets pre b ->
  one_rule le p sets (pre ++ redirect_exprs r) (fun _ _ => [(b && (p_l4proto p =? IPPROTO_TCP), Redirected (be16 (redirectPort r)))]).
Proof.
  intros Hc. change (redirect_exprs r) with ([Meta MetaKeyL4PROTO 1 false; Cmp CmpOpEq 1 [IPPROTO_TCP]] ++ [Counter; Immediate 1 (be16 (redirectPort r)); Redir 1; Verdict VerdictReturn]).
  rewrite app_assoc. apply checked_rule; [apply checks_app; [done|intros _; apply checks_tcp]|done].
Qed.
Lemma redirect_emits ch pre b : (forall sets, checks le p sets pre b) -> emits le p (nftablesCreateRedirect r ch pre) ch (fun sets _ _ => redirect_guards (look_in sets) b).
Proof.
  intros Hc. unfold nftablesCreateRedirect, redirect_guards. fold o. destruct (bool_decide (Inet4LoopbackAddress o = []) && bool_decide (Inet6LoopbackAddress o = [])).
  - apply emits_rule. intros sets. rewrite app_assoc. apply redirect_rule. apply checks_app; [done|]. intros _.
    destruct (enableIPv4 r), (enableIPv6 r); cbn [andb negb]; first [apply checks_nfproto|apply checks_nil].
  - apply emits_seq; apply (emits_when le p _ _ ch (fun sets _ _ => _)); apply emits_rule; intros sets; rewrite app_assoc; apply redirect_rule; (apply checks_app; [done|]); intros _.
    + destruct (Inet4LoopbackAddress o); [rewrite bool_decide_eq_true_2, orb_true_l, andb_true_r by done; apply checks_nfproto|].
      rewrite bool_decide_eq_false_2, orb_false_l by done. apply checks_dst. by left.
    + destruct (Inet6LoopbackAddress o); [rewrite bool_decide_eq_true_2, orb_true_l, andb_true_r by done; apply checks_nfproto|].
      rewrite bool_decide_eq_false_2, orb_false_l by done. apply checks_dst. by right.
Qed.

(** *** DNS hijacking *)

Lemma src_payload family : family = TableFamilyIPv4 \/ family = TableFamilyIPv6 -> family_of family = true ->
  (if family =? TableFamilyIPv4 then payload_load p PayloadBaseNetworkHeader 12 4 else payload_load p PayloadBaseNetworkHeader 8 16) = Some (netip.AsSlice (p_src p)).
Proof.
  destruct Hp as (_ & _ & _ & _ & [(s & d & Es & Ed & _ & Hd)|(s & d & Es & Ed & _ & Hd)] & _); unfold family_of, nfproto, payload_load; rewrite Es, Ed; intros [->| ->]; cbn; done.
Qed.
Lemma checks_src sets id name family : family = TableFamilyIPv4 \/ family = TableFamilyIPv6 -> family_of family = true ->
  checks le p sets [if family =? TableFamilyIPv4 then Payload 1 PayloadBaseNetworkHeader 12 4 else Payload 1 PayloadBaseNetworkHeader 8 16; Lookup 1 id name false]
    (set_match sets id name false (netip.AsSlice (p_src p))).
Proof.
  intros Hf EF m rest. pose proof (src_payload family Hf EF) as HP. unfold set_match.
  destruct Hf as [->| ->]; cbn -[payload_load] in *; rewrite HP; cbn; (destruct (find_set sets id name) as [s|]; [|done]); (destruct (set_has s _); [|done]); (eexists; split; [|reflexivity]; done).
Qed.
Lemma checks_dst_is sets family a : family = TableFamilyIPv4 \/ family = TableFamilyIPv6 -> family_of family = true -> of_family_addr family a ->
  checks le p sets [FibDaddrType 1; Cmp CmpOpNeq 1 (native32 le RTN_LOCAL);
    Payload 1 PayloadBaseNetworkHeader (if family =? TableFamilyIPv6 then 24 else 16) (netip.BitLen a / 8); Cmp CmpOpEq 1 (netip.AsSlice a)]
    (negb (p_dst_local p) && bool_decide (p_dst p = a)).
Proof.
  intros Hf EF Ha m rest. pose proof (dst_payload family Hf EF) as HP. pose proof (dst_family family Hf EF) as HD. rewrite (family_BitLen family a Ha).
  assert (bool_decide (netip.AsSlice (p_dst p) = netip.AsSlice a) = bool_decide (p_dst p = a)) as HE.
  { apply bool_decide_ext. split; [|congruence]. intros E. destruct HD as [[HwD _] _], Ha as [[Hwa _] _]. apply netip.wf_inj; [done|done| |]; unfold netip.BitLen, netip.val; by rewrite E. }
  assert (payload_load p PayloadBaseNetworkHeader (if family =? TableFamilyIPv6 then 24 else 16) (8 * Z.of_nat (family_bits family) / 8) = Some (netip.AsSlice (p_dst p))) as HL by (destruct Hf as [->| ->]; exact HP).
  cbn [app exec exec1 set_reg m_regs Z.eqb Pos.eqb]. rewrite native32_eq by (destruct (p_dst_local p); unfold RTN_LOCAL; lia).
  destruct (p_dst_local p); [done|]. change (1 =? RTN_LOCAL) with false. cbv iota. rewrite HL. cbn [negb andb set_reg m_regs Z.eqb Pos.eqb]. rewrite HE.
  (destruct (bool_decide (p_dst p = a)); [|done]); (eexists; split; [|reflexivity]; done).
Qed.
Lemma be16_eq a b : is_u16 a -> is_u16 b -> bool_decide (be16 a = be16 b) = (a =? b).
Proof. apply (native16_eq false). Qed.

Definition hijack_proto (d : option DNSHijackRule) : bool :=
  match d with
  | Some d => if String.eqb (h_Network d) "tcp" then p_l4proto p =? IPPROTO_TCP
              else if String.eqb (h_Network d) "udp" then p_l4proto p =? IPPROTO_UDP
              else (p_l4proto p =? IPPROTO_TCP) || (p_l4proto p =? IPPROTO_UDP)
  | None => (p_l4proto p =? IPPROTO_TCP) || (p_l4proto p =? IPPROTO_UDP)
  end.
Definition any_dest (d : option DNSHijackRule) : bool := match d with Some d => IsUnspecified (netip.ap_addr (h_Address d)) | None => true end.
(** One destination of one family: queries to it, or to any server from one of
    this host's addresses, go to the first server of the device. *)
Definition hijack_guard (ch : chain) (family setID : Z) (setName : string) (d : option DNSHijackRule) (look : Z -> string -> bool -> netip.Addr -> bool) : list guard :=
  match (if family =? TableFamilyIPv4 then Inet4DNSAddress o else Inet6DNSAddress o) with
  | inr (dnsServer :: _) =>
      [(family_of family &&
        (if bool_decide (ch_Hooknum ch = ChainHookOutput) then negb (String.eqb "lo" (p_oifname p))
         else if any_dest d then look setID setName false (p_src p) else true) &&
        (match d with Some d' => if negb (any_dest d) then negb (p_dst_local p) && bool_decide (p_dst p = netip.ap_addr (h_Address d')) else true | None => true end) &&
        hijack_proto d && (p_dport p =? match d with Some d => netip.ap_port (h_Address d) | None => 53 end),
        Translated (netip.AsSlice dnsServer) (match d with Some _ => Some (be16 53) | None => None end))]
  | _ => []
  end.
Lemma checks_proto sets s (d : option DNSHijackRule) port : find_set sets (s_ID s) (s_Name s) = Some s -> s_Interval s = false ->
  s_Elements s = (let protocols := [mkElement [IPPROTO_TCP] false; mkElement [IPPROTO_UDP] false] in
    match d with Some d => if String.eqb (h_Network d) "tcp" then take 1 protocols else if String.eqb (h_Network d) "udp" then drop 1 protocols else protocols | None => protocols end) ->
  is_u16 port ->
  checks le p sets [Meta MetaKeyL4PROTO 1 false; Lookup 1 (s_ID s) (s_Name s) false; Payload 1 PayloadBaseTransportHeader 2 2; Cmp CmpOpEq 1 (be16 port)] (hijack_proto d && (p_dport p =? port)).
Proof.
  intros Hf Hi He Hport m rest. destruct Hp as (_ & _ & _ & _ & _ & Hl4 & Hdp & _). cbn [app exec exec1 meta_load set_reg m_regs Z.eqb Pos.eqb]. rewrite Hf.
  assert (set_has s [p_l4proto p] = hijack_proto d) as ->.
  { assert (forall x, is_u8 x -> length (Key (mkElement [x] false)) = 1%nat /\ bytes (Key (mkElement [x] false))) as HK by (intros x Hx; split; [done|by constructor]).
    assert (is_u8 IPPROTO_TCP /\ is_u8 IPPROTO_UDP) as [HT HU] by (unfold IPPROTO_TCP, IPPROTO_UDP; lia).
    rewrite set_has_keys; [|done|rewrite He; cbv zeta; cbn [length take drop]; destruct d as [d|]; [destruct (String.eqb (h_Network d) "tcp"), (String.eqb (h_Network d) "udp")|]; repeat (constructor; [by apply HK|]); constructor].
    rewrite He. assert (forall x y : Z, bool_decide ([x] ∈ [[y]]) = (x =? y)) as H1 by (intros x y; rewrite <- byte_eq; apply bool_decide_ext; apply list_elem_of_singleton).
    assert (forall x y z : Z, bool_decide ([x] ∈ [[y]; [z]]) = (x =? y) || (x =? z)) as H2.
    { intros x y z. rewrite <- !byte_eq, <- bool_decide_or. apply bool_decide_ext. rewrite elem_of_cons, list_elem_of_singleton. done. }
    unfold hijack_proto. destruct d as [d|]; [destruct (String.eqb (h_Network d) "tcp"); [apply H1|destruct (String.eqb (h_Network d) "udp"); [apply H1|apply H2]]|apply H2]. }
  cbn [xorb]. destruct (hijack_proto d); [|done]. cbn [andb payload_load set_reg m_regs Z.eqb Pos.eqb]. rewrite be16_eq by done. destruct (p_dport p =? port); [|done]. eexists; split; [|reflexivity]; done.
Qed.
Definition hijack_dest_ok (family : Z) (d : option DNSHijackRule) : Prop :=
  match d with Some d' => is_u16 (netip.ap_port (h_Address d')) /\ (any_dest d = false -> of_family_addr family (netip.ap_addr (h_Address d'))) | None => True end.
Lemma hijack_family_emits ch family setID setName d : family = TableFamilyIPv4 \/ family = TableFamilyIPv6 -> hijack_dest_ok family d ->
  emits le p (nftablesCreateDNSHijackRulesForFamily le r ch family setID setName d) ch (fun sets _ _ => hijack_guard ch family setID setName d (look_in sets)).
Proof.
  intros Hf Hd. unfold nftablesCreateDNSHijackRulesForFamily, hijack_guard. fold o. cbv zeta.
  destruct (if family =? TableFamilyIPv4 then Inet4DNSAddress o else Inet6DNSAddress o) as [e|[|dnsServer rest]].
  - apply emits_never. intros c c'. unfold nbind. destruct (AddSet _ _ c) as [c1 [|]]; done.
  - by apply emits_set_only.
  - eapply emits_set_rule; [done|done|]. intros sets s Hfound He Hi. set (port := match d with Some d => _ | None => 53 end).
    assert (is_u16 port) as Hport by (unfold port; destruct d; [apply Hd|lia]).
    set (source := if bool_decide (ch_Hooknum ch = ChainHookOutput) then _ else _). set (target := match d with Some _ => _ | None => [] end). set (tail := match d with Some _ => _ | None => [DestNAT _ _ _] end).
    set (v := Translated _ _).
    assert (checks le p sets ([Meta MetaKeyNFPROTO 1 false; Cmp CmpOpEq 1 [family]] ++ source ++ target ++
        [Meta MetaKeyL4PROTO 1 false; Lookup 1 (s_ID s) (s_Name s) false; Payload 1 PayloadBaseTransportHeader 2 2; Cmp CmpOpEq 1 (be16 port)])
      (family_of family && ((if bool_decide (ch_Hooknum ch = ChainHookOutput) then negb (String.eqb "lo" (p_oifname p))
         else if any_dest d then set_match sets setID setName false (netip.AsSlice (p_src p)) else true) &&
        ((match d with Some d' => if negb (any_dest d) then negb (p_dst_local p) && bool_decide (p_dst p = netip.ap_addr (h_Address d')) else true | None => true end) &&
        (hijack_proto d && (p_dport p =? port)))))) as HC.
    { apply checks_app; [apply checks_nfproto|]. intros EF. apply checks_app; [|intros _; apply checks_app; [|intros _; by apply checks_proto]].
      - unfold source. destruct (bool_decide (ch_Hooknum ch = ChainHookOutput)).
        + apply (checks_oif sets "lo" false). split; [cbn; lia|]. repeat constructor; done.
        + fold (any_dest d). destruct (any_dest d); [by apply checks_src|apply checks_nil].
      - unfold target. destruct d as [d'|]; [|apply checks_nil]. fold (any_dest (Some d')). destruct (any_dest (Some d')) eqn:EA; cbn [negb]; [apply checks_nil|]. apply checks_dst_is; [done|done|]. by apply Hd. }
    assert (forall a b c d e : bool, a && b && c && d && e = a && (b && (c && (d && e)))) as HA by by intros [] [] [] [] [].
    rewrite HA. intros m. assert (forall a b c (x1 x2 x3 x4 x5 x6 : expr) t, a ++ b ++ c ++ [x1; x2; x3; x4; x5; x6] ++ t = (a ++ b ++ c ++ [x1; x2; x3; x4]) ++ [x5; x6] ++ t) as HL by (intros; by rewrite <- !app_assoc).
    rewrite HL. refine (checked_rule le p sets _ _ _ v HC _ m). intros _ m'. unfold tail, v. destruct d; reflexivity.
Qed.
(** Every family in use and every destination of it. *)
Definition local_set_of (family : Z) : Z * string := if family =? TableFamilyIPv6 then (6, "inet6_local_address_set"%string) else (5, "inet4_local_address_set"%string).
Definition disabled (family : Z) : bool := ((family =? TableFamilyIPv4) && negb (enableIPv4 r)) || ((family =? TableFamilyIPv6) && negb (enableIPv6 r)).
Definition other_family (family : Z) (d : DNSHijackRule) : bool :=
  let a := netip.ap_addr (h_Address d) in negb (IsUnspecified a) && negb (Bool.eqb (netip.Is4 a) (family =? TableFamilyIPv4)).
Definition hijack_family_guards (ch : chain) (family : Z) (look : Z -> string -> bool -> netip.Addr -> bool) : list guard :=
  if disabled family then []
  else match DNSHijack o with
       | None => hijack_guard ch family (local_set_of family).1 (local_set_of family).2 None look
       | Some ds => flat_map (fun d => if other_family family d then [] else hijack_guard ch family (local_set_of family).1 (local_set_of family).2 (Some d) look) ds
       end.
Lemma hijack_emits ch : emits le p (nftablesCreateConfiguredDNSHijackRules le r ch) ch (fun sets _ _ => flat_map (fun f => hijack_family_guards ch f (look_in sets)) [TableFamilyIPv4; TableFamilyIPv6]).
Proof.
  destruct Hr as (_ & _ & _ & _ & _ & _ & _ & _ & Hd). fold o in Hd. unfold nftablesCreateConfiguredDNSHijackRules.
  apply (emits_for le p _ _ ch (fun f sets _ _ => hijack_family_guards ch f (look_in sets))). intros family Hf.
  assert (family = TableFamilyIPv4 \/ family = TableFamilyIPv6) as Hfam by (rewrite !elem_of_cons, elem_of_nil in Hf; tauto). clear Hf.
  unfold hijack_family_guards. fold (disabled family). destruct (disabled family); [apply emits_nret|]. fold (local_set_of family). destruct (local_set_of family) as [setID setName]. fold o.
  destruct (DNSHijack o) as [ds|]; [|by apply hijack_family_emits].
  apply (emits_for le p _ _ ch (fun d sets _ _ => if other_family family d then [] else hijack_guard ch family setID setName (Some d) (look_in sets))). intros d Hin. rewrite Forall_forall in Hd. destruct (Hd d Hin) as [Hport Ha].
  cbv zeta. fold (other_family family d). destruct (other_family family d) eqn:EO; [apply emits_nret|]. apply hijack_family_emits; [done|]. split; [done|].
  cbn. intros EU. split; [done|]. unfold other_family in EO. rewrite EU in EO. cbn in EO. apply negb_false_iff, eqb_prop in EO. done.
Qed.

(** *** The chain of packets that arrive *)

Definition dst_guard (b : bool) (look : Z -> string -> bool -> netip.Addr -> bool) (id : Z) (name : string) (family : Z) (invert : bool) : list guard :=
  if b then [(family_of family && look id name invert (p_dst p), Returned)] else [].
Definition has_sets (b : bool) (l : list IPSetT) : bool := b && negb (bool_decide (length l = 0%nat)).
Definition exclude_guards (ch : chain) (look : Z -> string -> bool -> netip.Addr -> bool) : list guard :=
  (if AutoRoute o then [(Z.testbit (p_ctstatus p) 5, Returned)] else []) ++ prerouting_guards ++
  ch_route TableFamilyIPv4 (Inet4RouteAddress o) true ++ ch_route TableFamilyIPv6 (Inet6RouteAddress o) true ++
  ch_route TableFamilyIPv4 (Inet4RouteExcludeAddress o) false ++ ch_route TableFamilyIPv6 (Inet6RouteExcludeAddress o) false ++
  (if hijacks_dns os o ch then flat_map (fun f => hijack_family_guards ch f look) [TableFamilyIPv4; TableFamilyIPv6] else []) ++
  dst_guard (enableIPv4 r) look 5 "inet4_local_address_set" TableFamilyIPv4 false ++
  dst_guard (enableIPv6 r) look 6 "inet6_local_address_set" TableFamilyIPv6 false ++
  dst_guard (has_sets (enableIPv4 r) (routeAddressSet r)) look 1 "inet4_route_address_set" TableFamilyIPv4 true ++
  dst_guard (has_sets (enableIPv6 r) (routeAddressSet r)) look 2 "inet6_route_address_set" TableFamilyIPv6 true ++
  dst_guard (has_sets (enableIPv4 r) (routeExcludeAddressSet r)) look 3 "inet4_route_exclude_address_set" TableFamilyIPv4 false ++
  dst_guard (has_sets (enableIPv6 r) (routeExcludeAddressSet r)) look 4 "inet6_route_exclude_address_set" TableFamilyIPv6 false ++
  [((p_l4proto p =? IPPROTO_TCP) && p_mptcp p, if ExcludeMPTCP o then Returned else Dropped)].
Lemma emits_dst ch b id name family invert : family = TableFamilyIPv4 \/ family = TableFamilyIPv6 ->
  emits le p (nwhen b (nftablesCreateExcludeDestinationIPSet ch id name family invert)) ch (fun sets _ _ => dst_guard b (look_in sets) id name family invert).
Proof. intros Hf. apply (emits_when le p b _ ch (fun sets _ _ => _)). by apply exclude_dst_emits. Qed.
Lemma exclude_emits ch : ch_Hooknum ch = ChainHookPrerouting -> emits le p (nftablesCreateExcludeRules le os r ch) ch (fun sets _ _ => exclude_guards ch (look_in sets)).
Proof.
  intros Hch. unfold nftablesCreateExcludeRules, exclude_destinations, exclude_guards. cbv zeta. fold o. rewrite Hch. rewrite (bool_decide_eq_true_2 (ChainHookPrerouting = ChainHookPrerouting)) by done. rewrite (bool_decide_eq_false_2 (ChainHookPrerouting = ChainHookOutput)) by done.
  rewrite andb_true_r, andb_false_r. destruct Hr as (_ & _ & _ & _ & _ & Hps & _). fold o in Hps. rewrite !Forall_app in Hps. destruct Hps as (Hp4 & Hp6 & He4 & He6).
  apply (emits_seq le p _ _ ch (fun _ _ _ => _)); [apply (emits_when le p _ _ ch (fun _ _ _ => _)), dnat_rule_emits|].
  change (nwhen false (exclude_output le r ch)) with (nret tt : nft unit).
  refine (emits_seq le p (nret tt) _ ch (fun _ _ _ => []) _ (emits_nret le p ch) _).
  apply (emits_seq le p _ _ ch (fun _ _ _ => _)); [apply exclude_prerouting_emits|].
  do 4 (apply (emits_seq le p _ _ ch (fun _ _ _ => _)); [by apply route_rule_emits; [auto|]|]).
  apply (emits_seq le p _ _ ch (fun sets _ _ => _)); [apply (emits_when le p _ _ ch (fun sets _ _ => _)), hijack_emits|].
  do 6 (apply (emits_seq le p _ _ ch (fun sets _ _ => _)); [apply emits_dst; auto|]).
  apply mptcp_emits.
Qed.
End Guards.
