(* ===== verification/RedirectSpec.v ===== *)
(** * What the chain of auto-redirect does with a packet that arrives

    After setupNFTables the chain "prerouting" decides about a packet as a list
    of conditions on the packet, the options and the addresses of the host. *)
From Stdlib Require Import String Ascii.
From S2P Require Import Prelude Bytes GoMem TsChecksum Netip TunOptions TunRules TunRulesSpec RouteMark Netlink Nft NftSpec RedirectNft RedirectSets RedirectGuards.
#[local] Open Scope nft_scope.

Section Named.
Context `{SetLookup} `{IPRangesPackage} (r : autoRedirect).
Let o := tunOptions r.

(** ** The named sets *)

Definition set_name (id : Z) : string :=
  if id =? 1 then "inet4_route_address_set" else if id =? 2 then "inet6_route_address_set"
  else if id =? 3 then "inet4_route_exclude_address_set" else if id =? 4 then "inet6_route_exclude_address_set"
  else if id =? 5 then "inet4_local_address_set" else if id =? 6 then "inet6_local_address_set"
  else if id =? 7 then "inet4_local_redirect_address_set" else "inet6_local_redirect_address_set".
Definition set_family (id : Z) : Z := if Z.odd id then TableFamilyIPv4 else TableFamilyIPv6.
(** What is in the set with the number [id]. *)
Definition member (id : Z) (a : netip.Addr) : bool :=
  if id <=? 2 then existsb (fun s => set_covers s a) (routeAddressSet r)
  else if id <=? 4 then existsb (fun s => set_covers s a) (routeExcludeAddressSet r)
  else if id =? 5 then covered (List.filter (fun it => netip.Is4 (netip.pf_addr it)) (localAddresses r)) a
  else if id =? 6 then covered (List.filter (fun it => Is6 (netip.pf_addr it)) (localAddresses r)) a
  else if id =? 7 then bool_decide (a ∈ Inet4LoopbackAddress o) else bool_decide (a ∈ Inet6LoopbackAddress o).
Definition described (s : nft_set) : Prop :=
  s_Anonymous s = false /\ s_Name s = set_name (s_ID s) /\
  forall a, of_family_addr (set_family (s_ID s)) a -> set_has s (netip.AsSlice a) = member (s_ID s) a.
Lemma set_name_inj a b : 1 <= a < b -> b <= 8 -> set_name a <> set_name b.
Proof.
  intros Ha Hb. assert (a = 1 \/ a = 2 \/ a = 3 \/ a = 4 \/ a = 5 \/ a = 6 \/ a = 7) as Ea by lia.
  assert (b = 2 \/ b = 3 \/ b = 4 \/ b = 5 \/ b = 6 \/ b = 7 \/ b = 8) as Eb by lia.
  repeat destruct Ea as [-> |Ea]; try subst a; repeat destruct Eb as [-> |Eb]; try subst b; try lia; done.
Qed.
(** The numbers of the sets sent so far stay below [hi]. *)
Definition below (hi : Z) (s : nft_set) : Prop := described s /\ 1 <= s_ID s < hi.
Definition sends (x : nft unit) (lo hi : Z) (ids : list Z) : Prop :=
  forall c c', x c = (c', inr tt) -> Forall (below lo) (c_sets c) -> exists ns,
    c_sets c' = c_sets c ++ ns /\ map s_ID ns = ids /\ Forall (below hi) ns /\
    c_rules c' = c_rules c /\ c_chains c' = c_chains c /\ c_allocSetID c' = c_allocSetID c.
Lemma below_le lo hi s : lo <= hi -> below lo s -> below hi s.
Proof. intros ? [? ?]. split; [done|lia]. Qed.
Lemma sends_nret lo hi : sends (nret tt) lo hi [].
Proof. intros c c' [= <-] _. exists []. by rewrite app_nil_r. Qed.
Lemma sends_seq x y a b d L L' : a <= b -> b <= d -> sends x a b L -> sends y b d L' -> sends (x ;;~ y) a d (L ++ L').
Proof.
  intros Hab Hbd Hx Hy c c'. unfold nbind. destruct (x c) as [c1 [e|[]]] eqn:Ex; [done|]. intros Ey Hc.
  destruct (Hx c c1 Ex Hc) as (n1 & S1 & L1 & B1 & R1 & C1 & A1).
  destruct (Hy c1 c' Ey) as (n2 & S2 & L2 & B2 & R2 & C2 & A2).
  { rewrite S1. apply Forall_app. split; [|done]. eapply Forall_impl; [exact Hc|]. intros s. by apply below_le. }
  exists (n1 ++ n2). split_and!; [by rewrite S2, S1, app_assoc|by rewrite map_app, L1, L2| |by rewrite R2|by rewrite C2|by rewrite A2].
  apply Forall_app. split; [|done]. eapply Forall_impl; [exact B1|]. intros s. by apply below_le.
Qed.
Lemma sends_when (b : bool) x lo hi L : sends x lo hi L -> sends (nwhen b x) lo hi (if b then L else []).
Proof. destruct b; [done|]. intros _. apply sends_nret. Qed.
Lemma below_new id c : 1 <= id <= 8 -> Forall (below id) (c_sets c) -> new_name (set_name id) c.
Proof.
  intros Hid Hb. eapply Forall_impl; [exact Hb|]. intros s [(Ha & Hn & _) Hlt]. unfold named_as. rewrite Ha, Hn. cbn. apply String.eqb_neq. apply set_name_inj; lia.
Qed.
Lemma sends_ipset id ss ps default : 1 <= id <= 6 -> Forall valid_prefix ps ->
  (forall a, valid_addr a -> covered ps a || existsb (fun x => set_covers x a) ss = member id a) ->
  (default = true -> exists a, of_family_addr (set_family id) a /\ member id a = true) ->
  sends (nftablesCreateIPSet id (set_name id) (set_family id) ss ps default false ;;~ nret tt) id (id + 1) [id].
Proof.
  intros Hid Hps Hm Hdef c c'. unfold nbind. destruct (nftablesCreateIPSet _ _ _ _ _ _ _ c) as [c1 [e|s]] eqn:E; [done|]. intros [= <-] Hc.
  apply nftablesCreateIPSet_named in E as (rs & ER & S1 & C1 & R1 & A1); [|lia|apply below_new; [lia|done]].
  eexists. split; [exact S1|]. split; [done|]. split_and!; [|done..]. constructor; [|constructor]. split; [|cbn; lia]. split; [done|]. split; [done|]. cbn [s_ID]. intros a Ha.
  assert (ipset_elements (set_family id) rs default = flat_map (range_elements (set_family id)) rs) as EE.
  { unfold ipset_elements. destruct default; [|done]. cbn [andb]. destruct (Hdef eq_refl) as (w & Hw & Hmw). rewrite <- Hm in Hmw by apply Hw.
    destruct (flat_map (range_elements (set_family id)) rs) as [|e es] eqn:EF; [|done]. exfalso.
    rewrite <- (ipset_member (set_family id) ps ss rs (mkSet id "" false true []) w) in Hmw; [|done|done|done|by rewrite EF|done].
    rewrite set_has_intervals in Hmw; [done|done| |constructor|done]. destruct Hw as [[Hww Hwv] _]. destruct w; [done|by destruct Hww|by destruct Hww]. }
  rewrite (ipset_member (set_family id) ps ss rs _ a); [|done|done|done|done|done]. apply Hm, Ha.
Qed.
Lemma sends_const id addrs : 7 <= id <= 8 -> Forall (of_family_addr (set_family id)) addrs ->
  (forall a, of_family_addr (set_family id) a -> bool_decide (a ∈ addrs) = member id a) ->
  sends (nftablesCreateIPConst id (set_name id) addrs ;;~ nret tt) id (id + 1) [id].
Proof.
  intros Hid Hv Hm c c'. unfold nbind. destruct (nftablesCreateIPConst _ _ _ c) as [c1 [e|s]] eqn:E; [done|]. intros [= <-] Hc.
  apply nftablesCreateIPConst_named in E as (S1 & C1 & R1 & A1); [|lia|apply below_new; [lia|done]].
  eexists. split; [exact S1|]. split; [done|]. split_and!; [|done..]. constructor; [|constructor]. split; [|cbn; lia]. split; [done|]. split; [done|]. cbn [s_ID]. intros a Ha.
  assert (forall b, of_family_addr (set_family id) b -> length (netip.AsSlice b) = family_bits (set_family id) /\ bytes (netip.AsSlice b)) as HB.
  { intros b Hb. pose proof (family_BitLen _ _ Hb) as HL. unfold netip.BitLen, Zlen in HL. split; [lia|]. destruct Hb as [[Hwf HV] _]. destruct b; [done|by destruct Hwf|by destruct Hwf]. }
  rewrite set_has_keys; [|done|cbn [s_Elements]; apply Forall_map; eapply Forall_impl; [exact Hv|]; intros b Hb; cbn; destruct (HB b Hb) as [-> ?]; by destruct (HB a Ha) as [-> _]].
  rewrite <- Hm by done. cbn [s_Elements]. rewrite map_map. cbn [Key]. apply bool_decide_ext. change (map (fun x => netip.AsSlice x) addrs) with (netip.AsSlice <$> addrs). rewrite list_elem_of_fmap. split.
  - intros (b & E & Hb). rewrite Forall_forall in Hv. specialize (Hv b Hb). assert (a = b) as ->; [|done].
    destruct Ha as [[Hwa _] _], Hv as [[Hwb _] _]. apply netip.wf_inj; [done|done| |]; unfold netip.BitLen, netip.val; by rewrite E.
  - intros Hin. by exists a.
Qed.

(** What the sets need of the options and of the host's addresses; an empty set
    of routed addresses is left out. *)
Definition sets_ok : Prop :=
  Forall (of_family_addr TableFamilyIPv4) (Inet4LoopbackAddress o) /\ Forall (of_family_addr TableFamilyIPv6) (Inet6LoopbackAddress o) /\
  (routeAddressSet r <> [] -> forall family, family = TableFamilyIPv4 \/ family = TableFamilyIPv6 ->
    exists a, of_family_addr family a /\ existsb (fun s => set_covers s a) (routeAddressSet r) = true).
Definition ids_when (b : bool) (id : Z) : list Z := if b then [id] else [].
Lemma sends_in x a b c' d L : a <= b -> c' <= d -> b <= c' -> sends x b c' L -> sends x a d L.
Proof.
  intros Hab Hcd Hbc Hx c c1 E Hc. destruct (Hx c c1 E) as (ns & S1 & L1 & B1 & R1).
  { eapply Forall_impl; [exact Hc|]. intros s. by apply below_le. }
  exists ns. split; [done|]. split; [done|]. split; [|done]. eapply Forall_impl; [exact B1|]. intros s. apply below_le. lia.
Qed.
Lemma address_sets_sends : sets_ok -> sends (nftablesCreateAddressSets r false) 1 5
  ((if has_sets true (routeAddressSet r) then ids_when (enableIPv4 r) 1 ++ ids_when (enableIPv6 r) 2 else []) ++
   (if has_sets true (routeExcludeAddressSet r) then ids_when (enableIPv4 r) 3 ++ ids_when (enableIPv6 r) 4 else [])).
Proof.
  intros (_ & _ & Hne). unfold nftablesCreateAddressSets.
  assert (forall id, 1 <= id <= 2 -> routeAddressSet r <> [] -> sends (nftablesCreateIPSet id (set_name id) (set_family id) (routeAddressSet r) [] true false ;;~ nret tt) id (id + 1) [id]) as H1.
  { intros id Hid HN. apply sends_ipset; [lia|constructor| |].
    - intros a _. unfold member. by replace (id <=? 2) with true by lia.
    - intros _. unfold member. replace (id <=? 2) with true by lia. apply Hne; [done|]. unfold set_family. destruct (Z.odd id); auto. }
  assert (forall id, 3 <= id <= 4 -> sends (nftablesCreateIPSet id (set_name id) (set_family id) (routeExcludeAddressSet r) [] false false ;;~ nret tt) id (id + 1) [id]) as H3.
  { intros id Hid. apply sends_ipset; [lia|constructor| |done]. intros a _. unfold member. replace (id <=? 2) with false by lia. by replace (id <=? 4) with true by lia. }
  assert (sends (nwhen (has_sets true (routeAddressSet r))
      (nwhen (enableIPv4 r) (nftablesCreateIPSet 1 "inet4_route_address_set" TableFamilyIPv4 (routeAddressSet r) [] true false ;;~ nret tt) ;;~
       nwhen (enableIPv6 r) (nftablesCreateIPSet 2 "inet6_route_address_set" TableFamilyIPv6 (routeAddressSet r) [] true false ;;~ nret tt))) 1 3
      (if has_sets true (routeAddressSet r) then ids_when (enableIPv4 r) 1 ++ ids_when (enableIPv6 r) 2 else [])) as HA.
  { destruct (has_sets true (routeAddressSet r)) eqn:EH; [|apply sends_nret]. assert (routeAddressSet r <> []) as HN by (intros E; by rewrite E in EH).
    apply (sends_seq _ _ 1 2 3); [lia|lia| |]; apply sends_when; [apply (H1 1)|apply (H1 2)]; try done. }
  assert (sends (nwhen (has_sets true (routeExcludeAddressSet r))
      (nwhen (enableIPv4 r) (nftablesCreateIPSet 3 "inet4_route_exclude_address_set" TableFamilyIPv4 (routeExcludeAddressSet r) [] false false ;;~ nret tt) ;;~
       nwhen (enableIPv6 r) (nftablesCreateIPSet 4 "inet6_route_exclude_address_set" TableFamilyIPv6 (routeExcludeAddressSet r) [] false false ;;~ nret tt))) 3 5
      (if has_sets true (routeExcludeAddressSet r) then ids_when (enableIPv4 r) 3 ++ ids_when (enableIPv6 r) 4 else [])) as HB.
  { apply sends_when, (sends_seq _ _ 3 4 5); [lia|lia| |]; apply sends_when; [apply (H3 3)|apply (H3 4)]; done. }
  pose proof (sends_seq _ _ 1 3 5 _ _ ltac:(lia) ltac:(lia) HA HB) as HAB. unfold has_sets in *. cbn [andb] in *.
  destruct (routeAddressSet r) as [|x xs]; [|exact HAB]. destruct (routeExcludeAddressSet r) as [|y ys]; [apply sends_nret|exact HAB].
Qed.
Lemma local_sets_sends : Forall valid_prefix (localAddresses r) ->
  sends (nftablesCreateLocalAddressSets r (localAddresses r) []) 5 7 (ids_when (enableIPv4 r) 5 ++ ids_when (enableIPv6 r) 6).
Proof.
  intros Hv. assert (forall f : netip.Addr -> bool, Forall valid_prefix (List.filter (fun it => f (netip.pf_addr it)) (localAddresses r))) as HF.
  { intros f. apply Forall_forall. intros x Hx. apply list_elem_of_In, filter_In in Hx as [Hx _]. rewrite Forall_forall in Hv. by apply Hv, list_elem_of_In. }
  unfold nftablesCreateLocalAddressSets, local_set, local_update. cbn [length andb negb]. rewrite bool_decide_eq_true_2 by done. cbn [negb andb orb].
  apply (sends_seq _ _ 5 6 7); [lia|lia| |]; apply sends_when.
  - apply (sends_ipset 5); [lia|apply HF| |done]. intros a _. by rewrite orb_false_r.
  - apply (sends_ipset 6); [lia|apply HF| |done]. intros a _. by rewrite orb_false_r.
Qed.
Lemma loopback_sets_sends : sets_ok -> sends (nftablesCreateLoopbackAddressSets r) 7 9
  (ids_when (enableIPv4 r && negb (bool_decide (Inet4LoopbackAddress o = []))) 7 ++ ids_when (enableIPv6 r && negb (bool_decide (Inet6LoopbackAddress o = []))) 8).
Proof.
  intros (H4 & H6 & _). unfold nftablesCreateLoopbackAddressSets. fold o.
  apply (sends_seq _ _ 7 8 9); [lia|lia| |]; apply sends_when; [by apply (sends_const 7)|by apply (sends_const 8)].
Qed.
End Named.

(** ** Work on other chains *)

Section Quiet.
Context `{IPRangesPackage} (le : bool) (os : GOOS) (r : autoRedirect) (name : string).

(** Only rules of other chains and anonymous sets. *)
Definition quiet {A} (x : nft A) : Prop :=
  forall c c' a, x c = (c', inr a) -> exists ss rs,
    c_sets c' = c_sets c ++ ss /\ fresh (c_allocSetID c) (c_allocSetID c') ss /\
    c_rules c' = c_rules c ++ rs /\ Forall (fun q => String.eqb q.1 name = false) rs.
Lemma quiet_nret {A} (a : A) : quiet (nret a).
Proof. intros c c' b [= <- _]. exists [], []. rewrite !app_nil_r. split_and!; [done|cbn; lia|done|done]. Qed.
Lemma quiet_nfail {A} e : quiet (nfail (A := A) e).
Proof. intros c c' b [=]. Qed.
Lemma quiet_bind {A B} (x : nft A) (f : A -> nft B) : quiet x -> (forall a, quiet (f a)) -> quiet (nbind x f).
Proof.
  intros Hx Hf c c' b. unfold nbind. destruct (x c) as [c1 [e|a]] eqn:Ex; [done|]. intros Ef.
  destruct (Hx c c1 a Ex) as (s1 & r1 & S1 & F1 & R1 & N1). destruct (Hf a c1 c' b Ef) as (s2 & r2 & S2 & F2 & R2 & N2).
  exists (s1 ++ s2), (r1 ++ r2). split_and!; [by rewrite S2, S1, app_assoc|by eapply fresh_app|by rewrite R2, R1, app_assoc|by apply Forall_app].
Qed.
Lemma quiet_when b x : quiet x -> quiet (nwhen b x).
Proof. destruct b; [done|]. intros _. apply quiet_nret. Qed.
Lemma quiet_for {A} (l : list A) f : (forall x, quiet (f x)) -> quiet (nfor l f).
Proof. intros Hf. induction l as [|x l IH]; [apply quiet_nret|]. cbn [nfor]. apply quiet_bind; [apply Hf|done]. Qed.
Lemma quiet_rule ch es : String.eqb (ch_Name ch) name = false -> quiet (AddRule ch es).
Proof. intros Hn c c' a [= <- _]. exists [], [(ch_Name ch, es)]. split_and!; [by rewrite app_nil_r|cbn; lia|done|by repeat constructor]. Qed.
Lemma quiet_chain ch : quiet (AddChain ch).
Proof. intros c c' a [= <- _]. exists [], []. cbn. rewrite !app_nil_r. split_and!; [done|lia|done|done]. Qed.
Lemma quiet_attempt : quiet attempt.
Proof. intros c c' a E. apply attempt_ok in E as (S1 & C1 & R1 & A1). exists [], []. rewrite S1, R1, A1, !app_nil_r. split_and!; [done|cbn; lia|done|done]. Qed.
Lemma quiet_set interval els : quiet (AddSet (anonymous interval) els).
Proof.
  intros c c' a. unfold AddSet, nbind. destruct (attempt c) as [c1 [e|[]]] eqn:E; [done|]. apply attempt_ok in E as (S1 & C1 & R1 & A1). cbn. intros [= <- _].
  eexists [_], []. cbn. rewrite S1, R1, A1, app_nil_r. split_and!; [done|done|done|cbn; lia|cbn; lia|done|done].
Qed.
Lemma quiet_ipset family ps : quiet (nftablesCreateIPSet 0 "" family [] ps false false).
Proof.
  intros c c' s E. apply nftablesCreateIPSet_anonymous in E as (rs & _ & -> & S1 & C1 & R1 & A1). eexists [_], []. rewrite app_nil_r. split_and!; [exact S1| |done|done].
  rewrite A1. cbn. split_and!; try done; lia.
Qed.
Lemma quiet_if {A} (b : bool) (x y : nft A) : quiet x -> quiet y -> quiet (if b then x else y).
Proof. by destruct b. Qed.

Context (ch : chain) (Hch : String.eqb (ch_Name ch) name = false).
Ltac quiet1 := first [apply quiet_nret | apply quiet_nfail | by apply quiet_rule | apply quiet_set | apply quiet_ipset | apply quiet_when | apply quiet_if | apply quiet_for; intros | apply quiet_bind; intros].
Ltac quiet := repeat quiet1.
Lemma quiet_ifname names e : quiet (ifname_rule ch names e).
Proof. unfold ifname_rule. destruct names as [|n [|n' names]]; quiet. Qed.
Lemma quiet_mac macs e : quiet (mac_rule ch macs e).
Proof. unfold mac_rule. destruct macs as [|n [|n' macs]]; quiet. Qed.
Lemma quiet_uid uids e : quiet (uid_rule le ch uids e).
Proof. unfold uid_rule. destruct uids as [|n [|n' uids]]; quiet. Qed.
Lemma quiet_route family ps i : quiet (route_rule ch family ps i).
Proof. unfold route_rule, nftablesCreateExcludeDestinationIPSet. destruct ps; quiet. Qed.
Lemma quiet_hijack_family family id n d : quiet (nftablesCreateDNSHijackRulesForFamily le r ch family id n d).
Proof. unfold nftablesCreateDNSHijackRulesForFamily. cbv zeta. quiet. destruct (if family =? TableFamilyIPv4 then _ else _) as [e|[|x l]]; quiet. Qed.
Lemma quiet_hijack : quiet (nftablesCreateConfiguredDNSHijackRules le r ch).
Proof.
  unfold nftablesCreateConfiguredDNSHijackRules. apply quiet_for. intros family. apply quiet_if; [apply quiet_nret|].
  destruct (if family =? TableFamilyIPv6 then _ else _) as [id n]. destruct (DNSHijack (tunOptions r)); [|apply quiet_hijack_family]. apply quiet_for. intros d. cbv zeta.
  apply quiet_if; [apply quiet_nret|apply quiet_hijack_family].
Qed.
Lemma quiet_exclude : quiet (nftablesCreateExcludeRules le os r ch).
Proof.
  unfold nftablesCreateExcludeRules, exclude_destinations, exclude_output, exclude_prerouting, exclude_uids, nftablesCreateExcludeDestinationIPSet. cbv zeta.
  repeat first [apply quiet_ifname | apply quiet_mac | apply quiet_uid | apply quiet_route | apply quiet_hijack | quiet1].
Qed.
Lemma quiet_unreachable : quiet (nftablesCreateUnreachable r ch).
Proof. unfold nftablesCreateUnreachable. quiet. Qed.
Lemma quiet_redirect es : quiet (nftablesCreateRedirect r ch es).
Proof. unfold nftablesCreateRedirect. cbv zeta. quiet. Qed.
Lemma quiet_reroute : quiet (nftablesCreateLoopbackReroute le r ch).
Proof. unfold nftablesCreateLoopbackReroute. cbv zeta. quiet. Qed.
Lemma quiet_mark : quiet (nftablesCreateMark le r ch).
Proof. unfold nftablesCreateMark. quiet. Qed.
End Quiet.
Create HintDb quiet.
#[export] Hint Resolve quiet_nret quiet_chain quiet_exclude quiet_unreachable quiet_redirect quiet_reroute quiet_mark quiet_when quiet_if quiet_bind quiet_set quiet_rule quiet_for quiet_attempt : quiet.
Lemma quiet_setup_output `{IPRangesPackage} le os r : quiet "prerouting" (setup_output le os r).
Proof. unfold setup_output. cbv zeta. repeat first [by auto with quiet | apply quiet_if | apply quiet_when | apply quiet_bind; intros]. Qed.

(** ** The rules of one chain *)

Definition own (name : string) (rs : list (string * list expr)) : list (list expr) := map snd (List.filter (fun q => String.eqb q.1 name) rs).
Lemma own_app name a b : own name (a ++ b) = own name a ++ own name b.
Proof. unfold own. by rewrite List.filter_app, map_app. Qed.
Lemma own_other name rs : Forall (fun q : string * list expr => String.eqb q.1 name = false) rs -> own name rs = [].
Proof. unfold own. induction 1 as [|q rs Hq _ IH]; [done|]. cbn. by rewrite Hq. Qed.
Lemma own_all name rs : own name (map (pair name) rs) = rs.
Proof. unfold own. induction rs as [|q rs IH]; [done|]. cbn. rewrite String.eqb_refl. cbn. by rewrite IH. Qed.
Lemma nbind_regroup {A} (x y z : nft unit) (k : nft A) c : (x ;;~ y ;;~ z ;;~ k) c = ((x ;;~ y ;;~ z) ;;~ k) c.
Proof. unfold nbind. destruct (x c) as [c1 [e|[]]]; [done|]. destruct (y c1) as [c2 [e|[]]]; [done|]. by destruct (z c2) as [c3 [e|[]]]. Qed.
Lemma nbind_ok {A B} (x : nft A) (f : A -> nft B) c c' b : nbind x f c = (c', inr b) -> exists c1 a, x c = (c1, inr a) /\ f a c1 = (c', inr b).
Proof. unfold nbind. destruct (x c) as [c1 [e|a]]; [done|]. eauto. Qed.

Section Spec.
Context `{SetLookup} `{IPRangesPackage} (le : bool) (os : GOOS) (r : autoRedirect) (p : packet).
Let o := tunOptions r.
Context (Hp : packet_ok p) (Hr : redirect_ok r) (Hs : sets_ok r) (Hl : Forall valid_prefix (localAddresses r)).

Definition unreachable_guards : list guard :=
  if (enableIPv4 r && enableIPv6 r) || negb (StrictRoute o) then [] else [(family_of p (if enableIPv4 r then TableFamilyIPv6 else TableFamilyIPv4), Rejected)].
Definition chain_guards (look : Z -> string -> bool -> netip.Addr -> bool) : list guard :=
  exclude_guards os r p chainPreRouting look ++ unreachable_guards ++ redirect_guards r p look true.
Lemma chain_emits : emits le p (nftablesCreateExcludeRules le os r chainPreRouting ;;~ nftablesCreateUnreachable r chainPreRouting ;;~ nftablesCreateRedirect r chainPreRouting [])
  chainPreRouting (fun sets _ _ => chain_guards (look_in sets)).
Proof.
  unfold chain_guards. apply (emits_seq le p _ _ chainPreRouting (fun sets _ _ => _)); [by apply exclude_emits|].
  apply (emits_seq le p _ _ chainPreRouting (fun sets _ _ => _)); [by apply unreachable_emits|]. apply redirect_emits; [done|]. intros sets. apply checks_nil.
Qed.

(** *** Sets by their contents *)

Definition content (id : Z) (name : string) (invert : bool) (a : netip.Addr) : bool := xorb invert (member r id a).
(** The sets sent for the options. *)
Definition sent_ids : list Z :=
  (if has_sets true (routeAddressSet r) then ids_when (enableIPv4 r) 1 ++ ids_when (enableIPv6 r) 2 else []) ++
  (if has_sets true (routeExcludeAddressSet r) then ids_when (enableIPv4 r) 3 ++ ids_when (enableIPv6 r) 4 else []) ++
  (ids_when (enableIPv4 r) 5 ++ ids_when (enableIPv6 r) 6) ++
  (ids_when (enableIPv4 r && negb (bool_decide (Inet4LoopbackAddress o = []))) 7 ++ ids_when (enableIPv6 r && negb (bool_decide (Inet6LoopbackAddress o = []))) 8).
Definition shows (sets : list nft_set) : Prop :=
  forall id invert a, id ∈ sent_ids -> of_family_addr (set_family id) a -> look_in sets id (set_name id) invert a = content id (set_name id) invert a.
Lemma find_named hi ns ss s : hi <= 9 -> Forall (below r hi) ns -> Forall (fun t => s_Anonymous t = true) ss -> NoDup (map s_ID ns) -> s ∈ ns -> find_set (ns ++ ss) (s_ID s) (s_Name s) = Some s.
Proof.
  intros Hhi Hb Hss Hnd Hin. unfold find_set. induction ns as [|t ns IH]; [by apply elem_of_nil in Hin|]. cbn [map app find] in *. apply Forall_cons in Hb as [Ht Hb]. apply NoDup_cons in Hnd as [Hn Hnd].
  assert (s_Anonymous t = false /\ s_Name t = set_name (s_ID t)) as [-> HN] by (destruct Ht as [(? & ? & _) _]; done). apply elem_of_cons in Hin as [->|Hin].
  - by rewrite String.eqb_refl.
  - assert (s_ID t <> s_ID s) as Hne by (intros E; apply Hn; rewrite E; apply (list_elem_of_fmap_2 s_ID); done).
    rewrite (proj2 (String.eqb_neq _ _)); [by apply IH|]. rewrite Forall_forall in Hb. destruct (Hb s Hin) as [(_ & HN' & _) Hr2]. rewrite HN, HN'. destruct Ht as [_ Hr1].
    destruct (Z.lt_total (s_ID t) (s_ID s)) as [?|[?|?]]; [apply set_name_inj; lia|done|intros E; symmetry in E; revert E; apply set_name_inj; lia].
Qed.
Lemma sent_nodup : NoDup sent_ids.
Proof.
  unfold sent_ids, ids_when. destruct (has_sets true (routeAddressSet r)), (has_sets true (routeExcludeAddressSet r)), (enableIPv4 r), (enableIPv6 r), (bool_decide (Inet4LoopbackAddress o = [])), (bool_decide (Inet6LoopbackAddress o = [])); cbn [andb negb app];
    apply (bool_decide_unpack _); by vm_compute.
Qed.
Lemma fresh_anonymous lo hi ss : fresh lo hi ss -> Forall (fun t => s_Anonymous t = true) ss.
Proof. revert lo. induction ss as [|s ss IH]; intros lo; [constructor|]. intros (? & ? & ? & ?). constructor; [done|]. by eapply IH. Qed.
Lemma sent_shows ns ss lo hi : Forall (below r 9) ns -> map s_ID ns = sent_ids -> fresh lo hi ss -> shows (ns ++ ss).
Proof.
  intros Hb Hids Hf id invert a Hin Ha. rewrite <- Hids in Hin. apply list_elem_of_fmap in Hin as (s & -> & Hin). pose proof Hb as HB. rewrite Forall_forall in HB.
  destruct (HB s Hin) as [(_ & HN & HM) _]. unfold look_in, set_match. rewrite <- HN, (find_named 9 ns ss s); [|done|done|by eapply fresh_anonymous|rewrite Hids; apply sent_nodup|done].
  unfold content. f_equal. by apply HM.
Qed.
Lemma dst_eq sets b id invert : shows sets -> (b = true -> id ∈ sent_ids) ->
  dst_guard p b (look_in sets) id (set_name id) (set_family id) invert = dst_guard p b content id (set_name id) (set_family id) invert.
Proof.
  intros HS Hb. unfold dst_guard. destruct b; [|done]. destruct (family_of p (set_family id)) eqn:EF; [|done]. rewrite HS; [done|by apply Hb|].
  apply dst_family; [done| |done]. unfold set_family. destruct (Z.odd id); auto.
Qed.
Ltac sent := unfold sent_ids, ids_when, has_sets in *; cbn [andb] in *;
  repeat match goal with HE : _ && _ = true |- _ => apply andb_true_iff in HE as [? ?] end;
  repeat match goal with HE : ?b = true |- _ => rewrite HE end; rewrite !elem_of_app, ?elem_of_cons; tauto.
Lemma src_family family : family = TableFamilyIPv4 \/ family = TableFamilyIPv6 -> family_of p family = true -> of_family_addr family (p_src p).
Proof.
  destruct Hp as (_ & _ & _ & _ & [(s & d & Es & Ed & Hs' & Hd)|(s & d & Es & Ed & Hs' & Hd)] & _); unfold family_of, nfproto, of_family_addr; rewrite Es, Ed; intros [->| ->]; cbn; intros; try done; by split.
Qed.
Lemma hijack_eq sets family d : shows sets -> family = TableFamilyIPv4 \/ family = TableFamilyIPv6 -> disabled r family = false ->
  hijack_guard r p chainPreRouting family (local_set_of family).1 (local_set_of family).2 d (look_in sets) =
  hijack_guard r p chainPreRouting family (local_set_of family).1 (local_set_of family).2 d content.
Proof.
  intros HS Hf Hd. unfold hijack_guard. destruct (if family =? TableFamilyIPv4 then _ else _) as [e|[|x l]]; [done|done|]. destruct (family_of p family) eqn:EF; [|done].
  cbn [ch_Hooknum chainPreRouting]. rewrite (bool_decide_eq_false_2 (ChainHookPrerouting = ChainHookOutput)) by done. destruct (any_dest d); [|done].
  pose proof (src_family family Hf EF) as HF. assert (look_in sets (local_set_of family).1 (local_set_of family).2 false (p_src p) = content (local_set_of family).1 (local_set_of family).2 false (p_src p)) as ->; [|done].
  destruct Hf as [->| ->]; unfold disabled in Hd.
  - apply (HS 5 false); [|done]. destruct (enableIPv4 r) eqn:HE; [sent|done].
  - apply (HS 6 false); [|done]. destruct (enableIPv6 r) eqn:HE; [sent|done].
Qed.
Lemma redirect_eq sets : shows sets -> redirect_guards r p (look_in sets) true = redirect_guards r p content true.
Proof.
  intros HS. unfold redirect_guards. fold o. destruct (_ && bool_decide (Inet6LoopbackAddress o = [])); [done|]. f_equal.
  - destruct (enableIPv4 r) eqn:E4; [|done]. destruct (family_of p TableFamilyIPv4) eqn:EF; [|done]. destruct (bool_decide (Inet4LoopbackAddress o = [])) eqn:EL; [done|]. cbn [orb andb].
    pose proof (HS 7 true (p_dst p)) as HL; cbn [set_name Z.eqb Pos.eqb] in HL; rewrite HL; [done| |by apply dst_family; auto]. unfold sent_ids. rewrite E4, EL. rewrite !elem_of_app. cbn. rewrite !elem_of_cons. tauto.
  - destruct (enableIPv6 r) eqn:E6; [|done]. destruct (family_of p TableFamilyIPv6) eqn:EF; [|done]. destruct (bool_decide (Inet6LoopbackAddress o = [])) eqn:EL; [done|]. cbn [orb andb].
    pose proof (HS 8 true (p_dst p)) as HL; cbn [set_name Z.eqb Pos.eqb] in HL; rewrite HL; [done| |by apply dst_family; auto]. unfold sent_ids. rewrite E6, EL. rewrite !elem_of_app. cbn. rewrite !elem_of_cons. tauto.
Qed.
Lemma exclude_eq sets : shows sets -> exclude_guards os r p chainPreRouting (look_in sets) = exclude_guards os r p chainPreRouting content.
Proof.
  intros HS. unfold exclude_guards. do 6 f_equal. f_equal; [|f_equal; [|f_equal; [|f_equal; [|f_equal; [|f_equal; [|f_equal]]]]]].
  - destruct (hijacks_dns _ _ _); [|done]. cbn [flat_map].
    assert (forall f, f = TableFamilyIPv4 \/ f = TableFamilyIPv6 -> hijack_family_guards r p chainPreRouting f (look_in sets) = hijack_family_guards r p chainPreRouting f content) as HF; [|by rewrite !HF by auto].
    intros f Hf. unfold hijack_family_guards. destruct (disabled r f) eqn:ED; [done|]. destruct (DNSHijack (tunOptions r)) as [ds|]; [|by apply hijack_eq].
    induction ds as [|d ds IH]; [done|]. cbn [flat_map]. rewrite IH. f_equal. destruct (other_family f d); [done|]. by apply hijack_eq.
  - apply (dst_eq sets (enableIPv4 r) 5 false HS). intros HE. sent.
  - apply (dst_eq sets (enableIPv6 r) 6 false HS). intros HE. sent.
  - apply (dst_eq sets _ 1 true HS). intros HE. sent.
  - apply (dst_eq sets _ 2 true HS). intros HE. sent.
  - apply (dst_eq sets _ 3 false HS). intros HE. sent.
  - apply (dst_eq sets _ 4 false HS). intros HE. sent.
Qed.
End Spec.

(** ** The chain as a whole *)

Section Chain.
Context `{SetLookup} `{IPRangesPackage} (le : bool) (os : GOOS) (r : autoRedirect) (p : packet).
Let o := tunOptions r.
Context (Hp : packet_ok p) (Hr : redirect_ok r) (Hs : sets_ok r) (Hl : Forall valid_prefix (localAddresses r)).

(** What happens to the packet and its marks. *)
Definition prerouting_decision (m : machine) : Z * Z * option outcome :=
  match first_match (chain_guards os r p (content r)) with
  | Some v => (m_mark m, m_ctmark m, Some v)
  | None => if AutoRedirectMarkMode o then (AutoRedirectInputMark o, AutoRedirectInputMark o, Some Returned) else (m_mark m, m_ctmark m, None)
  end.
Definition mark_exprs : list expr := [Immediate 1 (native32 le (AutoRedirectInputMark o))] ++ set_mark ++ copy_mark ++ return_.
Lemma mark_rule_view sets m : view (exec le sets p m mark_exprs) = (AutoRedirectInputMark o, AutoRedirectInputMark o, Some Returned).
Proof.
  destruct Hr as (_ & _ & _ & _ & _ & _ & (Hi & _) & _). unfold mark_exprs, view. cbn -[native32 of_native]. by rewrite of_native_native32, of_native_native32.
Qed.
Lemma prerouting_tail c c' : (nwhen (AutoRedirectMarkMode o)
    (nftablesCreateMark le r chainPreRouting ;;~
     nwhen (has_loopback o) (AddChain chainPreRoutingFilter ;;~ nftablesCreateLoopbackReroute le r chainPreRoutingFilter) ;;~
     AddChain chainPreRoutingUDP ;;~
     ipProto <~~ AddSet (anonymous false) udp_icmp ;;
     nfor (prerouting_udp_rules le o ipProto) (AddRule chainPreRoutingUDP))) c = (c', inr tt) ->
  exists ss rs, c_sets c' = c_sets c ++ ss /\ fresh (c_allocSetID c) (c_allocSetID c') ss /\ c_rules c' = c_rules c ++ rs /\
    own "prerouting" rs = if AutoRedirectMarkMode o then [mark_exprs] else [].
Proof.
  destruct (AutoRedirectMarkMode o); cbn [nwhen].
  - intros (c1 & [] & E1 & E2)%nbind_ok. injection E1 as <-.
    assert (quiet "prerouting" (nwhen (has_loopback o) (AddChain chainPreRoutingFilter ;;~ nftablesCreateLoopbackReroute le r chainPreRoutingFilter) ;;~
       AddChain chainPreRoutingUDP ;;~ ipProto <~~ AddSet (anonymous false) udp_icmp ;; nfor (prerouting_udp_rules le o ipProto) (AddRule chainPreRoutingUDP))) as HQ.
    { repeat first [by auto with quiet | apply quiet_when | apply quiet_bind; intros]. }
    destruct (HQ _ _ _ E2) as (ss & rs & S1 & F1 & R1 & N1). exists ss, (("prerouting"%string, mark_exprs) :: rs). split_and!; [done|done| |].
    + rewrite R1. cbn. by rewrite <- app_assoc.
    + change (?a :: ?b) with ([a] ++ b). rewrite own_app, (own_other _ rs) by done. done.
  - intros [= <-]. exists [], []. rewrite !app_nil_r. split_and!; [done|cbn; lia|done|done].
Qed.
Lemma setup_prerouting_view c c' ns ss : setup_prerouting le os r c = (c', inr tt) -> c_sets c = ns ++ ss -> Forall (below r 9) ns -> map s_ID ns = sent_ids r ->
  (exists lo, fresh lo (c_allocSetID c) ss) -> own "prerouting" (c_rules c) = [] ->
  forall m, view (run_chain le (c_sets c') p m (rules_of_chain c' "prerouting")) = prerouting_decision m.
Proof.
  intros E HC Hb Hids (lo & Hf) Hown. unfold setup_prerouting in E. cbv zeta in E. fold o in E. apply nbind_ok in E as (c1 & ch & E1 & E). injection E1 as <- _.
  rewrite nbind_regroup in E. apply nbind_ok in E as (c2 & [] & E2 & E3). destruct (chain_emits le os r p Hp Hr _ _ E2) as (s2 & r2 & (S2 & F2 & R2 & _) & A2).
  apply prerouting_tail in E3 as (s3 & r3 & S3 & F3 & R3 & O3). cbn in S2, F2, R2.
  assert (c_sets c' = ns ++ (ss ++ s2 ++ s3)) as HS by (rewrite S3, S2, HC, <- !app_assoc; done).
  assert (fresh lo (c_allocSetID c') (ss ++ s2 ++ s3)) as HF by (eapply fresh_app; [exact Hf|]; eapply fresh_app; done).
  assert (shows r (c_sets c')) as Hsh by (rewrite HS; by eapply sent_shows).
  assert (rules_of_chain c' "prerouting" = r2 ++ (if AutoRedirectMarkMode o then [mark_exprs] else [])) as HR.
  { unfold rules_of_chain. fold (own "prerouting" (c_rules c')). by rewrite R3, R2, !own_app, Hown, own_all, O3. }
  assert (found (c_sets c') s2) as Hfound.
  { rewrite HS. eapply found_final; [|exact HF|intros x Hx; rewrite !elem_of_app; tauto]. eapply Forall_impl; [exact Hb|]. intros s [(Ha & HN & _) Hid]. split; [done|]. rewrite HN. unfold set_name.
    repeat match goal with |- context [if ?b then _ else _] => destruct b; [done|] end. done. }
  intros m. rewrite HR, run_chain_app. specialize (A2 _ Hfound m). unfold prerouting_decision, chain_guards in *. rewrite exclude_eq, redirect_eq in A2 by done.
  destruct (run_chain le (c_sets c') p m r2) as [m' v]. unfold view in A2. cbn in A2. injection A2 as HM HK HV. unfold chain_guards. rewrite <- HV. destruct v as [v|]; [unfold view; cbn; by rewrite HM, HK|].
  destruct (AutoRedirectMarkMode o); [|unfold view; cbn; by rewrite HM, HK]. cbn [run_chain]. pose proof (mark_rule_view (c_sets c') m') as HMV. destruct (exec le (c_sets c') p m' mark_exprs) as [m2 [v|]]; done.
Qed.
End Chain.

Section Setup.
Context `{SetLookup} `{IPRangesPackage} (le : bool) (os : GOOS).

Lemma local_prefixes_valid interfaces : Forall (fun it : string * list netip.Prefix => Forall valid_prefix it.2) interfaces -> Forall valid_prefix (local_prefixes interfaces).
Proof.
  unfold local_prefixes. induction 1 as [|it is_ Hit _ IH]; [constructor|]. cbn [flat_map]. apply Forall_app. split; [|done].
  apply Forall_forall. intros x Hx. apply list_elem_of_In, filter_In in Hx as [Hx _]. rewrite Forall_forall in Hit. by apply Hit, list_elem_of_In.
Qed.
(** The named sets and the other chains, before the chain itself. *)
Lemma setup_before r openwrt c c1 c' : c_sets c = [] -> c_rules c = [] -> sets_ok r -> Forall valid_prefix (localAddresses r) ->
  (attempt ;;~ nftablesCreateAddressSets r false) c = (c1, inr tt) -> setup_chains le os r openwrt c1 = (c', inr tt) ->
  exists c2 c3 ns ss lo, setup_prerouting le os r c2 = (c3, inr tt) /\ c_sets c2 = ns ++ ss /\ Forall (below r 9) ns /\ map s_ID ns = sent_ids r /\
    fresh lo (c_allocSetID c2) ss /\ own "prerouting" (c_rules c2) = [] /\ c_sets c' = c_sets c3 /\ c_rules c' = c_rules c3.
Proof.
  intros HS0 HR0 Hs Hl E1 E. apply nbind_ok in E1 as (c0 & [] & E0 & E1). apply attempt_ok in E0 as (S0 & _ & R0 & _).
  destruct (address_sets_sends r Hs _ _ E1) as (n1 & S1 & I1 & B1 & R1 & _ & _); [by rewrite S0, HS0|]. rewrite S0, HS0 in S1. cbn in S1.
  unfold setup_chains in E. apply nbind_ok in E as (d1 & [] & E2 & E). destruct (local_sets_sends r Hl _ _ E2) as (n2 & S2 & I2 & B2 & R2 & _ & _); [by rewrite S1|].
  apply nbind_ok in E as (d2 & [] & E3 & E). assert (Forall (below r 7) (n1 ++ n2)) as B12.
  { apply Forall_app. split; [|done]. eapply Forall_impl; [exact B1|]. intros s. apply below_le. lia. }
  destruct (loopback_sets_sends r Hs _ _ E3) as (n3 & S3 & I3 & B3 & R3 & _ & _); [by rewrite S2, S1|].
  apply nbind_ok in E as (d3 & [] & E4 & E). destruct (quiet_when _ (negb (skip_output (tunOptions r))) _ (quiet_setup_output le os r) _ _ _ E4) as (s4 & r4 & S4 & F4 & R4 & N4).
  apply nbind_ok in E as (d4 & [] & E5 & E). apply nbind_ok in E as (d5 & [] & E6 & E7). destruct openwrt; [|done]. injection E6 as <-. apply attempt_ok in E7 as (S7 & _ & R7 & _).
  exists d3, d4, (n1 ++ n2 ++ n3), s4, (c_allocSetID d2). split_and!; [done|by rewrite S4, S3, S2, S1, <- !app_assoc| | |done| |done|done].
  - rewrite app_assoc. apply Forall_app. split; [|done]. eapply Forall_impl; [exact B12|]. intros s. apply below_le. lia.
  - unfold sent_ids. rewrite !map_app, I1, I2, I3. by rewrite <- app_assoc.
  - rewrite R4, R3, R2, R1, R0, HR0. by rewrite own_other.
Qed.

(** C10: After setupNFTables succeeds on an empty table, the chain "prerouting"
    decides about every packet by the first condition that holds: translated
    connections, the device's own packets, interfaces and MAC addresses that
    are not included or are excluded, destinations outside the routes, DNS
    queries to hijack, local destinations, the route address sets, MPTCP, the
    family that is not in use, and TCP, which is redirected to the port of the
    redirect server; in mark mode every other packet and its connection get
    the input mark.  The sets are read by their contents: the addresses of the
    host, the given address sets, the loopback addresses. *)
Theorem setupNFTables_prerouting r interfaces openwrt c c' r' (p : packet) :
  c_sets c = [] -> c_rules c = [] -> Forall (fun it : string * list netip.Prefix => Forall valid_prefix it.2) interfaces ->
  packet_ok p -> redirect_ok r -> sets_ok r ->
  setupNFTables le os r (Some interfaces) openwrt c = (c', r', inr tt) ->
  r' = with_local r (local_prefixes interfaces) /\
  forall m, view (run_chain le (c_sets c') p m (rules_of_chain c' "prerouting")) = prerouting_decision os r' p m.
Proof.
  intros HS0 HR0 Hi Hp Hr Hs. unfold setupNFTables. destruct ((attempt ;;~ nftablesCreateAddressSets r false) c) as [c1 [e|[]]] eqn:E1; [done|].
  destruct (setup_chains le os (with_local r (local_prefixes interfaces)) openwrt c1) as [c2 res] eqn:E2. intros [= -> <- ->]. split; [done|].
  assert (sets_ok (with_local r (local_prefixes interfaces))) as Hs' by exact Hs. assert (redirect_ok (with_local r (local_prefixes interfaces))) as Hr' by exact Hr.
  pose proof (local_prefixes_valid interfaces Hi) as Hl. set (r' := with_local r (local_prefixes interfaces)) in *.
  destruct (setup_before r' openwrt c c1 c') as (c2 & c3 & ns & ss & lo & E3 & S2 & Hb & Hids & Hf & Ho & -> & HR); [done|done|done|done|exact E1|exact E2|].
  intros m. unfold rules_of_chain. rewrite HR. fold (rules_of_chain c3 "prerouting"). eapply setup_prerouting_view; eauto.
Qed.
End Setup.

(** ** Updates *)

Section Updates.
Context `{SetLookup} `{IPRangesPackage} (le : bool).

Lemma local_update_never is_family new last : local_update is_family new last = false.
Proof. unfold local_update. rewrite (bool_decide_eq_true_2 (List.filter _ new = _)) by done. by rewrite andb_false_r. Qed.
Lemma local_sets_unchanged r new last c : last <> [] -> nftablesCreateLocalAddressSets r new last c = (c, inr tt).
Proof.
  intros Hl. unfold nftablesCreateLocalAddressSets, local_set. rewrite !local_update_never, (bool_decide_eq_false_2 (length last = 0%nat)) by (by destruct last). cbn [orb nwhen].
  unfold nbind, nwhen, nret. by destruct (enableIPv4 r), (enableIPv6 r).
Qed.
(** C39: Once addresses of the host were recorded, nftablesUpdateLocalAddressSet
    never touches the sets of local addresses, though it succeeds and records
    the new addresses: both lists it compares are made of the new addresses. *)
Theorem nftablesUpdateLocalAddressSet_stale r interfaces c c' r' :
  localAddresses r <> [] -> nftablesUpdateLocalAddressSet r interfaces c = (c', r', inr tt) ->
  c_sets c' = c_sets c /\ c_rules c' = c_rules c /\ localAddresses r' = local_prefixes interfaces.
Proof.
  intros Hl. unfold nftablesUpdateLocalAddressSet. case_bool_decide as HE; [by intros [= <- <-]|].
  unfold nbind at 1. destruct (attempt c) as [c1 [e|[]]] eqn:E1; [done|]. apply attempt_ok in E1 as (S1 & _ & R1 & _).
  unfold nbind at 1. destruct (attempt c1) as [c2 [e|[]]] eqn:E2; [done|]. apply attempt_ok in E2 as (S2 & _ & R2 & _). rewrite local_sets_unchanged by done.
  unfold Flush. destruct (attempt c2) as [c3 [e|[]]] eqn:E3; [done|]. apply attempt_ok in E3 as (S3 & _ & R3 & _). intros [= <- <-]. split_and!; [congruence|congruence|done].
Qed.
(** On a little-endian host the rule for one included user compares it with the
    id in the other byte order: it lets the included user go and keeps none. *)
Lemma single_include_uid_swapped sets p m u : is_u32 u -> p_skuid p = Some u -> be32 u <> rev (be32 u) ->
  view (exec true sets p m ([Meta MetaKeySKUID 1 false; Cmp CmpOpNeq 1 (be32 u)] ++ return_)) = (m_mark m, m_ctmark m, Some Returned).
Proof.
  intros Hu Hp Hne. unfold view. cbn -[native32 be32]. rewrite Hp. cbn -[native32 be32]. unfold native32. rewrite bool_decide_eq_false_2; [done|]. cbn -[be32]. congruence.
Qed.
Lemma uid_interval_unordered : ~ increasing (-1) (uid_elements true [mkRange 1000 2000]).
Proof. vm_compute. intros (_ & Hlt & _). discriminate. Qed.
End Updates.
