(* ===== verification/RedirectSample.v ===== *)
(** * Small packages for auto-redirect

    A sorted list of ranges in the place of go4.org/netipx and a direct lookup
    in the place of the kernel's sets show their laws satisfiable; the theorems
    about auto-redirect are applied to a device with them. *)
From Stdlib Require Import String Ascii.
From S2P Require Import Prelude Bytes GoMem TsChecksum Netip TunOptions TunRules TunRulesSpec RouteMark Netlink Nft NftSpec RedirectNft RedirectSets RedirectGuards RedirectSpec.
#[local] Open Scope nft_scope.

(** ** Ranges of numbers *)

Fixpoint ins (a b : Z) (rs : list (Z * Z)) : list (Z * Z) :=
  match rs with
  | [] => [(a, b)]
  | (c, d) :: rs' => if b + 1 <? c then (a, b) :: rs else if d + 1 <? a then (c, d) :: ins a b rs' else ins (Z.min a c) (Z.max b d) rs'
  end.
Fixpoint zsorted (last : Z) (rs : list (Z * Z)) : Prop :=
  match rs with [] => True | (a, b) :: rs' => last < a /\ a <= b /\ zsorted (b + 1) rs' end.
Definition zin (v : Z) (rs : list (Z * Z)) : bool := existsb (fun x => (x.1 <=? v) && (v <=? x.2)) rs.
Lemma zsorted_le l l' rs : l' <= l -> zsorted l rs -> zsorted l' rs.
Proof. destruct rs as [|[a b] rs]; cbn; [done|]. intros ? (? & ? & ?). split_and!; [lia|done|done]. Qed.
Lemma ins_sorted a b last rs : last < a -> a <= b -> zsorted last rs -> zsorted last (ins a b rs).
Proof.
  revert a b last. induction rs as [|[c d] rs IH]; intros a b last Ha Hab; cbn [ins zsorted]; [done|]. intros (H1 & H2 & H3).
  destruct (Z.ltb_spec (b + 1) c); [cbn [zsorted]; split_and!; done|]. destruct (Z.ltb_spec (d + 1) a).
  - cbn [zsorted]. split_and!; [done|done|]. apply IH; [lia|done|done].
  - apply IH; [lia|lia|]. eapply zsorted_le; [|exact H3]. lia.
Qed.
Lemma ins_in a b last rs v : a <= b -> zsorted last rs -> zin v (ins a b rs) = ((a <=? v) && (v <=? b)) || zin v rs.
Proof.
  revert a b last. unfold zin. induction rs as [|[c d] rs IH]; intros a b last Hab; cbn [ins zsorted existsb fst snd]; [done|]. intros (H1 & H2 & H3).
  destruct (Z.ltb_spec (b + 1) c); [done|]. destruct (Z.ltb_spec (d + 1) a); cbn [existsb fst snd]; rewrite (IH _ _ (d + 1)) by (lia || done).
  - by destruct ((a <=? v) && (v <=? b)), ((c <=? v) && (v <=? d)).
  - rewrite orb_assoc. f_equal. lia.
Qed.
Lemma ins_bounds a b lo hi rs : lo <= a -> b < hi -> Forall (fun x => lo <= x.1 /\ x.2 < hi) rs -> Forall (fun x => lo <= x.1 /\ x.2 < hi) (ins a b rs).
Proof.
  intros Ha Hb HF. revert a b Ha Hb. induction HF as [|[c d] rs [Hc Hd] HF IH]; intros a b Ha Hb; cbn [ins]; [by repeat constructor|]. cbn [fst snd] in Hc, Hd.
  destruct (b + 1 <? c); [by repeat constructor|]. destruct (d + 1 <? a); [constructor; [done|by apply IH]|]. apply IH; lia.
Qed.

(** ** Ranges of addresses *)

Definition addr_of (w v : Z) : netip.Addr := if w =? 32 then netip.Addr4 (netip.be_bytes 4 v) else netip.Addr6 (netip.be_bytes 16 v).
Definition lift (w : Z) (x : Z * Z) : netip.Addr * netip.Addr := (addr_of w x.1, addr_of w x.2).
Definition prefix_range (p : netip.Prefix) : Z * Z :=
  let n := netip.BitLen (netip.pf_addr p) - netip.pf_bits p in
  let q := Z.shiftl (naive.node p).1 n in (q, q + 2 ^ n - 1).
Definition prefixes_of (w : Z) (ps : list netip.Prefix) : list netip.Prefix := List.filter (fun p => netip.BitLen (netip.pf_addr p) =? w) ps.
Definition zranges (ps : list netip.Prefix) : list (Z * Z) := foldr (fun p rs => ins (prefix_range p).1 (prefix_range p).2 rs) [] ps.
Definition ranges (ps : list netip.Prefix) : list (netip.Addr * netip.Addr) :=
  map (lift 32) (zranges (prefixes_of 32 ps)) ++ map (lift 128) (zranges (prefixes_of 128 ps)).

Lemma addr_of_facts w v : w = 32 \/ w = 128 -> 0 <= v < 2 ^ w -> valid_addr (addr_of w v) /\ netip.BitLen (addr_of w v) = w /\ netip.val (addr_of w v) = v.
Proof.
  intros [->| ->] Hv; cbn [addr_of Z.eqb Pos.eqb]; unfold netip.BitLen, netip.val, Zlen; cbn [netip.AsSlice]; rewrite netip.length_be_bytes, netip.be_val_be_bytes by exact Hv;
    (split_and!; [|done|done]); (split; [split; [apply netip.bytes_be_bytes|apply netip.length_be_bytes]|done]).
Qed.
Lemma prefix_range_ok p : valid_prefix p -> 0 <= (prefix_range p).1 /\ (prefix_range p).1 <= (prefix_range p).2 /\ (prefix_range p).2 < 2 ^ netip.BitLen (netip.pf_addr p).
Proof.
  intros Hp. pose proof (naive.node_valid p Hp) as [[H1 H2] [H3 H4]]. unfold prefix_range. cbn [fst snd]. change (naive.node p).2 with (netip.pf_bits p) in *.
  set (w := netip.BitLen (netip.pf_addr p)) in *. rewrite Z.shiftl_mul_pow2 by lia. assert (2 ^ w = 2 ^ netip.pf_bits p * 2 ^ (w - netip.pf_bits p)) as EW by (rewrite <- Z.pow_add_r by lia; f_equal; lia).
  pose proof (Z.pow_pos_nonneg 2 (w - netip.pf_bits p)). nia.
Qed.
Lemma prefix_range_contains p ip : valid_prefix p -> valid_addr ip -> netip.BitLen ip = netip.BitLen (netip.pf_addr p) ->
  netip.Contains p ip = ((prefix_range p).1 <=? netip.val ip) && (netip.val ip <=? (prefix_range p).2).
Proof.
  intros (Hw & Hv & Hb) [Hwi Hvi] HB. rewrite naive.Contains_node. unfold naive.same_family. rewrite Hv, Hvi, HB, Z.eqb_refl. cbn [andb]. unfold naive.in_node, prefix_range. cbn [fst snd].
  change (naive.node p).2 with (netip.pf_bits p). set (n := netip.BitLen (netip.pf_addr p) - netip.pf_bits p). assert (0 <= n) as Hn by (unfold n; lia). generalize ((naive.node p).1). intros q.
  rewrite Z.shiftr_div_pow2, Z.shiftl_mul_pow2 by done. pose proof (Z.pow_pos_nonneg 2 n ltac:(lia) Hn). set (k := 2 ^ n) in *. pose proof (Z.div_mod (netip.val ip) k ltac:(lia)). pose proof (Z.mod_pos_bound (netip.val ip) k ltac:(lia)).
  apply eq_true_iff_eq. rewrite andb_true_iff, Z.eqb_eq, !Z.leb_le. split; [intros <-; lia|]. intros [? ?]. assert (q * k <= netip.val ip < (q + 1) * k) as HQ by lia. nia.
Qed.
Lemma zranges_ok w ps : Forall valid_prefix ps -> Forall (fun p => netip.BitLen (netip.pf_addr p) = w) ps ->
  zsorted (-1) (zranges ps) /\ Forall (fun x => 0 <= x.1 /\ x.2 < 2 ^ w) (zranges ps) /\
  forall ip, valid_addr ip -> netip.BitLen ip = w -> zin (netip.val ip) (zranges ps) = covered ps ip.
Proof.
  intros Hv Hw. induction Hv as [|p ps Hp Hps IH]; [done|]. apply Forall_cons in Hw as [Hwp Hw]. destruct (IH Hw) as (IS & IB & IC). pose proof (prefix_range_ok p Hp) as (H1 & H2 & H3). rewrite Hwp in H3. cbn [zranges foldr]. fold (zranges ps). split_and!.
  - apply ins_sorted; [lia|lia|done].
  - apply ins_bounds; [lia|lia|done].
  - intros ip Hip HL. rewrite (ins_in _ _ (-1)) by done. rewrite IC by done. unfold covered. cbn [existsb]. f_equal. symmetry. apply prefix_range_contains; [done|done|congruence].
Qed.
Lemma zsorted_bounds w last rs : -1 <= last -> zsorted last rs -> Forall (fun x => 0 <= x.1 /\ x.2 < 2 ^ w) rs -> Forall (fun x => 0 <= x.1 < 2 ^ w /\ 0 <= x.2 < 2 ^ w) rs.
Proof.
  intros Hl Hs HF. revert last Hl Hs. induction HF as [|[a b] rs [Ha Hb] HF IH]; intros last Hl; [constructor|]. cbn in *. intros (H1 & H2 & H3). constructor; [cbn; lia|]. eapply IH; [|exact H3]. lia.
Qed.
Lemma lift_sorted w last rs : w = 32 \/ w = 128 -> Forall (fun x => 0 <= x.1 < 2 ^ w /\ 0 <= x.2 < 2 ^ w) rs -> zsorted last rs -> ranges_sorted last (map (lift w) rs).
Proof.
  intros Hw HF. revert last. induction HF as [|[a b] rs [Ha Hb] HF IH]; intros last; [done|]. cbn [map lift fst snd zsorted ranges_sorted] in *. intros (H1 & H2 & H3).
  destruct (addr_of_facts w a Hw Ha) as (_ & _ & ->). destruct (addr_of_facts w b Hw Hb) as (_ & _ & ->). split_and!; [done|done|by apply IH].
Qed.
Lemma lift_len w n rs : w = 32 \/ w = 128 -> Forall (fun x => 0 <= x.1 < 2 ^ w /\ 0 <= x.2 < 2 ^ w) rs -> of_len n (map (lift w) rs) = if w =? n then map (lift w) rs else [].
Proof.
  intros Hw. unfold of_len. induction 1 as [|[a b] rs [Ha Hb] HF IH]; [by destruct (w =? n)|]. cbn [map List.filter lift fst snd] in *. destruct (addr_of_facts w a Hw Ha) as (_ & -> & _). rewrite IH. by destruct (w =? n).
Qed.
Lemma lift_in w rs ip : w = 32 \/ w = 128 -> Forall (fun x => 0 <= x.1 < 2 ^ w /\ 0 <= x.2 < 2 ^ w) rs -> valid_addr ip ->
  existsb (in_ip_range ip) (map (lift w) rs) = (netip.BitLen ip =? w) && zin (netip.val ip) rs.
Proof.
  intros Hw HF [Hwi Hvi]. unfold zin. induction HF as [|[a b] rs [Ha Hb] HF IH]; [by rewrite andb_false_r|]. cbn [map existsb lift fst snd] in *. rewrite IH. unfold in_ip_range, lift. cbn [fst snd].
  destruct (addr_of_facts w a Hw Ha) as (_ & -> & ->). destruct (addr_of_facts w b Hw Hb) as (_ & _ & ->). rewrite Hvi, (Z.eqb_sym w). cbn [andb]. by destruct (netip.BitLen ip =? w).
Qed.
Lemma valid_len a : valid_addr a -> netip.BitLen a = 32 \/ netip.BitLen a = 128.
Proof. intros [Hw Hv]. unfold netip.BitLen, Zlen. destruct a as [|l|l]; [done| |]; destruct Hw as [_ Hl]; cbn; rewrite Hl; auto. Qed.
Lemma covered_split ps ip : Forall valid_prefix ps -> valid_addr ip -> covered (prefixes_of (netip.BitLen ip) ps) ip = covered ps ip.
Proof.
  intros Hps [Hwi Hvi]. unfold covered, prefixes_of. induction Hps as [|p ps Hp Hps IH]; [done|]. cbn [List.filter existsb]. destruct (Z.eqb_spec (netip.BitLen (netip.pf_addr p)) (netip.BitLen ip)) as [E|E]; cbn [existsb]; rewrite IH; [done|].
  rewrite naive.Contains_node. unfold naive.same_family. replace (netip.BitLen (netip.pf_addr p) =? netip.BitLen ip) with false by lia. by rewrite andb_false_r.
Qed.
Lemma prefixes_of_ok w ps : Forall valid_prefix ps -> Forall valid_prefix (prefixes_of w ps) /\ Forall (fun p => netip.BitLen (netip.pf_addr p) = w) (prefixes_of w ps).
Proof.
  intros Hps. unfold prefixes_of. induction Hps as [|p ps Hp _ [IH1 IH2]]; [by split; constructor|]. cbn [List.filter]. destruct (Z.eqb_spec (netip.BitLen (netip.pf_addr p)) w); [|done]. by split; constructor.
Qed.
Lemma ranges_ok ps : Forall valid_prefix ps ->
  Forall (fun r => valid_addr (r.1) /\ valid_addr (r.2) /\ netip.BitLen (r.1) = netip.BitLen (r.2)) (ranges ps) /\
  (forall n, ranges_sorted (-1) (of_len n (ranges ps))) /\ forall ip, valid_addr ip -> existsb (in_ip_range ip) (ranges ps) = covered ps ip.
Proof.
  intros Hps. unfold ranges.
  assert (forall w, w = 32 \/ w = 128 -> zsorted (-1) (zranges (prefixes_of w ps)) /\ Forall (fun x => 0 <= x.1 < 2 ^ w /\ 0 <= x.2 < 2 ^ w) (zranges (prefixes_of w ps)) /\
    forall ip, valid_addr ip -> netip.BitLen ip = w -> zin (netip.val ip) (zranges (prefixes_of w ps)) = covered ps ip) as HW.
  { intros w Hw. destruct (prefixes_of_ok w ps Hps) as [H1 H2]. destruct (zranges_ok w _ H1 H2) as (HS & HB & HC). split; [done|]. split; [by eapply zsorted_bounds|]. intros ip Hip HL. rewrite HC by done. rewrite <- HL. by apply covered_split. }
  destruct (HW 32 ltac:(auto)) as (S4 & B4 & C4). destruct (HW 128 ltac:(auto)) as (S6 & B6 & C6).
  assert (forall w, w = 32 \/ w = 128 -> Forall (fun x => 0 <= x.1 < 2 ^ w /\ 0 <= x.2 < 2 ^ w) (zranges (prefixes_of w ps)) ->
    Forall (fun r => valid_addr (r.1) /\ valid_addr (r.2) /\ netip.BitLen (r.1) = netip.BitLen (r.2)) (map (lift w) (zranges (prefixes_of w ps)))) as HV.
  { intros w Hw HB. apply Forall_map. eapply Forall_impl; [exact HB|]. intros [a b] [Ha Hb]. unfold lift. cbn [fst snd] in *. destruct (addr_of_facts w a Hw Ha) as (? & -> & _). destruct (addr_of_facts w b Hw Hb) as (? & -> & _). done. }
  split_and!; [apply Forall_app; split; apply HV; auto| |].
  - intros n. unfold of_len. rewrite List.filter_app. fold (of_len n (map (lift 32) (zranges (prefixes_of 32 ps)))) (of_len n (map (lift 128) (zranges (prefixes_of 128 ps)))). rewrite !lift_len by auto.
    destruct (Z.eqb_spec 32 n) as [<-|]; [rewrite app_nil_r; by apply lift_sorted; auto|]. destruct (128 =? n); [by apply lift_sorted; auto|done].
  - intros ip Hip. rewrite existsb_app, !lift_in by auto. destruct (valid_len ip Hip) as [E|E]; rewrite E; cbn [Z.eqb Pos.eqb andb orb]; [rewrite orb_false_r; by apply C4|by apply C6].
Qed.

(** Address sets are lists of prefixes. *)
Definition prefix_set : Type := {l : list netip.Prefix | Forall valid_prefix l}.
Definition all_prefixes (ps : list netip.Prefix) (ss : list prefix_set) : list netip.Prefix := ps ++ flat_map (@proj1_sig _ _) ss.
Lemma all_ranges_ok ps (ss : list prefix_set) : Forall valid_prefix ps ->
  exists rs, (inr (ranges (all_prefixes ps ss)) : ipset_error + list (netip.Addr * netip.Addr)) = inr rs /\
    Forall (fun r => valid_addr (r.1) /\ valid_addr (r.2) /\ netip.BitLen (r.1) = netip.BitLen (r.2)) rs /\
    (forall n, ranges_sorted (-1) (of_len n rs)) /\
    forall ip, valid_addr ip -> existsb (in_ip_range ip) rs = covered ps ip || existsb (fun s => covered (proj1_sig s) ip) ss.
Proof.
  intros Hps. assert (Forall valid_prefix (all_prefixes ps ss)) as Hv.
  { apply Forall_app. split; [done|]. induction ss as [|[l Hl] ss IH]; [constructor|]. cbn. by apply Forall_app. }
  destruct (ranges_ok _ Hv) as (H1 & H2 & H3). eexists. split; [done|]. split; [done|]. split; [done|]. intros ip Hip. rewrite H3 by done. unfold all_prefixes. rewrite covered_app. f_equal. clear.
  induction ss as [|[l Hl] ss IH]; [done|]. cbn [flat_map existsb proj1_sig]. by rewrite covered_app, IH.
Qed.
#[local] Instance ranges_package : IPRangesPackage :=
  {| IPSetT := prefix_set; set_covers := fun s ip => covered (proj1_sig s) ip; BuildRanges := fun ps ss => inr (ranges (all_prefixes ps ss)); BuildRanges_ok := all_ranges_ok |}.
#[local] Instance set_lookup : SetLookup.
Proof.
  refine {| set_has := fun s k => if s_Interval s then in_intervals (s_Elements s) (be_val k) else bool_decide (k ∈ map Key (s_Elements s)) |}; intros s k ->; done.
Defined.

(** ** A device behind which a network is redirected *)

Definition pf4 (a b c d n : Z) : netip.Prefix := netip.PrefixFrom (netip.Addr4 [a; b; c; d]) n.
Definition sample_options : Options :=
  mkOptions "tun0" [pf4 172 19 0 1 30] [] true netip.AddrInvalid netip.AddrInvalid "hijack" [] None 2022 9000 32768 true 8227 8228 false
    [netip.Addr4 [10; 7; 7; 7]] [] true [] [] [pf4 10 0 0 0 8] [] ["eth0"; "eth1"]%string [] [] [] [] [] [] [] [] [] [[2; 0; 0; 0; 0; 1]] 0.
Ltac byte_list := cbn; repeat (apply Forall_cons; split; [lia|]); apply Forall_nil; exact I.
Ltac prefix := split; [split; [byte_list|done]|split; [done|split; vm_compute; discriminate]].
Definition half_prefixes : list netip.Prefix := [pf4 0 0 0 0 1; netip.PrefixFrom (netip.Addr6 (repeat 0 16)) 1].
Lemma half_valid : Forall valid_prefix half_prefixes.
Proof. constructor; [prefix|constructor; [prefix|constructor]]. Qed.
Definition half : prefix_set := exist _ half_prefixes half_valid.
Definition sample_redirect : autoRedirect := mkRedirect sample_options true false [half] [] 12345 [].
Definition sample_interfaces : list (string * list netip.Prefix) := [("lo"%string, [pf4 127 0 0 1 8]); ("eth0"%string, [pf4 192 168 1 1 24])].
Definition sample_conn : conn := mkConn [] [] [] 8 [].
Definition arriving (dst : list Z) (proto dport : Z) : packet :=
  mkPacket "eth0" "" 1 [2; 0; 0; 0; 0; 9] (netip.Addr4 [192; 168; 1; 77]) (netip.Addr4 dst) proto dport None 0 false false.
Ltac name := split; [cbn; lia|repeat constructor; done].
Lemma arriving_ok dst proto dport : addr4 dst -> is_u8 proto -> is_u16 dport -> packet_ok (arriving dst proto dport).
Proof.
  intros Hd Hp Hq. unfold packet_ok, arriving. cbn. split_and!; try done; try lia; try by name.
  - byte_list.
  - left. eexists _, _. split_and!; [done|done| |done]. split; [byte_list|done].
Qed.
Lemma sample_redirect_ok : redirect_ok sample_redirect.
Proof.
  unfold redirect_ok. cbn. split_and!; try done; try (by name); try lia.
  - constructor; [name|constructor; [name|constructor]].
  - constructor; [|constructor]. split; [byte_list|done].
  - constructor; [prefix|constructor].
Qed.
Lemma sample_sets_ok : sets_ok sample_redirect.
Proof.
  unfold sets_ok. cbn. split_and!; [|constructor|].
  - constructor; [|constructor]. split; [|done]. split; [split; [byte_list|done]|done].
  - intros _ family [->| ->]; [exists (netip.Addr4 [1; 1; 1; 1])|exists (netip.Addr6 (repeat 0 16))]; (split; [|by vm_compute]); (split; [split; [split; [byte_list|done]|done]|done]).
Qed.

(** TCP from the network is redirected, a query is answered by the device's
    server, the excluded network and the upper half of the addresses are left
    alone, other traffic is marked. *)
Lemma setupNFTables_prerouting_witness :
  let '(c', r', err) := setupNFTables true Linux sample_redirect (Some sample_interfaces) true sample_conn in
  err = inr tt /\ forall m,
    let run := fun p => view (run_chain true (c_sets c') p m (rules_of_chain c' "prerouting")) in
    run (arriving [1; 1; 1; 1] IPPROTO_TCP 443) = (m_mark m, m_ctmark m, Some (Redirected [48; 57])) /\
    run (arriving [1; 1; 1; 1] IPPROTO_UDP 53) = (m_mark m, m_ctmark m, Some (Translated [172; 19; 0; 2] None)) /\
    run (arriving [10; 1; 1; 1] IPPROTO_TCP 443) = (m_mark m, m_ctmark m, Some Returned) /\
    run (arriving [200; 1; 1; 1] IPPROTO_TCP 443) = (m_mark m, m_ctmark m, Some Returned) /\
    run (arriving [1; 1; 1; 1] IPPROTO_UDP 443) = (8227, 8227, Some Returned).
Proof.
  destruct (setupNFTables true Linux sample_redirect (Some sample_interfaces) true sample_conn) as [[c' r'] err] eqn:E.
  assert (err = inr tt) as -> by (change err with (c', r', err).2; rewrite <- E; vm_compute; reflexivity).
  split; [done|]. intros m run. unfold run.
  assert (forall p, packet_ok p -> view (run_chain true (c_sets c') p m (rules_of_chain c' "prerouting")) = prerouting_decision Linux (with_local sample_redirect (local_prefixes sample_interfaces)) p m) as HD.
  { intros p Hp. destruct (setupNFTables_prerouting true Linux sample_redirect sample_interfaces true sample_conn c' r' p eq_refl eq_refl) as [-> HD]; [|exact Hp|exact sample_redirect_ok|exact sample_sets_ok|exact E|exact (HD m)].
    constructor; [constructor; [prefix|constructor]|constructor; [constructor; [prefix|constructor]|constructor]]. }
  assert (forall a b c d, is_u8 a -> is_u8 b -> is_u8 c -> is_u8 d -> addr4 [a; b; c; d]) as HA by (intros; split; [repeat constructor; lia|done]).
  split_and!; (rewrite HD; [vm_compute; reflexivity|apply arriving_ok; [apply HA; lia|unfold IPPROTO_TCP, IPPROTO_UDP; lia|lia]]).
Defined.
(** A second address of the host does not reach the sets. *)
Lemma nftablesUpdateLocalAddressSet_stale_witness :
  let r := with_local sample_redirect [pf4 127 0 0 1 8] in
  let '(c', r', err) := nftablesUpdateLocalAddressSet r sample_interfaces (mkConn [mkSet 5 "inet4_local_address_set" false true []] [] [] 8 []) in
  err = inr tt /\ map s_Elements (c_sets c') = [[]] /\ localAddresses r' = local_prefixes sample_interfaces.
Proof.
  cbv zeta. destruct (nftablesUpdateLocalAddressSet (with_local sample_redirect [pf4 127 0 0 1 8]) sample_interfaces (mkConn [mkSet 5 "inet4_local_address_set" false true []] [] [] 8 [])) as [[c' r'] err] eqn:E.
  assert (err = inr tt) as -> by (change err with (c', r', err).2; rewrite <- E; vm_compute; reflexivity).
  destruct (nftablesUpdateLocalAddressSet_stale (with_local sample_redirect [pf4 127 0 0 1 8]) sample_interfaces _ c' r' ltac:(discriminate) E) as (-> & _ & ->). done.
Defined.
