(* ===== verification/DnatNft.v ===== *)
(** * route_dnat_linux.go, route_ipvs_output_linux.go: marks for policy routing

    The nftables rules that mark the packets of translated connections, and the
    chain that marks the DNS packets of IPVS once more so that they are routed
    again; what they do to the mark of a packet, and that the policy rule of
    the tun device takes up the mark. *)
From Stdlib Require Import String Ascii.
From S2P Require Import Prelude Bytes GoMem TsChecksum Netip TunOptions TunRules TunRulesSpec RouteMark Netlink Ipvs PolicyRules Nft NftSpec RedirectNft RedirectSets RedirectGuards RedirectSpec.
#[local] Open Scope nft_scope.

(** ** The rules *)

Definition appendRouteMark (le : bool) (expressions : list expr) (clearMask xorMask : Z) : list expr :=
  expressions ++ [Meta MetaKeyMARK 1 false; Bitwise 1 1 (native32 le (u32 (Z.lnot clearMask))) (native32 le xorMask); Meta MetaKeyMARK 1 true; Counter].
Definition dnatMarkExpressions (le : bool) (o : Options) : list expr :=
  appendRouteMark le
    (nftablesDNATStatusExpressions le ++
     (if AutoRedirectMarkMode o then [Meta MetaKeyMARK 1 false; Cmp CmpOpNeq 1 (native32 le (AutoRedirectInputMark o))] else []))
    (autoRouteDNATBypassMask o) (autoRouteDNATBypassMark o).
Definition chainDNAT : chain := mkChain "prerouting" ChainHookPrerouting ChainTypeFilter (ChainPriorityNATDest + 2).
Definition setupDNATBypass (le : bool) (o : Options) : nft unit :=
  attempt ;;~ AddChain chainDNAT ;;~ AddRule chainDNAT (dnatMarkExpressions le o) ;;~ Flush.

Definition FlushChain (name : string) : nft unit := fun c =>
  (mkConn (c_sets c) (c_chains c) (List.filter (fun q => negb (String.eqb (q.1) name)) (c_rules c)) (c_allocSetID c) (c_fail c), inr tt).
Definition DelChain (name : string) : nft unit := fun c =>
  (mkConn (c_sets c) (List.filter (fun ch => negb (String.eqb (ch_Name ch) name)) (c_chains c)) (c_rules c) (c_allocSetID c) (c_fail c), inr tt).
Definition outputChain (ipv6 : bool) : chain :=
  mkChain (if ipv6 then "ipvs_dns_output6" else "ipvs_dns_output4") ChainHookOutput ChainTypeRoute ChainPriorityMangle.
Definition target_rule (le : bool) (o : Options) (offset : Z) (dst : ipvsDNSDestination) : list expr :=
  appendRouteMark le
    [Payload 1 PayloadBaseNetworkHeader offset (netip.BitLen (d_addr dst) / 8); Cmp CmpOpEq 1 (netip.AsSlice (d_addr dst));
     Meta MetaKeyL4PROTO 1 false; Cmp CmpOpEq 1 [u8 (protocol dst)];
     Payload 1 PayloadBaseTransportHeader 2 2; Cmp CmpOpEq 1 (be16 (d_port dst))]
    0 (autoRouteDNATBypassMark o).
Definition replaceNFTIPVSOutput (le : bool) (o : Options) (ipv6 : bool) (targets : list ipvsDNSDestination) : nft unit :=
  attempt ;;~
  let ch := outputChain ipv6 in
  let family := if ipv6 then NFPROTO_IPV6 else NFPROTO_IPV4 in
  match targets with
  | [] => FlushChain (ch_Name ch) ;;~ DelChain (ch_Name ch) ;;~ Flush
  | _ =>
      AddChain ch ;;~ FlushChain (ch_Name ch) ;;~
      AddRule ch [Meta MetaKeyOIFNAME 1 false; Cmp CmpOpNeq 1 (nftablesIfname (Name o)); Verdict VerdictReturn] ;;~
      AddRule ch [Meta MetaKeyNFPROTO 1 false; Cmp CmpOpNeq 1 [family]; Verdict VerdictReturn] ;;~
      nfor targets (fun dst => AddRule ch (target_rule le o (if ipv6 then 24 else 16) dst)) ;;~
      Flush
  end.

(** ** What they do to a mark *)

Section Marks.
Context `{SetLookup} (le : bool) (o : Options) (p : packet).
Context (Hp : packet_ok p) (Ho : marks_ok o).

(** Bits of [mask] give way to [mark], the others stay. *)
Definition remark (mask mark m : Z) : Z := Z.lxor (Z.land m (Z.lnot mask)) mark.
Lemma land_low32 m x : is_u32 m -> Z.land m (u32 x) = Z.land m x.
Proof.
  intros Hm. apply Z.bits_inj'. intros n Hn. rewrite !Z.land_spec. destruct (Z.lt_ge_cases n 32) as [Hlt|Hge]; [|by rewrite (u32_bits m n Hm Hge)].
  f_equal. unfold u32. change 4294967296 with (2 ^ 32). by apply Z.mod_pow2_bits_low.
Qed.
Lemma remark_u32 mask mark m : is_u32 m -> is_u32 mark -> is_u32 (remark mask mark m).
Proof.
  intros Hm Hk. unfold remark. apply u32_lxor; [|done]. apply u32_of_bits; [apply Z.land_nonneg; lia|]. intros n Hn. rewrite Z.land_spec, (u32_bits m n Hm Hn). done.
Qed.
(** A condition on the packet in one state. *)
Definition checks_at (sets : list nft_set) (m : machine) (pre : list expr) (b : bool) : Prop :=
  forall rest, if b then exists m', same_marks m m' /\ exec le sets p m (pre ++ rest) = exec le sets p m' rest
               else view (exec le sets p m (pre ++ rest)) = (m_mark m, m_ctmark m, None).
Lemma checks_at_app sets m a b ca cb : checks_at sets m a ca -> (forall m', same_marks m m' -> checks_at sets m' b cb) -> checks_at sets m (a ++ b) (ca && cb).
Proof.
  intros Ha Hb rest. rewrite <- app_assoc. specialize (Ha (b ++ rest)). destruct ca; cbn [andb]; [|done]. destruct Ha as (m1 & HS & ->). specialize (Hb m1 HS rest). destruct HS as [M1 C1].
  destruct cb; [|by rewrite Hb, M1, C1]. destruct Hb as (m2 & [M2 C2] & E2). exists m2. split; [split; congruence|done].
Qed.
Lemma checks_mark_neq sets m k : is_u32 (m_mark m) -> is_u32 k -> checks_at sets m [Meta MetaKeyMARK 1 false; Cmp CmpOpNeq 1 (native32 le k)] (negb (m_mark m =? k)).
Proof.
  intros Hm Hk rest. cbn [app exec exec1 meta_load set_reg m_regs Z.eqb Pos.eqb]. rewrite native32_eq by done. destruct (m_mark m =? k); [done|]. eexists. split; [|reflexivity]. done.
Qed.
Lemma appendRouteMark_marks sets pre b mask mark m : checks_at sets m pre b -> is_u32 (m_mark m) -> is_u32 mark ->
  view (exec le sets p m (appendRouteMark le pre mask mark)) = (if b then remark mask mark (m_mark m) else m_mark m, m_ctmark m, None).
Proof.
  intros Hc Hm Hk. unfold appendRouteMark. specialize (Hc [Meta MetaKeyMARK 1 false; Bitwise 1 1 (native32 le (u32 (Z.lnot mask))) (native32 le mark); Meta MetaKeyMARK 1 true; Counter]).
  destruct b; [|done]. destruct Hc as (m' & [HM HK] & ->). unfold view. cbn -[native32 of_native bitwise u32]. rewrite native32_bitwise, HM, HK, (land_low32 (m_mark m)) by done.
  fold (remark mask mark (m_mark m)). by rewrite of_native_native32 by by apply remark_u32.
Qed.

(** Translated connections. *)
Lemma testbit5 x : (Z.land x conntrackStatusDNAT =? conntrackStatusDNAT) = Z.testbit x 5.
Proof.
  change conntrackStatusDNAT with (2 ^ 5). destruct (Z.testbit x 5) eqn:E.
  - apply Z.eqb_eq, Z.bits_inj'. intros n Hn. rewrite Z.land_spec, Z.pow2_bits_eqb by lia. destruct (Z.eqb_spec 5 n) as [<-|]; [by rewrite E|by rewrite andb_false_r].
  - apply Z.eqb_neq. intros EL. apply (f_equal (fun v => Z.testbit v 5)) in EL. by rewrite Z.land_spec, E in EL.
Qed.
Lemma checks_dnat sets : checks le p sets (nftablesDNATStatusExpressions le) (Z.testbit (p_ctstatus p) 5).
Proof.
  intros m rest. destruct Hp as (_ & _ & _ & _ & _ & _ & _ & Hct & _). cbn [app nftablesDNATStatusExpressions exec exec1 set_reg m_regs Z.eqb Pos.eqb].
  rewrite (native32_zero le), native32_bitwise, Z.lxor_0_r, native32_eq, testbit5 by (done || apply u32_land; done).
  destruct (Z.testbit (p_ctstatus p) 5); [|done]. eexists. split; [|reflexivity]. done.
Qed.
(** Whether the chain marks a packet. *)
Definition dnat_marked (m : Z) : bool := Z.testbit (p_ctstatus p) 5 && (negb (AutoRedirectMarkMode o) || negb (m =? AutoRedirectInputMark o)).
Lemma dnat_view sets m : is_u32 (m_mark m) ->
  view (exec le sets p m (dnatMarkExpressions le o)) =
  (if dnat_marked (m_mark m) then remark (autoRouteDNATBypassMask o) (autoRouteDNATBypassMark o) (m_mark m) else m_mark m, m_ctmark m, None).
Proof.
  intros Hm. destruct (bypass_mark_facts o Ho) as (_ & Hk & _). unfold dnatMarkExpressions, dnat_marked. apply appendRouteMark_marks; [|done|done].
  apply checks_at_app; [exact (checks_dnat sets m)|]. intros m' [HM _]. destruct (AutoRedirectMarkMode o); cbn [negb orb].
  - rewrite <- HM. apply checks_mark_neq; [by rewrite HM|apply Ho].
  - intros rest. by exists m'.
Qed.
End Marks.
Lemma remark_selected o family priority nop m : marks_ok o ->
  mark_selects (with_goto nop (with_mask (autoRouteDNATBypassMask o) (with_mark (autoRouteDNATBypassMark o) (NewRule family priority)))) (remark (autoRouteDNATBypassMask o) (autoRouteDNATBypassMark o) m) = true.
Proof.
  intros Ho. destruct (bypass_mark_facts o Ho) as (HM & _ & HK & _). apply Z.eqb_eq. refine (proj1 (marked_recognised m _ _ _ HK)). lia.
Qed.
Definition dnat_rule (o : Options) (family priority nop : Z) : Rule := with_goto nop (with_mask (autoRouteDNATBypassMask o) (with_mark (autoRouteDNATBypassMark o) (NewRule family priority))).

(** C18: The chain of the DNAT bypass changes exactly the packets of translated
    connections that do not carry the input mark of auto-redirect: their mark
    gets the bypass mark in the bits of the mask and keeps all other bits, and
    no connection mark and no verdict is set.  The policy rule that rules() puts
    first jumps over the tun device for every flow with the new mark, and it
    never does so for the input mark. *)
Theorem DNATBypass_marks `{SetLookup} le o (p : packet) c c' m : packet_ok p -> marks_ok o -> is_u32 (m_mark m) -> c_rules c = [] ->
  setupDNATBypass le o c = (c', inr tt) ->
  let mask := autoRouteDNATBypassMask o in
  let m' := remark mask (autoRouteDNATBypassMark o) (m_mark m) in
  view (run_chain le (c_sets c') p m (rules_of_chain c' "prerouting")) = (if dnat_marked o p (m_mark m) then m' else m_mark m, m_ctmark m, None) /\
  Z.land m' (Z.lnot mask) = Z.land (m_mark m) (Z.lnot mask) /\
  (forall f nop priority p4 p6, f_mark f = m' -> Forall (fun r => selects r f = true /\ Goto r = Some nop) (dnat_block o p4 p6 nop priority priority)) /\
  (AutoRedirectMarkMode o = true -> marks_conflict o = false -> AutoRoute o = true ->
   forall family priority nop, mark_selects (dnat_rule o family priority nop) (AutoRedirectInputMark o) = false).
Proof.
  intros Hp Ho Hm Hc E mask m'. destruct (bypass_mark_facts o Ho) as (HM & _ & HK & HN & HI). split_and!.
  - unfold setupDNATBypass in E. apply nbind_ok in E as (c1 & [] & E1 & E). apply attempt_ok in E1 as (_ & _ & R1 & _). unfold nbind, AddChain, AddRule, Flush in E. apply attempt_ok in E as (_ & _ & R2 & _). cbn [c_rules] in R2.
    unfold rules_of_chain. rewrite R2, R1, Hc. cbn [app List.filter fst chainDNAT ch_Name String.eqb Ascii.eqb Bool.eqb map snd]. cbn [run_chain].
    pose proof (dnat_view le o p Hp Ho (c_sets c') m Hm) as HV. destruct (exec le (c_sets c') p m (dnatMarkExpressions le o)) as [m1 [v|]]; [by injection HV|exact HV].
  - refine (proj2 (marked_recognised (m_mark m) _ _ _ HK)). unfold mask. lia.
  - intros f nop priority p4 p6 Hf. assert (forall family, selects (dnat_rule o family priority nop) f = true) as HS.
    { intros family. unfold selects. rewrite Hf. unfold dnat_rule, m', mask. rewrite remark_selected by done. done. }
    unfold dnat_block, families. destruct p4, p6; cbn [app]; repeat constructor; apply HS.
  - intros Hmode Hc1 Hauto family priority nop. unfold mark_selects. cbn. apply Z.eqb_neq, masked_differ. rewrite HK. apply HI; [done|]. unfold marks_conflict in Hc1. rewrite Hauto, Hmode in Hc1. cbn in Hc1. by apply Z.eqb_neq.
Qed.

(** ** The DNS packets of IPVS *)

Section Output.
Context `{SetLookup} (le : bool) (o : Options) (p : packet).
Context (Hp : packet_ok p) (Ho : marks_ok o) (Hname : name_ok (Name o)).

Definition tuple (q : packet) : ipvsDNSDestination := mkDest (p_l4proto q) (netip.AddrPortFrom (p_dst q) (p_dport q)).
Definition output_family (ipv6 : bool) : Z := if ipv6 then TableFamilyIPv6 else TableFamilyIPv4.
Definition target_ok (ipv6 : bool) (d : ipvsDNSDestination) : Prop := is_u8 (protocol d) /\ is_u16 (d_port d) /\ of_family_addr (output_family ipv6) (d_addr d).
Lemma output_family_cases ipv6 : output_family ipv6 = TableFamilyIPv4 \/ output_family ipv6 = TableFamilyIPv6.
Proof. destruct ipv6; auto. Qed.
Lemma tuple_eq d : bool_decide (tuple p = d) = bool_decide (p_dst p = d_addr d) && ((p_l4proto p =? protocol d) && (p_dport p =? d_port d)).
Proof.
  apply eq_true_iff_eq. rewrite bool_decide_eq_true, !andb_true_iff, bool_decide_eq_true, !Z.eqb_eq. destruct d as [pr [a q]]. unfold tuple, d_addr, d_port. cbn. split; [by intros [= -> -> ->]|by intros (-> & -> & ->)].
Qed.
Lemma checks_target sets ipv6 d : target_ok ipv6 d -> family_of p (output_family ipv6) = true ->
  checks le p sets
    [Payload 1 PayloadBaseNetworkHeader (if ipv6 then 24 else 16) (netip.BitLen (d_addr d) / 8); Cmp CmpOpEq 1 (netip.AsSlice (d_addr d));
     Meta MetaKeyL4PROTO 1 false; Cmp CmpOpEq 1 [u8 (protocol d)]; Payload 1 PayloadBaseTransportHeader 2 2; Cmp CmpOpEq 1 (be16 (d_port d))]
    (bool_decide (tuple p = d)).
Proof.
  intros (Hpr & Hport & Ha) EF m rest. pose proof (dst_payload p Hp _ (output_family_cases ipv6) EF) as HP. pose proof (dst_family p Hp _ (output_family_cases ipv6) EF) as HD. rewrite (family_BitLen _ _ Ha), tuple_eq.
  assert (bool_decide (netip.AsSlice (p_dst p) = netip.AsSlice (d_addr d)) = bool_decide (p_dst p = d_addr d)) as HE.
  { apply bool_decide_ext. split; [|congruence]. intros E. destruct HD as [[HwD _] _], Ha as [[Hwa _] _]. apply netip.wf_inj; [done|done| |]; unfold netip.BitLen, netip.val; by rewrite E. }
  assert (payload_load p PayloadBaseNetworkHeader (if ipv6 then 24 else 16) (8 * Z.of_nat (family_bits (output_family ipv6)) / 8) = Some (netip.AsSlice (p_dst p))) as HL by (destruct ipv6; exact HP).
  destruct Hp as (_ & _ & _ & _ & _ & Hl4 & Hdp & _). cbn [app exec exec1 set_reg m_regs Z.eqb Pos.eqb meta_load]. rewrite HL. cbn [set_reg m_regs Z.eqb Pos.eqb]. rewrite HE.
  destruct (bool_decide (p_dst p = d_addr d)); [|done]. cbn [andb exec exec1 meta_load set_reg m_regs Z.eqb Pos.eqb]. rewrite byte_eq, (u8_small (protocol d)) by done.
  destruct (p_l4proto p =? protocol d); [|done]. cbn [andb exec exec1 payload_load set_reg m_regs Z.eqb Pos.eqb]. rewrite be16_eq by done.
  destruct (p_dport p =? d_port d); [|done]. eexists. split; [|reflexivity]. done.
Qed.
(** A packet matches at most one of the targets, and is marked once. *)
Lemma targets_view sets ipv6 targets m : Forall (target_ok ipv6) targets -> NoDup targets -> family_of p (output_family ipv6) = true -> is_u32 (m_mark m) ->
  view (run_chain le sets p m (map (target_rule le o (if ipv6 then 24 else 16)) targets)) =
  (if bool_decide (tuple p ∈ targets) then Z.lxor (m_mark m) (autoRouteDNATBypassMark o) else m_mark m, m_ctmark m, None).
Proof.
  intros Ht Hnd EF. destruct (bypass_mark_facts o Ho) as (_ & HB & _). revert m. induction Ht as [|d targets Hd Ht IH]; intros m Hm; [by rewrite bool_decide_eq_false_2 by apply not_elem_of_nil|].
  apply NoDup_cons in Hnd as [Hnin Hnd]. cbn [map run_chain]. pose proof (appendRouteMark_marks le p sets _ _ 0 (autoRouteDNATBypassMark o) m (checks_target sets ipv6 d Hd EF m) Hm HB) as HV.
  fold (target_rule le o (if ipv6 then 24 else 16) d) in HV. destruct (exec le sets p m (target_rule le o (if ipv6 then 24 else 16) d)) as [m1 v]. unfold view in HV. cbn in HV. injection HV as HM HK ->.
  assert (remark 0 (autoRouteDNATBypassMark o) (m_mark m) = Z.lxor (m_mark m) (autoRouteDNATBypassMark o)) as HR by (unfold remark; by rewrite Z.land_m1_r).
  rewrite IH; [|done|rewrite HM; case_bool_decide; [rewrite HR; by apply u32_lxor|done]]. rewrite HM, HK, HR. case_bool_decide as HE.
  - subst d. rewrite (bool_decide_eq_false_2 (tuple p ∈ targets)) by done. rewrite (bool_decide_eq_true_2 (tuple p ∈ tuple p :: targets)) by by left. done.
  - rewrite (bool_decide_ext (tuple p ∈ d :: targets) (tuple p ∈ targets)); [done|]. rewrite elem_of_cons. tauto.
Qed.
End Output.

Lemma nfor_rules {A} ch (f : A -> list expr) l c :
  nfor l (fun x => AddRule ch (f x)) c = (mkConn (c_sets c) (c_chains c) (c_rules c ++ map (pair (ch_Name ch)) (map f l)) (c_allocSetID c) (c_fail c), inr tt).
Proof.
  revert c. induction l as [|x l IH]; intros c; [cbn; rewrite app_nil_r; by destruct c|]. cbn [nfor map]. unfold nbind, AddRule. rewrite IH. cbn. by rewrite <- app_assoc.
Qed.
Lemma own_filter_same name rs : own name (List.filter (fun q : string * list expr => negb (String.eqb q.1 name)) rs) = [].
Proof. apply own_other, Forall_forall. intros q Hq. apply list_elem_of_In, filter_In in Hq as [_ Hq]. by apply negb_true_iff. Qed.
Lemma own_filter_other name name' rs : name <> name' -> own name' (List.filter (fun q : string * list expr => negb (String.eqb q.1 name)) rs) = own name' rs.
Proof.
  intros Hne. unfold own. induction rs as [|[n es] rs IH]; [done|]. cbn [List.filter fst]. destruct (String.eqb_spec n name) as [->|Hn]; cbn [negb].
  - rewrite IH. rewrite (proj2 (String.eqb_neq _ _) Hne). done.
  - cbn [List.filter fst]. destruct (String.eqb n name'); cbn [map]; by rewrite IH.
Qed.
Lemma own_pairs_other name name' rs : name <> name' -> own name' (map (pair name) rs) = [].
Proof. intros Hne. apply own_other, Forall_map, Forall_forall. intros x _. by apply String.eqb_neq. Qed.
Definition guard_rules (o : Options) (ipv6 : bool) : list (list expr) :=
  [[Meta MetaKeyOIFNAME 1 false; Cmp CmpOpNeq 1 (nftablesIfname (Name o)); Verdict VerdictReturn];
   [Meta MetaKeyNFPROTO 1 false; Cmp CmpOpNeq 1 [output_family ipv6]; Verdict VerdictReturn]].
Definition output_rules (le : bool) (o : Options) (ipv6 : bool) (targets : list ipvsDNSDestination) : list (list expr) :=
  match targets with [] => [] | _ => guard_rules o ipv6 ++ map (target_rule le o (if ipv6 then 24 else 16)) targets end.
Lemma replace_rules le o ipv6 targets c c' : replaceNFTIPVSOutput le o ipv6 targets c = (c', inr tt) ->
  let name := ch_Name (outputChain ipv6) in
  c_sets c' = c_sets c /\ c_rules c' = List.filter (fun q => negb (String.eqb (q.1) name)) (c_rules c) ++ map (pair name) (output_rules le o ipv6 targets).
Proof.
  unfold replaceNFTIPVSOutput. intros (c1 & [] & E1 & E)%nbind_ok. apply attempt_ok in E1 as (S1 & _ & R1 & _). cbv zeta in *. destruct targets as [|t ts].
  - unfold nbind, FlushChain, DelChain, Flush in E. apply attempt_ok in E as (S2 & _ & R2 & _). cbn [c_sets c_rules] in S2, R2. by rewrite S2, R2, S1, R1, app_nil_r.
  - set (targets := t :: ts) in *. assert (output_rules le o ipv6 targets = guard_rules o ipv6 ++ map (target_rule le o (if ipv6 then 24 else 16)) targets) as -> by done. clearbody targets.
    unfold nbind at 1 2 3 4, AddChain, FlushChain, AddRule at 1 2 in E. cbn [c_sets c_chains c_rules c_allocSetID c_fail] in E. unfold nbind in E. rewrite nfor_rules in E. apply attempt_ok in E as (S2 & _ & R2 & _).
    cbn [c_sets c_rules] in S2, R2. rewrite S2, R2, S1, R1. split; [done|]. unfold guard_rules. cbn [map app]. rewrite <- !app_assoc. by destruct ipv6.
Qed.
Lemma guards_view `{SetLookup} le o (p : packet) sets m rest ipv6 : packet_ok p -> name_ok (Name o) ->
  view (run_chain le sets p m (guard_rules o ipv6 ++ rest)) =
  if String.eqb (Name o) (p_oifname p) && family_of p (output_family ipv6) then view (run_chain le sets p (set_reg (set_reg m 1 (ifname16 (p_oifname p))) 1 [nfproto p]) rest)
  else (m_mark m, m_ctmark m, Some Returned).
Proof.
  intros Hp Hn. destruct Hp as (_ & Hoif & _). rewrite <- (ifname_eq (p_oifname p) (Name o)) by done. unfold guard_rules, family_of. rewrite <- byte_eq. cbn -[ifname16 nftablesIfname].
  destruct (bool_decide (ifname16 (p_oifname p) = nftablesIfname (Name o))); [|done]. cbn -[ifname16 nftablesIfname]. by destruct (bool_decide ([nfproto p] = [output_family ipv6])).
Qed.

(** After replaceNFTIPVSOutput the chain of the family marks exactly the
    packets that leave through the tun device towards one of the given IPVS
    servers: their mark is xored once with the bypass mark, which always
    changes it, every other packet keeps its mark, and no other chain is
    touched. *)
Lemma replaceNFTIPVSOutput_marks `{SetLookup} le o (p : packet) ipv6 targets c c' m :
  packet_ok p -> marks_ok o -> name_ok (Name o) -> is_u32 (m_mark m) -> Forall (target_ok ipv6) targets -> NoDup targets ->
  replaceNFTIPVSOutput le o ipv6 targets c = (c', inr tt) ->
  let routed := String.eqb (Name o) (p_oifname p) && family_of p (output_family ipv6) in
  view (run_chain le (c_sets c') p m (rules_of_chain c' (ch_Name (outputChain ipv6)))) =
    (if routed && bool_decide (tuple p ∈ targets) then Z.lxor (m_mark m) (autoRouteDNATBypassMark o) else m_mark m, m_ctmark m,
     if bool_decide (targets = []) || routed then None else Some Returned) /\
  Z.lxor (m_mark m) (autoRouteDNATBypassMark o) <> m_mark m /\
  forall name, name <> ch_Name (outputChain ipv6) -> rules_of_chain c' name = rules_of_chain c name.
Proof.
  intros Hp Ho Hn Hm Ht Hnd E routed. destruct (replace_rules le o ipv6 targets c c' E) as [S1 R1]. unfold rules_of_chain. fold (own (ch_Name (outputChain ipv6)) (c_rules c')). rewrite R1, own_app, own_filter_same, own_all. cbn [app]. split_and!.
  - destruct targets as [|t ts]; [cbn; rewrite (bool_decide_eq_false_2 (tuple p ∈ [])), andb_false_r by apply not_elem_of_nil; done|]. set (targets := t :: ts) in *.
    rewrite (bool_decide_eq_false_2 (targets = [])) by done. assert (output_rules le o ipv6 targets = guard_rules o ipv6 ++ map (target_rule le o (if ipv6 then 24 else 16)) targets) as -> by done. clearbody targets.
    rewrite guards_view by done. fold routed. destruct routed eqn:ER; [|done]. apply andb_true_iff in ER as [_ EF]. by rewrite targets_view.
  - destruct (bypass_mark_facts o Ho) as (_ & _ & _ & HN & _). intros EX. apply HN. rewrite <- (Z.lxor_0_l (autoRouteDNATBypassMark o)), <- (Z.lxor_nilpotent (m_mark m)) at 1. by rewrite Z.lxor_assoc, EX, Z.lxor_nilpotent.
  - intros name Hne. match goal with |- map snd (List.filter _ ?l) = _ => change (own name l = own name (c_rules c)) end. rewrite own_app, own_filter_other, own_pairs_other by congruence. apply app_nil_r.
Qed.

(** ** A device beside Docker and IPVS *)

Definition dnat_options : Options :=
  mkOptions "tun0" [netip.PrefixFrom (netip.Addr4 [172; 19; 0; 1]) 30] [] true netip.AddrInvalid netip.AddrInvalid "" [] None 2022 9000 32768 false 0 0 false
    [] [] false [] [] [] [] [] [] [] [] [] [] [] [] [] [] [] 0.
#[local] Instance plain_sets : SetLookup.
Proof. refine {| set_has := fun s k => if s_Interval s then in_intervals (s_Elements s) (be_val k) else bool_decide (k ∈ map Key (s_Elements s)) |}; intros s k ->; done. Defined.
Definition dns_packet (status : Z) : packet :=
  mkPacket "docker0" "tun0" 1 (repeat 2 6) (netip.Addr4 [10; 0; 0; 2]) (netip.Addr4 [10; 96; 0; 10]) IPPROTO_UDP 53 None status false false.
Lemma dns_packet_ok status : is_u32 status -> packet_ok (dns_packet status).
Proof.
  intros Hs. unfold packet_ok, dns_packet. cbn. split_and!; try done; try lia; try (split; [cbn; lia|repeat constructor; done]).
  - repeat (apply Forall_cons; split; [lia|]); apply Forall_nil; exact I.
  - left. eexists _, _. split_and!; [done|done| |]; (split; [repeat (apply Forall_cons; split; [lia|]); apply Forall_nil; exact I|done]).
Qed.
Lemma dnat_marks_ok : marks_ok dnat_options.
Proof. unfold marks_ok. cbn. lia. Qed.
Lemma DNATBypass_marks_witness :
  let '(c', err) := setupDNATBypass true dnat_options (mkConn [] [] [] 6 []) in
  err = inr tt /\ forall regs,
    view (run_chain true (c_sets c') (dns_packet 32) (mkMachine 65535 7 regs) (rules_of_chain c' "prerouting")) = (61476, 7, None) /\
    view (run_chain true (c_sets c') (dns_packet 0) (mkMachine 65535 7 regs) (rules_of_chain c' "prerouting")) = (65535, 7, None).
Proof.
  destruct (setupDNATBypass true dnat_options (mkConn [] [] [] 6 [])) as [c' err] eqn:E.
  assert (err = inr tt) as -> by (change err with (c', err).2; rewrite <- E; vm_compute; reflexivity). split; [done|]. intros regs.
  assert (forall status, is_u32 status -> view (run_chain true (c_sets c') (dns_packet status) (mkMachine 65535 7 regs) (rules_of_chain c' "prerouting")) =
    (if dnat_marked dnat_options (dns_packet status) 65535 then remark (autoRouteDNATBypassMask dnat_options) (autoRouteDNATBypassMark dnat_options) 65535 else 65535, 7, None)) as HD.
  { intros status Hs. refine (proj1 (DNATBypass_marks true dnat_options (dns_packet status) (mkConn [] [] [] 6 []) c' (mkMachine 65535 7 regs) (dns_packet_ok status Hs) dnat_marks_ok _ eq_refl E)). cbn. lia. }
  split; (rewrite HD; [vm_compute; reflexivity|lia]).
Defined.
Definition dns_target : ipvsDNSDestination := mkDest IPPROTO_UDP (netip.AddrPortFrom (netip.Addr4 [10; 96; 0; 10]) 53).
Lemma replaceNFTIPVSOutput_marks_witness :
  let '(c', err) := replaceNFTIPVSOutput true dnat_options false [dns_target] (mkConn [] [] [("ipvs_dns_output4"%string, [])] 6 []) in
  err = inr tt /\ forall regs, view (run_chain true (c_sets c') (dns_packet 0) (mkMachine 0 7 regs) (rules_of_chain c' "ipvs_dns_output4")) = (36, 7, None).
Proof.
  destruct (replaceNFTIPVSOutput true dnat_options false [dns_target] (mkConn [] [] [("ipvs_dns_output4"%string, [])] 6 [])) as [c' err] eqn:E.
  assert (err = inr tt) as -> by (change err with (c', err).2; rewrite <- E; vm_compute; reflexivity). split; [done|]. intros regs.
  destruct (replaceNFTIPVSOutput_marks true dnat_options (dns_packet 0) false [dns_target] (mkConn [] [] [("ipvs_dns_output4"%string, [])] 6 []) c' (mkMachine 0 7 regs) (dns_packet_ok 0 ltac:(lia)) dnat_marks_ok) as (HV & _);
    [split; [cbn; lia|repeat constructor; done]|cbn; lia| | |exact E|].
  - constructor; [|constructor]. split; [cbn; unfold IPPROTO_UDP; lia|]. split; [cbn; lia|]. split; [|done]. split; [split; [repeat (apply Forall_cons; split; [lia|]); apply Forall_nil; exact I|done]|done].
  - apply NoDup_singleton.
  - cbn [ch_Name outputChain] in HV. rewrite HV. vm_compute. reflexivity.
Defined.
