(* ===== verification/Monitor.v ===== *)
(** * The monitor of the default interface

    src/monitor_shared.go with the checkUpdate of Linux (monitor_linux_default.go),
    Android, Darwin and Windows, and the loop of the network monitor of
    monitor_linux.go.  What the operating system answers during a check is an
    argument of the check.  The check, the goroutine of its timer and the
    subscribers run concurrently: their steps between locks are events, and any
    order of them is a run. *)
From Stdlib Require Import String.
From S2P Require Import Prelude Bytes GoMem TsChecksum Netip TunOptions.
(** control.Interface of sing/common, and its Equals. *)
Class ControlInterface := {
  Interface : Type;
  if_Index : Interface -> Z;
  if_loopback : Interface -> bool;
  Equals : Interface -> Interface -> bool;
  Equals_refl : forall i, Equals i i = true;
  Equals_sym : forall i j, Equals i j = true -> Equals j i = true;
  Equals_trans : forall i j k, Equals i j = true -> Equals j k = true -> Equals i k = true
}.

Definition FlagAndroidVPNUpdate : Z := 1.

(** ** checkUpdate: the interface that is found *)

Section Select.
Context `{ControlInterface}.
Inductive outcome := ErrNoRoute | CheckError | Selected (i : Interface).

(** interfaceFinder.ByIndex and netlink.LinkByIndex, with the index of the link. *)
Context (ByIndex : Z -> option Interface) (LinkByIndex : Z -> option Z).
Definition link_interface (index : Z) : outcome :=
  match LinkByIndex index with
  | None => CheckError
  | Some k => match ByIndex k with None => CheckError | Some i => Selected i end
  end.

(** Linux: the routes of the main table. *)
Record route := mkRoute { rt_Dst : bool; rt_LinkIndex : Z }.
Fixpoint linux_routes (routes : list route) : outcome :=
  match routes with
  | [] => ErrNoRoute
  | r :: routes' => if rt_Dst r then linux_routes routes' else link_interface (rt_LinkIndex r)
  end.

(** Android: the rules, and the routes of the table they name. *)
Record android_rule := mkAndroidRule { ar_Mask : Z; ar_UIDRange : bool; ar_Table : Z }.
Fixpoint android_rules (overrideAndroidVPN : bool) (rules : list android_rule) (vpnEnabled : bool) : Z * bool :=
  match rules with
  | [] => (0, vpnEnabled)
  | r :: rules' =>
      if (ar_Mask r =? 131072) && negb (ar_UIDRange r) then android_rules overrideAndroidVPN rules' vpnEnabled
      else
        let vpnEnabled := if ar_Mask r =? 131072 then true else vpnEnabled in
        if (ar_Mask r =? 131072) && overrideAndroidVPN then (ar_Table r, vpnEnabled)
        else if ar_Mask r =? 65535 then (ar_Table r, vpnEnabled)
        else android_rules overrideAndroidVPN rules' vpnEnabled
  end.
Definition android_routes (routes : option (list route)) : outcome :=
  match routes with
  | None => CheckError
  | Some [] => ErrNoRoute
  | Some (r :: _) => link_interface (rt_LinkIndex r)
  end.

(** Darwin: route messages; the addresses that are IPv4. *)
Record route_message := mkRouteMessage {
  rm_complete : bool;              (** len(Addrs) > RTAX_NETMASK *)
  rm_destination : option (list Z); rm_mask : option (list Z);
  rm_Index : Z; rm_up : bool; rm_gateway : bool
}.
(** net.IPMask.Size: the ones of a mask, 0 when they are not its beginning. *)
Definition mask_bits (mask : list Z) : list bool := flat_map (fun b => map (fun i => Z.testbit b i) [7; 6; 5; 4; 3; 2; 1; 0]) mask.
Fixpoint leading_ones (bs : list bool) : nat := match bs with true :: bs' => S (leading_ones bs') | _ => O end.
Definition mask_ones (mask : list Z) : nat :=
  let bs := mask_bits mask in let n := leading_ones bs in if existsb id (drop n bs) then O else n.
Fixpoint darwin_messages (messages : list route_message) : outcome :=
  match messages with
  | [] => ErrNoRoute
  | r :: messages' =>
      if negb (rm_complete r) then darwin_messages messages'
      else if negb (bool_decide (rm_destination r = Some [0; 0; 0; 0])) then darwin_messages messages'
      else match rm_mask r with
           | None => darwin_messages messages'
           | Some mask =>
               if negb (bool_decide (mask_ones mask = O)) then darwin_messages messages'
               else match ByIndex (rm_Index r) with
                    | None => CheckError
                    | Some routeInterface =>
                        if negb (rm_up r) then darwin_messages messages'
                        else if negb (rm_gateway r) then darwin_messages messages'
                        else if if_loopback routeInterface then darwin_messages messages'
                        else Selected routeInterface
                    end
           end
  end.
(** The interface is looked up again by its index. *)
Definition by_index (o : outcome) : outcome :=
  match o with Selected i => match ByIndex (if_Index i) with Some j => Selected j | None => CheckError end | o => o end.

(** Windows: the routes of the table with what is known of their interfaces. *)
Record forward_row := mkRow {
  fr_PrefixLength : Z; fr_zeroTier : bool;   (** NextHop is ZeroTier's fake gateway *)
  fr_Metric : Z;
  fr_interface : option (bool * bool * string * Z);  (** up, virtual or loopback, alias, index *)
  fr_ipInterface : option (bool * Z)                 (** connected, metric *)
}.
Fixpoint windows_rows (rows : list forward_row) (lowestMetric : Z) (alias : string) (index : Z) : string * Z :=
  match rows with
  | [] => (alias, index)
  | row :: rows' =>
      let next := windows_rows rows' lowestMetric alias index in
      if negb (fr_PrefixLength row =? 0) then next
      else if fr_zeroTier row then next
      else match fr_interface row with
           | None => next
           | Some (up, virtual, al, ix) =>
               if negb up then next else if virtual then next
               else match fr_ipInterface row with
                    | None => next
                    | Some (connected, ifMetric) =>
                        if negb connected then next
                        else let metric := u32 (fr_Metric row + ifMetric) in
                             if metric <? lowestMetric then windows_rows rows' metric al ix else next
                    end
           end
  end.
Definition windows_select (rows : list forward_row) : outcome :=
  let '(alias, index) := windows_rows rows 4294967295 "" 0 in
  if String.eqb alias "" then ErrNoRoute
  else match ByIndex index with Some i => Selected i | None => CheckError end.
End Select.

(** What the system answers during a check; the call that lists fails with [None]. *)
Inductive answers `{ControlInterface} :=
| LinuxAnswers (ByIndex : Z -> option Interface) (LinkByIndex : Z -> option Z) (routes : option (list route))
| AndroidAnswers (ByIndex : Z -> option Interface) (LinkByIndex : Z -> option Z) (rules : option (list android_rule)) (routes : Z -> option (list route))
| DarwinAnswers (ByIndex : Z -> option Interface) (messages : option (list route_message))
| DarwinExtension (ByIndex : Z -> option Interface) (bySocket : option (option Interface))  (** getDefaultInterfaceBySocket *)
| WindowsAnswers (ByIndex : Z -> option Interface) (rows : option (list forward_row)).

Section Monitor.
Context `{ControlInterface}.

(** The outcome, and the new androidVPNEnabled. *)
Definition select (overrideAndroidVPN vpn : bool) (a : answers) : outcome * bool :=
  match a with
  | LinuxAnswers ByIndex LinkByIndex routes => (match routes with None => CheckError | Some rs => linux_routes ByIndex LinkByIndex rs end, vpn)
  | AndroidAnswers ByIndex LinkByIndex rules routes =>
      match rules with
      | None => (CheckError, vpn)
      | Some rs =>
          let '(table, vpn') := android_rules overrideAndroidVPN rs false in
          (if table =? 0 then ErrNoRoute else android_routes ByIndex LinkByIndex (routes table), vpn')
      end
  | DarwinAnswers ByIndex messages => (match messages with None => CheckError | Some ms => by_index ByIndex (darwin_messages ByIndex ms) end, vpn)
  | DarwinExtension ByIndex bySocket =>
      (match bySocket with None => CheckError | Some None => ErrNoRoute | Some (Some i) => by_index ByIndex (Selected i) end, vpn)
  | WindowsAnswers ByIndex rows => (match rows with None => CheckError | Some rs => windows_select ByIndex rs end, vpn)
  end.

(** ** State *)

Record defaultInterfaceMonitor := mkMonitor {
  overrideAndroidVPN : bool;
  defaultInterface : option Interface;
  androidVPNEnabled : bool;
  noRoute : bool
}.
Definition NewDefaultInterfaceMonitor (override : bool) : defaultInterfaceMonitor := mkMonitor override None false false.
(** What callbacks are called with. *)
Abbreviation notification := (option Interface * Z)%type.

(** checkUpdate up to its emit: the state, what it emits, and its error
    (ErrNoRoute or another). *)
Definition checkUpdate (m : defaultInterfaceMonitor) (a : answers) : defaultInterfaceMonitor * option notification * option outcome :=
  let oldVPNEnabled := androidVPNEnabled m in
  let '(o, vpnEnabled) := select (overrideAndroidVPN m) oldVPNEnabled a in
  let same := Bool.eqb oldVPNEnabled vpnEnabled in
  match o with
  | Selected newInterface =>
      let m' := mkMonitor (overrideAndroidVPN m) (Some newInterface) vpnEnabled (noRoute m) in
      if match defaultInterface m with Some oldInterface => Equals oldInterface newInterface && same | None => false end then (m', None, None)
      else (m', Some (Some newInterface, if same then 0 else FlagAndroidVPNUpdate), None)
  | err => (mkMonitor (overrideAndroidVPN m) (defaultInterface m) vpnEnabled (noRoute m), None, Some err)
  end.

(** postCheckUpdate up to the call of emit: the state, what is emitted, whether
    noRoute is cleared afterwards, and whether the check is delayed again.
    [updated] is the answer of interfaceFinder.Update. *)
Definition postCheckUpdate (m : defaultInterfaceMonitor) (updated : bool) (a : answers) : defaultInterfaceMonitor * option notification * bool * bool :=
  if negb updated then (m, None, false, true)
  else
    let '(m', e, err) := checkUpdate m a in
    match err with
    | Some ErrNoRoute =>
        if negb (noRoute m') then (mkMonitor (overrideAndroidVPN m') None (androidVPNEnabled m') true, Some (None, 0), false, false)
        else (m', None, false, false)
    | Some _ => (m', None, false, true)
    | None => (m', e, true, false)
    end.
Definition clear_noRoute (m : defaultInterfaceMonitor) : defaultInterfaceMonitor :=
  mkMonitor (overrideAndroidVPN m) (defaultInterface m) (androidVPNEnabled m) false.

(** ** Runs *)

(** Where the check is that holds checkAccess: nowhere; before the callbacks
    are copied; or calling those that are left. *)
Inductive phase := Idle | Emitting (n : notification) (clear : bool) | Calling (rest : list nat) (n : notification) (clear : bool).

Record run_state := mkRun {
  monitor : defaultInterfaceMonitor;
  where_ : phase;
  armed : bool;              (** checkUpdateTimer is running *)
  waiting : nat;             (** calls of postCheckUpdate that wait for checkAccess *)
  callbacks : list nat;      (** the elements of the list *)
  fresh_element : nat;
  views : gmap nat (option Interface);  (** what the subscriber of an element knows *)
  started : bool;
  (** the last outcome, and whether something happened since the last check began *)
  last_outcome : option outcome;
  dirty : bool
}.
Definition initial (override : bool) : run_state := mkRun (NewDefaultInterfaceMonitor override) Idle false 0 [] 0 ∅ false None false.

Inductive event :=
| Start                               (** registers delayCheckUpdate, calls postCheckUpdate *)
| NetworkUpdate                       (** the network monitor calls delayCheckUpdate *)
| TimerFires
| Check (updated : bool) (a : answers)  (** a waiting postCheckUpdate gets checkAccess *)
| Snapshot                            (** emit copies the callbacks *)
| Call                                (** and calls the next one *)
| Return                              (** the check ends *)
| RegisterCallback
| UnregisterCallback (element : nat)
| DefaultInterface (element : nat).   (** a subscriber asks *)

Definition exec (e : event) (w : run_state) : option run_state :=
  let '(mkRun m ph ar wt cbs fr vs st lo di) := w in
  match e with
  | Start => if st then None else Some (mkRun m ph ar (S wt) cbs fr vs true lo true)
  | NetworkUpdate => if st then Some (mkRun m ph true wt cbs fr vs st lo true) else None
  | TimerFires => if ar then Some (mkRun m ph false (S wt) cbs fr vs st lo di) else None
  | Check updated a =>
      match ph, wt with
      | Idle, S wt' =>
          let '(m', n, clear, delay) := postCheckUpdate m updated a in
          let lo' := if updated then Some (select (overrideAndroidVPN m) (androidVPNEnabled m) a).1 else Some CheckError in
          match n with
          | Some n => Some (mkRun m' (Emitting n clear) (ar || delay) wt' cbs fr vs st lo' delay)
          | None => Some (mkRun (if clear then clear_noRoute m' else m') Idle (ar || delay) wt' cbs fr vs st lo' delay)
          end
      | _, _ => None
      end
  | Snapshot => match ph with Emitting n clear => Some (mkRun m (Calling cbs n clear) ar wt cbs fr vs st lo di) | _ => None end
  | Call => match ph with Calling (c :: rest) n clear => Some (mkRun m (Calling rest n clear) ar wt cbs fr (<[c := n.1]> vs) st lo di) | _ => None end
  | Return => match ph with Calling [] n clear => Some (mkRun (if clear then clear_noRoute m else m) Idle ar wt cbs fr vs st lo di) | _ => None end
  | RegisterCallback => Some (mkRun m ph ar wt (cbs ++ [fr]) (S fr) vs st lo di)
  | UnregisterCallback c => if bool_decide (c ∈ cbs) then Some (mkRun m ph ar wt (List.filter (fun c' => negb (c' =? c)%nat) cbs) fr vs st lo di) else None
  | DefaultInterface c => if bool_decide (c ∈ cbs) then Some (mkRun m ph ar wt cbs fr (<[c := defaultInterface m]> vs) st lo di) else None
  end.
Fixpoint run (es : list event) (w : run_state) : option run_state :=
  match es with [] => Some w | e :: es' => w' ← exec e w; run es' w' end.
End Monitor.

(** ** networkUpdateMonitor of Linux *)

Module NetworkUpdate.
Inductive loop := Receiving | Pausing | Returned.
(** The channels with room for two, the loop, and how often it emitted; [n_sent]
    counts the updates that netlink sent. *)
Record monitor := mkNetwork { n_route : nat; n_link : nat; n_closed : bool; n_loop : loop; n_emits : nat; n_sent : nat }.
Definition initial : monitor := mkNetwork 0 0 false Receiving 0 0.
Inductive event := SendRoute | SendLink | ReceiveRoute | ReceiveLink | TimerTicks | SeesClose | Close.
(** [None]: the step cannot be taken; Close of a closed monitor is an error and
    changes nothing. *)
Definition exec (e : event) (m : monitor) : option monitor :=
  let '(mkNetwork r l c lp em se) := m in
  match e with
  | SendRoute => if (r <? 2)%nat then Some (mkNetwork (S r) l c lp em (S se)) else None
  | SendLink => if (l <? 2)%nat then Some (mkNetwork r (S l) c lp em (S se)) else None
  | ReceiveRoute => match lp, r with Receiving, S r' => Some (mkNetwork r' l c Pausing (S em) se) | _, _ => None end
  | ReceiveLink => match lp, l with Receiving, S l' => Some (mkNetwork r l' c Pausing (S em) se) | _, _ => None end
  | TimerTicks => match lp with Pausing => Some (mkNetwork r l c Receiving em se) | _ => None end
  | SeesClose => match lp with Returned => None | _ => if c then Some (mkNetwork r l c Returned em se) else None end
  | Close => Some (mkNetwork r l true lp em se)
  end.
Fixpoint run (es : list event) (m : monitor) : option monitor :=
  match es with [] => Some m | e :: es' => m' ← exec e m; run es' m' end.
(** No update is lost: each led to an emit of its own or is still in its
    channel, and the loop only returns when the monitor was closed. *)
Lemma updates_conserved es m : run es initial = Some m -> (n_emits m + n_route m + n_link m)%nat = n_sent m /\ (n_loop m = Returned -> n_closed m = true).
Proof.
  assert (forall es' m0 m', run es' m0 = Some m' -> (n_emits m0 + n_route m0 + n_link m0)%nat = n_sent m0 -> (n_loop m0 = Returned -> n_closed m0 = true) ->
    (n_emits m' + n_route m' + n_link m')%nat = n_sent m' /\ (n_loop m' = Returned -> n_closed m' = true)) as HG; [|intros HR; by apply (HG es initial m HR)].
  clear es m. intros es. induction es as [|e es' IH]; intros m0 m' HR H1 H2; [by simplify_eq/=|]. cbn [run] in HR. destruct (exec e m0) as [m1|] eqn:E; [|done]. cbn in HR.
  assert ((n_emits m1 + n_route m1 + n_link m1)%nat = n_sent m1 /\ (n_loop m1 = Returned -> n_closed m1 = true)) as [H1' H2'].
  { destruct m0 as [r l c lp em se]. destruct e; cbn in E, H1, H2; repeat case_match; simplify_eq; cbn in *; split; try lia; auto; try discriminate. }
  by apply (IH m1 m').
Qed.
End NetworkUpdate.

(** ** What subscribers of the default interface know

    An invariant of all runs of the monitor, by induction on the events; and
    what a failed check on Android forgets. *)

Section Spec.
Context `{CI : ControlInterface}.

(** Both nil, or equal as interfaces. *)
Definition agrees (v d : option Interface) : Prop :=
  match v, d with None, None => True | Some i, Some j => Equals i j = true | _, _ => False end.
#[export] Instance agrees_equiv : Equivalence agrees.
Proof.
  split.
  - intros [i|]; [apply Equals_refl|done].
  - intros [i|] [j|]; cbn; try done. apply Equals_sym.
  - intros [i|] [j|] [k|]; cbn; try done. apply Equals_trans.
Qed.

(** *** The invariant *)

Definition knows (cbs rest : list nat) (vs : gmap nat (option Interface)) (d : option Interface) : Prop :=
  forall c v, c ∈ cbs -> vs !! c = Some v -> c ∈ rest \/ agrees v d.
Definition phase_ok (w : run_state) : Prop :=
  let d := defaultInterface (monitor w) in
  match where_ w with
  | Idle => knows (callbacks w) [] (views w) d /\ (noRoute (monitor w) = true -> d = None)
  | Emitting n clear => n.1 = d /\ (clear = false -> noRoute (monitor w) = true -> d = None)
  | Calling rest n clear => n.1 = d /\ (clear = false -> noRoute (monitor w) = true -> d = None) /\ knows (callbacks w) rest (views w) d /\ Forall (fun c => (c < fresh_element w)%nat) rest
  end.
Definition outcome_ok (w : run_state) : Prop :=
  match last_outcome w with
  | Some (Selected i) => defaultInterface (monitor w) = Some i
  | Some ErrNoRoute => defaultInterface (monitor w) = None
  | _ => True
  end.
Record inv (w : run_state) : Prop := {
  inv_phase : phase_ok w;
  inv_outcome : outcome_ok w;
  inv_fresh : Forall (fun c => (c < fresh_element w)%nat) (callbacks w) /\ forall c, is_Some (views w !! c) -> (c < fresh_element w)%nat;
  inv_dirty : dirty w = true -> armed w = true \/ (0 < waiting w)%nat
}.

Lemma knows_agrees cbs rest vs d d' : agrees d d' -> knows cbs rest vs d -> knows cbs rest vs d'.
Proof. intros Hd Hk c v Hc Hv. destruct (Hk c v Hc Hv) as [?|?]; [by left|right]. by transitivity d. Qed.
Lemma knows_told cbs c rest vs d : knows cbs (c :: rest) vs d -> knows cbs rest (<[c := d]> vs) d.
Proof.
  intros Hk c' v Hc Hv. destruct (decide (c' = c)) as [->|Hne]; [rewrite lookup_insert_eq in Hv; injection Hv as <-; by right|].
  rewrite lookup_insert_ne in Hv by done. destruct (Hk c' v Hc Hv) as [Hr|?]; [|by right]. apply elem_of_cons in Hr as [?|?]; [done|by left].
Qed.
Lemma knows_fewer cbs cbs' rest vs d : (forall c, c ∈ cbs' -> c ∈ cbs) -> knows cbs rest vs d -> knows cbs' rest vs d.
Proof. intros Hs Hk c v Hc. by apply Hk, Hs. Qed.
Lemma knows_asked cbs rest vs d c : knows cbs rest vs d -> knows cbs rest (<[c := d]> vs) d.
Proof. intros Hk. apply knows_told. intros c' v Hc Hv. destruct (Hk c' v Hc Hv); [left; by right|by right]. Qed.
Lemma knows_new cbs rest (vs : gmap nat (option Interface)) d fr : (forall c, is_Some (vs !! c) -> (c < fr)%nat) -> knows cbs rest vs d -> knows (cbs ++ [fr]) rest vs d.
Proof.
  intros Hf Hk c v [Hc|Hc%list_elem_of_singleton]%elem_of_app Hv; [by eapply Hk|]. subst c. specialize (Hf fr ltac:(by eexists)). lia.
Qed.

(** A check. *)
Lemma check_inv m updated a m' n clear delay (vs : gmap nat (option Interface)) cbs :
  postCheckUpdate m updated a = (m', n, clear, delay) -> knows cbs [] vs (defaultInterface m) -> (noRoute m = true -> defaultInterface m = None) ->
  match n with
  | Some n => n.1 = defaultInterface m' /\ (clear = false -> noRoute m' = true -> defaultInterface m' = None)
  | None => knows cbs [] vs (defaultInterface m') /\ (clear = false -> noRoute m' = true -> defaultInterface m' = None)
  end /\
  match (if updated then Some (select (overrideAndroidVPN m) (androidVPNEnabled m) a).1 else Some CheckError) with
  | Some (Selected i) => defaultInterface m' = Some i
  | Some ErrNoRoute => defaultInterface m' = None
  | _ => True
  end.
Proof.
  unfold postCheckUpdate, checkUpdate. intros HP Hk Hn. destruct updated; cbn [negb] in HP; [|by injection HP as <- <- <- <-]. destruct (select _ _ a) as [o vpn] eqn:ES. cbn [fst]. destruct o as [| |i]; cbn [noRoute] in HP.
  - destruct (noRoute m) eqn:EN; cbn [negb] in HP; injection HP as <- <- <- <-; cbn [defaultInterface]; [|done]. rewrite (Hn eq_refl) in *. done.
  - by injection HP as <- <- <- <-.
  - destruct (defaultInterface m) as [old|] eqn:EO; [|by injection HP as <- <- <- <-]. destruct (Equals old i) eqn:EE; [|by injection HP as <- <- <- <-]. cbn [andb] in HP.
    destruct (Bool.eqb _ vpn); injection HP as <- <- <- <-; cbn [defaultInterface]; [|done]. split; [|done]. split; [|by intros]. eapply knows_agrees; [|exact Hk]. exact EE.
Qed.

Lemma exec_inv e w w' : inv w -> exec e w = Some w' -> inv w'.
Proof.
  destruct w as [m ph ar wt cbs fr vs st lo di]. intros [HP HO [HF HV] HD] HE. cbn in HP, HO, HF, HV, HD. destruct e as [| | |updated a| | | | |c|c]; cbn [exec] in HE.
  - destruct st; [done|]. injection HE as <-. split; cbn; auto; right; lia.
  - destruct st; [|done]. injection HE as <-. split; cbn; auto.
  - destruct ar; [|done]. injection HE as <-. split; cbn; auto; right; lia.
  - destruct ph; [|done..]. destruct wt as [|wt]; [done|]. destruct HP as [Hk Hn]. destruct (postCheckUpdate m updated a) as [[[m' n] clear] delay] eqn:EP. destruct (check_inv m updated a m' n clear delay vs cbs EP Hk Hn) as [Hn' HO'].
    destruct n as [n|]; injection HE as <-.
    + split; cbn; auto. intros ->. left. apply orb_true_r.
    + destruct Hn' as [Hk' Hn']. split; cbn; [|by destruct clear|done|intros ->; left; apply orb_true_r]. unfold phase_ok. cbn. destruct clear; cbn; (split; [done|]); [done|by apply Hn'].
  - destruct ph as [|n clear|]; [done| |done]. injection HE as <-. destruct HP as [H1 H2]. split; cbn; auto. unfold phase_ok. cbn. split_and!; try done. intros c v Hc _. by left.
  - destruct ph as [| |[|c rest] n clear]; [done..|]. injection HE as <-. destruct HP as (H1 & H2 & H3 & [Hc H4]%Forall_cons). split; cbn; auto.
    + unfold phase_ok. cbn. rewrite H1. split_and!; try done. by apply knows_told.
    + split; [done|]. intros c'. destruct (decide (c' = c)) as [->|]; [done|]. rewrite lookup_insert_ne by done. apply HV.
  - destruct ph as [| |[|c rest] n clear]; [done..| |done]. injection HE as <-. destruct HP as (H1 & H2 & H3 & _). split; cbn; auto; [|by destruct clear]. unfold phase_ok. cbn. destruct clear; cbn; (split; [done|]); [done|by apply H2].
  - injection HE as <-. split; cbn; [|done| |done].
    + unfold phase_ok in *. cbn in *. destruct ph as [|n clear|rest n clear]; [destruct HP; split; [by apply knows_new|done]|done|]. destruct HP as (? & ? & ? & HR). split_and!; try done; [by apply knows_new|]. eapply Forall_impl; [exact HR|]. cbn. lia.
    + split; [apply Forall_app; split; [eapply Forall_impl; [exact HF|]; cbn; lia|repeat constructor; lia]|]. intros c Hc%HV. lia.
  - destruct (bool_decide _); [|done]. injection HE as <-. assert (forall c', c' ∈ List.filter (fun c' => negb (c' =? c)%nat) cbs -> c' ∈ cbs) as HS by (intros c' Hc'; apply list_elem_of_In in Hc'; apply filter_In in Hc' as [? _]; by apply list_elem_of_In).
    split; cbn; [|done| |done].
    + unfold phase_ok in *. cbn in *. destruct ph as [|n clear|rest n clear]; [destruct HP; split; [by eapply knows_fewer|done]|done|]. destruct HP as (? & ? & ? & HR). split_and!; try done. by eapply knows_fewer.
    + split; [|done]. apply Forall_forall. intros c' Hc'%HS. rewrite Forall_forall in HF. by apply HF.
  - destruct (bool_decide (c ∈ cbs)) eqn:EC; [|done]. apply bool_decide_eq_true in EC. injection HE as <-. split; cbn; [|done| |done].
    + unfold phase_ok in *. cbn in *. destruct ph as [|n clear|rest n clear]; [destruct HP; split; [by apply knows_asked|done]|done|]. destruct HP as (? & ? & ? & HR). split_and!; try done. by apply knows_asked.
    + split; [done|]. intros c'. destruct (decide (c' = c)) as [->|]; [intros _; rewrite Forall_forall in HF; by apply HF|]. rewrite lookup_insert_ne by done. apply HV.
Qed.
Lemma initial_inv override : inv (initial override).
Proof.
  split; [|done| |done].
  - split; [intros c v []%elem_of_nil|done].
  - split; [constructor|]. intros c. cbn [views initial]. rewrite lookup_empty. by intros [? [=]].
Qed.
Lemma run_inv es w w' : inv w -> run es w = Some w' -> inv w'.
Proof.
  revert w. induction es as [|e es IH]; intros w Hi HR; [by injection HR as <-|]. cbn [run] in HR. destruct (exec e w) as [w1|] eqn:E; [|done]. cbn in HR. eapply IH; [|exact HR]. by eapply exec_inv.
Qed.
End Spec.

(** C24: what subscribers of the default interface know, in every interleaving of
    checks, timers, network updates, registrations and callbacks.  Whenever no
    check is at work, every subscriber that registered and then asked once or
    was called knows an interface that equals the default interface; the
    default interface is what the last check found (none when it found no
    route); and if the network changed or a check failed since the last check
    began, another check is on its way. *)
Theorem DefaultInterfaceMonitor_knows `{CI : ControlInterface} (override : bool) (es : list event) (w : run_state) :
  run es (initial override) = Some w -> where_ w = Idle ->
  (forall c v, c ∈ callbacks w -> views w !! c = Some v -> agrees v (defaultInterface (monitor w))) /\
  match last_outcome w with
  | Some (Selected i) => defaultInterface (monitor w) = Some i
  | Some ErrNoRoute => defaultInterface (monitor w) = None
  | _ => True
  end /\
  (dirty w = true -> armed w = true \/ (0 < waiting w)%nat).
Proof.
  intros HR HI. destruct (run_inv es _ w (initial_inv override) HR) as [HP HO _ HD]. unfold phase_ok in HP. rewrite HI in HP. destruct HP as [HK _]. split_and!; [|exact HO|exact HD].
  intros c v Hc Hv. destruct (HK c v Hc Hv) as [[]%elem_of_nil|?]; done.
Qed.

(** Interfaces that are their index. *)
Definition index_interface : ControlInterface.
Proof. refine {| Interface := Z; if_Index := fun i => i; if_loopback := fun _ => false; Equals := Z.eqb |}; [apply Z.eqb_refl|intros i j; by rewrite Z.eqb_sym|intros i j k ->%Z.eqb_eq; done]. Defined.
#[local] Existing Instance index_interface.
Definition default_over (i : Z) : answers := LinuxAnswers Some Some (Some [mkRoute true 9; mkRoute false i]).
(** A subscriber registers while the callbacks of the first check are called. *)
Definition sample_events : list event :=
  [RegisterCallback; Start; Check true (default_over 2); Snapshot; RegisterCallback; DefaultInterface 1%nat; Call; Return;
   NetworkUpdate; TimerFires; Check true (default_over 3); Snapshot; Call; Call; Return].
Lemma DefaultInterfaceMonitor_knows_witness : exists w,
  run sample_events (initial false) = Some w /\ defaultInterface (monitor w) = Some 3 /\ views w !! 1%nat = Some (Some 3) /\ agrees (Some 3) (defaultInterface (monitor w)).
Proof.
  destruct (run sample_events (initial false)) as [w|] eqn:E; [|vm_compute in E; discriminate E]. exists w. split; [reflexivity|].
  destruct (DefaultInterfaceMonitor_knows false sample_events w E) as (H1 & H2 & _); [vm_compute in E; injection E as <-; reflexivity|]. 
  assert (views w !! 1%nat = Some (Some 3)) as HV by (vm_compute in E; injection E as <-; reflexivity).
  split; [vm_compute in E; injection E as <-; reflexivity|]. split; [exact HV|]. apply (H1 1%nat); [vm_compute in E; injection E as <-; apply (bool_decide_unpack _); vm_compute; exact I|exact HV].
Defined.

(** C40: on Android a check that fails after the rules were read forgets that a
    VPN came up or went down: androidVPNEnabled is stored before the link is
    looked up, so the next check, which finds the same interface, sees no change
    and calls no subscriber, although AndroidVPNEnabled answers differently. *)
Theorem Android_vpn_update_lost `{CI : ControlInterface} (m : defaultInterfaceMonitor) (old i : Interface) (vpn : bool) (table : Z)
    (rules : list android_rule) (r : route) (routes : list route) (ByIndex : Z -> option Interface) (LinkByIndex : Z -> option Z) (k : Z) :
  defaultInterface m = Some old -> androidVPNEnabled m = negb vpn -> android_rules (overrideAndroidVPN m) rules false = (table, vpn) -> table <> 0 ->
  LinkByIndex (rt_LinkIndex r) = Some k -> ByIndex k = Some i -> Equals old i = true ->
  let failing := AndroidAnswers ByIndex (fun _ => None) (Some rules) (fun _ => Some (r :: routes)) in
  let working := AndroidAnswers ByIndex LinkByIndex (Some rules) (fun _ => Some (r :: routes)) in
  exists m1 m2, postCheckUpdate m true failing = (m1, None, false, true) /\ postCheckUpdate m1 true working = (m2, None, true, false) /\
    androidVPNEnabled m2 = vpn /\ exists m', postCheckUpdate m true working = (m', Some (Some i, FlagAndroidVPNUpdate), true, false).
Proof.
  intros HD HV HR HT HL HB HE failing working. apply Z.eqb_neq in HT. unfold postCheckUpdate, checkUpdate, failing, working, select. cbn [negb]. rewrite HR, HT. cbn [android_routes]. unfold link_interface. rewrite HL, HB. cbn [overrideAndroidVPN androidVPNEnabled defaultInterface noRoute].
  eexists _, _. split; [reflexivity|]. cbn [overrideAndroidVPN androidVPNEnabled defaultInterface noRoute]. rewrite HR, HT, HD, HE, Bool.eqb_reflx. split; [reflexivity|]. split; [reflexivity|]. rewrite HV. eexists. by destruct vpn.
Qed.
Lemma Android_vpn_update_lost_witness : exists m1 m2,
  postCheckUpdate (mkMonitor (H := index_interface) false (Some 5) false false) true (AndroidAnswers Some (fun _ => None) (Some [mkAndroidRule 131072 true 7; mkAndroidRule 65535 false 9]) (fun _ => Some [mkRoute false 5])) = (m1, None, false, true) /\
  postCheckUpdate m1 true (AndroidAnswers Some Some (Some [mkAndroidRule 131072 true 7; mkAndroidRule 65535 false 9]) (fun _ => Some [mkRoute false 5])) = (m2, None, true, false) /\ androidVPNEnabled m2 = true.
Proof.
  destruct (Android_vpn_update_lost (CI := index_interface) (mkMonitor (H := index_interface) false (Some 5) false false) 5 5 true 9 [mkAndroidRule 131072 true 7; mkAndroidRule 65535 false 9] (mkRoute false 5) [] Some Some 5) as (m1 & m2 & H1 & H2 & H3 & _); try reflexivity; [discriminate|].
  by exists m1, m2.
Defined.
