(* ===== verification/Iptables.v ===== *)
(** * iptables(8), and the texts that netip and the shell make of values

    The commands the sources run are lists of words.  A rule is kept as the
    options of its command, each with its value, as [iptables -S] lists it; what
    an option tests and what a target does is that of iptables(8) and
    iptables-extensions(8), for the options and targets the sources use.  How
    iptables reads an address is a parameter. *)
From Stdlib Require Import String Ascii.
From S2P Require Import Prelude Bytes GoMem TsChecksum Netip TunOptions TunRules.

(** ** Words *)

(** strings.Split(s, " "), strings.Join(ws, " "); the words a shell sees. *)
Fixpoint split_words (s : string) : list string :=
  match s with
  | EmptyString => [""%string]
  | String c s' =>
      if Ascii.eqb c " "%char then ""%string :: split_words s'
      else match split_words s' with w :: ws => String c w :: ws | [] => [String c ""] end
  end.
Definition join_words (ws : list string) : string := String.concat " " ws.
Definition shell_words (s : string) : list string := List.filter (fun w => negb (String.eqb w "")) (split_words s).
(** strings.TrimSpace, for spaces. *)
Fixpoint trim_left (s : string) : string :=
  match s with String c s' => if Ascii.eqb c " "%char then trim_left s' else s | EmptyString => s end.
Fixpoint trim_right (s : string) : string :=
  match s with
  | EmptyString => ""%string
  | String c s' => match trim_right s' with EmptyString => if Ascii.eqb c " "%char then ""%string else String c "" | t => String c t end
  end.
Definition TrimSpace (s : string) : string := trim_right (trim_left s).

(** ** net/netip: String *)

Definition dotted (b : list Z) : string := String.concat "." (map itoa b).
Definition hex_digit (d : Z) : ascii := ascii_of_N (Z.to_N (if d <? 10 then 48 + d else 87 + d)).
(** A 16-bit group without leading zeros. *)
Definition hex16 (v : Z) : string :=
  let d i := v / 16 ^ i mod 16 in
  let rest n := fold_right (fun i s => String (hex_digit (d i)) s) ""%string n in
  if 4096 <=? v then rest [3; 2; 1; 0] else if 256 <=? v then rest [2; 1; 0] else if 16 <=? v then rest [1; 0] else rest [0].
Fixpoint groups (b : list Z) : list Z := match b with x :: y :: b' => 256 * x + y :: groups b' | _ => [] end.
(** The first of the longest runs of at least two zero groups. *)
Fixpoint zero_run (gs : list Z) : nat := match gs with g :: gs' => if g =? 0 then S (zero_run gs') else O | [] => O end.
Fixpoint longest_zeros (gs : list Z) (i : nat) (best : nat * nat) : nat * nat :=
  match gs with
  | [] => best
  | _ :: gs' =>
      let n := zero_run gs in
      longest_zeros gs' (S i) (if (2 <=? n)%nat && (best.2 - best.1 <? n)%nat then (i, (i + n)%nat) else best)
  end.
Definition colons (gs : list Z) : string := String.concat ":" (map hex16 gs).
Definition text6 (b : list Z) : string :=
  let gs := groups b in
  match longest_zeros gs 0 (255%nat, 255%nat) with
  | (start, stop) => if (stop <=? 8)%nat then String.append (colons (take start gs)) (String.append "::" (colons (drop stop gs))) else colons gs
  end.
Definition Addr_String (a : netip.Addr) : string :=
  match a with
  | netip.AddrInvalid => "invalid IP"
  | netip.Addr4 b => dotted b
  | netip.Addr6 b => if netip.Is4In6 a then String.append "::ffff:" (dotted (drop 12 b)) else text6 b
  end.
Definition Prefix_String (p : netip.Prefix) : string := String.append (Addr_String (netip.pf_addr p)) (String.append "/" (itoa (netip.pf_bits p))).
Definition AddrPort_String (a : netip.Addr) (port : Z) : string :=
  match a with
  | netip.AddrInvalid => "invalid AddrPort"
  | netip.Addr4 _ => String.append (Addr_String a) (String.append ":" (itoa port))
  | netip.Addr6 _ => String.append "[" (String.append (Addr_String a) (String.append "]:" (itoa port)))
  end.
Example text_v6 : map Addr_String [netip.Addr6 (repeat 0 16); netip.Addr6 ([32; 1; 13; 184] ++ repeat 0 11 ++ [1]); netip.Addr6 (repeat 0 10 ++ [255; 255; 10; 0; 0; 1]);
    netip.Addr6 [254; 128; 0; 0; 0; 1; 0; 0; 0; 0; 0; 2; 1; 0; 15; 160]; netip.Addr4 [10; 0; 255; 7]] =
  ["::"; "2001:db8::1"; "::ffff:10.0.0.1"; "fe80:0:1::2:100:fa0"; "10.0.255.7"]%string.
Proof. vm_compute. reflexivity. Qed.

(** ** Rules *)

(** The options of a rule with their values. *)
Abbreviation ipt_rule := (list (string * string)).
(** Chains by table and name. *)
Abbreviation tables := (gmap (string * string) (list ipt_rule)).

Record ipt_packet := mkPacket {
  k_proto : Z; k_iif : string; k_oif : string; k_dst : netip.Addr; k_dport : Z;
  k_ctstate : list string;   (** the states of its connection *)
  k_ctdir : string;
  k_dsttype : string         (** the type of its destination *)
}.
(** Interfaces: a name, or the beginning of a name and a "+". *)
Fixpoint ifname_match (x name : string) : bool :=
  match x, name with
  | EmptyString, EmptyString => true
  | String c EmptyString, _ => Ascii.eqb c "+"%char || String.eqb x name
  | String c x', String d name' => Ascii.eqb c d && ifname_match x' name'
  | _, _ => false
  end.
Definition proto_match (x : string) (proto : Z) : bool :=
  if String.eqb x "tcp" then proto =? 6 else if String.eqb x "udp" then proto =? 17 else bool_decide (ParseUint32 x = Some proto).

(** What -d makes of an address. *)
Class IptablesAddresses := {
  dst_match : string -> netip.Addr -> bool;
  dst_match_prefix : forall p a, valid_prefix p -> valid_addr a -> dst_match (Prefix_String p) a = netip.Contains p a;
  dst_match_addr : forall x a, valid_addr x -> valid_addr a -> dst_match (Addr_String x) a = bool_decide (x = a)
}.

Section Rules.
Context `{IptablesAddresses}.

Definition option_match (q : string * string) (p : ipt_packet) : bool :=
  let '(o, x) := q in
  if String.eqb o "-p" then proto_match x (k_proto p)
  else if String.eqb o "-i" then ifname_match x (k_iif p)
  else if String.eqb o "-o" then ifname_match x (k_oif p)
  else if String.eqb o "-d" then dst_match x (k_dst p)
  else if String.eqb o "--dport" then bool_decide (ParseUint32 x = Some (k_dport p))
  else if String.eqb o "--ctstate" then bool_decide (x ∈ k_ctstate p)
  else if String.eqb o "--ctdir" then String.eqb x (k_ctdir p)
  else if String.eqb o "--dst-type" then String.eqb x (k_dsttype p)
  else true.
Definition rule_match (r : ipt_rule) (p : ipt_packet) : bool := forallb (fun q => option_match q p) r.
Fixpoint option_value (o : string) (r : ipt_rule) : string :=
  match r with [] => "" | (o', x) :: r' => if String.eqb o o' then x else option_value o r' end.

Inductive verdict := Accepted | Redirected (port : string) | Translated (target : string).
Inductive action := Terminate (v : verdict) | Return | SetXmark (value : string) | Jump (chain : string).
Definition rule_action (r : ipt_rule) : action :=
  let j := option_value "-j" r in
  if String.eqb j "ACCEPT" then Terminate Accepted
  else if String.eqb j "RETURN" then Return
  else if String.eqb j "REDIRECT" then Terminate (Redirected (option_value "--to-ports" r))
  else if String.eqb j "DNAT" then Terminate (Translated (option_value "--to" r))
  else if String.eqb j "MARK" then
    (* --xor-mark bits is --set-xmark bits/0 *)
    SetXmark (if String.eqb (option_value "--xor-mark" r) "" then option_value "--set-xmark" r else String.append (option_value "--xor-mark" r) "/0")
  else Jump j.

(** The mark value/mask that MARK --set-xmark gets: the bits of the mask are
    cleared, then the value is xored in. *)
Context (xmark : string -> Z -> Z).

(** A chain over a packet: the mark, and the verdict if there is one. *)
Fixpoint run_rules (run : string -> Z -> Z * option verdict) (rs : list ipt_rule) (p : ipt_packet) (m : Z) : Z * option verdict :=
  match rs with
  | [] => (m, None)
  | r :: rs' =>
      if rule_match r p then
        match rule_action r with
        | Terminate v => (m, Some v)
        | Return => (m, None)
        | SetXmark x => run_rules run rs' p (xmark x m)
        | Jump c => let '(m', v) := run c m in match v with Some v => (m', Some v) | None => run_rules run rs' p m' end
        end
      else run_rules run rs' p m
  end.
(** [depth] bounds the nesting of chains. *)
Fixpoint run_chain (depth : nat) (T : tables) (table chain : string) (p : ipt_packet) (m : Z) : Z * option verdict :=
  match depth with
  | O => (m, None)
  | S depth' => run_rules (fun c m => run_chain depth' T table c p m) (default [] (T !! (table, chain))) p m
  end.
End Rules.

(** ** Commands *)

Definition known_options : list string := ["-p"; "-i"; "-o"; "-d"; "-m"; "-j"; "--dport"; "--ctstate"; "--ctdir"; "--dst-type"; "--to-ports"; "--to"; "--set-xmark"; "--xor-mark"]%string.
Fixpoint parse_rule (ws : list string) : option ipt_rule :=
  match ws with
  | [] => Some []
  | o :: x :: ws' => if existsb (String.eqb o) known_options then r ← parse_rule ws'; Some ((o, x) :: r) else None
  | _ => None
  end.
Definition targets : list string := ["ACCEPT"; "RETURN"; "REDIRECT"; "DNAT"; "MARK"]%string.
Definition builtin_chains : list string := ["PREROUTING"; "INPUT"; "FORWARD"; "OUTPUT"; "POSTROUTING"]%string.
Definition jumps_to (c : string) (r : ipt_rule) : bool := String.eqb (option_value "-j" r) c.
(** A target, or a chain of the table. *)
Definition target_ok (T : tables) (table : string) (r : ipt_rule) : bool :=
  existsb (String.eqb (option_value "-j" r)) targets || bool_decide (is_Some (T !! (table, option_value "-j" r))).
Definition referenced (T : tables) (table c : string) : bool :=
  existsb (fun e : (string * string) * list ipt_rule => String.eqb (e.1.1) table && existsb (jumps_to c) (e.2)) (map_to_list T).
Fixpoint remove_first (r : ipt_rule) (rs : list ipt_rule) : option (list ipt_rule) :=
  match rs with [] => None | r' :: rs' => if decide (r = r') then Some rs' else option_map (cons r') (remove_first r rs') end.

(** One command; [None] is an error, after which nothing has changed. *)
Definition ipt_command (T : tables) (table op c : string) (ws : list string) : option tables :=
  if String.eqb op "-N" then
    match T !! (table, c) with Some _ => None | None => Some (<[(table, c) := []]> T) end
  else
    rules ← T !! (table, c);
    if String.eqb op "-A" then r ← parse_rule ws; if target_ok T table r then Some (<[(table, c) := rules ++ [r]]> T) else None
    else if String.eqb op "-I" then r ← parse_rule ws; if target_ok T table r then Some (<[(table, c) := r :: rules]> T) else None
    else if String.eqb op "-D" then r ← parse_rule ws; rules' ← remove_first r rules; Some (<[(table, c) := rules']> T)
    else if String.eqb op "-F" then Some (<[(table, c) := []]> T)
    else if String.eqb op "-X" then
      match rules with
      | [] => if existsb (String.eqb c) builtin_chains || referenced T table c then None else Some (delete (table, c) T)
      | _ => None
      end
    else None.
Definition ipt_table (T : tables) (table : string) (ws : list string) : option tables :=
  match ws with op :: c :: ws' => ipt_command T table op c ws' | _ => None end.
Definition ipt_words (T : tables) (ws : list string) : option tables :=
  match ws with
  | o :: x :: ws' => if String.eqb o "-t" then ipt_table T x ws' else ipt_table T "filter" ws
  | _ => None
  end.
(** -w waits for the lock. *)
Definition iptables (T : tables) (ws : list string) : option tables :=
  match ws with
  | o :: x :: ws' => if String.eqb o "-w" then ipt_words T ws' else ipt_words T ws
  | _ => None
  end.
(** iptables-restore --noflush: the lines of a table, all or none; ":chain"
    creates a chain, or flushes it. *)
Definition restore_line (table : string) (T : tables) (ws : list string) : option tables :=
  match ws with
  | String ":" c :: _ => Some (<[(table, c) := []]> T)
  | op :: c :: ws' => ipt_command T table op c ws'
  | _ => None
  end.
Definition restore (table : string) (T : tables) (lines : list (list string)) : option tables :=
  foldl (fun T ws => T ← T; restore_line table T ws) (Some T) lines.

(** ** Running commands *)

(** The tables of each program, and whether the next commands fail for reasons
    of their own (a lock, a missing module). *)
Record host := mkHost { h_tables : gmap string tables; h_fails : list bool }.
Definition run_program (h : host) (ws : list string) : host * bool :=
  let h' := mkHost (h_tables h) (drop 1 (h_fails h)) in
  if default false (head (h_fails h)) then (h', false)
  else match ws with
       | [] => (h', false)
       | program :: args =>
           match T ← h_tables h !! program; iptables T args with
           | Some T' => (mkHost (<[program := T']> (h_tables h)) (h_fails h'), true)
           | None => (h', false)
           end
       end.

(** Code that runs commands: the host after it, and whether there was no error. *)
Definition script := host -> host * bool.
Definition s_ok : script := fun h => (h, true).
Definition s_fail : script := fun h => (h, false).
Definition s_seq (a b : script) : script := fun h => let '(h1, ok) := a h in if ok : bool then b h1 else (h1, false).
Definition s_when (b : bool) (a : script) : script := if b then a else s_ok.
Fixpoint s_for {A} (xs : list A) (f : A -> script) : script := match xs with [] => s_ok | x :: xs' => s_seq (f x) (s_for xs' f) end.
(** An error is ignored. *)
Definition s_ignore (a : script) : script := fun h => ((a h).1, true).
Declare Scope ipt_scope.
Delimit Scope ipt_scope with ipt.
Infix ";;&" := s_seq (at level 100, right associativity) : ipt_scope.
