(* ===== verification/RedirectIptables.v ===== *)
(** * redirect_iptables.go, redirect_iptables_dns_hijack.go, redirect_linux.go

    The commands with which auto-redirect sets up and removes its chains where
    nftables is not used, and the choice between the two. *)
From Stdlib Require Import String Ascii.
From S2P Require Import Prelude Bytes GoMem TsChecksum Netip TunOptions TunRules Iptables.
#[local] Open Scope string_scope.
#[local] Open Scope ipt_scope.

Record ipt_redirect := mkIptRedirect {
  i_tunOptions : Options; tableName : string; i_enableIPv4 : bool; i_enableIPv6 : bool;
  iptablesPath : string; ip6tablesPath : string; androidSu : bool; i_redirectPort : Z
}.

Section Redirect.
Context (os : GOOS) (r : ipt_redirect).
Let o := i_tunOptions r.

(** The words of the command; with su they are those of a shell. *)
Definition command_words (commands : list string) : list string :=
  let commandStr := join_words commands in
  if androidSu r then shell_words commandStr else split_words commandStr.
Definition runShell (commands : list string) : script := fun h => run_program h (command_words commands).

Definition tableNameInput : string := tableName r ++ "-input".
Definition tableNameForward : string := tableName r ++ "-forward".
Definition tableNameOutput : string := tableName r ++ "-output".
Definition tableNamePreRouteing : string := tableName r ++ "-prerouting".

(** ** DNS queries *)

Definition default_hijack : list DNSHijackRule := [mkHijack "udp" (netip.AddrPortFrom IPv4Unspecified 53)].
Definition hijack_rules : list DNSHijackRule := default default_hijack (DNSHijack o).
(** Whether a rule is for the family, and its destination is routed. *)
Definition hijack_applies (v4 : bool) (routeAddress : list netip.Prefix) (rule : DNSHijackRule) : bool :=
  let address := netip.ap_addr (h_Address rule) in
  negb (String.eqb (h_Network rule) "tcp" || negb (IsUnspecified address) && negb (Bool.eqb (netip.Is4 address) v4)) &&
  (IsUnspecified address || bool_decide (length routeAddress = 0%nat) || existsb (fun p => netip.Contains p address) routeAddress).
Definition hijack_destination (rule : DNSHijackRule) : string :=
  let address := netip.ap_addr (h_Address rule) in
  if IsUnspecified address then "" else "-d " ++ Addr_String address.
Definition hijack_selectors (routeAddress : list netip.Prefix) (rule : DNSHijackRule) : list string :=
  let destination := hijack_destination rule in
  if negb (bool_decide (length routeAddress = 0%nat)) && String.eqb destination "" then map (fun p => "-d " ++ Prefix_String p) routeAddress
  else if bool_decide (length routeAddress = 0%nat) && negb (bool_decide (length (IncludeInterface o) = 0%nat) && bool_decide (length (IncludeUID o) = 0%nat))
  then map (fun name => destination ++ " -i " ++ name) (IncludeInterface o)
  else [destination].
Definition hijack_command (path chain target : string) (rule : DNSHijackRule) (selector : string) : list string :=
  let selector := TrimSpace selector in
  [path; "-t nat -A"; chain] ++ (if String.eqb selector "" then [] else [selector]) ++
  ["-p udp --dport"; itoa (netip.ap_port (h_Address rule)); "-j DNAT --to"; target].
(** The server that queries go to: found with the first selector. *)
Definition hijack_target (v4 : bool) : option (option string) :=
  match (if v4 then Inet4DNSAddress o else Inet6DNSAddress o) with
  | inl _ => None
  | inr [] => Some None
  | inr (server :: _) => Some (Some (match DNSHijack o with Some _ => AddrPort_String server 53 | None => Addr_String server end))
  end.
Definition iptablesCreateDNSHijackRules (path chain : string) (routeAddress : list netip.Prefix) : script :=
  let v4 := String.eqb path (iptablesPath r) in
  let commands := flat_map (fun rule => if hijack_applies v4 routeAddress rule then map (pair rule) (hijack_selectors routeAddress rule) else []) hijack_rules in
  match commands with
  | [] => s_ok
  | _ =>
      match hijack_target v4 with
      | None => s_fail
      | Some None => s_ok
      | Some (Some target) => s_for commands (fun q => runShell (hijack_command path chain target (q.1) (q.2)))
      end
  end.

(** ** Setup *)

Definition setup_output (path : string) : script :=
  runShell [path; "-t nat -N"; tableNameOutput] ;;&
  runShell [path; "-t nat -A"; tableNameOutput; "-p tcp -o"; Name o; "-j REDIRECT --to-ports"; itoa (i_redirectPort r)] ;;&
  runShell [path; "-t nat -I OUTPUT -j"; tableNameOutput].
(** INPUT and FORWARD get the same rules. *)
Definition setup_filter (path hook chain : string) : script :=
  runShell [path; "-N"; chain] ;;&
  runShell [path; "-A"; chain; "-i"; Name o; "-j"; "ACCEPT"] ;;&
  runShell [path; "-A"; chain; "-o"; Name o; "-j"; "ACCEPT"] ;;&
  runShell [path; "-I " ++ hook ++ " -j"; chain].

Definition routeAddress (path : string) : list netip.Prefix := if String.eqb path (iptablesPath r) then Inet4RouteAddress o else Inet6RouteAddress o.
Definition routeExcludeAddress (path : string) : list netip.Prefix := if String.eqb path (iptablesPath r) then Inet4RouteExcludeAddress o else Inet6RouteExcludeAddress o.
Definition includes : bool := negb (bool_decide (length (IncludeInterface o) = 0%nat)) || negb (bool_decide (length (IncludeUID o) = 0%nat)).
Definition addRule (path : string) (ws : list string) : script := runShell ([path; "-t nat -A"; tableNamePreRouteing] ++ ws).

Definition setup_prerouting (path : string) : script :=
  let port := itoa (i_redirectPort r) in
  let addresses := routeAddress path in
  runShell [path; "-t nat -N"; tableNamePreRouteing] ;;&
  s_when (AutoRoute o) (addRule path ["-m conntrack --ctstate DNAT -j RETURN"]) ;;&
  (if negb (bool_decide (length addresses = 0%nat)) && includes then s_fail else s_ok) ;;&
  addRule path ["-i"; Name o; "-j RETURN"] ;;&
  s_for (routeExcludeAddress path) (fun address => addRule path ["-d"; Prefix_String address; "-j RETURN"]) ;;&
  s_for (ExcludeInterface o) (fun name => addRule path ["-i"; name; "-j RETURN"]) ;;&
  s_when (AutoRoute o) (addRule path ["-m addrtype --dst-type LOCAL -j RETURN"]) ;;&
  s_when (String.eqb (DNSModeOrDefault os o) DNSModeHijack) (iptablesCreateDNSHijackRules path tableNamePreRouteing addresses) ;;&
  s_when (negb (AutoRoute o)) (addRule path ["-m addrtype --dst-type LOCAL -j RETURN"]) ;;&
  (if negb (bool_decide (length addresses = 0%nat)) then
     s_for addresses (fun address => addRule path ["-d"; Prefix_String address; "-p tcp -j REDIRECT --to-ports"; port])
   else if includes then
     s_for (IncludeInterface o) (fun name => addRule path ["-i"; name; "-p tcp -j REDIRECT --to-ports"; port])
   else addRule path ["-p tcp -j REDIRECT --to-ports"; port]) ;;&
  runShell [path; "-t nat"; if AutoRoute o then "-A" else "-I"; "PREROUTING -j"; tableNamePreRouteing].

Definition setupIPTablesForFamily (path : string) : script :=
  setup_output path ;;&
  if bool_decide (os = Android) then s_ok
  else
    setup_filter path "INPUT" tableNameInput ;;&
    setup_filter path "FORWARD" tableNameForward ;;&
    setup_prerouting path.
Definition setupIPTables : script :=
  s_when (i_enableIPv4 r) (setupIPTablesForFamily (iptablesPath r)) ;;&
  s_when (i_enableIPv6 r) (setupIPTablesForFamily (ip6tablesPath r)).

(** ** Cleanup *)

Definition cleanup_chain (path table hook chain : string) : script :=
  s_ignore (runShell [path; table ++ "-D " ++ hook ++ " -j"; chain]) ;;&
  s_ignore (runShell [path; table ++ "-F"; chain]) ;;&
  s_ignore (runShell [path; table ++ "-X"; chain]).
Definition cleanupIPTablesForFamily (path : string) : script :=
  cleanup_chain path "-t nat " "OUTPUT" tableNameOutput ;;&
  if bool_decide (os = Android) then s_ok
  else
    cleanup_chain path "" "INPUT" tableNameInput ;;&
    cleanup_chain path "" "FORWARD" tableNameForward ;;&
    cleanup_chain path "-t nat " "PREROUTING" tableNamePreRouteing.
Definition cleanupIPTables : script :=
  s_when (i_enableIPv4 r) (cleanupIPTablesForFamily (iptablesPath r)) ;;&
  s_when (i_enableIPv6 r) (cleanupIPTablesForFamily (ip6tablesPath r)).
End Redirect.

(** ** redirect_linux.go *)

(** What nftables.New and ListTablesOfFamily report. *)
Inductive nft_probe := ProbeOK | ProbeErrInvalid | ProbeError.
Inductive redirect_error := NoRoot | NoIptables | NoIp6tables | ServerError | SetupError.
Section Linux.
Context (os : GOOS) (LookPath : string -> option string) (uid : Z) (probe : nft_probe).

(** The first of the paths that is found. *)
Fixpoint look_first (paths : list string) : option string :=
  match paths with [] => None | p :: ps => match LookPath p with Some q => Some q | None => look_first ps end end.
(** The redirect, whether it uses nftables, and the path of su; the port is
    known once Start ran. *)
Definition NewAutoRedirect (o : Options) (table : string) (DisableNFTables : bool) : redirect_error + (ipt_redirect * bool * string) :=
  let useNFTables := negb (bool_decide (os = Android)) && negb DisableNFTables in
  if bool_decide (os = Android) then
    if (uid =? 0)%Z then inr (mkIptRedirect o table true false "/system/bin/iptables" "" false 0, useNFTables, "")
    else match look_first ["su"; "/product/bin/su"; "/system/bin/su"] with
         | None => inl NoRoot
         | Some su => inr (mkIptRedirect o table true false "/system/bin/iptables" "" true 0, useNFTables, su)
         end
  else
    let useNFTables := useNFTables && match probe with ProbeError => false | _ => true end in
    let enable4 := negb (bool_decide (length (Inet4Address o) = 0%nat)) in
    let enable6 := negb (bool_decide (length (Inet6Address o) = 0%nat)) in
    match (if enable4 && negb useNFTables then LookPath "iptables" else Some "") with
    | None => inl NoIptables
    | Some path4 =>
        match (if enable6 && negb useNFTables then LookPath "ip6tables" else Some "") with
        | None => if negb enable4 then inl NoIp6tables else inr (mkIptRedirect o table enable4 false path4 "" false 0, useNFTables, "")
        | Some path6 => inr (mkIptRedirect o table enable4 enable6 path4 path6 false 0, useNFTables, "")
        end
    end.
Definition listenAddr (r : ipt_redirect) : netip.Addr :=
  if bool_decide (os = Android) then netip.Addr4 [127; 0; 0; 1] else if i_enableIPv6 r then IPv6Unspecified else IPv4Unspecified.
Definition with_port (r : ipt_redirect) (port : Z) : ipt_redirect :=
  mkIptRedirect (i_tunOptions r) (tableName r) (i_enableIPv4 r) (i_enableIPv6 r) (iptablesPath r) (ip6tablesPath r) (androidSu r) port.
(** Start without nftables: [custom] is the port of customRedirectPortFunc, or
    0 (not a negative number), and [listen] the port the redirect server gets
    at an address.  Close runs cleanupIPTables again. *)
Definition Start (r : ipt_redirect) (custom : Z) (listen : netip.Addr -> option Z) : host -> host * (redirect_error + ipt_redirect) := fun h =>
  match (if (custom =? 0)%Z then match listen (listenAddr r) with Some port => inr port | None => inl ServerError end
         else inr (u16 custom)) with
  | inl e => (h, inl e)
  | inr port =>
      let r := with_port r port in
      let '(h, ok) := (cleanupIPTables os r ;;& setupIPTables os r) h in
      (h, if ok : bool then inr r else inl SetupError)
  end.
Definition Close (r : ipt_redirect) : script := cleanupIPTables os r.
End Linux.
