(* ===== verification/RedirectIptablesSpec.v ===== *)
(** * Auto-redirect with iptables

    The words of every command; what the chain of PREROUTING decides once the
    setup succeeded; and that the cleanup puts the tables back as they were,
    whichever command of the setup failed. *)
From Stdlib Require Import String Ascii.
From S2P Require Import Prelude Bytes GoMem TsChecksum Netip TunOptions TunRules Iptables RedirectIptables.
#[local] Open Scope ipt_scope.

(** ** Words *)

(** A word: not empty, and without spaces. *)
Fixpoint no_space (s : string) : bool := match s with EmptyString => true | String c s' => negb (Ascii.eqb c " "%char) && no_space s' end.
Definition word (s : string) : Prop := no_space s = true /\ s <> ""%string.

Lemma split_words_cons s : exists w ws, split_words s = w :: ws.
Proof. induction s as [|c s (w & ws & IH)]; cbn; [by do 2 eexists|]. rewrite IH. destruct (Ascii.eqb c " "); by do 2 eexists. Qed.
Lemma append_cons c s t : String.append (String c s) t = String c (String.append s t).
Proof. done. Qed.
Lemma split_words_app s t : exists l w w' r, split_words s = l ++ [w] /\ split_words t = w' :: r /\ split_words (String.append s t) = l ++ String.append w w' :: r.
Proof.
  destruct (split_words_cons t) as (w' & r & Ht). induction s as [|c s IH]; [exists [], ""%string, w', r; done|]. rewrite append_cons. cbn.
  destruct IH as (l & w & w2 & r2 & Hs & Ht2 & IH). rewrite Ht in Ht2. injection Ht2 as <- <-. rewrite IH, Hs. destruct (Ascii.eqb c " ").
  - exists (""%string :: l), w, w', r. done.
  - destruct l as [|x l]; cbn; [exists [], (String c w), w', r; done|exists (String c x :: l), w, w', r; done].
Qed.
Lemma ipt_append_nil_r s : String.append s "" = s.
Proof. induction s as [|c s IH]; [done|]. by rewrite append_cons, IH. Qed.
Lemma split_words_sep s t : split_words (String.append s (String " " t)) = split_words s ++ split_words t.
Proof.
  destruct (split_words_app s (String " " t)) as (l & w & w' & r & Hs & Ht & ->). cbn in Ht. injection Ht as <- <-. rewrite Hs, ipt_append_nil_r, <- app_assoc. done.
Qed.
Lemma split_join ws : ws <> [] -> split_words (join_words ws) = flat_map split_words ws.
Proof.
  intros Hne. induction ws as [|w ws IH]; [done|]. destruct ws as [|w2 ws]; [cbn; by rewrite app_nil_r|]. change (join_words (w :: w2 :: ws)) with (String.append w (String " " (join_words (w2 :: ws)))).
  rewrite split_words_sep, IH by done. done.
Qed.
Lemma split_no_space s : no_space s = true -> split_words s = [s].
Proof. induction s as [|c s IH]; [done|]. cbn. intros [Hc Hs]%andb_prop. apply negb_true_iff in Hc. by rewrite Hc, IH. Qed.
Lemma no_space_app s t : no_space (String.append s t) = no_space s && no_space t.
Proof. induction s as [|c s IH]; [done|]. rewrite append_cons. cbn. by rewrite IH, andb_assoc. Qed.
Lemma split_word s : word s -> split_words s = [s].
Proof. intros [? _]. by apply split_no_space. Qed.

(** The texts of numbers and addresses are words. *)
Lemma no_space_concat sep ws : no_space sep = true -> Forall (fun w => no_space w = true) ws -> no_space (String.concat sep ws) = true.
Proof.
  intros Hs. induction 1 as [|w ws Hw Hws IH]; [done|]. destruct ws as [|w2 ws]; [done|].
  change (String.concat sep (w :: w2 :: ws)) with (String.append w (String.append sep (String.concat sep (w2 :: ws)))). by rewrite !no_space_app, Hw, Hs, IH.
Qed.
Lemma ascii_not_space n : 33 <= n < 256 -> Ascii.eqb (ascii_of_N (Z.to_N n)) " "%char = false.
Proof.
  intros Hn. apply Ascii.eqb_neq. intros E. apply (f_equal N_of_ascii) in E. rewrite N_ascii_embedding in E by lia. cbn in E. lia.
Qed.
Lemma itoa_loop_no_space fuel n acc : no_space acc = true -> no_space (itoa_loop fuel n acc) = true.
Proof.
  revert n acc. induction fuel as [|fuel IH]; intros n acc Ha; cbn [itoa_loop].
  - cbn [no_space]. rewrite ascii_not_space by (pose proof (Z.mod_pos_bound n 10); lia). done.
  - destruct (n <? 10); [|apply IH]; cbn [no_space]; rewrite ascii_not_space by (pose proof (Z.mod_pos_bound n 10); lia); done.
Qed.
Lemma itoa_loop_ne fuel n acc : itoa_loop fuel n acc <> ""%string.
Proof. revert n acc. induction fuel as [|fuel IH]; intros n acc; cbn [itoa_loop]; [done|]. destruct (n <? 10); [done|apply IH]. Qed.
Lemma word_itoa n : word (itoa n).
Proof. split; [by apply itoa_loop_no_space|apply itoa_loop_ne]. Qed.
Lemma dotted_no_space b : no_space (dotted b) = true.
Proof. apply no_space_concat; [done|]. apply Forall_map, Forall_forall. intros x _. apply (word_itoa x). Qed.
Lemma hex_digit_not_space d : 0 <= d < 16 -> Ascii.eqb (hex_digit d) " "%char = false.
Proof. intros. unfold hex_digit. apply ascii_not_space. zcase; lia. Qed.
Lemma hex16_no_space v : no_space (hex16 v) = true.
Proof.
  assert (forall l, no_space (fold_right (fun i s => String (hex_digit (v / 16 ^ i mod 16)) s) ""%string l) = true) as HL.
  { induction l as [|i l IH]; [done|]. cbn [fold_right no_space]. rewrite hex_digit_not_space by (apply Z.mod_pos_bound; lia). done. }
  unfold hex16. repeat case_match; apply HL.
Qed.
Lemma colons_no_space gs : no_space (colons gs) = true.
Proof. apply no_space_concat; [done|]. apply Forall_map, Forall_forall. intros x _. apply hex16_no_space. Qed.
Lemma text6_no_space b : no_space (text6 b) = true.
Proof. unfold text6. destruct (longest_zeros _ _ _) as [start stop]. destruct (stop <=? 8)%nat; rewrite ?no_space_app, ?colons_no_space; done. Qed.
Lemma Addr_String_no_space a : netip.IsValid a = true -> no_space (Addr_String a) = true.
Proof. destruct a; [done|intros _; apply dotted_no_space|intros _]. unfold Addr_String. destruct (netip.Is4In6 _); [rewrite no_space_app, dotted_no_space; done|apply text6_no_space]. Qed.
Lemma word_app s t : no_space s = true -> word t -> word (String.append s t).
Proof. intros Hs [Ht Hn]. split; [by rewrite no_space_app, Hs, Ht|]. destruct s; [done|]. rewrite append_cons. done. Qed.
Lemma word_prefix p : netip.IsValid (netip.pf_addr p) = true -> word (Prefix_String p).
Proof. intros Hp. unfold Prefix_String. apply word_app; [by apply Addr_String_no_space|]. apply word_app; [done|apply word_itoa]. Qed.
Lemma word_addrport a port : netip.IsValid a = true -> word (AddrPort_String a port).
Proof.
  intros Ha. unfold AddrPort_String. destruct a; [done| |].
  - apply word_app; [by apply Addr_String_no_space|]. apply word_app; [done|apply word_itoa].
  - apply word_app; [done|]. apply word_app; [by apply Addr_String_no_space|]. apply word_app; [done|apply word_itoa].
Qed.
Lemma append_ne s t : s <> ""%string \/ t <> ""%string -> String.append s t <> ""%string.
Proof. destruct s; [|rewrite append_cons; done]. intros [?|?]; done. Qed.
Lemma concat_ne sep w ws : w <> ""%string -> String.concat sep (w :: ws) <> ""%string.
Proof. intros Hw. destruct ws as [|w2 ws]; [done|]. change (String.concat sep (w :: w2 :: ws)) with (String.append w (String.append sep (String.concat sep (w2 :: ws)))). apply append_ne. by left. Qed.
Lemma hex16_ne v : hex16 v <> ""%string.
Proof. unfold hex16. repeat case_match; done. Qed.
Lemma word_addr a : valid_addr a -> word (Addr_String a).
Proof.
  intros [Hw Hv]. split; [by apply Addr_String_no_space|]. destruct a as [|b|b]; [done| |]; destruct Hw as [_ Hl].
  - destruct b as [|x b]; [done|]. cbn [Addr_String]. apply concat_ne, word_itoa.
  - unfold Addr_String. destruct (netip.Is4In6 _); [by apply append_ne; left|]. unfold text6. destruct (longest_zeros _ _ _) as [start stop]. destruct (stop <=? 8)%nat.
    + apply append_ne. right. apply append_ne. by left.
    + destruct b as [|x [|y b]]; [done|done|]. cbn [groups]. apply concat_ne, hex16_ne.
Qed.

(** strings.TrimSpace of selectors. *)
Lemma trim_right_word w : word w -> trim_right w = w.
Proof.
  intros [Hs Hn]. induction w as [|c w IH]; [done|]. cbn in *. apply andb_prop in Hs as [Hc Hs]. apply negb_true_iff in Hc. destruct w as [|d w]; [cbn; by rewrite Hc|].
  rewrite IH by done. done.
Qed.
Lemma trim_right_app s w : word w -> trim_right (String.append s w) = String.append s w.
Proof.
  intros Hw. induction s as [|c s IH]; [by apply trim_right_word|]. rewrite append_cons. cbn. rewrite IH. destruct (String.append s w) as [|d t] eqn:E; [|done].
  exfalso. revert E. apply append_ne. right. apply Hw.
Qed.
Lemma trim_left_ns c s : Ascii.eqb c " "%char = false -> trim_left (String c s) = String c s.
Proof. intros Hc. cbn. by rewrite Hc. Qed.
Lemma ipt_append_assoc s t u : String.append (String.append s t) u = String.append s (String.append t u).
Proof. induction s as [|c s IH]; [done|]. by rewrite !append_cons, IH. Qed.

Lemma command_words_split r ws : ws <> [] -> Forall (fun w => w <> ""%string) (flat_map split_words ws) -> command_words r ws = flat_map split_words ws.
Proof.
  intros Hne HF. unfold command_words, shell_words. rewrite split_join by done. destruct (androidSu r); [|done]. induction HF as [|w l Hw _ IH]; [done|]. cbn [List.filter].
  destruct (String.eqb_spec w ""); [done|]. cbn [negb]. by rewrite IH.
Qed.

(** ** Commands and tables *)

(** What a script does to the tables of a program: [F] when there is no error. *)
Definition effect (path : string) (a : script) (F : tables -> option tables) : Prop :=
  forall h h' ok T, a h = (h', ok) -> h_tables h !! path = Some T ->
    if ok : bool then exists T', F T = Some T' /\ h_tables h' = <[path := T']> (h_tables h) else h_tables h' = h_tables h.
Lemma runShell_effect r path ws args : word path -> flat_map split_words ws = args -> Forall (fun w => w <> ""%string) args ->
  effect path (runShell r (path :: ws)) (fun T => iptables T args).
Proof.
  intros Hp <- Ha h h' ok T Hr HT. unfold runShell in Hr. rewrite command_words_split in Hr; [|done|cbn; rewrite split_word by done; constructor; [apply Hp|done]].
  cbn [flat_map] in Hr. rewrite split_word in Hr by done. cbn [app] in Hr. unfold run_program in Hr. destruct (default false _); [by injection Hr as <- <-|]. rewrite HT in Hr. cbn [mbind option_bind] in Hr.
  destruct (iptables T _) as [T'|]; injection Hr as <- <-; [|done]. by exists T'.
Qed.
(** Without failures of the programs themselves. *)
Lemma runShell_quiet r path ws args H T : word path -> flat_map split_words ws = args -> Forall (fun w => w <> ""%string) args -> H !! path = Some T ->
  runShell r (path :: ws) (mkHost H []) = match iptables T args with Some T' => (mkHost (<[path := T']> H) [], true) | None => (mkHost H [], false) end.
Proof.
  intros Hp <- Ha HT. unfold runShell. rewrite command_words_split; [|done|cbn; rewrite split_word by done; constructor; [apply Hp|done]].
  cbn [flat_map]. rewrite split_word by done. cbn [app]. unfold run_program. cbn [h_fails head default drop h_tables]. rewrite HT. cbn [mbind option_bind]. by destruct (iptables T _).
Qed.

(** A hook: the builtin chain, and the chain of its own. *)
Record hook := mkHook { hk_table : string; hk_hook : string; hk_chain : string }.
Definition jump (c : string) : ipt_rule := [("-j"%string, c)].
(** Rules that jump to no chain. *)
Definition plain (r : ipt_rule) : Prop := existsb (String.eqb (option_value "-j" r)) targets = true.
Definition own_key (k : hook) : string * string := (hk_table k, hk_chain k).
Definition hook_key (k : hook) : string * string := (hk_table k, hk_hook k).

(** The state of a hook on its way: the chain may exist, and once it does the
    jump may be there, at the beginning or at the end. *)
Definition unhooked (k : hook) (T0 T : tables) : Prop :=
  T !! hook_key k = T0 !! hook_key k /\ (T !! own_key k = None \/ exists R, T !! own_key k = Some R /\ Forall plain R).
Definition hooked (k : hook) (T0 T : tables) : Prop :=
  exists H R, T0 !! hook_key k = Some H /\ T !! own_key k = Some R /\ Forall plain R /\ (T !! hook_key k = Some (jump (hk_chain k) :: H) \/ T !! hook_key k = Some (H ++ [jump (hk_chain k)])).
Definition reaches (k : hook) (T0 T : tables) : Prop := unhooked k T0 T \/ hooked k T0 T.
Definition elsewhere (ks : list hook) (T0 T : tables) : Prop := forall key, (forall k, k ∈ ks -> key <> own_key k /\ key <> hook_key k) -> T !! key = T0 !! key.

(** A script that takes the tables of [path] from [P] to [Q], or to [E] when it
    fails. *)
Definition keeps (path : string) (P Q E : tables -> Prop) (a : script) : Prop :=
  forall h h' ok T, a h = (h', ok) -> h_tables h !! path = Some T -> P T ->
    exists T', h_tables h' = <[path := T']> (h_tables h) /\ if ok : bool then Q T' else E T'.
Lemma keeps_effect (path : string) (P Q E : tables -> Prop) (a : script) F : effect path a F -> (forall T, P T -> E T) -> (forall T T', P T -> F T = Some T' -> Q T') -> keeps path P Q E a.
Proof.
  intros He HE HF h h' ok T Hr HT HP. specialize (He h h' ok T Hr HT). destruct ok.
  - destruct He as (T' & HFT & ->). exists T'. split; [done|by apply (HF T)].
  - exists T. split; [by rewrite insert_id|by apply HE].
Qed.
Lemma keeps_seq (path : string) (P Q R E : tables -> Prop) (a b : script) : keeps path P Q E a -> keeps path Q R E b -> keeps path P R E (a ;;& b).
Proof.
  intros Ha Hb h h' ok T Hr HT HP. unfold s_seq in Hr. destruct (a h) as [h1 ok1] eqn:E1. destruct (Ha h h1 ok1 T E1 HT HP) as (T1 & H1 & Q1). destruct ok1.
  - destruct (Hb h1 h' ok T1 Hr) as (T2 & H2 & Q2); [by rewrite H1, lookup_insert_eq|done|]. exists T2. split; [|done]. by rewrite H2, H1, insert_insert_eq.
  - injection Hr as <- <-. by exists T1.
Qed.
Lemma keeps_ok (path : string) (P E : tables -> Prop) : keeps path P P E s_ok.
Proof. intros h h' ok T Hr HT HP. injection Hr as <- <-. exists T. split; [by rewrite insert_id|done]. Qed.
Lemma keeps_fail (path : string) (P Q E : tables -> Prop) : (forall T, P T -> E T) -> keeps path P Q E s_fail.
Proof. intros HE h h' ok T Hr HT HP. injection Hr as <- <-. exists T. split; [by rewrite insert_id|by apply HE]. Qed.
Lemma keeps_when (path : string) (P E : tables -> Prop) (b : bool) (a : script) : keeps path P P E a -> keeps path P P E (s_when b a).
Proof. intros Ha. destruct b; [done|apply keeps_ok]. Qed.
Lemma keeps_for {A : Type} (path : string) (P E : tables -> Prop) (xs : list A) f : (forall x, x ∈ xs -> keeps path P P E (f x)) -> keeps path P P E (s_for xs f).
Proof. induction xs as [|x xs IH]; intros Hf; [apply keeps_ok|]. cbn [s_for]. eapply keeps_seq; [apply Hf; set_solver|]. apply IH. intros y ?. apply Hf. set_solver. Qed.
Lemma keeps_weaken (path : string) (P Q Q' E E' : tables -> Prop) a : keeps path P Q E a -> (forall T, Q T -> Q' T) -> (forall T, E T -> E' T) -> keeps path P Q' E' a.
Proof. intros Ha HQ HE h h' ok T Hr HT HP. destruct (Ha h h' ok T Hr HT HP) as (T' & ? & HR). exists T'. split; [done|]. destruct ok; auto. Qed.

(** ** One hook *)

Section Hook.
Context (k : hook) (T0 : tables).
Definition before (T : tables) : Prop := unhooked k T0 T /\ elsewhere [k] T0 T.
Definition after (T : tables) : Prop := reaches k T0 T /\ elsewhere [k] T0 T.

Lemma elsewhere_insert key R T : (key = own_key k \/ key = hook_key k) -> elsewhere [k] T0 T -> elsewhere [k] T0 (<[key := R]> T).
Proof. intros Hk HE key' Hn. destruct (Hn k ltac:(set_solver)). rewrite lookup_insert_ne; [by apply HE|]. intros ->. destruct Hk; congruence. Qed.
Lemma before_after T : before T -> after T.
Proof. intros [? ?]. split; [by left|done]. Qed.
Context (Hne : hk_chain k <> hk_hook k).
Lemma keys_ne : own_key k <> hook_key k.
Proof. unfold own_key, hook_key. congruence. Qed.
Lemma new_before T T' ws : before T -> ipt_command T (hk_table k) "-N" (hk_chain k) ws = Some T' -> before T'.
Proof.
  intros [[HH HO] HE]. unfold ipt_command. cbn [String.eqb Ascii.eqb Bool.eqb]. fold (own_key k). destruct (T !! own_key k); [done|]. intros [= <-]. split; [|apply elsewhere_insert; auto].
  split; [by rewrite lookup_insert_ne by apply keys_ne|]. right. exists []. by rewrite lookup_insert_eq.
Qed.
Lemma add_before T T' ws r : before T -> parse_rule ws = Some r -> plain r -> ipt_command T (hk_table k) "-A" (hk_chain k) ws = Some T' -> before T'.
Proof.
  intros [[HH HO] HE] Hp Hr. unfold ipt_command. cbn [String.eqb Ascii.eqb Bool.eqb]. fold (own_key k). destruct (T !! own_key k) as [R|] eqn:ER; [|done]. cbn [mbind option_bind]. rewrite Hp. cbn [mbind option_bind].
  destruct (target_ok T _ r); [|done]. intros [= <-]. split; [|apply elsewhere_insert; auto]. split; [by rewrite lookup_insert_ne by apply keys_ne|]. right. eexists. rewrite lookup_insert_eq. split; [done|].
  apply Forall_app. split; [|by repeat constructor]. destruct HO as [?|(R' & ? & ?)]; [done|]. congruence.
Qed.
Context (Hown : existsb (String.eqb (hk_chain k)) targets = false).
Lemma hook_after T T' op : (op = "-A" \/ op = "-I")%string -> before T -> ipt_command T (hk_table k) op (hk_hook k) ["-j"%string; hk_chain k] = Some T' -> after T'.
Proof.
  intros Hop [[HH HO] HE] HC. unfold ipt_command in HC. fold (hook_key k) in HC.
  assert (forall s : string, existsb (String.eqb "-j") known_options = true) as Hj by done. assert (parse_rule ["-j"%string; hk_chain k] = Some (jump (hk_chain k))) as HP by done.
  rewrite HP in HC. clear Hj HP. destruct (T !! hook_key k) as [R|] eqn:ER; [|by destruct Hop as [-> | ->]]. assert (target_ok T (hk_table k) (jump (hk_chain k)) = true -> exists R', T !! own_key k = Some R' /\ Forall plain R') as HR.
  { unfold target_ok. cbn [option_value jump String.eqb Ascii.eqb Bool.eqb]. rewrite Hown. cbn [orb]. intros [R' HR']%bool_decide_eq_true. fold (own_key k) in HR'. destruct HO as [?|(R2 & ? & ?)]; [congruence|]. by exists R2. }
  assert (exists T1, (T1 = R ++ [jump (hk_chain k)] \/ T1 = jump (hk_chain k) :: R) /\ target_ok T (hk_table k) (jump (hk_chain k)) = true /\ T' = <[hook_key k := T1]> T) as (T1 & HT1 & Hok & ->).
  { destruct Hop as [-> | ->]; cbn [mbind option_bind String.eqb Ascii.eqb Bool.eqb] in HC; destruct (target_ok _ _ _) eqn:E; try done; injection HC as <-; eexists; split; [by left| |by right|]; done. }
  destruct (HR Hok) as (R' & HR' & HPl). split; [|apply elsewhere_insert; auto]. right. exists R, R'. rewrite lookup_insert_ne by (intros E; by apply keys_ne). rewrite lookup_insert_eq. split_and!; try done.
  destruct HT1 as [-> | ->]; auto.
Qed.
End Hook.

(** ** Several hooks *)

Definition shape (ks : list hook) (T0 T : tables) : Prop := (forall k, k ∈ ks -> reaches k T0 T) /\ elsewhere ks T0 T.
Definition separate (ks : list hook) : Prop := NoDup (flat_map (fun k => [own_key k; hook_key k]) ks).
(** No rule of the table jumps to the chain. *)
Definition norefs (T : tables) (table c : string) : Prop := forall x R, T !! (table, x) = Some R -> Forall (fun r => jumps_to c r = false) R.
(** The tables before: the chains are not there, and nothing jumps to them. *)
Record untouched (T0 : tables) (k : hook) : Prop := {
  ut_own : T0 !! own_key k = None;
  ut_hook : is_Some (T0 !! hook_key k);
  ut_refs : norefs T0 (hk_table k) (hk_chain k);
  ut_builtin : existsb (String.eqb (hk_chain k)) builtin_chains = false;
  ut_target : existsb (String.eqb (hk_chain k)) targets = false
}.

Lemma separate_cons k ks : separate (k :: ks) -> own_key k <> hook_key k /\ separate ks /\ forall k', k' ∈ ks -> own_key k' <> own_key k /\ own_key k' <> hook_key k /\ hook_key k' <> own_key k /\ hook_key k' <> hook_key k.
Proof.
  unfold separate. cbn [flat_map app]. rewrite !NoDup_cons. intros (H1 & H2 & H3).
  assert (forall k', k' ∈ ks -> own_key k' ∈ flat_map (fun k => [own_key k; hook_key k]) ks /\ hook_key k' ∈ flat_map (fun k => [own_key k; hook_key k]) ks) as HM.
  { intros k' Hk. split; apply list_elem_of_In, in_flat_map; exists k'; (split; [by apply list_elem_of_In|cbn; auto]). }
  apply not_elem_of_cons in H1 as [H0 H1]. split_and!; [done|done|]. intros k' Hk. destruct (HM k' Hk) as [Ho Hh]. split_and!; intros E; rewrite E in *; done.
Qed.
Lemma reaches_agree k T0 T T' : T' !! own_key k = T !! own_key k -> T' !! hook_key k = T !! hook_key k -> reaches k T0 T -> reaches k T0 T'.
Proof. intros HO HH. unfold reaches, unhooked, hooked. by rewrite HO, HH. Qed.
Lemma shape_step k ks T0 T T' : shape ks T0 T -> after k T T' -> separate (k :: ks) -> shape (k :: ks) T0 T'.
Proof.
  intros [HR HE] [Hk HE'] (Hne & _ & Hsep)%separate_cons. split.
  - intros k' [->|Hin]%elem_of_cons.
    + assert (T !! hook_key k = T0 !! hook_key k) as Hh by (apply HE; intros k' Hin; destruct (Hsep k' Hin) as (?&?&?&?); by split; apply not_eq_sym).
      unfold reaches, unhooked, hooked in *. by rewrite Hh in Hk.
    + destruct (Hsep k' Hin) as (?&?&?&?). apply (reaches_agree k' T0 T); [apply HE'; intros k2 ->%list_elem_of_singleton; done|apply HE'; intros k2 ->%list_elem_of_singleton; done|by apply HR].
  - intros key Hkey. rewrite HE'; [apply HE|]; intros k' Hin; apply Hkey; [by apply elem_of_cons; right|apply list_elem_of_singleton in Hin as ->; by left].
Qed.
Lemma shape_nil T0 T : shape [] T0 T -> T = T0.
Proof. intros [_ HE]. apply map_eq. intros key. apply HE. intros k []%elem_of_nil. Qed.
Lemma shape_refl T : shape [] T T.
Proof. split; [intros k []%elem_of_nil|done]. Qed.

Lemma plain_norefs c r : existsb (String.eqb c) targets = false -> plain r -> jumps_to c r = false.
Proof.
  unfold plain, jumps_to. intros Hc Hr. apply Bool.not_true_is_false. intros <-%String.eqb_eq. congruence.
Qed.
Lemma norefs_referenced T table c : norefs T table c -> referenced T table c = false.
Proof.
  intros Hn. unfold referenced. apply Bool.not_true_is_false. intros (((t & x) & R) & Hin & [Ht HR]%andb_prop)%existsb_exists. cbn in Ht, HR. apply String.eqb_eq in Ht as ->.
  apply list_elem_of_In, elem_of_map_to_list in Hin. specialize (Hn x R Hin). apply existsb_exists in HR as (r & Hr & Hj). rewrite Forall_forall in Hn. rewrite Hn in Hj; [done|by apply list_elem_of_In].
Qed.
Lemma remove_first_none r rs : Forall (fun r' => r <> r') rs -> remove_first r rs = None.
Proof. induction 1 as [|r' rs Hr _ IH]; [done|]. cbn. rewrite decide_False by done. by rewrite IH. Qed.
Lemma remove_first_last r rs : Forall (fun r' => r <> r') rs -> remove_first r (rs ++ [r]) = Some rs.
Proof. induction 1 as [|r' rs Hr _ IH]; cbn; [by rewrite decide_True|]. rewrite decide_False by done. by rewrite IH. Qed.
Lemma norefs_not_jump c rs : Forall (fun r => jumps_to c r = false) rs -> Forall (fun r => jump c <> r) rs.
Proof. intros HF. eapply Forall_impl; [exact HF|]. intros r Hr <-. unfold jumps_to, jump in Hr. cbn in Hr. by rewrite String.eqb_refl in Hr. Qed.

(** The three commands of a cleanup. *)
Definition clean (k : hook) (T : tables) : tables :=
  let T := default T (ipt_command T (hk_table k) "-D" (hk_hook k) ["-j"%string; hk_chain k]) in
  let T := default T (ipt_command T (hk_table k) "-F" (hk_chain k) []) in
  default T (ipt_command T (hk_table k) "-X" (hk_chain k) []).

Section Clean.
Context (k : hook) (ks : list hook) (T0 T : tables) (Hs : shape (k :: ks) T0 T) (Hsep : separate (k :: ks)) (Hu : forall k', k' ∈ k :: ks -> untouched T0 k').

(** The jump is gone after the first command. *)
Lemma clean_jump T1 : T1 = default T (ipt_command T (hk_table k) "-D" (hk_hook k) ["-j"%string; hk_chain k]) ->
  T1 !! hook_key k = T0 !! hook_key k /\ (forall key, key <> hook_key k -> T1 !! key = T !! key).
Proof.
  intros ->. destruct (Hu k ltac:(by left)) as [_ [H HH] HR _ _]. assert (Forall (fun r => jump (hk_chain k) <> r) H) as HN by (apply norefs_not_jump; exact (HR _ _ HH)).
  unfold ipt_command. cbn [String.eqb Ascii.eqb Bool.eqb]. fold (hook_key k). assert (parse_rule ["-j"%string; hk_chain k] = Some (jump (hk_chain k))) as HP by done. rewrite HP.
  destruct (proj1 Hs k ltac:(by left)) as [[Hh _]|(H' & R & HH' & _ & _ & Hj)].
  - rewrite Hh, HH. cbn [mbind option_bind]. rewrite remove_first_none by done. cbn [mbind option_bind from_option]. by rewrite Hh, HH.
  - rewrite HH in HH'. injection HH' as <-. assert (exists L, T !! hook_key k = Some L /\ remove_first (jump (hk_chain k)) L = Some H) as (L & HL & HD).
    { destruct Hj as [Hj|Hj]; eexists; (split; [exact Hj|]); [cbn [remove_first]; by rewrite decide_True|by apply remove_first_last]. }
    rewrite HL. cbn [mbind option_bind]. rewrite HD. cbn [mbind option_bind from_option]. unfold id. rewrite lookup_insert_eq, HH. split; [done|]. intros key ?. by rewrite lookup_insert_ne.
Qed.
(** What is left does not refer to the chain. *)
Lemma clean_norefs T1 : (forall key, key <> own_key k -> key <> hook_key k -> T1 !! key = T !! key) -> T1 !! hook_key k = T0 !! hook_key k ->
  (forall R, T1 !! own_key k = Some R -> R = []) -> norefs T1 (hk_table k) (hk_chain k).
Proof.
  intros HE HH HO x R HR. destruct (Hu k ltac:(by left)) as [_ _ HR0 _ HT]. destruct (decide ((hk_table k, x) = own_key k)) as [E1|N1]; [rewrite E1 in HR; rewrite (HO R HR); constructor|].
  destruct (decide ((hk_table k, x) = hook_key k)) as [E2|N2]; [rewrite E2, HH in HR; exact (HR0 _ _ HR)|]. rewrite HE in HR by done. destruct (separate_cons k ks Hsep) as (_ & _ & Hd).
  destruct (decide (Exists (fun k' => (hk_table k, x) = own_key k' \/ (hk_table k, x) = hook_key k') ks)) as [He|Hn].
  - apply Exists_exists in He as (k' & Hin & He). destruct (Hd k' Hin) as (Hoo & _). destruct (Hu k' ltac:(by right)) as [Hnone _ _ _ _].
    destruct (proj1 Hs k' ltac:(by right)) as [[Hh Ho]|(H & R' & HH0 & HR' & HP & Hj)].
    + destruct He as [E|E]; rewrite E in HR.
      * destruct Ho as [Ho|(R' & Ho & HP)]; [congruence|]. rewrite Ho in HR. injection HR as <-. eapply Forall_impl; [exact HP|]. intros r. by apply plain_norefs.
      * rewrite Hh, <- E in HR. exact (HR0 _ _ HR).
    + destruct He as [E|E]; rewrite E in HR.
      * rewrite HR' in HR. injection HR as <-. eapply Forall_impl; [exact HP|]. intros r. by apply plain_norefs.
      * rewrite <- E in HH0. specialize (HR0 _ _ HH0). assert (jumps_to (hk_chain k) (jump (hk_chain k')) = false) as HJ.
        { unfold jumps_to, jump. cbn. apply String.eqb_neq. intros Ec. apply Hoo. unfold own_key, hook_key in *. congruence. }
        destruct Hj as [Hj|Hj]; rewrite Hj in HR; injection HR as <-; [by constructor|]. apply Forall_app. split; [done|by repeat constructor].
  - rewrite (proj2 Hs) in HR; [exact (HR0 _ _ HR)|]. intros k' [->|Hin]%elem_of_cons; [done|]. split; intros E; apply Hn, Exists_exists; exists k'; auto.
Qed.
(** After the cleanup of a hook only the other hooks are left. *)
Lemma clean_shape : shape ks T0 (clean k T).
Proof.
  destruct (separate_cons k ks Hsep) as (Hne & _ & Hd). destruct (Hu k ltac:(by left)) as [Hnone _ _ Hb _].
  unfold clean. set (T1 := default T (ipt_command T (hk_table k) "-D" _ _)). destruct (clean_jump T1 eq_refl) as [H1 E1]. cbv zeta.
  set (T3 := default _ (ipt_command _ _ "-X" _ _)). assert (T3 !! own_key k = None /\ forall key, key <> own_key k -> T3 !! key = T1 !! key) as [H3 E3].
  { subst T3. unfold ipt_command. cbn [String.eqb Ascii.eqb Bool.eqb]. fold (own_key k). destruct (T1 !! own_key k) as [R|] eqn:ER; cbn [mbind option_bind from_option]; unfold id; [|rewrite ER; cbn [mbind option_bind from_option]; by rewrite ER].
    rewrite lookup_insert_eq. cbn [mbind option_bind]. rewrite Hb, norefs_referenced; cbn [orb from_option].
    - rewrite lookup_delete_eq. split; [done|]. intros key ?. by rewrite lookup_delete_ne, lookup_insert_ne by done.
    - apply clean_norefs.
      + intros key ??. rewrite lookup_insert_ne by done. by apply E1.
      + by rewrite lookup_insert_ne.
      + intros R'. rewrite lookup_insert_eq. by intros [= <-]. }
  split.
  - intros k' Hin. destruct (Hd k' Hin) as (?&?&?&?). apply (reaches_agree k' T0 T); [by rewrite E3, E1|by rewrite E3, E1|]. apply (proj1 Hs). by right.
  - intros key Hkey. destruct (decide (key = own_key k)) as [->|N1]; [by rewrite H3, Hnone|]. rewrite E3 by done. destruct (decide (key = hook_key k)) as [->|N2]; [done|]. rewrite E1 by done.
    apply (proj2 Hs). intros k' [->|Hin]%elem_of_cons; [done|by apply Hkey].
Qed.
End Clean.

(** ** The scripts *)

Lemma shape_mono ks ks' T0 T : (forall k, k ∈ ks <-> k ∈ ks') -> shape ks T0 T -> shape ks' T0 T.
Proof. intros HM [HR HE]. split; [intros k Hk; by apply HR, HM|]. intros key Hkey. apply HE. intros k Hk. by apply Hkey, HM. Qed.
Lemma shape_own k ks T0 T : shape ks T0 T -> untouched T0 k -> separate (k :: ks) -> T !! own_key k = None.
Proof.
  intros [_ HE] [Hn _ _ _ _] (_ & _ & Hd)%separate_cons. rewrite HE; [done|]. intros k' Hin. destruct (Hd k' Hin) as (?&?&?&?). by split; apply not_eq_sym.
Qed.
Lemma before_refl k T : T !! own_key k = None -> before k T T.
Proof. intros Hn. split; [split; [done|by left]|done]. Qed.

Definition nonempty (w : string) : Prop := w <> ""%string.
Lemma nonempty_word w : word w -> nonempty w.
Proof. by intros [_ ?]. Qed.

(** The words of a command. *)
Ltac spell := lazy [flat_map split_words String.append Ascii.eqb Bool.eqb app]; rewrite ?split_word by eauto; reflexivity.
Ltac spell_ne := repeat (apply Forall_cons; split; [first [discriminate | apply nonempty_word; by eauto]|]); apply Forall_nil; exact I.

Section Family.
Context (os : GOOS) (r : ipt_redirect) (path : string).
Let o := i_tunOptions r.
Definition hook_output : hook := mkHook "nat" "OUTPUT" (tableNameOutput r).
Definition hook_input : hook := mkHook "filter" "INPUT" (tableNameInput r).
Definition hook_forward : hook := mkHook "filter" "FORWARD" (tableNameForward r).
Definition hook_prerouting : hook := mkHook "nat" "PREROUTING" (tableNamePreRouteing r).
Definition hooks : list hook := if bool_decide (os = Android) then [hook_output] else [hook_output; hook_input; hook_forward; hook_prerouting].

(** What goes into the commands are words, addresses and prefixes. *)
Record words_ok : Prop := {
  wo_path : word path;
  wo_table : no_space (tableName r) = true;
  wo_name : word (Name o);
  wo_include : Forall word (IncludeInterface o);
  wo_exclude : Forall word (ExcludeInterface o);
  wo_routes : Forall valid_prefix (routeAddress r path);
  wo_routes_excluded : Forall valid_prefix (routeExcludeAddress r path);
  wo_servers : forall servers, Inet4DNSAddress o = inr servers \/ Inet6DNSAddress o = inr servers -> Forall valid_addr servers;
  wo_hijack : Forall (fun h => valid_addr (netip.ap_addr (h_Address h)) /\ is_u16 (netip.ap_port (h_Address h))) (hijack_rules r)
}.
Context (Hw : words_ok).

Lemma word_chain s : no_space s = true -> s <> ""%string -> word (String.append (tableName r) s).
Proof. intros Hs Hn. apply word_app; [apply Hw|by split]. Qed.
Lemma words : word path /\ word (tableNameOutput r) /\ word (tableNameInput r) /\ word (tableNameForward r) /\ word (tableNamePreRouteing r) /\ word (Name o) /\ word (itoa (i_redirectPort r)).
Proof. split_and!; try (by apply word_chain); [apply Hw|apply Hw|apply word_itoa]. Qed.
(** The commands that create a chain, fill it, and hook it in. *)
Lemma keeps_new k T1 ws args : flat_map split_words ws = args -> Forall nonempty args -> own_key k <> hook_key k ->
  (forall T, iptables T args = ipt_command T (hk_table k) "-N" (hk_chain k) []) -> keeps path (before k T1) (before k T1) (after k T1) (runShell r (path :: ws)).
Proof.
  intros Ha Hn Hk HF. eapply keeps_effect; [apply runShell_effect; [apply Hw|exact Ha|exact Hn]|apply before_after|]. intros T T' HB. cbv beta. rewrite HF. intros HC. eapply new_before; [|exact HB|exact HC]. unfold own_key, hook_key in Hk. congruence.
Qed.
Lemma keeps_add k T1 ws args opts rule : flat_map split_words ws = args -> Forall nonempty args -> own_key k <> hook_key k ->
  (forall T, iptables T args = ipt_command T (hk_table k) "-A" (hk_chain k) opts) -> parse_rule opts = Some rule -> plain rule ->
  keeps path (before k T1) (before k T1) (after k T1) (runShell r (path :: ws)).
Proof.
  intros Ha Hn Hk HF Hp Hr. eapply keeps_effect; [apply runShell_effect; [apply Hw|exact Ha|exact Hn]|apply before_after|]. intros T T' HB. cbv beta. rewrite HF. intros HC. eapply add_before; [|exact HB|exact Hp|exact Hr|exact HC]. unfold own_key, hook_key in Hk. congruence.
Qed.
Lemma keeps_hook k T1 ws args op : flat_map split_words ws = args -> Forall nonempty args -> own_key k <> hook_key k -> existsb (String.eqb (hk_chain k)) targets = false -> (op = "-A" \/ op = "-I")%string ->
  (forall T, iptables T args = ipt_command T (hk_table k) op (hk_hook k) ["-j"%string; hk_chain k]) -> keeps path (before k T1) (after k T1) (after k T1) (runShell r (path :: ws)).
Proof.
  intros Ha Hn Hk Ht Hop HF. eapply keeps_effect; [apply runShell_effect; [apply Hw|exact Ha|exact Hn]|apply before_after|]. intros T T' HB. cbv beta. rewrite HF. intros HC. eapply hook_after; [|exact Ht|exact Hop|exact HB|exact HC]. unfold own_key, hook_key in Hk. congruence.
Qed.

Lemma keeps_output T1 : own_key hook_output <> hook_key hook_output -> existsb (String.eqb (tableNameOutput r)) targets = false ->
  keeps path (before hook_output T1) (after hook_output T1) (after hook_output T1) (setup_output r path).
Proof.
  intros Hk Ht. destruct (words) as (W1 & W2 & W3 & W4 & W5 & W6 & W7). unfold setup_output. fold o.
  eapply keeps_seq; [eapply keeps_new; [spell|spell_ne|exact Hk|reflexivity]|].
  eapply keeps_seq; [eapply keeps_add; [spell|spell_ne|exact Hk|reflexivity|reflexivity|reflexivity]|].
  eapply keeps_hook; [spell|spell_ne|exact Hk|exact Ht|right; reflexivity|reflexivity].
Qed.
Lemma keeps_filter k T1 : hk_table k = "filter"%string -> word (hk_chain k) -> (hk_hook k = "INPUT" \/ hk_hook k = "FORWARD")%string ->
  own_key k <> hook_key k -> existsb (String.eqb (hk_chain k)) targets = false ->
  keeps path (before k T1) (after k T1) (after k T1) (setup_filter r path (hk_hook k) (hk_chain k)).
Proof.
  intros Ht Hc Hh Hk Htg. destruct words as (W1 & _ & _ & _ & _ & W6 & _). unfold setup_filter. fold o.
  eapply keeps_seq; [eapply keeps_new; [spell|spell_ne|exact Hk|intros; rewrite Ht; reflexivity]|].
  eapply keeps_seq; [eapply keeps_add; [spell|spell_ne|exact Hk|intros; rewrite Ht; reflexivity|reflexivity|reflexivity]|].
  eapply keeps_seq; [eapply keeps_add; [spell|spell_ne|exact Hk|intros; rewrite Ht; reflexivity|reflexivity|reflexivity]|].
  assert (word (hk_hook k)) as Wh by (destruct Hh as [-> | ->]; done).
  apply (keeps_hook k T1 _ ["-I"; hk_hook k; "-j"; hk_chain k]%string "-I"); [|spell_ne|exact Hk|exact Htg|by right|].
  - destruct Hh as [E|E]; rewrite E; spell.
  - intros. by rewrite Ht.
Qed.

(** Rules of PREROUTING. *)
Lemma keeps_rule T1 ws opts rule : flat_map split_words ws = opts -> Forall nonempty opts -> parse_rule opts = Some rule -> plain rule -> own_key hook_prerouting <> hook_key hook_prerouting ->
  keeps path (before hook_prerouting T1) (before hook_prerouting T1) (after hook_prerouting T1) (addRule r path ws).
Proof.
  intros Hs Hn Hp Hr Hk. destruct words as (W1 & _ & _ & _ & W5 & _). unfold addRule. cbn [app].
  eapply (keeps_add hook_prerouting T1 _ (["-t"; "nat"; "-A"; tableNamePreRouteing r]%string ++ opts)); [| |exact Hk|reflexivity|exact Hp|exact Hr].
  - cbn [flat_map]. rewrite (split_word (tableNamePreRouteing r)) by done. rewrite Hs. reflexivity.
  - apply Forall_app. split; [spell_ne|done].
Qed.

(** The options of the selectors of a hijack rule. *)
Definition dst_options (rule : DNSHijackRule) : list string :=
  if IsUnspecified (netip.ap_addr (h_Address rule)) then [] else ["-d"%string; Addr_String (netip.ap_addr (h_Address rule))].
Definition selector_options (rule : DNSHijackRule) : list (list string) :=
  let routes := routeAddress r path in
  if negb (bool_decide (length routes = 0%nat)) && IsUnspecified (netip.ap_addr (h_Address rule)) then map (fun p => ["-d"%string; Prefix_String p]) routes
  else if bool_decide (length routes = 0%nat) && includes r then map (fun name => dst_options rule ++ ["-i"%string; name]) (IncludeInterface o)
  else [dst_options rule].
Definition selector_words (selector : string) : list string := flat_map split_words (if String.eqb (TrimSpace selector) "" then [] else [TrimSpace selector]).
Lemma selector_words_trimmed c s w : Ascii.eqb c " "%char = false -> word w -> selector_words (String.append (String c s) w) = split_words (String.append (String c s) w).
Proof.
  intros Hc Hwd. unfold selector_words, TrimSpace. rewrite append_cons, trim_left_ns, <- append_cons, trim_right_app by done. rewrite append_cons. cbn [String.eqb flat_map]. by rewrite app_nil_r.
Qed.
Lemma selector_words_space s : selector_words (String " " s) = selector_words s.
Proof. done. Qed.
Lemma Forall2_maps {A B C} (P : B -> C -> Prop) (f : A -> B) (g : A -> C) l : Forall (fun x => P (f x) (g x)) l -> Forall2 P (map f l) (map g l).
Proof. induction 1; constructor; done. Qed.
Lemma selectors_spelled rule : valid_addr (netip.ap_addr (h_Address rule)) ->
  Forall2 (fun selector opts => selector_words selector = opts /\ Forall nonempty opts) (hijack_selectors r (routeAddress r path) rule) (selector_options rule).
Proof.
  intros Hv. unfold hijack_selectors, selector_options, includes. fold o. unfold hijack_destination, dst_options. set (a := netip.ap_addr (h_Address rule)) in *. pose proof (word_addr a Hv) as Wa.
  destruct (IsUnspecified a) eqn:EU.
  - cbn [String.eqb]. rewrite !andb_true_r, negb_andb. destruct (bool_decide (length (routeAddress r path) = 0%nat)); cbn [negb andb].
    + destruct (_ || _); [|by repeat constructor]. apply Forall2_maps. eapply Forall_impl; [apply (wo_include Hw)|]. intros n Hn.
      split; [|spell_ne]. change (String.append "" (String.append " -i " n)) with (String " " (String.append "-i " n)). rewrite selector_words_space, selector_words_trimmed by done. spell.
    + apply Forall2_maps. eapply Forall_impl; [apply (wo_routes Hw)|]. intros p (_ & Hp & _). pose proof (word_prefix p Hp). split; [|spell_ne]. rewrite selector_words_trimmed by done. spell.
  - replace (String.eqb (String.append "-d " (Addr_String a)) "") with false by done. rewrite andb_false_r, negb_andb. destruct (bool_decide (length (routeAddress r path) = 0%nat) && _).
    + apply Forall2_maps. eapply Forall_impl; [apply (wo_include Hw)|]. intros n Hn. split; [|cbn [app]; spell_ne].
      rewrite <- ipt_append_assoc. change (String.append (String.append "-d " (Addr_String a)) " -i ") with (String "-" (String.append (String.append "d " (Addr_String a)) " -i ")).
      rewrite selector_words_trimmed by done. rewrite append_cons, ipt_append_assoc. change (String.append " -i " n) with (String " " (String.append "-i " n)). rewrite <- append_cons, split_words_sep.
      change (String "-" (String.append "d " (Addr_String a))) with (String.append "-d " (Addr_String a)). cbn [app]. spell.
    + constructor; [|constructor]. split; [rewrite selector_words_trimmed by done; spell|spell_ne].
Qed.

(** *** The rules of the chain *)

(** A script that adds [R] to the chain, and does nothing but add to it. *)
Definition appends (a : script) (R : list ipt_rule) : Prop :=
  forall h h' T old, a h = (h', true) -> h_tables h !! path = Some T -> T !! own_key hook_prerouting = Some old ->
    h_tables h' = <[path := <[own_key hook_prerouting := old ++ R]> T]> (h_tables h).
Definition emits (a : script) (R : list ipt_rule) : Prop :=
  (forall T1, keeps path (before hook_prerouting T1) (before hook_prerouting T1) (after hook_prerouting T1) a) /\ appends a R.
Context (Hkey : own_key hook_prerouting <> hook_key hook_prerouting).

Lemma ipt_emits_rule ws opts rule : flat_map split_words ws = opts -> Forall nonempty opts -> parse_rule opts = Some rule -> plain rule -> emits (addRule r path ws) [rule].
Proof.
  intros Hs Hn Hp Hr. split; [intros T1; by eapply keeps_rule|]. intros h h' T old Ha HT Ho. destruct words as (W1 & _ & _ & _ & W5 & _). unfold addRule in Ha. cbn [app] in Ha.
  assert (effect path (runShell r (path :: "-t nat -A"%string :: tableNamePreRouteing r :: ws)) (fun T => iptables T (["-t"; "nat"; "-A"; tableNamePreRouteing r]%string ++ opts))) as He.
  { apply runShell_effect; [done| |apply Forall_app; split; [spell_ne|done]]. cbn [flat_map]. rewrite (split_word (tableNamePreRouteing r)) by done. rewrite Hs. reflexivity. }
  destruct (He h h' true T Ha HT) as (T' & HF & ->). f_equal. cbn [app] in HF. change (iptables T _) with (ipt_command T "nat" "-A" (tableNamePreRouteing r) opts) in HF.
  unfold ipt_command in HF. cbn [String.eqb Ascii.eqb Bool.eqb] in HF. change ("nat"%string, tableNamePreRouteing r) with (own_key hook_prerouting) in HF. rewrite Ho in HF. cbn [mbind option_bind] in HF. rewrite Hp in HF. cbn [mbind option_bind] in HF.
  unfold target_ok in HF. unfold plain in Hr. rewrite Hr in HF. cbn [orb] in HF. by injection HF as <-.
Qed.
Lemma emits_ok : emits s_ok [].
Proof. split; [intros T1; apply keeps_ok|]. intros h h' T old [= <-] HT Ho. by rewrite app_nil_r, (insert_id T), insert_id. Qed.
Lemma emits_fail R : emits s_fail R.
Proof. split; [intros T1; apply keeps_fail, before_after|]. intros h h' T old Ha. discriminate Ha. Qed.
Lemma ipt_emits_seq a b Ra Rb : emits a Ra -> emits b Rb -> emits (a ;;& b) (Ra ++ Rb).
Proof.
  intros [Ka Aa] [Kb Ab]. split; [intros T1; eapply keeps_seq; [apply Ka|apply Kb]|]. intros h h' T old Hr HT Ho. unfold s_seq in Hr. destruct (a h) as [h1 ok] eqn:E1. destruct ok; [|discriminate Hr].
  pose proof (Aa h h1 T old E1 HT Ho) as H1. rewrite (Ab h1 h' (<[own_key hook_prerouting := old ++ Ra]> T) (old ++ Ra) Hr); [|by rewrite H1, lookup_insert_eq|by rewrite lookup_insert_eq].
  by rewrite H1, insert_insert_eq, insert_insert_eq, app_assoc.
Qed.
Lemma ipt_emits_when b a R : emits a R -> emits (s_when b a) (if b then R else []).
Proof. intros Ha. destruct b; [done|apply emits_ok]. Qed.
Lemma ipt_emits_for {A : Type} (xs : list A) f g : Forall (fun x => emits (f x) (g x)) xs -> emits (s_for xs f) (flat_map g xs).
Proof. induction 1 as [|x xs Hx _ IH]; [apply emits_ok|]. cbn [s_for flat_map]. by apply ipt_emits_seq. Qed.

Lemma parse_rule_nil a : parse_rule a = Some [] -> a = [].
Proof. destruct a as [|x [|y a]]; [done|done|]. cbn [parse_rule]. destruct (existsb _ _); [|done]. by destruct (parse_rule a). Qed.
Lemma parse_rule_cons a q ra : parse_rule a = Some (q :: ra) -> exists a', a = q.1 :: q.2 :: a' /\ existsb (String.eqb q.1) known_options = true /\ parse_rule a' = Some ra.
Proof.
  destruct a as [|x [|y a]]; [done|done|]. cbn [parse_rule]. destruct (existsb (String.eqb x) known_options) eqn:E; [|done]. destruct (parse_rule a) as [ra'|] eqn:Ea; [|done]. cbn. intros [= <- <-]. exists a. done.
Qed.
Lemma parse_rule_app a b ra rb : parse_rule a = Some ra -> parse_rule b = Some rb -> parse_rule (a ++ b) = Some (ra ++ rb).
Proof.
  revert a. induction ra as [|q ra IH]; intros a Ha Hb; [by rewrite (parse_rule_nil a Ha)|]. apply parse_rule_cons in Ha as (a' & -> & Hk & Ha). cbn [app parse_rule]. rewrite Hk, (IH a') by done. by destruct q.
Qed.

(** DNS queries. *)
Fixpoint pairs (ws : list string) : ipt_rule := match ws with o :: x :: ws' => (o, x) :: pairs ws' | _ => [] end.
Definition dns_rule (target : string) (rule : DNSHijackRule) (opts : list string) : ipt_rule :=
  pairs opts ++ [("-p", "udp"); ("--dport", itoa (netip.ap_port (h_Address rule))); ("-j", "DNAT"); ("--to", target)]%string.
(** Options of selectors: destinations and interfaces. *)
Definition selects_only (opts : list string) : Prop :=
  parse_rule opts = Some (pairs opts) /\ (forall rest, option_value "-j" (pairs opts ++ rest) = option_value "-j" rest).
Lemma selector_options_select rule : Forall selects_only (selector_options rule).
Proof.
  unfold selector_options, dst_options. destruct (_ && _); [|destruct (_ && _)].
  - apply Forall_map, Forall_forall. done.
  - apply Forall_map, Forall_forall. intros n _. destruct (IsUnspecified _); done.
  - constructor; [|constructor]. destruct (IsUnspecified _); done.
Qed.
Lemma emits_hijack_one target rule selector opts : word target -> selector_words selector = opts /\ Forall nonempty opts -> selects_only opts ->
  emits (runShell r (hijack_command path (tableNamePreRouteing r) target rule selector)) [dns_rule target rule opts].
Proof.
  intros Ht [Hs Hn] [Hp Hj]. unfold hijack_command. change ([path; "-t nat -A"; tableNamePreRouteing r]%string ++ ?ws) with ([path; "-t nat -A"%string; tableNamePreRouteing r] ++ ws).
  pose proof (word_itoa (netip.ap_port (h_Address rule))) as Wp.
  set (more := ["-p udp --dport"; itoa (netip.ap_port (h_Address rule)); "-j DNAT --to"; target]%string).
  assert (flat_map split_words more = ["-p"; "udp"; "--dport"; itoa (netip.ap_port (h_Address rule)); "-j"; "DNAT"; "--to"; target]%string) as Hm by (unfold more; spell).
  apply (ipt_emits_rule _ (opts ++ ["-p"; "udp"; "--dport"; itoa (netip.ap_port (h_Address rule)); "-j"; "DNAT"; "--to"; target]%string)).
  - rewrite flat_map_app, Hm. f_equal. rewrite <- Hs. unfold selector_words. by destruct (String.eqb (TrimSpace selector) "").
  - apply Forall_app. split; [done|spell_ne].
  - apply parse_rule_app; [done|reflexivity].
  - unfold plain, dns_rule. by rewrite Hj.
Qed.
Definition dns_rules (target : string) : list ipt_rule :=
  flat_map (fun rule => if hijack_applies (String.eqb path (iptablesPath r)) (routeAddress r path) rule then map (dns_rule target rule) (selector_options rule) else []) (hijack_rules r).
Definition hijack_list : list ipt_rule :=
  match hijack_target r (String.eqb path (iptablesPath r)) with Some (Some target) => dns_rules target | _ => [] end.
Lemma s_for_app {A : Type} (xs ys : list A) f h : s_for (xs ++ ys) f h = (s_for xs f ;;& s_for ys f) h.
Proof. revert h. induction xs as [|x l IH]; intros h; [by cbn|]. cbn [s_for app]. unfold s_seq in *. destruct (f x h) as [h1 [|]]; [|done]. apply IH. Qed.
Lemma ipt_emits_ext a b R : (forall h, a h = b h) -> emits b R -> emits a R.
Proof. intros E [HK HA]. split; [intros T1 h h' ok T Hr; apply (HK T1 h h' ok T); by rewrite <- E|]. intros h h' T old Hr. apply HA. by rewrite <- E. Qed.
Lemma emits_for_app {A : Type} (xs ys : list A) f R1 R2 : emits (s_for xs f) R1 -> emits (s_for ys f) R2 -> emits (s_for (xs ++ ys) f) (R1 ++ R2).
Proof. intros H1 H2. eapply ipt_emits_ext; [intros h; apply s_for_app|]. by apply ipt_emits_seq. Qed.

Lemma word_target v4 target : hijack_target r v4 = Some (Some target) -> word target.
Proof.
  unfold hijack_target. fold o. destruct (if v4 then Inet4DNSAddress o else Inet6DNSAddress o) as [e|servers] eqn:E; [done|]. destruct servers as [|server servers]; [done|].
  assert (valid_addr server) as Hv.
  { assert (Forall valid_addr (server :: servers)) as HF by (apply (wo_servers Hw); destruct v4; auto). by inversion HF. }
  intros [= <-]. destruct (DNSHijack o); [apply word_addrport, Hv|by apply word_addr].
Qed.
Lemma emits_hijack_rule target rule : word target -> valid_addr (netip.ap_addr (h_Address rule)) ->
  emits (s_for (map (pair rule) (hijack_selectors r (routeAddress r path) rule)) (fun q => runShell r (hijack_command path (tableNamePreRouteing r) target (q.1) (q.2))))
    (map (dns_rule target rule) (selector_options rule)).
Proof.
  intros Ht Hv. pose proof (selectors_spelled rule Hv) as HS. pose proof (selector_options_select rule) as HO. induction HS as [|sel opts sels optss Hs _ IH]; [apply emits_ok|].
  apply Forall_cons in HO as [Ho HO]. cbn [map s_for]. apply (ipt_emits_seq _ _ [_]); [by apply emits_hijack_one|by apply IH].
Qed.
Lemma emits_hijack : emits (iptablesCreateDNSHijackRules r path (tableNamePreRouteing r) (routeAddress r path)) hijack_list.
Proof.
  unfold iptablesCreateDNSHijackRules, hijack_list. set (v4 := String.eqb path (iptablesPath r)). set (f := fun rule => if hijack_applies v4 (routeAddress r path) rule then _ else _).
  assert (forall target, word target -> forall rules, Forall (fun h => valid_addr (netip.ap_addr (h_Address h)) /\ is_u16 (netip.ap_port (h_Address h))) rules ->
    emits (s_for (flat_map f rules) (fun q => runShell r (hijack_command path (tableNamePreRouteing r) target (q.1) (q.2))))
      (flat_map (fun rule => if hijack_applies v4 (routeAddress r path) rule then map (dns_rule target rule) (selector_options rule) else []) rules)) as HE.
  { intros target Ht rules HR. induction HR as [|rule rules [Hv _] _ IH]; [apply emits_ok|]. cbn [flat_map]. apply emits_for_app; [|exact IH]. unfold f. destruct (hijack_applies _ _ rule); [by apply emits_hijack_rule|apply emits_ok]. }
  assert (forall target rules, flat_map f rules = [] -> Forall (fun h => valid_addr (netip.ap_addr (h_Address h)) /\ is_u16 (netip.ap_port (h_Address h))) rules ->
    flat_map (fun rule => if hijack_applies v4 (routeAddress r path) rule then map (dns_rule target rule) (selector_options rule) else []) rules = []) as HN.
  { intros target rules Hf HR. induction HR as [|rule rules [Hv _] _ IH]; [done|]. cbn [flat_map] in *. apply app_eq_nil in Hf as [Hf1 Hf2]. rewrite IH by done. rewrite app_nil_r. unfold f in Hf1. destruct (hijack_applies _ _ rule); [|done].
    pose proof (selectors_spelled rule Hv) as HS. destruct HS; [done|discriminate Hf1]. }
  pose proof (wo_hijack Hw) as HR. destruct (flat_map f (hijack_rules r)) as [|c cs] eqn:EC.
  - destruct (hijack_target r v4) as [[target|]|]; [|apply emits_ok..]. unfold dns_rules. fold v4. rewrite HN by done. apply emits_ok.
  - destruct (hijack_target r v4) as [[target|]|] eqn:ET; [|apply emits_ok|apply emits_fail]. rewrite <- EC. apply HE; [by eapply word_target|done].
Qed.

(** *** The chain and its hook *)

Context (Htarget : existsb (String.eqb (tableNamePreRouteing r)) targets = false).
Definition hook_rules (H : list ipt_rule) : list ipt_rule := if AutoRoute o then H ++ [jump (tableNamePreRouteing r)] else jump (tableNamePreRouteing r) :: H.
Definition finishes (a : script) (R : list ipt_rule) : Prop :=
  (forall T1, keeps path (before hook_prerouting T1) (after hook_prerouting T1) (after hook_prerouting T1) a) /\
  forall h h' T old H, a h = (h', true) -> h_tables h !! path = Some T -> T !! own_key hook_prerouting = Some old -> T !! hook_key hook_prerouting = Some H ->
    h_tables h' = <[path := <[hook_key hook_prerouting := hook_rules H]> (<[own_key hook_prerouting := old ++ R]> T)]> (h_tables h).
Lemma finishes_seq a b Ra Rb : emits a Ra -> finishes b Rb -> finishes (a ;;& b) (Ra ++ Rb).
Proof.
  intros [Ka Aa] [Kb Fb]. split; [intros T1; eapply keeps_seq; [apply Ka|apply Kb]|]. intros h h' T old H Hr HT Ho HH. unfold s_seq in Hr. destruct (a h) as [h1 ok] eqn:E1. destruct ok; [|discriminate Hr].
  pose proof (Aa h h1 T old E1 HT Ho) as H1. rewrite (Fb h1 h' (<[own_key hook_prerouting := old ++ Ra]> T) (old ++ Ra) H Hr); [|by rewrite H1, lookup_insert_eq|by rewrite lookup_insert_eq|by rewrite lookup_insert_ne].
  by rewrite H1, insert_insert_eq, insert_insert_eq, app_assoc.
Qed.
Lemma finishes_hook : finishes (runShell r [path; "-t nat"; if AutoRoute o then "-A" else "-I"; "PREROUTING -j"; tableNamePreRouteing r]%string) [].
Proof.
  destruct words as (W1 & _ & _ & _ & W5 & _). set (op := if AutoRoute o then "-A"%string else "-I"%string). assert (op = "-A" \/ op = "-I")%string as Hop by (unfold op; destruct (AutoRoute o); auto).
  assert (word op) as Wop by (destruct Hop as [-> | ->]; done).
  assert (flat_map split_words ["-t nat"%string; op; "PREROUTING -j"%string; tableNamePreRouteing r] = ["-t"; "nat"; op; "PREROUTING"; "-j"; tableNamePreRouteing r]%string) as Hs.
  { cbn [flat_map]. rewrite !(split_word op), (split_word (tableNamePreRouteing r)) by done. reflexivity. }
  split.
  - intros T1. eapply (keeps_hook hook_prerouting T1 _ _ op); [exact Hs|spell_ne|exact Hkey|exact Htarget|exact Hop|reflexivity].
  - intros h h' T old H Hr HT Ho HH. assert (Forall nonempty ["-t"; "nat"; op; "PREROUTING"; "-j"; tableNamePreRouteing r]%string) as Hn by spell_ne.
    destruct (runShell_effect r path _ _ W1 Hs Hn h h' true T Hr HT) as (T' & HF & ->). f_equal.
    change (iptables T _) with (ipt_command T "nat" op "PREROUTING" ["-j"%string; tableNamePreRouteing r]) in HF.
    assert (target_ok T "nat" (jump (tableNamePreRouteing r)) = true) as Hok.
    { unfold target_ok. cbn [option_value jump String.eqb Ascii.eqb Bool.eqb]. change ("nat"%string, tableNamePreRouteing r) with (own_key hook_prerouting). rewrite Ho, (bool_decide_eq_true_2 (is_Some _)) by (by eexists). apply orb_true_r. }
    rewrite app_nil_r, (insert_id T) by done. unfold ipt_command in HF. change ("nat"%string, "PREROUTING"%string) with (hook_key hook_prerouting) in HF. rewrite HH in HF.
    assert (parse_rule ["-j"%string; tableNamePreRouteing r] = Some (jump (tableNamePreRouteing r))) as HP by done. rewrite HP in HF. unfold hook_rules, op in *.
    destruct (AutoRoute o); cbn [mbind option_bind String.eqb Ascii.eqb Bool.eqb] in HF; rewrite Hok in HF; by injection HF as <-.
Qed.

Definition return_rule (opts : ipt_rule) : ipt_rule := opts ++ [("-j", "RETURN")]%string.
Definition redirect_rule (opts : ipt_rule) : ipt_rule := opts ++ [("-p", "tcp"); ("-j", "REDIRECT"); ("--to-ports", itoa (i_redirectPort r))]%string.
Definition local_rule : ipt_rule := return_rule [("-m", "addrtype"); ("--dst-type", "LOCAL")]%string.
Definition redirect_rules : list ipt_rule :=
  if negb (bool_decide (length (routeAddress r path) = 0%nat)) then flat_map (fun p => [redirect_rule [("-d"%string, Prefix_String p)]]) (routeAddress r path)
  else if includes r then flat_map (fun n => [redirect_rule [("-i"%string, n)]]) (IncludeInterface o)
  else [redirect_rule []].
Definition chain_rules : list ipt_rule :=
  (if AutoRoute o then [return_rule [("-m", "conntrack"); ("--ctstate", "DNAT")]%string] else []) ++ [] ++
  [return_rule [("-i"%string, Name o)]] ++
  flat_map (fun p => [return_rule [("-d"%string, Prefix_String p)]]) (routeExcludeAddress r path) ++
  flat_map (fun n => [return_rule [("-i"%string, n)]]) (ExcludeInterface o) ++
  (if AutoRoute o then [local_rule] else []) ++
  (if String.eqb (DNSModeOrDefault os o) DNSModeHijack then hijack_list else []) ++
  (if negb (AutoRoute o) then [local_rule] else []) ++
  redirect_rules ++ [].
Lemma finishes_chain : exists a, setup_prerouting os r path = (runShell r [path; "-t nat -N"%string; tableNamePreRouteing r] ;;& a) /\ finishes a chain_rules.
Proof.
  destruct words as (W1 & _ & _ & _ & W5 & W6 & W7). eexists. split; [reflexivity|]. unfold chain_rules. fold o.
  apply finishes_seq; [apply ipt_emits_when; eapply ipt_emits_rule; [spell|spell_ne|reflexivity|reflexivity]|].
  apply finishes_seq; [destruct (_ && _); [apply emits_fail|apply emits_ok]|].
  apply finishes_seq; [eapply ipt_emits_rule; [spell|spell_ne|reflexivity|reflexivity]|].
  apply finishes_seq; [apply ipt_emits_for; eapply Forall_impl; [apply (wo_routes_excluded Hw)|]; intros p (_ & Hp & _); pose proof (word_prefix p Hp); eapply ipt_emits_rule; [spell|spell_ne|reflexivity|reflexivity]|].
  apply finishes_seq; [apply ipt_emits_for; eapply Forall_impl; [apply (wo_exclude Hw)|]; intros n Hn; eapply ipt_emits_rule; [spell|spell_ne|reflexivity|reflexivity]|].
  apply finishes_seq; [apply ipt_emits_when; eapply ipt_emits_rule; [spell|spell_ne|reflexivity|reflexivity]|].
  apply finishes_seq; [apply ipt_emits_when; apply emits_hijack|].
  apply finishes_seq; [apply ipt_emits_when; eapply ipt_emits_rule; [spell|spell_ne|reflexivity|reflexivity]|].
  apply finishes_seq; [|apply finishes_hook]. unfold redirect_rules. destruct (negb _); [|destruct (includes r)].
  - apply ipt_emits_for. eapply Forall_impl; [apply (wo_routes Hw)|]. intros p (_ & Hp & _). pose proof (word_prefix p Hp). eapply ipt_emits_rule; [spell|spell_ne|reflexivity|reflexivity].
  - apply ipt_emits_for. eapply Forall_impl; [apply (wo_include Hw)|]. intros n Hn. eapply ipt_emits_rule; [spell|spell_ne|reflexivity|reflexivity].
  - eapply ipt_emits_rule; [spell|spell_ne|reflexivity|reflexivity].
Qed.
End Family.
