(* ===== verification/IptablesDecision.v ===== *)
(** * What the iptables rules of auto-redirect decide

    A reader of the texts that netip makes of addresses and prefixes, which
    finds what was printed (the instance of [IptablesAddresses]); and the
    decision of the PREROUTING chain as a list of conditions on the packet. *)
From Stdlib Require Import String Ascii.
From S2P Require Import Prelude Bytes GoMem TsChecksum Netip TunOptions TunOptionsSpec TunRules Iptables RedirectIptables RedirectIptablesSpec.
(** ** Fields *)

Fixpoint lacks (c : ascii) (s : string) : bool := match s with EmptyString => true | String d s' => negb (Ascii.eqb d c) && lacks c s' end.
Fixpoint split_on (c : ascii) (s : string) : list string :=
  match s with
  | EmptyString => [""%string]
  | String d s' => if Ascii.eqb d c then ""%string :: split_on c s' else match split_on c s' with w :: ws => String d w :: ws | [] => [String d ""] end
  end.
Lemma split_on_cons c s : exists w ws, split_on c s = w :: ws.
Proof. induction s as [|d s (w & ws & IH)]; cbn; [by do 2 eexists|]. rewrite IH. destruct (Ascii.eqb d c); by do 2 eexists. Qed.
Lemma split_on_sep c s t : split_on c (String.append s (String c t)) = split_on c s ++ split_on c t.
Proof.
  induction s as [|d s IH]; [change (split_on c (String c t) = ""%string :: split_on c t); cbn [split_on]; by rewrite Ascii.eqb_refl|]. rewrite append_cons. cbn [split_on]. rewrite IH. destruct (Ascii.eqb d c); [done|]. destruct (split_on_cons c s) as (w & ws & ->). done.
Qed.
Lemma split_on_lacks c s : lacks c s = true -> split_on c s = [s].
Proof. induction s as [|d s IH]; [done|]. cbn. intros [Hd Hs]%andb_prop. apply negb_true_iff in Hd. by rewrite Hd, IH. Qed.
Lemma split_on_concat c ws : ws <> [] -> Forall (fun w => lacks c w = true) ws -> split_on c (String.concat (String c "") ws) = ws.
Proof.
  intros Hne HF. induction HF as [|w ws Hw HF IH]; [done|]. destruct ws as [|w2 ws]; [by apply split_on_lacks|].
  change (String.concat (String c "") (w :: w2 :: ws)) with (String.append w (String c (String.concat (String c "") (w2 :: ws)))). rewrite split_on_sep, IH, split_on_lacks by done. done.
Qed.
Lemma lacks_app c s t : lacks c (String.append s t) = lacks c s && lacks c t.
Proof. induction s as [|d s IH]; [done|]. rewrite append_cons. cbn. by rewrite IH, andb_assoc. Qed.
Lemma lacks_concat c sep ws : lacks c sep = true -> Forall (fun w => lacks c w = true) ws -> lacks c (String.concat sep ws) = true.
Proof.
  intros Hs. induction 1 as [|w ws Hw Hws IH]; [done|]. destruct ws as [|w2 ws]; [done|].
  change (String.concat sep (w :: w2 :: ws)) with (String.append w (String.append sep (String.concat sep (w2 :: ws)))). by rewrite !lacks_app, Hw, Hs, IH.
Qed.
(** Numbers have digits only. *)
Lemma ascii_ne n c : 0 <= n < 256 -> Z.of_N (N_of_ascii c) <> n -> Ascii.eqb (ascii_of_N (Z.to_N n)) c = false.
Proof. intros Hn Hc. apply Ascii.eqb_neq. intros E. apply Hc. rewrite <- E, N_ascii_embedding by lia. lia. Qed.
Lemma itoa_lacks c n : Z.of_N (N_of_ascii c) < 48 \/ 57 < Z.of_N (N_of_ascii c) -> lacks c (itoa n) = true.
Proof.
  intros Hc. unfold itoa. assert (forall fuel n acc, lacks c acc = true -> lacks c (itoa_loop fuel n acc) = true) as HL; [|by apply HL].
  induction fuel as [|fuel IH]; intros m acc Ha; cbn [itoa_loop].
  - cbn [lacks]. rewrite ascii_ne by (pose proof (Z.mod_pos_bound m 10); lia). done.
  - destruct (m <? 10); [|apply IH]; cbn [lacks]; rewrite ascii_ne by (pose proof (Z.mod_pos_bound m 10); lia); done.
Qed.
Lemma hex16_lacks c v : Z.of_N (N_of_ascii c) < 48 \/ 57 < Z.of_N (N_of_ascii c) < 97 -> lacks c (hex16 v) = true.
Proof.
  intros Hc. assert (forall l, lacks c (fold_right (fun i s => String (hex_digit (v / 16 ^ i mod 16)) s) ""%string l) = true) as HL.
  { induction l as [|i l IH]; [done|]. cbn [fold_right lacks]. pose proof (Z.mod_pos_bound (v / 16 ^ i) 16 ltac:(lia)). unfold hex_digit. rewrite ascii_ne by (zcase; lia). done. }
  unfold hex16. repeat case_match; apply HL.
Qed.

(** ** Readers *)

Definition read_number (s : string) : Z := default 0 (unsigned s).
Definition read_dotted (s : string) : list Z := map read_number (split_on "." s).
Definition hex_value (c : ascii) : Z := let n := Z.of_N (N_of_ascii c) in if n <? 58 then n - 48 else n - 87.
Fixpoint read_hex (s : string) (acc : Z) : Z := match s with EmptyString => acc | String c s' => read_hex s' (16 * acc + hex_value c) end.
(** The groups before and after "::". *)
Fixpoint fields_before (ts : list string) : list string := match ts with [] => [] | t :: ts' => if String.eqb t "" then [] else t :: fields_before ts' end.
Fixpoint fields_after (ts : list string) : list string :=
  match ts with [] => [] | t :: ts' => if String.eqb t "" then List.filter (fun t => negb (String.eqb t "")) ts' else fields_after ts' end.
Definition read_groups (s : string) : list Z :=
  let ts := split_on ":" s in
  let l := map (fun t => read_hex t 0) (fields_before ts) in
  let r := map (fun t => read_hex t 0) (fields_after ts) in
  l ++ repeat 0 (8 - length l - length r) ++ r.
Definition ungroup (gs : list Z) : list Z := flat_map (fun g => [g / 256; g mod 256]) gs.
Definition read_addr (s : string) : netip.Addr :=
  if lacks "." s then netip.Addr6 (ungroup (read_groups s))
  else match strip_prefix "::ffff:" s with
       | Some t => netip.Addr6 (netip.v4InV6 ++ read_dotted t)
       | None => netip.Addr4 (read_dotted s)
       end.
Definition read_match (s : string) (a : netip.Addr) : bool :=
  match split_on "/" s with
  | [x; n] => netip.Contains (netip.PrefixFrom (read_addr x) (read_number n)) a
  | _ => bool_decide (read_addr s = a)
  end.

(** ** They read what was printed *)

Lemma read_number_itoa n : 0 <= n -> read_number (itoa n) = n.
Proof. intros Hn. unfold read_number. by rewrite parse_itoa. Qed.
Lemma read_dotted_dotted b : bytes b -> b <> [] -> read_dotted (dotted b) = b.
Proof.
  intros Hb Hne. unfold read_dotted, dotted. rewrite (split_on_concat "."); [|by destruct b|apply Forall_map, Forall_forall; intros x _; apply itoa_lacks; cbn; lia].
  rewrite map_map. clear Hne. induction Hb as [|x b Hx _ IH]; [done|]. cbn [map]. rewrite IH, read_number_itoa by lia. done.
Qed.
Lemma read_hex_hex16 v : is_u16 v -> read_hex (hex16 v) 0 = v.
Proof.
  intros Hv. set (bs := map Z.of_nat (seq 0 256)). assert (forallb (fun x => forallb (fun y => read_hex (hex16 (256 * x + y)) 0 =? 256 * x + y) bs) bs = true) as HA by (vm_compute; reflexivity).
  assert (forall x, 0 <= x < 256 -> In x bs) as HI by (intros x Hx; apply in_map_iff; exists (Z.to_nat x); split; [lia|apply in_seq; lia]).
  rewrite forallb_forall in HA. specialize (HA (v / 256) ltac:(apply HI; zdm)). rewrite forallb_forall in HA. specialize (HA (v mod 256) ltac:(apply HI; zdm)). apply Z.eqb_eq in HA. by rewrite <- Z.div_mod in HA by lia.
Qed.
Lemma read_hexes gs : Forall (fun g => is_u16 g) gs -> map (fun t => read_hex t 0) (map hex16 gs) = gs.
Proof. induction 1 as [|g gs Hg _ IH]; [done|]. cbn [map]. by rewrite read_hex_hex16, IH. Qed.
Lemma hex_ne g : String.eqb (hex16 g) "" = false.
Proof. apply String.eqb_neq, hex16_ne. Qed.
Lemma fields_hex gs ts : fields_before (map hex16 gs ++ ts) = map hex16 gs ++ fields_before ts /\ fields_after (map hex16 gs ++ ts) = fields_after ts.
Proof. induction gs as [|g gs [IH1 IH2]]; [done|]. cbn [map app fields_before fields_after]. rewrite hex_ne. by rewrite IH1, IH2. Qed.
Lemma filter_hex gs : List.filter (fun t => negb (String.eqb t "")) (map hex16 gs) = map hex16 gs.
Proof. induction gs as [|g gs IH]; [done|]. cbn [map List.filter]. rewrite hex_ne. cbn [negb]. by rewrite IH. Qed.
Lemma split_colons gs : split_on ":" (colons gs) = match gs with [] => [""%string] | _ => map hex16 gs end.
Proof. destruct gs as [|g gs]; [done|]. unfold colons. apply (split_on_concat ":"); [done|]. apply Forall_map, Forall_forall. intros x _. apply hex16_lacks. cbn. lia. Qed.
Lemma read_colons gs : length gs = 8%nat -> Forall (fun g => is_u16 g) gs -> read_groups (colons gs) = gs.
Proof.
  intros Hl HF. unfold read_groups. rewrite split_colons. assert (match gs with [] => [""%string] | _ => map hex16 gs end = map hex16 gs ++ []) as -> by (destruct gs; [done|by rewrite app_nil_r]).
  destruct (fields_hex gs []) as [-> ->]. cbn [fields_before fields_after]. rewrite app_nil_r, read_hexes by done. cbn [map length]. rewrite Hl. cbn. by rewrite app_nil_r.
Qed.
Lemma read_compressed l r : Forall (fun g => is_u16 g) l -> Forall (fun g => is_u16 g) r ->
  read_groups (String.append (colons l) (String.append "::" (colons r))) = l ++ repeat 0 (8 - length l - length r) ++ r.
Proof.
  intros Hl Hr. unfold read_groups. change (String.append "::" (colons r)) with (String ":" (String ":" (colons r))). assert (split_on ":" (String ":" (colons r)) = [""%string] ++ split_on ":" (colons r)) as E by apply (split_on_sep ":" "" (colons r)). rewrite split_on_sep, E, !split_colons.
  assert (List.filter (fun t => negb (String.eqb t "")) (match r with [] => [""%string] | _ => map hex16 r end) = map hex16 r) as HR by (destruct r; [done|apply filter_hex]).
  destruct l as [|g l].
  - cbn [app fields_before fields_after String.eqb List.filter negb map length]. rewrite HR, read_hexes by done. done.
  - destruct (fields_hex (g :: l) ([""%string] ++ match r with [] => [""%string] | _ => map hex16 r end)) as [-> ->]. cbn [app fields_before fields_after String.eqb]. rewrite HR, app_nil_r, !read_hexes by done. done.
Qed.

(** The run of zeros that is left out. *)
Lemma zero_run_zeros gs : (zero_run gs <= length gs)%nat /\ take (zero_run gs) gs = repeat 0 (zero_run gs).
Proof. induction gs as [|g gs [IH1 IH2]]; [done|]. cbn [zero_run length]. zcase; [subst|cbn; split; [lia|done]]. cbn. rewrite IH2. split; [lia|done]. Qed.
Definition zeros_at (gs : list Z) (q : nat * nat) : Prop :=
  q = (255%nat, 255%nat) \/ (q.1 <= q.2 <= length gs)%nat /\ gs = take (q.1) gs ++ repeat 0 (q.2 - q.1) ++ drop (q.2) gs.
Lemma longest_zeros_at gs0 i best : (i <= length gs0)%nat -> zeros_at gs0 best -> zeros_at gs0 (longest_zeros (drop i gs0) i best).
Proof.
  intros Hi Hb. remember (drop i gs0) as gs eqn:E. revert i best Hi Hb E. induction gs as [|g gs IH]; intros i best Hi Hb E; [done|]. cbn [longest_zeros].
  assert (length (drop i gs0) = S (length gs)) as HL by (by rewrite <- E). rewrite length_drop in HL. apply IH; [lia| |].
  - destruct (_ && _); [|done]. right. destruct (zero_run_zeros (g :: gs)) as [Hz Hr]. cbn [fst snd]. cbn [length] in Hz. split; [lia|]. replace (i + zero_run (g :: gs) - i)%nat with (zero_run (g :: gs)) by lia.
    rewrite <- Hr, E, <- drop_drop. by rewrite (take_drop (zero_run _)), take_drop.
  - replace (S i) with (i + 1)%nat by lia. rewrite <- drop_drop, <- E. done.
Qed.
Lemma ungroup_groups n b : bytes b -> length b = (2 * n)%nat -> ungroup (groups b) = b /\ length (groups b) = n /\ Forall (fun g => is_u16 g) (groups b).
Proof.
  revert b. induction n as [|n IH]; intros b Hb Hl; [by destruct b|]. destruct b as [|x [|y b]]; [cbn in Hl; lia..|]. apply Forall_cons in Hb as [Hx [Hy Hb]%Forall_cons]. cbn in Hl. destruct (IH b Hb ltac:(lia)) as (E & L & HF).
  cbn [groups ungroup flat_map length]. split_and!; [|by rewrite L|constructor; [lia|done]]. unfold ungroup in E. rewrite E. cbn [app]. f_equal; [|f_equal]; zdm.
Qed.
Lemma read_text6 b : bytes b -> length b = 16%nat -> ungroup (read_groups (text6 b)) = b.
Proof.
  intros Hb Hl. destruct (ungroup_groups 8 b Hb Hl) as (E & L & HF). unfold text6. set (gs := groups b) in *. pose proof (longest_zeros_at gs 0 (255%nat, 255%nat) ltac:(lia) ltac:(by left)) as HZ. rewrite drop_0 in HZ.
  destruct (longest_zeros gs 0 _) as [s e]. destruct (Nat.leb_spec e 8) as [He|He]; [|rewrite read_colons by done; done]. destruct HZ as [[= -> ->]|[Hse Heq]]; [lia|]. cbn [fst snd] in *.
  rewrite read_compressed by (apply Forall_take, HF || apply Forall_drop, HF). rewrite length_take, length_drop, L, Nat.min_l by lia. replace (8 - s - (8 - e))%nat with (e - s)%nat by lia. rewrite <- Heq. done.
Qed.
Lemma colons_lacks c gs : c <> ":"%char -> Z.of_N (N_of_ascii c) < 48 \/ 57 < Z.of_N (N_of_ascii c) < 97 -> lacks c (colons gs) = true.
Proof.
  intros Hne Hc. apply lacks_concat; [cbn [lacks]; rewrite andb_true_r; apply negb_true_iff, Ascii.eqb_neq; congruence|]. apply Forall_map, Forall_forall. intros x _. by apply hex16_lacks.
Qed.
Lemma text6_lacks c b : c <> ":"%char -> Z.of_N (N_of_ascii c) < 48 \/ 57 < Z.of_N (N_of_ascii c) < 97 -> lacks c (text6 b) = true.
Proof.
  intros Hne Hc. pose proof (fun gs => colons_lacks c gs Hne Hc) as HC. unfold text6. destruct (longest_zeros _ _ _) as [s e]. destruct (e <=? 8)%nat; [|apply HC]. rewrite !lacks_app, !HC. cbn [lacks andb]. rewrite !andb_true_r.
  assert (Ascii.eqb ":" c = false) as -> by (apply Ascii.eqb_neq; congruence). done.
Qed.
Lemma dotted_lacks c b : c <> "."%char -> Z.of_N (N_of_ascii c) < 48 \/ 57 < Z.of_N (N_of_ascii c) -> lacks c (dotted b) = true.
Proof.
  intros Hne Hc. apply lacks_concat; [cbn [lacks]; rewrite andb_true_r; apply negb_true_iff, Ascii.eqb_neq; congruence|]. apply Forall_map, Forall_forall. intros x _. by apply itoa_lacks.
Qed.
Lemma dotted_has b : length b = 4%nat -> lacks "." (dotted b) = false.
Proof.
  intros Hl. destruct b as [|x [|y b]]; [done|cbn in Hl; lia|]. unfold dotted. cbn [map]. change (String.concat "." (itoa x :: itoa y :: map itoa b)) with (String.append (itoa x) (String "." (String.concat "." (itoa y :: map itoa b)))).
  rewrite lacks_app. cbn [lacks]. by rewrite andb_false_r.
Qed.
Lemma dotted_no_mapped b : bytes b -> length b = 4%nat -> strip_prefix "::ffff:" (dotted b) = None.
Proof.
  intros Hb Hl. destruct (dotted b) as [|c s] eqn:E; [done|]. pose proof (dotted_lacks ":" b ltac:(done) ltac:(cbn; lia)) as HL. rewrite E in HL. cbn [lacks] in HL. apply andb_prop in HL as [HL _]. apply negb_true_iff in HL.
  cbn [strip_prefix]. destruct (Ascii.eqb_spec ":" c) as [<-|]; done.
Qed.
Lemma read_addr_String a : valid_addr a -> read_addr (Addr_String a) = a.
Proof.
  intros [Hw Hv]. destruct a as [|b|b]; [done| |]; destruct Hw as [Hb Hl]; unfold read_addr, Addr_String.
  - rewrite dotted_has, dotted_no_mapped, read_dotted_dotted by (done || by destruct b). done.
  - destruct (netip.Is4In6 (netip.Addr6 b)) eqn:E; [|by rewrite text6_lacks, read_text6 by (done || cbn; lia)].
    cbn [netip.Is4In6] in E. apply bool_decide_eq_true in E. rewrite lacks_app, dotted_has by (rewrite length_drop; lia). rewrite andb_false_r. assert (strip_prefix "::ffff:" (String.append "::ffff:" (dotted (drop 12 b))) = Some (dotted (drop 12 b))) as -> by done.
    rewrite read_dotted_dotted by (by apply Forall_drop || (intros Hn; apply (f_equal length) in Hn; rewrite length_drop, Hl in Hn; discriminate Hn)). by rewrite <- E, take_drop.
Qed.
Lemma addr_lacks_slash a : netip.IsValid a = true -> lacks "/" (Addr_String a) = true.
Proof.
  intros Hv. destruct a as [|b|b]; [done|apply dotted_lacks; [done|cbn; lia]|]. unfold Addr_String. destruct (netip.Is4In6 _); [rewrite lacks_app, dotted_lacks by (done || cbn; lia); done|apply text6_lacks; [done|cbn; lia]].
Qed.
#[export] Instance read_addresses : IptablesAddresses.
Proof.
  refine {| dst_match := read_match |}.
  - intros p a (Hw & Hv & Hb) Ha. unfold read_match, Prefix_String. change (String.append "/" (itoa (netip.pf_bits p))) with (String "/" (itoa (netip.pf_bits p))).
    rewrite split_on_sep, (split_on_lacks "/" (Addr_String _)) by (by apply addr_lacks_slash). rewrite (split_on_lacks "/" (itoa _)) by (apply itoa_lacks; cbn; lia). cbn [app]. rewrite read_addr_String, read_number_itoa by (done || lia). by destruct p.
  - intros x a Hx Ha. unfold read_match. rewrite split_on_lacks by (apply addr_lacks_slash, Hx). by rewrite read_addr_String.
Defined.

(** ** The decision of the chain *)

#[local] Open Scope ipt_scope.

(** The first condition that holds. *)
Fixpoint first_of {A} (l : list (bool * A)) : option A := match l with [] => None | (b, a) :: l' => if b : bool then Some a else first_of l' end.

Section Decision.
Context `{IptablesAddresses} (xmark : string -> Z -> Z) (os : GOOS) (r : ipt_redirect) (path : string).
Let o := i_tunOptions r.
Let routes := routeAddress r path.

Definition included_interface (p : ipt_packet) : bool := existsb (fun n => ifname_match n (k_iif p)) (IncludeInterface o).
(** A DNS query that a hijack rule asks for. *)
Definition dns_hijacked (p : ipt_packet) : bool :=
  (k_proto p =? 17) &&
  existsb (fun h => negb (String.eqb (h_Network h) "tcp") && (netip.ap_port (h_Address h) =? k_dport p) &&
                    (IsUnspecified (netip.ap_addr (h_Address h)) || bool_decide (netip.ap_addr (h_Address h) = k_dst p))) (hijack_rules r) &&
  (bool_decide (length routes = 0%nat) || covered routes (k_dst p)) &&
  (negb (bool_decide (length routes = 0%nat)) || negb (includes r) || included_interface p).
Definition redirected (p : ipt_packet) : bool :=
  (k_proto p =? 6) && (if negb (bool_decide (length routes = 0%nat)) then covered routes (k_dst p) else if includes r then included_interface p else true).
Definition is_local (p : ipt_packet) : bool := String.eqb "LOCAL" (k_dsttype p).
Definition dns_condition (p : ipt_packet) : list (bool * action) :=
  match hijack_target r (String.eqb path (iptablesPath r)) with
  | Some (Some target) => [(String.eqb (DNSModeOrDefault os o) DNSModeHijack && dns_hijacked p, Terminate (Translated target))]
  | _ => []
  end.
Definition ipt_decision (p : ipt_packet) : option action :=
  first_of ([(AutoRoute o && bool_decide ("DNAT"%string ∈ k_ctstate p), Return);
             (ifname_match (Name o) (k_iif p), Return);
             (covered (routeExcludeAddress r path) (k_dst p), Return);
             (existsb (fun n => ifname_match n (k_iif p)) (ExcludeInterface o), Return);
             (AutoRoute o && is_local p, Return)] ++
            dns_condition p ++
            [(negb (AutoRoute o) && is_local p, Return);
             (redirected p, Terminate (Redirected (itoa (i_redirectPort r))))]).
Definition ipt_packet_ok (p : ipt_packet) : Prop := valid_addr (k_dst p) /\ netip.Is4 (k_dst p) = String.eqb path (iptablesPath r) /\ is_u16 (k_dport p).
Definition verdict_of (a : option action) : option verdict := match a with Some (Terminate v) => Some v | _ => None end.

(** *** Rules without jumps *)

Definition first_action (rs : list ipt_rule) (p : ipt_packet) : option action := option_map rule_action (List.find (fun q => rule_match q p) rs).
Definition direct (q : ipt_rule) : bool := match rule_action q with Terminate _ | Return => true | _ => false end.
Lemma run_rules_first run rs p m : forallb direct rs = true -> run_rules xmark run rs p m = (m, verdict_of (first_action rs p)).
Proof.
  unfold first_action. induction rs as [|q rs IH]; [done|]. cbn [forallb run_rules List.find]. intros [Hq Hrs]%andb_prop. unfold direct in Hq. destruct (rule_match q p); [|by apply IH]. cbn. by destruct (rule_action q).
Qed.
Lemma first_action_app a b p : first_action (a ++ b) p = match first_action a p with Some x => Some x | None => first_action b p end.
Proof. unfold first_action. induction a as [|q a IH]; [done|]. cbn [app List.find]. by destruct (rule_match q p). Qed.
Lemma first_action_flat {A : Type} (xs : list A) f act p : (forall x, rule_action (f x) = act) ->
  first_action (flat_map (fun x => [f x]) xs) p = if existsb (fun x => rule_match (f x) p) xs then Some act else None.
Proof.
  intros Ha. unfold first_action. induction xs as [|x xs IH]; [done|]. cbn [flat_map app List.find existsb]. destruct (rule_match (f x) p); cbn [orb]; [cbn; by rewrite Ha|apply IH].
Qed.
Lemma first_of_app {A : Type} (a b : list (bool * A)) : first_of (a ++ b) = match first_of a with Some x => Some x | None => first_of b end.
Proof. induction a as [|[c x] a IH]; [done|]. cbn. by destruct c. Qed.
Lemma existsb_ext {A : Type} (f g : A -> bool) l : Forall (fun x => f x = g x) l -> existsb f l = existsb g l.
Proof. induction 1 as [|x l Hx _ IH]; [done|]. cbn. by rewrite Hx, IH. Qed.
Lemma covered_match p ps : Forall valid_prefix ps -> valid_addr (k_dst p) -> existsb (fun q => dst_match (Prefix_String q) (k_dst p)) ps = covered ps (k_dst p).
Proof. intros HF Hv. apply existsb_ext. eapply Forall_impl; [exact HF|]. intros q Hq. by apply dst_match_prefix. Qed.

(** *** The chain *)

Context (Hw : words_ok r path).
Lemma rule_match_app a b p : rule_match (a ++ b) p = rule_match a p && rule_match b p.
Proof. unfold rule_match. apply forallb_app. Qed.
Lemma port_match n port : is_u16 n -> is_u16 port -> bool_decide (ParseUint32 (itoa n) = Some port) = (n =? port).
Proof.
  intros Hn Hp. pose proof (parse_itoa n ltac:(lia)) as HU. assert (ParseUint32 (itoa n) = Some n) as ->.
  { unfold ParseUint32. destruct (itoa n) eqn:E; [by apply itoa_loop_ne in E|]. unfold unsigned in HU. rewrite HU. by replace (n <? 4294967296) with true by lia. }
  destruct (Z.eqb_spec n port) as [->|Hne]; [by apply bool_decide_eq_true_2|]. apply bool_decide_eq_false_2. congruence.
Qed.
Lemma dns_rule_match p target rule opts : is_u16 (netip.ap_port (h_Address rule)) -> is_u16 (k_dport p) ->
  rule_match (dns_rule target rule opts) p = rule_match (pairs opts) p && (k_proto p =? 17) && (netip.ap_port (h_Address rule) =? k_dport p).
Proof.
  intros Hn Hp. unfold dns_rule. rewrite rule_match_app. unfold rule_match at 2. cbn [forallb option_match String.eqb Ascii.eqb Bool.eqb proto_match]. rewrite port_match by done. by rewrite !andb_true_r, andb_assoc.
Qed.
Lemma dst_options_match p rule : valid_addr (netip.ap_addr (h_Address rule)) -> valid_addr (k_dst p) ->
  rule_match (pairs (dst_options rule)) p = IsUnspecified (netip.ap_addr (h_Address rule)) || bool_decide (netip.ap_addr (h_Address rule) = k_dst p).
Proof.
  intros Ha Hp. unfold dst_options. destruct (IsUnspecified _); [done|]. unfold rule_match. cbn [pairs forallb option_match String.eqb Ascii.eqb Bool.eqb orb]. by rewrite dst_match_addr, andb_true_r.
Qed.
(** The selectors of a hijack rule that applies. *)
Lemma selectors_match p rule : valid_addr (netip.ap_addr (h_Address rule)) -> ipt_packet_ok p ->
  (if hijack_applies (String.eqb path (iptablesPath r)) routes rule then existsb (fun opts => rule_match (pairs opts) p) (selector_options r path rule) else false) =
  negb (String.eqb (h_Network rule) "tcp") && (IsUnspecified (netip.ap_addr (h_Address rule)) || bool_decide (netip.ap_addr (h_Address rule) = k_dst p)) &&
  (bool_decide (length routes = 0%nat) || covered routes (k_dst p)) && (negb (bool_decide (length routes = 0%nat)) || negb (includes r) || included_interface p).
Proof.
  intros Ha (Hd & H4 & _). unfold hijack_applies, selector_options. fold routes. fold (covered routes (netip.ap_addr (h_Address rule))). pose proof (dst_options_match p rule Ha Hd) as HD. rewrite <- H4.
  set (a := netip.ap_addr (h_Address rule)) in *. destruct (String.eqb (h_Network rule) "tcp"); [done|]. cbn [orb negb andb].
  destruct (bool_decide (length routes = 0%nat)) eqn:ER; cbn [negb orb andb]; rewrite ?orb_true_r, ?andb_true_r.
  - destruct (IsUnspecified a) eqn:EU; cbn [negb orb andb] in *.
    + destruct (includes r); cbn [negb orb]; [|cbn [existsb]; by rewrite HD]. unfold included_interface. fold o. induction (IncludeInterface o) as [|n ns IH]; [done|]. cbn [map existsb]. rewrite IH. f_equal.
      destruct (dst_options rule) as [|x l] eqn:ED; [unfold rule_match; cbn; by rewrite andb_true_r|]. unfold dst_options in ED. fold a in ED. by rewrite EU in ED.
    + destruct (bool_decide (a = k_dst p)) eqn:EA; cbn [andb].
      * apply bool_decide_eq_true in EA. rewrite EA, Bool.eqb_reflx. cbn [negb]. destruct (includes r); cbn [negb orb]; [|cbn [existsb]; by rewrite HD]. unfold included_interface. fold o.
        induction (IncludeInterface o) as [|n ns IH]; [done|]. cbn [map existsb]. rewrite IH. f_equal. assert (pairs (dst_options rule ++ ["-i"%string; n]) = pairs (dst_options rule) ++ [("-i"%string, n)]) as -> by (unfold dst_options; fold a; by rewrite EU).
        rewrite rule_match_app, HD. unfold rule_match. cbn. by rewrite andb_true_r.
      * destruct (negb _); [|done]. destruct (includes r); cbn [existsb]; [|by rewrite HD]. induction (IncludeInterface (i_tunOptions r)) as [|n ns IH]; [done|]. cbn [map existsb]. rewrite IH.
        assert (pairs (dst_options rule ++ ["-i"%string; n]) = pairs (dst_options rule) ++ [("-i"%string, n)]) as -> by (unfold dst_options; fold a; by rewrite EU). by rewrite rule_match_app, HD.
  - destruct (IsUnspecified a) eqn:EU; cbn [negb orb andb] in *.
    + rewrite <- (covered_match p routes) by (done || apply Hw). unfold rule_match. generalize routes. intros l. induction l as [|q qs IH]; [done|]. cbn [map existsb pairs forallb option_match String.eqb Ascii.eqb Bool.eqb]. by rewrite IH, andb_true_r.
    + destruct (bool_decide (a = k_dst p)) eqn:EA; cbn [andb].
      * apply bool_decide_eq_true in EA. rewrite EA, Bool.eqb_reflx. cbn [negb andb existsb]. rewrite HD. by destruct (covered routes (k_dst p)).
      * destruct (_ && _); [|done]. cbn [existsb]. by rewrite HD.
Qed.
Lemma existsb_andb_r {A : Type} (f : A -> bool) b l : existsb (fun x => f x && b) l = existsb f l && b.
Proof. induction l as [|x l IH]; [done|]. cbn. rewrite IH. by destruct (f x), (existsb f l), b. Qed.
Lemma first_action_map {A : Type} (xs : list A) f act p : (forall x, rule_action (f x) = act) -> first_action (map f xs) p = if existsb (fun x => rule_match (f x) p) xs then Some act else None.
Proof.
  intros Ha. unfold first_action. induction xs as [|x xs IH]; [done|]. cbn [map List.find existsb]. destruct (rule_match (f x) p); cbn [orb]; [cbn; by rewrite Ha|apply IH].
Qed.
Lemma dns_rule_action target rule opts : selects_only opts -> rule_action (dns_rule target rule opts) = Terminate (Translated (option_value "--to" (dns_rule target rule opts))).
Proof. intros [_ Hj]. unfold rule_action, dns_rule. by rewrite Hj. Qed.
Lemma dns_rule_to target rule opts : opts ∈ selector_options r path rule -> option_value "--to" (dns_rule target rule opts) = target.
Proof.
  unfold selector_options, dst_options. intros Hin. destruct (_ && _); [|destruct (_ && _)].
  - apply list_elem_of_fmap in Hin as (q & -> & _). done.
  - apply list_elem_of_fmap in Hin as (n & -> & _). by destruct (IsUnspecified _).
  - apply list_elem_of_singleton in Hin as ->. by destruct (IsUnspecified _).
Qed.
Lemma first_action_dns p target : ipt_packet_ok p -> first_action (dns_rules r path target) p = if dns_hijacked p then Some (Terminate (Translated target)) else None.
Proof.
  intros Hp. pose proof Hp as (Hd & _ & Hport). unfold dns_hijacked, dns_rules. fold routes. pose proof (wo_hijack _ _ Hw) as HH. set (side := (bool_decide (length routes = 0%nat) || covered routes (k_dst p))).
  set (inc := negb (bool_decide (length routes = 0%nat)) || _ || _). induction HH as [|h hs [Ha Hn] _ IH]; [by rewrite andb_false_r|]. cbn [flat_map existsb]. rewrite first_action_app, IH. clear IH.
  assert (first_action (if hijack_applies (String.eqb path (iptablesPath r)) routes h then map (dns_rule target h) (selector_options r path h) else []) p =
    if (k_proto p =? 17) && (negb (String.eqb (h_Network h) "tcp") && (netip.ap_port (h_Address h) =? k_dport p) && (IsUnspecified (netip.ap_addr (h_Address h)) || bool_decide (netip.ap_addr (h_Address h) = k_dst p))) && side && inc
    then Some (Terminate (Translated target)) else None) as ->.
  { pose proof (selectors_match p h Ha Hp) as HM. fold side in HM. fold inc in HM. destruct (hijack_applies _ _ h).
    - assert (forall l, (forall opts, opts ∈ l -> opts ∈ selector_options r path h) -> first_action (map (dns_rule target h) l) p =
        if existsb (fun opts => rule_match (pairs opts) p) l && ((k_proto p =? 17) && (netip.ap_port (h_Address h) =? k_dport p)) then Some (Terminate (Translated target)) else None) as HL.
      { induction l as [|opts l IHl]; intros Hl; [done|]. pose proof (selector_options_select r path h) as HS. rewrite Forall_forall in HS. specialize (HS opts (Hl opts ltac:(by left))).
        unfold first_action in *. cbn [map List.find existsb]. rewrite dns_rule_match by done. rewrite <- andb_assoc. destruct (rule_match (pairs opts) p), ((k_proto p =? 17) && (netip.ap_port (h_Address h) =? k_dport p)) eqn:E; cbn [andb orb].
        - cbn. rewrite dns_rule_action, dns_rule_to by (done || apply Hl; by left). done.
        - rewrite IHl by (intros; apply Hl; by right). by rewrite andb_false_r.
        - rewrite IHl by (intros; apply Hl; by right). done.
        - rewrite IHl by (intros; apply Hl; by right). done. }
      rewrite HL by done. rewrite HM. destruct (k_proto p =? 17), (netip.ap_port (h_Address h) =? k_dport p), (String.eqb (h_Network h) "tcp"), (IsUnspecified _ || _), side, inc; done.
    - destruct (k_proto p =? 17), (netip.ap_port (h_Address h) =? k_dport p), (String.eqb (h_Network h) "tcp"), (IsUnspecified _ || _), side, inc; done. }
  destruct (k_proto p =? 17), (negb (String.eqb (h_Network h) "tcp") && _ && _), (existsb _ hs), side, inc; done.
Qed.
Lemma first_action_one q p : first_action [q] p = if rule_match q p then Some (rule_action q) else None.
Proof. unfold first_action. cbn. by destruct (rule_match q p). Qed.
Lemma first_action_chain p : ipt_packet_ok p -> first_action (chain_rules os r path) p = ipt_decision p.
Proof.
  intros Hp. pose proof Hp as (Hd & _ & _). unfold chain_rules, ipt_decision. fold o. rewrite !first_action_app. change (first_action [] p) with (@None action). cbn [app first_of].
  assert (first_action (if AutoRoute o then [return_rule [("-m", "conntrack"); ("--ctstate", "DNAT")]%string] else []) p = if AutoRoute o && bool_decide ("DNAT"%string ∈ k_ctstate p) then Some Return else None) as ->.
  { destruct (AutoRoute o); [|done]. rewrite first_action_one. unfold rule_match. cbn. by rewrite !andb_true_r. }
  destruct (AutoRoute o && bool_decide _); [done|]. rewrite first_action_one. replace (rule_match (return_rule [("-i"%string, Name o)]) p) with (ifname_match (Name o) (k_iif p)) by (unfold rule_match; cbn; by rewrite andb_true_r).
  destruct (ifname_match (Name o) (k_iif p)); [done|]. rewrite (first_action_flat _ _ Return) by done.
  replace (existsb _ (routeExcludeAddress r path)) with (covered (routeExcludeAddress r path) (k_dst p)).
  2:{ rewrite <- covered_match by (done || apply Hw). apply existsb_ext, Forall_forall. intros q _. unfold rule_match. cbn. by rewrite andb_true_r. }
  destruct (covered (routeExcludeAddress r path) _); [done|]. rewrite (first_action_flat _ _ Return) by done.
  replace (existsb (fun x => rule_match (return_rule [("-i"%string, x)]) p) (ExcludeInterface o)) with (existsb (fun n => ifname_match n (k_iif p)) (ExcludeInterface o)).
  2:{ apply existsb_ext, Forall_forall. intros n _. unfold rule_match. cbn. by rewrite andb_true_r. }
  destruct (existsb _ (ExcludeInterface o)); [done|].
  assert (forall b : bool, first_action (if b then [local_rule] else []) p = if b && is_local p then Some Return else None) as HLoc.
  { intros [|]; [|done]. rewrite first_action_one. unfold rule_match, is_local. cbn. by rewrite !andb_true_r. }
  rewrite !HLoc. destruct (AutoRoute o && is_local p); [done|]. rewrite first_of_app. unfold dns_condition, hijack_list. fold o.
  assert (first_action (redirect_rules r path) p = if redirected p then Some (Terminate (Redirected (itoa (i_redirectPort r)))) else None) as HRed.
  { unfold redirect_rules, redirected, included_interface. fold o. fold routes. destruct (negb _); [|destruct (includes r)].
    - rewrite (first_action_flat _ _ (Terminate (Redirected (itoa (i_redirectPort r))))) by done. rewrite <- covered_match by (done || apply Hw). rewrite andb_comm, <- existsb_andb_r.
      erewrite existsb_ext; [reflexivity|]. apply Forall_forall. intros q _. unfold rule_match. cbn. by rewrite andb_true_r.
    - rewrite (first_action_flat _ _ (Terminate (Redirected (itoa (i_redirectPort r))))) by done. rewrite andb_comm, <- existsb_andb_r.
      erewrite existsb_ext; [reflexivity|]. apply Forall_forall. intros q _. unfold rule_match. cbn. by rewrite andb_true_r.
    - rewrite first_action_one, andb_true_r. unfold rule_match. cbn. by rewrite andb_true_r. }
  rewrite HRed. cbn [first_of].
  assert (first_action (if String.eqb (DNSModeOrDefault os o) DNSModeHijack then match hijack_target r (String.eqb path (iptablesPath r)) with Some (Some target) => dns_rules r path target | _ => [] end else []) p =
    first_of match hijack_target r (String.eqb path (iptablesPath r)) with Some (Some target) => [(String.eqb (DNSModeOrDefault os o) DNSModeHijack && dns_hijacked p, Terminate (Translated target))] | _ => [] end) as ->.
  { destruct (hijack_target r _) as [[target|]|], (String.eqb (DNSModeOrDefault os o) DNSModeHijack); try done. rewrite first_action_dns by done. done. }
  destruct (first_of _); [done|]. destruct (negb (AutoRoute o) && is_local p); [done|]. by destruct (redirected p).
Qed.
Lemma direct_chain : forallb direct (chain_rules os r path) = true.
Proof.
  unfold chain_rules, redirect_rules. rewrite !forallb_app. assert (forall (A : Type) (f : A -> ipt_rule) xs, (forall x, direct (f x) = true) -> forallb direct (flat_map (fun x => [f x]) xs) = true) as HF.
  { intros A f xs Hf. induction xs as [|x xs IH]; [done|]. cbn. by rewrite Hf, IH. }
  rewrite !HF by done. assert (forallb direct (hijack_list r path) = true) as HL.
  { unfold hijack_list, dns_rules. destruct (hijack_target r _) as [[target|]|]; [|done..]. induction (hijack_rules r) as [|h hs IH]; [done|]. cbn [flat_map]. rewrite forallb_app, IH, andb_true_r. destruct (hijack_applies _ _ h); [|done].
    pose proof (selector_options_select r path h) as HS. induction HS as [|opts l Ho _ IHl]; [done|]. cbn [map forallb]. rewrite IHl, andb_true_r. unfold direct. by rewrite dns_rule_action. }
  destruct (AutoRoute (i_tunOptions r)), (String.eqb _ _); cbn [negb]; rewrite ?HL; cbn; (destruct (bool_decide (length (routeAddress r path) = 0%nat)); cbn [negb]; [destruct (includes r); [by rewrite HF|done]|by rewrite HF]).
Qed.
End Decision.

(** ** Names *)

Fixpoint last_char (s : string) : option ascii := match s with EmptyString => None | String c EmptyString => Some c | String _ s' => last_char s' end.
Lemma last_char_append s t : t <> ""%string -> last_char (String.append s t) = last_char t.
Proof. intros Ht. induction s as [|c s IH]; [done|]. rewrite append_cons. cbn. rewrite IH. destruct (String.append s t) eqn:E; [|done]. exfalso. revert E. apply append_ne. by right. Qed.
Lemma not_listed s l : Forall (fun x => last_char x <> last_char s) l -> existsb (String.eqb s) l = false.
Proof. induction 1 as [|x l Hx _ IH]; [done|]. cbn. rewrite IH. by destruct (String.eqb_spec s x) as [->|]. Qed.

Section Names.
Context (os : GOOS) (r : ipt_redirect).
Lemma last_chars : last_char (tableNameOutput r) = Some "t"%char /\ last_char (tableNameInput r) = Some "t"%char /\ last_char (tableNameForward r) = Some "d"%char /\ last_char (tableNamePreRouteing r) = Some "g"%char.
Proof. unfold tableNameOutput, tableNameInput, tableNameForward, tableNamePreRouteing. by rewrite !last_char_append. Qed.
Lemma own_chain_names k : k ∈ hooks os r -> existsb (String.eqb (hk_chain k)) builtin_chains = false /\ existsb (String.eqb (hk_chain k)) targets = false.
Proof.
  intros Hk. destruct last_chars as (L1 & L2 & L3 & L4). assert (last_char (hk_chain k) ∈ [Some "t"; Some "d"; Some "g"]%char) as HL.
  { unfold hooks in Hk. destruct (bool_decide _); repeat (apply elem_of_cons in Hk as [->|Hk]; [cbn [hk_chain hook_output hook_input hook_forward hook_prerouting]; rewrite ?L1, ?L2, ?L3, ?L4; set_solver|]); by apply elem_of_nil in Hk. }
  split; apply not_listed; repeat constructor; intros E; rewrite <- E in HL; cbn in HL; set_solver.
Qed.
Lemma names_differ (t a b : string) : last_char a <> last_char b -> (t, a) <> (t, b).
Proof. intros Hab [= ->]. done. Qed.
Lemma hooks_separate : separate (hooks os r).
Proof.
  destruct last_chars as (L1 & L2 & L3 & L4). unfold separate, hooks. destruct (bool_decide _); cbn [flat_map app]; unfold own_key, hook_key; cbn [hk_table hk_hook hk_chain hook_output hook_input hook_forward hook_prerouting];
    repeat (apply NoDup_cons; split; [rewrite ?not_elem_of_cons; split_and?; first [apply not_elem_of_nil|apply names_differ; rewrite ?L1, ?L2, ?L3, ?L4; discriminate|discriminate]|]); constructor.
Qed.
End Names.
