(* ===== verification/IptablesSetup.v ===== *)
(** * Setting up and removing the iptables rules

    What is in the tables after [setupIPTables], whichever of its commands
    failed; and that [Close] puts the tables back. *)
From Stdlib Require Import String Ascii.
From S2P Require Import Prelude Bytes GoMem TsChecksum Netip TunOptions TunOptionsSpec TunRules Iptables RedirectIptables RedirectIptablesSpec IptablesDecision.
#[local] Open Scope ipt_scope.

(** The tables of a family before: the chains of the redirect are not there,
    and no rule jumps to them. *)
Definition chains_absent (os : GOOS) (r : ipt_redirect) (T0 : tables) : Prop :=
  forall k, k ∈ hooks os r -> T0 !! own_key k = None /\ is_Some (T0 !! hook_key k) /\ norefs T0 (hk_table k) (hk_chain k).

Lemma untouched_absent os r T0 k : chains_absent os r T0 -> k ∈ hooks os r -> untouched T0 k.
Proof. intros Ha Hk. destruct (Ha k Hk) as (?&?&?), (own_chain_names os r k Hk). by constructor. Qed.
Lemma separate_perm ks ks' : ks ≡ₚ ks' -> separate ks -> separate ks'.
Proof. unfold separate. intros HP. by rewrite (Permutation_flat_map _ HP). Qed.
Lemma shape_more k ks T0 T : shape ks T0 T -> untouched T0 k -> separate (k :: ks) -> shape (k :: ks) T0 T.
Proof.
  intros Hs Hu Hsep. eapply shape_step; [exact Hs| |exact Hsep]. apply before_after, before_refl. by eapply shape_own.
Qed.

(** ** A family *)

Section Family.
Context (os : GOOS) (r : ipt_redirect) (path : string) (Hw : words_ok r path) (T0 : tables) (Ha : chains_absent os r T0).

Lemma keeps_step k ks a : separate (k :: ks) -> untouched T0 k -> (forall T1, keeps path (before k T1) (after k T1) (after k T1) a) ->
  keeps path (shape ks T0) (shape (k :: ks) T0) (shape (k :: ks) T0) a.
Proof.
  intros Hsep Hu HK h h' ok T Hr HT Hs. destruct (HK T h h' ok T Hr HT) as (T' & H' & HA); [by eapply before_refl, shape_own|]. exists T'. split; [done|]. destruct ok; by eapply shape_step.
Qed.
Lemma hook_facts k : k ∈ hooks os r -> own_key k <> hook_key k /\ existsb (String.eqb (hk_chain k)) targets = false.
Proof.
  intros Hk. destruct (own_chain_names os r k Hk) as [Hb Ht]. split; [|done]. apply list_elem_of_In, in_split in Hk as (l1 & l2 & E). pose proof (hooks_separate os r) as HS. rewrite E in HS.
  apply (separate_perm _ (k :: l1 ++ l2)) in HS; [by apply separate_cons in HS as [? _]|by rewrite <- Permutation_middle].
Qed.

Section NotAndroid.
Context (Hos : os <> Android).
Lemma hooks_all : hooks os r = [hook_output r; hook_input r; hook_forward r; hook_prerouting r].
Proof. unfold hooks. by rewrite bool_decide_eq_false_2. Qed.
Lemma four_hooks : (forall k, k ∈ [hook_prerouting r; hook_forward r; hook_input r; hook_output r] -> k ∈ hooks os r) /\ separate [hook_prerouting r; hook_forward r; hook_input r; hook_output r] /\
  separate [hook_forward r; hook_input r; hook_output r] /\ separate [hook_input r; hook_output r] /\ separate [hook_output r].
Proof.
  assert (separate [hook_prerouting r; hook_forward r; hook_input r; hook_output r]) as S4 by (eapply separate_perm, (hooks_separate os r); rewrite hooks_all; apply Permutation_rev).
  pose proof S4 as (_ & S3 & _)%separate_cons. pose proof S3 as (_ & S2 & _)%separate_cons. pose proof S2 as (_ & S1 & _)%separate_cons. split_and!; try done. rewrite hooks_all. intros k. set_solver.
Qed.
Lemma keeps_three : keeps path (shape [] T0) (shape [hook_forward r; hook_input r; hook_output r] T0) (shape [hook_forward r; hook_input r; hook_output r] T0)
  (setup_output r path ;;& setup_filter r path "INPUT" (tableNameInput r) ;;& setup_filter r path "FORWARD" (tableNameForward r)).
Proof.
  destruct four_hooks as (Hin & S4 & S3 & S2 & S1). assert (forall k, k ∈ [hook_prerouting r; hook_forward r; hook_input r; hook_output r] -> untouched T0 k) as Hu by (intros k Hk; by eapply untouched_absent, Hin).
  assert (forall k, k ∈ [hook_prerouting r; hook_forward r; hook_input r; hook_output r] -> own_key k <> hook_key k /\ existsb (String.eqb (hk_chain k)) targets = false) as Hf by (intros k Hk; by apply hook_facts, Hin).
  destruct (words r path Hw) as (_ & _ & W3 & W4 & _).
  eapply keeps_seq; [eapply keeps_weaken; [apply (keeps_step (hook_output r) []); [done|apply Hu; set_solver|intros T1; apply keeps_output; [done|apply (Hf (hook_output r)); set_solver..]]|done|]|].
  { intros T HT. apply shape_more; [apply shape_more; [done|apply Hu; set_solver|done]|apply Hu; set_solver|done]. }
  eapply keeps_seq; [eapply keeps_weaken; [apply (keeps_step (hook_input r) [hook_output r]); [done|apply Hu; set_solver|intros T1; apply (keeps_filter r path Hw (hook_input r)); try done; [by left|apply (Hf (hook_input r)); set_solver..]]|done|]|].
  { intros T HT. apply shape_more; [done|apply Hu; set_solver|done]. }
  apply keeps_step; [done|apply Hu; set_solver|]. intros T1. apply (keeps_filter r path Hw (hook_forward r)); try done; [by right|apply (Hf (hook_forward r)); set_solver..].
Qed.
(** The scripts associate. *)
Lemma seq_assoc a b c h : ((a ;;& b) ;;& c) h = (a ;;& b ;;& c) h.
Proof. unfold s_seq. destruct (a h) as [h1 [|]]; done. Qed.
Lemma family_split h : setupIPTablesForFamily os r path h =
  ((setup_output r path ;;& setup_filter r path "INPUT" (tableNameInput r) ;;& setup_filter r path "FORWARD" (tableNameForward r)) ;;& setup_prerouting os r path) h.
Proof. unfold setupIPTablesForFamily. rewrite bool_decide_eq_false_2 by done. rewrite seq_assoc. unfold s_seq. destruct (setup_output r path h) as [h1 [|]]; [|done]. destruct (setup_filter _ _ _ _ h1) as [h2 [|]]; done. Qed.
Lemma finishes_prerouting : exists a, setup_prerouting os r path = (runShell r [path; "-t nat -N"%string; tableNamePreRouteing r] ;;& a) /\ finishes r path a (chain_rules os r path).
Proof. destruct (hook_facts (hook_prerouting r)) as [Hk Ht]; [apply four_hooks; set_solver|]. by apply finishes_chain. Qed.
Lemma new_prerouting_words : flat_map split_words ["-t nat -N"%string; tableNamePreRouteing r] = ["-t"; "nat"; "-N"; tableNamePreRouteing r]%string /\ Forall nonempty ["-t"; "nat"; "-N"; tableNamePreRouteing r]%string.
Proof. destruct (words r path Hw) as (_ & _ & _ & _ & W5 & _). split; [spell|spell_ne]. Qed.
Lemma keeps_all : keeps path (shape [] T0) (shape (hooks os r) T0) (shape (hooks os r) T0) (setupIPTablesForFamily os r path).
Proof.
  destruct four_hooks as (Hin & S4 & S3 & _). destruct (hook_facts (hook_prerouting r)) as [Hk Ht]; [apply Hin; set_solver|]. assert (untouched T0 (hook_prerouting r)) as Hu by (eapply untouched_absent; [done|apply Hin; set_solver]).
  intros h h' ok T Hr. rewrite family_split in Hr. revert h h' ok T Hr. change (keeps path (shape [] T0) (shape (hooks os r) T0) (shape (hooks os r) T0) ((setup_output r path ;;& setup_filter r path "INPUT" (tableNameInput r) ;;& setup_filter r path "FORWARD" (tableNameForward r)) ;;& setup_prerouting os r path)).
  assert (forall T, shape [hook_prerouting r; hook_forward r; hook_input r; hook_output r] T0 T -> shape (hooks os r) T0 T) as HM by (intros T; apply shape_mono; rewrite hooks_all; set_solver).
  eapply keeps_seq; [eapply keeps_weaken; [apply keeps_three|done|]; intros T HT; by apply HM, shape_more|]. eapply keeps_weaken; [apply (keeps_step (hook_prerouting r)); [exact S4|done|]|exact HM|exact HM].
  intros T1. destruct finishes_prerouting as (a & -> & [HK _]). destruct new_prerouting_words. eapply keeps_seq; [|apply HK]. eapply (keeps_new r path Hw (hook_prerouting r)); [done|done|done|reflexivity].
Qed.
(** After a success the chain has its rules and PREROUTING jumps to it. *)
Lemma family_success h h' H : setupIPTablesForFamily os r path h = (h', true) -> h_tables h !! path = Some T0 -> T0 !! hook_key (hook_prerouting r) = Some H ->
  exists T', h_tables h' = <[path := T']> (h_tables h) /\ T' !! own_key (hook_prerouting r) = Some (chain_rules os r path) /\ T' !! hook_key (hook_prerouting r) = Some (hook_rules r H).
Proof.
  intros Hr HT HH. destruct four_hooks as (Hin & S4 & _). destruct (hook_facts (hook_prerouting r)) as [Hk Ht]; [apply Hin; set_solver|]. assert (untouched T0 (hook_prerouting r)) as Hu by (eapply untouched_absent; [done|apply Hin; set_solver]).
  rewrite family_split in Hr. unfold s_seq at 1 in Hr. match type of Hr with (let '(_, _) := ?x in _) = _ => destruct x as [h1 ok1] eqn:E1 end. destruct (keeps_three h h1 ok1 T0 E1 HT (shape_refl T0)) as (T1 & H1 & Hs). destruct ok1; [|discriminate Hr].
  pose proof (shape_own _ _ _ _ Hs Hu S4) as Hn. apply separate_cons in S4 as (_ & _ & Hd). assert (T1 !! hook_key (hook_prerouting r) = Some H) as HH1.
  { rewrite (proj2 Hs); [done|]. intros k' Hin'. destruct (Hd k' Hin') as (?&?&?&?). by split; apply not_eq_sym. }
  destruct finishes_prerouting as (a & E & [_ HF]). rewrite E in Hr. unfold s_seq in Hr. destruct (runShell r _ h1) as [h2 ok2] eqn:E2. destruct ok2; [|discriminate Hr]. destruct new_prerouting_words as [Hs1 Hs2].
  destruct (runShell_effect r path _ _ (wo_path _ _ Hw) Hs1 Hs2 h1 h2 true T1 E2) as (T2 & HC & H2); [by rewrite H1, lookup_insert_eq|].
  change (iptables T1 _) with (ipt_command T1 "nat" "-N" (tableNamePreRouteing r) []) in HC. unfold ipt_command in HC. cbn [String.eqb Ascii.eqb Bool.eqb] in HC. change ("nat"%string, tableNamePreRouteing r) with (own_key (hook_prerouting r)) in HC.
  rewrite Hn in HC. injection HC as <-. rewrite (HF h2 h' (<[own_key (hook_prerouting r) := []]> T1) [] H Hr); [|by rewrite H2, lookup_insert_eq|by rewrite lookup_insert_eq|by rewrite lookup_insert_ne].
  eexists. split; [by rewrite H2, H1, !insert_insert_eq|]. split; [by rewrite lookup_insert_ne, lookup_insert_eq by (by apply not_eq_sym)|by rewrite lookup_insert_eq].
Qed.
End NotAndroid.

Lemma keeps_family : keeps path (shape [] T0) (shape (hooks os r) T0) (shape (hooks os r) T0) (setupIPTablesForFamily os r path).
Proof.
  destruct (decide (os = Android)) as [E|E]; [|by apply keeps_all]. assert (hooks os r = [hook_output r]) as Eh by (unfold hooks; by rewrite bool_decide_eq_true_2). unfold setupIPTablesForFamily. rewrite bool_decide_eq_true_2 by done.
  assert (hook_output r ∈ hooks os r) as Hin by (rewrite Eh; by left). destruct (hook_facts (hook_output r) Hin). eapply keeps_seq; [|apply keeps_ok]. rewrite Eh. apply keeps_step; [rewrite <- Eh; apply hooks_separate|by eapply untouched_absent|].
  intros T1. by apply keeps_output.
Qed.
End Family.

(** ** Cleanup *)

Section Cleanup.
Context (os : GOOS) (r : ipt_redirect) (path : string) (Hp : word path).

(** A command of the cleanup. *)
Definition runs_as (ws : list string) (table op c : string) (opts : list string) : Prop :=
  exists args, flat_map split_words ws = args /\ Forall nonempty args /\ forall T, iptables T args = ipt_command T table op c opts.
Lemma runs_quiet ws table op c opts H T : runs_as ws table op c opts -> H !! path = Some T ->
  s_ignore (runShell r (path :: ws)) (mkHost H []) = (mkHost (<[path := default T (ipt_command T table op c opts)]> H) [], true).
Proof.
  intros (args & Hs & Hn & HI) HT. unfold s_ignore. rewrite (runShell_quiet r path ws args H T) by done. rewrite HI. destruct (ipt_command _ _ _ _ _); cbn; [done|]. by rewrite insert_id.
Qed.
Lemma runs_nothing ws table op c opts h T : runs_as ws table op c opts -> h_tables h !! path = Some T -> ipt_command T table op c opts = None ->
  exists h', s_ignore (runShell r (path :: ws)) h = (h', true) /\ h_tables h' = h_tables h.
Proof.
  intros (args & Hs & Hn & HI) HT HC. unfold s_ignore. destruct (runShell r (path :: ws) h) as [h' ok] eqn:E. exists h'. split; [done|]. pose proof (runShell_effect r path ws args Hp Hs Hn h h' ok T E HT) as He. destruct ok; [|done].
  destruct He as (T' & HF & _). rewrite HI in HF. congruence.
Qed.

(** The option of a table, and the hooks. *)
Definition cleans (tt : string) (k : hook) : Prop :=
  ((tt, hk_table k) = ("-t nat ", "nat") \/ (tt, hk_table k) = ("", "filter"))%string /\ hk_hook k ∈ ["OUTPUT"; "INPUT"; "FORWARD"; "PREROUTING"]%string /\ word (hk_chain k).
Lemma cleanup_runs tt k : cleans tt k ->
  runs_as [String.append tt (String.append "-D " (String.append (hk_hook k) " -j")); hk_chain k]%string (hk_table k) "-D" (hk_hook k) ["-j"%string; hk_chain k] /\
  runs_as [String.append tt "-F"; hk_chain k] (hk_table k) "-F" (hk_chain k) [] /\ runs_as [String.append tt "-X"; hk_chain k] (hk_table k) "-X" (hk_chain k) [].
Proof.
  destruct k as [table hook c]. intros (Ht & Hh & Hc). cbn [hk_table hk_hook hk_chain] in *. rewrite !elem_of_cons, elem_of_nil in Hh.
  destruct Ht as [[= -> ->]|[= -> ->]], Hh as [-> |[-> |[-> |[-> |[]]]]]; split_and!; (eexists; split; [spell|split; [spell_ne|reflexivity]]).
Qed.
Lemma cleanup_quiet tt k H T : cleans tt k -> H !! path = Some T -> cleanup_chain r path tt (hk_hook k) (hk_chain k) (mkHost H []) = (mkHost (<[path := clean k T]> H) [], true).
Proof.
  intros Hk HT. destruct (cleanup_runs tt k Hk) as (R1 & R2 & R3). unfold cleanup_chain, s_seq. erewrite runs_quiet by (try exact R1; done). erewrite runs_quiet by (try exact R2; apply lookup_insert_eq).
  erewrite runs_quiet by (try exact R3; apply lookup_insert_eq). by rewrite !insert_insert_eq.
Qed.
(** Where there is nothing to remove, nothing happens, whatever fails. *)
Lemma cleanup_nothing tt k h T : cleans tt k -> h_tables h !! path = Some T -> untouched T k -> exists h', cleanup_chain r path tt (hk_hook k) (hk_chain k) h = (h', true) /\ h_tables h' = h_tables h.
Proof.
  intros Hk HT [Hn [R HR] Hrefs _ _]. destruct (cleanup_runs tt k Hk) as (R1 & R2 & R3). unfold cleanup_chain, s_seq.
  destruct (runs_nothing _ _ _ _ _ h T R1 HT) as (h1 & -> & H1).
  { unfold ipt_command. cbn [String.eqb Ascii.eqb Bool.eqb]. fold (hook_key k). rewrite HR. cbn [mbind option_bind]. assert (parse_rule ["-j"%string; hk_chain k] = Some (jump (hk_chain k))) as -> by done. cbn [mbind option_bind].
    rewrite remove_first_none; [done|]. apply norefs_not_jump. exact (Hrefs _ _ HR). }
  destruct (runs_nothing _ _ _ _ _ h1 T R2) as (h2 & -> & H2); [by rewrite H1|unfold ipt_command; cbn [String.eqb Ascii.eqb Bool.eqb]; fold (own_key k); by rewrite Hn|].
  destruct (runs_nothing _ _ _ _ _ h2 T R3) as (h3 & -> & H3); [by rewrite H2, H1|unfold ipt_command; cbn [String.eqb Ascii.eqb Bool.eqb]; fold (own_key k); by rewrite Hn|].
  exists h3. split; [done|]. by rewrite H3, H2, H1.
Qed.
End Cleanup.

Section CleanupFamily.
Context (os : GOOS) (r : ipt_redirect) (path : string) (Hp : word path) (Ht : no_space (tableName r) = true) (T0 : tables) (Ha : chains_absent os r T0).

(** The cleanup runs over the hooks. *)
Definition table_option (k : hook) : string := if String.eqb (hk_table k) "nat" then "-t nat "%string else ""%string.
Lemma cleanup_for h : cleanupIPTablesForFamily os r path h = s_for (hooks os r) (fun k => cleanup_chain r path (table_option k) (hk_hook k) (hk_chain k)) h.
Proof.
  unfold cleanupIPTablesForFamily, hooks. destruct (bool_decide (os = Android)); [done|]. cbn [s_for]. unfold table_option. cbn [hook_output hook_input hook_forward hook_prerouting hk_table hk_hook hk_chain String.eqb Ascii.eqb Bool.eqb].
  unfold s_seq. repeat match goal with |- context [cleanup_chain r path ?t ?k ?c ?h] => destruct (cleanup_chain r path t k c h) as [? [|]]; [|done] end. done.
Qed.
Lemma hooks_clean k : k ∈ hooks os r -> cleans (table_option k) k.
Proof.
  assert (forall s, no_space s = true -> s <> ""%string -> word (String.append (tableName r) s)) as HW by (intros s ??; apply word_app; [done|by split]).
  unfold hooks. intros Hk. destruct (bool_decide _); rewrite !elem_of_cons, elem_of_nil in Hk; destruct_or? Hk; subst; try done; (split_and!; [cbn; auto|cbn; set_solver|by apply HW]).
Qed.
Lemma cleanup_family H T : H !! path = Some T -> shape (hooks os r) T0 T -> cleanupIPTablesForFamily os r path (mkHost H []) = (mkHost (<[path := T0]> H) [], true).
Proof.
  intros HT Hs. rewrite cleanup_for. pose proof (hooks_separate os r) as Hsep. assert (forall k, k ∈ hooks os r -> untouched T0 k) as Hu by (intros k; by apply untouched_absent). pose proof hooks_clean as Hc.
  revert H T HT Hs Hsep Hu Hc. generalize (hooks os r). intros ks. induction ks as [|k ks IH]; intros H T HT Hs Hsep Hu Hc; cbn [s_for].
  - apply shape_nil in Hs as ->. by rewrite insert_id.
  - unfold s_seq. rewrite (cleanup_quiet r path Hp _ k H T) by (done || apply Hc; by left). rewrite (IH _ (clean k T)); [by rewrite insert_insert_eq|apply lookup_insert_eq|by apply clean_shape|by apply separate_cons in Hsep as (_ & ? & _)|..]; intros; [apply Hu|apply Hc]; by right.
Qed.
Lemma cleanup_family_nothing h : h_tables h !! path = Some T0 -> exists h', cleanupIPTablesForFamily os r path h = (h', true) /\ h_tables h' = h_tables h.
Proof.
  intros HT. rewrite cleanup_for. assert (forall k, k ∈ hooks os r -> untouched T0 k) as Hu by (intros k; by apply untouched_absent). pose proof hooks_clean as Hc. revert h HT Hu Hc. generalize (hooks os r). intros ks.
  induction ks as [|k ks IH]; intros h HT Hu Hc; cbn [s_for]; [by exists h|]. unfold s_seq. destruct (cleanup_nothing r path Hp _ k h T0 (Hc k ltac:(by left)) HT (Hu k ltac:(by left))) as (h1 & -> & H1).
  destruct (IH h1) as (h2 & -> & H2); [by rewrite H1|intros; apply Hu; by right|intros; apply Hc; by right|]. exists h2. split; [done|]. by rewrite H2, H1.
Qed.
End CleanupFamily.

(** ** Both families *)

Section Both.
Context (os : GOOS) (r : ipt_redirect) (H : gmap string tables).

Definition family_ready (path : string) : Prop := words_ok r path /\ exists T0, H !! path = Some T0 /\ chains_absent os r T0.
(** The families that are enabled have their tables, without the chains. *)
Record redirect_ready : Prop := {
  rr_v4 : i_enableIPv4 r = true -> family_ready (iptablesPath r);
  rr_v6 : i_enableIPv6 r = true -> family_ready (ip6tablesPath r);
  rr_paths : iptablesPath r <> ip6tablesPath r
}.
(** The tables of [path] are on their way, the others those of [X]. *)
Definition touched (b : bool) (path : string) (X Y : gmap string tables) : Prop :=
  if b then exists T0 T, H !! path = Some T0 /\ chains_absent os r T0 /\ shape (hooks os r) T0 T /\ Y = <[path := T]> X else Y = X.
Lemma shape_untouched T0 : shape (hooks os r) T0 T0 <-> chains_absent os r T0 \/ shape (hooks os r) T0 T0.
Proof. split; [by right|]. intros [Ha|?]; [|done]. split; [|done]. intros k Hk. destruct (Ha k Hk) as (? & _). left. split; [done|by left]. Qed.
Lemma touched_refl b path X : (b = true -> family_ready path) -> X !! path = H !! path -> touched b path X X.
Proof.
  intros Hf HX. destruct b; [|done]. destruct (Hf eq_refl) as (_ & T0 & HT & Ha). exists T0, T0. split_and!; [done|done|apply shape_untouched; by left|]. by rewrite insert_id by congruence.
Qed.
Lemma setup_touches b path h h' ok : (b = true -> family_ready path) -> h_tables h !! path = H !! path -> s_when b (setupIPTablesForFamily os r path) h = (h', ok) -> touched b path (h_tables h) (h_tables h').
Proof.
  intros Hf HX Hr. destruct b; [|by injection Hr as <- <-]. destruct (Hf eq_refl) as (Hw & T0 & HT & Ha). rewrite HT in HX. destruct (keeps_family os r path Hw T0 Ha h h' ok T0 Hr HX (shape_refl T0)) as (T' & H' & Hs).
  exists T0, T'. split_and!; try done. by destruct ok.
Qed.
Lemma cleanup_restores b path X Y : (b = true -> family_ready path) -> X !! path = H !! path -> touched b path X Y -> s_when b (cleanupIPTablesForFamily os r path) (mkHost Y []) = (mkHost X [], true).
Proof.
  intros Hf HX Ht. destruct b; [|by rewrite Ht]. destruct (Hf eq_refl) as (Hw & _). destruct Ht as (T0 & T & HT & Ha & Hs & ->). cbn [s_when].
  rewrite (cleanup_family os r path (wo_path _ _ Hw) (wo_table _ _ Hw) T0 Ha _ T) by (done || apply lookup_insert_eq). by rewrite insert_insert_eq, insert_id by congruence.
Qed.
Lemma cleanup_idle b path h : (b = true -> family_ready path) -> h_tables h !! path = H !! path -> exists h', s_when b (cleanupIPTablesForFamily os r path) h = (h', true) /\ h_tables h' = h_tables h.
Proof.
  intros Hf HX. destruct b; [|by exists h]. destruct (Hf eq_refl) as (Hw & T0 & HT & Ha). apply (cleanup_family_nothing os r path (wo_path _ _ Hw) (wo_table _ _ Hw) T0 Ha). congruence.
Qed.
Lemma touched_elsewhere b path X Y q : touched b path X Y -> q <> path -> Y !! q = X !! q.
Proof. intros Ht Hq. destruct b; [|by rewrite Ht]. destruct Ht as (T0 & T & _ & _ & _ & ->). by rewrite lookup_insert_ne. Qed.

Context (Hr : redirect_ready).
Lemma setup_touches_both h : h_tables h = H ->
  exists X, touched (i_enableIPv4 r) (iptablesPath r) H X /\ touched (i_enableIPv6 r) (ip6tablesPath r) X (h_tables (setupIPTables os r h).1).
Proof.
  destruct Hr as [H4 H6 Hne]. intros HH. unfold setupIPTables, s_seq. destruct (s_when (i_enableIPv4 r) _ h) as [h1 ok1] eqn:E1. pose proof (setup_touches _ _ _ _ _ H4 ltac:(by rewrite HH) E1) as Ht1. rewrite HH in Ht1. exists (h_tables h1). split; [done|].
  assert (h_tables h1 !! ip6tablesPath r = H !! ip6tablesPath r) as H1 by (eapply touched_elsewhere; [exact Ht1|by apply not_eq_sym]). destruct ok1; [|by apply touched_refl].
  destruct (s_when (i_enableIPv6 r) _ h1) as [h2 ok2] eqn:E2. by eapply setup_touches.
Qed.
Lemma touched_comm X Y : touched (i_enableIPv4 r) (iptablesPath r) H X -> touched (i_enableIPv6 r) (ip6tablesPath r) X Y ->
  exists X', touched (i_enableIPv6 r) (ip6tablesPath r) H X' /\ touched (i_enableIPv4 r) (iptablesPath r) X' Y.
Proof.
  destruct Hr as [_ _ Hne]. unfold touched. intros H4 H6. destruct (i_enableIPv4 r), (i_enableIPv6 r).
  - destruct H4 as (T0 & T & A & B & C & ->), H6 as (T0' & T' & A' & B' & C' & ->). eexists. split; [by exists T0', T'|]. exists T0, T. split_and!; try done. by apply insert_insert_ne, not_eq_sym.
  - subst Y. exists H. split; [done|exact H4].
  - destruct H6 as (T0' & T' & A' & B' & C' & ->). subst X. eexists. split; [by exists T0', T'|done].
  - subst. by exists H.
Qed.
Lemma cleanup_after_setup h : h_tables h = H -> (cleanupIPTables os r (mkHost (h_tables (setupIPTables os r h).1) [])) = (mkHost H [], true).
Proof.
  intros HH. destruct (setup_touches_both h HH) as (X & H4 & H6). destruct (touched_comm _ _ H4 H6) as (X' & H6' & H4'). destruct Hr as [R4 R6 Hne]. unfold cleanupIPTables, s_seq.
  rewrite (cleanup_restores _ _ X' _ R4) by first [done | by rewrite (touched_elsewhere _ _ _ _ _ H6')]. by apply cleanup_restores.
Qed.
Lemma cleanup_none : cleanupIPTables os r (mkHost H []) = (mkHost H [], true).
Proof.
  destruct Hr as [R4 R6 Hne]. unfold cleanupIPTables, s_seq. rewrite (cleanup_restores _ _ H _ R4) by (done || by apply touched_refl). apply cleanup_restores; [done..|by apply touched_refl].
Qed.
Lemma cleanup_idle_both h : h_tables h = H -> exists h', cleanupIPTables os r h = (h', true) /\ h_tables h' = H.
Proof.
  destruct Hr as [R4 R6 Hne]. intros HH. unfold cleanupIPTables, s_seq. destruct (cleanup_idle _ _ h R4) as (h1 & -> & H1); [by rewrite HH|]. destruct (cleanup_idle _ _ h1 R6) as (h2 & -> & H2); [by rewrite H1, HH|]. exists h2. split; [done|]. congruence.
Qed.
End Both.

Lemma ready_with_port os r H port : redirect_ready os r H -> redirect_ready os (with_port r port) H.
Proof.
  intros [H4 H6 Hp]. assert (forall path, family_ready os r H path -> family_ready os (with_port r port) H path) as HF by (intros path ([] & HT); split; [by constructor|exact HT]). split; auto.
Qed.

(** ** A sample *)

Definition sample_ipt : ipt_redirect :=
  mkIptRedirect
    (mkOptions "tun0" [netip.PrefixFrom (netip.Addr4 [172; 19; 0; 1]) 30] [netip.PrefixFrom (netip.Addr6 ([253] ++ repeat 0 14 ++ [1])) 126] true netip.AddrInvalid netip.AddrInvalid "" [] None 2022 9000 32768 false 0 0 false
      [] [] false [netip.PrefixFrom (netip.Addr4 [10; 0; 0; 0]) 8] [] [netip.PrefixFrom (netip.Addr4 [10; 9; 0; 0]) 16] [] [] ["docker0"%string] [] [] [] [] [] [] [] [] [] 0)
    "sing" true true "iptables" "ip6tables" false 1080.
(** The tables of a machine with a rule of its own. *)
Definition sample_tables : tables :=
  {[ ("nat", "OUTPUT") := []; ("nat", "PREROUTING") := [[("-p", "udp"); ("-j", "ACCEPT")]]; ("filter", "INPUT") := []; ("filter", "FORWARD") := [[("-i", "eth0"); ("-j", "ACCEPT")]] ]}%string.
Definition sample_host : gmap string tables := {[ "iptables"%string := sample_tables; "ip6tables"%string := sample_tables ]}.
Definition norefs_check (T : tables) (table c : string) : bool := bool_decide (map_Forall (fun (key : string * string) R => key.1 = table -> Forall (fun r => jumps_to c r = false) R) T).
Lemma norefs_checked T table c : norefs_check T table c = true -> norefs T table c.
Proof. intros HC%bool_decide_eq_true x R HR. exact (HC _ _ HR eq_refl). Qed.
Lemma sample_words path : path = "iptables"%string \/ path = "ip6tables"%string -> words_ok sample_ipt path.
Proof.
  intros Hp. assert (forall b : list Z, bool_decide (bytes b /\ length b = 4%nat) = true -> valid_addr (netip.Addr4 b)) as H4 by (intros b Hb%bool_decide_eq_true; by split).
  assert (forall b : list Z, bool_decide (bytes b /\ length b = 16%nat) = true -> valid_addr (netip.Addr6 b)) as H6 by (intros b Hb%bool_decide_eq_true; by split).
  constructor; try (by destruct Hp as [-> | ->]); cbn [sample_ipt i_tunOptions IncludeInterface ExcludeInterface].
  - by repeat constructor.
  - destruct Hp as [-> | ->]; repeat constructor; try done; apply H4; vm_compute; reflexivity.
  - destruct Hp as [-> | ->]; repeat constructor; try done; apply H4; vm_compute; reflexivity.
  - assert (forall servers, @inr dns_error _ [netip.Addr4 [172; 19; 0; 2]] = inr servers \/ @inr dns_error _ [netip.Addr6 ([253] ++ repeat 0 14 ++ [2])] = inr servers -> Forall valid_addr servers) as HS.
    { intros servers [[= <-]|[= <-]]; (constructor; [|constructor]); [apply H4|apply H6]; vm_compute; reflexivity. }
    intros servers Hs. apply HS. revert Hs. vm_compute. done.
  - repeat constructor; done.
Qed.
Lemma sample_absent : chains_absent Linux sample_ipt sample_tables.
Proof.
  intros k Hk. assert (k ∈ [hook_output sample_ipt; hook_input sample_ipt; hook_forward sample_ipt; hook_prerouting sample_ipt]) as Hk' by exact Hk. rewrite !elem_of_cons, elem_of_nil in Hk'.
  destruct_or? Hk'; subst; try done; (split_and!; [vm_compute; reflexivity|apply (bool_decide_unpack _); vm_compute; exact I|apply norefs_checked; vm_compute; reflexivity]).
Qed.
Lemma sample_lookup path : path = "iptables"%string \/ path = "ip6tables"%string -> sample_host !! path = Some sample_tables.
Proof. intros [-> | ->]; unfold sample_host; [by rewrite lookup_insert_eq|by rewrite lookup_insert_ne, lookup_singleton_eq]. Qed.
Lemma sample_ready : redirect_ready Linux sample_ipt sample_host.
Proof. split; [intros _..|done]; (split; [apply sample_words|exists sample_tables; split; [apply sample_lookup|apply sample_absent]]); cbn [sample_ipt iptablesPath ip6tablesPath]; by auto. Qed.

(** C20: auto-redirect with iptables puts the system back as it was.  [Start]
    runs its commands until one of them fails; whichever commands fail, and
    for whatever reason ([fs]), [Close] then removes the jump and the chain of
    every hook of both families that was reached, and the tables of every
    program are exactly those of before, with the rules of others untouched. *)
Theorem Close_restores (os : GOOS) (r : ipt_redirect) (custom : Z) (listen : netip.Addr -> option Z) (H : gmap string tables) (fs : list bool) : redirect_ready os r H ->
  Close os r (mkHost (h_tables (Start os r custom listen (mkHost H fs)).1) []) = (mkHost H [], true).
Proof.
  intros Hr. unfold Start. destruct (if custom =? 0 then _ else _) as [e|port]; [by apply cleanup_none|]. unfold s_seq. pose proof (ready_with_port os r H port Hr) as Hr'.
  destruct (cleanup_idle_both _ _ H Hr' (mkHost H fs) eq_refl) as (h1 & -> & H1). pose proof (cleanup_after_setup _ _ H Hr' h1 H1) as HC. destruct (setupIPTables os (with_port r port) h1) as [h2 ok]. exact HC.
Qed.

Lemma Close_restores_witness :
  Close Linux sample_ipt (mkHost (h_tables (Start Linux sample_ipt 1080 (fun _ => None) (mkHost sample_host (repeat false 30 ++ [true]))).1) []) = (mkHost sample_host [], true) /\
  h_tables (Start Linux sample_ipt 1080 (fun _ => None) (mkHost sample_host (repeat false 30 ++ [true]))).1 <> sample_host.
Proof. split; [apply (Close_restores Linux sample_ipt 1080), sample_ready|]. apply (bool_decide_unpack _). vm_compute. exact I. Defined.

(** C19: what auto-redirect does to a packet that enters the machine.  When
    [setupIPTables] succeeds, for a family that is enabled (on Linux), the
    rules of PREROUTING are those of before with the jump to the chain of the
    redirect (last with auto route, first without), and that chain gives every
    packet of the family the verdict of [ipt_decision]: traffic already
    translated, from the tun device, to an excluded address, from an excluded
    interface or to the machine itself is left alone, a hijacked DNS query goes
    to the DNS server of the tun, TCP to a routed address (or from an included
    interface, or any) to the redirect port, and the rest is left alone.  The
    mark of the packet stays. *)
Theorem setupIPTables_decides `{Addresses : IptablesAddresses} (xmark : string -> Z -> Z) (os : GOOS) (r : ipt_redirect) (H : gmap string tables) (h h' : host) (path : string) (T0 : tables) (rules : list ipt_rule) :
  os <> Android -> redirect_ready os r H -> h_tables h = H -> setupIPTables os r h = (h', true) ->
  (path = iptablesPath r /\ i_enableIPv4 r = true \/ path = ip6tablesPath r /\ i_enableIPv6 r = true) -> H !! path = Some T0 -> T0 !! ("nat", "PREROUTING")%string = Some rules ->
  exists T : tables, h_tables h' !! path = Some T /\ T !! ("nat", "PREROUTING")%string = Some (hook_rules r rules) /\
    forall depth p m, ipt_packet_ok r path p -> run_chain xmark (S depth) T "nat" (tableNamePreRouteing r) p m = (m, verdict_of (ipt_decision os r path p)).
Proof.
  intros Hos [R4 R6 Hne] HH Hr Hpath HT Hrules. set (family := setupIPTablesForFamily os r) in *.
  assert (exists hb ha, family path hb = (ha, true) /\ h_tables hb !! path = H !! path /\ h_tables h' !! path = h_tables ha !! path /\ family_ready os r H path) as (hb & ha & Hf & Hb & Hl & Hw & T1 & HT1 & Ha).
  { unfold setupIPTables, s_seq in Hr. fold family in Hr. destruct (s_when (i_enableIPv4 r) _ h) as [h1 ok1] eqn:E1. destruct ok1; [|discriminate Hr]. pose proof (setup_touches os r H _ _ _ _ _ R4 ltac:(by rewrite HH) E1) as Ht1.
    assert (h_tables h1 !! ip6tablesPath r = H !! ip6tablesPath r) as H1 by (rewrite <- HH; eapply touched_elsewhere; [exact Ht1|by apply not_eq_sym]). pose proof (setup_touches os r H _ _ _ _ _ R6 H1 Hr) as Ht2.
    destruct Hpath as [[-> Hen]|[-> Hen]]; rewrite Hen in *; [exists h, h1|exists h1, h'].
    - split_and!; [done|by rewrite HH|by eapply touched_elsewhere|by auto].
    - split_and!; [done|done|done|by auto]. }
  assert (T1 = T0) as -> by congruence. destruct (family_success os r path Hw T0 Ha Hos hb ha rules Hf ltac:(congruence) Hrules) as (T & HTa & Hown & Hhook). exists T. rewrite Hl, HTa, lookup_insert_eq. split_and!; [done|done|].
  intros depth p m Hp. cbn [run_chain]. change ("nat"%string, tableNamePreRouteing r) with (own_key (hook_prerouting r)). rewrite Hown. cbn [default from_option]. unfold id. rewrite run_rules_first by apply direct_chain. by rewrite first_action_chain.
Qed.
Lemma setupIPTables_decides_witness : exists T : tables,
  h_tables (setupIPTables Linux sample_ipt (mkHost sample_host [])).1 !! "iptables"%string = Some T /\
  run_chain (fun _ m => m) 1 T "nat" "sing-prerouting" (mkPacket 6 "eth0" "" (netip.Addr4 [10; 1; 2; 3]) 443 [] "" "UNICAST") 0 = (0, Some (Redirected "1080")).
Proof.
  destruct (setupIPTables_decides (fun _ m => m) Linux sample_ipt sample_host (mkHost sample_host []) (setupIPTables Linux sample_ipt (mkHost sample_host [])).1 "iptables" sample_tables [[("-p", "udp"); ("-j", "ACCEPT")]%string])
    as (T & HT & _ & HD); [done|apply sample_ready|reflexivity| |by left|apply sample_lookup; by left|unfold sample_tables; by rewrite lookup_insert_ne, lookup_insert_eq|].
  { rewrite (surjective_pairing (setupIPTables Linux sample_ipt (mkHost sample_host []))) at 1. apply (f_equal (pair _)). vm_compute. reflexivity. }
  exists T. split; [exact HT|]. etransitivity; [apply (HD 0%nat)|vm_compute; reflexivity]. split_and!; [split; [|done]; split; [repeat constructor; lia|done]|reflexivity|cbn; lia..].
Defined.
