(* ===== verification/DnatIptables.v ===== *)
(** * route_dnat_linux.go without nftables

    The bypass of translated connections: its mark validation in /proc, the
    iptables chain, the output chain of route_ipvs_output_linux.go, Start and
    Close; what the chain marks, and what a Close without an error means. *)
From Stdlib Require Import String Ascii.
From S2P Require Import Prelude Bytes GoMem TsChecksum Netip TunOptions TunOptionsSpec TunRules RouteMark Ipvs IpvsParse Iptables RedirectIptables RedirectIptablesSpec IptablesDecision IptablesSetup.
#[local] Open Scope string_scope.
#[local] Open Scope ipt_scope.

(** ** src_valid_mark *)

(** os.ReadFile *)
Inductive read_result := NotExist | ReadError | Content (s : string).
Definition spaces : string := String "009" (String "010" (String "011" (String "012" (String "013" " ")))).
Definition trim_space (s : string) : string := Trim s spaces.
Definition Atoi (s : string) : option Z :=
  match s with
  | String c s' => if Ascii.eqb c "-" then option_map Z.opp (unsigned s') else if Ascii.eqb c "+" then unsigned s' else unsigned s
  | EmptyString => None
  end.
Inductive proc_error := ENotExist | EOther.
Definition readRPFilter (content : read_result) : proc_error + Z :=
  match content with
  | NotExist => inl ENotExist
  | ReadError => inl EOther
  | Content s => match Atoi (trim_space s) with Some v => if (v <? 0)%Z || (2 <? v)%Z then inl EOther else inr v | None => inl EOther end
  end.
(** The files of net.ipv4.conf: rp_filter of "all"; the entries with their name,
    whether they are directories and their rp_filter; src_valid_mark. *)
Record conf := mkConf { all_rp_filter : read_result; entries : option (list (string * bool * read_result)); src_valid_mark : read_result; write_ok : bool }.
Fixpoint strict_entries (allValue : Z) (es : list (string * bool * read_result)) : proc_error + bool :=
  match es with
  | [] => inr false
  | (name, isDir, content) :: es' =>
      if negb isDir || String.eqb name "all" then strict_entries allValue es'
      else match readRPFilter content with
           | inl ENotExist => strict_entries allValue es'
           | inl e => inl e
           | inr value =>
               let effectiveValue := if (allValue <? value)%Z then value else allValue in
               if (effectiveValue =? 1)%Z then inr true else strict_entries allValue es'
           end
  end.
Definition hasStrictRPFilter (c : conf) : proc_error + bool :=
  match readRPFilter (all_rp_filter c) with
  | inl e => inl e
  | inr allValue => match entries c with None => inl EOther | Some es => strict_entries allValue es end
  end.
(** Whether src_valid_mark was set to 1, or the error. *)
Definition enableSrcValidMark (c : conf) : proc_error + bool :=
  match hasStrictRPFilter c with
  | inl e => inl e
  | inr false => inr false
  | inr true =>
      match src_valid_mark c with
      | NotExist => inl ENotExist
      | ReadError => inl EOther
      | Content s =>
          let value := trim_space s in
          if String.eqb value "1" then inr false
          else if negb (String.eqb value "0") then inl EOther
          else if write_ok c then inr true else inl EOther
      end
  end.

(** ** The bypass *)

Record bypass := mkBypass { b_options : Options; chainName : string; useNFTables : bool; b_iptablesPath : string; b_ip6tablesPath : string }.
Inductive bypass_error := NoIptables | NoIp6tables.
Definition newAutoRouteDNATBypass (LookPath : string -> option string) (nftErr : bool) (o : Options) : bypass_error + bypass :=
  let name := "STUN-DNAT-" ++ itoa (IPRoute2TableIndex o) in
  if negb nftErr then inr (mkBypass o name true "" "")
  else match (if bool_decide (length (Inet4Address o) = 0%nat) then Some "" else LookPath "iptables") with
       | None => inl NoIptables
       | Some path4 =>
           match (if bool_decide (length (Inet6Address o) = 0%nat) then Some "" else LookPath "ip6tables") with
           | None => inl NoIp6tables
           | Some path6 => inr (mkBypass o name false path4 path6)
           end
       end.

(** fmt's %#x. *)
Fixpoint hex_loop (fuel : nat) (n : Z) (acc : string) : string :=
  let acc := String (hex_digit (n mod 16)%Z) acc in
  match fuel with O => acc | S fuel' => if (n <? 16)%Z then acc else hex_loop fuel' (n / 16)%Z acc end.
Definition hex_text (n : Z) : string := "0x" ++ hex_loop (Z.to_nat (Z.log2 n)) n "".

(** What [iptables -S] prints of a table: its lines. *)
Class IptablesList := {
  S_lines : tables -> string -> list string;
  S_new : forall T table c, word c -> existsb (String.eqb c) builtin_chains = false -> ("-N " ++ c) ∈ S_lines T table <-> is_Some (T !! (table, c));
  S_jump : forall T table hook c, word hook -> word c ->
    length (List.filter (String.eqb ("-A " ++ hook ++ " -j " ++ c)) (S_lines T table)) = length (List.filter (fun r => bool_decide (r = [("-j", c)])) (default [] (T !! (table, hook))))
}.

Section Bypass.
Context `{IptablesList} (b : bypass).
Let o := b_options b.

(** Both take the lock with -w 5. *)
Definition runIPTables (path : string) (args : list string) : script := fun h => run_program h (path :: "-w" :: "5" :: args).
(** outputIPTables of -S; it may fail as every command. *)
Definition outputIPTables (path table : string) : host -> host * option (list string) := fun h =>
  let h' := mkHost (h_tables h) (drop 1 (h_fails h)) in
  if default false (head (h_fails h)) then (h', None)
  else (h', T ← h_tables h !! path; Some (S_lines T table)).

Definition mark_text : string := hex_text (autoRouteDNATBypassMark o) ++ "/" ++ hex_text (autoRouteDNATBypassMask o).
Definition setup_path (path : string) : script :=
  if String.eqb path "" then s_ok else
  runIPTables path ["-t"; "mangle"; "-N"; chainName b] ;;&
  runIPTables path ["-t"; "mangle"; "-A"; chainName b; "-m"; "addrtype"; "--dst-type"; "LOCAL"; "-j"; "MARK"; "--set-xmark"; mark_text] ;;&
  runIPTables path ["-t"; "mangle"; "-A"; chainName b; "-m"; "conntrack"; "--ctstate"; "DNAT"; "--ctdir"; "REPLY"; "-j"; "MARK"; "--set-xmark"; mark_text] ;;&
  runIPTables path ["-t"; "mangle"; "-I"; "PREROUTING"; "-j"; chainName b].
Definition setupIPTables : script := setup_path (b_iptablesPath b) ;;& setup_path (b_ip6tablesPath b).

(** The lines of -S in their order. *)
Fixpoint cleanup_lines (path table hook chain : string) (lines : list string) : script :=
  match lines with
  | [] => s_ok
  | line :: lines' =>
      s_when (negb (String.eqb line ("-N " ++ chain)) && String.eqb line ("-A " ++ hook ++ " -j " ++ chain)) (runIPTables path ["-t"; table; "-D"; hook; "-j"; chain]) ;;&
      cleanup_lines path table hook chain lines'
  end.
Definition cleanupIPTablesChain (path table hook chain : string) : script := fun h =>
  let '(h, list) := outputIPTables path table h in
  match list with
  | None => (h, false)
  | Some lines =>
      (cleanup_lines path table hook chain lines ;;&
       if existsb (String.eqb ("-N " ++ chain)) lines then
         runIPTables path ["-t"; table; "-F"; chain] ;;& runIPTables path ["-t"; table; "-X"; chain]
       else s_ok) h
  end.
(** Both are run; an error of either is an error. *)
Definition s_both (x y : script) : script := fun h => let '(h1, ok1) := x h in let '(h2, ok2) := y h1 in (h2, ok1 && ok2).
Definition ipvsOutputChain : string := chainName b ++ "-DNS".
Definition cleanup_path (path : string) : script :=
  if String.eqb path "" then s_ok
  else s_both (cleanupIPTablesChain path "mangle" "PREROUTING" (chainName b)) (cleanupIPTablesChain path "mangle" "OUTPUT" ipvsOutputChain).
Definition cleanupIPTables : script := s_both (cleanup_path (b_iptablesPath b)) (cleanup_path (b_ip6tablesPath b)).

(** Close and Start of a bypass without nftables; ipvsOutput is emptied when
    there was no error. *)
Definition Close (out : ipvsOutput) : host -> host * ipvsOutput * bool := fun h =>
  let '(h, ok) := cleanupIPTables h in (h, if ok : bool then mkOutput [] [] else out, ok).
Definition Start (c : conf) (out : ipvsOutput) : host -> host * ipvsOutput * bool := fun h =>
  match (if bool_decide (length (Inet4Address o) = 0%nat) then inr false else enableSrcValidMark c) with
  | inl _ => (h, out, false)
  | inr _ =>
      let '(h, out, ok) := Close out h in
      if negb ok then (h, out, false)
      else let '(h, ok) := setupIPTables h in
           if ok : bool then (h, out, true) else let '(h, out, _) := Close out h in (h, out, false)
  end.

(** *** The output chain of IPVS *)

(** The words of a line of the input; the quotes of strconv.Quote are those the
    program takes off. *)
Definition output_line (d : ipvsDNSDestination) : list string :=
  ["-A"; ipvsOutputChain; "-o"; Name o; "-d"; Addr_String (d_addr d); "-p"; itoa (protocol d); "--dport"; itoa (d_port d); "-j"; "MARK"; "--xor-mark"; hex_text (autoRouteDNATBypassMark o)].
Definition output_lines (existed : bool) (targets : list ipvsDNSDestination) : list (list string) :=
  match targets with
  | [] => [["-D"; "OUTPUT"; "-j"; ipvsOutputChain]; ["-F"; ipvsOutputChain]; ["-X"; ipvsOutputChain]]
  | _ => (if existed then [["-F"; ipvsOutputChain]] else [[String.append ":" ipvsOutputChain; "-"; "[0:0]"]; ["-A"; "OUTPUT"; "-j"; ipvsOutputChain]])%list ++ map output_line targets
  end.
(** One run of [path]-restore. *)
Definition replaceIPTablesIPVSOutput (path : string) (existed : bool) (targets : list ipvsDNSDestination) : script := fun h =>
  let h' := mkHost (h_tables h) (drop 1 (h_fails h)) in
  if default false (head (h_fails h)) then (h', false)
  else match T ← h_tables h !! path; restore "mangle" T (output_lines existed targets) with
       | Some T' => (mkHost (<[path := T']> (h_tables h)) (h_fails h'), true)
       | None => (h', false)
       end.
(** updateIPVSDNSOutput over iptables, one family. *)
Definition update_output (path : string) (old next : list ipvsDNSDestination) : host -> host * list ipvsDNSDestination * bool := fun h =>
  if negb (ipvsDNSDestinationsChanged old next) then (h, old, true)
  else let '(h, ok) := replaceIPTablesIPVSOutput path (negb (bool_decide (length old = 0%nat))) next h in
       (h, if ok : bool then next else old, ok).
End Bypass.

(** ** The hooks *)

Section Spec.
Context `{IL : IptablesList} (b : bypass).
Let o := b_options b.
Definition hook_dnat : hook := mkHook "mangle" "PREROUTING" (chainName b).
Definition hook_dns : hook := mkHook "mangle" "OUTPUT" (ipvsOutputChain b).
(** As newAutoRouteDNATBypass names it. *)
Definition name_ok : Prop := exists n, chainName b = "STUN-DNAT-" ++ itoa n.
Context (Hn : name_ok).

Lemma name_word : word (chainName b) /\ word (ipvsOutputChain b).
Proof. destruct Hn as (n & E). unfold ipvsOutputChain. rewrite E. destruct (word_itoa n) as [Hs _]. split; [by apply word_app, word_itoa|]. apply word_app; [|done]. by rewrite no_space_app, Hs. Qed.
Lemma name_listed s : existsb (String.eqb (String "S" s)) builtin_chains = false /\ existsb (String.eqb (String "S" s)) targets = false.
Proof. done. Qed.
Lemma names_listed k : k ∈ [hook_dnat; hook_dns] -> existsb (String.eqb (hk_chain k)) builtin_chains = false /\ existsb (String.eqb (hk_chain k)) targets = false.
Proof. destruct Hn as (n & E). rewrite !elem_of_cons, elem_of_nil. intros [-> |[-> |[]]]; cbn [hk_chain hook_dnat hook_dns]; unfold ipvsOutputChain; rewrite E; apply name_listed. Qed.
Lemma length_append s t : String.length (s ++ t) = (String.length s + String.length t)%nat.
Proof. induction s as [|c s IH]; [done|]. rewrite append_cons. cbn. by rewrite IH. Qed.
Lemma dnat_separate : separate [hook_dnat; hook_dns].
Proof.
  destruct Hn as (n & E). unfold separate. cbn [flat_map app own_key hook_key hk_table hk_hook hk_chain hook_dnat hook_dns].
  assert (("mangle", chainName b) <> ("mangle", ipvsOutputChain b)) as HC. { intros [= EC]. apply (f_equal String.length) in EC. unfold ipvsOutputChain in EC. rewrite length_append in EC. cbn in EC. lia. }
  assert (forall x s, x = String "S" s -> forall h, h = "PREROUTING" \/ h = "OUTPUT" -> ("mangle", x) <> ("mangle", h)) as HB by (intros x s -> h [-> | ->]; discriminate).
  assert (exists s, chainName b = String "S" s) as [s1 E1] by (rewrite E; by eexists). assert (exists s, ipvsOutputChain b = String "S" s) as [s2 E2] by (unfold ipvsOutputChain; rewrite E; by eexists).
  repeat (apply NoDup_cons; split; [rewrite ?not_elem_of_cons; split_and?; first [apply not_elem_of_nil|exact HC|by eapply HB; auto|by apply not_eq_sym; eapply HB; auto|discriminate]|]). constructor.
Qed.

(** *** Commands *)

Lemma runIPTables_effect path args : effect path (runIPTables path args) (fun T => ipt_words T args).
Proof.
  intros h h' ok T Hr HT. unfold runIPTables, run_program in Hr. destruct (default false _); [by injection Hr as <- <-|]. rewrite HT in Hr. cbn [mbind option_bind] in Hr. change (iptables T ("-w" :: "5" :: args)) with (ipt_words T args) in Hr.
  destruct (ipt_words T args) as [T'|]; injection Hr as <- <-; [|done]. by exists T'.
Qed.
Lemma keeps_setup path T1 : path <> "" -> keeps path (before hook_dnat T1) (after hook_dnat T1) (after hook_dnat T1) (setup_path b path).
Proof.
  intros Hp. destruct (names_listed hook_dnat ltac:(set_solver)) as [Hb Ht]. pose proof dnat_separate as (Hk & _)%separate_cons. assert (hk_chain hook_dnat <> hk_hook hook_dnat) as Hne by (intros E; apply Hk; unfold own_key, hook_key; congruence).
  unfold setup_path. destruct (String.eqb_spec path ""); [done|].
  apply (keeps_seq path _ (before hook_dnat T1)); [eapply keeps_effect; [apply runIPTables_effect|apply before_after|]; intros T T' HB HC; exact (new_before hook_dnat T1 Hne T T' [] HB HC)|].
  apply (keeps_seq path _ (before hook_dnat T1)); [eapply keeps_effect; [apply runIPTables_effect|apply before_after|]; intros T T' HB HC; eapply (add_before hook_dnat T1 Hne T T' _ _ HB); [| |exact HC]; reflexivity|].
  apply (keeps_seq path _ (before hook_dnat T1)); [eapply keeps_effect; [apply runIPTables_effect|apply before_after|]; intros T T' HB HC; eapply (add_before hook_dnat T1 Hne T T' _ _ HB); [| |exact HC]; reflexivity|].
  eapply keeps_effect; [apply runIPTables_effect|apply before_after|]. intros T T' HB HC. exact (hook_after hook_dnat T1 Hne Ht T T' "-I" (or_intror eq_refl) HB HC).
Qed.

(** *** Cleanup *)

Section Clean.
Context (path : string) (k : hook) (ks : list hook) (T0 : tables) (Hk : hk_table k = "mangle") (Hw : word (hk_hook k) /\ word (hk_chain k))
  (Hsep : separate (k :: ks)) (Hu : forall k', k' ∈ k :: ks -> untouched T0 k').
Let P (own : option (list ipt_rule) -> Prop) (T : tables) : Prop := shape (k :: ks) T0 T /\ own (T !! own_key k).

Lemma own_ne : own_key k <> hook_key k.
Proof. by apply separate_cons in Hsep as [? _]. Qed.
Lemma unhook_step own T T' : P own T -> ipt_command T (hk_table k) "-D" (hk_hook k) ["-j"; hk_chain k] = Some T' -> P own T'.
Proof.
  intros [HS HO] HC. destruct (clean_jump k ks T0 T HS Hu T') as [H1 H2]; [by rewrite HC|]. pose proof own_ne as Hne. assert (T' !! own_key k = T !! own_key k) as EO by by apply H2.
  destruct (separate_cons k ks Hsep) as (_ & _ & Hd). split; [|by rewrite EO]. split.
  - intros k' [->|Hin]%elem_of_cons.
    + left. split; [done|]. rewrite EO. destruct (proj1 HS k ltac:(by left)) as [[_ ?]|(? & R & _ & HR & HPl & _)]; [done|]. right. by exists R.
    + destruct (Hd k' Hin) as (?&?&?&?). apply (reaches_agree k' T0 T); [by apply H2|by apply H2|]. apply (proj1 HS). by right.
  - intros key Hkey. rewrite H2 by (apply Hkey; by left). by apply (proj2 HS).
Qed.
Lemma flush_step T T' : shape (k :: ks) T0 T -> ipt_command T (hk_table k) "-F" (hk_chain k) [] = Some T' -> shape (k :: ks) T0 T'.
Proof.
  intros HS HC. unfold ipt_command in HC. cbn [String.eqb Ascii.eqb Bool.eqb] in HC. fold (own_key k) in HC. destruct (T !! own_key k) as [R|] eqn:ER; [|done]. cbn [mbind option_bind] in HC. injection HC as <-. pose proof own_ne as Hne.
  destruct (separate_cons k ks Hsep) as (_ & _ & Hd). split.
  - intros k' [->|Hin]%elem_of_cons.
    + destruct (proj1 HS k ltac:(by left)) as [[Hh _]|(L & R' & HL & _ & _ & Hj)]; [left; split; [by rewrite lookup_insert_ne|right; exists []; by rewrite lookup_insert_eq]|].
      right. exists L, []. rewrite lookup_insert_eq, lookup_insert_ne by done. done.
    + destruct (Hd k' Hin) as (?&?&?&?). apply (reaches_agree k' T0 T); [by rewrite lookup_insert_ne by (by apply not_eq_sym)|by rewrite lookup_insert_ne by (by apply not_eq_sym)|]. apply (proj1 HS). by right.
  - intros key Hkey. destruct (Hkey k ltac:(by left)). rewrite lookup_insert_ne by (by apply not_eq_sym). by apply (proj2 HS).
Qed.
Lemma hooked_referenced T : hooked k T0 T -> referenced T (hk_table k) (hk_chain k) = true.
Proof.
  intros (L & R & _ & _ & _ & Hj). assert (exists L', T !! hook_key k = Some L' /\ existsb (jumps_to (hk_chain k)) L' = true) as (L' & HL' & HE).
  { assert (jumps_to (hk_chain k) (jump (hk_chain k)) = true) as HJ by (unfold jumps_to, jump; cbn; apply String.eqb_refl). destruct Hj as [Hj|Hj]; eexists; (split; [exact Hj|]); [cbn [existsb]; by rewrite HJ|]. rewrite existsb_app. cbn [existsb]. by rewrite HJ, orb_true_r. }
  apply existsb_exists. exists (hook_key k, L'). split; [by apply list_elem_of_In, elem_of_map_to_list|]. cbn. by rewrite String.eqb_refl.
Qed.
Lemma unhooked_gone T : shape (k :: ks) T0 T -> unhooked k T0 T -> forall T', T' !! own_key k = None -> (forall key, key <> own_key k -> T' !! key = T !! key) -> shape ks T0 T'.
Proof.
  intros HS [Hh _] T' HN HE. destruct (separate_cons k ks Hsep) as (Hne & _ & Hd). destruct (Hu k ltac:(by left)) as [Hnone _ _ _ _]. split.
  - intros k' Hin. destruct (Hd k' Hin) as (?&?&?&?). apply (reaches_agree k' T0 T); [by apply HE|by apply HE|]. apply (proj1 HS). by right.
  - intros key Hkey. destruct (decide (key = own_key k)) as [->|N1]; [by rewrite HN, Hnone|]. rewrite HE by done. destruct (decide (key = hook_key k)) as [->|N2]; [done|].
    apply (proj2 HS). intros k' [->|Hin]%elem_of_cons; [done|by apply Hkey].
Qed.
Lemma delete_step T T' : shape (k :: ks) T0 T -> ipt_command T (hk_table k) "-X" (hk_chain k) [] = Some T' -> shape ks T0 T'.
Proof.
  intros HS HC. unfold ipt_command in HC. cbn [String.eqb Ascii.eqb Bool.eqb] in HC. fold (own_key k) in HC. destruct (T !! own_key k) as [R|] eqn:ER; [|done]. cbn [mbind option_bind] in HC. destruct R as [|? ?]; [|done].
  destruct (_ || _) eqn:EB; [done|]. injection HC as <-. apply orb_false_iff in EB as [_ EB]. destruct (proj1 HS k ltac:(by left)) as [HU|HH]; [|rewrite hooked_referenced in EB; done].
  apply (unhooked_gone T HS HU); [by rewrite lookup_delete_eq|]. intros key ?. by rewrite lookup_delete_ne by (by apply not_eq_sym).
Qed.

Lemma keeps_lines own lines : keeps path (P own) (P own) (P own) (cleanup_lines path "mangle" (hk_hook k) (hk_chain k) lines).
Proof.
  induction lines as [|line lines IH]; [apply keeps_ok|]. cbn [cleanup_lines]. eapply keeps_seq; [|exact IH]. apply keeps_when. eapply keeps_effect; [apply runIPTables_effect|done|]. intros T T' HP HC. eapply unhook_step; [exact HP|]. by rewrite Hk.
Qed.
(** Whatever fails, the tables are on their way back, and without an error the
    chain and its jump are gone. *)
Lemma keeps_cleanup : existsb (String.eqb (hk_chain k)) builtin_chains = false -> keeps path (shape (k :: ks) T0) (shape ks T0) (shape (k :: ks) T0) (cleanupIPTablesChain path "mangle" (hk_hook k) (hk_chain k)).
Proof.
  intros Hb h h' ok T Hr HT HS. unfold cleanupIPTablesChain, outputIPTables in Hr. destruct (default false _) eqn:EF; [injection Hr as <- <-; exists T; cbn; by rewrite insert_id|]. rewrite HT in Hr. cbn [mbind option_bind] in Hr.
  set (h1 := mkHost (h_tables h) (drop 1 (h_fails h))) in *. pose proof (S_new T "mangle" (hk_chain k) (proj2 Hw) Hb) as HNew. destruct (existsb _ (S_lines T "mangle")) eqn:EN.
  - assert (keeps path (shape (k :: ks) T0) (shape ks T0) (shape (k :: ks) T0) (cleanup_lines path "mangle" (hk_hook k) (hk_chain k) (S_lines T "mangle") ;;&
      runIPTables path ["-t"; "mangle"; "-F"; hk_chain k] ;;& runIPTables path ["-t"; "mangle"; "-X"; hk_chain k])) as HK.
    { eapply keeps_seq; [intros h0 h0' ok0 T1 Hr1 HT1 HS1; destruct (keeps_lines (fun _ => True) (S_lines T "mangle") h0 h0' ok0 T1 Hr1 HT1 (conj HS1 I)) as (T2 & HT2 & HS2); exists T2; split; [exact HT2|]; by destruct ok0; destruct HS2|].
      eapply keeps_seq; [eapply keeps_effect; [apply runIPTables_effect|done|]; intros T1 T2 HS1 HC; eapply flush_step; [exact HS1|]; by rewrite Hk|].
      eapply keeps_effect; [apply runIPTables_effect|done|]. intros T1 T2 HS1 HC. eapply delete_step; [exact HS1|]. by rewrite Hk. }
    exact (HK h1 h' ok T Hr HT HS).
  - assert (T !! own_key k = None) as HN.
    { unfold own_key. rewrite Hk. destruct (T !! ("mangle", hk_chain k)) eqn:ET; [|done]. assert (("-N " ++ hk_chain k) ∈ S_lines T "mangle") as Hin by (apply HNew; by eexists).
      exfalso. enough (existsb (String.eqb ("-N " ++ hk_chain k)) (S_lines T "mangle") = true) by congruence. apply existsb_exists. eexists. split; [by apply list_elem_of_In|apply String.eqb_refl]. }
    assert (keeps path (P (fun x => x = None)) (shape ks T0) (shape (k :: ks) T0) (cleanup_lines path "mangle" (hk_hook k) (hk_chain k) (S_lines T "mangle") ;;& s_ok)) as HK.
    { eapply keeps_seq; [eapply keeps_weaken; [apply (keeps_lines (fun x => x = None))|intros T1 HT1; exact HT1|by intros T1 [? _]]|]. intros h0 h0' ok0 T1 Hr1 HT1 [HS1 HN1]. injection Hr1 as <- <-. exists T1. split; [by rewrite insert_id|].
      destruct (proj1 HS1 k ltac:(by left)) as [HU|(? & ? & _ & HR & _)]; [|congruence]. by apply (unhooked_gone T1 HS1 HU). }
    exact (HK h1 h' ok T Hr HT (conj HS HN)).
Qed.

(** Without failures the cleanup ends without an error. *)
Lemma run_quiet (X : gmap string tables) T op c ws : X !! path = Some T -> runIPTables path ("-t" :: "mangle" :: op :: c :: ws) (mkHost X []) =
  match ipt_command T "mangle" op c ws with Some T' => (mkHost (<[path := T']> X) [], true) | None => (mkHost X [], false) end.
Proof. intros HT. unfold runIPTables, run_program. cbn [h_fails h_tables head from_option drop]. rewrite HT. reflexivity. Qed.
Let is_jump := String.eqb ("-A " ++ hk_hook k ++ " -j " ++ hk_chain k).
Lemma line_is_jump line : negb (String.eqb line ("-N " ++ hk_chain k)) && String.eqb line ("-A " ++ hk_hook k ++ " -j " ++ hk_chain k) = is_jump line.
Proof.
  unfold is_jump. rewrite (String.eqb_sym line ("-A " ++ _)). destruct (String.eqb_spec ("-A " ++ hk_hook k ++ " -j " ++ hk_chain k) line) as [<-|]; [done|apply andb_false_r].
Qed.
Lemma lines_none table lines h : List.filter is_jump lines = [] -> cleanup_lines path table (hk_hook k) (hk_chain k) lines h = (h, true).
Proof.
  induction lines as [|l lines IH]; [done|]. cbn [List.filter cleanup_lines]. rewrite line_is_jump. destruct (is_jump l); [done|]. intros HF. unfold s_when, s_seq, s_ok. by apply IH.
Qed.
Lemma lines_one table lines (h h' : host) : length (List.filter is_jump lines) = 1%nat -> runIPTables path ["-t"; table; "-D"; hk_hook k; "-j"; hk_chain k] h = (h', true) ->
  cleanup_lines path table (hk_hook k) (hk_chain k) lines h = (h', true).
Proof.
  intros HL HR. induction lines as [|l lines IH]; [done|]. cbn [List.filter] in HL. cbn [cleanup_lines]. rewrite line_is_jump. destruct (is_jump l); unfold s_when, s_seq, s_ok; [|by apply IH].
  rewrite HR. apply lines_none. cbn [length] in HL. apply length_zero_iff_nil. lia.
Qed.
Lemma count_jumps L : Forall (fun r => jump (hk_chain k) <> r) L -> List.filter (fun r => bool_decide (r = [("-j", hk_chain k)])) L = [].
Proof. induction 1 as [|r L Hr _ IH]; [done|]. cbn [List.filter]. rewrite bool_decide_eq_false_2; [done|]. intros ->. by apply Hr. Qed.
(** The chain and its jump, once the lines are done. *)
Lemma lines_quiet (X : gmap string tables) T : X !! path = Some T -> shape (k :: ks) T0 T ->
  exists T1, cleanup_lines path "mangle" (hk_hook k) (hk_chain k) (S_lines T "mangle") (mkHost X []) = (mkHost (<[path := T1]> X) [], true) /\
    T1 !! hook_key k = T0 !! hook_key k /\ forall key, key <> hook_key k -> T1 !! key = T !! key.
Proof.
  intros HT HS. destruct (Hu k ltac:(by left)) as [_ [L0 HL0] HR _ _]. assert (Forall (fun r => jump (hk_chain k) <> r) L0) as HN by (apply norefs_not_jump; exact (HR _ _ HL0)).
  pose proof (S_jump T "mangle" (hk_hook k) (hk_chain k) (proj1 Hw) (proj2 Hw)) as HJ. fold is_jump in HJ. assert (("mangle", hk_hook k) = hook_key k) as EK by (unfold hook_key; by rewrite Hk). rewrite EK in HJ.
  destruct (proj1 HS k ltac:(by left)) as [[Hh _]|(L & R & HL & _ & _ & Hj)].
  - rewrite Hh, HL0 in HJ. cbn [from_option] in HJ. unfold id in HJ. rewrite count_jumps in HJ by done. exists T. rewrite insert_id by done. split; [|done]. apply lines_none. by apply length_zero_iff_nil.
  - rewrite HL0 in HL. injection HL as <-. assert (exists L, T !! hook_key k = Some L /\ remove_first (jump (hk_chain k)) L = Some L0 /\ length (List.filter (fun r => bool_decide (r = [("-j", hk_chain k)])) L) = 1%nat) as (L & HL & HD & HC).
    { destruct Hj as [Hj|Hj]; eexists; (split; [exact Hj|]); [cbn [remove_first]; rewrite decide_True by done|rewrite remove_first_last by done; rewrite List.filter_app]; (split; [done|]); cbn [List.filter]; rewrite count_jumps, bool_decide_eq_true_2 by done; done. }
    rewrite HL in HJ. cbn [from_option] in HJ. unfold id in HJ. rewrite HC in HJ. exists (<[hook_key k := L0]> T). split; [|split; [by rewrite lookup_insert_eq|intros key ?; by rewrite lookup_insert_ne by (by apply not_eq_sym)]].
    apply lines_one; [done|]. rewrite (run_quiet X T) by done. unfold ipt_command. cbn [String.eqb Ascii.eqb Bool.eqb]. rewrite EK, HL. cbn [mbind option_bind]. change (parse_rule ["-j"; hk_chain k]) with (Some (jump (hk_chain k))). cbn [mbind option_bind]. by rewrite HD.
Qed.
Lemma cleanup_succeeds (X : gmap string tables) T : existsb (String.eqb (hk_chain k)) builtin_chains = false -> X !! path = Some T -> shape (k :: ks) T0 T ->
  exists T', cleanupIPTablesChain path "mangle" (hk_hook k) (hk_chain k) (mkHost X []) = (mkHost (<[path := T']> X) [], true).
Proof.
  intros Hb HT HS. destruct (lines_quiet X T HT HS) as (T1 & HL & HH & HE). unfold cleanupIPTablesChain, outputIPTables. cbn [h_fails h_tables head from_option drop]. rewrite HT. cbn [mbind option_bind]. unfold s_seq at 1. rewrite HL.
  destruct (existsb (String.eqb ("-N " ++ hk_chain k)) (S_lines T "mangle")) eqn:EN; [|by exists T1]. apply existsb_exists in EN as (l & Hin & <-%String.eqb_eq). apply list_elem_of_In, (S_new T "mangle" (hk_chain k) (proj2 Hw) Hb) in Hin as [R HR].
  assert (("mangle", hk_chain k) = own_key k) as EK by (unfold own_key; by rewrite Hk). assert (("mangle", hk_hook k) = hook_key k) as EH by (unfold hook_key; by rewrite Hk). pose proof own_ne as Hne.
  unfold s_seq. rewrite (run_quiet _ T1) by apply lookup_insert_eq. unfold ipt_command at 1. cbn [String.eqb Ascii.eqb Bool.eqb]. rewrite EK in *. rewrite HE, HR by done. cbn [mbind option_bind].
  rewrite (run_quiet _ (<[own_key k := []]> T1)) by apply lookup_insert_eq. unfold ipt_command. cbn [String.eqb Ascii.eqb Bool.eqb]. rewrite EK, lookup_insert_eq. cbn [mbind option_bind]. rewrite Hb, norefs_referenced; [cbn [orb]; rewrite !insert_insert_eq; by eexists|].
  replace "mangle" with (hk_table k). apply (clean_norefs k ks T0 T HS Hsep Hu); [intros key ??; rewrite lookup_insert_ne by (by apply not_eq_sym); by apply HE|by rewrite lookup_insert_ne|]. intros R'. rewrite lookup_insert_eq. by intros [= <-].
Qed.

(** *** The output chain *)

Lemma add_step T T' ws rule : shape (k :: ks) T0 T -> parse_rule ws = Some rule -> plain rule -> ipt_command T (hk_table k) "-A" (hk_chain k) ws = Some T' -> shape (k :: ks) T0 T'.
Proof.
  intros HS Hp Hr HC. unfold ipt_command in HC. cbn [String.eqb Ascii.eqb Bool.eqb] in HC. fold (own_key k) in HC. destruct (T !! own_key k) as [R|] eqn:ER; [|done]. cbn [mbind option_bind] in HC. rewrite Hp in HC. cbn [mbind option_bind] in HC.
  destruct (target_ok _ _ _); [|done]. injection HC as <-. pose proof own_ne as Hne. destruct (separate_cons k ks Hsep) as (_ & _ & Hd). split.
  - intros k' [->|Hin]%elem_of_cons.
    + destruct (proj1 HS k ltac:(by left)) as [[Hh HO]|(L & R' & HL & HR' & HPl & Hj)].
      * left. split; [by rewrite lookup_insert_ne|]. right. exists (R ++ [rule])%list. rewrite lookup_insert_eq. split; [done|]. destruct HO as [?|(R2 & HR2 & ?)]; [congruence|]. assert (R2 = R) as -> by congruence. apply Forall_app. by split; [|repeat constructor].
      * right. exists L, (R ++ [rule])%list. rewrite lookup_insert_eq, lookup_insert_ne by done. assert (R' = R) as -> by congruence. split_and!; try done. apply Forall_app. by split; [|repeat constructor].
    + destruct (Hd k' Hin) as (?&?&?&?). apply (reaches_agree k' T0 T); [by rewrite lookup_insert_ne by (by apply not_eq_sym)|by rewrite lookup_insert_ne by (by apply not_eq_sym)|]. apply (proj1 HS). by right.
  - intros key Hkey. destruct (Hkey k ltac:(by left)). rewrite lookup_insert_ne by (by apply not_eq_sym). by apply (proj2 HS).
Qed.
Lemma restore_cons table T l ls : restore table T (l :: ls) = T' ← restore_line table T l; restore table T' ls.
Proof.
  unfold restore. cbn [foldl mbind option_bind]. destruct (restore_line table T l) as [T'|]; [done|]. cbn [mbind option_bind]. induction ls as [|l' ls IH]; [done|]. exact IH.
Qed.
Lemma output_lines_step targets T T' : hk_chain k = ipvsOutputChain b -> shape (k :: ks) T0 T -> restore "mangle" T (map (output_line b) targets) = Some T' -> shape (k :: ks) T0 T'.
Proof.
  intros Hc. revert T. induction targets as [|d targets IH]; intros T HS HR; [by injection HR as <-|]. cbn [map] in HR. rewrite restore_cons in HR. destruct (restore_line "mangle" T (output_line b d)) as [T1|] eqn:E1; [|done]. cbn [mbind option_bind] in HR.
  eapply IH; [|exact HR]. change (restore_line "mangle" T (output_line b d)) with (ipt_command T "mangle" "-A" (ipvsOutputChain b) (drop 2 (output_line b d))) in E1. rewrite <- Hk, <- Hc in E1. eapply add_step; [exact HS| | |exact E1]; reflexivity.
Qed.
Lemma replace_step existed targets T T' : hk_chain k = ipvsOutputChain b -> hk_hook k = "OUTPUT" -> shape (k :: ks) T0 T -> (existed = false -> T !! own_key k = None) ->
  restore "mangle" T (output_lines b existed targets) = Some T' -> shape (k :: ks) T0 T' /\ (targets = [] -> T' !! own_key k = None).
Proof.
  intros Hc Hh HS HN HR. assert (existsb (String.eqb (hk_chain k)) Iptables.targets = false) as Htg by (apply (Hu k); by left). destruct targets as [|d targets]; [|destruct existed]; cbn [output_lines] in HR.
  - rewrite !restore_cons in HR. destruct (restore_line "mangle" T _) as [T1|] eqn:E1; [|done]. cbn [mbind option_bind] in HR. rewrite restore_cons in HR. destruct (restore_line "mangle" T1 _) as [T2|] eqn:E2; [|done]. cbn [mbind option_bind] in HR. rewrite restore_cons in HR.
    destruct (restore_line "mangle" T2 _) as [T3|] eqn:E3; [|done]. injection HR as <-. change (ipt_command T "mangle" "-D" "OUTPUT" ["-j"; ipvsOutputChain b] = Some T1) in E1. change (ipt_command T1 "mangle" "-F" (ipvsOutputChain b) [] = Some T2) in E2. change (ipt_command T2 "mangle" "-X" (ipvsOutputChain b) [] = Some T3) in E3.
    rewrite <- Hk, <- Hc, <- ?Hh in *. assert (shape ks T0 T3) as HS3. { eapply delete_step; [|exact E3]. eapply flush_step; [|exact E2]. eapply (unhook_step (fun _ => True)); [by split|exact E1]. }
    split; [apply shape_more; [done|apply Hu; by left|done]|]. intros _. eapply shape_own; [exact HS3|apply Hu; by left|done].
  - cbn [app] in HR. rewrite restore_cons in HR. destruct (restore_line "mangle" T ["-F"; ipvsOutputChain b]) as [T1|] eqn:E1; [|done]. cbn [mbind option_bind] in HR. change (ipt_command T "mangle" "-F" (ipvsOutputChain b) [] = Some T1) in E1. rewrite <- Hk, <- Hc in E1.
    split; [|done]. eapply (output_lines_step (d :: targets)); [done| |exact HR]. by eapply flush_step.
  - cbn [app] in HR. rewrite !restore_cons in HR. change (restore_line "mangle" T [String.append ":" (ipvsOutputChain b); "-"; "[0:0]"]) with (Some (<[("mangle", ipvsOutputChain b) := []]> T)) in HR. cbn [mbind option_bind] in HR. rewrite restore_cons in HR.
    destruct (restore_line "mangle" _ ["-A"; "OUTPUT"; "-j"; ipvsOutputChain b]) as [T1|] eqn:E1; [|done]. cbn [mbind option_bind] in HR. split; [|done]. eapply (output_lines_step (d :: targets)); [done| |exact HR].
    specialize (HN eq_refl). assert (shape ks T0 T) as HS0. { destruct (proj1 HS k ltac:(by left)) as [HU|(? & ? & _ & HX & _)]; [|congruence]. by apply (unhooked_gone T HS HU). }
    assert (hk_chain k <> hk_hook k) as Hne by (intros E; apply own_ne; unfold own_key, hook_key; congruence).
    eapply shape_step; [exact HS0| |exact Hsep]. eapply (hook_after k T Hne Htg (<[own_key k := []]> T) T1 "-A"); [by left| |].
    + split; [|apply elsewhere_insert; [by left|done]]. split; [by rewrite lookup_insert_ne by apply own_ne|]. right. exists []. by rewrite lookup_insert_eq.
    + unfold own_key. rewrite Hk, Hc, Hh. exact E1.
Qed.
End Clean.
End Spec.

(** ** Both families *)

#[global] Instance hook_eq_dec : EqDecision hook.
Proof. solve_decision. Defined.
(** No command but -N makes a chain. *)
Lemma no_new_chain T table op c ws T' key : op <> "-N" -> ipt_command T table op c ws = Some T' -> T !! key = None -> T' !! key = None.
Proof.
  intros Hop HC HN. unfold ipt_command in HC. destruct (String.eqb_spec op "-N"); [done|]. destruct (T !! (table, c)) as [R|] eqn:ER; [|done]. cbn [mbind option_bind] in HC. assert (key <> (table, c)) as Hne by congruence.
  assert (forall R' T1, Some (<[(table, c) := R']> T) = Some T1 -> T1 !! key = None) as HI by (intros R' T1 [= <-]; by rewrite lookup_insert_ne by (by apply not_eq_sym)).
  repeat case_match; try done; try (by eapply HI; exact HC); try (apply bind_Some in HC as (? & _ & HC); repeat case_match; try done; try (by eapply HI; exact HC); apply bind_Some in HC as (? & _ & HC); by eapply HI; exact HC).
  injection HC as <-. by rewrite lookup_delete_ne by (by apply not_eq_sym).
Qed.
Lemma keeps_and (path : string) (P P' Q Q' E E' : tables -> Prop) (a : script) : keeps path P Q E a -> keeps path P' Q' E' a -> keeps path (fun T => P T /\ P' T) (fun T => Q T /\ Q' T) (fun T => E T /\ E' T) a.
Proof.
  intros H1 H2 h h' ok T Hr HT [HP HP']. destruct (H1 h h' ok T Hr HT HP) as (T1 & E1 & R1), (H2 h h' ok T Hr HT HP') as (T2 & E2 & R2). exists T1. split; [done|].
  assert (T2 = T1) as -> by (rewrite E1 in E2; apply (f_equal (.!! path)) in E2; rewrite !lookup_insert_eq in E2; congruence). by destruct ok.
Qed.
Section Family.
Context `{IL : IptablesList} (b : bypass) (Hn : name_ok b) (path : string) (Hp : path <> "") (T0 : tables).
Let ks := [hook_dnat b; hook_dns b].
Definition absent : Prop := forall k, k ∈ [hook_dnat b; hook_dns b] -> T0 !! own_key k = None /\ is_Some (T0 !! hook_key k) /\ norefs T0 (hk_table k) (hk_chain k).
Context (Ha : absent).

Lemma dnat_untouched k : k ∈ ks -> untouched T0 k.
Proof. intros Hk. destruct (Ha k Hk) as (?&?&?), (names_listed b Hn k Hk). by constructor. Qed.
Lemma separate_dns : separate [hook_dns b; hook_dnat b] /\ separate [hook_dns b] /\ separate [hook_dnat b].
Proof.
  pose proof (dnat_separate b Hn) as S1. assert (separate [hook_dns b; hook_dnat b]) as S2 by (eapply separate_perm; [|exact S1]; apply perm_swap).
  pose proof S1 as (_ & ? & _)%separate_cons. pose proof S2 as (_ & ? & _)%separate_cons. done.
Qed.
Lemma shape_swap T : shape ks T0 T <-> shape [hook_dns b; hook_dnat b] T0 T.
Proof. split; apply shape_mono; unfold ks; set_solver. Qed.

(** Chains that are not there stay away. *)
Lemma keeps_gone key a F : effect path a F -> (forall T T', F T = Some T' -> T !! key = None -> T' !! key = None) -> keeps path (fun T => T !! key = None) (fun T => T !! key = None) (fun T => T !! key = None) a.
Proof. intros He HF. eapply keeps_effect; [exact He|done|]. intros T T' HN HC. by eapply HF. Qed.
Lemma cleanup_gone key table hook chain : keeps path (fun T => T !! key = None) (fun T => T !! key = None) (fun T => T !! key = None) (cleanupIPTablesChain path table hook chain).
Proof.
  assert (forall op c ws, op <> "-N" -> keeps path (fun T => T !! key = None) (fun T => T !! key = None) (fun T => T !! key = None) (runIPTables path ("-t" :: table :: op :: c :: ws))) as HC.
  { intros op c ws Hop. eapply keeps_gone; [apply runIPTables_effect|]. intros T T' HC. cbn in HC. by eapply no_new_chain. }
  intros h h' ok T Hr HT HN. unfold cleanupIPTablesChain, outputIPTables in Hr. destruct (default false _); [injection Hr as <- <-; exists T; cbn; by rewrite insert_id|]. rewrite HT in Hr. cbn [mbind option_bind] in Hr. set (h1 := mkHost (h_tables h) (drop 1 (h_fails h))) in *.
  revert Hr. generalize (S_lines T table) at 1. intros lines Hr. set (tail := if existsb _ _ then _ else _) in Hr.
  assert (keeps path (fun T => T !! key = None) (fun T => T !! key = None) (fun T => T !! key = None) (cleanup_lines path table hook chain lines ;;& tail)) as HK; [|exact (HK h1 h' ok T Hr HT HN)].
  apply (keeps_seq path _ (fun T => T !! key = None)).
  - clear Hr. induction lines as [|l lines IH]; [apply keeps_ok|]. cbn [cleanup_lines]. apply (keeps_seq path _ (fun T => T !! key = None)); [|exact IH]. apply keeps_when. by apply HC.
  - unfold tail. destruct (existsb _ _); [|apply keeps_ok]. apply (keeps_seq path _ (fun T => T !! key = None)); by apply HC.
Qed.

Lemma cleanup_dnat : keeps path (shape ks T0) (shape [hook_dns b] T0) (shape ks T0) (cleanupIPTablesChain path "mangle" "PREROUTING" (chainName b)).
Proof.
  destruct (name_word b Hn) as [W1 W2]. apply (keeps_cleanup path (hook_dnat b) [hook_dns b] T0 eq_refl); [done|apply dnat_separate, Hn|exact dnat_untouched|]. apply (names_listed b Hn). set_solver.
Qed.
Lemma cleanup_dns ks' : ks' = [] \/ ks' = [hook_dnat b] -> keeps path (shape (hook_dns b :: ks') T0) (shape ks' T0) (shape (hook_dns b :: ks') T0) (cleanupIPTablesChain path "mangle" "OUTPUT" (ipvsOutputChain b)).
Proof.
  intros Hks. destruct (name_word b Hn) as [W1 W2]. destruct separate_dns as (S1 & S2 & _). apply (keeps_cleanup path (hook_dns b) ks' T0 eq_refl); [done|by destruct Hks as [-> | ->]| |].
  - intros k Hk. apply dnat_untouched. unfold ks. destruct Hks as [-> | ->]; set_solver.
  - apply (names_listed b Hn). set_solver.
Qed.
Lemma shape_all T ks' : (forall k, k ∈ ks' -> k ∈ ks) -> shape ks' T0 T -> shape ks T0 T.
Proof.
  intros Hsub [HR HE]. split; [|intros key Hkey; apply HE; intros k Hk; by apply Hkey, Hsub]. intros k Hk. destruct (decide (k ∈ ks')) as [|Hnin]; [by apply HR|]. destruct (dnat_untouched k Hk) as [HN _ _ _ _].
  assert (forall k', k' ∈ ks' -> own_key k' <> own_key k /\ own_key k' <> hook_key k /\ hook_key k' <> own_key k /\ hook_key k' <> hook_key k) as Hd.
  { intros k' Hk'. assert (k' <> k) as Hne by congruence. pose proof (dnat_separate b Hn) as (_ & _ & D1)%separate_cons. destruct separate_dns as [(_ & _ & D2)%separate_cons _]. specialize (Hsub k' Hk'). unfold ks in *.
    rewrite !elem_of_cons, !elem_of_nil in Hk, Hsub. destruct Hk as [-> |[-> |[]]], Hsub as [-> |[-> |[]]]; try done; [apply D1; by left|apply D2; by left]. }
  left. split; [apply HE|left; rewrite HE; [done|]]; intros k' Hk'; destruct (Hd k' Hk') as (?&?&?&?); by split; apply not_eq_sym.
Qed.
(** Both chains of a family. *)
Lemma cleanup_path_keeps (G : Prop) : keeps path (fun T => shape ks T0 T /\ (G -> T !! own_key (hook_dns b) = None)) (fun T => T = T0) (fun T => shape ks T0 T /\ (G -> T !! own_key (hook_dns b) = None)) (cleanup_path b path).
Proof.
  intros h h' ok T Hr HT [HS HG]. unfold cleanup_path in Hr. destruct (String.eqb_spec path ""); [done|]. unfold s_both in Hr. destruct (cleanupIPTablesChain path "mangle" "PREROUTING" (chainName b) h) as [h1 ok1] eqn:E1.
  destruct (cleanupIPTablesChain path "mangle" "OUTPUT" (ipvsOutputChain b) h1) as [h2 ok2] eqn:E2. injection Hr as <- <-. set (gone := fun T : tables => T !! own_key (hook_dns b) = None).
  destruct (cleanup_dnat h h1 ok1 T E1 HT HS) as (T1 & H1 & R1). assert (h_tables h1 !! path = Some T1) as HT1 by (by rewrite H1, lookup_insert_eq).
  assert (exists T2, h_tables h2 = <[path := T2]> (h_tables h1) /\ if ok1 && ok2 then T2 = T0 else shape ks T0 T2) as (T2 & H2 & R2).
  { destruct ok1; cbn [andb].
    - destruct (cleanup_dns [] (or_introl eq_refl) h1 h2 ok2 T1 E2 HT1 R1) as (T2 & H2 & R2). exists T2. split; [done|]. destruct ok2; [by apply shape_nil|]. by apply (shape_all T2 [hook_dns b]); [unfold ks; set_solver|].
    - destruct (cleanup_dns [hook_dnat b] (or_intror eq_refl) h1 h2 ok2 T1 E2 HT1) as (T2 & H2 & R2); [by apply shape_swap|]. exists T2. split; [done|]. destruct ok2; (eapply shape_all; [|exact R2]); unfold ks; set_solver. }
  exists T2. split; [by rewrite H2, H1, insert_insert_eq|]. destruct (ok1 && ok2); [done|]. split; [done|]. intros HG'. specialize (HG HG').
  destruct (cleanup_gone (own_key (hook_dns b)) "mangle" "PREROUTING" (chainName b) h h1 ok1 T E1 HT HG) as (T1' & H1' & R1'). assert (T1' = T1) as -> by (rewrite H1 in H1'; apply (f_equal (.!! path)) in H1'; rewrite !lookup_insert_eq in H1'; congruence).
  assert (T1 !! own_key (hook_dns b) = None) as HG1 by by destruct ok1.
  destruct (cleanup_gone (own_key (hook_dns b)) "mangle" "OUTPUT" (ipvsOutputChain b) h1 h2 ok2 T1 E2 HT1 HG1) as (T2' & H2' & R2'). assert (T2' = T2) as -> by (rewrite H2 in H2'; apply (f_equal (.!! path)) in H2'; rewrite !lookup_insert_eq in H2'; congruence). by destruct ok2.
Qed.
Lemma cleanup_path_succeeds (X : gmap string tables) T : X !! path = Some T -> shape ks T0 T -> exists T', cleanup_path b path (mkHost X []) = (mkHost (<[path := T']> X) [], true).
Proof.
  intros HT HS. destruct (name_word b Hn) as [W1 W2], separate_dns as (S1 & S2 & S3). unfold cleanup_path. destruct (String.eqb_spec path ""); [done|]. unfold s_both.
  destruct (cleanup_succeeds path (hook_dnat b) [hook_dns b] T0 eq_refl ltac:(done) (dnat_separate b Hn) dnat_untouched X T) as (T1 & E1); [apply (names_listed b Hn); set_solver|done|done|]. change (hk_hook (hook_dnat b)) with "PREROUTING" in E1. change (hk_chain (hook_dnat b)) with (chainName b) in E1. rewrite E1.
  destruct (cleanup_dnat _ _ _ T E1 HT HS) as (T1' & HX & HS1). cbn [h_tables] in HX. assert (T1' = T1) as -> by (apply (f_equal (.!! path)) in HX; rewrite !lookup_insert_eq in HX; congruence).
  destruct (cleanup_succeeds path (hook_dns b) [] T0 eq_refl ltac:(done) S2) with (X := <[path := T1]> X) (T := T1) as (T2 & E2); [intros k Hk; apply dnat_untouched; unfold ks; set_solver|apply (names_listed b Hn); set_solver|apply lookup_insert_eq|done|].
  change (hk_hook (hook_dns b)) with "OUTPUT" in E2. change (hk_chain (hook_dns b)) with (ipvsOutputChain b) in E2. rewrite E2, insert_insert_eq. by eexists.
Qed.
Lemma setup_path_keeps : keeps path (fun T => T = T0) (fun T => shape ks T0 T /\ T !! own_key (hook_dns b) = None) (fun T => shape ks T0 T /\ T !! own_key (hook_dns b) = None) (setup_path b path).
Proof.
  destruct separate_dns as (S1 & S2 & S3). assert (forall T, shape [hook_dnat b] T0 T -> shape ks T0 T /\ T !! own_key (hook_dns b) = None) as HE.
  { intros T HT. split; [by apply (shape_all T [hook_dnat b]); [unfold ks; set_solver|]|]. eapply shape_own; [exact HT|apply dnat_untouched; unfold ks; set_solver|exact S1]. }
  intros h h' ok T Hr HT ->. destruct (keeps_step path T0 (hook_dnat b) [] (setup_path b path) S3 ltac:(apply dnat_untouched; unfold ks; set_solver) (fun T1 => keeps_setup b Hn path T1 Hp) h h' ok T0 Hr HT (shape_refl T0)) as (T' & H' & R).
  exists T'. split; [done|]. destruct ok; by apply HE.
Qed.
Lemma replace_keeps existed targets : keeps path (fun T => shape ks T0 T /\ (existed = false -> T !! own_key (hook_dns b) = None))
  (fun T => shape ks T0 T /\ (targets = [] -> T !! own_key (hook_dns b) = None)) (fun T => shape ks T0 T /\ (existed = false -> T !! own_key (hook_dns b) = None)) (replaceIPTablesIPVSOutput b path existed targets).
Proof.
  intros h h' ok T Hr HT [HS HN]. unfold replaceIPTablesIPVSOutput in Hr. destruct (default false _); [injection Hr as <- <-; exists T; cbn; by rewrite insert_id|]. rewrite HT in Hr. cbn [mbind option_bind] in Hr.
  destruct (restore "mangle" T _) as [T'|] eqn:ER; injection Hr as <- <-; [|exists T; cbn; by rewrite insert_id]. exists T'. split; [done|]. destruct separate_dns as (S1 & _). destruct (name_word b Hn).
  destruct (replace_step b (hook_dns b) [hook_dnat b] T0 eq_refl S1) with (existed := existed) (targets := targets) (T := T) (T' := T') as [HS' HN']; try done; [intros k Hk; apply dnat_untouched; unfold ks; set_solver|by apply shape_swap|]. split; [by apply shape_swap|done].
Qed.
End Family.

(** ** Operations *)

Inductive op := OpStart (c : conf) | OpUpdate (ipv6 : bool) (next : list ipvsDNSDestination) | OpClose.
Section Ops.
Context `{IL : IptablesList} (b : bypass) (H : gmap string tables).
Let p4 := b_iptablesPath b.
Let p6 := b_ip6tablesPath b.

Definition run_op (e : op) (h : host) (out : ipvsOutput) : host * ipvsOutput * bool :=
  match e with
  | OpStart c => Start b c out h
  | OpUpdate ipv6 next =>
      if ipv6 : bool then let '(h, o6, ok) := update_output b p6 (out6 out) next h in (h, mkOutput (out4 out) o6, ok)
      else let '(h, o4, ok) := update_output b p4 (out4 out) next h in (h, mkOutput o4 (out6 out), ok)
  | OpClose => Close b out h
  end.
Fixpoint run_ops (es : list op) (h : host) (out : ipvsOutput) : host * ipvsOutput :=
  match es with [] => (h, out) | e :: es' => let '(h, out, _) := run_op e h out in run_ops es' h out end.

(** The bypass has a name of its own, and the chains are not in the tables of
    its programs. *)
Record bypass_ready : Prop := {
  br_name : name_ok b;
  br_4 : p4 <> "" -> exists T0, H !! p4 = Some T0 /\ absent b T0;
  br_6 : p6 <> "" -> exists T0, H !! p6 = Some T0 /\ absent b T0;
  br_paths : p4 <> "" -> p4 <> p6
}.
Context (Hr : bypass_ready).

(** On its way: a family whose recorded destinations are [dests]. *)
Definition on_way (X : gmap string tables) (path : string) (dests : list ipvsDNSDestination) : Prop :=
  if decide (path = "") then X !! path = H !! path
  else exists T0 T, H !! path = Some T0 /\ absent b T0 /\ X !! path = Some T /\ shape [hook_dnat b; hook_dns b] T0 T /\ (dests = [] -> T !! own_key (hook_dns b) = None).
Definition near (X : gmap string tables) (out : ipvsOutput) : Prop :=
  on_way X p4 (out4 out) /\ on_way X p6 (out6 out) /\ forall q, q <> p4 -> q <> p6 -> X !! q = H !! q.

Lemma on_way_at X X' path dests : X' !! path = X !! path -> on_way X path dests -> on_way X' path dests.
Proof. unfold on_way. by intros ->. Qed.
(** What a script on the tables of one program does. *)
Definition on_path (path : string) (h h' : host) : Prop := (path = "" -> h_tables h' = h_tables h) /\ forall q, q <> path -> h_tables h' !! q = h_tables h !! q.
Lemma on_path_insert path h h' T : path <> "" -> h_tables h' = <[path := T]> (h_tables h) -> on_path path h h'.
Proof. intros Hne E. split; [done|]. intros q Hq. by rewrite E, lookup_insert_ne by (by apply not_eq_sym). Qed.
Lemma path_cleanup path dests h h' ok : name_ok b -> on_way (h_tables h) path dests -> cleanup_path b path h = (h', ok) ->
  on_path path h h' /\ on_way (h_tables h') path dests /\ (ok = true -> h_tables h' !! path = H !! path).
Proof.
  intros Hn HW HC. unfold on_way in *. destruct (decide (path = "")) as [->|Hne]; [by injection HC as <- <-|]. destruct HW as (T0 & T & HT0 & Ha & HT & HS & HN).
  destruct (cleanup_path_keeps b Hn path Hne T0 Ha (dests = []) h h' ok T HC HT (conj HS HN)) as (T' & HT' & R). split; [by eapply on_path_insert|]. rewrite HT', lookup_insert_eq. destruct ok.
  - subst T'. split; [|done]. exists T0, T0. split_and!; try done; [|intros _; apply (Ha (hook_dns b)); set_solver]. apply (shape_all b Hn T0 Ha T0 []); [set_solver|apply shape_refl].
  - destruct R. split; [|done]. by exists T0, T'.
Qed.
Lemma path_setup path h h' ok : name_ok b -> (path <> "" -> exists T0, H !! path = Some T0 /\ absent b T0) -> h_tables h !! path = H !! path -> setup_path b path h = (h', ok) -> on_path path h h' /\ on_way (h_tables h') path [].
Proof.
  intros Hn HP HX HC. unfold on_way. destruct (decide (path = "")) as [->|Hne]; [by injection HC as <- <-|]. destruct (HP Hne) as (T0 & HT0 & Ha). rewrite HT0 in HX.
  destruct (setup_path_keeps b Hn path Hne T0 Ha h h' ok T0 HC HX eq_refl) as (T' & HT' & R). split; [by eapply on_path_insert|]. rewrite HT', lookup_insert_eq. exists T0, T'. destruct ok; destruct R; split_and!; done.
Qed.
Lemma path_update path old next h h' dests ok : name_ok b -> path <> "" -> on_way (h_tables h) path old -> update_output b path old next h = (h', dests, ok) -> on_path path h h' /\ on_way (h_tables h') path dests.
Proof.
  intros Hn Hne HW HU. unfold update_output in HU. destruct (negb _); [by injection HU as <- <- <-|]. destruct (replaceIPTablesIPVSOutput b path _ next h) as [h1 ok1] eqn:E. injection HU as <- <- <-.
  unfold on_way in *. destruct (decide (path = "")) as [|_]; [done|]. destruct HW as (T0 & T & HT0 & Ha & HT & HS & HN).
  destruct (replace_keeps b Hn path Hne T0 Ha _ next h h1 ok1 T E HT) as (T' & HT' & R).
  { split; [done|]. intros HE%negb_false_iff%bool_decide_eq_true. apply HN. by destruct old. }
  split; [by eapply on_path_insert|]. rewrite HT', lookup_insert_eq. exists T0, T'. destruct ok1; destruct R as [R1 R2]; split_and!; try done. intros ->. by apply R2.
Qed.

Lemma near_initial : near H (mkOutput [] []).
Proof.
  destruct Hr as [Hn H4 H6 _]. assert (forall path, (path <> "" -> exists T0, H !! path = Some T0 /\ absent b T0) -> on_way H path []) as HP.
  { intros path HP. unfold on_way. destruct (decide _) as [|Hne]; [done|]. destruct (HP Hne) as (T0 & HT & Ha). exists T0, T0. split_and!; try done; [|intros _; apply (Ha (hook_dns b)); set_solver]. apply (shape_all b Hn T0 Ha T0 []); [set_solver|apply shape_refl]. }
  split_and!; [by apply HP|by apply HP|done].
Qed.
Lemma close_near h out h' out' ok : near (h_tables h) out -> Close b out h = (h', out', ok) -> near (h_tables h') out' /\ (ok = true -> h_tables h' = H /\ out' = mkOutput [] []).
Proof.
  pose proof Hr as [Hn H4 H6 Hne]. intros (W4 & W6 & WQ) HC. unfold Close, cleanupIPTables, s_both in HC. fold p4 in HC. fold p6 in HC. destruct (cleanup_path b p4 h) as [h1 ok1] eqn:E1, (cleanup_path b p6 h1) as [h2 ok2] eqn:E2. injection HC as <- <- <-.
  destruct (path_cleanup p4 (out4 out) h h1 ok1 Hn W4 E1) as ((F1 & F1') & W4' & K1). assert (h_tables h1 !! p6 = h_tables h !! p6) as HX6.
  { destruct (decide (p4 = "")) as [E|E]; [by rewrite F1|]. apply F1'. intros Ee. by apply (Hne E). }
  destruct (path_cleanup p6 (out6 out) h1 h2 ok2 Hn (on_way_at _ _ _ _ HX6 W6) E2) as ((F2 & F2') & W6' & K2). assert (h_tables h2 !! p4 = h_tables h1 !! p4) as HX4.
  { destruct (decide (p6 = "")) as [E|E]; [by rewrite F2|]. apply F2'. intros Ee. destruct (decide (p4 = "")) as [E4|E4]; [congruence|by apply (Hne E4)]. }
  assert (forall q, q <> p4 -> q <> p6 -> h_tables h2 !! q = H !! q) as HQ by (intros q ??; by rewrite F2', F1', WQ). destruct (ok1 && ok2) eqn:EO; [|split; [|done]; split_and!; [by eapply on_way_at|done|done]].
  apply andb_prop in EO as [-> ->]. assert (h_tables h2 = H) as EH.
  { apply map_eq. intros q. destruct (decide (q = p4)) as [->|]; [by rewrite HX4, K1|]. destruct (decide (q = p6)) as [->|]; [by rewrite K2|by apply HQ]. }
  rewrite EH. split; [apply near_initial|done].
Qed.
Lemma path_succeeds path dests X : name_ok b -> on_way X path dests -> exists X', cleanup_path b path (mkHost X []) = (mkHost X' [], true).
Proof.
  intros Hn HW. unfold on_way in HW. destruct (decide (path = "")) as [->|Hne]; [by eexists|]. destruct HW as (T0 & T & _ & Ha & HT & HS & _). destruct (cleanup_path_succeeds b Hn path Hne T0 Ha X T HT HS) as (T' & E). by eexists.
Qed.
(** Without failures Close ends without an error. *)
Lemma close_succeeds X out : near X out -> Close b out (mkHost X []) = (mkHost H [], mkOutput [] [], true).
Proof.
  intros HN. pose proof HN as (W4 & W6 & _). pose proof Hr as [Hn _ _ Hne]. destruct (Close b out (mkHost X [])) as [[h' out'] ok] eqn:E. destruct (close_near (mkHost X []) _ _ _ _ HN E) as [_ HK]. unfold Close, cleanupIPTables, s_both in E. fold p4 in E. fold p6 in E.
  destruct (path_succeeds p4 (out4 out) X Hn W4) as (X1 & E1). rewrite E1 in E. destruct (path_cleanup p4 (out4 out) (mkHost X []) _ _ Hn W4 E1) as ((F1 & F1') & _). cbn [h_tables] in F1, F1'. assert (X1 !! p6 = X !! p6) as HX6.
  { destruct (decide (p4 = "")) as [E4|E4]; [by rewrite F1|]. apply F1'. intros Ee. by apply (Hne E4). }
  destruct (path_succeeds p6 (out6 out) X1 Hn (on_way_at _ _ _ _ HX6 W6)) as (X2 & E2). rewrite E2 in E. cbn [andb] in E. injection E as <- <- <-. destruct (HK eq_refl) as [HX _]. cbn [h_tables] in HX. by rewrite HX.
Qed.
Lemma start_near c h out h' out' ok : near (h_tables h) out -> Start b c out h = (h', out', ok) -> near (h_tables h') out'.
Proof.
  pose proof Hr as [Hn H4 H6 Hne]. intros HN HS. unfold Start in HS. destruct (if bool_decide _ then _ else _); [by injection HS as <- <- <-|]. destruct (Close b out h) as [[h1 out1] ok1] eqn:E1. destruct (close_near h out h1 out1 ok1 HN E1) as [N1 K1].
  destruct ok1; cbn [negb] in HS; [|by injection HS as <- <- <-]. destruct (K1 eq_refl) as [EH ->]. unfold setupIPTables in HS. fold p4 in HS. fold p6 in HS.
  assert (near (h_tables (s_seq (setup_path b p4) (setup_path b p6) h1).1) (mkOutput [] [])) as N2.
  { unfold s_seq. destruct (setup_path b p4 h1) as [h2 ok2] eqn:E2. destruct (path_setup p4 h1 h2 ok2 Hn H4 ltac:(by rewrite EH) E2) as ((F1 & F1') & W4). assert (h_tables h2 !! p6 = H !! p6) as HX6.
    { rewrite <- EH. destruct (decide (p4 = "")) as [E|E]; [by rewrite F1|]. apply F1'. intros Ee. by apply (Hne E). }
    pose proof near_initial as (_ & W6 & _). destruct ok2; cbn [fst].
    - destruct (setup_path b p6 h2) as [h3 ok3] eqn:E3. destruct (path_setup p6 h2 h3 ok3 Hn H6 HX6 E3) as ((F2 & F2') & W6'). cbn [fst]. split_and!; [|done|intros q ??; by rewrite F2', F1', EH].
      eapply on_way_at; [|exact W4]. destruct (decide (p6 = "")) as [E|E]; [by rewrite F2|]. apply F2'. intros Ee. destruct (decide (p4 = "")) as [E4|E4]; [congruence|by apply (Hne E4)].
    - split_and!; [done|by eapply on_way_at|intros q ??; by rewrite F1', EH]. }
  destruct (s_seq _ _ h1) as [h2 ok2]. cbn [fst] in N2. destruct ok2; [by injection HS as <- <- <-|]. destruct (Close b (mkOutput [] []) h2) as [[h3 out3] ok3] eqn:E3. injection HS as <- <- <-. exact (proj1 (close_near h2 (mkOutput [] []) h3 out3 ok3 N2 E3)).
Qed.
(** Updates are for families with a program. *)
Definition op_ok (e : op) : Prop := match e with OpUpdate ipv6 _ => (if ipv6 : bool then p6 else p4) <> "" | _ => True end.
Lemma op_near e h out h' out' ok : op_ok e -> near (h_tables h) out -> run_op e h out = (h', out', ok) -> near (h_tables h') out'.
Proof.
  pose proof Hr as [Hn H4 H6 Hne]. intros Hop HN HE. destruct e as [c|ipv6 next|]; [by eapply start_near| |by eapply (close_near h out)]. cbn [run_op op_ok] in *. destruct HN as (W4 & W6 & WQ). destruct ipv6.
  - destruct (update_output b p6 (out6 out) next h) as [[h1 o6] ok1] eqn:E. injection HE as <- <- <-. destruct (path_update p6 _ next h h1 o6 ok1 Hn Hop W6 E) as ((_ & F) & W6'). split_and!; [|done|intros q ??; by rewrite F, WQ].
    eapply on_way_at; [|exact W4]. apply F. intros Ee. destruct (decide (p4 = "")) as [E4|E4]; [congruence|by apply (Hne E4)].
  - destruct (update_output b p4 (out4 out) next h) as [[h1 o4] ok1] eqn:E. injection HE as <- <- <-. destruct (path_update p4 _ next h h1 o4 ok1 Hn Hop W4 E) as ((_ & F) & W4'). split_and!; [done| |intros q ??; by rewrite F, WQ].
    eapply on_way_at; [|exact W6]. apply F. intros Ee. by apply (Hne Hop).
Qed.
Lemma ops_near es h out : Forall op_ok es -> near (h_tables h) out -> near (h_tables (run_ops es h out).1) (run_ops es h out).2.
Proof.
  intros HF. revert h out. induction HF as [|e es He _ IH]; intros h out HN; [done|]. cbn [run_ops]. destruct (run_op e h out) as [[h1 out1] ok1] eqn:E. by apply IH, (op_near e h out h1 out1 ok1).
Qed.
End Ops.

(** ** The mark *)

(** value/mask: the bits of the mask are cleared, then the value is xored in. *)
Definition read_bits (s : string) : Z := match strip_prefix "0x" s with Some t => read_hex t 0 | None => read_number s end.
Definition set_xmark (s : string) (m : Z) : Z :=
  match split_on "/" s with
  | [value; mask] => Z.lxor (Z.land m (Z.lnot (read_bits mask))) (read_bits value)
  | _ => m
  end.
Lemma hex_value_digit d : (0 <= d < 16)%Z -> hex_value (hex_digit d) = d.
Proof. intros Hd. unfold hex_value, hex_digit. rewrite N_ascii_embedding by (destruct (d <? 10)%Z; lia). destruct (Z.ltb_spec d 10); rewrite Z2N.id by lia; [replace (48 + d <? 58)%Z with true by lia|replace (87 + d <? 58)%Z with false by lia]; lia. Qed.
Lemma read_hex_loop fuel n acc : (0 <= n < 16 ^ Z.of_nat (S fuel))%Z -> read_hex (hex_loop fuel n acc) 0 = read_hex acc n.
Proof.
  revert n acc. induction fuel as [|fuel IH]; intros n acc Hn; cbn [hex_loop].
  - cbn in Hn. cbn [read_hex]. rewrite hex_value_digit by (apply Z.mod_pos_bound; lia). f_equal. rewrite Z.mod_small by lia. lia.
  - destruct (Z.ltb_spec n 16); [cbn [read_hex]; rewrite hex_value_digit by (apply Z.mod_pos_bound; lia); f_equal; rewrite Z.mod_small by lia; lia|]. rewrite Nat2Z.inj_succ, Z.pow_succ_r in Hn by lia.
    rewrite IH by (split; [apply Z.div_pos; lia|apply Z.div_lt_upper_bound; lia]). cbn [read_hex]. rewrite hex_value_digit by (apply Z.mod_pos_bound; lia). f_equal. pose proof (Z.div_mod n 16). lia.
Qed.
Lemma read_hex_text n : (0 <= n)%Z -> read_bits (hex_text n) = n.
Proof.
  intros Hn. unfold read_bits, hex_text. change (strip_prefix "0x" ("0x" ++ ?t)) with (Some t). cbv iota. rewrite read_hex_loop; [done|]. split; [done|]. rewrite Nat2Z.inj_succ, Z2Nat.id by apply Z.log2_nonneg.
  destruct (Z.eq_dec n 0) as [->|]; [done|]. pose proof (Z.log2_spec n ltac:(lia)) as [_ Hl]. eapply Z.lt_le_trans; [exact Hl|]. apply Z.pow_le_mono_l. lia.
Qed.
Lemma hex_loop_lacks c fuel n acc : (Z.of_N (N_of_ascii c) < 48)%Z -> lacks c acc = true -> lacks c (hex_loop fuel n acc) = true.
Proof.
  intros Hc. revert n acc. assert (forall n acc, lacks c acc = true -> lacks c (String (hex_digit (n mod 16)%Z) acc) = true) as HS.
  { intros n acc Ha. cbn [lacks]. rewrite Ha, andb_true_r. unfold hex_digit. pose proof (Z.mod_pos_bound n 16 ltac:(lia)). rewrite ascii_ne by (destruct (_ <? 10)%Z; lia). done. }
  induction fuel as [|fuel IH]; intros n acc Ha; cbn [hex_loop]; [by apply HS|]. destruct (n <? 16)%Z; [by apply HS|apply IH; by apply HS].
Qed.
Lemma hex_text_lacks c n : (Z.of_N (N_of_ascii c) < 48)%Z -> lacks c (hex_text n) = true.
Proof.
  intros Hc. unfold hex_text. rewrite lacks_app, hex_loop_lacks by done. rewrite andb_true_r. cbn [lacks]. rewrite !andb_true_r. apply andb_true_intro. split; apply negb_true_iff, Ascii.eqb_neq; intros <-; cbn in Hc; lia.
Qed.
Lemma set_xmark_text value mask m : (0 <= value)%Z -> (0 <= mask)%Z -> set_xmark (hex_text value ++ "/" ++ hex_text mask) m = Z.lxor (Z.land m (Z.lnot mask)) value.
Proof.
  intros Hv Hm. unfold set_xmark. change ("/" ++ hex_text mask) with (String "/" (hex_text mask)). rewrite split_on_sep, !split_on_lacks by (apply hex_text_lacks; cbn; lia). cbn [app]. by rewrite !read_hex_text.
Qed.
(** Setting the mark twice is setting it once. *)
Lemma remark_twice mask mark m : Z.land mark mask = mark -> Z.lxor (Z.land (Z.lxor (Z.land m (Z.lnot mask)) mark) (Z.lnot mask)) mark = Z.lxor (Z.land m (Z.lnot mask)) mark.
Proof.
  intros Hm. f_equal. apply Z.bits_inj'. intros n Hn. rewrite !Z.land_spec, Z.lxor_spec, Z.land_spec, Z.lnot_spec by done. assert (Z.testbit mark n = Z.testbit mark n && Z.testbit mask n) as -> by (rewrite <- Z.land_spec, Hm; done).
  destruct (Z.testbit m n), (Z.testbit mask n), (Z.testbit mark n); done.
Qed.

Section Marks.
Context `{IptablesAddresses} (b : bypass).
Let o := b_options b.
Definition mark_rules : list ipt_rule :=
  [[("-m", "addrtype"); ("--dst-type", "LOCAL"); ("-j", "MARK"); ("--set-xmark", mark_text b)];
   [("-m", "conntrack"); ("--ctstate", "DNAT"); ("--ctdir", "REPLY"); ("-j", "MARK"); ("--set-xmark", mark_text b)]].
(** To the machine itself, or the answer of a translated connection. *)
Definition bypassed (p : ipt_packet) : bool := String.eqb "LOCAL" (k_dsttype p) || (bool_decide ("DNAT" ∈ k_ctstate p) && String.eqb "REPLY" (k_ctdir p)).
Lemma mark_rules_run run p m : marks_ok o -> run_rules set_xmark run mark_rules p m =
  (if bypassed p then Z.lxor (Z.land m (Z.lnot (autoRouteDNATBypassMask o))) (autoRouteDNATBypassMark o) else m, None).
Proof.
  intros Ho. destruct (bypass_mark_facts o Ho) as ([Hm _] & [Hk _] & HL & _). assert (forall x, set_xmark (mark_text b) x = Z.lxor (Z.land x (Z.lnot (autoRouteDNATBypassMask o))) (autoRouteDNATBypassMark o)) as HX by (intros x; by apply set_xmark_text).
  unfold mark_rules, bypassed. cbn [run_rules].
  assert (rule_match [("-m", "addrtype"); ("--dst-type", "LOCAL"); ("-j", "MARK"); ("--set-xmark", mark_text b)] p = String.eqb "LOCAL" (k_dsttype p)) as -> by (unfold rule_match; cbn; by rewrite andb_true_r).
  assert (rule_match [("-m", "conntrack"); ("--ctstate", "DNAT"); ("--ctdir", "REPLY"); ("-j", "MARK"); ("--set-xmark", mark_text b)] p = bool_decide ("DNAT" ∈ k_ctstate p) && String.eqb "REPLY" (k_ctdir p)) as -> by (unfold rule_match; cbn; by rewrite andb_true_r).
  change (rule_action [("-m", "addrtype"); ("--dst-type", "LOCAL"); ("-j", "MARK"); ("--set-xmark", mark_text b)]) with (SetXmark (mark_text b)). change (rule_action [("-m", "conntrack"); ("--ctstate", "DNAT"); ("--ctdir", "REPLY"); ("-j", "MARK"); ("--set-xmark", mark_text b)]) with (SetXmark (mark_text b)).
  cbv iota. destruct (String.eqb "LOCAL" (k_dsttype p)), (bool_decide ("DNAT" ∈ k_ctstate p)), (String.eqb "REPLY" (k_ctdir p)); cbn [andb orb]; rewrite ?HX; rewrite ?remark_twice by done; done.
Qed.
End Marks.

(** The tables of a family after a setup without error. *)
Lemma setup_success (b : bypass) (path : string) (h h' : host) (T0 : tables) (rules : list ipt_rule) : name_ok b -> path <> "" -> absent b T0 -> h_tables h !! path = Some T0 -> T0 !! ("mangle", "PREROUTING") = Some rules -> setup_path b path h = (h', true) ->
  exists T, h_tables h' = <[path := T]> (h_tables h) /\ T !! ("mangle", chainName b) = Some (mark_rules b) /\ T !! ("mangle", "PREROUTING") = Some (jump (chainName b) :: rules).
Proof.
  intros Hn Hp Ha HT HR HS. destruct (Ha (hook_dnat b) ltac:(set_solver)) as (HN & _). change (own_key (hook_dnat b)) with ("mangle", chainName b) in HN. assert (("mangle", chainName b) <> ("mangle", "PREROUTING")) as Hne by (intros E; destruct Hn as (n & En); rewrite En in E; discriminate E).
  unfold setup_path in HS. destruct (String.eqb_spec path ""); [done|]. unfold s_seq in HS.
  destruct (runIPTables path ["-t"; "mangle"; "-N"; chainName b] h) as [h1 [|]] eqn:E1; [|done]. destruct (runIPTables_effect path _ h h1 true T0 E1 HT) as (T1 & C1 & H1). clear E1.
  match type of HS with (let '(_, _) := ?x in _) = _ => destruct x as [h2 [|]] eqn:E2 end; [|done]. destruct (runIPTables_effect path _ h1 h2 true T1 E2 ltac:(by rewrite H1, lookup_insert_eq)) as (T2 & C2 & H2). clear E2.
  match type of HS with (let '(_, _) := ?x in _) = _ => destruct x as [h3 [|]] eqn:E3 end; [|done]. destruct (runIPTables_effect path _ h2 h3 true T2 E3 ltac:(by rewrite H2, lookup_insert_eq)) as (T3 & C3 & H3). clear E3.
  destruct (runIPTables_effect path _ h3 h' true T3 HS ltac:(by rewrite H3, lookup_insert_eq)) as (T4 & C4 & H4).
  change (ipt_command T0 "mangle" "-N" (chainName b) [] = Some T1) in C1. unfold ipt_command in C1. cbn [String.eqb Ascii.eqb Bool.eqb] in C1. rewrite HN in C1. injection C1 as <-.
  change (ipt_command (<[("mangle", chainName b) := []]> T0) "mangle" "-A" (chainName b) ["-m"; "addrtype"; "--dst-type"; "LOCAL"; "-j"; "MARK"; "--set-xmark"; mark_text b] = Some T2) in C2.
  unfold ipt_command in C2. cbn [String.eqb Ascii.eqb Bool.eqb] in C2. rewrite lookup_insert_eq in C2. cbn in C2. injection C2 as <-.
  change (ipt_command (<[("mangle", chainName b) := [hd [] (mark_rules b)]]> (<[("mangle", chainName b) := []]> T0)) "mangle" "-A" (chainName b) ["-m"; "conntrack"; "--ctstate"; "DNAT"; "--ctdir"; "REPLY"; "-j"; "MARK"; "--set-xmark"; mark_text b] = Some T3) in C3.
  unfold ipt_command in C3. cbn [String.eqb Ascii.eqb Bool.eqb] in C3. rewrite lookup_insert_eq in C3. cbn in C3. injection C3 as <-.
  change (ipt_command (<[("mangle", chainName b) := mark_rules b]> (<[("mangle", chainName b) := [hd [] (mark_rules b)]]> (<[("mangle", chainName b) := []]> T0))) "mangle" "-I" "PREROUTING" ["-j"; chainName b] = Some T4) in C4.
  unfold ipt_command in C4. cbn [String.eqb Ascii.eqb Bool.eqb] in C4. rewrite !lookup_insert_ne in C4 by done. rewrite HR in C4. cbn [mbind option_bind] in C4. change (parse_rule ["-j"; chainName b]) with (Some (jump (chainName b))) in C4. cbn [mbind option_bind] in C4. destruct (target_ok _ _ _); [|done]. injection C4 as <-.
  eexists. split; [by rewrite H4, H3, H2, H1, !insert_insert_eq|]. split; [by rewrite lookup_insert_ne, lookup_insert_eq by (by apply not_eq_sym)|by rewrite lookup_insert_eq].
Qed.
(** Without failures the setup of a family ends without an error. *)
Lemma setup_quiet (b : bypass) (path : string) (X : gmap string tables) (T0 : tables) : name_ok b -> path <> "" -> absent b T0 -> X !! path = Some T0 -> exists T, setup_path b path (mkHost X []) = (mkHost (<[path := T]> X) [], true).
Proof.
  intros Hn Hp Ha HT. destruct (Ha (hook_dnat b) ltac:(set_solver)) as (HN & [rules HR] & _). change (own_key (hook_dnat b)) with ("mangle", chainName b) in HN. change (hook_key (hook_dnat b)) with ("mangle", "PREROUTING") in HR.
  assert (("mangle", chainName b) <> ("mangle", "PREROUTING")) as Hne by (intros E; destruct Hn as (n & En); rewrite En in E; discriminate E).
  unfold setup_path. destruct (String.eqb_spec path ""); [done|]. unfold s_seq. rewrite (run_quiet path X T0) by done. unfold ipt_command at 1. cbn [String.eqb Ascii.eqb Bool.eqb]. rewrite HN.
  erewrite (run_quiet path _ _) by apply lookup_insert_eq. unfold ipt_command at 1. cbn [String.eqb Ascii.eqb Bool.eqb]. rewrite lookup_insert_eq. cbn [mbind option_bind parse_rule known_options existsb String.eqb Ascii.eqb Bool.eqb orb target_ok option_value targets app].
  erewrite (run_quiet path _ _) by apply lookup_insert_eq. unfold ipt_command at 1. cbn [String.eqb Ascii.eqb Bool.eqb]. rewrite lookup_insert_eq. cbn [mbind option_bind parse_rule known_options existsb String.eqb Ascii.eqb Bool.eqb orb target_ok option_value targets app].
  erewrite (run_quiet path _ _) by apply lookup_insert_eq. unfold ipt_command. cbn [String.eqb Ascii.eqb Bool.eqb]. rewrite !lookup_insert_ne by done. rewrite HR. cbn [mbind option_bind]. change (parse_rule ["-j"; chainName b]) with (Some (jump (chainName b))). cbn [mbind option_bind].
  unfold target_ok. cbn [option_value jump String.eqb Ascii.eqb Bool.eqb]. rewrite lookup_insert_eq, (bool_decide_eq_true_2 (is_Some (Some _))), orb_true_r by done. rewrite !insert_insert_eq. by eexists.
Qed.

Section Started.
Context `{IL : IptablesList} (b : bypass) (H : gmap string tables) (Hr : bypass_ready b H).
Let p4 := b_iptablesPath b.
Let p6 := b_ip6tablesPath b.

(** Each family is set up from the tables of before, and stays so. *)
Lemma setup_families (h h' : host) : h_tables h = H -> setupIPTables b h = (h', true) -> forall path, path ∈ [p4; p6] -> path <> "" ->
  exists h1 h2, setup_path b path h1 = (h2, true) /\ h_tables h1 !! path = H !! path /\ h_tables h' !! path = h_tables h2 !! path.
Proof.
  pose proof Hr as [Hn H4 H6 Hne]. fold p4 p6 in H4, H6, Hne. intros HH HS path Hin Hp. unfold setupIPTables, s_seq in HS. fold p4 in HS. fold p6 in HS. destruct (setup_path b p4 h) as [h1 ok1] eqn:E1. destruct ok1; [|done].
  destruct (path_setup b H p4 h h1 true Hn H4 ltac:(by rewrite HH) E1) as ((F1 & F1') & _). assert (h_tables h1 !! p6 = H !! p6) as HX6. { rewrite <- HH. destruct (decide (p4 = "")) as [E|E]; [by rewrite F1|]. apply F1'. intros Ee. by apply (Hne E). }
  destruct (path_setup b H p6 h1 h' true Hn H6 HX6 HS) as ((F2 & F2') & _). apply elem_of_cons in Hin as [-> |Hin]; [exists h, h1; split_and!; [done|by rewrite HH|]|apply list_elem_of_singleton in Hin as ->; by exists h1, h'].
  destruct (decide (p6 = "")) as [E|E]; [by rewrite F2|]. apply F2'. by apply Hne.
Qed.
Lemma start_success (c : conf) (h h' : host) (out out' : ipvsOutput) : near b H (h_tables h) out -> Start b c out h = (h', out', true) -> exists h1, h_tables h1 = H /\ setupIPTables b h1 = (h', true) /\ out' = mkOutput [] [].
Proof.
  intros HN HS. unfold Start in HS. destruct (if bool_decide _ then _ else _); [done|]. destruct (Close b out h) as [[h1 out1] ok1] eqn:E1. destruct (close_near b H Hr h out h1 out1 ok1 HN E1) as [_ K1].
  destruct ok1; cbn [negb] in HS; [|done]. destruct (K1 eq_refl) as [EH ->]. exists h1. destruct (setupIPTables b h1) as [h2 [|]] eqn:E2; [injection HS as <- <-; done|]. by destruct (Close b (mkOutput [] []) h2) as [[? ?] ?].
Qed.
Lemma start_quiet (c : conf) (X : gmap string tables) (out : ipvsOutput) : near b H X out -> (Inet4Address (b_options b) = [] \/ exists w, enableSrcValidMark c = inr w) ->
  exists h', Start b c out (mkHost X []) = (h', mkOutput [] [], true).
Proof.
  pose proof Hr as [Hn H4 H6 Hne]. fold p4 p6 in H4, H6, Hne. intros HN Hc. unfold Start. rewrite (close_succeeds b H Hr X out HN). assert (exists w, (if bool_decide (length (Inet4Address (b_options b)) = 0%nat) then inr false else enableSrcValidMark c) = inr w) as (w & ->).
  { destruct Hc as [E|(w & E)]; rewrite E; [by eexists|]. case_bool_decide; by eexists. }
  cbn [negb]. assert (forall path (X : gmap string tables), (path <> "" -> exists T0, H !! path = Some T0 /\ absent b T0) -> X !! path = H !! path -> exists X', setup_path b path (mkHost X []) = (mkHost X' [], true)) as HQ.
  { intros path Y HP HY. destruct (decide (path = "")) as [->|Hp]; [by exists Y|]. destruct (HP Hp) as (T0 & HT & Ha). rewrite HT in HY. destruct (setup_quiet b path Y T0 Hn Hp Ha HY) as (T & E). by eexists. }
  unfold setupIPTables, s_seq. fold p4. fold p6. destruct (HQ p4 H H4 eq_refl) as (X1 & E1). rewrite E1. destruct (path_setup b H p4 (mkHost H []) _ _ Hn H4 eq_refl E1) as ((F1 & F1') & _). cbn [h_tables] in F1, F1'.
  destruct (HQ p6 X1 H6) as (X2 & E2); [|rewrite E2; by eexists]. destruct (decide (p4 = "")) as [E|E]; [by rewrite F1|]. apply F1'. intros Ee. by apply (Hne E).
Qed.
End Started.

(** ** The properties *)

(** C22: the bypass of translated connections over iptables.  After any history
    of Start, updates and Close in which any commands failed: when the
    sysctls can be read and no command fails any more, [Start] succeeds; and
    when [Start] succeeds, the PREROUTING of each family in use runs the rules
    of before on the packet after giving it the bypass mark (in the bits of the
    mask) exactly when it is for the machine itself or the reply of a
    translated connection. *)
Theorem DNATBypass_iptables_marks `{Addresses : IptablesAddresses} `{IL : IptablesList} (b : bypass) (H : gmap string tables) (es : list op) (fs : list bool) (c : conf) (h h' : host) (out out' : ipvsOutput) :
  bypass_ready b H -> marks_ok (b_options b) -> Forall (op_ok b) es -> run_ops b es (mkHost H fs) (mkOutput [] []) = (h, out) ->
  (h_fails h = [] -> (Inet4Address (b_options b) = [] \/ exists w, enableSrcValidMark c = inr w) -> exists h1, Start b c out h = (h1, mkOutput [] [], true)) /\
  (Start b c out h = (h', out', true) -> out' = mkOutput [] [] /\ forall (path : string) (T0 : tables) (rules : list ipt_rule), path ∈ [b_iptablesPath b; b_ip6tablesPath b] -> path <> "" -> H !! path = Some T0 -> T0 !! ("mangle", "PREROUTING") = Some rules ->
    exists T : tables, h_tables h' !! path = Some T /\ forall (depth : nat) (p : ipt_packet) (m : Z),
      run_chain set_xmark (S (S depth)) T "mangle" "PREROUTING" p m =
      run_rules set_xmark (fun c m => run_chain set_xmark (S depth) T "mangle" c p m) rules p
        (if bypassed p then Z.lxor (Z.land m (Z.lnot (autoRouteDNATBypassMask (b_options b)))) (autoRouteDNATBypassMark (b_options b)) else m)).
Proof.
  intros Hr Hm Hes HE. pose proof (ops_near b H Hr es (mkHost H fs) (mkOutput [] []) Hes (near_initial b H Hr)) as HN. rewrite HE in HN. cbn [fst snd] in HN. split.
  - intros HF Hc. destruct h as [X fs']. cbn [h_fails] in HF. subst fs'. by apply (start_quiet b H Hr).
  - intros HS. destruct (start_success b H Hr c h h' out out' HN HS) as (h1 & HH & HU & ->). split; [done|]. intros path T0 rules Hin Hp HT HR.
    destruct (setup_families b H Hr h1 h' HH HU path Hin Hp) as (ha & hb & E & Ea & ->). pose proof Hr as [Hn H4 H6 _]. assert (absent b T0) as Ha.
    { apply elem_of_cons in Hin as [-> |Hin]; [destruct (H4 Hp) as (T & HT' & Ha)|apply list_elem_of_singleton in Hin as ->; destruct (H6 Hp) as (T & HT' & Ha)]; pose proof (eq_trans (eq_sym HT') HT) as [= ->]; exact Ha. }
    destruct (setup_success b path ha hb T0 rules Hn Hp Ha ltac:(by rewrite Ea) HR E) as (T & -> & HC & HP). exists T. split; [apply lookup_insert_eq|]. intros depth p m. cbn [run_chain]. rewrite HP. cbn [from_option]. unfold id. cbn [run_rules].
    assert (rule_match (jump (chainName b)) p = true) as -> by done. assert (rule_action (jump (chainName b)) = Jump (chainName b)) as -> by (destruct Hn as (n & En); unfold rule_action, jump; cbn [option_value String.eqb Ascii.eqb Bool.eqb]; rewrite En; done).
    rewrite HC. cbn [from_option]. unfold id. by rewrite (mark_rules_run b _ p m Hm).
Qed.

(** C21: the bypass over iptables leaves nothing behind.  After any history of
    Start, updates of the output chain and Close in which any commands failed:
    a [Close] that reports no error has put the tables of every program back
    exactly as they were before and forgotten its destinations, and a [Close]
    none of whose commands fails reports no error. *)
Theorem DNATBypass_Close_exact `{IL : IptablesList} (b : bypass) (H : gmap string tables) (es : list op) (fs : list bool) (h : host) (out : ipvsOutput) :
  bypass_ready b H -> Forall (op_ok b) es -> run_ops b es (mkHost H fs) (mkOutput [] []) = (h, out) ->
  (forall h' out', Close b out h = (h', out', true) -> h_tables h' = H /\ out' = mkOutput [] []) /\ (h_fails h = [] -> Close b out h = (mkHost H [], mkOutput [] [], true)).
Proof.
  intros Hr Hes HE. pose proof (ops_near b H Hr es (mkHost H fs) (mkOutput [] []) Hes (near_initial b H Hr)) as HN. rewrite HE in HN. cbn [fst snd] in HN. split.
  - intros h' out' HC. by apply (close_near b H Hr h out h' out' true HN HC).
  - intros HF. destruct h as [X fs']. cbn [h_fails] in HF. subst fs'. by apply (close_succeeds b H Hr).
Qed.

(** ** A listing *)

(** One that quotes what is not a word with a "#". *)
Definition wordb (s : string) : bool := no_space s && negb (String.eqb s "").
Definition rule_words (c : string) (r : ipt_rule) : list string := "-A" :: c :: flat_map (fun q : string * string => [q.1; q.2]) r.
Definition rule_line (c : string) (r : ipt_rule) : string := if forallb wordb (rule_words c r) then join_words (rule_words c r) else "#".
Definition chain_lines (table : string) (e : (string * string) * list ipt_rule) : list string :=
  if String.eqb (e.1.1) table then app (if existsb (String.eqb (e.1.2)) builtin_chains then ["-P " ++ e.1.2 ++ " ACCEPT"] else ["-N " ++ e.1.2]) (map (rule_line (e.1.2)) (e.2)) else [].
Definition list_lines (T : tables) (table : string) : list string := flat_map (chain_lines table) (map_to_list T).

Lemma wordb_word s : wordb s = true <-> word s.
Proof. unfold wordb, word. rewrite andb_true_iff, negb_true_iff, String.eqb_neq. done. Qed.
Lemma join_words_inj ws ws' : ws <> [] -> ws' <> [] -> Forall word ws -> Forall word ws' -> join_words ws = join_words ws' -> ws = ws'.
Proof.
  intros N N' F F' E. apply (f_equal split_words) in E. rewrite !split_join in E by done. assert (forall l, Forall word l -> flat_map split_words l = l) as HF; [|by rewrite !HF in E].
  induction 1 as [|w l Hw _ IH]; [done|]. cbn [flat_map]. by rewrite split_word, IH.
Qed.
Lemma rule_words_jump r c : flat_map (fun q : string * string => [q.1; q.2]) r = ["-j"; c] <-> r = [("-j", c)].
Proof. split; [|by intros ->]. destruct r as [|[x y] [|q r]]; cbn; intros E; try discriminate E. by injection E as -> ->. Qed.
Lemma rule_line_jump hook c c' r : word hook -> word c -> String.eqb ("-A " ++ hook ++ " -j " ++ c) (rule_line c' r) = bool_decide (c' = hook) && bool_decide (r = [("-j", c)]).
Proof.
  intros Hh Hc. assert ("-A " ++ hook ++ " -j " ++ c = join_words (rule_words hook [("-j", c)])) as EJ by done. assert (Forall word (rule_words hook [("-j", c)])) as FJ by (repeat constructor; done || apply Hh || apply Hc). rewrite EJ.
  unfold rule_line. destruct (forallb wordb (rule_words c' r)) eqn:EW.
  - assert (Forall word (rule_words c' r)) as FW by (apply Forall_forall; intros w Hw; apply wordb_word; rewrite forallb_forall in EW; by apply EW, list_elem_of_In).
    destruct (String.eqb_spec (join_words (rule_words hook [("-j", c)])) (join_words (rule_words c' r))) as [E|N].
    + apply join_words_inj in E; try done. unfold rule_words in E. cbn [flat_map app fst snd] in E. injection E as <- E. symmetry in E. apply (rule_words_jump r c) in E as ->. by rewrite !bool_decide_eq_true_2.
    + symmetry. apply andb_false_iff. destruct (decide (c' = hook)) as [->|]; [right|left; by apply bool_decide_eq_false_2]. apply bool_decide_eq_false_2. intros ->. by apply N.
  - assert (String.eqb (join_words (rule_words hook [("-j", c)])) "#" = false) as -> by done. symmetry. apply andb_false_iff. destruct (decide (c' = hook)) as [->|]; [right|left; by apply bool_decide_eq_false_2]. apply bool_decide_eq_false_2. intros ->.
    apply Bool.not_true_iff_false in EW. apply EW, forallb_forall. intros w Hw. apply wordb_word. rewrite Forall_forall in FJ. by apply FJ, list_elem_of_In.
Qed.
Lemma chain_lines_jump table hook c e : word hook -> word c -> length (List.filter (String.eqb ("-A " ++ hook ++ " -j " ++ c)) (chain_lines table e)) =
  if decide (e.1 = (table, hook)) then length (List.filter (fun r => bool_decide (r = [("-j", c)])) (e.2)) else 0%nat.
Proof.
  intros Hh Hc. destruct e as [[t c'] rs]. unfold chain_lines. cbn [fst snd]. destruct (String.eqb_spec t table) as [->|N]; [|rewrite decide_False by congruence; done].
  rewrite List.filter_app, length_app. assert (length (List.filter (String.eqb ("-A " ++ hook ++ " -j " ++ c)) (if existsb (String.eqb c') builtin_chains then ["-P " ++ c' ++ " ACCEPT"] else ["-N " ++ c'])) = 0%nat) as -> by (by destruct (existsb _ _)). cbn [Nat.add].
  induction rs as [|r rs IH]; [by case_decide|]. cbn [map List.filter]. rewrite rule_line_jump by done. destruct (decide (c' = hook)) as [->|Nc].
  - rewrite decide_True in * by done. rewrite (bool_decide_eq_true_2 (hook = hook)) by done. cbn [andb]. destruct (bool_decide _); cbn [length]; by rewrite IH.
  - rewrite decide_False in * by congruence. rewrite bool_decide_eq_false_2 by done. exact IH.
Qed.
Lemma filter_flat_map {A B} (f : B -> bool) (g : A -> list B) l : length (List.filter f (flat_map g l)) = sum_list (map (fun x => length (List.filter f (g x))) l).
Proof. induction l as [|x l IH]; [done|]. cbn [flat_map map]. by rewrite List.filter_app, length_app, IH. Qed.
#[export] Instance lines_list : IptablesList.
Proof.
  refine {| S_lines := list_lines |}.
  - intros T table c Hc Hb. unfold list_lines. rewrite list_elem_of_In, in_flat_map. split.
    + intros (((t & c') & rs) & Hin & Hl). apply list_elem_of_In, elem_of_map_to_list in Hin. unfold chain_lines in Hl. cbn [fst snd] in Hl. destruct (String.eqb_spec t table) as [->|]; [|done]. apply in_app_iff in Hl as [Hl|Hl].
      * destruct (existsb (String.eqb c') builtin_chains); destruct Hl as [Hl|[]]; [done|]. assert (c' = c) as -> by (injection Hl as E; exact E). by eexists.
      * apply in_map_iff in Hl as (r & Hl & _). unfold rule_line in Hl. by destruct (forallb wordb (rule_words c' r)).
    + intros [rs HT]. exists ((table, c), rs). split; [by apply list_elem_of_In, elem_of_map_to_list|]. unfold chain_lines. cbn [fst snd]. rewrite String.eqb_refl, Hb. by left.
  - intros T table hook c Hh Hc. unfold list_lines. rewrite filter_flat_map. erewrite map_ext by (intros e; by apply chain_lines_jump). induction T as [|key R T HN IH] using map_ind; [done|].
    rewrite (map_to_list_insert T key R HN). cbn [map sum_list fst snd]. rewrite IH. destruct (decide (key = (table, hook))) as [->|Nk]; [rewrite HN, lookup_insert_eq; cbn; lia|by rewrite lookup_insert_ne].
Defined.

(** ** A sample *)

Definition dnat_lookpath (name : string) : option string := Some name.
Definition sample_bypass : bypass := mkBypass (i_tunOptions sample_ipt) "STUN-DNAT-2022" false "iptables" "ip6tables".
Example sample_bypass_new : newAutoRouteDNATBypass dnat_lookpath true (i_tunOptions sample_ipt) = inr sample_bypass.
Proof. vm_compute. reflexivity. Qed.
Definition mangle_tables : tables := {[ ("mangle", "PREROUTING") := [[("-i", "eth0"); ("-j", "MARK"); ("--set-xmark", "0x1/0x0")]]; ("mangle", "OUTPUT") := [] ]}.
Definition mangle_host : gmap string tables := {[ "iptables" := mangle_tables; "ip6tables" := mangle_tables ]}.
Definition sample_conf : conf := mkConf (Content "0") (Some [("lo", true, Content "0"); ("eth0", true, Content "1")]) (Content "0") true.
Example sample_conf_enabled : enableSrcValidMark sample_conf = inr true.
Proof. vm_compute. reflexivity. Qed.
(** Started, with a DNS server behind IPVS, and closed until a command failed. *)
Definition sample_ops : list op := [OpStart sample_conf; OpUpdate false [mkDest 17 (netip.AddrPortFrom (netip.Addr4 [10; 96; 0; 10]) 53)]; OpClose].
Definition sample_run : host * ipvsOutput := run_ops sample_bypass sample_ops (mkHost mangle_host (app (repeat false 18) [true])) (mkOutput [] []).
Lemma mangle_absent : absent sample_bypass mangle_tables.
Proof.
  intros k Hk. rewrite !elem_of_cons, elem_of_nil in Hk. destruct Hk as [-> |[-> |[]]]; (split_and!; [vm_compute; reflexivity|apply (bool_decide_unpack _); vm_compute; exact I|apply norefs_checked; vm_compute; reflexivity]).
Qed.
Lemma sample_bypass_ready : bypass_ready sample_bypass mangle_host.
Proof.
  split; [by exists 2022|intros _; exists mangle_tables; split; [|apply mangle_absent]..|done]; unfold mangle_host; cbn [sample_bypass b_iptablesPath b_ip6tablesPath]; [by rewrite lookup_insert_eq|by rewrite lookup_insert_ne, lookup_singleton_eq].
Qed.
Example sample_left : h_fails sample_run.1 = [] /\ h_tables sample_run.1 <> mangle_host.
Proof. split; [vm_compute; reflexivity|]. apply (bool_decide_unpack _). vm_compute. exact I. Qed.
Lemma sample_marks_ok : marks_ok (b_options sample_bypass).
Proof. repeat split; vm_compute; try discriminate; try reflexivity. Qed.
Lemma sample_ops_ok : Forall (op_ok sample_bypass) sample_ops.
Proof. repeat constructor; done. Qed.

Lemma DNATBypass_iptables_marks_witness : exists (h' : host) (T : tables), Start sample_bypass sample_conf sample_run.2 sample_run.1 = (h', mkOutput [] [], true) /\ h_tables h' !! "ip6tables" = Some T /\
  forall p : ipt_packet, k_dsttype p = "LOCAL" -> k_iif p = "eth0" -> run_chain set_xmark 2 T "mangle" "PREROUTING" p 65536 = (Z.lxor (Z.lxor 65536 (autoRouteDNATBypassMark (b_options sample_bypass))) 1, None).
Proof.
  assert (run_ops sample_bypass sample_ops (mkHost mangle_host (app (repeat false 18) [true])) (mkOutput [] []) = (sample_run.1, sample_run.2)) as HE by apply surjective_pairing.
  destruct (DNATBypass_iptables_marks sample_bypass mangle_host sample_ops _ sample_conf sample_run.1 sample_run.1 sample_run.2 sample_run.2 sample_bypass_ready sample_marks_ok sample_ops_ok HE) as [HS _].
  destruct (HS (proj1 sample_left) (or_intror (ex_intro _ true sample_conf_enabled))) as (h' & HS').
  destruct (proj2 (DNATBypass_iptables_marks sample_bypass mangle_host sample_ops _ sample_conf sample_run.1 h' sample_run.2 (mkOutput [] []) sample_bypass_ready sample_marks_ok sample_ops_ok HE) HS') as [_ HM].
  destruct (HM "ip6tables" mangle_tables [[("-i", "eth0"); ("-j", "MARK"); ("--set-xmark", "0x1/0x0")]]) as (T & HT & HR); [by right; left|done|by unfold mangle_host; rewrite lookup_insert_ne, lookup_singleton_eq|vm_compute; reflexivity|].
  exists h', T. split; [done|]. split; [done|]. intros p Hl Hi. rewrite (HR 0%nat p 65536). assert (bypassed p = true) as -> by (unfold bypassed; by rewrite Hl). cbn [run_rules]. assert (rule_match [("-i", "eth0"); ("-j", "MARK"); ("--set-xmark", "0x1/0x0")] p = true) as -> by (unfold rule_match; cbn [forallb option_match String.eqb Ascii.eqb Bool.eqb]; by rewrite Hi). vm_compute. reflexivity.
Defined.
Lemma DNATBypass_Close_exact_witness : Close sample_bypass sample_run.2 sample_run.1 = (mkHost mangle_host [], mkOutput [] [], true) /\ h_tables sample_run.1 <> mangle_host.
Proof.
  split; [|apply sample_left]. apply (DNATBypass_Close_exact sample_bypass mangle_host sample_ops (app (repeat false 18) [true]) sample_run.1 sample_run.2); [apply sample_bypass_ready|apply sample_ops_ok|apply surjective_pairing|apply sample_left].
Defined.
