(* ===== verification/IpvsRefresh.v ===== *)
(** * The refresh of the IPVS bypass, over nftables and over iptables

    updateIPVSDNSOutput of src/route_ipvs_output_linux.go with both firewalls
    ([DnatNft.replaceNFTIPVSOutput] and [DnatIptables.replaceIPTablesIPVSOutput]),
    updateIPVSDNSRules and refreshIPVSDNSBypass of src/route_ipvs_linux.go.  The
    policy rules of the kernel, the output chains of the firewall in use and the
    recorded destinations stay in step whatever fails, and follow the table when
    nothing does. *)
From stdpp Require Import gmap sorting.
From Stdlib Require Import Ascii String.
From S2P Require Import Prelude Bytes GoMem TsChecksum Netip TunOptions Netlink RouteMark Ipvs IpvsParse IpvsSpec Nft NftSpec RedirectNft RedirectSets RedirectSpec DnatNft.
From S2P Require Import Iptables RedirectIptables RedirectIptablesSpec IptablesSetup DnatIptables.
#[local] Open Scope string_scope.

(** ** The firewall *)

(** The tables of nftables as a connection sees them, and those of iptables. *)
Record firewall := mkFirewall { fw_nft : conn; fw_host : host }.
(** A batch that does not end without an error changes nothing. *)
Definition transaction (x : nft unit) (c : conn) : conn * bool :=
  match x c with
  | (c', inr _) => (c', true)
  | (c', inl _) => (mkConn (c_sets c) (c_chains c) (c_rules c) (c_allocSetID c) (c_fail c'), false)
  end.

(** NativeTun.dnatBypass with its ipvsOutput, NativeTun.ipvsDNSBypass.destinations. *)
Record tun_state := mkTun { dnatBypass : option (bypass * ipvsOutput); destinations : list ipvsDNSDestination }.

Section Output.
Context (le : bool) (b : bypass).
Definition family_path (ipv6 : bool) : string := if ipv6 then b_ip6tablesPath b else b_iptablesPath b.
(** One family: the firewall is asked only when the destinations changed. *)
Definition update_family (fw : firewall) (ipv6 : bool) (old next : list ipvsDNSDestination) : firewall * list ipvsDNSDestination * list bool :=
  if negb (ipvsDNSDestinationsChanged old next) then (fw, old, [])
  else
    let '(fw, ok) :=
      if useNFTables b then
        let '(c, ok) := transaction (replaceNFTIPVSOutput le (b_options b) ipv6 next) (fw_nft fw) in (mkFirewall c (fw_host fw), ok)
      else
        let '(h, ok) := replaceIPTablesIPVSOutput b (family_path ipv6) (negb (bool_decide (length old = 0%nat))) next (fw_host fw) in (mkFirewall (fw_nft fw) h, ok) in
    if ok : bool then (fw, next, []) else (fw, old, [ipv6]).
(** The families that failed. *)
Definition updateIPVSDNSOutput (fw : firewall) (out : ipvsOutput) (ds : list ipvsDNSDestination) : firewall * ipvsOutput * list bool :=
  let '(fw, o4, e4) := update_family fw false (out4 out) (family_dests (b_options b) false ds) in
  let '(fw, o6, e6) := update_family fw true (out6 out) (family_dests (b_options b) true ds) in
  (fw, mkOutput o4 o6, app e4 e6).
End Output.

Section Refresh.
Context {W : Type} `{RuleStore W} (le : bool) (o : Options).
(** The output chains change through the state of the DNAT bypass. *)
Definition updateIPVSDNSRules (w : W) (fw : firewall) (dnat : option (bypass * ipvsOutput)) (oldDestinations newDestinations : list ipvsDNSDestination) :
  W * firewall * option (bypass * ipvsOutput) * list ipvsDNSDestination * option ipvs_error :=
  let currentDestinations : gset ipvsDNSDestination := list_to_set oldDestinations in
  let '(w, current, err) := add_loop o (is_some dnat) (ipvsDNSDestinationDifference newDestinations oldDestinations) w currentDestinations in
  match err with
  | Some e => (w, fw, dnat, sortedIPVSDNSDestinations current, Some e)
  | None =>
      let '(fw, dnat', errs) :=
        match dnat with
        | Some (b, out) => let '(fw, out, errs) := updateIPVSDNSOutput le b fw out newDestinations in (fw, Some (b, out), errs)
        | None => (fw, None, [])
        end in
      match errs with
      | _ :: _ => (w, fw, dnat', sortedIPVSDNSDestinations current, Some (OutputError errs))
      | [] =>
          let '(w, current, err) := delete_loop o (is_some dnat) (ipvsDNSDestinationDifference oldDestinations newDestinations) w current in
          (w, fw, dnat', sortedIPVSDNSDestinations current, err)
      end
  end.

(** refreshIPVSDNSBypass with the result of Load (an error, or the destinations;
    a missing file has none). *)
Definition refreshIPVSDNSBypass (w : W) (fw : firewall) (t : tun_state) (loaded : option (list ipvsDNSDestination)) : W * firewall * tun_state * option ipvs_error :=
  match loaded with
  | None => (w, fw, t, None)
  | Some newDestinations =>
      let oldDestinations := destinations t in
      if ipvsDNSDestinationsChanged oldDestinations newDestinations then
        let '(w, fw, dnat, installed, err) := updateIPVSDNSRules w fw (dnatBypass t) oldDestinations newDestinations in
        (w, fw, mkTun dnat installed, err)
      else
        match dnatBypass t with
        | Some (b, out) =>
            let '(fw, out, errs) := updateIPVSDNSOutput le b fw out newDestinations in
            (w, fw, mkTun (Some (b, out)) oldDestinations, match errs with [] => None | _ => Some (OutputError errs) end)
        | None => (w, fw, t, None)
        end
  end.
End Refresh.

(** ** What a firewall selects *)

(** nftables: the chain of the family is there when it has to select something,
    with the rules of [replaceNFTIPVSOutput_marks]. *)
Definition nft_selects (le : bool) (o : Options) (c : conn) (ipv6 : bool) (ds : list ipvsDNSDestination) : Prop :=
  rules_of_chain c (ch_Name (outputChain ipv6)) = output_rules le o ipv6 ds /\ (outputChain ipv6 ∈ c_chains c <-> ds <> []).
Lemma output_names : ch_Name (outputChain false) <> ch_Name (outputChain true).
Proof. done. Qed.
Lemma replace_chains le o ipv6 targets c c' : replaceNFTIPVSOutput le o ipv6 targets c = (c', inr tt) ->
  c_chains c' = match targets with [] => List.filter (fun ch => negb (String.eqb (ch_Name ch) (ch_Name (outputChain ipv6)))) (c_chains c) | _ => app (c_chains c) [outputChain ipv6] end.
Proof.
  unfold replaceNFTIPVSOutput. intros (c1 & [] & E1 & E)%nbind_ok. apply attempt_ok in E1 as (_ & C1 & _). cbv zeta in *. destruct targets as [|t ts].
  - unfold nbind, FlushChain, DelChain, Flush in E. apply attempt_ok in E as (_ & C2 & _). cbn [c_chains] in C2. by rewrite C2, C1.
  - set (targets := t :: ts) in *. clearbody targets.
    unfold nbind at 1 2 3 4, AddChain, FlushChain, AddRule at 1 2 in E. cbn [c_sets c_chains c_rules c_allocSetID c_fail] in E. unfold nbind in E. rewrite nfor_rules in E. apply attempt_ok in E as (_ & C2 & _).
    cbn [c_chains] in C2. by rewrite C2, C1.
Qed.
Lemma chain_elem ipv6 c targets : outputChain ipv6 ∈ match targets with [] => List.filter (fun ch => negb (String.eqb (ch_Name ch) (ch_Name (outputChain ipv6)))) (c_chains c) | _ => app (c_chains c) [outputChain ipv6] end <-> (targets : list ipvsDNSDestination) <> [].
Proof.
  destruct targets as [|t ts]; [|rewrite elem_of_app, list_elem_of_singleton; naive_solver]. rewrite list_elem_of_In, filter_In, String.eqb_refl. cbn [negb]. naive_solver.
Qed.
Lemma chain_elem_other ipv6 c (targets : list ipvsDNSDestination) : outputChain (negb ipv6) ∈ match targets with [] => List.filter (fun ch => negb (String.eqb (ch_Name ch) (ch_Name (outputChain ipv6)))) (c_chains c) | _ => app (c_chains c) [outputChain ipv6] end <-> outputChain (negb ipv6) ∈ c_chains c.
Proof.
  assert (outputChain (negb ipv6) <> outputChain ipv6) as Hne by (by destruct ipv6). destruct targets as [|t ts].
  - rewrite list_elem_of_In, filter_In, <- list_elem_of_In. assert (String.eqb (ch_Name (outputChain (negb ipv6))) (ch_Name (outputChain ipv6)) = false) as -> by (by destruct ipv6). cbn [negb]. tauto.
  - rewrite elem_of_app, list_elem_of_singleton. tauto.
Qed.
Lemma nft_replace le o ipv6 next c c' ok ds : transaction (replaceNFTIPVSOutput le o ipv6 next) c = (c', ok) ->
  (if ok : bool then nft_selects le o c' ipv6 next else nft_selects le o c' ipv6 ds <-> nft_selects le o c ipv6 ds) /\
  (forall ds', nft_selects le o c' (negb ipv6) ds' <-> nft_selects le o c (negb ipv6) ds').
Proof.
  unfold transaction. destruct (replaceNFTIPVSOutput le o ipv6 next c) as [c1 [e|[]]] eqn:E; intros [= <- <-]; [done|]. destruct (replace_rules le o ipv6 next c c1 E) as [_ R1]. pose proof (replace_chains le o ipv6 next c c1 E) as C1.
  unfold nft_selects. rewrite C1. split.
  - rewrite chain_elem. split; [|done]. unfold rules_of_chain. fold (own (ch_Name (outputChain ipv6)) (c_rules c1)). by rewrite R1, own_app, own_filter_same, own_all.
  - intros ds'. rewrite chain_elem_other. assert (rules_of_chain c1 (ch_Name (outputChain (negb ipv6))) = rules_of_chain c (ch_Name (outputChain (negb ipv6)))) as ->; [|tauto].
    assert (ch_Name (outputChain ipv6) <> ch_Name (outputChain (negb ipv6))) as Hne by (by destruct ipv6). unfold rules_of_chain. match goal with |- map snd (List.filter _ ?l) = _ => change (own (ch_Name (outputChain (negb ipv6))) l = own (ch_Name (outputChain (negb ipv6))) (c_rules c)) end.
    rewrite R1, own_app, own_filter_other, own_pairs_other by done. apply app_nil_r.
Qed.

(** iptables: the chain of the family holds the rules of the destinations and
    OUTPUT jumps to it once, or there is neither. *)
Section Iptables.
Context (b : bypass) (Hn : DnatIptables.name_ok b).
Let chain := ipvsOutputChain b.
Definition output_rule (d : ipvsDNSDestination) : ipt_rule :=
  [("-o", Name (b_options b)); ("-d", Addr_String (d_addr d)); ("-p", itoa (protocol d)); ("--dport", itoa (d_port d)); ("-j", "MARK"); ("--xor-mark", hex_text (autoRouteDNATBypassMark (b_options b)))].
Definition table_selects (T : tables) (ds : list ipvsDNSDestination) : Prop :=
  T !! ("mangle", chain) = match ds with [] => None | _ => Some (map output_rule ds) end /\
  exists L, T !! ("mangle", "OUTPUT") = Some L /\ length (List.filter (jumps_to chain) L) = match ds with [] => 0%nat | _ => 1%nat end.
Definition ipt_selects (h : host) (path : string) (ds : list ipvsDNSDestination) : Prop :=
  match h_tables h !! path with Some T => table_selects T ds | None => ds = [] end.

Lemma own_not_output : ("mangle", chain) <> ("mangle", "OUTPUT").
Proof. destruct Hn as (n & E). unfold chain, ipvsOutputChain. rewrite E. intros [=]. Qed.
Lemma jumps_jump : jumps_to chain (jump chain) = true.
Proof. unfold jumps_to, jump. cbn. apply String.eqb_refl. Qed.
Lemma remove_first_jumps L L' : remove_first (jump chain) L = Some L' -> length (List.filter (jumps_to chain) L) = S (length (List.filter (jumps_to chain) L')).
Proof.
  revert L'. induction L as [|r L IH]; intros L' E; [done|]. cbn [remove_first] in E. destruct (decide (jump chain = r)) as [<-|Hne].
  - injection E as <-. cbn [List.filter]. by rewrite jumps_jump.
  - destruct (remove_first (jump chain) L) as [L1|]; [|done]. injection E as <-. cbn [List.filter]. destruct (jumps_to chain r); cbn [length]; by rewrite (IH L1).
Qed.
Lemma restore_rules targets T T' R : T !! ("mangle", chain) = Some R -> restore "mangle" T (map (output_line b) targets) = Some T' -> T' = <[("mangle", chain) := app R (map output_rule targets)]> T.
Proof.
  revert T R. induction targets as [|d targets IH]; intros T R HT HR; [injection HR as <-; cbn [map]; by rewrite app_nil_r, insert_id|]. cbn [map] in HR. rewrite restore_cons in HR.
  assert (restore_line "mangle" T (output_line b d) = Some (<[("mangle", chain) := app R [output_rule d]]> T)) as E.
  { change (restore_line "mangle" T (output_line b d)) with (ipt_command T "mangle" "-A" chain (drop 2 (output_line b d))). unfold ipt_command. cbn [String.eqb Ascii.eqb Bool.eqb]. rewrite HT. reflexivity. }
  rewrite E in HR. cbn [mbind option_bind] in HR. rewrite (IH _ (app R [output_rule d]) (lookup_insert_eq _ _ _) HR), insert_insert_eq. cbn [map]. by rewrite <- app_assoc.
Qed.
(** The three forms of the input, whether the chain existed being told rightly. *)
Lemma restore_selects old next T T' : table_selects T old -> restore "mangle" T (output_lines b (negb (bool_decide (length old = 0%nat))) next) = Some T' -> table_selects T' next.
Proof.
  intros (HC & L & HL & HJ) HR. pose proof own_not_output as Hne. destruct next as [|d next]; cbn [output_lines] in HR.
  - rewrite restore_cons in HR. destruct (restore_line "mangle" T _) as [T1|] eqn:E1; [|done]. cbn [mbind option_bind] in HR. rewrite restore_cons in HR. destruct (restore_line "mangle" T1 _) as [T2|] eqn:E2; [|done]. cbn [mbind option_bind] in HR.
    rewrite restore_cons in HR. destruct (restore_line "mangle" T2 _) as [T3|] eqn:E3; [|done]. injection HR as <-. fold chain in E1, E2, E3.
    change (ipt_command T "mangle" "-D" "OUTPUT" ["-j"; chain] = Some T1) in E1. change (ipt_command T1 "mangle" "-F" chain [] = Some T2) in E2. change (ipt_command T2 "mangle" "-X" chain [] = Some T3) in E3.
    unfold ipt_command in E1, E2, E3. cbn [String.eqb Ascii.eqb Bool.eqb] in E1, E2, E3. rewrite HL in E1. cbn [mbind option_bind] in E1. change (parse_rule ["-j"; chain]) with (Some (jump chain)) in E1. cbn [mbind option_bind] in E1.
    destruct (remove_first (jump chain) L) as [L'|] eqn:ER; [|done]. injection E1 as <-. apply remove_first_jumps in ER. rewrite lookup_insert_ne in E2 by (by apply not_eq_sym). destruct (T !! ("mangle", chain)) as [R|]; [|done]. injection E2 as <-.
    rewrite lookup_insert_eq in E3. cbn [mbind option_bind] in E3. destruct (_ || _); [done|]. injection E3 as <-. split; [by rewrite lookup_delete_eq|]. exists L'. rewrite lookup_delete_ne, lookup_insert_ne, lookup_insert_eq by done. split; [done|]. destruct old; lia.
  - destruct old as [|d0 old]; cbn [length bool_decide decide Nat.eq_dec] in HR.
    + rewrite bool_decide_eq_true_2 in HR by done. cbn [negb app] in HR. rewrite restore_cons in HR. change (restore_line "mangle" T [String.append ":" (ipvsOutputChain b); "-"; "[0:0]"]) with (Some (<[("mangle", chain) := []]> T)) in HR. cbn [mbind option_bind] in HR.
      rewrite restore_cons in HR. destruct (restore_line "mangle" _ ["-A"; "OUTPUT"; "-j"; ipvsOutputChain b]) as [T1|] eqn:E1; [|done]. cbn [mbind option_bind] in HR. fold chain in E1. change (ipt_command (<[("mangle", chain) := []]> T) "mangle" "-A" "OUTPUT" ["-j"; chain] = Some T1) in E1.
      unfold ipt_command in E1. cbn [String.eqb Ascii.eqb Bool.eqb] in E1. rewrite lookup_insert_ne, HL in E1 by done. cbn [mbind option_bind] in E1. change (parse_rule ["-j"; chain]) with (Some (jump chain)) in E1. cbn [mbind option_bind] in E1. destruct (target_ok _ _ _); [|done]. injection E1 as <-.
      apply (restore_rules (d :: next) _ _ []) in HR; [|by rewrite lookup_insert_ne, lookup_insert_eq by (by apply not_eq_sym)]. subst T'. split; [by rewrite lookup_insert_eq|]. exists (app L [jump chain]). rewrite lookup_insert_ne, lookup_insert_eq by done. split; [done|].
      rewrite List.filter_app, length_app, HJ. cbn [List.filter]. by rewrite jumps_jump.
    + rewrite bool_decide_eq_false_2 in HR by done. cbn [negb app] in HR. rewrite restore_cons in HR. destruct (restore_line "mangle" T ["-F"; ipvsOutputChain b]) as [T1|] eqn:E1; [|done]. cbn [mbind option_bind] in HR. fold chain in E1. change (ipt_command T "mangle" "-F" chain [] = Some T1) in E1.
      unfold ipt_command in E1. cbn [String.eqb Ascii.eqb Bool.eqb] in E1. rewrite HC in E1. injection E1 as <-. apply (restore_rules (d :: next) _ _ []) in HR; [|by rewrite lookup_insert_eq]. subst T'. split; [by rewrite lookup_insert_eq|].
      exists L. rewrite !lookup_insert_ne by done. done.
Qed.
Lemma ipt_replace path old next h h' ok : ipt_selects h path old -> replaceIPTablesIPVSOutput b path (negb (bool_decide (length old = 0%nat))) next h = (h', ok) ->
  ipt_selects h' path (if ok : bool then next else old) /\ (forall q, q <> path -> h_tables h' !! q = h_tables h !! q) /\ (is_Some (h_tables h' !! path) <-> is_Some (h_tables h !! path)).
Proof.
  intros HS HR. unfold replaceIPTablesIPVSOutput in HR. destruct (default false _); [by injection HR as <- <-|]. unfold ipt_selects in *. destruct (h_tables h !! path) as [T|] eqn:ET; cbn [mbind option_bind] in HR; [|injection HR as <- <-; cbn [h_tables]; by rewrite ET].
  destruct (restore "mangle" T _) as [T'|] eqn:ER; injection HR as <- <-; cbn [h_tables]; [|by rewrite ET]. rewrite lookup_insert_eq. split; [by eapply restore_selects|]. split; [intros q ?; by rewrite lookup_insert_ne|done].
Qed.
End Iptables.

(** The output chain of a family in the firewall that is used. *)
Definition selects (le : bool) (b : bypass) (fw : firewall) (ipv6 : bool) (ds : list ipvsDNSDestination) : Prop :=
  if useNFTables b then nft_selects le (b_options b) (fw_nft fw) ipv6 ds else ipt_selects b (fw_host fw) (family_path b ipv6) ds.
(** As newAutoRouteDNATBypass makes it: a family without addresses has no
    program. *)
Definition bypass_ok (b : bypass) : Prop := DnatIptables.name_ok b /\ (b_iptablesPath b = b_ip6tablesPath b -> b_iptablesPath b = "").
(** No program has the empty path. *)
Definition firewall_ok (fw : firewall) : Prop := h_tables (fw_host fw) !! "" = None.

Lemma changed_spec a b : ipvsDNSDestinationsChanged a b = false <-> a = b.
Proof.
  unfold ipvsDNSDestinationsChanged. destruct (Nat.eqb_spec (length a) (length b)) as [Hl|Hl]; cbn [negb].
  - revert b Hl. induction a as [|x a IH]; intros [|y b] Hl; cbn in *; try done. rewrite orb_false_iff, IH by lia.
    rewrite negb_false_iff, bool_decide_eq_true. naive_solver.
  - split; [done|]. intros ->. done.
Qed.
Lemma other_path b f : bypass_ok b -> family_path b f = family_path b (negb f) -> family_path b f = "".
Proof. intros [_ Hp]. destruct f; cbn [family_path negb]; [intros E; rewrite E; by apply Hp|exact Hp]. Qed.
Lemma update_family_ok le b fw f old next fw' out errs : bypass_ok b -> firewall_ok fw -> selects le b fw f old -> update_family le b fw f old next = (fw', out, errs) ->
  firewall_ok fw' /\ selects le b fw' f out /\ (forall ds, selects le b fw (negb f) ds -> selects le b fw' (negb f) ds) /\ (out = old \/ out = next) /\ (errs = [] -> out = next).
Proof.
  intros Hb Hf Ho. unfold update_family. destruct (ipvsDNSDestinationsChanged old next) eqn:EC; cbn [negb].
  2:{ apply changed_spec in EC as <-. intros [= <- <- <-]. split_and!; try done; by left. }
  unfold selects in *. destruct (useNFTables b).
  - destruct (transaction _ (fw_nft fw)) as [c ok] eqn:E. destruct (nft_replace le (b_options b) f next (fw_nft fw) c ok old E) as [H1 H2]. destruct ok; intros [= <- <- <-]; cbn [fw_nft]; (split_and!; [exact Hf| |intros ds; apply H2|auto|done]); [exact H1|by apply H1].
  - destruct (replaceIPTablesIPVSOutput b (family_path b f) _ next (fw_host fw)) as [h ok] eqn:E. destruct (ipt_replace b (proj1 Hb) (family_path b f) old next (fw_host fw) h ok Ho E) as (H1 & H2 & H3).
    assert (firewall_ok (mkFirewall (fw_nft fw) h)) as Hf'.
    { unfold firewall_ok in *. cbn [fw_host]. destruct (decide (family_path b f = "")) as [Ep|Ep]; [|by rewrite H2 by congruence]. rewrite Ep in H3. destruct (h_tables h !! ""); [|done]. rewrite Hf in H3. by destruct (proj1 H3 (ex_intro _ _ eq_refl)). }
    assert (forall ds, ipt_selects b (fw_host fw) (family_path b (negb f)) ds -> ipt_selects b h (family_path b (negb f)) ds) as HX.
    { intros ds. unfold ipt_selects. destruct (decide (family_path b f = family_path b (negb f))) as [Ep|Ep]; [|by rewrite H2 by congruence]. pose proof (other_path b f Hb Ep) as E0. rewrite <- Ep, E0. unfold firewall_ok in Hf, Hf'. cbn [fw_host] in Hf'. by rewrite Hf, Hf'. }
    destruct ok; intros [= <- <- <-]; cbn [fw_host]; split_and!; auto; done.
Qed.
Definition outputs_of (le : bool) (b : bypass) (fw : firewall) (out : ipvsOutput) : Prop := firewall_ok fw /\ selects le b fw false (out4 out) /\ selects le b fw true (out6 out).
(** What the chains select when they are up to date. *)
Definition outputs_for (b : bypass) (ds : list ipvsDNSDestination) : ipvsOutput := mkOutput (family_dests (b_options b) false ds) (family_dests (b_options b) true ds).
Lemma updateIPVSDNSOutput_ok le b fw out ds fw' out' errs : bypass_ok b -> outputs_of le b fw out -> updateIPVSDNSOutput le b fw out ds = (fw', out', errs) ->
  outputs_of le b fw' out' /\ (out4 out' = out4 out \/ out4 out' = family_dests (b_options b) false ds) /\ (out6 out' = out6 out \/ out6 out' = family_dests (b_options b) true ds) /\
  (errs = [] -> out' = outputs_for b ds).
Proof.
  intros Hb (Hf & H4 & H6). unfold updateIPVSDNSOutput.
  destruct (update_family le b fw false (out4 out) _) as [[f1 o4] e4] eqn:E4. apply update_family_ok in E4 as (F4 & O4 & N4 & C4 & S4); [|done..].
  destruct (update_family le b f1 true (out6 out) _) as [[f2 o6] e6] eqn:E6. apply update_family_ok in E6 as (F6 & O6 & N6 & C6 & S6); [|done|done|by apply N4].
  intros [= <- <- <-]. split_and!; [split_and!; [done|by apply N6|done]|done|done|]. intros [-> ->]%app_eq_nil. by rewrite S4, S6.
Qed.

(** ** The rules follow the destinations *)

Section Follow.
Context {W : Type} `{RuleStore W} (le : bool) (o : Options).

(** The rules in the kernel are those of the set. *)
Definition rules_of (dnat : bool) (w : W) (c : gset ipvsDNSDestination) : Prop :=
  forall d r, ipvsDNSRule o dnat d = Some r -> has_rule w r <-> d ∈ c.

Lemma addIPVSDNSRule_ok w r w' e : addIPVSDNSRule w r = (w', e) ->
  forall r', has_rule w' r' <-> has_rule w r' \/ (e = None /\ r' = r).
Proof.
  unfold addIPVSDNSRule. destruct (RuleAdd w r) as [w1 e1] eqn:E. apply RuleAdd_ok in E as (HA & HE).
  case_bool_decide as Hd; intros [= <- <-]; [|done]. subst e1. intros r'. rewrite HA. specialize (HE eq_refl).
  split; [intros [|[? _]]; [by left|done]|intros [|[_ ->]]; by left].
Qed.
Lemma deleteIPVSDNSRule_ok w r w' e : deleteIPVSDNSRule w r = (w', e) ->
  forall r', has_rule w' r' <-> has_rule w r' /\ (e = None -> r' <> r).
Proof.
  unfold deleteIPVSDNSRule. destruct (RuleDel w r) as [w1 e1] eqn:E. apply RuleDel_ok in E as (HA & HE).
  destruct (bool_decide (e1 = Some ENOENT) || bool_decide (e1 = Some ESRCH)) eqn:Hd; intros [= <- <-]; [|done].
  assert (e1 = Some ENOENT \/ e1 = Some ESRCH) as He by (apply orb_true_iff in Hd as [?%bool_decide_eq_true|?%bool_decide_eq_true]; auto).
  specialize (HE He). intros r'. rewrite HA. split; [|by intros [? _]; split; [|by destruct He as [->| ->]]].
  intros [Hr _]. split; [done|]. intros _ ->. done.
Qed.

Lemma add_loop_ok dnat ds w c w' c' err : rules_of dnat w c -> add_loop o dnat ds w c = (w', c', err) ->
  rules_of dnat w' c' /\ c ⊆ c' /\ c' ⊆ c ∪ list_to_set ds /\ (err = None -> c' = c ∪ list_to_set ds).
Proof.
  revert w c. induction ds as [|d ds IH]; intros w c Hr; cbn [add_loop list_to_set].
  { intros [= <- <- <-]. split_and!; try done; set_solver. }
  destruct (ipvsDNSRule o dnat d) as [r|] eqn:ER.
  - destruct (addIPVSDNSRule w r) as [w1 e1] eqn:E1. pose proof (addIPVSDNSRule_ok _ _ _ _ E1) as HA. destruct e1 as [e1|].
    + intros [= <- <- <-]. split_and!; [|done|clear; set_solver|done]. intros d' r' E'. rewrite HA, (Hr d' r' E'). naive_solver.
    + intros EL. apply IH in EL as (H1 & H3 & H4 & H5).
      * split_and!; [done|clear -H3; set_solver|clear -H4; set_solver|intros He; rewrite (H5 He); clear; set_solver].
      * intros d' r' E'. rewrite HA, (Hr d' r' E'), elem_of_union, elem_of_singleton. split; [|intros [->|?]; [right; split; congruence|by left]].
        intros [?|[_ ->]]; [by right|left]. by eapply ipvsDNSRule_inj.
  - intros EL. apply IH in EL as (H1 & H3 & H4 & H5).
    + split_and!; [done|clear -H3; set_solver|clear -H4; set_solver|intros He; rewrite (H5 He); clear; set_solver].
    + intros d' r' E'. rewrite (Hr d' r' E'). assert (d' <> d) as Hd by congruence. clear -Hd. set_solver.
Qed.
Lemma delete_loop_ok dnat ds w c w' c' err : rules_of dnat w c -> delete_loop o dnat ds w c = (w', c', err) ->
  rules_of dnat w' c' /\ c' ⊆ c /\ c ∖ list_to_set ds ⊆ c' /\ (err = None -> c' = c ∖ list_to_set ds).
Proof.
  revert w c. induction ds as [|d ds IH]; intros w c Hr; cbn [delete_loop list_to_set].
  { intros [= <- <- <-]. split_and!; try done; set_solver. }
  destruct (ipvsDNSRule o dnat d) as [r|] eqn:ER.
  - destruct (deleteIPVSDNSRule w r) as [w1 e1] eqn:E1. pose proof (deleteIPVSDNSRule_ok _ _ _ _ E1) as HA. destruct e1 as [e1|].
    + intros [= <- <- <-]. split_and!; [|done|clear; set_solver|done]. intros d' r' E'. rewrite HA, (Hr d' r' E'). naive_solver.
    + intros EL. apply IH in EL as (H1 & H3 & H4 & H5).
      * split_and!; [done|clear -H3; set_solver|clear -H4; set_solver|intros He; rewrite (H5 He); clear; set_solver].
      * intros d' r' E'. rewrite HA, (Hr d' r' E'), elem_of_difference, elem_of_singleton. split.
        -- intros [? Hn]. split; [done|]. intros ->. apply Hn; [done|congruence].
        -- intros [? Hn]. split; [done|]. intros _ ->. apply Hn. by eapply ipvsDNSRule_inj.
  - intros EL. apply IH in EL as (H1 & H3 & H4 & H5).
    + split_and!; [done|clear -H3; set_solver|clear -H4; set_solver|intros He; rewrite (H5 He); clear; set_solver].
    + intros d' r' E'. rewrite (Hr d' r' E'). assert (d' <> d) as Hd by congruence. clear -Hd. set_solver.
Qed.

Lemma family_dests_incl o' f ds d : d ∈ family_dests o' f ds -> d ∈ ds.
Proof. unfold family_dests. rewrite !list_elem_of_In, filter_In. tauto. Qed.
Lemma difference_set a b : list_to_set (ipvsDNSDestinationDifference a b) =@{gset ipvsDNSDestination} list_to_set a ∖ list_to_set b.
Proof.
  apply set_eq. intros d. rewrite elem_of_difference, !elem_of_list_to_set. unfold ipvsDNSDestinationDifference.
  rewrite list_elem_of_In, filter_In, <- list_elem_of_In, negb_true_iff, bool_decide_eq_false, elem_of_list_to_set. done.
Qed.

(** The whole state is in step: the rules in the kernel are those of the
    recorded destinations, the chains of the firewall are the recorded ones, and
    every endpoint the chains select has its destination recorded, so its rule
    installed. *)
Definition in_step (w : W) (fw : firewall) (t : tun_state) : Prop :=
  rules_of (is_some (dnatBypass t)) w (list_to_set (destinations t)) /\
  match dnatBypass t with
  | Some (b, out) => bypass_ok b /\ outputs_of le b fw out /\ forall d, d ∈ out4 out \/ d ∈ out6 out -> d ∈ destinations t
  | None => True
  end.

Lemma sorted_of_canonical ds : dests_wf ds -> canonical ds -> sortedIPVSDNSDestinations (list_to_set ds) = ds.
Proof. intros Hw [Hn Hs]. apply sorted_canonical; try done. intros d. by rewrite elem_of_list_to_set. Qed.
Definition same_bypass (dnat dnat' : option (bypass * ipvsOutput)) : Prop := option_map fst dnat' = option_map fst dnat.
Definition up_to_date (dnat : option (bypass * ipvsOutput)) (ds : list ipvsDNSDestination) : option (bypass * ipvsOutput) := option_map (fun p => (p.1, outputs_for p.1 ds)) dnat.
Lemma updateIPVSDNSRules_ok w fw dnat old new w' fw' dnat' installed err :
  in_step w fw (mkTun dnat old) -> updateIPVSDNSRules le o w fw dnat old new = (w', fw', dnat', installed, err) ->
  in_step w' fw' (mkTun dnat' installed) /\ same_bypass dnat dnat' /\
  (err = None -> installed = sortedIPVSDNSDestinations (list_to_set new) /\ dnat' = up_to_date dnat new).
Proof.
  intros [Hr Hb]. cbn [dnatBypass destinations] in *. unfold updateIPVSDNSRules.
  destruct (add_loop o (is_some dnat) _ w _) as [[w1 c1] e1] eqn:EA. apply add_loop_ok in EA as (R1 & I1 & J1 & K1); [|done]. rewrite difference_set in *.
  assert (forall w c d, rules_of d w c -> rules_of d w (list_to_set (sortedIPVSDNSDestinations c))) as HS.
  { intros w2 c d Hr2 x r Ex. rewrite elem_of_list_to_set, elem_of_sorted. by apply Hr2. }
  destruct e1 as [e1|].
  { intros [= <- <- <- <- <-]. split_and!; [|done|done]. split; [by apply HS|]. cbn [dnatBypass destinations]. destruct dnat as [[b out]|]; [|done].
    destruct Hb as (Hb & Ho & Hi). split_and!; [done|done|]. intros d Hd. apply elem_of_sorted, I1, elem_of_list_to_set. by apply Hi. }
  specialize (K1 eq_refl). destruct dnat as [[b out]|]; cbn [is_some] in *.
  - destruct Hb as (Hb & Ho & Hi). destruct (updateIPVSDNSOutput le b fw out new) as [[fw2 out2] errs] eqn:EO.
    apply updateIPVSDNSOutput_ok in EO as (O2 & C4 & C6 & S2); [|done..].
    assert (forall d, d ∈ out4 out2 \/ d ∈ out6 out2 -> d ∈ c1) as HI2.
    { intros d [Hd|Hd]; [destruct C4 as [C4|C4]; rewrite C4 in Hd|destruct C6 as [C6|C6]; rewrite C6 in Hd];
        try (apply family_dests_incl in Hd; rewrite K1; rewrite elem_of_union, elem_of_difference, !elem_of_list_to_set; destruct (decide (d ∈ old)); tauto);
        apply I1, elem_of_list_to_set, Hi; auto. }
    destruct errs as [|e errs].
    2:{ intros [= <- <- <- <- <-]. split_and!; [|done|done]. split; [by apply HS|]. cbn [dnatBypass destinations]. split_and!; [done|done|]. intros d Hd. by apply elem_of_sorted, HI2. }
    specialize (S2 eq_refl). destruct (delete_loop o true _ w1 c1) as [[w3 c3] e3] eqn:ED.
    apply delete_loop_ok in ED as (R3 & I3 & J3 & K3); [|done]. rewrite difference_set in *. intros [= <- <- <- <- <-]. split_and!; [|done|].
    + split; [by apply HS|]. cbn [dnatBypass destinations]. split_and!; [done|done|]. intros d Hd. apply elem_of_sorted, J3.
      rewrite !elem_of_difference, !elem_of_list_to_set. split; [by apply HI2|]. intros [_ Hn]. apply Hn. subst out2. cbn in Hd. destruct Hd; by eapply family_dests_incl.
    + intros He. split; [|by subst out2]. f_equal. rewrite (K3 He), K1. apply set_eq. intros d. clear. destruct (decide (d ∈ old)), (decide (d ∈ new)); set_solver.
  - destruct (delete_loop o false _ w1 c1) as [[w3 c3] e3] eqn:ED. apply delete_loop_ok in ED as (R3 & I3 & J3 & K3); [|done]. rewrite difference_set in *.
    intros [= <- <- <- <- <-]. split_and!; [by split; [apply HS|]|done|]. intros He. split; [|done].
    f_equal. rewrite (K3 He), K1. apply set_eq. intros d. clear. destruct (decide (d ∈ old)), (decide (d ∈ new)); set_solver.
Qed.
End Follow.

(** C12: from a state in step, a refresh ends in a state in step wherever it
    fails, over nftables and over iptables: the policy rules installed are those
    of the recorded destinations; the output chain of each family in the firewall
    in use holds exactly the rules of the destinations recorded for it and is
    reached once (or is gone when there are none); and every endpoint a chain
    re-routes has its destination recorded.  (For iptables the bypass has the
    name and the programs the constructor gives it.)  A table that could not be
    read changes nothing, and a refresh without an error that loaded a sorted
    list of distinct, well-formed destinations, as the parser returns, ends with
    these recorded and selected, so a failed one is made up for by the next. *)
Theorem refreshIPVSDNSBypass_in_step {W} `{RuleStore W} (le : bool) (o : Options) (w : W) (fw : firewall) (t : tun_state) (loaded : option (list ipvsDNSDestination))
    (w' : W) (fw' : firewall) (t' : tun_state) (err : option ipvs_error) :
  in_step le o w fw t -> refreshIPVSDNSBypass le o w fw t loaded = (w', fw', t', err) ->
  in_step le o w' fw' t' /\ same_bypass (dnatBypass t) (dnatBypass t') /\
  (loaded = None -> w' = w /\ fw' = fw /\ t' = t) /\
  (forall new, loaded = Some new -> err = None -> dests_wf new -> canonical new ->
    destinations t' = new /\ dnatBypass t' = up_to_date (dnatBypass t) new).
Proof.
  intros Hs. unfold refreshIPVSDNSBypass. destruct loaded as [new|]; [|intros [= <- <- <- <-]; by split_and!].
  destruct t as [dnat old]. cbn [destinations dnatBypass]. destruct (ipvsDNSDestinationsChanged old new) eqn:EC.
  - destruct (updateIPVSDNSRules le o w fw dnat old new) as [[[[w1 f1] b1] i1] e1] eqn:EU. apply updateIPVSDNSRules_ok in EU as (H1 & H2 & H3); [|done].
    intros [= <- <- <- <-]. split_and!; try done. intros n [= <-] He Hw Hc. cbn. destruct (H3 He) as [-> ->]. by rewrite sorted_of_canonical.
  - apply changed_spec in EC as <-. destruct dnat as [[b out]|]; [|intros [= <- <- <- <-]; split_and!; try done; intros n [= <-]; done].
    destruct (updateIPVSDNSOutput le b fw out old) as [[f1 out1] errs] eqn:EO. destruct Hs as [Hr (Hb & Ho & Hi)]. cbn in Hr, Hi.
    apply updateIPVSDNSOutput_ok in EO as (O1 & C4 & C6 & S1); [|done..]. intros [= <- <- <- <-]. split_and!; try done.
    + split; [done|]. cbn [dnatBypass destinations]. split_and!; [done|done|]. intros d [Hd|Hd]; [destruct C4 as [C4|C4]; rewrite C4 in Hd|destruct C6 as [C6|C6]; rewrite C6 in Hd]; eauto using family_dests_incl.
    + intros n [= <-] He _ _. cbn [destinations dnatBypass up_to_date option_map fst]. destruct errs; [|done]. by rewrite S1.
Qed.

(** ** A kernel that fails where a script says so *)

Record scripted := mkScripted { s_rules : list Rule; s_script : list bool }.
Definition pop (w : scripted) : bool * scripted :=
  match s_script w with [] => (false, w) | b :: bs => (b, mkScripted (s_rules w) bs) end.
#[refine] Instance scripted_store : RuleStore scripted := {|
  RuleAdd w r := let '(fail, w) := pop w in
    if fail then (w, Some (OtherErrno 1)) else if bool_decide (r ∈ s_rules w) then (w, Some EEXIST) else (mkScripted (r :: s_rules w) (s_script w), None);
  RuleDel w r := let '(fail, w) := pop w in
    if fail then (w, Some (OtherErrno 1)) else if bool_decide (r ∈ s_rules w) then (mkScripted (List.filter (fun x => negb (bool_decide (x = r))) (s_rules w)) (s_script w), None)
    else (w, Some ENOENT);
  has_rule w r := r ∈ s_rules w
|}.
Proof.
  - intros [rs [|[] sc]] r w' e; cbn; try case_bool_decide; intros [= <- <-]; cbn; split_and!; try done; intros r'; rewrite ?elem_of_cons; naive_solver.
  - intros [rs [|[] sc]] r w' e; cbn; try case_bool_decide; intros [= <- <-]; cbn; split_and!; try done;
      try (intros [? | ?]; done); intros r'; rewrite ?list_elem_of_In, ?filter_In, ?negb_true_iff, ?bool_decide_eq_false; naive_solver.
Defined.

(** The machine of [DnatIptables.sample_bypass], with either firewall. *)
Definition backend (nftables : bool) : bypass := mkBypass (b_options sample_bypass) "STUN-DNAT-2022" nftables "iptables" "ip6tables".
Definition sample_firewall : firewall := mkFirewall (mkConn [] [] [] 6 []) (mkHost mangle_host []).
Definition ipvs_dest (x : Z) : ipvsDNSDestination := mkDest 17 (netip.AddrPortFrom (netip.Addr4 [10; 244; 0; x]) 53).
Definition start_state (nftables : bool) : tun_state := mkTun (Some (backend nftables, mkOutput [] [])) [].
Lemma start_in_step nftables script : in_step true (b_options sample_bypass) (mkScripted [] script) sample_firewall (start_state nftables).
Proof.
  split; [intros d r _; cbn; set_solver|]. cbn [start_state dnatBypass destinations out4 out6]. split; [split; [by exists 2022|done]|]. split; [|set_solver].
  split; [vm_compute; reflexivity|]. unfold selects. destruct nftables; cbn [useNFTables backend out4 out6].
  - split; (split; [vm_compute; reflexivity|]); cbn; set_solver.
  - split; (split; [vm_compute; reflexivity|]); exists []; split; vm_compute; reflexivity.
Qed.
(** The deletion in the second refresh fails, after a rule was added and the
    chain replaced; the third refresh makes up for it. *)
Definition refresh_sample (w : scripted) (fw : firewall) (t : tun_state) (x : Z) := refreshIPVSDNSBypass true (b_options sample_bypass) w fw t (Some [ipvs_dest x]).
Definition script_sample : scripted := mkScripted [] [false; false; true].
Lemma three_refreshes nftables :
  let '(w1, f1, t1, e1) := refresh_sample script_sample sample_firewall (start_state nftables) 7 in
  let '(w2, f2, t2, e2) := refresh_sample w1 f1 t1 8 in
  let '(w3, f3, t3, e3) := refresh_sample w2 f2 t2 8 in
  (e1, is_some e2, destinations t2, e3, destinations t3, dnatBypass t3) =
  (None, true, [ipvs_dest 7; ipvs_dest 8], None, [ipvs_dest 8], Some (backend nftables, mkOutput [ipvs_dest 8] [])).
Proof. destruct nftables; vm_compute; reflexivity. Qed.
Lemma refreshIPVSDNSBypass_in_step_witness :
  let run (nftables : bool) :=
    let '(w1, f1, t1, e1) := refresh_sample script_sample sample_firewall (start_state nftables) 7 in
    let '(w2, f2, t2, e2) := refresh_sample w1 f1 t1 8 in
    let '(w3, f3, t3, e3) := refresh_sample w2 f2 t2 8 in
    e1 = None /\ is_some e2 = true /\ destinations t2 = [ipvs_dest 7; ipvs_dest 8] /\ e3 = None /\
    in_step true (b_options sample_bypass) w3 f3 t3 /\ destinations t3 = [ipvs_dest 8] /\ selects true (backend nftables) f3 false [ipvs_dest 8] in
  run true /\ run false.
Proof.
  intros run. assert (forall nftables, run nftables) as HA; [|split; apply HA].
  intros nftables. unfold run. pose proof (start_in_step nftables (s_script script_sample)) as S0. pose proof (three_refreshes nftables) as HX.
  change (mkScripted [] (s_script script_sample)) with script_sample in S0.
  destruct (refresh_sample script_sample sample_firewall (start_state nftables) 7) as [[[w1 f1] t1] e1] eqn:E1.
  destruct (refresh_sample w1 f1 t1 8) as [[[w2 f2] t2] e2] eqn:E2. destruct (refresh_sample w2 f2 t2 8) as [[[w3 f3] t3] e3] eqn:E3.
  destruct (refreshIPVSDNSBypass_in_step _ _ _ _ _ _ _ _ _ _ S0 E1) as (S1 & _).
  destruct (refreshIPVSDNSBypass_in_step _ _ _ _ _ _ _ _ _ _ S1 E2) as (S2 & _).
  destruct (refreshIPVSDNSBypass_in_step _ _ _ _ _ _ _ _ _ _ S2 E3) as (S3 & _).
  injection HX as H1 H2 H3 H4 H5 H6. split_and!; [exact H1|exact H2|exact H3|exact H4|exact S3|exact H5|].
  destruct S3 as [_ HB]. rewrite H6 in HB. destruct HB as (_ & (_ & HS & _) & _). exact HS.
Defined.
