(* ===== verification/Ping.v ===== *)
(** * ping/source_rewriter.go, ping/destination_rewriter.go and the request
      table of ping/destination.go

    A SourceRewriter sends the echo requests of many clients from one address
    per family: it remembers the client of an identifier and gives the reply
    back to the session of that client.  The destination writers replace the
    address of one side.  All of them work on the packet in place.

    The loggers are left out; what their arguments read of the packet is not.
    The contexts that packets are written to are parameters. *)
From S2P Require Import Prelude Bytes GoMem Checksum TsChecksum Tcpip Netip HdrChecksum IPv4Options IPv4 IPv6 ICMP.

(** The interface header.Network: the dynamic type with its bytes. *)
Inductive Network := NetIPv4 (b : slice) | NetIPv6 (b : slice).
Module Net.
Definition SourceAddr (h : Network) : M netip.Addr := match h with NetIPv4 b => IPv4.SourceAddr b | NetIPv6 b => IPv6.SourceAddr b end.
Definition DestinationAddr (h : Network) : M netip.Addr := match h with NetIPv4 b => IPv4.DestinationAddr b | NetIPv6 b => IPv6.DestinationAddr b end.
Definition SetSourceAddr (h : Network) (a : netip.Addr) : M unit := match h with NetIPv4 b => IPv4.SetSourceAddr b a | NetIPv6 b => IPv6.SetSourceAddr b a end.
Definition SetDestinationAddr (h : Network) (a : netip.Addr) : M unit := match h with NetIPv4 b => IPv4.SetDestinationAddr b a | NetIPv6 b => IPv6.SetDestinationAddr b a end.
Definition SourceAddressSlice (h : Network) : M (list Z) := match h with NetIPv4 b => IPv4.SourceAddressSlice b | NetIPv6 b => IPv6.SourceAddressSlice b end.
Definition DestinationAddressSlice (h : Network) : M (list Z) := match h with NetIPv4 b => IPv4.DestinationAddressSlice b | NetIPv6 b => IPv6.DestinationAddressSlice b end.
Definition TransportProtocol (h : Network) : M Z := match h with NetIPv4 b => IPv4.TransportProtocol b | NetIPv6 b => IPv6.TransportProtocol b end.
Definition Payload (h : Network) : M slice := match h with NetIPv4 b => IPv4.Payload b | NetIPv6 b => IPv6.Payload b end.
End Net.

(** tun.DirectRouteSession *)
Record DirectRouteSession := mkSession { s_Source : netip.Addr; s_Destination : netip.Addr }.
#[global] Instance DirectRouteSession_eq_dec : EqDecision DirectRouteSession.
Proof. solve_decision. Defined.
#[global] Instance DirectRouteSession_countable : Countable DirectRouteSession.
Proof.
  refine (inj_countable' (fun s => (s_Source s, s_Destination s)) (fun p => mkSession p.1 p.2) _). by intros [].
Defined.

Section Rewriters.
Context `{ChecksumImpl}.
(** DirectRouteContext with its WritePacket, DirectRouteDestination with its. *)
Context {error context destination : Type}.
Context (context_WritePacket : context -> list Z -> option error) (destination_WritePacket : destination -> list Z -> option error).

(** [switch header.IPVersion(packet)] *)
Definition network_of (packet : slice) : M (option Network) :=
  v <- IPVersion packet ;;
  ret (if v =? IPv4Version then Some (NetIPv4 packet) else if v =? IPv6Version then Some (NetIPv6 packet) else None).
Definition update_ip_checksum (ipHdr : Network) : M unit :=
  match ipHdr with
  | NetIPv4 b => x <- IPv4.CalculateChecksum b ;; IPv4.SetChecksum b (not16 x)
  | NetIPv6 _ => ret tt
  end.
Definition update_icmpv6_checksum (ipHdr : Network) (icmpHdr : slice) : M unit :=
  src <- Net.SourceAddressSlice ipHdr ;; dst <- Net.DestinationAddressSlice ipHdr ;;
  x <- ICMPv6.ICMPv6Checksum icmpHdr src dst 0 0 ;; ICMPv6.SetChecksum icmpHdr x.

(** ** SourceRewriter *)

Record SourceRewriter := mkRewriter {
  sessions : gmap DirectRouteSession context;
  sourceAddress : gmap Z netip.Addr;
  inet4Address : netip.Addr;
  inet6Address : netip.Addr
}.
Definition NewSourceRewriter (inet4 inet6 : netip.Addr) : SourceRewriter := mkRewriter ∅ ∅ inet4 inet6.
Definition CreateSession (m : SourceRewriter) (session : DirectRouteSession) (c : context) : SourceRewriter :=
  mkRewriter (<[session := c]> (sessions m)) (sourceAddress m) (inet4Address m) (inet6Address m).
Definition DeleteSession (m : SourceRewriter) (session : DirectRouteSession) : SourceRewriter :=
  mkRewriter (delete session (sessions m)) (sourceAddress m) (inet4Address m) (inet6Address m).
Definition with_source (m : SourceRewriter) (ident : Z) (source : option netip.Addr) : SourceRewriter :=
  mkRewriter (sessions m) (partial_alter (fun _ => source) ident (sourceAddress m)) (inet4Address m) (inet6Address m).

(** The arguments of the trace line: addresses, identifier, sequence number. *)
Definition trace4 (ipHdr : Network) (icmpHdr : slice) : M unit :=
  _s <- Net.SourceAddr ipHdr ;; _d <- Net.DestinationAddr ipHdr ;; _i <- ICMPv4.Ident icmpHdr ;; _q <- ICMPv4.Sequence icmpHdr ;; ret tt.
Definition trace6 (ipHdr : Network) (icmpHdr : slice) : M unit :=
  _s <- Net.SourceAddr ipHdr ;; _d <- Net.DestinationAddr ipHdr ;; _i <- ICMPv6.Ident icmpHdr ;; _q <- ICMPv6.Sequence icmpHdr ;; ret tt.

Definition RewritePacket (m : SourceRewriter) (packet : slice) : M SourceRewriter :=
  h <- network_of packet ;;
  match h with
  | None => ret m
  | Some ipHdr =>
      let bindAddr := match ipHdr with NetIPv4 _ => inet4Address m | NetIPv6 _ => inet6Address m end in
      sourceAddr <- Net.SourceAddr ipHdr ;;
      Net.SetSourceAddr ipHdr bindAddr ;;;
      update_ip_checksum ipHdr ;;;
      p <- Net.TransportProtocol ipHdr ;;
      if p =? ICMPv4.ICMPv4ProtocolNumber then
        icmpHdr <- Net.Payload ipHdr ;;
        ident <- ICMPv4.Ident icmpHdr ;;
        trace4 ipHdr icmpHdr ;;;
        ret (with_source m ident (Some sourceAddr))
      else if p =? ICMPv6.ICMPv6ProtocolNumber then
        icmpHdr <- Net.Payload ipHdr ;;
        update_icmpv6_checksum ipHdr icmpHdr ;;;
        ident <- ICMPv6.Ident icmpHdr ;;
        trace6 ipHdr icmpHdr ;;;
        ret (with_source m ident (Some sourceAddr))
      else ret m
  end.

(** The identifier of a reply, when its protocol is ICMP. *)
Definition reply_ident (ipHdr : Network) : M (option Z) :=
  p <- Net.TransportProtocol ipHdr ;;
  if p =? ICMPv4.ICMPv4ProtocolNumber then
    icmpHdr <- Net.Payload ipHdr ;; ident <- ICMPv4.Ident icmpHdr ;; ret (Some ident)
  else if p =? ICMPv6.ICMPv6ProtocolNumber then
    icmpHdr <- Net.Payload ipHdr ;; ident <- ICMPv6.Ident icmpHdr ;; ret (Some ident)
  else ret None.
(** The second half, once the context is found. *)
Definition deliver (ipHdr : Network) (source : netip.Addr) : M unit :=
  Net.SetDestinationAddr ipHdr source ;;;
  update_ip_checksum ipHdr ;;;
  p <- Net.TransportProtocol ipHdr ;;
  if p =? ICMPv4.ICMPv4ProtocolNumber then
    icmpHdr <- Net.Payload ipHdr ;; trace4 ipHdr icmpHdr
  else if p =? ICMPv6.ICMPv6ProtocolNumber then
    icmpHdr <- Net.Payload ipHdr ;;
    update_icmpv6_checksum ipHdr icmpHdr ;;;
    trace6 ipHdr icmpHdr
  else ret tt.

(** The rewriter afterwards, the two results, and the call of
    context.WritePacket: the context with the packet. *)
Definition write_back : Type := SourceRewriter * (bool * option error) * option (context * list Z).
Definition not_loaded (m : SourceRewriter) : write_back := (m, (false, None), None).

Definition WriteBack (m : SourceRewriter) (packet : slice) : M write_back :=
  h <- network_of packet ;;
  match h with
  | None => ret (not_loaded m)
  | Some ipHdr =>
      dest <- Net.SourceAddr ipHdr ;;
      i <- reply_ident ipHdr ;;
      match i with
      | None => ret (not_loaded m)
      | Some ident =>
          match sourceAddress m !! ident with
          | None => ret (not_loaded m)
          | Some source =>
              let m' := with_source m ident None in
              match sessions m' !! mkSession source dest with
              | None => ret (not_loaded m')
              | Some c =>
                  deliver ipHdr source ;;;
                  b <- contents packet ;;
                  ret (m', (true, context_WritePacket c b), Some (c, b))
              end
          end
      end
  end.

(** ** The destination writers *)

Record DestinationWriter := mkDestinationWriter { w_DirectRouteDestination : destination; w_destination : netip.Addr }.
Record ContextDestinationWriter := mkContextDestinationWriter { w_DirectRouteContext : context; cw_destination : netip.Addr }.
Definition NewDestinationWriter (routeDestination : destination) (a : netip.Addr) : DestinationWriter := mkDestinationWriter routeDestination a.
Definition NewContextDestinationWriter (c : context) (a : netip.Addr) : ContextDestinationWriter := mkContextDestinationWriter c a.

(** [set] is SetDestinationAddr or SetSourceAddr. *)
Definition replace_address (set : Network -> M unit) (packet : slice) : M unit :=
  h <- network_of packet ;;
  match h with
  | None => ret tt
  | Some ipHdr =>
      set ipHdr ;;;
      update_ip_checksum ipHdr ;;;
      p <- Net.TransportProtocol ipHdr ;;
      when (p =? ICMPv6.ICMPv6ProtocolNumber)
        (icmpHdr <- Net.Payload ipHdr ;; update_icmpv6_checksum ipHdr icmpHdr)
  end.
(** The packet as it is given on, and the result. *)
Definition DestinationWriter_WritePacket (w : DestinationWriter) (packet : slice) : M (list Z * option error) :=
  replace_address (fun h => Net.SetDestinationAddr h (w_destination w)) packet ;;;
  b <- contents packet ;; ret (b, destination_WritePacket (w_DirectRouteDestination w) b).
Definition ContextDestinationWriter_WritePacket (w : ContextDestinationWriter) (packet : slice) : M (list Z * option error) :=
  replace_address (fun h => Net.SetSourceAddr h (cw_destination w)) packet ;;;
  b <- contents packet ;; ret (b, context_WritePacket (w_DirectRouteContext w) b).
End Rewriters.

(** ** The requests of a Destination *)

Record pingRequest := mkRequest { pr_Source : netip.Addr; pr_Destination : netip.Addr; pr_Identifier : Z; pr_Sequence : Z }.
#[global] Instance pingRequest_eq_dec : EqDecision pingRequest.
Proof. solve_decision. Defined.
#[global] Instance pingRequest_countable : Countable pingRequest.
Proof.
  refine (inj_countable' (fun r => (pr_Source r, pr_Destination r, pr_Identifier r, pr_Sequence r))
    (fun p => mkRequest p.1.1.1 p.1.1.2 p.1.2 p.2) _). by intros [].
Defined.
Definition zero_request : pingRequest := mkRequest netip.AddrInvalid netip.AddrInvalid 0 0.
Definition requestsLimit : Z := 1024.

(** [for oldRequest, createdAt := range d.requests]: the entries in the order
    of the iteration, which Go leaves open.  Times are nanoseconds. *)
Fixpoint expire_loop (now timeout : Z) (order : list (pingRequest * Z)) (requests : gmap pingRequest Z) (oldestRequest : pingRequest) (oldestCreateAt : Z) :
    gmap pingRequest Z * pingRequest :=
  match order with
  | [] => (requests, oldestRequest)
  | (oldRequest, createdAt) :: order' =>
      if timeout <? now - createdAt then expire_loop now timeout order' (delete oldRequest requests) oldestRequest oldestCreateAt
      else if createdAt <? oldestCreateAt then expire_loop now timeout order' requests oldRequest createdAt
      else expire_loop now timeout order' requests oldestRequest oldestCreateAt
  end.
Definition registerRequest (timeout : Z) (order : list (pingRequest * Z)) (now : Z) (requests : gmap pingRequest Z) (request : pingRequest) : gmap pingRequest Z :=
  let '(requests, oldestRequest) := expire_loop now timeout order requests zero_request now in
  let requests := if requestsLimit <? Z.of_nat (size requests) then delete oldestRequest requests else requests in
  <[request := now]> requests.

(** A reply is let through when its request is registered, once. *)
Definition takeRequest (requests : gmap pingRequest Z) (request : pingRequest) : bool * gmap pingRequest Z :=
  match requests !! request with
  | Some _ => (true, delete request requests)
  | None => (false, requests)
  end.
