(* ===== verification/PingSpec.v ===== *)
(** * What the rewriters of package ping do to a packet

    A reply is given back to the session of the client that sent the request,
    with the client's address as destination and valid checksums. *)
From S2P Require Import Prelude Bytes GoMem Checksum TsChecksum Tcpip Netip HdrChecksum IPv4Options IPv4 IPv6 ICMP Ping.

(** A packet of [l] bytes at the start of the array, with an ICMP message. *)
Definition packet (m : list Z) (l : Z) : slice := Slice 0 l (Zlen m).
Definition echo4 (m : list Z) (l : Z) : Prop :=
  bytes m /\ l <= Zlen m /\ IPv4.valid_header m 0 l l /\ IPv4.hlen m 0 + 8 <= get16 m 2 /\ byte_at m 9 = ICMPv4.ICMPv4ProtocolNumber.
Definition echo6 (m : list Z) (l : Z) : Prop :=
  bytes m /\ l <= Zlen m /\ IPv6.valid_header m 0 l l /\ 8 <= get16 m 4 /\ byte_at m 6 = ICMPv6.ICMPv6ProtocolNumber.
Definition ident4 (m : list Z) : Z := get16 m (IPv4.hlen m 0 + 4).
Definition ident6 (m : list Z) : Z := get16 m 44.
Definition source4 (m : list Z) : netip.Addr := netip.Addr4 (window m 12 4).
Definition source6 (m : list Z) : netip.Addr := netip.Addr6 (window m 8 16).
(** [m'] is [m] with [a] at [lo], valid checksums and nothing else changed. *)
Record readdressed4 (m m' : list Z) (l lo : Z) (a : list Z) : Prop := {
  rd4_echo : echo4 m' l;
  rd4_len : Zlen m' = Zlen m;
  rd4_sum : IPv4.checksum_ok m' 0;
  rd4_addr : window m' lo 4 = a;
  rd4_frame : forall j, 0 <= j -> ~ (10 <= j < 12) -> ~ (lo <= j < lo + 4) -> byte_at m' j = byte_at m j
}.
Record readdressed6 (m m' : list Z) (l lo : Z) (a : list Z) : Prop := {
  rd6_echo : echo6 m' l;
  rd6_len : Zlen m' = Zlen m;
  rd6_sum : icmp_ok m' 40 (get16 m' 4) (wsum (window m' 8 16) + wsum (window m' 24 16) + get16 m' 4 + 58);
  rd6_addr : window m' lo 16 = a;
  rd6_frame : forall j, 0 <= j -> ~ (lo <= j < lo + 16) -> ~ (42 <= j < 44) -> byte_at m' j = byte_at m j
}.

Section Readdress.
Context `{ChecksumImpl}.

Lemma readdress4 m l lo a : echo4 m l -> lo = 12 \/ lo = 16 -> bytes a -> Zlen a = 4 ->
  exists m', runs (update_ip_checksum (NetIPv4 (packet m l))) (write_at m lo a) tt m' /\ readdressed4 m m' l lo a.
Proof.
  intros (Hb & Hl & (V1 & V2 & V3 & V4 & V5) & Hn & Hp) Hlo Ba La. change (0 + 2) with 2 in *.
  set (m1 := write_at m lo a). assert (bytes m1) as B1 by by apply bytes_write_at.
  assert (Zlen m1 = Zlen m) as Z1 by (subst m1; by autorewrite with golen).
  assert (IPv4.hlen m1 0 = IPv4.hlen m 0) as H1 by (subst m1; apply IPv4.hlen_write_at; lia).
  destruct (IPv4.runs4_CalculateChecksum 0 l (Zlen m) m1) as (x & Rx & Hx & Cx); try done; try lia.
  pose proof (IPv4.store_checksum 0 l (Zlen m) m1 x B1 ltac:(lia) ltac:(lia) ltac:(lia) ltac:(lia) ltac:(lia) Hx Cx) as C2.
  exists (put16 m1 (0 + 10) (not16 x)). split.
  - unfold update_ip_checksum, packet. eapply runs_bind; [exact Rx|]. apply IPv4.runs4_SetChecksum; lia.
  - change (0 + 10) with 10 in *. split; [split_and!| | | |].
    + by apply bytes_put16.
    + rewrite Zlen_put16. lia.
    + unfold IPv4.valid_header. rewrite IPv4.hlen_put16, H1 by lia. change (0 + 2) with 2. subst m1. destruct Hlo as [-> | ->]; rd; done.
    + rewrite IPv4.hlen_put16, H1 by lia. subst m1. destruct Hlo as [-> | ->]; rd; done.
    + subst m1. destruct Hlo as [-> | ->]; rd; done.
    + by rewrite Zlen_put16.
    + done.
    + subst m1. destruct Hlo as [-> | ->]; by rd.
    + intros j ???. subst m1. destruct Hlo as [-> | ->]; by rd.
Qed.

Lemma readdress6 m l lo a : echo6 m l -> lo = 8 \/ lo = 24 -> bytes a -> Zlen a = 16 ->
  exists m', runs (update_icmpv6_checksum (NetIPv6 (packet m l)) (Slice 40 (get16 m 4) (Zlen m - 40))) (write_at m lo a) tt m' /\
    readdressed6 m m' l lo a.
Proof.
  intros (Hb & Hl & (V1 & V2 & V3) & Hn & Hp) Hlo Ba La. change (0 + 4) with 4 in *. pose proof (get16_range m 4 Hb) as Hr.
  set (n := get16 m 4) in *. set (m1 := write_at m lo a). assert (bytes m1) as B1 by by apply bytes_write_at.
  assert (Zlen m1 = Zlen m) as Z1 by (subst m1; by autorewrite with golen).
  set (src := window m1 8 16). set (dst := window m1 24 16).
  assert (bytes src /\ bytes dst) as [Bs Bd] by (subst src dst; auto with gobytes).
  destruct (runs_ICMPv6Checksum 40 n (Zlen m - 40) m1 src dst 0 0) as (y & Hy & Ry & Cy); try done; try lia.
  pose proof (store_icmp m1 40 n y (wsum src + wsum dst + (n + 0) + 58 + 0) B1 ltac:(lia) ltac:(lia) ltac:(lia) Hy Cy) as I4.
  change (40 + 2) with 42 in *. exists (put16 m1 42 (not16 y)).
  assert (get16 (put16 m1 42 (not16 y)) 4 = n) as En by (subst m1; destruct Hlo as [-> | ->]; by rd). split.
  - unfold update_icmpv6_checksum, packet. cbn [Net.SourceAddressSlice Net.DestinationAddressSlice].
    eapply runs_bind; [apply IPv6.runs6_SourceAddressSlice; lia|]. eapply runs_bind; [apply IPv6.runs6_DestinationAddressSlice; lia|].
    rewrite !Z.add_0_l. fold src dst. eapply runs_bind; [exact Ry|]. apply runs_SetChecksum6; lia.
  - split; [split_and!| | | |].
    + by apply bytes_put16.
    + rewrite Zlen_put16. lia.
    + unfold IPv6.valid_header. change (0 + 4) with 4. rewrite En. split; [done|]. split; [done|]. subst m1. destruct Hlo as [-> | ->]; by rd.
    + by rewrite En.
    + subst m1. destruct Hlo as [-> | ->]; by rd.
    + by rewrite Zlen_put16.
    + rewrite En, !window_put16_out by lia. fold src dst. unfold icmp_ok in *. etransitivity; [apply cong_refl_eq|exact I4]. lia.
    + subst m1. destruct Hlo as [-> | ->]; by rd.
    + intros j ???. subst m1. destruct Hlo as [-> | ->]; by rd.
Qed.
End Readdress.

(** ** What the rewriters read *)

Definition icmp4 (m : list Z) : slice := Slice (IPv4.hlen m 0) (get16 m 2 - IPv4.hlen m 0) (Zlen m - IPv4.hlen m 0).
Definition icmp6 (m : list Z) : slice := Slice 40 (get16 m 4) (Zlen m - 40).
Record reads (h : Network) (p : slice) (icmp : slice) (m : list Z) (proto ident : Z) (source : netip.Addr) (id : slice -> M Z) (trace : Network -> slice -> M unit) : Prop := {
  rs_network : runs (network_of p) m (Some h) m;
  rs_protocol : runs (Net.TransportProtocol h) m proto m;
  rs_payload : runs (Net.Payload h) m icmp m;
  rs_source : runs (Net.SourceAddr h) m source m;
  rs_ident : runs (id icmp) m ident m;
  rs_trace : runs (trace h icmp) m tt m
}.

(** The fields of an ICMP header, which are the same in both families. *)
Lemma runs_ident4 o n c m : 8 <= n -> n <= c -> runs (ICMPv4.Ident (Slice o n c)) m (get16 m (o + 4)) m.
Proof. intros. unfold ICMPv4.Ident. eapply runs_bind; [apply runs_tail; lia|]. apply runs_Uint16. lia. Qed.
Lemma runs_sequence4 o n c m : 8 <= n -> n <= c -> runs (ICMPv4.Sequence (Slice o n c)) m (get16 m (o + 6)) m.
Proof. intros. unfold ICMPv4.Sequence. eapply runs_bind; [apply runs_tail; lia|]. apply runs_Uint16. lia. Qed.

Lemma reads4 m l c : echo4 m l -> c = Zlen m ->
  reads (NetIPv4 (Slice 0 l c)) (Slice 0 l c) (icmp4 m) m ICMPv4.ICMPv4ProtocolNumber (ident4 m) (source4 m) ICMPv4.Ident trace4.
Proof.
  intros (Hb & Hl & (V1 & V2 & V3 & V4 & V5) & Hn & Hp) ->. change (0 + 2) with 2 in *. split.
  - unfold network_of. eapply runs_bind; [apply IPv4.runs_IPVersion; lia|]. rewrite Z.shiftr_div_pow2 by lia. change (2 ^ 4) with 16. rewrite V5. apply runs_ret.
  - cbn [Net.TransportProtocol]. rewrite <- Hp. apply IPv4.runs4_TransportProtocol. lia.
  - cbn [Net.Payload]. eapply runs_eq; [apply IPv4.runs4_Payload; change (0 + 2) with 2; done || lia| |done]. by rewrite Z.add_0_l.
  - cbn [Net.SourceAddr]. apply IPv4.runs4_SourceAddr. lia.
  - apply runs_ident4; lia.
  - unfold trace4. cbn [Net.SourceAddr Net.DestinationAddr]. eapply runs_bind; [apply IPv4.runs4_SourceAddr; lia|].
    eapply runs_bind; [apply IPv4.runs4_DestinationAddr; lia|]. eapply runs_bind; [apply runs_ident4; lia|].
    eapply runs_bind; [apply runs_sequence4; lia|]. apply runs_ret.
Qed.
Lemma reads6 m l c : echo6 m l -> c = Zlen m ->
  reads (NetIPv6 (Slice 0 l c)) (Slice 0 l c) (icmp6 m) m ICMPv6.ICMPv6ProtocolNumber (ident6 m) (source6 m) ICMPv6.Ident trace6.
Proof.
  intros (Hb & Hl & (V1 & V2 & V3) & Hn & Hp) ->. change (0 + 4) with 4 in *. split.
  - unfold network_of. eapply runs_bind; [apply IPv4.runs_IPVersion; lia|]. rewrite Z.shiftr_div_pow2 by lia. change (2 ^ 4) with 16. rewrite V3. apply runs_ret.
  - cbn [Net.TransportProtocol]. rewrite <- Hp. apply IPv6.runs6_TransportProtocol. lia.
  - cbn [Net.Payload]. by apply IPv6.runs6_Payload.
  - cbn [Net.SourceAddr]. apply IPv6.runs6_SourceAddr; lia.
  - apply (runs_ident4 40); lia.
  - unfold trace6. cbn [Net.SourceAddr Net.DestinationAddr]. eapply runs_bind; [apply IPv6.runs6_SourceAddr; lia|].
    eapply runs_bind; [apply IPv6.runs6_DestinationAddr; lia|]. eapply runs_bind; [apply (runs_ident4 40); lia|].
    eapply runs_bind; [apply (runs_sequence4 40); lia|]. apply runs_ret.
Qed.

(** An address written over the source or the destination. *)
Lemma echo6_write_at m l lo a : echo6 m l -> lo = 8 \/ lo = 24 -> bytes a -> Zlen a = 16 ->
  echo6 (write_at m lo a) l /\ icmp6 (write_at m lo a) = icmp6 m /\ Zlen (write_at m lo a) = Zlen m.
Proof.
  intros (Hb & Hl & (V1 & V2 & V3) & Hn & Hp) Hlo Ba La. change (0 + 4) with 4 in *.
  assert (Zlen (write_at m lo a) = Zlen m) as Z1 by by autorewrite with golen.
  assert (get16 (write_at m lo a) 4 = get16 m 4) as E4 by (destruct Hlo as [-> | ->]; by rd).
  split; [|split; [unfold icmp6; by rewrite E4, Z1|done]]. split_and!.
  - by apply bytes_write_at.
  - lia.
  - unfold IPv6.valid_header. change (0 + 4) with 4. rewrite E4. split; [done|]. split; [done|]. destruct Hlo as [-> | ->]; by rd.
  - by rewrite E4.
  - destruct Hlo as [-> | ->]; by rd.
Qed.

Lemma readdressed_ident4 m m' l lo a : echo4 m l -> lo = 12 \/ lo = 16 -> readdressed4 m m' l lo a -> ident4 m' = ident4 m /\ IPv4.hlen m' 0 = IPv4.hlen m 0.
Proof.
  intros (_ & _ & (V1 & V2 & _) & _) Hlo HR. pose proof (rd4_frame _ _ _ _ _ HR) as HF.
  assert (IPv4.hlen m' 0 = IPv4.hlen m 0) as E by (unfold IPv4.hlen; rewrite HF by lia; done).
  split; [|done]. unfold ident4. rewrite E. unfold get16. rewrite !HF by lia. done.
Qed.
Lemma readdressed_ident6 m m' l lo a : lo = 8 \/ lo = 24 -> readdressed6 m m' l lo a -> ident6 m' = ident6 m.
Proof. intros Hlo HR. pose proof (rd6_frame _ _ _ _ _ HR) as HF. unfold ident6, get16. rewrite !HF by lia. done. Qed.
Lemma readdressed_icmp6 m m' l lo a : lo = 8 \/ lo = 24 -> readdressed6 m m' l lo a -> icmp6 m' = icmp6 m.
Proof.
  intros Hlo HR. unfold icmp6. rewrite (rd6_len _ _ _ _ _ HR). unfold get16. by rewrite !(rd6_frame _ _ _ _ _ HR) by lia.
Qed.

(** ** The rewriters *)

Section Rewriters.
Context `{ChecksumImpl} {error context destination : Type}.
Context (WP : context -> list Z -> option error) (DWP : destination -> list Z -> option error).
Implicit Types s : SourceRewriter (context := context).

Lemma runs_reply4 m l : echo4 m l -> runs (reply_ident (NetIPv4 (packet m l))) m (Some (ident4 m)) m.
Proof.
  intros HE. destruct (reads4 m l _ HE eq_refl) as [_ Rp Ry _ Ri _]. unfold reply_ident, packet.
  eapply runs_bind; [exact Rp|]. rewrite Z.eqb_refl. eapply runs_bind; [exact Ry|]. eapply runs_bind; [exact Ri|]. apply runs_ret.
Qed.
Lemma runs_reply6 m l : echo6 m l -> runs (reply_ident (NetIPv6 (packet m l))) m (Some (ident6 m)) m.
Proof.
  intros HE. destruct (reads6 m l _ HE eq_refl) as [_ Rp Ry _ Ri _]. unfold reply_ident, packet.
  eapply runs_bind; [exact Rp|]. change (_ =? ICMPv4.ICMPv4ProtocolNumber) with false. rewrite Z.eqb_refl.
  eapply runs_bind; [exact Ry|]. eapply runs_bind; [exact Ri|]. apply runs_ret.
Qed.

(** Both directions of an IPv4 packet: an address, the checksum, the trace. *)
Lemma runs_deliver4 m l src : echo4 m l -> bytes src -> Zlen src = 4 ->
  exists m', runs (deliver (NetIPv4 (packet m l)) (netip.Addr4 src)) m tt m' /\ readdressed4 m m' l 16 src.
Proof.
  intros HE Bs Ls. destruct (readdress4 m l 16 src HE (or_intror eq_refl) Bs Ls) as (m' & Ru & HR). exists m'. split; [|done].
  destruct (reads4 m' l (Zlen m) (rd4_echo _ _ _ _ _ HR) (eq_sym (rd4_len _ _ _ _ _ HR))) as [_ Rp Ry _ _ Rt].
  destruct HE as (_ & ? & (? & _) & _). unfold deliver, packet in *.
  eapply runs_bind; [cbn [Net.SetDestinationAddr]; apply IPv4.runs4_SetDestinationAddr; cbn [netip.AsSlice]; lia|]. cbn [netip.AsSlice]. rewrite Z.add_0_l.
  eapply runs_bind; [exact Ru|]. eapply runs_bind; [exact Rp|]. rewrite Z.eqb_refl. eapply runs_bind; [exact Ry|exact Rt].
Qed.
Lemma runs_deliver6 m l src : echo6 m l -> bytes src -> Zlen src = 16 ->
  exists m', runs (deliver (NetIPv6 (packet m l)) (netip.Addr6 src)) m tt m' /\ readdressed6 m m' l 24 src.
Proof.
  intros HE Bs Ls. destruct (readdress6 m l 24 src HE (or_intror eq_refl) Bs Ls) as (m' & Ru & HR). exists m'. split; [|done].
  destruct (echo6_write_at m l 24 src HE (or_intror eq_refl) Bs Ls) as (HE1 & Ei & Z1).
  destruct (reads6 _ l (Zlen m) HE1 (eq_sym Z1)) as [_ Rp Ry _ _ _]. rewrite Ei in Ry.
  destruct (reads6 m' l (Zlen m) (rd6_echo _ _ _ _ _ HR) (eq_sym (rd6_len _ _ _ _ _ HR))) as [_ _ _ _ _ Rt].
  pose proof (readdressed_icmp6 _ _ _ _ _ (or_intror eq_refl) HR) as Ei'.
  rewrite Ei' in Rt. destruct HE as (_ & ? & (? & _) & _). unfold deliver, packet in *.
  eapply runs_bind; [cbn [Net.SetDestinationAddr]; apply IPv6.runs6_SetDestinationAddr; cbn [netip.AsSlice]; lia|]. cbn [netip.AsSlice]. rewrite Z.add_0_l.
  eapply runs_bind; [apply runs_ret|]. eapply runs_bind; [exact Rp|]. change (_ =? ICMPv4.ICMPv4ProtocolNumber) with false. rewrite Z.eqb_refl.
  eapply runs_bind; [exact Ry|]. eapply runs_bind; [exact Ru|exact Rt].
Qed.

Lemma runs_RewritePacket4 s m l b : echo4 m l -> inet4Address s = netip.Addr4 b -> bytes b -> Zlen b = 4 ->
  exists m', runs (RewritePacket s (packet m l)) m (with_source s (ident4 m) (Some (source4 m))) m' /\ readdressed4 m m' l 12 b.
Proof.
  intros HE Ha Bs Ls. destruct (readdress4 m l 12 b HE (or_introl eq_refl) Bs Ls) as (m' & Ru & HR). exists m'. split; [|done].
  destruct (reads4 m l _ HE eq_refl) as [Rn _ _ Rs _ _].
  destruct (reads4 m' l (Zlen m) (rd4_echo _ _ _ _ _ HR) (eq_sym (rd4_len _ _ _ _ _ HR))) as [_ Rp Ry _ Ri Rt].
  rewrite (proj1 (readdressed_ident4 _ _ _ _ _ HE (or_introl eq_refl) HR)) in Ri.
  destruct HE as (_ & ? & (? & _) & _). unfold RewritePacket, packet in *.
  eapply runs_bind; [exact Rn|]. cbn iota beta. eapply runs_bind; [exact Rs|]. rewrite Ha.
  eapply runs_bind; [cbn [Net.SetSourceAddr]; apply IPv4.runs4_SetSourceAddr; cbn [netip.AsSlice]; lia|]. cbn [netip.AsSlice]. rewrite Z.add_0_l.
  eapply runs_bind; [exact Ru|]. eapply runs_bind; [exact Rp|]. rewrite Z.eqb_refl. eapply runs_bind; [exact Ry|]. eapply runs_bind; [exact Ri|].
  eapply runs_bind; [exact Rt|]. apply runs_ret.
Qed.
Lemma runs_RewritePacket6 s m l b : echo6 m l -> inet6Address s = netip.Addr6 b -> bytes b -> Zlen b = 16 ->
  exists m', runs (RewritePacket s (packet m l)) m (with_source s (ident6 m) (Some (source6 m))) m' /\ readdressed6 m m' l 8 b.
Proof.
  intros HE Ha Bs Ls. destruct (readdress6 m l 8 b HE (or_introl eq_refl) Bs Ls) as (m' & Ru & HR). exists m'. split; [|done].
  destruct (reads6 m l _ HE eq_refl) as [Rn _ _ Rs _ _].
  destruct (echo6_write_at m l 8 b HE (or_introl eq_refl) Bs Ls) as (HE1 & Ei & Z1).
  destruct (reads6 _ l (Zlen m) HE1 (eq_sym Z1)) as [_ Rp Ry _ _ _]. rewrite Ei in Ry.
  destruct (reads6 m' l (Zlen m) (rd6_echo _ _ _ _ _ HR) (eq_sym (rd6_len _ _ _ _ _ HR))) as [_ _ _ _ Ri Rt].
  pose proof (readdressed_icmp6 _ _ _ _ _ (or_introl eq_refl) HR) as Ei'.
  rewrite Ei' in Rt, Ri. rewrite (readdressed_ident6 _ _ _ _ _ (or_introl eq_refl) HR) in Ri.
  destruct HE as (_ & ? & (? & _) & _). unfold RewritePacket, packet in *.
  eapply runs_bind; [exact Rn|]. cbn iota beta. eapply runs_bind; [exact Rs|]. rewrite Ha.
  eapply runs_bind; [cbn [Net.SetSourceAddr]; apply IPv6.runs6_SetSourceAddr; cbn [netip.AsSlice]; lia|]. cbn [netip.AsSlice]. rewrite Z.add_0_l.
  eapply runs_bind; [apply runs_ret|]. eapply runs_bind; [exact Rp|]. change (_ =? ICMPv4.ICMPv4ProtocolNumber) with false. rewrite Z.eqb_refl.
  eapply runs_bind; [exact Ry|]. eapply runs_bind; [exact Ru|]. eapply runs_bind; [exact Ri|]. eapply runs_bind; [exact Rt|]. apply runs_ret.
Qed.

(** WriteBack, for either family. *)
Lemma runs_WriteBack s h l cap m m' ident src dest c :
  runs (network_of (Slice 0 l cap)) m (Some h) m -> runs (Net.SourceAddr h) m dest m -> runs (reply_ident h) m (Some ident) m ->
  sourceAddress s !! ident = Some src -> sessions s !! mkSession src dest = Some c -> runs (deliver h src) m tt m' ->
  runs (WriteBack WP s (Slice 0 l cap)) m (with_source s ident None, (true, WP c (window m' 0 l)), Some (c, window m' 0 l)) m'.
Proof.
  intros Rn Rs Ri Hs Hc Rd. unfold WriteBack. eapply runs_bind; [exact Rn|]. cbn iota beta. eapply runs_bind; [exact Rs|]. eapply runs_bind; [exact Ri|].
  cbn iota beta. rewrite Hs. cbn [sessions with_source]. rewrite Hc. eapply runs_bind; [exact Rd|]. eapply runs_bind; [apply runs_contents|]. apply runs_ret.
Qed.
Lemma runs_WriteBack_unknown s h p m ident dest :
  runs (network_of p) m (Some h) m -> runs (Net.SourceAddr h) m dest m -> runs (reply_ident h) m (Some ident) m ->
  sourceAddress s !! ident = None -> runs (WriteBack WP s p) m (not_loaded s) m.
Proof.
  intros Rn Rs Ri Hs. unfold WriteBack. eapply runs_bind; [exact Rn|]. cbn iota beta. eapply runs_bind; [exact Rs|]. eapply runs_bind; [exact Ri|].
  cbn iota beta. rewrite Hs. apply runs_ret.
Qed.
Lemma source_stored s i a : sourceAddress (with_source s i a) !! i = a.
Proof. apply lookup_partial_alter_eq. Qed.

(** The reply [r] to a request with identifier [i] of the client at [src]: the
    session's context gets the packet with that client as destination, and the
    identifier is forgotten, so a further reply is not loaded. *)
Definition replied4 s (i : Z) (src : list Z) : Prop :=
  forall r l c, echo4 r l -> ident4 r = i -> sessions s !! mkSession (netip.Addr4 src) (source4 r) = Some c ->
    exists r' s', runs (WriteBack WP s (packet r l)) r (s', (true, WP c (window r' 0 l)), Some (c, window r' 0 l)) r' /\
      readdressed4 r r' l 16 src /\
      forall q k, echo4 q k -> ident4 q = i -> runs (WriteBack WP s' (packet q k)) q (not_loaded s') q.
Definition replied6 s (i : Z) (src : list Z) : Prop :=
  forall r l c, echo6 r l -> ident6 r = i -> sessions s !! mkSession (netip.Addr6 src) (source6 r) = Some c ->
    exists r' s', runs (WriteBack WP s (packet r l)) r (s', (true, WP c (window r' 0 l)), Some (c, window r' 0 l)) r' /\
      readdressed6 r r' l 24 src /\
      forall q k, echo6 q k -> ident6 q = i -> runs (WriteBack WP s' (packet q k)) q (not_loaded s') q.

Lemma replied4_stored s i src : bytes src -> Zlen src = 4 -> sourceAddress s !! i = Some (netip.Addr4 src) -> replied4 s i src.
Proof.
  intros Bs Ls Hs r l c HE <- Hc. destruct (runs_deliver4 r l src HE Bs Ls) as (r' & Rd & HR). exists r'. eexists. split; [|split; [done|]].
  - destruct (reads4 r l _ HE eq_refl) as [Rn _ _ Rs _ _]. eapply (runs_WriteBack _ _ _ _ _ _ (ident4 r)); [exact Rn|exact Rs|by apply runs_reply4|exact Hs|exact Hc|exact Rd].
  - intros q k HQ <-. destruct (reads4 q k _ HQ eq_refl) as [Rn _ _ Rs _ _]. eapply (runs_WriteBack_unknown _ _ _ _ (ident4 q)); [exact Rn|exact Rs|by apply runs_reply4|apply source_stored].
Qed.
Lemma replied6_stored s i src : bytes src -> Zlen src = 16 -> sourceAddress s !! i = Some (netip.Addr6 src) -> replied6 s i src.
Proof.
  intros Bs Ls Hs r l c HE <- Hc. destruct (runs_deliver6 r l src HE Bs Ls) as (r' & Rd & HR). exists r'. eexists. split; [|split; [done|]].
  - destruct (reads6 r l _ HE eq_refl) as [Rn _ _ Rs _ _]. eapply (runs_WriteBack _ _ _ _ _ _ (ident6 r)); [exact Rn|exact Rs|by apply runs_reply6|exact Hs|exact Hc|exact Rd].
  - intros q k HQ <-. destruct (reads6 q k _ HQ eq_refl) as [Rn _ _ Rs _ _]. eapply (runs_WriteBack_unknown _ _ _ _ (ident6 q)); [exact Rn|exact Rs|by apply runs_reply6|apply source_stored].
Qed.

(** What else a rewriter sees: requests and replies of other clients, each in a
    buffer of its own, and sessions that come and go. *)
Inductive traffic := Request (m : list Z) (l : Z) | Reply (m : list Z) (l : Z) | Created (session : DirectRouteSession) (c : context) | Deleted (session : DirectRouteSession).
Definition handle s (e : traffic) : res (SourceRewriter (context := context)) :=
  match e with
  | Request m l => match RewritePacket s (packet m l) m with Ok (s', _) => Ok s' | Panic => Panic end
  | Reply m l => match WriteBack WP s (packet m l) m with Ok ((s', _, _), _) => Ok s' | Panic => Panic end
  | Created session c => Ok (CreateSession s session c)
  | Deleted session => Ok (DeleteSession s session)
  end.
Fixpoint handle_all s (es : list traffic) : res (SourceRewriter (context := context)) :=
  match es with [] => Ok s | e :: es' => match handle s e with Ok s' => handle_all s' es' | Panic => Panic end end.

(** Sessions are between addresses of one family. *)
Definition v4 (a : netip.Addr) : Prop := exists b, a = netip.Addr4 b /\ bytes b /\ Zlen b = 4.
Definition v6 (a : netip.Addr) : Prop := exists b, a = netip.Addr6 b /\ bytes b /\ Zlen b = 16.
Definition session_ok (x : DirectRouteSession) : Prop := (v4 (s_Source x) /\ v4 (s_Destination x)) \/ (v6 (s_Source x) /\ v6 (s_Destination x)).
Definition rewriter_ok s : Prop := forall x c, sessions s !! x = Some c -> session_ok x.
(** Traffic under other identifiers than [i]; requests need an address to leave
    from. *)
Definition other_traffic s (i : Z) (e : traffic) : Prop :=
  match e with
  | Request m l => (echo4 m l /\ ident4 m <> i /\ v4 (inet4Address s)) \/ (echo6 m l /\ ident6 m <> i /\ v6 (inet6Address s))
  | Reply m l => (echo4 m l /\ ident4 m <> i) \/ (echo6 m l /\ ident6 m <> i)
  | Created x _ => session_ok x
  | Deleted _ => True
  end.

Lemma runs_WriteBack_lost s h p m ident src dest :
  runs (network_of p) m (Some h) m -> runs (Net.SourceAddr h) m dest m -> runs (reply_ident h) m (Some ident) m ->
  sourceAddress s !! ident = Some src -> sessions s !! mkSession src dest = None -> runs (WriteBack WP s p) m (not_loaded (with_source s ident None)) m.
Proof.
  intros Rn Rs Ri Hs Hc. unfold WriteBack. eapply runs_bind; [exact Rn|]. cbn iota beta. eapply runs_bind; [exact Rs|]. eapply runs_bind; [exact Ri|].
  cbn iota beta. rewrite Hs. cbn [sessions with_source]. rewrite Hc. apply runs_ret.
Qed.
(** A reply of either family forgets its own identifier at most. *)
Lemma WriteBack_frame s h l m ident dest : runs (network_of (packet m l)) m (Some h) m -> runs (Net.SourceAddr h) m dest m -> runs (reply_ident h) m (Some ident) m ->
  (forall src c, sessions s !! mkSession src dest = Some c -> exists m', runs (deliver h src) m tt m') ->
  exists s' r x m', runs (WriteBack WP s (packet m l)) m (s', r, x) m' /\ (s' = s \/ s' = with_source s ident None).
Proof.
  intros Rn Rs Ri Hd. destruct (sourceAddress s !! ident) as [src|] eqn:ES; [|do 4 eexists; split; [by eapply runs_WriteBack_unknown|by left]].
  destruct (sessions s !! mkSession src dest) as [c|] eqn:EC; [|do 4 eexists; split; [by eapply runs_WriteBack_lost|by right]].
  destruct (Hd src c EC) as [m' Rd]. do 4 eexists. split; [by eapply runs_WriteBack|by right].
Qed.
Lemma other_source s i j a : j <> i -> sourceAddress (with_source s j a) !! i = sourceAddress s !! i.
Proof. intros. unfold with_source. cbn. by rewrite lookup_partial_alter_ne. Qed.
Definition kept (i : Z) s s' : Prop := rewriter_ok s' /\ inet4Address s' = inet4Address s /\ inet6Address s' = inet6Address s /\ sourceAddress s' !! i = sourceAddress s !! i.
Lemma kept_source i j s a : j <> i -> rewriter_ok s -> kept i s (with_source s j a).
Proof. intros Hj Hs. split_and!; [done|done|done|by apply other_source]. Qed.
Lemma handle_reply s i h m l ident dest : rewriter_ok s -> runs (network_of (packet m l)) m (Some h) m -> runs (Net.SourceAddr h) m dest m -> runs (reply_ident h) m (Some ident) m -> ident <> i ->
  (forall src, session_ok (mkSession src dest) -> exists m', runs (deliver h src) m tt m') -> exists s', handle s (Reply m l) = Ok s' /\ kept i s s'.
Proof.
  intros Hs Rn Rs Ri Hi Hd. destruct (WriteBack_frame s h l m ident dest Rn Rs Ri) as (s' & r & x & m' & R & HE); [intros src c HC; by eapply Hd, Hs|].
  exists s'. split; [cbn [handle]; unfold runs in R; by rewrite R|]. destruct HE as [-> | ->]; [by split_and!|by apply kept_source].
Qed.
Lemma handle_kept s i e : rewriter_ok s -> other_traffic s i e -> exists s', handle s e = Ok s' /\ kept i s s'.
Proof.
  intros Hs He. destruct e as [m l|m l|x c|x]; cbn [other_traffic] in He.
  - destruct He as [(HE & Hi & b & Ha & Bb & Lb)|(HE & Hi & b & Ha & Bb & Lb)]; cbn [handle].
    + destruct (runs_RewritePacket4 s m l b HE Ha Bb Lb) as (m' & R & _). unfold runs in R. rewrite R. eexists. split; [done|]. by apply kept_source.
    + destruct (runs_RewritePacket6 s m l b HE Ha Bb Lb) as (m' & R & _). unfold runs in R. rewrite R. eexists. split; [done|]. by apply kept_source.
  - destruct He as [(HE & Hi)|(HE & Hi)].
    + destruct (reads4 m l _ HE eq_refl) as [Rn _ _ Rs _ _]. eapply handle_reply; [done|exact Rn|exact Rs|by apply runs_reply4|done|].
      intros src [[(b & Eb & Bb & Lb) _]|[_ (b & Eb & _)]]; cbn in Eb; [subst src|discriminate Eb]. destruct (runs_deliver4 m l b HE Bb Lb) as (m' & R & _). by exists m'.
    + destruct (reads6 m l _ HE eq_refl) as [Rn _ _ Rs _ _]. eapply handle_reply; [done|exact Rn|exact Rs|by apply runs_reply6|done|].
      intros src [[_ (b & Eb & _)]|[(b & Eb & Bb & Lb) _]]; cbn in Eb; [discriminate Eb|subst src]. destruct (runs_deliver6 m l b HE Bb Lb) as (m' & R & _). by exists m'.
  - eexists. split; [done|]. split_and!; try done. intros y d. cbn. intros [[<- _]|[_ ?]]%lookup_insert_Some; [done|by eapply Hs].
  - eexists. split; [done|]. split_and!; try done. intros y d. cbn. intros [_ ?]%lookup_delete_Some. by eapply Hs.
Qed.
Lemma other_traffic_same s s' i e : inet4Address s' = inet4Address s -> inet6Address s' = inet6Address s -> other_traffic s i e -> other_traffic s' i e.
Proof. intros E4 E6. unfold other_traffic. by rewrite E4, E6. Qed.
Lemma handle_all_kept s i es : rewriter_ok s -> Forall (other_traffic s i) es -> exists s', handle_all s es = Ok s' /\ sourceAddress s' !! i = sourceAddress s !! i.
Proof.
  revert s. induction es as [|e es IH]; intros s Hs HF; [by exists s|]. apply Forall_cons in HF as [He HF]. destruct (handle_kept s i e Hs He) as (s1 & E & Hs1 & E4 & E6 & Ei).
  destruct (IH s1 Hs1) as (s2 & E2 & Ei2); [eapply Forall_impl; [exact HF|]; intros x; by apply other_traffic_same|]. exists s2. cbn [handle_all]. rewrite E. split; [done|congruence].
Qed.

(** C32: echo requests of several clients are in flight at once under different
    identifiers, and each reply finds its client (packets are valid with a
    complete ICMP header, sessions join addresses of one family, and the rewriter
    has an address of the families in use).  RewritePacket makes a request leave
    from the rewriter's address of its family, with valid checksums and nothing
    else changed.  Then any requests and replies of either family under other
    identifiers may follow, and sessions may come and go; none of it panics.
    WriteBack of the reply with the identifier of the request then gives it to the
    context of the session of that client and the replying host, where there is
    one, with the client's address as destination, valid checksums and nothing
    else changed; with that the identifier is forgotten, and a second reply to it
    is not loaded. *)
Theorem SourceRewriter_round_trip s m l b :
  bytes b -> rewriter_ok s ->
  (echo4 m l -> inet4Address s = netip.Addr4 b -> Zlen b = 4 ->
    exists m' s', runs (RewritePacket s (packet m l)) m s' m' /\ readdressed4 m m' l 12 b /\ sessions s' = sessions s /\
      forall es, Forall (other_traffic s (ident4 m)) es -> exists s'', handle_all s' es = Ok s'' /\ replied4 s'' (ident4 m) (window m 12 4)) /\
  (echo6 m l -> inet6Address s = netip.Addr6 b -> Zlen b = 16 ->
    exists m' s', runs (RewritePacket s (packet m l)) m s' m' /\ readdressed6 m m' l 8 b /\ sessions s' = sessions s /\
      forall es, Forall (other_traffic s (ident6 m)) es -> exists s'', handle_all s' es = Ok s'' /\ replied6 s'' (ident6 m) (window m 8 16)).
Proof.
  intros Bb Hs. split; intros HE Ha Lb.
  - destruct (runs_RewritePacket4 s m l b HE Ha Bb Lb) as (m' & R & HR). exists m'. eexists. split; [exact R|]. split; [done|]. split; [done|]. intros es HF.
    destruct (handle_all_kept (with_source s (ident4 m) (Some (source4 m))) (ident4 m) es) as (s2 & E & Ei); [done|exact HF|]. exists s2. split; [done|]. rewrite source_stored in Ei.
    destruct HE as (Hb & ? & (? & _) & _). apply replied4_stored; [auto with gobytes|apply Zlen_window; lia|exact Ei].
  - destruct (runs_RewritePacket6 s m l b HE Ha Bb Lb) as (m' & R & HR). exists m'. eexists. split; [exact R|]. split; [done|]. split; [done|]. intros es HF.
    destruct (handle_all_kept (with_source s (ident6 m) (Some (source6 m))) (ident6 m) es) as (s2 & E & Ei); [done|exact HF|]. exists s2. split; [done|]. rewrite source_stored in Ei.
    destruct HE as (Hb & ? & (? & _) & _). apply replied6_stored; [auto with gobytes|apply Zlen_window; lia|exact Ei].
Qed.

(** The destination writers: the packet goes on with the other address. *)
Lemma DestinationWriter_correct (w : DestinationWriter (destination := destination)) m l b :
  bytes b ->
  (echo4 m l -> w_destination w = netip.Addr4 b -> Zlen b = 4 ->
    exists m', runs (DestinationWriter_WritePacket DWP w (packet m l)) m (window m' 0 l, DWP (w_DirectRouteDestination w) (window m' 0 l)) m' /\ readdressed4 m m' l 16 b) /\
  (echo6 m l -> w_destination w = netip.Addr6 b -> Zlen b = 16 ->
    exists m', runs (DestinationWriter_WritePacket DWP w (packet m l)) m (window m' 0 l, DWP (w_DirectRouteDestination w) (window m' 0 l)) m' /\ readdressed6 m m' l 24 b).
Proof.
  intros Bb. split; intros HE Ha Lb; unfold DestinationWriter_WritePacket, replace_address; rewrite Ha.
  - destruct (readdress4 m l 16 b HE (or_intror eq_refl) Bb Lb) as (m' & Ru & HR). exists m'. split; [|done].
    destruct (reads4 m l _ HE eq_refl) as [Rn _ _ _ _ _].
    destruct (reads4 m' l (Zlen m) (rd4_echo _ _ _ _ _ HR) (eq_sym (rd4_len _ _ _ _ _ HR))) as [_ Rp _ _ _ _].
    destruct HE as (_ & ? & (? & _) & _). unfold packet in *. eapply runs_bind; [|eapply runs_bind; [apply runs_contents|apply runs_ret]].
    eapply runs_bind; [exact Rn|]. cbn iota beta. eapply runs_bind; [cbn [Net.SetDestinationAddr]; apply IPv4.runs4_SetDestinationAddr; cbn [netip.AsSlice]; lia|].
    cbn [netip.AsSlice]. rewrite Z.add_0_l. eapply runs_bind; [exact Ru|]. eapply runs_bind; [exact Rp|]. apply runs_ret.
  - destruct (readdress6 m l 24 b HE (or_intror eq_refl) Bb Lb) as (m' & Ru & HR). exists m'. split; [|done].
    destruct (reads6 m l _ HE eq_refl) as [Rn _ _ _ _ _].
    destruct (echo6_write_at m l 24 b HE (or_intror eq_refl) Bb Lb) as (HE1 & Ei & Z1). destruct (reads6 _ l (Zlen m) HE1 (eq_sym Z1)) as [_ Rp Ry _ _ _]. rewrite Ei in Ry.
    destruct HE as (_ & ? & (? & _) & _). unfold packet in *. eapply runs_bind; [|eapply runs_bind; [apply runs_contents|apply runs_ret]].
    eapply runs_bind; [exact Rn|]. cbn iota beta. eapply runs_bind; [cbn [Net.SetDestinationAddr]; apply IPv6.runs6_SetDestinationAddr; cbn [netip.AsSlice]; lia|].
    cbn [netip.AsSlice]. rewrite Z.add_0_l. eapply runs_bind; [apply runs_ret|]. eapply runs_bind; [exact Rp|]. rewrite Z.eqb_refl. eapply runs_bind; [exact Ry|exact Ru].
Qed.
End Rewriters.

(** ** The requests of a Destination *)

Section Requests.
Context (timeout now : Z).
Implicit Types (rs : gmap pingRequest Z) (order : list (pingRequest * Z)).

Definition fresh (t : Z) : Prop := now - t <= timeout.
(** The table without the requests that timed out. *)
Definition live rs : gmap pingRequest Z := filter (fun e => fresh e.2) rs.

(** The loop deletes the requests that timed out... *)
Lemma expire_loop_lookup order rs r0 t0 r :
  (expire_loop now timeout order rs r0 t0).1 !! r = if decide (Exists (fun e => e.1 = r /\ ~ fresh e.2) order) then None else rs !! r.
Proof.
  revert rs r0 t0. induction order as [|[k t] order IH]; intros rs r0 t0; cbn [expire_loop].
  { rewrite decide_False; [done|]. rewrite Exists_nil. tauto. }
  destruct (decide (Exists _ ((k, t) :: order))) as [HX|HX]; rewrite Exists_cons in HX; cbn [fst snd] in HX; unfold fresh in HX at 1;
    (destruct (Z.ltb_spec timeout (now - t)); [|destruct (t <? t0)]); rewrite IH; case_decide as HY; try done; try tauto; try lia.
  - destruct HX as [[-> _]|HX]; [apply lookup_delete_eq|done].
  - rewrite lookup_delete_ne; [done|]. intros ->. apply HX. left. split; [done|lia].
Qed.
(** ... and finds an oldest one of the others that is older than [t0]. *)
Lemma expire_loop_oldest order rs r0 t0 :
  let r := (expire_loop now timeout order rs r0 t0).2 in
  (r = r0 /\ Forall (fun e => fresh e.2 -> t0 <= e.2) order) \/
  (exists t, (r, t) ∈ order /\ fresh t /\ t < t0 /\ Forall (fun e => fresh e.2 -> t <= e.2) order).
Proof.
  revert rs r0 t0. induction order as [|[k t] order IH]; intros rs r0 t0; cbn [expire_loop]; [left; by split|].
  destruct (Z.ltb_spec timeout (now - t)) as [Hx|Hx]; [|destruct (Z.ltb_spec t t0) as [Hl|Hl]].
  - destruct (IH (delete k rs) r0 t0) as [[-> HF]|(u & Hu & Fu & Lu & HF)]; [left|right].
    + split; [done|]. constructor; [unfold fresh; cbn; lia|done].
    + exists u. split; [by right|]. split; [done|]. split; [done|]. constructor; [unfold fresh; cbn; lia|done].
  - right. destruct (IH rs k t) as [[-> HF]|(u & Hu & Fu & Lu & HF)].
    + exists t. split; [by left|]. split; [unfold fresh; lia|]. split; [done|]. constructor; [done|done].
    + exists u. split; [by right|]. split; [done|]. split; [lia|]. constructor; [cbn; lia|done].
  - destruct (IH rs r0 t0) as [[-> HF]|(u & Hu & Fu & Lu & HF)]; [left|right].
    + split; [done|]. constructor; [done|done].
    + exists u. split; [by right|]. split; [done|]. split; [done|]. constructor; [cbn; lia|done].
Qed.

Section Table.
Context (rs : gmap pingRequest Z) (order : list (pingRequest * Z)).
Hypothesis Horder : order ≡ₚ map_to_list rs.
Hypothesis Hpast : forall r t, rs !! r = Some t -> t < now.

Lemma elem_of_order r t : (r, t) ∈ order <-> rs !! r = Some t.
Proof. rewrite Horder. apply elem_of_map_to_list. Qed.
Lemma live_lookup r t : live rs !! r = Some t <-> rs !! r = Some t /\ fresh t.
Proof. unfold live. by rewrite map_lookup_filter_Some. Qed.
Lemma expire_loop_live r0 t0 : (expire_loop now timeout order rs r0 t0).1 = live rs.
Proof.
  apply map_eq. intros r. rewrite expire_loop_lookup. apply option_eq. intros t. rewrite live_lookup. case_decide as HX.
  - split; [done|]. intros [Hr Hf]. apply Exists_exists in HX as ([k u] & Hin & Hk & Hn). cbn in *. subst k. apply elem_of_order in Hin. by simplify_eq.
  - split; [|by intros [? _]]. intros Hr. split; [done|]. destruct (decide (now - t <= timeout)) as [|Hn]; [done|].
    destruct HX. apply Exists_exists. exists (r, t). split; [by apply elem_of_order|done].
Qed.
(** The oldest request that is left, when there is one. *)
Lemma expire_loop_victim : live rs <> ∅ ->
  exists t, live rs !! (expire_loop now timeout order rs zero_request now).2 = Some t /\ forall r' t', live rs !! r' = Some t' -> t <= t'.
Proof.
  intros Hne. destruct (expire_loop_oldest order rs zero_request now) as [[_ HF]|(t & Hin & Hf & _ & HF)].
  - apply map_choose in Hne as (r & t & Hr). apply live_lookup in Hr as [Hr Hf]. rewrite Forall_forall in HF.
    specialize (HF (r, t) (proj2 (elem_of_order r t) Hr) Hf). specialize (Hpast _ _ Hr). cbn in HF. lia.
  - exists t. split; [apply live_lookup; split; [by apply elem_of_order|done]|]. intros r' t' [Hr' Hf']%live_lookup.
    rewrite Forall_forall in HF. exact (HF (r', t') (proj2 (elem_of_order r' t') Hr') Hf').
Qed.
Lemma live_size : (size (live rs) <= size rs)%nat.
Proof. apply map_size_filter. Qed.
End Table.

(** C33: the table of requests stays bounded and forgets only what it may.
    After registerRequest, whatever the order of the iteration over the map,
    provided the clock has moved on since the stored requests: there are at
    most 1025 requests (one more than requestsLimit), if there were before; the
    new request is there; every other one was there before and has not timed
    out; and one that had not timed out is gone only if more than 1024 were
    left and none of them was older.  The reply to the request is let through,
    a second one is not. *)
Theorem registerRequest_bounded rs order request :
  order ≡ₚ map_to_list rs -> (forall r t, rs !! r = Some t -> t < now) -> Z.of_nat (size rs) <= requestsLimit + 1 ->
  let rs' := registerRequest timeout order now rs request in
  Z.of_nat (size rs') <= requestsLimit + 1 /\
  rs' !! request = Some now /\
  (forall r t, r <> request -> rs' !! r = Some t -> rs !! r = Some t /\ fresh t) /\
  (forall r t, r <> request -> rs !! r = Some t -> fresh t -> rs' !! r = None ->
     requestsLimit < Z.of_nat (size (live rs)) /\ forall r' t', live rs !! r' = Some t' -> t <= t') /\
  (takeRequest rs' request).1 = true /\ (takeRequest (takeRequest rs' request).2 request).1 = false.
Proof.
  intros Horder Hpast Hsize rs'. pose proof (live_size rs) as Hlive.
  pose proof (expire_loop_live rs order Horder zero_request now) as EL.
  pose proof (expire_loop_victim rs order Horder Hpast) as HV.
  subst rs'. unfold registerRequest. destruct (expire_loop now timeout order rs zero_request now) as [rs1 victim]. cbn [fst snd] in EL, HV. subst rs1.
  set (kept := if requestsLimit <? Z.of_nat (size (live rs)) then delete victim (live rs) else live rs).
  assert (Z.of_nat (size kept) <= requestsLimit) as Hkept.
  { subst kept. destruct (Z.ltb_spec requestsLimit (Z.of_nat (size (live rs)))); [|done].
    destruct HV as (t & Hv & _); [intros E; rewrite E in *; rewrite map_size_empty in *; unfold requestsLimit in *; lia|].
    rewrite map_size_delete_Some by by eexists. unfold requestsLimit in *. lia. }
  assert (forall r t, kept !! r = Some t -> live rs !! r = Some t) as Hsub.
  { intros r t. subst kept. destruct (_ <? _); [|done]. by intros [_ ?]%lookup_delete_Some. }
  split_and!.
  - rewrite map_size_insert. destruct (kept !! request); unfold id; lia.
  - apply lookup_insert_eq.
  - intros r t Hr. rewrite lookup_insert_ne by done. intros Hk%Hsub. by apply live_lookup.
  - intros r t Hr Hrs Hf. rewrite lookup_insert_ne by done. assert (live rs !! r = Some t) as HL by by apply live_lookup.
    subst kept. destruct (Z.ltb_spec requestsLimit (Z.of_nat (size (live rs)))) as [Hlt|]; [|congruence]. intros HN.
    destruct (decide (victim = r)) as [<-|Hne]; [|rewrite lookup_delete_ne in HN by done; congruence].
    split; [done|]. destruct HV as (u & Hu & Hmin); [by intros E; rewrite E in HL|]. assert (u = t) as -> by congruence. done.
  - unfold takeRequest. by rewrite lookup_insert_eq.
  - unfold takeRequest at 2. rewrite lookup_insert_eq. cbn [snd]. unfold takeRequest. by rewrite lookup_delete_eq.
Qed.
End Requests.

(** ** Witnesses *)

(** A ping of 10.0.0.2 to 8.8.8.8 through 192.168.1.2, and the reply. *)
Definition sample_request : list Z :=
  [69; 0; 0; 30; 0; 0; 64; 0; 64; 1; 0; 0; 10; 0; 0; 2; 8; 8; 8; 8; 8; 0; 0; 0; 0; 1; 0; 1; 97; 98].
Definition sample_reply : list Z :=
  [69; 0; 0; 30; 0; 0; 64; 0; 64; 1; 0; 0; 8; 8; 8; 8; 192; 168; 1; 2; 0; 0; 0; 0; 0; 1; 0; 1; 97; 98].
Definition sample_rewriter : SourceRewriter (context := nat) :=
  CreateSession (NewSourceRewriter (netip.Addr4 [192; 168; 1; 2]) netip.AddrInvalid)
    (mkSession (netip.Addr4 [10; 0; 0; 2]) (netip.Addr4 [8; 8; 8; 8])) 7%nat.
Definition sample_write (_ : nat) (_ : list Z) : option unit := None.

(** Meanwhile a ping of 10.0.0.3 under another identifier, with its reply. *)
Definition sample_other : list (traffic (context := nat)) :=
  [Created (mkSession (netip.Addr4 [10; 0; 0; 3]) (netip.Addr4 [8; 8; 8; 8])) 9%nat;
   Request [69; 0; 0; 30; 0; 0; 64; 0; 64; 1; 0; 0; 10; 0; 0; 3; 8; 8; 8; 8; 8; 0; 0; 0; 0; 2; 0; 1; 97; 98] 30;
   Reply [69; 0; 0; 30; 0; 0; 64; 0; 64; 1; 0; 0; 8; 8; 8; 8; 192; 168; 1; 2; 0; 0; 0; 0; 0; 2; 0; 1; 97; 98] 30].
Lemma v4_checked b : bool_decide (bytes b /\ Zlen b = 4) = true -> v4 (netip.Addr4 b).
Proof. intros [? ?]%bool_decide_eq_true. by exists b. Qed.
Lemma sample_rewriter_ok : rewriter_ok sample_rewriter.
Proof. intros x c. cbn. intros [[<- _]|[_ []%lookup_empty_Some]]%lookup_insert_Some. left. split; apply v4_checked; vm_compute; reflexivity. Qed.
Lemma sample_other_ok : Forall (other_traffic sample_rewriter (ident4 sample_request)) sample_other.
Proof.
  apply Forall_cons; split; [|apply Forall_cons; split; [|apply Forall_cons; split; [|apply Forall_nil; exact I]]]; cbn [other_traffic].
  - left. split; apply v4_checked; vm_compute; reflexivity.
  - left. split; [split_and!; concrete|]. split; [vm_compute; discriminate|]. apply v4_checked. vm_compute. reflexivity.
  - left. split; [split_and!; concrete|]. vm_compute. discriminate.
Qed.
Lemma SourceRewriter_round_trip_witness :
  exists m' s1 s2 r' s3,
    runs (RewritePacket (H := tschecksum.ts_impl false 64) sample_rewriter (packet sample_request 30)) sample_request s1 m' /\
    window m' 12 4 = [192; 168; 1; 2] /\ IPv4.checksum_ok m' 0 /\ handle_all (H := tschecksum.ts_impl false 64) sample_write s1 sample_other = Ok s2 /\
    runs (WriteBack (H := tschecksum.ts_impl false 64) sample_write s2 (packet sample_reply 30)) sample_reply
      (s3, (true, None), Some (7%nat, window r' 0 30)) r' /\
    window r' 16 4 = [10; 0; 0; 2] /\ IPv4.checksum_ok r' 0.
Proof.
  destruct (proj1 (SourceRewriter_round_trip (H := tschecksum.ts_impl false 64) sample_write sample_rewriter sample_request 30 [192; 168; 1; 2] ltac:(concrete) sample_rewriter_ok))
    as (m' & s1 & R & HR & _ & HB); [split_and!; concrete|reflexivity|reflexivity|].
  destruct (HB sample_other sample_other_ok) as (s2 & E & HB2).
  assert (sessions s2 !! mkSession (netip.Addr4 (window sample_request 12 4)) (source4 sample_reply) = Some 7%nat) as HC.
  { assert (match RewritePacket (H := tschecksum.ts_impl false 64) sample_rewriter (packet sample_request 30) sample_request with
            | Ok x => match handle_all (H := tschecksum.ts_impl false 64) sample_write x.1 sample_other with
                      | Ok y => sessions y !! mkSession (netip.Addr4 (window sample_request 12 4)) (source4 sample_reply) | Panic => None end
            | Panic => None end = Some 7%nat) as HX by (vm_compute; reflexivity).
    unfold runs in R. rewrite R in HX. cbn [fst] in HX. by rewrite E in HX. }
  destruct (HB2 sample_reply 30 7%nat) as (r' & s3 & R2 & HR2 & _); [split_and!; concrete|reflexivity|exact HC|].
  exists m', s1, s2, r', s3. split; [exact R|]. split; [exact (rd4_addr _ _ _ _ _ HR)|]. split; [exact (rd4_sum _ _ _ _ _ HR)|]. split; [exact E|].
  split; [exact R2|]. split; [exact (rd4_addr _ _ _ _ _ HR2)|exact (rd4_sum _ _ _ _ _ HR2)].
Defined.

Definition sample_ping (i : Z) : pingRequest := mkRequest (netip.Addr4 [10; 0; 0; 2]) (netip.Addr4 [8; 8; 8; 8]) i 1.
Definition sample_table : gmap pingRequest Z := {[ sample_ping 1 := 100; sample_ping 2 := 900 ]}.
Lemma registerRequest_bounded_witness :
  let rs' := registerRequest 500 (map_to_list sample_table) 1000 sample_table (sample_ping 3) in
  Z.of_nat (size rs') <= 1025 /\ rs' !! sample_ping 1 = None /\ rs' !! sample_ping 2 = Some 900 /\ rs' !! sample_ping 3 = Some 1000.
Proof.
  destruct (registerRequest_bounded 500 1000 sample_table (map_to_list sample_table) (sample_ping 3)) as (H1 & _).
  - reflexivity.
  - intros r t. unfold sample_table. rewrite lookup_insert_Some, lookup_singleton_Some. lia.
  - vm_compute. discriminate.
  - split; [exact H1|]. split_and!; vm_compute; reflexivity.
Defined.
