(* ===== verification/PingConn.v ===== *)
(** * ping/ping.go and the packet path of ping/destination.go

    A Conn sends echo requests over an ICMP socket and reads the replies.  The
    identifier on the wire is the complement of the client's, except where the
    kernel chooses it (unprivileged sockets of Linux).  A Destination forwards
    the requests of a client and lets through only replies to them.

    The socket is left to its results: the bytes written to it, and what a read
    of it gives, that is the bytes in the buffer and, where messages are read
    (IPv6, unprivileged sockets), the address of the sender and the fields of
    the control message. *)
From S2P Require Import Prelude Bytes GoMem Checksum TsChecksum Tcpip Netip HdrChecksum IPv4Options IPv4 IPv6 ICMP TunOptions Ping.

Record Conn := mkConn { privileged : bool; c_destination : netip.Addr; c_source : netip.Addr }.
Definition SetLocalAddr (c : Conn) (a : netip.Addr) : Conn := mkConn (privileged c) (c_destination c) a.

(** What the control data of a message says: nothing was received, it does not
    parse, or the hop limit (TTL) and the traffic class. *)
Inductive control := NoControl | BadControl | Control (hopLimit trafficClass : Z).
#[global] Instance control_eq_dec : EqDecision control.
Proof. solve_decision. Defined.
Definition hop_limit (oob : control) : Z := match oob with Control h _ => h | _ => 0 end.
Definition traffic_class (oob : control) : Z := match oob with Control _ t => t | _ => 0 end.

Section Conn.
Context `{ChecksumImpl} `{SingCommon} (os : GOOS) (le : bool).
(** M.AddrFromIP of sing/common/metadata. *)
Context (AddrFromIP : list Z -> netip.Addr).

Definition isLinuxUnprivileged (c : Conn) : bool := (bool_decide (os = Linux) || bool_decide (os = Android)) && negb (privileged c).

Definition complement4 (icmpHdr : slice) : M unit := i <- ICMPv4.Ident icmpHdr ;; ICMPv4.SetIdent icmpHdr (not16 i).
Definition sum4 (icmpHdr : slice) : M unit := x <- ICMPv4.ICMPv4Checksum icmpHdr 0 ;; ICMPv4.SetChecksum icmpHdr x.
Definition complement6 (icmpHdr : slice) : M unit := i <- ICMPv6.Ident icmpHdr ;; ICMPv6.SetIdent icmpHdr (not16 i).
Definition sum6 (icmpHdr : slice) (src dst : list Z) : M unit := x <- ICMPv6.ICMPv6Checksum icmpHdr src dst 0 0 ;; ICMPv6.SetChecksum icmpHdr x.

(** The Conn with the source recorded, and what is written to the socket. *)
Definition WriteIP (c : Conn) (buffer : slice) : M (Conn * list Z) :=
  if negb (Is6 (c_destination c)) then
    when (negb (isLinuxUnprivileged c)) (icmpHdr <- IPv4.Payload buffer ;; complement4 icmpHdr ;;; sum4 icmpHdr) ;;;
    src <- IPv4.SourceAddressSlice buffer ;;
    p <- IPv4.Payload buffer ;; b <- contents p ;;
    ret (SetLocalAddr c (AddrFromIP src), b)
  else
    when (negb (isLinuxUnprivileged c))
      (icmpHdr <- IPv6.Payload buffer ;; complement6 icmpHdr ;;;
       src <- IPv6.SourceAddressSlice buffer ;; dst <- IPv6.DestinationAddressSlice buffer ;; sum6 icmpHdr src dst) ;;;
    src <- IPv6.SourceAddressSlice buffer ;;
    p <- IPv6.Payload buffer ;; b <- contents p ;;
    ret (SetLocalAddr c (AddrFromIP src), b).
Definition WriteICMP (c : Conn) (buffer : slice) : M (list Z) :=
  when (negb (isLinuxUnprivileged c))
    (if negb (Is6 (c_destination c)) then complement4 buffer ;;; sum4 buffer
     else complement6 buffer ;;; sum6 buffer (netip.AsSlice (c_source c)) (netip.AsSlice (c_destination c))) ;;;
  contents buffer.

(** The fields of a raw packet on Darwin are in the order of the host. *)
Definition native_at (b : slice) (i : Z) : M Z := s <- tail b i ;; x <- idx s 0 ;; y <- idx s 1 ;; ret (if le then y * 256 + x else x * 256 + y).
Definition TotalLengthDarwinRaw (b : slice) : M Z := x <- native_at b 2 ;; h <- IPv4.HeaderLength b ;; ret (u16 (x + h)).
Definition FlagsDarwinRaw (b : slice) : M Z := s <- tail b 6 ;; x <- Uint16 s ;; ret (Z.shiftr x 13).
Definition FragmentOffsetDarwinRaw (b : slice) : M Z := x <- native_at b 6 ;; ret (u16 (Z.shiftl x 3)).
Definition from_darwin (ipHdr : slice) : M unit :=
  t <- TotalLengthDarwinRaw ipHdr ;; IPv4.SetTotalLength ipHdr t ;;;
  f <- FlagsDarwinRaw ipHdr ;; o <- FragmentOffsetDarwinRaw ipHdr ;; IPv4.SetFlagsFragmentOffset ipHdr f o.
(** ReadIP of a raw IPv4 socket, after the packet was read: whether its header
    was valid. *)
Definition ReadIP_raw4 (c : Conn) (buffer : slice) : M bool :=
  when (bool_decide (os = Darwin)) (from_darwin buffer) ;;;
  v <- IPv4.IsValid buffer (sl_len buffer) ;;
  if negb v then ret false
  else
    IPv4.SetDestinationAddr buffer (c_source c) ;;;
    update_ip_checksum (NetIPv4 buffer) ;;;
    icmpHdr <- IPv4.Payload buffer ;;
    when (negb (isLinuxUnprivileged c)) (complement4 icmpHdr) ;;;
    sum4 icmpHdr ;;; ret true.
(** The same for IPv6. *)
Definition ReadIP_raw6 (c : Conn) (buffer : slice) : M bool :=
  v <- IPv6.IsValid buffer (sl_len buffer) ;;
  if negb v then ret false
  else
    IPv6.SetDestinationAddr buffer (c_source c) ;;;
    icmpHdr <- IPv6.Payload buffer ;;
    when (negb (isLinuxUnprivileged c)) (complement6 icmpHdr) ;;;
    src <- IPv6.SourceAddressSlice buffer ;; dst <- IPv6.DestinationAddressSlice buffer ;;
    sum6 icmpHdr src dst ;;; ret true.

(** ReadIP of a message of [addr]; [buffer] is the room left for the header and
    the message behind it. *)
Definition ReadIP_message4 (c : Conn) (addr : netip.Addr) (oob : control) (buffer : slice) : M bool :=
  if bool_decide (oob = BadControl) then ret false
  else
    icmpHdr <- tail buffer IPv4MinimumSize ;;
    when (negb (isLinuxUnprivileged c)) (complement4 icmpHdr ;;; sum4 icmpHdr) ;;;
    ipHdr <- reslice buffer 0 IPv4MinimumSize ;;
    IPv4.Encode ipHdr (IPv4.mkFields 0 (u16 (sl_len buffer)) 0 0 0 (u8 (hop_limit oob)) ICMPv4.ICMPv4ProtocolNumber 0 addr (c_source c) []) ;;;
    update_ip_checksum (NetIPv4 ipHdr) ;;; ret true.
Definition ReadIP_message6 (c : Conn) (addr : netip.Addr) (oob : control) (buffer : slice) : M bool :=
  if bool_decide (oob = BadControl) then ret false
  else
    icmpHdr <- tail buffer IPv6.IPv6MinimumSize ;;
    when (negb (isLinuxUnprivileged c)) (complement6 icmpHdr) ;;;
    sum6 icmpHdr (netip.AsSlice addr) (netip.AsSlice (c_source c)) ;;;
    ipHdr <- reslice buffer 0 IPv6.IPv6MinimumSize ;;
    IPv6.Encode ipHdr (IPv6.mkFields (u8 (traffic_class oob)) 0 (u16 (sl_len buffer - IPv6.IPv6MinimumSize)) ICMPv6.ICMPv6ProtocolNumber (u8 (hop_limit oob)) addr (c_source c) []) ;;;
    ret true.
(** ReadIP after a read without an error: whether it returns none. *)
Definition ReadIP (c : Conn) (addr : netip.Addr) (oob : control) (buffer : slice) : M bool :=
  if Is6 (c_destination c) || isLinuxUnprivileged c then
    if negb (Is6 (c_destination c)) then ReadIP_message4 c addr oob buffer else ReadIP_message6 c addr oob buffer
  else if negb (Is6 (c_destination c)) then ReadIP_raw4 c buffer else ReadIP_raw6 c buffer.
(** ReadICMP after the read: the buffer that is left. *)
Definition ReadICMP (c : Conn) (buffer : slice) : M slice :=
  if isLinuxUnprivileged c then ret buffer
  else if negb (Is6 (c_destination c)) then
    h <- IPv4.HeaderLength buffer ;; b <- tail buffer h ;;
    complement4 b ;;; sum4 b ;;; ret b
  else complement6 buffer ;;; sum6 buffer (netip.AsSlice (c_destination c)) (netip.AsSlice (c_source c)) ;;; ret buffer.

(** ** Destination *)

Record Destination := mkDestination { d_conn : Conn; d_destination : netip.Addr; d_lastActive : Z; d_requests : gmap pingRequest Z }.
Definition needFilter (d : Destination) : bool := negb (isLinuxUnprivileged (d_conn d)).
Inductive ping_error := InvalidIPv4Header | InvalidICMPv4Header | InvalidIPv6Header | InvalidICMPv6Header.
Definition active (d : Destination) (now : Z) : Destination := mkDestination (d_conn d) (d_destination d) now (d_requests d).
Definition with_conn (d : Destination) (c : Conn) : Destination := mkDestination c (d_destination d) (d_lastActive d) (d_requests d).
Definition with_requests (d : Destination) (rs : gmap pingRequest Z) : Destination := mkDestination (d_conn d) (d_destination d) (d_lastActive d) rs.

(** ConnectDestination without its goroutine: privileged sockets first where the
    system has them, and without privileges after a permission error. *)
Inductive dialed := Connected | PermissionDenied | DialFailed.
Definition ConnectDestination (Connect : bool -> dialed) (destination : netip.Addr) (now : Z) : option Destination :=
  let connect privileged := match Connect privileged with Connected => Some (mkConn privileged destination netip.AddrInvalid) | _ => None end in
  conn ← (if bool_decide (os = Darwin) || bool_decide (os = Windows) then connect false
          else match Connect true with PermissionDenied => connect false | _ => connect true end);
  Some (mkDestination conn destination now ∅).
(** Whether loopRead goes on. *)
Definition loopRead_alive (timeout now : Z) (d : Destination) : bool := now <? d_lastActive d + timeout.

(** The request or reply in a packet; [reply] exchanges the addresses. *)
Definition request_of (ipHdr : Network) (reply : bool) (icmpHdr : slice) : M pingRequest :=
  s <- (if reply then Net.DestinationAddr ipHdr else Net.SourceAddr ipHdr) ;; d <- (if reply then Net.SourceAddr ipHdr else Net.DestinationAddr ipHdr) ;;
  i <- match ipHdr with NetIPv4 _ => ICMPv4.Ident icmpHdr | NetIPv6 _ => ICMPv6.Ident icmpHdr end ;;
  q <- match ipHdr with NetIPv4 _ => ICMPv4.Sequence icmpHdr | NetIPv6 _ => ICMPv6.Sequence icmpHdr end ;;
  ret (mkRequest s d i q).
Definition trace (ipHdr : Network) (icmpHdr : slice) : M unit := match ipHdr with NetIPv4 _ => trace4 ipHdr icmpHdr | NetIPv6 _ => trace6 ipHdr icmpHdr end.
(** The two length tests of either family. *)
Definition check4 (b : slice) : M (option ping_error) :=
  v <- IPv4.IsValid b (sl_len b) ;;
  if negb v then ret (Some InvalidIPv4Header)
  else n <- IPv4.PayloadLength b ;; ret (if n <? ICMPv4.ICMPv4MinimumSize then Some InvalidICMPv4Header else None).
Definition check6 (b : slice) : M (option ping_error) :=
  v <- IPv6.IsValid b (sl_len b) ;;
  if negb v then ret (Some InvalidIPv6Header)
  else n <- IPv6.PayloadLength b ;; ret (if n <? ICMPv6.ICMPv6MinimumSize then Some InvalidICMPv6Header else None).
Definition header_of (d : Destination) (b : slice) : M (ping_error + Network) :=
  if negb (Is6 (d_destination d)) then e <- check4 b ;; ret (match e with Some e => inl e | None => inr (NetIPv4 b) end)
  else e <- check6 b ;; ret (match e with Some e => inl e | None => inr (NetIPv6 b) end).

(** [order] is the order of the iteration over the requests; the second result
    is what goes to the socket, or the error. *)
Definition WritePacket (timeout : Z) (order : list (pingRequest * Z)) (now : Z) (d : Destination) (packet : slice) : M (Destination * (ping_error + list Z)) :=
  let d := active d now in
  h <- header_of d packet ;;
  match h with
  | inl e => ret (d, inl e)
  | inr ipHdr =>
      icmpHdr <- Net.Payload ipHdr ;;
      d <- (if needFilter d then
              r <- request_of ipHdr false icmpHdr ;; ret (with_requests d (registerRequest timeout order now (d_requests d) r))
            else ret d) ;;
      trace ipHdr icmpHdr ;;;
      w <- WriteIP (d_conn d) packet ;;
      ret (with_conn d w.1, inr w.2)
  end.
(** loopRead after ReadIP: the packet for the route context, if it passes. *)
Definition loopRead_reply (now : Z) (d : Destination) (buffer : slice) : M (Destination * option (list Z)) :=
  h <- header_of d buffer ;;
  match h with
  | inl _ => ret (d, None)
  | inr ipHdr =>
      icmpHdr <- Net.Payload ipHdr ;;
      let deliver d := trace ipHdr icmpHdr ;;; b <- contents buffer ;; ret (active d now, Some b) in
      if needFilter d then
        t <- match ipHdr with NetIPv4 _ => ICMPv4.Type_ icmpHdr | NetIPv6 _ => ICMPv6.Type_ icmpHdr end ;;
        if negb (t =? match ipHdr with NetIPv4 _ => ICMPv4.ICMPv4EchoReply | NetIPv6 _ => ICMPv6.ICMPv6EchoReply end) then ret (d, None)
        else
          r <- request_of ipHdr true icmpHdr ;;
          let '(exists_, requests) := takeRequest (d_requests d) r in
          if negb exists_ then ret (with_requests d requests, None) else deliver (with_requests d requests)
      else deliver d
  end.
(** A turn of loopRead after a read without an error; [None] when the loop ends,
    which it does when ReadIP reports an error. *)
Definition loopRead_turn (now : Z) (d : Destination) (addr : netip.Addr) (oob : control) (buffer : slice) : M (option (Destination * option (list Z))) :=
  ok <- ReadIP (d_conn d) addr oob buffer ;; if negb ok then ret None else r <- loopRead_reply now d buffer ;; ret (Some r).
End Conn.
