(* ===== verification/PingConnSpec.v ===== *)
(** * What a ping Conn and its Destination do to a packet

    The request goes out under the complement of the client's identifier, and
    the reply comes back under the client's own, with valid checksums, once. *)
From S2P Require Import Prelude Bytes GoMem Checksum TsChecksum Tcpip Netip HdrChecksum IPv4Options IPv4 IPv6 ICMP TunOptions Ping PingSpec PingConn.

(** The message of a packet: where it is, its length, its sequence number. *)
Definition icmp_at (m : list Z) : Z := IPv4.hlen m 0.
Definition icmp_len (m : list Z) : Z := get16 m 2 - IPv4.hlen m 0.
Definition sequence4 (m : list Z) : Z := get16 m (icmp_at m + 6).
Definition request4 (m : list Z) : pingRequest := mkRequest (source4 m) (netip.Addr4 (window m 16 4)) (ident4 m) (sequence4 m).
(** [m'] has the complement of the identifier of [m] and a valid message
    checksum, and agrees with [m] elsewhere. *)
Record complemented (m m' : list Z) (l : Z) : Prop := {
  cp_echo : echo4 m' l;
  cp_len : Zlen m' = Zlen m;
  cp_at : icmp_at m' = icmp_at m /\ icmp_len m' = icmp_len m;
  cp_sum : icmp_ok m' (icmp_at m) (icmp_len m) 0;
  cp_ident : ident4 m' = not16 (ident4 m);
  cp_frame : forall j, 0 <= j -> ~ (icmp_at m + 2 <= j < icmp_at m + 6) -> byte_at m' j = byte_at m j
}.

Section Spec.
Context `{ChecksumImpl} `{SingCommon} (os : GOOS) (le : bool) (AddrFromIP : list Z -> netip.Addr).
Context (AddrFromIP4 : forall b, bytes b -> Zlen b = 4 -> AddrFromIP b = netip.Addr4 b).

Lemma echo4_agree m m' l : echo4 m l -> bytes m' -> Zlen m' = Zlen m -> (forall j, 0 <= j < 20 -> byte_at m' j = byte_at m j) -> echo4 m' l.
Proof.
  intros (Hb & Hl & (V1 & V2 & V3 & V4 & V5) & Hn & Hp) B1 Z1 HF. change (0 + 2) with 2 in *.
  assert (IPv4.hlen m' 0 = IPv4.hlen m 0) as HH by (unfold IPv4.hlen; by rewrite HF by lia). assert (get16 m' 2 = get16 m 2) as HG by (unfold get16; by rewrite !HF by lia).
  split_and!; [done|lia| |by rewrite HH, HG|by rewrite HF by lia]. unfold IPv4.valid_header. change (0 + 2) with 2. rewrite HH, HG, HF by lia. done.
Qed.
Lemma runs_complement m l : echo4 m l ->
  exists m', runs (complement4 (icmp4 m) ;;; sum4 (icmp4 m)) m tt m' /\ complemented m m' l.
Proof.
  intros HE. pose proof HE as (Hb & Hl & (V1 & V2 & V3 & V4 & V5) & Hn & Hp). change (0 + 2) with 2 in *. pose proof (get16_range m 2 Hb) as Hg.
  set (h := IPv4.hlen m 0) in *. set (n := get16 m 2 - h). set (m1 := put16 m (h + 4) (not16 (get16 m (h + 4)))).
  assert (is_u16 (get16 m (h + 4))) as Hi by by apply get16_range. assert (bytes m1) as B1 by by apply bytes_put16. assert (Zlen m1 = Zlen m) as Z1 by (subst m1; by autorewrite with golen).
  destruct (runs_ICMPv4Checksum h n (Zlen m - h) m1 0) as (y & Hy & Ry & Cy); try done; try lia.
  pose proof (store_icmp m1 h n y 0 B1 ltac:(lia) ltac:(lia) ltac:(lia) Hy Cy) as I1. set (m' := put16 m1 (h + 2) (not16 y)) in *.
  assert (forall j, 0 <= j -> ~ (h + 2 <= j < h + 6) -> byte_at m' j = byte_at m j) as HF by (intros j ??; subst m' m1; by rd).
  assert (Zlen m' = Zlen m) as Z2 by (subst m'; by autorewrite with golen).
  assert (echo4 m' l) as HE' by (apply (echo4_agree m); [done|by apply bytes_put16|done|intros j ?; apply HF; lia]).
  assert (IPv4.hlen m' 0 = h) as HH by (unfold IPv4.hlen; by rewrite HF by lia). assert (get16 m' 2 = get16 m 2) as HG by (unfold get16; by rewrite !HF by lia).
  exists m'. split.
  - unfold complement4, sum4, icmp4. fold h n. eapply runs_bind.
    + eapply runs_bind; [apply runs_ident4; lia|]. unfold ICMPv4.SetIdent. eapply runs_bind; [apply runs_tail; lia|]. apply runs_PutUint16. lia.
    + eapply runs_bind; [exact Ry|]. apply runs_SetChecksum4; lia.
  - split; try done.
    + unfold icmp_at, icmp_len. by rewrite HH, HG.
    + unfold ident4. rewrite HH. fold h. pose proof (not16_range _ Hi). subst m' m1. by rd.
Qed.
Lemma complemented_request m m' l : echo4 m l -> complemented m m' l -> source4 m' = source4 m /\ window m' 16 4 = window m 16 4 /\ sequence4 m' = sequence4 m.
Proof.
  intros (_ & _ & (V1 & V2 & _) & _) HC. pose proof (cp_frame _ _ _ HC) as HF. destruct (cp_at _ _ _ HC) as [HA _]. unfold icmp_at in *. unfold source4, sequence4, icmp_at in *. rewrite HA. split_and!.
  - f_equal. apply window_agree; [apply (cp_len _ _ _ HC)|lia|lia|]. intros j ?. apply HF; lia.
  - apply window_agree; [apply (cp_len _ _ _ HC)|lia|lia|]. intros j ?. apply HF; lia.
  - unfold get16. by rewrite !HF by lia.
Qed.

(** Where the complement of the identifier is on the wire. *)
Definition complements (c : Conn) : Prop := isLinuxUnprivileged os c = false /\ exists b, c_destination c = netip.Addr4 b.
Lemma runs_payload4 m l : echo4 m l -> runs (IPv4.Payload (packet m l)) m (icmp4 m) m.
Proof. intros HE. by destruct (reads4 m l _ HE eq_refl) as [_ _ Ry _ _ _]. Qed.
Lemma packet_len m m' l : Zlen m' = Zlen m -> packet m' l = packet m l.
Proof. unfold packet. by intros ->. Qed.
Lemma icmp4_complemented m m' l : complemented m m' l -> icmp4 m' = icmp4 m.
Proof. intros HC. destruct (cp_at _ _ _ HC) as [HA HL]. unfold icmp4, icmp_at, icmp_len in *. by rewrite HL, HA, (cp_len _ _ _ HC). Qed.
Lemma runs_WriteIP c m l : echo4 m l -> complements c ->
  exists m', runs (WriteIP os AddrFromIP c (packet m l)) m (SetLocalAddr c (source4 m), window m' (icmp_at m) (icmp_len m)) m' /\ complemented m m' l.
Proof.
  intros HE [HU (b & Hd)]. destruct (runs_complement m l HE) as (m' & Rc & HC). exists m'. split; [|done]. unfold WriteIP. rewrite Hd, HU. cbn [Is6 negb when].
  pose proof HE as (Hb & Hl & (V1 & V2 & _) & _). destruct (complemented_request m m' l HE HC) as (HS & _). pose proof (cp_echo _ _ _ HC) as HE'. pose proof HE' as (Hb' & _).
  eapply runs_bind; [eapply runs_bind; [apply (runs_payload4 m l HE)|exact Rc]|]. rewrite <- (packet_len m m' l (cp_len _ _ _ HC)).
  eapply runs_bind; [apply IPv4.runs4_SourceAddressSlice; rewrite (cp_len _ _ _ HC); lia|]. eapply runs_bind; [apply (runs_payload4 m' l HE')|]. rewrite (icmp4_complemented m m' l HC). unfold icmp4.
  eapply runs_bind; [apply runs_contents|]. eapply runs_eq; [apply runs_ret| |done].
  rewrite AddrFromIP4; [|by apply bytes_window|rewrite Zlen_window; rewrite ?(cp_len _ _ _ HC); lia]. change (0 + 12) with 12. fold (source4 m'). by rewrite HS.
Qed.

(** *** A reply *)

(** [r'] is the reply [r] for the client: its address, its identifier, valid
    checksums, and the rest as it arrived. *)
Record given_back (r r' : list Z) (l : Z) (client : list Z) : Prop := {
  gb_echo : echo4 r' l;
  gb_len : Zlen r' = Zlen r;
  gb_at : icmp_at r' = icmp_at r /\ icmp_len r' = icmp_len r;
  gb_ip_sum : IPv4.checksum_ok r' 0;
  gb_sum : icmp_ok r' (icmp_at r) (icmp_len r) 0;
  gb_client : window r' 16 4 = client;
  gb_ident : ident4 r' = not16 (ident4 r);
  gb_frame : forall j, 0 <= j -> ~ (10 <= j < 12) -> ~ (16 <= j < 20) -> ~ (icmp_at r + 2 <= j < icmp_at r + 6) -> byte_at r' j = byte_at r j
}.
Lemma checksum_ok_agree m m' : Zlen m' = Zlen m -> 20 <= IPv4.hlen m 0 -> (forall j, 0 <= j < IPv4.hlen m 0 -> byte_at m' j = byte_at m j) -> IPv4.checksum_ok m 0 -> IPv4.checksum_ok m' 0.
Proof.
  intros HZ Hh HF. unfold IPv4.checksum_ok. assert (IPv4.hlen m' 0 = IPv4.hlen m 0) as -> by (unfold IPv4.hlen at 1; rewrite HF by lia; done).
  rewrite (window_agree m m' 0 (IPv4.hlen m 0)); [done|done|lia|lia|]. intros j ?. apply HF. lia.
Qed.
Lemma runs_ReadIP c m l client : echo4 m l -> complements c -> os <> Darwin -> c_source c = netip.Addr4 client -> bytes client -> Zlen client = 4 ->
  exists m', runs (ReadIP_raw4 os le c (packet m l)) m true m' /\ given_back m m' l client.
Proof.
  intros HE [HU _] Hos Hsrc Bc Lc. pose proof HE as (Hb & Hl & HV & Hn & Hp). pose proof HV as (V1 & V2 & V3 & V4 & V5). change (0 + 2) with 2 in *.
  destruct (readdress4 m l 16 client HE (or_intror eq_refl) Bc Lc) as (m1 & R1 & HR). pose proof (rd4_echo _ _ _ _ _ HR) as HE1. pose proof (rd4_len _ _ _ _ _ HR) as Z1. pose proof (rd4_frame _ _ _ _ _ HR) as F1.
  destruct (readdressed_ident4 m m1 l 16 client HE (or_intror eq_refl) HR) as [HI1 HH1]. assert (get16 m1 2 = get16 m 2) as HG1 by (unfold get16; by rewrite !F1 by lia).
  destruct (runs_complement m1 l HE1) as (m' & Rc & HC). exists m'. split.
  - unfold ReadIP_raw4. rewrite bool_decide_eq_false_2 by done. cbn [when]. eapply runs_bind; [apply runs_ret|]. destruct (IPv4.runs4_IsValid 0 l (Zlen m) l m ltac:(lia)) as (v & Rv & Hv).
    rewrite (proj2 Hv HV) in Rv. eapply runs_bind; [exact Rv|]. cbn [negb]. rewrite Hsrc. eapply runs_bind; [apply IPv4.runs4_SetDestinationAddr; cbn [netip.AsSlice]; lia|]. cbn [netip.AsSlice]. rewrite Z.add_0_l.
    eapply runs_bind; [exact R1|]. fold (packet m l). rewrite <- (packet_len m m1 l Z1). eapply runs_bind; [apply (runs_payload4 m1 l HE1)|]. rewrite HU. cbn [negb when].
    apply runs_bind_inv in Rc as (u & m2 & Ra & Rb). destruct u. eapply runs_bind; [exact Ra|]. eapply runs_bind; [exact Rb|apply runs_ret].
  - pose proof (cp_frame _ _ _ HC) as F2. destruct (cp_at _ _ _ HC) as [A2 L2]. unfold icmp_at, icmp_len in *. rewrite HH1, ?HG1 in *. split; unfold icmp_at, icmp_len in *; try done.
    + apply (cp_echo _ _ _ HC).
    + by rewrite (cp_len _ _ _ HC).
    + apply (checksum_ok_agree m1); [apply (cp_len _ _ _ HC)|lia| |apply (rd4_sum _ _ _ _ _ HR)]. intros j ?. apply F2; lia.
    + pose proof (cp_sum _ _ _ HC) as HS. unfold icmp_at, icmp_len in HS. by rewrite HH1, HG1 in HS.
    + rewrite <- (rd4_addr _ _ _ _ _ HR). apply window_agree; [apply (cp_len _ _ _ HC)|lia|lia|]. intros j ?. apply F2; lia.
    + by rewrite (cp_ident _ _ _ HC), HI1.
    + intros j ????. rewrite F2 by lia. apply F1; lia.
Qed.

(** *** The requests of a client *)

Definition to4 (d : Destination) : Prop := complements (d_conn d) /\ exists b, d_destination d = netip.Addr4 b.
Lemma runs_header_of4 d m l : echo4 m l -> (exists b, d_destination d = netip.Addr4 b) -> runs (header_of d (packet m l)) m (inr (NetIPv4 (packet m l))) m.
Proof.
  intros HE (b & Hd). pose proof HE as (Hb & Hl & HV & Hn & Hp). pose proof HV as (V1 & V2 & V3 & V4 & V5). change (0 + 2) with 2 in *. pose proof (get16_range m 2 Hb).
  unfold header_of. rewrite Hd. cbn [Is6 negb]. unfold check4, packet. cbn [sl_len]. destruct (IPv4.runs4_IsValid 0 l (Zlen m) l m ltac:(lia)) as (v & Rv & Hv). rewrite (proj2 Hv HV) in Rv.
  eapply runs_bind; [eapply runs_bind; [exact Rv|]; cbn [negb]; eapply runs_bind; [apply IPv4.runs4_PayloadLength; lia|apply runs_ret]|].
  change (0 + 2) with 2. rewrite u16_small by lia. replace (_ <? ICMPv4.ICMPv4MinimumSize) with false by (unfold ICMPv4.ICMPv4MinimumSize; lia). apply runs_ret.
Qed.
Definition answer4 (r : list Z) : pingRequest := mkRequest (netip.Addr4 (window r 16 4)) (source4 r) (ident4 r) (sequence4 r).
Lemma runs_request_of m l reply : echo4 m l -> runs (request_of (NetIPv4 (packet m l)) reply (icmp4 m)) m (if reply then answer4 m else request4 m) m.
Proof.
  intros (Hb & Hl & (V1 & V2 & V3 & V4 & V5) & Hn & Hp). change (0 + 2) with 2 in *. unfold request_of, icmp4, packet. cbn [Net.SourceAddr Net.DestinationAddr].
  destruct reply; (eapply runs_bind; [first [apply IPv4.runs4_SourceAddr; lia|apply IPv4.runs4_DestinationAddr; lia]|]; eapply runs_bind; [first [apply IPv4.runs4_SourceAddr; lia|apply IPv4.runs4_DestinationAddr; lia]|];
    eapply runs_bind; [apply runs_ident4; lia|]; eapply runs_bind; [apply runs_sequence4; lia|]; apply runs_ret).
Qed.
Lemma runs_trace m l : echo4 m l -> runs (trace (NetIPv4 (packet m l)) (icmp4 m)) m tt m.
Proof. intros HE. by destruct (reads4 m l _ HE eq_refl) as [_ _ _ _ _ Rt]. Qed.
Lemma runs_WritePacket timeout order now d m l : echo4 m l -> to4 d ->
  exists m' d', runs (WritePacket os AddrFromIP timeout order now d (packet m l)) m (d', inr (window m' (icmp_at m) (icmp_len m))) m' /\ complemented m m' l /\
    d' = mkDestination (SetLocalAddr (d_conn d) (source4 m)) (d_destination d) now (registerRequest timeout order now (d_requests d) (request4 m)).
Proof.
  intros HE HD. destruct (runs_WriteIP (d_conn d) m l HE (proj1 HD)) as (m' & Rw & HC). exists m'. eexists. split; [|split; [exact HC|reflexivity]].
  unfold WritePacket. eapply runs_bind; [apply (runs_header_of4 (active d now)); [done|exact (proj2 HD)]|]. cbv beta iota. eapply runs_bind; [cbn [Net.Payload]; by apply runs_payload4|].
  assert (needFilter os (active d now) = true) as -> by (unfold needFilter; cbn; by rewrite (proj1 (proj1 HD))).
  eapply runs_bind; [eapply runs_bind; [apply (runs_request_of m l false HE)|apply runs_ret]|]. eapply runs_bind; [by apply runs_trace|]. eapply runs_bind; [exact Rw|]. apply runs_ret.
Qed.
(** What loopRead makes of a reply, registered or not. *)
Lemma runs_loopRead_reply now d r n : echo4 r n -> to4 d -> byte_at r (icmp_at r) = ICMPv4.ICMPv4EchoReply ->
  runs (loopRead_reply os now d (packet r n)) r
    (match d_requests d !! answer4 r with
     | Some _ => (active (with_requests d (delete (answer4 r) (d_requests d))) now, Some (window r 0 n))
     | None => (with_requests d (d_requests d), None)
     end) r.
Proof.
  intros HE HD HT. pose proof HE as (Hb & Hl & (V1 & V2 & V3 & V4 & V5) & Hn & Hp). change (0 + 2) with 2 in *. unfold loopRead_reply. eapply runs_bind; [apply runs_header_of4; [done|exact (proj2 HD)]|]. cbv beta iota.
  eapply runs_bind; [cbn [Net.Payload]; by apply runs_payload4|]. cbv zeta. assert (needFilter os d = true) as -> by (unfold needFilter; by rewrite (proj1 (proj1 HD))).
  eapply runs_bind; [unfold ICMPv4.Type_, icmp4; apply runs_idx; lia|]. rewrite Z.add_0_r. fold (icmp_at r). rewrite HT, Z.eqb_refl. cbn [negb].
  eapply runs_bind; [apply (runs_request_of r n true HE)|]. unfold takeRequest. destruct (d_requests d !! answer4 r); cbn [negb]; [|apply runs_ret].
  eapply runs_bind; [by apply runs_trace|]. eapply runs_bind; [apply runs_contents|apply runs_ret].
Qed.
(** A turn on a raw IPv4 socket. *)
Lemma runs_turn4 d now addr oob buffer m m' r m2 : complements (d_conn d) ->
  runs (ReadIP_raw4 os le (d_conn d) buffer) m true m' -> runs (loopRead_reply os now d buffer) m' r m2 ->
  runs (loopRead_turn os le now d addr oob buffer) m (Some r) m2.
Proof.
  intros [HU (b & Hd)] Rr Rl. unfold loopRead_turn, ReadIP. rewrite Hd, HU. cbn [Is6 negb orb]. eapply runs_bind; [exact Rr|]. cbn [negb]. eapply runs_bind; [exact Rl|apply runs_ret].
Qed.

(** C34: The ping of a client through a Destination on a raw IPv4 socket:
    WritePacket sends the message of the request with the complement of its
    identifier and a valid checksum and registers the request.  When the answer
    to that message is read, loopRead hands the client a packet addressed to
    it, under its own identifier, with valid IP and ICMP checksums and
    everything else as it arrived; a second copy of the answer is dropped. *)
Theorem Destination_round_trip timeout order now d m l : echo4 m l -> to4 d ->
  exists m' d1, runs (WritePacket os AddrFromIP timeout order now d (packet m l)) m (d1, inr (window m' (icmp_at m) (icmp_len m))) m' /\ complemented m m' l /\
    d_requests d1 !! request4 m = Some now /\
    forall r n now' addr oob, os <> Darwin -> echo4 r n -> byte_at r (icmp_at r) = ICMPv4.ICMPv4EchoReply ->
      source4 r = netip.Addr4 (window m 16 4) -> ident4 r = not16 (ident4 m) -> sequence4 r = sequence4 m ->
      exists r' d2, runs (loopRead_turn os le now' d1 addr oob (packet r n)) r (Some (d2, Some (window r' 0 n))) r' /\
        given_back r r' n (window m 12 4) /\ ident4 r' = ident4 m /\ d_lastActive d2 = now' /\ d_requests d2 = delete (request4 m) (d_requests d1) /\
        runs (loopRead_turn os le now' d2 addr oob (packet r n)) r (Some (d2, None)) r'.
Proof.
  intros HE HD. destruct (runs_WritePacket timeout order now d m l HE HD) as (m' & d1 & Rw & HC & ->). exists m'. eexists. split; [exact Rw|]. split; [done|]. cbn [d_requests].
  assert (forall rs, registerRequest timeout order now rs (request4 m) !! request4 m = Some now) as HR by (intros rs; unfold registerRequest; destruct (expire_loop _ _ _ _ _ _); apply lookup_insert_eq).
  split; [apply HR|]. intros r n now' addr oob Hos HEr HT Hsrc Hid Hseq. pose proof HE as (Hb & Hl & (V1 & _) & _). pose proof HEr as (Hbr & _ & (_ & V2 & _) & _).
  destruct (runs_ReadIP (SetLocalAddr (d_conn d) (source4 m)) r n (window m 12 4)) as (r' & Rr & HG); [done|split; apply HD|done|done|by apply bytes_window|rewrite Zlen_window; lia|].
  pose proof (gb_frame _ _ _ _ HG) as HF. pose proof (gb_echo _ _ _ _ HG) as HE'. destruct (gb_at _ _ _ _ HG) as [HA _]. unfold icmp_at in HA, HT, HF.
  assert (ident4 r' = ident4 m) as HI.
  { rewrite (gb_ident _ _ _ _ HG), Hid. apply not16_invol. by apply get16_range. }
  assert (answer4 r' = request4 m) as HQ.
  { unfold answer4, request4. rewrite (gb_client _ _ _ _ HG), HI. f_equal; [|].
    - rewrite <- Hsrc. unfold source4. f_equal. apply window_agree; [apply (gb_len _ _ _ _ HG)|lia|lia|]. intros j ?. apply HF; lia.
    - rewrite <- Hseq. unfold sequence4, icmp_at. rewrite HA. unfold get16. by rewrite !HF by lia. }
  set (d1 := mkDestination _ _ _ _). assert (to4 d1) as HD1 by exact HD. assert (byte_at r' (icmp_at r') = ICMPv4.ICMPv4EchoReply) as HT' by (unfold icmp_at; rewrite HA, HF by lia; exact HT).
  pose proof (runs_loopRead_reply now' d1 r' n HE' HD1 HT') as RL. rewrite HQ in RL. unfold d1 in RL at 2. cbn [d_requests] in RL. rewrite HR in RL. fold d1 in RL.
  set (d2 := active (with_requests d1 (delete (request4 m) (d_requests d1))) now') in *. exists r', d2. split_and!; [|done|done|done|done|].
  - eapply (runs_turn4 d1); [exact (proj1 HD1)|exact Rr|]. rewrite <- (packet_len r r' n (gb_len _ _ _ _ HG)). exact RL.
  - assert (to4 d2) as HD2 by exact HD. eapply (runs_turn4 d2); [exact (proj1 HD2)|exact Rr|]. rewrite <- (packet_len r r' n (gb_len _ _ _ _ HG)).
    pose proof (runs_loopRead_reply now' d2 r' n HE' HD2 HT') as RL2. rewrite HQ in RL2. unfold d2 in RL2 at 2. cbn [active with_requests d_requests] in RL2. rewrite lookup_delete_eq in RL2. exact RL2.
Qed.

(** A packet with a valid IPv4 header and fewer than six bytes behind it. *)
Lemma ReadIP_truncated_panics c m l : bytes m -> l <= Zlen m -> IPv4.valid_header m 0 l l -> get16 m 2 < IPv4.hlen m 0 + 6 ->
  isLinuxUnprivileged os c = false -> os <> Darwin -> (exists b, c_source c = netip.Addr4 b /\ bytes b /\ Zlen b = 4) ->
  panics (ReadIP_raw4 os le c (packet m l)) m.
Proof.
  intros Hb Hl HV Hshort HU Hos (b & Hs & Bb & Lb). pose proof HV as (V1 & V2 & V3 & V4 & V5). change (0 + 2) with 2 in *. unfold ReadIP_raw4, packet. rewrite bool_decide_eq_false_2 by done. cbn [when sl_len].
  eapply panics_bind_r; [apply runs_ret|]. destruct (IPv4.runs4_IsValid 0 l (Zlen m) l m ltac:(lia)) as (v & Rv & Hv). rewrite (proj2 Hv HV) in Rv. eapply panics_bind_r; [exact Rv|]. cbn [negb]. rewrite Hs.
  eapply panics_bind_r; [apply IPv4.runs4_SetDestinationAddr; cbn [netip.AsSlice]; lia|]. cbn [netip.AsSlice]. change (0 + 16) with 16. set (m1 := write_at m 16 b). assert (bytes m1) as B1 by by apply bytes_write_at.
  assert (Zlen m1 = Zlen m) as Z1 by (subst m1; by autorewrite with golen). assert (IPv4.hlen m1 0 = IPv4.hlen m 0) as H1 by (subst m1; apply IPv4.hlen_write_at; lia).
  destruct (IPv4.runs4_CalculateChecksum 0 l (Zlen m) m1) as (x & Rx & Hx & _); try done; try lia.
  eapply panics_bind_r; [unfold update_ip_checksum; eapply runs_bind; [exact Rx|apply IPv4.runs4_SetChecksum; lia]|]. change (0 + 10) with 10. set (m2 := put16 m1 10 (not16 x)).
  assert (IPv4.hlen m2 0 = IPv4.hlen m 0) as H2 by (subst m2; rewrite IPv4.hlen_put16; [done|lia|lia]). assert (get16 m2 2 = get16 m 2) as G2 by (subst m2 m1; by rd).
  eapply panics_bind_r; [apply IPv4.runs4_Payload; change (0 + 2) with 2; rewrite ?H2, ?G2; [by apply bytes_put16|lia..]|]. change (0 + 2) with 2. rewrite H2, G2, HU. cbn [negb when]. apply panics_bind, panics_bind. unfold ICMPv4.Ident, tail. cbn [sl_len].
  destruct (Z.lt_ge_cases (get16 m 2 - IPv4.hlen m 0) 4); [apply panics_bind, panics_reslice; lia|]. eapply panics_bind_r; [apply runs_reslice; lia|]. apply panics_Uint16. lia.
Qed.
End Spec.

(** ** Witness *)

#[local] Existing Instance sing_common_loop.
(** The request of a client on the wire, and its answer. *)
Definition answered : list Z :=
  [69; 0; 0; 30; 0; 0; 64; 0; 64; 1; 0; 0; 8; 8; 8; 8; 192; 168; 1; 2; 0; 0; 0; 0; 255; 254; 0; 1; 97; 98].
Definition sample_destination : Destination := mkDestination (mkConn true (netip.Addr4 [8; 8; 8; 8]) netip.AddrInvalid) (netip.Addr4 [8; 8; 8; 8]) 0 ∅.
Definition address_of (b : list Z) : netip.Addr := if Zlen b =? 4 then netip.Addr4 b else netip.Addr6 b.
Lemma Destination_round_trip_witness :
  exists m' d1 r' d2,
    runs (WritePacket (H := tschecksum.ts_impl false 64) Linux address_of 500 [] 1000 sample_destination (packet sample_request 30)) sample_request (d1, inr (window m' 20 10)) m' /\
    ident4 m' = 65534 /\ icmp_ok m' 20 10 0 /\
    runs (loopRead_turn (H := tschecksum.ts_impl false 64) Linux true 1500 d1 netip.AddrInvalid NoControl (packet answered 30)) answered (Some (d2, Some (window r' 0 30))) r' /\
    window r' 16 4 = [10; 0; 0; 2] /\ ident4 r' = 1 /\ IPv4.checksum_ok r' 0.
Proof.
  assert (forall b, bytes b -> Zlen b = 4 -> address_of b = netip.Addr4 b) as HA by (intros b _ E; unfold address_of; by rewrite E).
  destruct (Destination_round_trip (H := tschecksum.ts_impl false 64) Linux true address_of HA 500 [] 1000 sample_destination sample_request 30) as (m' & d1 & Rw & HC & _ & HR);
    [split_and!; concrete|split; [split; [reflexivity|by eexists]|by eexists]|].
  destruct (HR answered 30 1500 netip.AddrInvalid NoControl) as (r' & d2 & Rr & HG & HI & _); [discriminate|split_and!; concrete|reflexivity|reflexivity|reflexivity|reflexivity|].
  exists m', d1, r', d2. split; [exact Rw|]. split; [exact (cp_ident _ _ _ HC)|]. split; [exact (cp_sum _ _ _ HC)|]. split; [exact Rr|]. split; [exact (gb_client _ _ _ _ HG)|]. split; [exact HI|exact (gb_ip_sum _ _ _ _ HG)].
Defined.
