(* ===== verification/PingUnprivileged.v ===== *)
(** * ping/socket_linux_unprivileged.go

    An UnprivilegedConn pings through the ICMP datagram sockets of Linux, where
    the kernel chooses the identifier: it keeps one socket per identifier of the
    clients, and a goroutine per socket that gives the responses of the socket
    the identifier back and hands them to the readers over a channel.

    Sockets are numbers that [connect] gives out.  [world] is the UnprivilegedConn
    with its goroutines, between two sections under the lock mappingAccess or two
    operations on a socket or the channel; [exec] is what one of them does. *)
From S2P Require Import Prelude Bytes GoMem Checksum TsChecksum Tcpip Netip HdrChecksum ICMP TunOptions Ping PingConn.

(** [u_cancelled]: the context is done, by Close or because the one it was made
    from is. *)
Record UnprivilegedConn := mkUnprivileged { u_is6 : bool; u_cancelled : bool; u_mapping : gmap Z Z }.
Record unprivilegedResponse := mkResponse { Buffer : list Z; Cmsg : list Z; Addr : netip.Addr }.
Definition newUnprivilegedConn (destination : netip.Addr) : UnprivilegedConn := mkUnprivileged (Is6 destination) false ∅.
Definition with_mapping (c : UnprivilegedConn) (mapping : gmap Z Z) : UnprivilegedConn := mkUnprivileged (u_is6 c) (u_cancelled c) mapping.

Definition whole (b : list Z) : slice := Slice 0 (Zlen b) (Zlen b).
(** The identifier of a message; [None] where reading it panics. *)
Definition identifier_of (is6 : bool) (b : list Z) : option Z :=
  match (if is6 then ICMPv6.Ident (whole b) else ICMPv4.Ident (whole b)) b with Ok (i, _) => Some i | Panic => None end.

(** Write up to its Unlock: the socket to write to, and whether it is new. *)
Inductive locked := LockClosed | LockFailed | LockSocket (conn : Z) (loaded : bool).
Definition Write_lock (c : UnprivilegedConn) (identifier : Z) (connect : option Z) : UnprivilegedConn * locked :=
  if u_cancelled c then (c, LockClosed)
  else match u_mapping c !! identifier with
       | Some conn => (c, LockSocket conn true)
       | None =>
           match connect with
           | None => (c, LockFailed)
           | Some conn => (with_mapping c (<[identifier := conn]> (u_mapping c)), LockSocket conn false)
           end
       end.
(** removeConn up to its Unlock. *)
Definition removeConn_lock (c : UnprivilegedConn) (conn identifier : Z) : UnprivilegedConn :=
  if bool_decide (u_mapping c !! identifier = Some conn) then with_mapping c (delete identifier (u_mapping c)) else c.
(** The sockets Close closes, under the lock. *)
Definition Close (c : UnprivilegedConn) : UnprivilegedConn * gset Z :=
  (mkUnprivileged (u_is6 c) true ∅, list_to_set (map_to_list (u_mapping c)).*2).

Section Fetch.
Context `{ChecksumImpl}.
(** What fetchResponse makes of a response. *)
Definition restore (is6 : bool) (identifier : Z) (buffer : slice) : M unit :=
  if negb is6 then ICMPv4.SetIdent buffer identifier ;;; sum4 buffer else ICMPv6.SetIdent buffer identifier.
Definition fetched (is6 : bool) (identifier : Z) (r : unprivilegedResponse) : option unprivilegedResponse :=
  match restore is6 identifier (whole (Buffer r)) (Buffer r) with Ok (_, b) => Some (mkResponse b (Cmsg r) (Addr r)) | Panic => None end.

(** ** The goroutines *)

(** fetchResponse: in its read, or at the channel with a response. *)
Inductive fetcher := Reading | Sending (r : unprivilegedResponse).
(** [w_dialed]: the sockets ever opened, with the identifier each was opened
    for; [w_writing]: calls of Write between their Unlock and the write;
    [w_closing]: calls of removeConn between their Unlock and the Close;
    [w_sent], [w_read]: what was written to the sockets and what Read and
    ReadMsg returned. *)
Record world := mkWorld {
  w_conn : UnprivilegedConn;
  w_dialed : gmap Z Z;
  w_fetch : gmap Z fetcher;
  w_writing : list (Z * list Z);
  w_closing : list Z;
  w_closed : gset Z;
  w_sent : list (Z * list Z);
  w_read : list (Z * unprivilegedResponse)
}.
Definition initial (destination : netip.Addr) : world := mkWorld (newUnprivilegedConn destination) ∅ ∅ [] [] ∅ [] [].

Inductive event :=
| EWrite (b : list Z) (connect : option Z)        (** Write, up to its Unlock *)
| EWritten (i : nat) (ok : bool)                  (** its conn.Write, and removeConn after an error *)
| EReceive (conn : Z) (r : unprivilegedResponse)  (** fetchResponse reads a response *)
| EReadMsg (conn : Z)                             (** and hands it to a reader *)
| EDone (conn : Z)                                (** or sees the context done *)
| EReadError (conn : Z)                           (** an error of its read: a timeout, a closed socket *)
| ECloseSocket (i : nat)                          (** the Close at the end of removeConn *)
| ECancel                                         (** the context the connection was made with ends *)
| EClose.

Definition removeConn (w : world) (conn identifier : Z) (fetch : gmap Z fetcher) (writing : list (Z * list Z)) : world :=
  mkWorld (removeConn_lock (w_conn w) conn identifier) (w_dialed w) fetch writing (conn :: w_closing w) (w_closed w) (w_sent w) (w_read w).
(** [connect] gives a socket that was not open before. *)
Definition fresh (w : world) (connect : option Z) : bool := match connect with Some s => bool_decide (w_dialed w !! s = None) | None => true end.
(** [None]: the event is not possible, or the code panics. *)
Definition exec (w : world) (e : event) : option world :=
  match e with
  | EWrite b connect =>
      identifier ← identifier_of (u_is6 (w_conn w)) b;
      if negb (fresh w connect) then None
      else
        let '(c, l) := Write_lock (w_conn w) identifier connect in
        match l with
        | LockClosed | LockFailed => Some w
        | LockSocket conn true => Some (mkWorld c (w_dialed w) (w_fetch w) ((conn, b) :: w_writing w) (w_closing w) (w_closed w) (w_sent w) (w_read w))
        | LockSocket conn false =>
            Some (mkWorld c (<[conn := identifier]> (w_dialed w)) (<[conn := Reading]> (w_fetch w)) ((conn, b) :: w_writing w) (w_closing w) (w_closed w) (w_sent w) (w_read w))
        end
  | EWritten i ok =>
      '(conn, b) ← w_writing w !! i;
      let writing := delete i (w_writing w) in
      if ok : bool then
        if bool_decide (conn ∈ w_closed w) then None
        else Some (mkWorld (w_conn w) (w_dialed w) (w_fetch w) writing (w_closing w) (w_closed w) (w_sent w ++ [(conn, b)]) (w_read w))
      else
        identifier ← identifier_of (u_is6 (w_conn w)) b;
        Some (removeConn w conn identifier (w_fetch w) writing)
  | EReceive conn r =>
      identifier ← w_dialed w !! conn;
      match w_fetch w !! conn with
      | Some Reading =>
          if bool_decide (conn ∈ w_closed w) then None
          else
            r' ← fetched (u_is6 (w_conn w)) identifier r;
            Some (mkWorld (w_conn w) (w_dialed w) (<[conn := Sending r']> (w_fetch w)) (w_writing w) (w_closing w) (w_closed w) (w_sent w) (w_read w))
      | _ => None
      end
  | EReadMsg conn =>
      match w_fetch w !! conn with
      | Some (Sending r) => Some (mkWorld (w_conn w) (w_dialed w) (<[conn := Reading]> (w_fetch w)) (w_writing w) (w_closing w) (w_closed w) (w_sent w) (w_read w ++ [(conn, r)]))
      | _ => None
      end
  | EDone conn =>
      identifier ← w_dialed w !! conn;
      match w_fetch w !! conn with
      | Some (Sending _) => if u_cancelled (w_conn w) then Some (removeConn w conn identifier (delete conn (w_fetch w)) (w_writing w)) else None
      | _ => None
      end
  | EReadError conn =>
      identifier ← w_dialed w !! conn;
      match w_fetch w !! conn with
      | Some Reading => Some (removeConn w conn identifier (delete conn (w_fetch w)) (w_writing w))
      | _ => None
      end
  | ECloseSocket i =>
      conn ← w_closing w !! i;
      Some (mkWorld (w_conn w) (w_dialed w) (w_fetch w) (w_writing w) (delete i (w_closing w)) ({[conn]} ∪ w_closed w) (w_sent w) (w_read w))
  | ECancel =>
      Some (mkWorld (mkUnprivileged (u_is6 (w_conn w)) true (u_mapping (w_conn w))) (w_dialed w) (w_fetch w) (w_writing w) (w_closing w) (w_closed w) (w_sent w) (w_read w))
  | EClose =>
      let '(c, sockets) := Close (w_conn w) in
      Some (mkWorld c (w_dialed w) (w_fetch w) (w_writing w) (w_closing w) (sockets ∪ w_closed w) (w_sent w) (w_read w))
  end.
Fixpoint run (w : world) (es : list event) : option world :=
  match es with [] => Some w | e :: es => w' ← exec w e; run w' es end.
End Fetch.
