(* ===== verification/PingUnprivilegedSpec.v ===== *)
(** * The sockets of an UnprivilegedConn

    Whatever the goroutines do in whatever order, no socket is lost and every
    response comes back under the identifier its request was sent with. *)
From S2P Require Import Prelude Bytes GoMem Checksum TsChecksum Tcpip Netip HdrChecksum ICMP TunOptions Ping PingSpec PingConn PingUnprivileged.

(** ** Responses *)

Record response_ok (is6 : bool) (identifier : Z) (r : unprivilegedResponse) : Prop := {
  ro_bytes : bytes (Buffer r);
  ro_identifier : identifier_of is6 (Buffer r) = Some identifier;
  ro_sum : is6 = false -> icmp_ok (Buffer r) 0 (Zlen (Buffer r)) 0
}.

Lemma identifier_of_spec is6 b : identifier_of is6 b = if 6 <=? Zlen b then Some (get16 b 4) else None.
Proof.
  pose proof (Zlen_nonneg b). unfold identifier_of, ICMPv4.Ident, ICMPv6.Ident, whole. destruct (6 <=? Zlen b) eqn:E.
  - assert (runs (s <- tail (Slice 0 (Zlen b) (Zlen b)) 4 ;; Uint16 s) b (get16 b 4) b) as R by (eapply runs_bind; [apply runs_tail; lia|apply runs_Uint16; lia]).
    destruct is6; by rewrite R.
  - assert (panics (s <- tail (Slice 0 (Zlen b) (Zlen b)) 4 ;; Uint16 s) b) as R.
    { unfold tail. cbn [sl_len]. destruct (Z.lt_ge_cases (Zlen b) 4); [apply panics_bind, panics_reslice; lia|]. eapply panics_bind_r; [apply runs_reslice; lia|]. apply panics_Uint16. lia. }
    destruct is6; by rewrite R.
Qed.

Section Fetch.
Context `{ChecksumImpl}.

Lemma restore_short is6 identifier b : Zlen b < 6 -> panics (restore is6 identifier (whole b)) b.
Proof.
  intros Hs. pose proof (Zlen_nonneg b). assert (panics (s <- tail (whole b) 4 ;; PutUint16 s identifier) b) as R.
  { unfold tail, whole. cbn [sl_len]. destruct (Z.lt_ge_cases (Zlen b) 4); [apply panics_bind, panics_reslice; lia|]. eapply panics_bind_r; [apply runs_reslice; lia|]. apply panics_PutUint16. lia. }
  unfold restore. destruct is6; cbn [negb]; [exact R|apply panics_bind, R].
Qed.
(** The response as the client gets it: its identifier, a valid checksum for
    IPv4, and everything else as it was received. *)
Lemma fetched_ok is6 identifier r r' : bytes (Buffer r) -> is_u16 identifier -> fetched is6 identifier r = Some r' ->
  response_ok is6 identifier r' /\ Zlen (Buffer r') = Zlen (Buffer r) /\ Addr r' = Addr r /\ Cmsg r' = Cmsg r /\
  (forall j, 0 <= j -> ~ (2 <= j < 6) -> byte_at (Buffer r') j = byte_at (Buffer r) j).
Proof.
  intros Hb Hi HF. unfold fetched in HF. destruct (Z.lt_ge_cases (Zlen (Buffer r)) 6) as [Hs|Hl]; [by rewrite (restore_short is6 identifier (Buffer r) Hs) in HF|].
  set (m := Buffer r) in *. assert (runs (s <- tail (whole m) 4 ;; PutUint16 s identifier) m tt (put16 m 4 identifier)) as R by (eapply runs_bind; [apply runs_tail; lia|apply runs_PutUint16; lia]).
  assert (bytes (put16 m 4 identifier)) as B1 by by apply bytes_put16. assert (Zlen (put16 m 4 identifier) = Zlen m) as Z1 by by autorewrite with golen.
  unfold restore in HF. destruct is6; cbn [negb] in HF.
  - unfold ICMPv6.SetIdent in HF. rewrite R in HF. simplify_eq. cbn [Buffer Cmsg Addr]. split_and!; try done; [split; cbn [Buffer]; [done| |done]|intros j ??; by rd].
    rewrite identifier_of_spec, Z1. replace (6 <=? Zlen m) with true by lia. f_equal. by rd.
  - destruct (runs_ICMPv4Checksum 0 (Zlen m) (Zlen m) (put16 m 4 identifier) 0) as (y & Hy & Ry & Cy); try done; try lia.
    pose proof (store_icmp _ 0 (Zlen m) y 0 B1 ltac:(lia) ltac:(lia) ltac:(lia) Hy Cy) as I1. change (0 + 2) with 2 in I1. set (m' := put16 (put16 m 4 identifier) 2 (not16 y)) in *.
    assert (runs (ICMPv4.SetIdent (whole m) identifier ;;; sum4 (whole m)) m tt m') as R'.
    { eapply runs_bind; [exact R|]. unfold sum4. eapply runs_bind; [exact Ry|]. apply runs_SetChecksum4; lia. }
    rewrite R' in HF. simplify_eq. cbn [Buffer Cmsg Addr]. assert (Zlen m' = Zlen m) as Z2 by (subst m'; by autorewrite with golen).
    split_and!; try done; [split; cbn [Buffer]; [by apply bytes_put16| |by rewrite Z2]|intros j ??; subst m'; by rd].
    rewrite identifier_of_spec, Z2. replace (6 <=? Zlen m) with true by lia. f_equal. subst m'. by rd.
Qed.
(** ** The invariant *)

(** The messages are bytes. *)
Definition event_ok (e : event) : Prop :=
  match e with EWrite b _ => bytes b | EReceive _ r => bytes (Buffer r) | _ => True end.
Definition carries (w : world) (s : Z) (b : list Z) : Prop := exists identifier, w_dialed w !! s = Some identifier /\ identifier_of (u_is6 (w_conn w)) b = Some identifier.
Definition answers (w : world) (s : Z) (r : unprivilegedResponse) : Prop := exists identifier, w_dialed w !! s = Some identifier /\ response_ok (u_is6 (w_conn w)) identifier r.
Record Inv (w : world) : Prop := {
  i_map : forall identifier s, u_mapping (w_conn w) !! identifier = Some s -> w_dialed w !! s = Some identifier /\ (s ∉ w_closed w) /\ (s ∉ w_closing w) /\ is_Some (w_fetch w !! s);
  i_open : forall s identifier, w_dialed w !! s = Some identifier -> s ∉ w_closed w -> u_mapping (w_conn w) !! identifier = Some s \/ s ∈ w_closing w;
  i_known : forall s, s ∈ w_closing w \/ s ∈ w_closed w \/ is_Some (w_fetch w !! s) -> is_Some (w_dialed w !! s);
  i_u16 : forall s identifier, w_dialed w !! s = Some identifier -> is_u16 identifier;
  i_writing : forall s b, (s, b) ∈ w_writing w -> carries w s b;
  i_sent : forall s b, (s, b) ∈ w_sent w -> carries w s b;
  i_sending : forall s r, w_fetch w !! s = Some (Sending r) -> answers w s r;
  i_read : forall s r, (s, r) ∈ w_read w -> answers w s r
}.
Lemma Inv_initial destination : Inv (initial destination).
Proof. split; unfold initial; cbn; try (intros *; rewrite lookup_empty; done); try (intros *; rewrite elem_of_nil; done). intros s [[]%elem_of_nil|[?|[? Hs]]]; [set_solver|by rewrite lookup_empty in Hs]. Qed.

(** removeConn: the mapping gives up the socket, if it has it. *)
Lemma removeConn_mapping c conn identifier i s :
  u_mapping (removeConn_lock c conn identifier) !! i = Some s <-> u_mapping c !! i = Some s /\ ~ (i = identifier /\ s = conn).
Proof.
  unfold removeConn_lock. destruct (bool_decide _) eqn:E.
  - apply bool_decide_eq_true in E. cbn [u_mapping with_mapping]. rewrite lookup_delete_Some. split; [intros [? Hs]; split; [done|by intros [-> _]]|].
    intros [Hs Hn]. split; [|done]. intros ->. apply Hn. split; [done|congruence].
  - apply bool_decide_eq_false in E. split; [|by intros [? _]]. intros Hs. split; [done|]. intros [-> ->]. done.
Qed.
Lemma removeConn_is6 c conn identifier : u_is6 (removeConn_lock c conn identifier) = u_is6 c /\ u_cancelled (removeConn_lock c conn identifier) = u_cancelled c.
Proof. unfold removeConn_lock. by destruct (bool_decide _). Qed.
Lemma Inv_removeConn w conn identifier fetch writing : Inv w -> w_dialed w !! conn = Some identifier ->
  (forall s, s <> conn -> fetch !! s = w_fetch w !! s) -> (fetch !! conn = w_fetch w !! conn \/ fetch !! conn = None) -> (forall e, e ∈ writing -> e ∈ w_writing w) ->
  Inv (removeConn w conn identifier fetch writing).
Proof.
  intros HI Hd Hf Hc Hw. destruct (removeConn_is6 (w_conn w) conn identifier) as [H6 HC]. assert (forall s f, fetch !! s = Some f -> w_fetch w !! s = Some f) as Hf'.
  { intros s f Hs. destruct (decide (s = conn)) as [->|Hne]; [destruct Hc as [<-|Hn]; [done|congruence]|by rewrite <- Hf]. }
  split; unfold removeConn, carries, answers; cbn [w_conn w_dialed w_fetch w_writing w_closing w_closed w_sent w_read]; rewrite ?H6, ?HC.
  - intros i s [Hm Hn]%removeConn_mapping. destruct (i_map w HI i s Hm) as (Hs & ? & ? & ?). assert (s <> conn) as Hne by (intros ->; apply Hn; split; congruence). rewrite Hf by done. set_solver.
  - intros s i Hs Hn. destruct (i_open w HI s i Hs Hn) as [Hm|Hm]; [|set_solver]. destruct (decide (s = conn)) as [->|Hne]; [set_solver|left]. apply removeConn_mapping. split; [done|by intros [_ ?]].
  - intros s [[->|Hs]%elem_of_cons|[Hs|[f Hs]]]; [by eexists|apply (i_known w HI); auto..|]. apply (i_known w HI). right; right. eexists. by apply Hf'.
  - apply (i_u16 w HI).
  - intros s b Hb. by apply (i_writing w HI), Hw.
  - apply (i_sent w HI).
  - intros s r Hs. by apply (i_sending w HI), Hf'.
  - apply (i_read w HI).
Qed.
(** A new socket: its number, its identifier, its goroutine, its place in the map. *)
Lemma Inv_dial w identifier conn b : Inv w -> bytes b -> identifier_of (u_is6 (w_conn w)) b = Some identifier -> u_cancelled (w_conn w) = false ->
  u_mapping (w_conn w) !! identifier = None -> w_dialed w !! conn = None ->
  Inv (mkWorld (with_mapping (w_conn w) (<[identifier := conn]> (u_mapping (w_conn w)))) (<[conn := identifier]> (w_dialed w)) (<[conn := Reading]> (w_fetch w)) ((conn, b) :: w_writing w)
    (w_closing w) (w_closed w) (w_sent w) (w_read w)).
Proof.
  intros HI Hb Hid Hu Hm Hd. assert (is_u16 identifier) as Hi.
  { rewrite identifier_of_spec in Hid. destruct (6 <=? _); [|done]. injection Hid as <-. by apply get16_range. }
  assert (forall s i, w_dialed w !! s = Some i -> <[conn := identifier]> (w_dialed w) !! s = Some i) as Hk by (intros s i Hs; rewrite lookup_insert_ne by congruence; done).
  assert (forall s, s ∈ w_closing w \/ s ∈ w_closed w \/ is_Some (w_fetch w !! s) -> s <> conn) as Hn by (intros s Hs ->; apply (i_known w HI) in Hs as [? ?]; congruence).
  assert (forall s c, carries w s c -> exists i, <[conn := identifier]> (w_dialed w) !! s = Some i /\ identifier_of (u_is6 (w_conn w)) c = Some i) as Hc by (intros s c (i & Hs & ?); exists i; auto).
  assert (forall s r, answers w s r -> exists i, <[conn := identifier]> (w_dialed w) !! s = Some i /\ response_ok (u_is6 (w_conn w)) i r) as Ha by (intros s r (i & Hs & ?); exists i; auto).
  split; unfold carries, answers; cbn [w_conn w_dialed w_fetch w_writing w_closing w_closed w_sent w_read with_mapping u_is6 u_cancelled u_mapping].
  - intros i s [[<- <-]|[Hne Hs]]%lookup_insert_Some.
    + rewrite !lookup_insert_eq. split_and!; [done| | |by eexists]; intros Hx; eapply Hn; eauto.
    + destruct (i_map w HI i s Hs) as (Hs1 & ? & ? & Hs2). split_and!; [by apply Hk|done|done|]. rewrite lookup_insert_ne; [done|]. intros <-. by apply (Hn conn); auto.
  - intros s i [[<- <-]|[Hne Hs]]%lookup_insert_Some Hx; [left; by rewrite lookup_insert_eq|]. destruct (i_open w HI s i Hs Hx) as [Hy|Hy]; [left|by right]. rewrite lookup_insert_ne by congruence. done.
  - intros s Hs. destruct (decide (s = conn)) as [->|Hne]; [rewrite lookup_insert_eq; by eexists|]. rewrite lookup_insert_ne by done. apply (i_known w HI). destruct Hs as [?|[?|Hs]]; auto. rewrite lookup_insert_ne in Hs by done. auto.
  - intros s i [[<- <-]|[Hne Hs]]%lookup_insert_Some; [done|by eapply (i_u16 w HI)].
  - intros s c [Hs|Hs]%elem_of_cons; [simplify_eq; exists identifier; by rewrite lookup_insert_eq|]. by apply Hc, (i_writing w HI).
  - intros s c Hs. by apply Hc, (i_sent w HI).
  - intros s r [[<- ?]|[Hne Hs]]%lookup_insert_Some; [done|]. by apply Ha, (i_sending w HI).
  - intros s r Hs. by apply Ha, (i_read w HI).
Qed.
(** Close: what was mapped is closed. *)
Lemma Close_sockets c s : s ∈ (Close c).2 <-> exists identifier, u_mapping c !! identifier = Some s.
Proof.
  unfold Close. cbn [snd]. rewrite elem_of_list_to_set, list_elem_of_fmap. split.
  - intros ((i & s') & -> & Hs%elem_of_map_to_list). by exists i.
  - intros (i & Hs). exists (i, s). split; [done|by apply elem_of_map_to_list].
Qed.
Lemma Inv_Close w : Inv w ->
  Inv (mkWorld (Close (w_conn w)).1 (w_dialed w) (w_fetch w) (w_writing w) (w_closing w) ((Close (w_conn w)).2 ∪ w_closed w) (w_sent w) (w_read w)).
Proof.
  intros HI. split; cbn [w_conn w_dialed w_fetch w_writing w_closing w_closed w_sent w_read]; try apply HI.
  - intros i s. unfold Close. cbn. by rewrite lookup_empty.
  - intros s i Hs Hn. right. destruct (i_open w HI s i Hs) as [Hm|Hm]; [set_solver| |done]. destruct Hn. apply elem_of_union_l, Close_sockets. by exists i.
  - intros s [Hs|[[Hs|Hs]%elem_of_union|Hs]]; [apply (i_known w HI); auto| |apply (i_known w HI); auto..]. apply Close_sockets in Hs as (i & Hs). destruct (i_map w HI i s Hs) as (-> & _). by eexists.
Qed.
(** The goroutine of a socket turns to [f]. *)
Lemma Inv_fetch w conn f read : Inv w -> is_Some (w_fetch w !! conn) -> (forall r, f = Sending r -> answers w conn r) -> (forall s r, (s, r) ∈ read -> answers w s r) ->
  Inv (mkWorld (w_conn w) (w_dialed w) (<[conn := f]> (w_fetch w)) (w_writing w) (w_closing w) (w_closed w) (w_sent w) read).
Proof.
  intros HI Hf Ha Hr. assert (forall s, is_Some (<[conn := f]> (w_fetch w) !! s) <-> is_Some (w_fetch w !! s)) as Hd.
  { intros s. destruct (decide (s = conn)) as [->|?]; [rewrite lookup_insert_eq; by split|by rewrite lookup_insert_ne]. }
  split; cbn [w_conn w_dialed w_fetch w_writing w_closing w_closed w_sent w_read]; try apply HI.
  - intros i s. rewrite Hd. apply (i_map w HI).
  - intros s. rewrite Hd. apply (i_known w HI).
  - intros s r [[<- ->]|[_ Hs]]%lookup_insert_Some; [by apply Ha|]. by apply (i_sending w HI).
  - exact Hr.
Qed.
Lemma elem_of_delete_ne {A} (l : list A) i x y : l !! i = Some x -> y ∈ l -> y <> x -> y ∈ delete i l.
Proof. intros Hi Hy Hn. rewrite (delete_Permutation l i x Hi) in Hy. apply elem_of_cons in Hy as [?|?]; done. Qed.
Lemma Inv_exec w e w' : Inv w -> event_ok e -> exec w e = Some w' -> Inv w'.
Proof.
  intros HI He Hx. destruct e as [b connect|i ok|conn r|conn|conn|conn|i| |]; cbn [exec] in Hx.
  - destruct (identifier_of _ b) as [identifier|] eqn:Hid; [|done]. cbn [mbind option_bind] in Hx. destruct (fresh w connect) eqn:Hf; [|done]. cbn [negb] in Hx. unfold Write_lock in Hx.
    destruct (u_cancelled (w_conn w)) eqn:Hu; [by simplify_eq|]. destruct (u_mapping (w_conn w) !! identifier) as [conn|] eqn:Hm.
    + simplify_eq. destruct HI as [Hmap ? ? ? Hw ? ? ?]. split; cbn; try done. intros s c [Hs|Hs]%elem_of_cons; [simplify_eq|by apply Hw]. exists identifier. split; [by apply Hmap|done].
    + destruct connect as [conn|]; simplify_eq; [|done]. apply Inv_dial; try done. cbn in Hf. by apply bool_decide_eq_true in Hf.
  - destruct (w_writing w !! i) as [[conn b]|] eqn:Hw; [|done]. cbn [mbind option_bind] in Hx. destruct (i_writing w HI conn b) as (identifier & Hd & Hid); [by eapply list_elem_of_lookup_2|].
    destruct ok.
    + destruct (bool_decide _); [done|]. simplify_eq. pose proof HI as [? ? ? ? Hwr Hse ? ?]. split; cbn; try done; [intros s c Hs%list_elem_of_delete_inv; by apply Hwr|].
      intros s c [Hs|Hs%list_elem_of_singleton]%elem_of_app; [by apply Hse|]. simplify_eq. by exists identifier.
    + rewrite Hid in Hx. cbn [mbind option_bind] in Hx. simplify_eq. apply Inv_removeConn; auto. intros e. apply list_elem_of_delete_inv.
  - destruct (w_dialed w !! conn) as [identifier|] eqn:Hd; [|done]. cbn [mbind option_bind] in Hx. destruct (w_fetch w !! conn) as [[|]|] eqn:Hf; try done. destruct (bool_decide _); [done|].
    destruct (fetched _ _ _) as [r'|] eqn:Hr; [|done]. cbn [mbind option_bind] in Hx. simplify_eq. apply Inv_fetch; [done|by eexists| |apply (i_read w HI)].
    intros r2 [= <-]. exists identifier. split; [done|]. eapply fetched_ok; [|by eapply (i_u16 w HI)|done]. done.
  - destruct (w_fetch w !! conn) as [[|r]|] eqn:Hf; try done. simplify_eq. apply Inv_fetch; [done|by eexists|done|]. intros s r2 [Hs|Hs%list_elem_of_singleton]%elem_of_app; [by apply (i_read w HI)|]. simplify_eq. by apply (i_sending w HI).
  - destruct (w_dialed w !! conn) as [identifier|] eqn:Hd; [|done]. cbn [mbind option_bind] in Hx. destruct (w_fetch w !! conn) as [[|r]|] eqn:Hf; try done. destruct (u_cancelled _); [|done]. simplify_eq.
    apply Inv_removeConn; auto; [intros s ?; by apply lookup_delete_ne|right; apply lookup_delete_eq].
  - destruct (w_dialed w !! conn) as [identifier|] eqn:Hd; [|done]. cbn [mbind option_bind] in Hx. destruct (w_fetch w !! conn) as [[|r]|] eqn:Hf; try done. simplify_eq.
    apply Inv_removeConn; auto; [intros s ?; by apply lookup_delete_ne|right; apply lookup_delete_eq].
  - destruct (w_closing w !! i) as [conn|] eqn:Hc; [|done]. cbn [mbind option_bind] in Hx. simplify_eq. pose proof (list_elem_of_lookup_2 _ _ _ Hc) as Hin. pose proof HI as [Hmap Hopen Hknown ? ? ? ? ?]. split; cbn; try done.
    + intros j s Hs. destruct (Hmap j s Hs) as (? & ? & Hn & ?). split_and!; try done; [set_solver|]. intros Hs'%list_elem_of_delete_inv. done.
    + intros s j Hs Hn. destruct (Hopen s j Hs) as [?|Hs']; [set_solver|by left|right]. apply (elem_of_delete_ne _ _ conn); [done|done|set_solver].
    + intros s [Hs%list_elem_of_delete_inv|[Hs|Hs]]; apply Hknown; auto. apply elem_of_union in Hs as [->%elem_of_singleton|Hs]; auto.
  - injection Hx as <-. destruct HI. by split.
  - injection Hx as <-. by apply Inv_Close.
Qed.
Lemma Inv_run w es w' : Inv w -> Forall event_ok es -> run w es = Some w' -> Inv w'.
Proof.
  intros HI He. revert w HI. induction He as [|e es He _ IH]; intros w HI Hr; cbn [run] in Hr; [by simplify_eq|].
  destruct (exec w e) as [w1|] eqn:Hx; [|done]. cbn [mbind option_bind] in Hr. eapply IH; [|done]. by eapply Inv_exec.
Qed.

(** Nothing opens a socket once the context is done, and the map loses entries only. *)
Definition shut (w : world) : Prop := u_cancelled (w_conn w) = true /\ u_mapping (w_conn w) = ∅.
Lemma removeConn_cancelled w conn identifier fetch writing : u_cancelled (w_conn w) = true ->
  u_cancelled (w_conn (removeConn w conn identifier fetch writing)) = true /\ u_mapping (w_conn (removeConn w conn identifier fetch writing)) ⊆ u_mapping (w_conn w).
Proof.
  intros Hu. unfold removeConn. cbn [w_conn]. rewrite (proj2 (removeConn_is6 _ _ _)). split; [done|]. apply map_subseteq_spec. by intros i s [? _]%removeConn_mapping.
Qed.
Lemma exec_cancelled w e w' : u_cancelled (w_conn w) = true -> exec w e = Some w' ->
  u_cancelled (w_conn w') = true /\ u_mapping (w_conn w') ⊆ u_mapping (w_conn w) /\ w_dialed w' = w_dialed w.
Proof.
  intros Hu Hx.
  assert (forall conn identifier fetch writing, Some (removeConn w conn identifier fetch writing) = Some w' ->
    u_cancelled (w_conn w') = true /\ u_mapping (w_conn w') ⊆ u_mapping (w_conn w) /\ w_dialed w' = w_dialed w) as HR.
  { intros conn identifier fetch writing [= <-]. by destruct (removeConn_cancelled w conn identifier fetch writing Hu). }
  destruct e; cbn [exec] in Hx; unfold Write_lock, mbind, option_bind in Hx; rewrite ?Hu in Hx; repeat (case_match; try done); try (by eapply HR); simplify_eq; cbn [w_conn w_dialed u_cancelled u_mapping Close fst]; try done.
  match goal with E : Close _ = _ |- _ => injection E as <- <- end. split_and!; [done|apply map_empty_subseteq|done].
Qed.
Lemma run_cancelled w es w' : u_cancelled (w_conn w) = true -> run w es = Some w' ->
  u_cancelled (w_conn w') = true /\ u_mapping (w_conn w') ⊆ u_mapping (w_conn w) /\ w_dialed w' = w_dialed w.
Proof.
  revert w. induction es as [|e es IH]; intros w Hu Hr; cbn [run] in Hr; [by simplify_eq|]. destruct (exec w e) as [w1|] eqn:Hx; [|done]. cbn [mbind option_bind] in Hr.
  destruct (exec_cancelled w e w1 Hu Hx) as (H1 & H2 & H3). destruct (IH w1 H1 Hr) as (H4 & H5 & H6). split_and!; [done|by etransitivity|congruence].
Qed.
Lemma run_Close w es w' : EClose ∈ es -> run w es = Some w' -> shut w'.
Proof.
  revert w. induction es as [|e es IH]; intros w He Hr; [by apply elem_of_nil in He|]. cbn [run] in Hr. destruct (exec w e) as [w1|] eqn:Hx; [|done]. cbn [mbind option_bind] in Hr.
  apply elem_of_cons in He as [<-|He]; [|by eapply IH]. cbn [exec Close] in Hx. injection Hx as <-. apply run_cancelled in Hr as (H1 & H2 & _); [|done].
  split; [done|]. apply (anti_symm (⊆)); [exact H2|apply map_empty_subseteq].
Qed.

(** C35: The sockets of an UnprivilegedConn in every state that calls of Write,
    Read, ReadMsg and Close, the goroutines fetchResponse and the end of the
    context it was made with reach, in whatever order they run, fail and time
    out.  A socket in the map is open, was opened for its key and has its
    goroutine.  No socket is lost: one that is open is in the map or about to be
    closed; after Close the map is empty and stays so, and once the pending calls
    of removeConn are done every socket ever opened is closed; once the context
    has ended no socket is opened.  And whatever is read from a socket carries the
    identifier of the requests that were written to it, with a valid checksum for
    IPv4. *)
Theorem UnprivilegedConn_sockets destination es w : Forall event_ok es -> run (initial destination) es = Some w ->
  (forall identifier s, u_mapping (w_conn w) !! identifier = Some s -> (s ∉ w_closed w) /\ w_dialed w !! s = Some identifier /\ is_Some (w_fetch w !! s)) /\
  (forall s identifier, w_dialed w !! s = Some identifier -> s ∈ w_closed w \/ s ∈ w_closing w \/ u_mapping (w_conn w) !! identifier = Some s) /\
  (EClose ∈ es -> u_cancelled (w_conn w) = true /\ u_mapping (w_conn w) = ∅ /\ (w_closing w = [] -> forall s, is_Some (w_dialed w !! s) -> s ∈ w_closed w)) /\
  (u_cancelled (w_conn w) = true -> forall es' w', run w es' = Some w' -> w_dialed w' = w_dialed w) /\
  (forall s b r, (s, b) ∈ w_sent w -> (s, r) ∈ w_read w -> identifier_of (u_is6 (w_conn w)) (Buffer r) = identifier_of (u_is6 (w_conn w)) b) /\
  (forall s r, (s, r) ∈ w_read w -> u_is6 (w_conn w) = false -> icmp_ok (Buffer r) 0 (Zlen (Buffer r)) 0).
Proof.
  intros He Hr. pose proof (Inv_run _ _ _ (Inv_initial destination) He Hr) as HI.
  assert (forall s identifier, w_dialed w !! s = Some identifier -> s ∈ w_closed w \/ s ∈ w_closing w \/ u_mapping (w_conn w) !! identifier = Some s) as HO.
  { intros s i Hs. destruct (decide (s ∈ w_closed w)) as [|Hn]; [by left|]. destruct (i_open w HI s i Hs Hn); auto. }
  split_and!; [| |intros Hu; destruct (run_Close _ _ _ Hu Hr) as [HC HM]; split_and!; [done|done|]|intros Hu es' w' Hr'; by apply (run_cancelled w es' w')| |].
  - intros i s Hm. destruct (i_map w HI i s Hm) as (? & ? & _ & ?). done.
  - done.
  - intros Hc s [i Hs]. destruct (HO s i Hs) as [?|[Hx|Hx]]; [done| |]; [by rewrite Hc in Hx; apply elem_of_nil in Hx|]. by rewrite HM, lookup_empty in Hx.
  - intros s b r Hb Hs. destruct (i_sent w HI s b Hb) as (i & Hd & ->). destruct (i_read w HI s r Hs) as (j & Hd' & Hj). rewrite (ro_identifier _ _ _ Hj). congruence.
  - intros s r Hs. destruct (i_read w HI s r Hs) as (j & _ & Hj). apply (ro_sum _ _ _ Hj).
Qed.
End Fetch.

(** ** Witness *)

(** Two clients, an answer for the second, a timeout of the first, and Close. *)
Definition request (i : Z) : list Z := [8; 0; 0; 0; 0; i; 0; 1; 97; 98].
Definition kernel_reply (i : Z) : unprivilegedResponse := mkResponse [0; 0; 0; 0; 171; i; 0; 1; 97; 98] [] (netip.Addr4 [8; 8; 8; 8]).
Definition sample_events : list event :=
  [EWrite (request 1) (Some 7); EWritten 0 true; EWrite (request 2) (Some 8); EWrite (request 2) None; EWritten 1 true; EWritten 0 true;
   EReceive 8 (kernel_reply 5); EReadError 7; EReadMsg 8; ECancel; EWrite (request 3) (Some 9); EClose; ECloseSocket 0].
Definition sample_world : world := default (initial netip.AddrInvalid) (run (H := tschecksum.ts_impl false 64) (initial (netip.Addr4 [8; 8; 8; 8])) sample_events).
Lemma UnprivilegedConn_sockets_witness :
  w_read sample_world = [(8, mkResponse [0; 0; 158; 154; 0; 2; 0; 1; 97; 98] [] (netip.Addr4 [8; 8; 8; 8]))] /\
  (forall s, is_Some (w_dialed sample_world !! s) -> s ∈ w_closed sample_world) /\ icmp_ok [0; 0; 158; 154; 0; 2; 0; 1; 97; 98] 0 10 0.
Proof.
  destruct (UnprivilegedConn_sockets (H := tschecksum.ts_impl false 64) (netip.Addr4 [8; 8; 8; 8]) sample_events sample_world) as (_ & _ & HC & _ & _ & HS).
  - repeat (apply Forall_cons; split; [first [exact I|concrete]|]). apply Forall_nil. exact I.
  - vm_compute. reflexivity.
  - assert (w_read sample_world = [(8, mkResponse [0; 0; 158; 154; 0; 2; 0; 1; 97; 98] [] (netip.Addr4 [8; 8; 8; 8]))]) as HR by (vm_compute; reflexivity).
    split; [exact HR|]. split; [apply HC; [by apply (list_elem_of_lookup_2 _ 11)|vm_compute; reflexivity]|]. apply (HS 8 (mkResponse [0; 0; 158; 154; 0; 2; 0; 1; 97; 98] [] (netip.Addr4 [8; 8; 8; 8]))); [rewrite HR; by left|vm_compute; reflexivity].
Defined.
