(* ===== verification/PingMessages.v ===== *)
(** * Responses that a ping Conn reads as messages

    Unprivileged sockets and IPv6 sockets give the ICMP message alone; ReadIP
    puts an IP header in front of it. *)
From S2P Require Import Prelude Bytes GoMem Checksum TsChecksum Tcpip Netip HdrChecksum IPv4Options IPv4 IPv6 ICMP TunOptions Ping PingSpec PingConn PingConnSpec PingUnprivileged PingUnprivilegedSpec.

Section Messages.
Context `{ChecksumImpl} `{SingCommon} (os : GOOS) (le : bool).

(** ** IPv4 *)

(** A packet of [addr] for [client] with the message that lies behind the first
    20 bytes of [m]. *)
Record packet4 (m m' : list Z) (l : Z) (addr client : list Z) : Prop := {
  p4_echo : echo4 m' l;
  p4_len : Zlen m' = Zlen m;
  p4_at : icmp_at m' = 20 /\ icmp_len m' = l - 20;
  p4_sum : IPv4.checksum_ok m' 0;
  p4_source : window m' 12 4 = addr;
  p4_client : window m' 16 4 = client;
  p4_frame : forall j, 20 <= j -> byte_at m' j = byte_at m j
}.
Lemma runs_ReadIP_message4 c m l addr client oob : bytes m -> 28 <= l <= 65535 -> l <= Zlen m -> isLinuxUnprivileged os c = true -> oob <> BadControl ->
  c_source c = netip.Addr4 client -> bytes client -> Zlen client = 4 -> bytes addr -> Zlen addr = 4 ->
  exists m', runs (ReadIP_message4 os c (netip.Addr4 addr) oob (packet m l)) m true m' /\ packet4 m m' l addr client.
Proof.
  intros Hb Hl Hz HU HO HS Bc Lc Ba La. set (f := IPv4.mkFields 0 l 0 0 0 (u8 (hop_limit oob)) ICMPv4.ICMPv4ProtocolNumber 0 (netip.Addr4 addr) (netip.Addr4 client) []).
  assert (IPv4.fields_ok f) as Hf.
  { unfold IPv4.fields_ok, f. cbn. pose proof (u8_range (hop_limit oob)). unfold Zlen in Lc, La. split_and!; try lia; try done; unfold Zlen; simpl; lia. }
  set (m1 := IPv4.encoded m 0 0 f). assert (runs (IPv4.Encode (Slice 0 20 (Zlen m)) f) m tt m1) as R1.
  { pose proof (IPv4.runs4_Encode 0 20 (Zlen m) m f) as R. cbn [f IPv4.f_Options] in R. apply R; [split_and!; cbn; lia|exact Hf|]. change (20 + 0 <= 20). lia. }
  assert (bytes m1 /\ Zlen m1 = Zlen m) as [B1 Z1].
  { unfold m1, IPv4.encoded, f. cbn [IPv4.f_TOS IPv4.f_TotalLength IPv4.f_ID IPv4.f_Flags IPv4.f_FragmentOffset IPv4.f_TTL IPv4.f_Protocol IPv4.f_Checksum IPv4.f_SrcAddr IPv4.f_DstAddr netip.AsSlice].
    split; [|by autorewrite with golen]. pose proof (u8_range (hop_limit oob)). repeat first [apply bytes_write_at | apply bytes_put16 | apply bytes_upd]; try done; cbn; lia. }
  assert (byte_at m1 0 = 69 /\ get16 m1 2 = l /\ byte_at m1 9 = 1 /\ window m1 12 4 = addr /\ window m1 16 4 = client /\ (forall j, 20 <= j -> byte_at m1 j = byte_at m j)) as (E0 & E2 & E9 & E12 & E16 & EF).
  { unfold m1, IPv4.encoded, f. cbn [IPv4.f_TOS IPv4.f_TotalLength IPv4.f_ID IPv4.f_Flags IPv4.f_FragmentOffset IPv4.f_TTL IPv4.f_Protocol IPv4.f_Checksum IPv4.f_SrcAddr IPv4.f_DstAddr netip.AsSlice].
    split_and!; try (by rd). intros j ?. by rd. }
  assert (IPv4.hlen m1 0 = 20) as HH by (unfold IPv4.hlen; by rewrite E0).
  destruct (IPv4.runs4_CalculateChecksum 0 20 (Zlen m) m1) as (x & Rx & Hx & Cx); try done; try lia.
  pose proof (IPv4.store_checksum 0 20 (Zlen m) m1 x B1 ltac:(lia) ltac:(lia) ltac:(lia) ltac:(lia) ltac:(lia) Hx Cx) as C2. change (0 + 10) with 10 in C2. set (m' := put16 m1 10 (not16 x)) in *.
  assert (Zlen m' = Zlen m) as Z2 by (subst m'; by autorewrite with golen).
  assert (IPv4.hlen m' 0 = 20) as HH' by (subst m'; rewrite IPv4.hlen_put16; [done|lia|lia]). assert (get16 m' 2 = l) as HG' by (subst m'; by rd).
  exists m'. split.
  - unfold ReadIP_message4, packet, IPv4MinimumSize. rewrite bool_decide_eq_false_2 by done. eapply runs_bind; [apply runs_tail; lia|]. rewrite HU. cbn [negb when]. eapply runs_bind; [apply runs_ret|].
    eapply runs_bind; [apply runs_reslice; lia|]. rewrite HS. cbn [sl_len]. rewrite (u16_small l) by lia. change (0 + 0) with 0. change (20 - 0) with 20. rewrite Z.sub_0_r. eapply runs_bind; [exact R1|].
    eapply runs_bind; [unfold update_ip_checksum; eapply runs_bind; [exact Rx|apply IPv4.runs4_SetChecksum; lia]|]. apply runs_ret.
  - split; try done.
    + split_and!; [by apply bytes_put16|lia| |rewrite HH', HG'; lia|subst m'; by rd]. unfold IPv4.valid_header. change (0 + 2) with 2. rewrite HH', HG'. split_and!; try lia. subst m'. rd. by rewrite E0.
    + unfold icmp_at, icmp_len. by rewrite HH', HG'.
    + subst m'. by rd.
    + subst m'. by rd.
    + intros j ?. subst m'. rd. by apply EF.
Qed.

(** ** IPv6 *)

(** The same for IPv6: the checksum covers the addresses, and the identifier is
    complemented unless the kernel chose the one on the wire. *)
Record packet6 (c : Conn) (m m' : list Z) (l : Z) (addr client : list Z) : Prop := {
  p6_echo : echo6 m' l;
  p6_len : Zlen m' = Zlen m;
  p6_size : get16 m' 4 = l - 40;
  p6_sum : icmp_ok m' 40 (l - 40) (wsum addr + wsum client + (l - 40) + 58);
  p6_source : window m' 8 16 = addr;
  p6_client : window m' 24 16 = client;
  p6_ident : ident6 m' = if isLinuxUnprivileged os c then ident6 m else not16 (ident6 m);
  p6_frame : forall j, 40 <= j -> ~ (42 <= j < 46) -> byte_at m' j = byte_at m j
}.
Definition header_fields6 (l : Z) (oob : control) (addr client : list Z) : IPv6.IPv6Fields :=
  IPv6.mkFields (u8 (traffic_class oob)) 0 (l - 40) ICMPv6.ICMPv6ProtocolNumber (u8 (hop_limit oob)) (netip.Addr6 addr) (netip.Addr6 client) [].
Lemma encoded6 m l oob addr client : bytes m -> 48 <= l <= 65575 -> l <= Zlen m -> bytes client -> Zlen client = 16 -> bytes addr -> Zlen addr = 16 ->
  let m' := IPv6.encoded m 0 (header_fields6 l oob addr client) in
  bytes m' /\ Zlen m' = Zlen m /\ byte_at m' 0 / 16 = 6 /\ get16 m' 4 = l - 40 /\ byte_at m' 6 = 58 /\ window m' 8 16 = addr /\ window m' 24 16 = client /\
  (forall j, 40 <= j -> byte_at m' j = byte_at m j).
Proof.
  intros Hb Hl Hz Bc Lc Ba La m'. subst m'. unfold IPv6.encoded, header_fields6. cbn [IPv6.f_TrafficClass IPv6.f_FlowLabel IPv6.f_PayloadLength IPv6.f_TransportProtocol IPv6.f_HopLimit IPv6.f_SrcAddr IPv6.f_DstAddr netip.AsSlice].
  pose proof (u8_range (hop_limit oob)). pose proof (u8_range (traffic_class oob)). split_and!.
  - repeat first [apply bytes_write_at | apply bytes_put16 | apply bytes_put32 | apply bytes_upd]; try done; cbn; lia.
  - by autorewrite with golen.
  - rd. unfold put32. rd. rewrite byte_at_put16 by lia. rewrite Z.eqb_refl. unfold u8, u16. zdm.
  - by rd.
  - by rd.
  - by rd.
  - by rd.
  - intros j ?. by rd.
Qed.
(** The message with its identifier and its checksum. *)
Lemma runs_message6 c m l addr client : bytes m -> 48 <= l <= 65575 -> l <= Zlen m -> bytes client -> bytes addr ->
  let hdr := Slice 40 (l - 40) (Zlen m - 40) in
  exists m', runs (when (negb (isLinuxUnprivileged os c)) (complement6 hdr) ;;; sum6 hdr addr client) m tt m' /\ bytes m' /\ Zlen m' = Zlen m /\
    icmp_ok m' 40 (l - 40) (wsum addr + wsum client + (l - 40) + 58) /\ ident6 m' = (if isLinuxUnprivileged os c then ident6 m else not16 (ident6 m)) /\
    (forall j, 40 <= j -> ~ (42 <= j < 46) -> byte_at m' j = byte_at m j).
Proof.
  intros Hb Hl Hz Bc Ba hdr. assert (is_u16 (ident6 m)) as Hi by by apply get16_range. pose proof (not16_range _ Hi) as Hn.
  set (m1 := if isLinuxUnprivileged os c then m else put16 m 44 (not16 (ident6 m))).
  assert (runs (when (negb (isLinuxUnprivileged os c)) (complement6 hdr)) m tt m1) as R1.
  { unfold m1, hdr, complement6, ICMPv6.Ident, ICMPv6.SetIdent. destruct (isLinuxUnprivileged os c); cbn [negb when]; [apply runs_ret|].
    eapply runs_bind; [eapply runs_bind; [apply runs_tail; lia|apply runs_Uint16; lia]|]. eapply runs_bind; [apply runs_tail; lia|]. apply (runs_PutUint16 44). lia. }
  assert (bytes m1) as B1 by (unfold m1; destruct (isLinuxUnprivileged os c); [done|by apply bytes_put16]).
  assert (Zlen m1 = Zlen m) as Z1 by (unfold m1; destruct (isLinuxUnprivileged os c); [done|by autorewrite with golen]).
  destruct (runs_ICMPv6Checksum 40 (l - 40) (Zlen m - 40) m1 addr client 0 0) as (y & Hy & Ry & Cy); try done; try lia.
  pose proof (store_icmp m1 40 (l - 40) y (wsum addr + wsum client + (l - 40 + 0) + 58 + 0) B1 ltac:(lia) ltac:(lia) ltac:(lia) Hy Cy) as I1.
  change (40 + 2) with 42 in I1. exists (put16 m1 42 (not16 y)). split_and!.
  - eapply runs_bind; [exact R1|]. unfold sum6, hdr. eapply runs_bind; [exact Ry|]. apply (runs_SetChecksum6 40); lia.
  - by apply bytes_put16.
  - by rewrite Zlen_put16.
  - unfold icmp_ok in *. etransitivity; [apply cong_refl_eq|exact I1]. lia.
  - unfold ident6 in *. unfold m1. destruct (isLinuxUnprivileged os c); by rd.
  - intros j ??. unfold m1. destruct (isLinuxUnprivileged os c); by rd.
Qed.
Lemma runs_ReadIP_message6 c m l addr client oob : bytes m -> 48 <= l <= 65575 -> l <= Zlen m -> oob <> BadControl ->
  c_source c = netip.Addr6 client -> bytes client -> Zlen client = 16 -> bytes addr -> Zlen addr = 16 ->
  exists m', runs (ReadIP_message6 os c (netip.Addr6 addr) oob (packet m l)) m true m' /\ packet6 c m m' l addr client.
Proof.
  intros Hb Hl Hz HO HS Bc Lc Ba La. destruct (runs_message6 c m l addr client) as (m1 & R1 & B1 & Z1 & I1 & N1 & F1); try done.
  destruct (encoded6 m1 l oob addr client) as (B2 & Z2 & E0 & E4 & E6 & E8 & E24 & F2); try done; try lia. set (m' := IPv6.encoded m1 0 (header_fields6 l oob addr client)) in *.
  assert (IPv6.fields_ok (header_fields6 l oob addr client)) as Hf.
  { unfold IPv6.fields_ok, header_fields6. cbn. pose proof (u8_range (hop_limit oob)). pose proof (u8_range (traffic_class oob)). unfold Zlen in Lc, La. split_and!; try lia; try done. }
  exists m'. split.
  - unfold ReadIP_message6, packet, IPv6.IPv6MinimumSize. rewrite bool_decide_eq_false_2 by done. eapply runs_bind; [apply runs_tail; lia|]. rewrite HS. cbn [netip.AsSlice sl_len]. rewrite !Z.add_0_l.
    apply runs_bind_inv in R1 as (u & m0 & Ra & Rb). destruct u. eapply runs_bind; [exact Ra|]. eapply runs_bind; [exact Rb|]. eapply runs_bind; [apply runs_reslice; lia|].
    change (0 + 0) with 0. change (40 - 0) with 40. rewrite Z.sub_0_r, (u16_small (l - 40)) by lia. eapply runs_bind; [|apply runs_ret].
    apply (IPv6.runs6_Encode 0 40 (Zlen m) m1 (header_fields6 l oob addr client)); [split_and!; cbn; lia|lia|exact Hf|done].
  - split; try done.
    + split_and!; [done|lia| |lia|done]. unfold IPv6.valid_header. change (0 + 4) with 4. rewrite E4. split_and!; [lia|lia|done].
    + by rewrite Z2.
    + unfold icmp_ok in *. rewrite <- I1. apply cong_refl_eq. do 2 f_equal. apply window_agree; [done|lia|lia|]. intros j ?. apply F2; lia.
    + unfold ident6 in *. rewrite <- N1. unfold get16. by rewrite !F2 by lia.
    + intros j ??. rewrite F2 by lia. by apply F1.
Qed.

(** ** Turns of loopRead *)

Lemma runs_loopRead_reply_unfiltered d m l now : echo4 m l -> (exists b, d_destination d = netip.Addr4 b) -> needFilter os d = false ->
  runs (loopRead_reply os now d (packet m l)) m (active d now, Some (window m 0 l)) m.
Proof.
  intros HE HD HF. unfold loopRead_reply. eapply runs_bind; [by apply runs_header_of4|]. cbv beta iota. eapply runs_bind; [cbn [Net.Payload]; by apply runs_payload4|]. cbv zeta. rewrite HF.
  eapply runs_bind; [by apply runs_trace|]. eapply runs_bind; [apply runs_contents|apply runs_ret].
Qed.
Lemma runs_header_of6 d m l : echo6 m l -> (exists b, d_destination d = netip.Addr6 b) -> runs (header_of d (packet m l)) m (inr (NetIPv6 (packet m l))) m.
Proof.
  intros HE (b & Hd). pose proof HE as (Hb & Hl & HV & Hn & Hp). pose proof HV as (V1 & V2 & V3). change (0 + 4) with 4 in *.
  unfold header_of. rewrite Hd. cbn [Is6 negb]. unfold check6, packet. cbn [sl_len]. destruct (IPv6.runs6_IsValid 0 l (Zlen m) l m ltac:(lia)) as (v & Rv & Hv). rewrite (proj2 Hv HV) in Rv.
  eapply runs_bind; [eapply runs_bind; [exact Rv|]; cbn [negb]; eapply runs_bind; [apply IPv6.runs6_PayloadLength; lia|apply runs_ret]|].
  change (0 + 4) with 4. replace (_ <? ICMPv6.ICMPv6MinimumSize) with false by (unfold ICMPv6.ICMPv6MinimumSize; lia). apply runs_ret.
Qed.
(** The request an IPv6 reply answers. *)
Definition answer6 (r : list Z) : pingRequest := mkRequest (netip.Addr6 (window r 24 16)) (source6 r) (ident6 r) (get16 r 46).
Lemma runs_answer6 m l : echo6 m l -> runs (request_of (NetIPv6 (packet m l)) true (icmp6 m)) m (answer6 m) m.
Proof.
  intros (Hb & Hl & (V1 & V2 & V3) & Hn & Hp). change (0 + 4) with 4 in *. unfold request_of, icmp6, packet. cbn [Net.SourceAddr Net.DestinationAddr].
  eapply runs_bind; [apply IPv6.runs6_DestinationAddr; lia|]. eapply runs_bind; [apply IPv6.runs6_SourceAddr; lia|]. eapply runs_bind; [apply (runs_ident4 40); lia|].
  eapply runs_bind; [apply (runs_sequence4 40); lia|]. apply runs_ret.
Qed.
Lemma runs_loopRead_reply6 d m l now : echo6 m l -> (exists b, d_destination d = netip.Addr6 b) -> byte_at m 40 = ICMPv6.ICMPv6EchoReply ->
  runs (loopRead_reply os now d (packet m l)) m
    (if needFilter os d then
       match d_requests d !! answer6 m with
       | Some _ => (active (with_requests d (delete (answer6 m) (d_requests d))) now, Some (window m 0 l))
       | None => (with_requests d (d_requests d), None)
       end
     else (active d now, Some (window m 0 l))) m.
Proof.
  intros HE HD HT. pose proof HE as (Hb & Hl & (V1 & V2 & V3) & Hn & Hp). change (0 + 4) with 4 in *. destruct (reads6 m l _ HE eq_refl) as [_ _ Ry _ _ Rt].
  unfold loopRead_reply. eapply runs_bind; [by apply runs_header_of6|]. cbv beta iota. eapply runs_bind; [exact Ry|]. cbv zeta. destruct (needFilter os d).
  - eapply runs_bind; [unfold ICMPv6.Type_, icmp6; apply runs_idx; lia|]. change (40 + 0) with 40. rewrite HT, Z.eqb_refl. cbn [negb]. eapply runs_bind; [by apply runs_answer6|].
    unfold takeRequest. destruct (d_requests d !! answer6 m); cbn [negb]; [|apply runs_ret]. eapply runs_bind; [exact Rt|]. eapply runs_bind; [apply runs_contents|apply runs_ret].
  - eapply runs_bind; [exact Rt|]. eapply runs_bind; [apply runs_contents|apply runs_ret].
Qed.

(** Responses that are read as messages.  On Linux without privileges a
    response that an UnprivilegedConn hands over for a client's identifier comes
    out of loopRead as a valid IPv4 packet from the address that answered to the
    client, under that identifier and with valid IP and ICMP checksums.  An IPv6
    echo reply comes out as a valid IPv6 packet from the sender to the client
    with a valid checksum, with the complement of its identifier unless the
    kernel chose it; with privileges only when it answers a registered request,
    which is then forgotten, and it is dropped otherwise. *)
Lemma loopRead_messages now d m l oob addr client : bytes m -> l <= Zlen m -> oob <> BadControl -> bytes client -> bytes addr ->
  (forall a b identifier r, c_destination (d_conn d) = netip.Addr4 a -> d_destination d = netip.Addr4 b -> isLinuxUnprivileged os (d_conn d) = true ->
     c_source (d_conn d) = netip.Addr4 client -> Zlen client = 4 -> Zlen addr = 4 -> 28 <= l <= 65535 ->
     response_ok false identifier r -> window m 20 (l - 20) = Buffer r -> Addr r = netip.Addr4 addr ->
     exists m', runs (loopRead_turn os le now d (Addr r) oob (packet m l)) m (Some (active d now, Some (window m' 0 l))) m' /\
       packet4 m m' l addr client /\ ident4 m' = identifier /\ icmp_ok m' 20 (l - 20) 0) /\
  (forall a b, c_destination (d_conn d) = netip.Addr6 a -> d_destination d = netip.Addr6 b -> c_source (d_conn d) = netip.Addr6 client -> Zlen client = 16 -> Zlen addr = 16 ->
     48 <= l <= 65575 -> byte_at m 40 = ICMPv6.ICMPv6EchoReply ->
     exists m', packet6 (d_conn d) m m' l addr client /\
       runs (loopRead_turn os le now d (netip.Addr6 addr) oob (packet m l)) m
         (Some (if needFilter os d then
                  match d_requests d !! answer6 m' with
                  | Some _ => (active (with_requests d (delete (answer6 m') (d_requests d))) now, Some (window m' 0 l))
                  | None => (with_requests d (d_requests d), None)
                  end
                else (active d now, Some (window m' 0 l)))) m').
Proof.
  intros Hb Hz HO Bc Ba. split.
  - intros a b identifier r Hc Hd HU HS Lc La Hl HR HW Hr. destruct (runs_ReadIP_message4 (d_conn d) m l addr client oob) as (m' & Rr & HP); try done. exists m'. destruct (p4_at _ _ _ _ _ HP) as [HA HL].
    assert (window m' 20 (l - 20) = Buffer r) as HW'.
    { rewrite <- HW. apply window_agree; [apply (p4_len _ _ _ _ _ HP)|lia|lia|]. intros j ?. apply (p4_frame _ _ _ _ _ HP). lia. }
    split_and!; [|done| |].
    + unfold loopRead_turn, ReadIP. rewrite Hc, HU, Hr. cbn [Is6 negb orb]. eapply runs_bind; [exact Rr|]. cbn [negb]. eapply runs_bind; [|apply runs_ret]. rewrite <- (packet_len m m' l (p4_len _ _ _ _ _ HP)).
      apply runs_loopRead_reply_unfiltered; [apply (p4_echo _ _ _ _ _ HP)|by exists b|]. unfold needFilter. by rewrite HU.
    + pose proof (ro_identifier _ _ _ HR) as HI. rewrite identifier_of_spec, <- HW' in HI. destruct (6 <=? _); [|done]. injection HI as <-. unfold ident4. fold (icmp_at m'). rewrite HA. by rewrite get16_window by lia.
    + pose proof (ro_sum _ _ _ HR eq_refl) as HI. unfold icmp_ok in *. rewrite HW'. rewrite window_all in HI. exact HI.
  - intros a b Hc Hd HS Lc La Hl HT. destruct (runs_ReadIP_message6 (d_conn d) m l addr client oob) as (m' & Rr & HP); try done. exists m'. split; [done|].
    unfold loopRead_turn, ReadIP. rewrite Hc. cbn [Is6 negb orb]. eapply runs_bind; [exact Rr|]. cbn [negb]. eapply runs_bind; [|apply runs_ret]. rewrite <- (packet_len m m' l (p6_len _ _ _ _ _ _ HP)).
    apply runs_loopRead_reply6; [apply (p6_echo _ _ _ _ _ _ HP)|by exists b|]. rewrite (p6_frame _ _ _ _ _ _ HP) by lia. done.
Qed.
End Messages.

(** ** Witness *)

#[local] Existing Instance sing_common_loop.
Definition message_room : list Z := repeat 0 20 ++ [0; 0; 158; 154; 0; 2; 0; 1; 97; 98].
Definition unprivileged_destination : Destination := mkDestination (mkConn false (netip.Addr4 [8; 8; 8; 8]) (netip.Addr4 [10; 0; 0; 2])) (netip.Addr4 [8; 8; 8; 8]) 0 ∅.
Lemma loopRead_messages_witness :
  exists m', runs (loopRead_turn (H := tschecksum.ts_impl false 64) Linux true 1500 unprivileged_destination (netip.Addr4 [8; 8; 8; 8]) (Control 55 0) (packet message_room 30)) message_room
      (Some (active unprivileged_destination 1500, Some (window m' 0 30))) m' /\
    window m' 12 4 = [8; 8; 8; 8] /\ window m' 16 4 = [10; 0; 0; 2] /\ ident4 m' = 2 /\ IPv4.checksum_ok m' 0.
Proof.
  destruct (loopRead_messages (H := tschecksum.ts_impl false 64) Linux true 1500 unprivileged_destination message_room 30 (Control 55 0) [8; 8; 8; 8] [10; 0; 0; 2]) as [H4 _]; try concrete.
  destruct (H4 [8; 8; 8; 8] [8; 8; 8; 8] 2 (mkResponse [0; 0; 158; 154; 0; 2; 0; 1; 97; 98] [] (netip.Addr4 [8; 8; 8; 8]))) as (m' & R & HP & HI & _); try reflexivity; try (split; reflexivity || discriminate); [split; [concrete|concrete|intros _; exists 1; vm_compute; reflexivity]|].
  exists m'. split; [exact R|]. split; [exact (p4_source _ _ _ _ _ HP)|]. split; [exact (p4_client _ _ _ _ _ HP)|]. split; [exact HI|exact (p4_sum _ _ _ _ _ HP)].
Defined.
