(* ===== verification/Offload.v ===== *)
(** * tun_offload.go: splitting a large packet into segments

    A device with segmentation offload hands over packets larger than the MTU;
    [GSOSplit] cuts one into segments, each with a copy of the headers and with
    its own lengths, sequence number, flags and checksums.  The buffers live in
    a store of arrays, since the caller may pass an input that is the first
    output buffer: a [bslice] is a slice of one array of the store.
    [handleVirtioRead] (tun_linux.go) and the virtio header
    (tun_offload_linux.go) produce the options.  Arithmetic on the uint16
    fields of the options wraps as in the source. *)
From S2P Require Import Prelude Bytes GoMem Checksum HdrChecksum TsChecksum UDP.

(** ** The store *)

Record bslice := BSlice { b_arr : nat; b_sl : slice }.
Record store := mkStore { arrays : list (list Z); sizes : list Z }.

Definition OM (A : Type) : Type := store -> res (A * store).
Definition oret {A} (a : A) : OM A := fun st => Ok (a, st).
Definition obind {A B} (c : OM A) (k : A -> OM B) : OM B :=
  fun st => match c st with Ok (a, st') => k a st' | Panic => Panic end.
Notation "x <=- c ;; k" := (obind c (fun x => k)) (at level 100, c at next level, right associativity) : go_scope.

(** Code on one array of the store. *)
Definition on {A} (k : nat) (c : M A) : OM A := fun st =>
  match arrays st !! k with
  | None => Panic
  | Some m =>
      match c m with
      | Ok (a, m') => Ok (a, mkStore (<[k := m']> (arrays st)) (sizes st))
      | Panic => Panic
      end
  end.
(** [sizes[i] = n] *)
Definition set_size (i n : Z) : OM unit := fun st =>
  if (0 <=? i) && (i <? Zlen (sizes st)) then Ok (tt, mkStore (arrays st) (upd (sizes st) i n)) else Panic.

Lemma on_ok {A} k (c : M A) st m a m' :
  arrays st !! k = Some m -> runs c m a m' -> on k c st = Ok (a, mkStore (<[k := m']> (arrays st)) (sizes st)).
Proof. unfold on. by intros -> ->. Qed.
Lemma on_read {A} k (c : M A) st m a : arrays st !! k = Some m -> runs c m a m -> on k c st = Ok (a, st).
Proof. intros Hk Hc. rewrite (on_ok _ _ _ _ _ _ Hk Hc). rewrite list_insert_id by done. by destruct st. Qed.
Lemma obind_ok {A B} (c : OM A) (k : A -> OM B) st a st' : c st = Ok (a, st') -> obind c k st = k a st'.
Proof. unfold obind. by intros ->. Qed.
Lemma set_size_ok i n st : 0 <= i < Zlen (sizes st) -> set_size i n st = Ok (tt, mkStore (arrays st) (upd (sizes st) i n)).
Proof. intros. unfold set_size. by replace (_ && _) with true by lia. Qed.

(** ** Options *)

Inductive GSOType := GSONone | GSOTCPv4 | GSOTCPv6 | GSOUDPL4.
#[export] Instance GSOType_eq_dec : EqDecision GSOType.
Proof. solve_decision. Defined.

Record GSOOptions := mkGSO {
  g_GSOType : GSOType;
  g_HdrLen : Z;
  g_CsumStart : Z;
  g_CsumOffset : Z;
  g_GSOSize : Z;
  g_NeedsCsum : bool
}.

Inductive gso_error :=
| ErrCsumOffset (* end of checksum offset exceeds packet length *)
| ErrHdrLen (* length of packet < GSO HdrLen *)
| ErrOutputLength (* length of packet exceeds output element length *)
| ErrCsumStart (* GSO HdrLen < GSO CsumStart *)
| ErrGSOType (* IP version and GSO type do not match *)
| ErrIPHeader (* packet shorter than its IP header *)
| ErrIPVersion
| ErrTCPHeader (* packet shorter than CsumStart + 20 *)
| ErrTooManySegments
| ErrShortBuffer
| ErrUnsupportedGSO (gsoType : Z)
| ErrTooShort
| ErrTCPHeaderLen (tcpHLen : Z).

Definition ipProtoTCP : Z := 6.
Definition ipProtoUDP : Z := 17.
Definition tcpFlagFIN : Z := 1.
Definition tcpFlagPSH : Z := 8.
Definition tcpFlagsOffset : Z := 13.
Definition ipv4SrcAddrOffset : Z := 12.
Definition ipv6SrcAddrOffset : Z := 8.

(** ** GSOSplit *)

Section GSO.
Context `{ChecksumImpl}.

(** The branch for a packet that is not split. *)
Definition single_segment (input : bslice) (options : GSOOptions) (cSumAt : Z) (outBufs : list bslice) (outOffset : Z)
    : OM (Z * option gso_error) :=
  match outBufs with
  | [] => fun _ => Panic
  | out0 :: _ =>
      out <=- on (b_arr out0) (tail (b_sl out0) outOffset) ;;
      if sl_len out <? sl_len (b_sl input) then oret (0, Some ErrOutputLength)
      else
        _ <=- (if g_NeedsCsum options then
                 on (b_arr input)
                   (let inp := b_sl input in
                    s <- tail inp cSumAt ;; initial <- Uint16 s ;;
                    set_idx inp cSumAt 0 ;;; set_idx inp (cSumAt + 1) 0 ;;;
                    s <- tail inp (g_CsumStart options) ;; d <- contents s ;;
                    let csum := not16 (Checksum d initial) in
                    let csum := if g_CsumOffset options =? 6 then UDP.NormalizeUDPChecksum csum else csum in
                    s <- tail inp cSumAt ;; PutUint16 s csum)
               else oret tt) ;;
        data <=- on (b_arr input) (contents (b_sl input)) ;;
        n <=- on (b_arr out0) (copy_to out data) ;;
        _ <=- set_size 0 n ;;
        oret (1, None)
  end.

(** The body of the loop up to the payload: the IP header of segment [i], then
    the fields of its TCP or UDP header. *)
Definition segment_ip (options : GSOOptions) (ipVersion : Z) (out : slice) (i totalLen : Z) : M unit :=
  let iphLen := g_CsumStart options in
  if ipVersion =? 4 then
    when (0 <? i)
      (s <- tail out 4 ;; id <- Uint16 s ;; s <- tail out 4 ;; PutUint16 s (u16 (id + u16 i))) ;;;
    set_idx out 10 0 ;;; set_idx out 11 0 ;;;
    s <- tail out 2 ;; PutUint16 s (u16 totalLen) ;;;
    h <- reslice out 0 iphLen ;; d <- contents h ;;
    s <- tail out 10 ;; PutUint16 s (not16 (Checksum d 0))
  else
    s <- tail out 4 ;; PutUint16 s (u16 (totalLen - iphLen)).

Definition segment_transport (options : GSOOptions) (protocol firstTCPSeqNum srcTCPFlags : Z)
    (out : slice) (i segmentDataLen : Z) (last : bool) : M unit :=
  if protocol =? ipProtoTCP then
    s <- tail out (u16 (g_CsumStart options + 4)) ;;
    PutUint32 s (u32 (firstTCPSeqNum + u16 (g_GSOSize options * u16 i))) ;;;
    set_idx out (u16 (g_CsumStart options + tcpFlagsOffset))
      (if last then srcTCPFlags else Z.land srcTCPFlags (not8 (Z.lor tcpFlagFIN tcpFlagPSH)))
  else
    s <- tail out (u16 (g_CsumStart options + 4)) ;;
    PutUint16 s (u16 (u16 segmentDataLen + u16 (g_HdrLen options - g_CsumStart options))).

Definition segment_headers (options : GSOOptions) (ipVersion protocol firstTCPSeqNum srcTCPFlags : Z)
    (out : slice) (hdr : list Z) (i segmentDataLen : Z) (last : bool) : M unit :=
  h <- reslice out 0 (g_HdrLen options) ;; copy_to h hdr ;;;
  segment_ip options ipVersion out i (g_HdrLen options + segmentDataLen) ;;;
  segment_transport options protocol firstTCPSeqNum srcTCPFlags out i segmentDataLen last.

(** The rest of the body: the payload and the transport checksum. *)
Definition segment_payload (options : GSOOptions) (protocol pseudoSumBase : Z) (out : slice) (data : list Z) (segmentDataLen : Z)
    : M unit :=
  let totalLen := g_HdrLen options + segmentDataLen in
  let transportCsumAt := u16 (g_CsumStart options + g_CsumOffset options) in
  s <- tail out (g_HdrLen options) ;; copy_to s data ;;;
  set_idx out transportCsumAt 0 ;;; set_idx out (transportCsumAt + 1) 0 ;;;
  let transportHeaderLen := u16 (g_HdrLen options - g_CsumStart options) in
  let lenForPseudo := u16 (transportHeaderLen + segmentDataLen) in
  let transportCSum := Combine pseudoSumBase lenForPseudo in
  s <- reslice out (g_CsumStart options) totalLen ;; d <- contents s ;;
  let transportCSum := not16 (Checksum d transportCSum) in
  let transportCSum := if protocol =? ipProtoUDP then UDP.NormalizeUDPChecksum transportCSum else transportCSum in
  s <- tail out (u16 (g_CsumStart options + g_CsumOffset options)) ;; PutUint16 s transportCSum.

(** The loop; [i] is the number of segments made so far, [outs] are the output
    buffers from [i] on. *)
Fixpoint split_loop (input : bslice) (options : GSOOptions) (ipVersion protocol firstTCPSeqNum srcTCPFlags pseudoSumBase outOffset : Z)
    (outs : list bslice) (i nextSegmentDataAt : Z) : OM (Z * option gso_error) :=
  let len := sl_len (b_sl input) in
  if nextSegmentDataAt <? len then
    match outs with
    | [] => oret (i - 1, Some ErrTooManySegments)
    | o :: outs' =>
        let nextSegmentEnd := Z.min (nextSegmentDataAt + g_GSOSize options) len in
        let segmentDataLen := nextSegmentEnd - nextSegmentDataAt in
        _ <=- set_size i (g_HdrLen options + segmentDataLen) ;;
        out <=- on (b_arr o) (tail (b_sl o) outOffset) ;;
        hdr <=- on (b_arr input) (s <- reslice (b_sl input) 0 (g_HdrLen options) ;; contents s) ;;
        _ <=- on (b_arr o)
          (segment_headers options ipVersion protocol firstTCPSeqNum srcTCPFlags out hdr i segmentDataLen
             (nextSegmentEnd =? len)) ;;
        data <=- on (b_arr input) (s <- reslice (b_sl input) nextSegmentDataAt nextSegmentEnd ;; contents s) ;;
        _ <=- on (b_arr o) (segment_payload options protocol pseudoSumBase out data segmentDataLen) ;;
        split_loop input options ipVersion protocol firstTCPSeqNum srcTCPFlags pseudoSumBase outOffset
          outs' (i + 1) (nextSegmentDataAt + g_GSOSize options)
    end
  else oret (i, None).

Definition GSOSplit (input : bslice) (options : GSOOptions) (outBufs : list bslice) (outOffset : Z)
    : OM (Z * option gso_error) :=
  let len := sl_len (b_sl input) in
  let cSumAt := g_CsumStart options + g_CsumOffset options in
  let fail e : OM (Z * option gso_error) := oret (0, Some e) in
  if len <=? cSumAt + 1 then fail ErrCsumOffset
  else if len <? g_HdrLen options then fail ErrHdrLen
  else
    let payloadLen := len - g_HdrLen options in
    if bool_decide (g_GSOType options = GSONone) || (payloadLen <? g_GSOSize options)
    then single_segment input options cSumAt outBufs outOffset
    else if g_HdrLen options <? g_CsumStart options then fail ErrCsumStart
    else
      b0 <=- on (b_arr input) (idx (b_sl input) 0) ;;
      let ipVersion := Z.shiftr b0 4 in
      let udp := bool_decide (g_GSOType options = GSOUDPL4) in
      if negb ((ipVersion =? 4) || (ipVersion =? 6)) then fail ErrIPVersion
      else if negb (bool_decide (g_GSOType options = if ipVersion =? 4 then GSOTCPv4 else GSOTCPv6)) && negb udp
      then fail ErrGSOType
      else if len <? (if ipVersion =? 4 then 20 else 40) then fail ErrIPHeader
      else
        let srcAddrOffset := if ipVersion =? 4 then ipv4SrcAddrOffset else ipv6SrcAddrOffset in
        let addrLen := if ipVersion =? 4 then 4 else 16 in
        let tcp := negb udp in
        if tcp && (len <? g_CsumStart options + 20) then fail ErrTCPHeader
        else
          let protocol := if tcp then ipProtoTCP else ipProtoUDP in
          tcpInfo <=- (if tcp then
                         on (b_arr input)
                           (s <- tail (b_sl input) (u16 (g_CsumStart options + 4)) ;; seq <- Uint32 s ;;
                            flags <- idx (b_sl input) (u16 (g_CsumStart options + tcpFlagsOffset)) ;;
                            ret (seq, flags))
                       else oret (0, 0)) ;;
          base <=- on (b_arr input)
            (s <- reslice (b_sl input) srcAddrOffset (srcAddrOffset + addrLen) ;; src <- contents s ;;
             s <- reslice (b_sl input) (srcAddrOffset + addrLen) (srcAddrOffset + addrLen * 2) ;; dst <- contents s ;;
             ret (PseudoHeaderChecksum protocol src dst 0)) ;;
          split_loop input options ipVersion protocol tcpInfo.1 tcpInfo.2 base outOffset outBufs 0 (g_HdrLen options).

(** ** What a segment is *)

Section Segments.
(** [v]: the IP version; [tcp]: TCP or UDP. *)
Context (g : GSOOptions) (v : Z) (tcp : bool).
Abbreviation HL := (g_HdrLen g).
Abbreviation CS := (g_CsumStart g).
Abbreviation CO := (g_CsumOffset g).
Abbreviation G := (g_GSOSize g).
Definition gso_proto : Z := if tcp then ipProtoTCP else ipProtoUDP.

(** Options that describe a packet: the IP header ends at [CS], the transport
    header at [HL], and the checksum field is where the protocol has it. *)
Record gso_ok : Prop := {
  go_version : v = 4 \/ v = 6;
  go_type : g_GSOType g = if tcp then (if v =? 4 then GSOTCPv4 else GSOTCPv6) else GSOUDPL4;
  go_ip : (if v =? 4 then 20 else 40) <= CS;
  go_hl : if tcp then CO = 16 /\ CS + 20 <= HL else CO = 6 /\ HL = CS + 8;
  go_size : 0 < G
}.

(** The bytes of the headers that differ between segments. *)
Definition ip_field (j : Z) : Prop := if v =? 4 then 2 <= j < 6 \/ 10 <= j < 12 else 4 <= j < 6.
Definition transport_field (j : Z) : Prop :=
  if tcp then CS + 4 <= j < CS + 8 \/ j = CS + 13 \/ CS + 16 <= j < CS + 18 else CS + 4 <= j < CS + 8.

(** The array [a] holds at [p] segment [i], with [d] bytes of data, of the
    packet at [o] in [m]; [last] says that it is the last one. *)
Record segment (m : list Z) (o : Z) (a : list Z) (p i d : Z) (last : bool) : Prop := {
  seg_data : window a (p + HL) d = window m (o + HL + i * G) d;
  seg_hdr : forall j, 0 <= j < HL -> ~ ip_field j -> ~ transport_field j -> byte_at a (p + j) = byte_at m (o + j);
  seg_v4 : v = 4 -> get16 a (p + 2) = HL + d /\ get16 a (p + 4) = u16 (get16 m (o + 4) + i) /\
             wsum (window a p CS) ≡₁ 0;
  seg_v6 : v = 6 -> get16 a (p + 4) = HL + d - CS;
  seg_tcp : tcp = true -> get32 a (p + CS + 4) = u32 (get32 m (o + CS + 4) + i * G) /\
             byte_at a (p + CS + 13) = let f := byte_at m (o + CS + 13) in if last then f else Z.land f 246;
  seg_udp : tcp = false -> get16 a (p + CS + 4) = 8 + d /\ 0 < get16 a (p + CS + 6);
  seg_sum : let src := if v =? 4 then window m (o + 12) 4 else window m (o + 8) 16 in
            let dst := if v =? 4 then window m (o + 16) 4 else window m (o + 24) 16 in
            wsum src + wsum dst + (HL - CS + d) + gso_proto + wsum (window a (p + CS) (HL - CS + d)) ≡₁ 0
}.

Hypothesis ok : gso_ok.

Lemma ip_ok p L C a i total :
  0 <= p -> L <= C -> p + C <= Zlen a -> CS <= L -> bytes a -> 0 <= i ->
  exists a', runs (segment_ip g v (Slice p L C) i total) a tt a' /\ bytes a' /\ Zlen a' = Zlen a /\
    (forall j, 0 <= j -> ~ ip_field (j - p) -> byte_at a' j = byte_at a j) /\
    (v = 4 -> get16 a' (p + 2) = u16 total /\ get16 a' (p + 4) = u16 (get16 a (p + 4) + i) /\
       wsum (window a' p CS) ≡₁ 0) /\
    (v = 6 -> get16 a' (p + 4) = u16 (total - CS)).
Proof.
  intros Hp HC Hz HcL Hb Hi. destruct ok as [Hv _ Hcs _ _]. unfold segment_ip, ip_field.
  pose proof (u16_range total) as Ht. pose proof (u16_range (total - CS)) as Ht'.
  destruct Hv as [Hv|Hv]; rewrite Hv in *; cbn [Z.eqb Pos.eqb] in *.
  2: { eexists. split; [go_run|]. split; [auto with gobytes|]. split; [by autorewrite with golen|].
       split; [intros j Hj Hf; rd; done|]. split; [done|]. intros _. by rd. }
  pose proof (get16_range a (p + 4) Hb) as Hid.
  set (a0 := if 0 <? i then put16 a (p + 4) (u16 (get16 a (p + 4) + u16 i)) else a).
  assert (bytes a0) as B0 by (subst a0; destruct (0 <? i); auto using bytes_put16).
  assert (Zlen a0 = Zlen a) as Z0 by (subst a0; destruct (0 <? i); autorewrite with golen; done).
  set (a1 := put16 (upd (upd a0 (p + 10) 0) (p + 11) 0) (p + 2) (u16 total)).
  assert (bytes a1) as B1 by (subst a1; apply bytes_put16, bytes_upd; [apply bytes_upd|]; done || lia).
  assert (Zlen a1 = Zlen a) as Z1 by (subst a1; by autorewrite with golen).
  set (x := Checksum (window a1 p CS) 0).
  assert (is_u16 x) as Hx by (apply Checksum_range; [auto with gobytes|lia]).
  exists (put16 a1 (p + 10) (not16 x)). split_and!.
  - eapply runs_bind with (a := tt) (m' := a0).
    { subst a0. destruct (0 <? i); [|done]. cbn [when]. eapply runs_eq; [go_run|done|done]. }
    eapply runs_eq; [go_run|done|]. subst x a1. by rewrite Z.add_0_r, Z.sub_0_r.
  - auto with gobytes.
  - by autorewrite with golen.
  - intros j Hj Hf. subst a1. rd. subst a0. destruct (0 <? i); by rd.
  - intros _. pose proof (not16_range x Hx). split_and!.
    + rd. subst a1. by rd.
    + rd. subst a1. rd. subst a0.
      destruct (Z.ltb_spec 0 i); [pose proof (u16_range (get16 a (p + 4) + u16 i)); rd; unfold u16; zdm|].
      replace i with 0 by lia. rewrite Z.add_0_r. symmetry. by apply u16_small.
    + pose proof (store_sum a1 p CS (p + 10) x 0 B1) as HS. cbn [Z.add] in HS. apply HS; try lia; try done.
      { exists 5. lia. }
      assert (get16 a1 (p + 10) = 0) as ->.
      { subst a1. rd. unfold get16. replace (p + 10 + 1) with (p + 11) by lia. by rd. }
      rewrite Z.sub_0_r. subst x. apply Checksum_cong; [auto with gobytes|lia].
  - done.
Qed.

Lemma land_246 x : is_u8 (Z.land x 246).
Proof.
  change 246 with (Z.land 246 (Z.ones 8)). rewrite Z.land_assoc, Z.land_ones by lia.
  change (2 ^ 8) with 256. apply Z.mod_pos_bound. lia.
Qed.

Lemma transport_ok p L C a i seq flags d last :
  0 <= p -> L <= C -> p + C <= Zlen a -> HL <= L -> bytes a -> 0 <= i -> i * G <= 65535 -> is_u8 flags ->
  0 <= d -> HL + d <= 65535 ->
  exists a', runs (segment_transport g gso_proto seq flags (Slice p L C) i d last) a tt a' /\
    bytes a' /\ Zlen a' = Zlen a /\
    (forall j, 0 <= j -> ~ transport_field (j - p) -> byte_at a' j = byte_at a j) /\
    (tcp = true -> get32 a' (p + CS + 4) = u32 (seq + i * G) /\
       byte_at a' (p + CS + 13) = if last then flags else Z.land flags 246) /\
    (tcp = false -> get16 a' (p + CS + 4) = 8 + d).
Proof.
  intros Hp HC Hz HcL Hb Hi Hig Hf Hd Hd'. destruct ok as [_ _ Hcs Hhl HG].
  assert (20 <= CS) as Hcs' by (destruct (v =? 4); lia).
  assert (i <= 65535) as Hi' by nia.
  unfold segment_transport, gso_proto, transport_field.
  change (not8 (Z.lor tcpFlagFIN tcpFlagPSH)) with 246. unfold tcpFlagsOffset.
  destruct tcp; cbn [Z.eqb Pos.eqb ipProtoTCP ipProtoUDP].
  - destruct Hhl as [Hco Hhl].
    rewrite (u16_small (CS + 4)), (u16_small (CS + 13)), (u16_small i), (u16_small (G * i)) by lia.
    set (fl := if last then flags else Z.land flags 246).
    assert (is_u8 fl) as Hfl by (subst fl; destruct last; [done|apply land_246]).
    pose proof (u32_range (seq + G * i)) as Hs.
    eexists. split; [go_run|]. split; [by apply bytes_upd; [apply bytes_put32|]|].
    split; [by autorewrite with golen|].
    split; [intros j Hj Hn; by rd|]. split; [|done].
    intros _. rewrite Z.add_assoc, (Z.mul_comm i). split; rd; [done|].
    replace (p + (CS + 13)) with (p + CS + 13) by lia. by rd.
  - destruct Hhl as [Hco Hhl].
    rewrite (u16_small (CS + 4)), (u16_small d), (u16_small (HL - CS)), (u16_small (d + (HL - CS))) by lia.
    eexists. split; [go_run|]. split; [by apply bytes_put16|].
    split; [by autorewrite with golen|].
    split; [intros j Hj Hn; by rd|]. split; [done|].
    intros _. rewrite Z.add_assoc. rd. lia.
Qed.

(** The headers of a segment, as written from a copy [hdr] of the packet's. *)
Record heads (hdr : list Z) (seq flags : Z) (a : list Z) (p i d : Z) (last : bool) : Prop := {
  hd_copy : forall j, 0 <= j < HL -> ~ ip_field j -> ~ transport_field j -> byte_at a (p + j) = byte_at hdr j;
  hd_v4 : v = 4 -> get16 a (p + 2) = HL + d /\ get16 a (p + 4) = u16 (get16 hdr 4 + i) /\
            wsum (window a p CS) ≡₁ 0;
  hd_v6 : v = 6 -> get16 a (p + 4) = HL + d - CS;
  hd_tcp : tcp = true -> get32 a (p + CS + 4) = u32 (seq + i * G) /\
             byte_at a (p + CS + 13) = if last then flags else Z.land flags 246;
  hd_udp : tcp = false -> get16 a (p + CS + 4) = 8 + d
}.

Lemma gso_bounds : 20 <= CS /\ (0 <= CO /\ CS + CO + 2 <= HL) /\ (forall j, transport_field j -> CS <= j < HL) /\
  (forall j, ip_field j -> 0 <= j < CS).
Proof.
  destruct ok as [_ _ Hcs Hhl _]. unfold transport_field, ip_field.
  destruct tcp, (v =? 4); cbn [Z.eqb] in *; split_and!; intros; lia.
Qed.

Lemma headers_ok p L C a hdr i seq flags d last :
  0 <= p -> L <= C -> p + C <= Zlen a -> HL <= L -> bytes a -> bytes hdr -> Zlen hdr = HL ->
  0 <= i -> i * G <= 65535 -> is_u8 flags -> 0 <= d -> HL + d <= 65535 ->
  exists a', runs (segment_headers g v gso_proto seq flags (Slice p L C) hdr i d last) a tt a' /\
    bytes a' /\ Zlen a' = Zlen a /\ (forall j, 0 <= j -> ~ (p <= j < p + HL) -> byte_at a' j = byte_at a j) /\
    heads hdr seq flags a' p i d last.
Proof.
  intros Hp HC Hz HcL Hb Bh Lh Hi Hig Hf Hd Hd'. destruct gso_bounds as (Hcs & [Hco0 Hco] & Ht & Hip).
  set (a0 := write_at a p hdr).
  assert (bytes a0) as B0 by by apply bytes_write_at.
  assert (Zlen a0 = Zlen a) as Z0 by (subst a0; by autorewrite with golen).
  destruct (ip_ok p L C a0 i (HL + d)) as (a1 & R1 & B1 & Z1 & F1 & V4 & V6); try done; try lia.
  destruct (transport_ok p L C a1 i seq flags d last) as (a2 & R2 & B2 & Z2 & F2 & T & U); try done; try lia.
  assert (forall j, 0 <= j < HL -> byte_at a0 (p + j) = byte_at hdr j) as H0.
  { intros j Hj. subst a0. rewrite byte_at_write_at by lia.
    replace (_ && _) with true by lia. f_equal. lia. }
  assert (forall j, 0 <= j -> j < p + CS -> byte_at a2 j = byte_at a1 j) as F2'.
  { intros j Hj Hlt. apply F2; [done|]. intros E%Ht. lia. }
  exists a2. split_and!; try done; try lia.
  - unfold segment_headers. eapply runs_bind; [apply runs_reslice; lia|]. cbn beta.
    eapply runs_bind; [eapply runs_eq; [apply runs_copy_to; lia|done|]; by rewrite Z.add_0_r|].
    eapply runs_bind; [exact R1|exact R2].
  - intros j Hj Hn. rewrite F2, F1; try done; try (intros E; first [apply Ht in E|apply Hip in E]; lia).
    subst a0. rewrite byte_at_write_at by lia. by replace (_ && _) with false by lia.
  - split; try done.
    + intros j Hj N1 N2. rewrite F2, F1; try lia; try (by replace (p + j - p) with j by lia). by apply H0.
    + intros E4. destruct (V4 E4) as (E1 & E2 & E3). rewrite (u16_small (HL + d)) in E1 by lia.
      rewrite (get16_agree a1), (get16_agree a1 a2 (p + 4)) by (apply F2'; lia).
      rewrite (window_agree a1) by (try apply F2'; intros; try apply F2'; lia).
      split_and!; try done. rewrite E2. f_equal. f_equal. unfold get16.
      rewrite H0 by lia. replace (p + 4 + 1) with (p + 5) by lia. by rewrite H0 by lia.
    + intros E6. specialize (V6 E6). rewrite (u16_small (HL + d - CS)) in V6 by lia.
      by rewrite (get16_agree a1) by (apply F2'; lia).
Qed.

Lemma payload_ok p L C a data d base S :
  0 <= p -> L <= C -> p + C <= Zlen a -> bytes a -> bytes data -> Zlen data = d ->
  0 <= d -> HL + d <= L -> HL + d <= 65535 -> is_u16 base -> base ≡₁ S ->
  exists a', runs (segment_payload g gso_proto base (Slice p L C) data d) a tt a' /\
    bytes a' /\ Zlen a' = Zlen a /\
    (forall j, 0 <= j -> ~ (p + CS + CO <= j < p + CS + CO + 2) -> ~ (p + HL <= j < p + HL + d) ->
       byte_at a' j = byte_at a j) /\
    window a' (p + HL) d = data /\
    S + (HL - CS + d) + wsum (window a' (p + CS) (HL - CS + d)) ≡₁ 0 /\
    (tcp = false -> 0 < get16 a' (p + CS + 6)).
Proof.
  intros Hp HC Hz Hb Bd Ld Hd HdL Hd' Hbase HS. destruct gso_bounds as (Hcs & [Hco0 Hco] & _ & _).
  pose proof (go_hl ok) as Hhl.
  assert (Z.Even CO) as Heven by (destruct tcp; destruct Hhl as [-> _]; [by exists 8|by exists 3]).
  set (k := p + CS + CO). set (n := HL - CS + d).
  set (a1 := upd (upd (write_at a (p + HL) data) k 0) (k + 1) 0).
  assert (bytes a1) as B1 by (subst a1; apply bytes_upd; [apply bytes_upd; [by apply bytes_write_at|]|]; lia).
  assert (Zlen a1 = Zlen a) as Z1 by (subst a1; by autorewrite with golen).
  set (x := Checksum (window a1 (p + CS) n) (Combine base n)).
  assert (is_u16 x) as Hx by (apply Checksum_range; [auto with gobytes|apply Combine_range; lia]).
  set (y := if tcp then not16 x else UDP.NormalizeUDPChecksum (not16 x)).
  assert (is_u16 y /\ y ≡₁ - x /\ (tcp = false -> 0 < y)) as (Hy & Hyx & Hy0).
  { pose proof (not16_range x Hx). subst y. destruct tcp; (split; [|split]); try done.
    - by apply not16_cong.
    - by apply UDP.Normalize_range.
    - rewrite UDP.Normalize_cong. by apply not16_cong.
    - intros _. by apply UDP.Normalize_nonzero. }
  exists (put16 a1 k y). split_and!.
  - unfold segment_payload. rewrite (u16_small (CS + CO)), (u16_small (HL - CS)) by lia.
    replace (u16 (HL - CS + d)) with n by (symmetry; apply u16_small; lia).
    assert ((gso_proto =? ipProtoUDP) = negb tcp) as -> by (unfold gso_proto; by destruct tcp).
    eapply runs_bind; [apply runs_tail; lia|]. cbn beta.
    eapply runs_bind; [apply runs_copy_to; lia|]. cbn beta. eapply runs_eq; [go_run|done|].
    replace (p + (CS + CO + 1)) with (k + 1) by lia. replace (p + (CS + CO)) with k by lia.
    replace (HL + d - CS) with n by lia. subst y x a1. by destruct tcp.
  - auto with gobytes.
  - by autorewrite with golen.
  - intros j Hj N1 N2. subst a1 k. by rd.
  - subst a1 k. by rd.
  - rewrite wsum_window_put16; try done; try lia; [|subst k; replace (p + CS + CO - (p + CS)) with CO by lia; done].
    assert (get16 a1 k = 0) as ->. { subst a1. unfold get16. by rd. }
    rewrite Hyx. subst x. rewrite Checksum_cong, Combine_cong, HS; [|lia|lia|auto with gobytes|apply Combine_range; lia].
    apply cong_refl_eq. lia.
  - intros E. rewrite E in Hhl. destruct Hhl as [Hc6 _]. subst k. rewrite Hc6. rd. by apply Hy0.
Qed.

(** The tests [GSOSplit] makes on the type and the IP version. *)
Lemma go_type_cases :
  bool_decide (g_GSOType g = GSONone) = false /\ bool_decide (g_GSOType g = GSOUDPL4) = negb tcp /\
  negb ((v =? 4) || (v =? 6)) = false /\
  negb (bool_decide (g_GSOType g = if v =? 4 then GSOTCPv4 else GSOTCPv6)) && negb (negb tcp) = false.
Proof.
  destruct ok as [Hv Ht _ _ _]. rewrite Ht. destruct Hv as [-> | ->], tcp; done.
Qed.

(** ** The loop *)

Section Packet.
(** The packet: [l] bytes at [o] of array [m], in array [ki] of the store. *)
Context (m : list Z) (o l c : Z) (ki : nat) (seq flags base : Z).
Abbreviation P := (l - HL).
Abbreviation input := (BSlice ki (Slice o l c)).
Abbreviation src := (if v =? 4 then window m (o + 12) 4 else window m (o + 8) 16).
Abbreviation dst := (if v =? 4 then window m (o + 16) 4 else window m (o + 24) 16).

Definition nsegs : Z := (P + G - 1) / G.
Definition seg_len (i : Z) : Z := Z.min G (P - i * G).
Definition is_last (i : Z) : bool := P <=? (i + 1) * G.

Record packet_ok : Prop := {
  pk_bytes : bytes m;
  pk_room : 0 <= o /\ l <= c /\ o + c <= Zlen m;
  pk_len : HL < l /\ l <= 65535;
  pk_tcp : is_u8 flags /\ (tcp = true -> seq = get32 m (o + CS + 4) /\ flags = byte_at m (o + CS + 13));
  pk_base : is_u16 base /\ base ≡₁ wsum src + wsum dst + gso_proto
}.
Hypothesis pk : packet_ok.

(** Bytes of the packet that making a first segment in place leaves alone. *)
Definition kept (j : Z) : Prop := HL <= j \/ (~ ip_field j \/ (v = 4 /\ 4 <= j < 6)) /\ ~ transport_field j.

Definition agrees (mi : list Z) : Prop :=
  bytes mi /\ Zlen mi = Zlen m /\ forall j, 0 <= j < l -> kept j -> byte_at mi (o + j) = byte_at m (o + j).

Lemma nsegs_lt i : 0 <= i -> i < nsegs <-> i * G < P.
Proof.
  intros Hi. pose proof (go_size ok) as HG. unfold nsegs. split; intros Hlt.
  - assert ((i + 1) * G <= (P + G - 1) / G * G) by nia.
    pose proof (Z.mul_div_le (P + G - 1) G HG). nia.
  - apply Z.le_succ_l, Z.div_le_lower_bound; [done|]. nia.
Qed.

Lemma heads_segment mi a1 a2 p i d last data :
  agrees mi -> data = window m (o + HL + i * G) d -> 0 <= i -> 0 <= p -> p + HL + d <= Zlen a1 -> 0 <= d ->
  Zlen a2 = Zlen a1 ->
  heads (window mi o HL) seq flags a1 p i d last ->
  (forall j, 0 <= j -> ~ (p + CS + CO <= j < p + CS + CO + 2) -> ~ (p + HL <= j < p + HL + d) ->
     byte_at a2 j = byte_at a1 j) ->
  window a2 (p + HL) d = data ->
  wsum src + wsum dst + gso_proto + (HL - CS + d) + wsum (window a2 (p + CS) (HL - CS + d)) ≡₁ 0 ->
  (tcp = false -> 0 < get16 a2 (p + CS + 6)) ->
  segment m o a2 p i d last.
Proof.
  intros (Bi & Zi & Ai) -> Hi Hp Hz Hd Z2 [Hc H4 H6 Ht Hu] Hfr Hdata Hsum Hu6.
  destruct gso_bounds as (Hcs & [Hco0 Hco] & HT & HI). destruct pk as [_ (Ho & _ & _) (HlP & _) [_ Htcp] _].
  assert (CO = if tcp then 16 else 6) as Eco by (pose proof (go_hl ok) as E; destruct tcp; apply E).
  assert (forall j, 0 <= j < HL -> byte_at (window mi o HL) j = byte_at mi (o + j)) as Hw
    by (intros; apply byte_at_window; lia).
  split.
  - done.
  - intros j Hj N1 N2. rewrite Hfr; [|lia| |lia].
    + rewrite Hc, Hw by done. apply Ai; [lia|]. right. by split; [left|].
    + intros E. apply N2. unfold transport_field. rewrite Eco in E. destruct tcp; lia.
  - intros E. destruct (H4 E) as (E1 & E2 & E3).
    rewrite (get16_agree a1), (get16_agree a1 a2 (p + 4)) by (apply Hfr; lia).
    rewrite (window_agree a1) by (try apply Hfr; intros; try apply Hfr; lia). split_and!; try done.
    rewrite E2. f_equal. f_equal. unfold get16. rewrite !Hw by lia.
    rewrite !Ai; try lia; [by rewrite <- Z.add_assoc| |]; right; (split; [by right|intros F%HT; lia]).
  - intros E. rewrite <- (H6 E). apply get16_agree; apply Hfr; lia.
  - intros E. destruct (Ht E) as [E1 E2]. destruct (Htcp E) as [-> ->]. rewrite E in Eco. split.
    + rewrite <- E1. apply get32_agree. intros. apply Hfr; lia.
    + cbv zeta. rewrite <- E2. apply Hfr; lia.
  - intros E. split; [|by apply Hu6]. rewrite <- (Hu E). rewrite E in Eco. apply get16_agree; apply Hfr; lia.
  - cbv zeta. rewrite <- Hsum. apply cong_refl_eq. lia.
Qed.

(** Making the first segment in place keeps the packet readable for the
    following ones. *)
Lemma agrees_in_place mi a1 a2 d last :
  agrees mi -> Zlen a1 = Zlen mi -> bytes a2 -> Zlen a2 = Zlen a1 -> 0 <= d -> HL + d <= l ->
  heads (window mi o HL) seq flags a1 o 0 d last ->
  (forall j, 0 <= j -> ~ (o <= j < o + HL) -> byte_at a1 j = byte_at mi j) -> bytes a1 ->
  (forall j, 0 <= j -> ~ (o + CS + CO <= j < o + CS + CO + 2) -> ~ (o + HL <= j < o + HL + d) ->
     byte_at a2 j = byte_at a1 j) ->
  window a2 (o + HL) d = window mi (o + HL) d -> agrees a2.
Proof.
  intros (Bi & Zi & Ai) Z1 B2 Z2 Hd Hdl [Hc H4 _ _ _] Hf1 B1 Hf2 Hdata.
  destruct gso_bounds as (Hcs & [Hco0 Hco] & HT & HI). destruct pk as [_ (Ho & _ & Hz) (HlP & _) _ _].
  assert (CO = if tcp then 16 else 6) as Eco by (pose proof (go_hl ok) as E; destruct tcp; apply E).
  split; [done|]. split; [lia|]. intros j Hj Hk. rewrite <- (Ai j) by done.
  destruct (Z.lt_ge_cases j HL) as [Hlt|Hge].
  - destruct Hk as [?|[Hip Htp]]; [lia|]. rewrite Hf2; [|lia| |lia].
    2: { intros E. apply Htp. unfold transport_field. rewrite Eco in E. destruct tcp; lia. }
    destruct Hip as [Hip|[E4 E45]].
    { rewrite Hc by (done || lia). apply byte_at_window; lia. }
    destruct (H4 E4) as (_ & Eid & _). unfold get16 in Eid. rewrite !byte_at_window in Eid by lia.
    pose proof (bytes_byte_at a1 (o + 4) B1). pose proof (bytes_byte_at a1 (o + 4 + 1) B1).
    pose proof (bytes_byte_at mi (o + 4) Bi). pose proof (bytes_byte_at mi (o + (4 + 1)) Bi).
    rewrite u16_small in Eid by lia.
    assert (j = 4 \/ j = 4 + 1) as [-> | ->] by lia; rewrite ?(Z.add_assoc o 4 1) in *; lia.
  - destruct (Z.lt_ge_cases j (HL + d)) as [Hlt|Hge'].
    + assert (byte_at (window a2 (o + HL) d) (j - HL) = byte_at (window mi (o + HL) d) (j - HL)) as E
        by by rewrite Hdata.
      rewrite !byte_at_window in E by lia. by replace (o + HL + (j - HL)) with (o + j) in E by lia.
    + rewrite Hf2, Hf1 by lia. done.
Qed.

(** An output buffer with room for a segment at [outOffset]. *)
Definition out_ok (arrs : list (list Z)) (outOffset : Z) (b : bslice) : Prop :=
  exists a, arrs !! b_arr b = Some a /\ bytes a /\ 0 <= sl_off (b_sl b) /\ sl_len (b_sl b) <= sl_cap (b_sl b) /\
    sl_off (b_sl b) + sl_cap (b_sl b) <= Zlen a /\ outOffset + HL + G <= sl_len (b_sl b).

Abbreviation loop outOffset := (split_loop input g v gso_proto seq flags base outOffset).

Lemma step_ok st b outs i mi outOffset :
  arrays st !! ki = Some mi -> agrees mi -> out_ok (arrays st) outOffset b -> 0 <= outOffset ->
  0 <= i < nsegs -> i < Zlen (sizes st) ->
  (b_arr b = ki -> i = 0 /\ sl_off (b_sl b) + outOffset = o) ->
  exists a mi', loop outOffset (b :: outs) i (HL + i * G) st
      = loop outOffset outs (i + 1) (HL + (i + 1) * G)
          (mkStore (<[b_arr b := a]> (arrays st)) (upd (sizes st) i (HL + seg_len i))) /\
    segment m o a (sl_off (b_sl b) + outOffset) i (seg_len i) (is_last i) /\
    <[b_arr b := a]> (arrays st) !! ki = Some mi' /\ agrees mi'.
Proof.
  intros Hki Hag (ab & Hab & Bab & Hoff & Hlc & Hcz & Hroom) Hout [Hi Hin] Hsz Halias.
  pose proof Hin as Hin'. apply nsegs_lt in Hin'; [|done].
  destruct pk as [Bm (Ho & Hlcap & Hz) (HlP & Hl65) [Hf8 Htcp] [Hb16 Hbase]]. pose proof (go_size ok) as HG.
  destruct gso_bounds as (Hcs & [Hco0 Hco] & _ & _).
  set (d := seg_len i). assert (0 < d <= G /\ i * G + d <= P) as [Hd Hd'] by (subst d; unfold seg_len; lia).
  destruct b as [kb [ob lb cb]]. cbn [b_arr b_sl sl_off sl_len sl_cap] in *.
  set (p := ob + outOffset).
  pose proof Hag as (Bi & Zi & Ai).
  destruct (headers_ok p (lb - outOffset) (cb - outOffset) ab (window mi o HL) i seq flags d (is_last i)) as (a1 & R1 & B1 & Z1 & F1 & HH);
    try done; try lia; auto with gobytes; try (apply Zlen_window; lia).
  set (data := window mi (o + HL + i * G) d).
  assert (data = window m (o + HL + i * G) d) as Hdm.
  { apply window_agree; [done|lia|lia|]. intros j Hj. replace j with (o + (j - o)) by lia. apply Ai; [lia|]. left. lia. }
  assert (Zlen data = d) as Ld by (apply Zlen_window; lia).
  destruct (payload_ok p (lb - outOffset) (cb - outOffset) a1 data d base (wsum src + wsum dst + gso_proto))
    as (a2 & R2 & B2 & Z2 & F2 & W2 & S2 & U2); try done; try lia.
  { by apply bytes_window. }
  assert (segment m o a2 p i d (is_last i)) as HS
    by (eapply (heads_segment mi a1 a2 p i d (is_last i) data); try done; lia).
  exists a2.
  assert (exists md, <[kb:=a1]> (arrays st) !! ki = Some md /\ window md (o + HL + i * G) d = data) as (md & Hmd & Wmd).
  { destruct (decide (kb = ki)) as [->|Hne].
    - exists a1. rewrite list_lookup_insert_eq by (by eapply lookup_lt_Some). split; [done|].
      assert (ab = mi) as -> by congruence. destruct (Halias eq_refl) as [_ Hpo].
      apply window_agree; try lia. intros j Hj. apply F1; lia.
    - exists mi. rewrite list_lookup_insert_ne by done. done. }
  assert (exists mi', <[kb:=a2]> (arrays st) !! ki = Some mi' /\ agrees mi') as (mi' & Hmi' & Ag').
  { destruct (decide (kb = ki)) as [->|Hne].
    - exists a2. rewrite list_lookup_insert_eq by (by eapply lookup_lt_Some). split; [done|].
      assert (ab = mi) as -> by congruence. destruct (Halias eq_refl) as [-> Hpo].
      replace p with o in * by lia.
      eapply (agrees_in_place mi a1 a2 d _ Hag Z1 B2 Z2 ltac:(lia) ltac:(lia) HH); try done.
      rewrite W2. subst data. f_equal. lia.
    - exists mi. rewrite list_lookup_insert_ne by done. done. }
  exists mi'. split; [|done]. cbn [split_loop b_sl b_arr sl_len].
  replace (HL + i * G <? l) with true by lia.
  replace (Z.min (HL + i * G + G) l) with (HL + i * G + d) by (subst d; unfold seg_len; lia).
  replace (HL + i * G + d - (HL + i * G)) with d by lia.
  replace (HL + i * G + d =? l) with (is_last i) by (subst d; unfold is_last, seg_len; lia).
  rewrite (obind_ok _ _ _ _ _ (set_size_ok i _ st ltac:(lia))). set (st1 := mkStore _ _).
  rewrite (obind_ok _ _ _ _ _ (on_read kb _ st1 ab _ Hab (runs_tail ob lb cb outOffset ab Hout ltac:(lia) Hlc))).
  rewrite (obind_ok _ _ st1 (window mi o HL) st1).
  2: { eapply on_read; [exact Hki|]. eapply runs_eq; [go_run|by rewrite Z.add_0_r, Z.sub_0_r|done]. }
  rewrite (obind_ok _ _ _ _ _ (on_ok kb _ st1 ab _ _ Hab R1)). set (st2 := mkStore _ _).
  rewrite (obind_ok _ _ st2 data st2).
  2: { eapply on_read; [exact Hmd|]. eapply runs_eq; [go_run| |done]. rewrite <- Wmd. f_equal; lia. }
  rewrite (obind_ok _ _ _ _ _ (on_ok kb _ st2 a1 _ _ (list_lookup_insert_eq _ _ _ (lookup_lt_Some _ _ _ Hab)) R2)).
  subst st1 st2. cbn [arrays sizes]. rewrite list_insert_insert_eq.
  by replace (HL + i * G + G) with (HL + (i + 1) * G) by lia.
Qed.

(** The outputs: different arrays, of which only the very first may be the
    input itself (at the same place). *)
Definition outs_ok (i : Z) (outOffset : Z) (outs : list bslice) : Prop :=
  NoDup (map b_arr outs) /\
  forall k b, outs !! k = Some b -> b_arr b = ki -> i = 0 /\ k = 0%nat /\ sl_off (b_sl b) + outOffset = o.

Lemma outs_ok_tail i outOffset b outs : 0 <= i ->
  outs_ok i outOffset (b :: outs) -> outs_ok (i + 1) outOffset outs /\ b_arr b ∉ map b_arr outs.
Proof.
  intros Hi [Hnd Hal]. cbn [map] in Hnd. apply NoDup_cons in Hnd as [Hni Hnd]. split; [split; [done|]|done].
  intros k b' Hk Hb. destruct (Hal (S k) b' Hk Hb) as (_ & ? & _). done.
Qed.

Definition split_result (i : Z) (outs : list bslice) : Z * option gso_error :=
  if nsegs <=? i + Zlen outs then (nsegs, None) else (i + Zlen outs - 1, Some ErrTooManySegments).

Lemma loop_ok outOffset outs i st mi :
  0 <= outOffset -> 0 <= i <= nsegs -> arrays st !! ki = Some mi -> agrees mi ->
  Forall (out_ok (arrays st) outOffset) outs -> outs_ok i outOffset outs -> i + Zlen outs <= Zlen (sizes st) ->
  exists st', loop outOffset outs i (HL + i * G) st = Ok (split_result i outs, st') /\
    (forall k b, outs !! k = Some b -> i + Z.of_nat k < nsegs ->
       let q := i + Z.of_nat k in
       byte_at (sizes st') q = HL + seg_len q /\
       exists a, arrays st' !! b_arr b = Some a /\
         segment m o a (sl_off (b_sl b) + outOffset) q (seg_len q) (is_last q)) /\
    (forall q, q ∉ map b_arr outs -> arrays st' !! q = arrays st !! q) /\
    (forall q, 0 <= q < i -> byte_at (sizes st') q = byte_at (sizes st) q) /\
    Zlen (sizes st') = Zlen (sizes st).
Proof.
  intros Hout. revert i st mi.
  induction outs as [|b outs IH]; intros i st mi Hi Hki Hag Hoks Hos Hsz.
  - exists st. split; [|done]. rewrite Zlen_nil in *. unfold split_result. cbn [split_loop b_sl sl_len].
    rewrite Zlen_nil. pose proof (nsegs_lt i ltac:(lia)) as Hn.
    destruct (Z.leb_spec nsegs (i + 0)).
    + replace (HL + i * G <? l) with false by lia. unfold oret. repeat f_equal. lia.
    + replace (HL + i * G <? l) with true by lia. unfold oret. repeat f_equal. lia.
  - rewrite Zlen_cons in *. pose proof (Zlen_nonneg outs) as Hlo. apply Forall_cons in Hoks as [Hb Hoks].
    destruct (decide (i < nsegs)) as [Hlt|Hge].
    2: { exists st. split; [|split; [intros; lia|done]]. cbn [split_loop b_sl sl_len].
         pose proof (nsegs_lt i ltac:(lia)) as Hn. replace (HL + i * G <? l) with false by lia.
         unfold split_result. rewrite Zlen_cons. replace (nsegs <=? _) with true by lia. unfold oret. repeat f_equal. lia. }
    destruct (step_ok st b outs i mi outOffset) as (a & mi' & Heq & HS & Hki' & Hag'); try done; try lia.
    { intros E. destruct Hos as [_ Hal]. destruct (Hal 0%nat b eq_refl E) as (? & _ & ?). done. }
    destruct (outs_ok_tail i outOffset b outs ltac:(lia) Hos) as [Hos' Hni].
    destruct Hb as (ab & Hab & _).
    destruct (IH (i + 1) (mkStore (<[b_arr b := a]> (arrays st)) (upd (sizes st) i (HL + seg_len i))) mi')
      as (st' & Hrun & Hseg & Hfr & Hsf & Hsl); try done; try lia; cbn [arrays sizes].
    { apply Forall_forall. intros b' Hin. rewrite Forall_forall in Hoks. destruct (Hoks b' Hin) as (a' & Ha' & Hr).
      exists a'. split; [|done]. rewrite list_lookup_insert_ne; [done|]. intros E. apply Hni. rewrite E.
      apply list_elem_of_In, in_map. by apply list_elem_of_In. }
    { rewrite Zlen_upd. lia. }
    exists st'. cbn [arrays sizes] in *. rewrite Zlen_upd in Hsl. split_and!; try done.
    + rewrite Heq, Hrun. unfold split_result. rewrite Zlen_cons. by replace (i + (Zlen outs + 1)) with (i + 1 + Zlen outs) by lia.
    + intros [|k] b' Hk Hlt'; cbv zeta.
      * injection Hk as <-. rewrite Z.add_0_r. split.
        { rewrite Hsf by lia. apply byte_at_upd_eq. lia. }
        exists a. split; [|done]. rewrite Hfr by done. apply list_lookup_insert_eq. by eapply lookup_lt_Some.
      * replace (i + Z.of_nat (S k)) with (i + 1 + Z.of_nat k) in * by lia. by apply (Hseg k).
    + intros q Hq. cbn [map] in Hq. apply not_elem_of_cons in Hq as [Hq1 Hq2].
      rewrite Hfr by done. by rewrite list_lookup_insert_ne by congruence.
    + intros q Hq. rewrite Hsf by lia. apply byte_at_upd_ne; lia.
Qed.

(** The data of the segments, in order, is the payload. *)
Lemma segments_data n :
  0 <= n <= nsegs ->
  concat (map (fun k => window m (o + HL + k * G) (seg_len k)) (seqZ 0 n)) = window m (o + HL) (Z.min (n * G) P).
Proof.
  destruct pk as [_ (Ho & _ & Hz) (HlP & _) _ _]. destruct gso_bounds as (Hcs & [Hco0 Hco] & _ & _).
  pose proof (go_size ok) as HG. intros [Hn Hle]. revert Hle. pattern n. apply natlike_ind; [|clear n Hn|done].
  - intros _. rewrite seqZ_nil by lia. rewrite Z.mul_0_l, Z.min_l by lia. done.
  - intros n Hn IH Hle. unfold Z.succ in *. rewrite seqZ_app by lia. rewrite map_app, concat_app, IH by lia.
    rewrite (seqZ_cons (0 + n)), seqZ_nil by lia. cbn [map concat].
    pose proof (proj1 (nsegs_lt n Hn) ltac:(lia)) as Hlt. rewrite app_nil_r, Z.add_0_l.
    replace (Z.min (n * G) P) with (n * G) by lia.
    rewrite <- window_app by (unfold seg_len; lia). f_equal. unfold seg_len. lia.
Qed.
End Packet.
End Segments.

(** What [GSOSplit] reads from the packet before the loop. *)
Definition tcp_info (g : GSOOptions) (tcp : bool) (m : list Z) (o : Z) : Z * Z :=
  if tcp then (get32 m (o + g_CsumStart g + 4), byte_at m (o + g_CsumStart g + 13)) else (0, 0).
Definition pseudo_base (v : Z) (tcp : bool) (m : list Z) (o : Z) : Z :=
  PseudoHeaderChecksum (gso_proto tcp)
    (if v =? 4 then window m (o + 12) 4 else window m (o + 8) 16)
    (if v =? 4 then window m (o + 16) 4 else window m (o + 24) 16) 0.

Lemma packet_ok_intro g v tcp m o l c :
  gso_ok g v tcp -> bytes m -> 0 <= o -> l <= c -> o + c <= Zlen m -> g_HdrLen g < l -> l <= 65535 ->
  packet_ok g v tcp m o l c (tcp_info g tcp m o).1 (tcp_info g tcp m o).2 (pseudo_base v tcp m o).
Proof.
  intros Hok Bm Ho Hlc Hz Hl Hl65. unfold pseudo_base.
  set (src := if v =? 4 then window m (o + 12) 4 else _). set (dst := if v =? 4 then window m (o + 16) 4 else _).
  assert (bytes src /\ bytes dst) as [Bs Bd] by (subst src dst; destruct (v =? 4); auto with gobytes).
  assert (is_u8 (gso_proto tcp)) as Hp8 by (destruct tcp; unfold gso_proto, ipProtoTCP, ipProtoUDP; lia).
  split; try done; try lia.
  { unfold tcp_info. destruct tcp; (split; [|done]); cbn [fst snd]; [by apply bytes_byte_at|lia]. }
  split; [apply PseudoHeaderChecksum_range; done || lia|].
  pose proof (PseudoHeaderChecksum_OC (gso_proto tcp) src dst 0 Bs Bd Hp8 ltac:(lia)) as HOC.
  apply OC_cong_eq in HOC. rewrite HOC. apply cong_refl_eq. subst src dst. lia.
Qed.

(** Every test passes and the loop is entered. *)
Lemma GSOSplit_loop g v tcp st m o l c ki outBufs outOffset :
  gso_ok g v tcp -> arrays st !! ki = Some m -> 0 <= o -> l <= c -> Z.shiftr (byte_at m o) 4 = v ->
  g_HdrLen g + g_GSOSize g <= l -> l <= 65535 ->
  GSOSplit (BSlice ki (Slice o l c)) g outBufs outOffset st
  = split_loop (BSlice ki (Slice o l c)) g v (gso_proto tcp) (tcp_info g tcp m o).1 (tcp_info g tcp m o).2
      (pseudo_base v tcp m o) outOffset outBufs 0 (g_HdrLen g) st.
Proof.
  intros Hok Hki Ho Hlc Hver HG Hl65.
  destruct (gso_bounds g v tcp Hok) as (Hcs & [Hco0 Hco] & _ & _). pose proof (go_size _ _ _ Hok) as HG0.
  pose proof (go_hl _ _ _ Hok) as Hhl. pose proof (go_ip _ _ _ Hok) as Hip.
  unfold GSOSplit. cbn [b_sl sl_len b_arr].
  replace (l <=? _) with false by lia. replace (l <? g_HdrLen g) with false by lia.
  replace (l - g_HdrLen g <? g_GSOSize g) with false by lia. replace (g_HdrLen g <? _) with false by lia.
  destruct (go_type_cases _ _ _ Hok) as (T1 & T2 & T3 & T4). rewrite T1, T2. cbn [orb].
  rewrite (obind_ok _ _ _ _ _ (on_read ki _ st m _ Hki (runs_idx o l c 0 m ltac:(lia) ltac:(lia)))).
  rewrite Z.add_0_r, Hver, T3, T4.
  replace (l <? (if v =? 4 then 20 else 40)) with false by (destruct (v =? 4); lia).
  replace (negb (negb tcp) && (l <? g_CsumStart g + 20)) with false by (destruct tcp; cbn [negb andb]; lia).
  rewrite negb_involutive. fold (gso_proto tcp).
  rewrite (obind_ok _ _ st (tcp_info g tcp m o) st).
  2: { unfold tcp_info. destruct tcp; [|done]. eapply on_read; [exact Hki|]. unfold tcpFlagsOffset.
       rewrite (u16_small (g_CsumStart g + 4)), (u16_small (g_CsumStart g + 13)) by lia.
       eapply runs_eq; [go_run|by rewrite !Z.add_assoc|done]. }
  rewrite (obind_ok _ _ st (pseudo_base v tcp m o) st); [done|]. eapply on_read; [exact Hki|].
  unfold ipv4SrcAddrOffset, ipv6SrcAddrOffset, pseudo_base.
  destruct (v =? 4); (eapply runs_eq; [go_run|reflexivity|reflexivity]).
Qed.

(** C7: GSOSplit on a packet larger than one segment makes ceil(payload /
    GSOSize) packets (or reports ErrTooManySegments after filling every
    buffer).  Segment k has the packet's headers with its own length, IPv4
    identification, sequence number advanced by k times GSOSize, FIN and PSH
    only on the last one, a valid IPv4 header checksum and a valid transport
    checksum; the data of the segments in order is the payload.  This holds
    also when the input is the first output buffer. *)
Theorem GSOSplit_segments g v tcp st m o l c ki outBufs outOffset :
  gso_ok g v tcp -> arrays st !! ki = Some m -> bytes m -> 0 <= o -> l <= c -> o + c <= Zlen m ->
  Z.shiftr (byte_at m o) 4 = v -> g_HdrLen g + g_GSOSize g <= l -> l <= 65535 -> 0 <= outOffset ->
  Forall (out_ok g (arrays st) outOffset) outBufs -> outs_ok o ki 0 outOffset outBufs ->
  Zlen outBufs <= Zlen (sizes st) ->
  let n := nsegs g l in
  exists st', GSOSplit (BSlice ki (Slice o l c)) g outBufs outOffset st
      = Ok (if n <=? Zlen outBufs then (n, None) else (Zlen outBufs - 1, Some ErrTooManySegments), st') /\
    (forall k b, outBufs !! k = Some b -> Z.of_nat k < n ->
       let q := Z.of_nat k in
       byte_at (sizes st') q = g_HdrLen g + seg_len g l q /\
       exists a, arrays st' !! b_arr b = Some a /\
         segment g v tcp m o a (sl_off (b_sl b) + outOffset) q (seg_len g l q) (is_last g l q)) /\
    concat (map (fun k => window m (o + g_HdrLen g + k * g_GSOSize g) (seg_len g l k)) (seqZ 0 n))
      = window m (o + g_HdrLen g) (l - g_HdrLen g).
Proof.
  intros Hok Hki Bm Ho Hlc Hz Hver HG Hl65 Hout Hoks Hos Hsz n.
  pose proof (go_size _ _ _ Hok) as HG0.
  assert (0 <= n) as Hn0 by (apply Z.div_pos; lia).
  pose proof (packet_ok_intro g v tcp m o l c Hok Bm Ho Hlc Hz ltac:(lia) Hl65) as Hpk.
  rewrite (GSOSplit_loop g v tcp st m o l c ki outBufs outOffset) by done.
  destruct (loop_ok g v tcp Hok m o l c ki _ _ _ Hpk outOffset outBufs 0 st m) as (st' & Hrun & Hseg & _);
    try done; try lia.
  exists st'. rewrite Z.mul_0_l, Z.add_0_r in Hrun. split; [exact Hrun|]. split; [exact Hseg|].
  rewrite (segments_data g v tcp Hok m o l c _ _ _ Hpk) by lia.
  f_equal. pose proof (nsegs_lt g v tcp Hok l n Hn0) as Hn. subst n. lia.
Qed.
End GSO.

(** A 100-byte TCP packet with 60 bytes of data, cut at 25 bytes, in place. *)
Definition sample_gso : list Z :=
  [69;0;0;100; 18;52;64;0; 64;6;0;0; 10;0;0;1; 10;0;0;2;
   0;80;156;64; 0;0;3;232; 0;0;0;1; 80;25;16;0; 0;0;0;0] ++ map Z.of_nat (seq 1 60).
Definition sample_store : store :=
  mkStore [sample_gso ++ repeat 0 28; repeat 255 128; repeat 7 128] [0; 0; 0].
Definition sample_outs : list bslice :=
  [BSlice 0 (Slice 0 128 128); BSlice 1 (Slice 0 128 128); BSlice 2 (Slice 0 128 128)].

Lemma GSOSplit_segments_witness :
  exists st', @GSOSplit (tschecksum.ts_impl false 64) (BSlice 0 (Slice 0 100 128)) (mkGSO GSOTCPv4 40 20 16 25 true)
      sample_outs 0 sample_store = Ok ((3, None), st') /\ byte_at (sizes st') 2 = 50.
Proof.
  destruct (@GSOSplit_segments (tschecksum.ts_impl false 64) (mkGSO GSOTCPv4 40 20 16 25 true) 4 true sample_store
    (sample_gso ++ repeat 0 28) 0 100 128 0 sample_outs 0) as (st' & Hrun & Hseg & _);
    try (vm_compute; congruence).
  - split; cbn; try lia. done.
  - concrete.
  - repeat (constructor; [eexists; split; [reflexivity|]; split; [concrete|]; vm_compute; repeat split; congruence|]). constructor.
  - split; [refine (bool_decide_unpack (NoDup _) _); vm_compute; exact I|].
    intros k b Hk Hb. destruct k as [|[|[|k]]]; cbn in Hk; simplify_eq; done.
  - exists st'. split; [exact Hrun|]. destruct (Hseg 2%nat (BSlice 2 (Slice 0 128 128)) eq_refl ltac:(vm_compute; done)) as [E _].
    exact E.
Defined.
