(* ===== verification/Virtio.v ===== *)
(** * The virtio header in front of a packet

    [virtioNetHdr] of tun_offload_linux.go is written and read through an
    unsafe byte view, so its 16-bit fields are in the byte order of the machine
    ([IsBigEndian]); [handleVirtioRead] of tun_linux.go turns a buffer read from
    the device into segments.  The VIRTIO constants are those of
    golang.org/x/sys/unix: parameters, of which only their distinctness matters. *)
From S2P Require Import Prelude Bytes GoMem Checksum TsChecksum HdrChecksum UDP Offload.

Class UnixVirtio := {
  VIRTIO_NET_HDR_GSO_NONE : Z;
  VIRTIO_NET_HDR_GSO_TCPV4 : Z;
  VIRTIO_NET_HDR_GSO_TCPV6 : Z;
  VIRTIO_NET_HDR_GSO_UDP_L4 : Z;
  VIRTIO_NET_HDR_F_NEEDS_CSUM : Z;
  virtio_distinct : NoDup [VIRTIO_NET_HDR_GSO_NONE; VIRTIO_NET_HDR_GSO_TCPV4; VIRTIO_NET_HDR_GSO_TCPV6; VIRTIO_NET_HDR_GSO_UDP_L4];
  virtio_u8 : Forall (fun x => is_u8 x) [VIRTIO_NET_HDR_GSO_NONE; VIRTIO_NET_HDR_GSO_TCPV4; VIRTIO_NET_HDR_GSO_TCPV6;
    VIRTIO_NET_HDR_GSO_UDP_L4; VIRTIO_NET_HDR_F_NEEDS_CSUM];
  needs_csum_pos : 0 < VIRTIO_NET_HDR_F_NEEDS_CSUM
}.

Record virtioNetHdr := mkVirtio {
  vh_flags : Z;
  vh_gsoType : Z;
  vh_hdrLen : Z;
  vh_gsoSize : Z;
  vh_csumStart : Z;
  vh_csumOffset : Z
}.
(** [virtioNetHdr{}] *)
Definition zero_hdr : virtioNetHdr := mkVirtio 0 0 0 0 0 0.

Definition virtioNetHdrLen : Z := 10.

Section Virtio.
Context `{UnixVirtio} (IsBigEndian : bool).

Definition host16 (b : list Z) (i : Z) : Z :=
  if IsBigEndian then byte_at b i * 256 + byte_at b (i + 1) else byte_at b (i + 1) * 256 + byte_at b i.
Definition host_bytes (v : Z) : list Z :=
  if IsBigEndian then [v / 256; v mod 256] else [v mod 256; v / 256].

(** The header as the bytes of the struct. *)
Definition hdr_bytes (h : virtioNetHdr) : list Z :=
  [vh_flags h; vh_gsoType h] ++ host_bytes (vh_hdrLen h) ++ host_bytes (vh_gsoSize h) ++
  host_bytes (vh_csumStart h) ++ host_bytes (vh_csumOffset h).
Definition hdr_of_bytes (b : list Z) : virtioNetHdr :=
  mkVirtio (byte_at b 0) (byte_at b 1) (host16 b 2) (host16 b 4) (host16 b 6) (host16 b 8).

Definition decode (b : slice) : M (gso_error + virtioNetHdr) :=
  if sl_len b <? virtioNetHdrLen then ret (inl ErrShortBuffer)
  else s <- reslice b 0 virtioNetHdrLen ;; d <- contents s ;; ret (inr (hdr_of_bytes d)).

Definition encode (v : virtioNetHdr) (b : slice) : M (option gso_error) :=
  if sl_len b <? virtioNetHdrLen then ret (Some ErrShortBuffer)
  else s <- reslice b 0 virtioNetHdrLen ;; copy_to s (hdr_bytes v) ;;; ret None.

Definition toGSOOptions (v : virtioNetHdr) : gso_error + GSOOptions :=
  let mk t := inr (mkGSO t (vh_hdrLen v) (vh_csumStart v) (vh_csumOffset v) (vh_gsoSize v)
                     (negb (Z.land (vh_flags v) VIRTIO_NET_HDR_F_NEEDS_CSUM =? 0))) in
  if vh_gsoType v =? VIRTIO_NET_HDR_GSO_NONE then mk GSONone
  else if vh_gsoType v =? VIRTIO_NET_HDR_GSO_TCPV4 then mk GSOTCPv4
  else if vh_gsoType v =? VIRTIO_NET_HDR_GSO_TCPV6 then mk GSOTCPv6
  else if vh_gsoType v =? VIRTIO_NET_HDR_GSO_UDP_L4 then mk GSOUDPL4
  else inl (ErrUnsupportedGSO (vh_gsoType v)).

Definition with_HdrLen (g : GSOOptions) (n : Z) : GSOOptions :=
  mkGSO (g_GSOType g) n (g_CsumStart g) (g_CsumOffset g) (g_GSOSize g) (g_NeedsCsum g).

Context `{ChecksumImpl}.

(** Lines 138-155: the header length is not taken from the kernel. *)
Definition fix_HdrLen (inp : slice) (options : GSOOptions) : M (gso_error + GSOOptions) :=
  if bool_decide (g_GSOType options = GSOUDPL4) then
    ret (inr (with_HdrLen options (u16 (g_CsumStart options + 8))))
  else if negb (bool_decide (g_GSOType options = GSONone)) then
    if sl_len inp <=? u16 (g_CsumStart options + 12) then ret (inl ErrTooShort)
    else
      b <- idx inp (u16 (g_CsumStart options + 12)) ;;
      let tcpHLen := u8 (Z.shiftr b 4 * 4) in
      if (tcpHLen <? 20) || (60 <? tcpHLen) then ret (inl (ErrTCPHeaderLen tcpHLen))
      else ret (inr (with_HdrLen options (u16 (g_CsumStart options + tcpHLen))))
  else ret (inr options).

Definition handleVirtioRead (input : bslice) (bufs : list bslice) (offset : Z) : OM (Z * option gso_error) :=
  hdr <=- on (b_arr input) (decode (b_sl input)) ;;
  match hdr with
  | inl e => oret (0, Some e)
  | inr hdr =>
      inp <=- on (b_arr input) (tail (b_sl input) virtioNetHdrLen) ;;
      match toGSOOptions hdr with
      | inl e => oret (0, Some e)
      | inr options =>
          fixed <=- on (b_arr input) (fix_HdrLen inp options) ;;
          match fixed with
          | inl e => oret (0, Some e)
          | inr options => GSOSplit (BSlice (b_arr input) inp) options bufs offset
          end
      end
  end.

(** ** Round trip *)

Record hdr_ok (h : virtioNetHdr) : Prop := {
  ho_flags : is_u8 (vh_flags h);
  ho_type : is_u8 (vh_gsoType h);
  ho_words : is_u16 (vh_hdrLen h) /\ is_u16 (vh_gsoSize h) /\ is_u16 (vh_csumStart h) /\ is_u16 (vh_csumOffset h)
}.

Lemma Zlen_hdr_bytes h : Zlen (hdr_bytes h) = 10.
Proof. unfold hdr_bytes, host_bytes. by destruct IsBigEndian. Qed.
Lemma bytes_hdr_bytes h : hdr_ok h -> bytes (hdr_bytes h).
Proof.
  intros [Hf Ht (H1 & H2 & H3 & H4)]. unfold hdr_bytes, host_bytes.
  destruct IsBigEndian; repeat (constructor; [zdm|]); constructor.
Qed.
Lemma hdr_of_bytes_hdr_bytes h : hdr_of_bytes (hdr_bytes h) = h.
Proof.
  destruct h as [f t a b c d]. unfold hdr_of_bytes, hdr_bytes, host16, host_bytes, byte_at. cbn [vh_flags vh_gsoType vh_hdrLen vh_gsoSize vh_csumStart vh_csumOffset].
  destruct IsBigEndian; simpl; f_equal; try done; zdm.
Qed.

Lemma runs_decode o l c m h :
  0 <= o -> 10 <= l -> l <= c -> o + c <= Zlen m -> window m o 10 = hdr_bytes h -> runs (decode (Slice o l c)) m (inr h) m.
Proof.
  intros Ho Hl Hc Hz Hw. unfold decode, virtioNetHdrLen. cbn [sl_len]. replace (l <? 10) with false by lia.
  eapply runs_eq; [go_run| |done]. rewrite Z.add_0_r, Z.sub_0_r, Hw. by rewrite hdr_of_bytes_hdr_bytes.
Qed.
Lemma runs_encode o l c m h :
  10 <= l -> l <= c -> runs (encode h (Slice o l c)) m None (write_at m o (hdr_bytes h)).
Proof.
  intros Hl Hc. unfold encode, virtioNetHdrLen. cbn [sl_len]. replace (l <? 10) with false by lia.
  eapply runs_bind; [apply runs_reslice; lia|]. cbn beta.
  eapply runs_bind; [apply runs_copy_to; rewrite Zlen_hdr_bytes; lia|]. rewrite Z.add_0_r. done.
Qed.

(** The header of a packet to be split: its type, and any header length. *)
Definition hdr_for (g : GSOOptions) (hdrLen : Z) : virtioNetHdr :=
  mkVirtio (if g_NeedsCsum g then VIRTIO_NET_HDR_F_NEEDS_CSUM else 0)
    (match g_GSOType g with
     | GSONone => VIRTIO_NET_HDR_GSO_NONE
     | GSOTCPv4 => VIRTIO_NET_HDR_GSO_TCPV4
     | GSOTCPv6 => VIRTIO_NET_HDR_GSO_TCPV6
     | GSOUDPL4 => VIRTIO_NET_HDR_GSO_UDP_L4
     end) hdrLen (g_GSOSize g) (g_CsumStart g) (g_CsumOffset g).

Lemma toGSOOptions_hdr_for g n : toGSOOptions (hdr_for g n) = inr (with_HdrLen g n).
Proof.
  pose proof virtio_distinct as Hd. repeat rewrite NoDup_cons in Hd. destruct Hd as (D1 & D2 & D3 & D4 & _).
  rewrite !elem_of_cons in D1. rewrite !elem_of_cons in D2. rewrite elem_of_cons in D3. pose proof needs_csum_pos as Hpos.
  unfold toGSOOptions, hdr_for, with_HdrLen. destruct g as [t hl cs co sz nc].
  cbn [vh_flags vh_gsoType vh_hdrLen vh_gsoSize vh_csumStart vh_csumOffset g_GSOType g_HdrLen g_CsumStart g_CsumOffset g_GSOSize g_NeedsCsum].
  assert (negb (Z.land (if nc then VIRTIO_NET_HDR_F_NEEDS_CSUM else 0) VIRTIO_NET_HDR_F_NEEDS_CSUM =? 0) = nc) as ->
    by (destruct nc; [rewrite Z.land_diag; lia|done]).
  destruct t; rewrite ?Z.eqb_refl; repeat (case Z.eqb_spec; intros); try done; exfalso; naive_solver.
Qed.

Lemma runs_fix_HdrLen g v tcp o l c m n :
  gso_ok g v tcp -> 0 <= o -> l <= c -> o + c <= Zlen m -> g_HdrLen g <= l -> l <= 65535 -> bytes m ->
  (tcp = true -> g_HdrLen g = g_CsumStart g + Z.shiftr (byte_at m (o + g_CsumStart g + 12)) 4 * 4) ->
  runs (fix_HdrLen (Slice o l c) (with_HdrLen g n)) m (inr g) m.
Proof.
  intros Hok Ho Hlc Hz HL Hl65 Bm Hdoff. destruct (gso_bounds g v tcp Hok) as (Hcs & [Hco0 Hco] & _ & _).
  destruct (go_type_cases g v tcp Hok) as (T1 & T2 & _ & _). pose proof (go_hl _ _ _ Hok) as Hhl.
  unfold fix_HdrLen, with_HdrLen. cbn [g_GSOType g_CsumStart g_HdrLen g_CsumOffset g_GSOSize g_NeedsCsum sl_len].
  rewrite T1, T2. destruct g as [t hl cs co sz nc]. cbn [g_GSOType g_CsumStart g_HdrLen g_CsumOffset g_GSOSize g_NeedsCsum] in *.
  destruct tcp; cbn [negb].
  - rewrite (u16_small (cs + 12)) by lia. replace (l <=? cs + 12) with false by lia.
    eapply runs_bind; [apply runs_idx; lia|]. cbn beta. rewrite Z.add_assoc.
    specialize (Hdoff eq_refl). pose proof (bytes_byte_at m (o + cs + 12) Bm) as Hb.
    rewrite Z.shiftr_div_pow2 in * by lia. change (2 ^ 4) with 16 in *.
    rewrite u8_small by zdm. replace (_ || _) with false by zdm. rewrite u16_small by lia. rewrite Hdoff. done.
  - destruct Hhl as [-> ->]. rewrite u16_small by lia. done.
Qed.

(** Whatever header length the kernel (or encode) puts into the virtio
    header, handleVirtioRead decodes the fields that encode wrote, finds the
    header length from the TCP data offset, and splits the packet behind the
    virtio header exactly as GSOSplit does with the true options; a buffer
    shorter than the virtio header is refused. *)
Lemma handleVirtioRead_GSOSplit g v tcp hdrLen st m ki o l c bufs offset :
  gso_ok g v tcp -> is_u16 hdrLen -> arrays st !! ki = Some m -> bytes m -> 10 <= o -> l <= c -> o + c <= Zlen m ->
  g_HdrLen g <= l -> l <= 65535 -> g_GSOSize g <= 65535 ->
  (tcp = true -> g_HdrLen g = g_CsumStart g + Z.shiftr (byte_at m (o + g_CsumStart g + 12)) 4 * 4) ->
  let buffer := Slice (o - 10) (l + 10) (c + 10) in
  (exists m' st', on ki (encode (hdr_for g hdrLen) buffer) st = Ok (None, st') /\
     arrays st' = <[ki := m']> (arrays st) /\ bytes m' /\ window m' o l = window m o l /\
     handleVirtioRead (BSlice ki buffer) bufs offset st' = GSOSplit (BSlice ki (Slice o l c)) g bufs offset st') /\
  (forall l', 0 <= l' < 10 ->
     handleVirtioRead (BSlice ki (Slice (o - 10) l' (c + 10))) bufs offset st = Ok ((0, Some ErrShortBuffer), st)).
Proof.
  intros Hok Hhl Hki Bm Ho Hlc Hz HL Hl65 Hsz Hdoff buffer.
  destruct (gso_bounds g v tcp Hok) as (Hcs & [Hco0 Hco] & _ & _). pose proof (go_size _ _ _ Hok) as HG.
  pose proof virtio_u8 as Hu. repeat rewrite Forall_cons in Hu. destruct Hu as (U1 & U2 & U3 & U4 & U5 & _).
  assert (hdr_ok (hdr_for g hdrLen)) as Hh.
  { split; cbn; [by destruct (g_NeedsCsum g)|by destruct (g_GSOType g)|lia]. }
  split.
  - set (m' := write_at m (o - 10) (hdr_bytes (hdr_for g hdrLen))).
    set (st' := mkStore (<[ki := m']> (arrays st)) (sizes st)). exists m', st'.
    assert (Zlen m' = Zlen m) as Hz' by apply Zlen_write_at.
    assert (bytes m') as B' by (apply bytes_write_at; [done|by apply bytes_hdr_bytes]).
    assert (<[ki:=m']> (arrays st) !! ki = Some m') as Hki'
      by (apply list_lookup_insert_eq; by eapply lookup_lt_Some).
    split; [apply on_ok with m; [done|apply runs_encode; lia]|]. split; [done|]. split; [done|].
    split; [apply window_write_at_out; rewrite ?Zlen_hdr_bytes; lia|].
    unfold handleVirtioRead. cbn [b_arr b_sl].
    rewrite (obind_ok _ _ st' (inr (hdr_for g hdrLen)) st').
    2: { eapply on_read; [exact Hki'|]. apply runs_decode; try lia.
         apply window_write_at_eq'; rewrite ?Zlen_hdr_bytes; lia. }
    rewrite (obind_ok _ _ st' (Slice o l c) st').
    2: { eapply on_read; [exact Hki'|]. unfold virtioNetHdrLen. eapply runs_eq; [apply runs_tail; lia| |done]. f_equal; lia. }
    rewrite toGSOOptions_hdr_for. rewrite (obind_ok _ _ st' (inr g) st'); [done|].
    eapply on_read; [exact Hki'|]. apply (runs_fix_HdrLen g v tcp); try done; try lia.
    intros E. rewrite Hdoff by done. subst m'.
    rewrite byte_at_write_at_out by (rewrite ?Zlen_hdr_bytes; lia). done.
  - intros l' Hl'. unfold handleVirtioRead. cbn [b_arr b_sl].
    rewrite (obind_ok _ _ st (inl ErrShortBuffer) st); [done|]. eapply on_read; [exact Hki|].
    unfold decode, virtioNetHdrLen. cbn [sl_len]. by replace (l' <? 10) with true by lia.
Qed.
End Virtio.

(** The values of Linux. *)
Definition linux_virtio : UnixVirtio.
Proof.
  refine {| VIRTIO_NET_HDR_GSO_NONE := 0; VIRTIO_NET_HDR_GSO_TCPV4 := 1; VIRTIO_NET_HDR_GSO_TCPV6 := 4;
            VIRTIO_NET_HDR_GSO_UDP_L4 := 5; VIRTIO_NET_HDR_F_NEEDS_CSUM := 1 |}.
  - refine (bool_decide_unpack (NoDup _) _); vm_compute; exact I.
  - repeat constructor; lia.
  - lia.
Defined.

Lemma handleVirtioRead_GSOSplit_witness :
  exists m' st', on 0 (@encode false (hdr_for (H := linux_virtio) (mkGSO GSOTCPv4 40 20 16 25 true) 100) (Slice 0 110 128))
      (mkStore [repeat 0 10 ++ sample_gso ++ repeat 0 18; repeat 0 128] [0; 0]) = Ok (None, st') /\
    window m' 10 100 = sample_gso /\
    @handleVirtioRead linux_virtio false (tschecksum.ts_impl false 64) (BSlice 0 (Slice 0 110 128)) [BSlice 1 (Slice 0 128 128)] 0 st'
    = @GSOSplit (tschecksum.ts_impl false 64) (BSlice 0 (Slice 10 100 118)) (mkGSO GSOTCPv4 40 20 16 25 true)
        [BSlice 1 (Slice 0 128 128)] 0 st'.
Proof.
  destruct (@handleVirtioRead_GSOSplit linux_virtio false (tschecksum.ts_impl false 64) (mkGSO GSOTCPv4 40 20 16 25 true) 4 true 100
    (mkStore [repeat 0 10 ++ sample_gso ++ repeat 0 18; repeat 0 128] [0; 0]) (repeat 0 10 ++ sample_gso ++ repeat 0 18)
    0 10 100 118 [BSlice 1 (Slice 0 128 128)] 0) as [(m' & st' & He & _ & _ & Hw & Hr) _];
    try (lazymatch goal with |- exists _, _ => fail | |- gso_ok _ _ _ => fail | |- bytes _ => fail | _ => vm_compute; congruence end).
  - split; cbn; try lia. done.
  - vm_compute; split; congruence.
  - concrete.
  - exists m', st'. split; [exact He|]. split; [rewrite Hw; vm_compute; reflexivity|exact Hr].
Defined.
