(* ===== verification/Gro.v ===== *)
(** * tun_offload_linux.go: coalescing packets before they are written (GRO)

    [handleGRO] looks at a batch of packets, appends the payload of a packet to
    that of an earlier packet of the same flow where TCP sequence numbers (or,
    for UDP, order) allow it, and finally gives every packet that is written a
    virtio header and adjusted IP and transport headers.  The state is the
    store of arrays, the vector [bufs] of slices (which the code extends and
    swaps), the two flow tables and the list of indices to write.

    A flow table keeps its items in slices taken from a pool; [itemsPool] is the
    number of slices left.  The slice that [lookupOrInsert] returns shares its
    array with the table, but the loop over it goes downwards and only changes
    entries at or above the current one, so a copy of the list is the same. *)
From S2P Require Import Prelude Bytes GoMem Checksum TsChecksum Tcpip HdrChecksum UDP Offload Virtio.

Definition idealBatchSize : nat := 128.
Definition maxUint16 : Z := 65535.
Definition udphLen : Z := 8.
Definition ipv4FlagMoreFragments : Z := 32.
Definition tcpFlagACK : Z := 16.

(** ** Flow keys, items and tables *)

Record tcpFlowKey := mkTCPKey {
  tk_srcAddr : list Z;
  tk_dstAddr : list Z;
  tk_srcPort : Z;
  tk_dstPort : Z;
  tk_rxAck : Z;
  tk_isV6 : bool
}.
#[global] Instance tcpFlowKey_eq_dec : EqDecision tcpFlowKey.
Proof. solve_decision. Defined.
#[global] Instance tcpFlowKey_countable : Countable tcpFlowKey.
Proof.
  refine (inj_countable' (fun k => (tk_srcAddr k, tk_dstAddr k, tk_srcPort k, tk_dstPort k, tk_rxAck k, tk_isV6 k))
    (fun '(a, b, c, d, e, f) => mkTCPKey a b c d e f) _).
  by intros [].
Defined.

Record tcpGROItem := mkTCPItem {
  ti_key : tcpFlowKey;
  ti_sentSeq : Z;
  ti_bufsIndex : Z;
  ti_numMerged : Z;
  ti_gsoSize : Z;
  ti_iphLen : Z;
  ti_tcphLen : Z;
  ti_pshSet : bool
}.

Record udpFlowKey := mkUDPKey {
  uk_srcAddr : list Z;
  uk_dstAddr : list Z;
  uk_srcPort : Z;
  uk_dstPort : Z;
  uk_isV6 : bool
}.
#[global] Instance udpFlowKey_eq_dec : EqDecision udpFlowKey.
Proof. solve_decision. Defined.
#[global] Instance udpFlowKey_countable : Countable udpFlowKey.
Proof.
  refine (inj_countable' (fun k => (uk_srcAddr k, uk_dstAddr k, uk_srcPort k, uk_dstPort k, uk_isV6 k))
    (fun '(a, b, c, d, e) => mkUDPKey a b c d e) _).
  by intros [].
Defined.

Record udpGROItem := mkUDPItem {
  ui_key : udpFlowKey;
  ui_bufsIndex : Z;
  ui_numMerged : Z;
  ui_gsoSize : Z;
  ui_iphLen : Z;
  ui_cSumKnownInvalid : bool
}.

(** Both tables have the same shape. *)
Record groTable (K I : Type) `{Countable K} := mkTable { itemsByFlow : gmap K (list I); itemsPool : nat }.
Arguments mkTable {K I _ _} itemsByFlow itemsPool.
Arguments itemsByFlow {K I _ _} g.
Arguments itemsPool {K I _ _} g.
Definition tcpGROTable : Type := groTable tcpFlowKey tcpGROItem.
Definition udpGROTable : Type := groTable udpFlowKey udpGROItem.
Definition newTCPGROTable : tcpGROTable := mkTable ∅ idealBatchSize.
Definition newUDPGROTable : udpGROTable := mkTable ∅ idealBatchSize.

Section Table.
Context {K I : Type} `{Countable K}.

(** [newItems] indexes the last slice of the pool: it panics when there is
    none. *)
Definition insert_item (t : groTable K I) (key : K) (item : I) : res (groTable K I) :=
  match itemsByFlow t !! key with
  | Some items => Ok (mkTable (<[key := items ++ [item]]> (itemsByFlow t)) (itemsPool t))
  | None =>
      match itemsPool t with
      | O => Panic
      | S n => Ok (mkTable (<[key := [item]]> (itemsByFlow t)) n)
      end
  end.
(** [items[i] = item] on the slice the table holds. *)
Definition updateAt (t : groTable K I) (key : K) (item : I) (i : nat) : res (groTable K I) :=
  let items := default [] (itemsByFlow t !! key) in
  if decide (i < length items)%nat
  then Ok (mkTable (<[key := <[i := item]> items]> (itemsByFlow t)) (itemsPool t)) else Panic.
Definition deleteAt (t : groTable K I) (key : K) (i : nat) : res (groTable K I) :=
  let items := default [] (itemsByFlow t !! key) in
  if decide (i < length items)%nat
  then Ok (mkTable (<[key := delete i items]> (itemsByFlow t)) (itemsPool t)) else Panic.
Definition reset (t : groTable K I) : groTable K I :=
  mkTable ∅ (itemsPool t + size (itemsByFlow t))%nat.
End Table.

(** ** The state *)

Record gro := mkGro {
  gr_arrays : list (list Z);
  gr_bufs : list bslice;
  gr_tcp : tcpGROTable;
  gr_udp : udpGROTable;
  gr_toWrite : list Z
}.

Definition GM (A : Type) : Type := gro -> res (A * gro).
Definition gret {A} (a : A) : GM A := fun st => Ok (a, st).
Definition gbind {A B} (c : GM A) (k : A -> GM B) : GM B :=
  fun st => match c st with Ok (a, st') => k a st' | Panic => Panic end.
Notation "x <-- c ;; k" := (gbind c (fun x => k)) (at level 100, c at next level, right associativity) : go_scope.

(** [bufs[i]] *)
Definition buf_at (i : Z) : GM bslice := fun st =>
  if 0 <=? i then match gr_bufs st !! Z.to_nat i with Some b => Ok (b, st) | None => Panic end else Panic.
(** [bufs[i] = b] *)
Definition set_buf (i : Z) (b : bslice) : GM unit := fun st =>
  if (0 <=? i) && (i <? Zlen (gr_bufs st))
  then Ok (tt, mkGro (gr_arrays st) (<[Z.to_nat i := b]> (gr_bufs st)) (gr_tcp st) (gr_udp st) (gr_toWrite st))
  else Panic.
(** Packet code on the array of a slice. *)
Definition at_slice {A} (b : bslice) (c : slice -> M A) : GM A := fun st =>
  match gr_arrays st !! b_arr b with
  | None => Panic
  | Some m =>
      match c (b_sl b) m with
      | Ok (a, m') => Ok (a, mkGro (<[b_arr b := m']> (gr_arrays st)) (gr_bufs st) (gr_tcp st) (gr_udp st) (gr_toWrite st))
      | Panic => Panic
      end
  end.
Definition get_tcp : GM tcpGROTable := fun st => Ok (gr_tcp st, st).
Definition set_tcp (t : res tcpGROTable) : GM unit := fun st =>
  match t with
  | Ok t => Ok (tt, mkGro (gr_arrays st) (gr_bufs st) t (gr_udp st) (gr_toWrite st))
  | Panic => Panic
  end.
Definition get_udp : GM udpGROTable := fun st => Ok (gr_udp st, st).
Definition set_udp (t : res udpGROTable) : GM unit := fun st =>
  match t with
  | Ok t => Ok (tt, mkGro (gr_arrays st) (gr_bufs st) (gr_tcp st) t (gr_toWrite st))
  | Panic => Panic
  end.
Definition push_toWrite (i : Z) : GM unit := fun st =>
  Ok (tt, mkGro (gr_arrays st) (gr_bufs st) (gr_tcp st) (gr_udp st) (gr_toWrite st ++ [i])).
Definition num_bufs : GM Z := fun st => Ok (Zlen (gr_bufs st), st).

(** [s[lo:]] and [s[lo:hi]] of a slice of the store. *)
Definition btail (b : bslice) (lo : Z) : GM bslice :=
  s <-- at_slice b (fun s => tail s lo) ;; gret (BSlice (b_arr b) s).
Definition breslice (b : bslice) (lo hi : Z) : GM bslice :=
  s <-- at_slice b (fun s => reslice s lo hi) ;; gret (BSlice (b_arr b) s).
Definition bcontents (b : bslice) : GM (list Z) := at_slice b contents.
Definition blen (b : bslice) : Z := sl_len (b_sl b).

(** ** Flow keys *)

(** [copy(key.srcAddr[:], ...)] into a zeroed [16]byte: [tcpip.pad16]. *)
Definition key_addrs (pkt : slice) (srcAddrOffset dstAddrOffset : Z) : M (list Z * list Z) :=
  let addrSize := dstAddrOffset - srcAddrOffset in
  s <- reslice pkt srcAddrOffset dstAddrOffset ;; src <- contents s ;;
  s <- reslice pkt dstAddrOffset (dstAddrOffset + addrSize) ;; dst <- contents s ;;
  ret (tcpip.pad16 src, tcpip.pad16 dst).

Definition newTCPFlowKey (pkt : slice) (srcAddrOffset dstAddrOffset tcphOffset : Z) : M tcpFlowKey :=
  a <- key_addrs pkt srcAddrOffset dstAddrOffset ;;
  s <- tail pkt tcphOffset ;; sp <- Uint16 s ;;
  s <- tail pkt (tcphOffset + 2) ;; dp <- Uint16 s ;;
  s <- tail pkt (tcphOffset + 8) ;; ack <- Uint32 s ;;
  ret (mkTCPKey a.1 a.2 sp dp ack (dstAddrOffset - srcAddrOffset =? 16)).

Definition newUDPFlowKey (pkt : slice) (srcAddrOffset dstAddrOffset udphOffset : Z) : M udpFlowKey :=
  a <- key_addrs pkt srcAddrOffset dstAddrOffset ;;
  s <- tail pkt udphOffset ;; sp <- Uint16 s ;;
  s <- tail pkt (udphOffset + 2) ;; dp <- Uint16 s ;;
  ret (mkUDPKey a.1 a.2 sp dp (dstAddrOffset - srcAddrOffset =? 16)).

Definition new_tcp_item (key : tcpFlowKey) (pkt : slice) (tcphOffset tcphLen bufsIndex : Z) : M tcpGROItem :=
  p <- tail pkt (tcphOffset + tcphLen) ;;
  s <- tail pkt (tcphOffset + 4) ;; seq <- Uint32 s ;;
  f <- idx pkt (tcphOffset + tcpFlagsOffset) ;;
  ret (mkTCPItem key seq (u16 bufsIndex) 0 (u16 (sl_len p)) (u8 tcphOffset) (u8 tcphLen) (negb (Z.land f tcpFlagPSH =? 0))).

Definition new_udp_item (key : udpFlowKey) (pkt : slice) (udphOffset bufsIndex : Z) (cSumKnownInvalid : bool) : M udpGROItem :=
  p <- tail pkt (udphOffset + udphLen) ;;
  ret (mkUDPItem key (u16 bufsIndex) 0 (u16 (sl_len p)) (u8 udphOffset) cSumKnownInvalid).

Definition tcp_insert (key : tcpFlowKey) (pkt : bslice) (tcphOffset tcphLen bufsIndex : Z) : GM unit :=
  item <-- at_slice pkt (fun s => new_tcp_item key s tcphOffset tcphLen bufsIndex) ;;
  t <-- get_tcp ;; set_tcp (insert_item t key item).
Definition udp_insert (key : udpFlowKey) (pkt : bslice) (udphOffset bufsIndex : Z) (inv : bool) : GM unit :=
  item <-- at_slice pkt (fun s => new_udp_item key s udphOffset bufsIndex inv) ;;
  t <-- get_udp ;; set_udp (insert_item t key item).

Definition tcp_lookupOrInsert (pkt : bslice) (srcAddrOffset dstAddrOffset tcphOffset tcphLen bufsIndex : Z)
    : GM (option (list tcpGROItem)) :=
  key <-- at_slice pkt (fun s => newTCPFlowKey s srcAddrOffset dstAddrOffset tcphOffset) ;;
  t <-- get_tcp ;;
  match itemsByFlow t !! key with
  | Some items => gret (Some items)
  | None => _ <-- tcp_insert key pkt tcphOffset tcphLen bufsIndex ;; gret None
  end.
Definition udp_lookupOrInsert (pkt : bslice) (srcAddrOffset dstAddrOffset udphOffset bufsIndex : Z)
    : GM (option (list udpGROItem)) :=
  key <-- at_slice pkt (fun s => newUDPFlowKey s srcAddrOffset dstAddrOffset udphOffset) ;;
  t <-- get_udp ;;
  match itemsByFlow t !! key with
  | Some items => gret (Some items)
  | None => _ <-- udp_insert key pkt udphOffset bufsIndex false ;; gret None
  end.

(** ** Which packets can be coalesced *)

Inductive canCoalesce := coalescePrepend | coalesceUnavailable | coalesceAppend.

(** On the contents of the two packets; after the length test every index is in
    range. *)
Definition ipHeadersCanCoalesce (pktA pktB : list Z) : bool :=
  if (Zlen pktA <? 9) || (Zlen pktB <? 9) then false
  else if Z.shiftr (byte_at pktA 0) 4 =? 6 then
    if negb (byte_at pktA 0 =? byte_at pktB 0) || negb (Z.shiftr (byte_at pktA 1) 4 =? Z.shiftr (byte_at pktB 1) 4) then false
    else if negb (byte_at pktA 7 =? byte_at pktB 7) then false
    else true
  else if negb (byte_at pktA 1 =? byte_at pktB 1) then false
  else if negb (Z.shiftr (byte_at pktA 6) 5 =? Z.shiftr (byte_at pktB 6) 5) then false
  else if negb (byte_at pktA 8 =? byte_at pktB 8) then false
  else true.

Definition gpanic {A} : GM A := fun _ => Panic.
(** [a % b]: division by zero panics. *)
Definition gmod (a b : Z) : GM Z := if b =? 0 then gpanic else gret (a mod b).

Definition udpPacketsCanCoalesce (pkt : bslice) (iphLen gsoSize : Z) (item : udpGROItem) (bufsOffset : Z) : GM canCoalesce :=
  b <-- buf_at (ui_bufsIndex item) ;;
  pktTarget <-- btail b bufsOffset ;;
  p <-- bcontents pkt ;; t <-- bcontents pktTarget ;;
  if negb (ipHeadersCanCoalesce p t) then gret coalesceUnavailable
  else
    d <-- btail pktTarget (u8 (iphLen + udphLen)) ;;
    r <-- gmod (blen d) (ui_gsoSize item) ;;
    if negb (r =? 0) then gret coalesceUnavailable
    else if ui_gsoSize item <? gsoSize then gret coalesceUnavailable
    else gret coalesceAppend.

Definition tcpPacketsCanCoalesce (pkt : bslice) (iphLen tcphLen seq : Z) (pshSet : bool) (gsoSize : Z)
    (item : tcpGROItem) (bufsOffset : Z) : GM canCoalesce :=
  b <-- buf_at (ti_bufsIndex item) ;;
  pktTarget <-- btail b bufsOffset ;;
  if negb (tcphLen =? ti_tcphLen item) then gret coalesceUnavailable
  else
    same <-- (if 20 <? tcphLen then
                o1 <-- breslice pkt (u8 (iphLen + 20)) (u8 (iphLen + tcphLen)) ;; c1 <-- bcontents o1 ;;
                o2 <-- breslice pktTarget (u8 (ti_iphLen item + 20)) (u8 (iphLen + tcphLen)) ;; c2 <-- bcontents o2 ;;
                gret (bool_decide (c1 = c2))
              else gret true) ;;
    if negb same then gret coalesceUnavailable
    else
      p <-- bcontents pkt ;; t <-- bcontents pktTarget ;;
      if negb (ipHeadersCanCoalesce p t) then gret coalesceUnavailable
      else
        let lhsLen := u16 (ti_gsoSize item + u16 (ti_numMerged item * ti_gsoSize item)) in
        if seq =? u32 (ti_sentSeq item + lhsLen) then
          if ti_pshSet item then gret coalesceUnavailable
          else
            d <-- btail pktTarget (u8 (iphLen + tcphLen)) ;;
            r <-- gmod (blen d) (ti_gsoSize item) ;;
            if negb (r =? 0) then gret coalesceUnavailable
            else if ti_gsoSize item <? gsoSize then gret coalesceUnavailable
            else gret coalesceAppend
        else if u32 (seq + gsoSize) =? ti_sentSeq item then
          if pshSet then gret coalesceUnavailable
          else if gsoSize <? ti_gsoSize item then gret coalesceUnavailable
          else if (ti_gsoSize item <? gsoSize) && (0 <? ti_numMerged item) then gret coalesceUnavailable
          else gret coalescePrepend
        else gret coalesceUnavailable.

(** ** Coalescing *)

Inductive coalesceResult :=
| coalesceInsufficientCap | coalescePSHEnding | coalesceItemInvalidCSum | coalescePktInvalidCSum | coalesceSuccess.

Section Coalesce.
Context `{ChecksumImpl}.

Definition checksumValid (pkt : slice) (iphLen proto : Z) (isV6 : bool) : M bool :=
  let srcAddrAt := if isV6 then ipv6SrcAddrOffset else ipv4SrcAddrOffset in
  let addrSize := if isV6 then 16 else 4 in
  let lenForPseudo := u16 (sl_len pkt - iphLen) in
  s <- reslice pkt srcAddrAt (srcAddrAt + addrSize) ;; src <- contents s ;;
  s <- reslice pkt (srcAddrAt + addrSize) (srcAddrAt + addrSize * 2) ;; dst <- contents s ;;
  let cSum := PseudoHeaderChecksum proto src dst lenForPseudo in
  s <- tail pkt iphLen ;; d <- contents s ;;
  ret (not16 (Checksum d cSum) =? 0).

(** [skip || checksumValid(...)]; the call is only made when needed. *)
Definition csum_ok (skip : bool) (pkt : bslice) (iphLen proto : Z) (isV6 : bool) : GM bool :=
  if skip then gret true else at_slice pkt (fun s => checksumValid s iphLen proto isV6).

(** [b := bufs[i]; bufs[i] = b[:len(b)+extendBy]] *)
Definition extend_buf (i extendBy : Z) : GM unit :=
  b <-- buf_at i ;; b' <-- breslice b 0 (blen b + extendBy) ;; set_buf i b'.
(** [copy(bufs[i][at:], src)] *)
Definition copy_into (i at_ : Z) (src : list Z) : GM unit :=
  b <-- buf_at i ;; d <-- btail b at_ ;; _n <-- at_slice d (fun s => copy_to s src) ;; gret tt.

Definition coalesceUDPPackets (pkt : bslice) (item : udpGROItem) (bufsOffset : Z) (isV6 skipChecksumValidation : bool)
    : GM (coalesceResult * udpGROItem) :=
  b <-- buf_at (ui_bufsIndex item) ;;
  pktHead <-- btail b bufsOffset ;;
  let headersLen := u8 (ui_iphLen item + udphLen) in
  let coalescedLen := blen pktHead + blen pkt - headersLen in
  if sl_cap (b_sl pktHead) - bufsOffset <? coalescedLen then gret (coalesceInsufficientCap, item)
  else
    itemOk <-- (if ui_numMerged item =? 0 then
                  if ui_cSumKnownInvalid item then gret false
                  else
                    x <-- at_slice pktHead (fun s => s <- tail s (u8 (ui_iphLen item + 6)) ;; Uint16 s) ;;
                    if x =? 0 then gret false
                    else csum_ok skipChecksumValidation pktHead (ui_iphLen item) ipProtoUDP isV6
                else gret true) ;;
    if negb itemOk then gret (coalesceItemInvalidCSum, item)
    else
      x <-- at_slice pkt (fun s => s <- tail s (u8 (ui_iphLen item + 6)) ;; Uint16 s) ;;
      pktOk <-- (if x =? 0 then gret false else csum_ok skipChecksumValidation pkt (ui_iphLen item) ipProtoUDP isV6) ;;
      if negb pktOk then gret (coalescePktInvalidCSum, item)
      else
        _ <-- extend_buf (ui_bufsIndex item) (blen pkt - headersLen) ;;
        src <-- btail pkt headersLen ;; data <-- bcontents src ;;
        _ <-- copy_into (ui_bufsIndex item) (bufsOffset + blen pktHead) data ;;
        gret (coalesceSuccess,
              mkUDPItem (ui_key item) (ui_bufsIndex item) (u16 (ui_numMerged item + 1)) (ui_gsoSize item) (ui_iphLen item)
                (ui_cSumKnownInvalid item)).

(** The item after a merge (lines 489, 514 and 523-527). *)
Definition merged_item (item : tcpGROItem) (sentSeq gsoSize : Z) (pshSet : bool) : tcpGROItem :=
  mkTCPItem (ti_key item) sentSeq (ti_bufsIndex item) (u16 (ti_numMerged item + 1))
    (if ti_gsoSize item <? gsoSize then gsoSize else ti_gsoSize item) (ti_iphLen item) (ti_tcphLen item) pshSet.

Definition coalesceTCPPackets (prepend : bool) (pkt : bslice) (pktBuffsIndex gsoSize seq : Z) (pshSet : bool)
    (item : tcpGROItem) (bufsOffset : Z) (isV6 skipChecksumValidation : bool) : GM (coalesceResult * tcpGROItem) :=
  let headersLen := u8 (ti_iphLen item + ti_tcphLen item) in
  b <-- buf_at (ti_bufsIndex item) ;;
  target <-- btail b bufsOffset ;;
  let coalescedLen := blen target + blen pkt - headersLen in
  let itemCheck := if ti_numMerged item =? 0 then csum_ok skipChecksumValidation target (ti_iphLen item) ipProtoTCP isV6
                   else gret true in
  if prepend then
    if sl_cap (b_sl pkt) - bufsOffset <? coalescedLen then gret (coalesceInsufficientCap, item)
    else if pshSet then gret (coalescePSHEnding, item)
    else
      itemOk <-- itemCheck ;;
      if negb itemOk then gret (coalesceItemInvalidCSum, item)
      else
        pktOk <-- csum_ok skipChecksumValidation pkt (ti_iphLen item) ipProtoTCP isV6 ;;
        if negb pktOk then gret (coalescePktInvalidCSum, item)
        else
          _ <-- extend_buf pktBuffsIndex (coalescedLen - blen pkt) ;;
          bi <-- buf_at (ti_bufsIndex item) ;; src <-- btail bi (bufsOffset + headersLen) ;; data <-- bcontents src ;;
          _ <-- copy_into pktBuffsIndex (bufsOffset + blen pkt) data ;;
          bp <-- buf_at pktBuffsIndex ;; bi <-- buf_at (ti_bufsIndex item) ;;
          _ <-- set_buf (ti_bufsIndex item) bp ;; _ <-- set_buf pktBuffsIndex bi ;;
          gret (coalesceSuccess, merged_item item seq gsoSize (ti_pshSet item))
  else
    if sl_cap (b_sl target) - bufsOffset <? coalescedLen then gret (coalesceInsufficientCap, item)
    else
      itemOk <-- itemCheck ;;
      if negb itemOk then gret (coalesceItemInvalidCSum, item)
      else
        pktOk <-- csum_ok skipChecksumValidation pkt (ti_iphLen item) ipProtoTCP isV6 ;;
        if negb pktOk then gret (coalescePktInvalidCSum, item)
        else
          _ <-- (if pshSet then
                   at_slice target (fun s =>
                     f <- idx s (u8 (ti_iphLen item + tcpFlagsOffset)) ;;
                     set_idx s (u8 (ti_iphLen item + tcpFlagsOffset)) (Z.lor f tcpFlagPSH))
                 else gret tt) ;;
          _ <-- extend_buf (ti_bufsIndex item) (blen pkt - headersLen) ;;
          src <-- btail pkt headersLen ;; data <-- bcontents src ;;
          _ <-- copy_into (ti_bufsIndex item) (bufsOffset + blen target) data ;;
          gret (coalesceSuccess, merged_item item (ti_sentSeq item) gsoSize (pshSet || ti_pshSet item)).
End Coalesce.

(** ** GRO of one packet *)

Inductive groResult := groResultNoop | groResultTableInsert | groResultCoalesced.

(** The tests both protocols make on the IP header: the header length, when the
    packet passes them. *)
Definition gro_ip (pkt : slice) (isV6 : bool) : M (option Z) :=
  if maxUint16 <? sl_len pkt then ret None
  else
    b0 <- idx pkt 0 ;;
    let iphLen := if isV6 then 40 else u8 (Z.land b0 15 * 4) in
    lenOk <- (if isV6 then
                s <- tail pkt 4 ;; n <- Uint16 s ;; ret (n =? sl_len pkt - iphLen)
              else
                s <- tail pkt 2 ;; n <- Uint16 s ;; ret (n =? sl_len pkt)) ;;
    if negb lenOk then ret None
    else if sl_len pkt <? iphLen then ret None
    else ret (Some iphLen).
Definition gro_fragment (pkt : slice) (isV6 : bool) : M bool :=
  if isV6 then ret false
  else
    b6 <- idx pkt 6 ;;
    b7 <- (if negb (Z.land b6 ipv4FlagMoreFragments =? 0) || negb (u8 (Z.shiftl b6 3) =? 0) then ret 1 else idx pkt 7) ;;
    ret (negb (Z.land b6 ipv4FlagMoreFragments =? 0) || negb (u8 (Z.shiftl b6 3) =? 0) || negb (b7 =? 0)).

Record tcp_candidate := mkCand { cd_iphLen : Z; cd_tcphLen : Z; cd_seq : Z; cd_psh : bool; cd_gsoSize : Z }.
(** Lines 553-601 of [tcpGRO]. *)
Definition tcp_check (pkt : slice) (isV6 : bool) : M (option tcp_candidate) :=
  r <- gro_ip pkt isV6 ;;
  match r with
  | None => ret None
  | Some iphLen =>
      b <- idx pkt (iphLen + 12) ;;
      let tcphLen := u8 (Z.shiftr b 4 * 4) in
      if (tcphLen <? 20) || (60 <? tcphLen) then ret None
      else if sl_len pkt <? iphLen + tcphLen then ret None
      else
        frag <- gro_fragment pkt isV6 ;;
        if (frag : bool) then ret None
        else
          tcpFlags <- idx pkt (iphLen + tcpFlagsOffset) ;;
          if negb (tcpFlags =? tcpFlagACK) && negb (tcpFlags =? Z.lor tcpFlagACK tcpFlagPSH) then ret None
          else
            let gsoSize := u16 (sl_len pkt - tcphLen - iphLen) in
            if gsoSize <? 1 then ret None
            else
              s <- tail pkt (iphLen + 4) ;; seq <- Uint32 s ;;
              ret (Some (mkCand iphLen tcphLen seq (negb (tcpFlags =? tcpFlagACK)) gsoSize))
  end.
(** Lines 838-872 of [udpGRO]. *)
Definition udp_check (pkt : slice) (isV6 : bool) : M (option (Z * Z)) :=
  r <- gro_ip pkt isV6 ;;
  match r with
  | None => ret None
  | Some iphLen =>
      if sl_len pkt <? iphLen + udphLen then ret None
      else
        frag <- gro_fragment pkt isV6 ;;
        if (frag : bool) then ret None
        else
          let gsoSize := u16 (sl_len pkt - udphLen - iphLen) in
          if gsoSize <? 1 then ret None else ret (Some (iphLen, gsoSize))
  end.

Section GRO.
Context `{ChecksumImpl}.

(** The loop over the items of the flow, from the last one down; [None] when
    no item took the packet. *)
Fixpoint tcp_items (n : nat) (items : list tcpGROItem) (pkt : bslice) (pktI : Z) (cd : tcp_candidate) (offset : Z)
    (isV6 skip : bool) : GM (option groResult) :=
  match n with
  | O => gret None
  | S i =>
      match items !! i with
      | None => gpanic
      | Some item =>
          can <-- tcpPacketsCanCoalesce pkt (u8 (cd_iphLen cd)) (u8 (cd_tcphLen cd)) (cd_seq cd) (cd_psh cd) (cd_gsoSize cd) item offset ;;
          let next := tcp_items i items pkt pktI cd offset isV6 skip in
          match can with
          | coalesceUnavailable => next
          | _ =>
              r <-- coalesceTCPPackets (match can with coalescePrepend => true | _ => false end)
                      pkt pktI (cd_gsoSize cd) (cd_seq cd) (cd_psh cd) item offset isV6 skip ;;
              match r.1 with
              | coalesceSuccess =>
                  t <-- get_tcp ;; _ <-- set_tcp (updateAt t (ti_key r.2) r.2 i) ;; gret (Some groResultCoalesced)
              | coalesceItemInvalidCSum =>
                  t <-- get_tcp ;; _ <-- set_tcp (deleteAt t (ti_key r.2) i) ;; next
              | coalescePktInvalidCSum => gret (Some groResultNoop)
              | _ => next
              end
          end
      end
  end.

Definition tcpGRO (offset pktI : Z) (isV6 skipChecksumValidation : bool) : GM groResult :=
  b <-- buf_at pktI ;;
  pkt <-- btail b offset ;;
  cand <-- at_slice pkt (fun s => tcp_check s isV6) ;;
  match cand with
  | None => gret groResultNoop
  | Some cd =>
      let srcAddrOffset := if isV6 then ipv6SrcAddrOffset else ipv4SrcAddrOffset in
      let addrLen := if isV6 then 16 else 4 in
      n <-- num_bufs ;;
      if n =? 1 then gret groResultNoop
      else
        items <-- tcp_lookupOrInsert pkt srcAddrOffset (srcAddrOffset + addrLen) (cd_iphLen cd) (cd_tcphLen cd) pktI ;;
        match items with
        | None => gret groResultTableInsert
        | Some items =>
            r <-- tcp_items (length items) items pkt pktI cd offset isV6 skipChecksumValidation ;;
            match r with
            | Some r => gret r
            | None =>
                key <-- at_slice pkt (fun s => newTCPFlowKey s srcAddrOffset (srcAddrOffset + addrLen) (cd_iphLen cd)) ;;
                _ <-- tcp_insert key pkt (cd_iphLen cd) (cd_tcphLen cd) pktI ;;
                gret groResultTableInsert
            end
        end
  end.

Definition udpGRO (offset pktI : Z) (isV6 skipChecksumValidation : bool) : GM groResult :=
  b <-- buf_at pktI ;;
  pkt <-- btail b offset ;;
  cand <-- at_slice pkt (fun s => udp_check s isV6) ;;
  match cand with
  | None => gret groResultNoop
  | Some (iphLen, gsoSize) =>
      let srcAddrOffset := if isV6 then ipv6SrcAddrOffset else ipv4SrcAddrOffset in
      let addrLen := if isV6 then 16 else 4 in
      n <-- num_bufs ;;
      if n =? 1 then gret groResultNoop
      else
        items <-- udp_lookupOrInsert pkt srcAddrOffset (srcAddrOffset + addrLen) iphLen pktI ;;
        match items with
        | None => gret groResultTableInsert
        | Some items =>
            match last items with
            | None => gpanic
            | Some item =>
                let insert_new (inv : bool) : GM groResult :=
                  key <-- at_slice pkt (fun s => newUDPFlowKey s srcAddrOffset (srcAddrOffset + addrLen) iphLen) ;;
                  _ <-- udp_insert key pkt iphLen pktI inv ;; gret groResultTableInsert in
                can <-- udpPacketsCanCoalesce pkt (u8 iphLen) gsoSize item offset ;;
                match can with
                | coalesceAppend =>
                    r <-- coalesceUDPPackets pkt item offset isV6 skipChecksumValidation ;;
                    match r.1 with
                    | coalesceSuccess =>
                        t <-- get_udp ;; _ <-- set_udp (updateAt t (ui_key r.2) r.2 (length items - 1)) ;; gret groResultCoalesced
                    | coalescePktInvalidCSum => insert_new true
                    | _ => insert_new false
                    end
                | _ => insert_new false
                end
            end
        end
  end.

(** ** Accounting *)

(** The part both protocols share: the IP header of the merged packet. *)
Definition account_ip (pkt : slice) (iphLen : Z) (isV6 : bool) : M unit :=
  if isV6 then s <- tail pkt 4 ;; PutUint16 s (u16 (u16 (sl_len pkt) - iphLen))
  else
    set_idx pkt 10 0 ;;; set_idx pkt 11 0 ;;;
    s <- tail pkt 2 ;; PutUint16 s (u16 (sl_len pkt)) ;;;
    h <- reslice pkt 0 iphLen ;; d <- contents h ;;
    s <- tail pkt 10 ;; PutUint16 s (not16 (Checksum d 0)).
(** The pseudo-header sum goes into the transport checksum field. *)
Definition account_csum (buf pkt : slice) (offset iphLen proto csumAt : Z) (isV6 : bool) : M unit :=
  let addrLen := if isV6 then 16 else 4 in
  let addrOffset := if isV6 then ipv6SrcAddrOffset else ipv4SrcAddrOffset in
  let srcAddrAt := offset + addrOffset in
  s <- reslice buf srcAddrAt (srcAddrAt + addrLen) ;; src <- contents s ;;
  s <- reslice buf (srcAddrAt + addrLen) (srcAddrAt + addrLen * 2) ;; dst <- contents s ;;
  let psum := PseudoHeaderChecksum proto src dst (u16 (sl_len pkt - iphLen)) in
  s <- tail pkt csumAt ;; PutUint16 s (Checksum [] psum).

Context `{UnixVirtio} (IsBigEndian : bool).

Definition account_tcp (item : tcpGROItem) (offset : Z) : GM (option gso_error) :=
  b <-- buf_at (ti_bufsIndex item) ;;
  at_slice b (fun buf =>
    if 0 <? ti_numMerged item then
      let isV6 := tk_isV6 (ti_key item) in
      let hdr := mkVirtio VIRTIO_NET_HDR_F_NEEDS_CSUM
                   (if isV6 then VIRTIO_NET_HDR_GSO_TCPV6 else VIRTIO_NET_HDR_GSO_TCPV4)
                   (u8 (ti_iphLen item + ti_tcphLen item)) (ti_gsoSize item) (ti_iphLen item) 16 in
      pkt <- tail buf offset ;;
      account_ip pkt (ti_iphLen item) isV6 ;;;
      h <- tail buf (offset - virtioNetHdrLen) ;; err <- encode IsBigEndian hdr h ;;
      match err with
      | Some e => ret (Some e)
      | None => account_csum buf pkt offset (ti_iphLen item) ipProtoTCP (u16 (ti_iphLen item + 16)) isV6 ;;; ret None
      end
    else h <- tail buf (offset - virtioNetHdrLen) ;; encode IsBigEndian zero_hdr h).

Definition account_udp (item : udpGROItem) (offset : Z) : GM (option gso_error) :=
  b <-- buf_at (ui_bufsIndex item) ;;
  at_slice b (fun buf =>
    if 0 <? ui_numMerged item then
      let isV6 := uk_isV6 (ui_key item) in
      let hdr := mkVirtio VIRTIO_NET_HDR_F_NEEDS_CSUM VIRTIO_NET_HDR_GSO_UDP_L4
                   (u8 (ui_iphLen item + udphLen)) (ui_gsoSize item) (ui_iphLen item) 6 in
      pkt <- tail buf offset ;;
      account_ip pkt (ui_iphLen item) isV6 ;;;
      h <- tail buf (offset - virtioNetHdrLen) ;; err <- encode IsBigEndian hdr h ;;
      match err with
      | Some e => ret (Some e)
      | None =>
          u <- tail pkt (ui_iphLen item) ;;
          s <- tail pkt (u8 (ui_iphLen item + 4)) ;; PutUint16 s (u16 (sl_len u)) ;;;
          account_csum buf pkt offset (ui_iphLen item) ipProtoUDP (u16 (ui_iphLen item + 6)) isV6 ;;; ret None
      end
    else h <- tail buf (offset - virtioNetHdrLen) ;; encode IsBigEndian zero_hdr h).

(** Stop at the first error. *)
Fixpoint account_all {I} (account : I -> Z -> GM (option gso_error)) (items : list I) (offset : Z) : GM (option gso_error) :=
  match items with
  | [] => gret None
  | item :: items' =>
      err <-- account item offset ;;
      match err with Some e => gret (Some e) | None => account_all account items' offset end
  end.

(** Go ranges over a map in any order: [tcp_range] and [udp_range] list the
    flows of a table. *)
Context (tcp_range : gmap tcpFlowKey (list tcpGROItem) -> list (tcpFlowKey * list tcpGROItem)).
Context (udp_range : gmap udpFlowKey (list udpGROItem) -> list (udpFlowKey * list udpGROItem)).

Definition applyTCPCoalesceAccounting (offset : Z) : GM (option gso_error) :=
  t <-- get_tcp ;; account_all account_tcp (concat (map snd (tcp_range (itemsByFlow t)))) offset.
Definition applyUDPCoalesceAccounting (offset : Z) : GM (option gso_error) :=
  t <-- get_udp ;; account_all account_udp (concat (map snd (udp_range (itemsByFlow t)))) offset.

(** ** handleGRO *)

Inductive groCandidateType := notGROCandidate | tcp4GROCandidate | tcp6GROCandidate | udp4GROCandidate | udp6GROCandidate.

(** [groDisablementFlags] *)
Definition tcpGRODisabled : Z := 1.
Definition udpGRODisabled : Z := 2.
Definition disableTCPGRO (g : Z) : Z := Z.lor g tcpGRODisabled.
Definition canTCPGRO (g : Z) : bool := Z.land g tcpGRODisabled =? 0.
Definition disableUDPGRO (g : Z) : Z := Z.lor g udpGRODisabled.
Definition canUDPGRO (g : Z) : bool := Z.land g udpGRODisabled =? 0.

Definition packetIsGROCandidate (b : list Z) (gro : Z) : groCandidateType :=
  if Zlen b <? 28 then notGROCandidate
  else if Z.shiftr (byte_at b 0) 4 =? 4 then
    if negb (Z.land (byte_at b 0) 15 =? 5) then notGROCandidate
    else if (byte_at b 9 =? ipProtoTCP) && (40 <=? Zlen b) && canTCPGRO gro then tcp4GROCandidate
    else if (byte_at b 9 =? ipProtoUDP) && canUDPGRO gro then udp4GROCandidate
    else notGROCandidate
  else if Z.shiftr (byte_at b 0) 4 =? 6 then
    if (byte_at b 6 =? ipProtoTCP) && (60 <=? Zlen b) && canTCPGRO gro then tcp6GROCandidate
    else if (byte_at b 6 =? ipProtoUDP) && (48 <=? Zlen b) && canUDPGRO gro then udp6GROCandidate
    else notGROCandidate
  else notGROCandidate.

Inductive gro_error := ErrInvalidOffset | ErrEncode (e : gso_error) | ErrJoin (tcp udp : option gso_error).

(** One packet of the batch. *)
Definition gro_packet (gro : Z) (offset : Z) (skipChecksumValidation : bool) (i : Z) : GM (option gro_error) :=
  b <-- buf_at i ;;
  if (offset <? virtioNetHdrLen) || (blen b - 1 <? offset) then gret (Some ErrInvalidOffset)
  else
    p <-- btail b offset ;; d <-- bcontents p ;;
    result <-- (match packetIsGROCandidate d gro with
                | tcp4GROCandidate => tcpGRO offset i false skipChecksumValidation
                | tcp6GROCandidate => tcpGRO offset i true skipChecksumValidation
                | udp4GROCandidate => udpGRO offset i false skipChecksumValidation
                | udp6GROCandidate => udpGRO offset i true skipChecksumValidation
                | notGROCandidate => gret groResultNoop
                end) ;;
    match result with
    | groResultNoop =>
        b <-- buf_at i ;; h <-- btail b (offset - virtioNetHdrLen) ;;
        err <-- at_slice h (encode IsBigEndian zero_hdr) ;;
        match err with
        | Some e => gret (Some (ErrEncode e))
        | None => _ <-- push_toWrite i ;; gret None
        end
    | groResultTableInsert => _ <-- push_toWrite i ;; gret None
    | groResultCoalesced => gret None
    end.

Fixpoint gro_loop (gro : Z) (offset : Z) (skip : bool) (n : nat) (i : Z) : GM (option gro_error) :=
  match n with
  | O => gret None
  | S n' =>
      err <-- gro_packet gro offset skip i ;;
      match err with Some e => gret (Some e) | None => gro_loop gro offset skip n' (i + 1) end
  end.

Definition handleGRO (offset : Z) (gro : Z) (skipChecksumValidation : bool) : GM (option gro_error) :=
  n <-- num_bufs ;;
  err <-- gro_loop gro offset skipChecksumValidation (Z.to_nat n) 0 ;;
  match err with
  | Some e => gret (Some e)
  | None =>
      errTCP <-- applyTCPCoalesceAccounting offset ;;
      errUDP <-- applyUDPCoalesceAccounting offset ;;
      gret (match errTCP, errUDP with None, None => None | _, _ => Some (ErrJoin errTCP errUDP) end)
  end.
End GRO.
