(* ===== verification/GroSpec.v ===== *)
(** * What GRO must preserve

    The specification of [handleGRO]: every packet of the batch ends up, with
    its whole payload, in exactly one of the buffers that are written.  A buffer
    that is written carries a [group] of packets: the headers of the first and
    the payloads of all, where all but the last have the segment size, so that
    segmentation at that size gives back the payloads. *)
From S2P Require Import Prelude Bytes GoMem Checksum TsChecksum Tcpip HdrChecksum UDP Offload Virtio Gro.

(** ** Running GRO code *)

Definition gruns {A} (c : GM A) (st : gro) (a : A) (st' : gro) : Prop := c st = Ok (a, st').

Lemma gruns_ret {A} (a : A) st : gruns (gret a) st a st.
Proof. done. Qed.
Lemma gruns_bind {A B} (c : GM A) (k : A -> GM B) st a st' b st'' :
  gruns c st a st' -> gruns (k a) st' b st'' -> gruns (gbind c k) st b st''.
Proof. unfold gruns, gbind. by intros ->. Qed.

Lemma gruns_bind_inv {A B} (c : GM A) (k : A -> GM B) st b st'' :
  gruns (gbind c k) st b st'' -> exists a st', gruns c st a st' /\ gruns (k a) st' b st''.
Proof. unfold gruns, gbind. destruct (c st) as [[a st']|]; [|done]. intros Hk. by exists a, st'. Qed.
Lemma gruns_det {A} (c : GM A) st a st1 a' st2 : gruns c st a st1 -> gruns c st a' st2 -> st1 = st2.
Proof. unfold gruns. congruence. Qed.

(** Total correctness: the code returns, and [Q] holds of the result. *)
Definition gpost {A} (c : GM A) (st : gro) (Q : A -> gro -> Prop) : Prop := exists a st', gruns c st a st' /\ Q a st'.

Lemma gpost_ret {A} (a : A) st (Q : A -> gro -> Prop) : Q a st -> gpost (gret a) st Q.
Proof. by exists a, st. Qed.
Lemma gpost_step {A B} (c : GM A) (k : A -> GM B) st a st' Q :
  gruns c st a st' -> gpost (k a) st' Q -> gpost (gbind c k) st Q.
Proof. intros Hc (b & st'' & Hk & HQ). exists b, st''. split; [|done]. by eapply gruns_bind. Qed.
Lemma gpost_bind {A B} (c : GM A) (k : A -> GM B) st R Q :
  gpost c st R -> (forall a st', R a st' -> gpost (k a) st' Q) -> gpost (gbind c k) st Q.
Proof. intros (a & st' & Hc & HR) Hk. eapply gpost_step; [exact Hc|by apply Hk]. Qed.
Lemma gpost_mono {A} (c : GM A) st (R Q : A -> gro -> Prop) :
  gpost c st R -> (forall a st', R a st' -> Q a st') -> gpost c st Q.
Proof. intros (a & st' & Hc & HR) HQ. exists a, st'. auto. Qed.

(** The arrays of a state, replaced. *)
Definition with_arrays (st : gro) (arrs : list (list Z)) : gro :=
  mkGro arrs (gr_bufs st) (gr_tcp st) (gr_udp st) (gr_toWrite st).
Definition with_bufs (st : gro) (bufs : list bslice) : gro :=
  mkGro (gr_arrays st) bufs (gr_tcp st) (gr_udp st) (gr_toWrite st).
Definition with_tcp (st : gro) (t : tcpGROTable) : gro :=
  mkGro (gr_arrays st) (gr_bufs st) t (gr_udp st) (gr_toWrite st).
Definition with_udp (st : gro) (t : udpGROTable) : gro :=
  mkGro (gr_arrays st) (gr_bufs st) (gr_tcp st) t (gr_toWrite st).

Lemma gruns_at {A} (b : bslice) (c : slice -> M A) st m a m' :
  gr_arrays st !! b_arr b = Some m -> runs (c (b_sl b)) m a m' ->
  gruns (at_slice b c) st a (with_arrays st (<[b_arr b := m']> (gr_arrays st))).
Proof. unfold gruns, at_slice. by intros -> ->. Qed.
Lemma gruns_read {A} (b : bslice) (c : slice -> M A) st m a :
  gr_arrays st !! b_arr b = Some m -> runs (c (b_sl b)) m a m -> gruns (at_slice b c) st a st.
Proof.
  intros Hb Hc. pose proof (gruns_at b c st m a m Hb Hc) as R. unfold with_arrays in R.
  rewrite list_insert_id in R by done. by destruct st.
Qed.
Lemma gruns_buf_at i b st : 0 <= i -> gr_bufs st !! Z.to_nat i = Some b -> gruns (buf_at i) st b st.
Proof. intros Hi Hb. unfold gruns, buf_at. replace (0 <=? i) with true by lia. by rewrite Hb. Qed.
Lemma gruns_set_buf i b st : 0 <= i < Zlen (gr_bufs st) ->
  gruns (set_buf i b) st tt (with_bufs st (<[Z.to_nat i := b]> (gr_bufs st))).
Proof. intros Hi. unfold gruns, set_buf. by replace (_ && _) with true by lia. Qed.
Lemma gruns_btail b lo st m : gr_arrays st !! b_arr b = Some m ->
  0 <= lo -> lo <= sl_len (b_sl b) -> sl_len (b_sl b) <= sl_cap (b_sl b) ->
  gruns (btail b lo) st
    (BSlice (b_arr b) (Slice (sl_off (b_sl b) + lo) (sl_len (b_sl b) - lo) (sl_cap (b_sl b) - lo))) st.
Proof.
  intros Hm H0 H1 H2. unfold btail. eapply gruns_bind; [|done]. eapply gruns_read; [done|].
  destruct b as [k [o l c]]. by apply runs_tail.
Qed.
Lemma gruns_breslice b lo hi st m : gr_arrays st !! b_arr b = Some m ->
  0 <= lo -> lo <= hi -> hi <= sl_cap (b_sl b) ->
  gruns (breslice b lo hi) st (BSlice (b_arr b) (Slice (sl_off (b_sl b) + lo) (hi - lo) (sl_cap (b_sl b) - lo))) st.
Proof.
  intros Hm H0 H1 H2. unfold breslice. eapply gruns_bind; [|done]. eapply gruns_read; [done|].
  destruct b as [k [o l c]]. by apply runs_reslice.
Qed.
Lemma gruns_bcontents b st m : gr_arrays st !! b_arr b = Some m ->
  gruns (bcontents b) st (window m (sl_off (b_sl b)) (sl_len (b_sl b))) st.
Proof. intros Hm. unfold bcontents. eapply gruns_read; [done|]. destruct b as [k [o l c]]. apply runs_contents. Qed.

(** ** Packets in buffers *)

Section View.
Context (offset : Z).

(** A buffer with a packet at [offset]. *)
Definition buf_ok (arrs : list (list Z)) (b : bslice) (m : list Z) : Prop :=
  arrs !! b_arr b = Some m /\ bytes m /\ 0 <= sl_off (b_sl b) /\ offset < sl_len (b_sl b) /\
  sl_len (b_sl b) <= sl_cap (b_sl b) /\ sl_off (b_sl b) + sl_cap (b_sl b) <= Zlen m /\ sl_cap (b_sl b) <= 65535 + 2 * offset.

(** The packet in a buffer, and the ten bytes in front of it. *)
Definition view (b : bslice) (m : list Z) : list Z := window m (sl_off (b_sl b) + offset) (sl_len (b_sl b) - offset).
Definition vhdr (b : bslice) (m : list Z) : list Z := window m (sl_off (b_sl b) + offset - 10) 10.

Definition packet_slice (b : bslice) : bslice :=
  BSlice (b_arr b) (Slice (sl_off (b_sl b) + offset) (sl_len (b_sl b) - offset) (sl_cap (b_sl b) - offset)).

Hypothesis offset_ok : 10 <= offset.

Lemma Zlen_view arrs b m : buf_ok arrs b m -> Zlen (view b m) = sl_len (b_sl b) - offset.
Proof. intros (_ & _ & H0 & H1 & H2 & H3 & _). apply Zlen_window; lia. Qed.
Lemma bytes_view arrs b m : buf_ok arrs b m -> bytes (view b m).
Proof. intros (_ & Hb & _). by apply bytes_window. Qed.
Lemma gruns_packet st b m : buf_ok (gr_arrays st) b m -> gruns (btail b offset) st (packet_slice b) st.
Proof. intros (Hm & _ & H0 & H1 & H2 & H3 & _). eapply gruns_btail; try done; lia. Qed.
Lemma gruns_view st b m : buf_ok (gr_arrays st) b m -> gruns (bcontents (packet_slice b)) st (view b m) st.
Proof. intros (Hm & _). by apply gruns_bcontents. Qed.

(** Code that only reads the packet. *)
Lemma gruns_packet_read {A} (c : slice -> M A) st b m a :
  buf_ok (gr_arrays st) b m ->
  (forall s l cc, s + cc <= Zlen m -> 0 <= s -> l = sl_len (b_sl b) - offset -> l <= cc ->
     s = sl_off (b_sl b) + offset -> runs (c (Slice s l cc)) m a m) ->
  gruns (at_slice (packet_slice b) c) st a st.
Proof.
  intros (Hm & _ & H0 & H1 & H2 & H3 & _) Hc. eapply gruns_read; [done|]. apply Hc; cbn; lia.
Qed.
End View.

(** ** Candidates *)

Definition iph (v6 : bool) : Z := if v6 then 40 else 20.

(** What [packetIsGROCandidate] guarantees. *)
Definition cand_guard (v6 : bool) (minLen : Z) (C : list Z) : Prop :=
  iph v6 + minLen <= Zlen C /\ (v6 = false -> Z.land (byte_at C 0) 15 = 5).

Lemma candidate_guard C g :
  match packetIsGROCandidate C g with
  | notGROCandidate => True
  | tcp4GROCandidate => cand_guard false 20 C
  | tcp6GROCandidate => cand_guard true 20 C
  | udp4GROCandidate => cand_guard false 8 C
  | udp6GROCandidate => cand_guard true 8 C
  end.
Proof.
  unfold packetIsGROCandidate, cand_guard, iph.
  repeat (case_match; try done); repeat match goal with H : context [_ && _] |- _ => revert H end;
    intros; (split; [lia|intros; lia]).
Qed.

(** A TCP packet that passes the tests of [tcpGRO]. *)
Record is_cand (v6 : bool) (C : list Z) (cd : tcp_candidate) : Prop := {
  ic_iph : cd_iphLen cd = iph v6;
  ic_tcph : 20 <= cd_tcphLen cd <= 60;
  ic_len : iph v6 + cd_tcphLen cd + cd_gsoSize cd = Zlen C /\ Zlen C <= 65535;
  ic_gso : 1 <= cd_gsoSize cd;
  ic_seq : cd_seq cd = get32 C (iph v6 + 4);
  ic_flags : byte_at C (iph v6 + 13) = if cd_psh cd then 24 else 16
}.
(** The same for UDP. *)
Record is_ucand (v6 : bool) (C : list Z) (gsoSize : Z) : Prop := {
  iu_len : iph v6 + 8 + gsoSize = Zlen C /\ Zlen C <= 65535;
  iu_gso : 1 <= gsoSize
}.

Section Check.
Context (m : list Z) (s l cc : Z) (v6 : bool).
Context (Hm : bytes m) (Hs : 0 <= s) (Hl : l <= cc) (Hz : s + cc <= Zlen m) (Hl0 : 0 <= l).
Abbreviation C := (window m s l).
Abbreviation pkt := (Slice s l cc).

Lemma view_byte k : 0 <= k < l -> byte_at m (s + k) = byte_at C k.
Proof. intros. by rewrite byte_at_window by lia. Qed.
Lemma view_get16 k : 0 <= k -> k + 2 <= l -> get16 m (s + k) = get16 C k.
Proof. intros. by rewrite get16_window by lia. Qed.
Lemma view_get32 k : 0 <= k -> k + 4 <= l -> get32 m (s + k) = get32 C k.
Proof. intros. unfold get32. rewrite !get16_window by lia. by rewrite Z.add_assoc. Qed.
Lemma view_len : Zlen C = l.
Proof. apply Zlen_window; lia. Qed.

Lemma gro_ip_ok minLen : cand_guard v6 minLen C -> 0 <= minLen ->
  exists r, runs (gro_ip pkt v6) m r m /\
    match r with None => True | Some n => n = iph v6 /\ l <= 65535 end.
Proof.
  intros [Hg Hb0] Hmin. rewrite view_len in Hg. unfold gro_ip, maxUint16, iph in *. cbn [sl_len].
  destruct (Z.ltb_spec 65535 l) as [Hlt|Hge]; [by exists None|].
  assert ((if v6 then 40 else u8 (Z.land (byte_at m (s + 0)) 15 * 4)) = if v6 then 40 else 20) as E.
  { destruct v6; [done|]. rewrite view_byte by lia. by rewrite Hb0. }
  set (n := if v6 then 40 else 20) in *. assert (20 <= n) as Hn by (subst n; destruct v6; lia).
  assert (exists lenOk, runs (if v6 then s0 <- tail pkt 4 ;; n0 <- Uint16 s0 ;; ret (n0 =? l - n)
            else s0 <- tail pkt 2 ;; n0 <- Uint16 s0 ;; ret (n0 =? l)) m lenOk m) as [lenOk Rl].
  { destruct v6; (eexists; go_run). }
  exists (if negb lenOk then None else if l <? n then None else Some n). split.
  - eapply runs_bind; [apply runs_idx; lia|]. cbn beta zeta. rewrite E.
    eapply runs_bind; [exact Rl|]. cbn beta. destruct lenOk; cbn [negb]; [|done]. by destruct (l <? n).
  - destruct lenOk; cbn [negb]; [|done]. by destruct (l <? n).
Qed.

Lemma gro_fragment_ok : iph v6 <= l -> exists r, runs (gro_fragment pkt v6) m r m.
Proof.
  intros Hg. unfold gro_fragment, iph in *. destruct v6; [by exists false|].
  set (cnd := negb (Z.land (byte_at m (s + 6)) ipv4FlagMoreFragments =? 0) || negb (u8 (Z.shiftl (byte_at m (s + 6)) 3) =? 0)).
  exists (cnd || negb ((if cnd then 1 else byte_at m (s + 7)) =? 0)).
  eapply runs_bind; [apply runs_idx; lia|]. cbn beta. fold cnd.
  eapply runs_bind; [|apply runs_ret]. destruct cnd; [apply runs_ret|]. apply runs_idx; lia.
Qed.

Lemma tcp_check_ok : cand_guard v6 20 C ->
  exists r, runs (tcp_check pkt v6) m r m /\ match r with None => True | Some cd => is_cand v6 C cd end.
Proof.
  intros Hg. destruct (gro_ip_ok 20 Hg ltac:(lia)) as (r & Rr & Hr). destruct Hg as [Hg Hb0]. rewrite view_len in Hg.
  assert (20 <= iph v6) as Hi by (unfold iph; destruct v6; lia).
  destruct r as [n|]; [|exists None; split; [|done]; unfold tcp_check; eapply runs_bind; [exact Rr|done]].
  destruct Hr as [-> Hl65]. destruct (gro_fragment_ok ltac:(lia)) as [fr Rf].
  set (th := u8 (Z.shiftr (byte_at m (s + (iph v6 + 12))) 4 * 4)).
  set (fl := byte_at m (s + (iph v6 + 13))).
  set (cd := mkCand (iph v6) th (get32 m (s + (iph v6 + 4))) (negb (fl =? tcpFlagACK)) (u16 (l - th - iph v6))).
  exists (if (th <? 20) || (60 <? th) then None else if l <? iph v6 + th then None
          else if fr then None else if negb (fl =? tcpFlagACK) && negb (fl =? Z.lor tcpFlagACK tcpFlagPSH) then None
          else if u16 (l - th - iph v6) <? 1 then None else Some cd). split.
  - unfold tcp_check. eapply runs_bind; [exact Rr|]. cbn beta iota.
    eapply runs_bind; [apply runs_idx; lia|]. cbn beta zeta. fold th. cbn [sl_len].
    destruct (_ || _); [done|]. destruct (l <? iph v6 + th); [done|].
    eapply runs_bind; [exact Rf|]. cbn beta. destruct fr; [done|]. unfold tcpFlagsOffset.
    eapply runs_bind; [apply runs_idx; lia|]. cbn beta. fold fl. destruct (_ && _); [done|].
    destruct (u16 _ <? 1); [done|].
    eapply runs_bind; [apply runs_tail; lia|]. cbn beta. eapply runs_bind; [apply runs_Uint32; lia|]. done.
  - destruct ((th <? 20) || (60 <? th)) eqn:E1; [done|]. destruct (Z.ltb_spec l (iph v6 + th)) as [|E2]; [done|].
    destruct fr; [done|]. destruct (negb (fl =? tcpFlagACK) && _) eqn:E3; [done|].
    destruct (Z.ltb_spec (u16 (l - th - iph v6)) 1) as [|E4]; [done|].
    assert (u16 (l - th - iph v6) = l - th - iph v6) as E5 by (apply u16_small; lia).
    assert (fl = byte_at C (iph v6 + 13)) as Efl by (apply view_byte; lia).
    split; cbn [cd cd_iphLen cd_tcphLen cd_seq cd_psh cd_gsoSize]; try done; try lia.
    + rewrite view_len. lia.
    + apply view_get32; lia.
    + rewrite <- Efl. change (Z.lor tcpFlagACK tcpFlagPSH) with 24 in E3. unfold tcpFlagACK in *.
      destruct (Z.eqb_spec fl 16); cbn [negb andb] in *; lia.
Qed.

Lemma udp_check_ok : cand_guard v6 8 C ->
  exists r, runs (udp_check pkt v6) m r m /\
    match r with None => True | Some (n, g) => n = iph v6 /\ is_ucand v6 C g end.
Proof.
  intros Hg. destruct (gro_ip_ok 8 Hg ltac:(lia)) as (r & Rr & Hr). destruct Hg as [Hg Hb0]. rewrite view_len in Hg.
  assert (20 <= iph v6) as Hi by (unfold iph; destruct v6; lia).
  destruct r as [n|]; [|exists None; split; [|done]; unfold udp_check; eapply runs_bind; [exact Rr|done]].
  destruct Hr as [-> Hl65]. destruct (gro_fragment_ok ltac:(lia)) as [fr Rf].
  exists (if l <? iph v6 + udphLen then None else if fr then None
          else if u16 (l - udphLen - iph v6) <? 1 then None else Some (iph v6, u16 (l - udphLen - iph v6))). split.
  - unfold udp_check. eapply runs_bind; [exact Rr|]. cbn beta iota. cbn [sl_len].
    destruct (l <? _); [done|]. eapply runs_bind; [exact Rf|]. cbn beta. destruct fr; [done|]. by destruct (u16 _ <? 1).
  - destruct (l <? _); [done|]. destruct fr; [done|]. destruct (Z.ltb_spec (u16 (l - udphLen - iph v6)) 1) as [|E4]; [done|].
    unfold udphLen in *. assert (u16 (l - 8 - iph v6) = l - 8 - iph v6) as E5 by (apply u16_small; lia).
    split; [done|]. split; [rewrite view_len|]; lia.
Qed.
End Check.
