(* ===== verification/GroBufs.v ===== *)
(** * The buffers of a batch, as packets

    GRO only touches a buffer in a few ways: it appends data to the packet in
    it, sets a byte of a header, writes the virtio header in front of the packet
    or swaps two buffers.  [pks] and [vhs] are the packets and the virtio
    headers of all buffers; each lemma says what an operation does to them, so
    that the proofs about flows need not mention slices and arrays. *)
From S2P Require Import Prelude Bytes GoMem Checksum TsChecksum Tcpip HdrChecksum UDP Offload Virtio Gro GroSpec.

Section Bufs.
Context (offset : Z).
Hypothesis offset_ok : 10 <= offset.

Abbreviation buf_ok := (buf_ok offset).
Abbreviation view := (view offset).
Abbreviation vhdr := (vhdr offset).
Abbreviation packet_slice := (packet_slice offset).

Definition array_of (arrs : list (list Z)) (b : bslice) : list Z := default [] (arrs !! b_arr b).
Definition pks (st : gro) : list (list Z) := (fun b => view b (array_of (gr_arrays st) b)) <$> gr_bufs st.
Definition vhs (st : gro) : list (list Z) := (fun b => vhdr b (array_of (gr_arrays st) b)) <$> gr_bufs st.

(** Every buffer has an array of its own with room for a packet. *)
Definition bufs_ok (st : gro) : Prop :=
  NoDup (b_arr <$> gr_bufs st) /\
  forall j b, gr_bufs st !! j = Some b -> buf_ok (gr_arrays st) b (array_of (gr_arrays st) b).

(** Only the buffers differ. *)
Definition same_tables (st st' : gro) : Prop :=
  gr_tcp st' = gr_tcp st /\ gr_udp st' = gr_udp st /\ gr_toWrite st' = gr_toWrite st.

#[export] Instance same_tables_trans : Transitive same_tables.
Proof. intros a b c (? & ? & ?) (? & ? & ?). repeat split; congruence. Qed.

(** Buffer [j] holds packet [V], with [h] in front. *)
Definition holds (st : gro) (j : Z) (b : bslice) (m V h : list Z) : Prop :=
  0 <= j /\ gr_bufs st !! Z.to_nat j = Some b /\ buf_ok (gr_arrays st) b m /\ m = array_of (gr_arrays st) b /\
  V = view b m /\ h = vhdr b m.

Lemma pks_lookup st j V : bufs_ok st -> 0 <= j -> pks st !! Z.to_nat j = Some V ->
  exists b m h, holds st j b m V h /\ vhs st !! Z.to_nat j = Some h.
Proof.
  intros [_ Hb] Hj HV. unfold pks in HV. apply list_lookup_fmap_Some in HV as (b & -> & Hl).
  exists b, (array_of (gr_arrays st) b), (vhdr b (array_of (gr_arrays st) b)). split.
  - unfold holds. split_and!; try done. by eapply Hb.
  - unfold vhs. rewrite list_lookup_fmap, Hl. done.
Qed.

Lemma bufs_distinct st i j b b' : bufs_ok st ->
  gr_bufs st !! i = Some b -> gr_bufs st !! j = Some b' -> b_arr b = b_arr b' -> i = j.
Proof.
  intros [Hnd _] Hi Hj E. eapply NoDup_lookup; [exact Hnd| |].
  - rewrite list_lookup_fmap, Hi. done.
  - rewrite list_lookup_fmap, Hj. by rewrite E.
Qed.

(** The state after buffer [j] has got slice [b'] and its array contents [m']. *)
Definition put_buf (st : gro) (j : Z) (b' : bslice) (m' : list Z) : gro :=
  with_bufs (with_arrays st (<[b_arr b' := m']> (gr_arrays st))) (<[Z.to_nat j := b']> (gr_bufs st)).

Lemma array_of_put st j b' m' k bk : bufs_ok st -> (exists b, gr_bufs st !! j = Some b /\ b_arr b = b_arr b') ->
  gr_bufs st !! k = Some bk -> k <> j -> array_of (<[b_arr b' := m']> (gr_arrays st)) bk = array_of (gr_arrays st) bk.
Proof.
  intros Hok (b & Hj & E) Hk Hne. unfold array_of. rewrite list_lookup_insert_ne; [done|].
  intros E'. apply Hne. eapply bufs_distinct; try done. congruence.
Qed.

Lemma map_put {A} (f : bslice -> list Z -> A) st j b b' m' :
  bufs_ok st -> 0 <= j -> gr_bufs st !! Z.to_nat j = Some b -> b_arr b = b_arr b' ->
  (b_arr b' < length (gr_arrays st))%nat ->
  (fun b => f b (array_of (gr_arrays (put_buf st j b' m')) b)) <$> gr_bufs (put_buf st j b' m')
  = <[Z.to_nat j := f b' m']> ((fun b => f b (array_of (gr_arrays st) b)) <$> gr_bufs st).
Proof.
  intros Hok Hj Hb E Hlt. cbn [put_buf with_bufs with_arrays gr_arrays gr_bufs].
  apply list_eq. intros k. rewrite list_lookup_fmap. destruct (decide (k = Z.to_nat j)) as [->|Hne].
  - rewrite !list_lookup_insert_eq by (rewrite ?length_fmap; by eapply lookup_lt_Some). cbn. f_equal.
    unfold array_of. rewrite list_lookup_insert_eq by done. done.
  - rewrite !list_lookup_insert_ne by done. rewrite list_lookup_fmap.
    destruct (gr_bufs st !! k) as [bk|] eqn:Hk; [|done]. cbn. do 2 f_equal.
    eapply array_of_put; try done. by eexists.
Qed.

Lemma put_buf_ok st j b m V h b' m' :
  bufs_ok st -> holds st j b m V h -> b_arr b' = b_arr b -> sl_off (b_sl b') = sl_off (b_sl b) ->
  sl_cap (b_sl b') = sl_cap (b_sl b) -> sl_len (b_sl b) <= sl_len (b_sl b') <= sl_cap (b_sl b) ->
  bytes m' -> Zlen m' = Zlen m ->
  bufs_ok (put_buf st j b' m') /\ same_tables st (put_buf st j b' m') /\
  pks (put_buf st j b' m') = <[Z.to_nat j := view b' m']> (pks st) /\
  vhs (put_buf st j b' m') = <[Z.to_nat j := vhdr b' m']> (vhs st).
Proof.
  intros Hok (Hj & Hb & Hbuf & -> & HV & Hh) Earr Eoff Ecap Hlen Bm' Zm'.
  assert (b_arr b' < length (gr_arrays st))%nat as Hlt
    by (destruct Hbuf as (Hm & _); rewrite Earr; by eapply lookup_lt_Some).
  split; [|split; [done|split; by eapply (map_put)]].
  destruct Hok as [Hnd Hall]. split.
  - cbn. rewrite list_fmap_insert. rewrite list_insert_id; [done|]. rewrite list_lookup_fmap, Hb. cbn. by rewrite Earr.
  - intros k bk Hk. cbn [put_buf with_bufs with_arrays gr_arrays gr_bufs] in *.
    destruct (decide (k = Z.to_nat j)) as [->|Hne].
    + rewrite list_lookup_insert_eq in Hk by (by eapply lookup_lt_Some). injection Hk as <-.
      destruct Hbuf as (Hm & _ & H0 & H1 & H2 & H3 & H4). unfold array_of.
      rewrite list_lookup_insert_eq by done. cbn. unfold GroSpec.buf_ok.
      rewrite list_lookup_insert_eq by done. rewrite Eoff, Ecap, Zm'. split_and!; try done; lia.
    + rewrite list_lookup_insert_ne in Hk by done. pose proof (Hall k bk Hk) as Hbk.
      rewrite (array_of_put st (Z.to_nat j) b' m' k bk) by (try done; by eexists).
      destruct Hbk as (Hm & Hr). split; [|exact Hr].
      rewrite list_lookup_insert_ne; [done|]. intros E'. apply Hne. eapply bufs_distinct; try done. congruence.
Qed.

(** Code on the array of buffer [j] that keeps the slice. *)
Lemma put_same st j b m V h m' : holds st j b m V h ->
  with_arrays st (<[b_arr b := m']> (gr_arrays st)) = put_buf st j b m'.
Proof.
  intros (Hj & Hb & _). unfold put_buf, with_bufs, with_arrays. cbn. by rewrite (list_insert_id (gr_bufs st)).
Qed.
Lemma gruns_buf {A} st j b m V h (c : slice -> M A) a m' : holds st j b m V h ->
  runs (c (b_sl b)) m a m' -> gruns (at_slice b c) st a (put_buf st j b m').
Proof.
  intros Hh Hc. rewrite <- (put_same st j b m V h m' Hh). destruct Hh as (_ & _ & (Hm & _) & _). by eapply gruns_at.
Qed.
Lemma gruns_holds st j b m V h : holds st j b m V h -> gruns (buf_at j) st b st.
Proof. intros (Hj & Hb & _). by apply gruns_buf_at. Qed.

(** [bufs[j] = bufs[j][:len+n]], then [copy] of [data] behind the packet. *)
Definition longer (b : bslice) (n : Z) : bslice :=
  BSlice (b_arr b) (Slice (sl_off (b_sl b)) (sl_len (b_sl b) + n) (sl_cap (b_sl b))).

Lemma gruns_extend st j b m V h n : holds st j b m V h -> 0 <= n -> sl_len (b_sl b) + n <= sl_cap (b_sl b) ->
  gruns (extend_buf j n) st tt (with_bufs st (<[Z.to_nat j := longer b n]> (gr_bufs st))).
Proof.
  intros Hh Hn Hcap. pose proof Hh as (Hj & Hb & (Hm & _ & H0 & H1 & _) & _).
  unfold extend_buf, blen. eapply gruns_bind; [by eapply gruns_holds|]. cbn beta.
  eapply gruns_bind; [eapply gruns_breslice; [done|lia|lia|done]|].
  replace (BSlice _ _) with (longer b n) by (unfold longer; repeat f_equal; lia).
  apply gruns_set_buf. apply lookup_lt_Some in Hb. unfold Zlen. lia.
Qed.

Lemma gruns_copy st j b m V h data :
  holds st j b m V h -> bytes data -> sl_len (b_sl b) + Zlen data <= sl_cap (b_sl b) ->
  gruns (copy_into j (offset + Zlen V) data) (with_bufs st (<[Z.to_nat j := longer b (Zlen data)]> (gr_bufs st))) tt
    (put_buf st j (longer b (Zlen data)) (write_at m (sl_off (b_sl b) + sl_len (b_sl b)) data)).
Proof.
  intros Hh Bd Hcap. pose proof Hh as (Hj & Hb & Hbuf & _ & -> & _). rewrite (Zlen_view offset offset_ok _ _ _ Hbuf).
  destruct Hbuf as (Hm & _ & H0 & H1 & H2 & H3 & H4). pose proof (Zlen_nonneg data) as Hd.
  set (st1 := with_bufs st _). unfold copy_into.
  assert (gr_arrays st1 !! b_arr b = Some m) as Hm1 by done.
  eapply gruns_bind; [apply gruns_buf_at; [lia|]; cbn; apply list_lookup_insert_eq; by eapply lookup_lt_Some|]. cbn beta.
  eapply gruns_bind; [eapply gruns_btail; [exact Hm1|..]; cbn; lia|]. cbn beta.
  eapply gruns_bind; [|apply gruns_ret]. unfold put_buf.
  replace (with_bufs _ _) with (with_arrays st1 (<[b_arr b := write_at m (sl_off (b_sl b) + sl_len (b_sl b)) data]> (gr_arrays st1))) by done.
  eapply (gruns_at (BSlice (b_arr b) _)); [exact Hm1|]. cbn. replace (sl_off (b_sl b) + (offset + (sl_len (b_sl b) - offset))) with (sl_off (b_sl b) + sl_len (b_sl b)) by lia.
  apply runs_copy_to; lia.
Qed.

Lemma put_append st j b m V h data : bufs_ok st ->
  holds st j b m V h -> bytes data -> sl_len (b_sl b) + Zlen data <= sl_cap (b_sl b) ->
  let st' := put_buf st j (longer b (Zlen data)) (write_at m (sl_off (b_sl b) + sl_len (b_sl b)) data) in
  bufs_ok st' /\ same_tables st st' /\ pks st' = <[Z.to_nat j := V ++ data]> (pks st) /\ vhs st' = vhs st.
Proof.
  intros Hok Hh Bd Hcap. cbv zeta. pose proof Hh as (Hj & Hb & (Hm & Bm & H0 & H1 & H2 & H3 & H4) & Em & EV & Eh).
  pose proof (Zlen_nonneg data) as Hd. set (m' := write_at _ _ _) in *.
  destruct (put_buf_ok st j b m V h (longer b (Zlen data)) m' Hok Hh) as (Hok' & Hsame & Hp & Hv);
    [done|done|done|cbn; lia|by apply bytes_write_at|apply Zlen_write_at|].
  split; [exact Hok'|split; [exact Hsame|split]].
  - rewrite Hp. f_equal. rewrite EV. unfold GroSpec.view. cbn.
    replace (sl_len (b_sl b) + Zlen data - offset) with (sl_len (b_sl b) - offset + Zlen data) by lia.
    rewrite window_app by lia. subst m'. f_equal.
    + apply window_write_at_out; lia.
    + replace (sl_off (b_sl b) + offset + (sl_len (b_sl b) - offset)) with (sl_off (b_sl b) + sl_len (b_sl b)) by lia.
      apply window_write_at_eq; lia.
  - rewrite Hv. apply list_insert_id. unfold vhs. rewrite list_lookup_fmap, Hb. cbn. f_equal.
    rewrite <- Em. unfold GroSpec.vhdr. cbn. subst m'. symmetry. apply window_write_at_out; lia.
Qed.

(** Writing one byte of the packet. *)
Lemma put_byte st j b m V h k v : bufs_ok st -> holds st j b m V h -> 0 <= k < Zlen V -> is_u8 v ->
  let st' := put_buf st j b (upd m (sl_off (b_sl b) + offset + k) v) in
  bufs_ok st' /\ same_tables st st' /\ pks st' = <[Z.to_nat j := upd V k v]> (pks st) /\ vhs st' = vhs st.
Proof.
  intros Hok Hh Hk Hv. cbv zeta. pose proof Hh as (Hj & Hb & Hbuf & Em & EV & Eh).
  rewrite EV, (Zlen_view offset offset_ok _ _ _ Hbuf) in Hk.
  destruct Hbuf as (Hm & Bm & H0 & H1 & H2 & H3 & H4). set (m' := upd _ _ _) in *.
  destruct (put_buf_ok st j b m V h b m' Hok Hh) as (Hok' & Hsame & Hp & Hvh); try done.
  { by apply bytes_upd. }
  { apply Zlen_upd. }
  split; [exact Hok'|split; [exact Hsame|split]].
  - rewrite Hp, EV. f_equal. unfold GroSpec.view. subst m'. rewrite window_upd_in by lia. f_equal. lia.
  - rewrite Hvh. apply list_insert_id. unfold vhs. rewrite list_lookup_fmap, Hb. cbn. f_equal.
    rewrite <- Em. unfold GroSpec.vhdr. subst m'. symmetry. apply window_upd_out; lia.
Qed.

(** Writing the virtio header and then anything of the packet. *)
Lemma put_head st j b m V h m' V' h' : bufs_ok st -> holds st j b m V h -> bytes m' -> Zlen m' = Zlen m ->
  view b m' = V' -> vhdr b m' = h' ->
  let st' := put_buf st j b m' in
  bufs_ok st' /\ same_tables st st' /\ pks st' = <[Z.to_nat j := V']> (pks st) /\ vhs st' = <[Z.to_nat j := h']> (vhs st).
Proof.
  intros Hok Hh Bm' Zm' EV' Eh'. subst V' h'. apply (put_buf_ok st j b m V h b m' Hok Hh); try done.
  destruct Hh as (_ & _ & (_ & _ & H0 & H1 & H2 & _) & _). lia.
Qed.

(** [bufs[i], bufs[j] = bufs[j], bufs[i]] *)
Lemma swap_ok st i j bi bj : bufs_ok st -> i <> j ->
  gr_bufs st !! i = Some bi -> gr_bufs st !! j = Some bj ->
  let st' := with_bufs st (<[j := bi]> (<[i := bj]> (gr_bufs st))) in
  bufs_ok st' /\ same_tables st st' /\
  (forall V W, pks st !! i = Some V -> pks st !! j = Some W -> pks st' = <[j := V]> (<[i := W]> (pks st))) /\
  (forall V W, vhs st !! i = Some V -> vhs st !! j = Some W -> vhs st' = <[j := V]> (<[i := W]> (vhs st))).
Proof.
  intros Hok Hne Hi Hj. cbv zeta.
  pose proof (lookup_lt_Some _ _ _ Hi) as Hli. pose proof (lookup_lt_Some _ _ _ Hj) as Hlj.
  assert (forall k b, <[j:=bi]> (<[i:=bj]> (gr_bufs st)) !! k = Some b ->
    exists k', gr_bufs st !! k' = Some b /\ k = if decide (k' = i) then j else if decide (k' = j) then i else k') as Hsw.
  { intros k b Hk. destruct (decide (k = j)) as [->|Hkj].
    - rewrite list_lookup_insert_eq in Hk by (by rewrite length_insert). injection Hk as <-. exists i. by rewrite decide_True.
    - rewrite list_lookup_insert_ne in Hk by done. destruct (decide (k = i)) as [->|Hki].
      + rewrite list_lookup_insert_eq in Hk by done. injection Hk as <-. exists j. by rewrite decide_False, decide_True.
      + rewrite list_lookup_insert_ne in Hk by done. exists k. by rewrite !decide_False. }
  split_and!; try done.
  - split.
    + apply NoDup_alt. intros k k' x Hk Hk'. apply list_lookup_fmap_Some in Hk as (b & -> & Hk).
      apply list_lookup_fmap_Some in Hk' as (b' & E & Hk'). cbn in Hk, Hk'.
      apply Hsw in Hk as (q & Hq & ->). apply Hsw in Hk' as (q' & Hq' & ->).
      by rewrite (bufs_distinct st q q' b b' Hok Hq Hq' E).
    + intros k b Hk. apply Hsw in Hk as (q & Hq & _). destruct Hok as [_ Hall]. by apply (Hall q).
  - intros V W HV HW. unfold pks in *. cbn. rewrite !list_fmap_insert. rewrite list_lookup_fmap, Hi in HV.
    rewrite list_lookup_fmap, Hj in HW. cbn in HV, HW. by simplify_eq.
  - intros V W HV HW. unfold vhs in *. cbn. rewrite !list_fmap_insert. rewrite list_lookup_fmap, Hi in HV.
    rewrite list_lookup_fmap, Hj in HW. cbn in HV, HW. by simplify_eq.
Qed.

(** ** Holding a packet *)

Lemma holds_pks st j b m V h : holds st j b m V h -> pks st !! Z.to_nat j = Some V /\ vhs st !! Z.to_nat j = Some h.
Proof.
  intros (Hj & Hb & _ & -> & -> & ->). unfold pks, vhs. by rewrite !list_lookup_fmap, Hb.
Qed.
Lemma holds_put_other st i j b m V h b' m' bi mi Vi hi : bufs_ok st -> i <> j ->
  holds st j b m V h -> b_arr b' = b_arr b -> holds st i bi mi Vi hi -> holds (put_buf st j b' m') i bi mi Vi hi.
Proof.
  intros Hok Hne (Hj & Hb & _) E (Hi & Hbi & (Hm & Hrest) & -> & -> & ->). unfold holds, put_buf.
  cbn [with_bufs with_arrays gr_arrays gr_bufs].
  assert (b_arr b <> b_arr bi) as Ha.
  { intros E'. apply Hne. apply Z2Nat.inj; [lia|lia|]. symmetry. by eapply bufs_distinct. }
  rewrite list_lookup_insert_ne by lia. unfold array_of. rewrite E, list_lookup_insert_ne by done.
  split_and!; try done. split; [|exact Hrest]. by rewrite list_lookup_insert_ne by done.
Qed.
Lemma holds_put st j b m V h b' m' : bufs_ok (put_buf st j b' m') -> holds st j b m V h -> b_arr b' = b_arr b ->
  holds (put_buf st j b' m') j b' m' (view b' m') (vhdr b' m').
Proof.
  intros [_ Hok] (Hj & Hb & (Hm & _) & _) E.
  assert (array_of (gr_arrays (put_buf st j b' m')) b' = m') as Ea.
  { unfold array_of, put_buf. cbn. rewrite E, list_lookup_insert_eq by (by eapply lookup_lt_Some). done. }
  assert (gr_bufs (put_buf st j b' m') !! Z.to_nat j = Some b') as Eb by (apply list_lookup_insert_eq; by eapply lookup_lt_Some).
  unfold holds. rewrite Ea. split_and!; try done. rewrite <- Ea at 2. by eapply Hok.
Qed.

(** Only buffers [i] and [j] have changed. *)
Definition changed (i j : Z) (st st' : gro) : Prop :=
  bufs_ok st' /\ same_tables st st' /\ length (gr_bufs st') = length (gr_bufs st) /\
  forall k, k <> Z.to_nat i -> k <> Z.to_nat j -> pks st' !! k = pks st !! k /\ vhs st' !! k = vhs st !! k.

Lemma length_pks st : length (pks st) = length (gr_bufs st).
Proof. apply length_fmap. Qed.

(** The data behind a header. *)
Lemma read_pay st stx k b m V h lo : holds st k b m V h -> gr_arrays stx = gr_arrays st -> 0 <= lo <= Zlen V ->
  let d := BSlice (b_arr b) (Slice (sl_off (b_sl b) + offset + lo) (Zlen V - lo) (sl_cap (b_sl b) - offset - lo)) in
  gruns (btail (packet_slice b) lo) stx d stx /\ gruns (btail b (offset + lo)) stx d stx /\
  gruns (bcontents d) stx (drop (Z.to_nat lo) V) stx.
Proof.
  intros (_ & _ & Hbuf & _ & -> & _) Ea Hlo d. pose proof (Zlen_view offset offset_ok _ _ _ Hbuf) as EZ.
  destruct Hbuf as (Hm & _ & H0 & H1 & H2 & H3 & _). rewrite <- Ea in Hm. subst d. rewrite EZ in *. split; [|split].
  - eapply gruns_btail; cbn; try lia. done.
  - replace (sl_off (b_sl b) + offset + lo) with (sl_off (b_sl b) + (offset + lo)) by lia.
    replace (sl_len (b_sl b) - offset - lo) with (sl_len (b_sl b) - (offset + lo)) by lia.
    replace (sl_cap (b_sl b) - offset - lo) with (sl_cap (b_sl b) - (offset + lo)) by lia.
    eapply gruns_btail; cbn; try lia. done.
  - replace (drop _ _) with (window m (sl_off (b_sl b) + offset + lo) (sl_len (b_sl b) - offset - lo)).
    + by apply gruns_bcontents.
    + rewrite <- (window_window m (sl_off (b_sl b) + offset) (sl_len (b_sl b) - offset)) by lia.
      fold (view b m). unfold window. apply take_ge. rewrite length_drop. unfold Zlen in EZ. lia.
Qed.
End Bufs.
