(* ===== verification/GroGroup.v ===== *)
(** * Groups of packets

    What a merged packet stands for: a [group] is a list of packets of the
    batch whose payloads, in order, are the payload of the merged packet, all
    of the segment size but the last, which may be smaller.  A [tcp_group] adds
    the sequence numbers and the flags, a [udp_group] the order of arrival.
    The lemmas say when a packet can join a group at its end or its front. *)
From Stdlib Require Import Sorted.
From S2P Require Import Prelude Bytes GoMem Checksum Tcpip UDP Offload Gro GroSpec.

(** ** Headers *)

Definition pay (hl : Z) (C : list Z) : list Z := drop (Z.to_nat hl) C.

Lemma Zlen_pay hl C : 0 <= hl <= Zlen C -> Zlen (pay hl C) = Zlen C - hl.
Proof. intros. unfold pay. rewrite Zlen_drop. lia. Qed.
Lemma bytes_pay hl C : bytes C -> bytes (pay hl C).
Proof. intros. by apply Forall_drop. Qed.
Lemma pay_app hl V D : 0 <= hl <= Zlen V -> pay hl (V ++ D) = pay hl V ++ D.
Proof. intros. unfold pay. apply drop_app_le. unfold Zlen in *. lia. Qed.
Lemma window_pay hl C : 0 <= hl <= Zlen C -> window C hl (Zlen C - hl) = pay hl C.
Proof.
  intros. unfold window, pay. rewrite take_ge; [done|]. rewrite length_drop. unfold Zlen in *. lia.
Qed.

Lemma window_ext A B off len : 0 <= off -> 0 <= len -> off + len <= Zlen A -> off + len <= Zlen B ->
  (forall j, off <= j < off + len -> byte_at A j = byte_at B j) -> window A off len = window B off len.
Proof.
  intros Ho Hl HA HB Hj. assert (Zlen (window A off len) = len) as ZA by (apply Zlen_window; lia).
  apply bytes_ext; [by rewrite ZA, Zlen_window by lia|]. intros j Hj'. rewrite !byte_at_window by lia. apply Hj. lia.
Qed.

Definition tcp_key (v6 : bool) (C : list Z) : tcpFlowKey :=
  let a := if v6 then ipv6SrcAddrOffset else ipv4SrcAddrOffset in
  let n := if v6 then 16 else 4 in
  mkTCPKey (tcpip.pad16 (window C a n)) (tcpip.pad16 (window C (a + n) n))
    (get16 C (iph v6)) (get16 C (iph v6 + 2)) (get32 C (iph v6 + 8)) v6.
Definition udp_key (v6 : bool) (C : list Z) : udpFlowKey :=
  let a := if v6 then ipv6SrcAddrOffset else ipv4SrcAddrOffset in
  let n := if v6 then 16 else 4 in
  mkUDPKey (tcpip.pad16 (window C a n)) (tcpip.pad16 (window C (a + n) n)) (get16 C (iph v6)) (get16 C (iph v6 + 2)) v6.

(** The fields of the IP headers that [ipHeadersCanCoalesce] compares: traffic
    class, DF and the reserved bit, hop limit. *)
Definition ip_alike (v6 : bool) (A B : list Z) : Prop :=
  if v6 then byte_at A 0 = byte_at B 0 /\ Z.shiftr (byte_at A 1) 4 = Z.shiftr (byte_at B 1) 4 /\ byte_at A 7 = byte_at B 7
  else byte_at A 1 = byte_at B 1 /\ Z.shiftr (byte_at A 6) 5 = Z.shiftr (byte_at B 6) 5 /\ byte_at A 8 = byte_at B 8.
(** The same flow, TCP options and IP fields. *)
Definition tcp_alike (v6 : bool) (th : Z) (A B : list Z) : Prop :=
  tcp_key v6 A = tcp_key v6 B /\ window A (iph v6 + 20) (th - 20) = window B (iph v6 + 20) (th - 20) /\ ip_alike v6 A B.
Definition udp_alike (v6 : bool) (A B : list Z) : Prop := udp_key v6 A = udp_key v6 B /\ ip_alike v6 A B.

#[export] Instance ip_alike_equiv v6 : Equivalence (ip_alike v6).
Proof. unfold ip_alike. split; [intros A|intros A B|intros A B D]; destruct v6; intuition congruence. Qed.
#[export] Instance tcp_alike_equiv v6 th : Equivalence (tcp_alike v6 th).
Proof.
  unfold tcp_alike. split; [intros A|intros A B|intros A B D]; [done|by intros (-> & -> & ->)|].
  intros (-> & -> & ->) (-> & -> & ->). done.
Qed.
#[export] Instance udp_alike_equiv v6 : Equivalence (udp_alike v6).
Proof.
  unfold udp_alike. split; [intros A|intros A B|intros A B D]; [done|by intros (-> & ->)|].
  intros (-> & ->) (-> & ->). done.
Qed.

(** The version nibble says which fields are compared. *)
Definition version_ok (v6 : bool) (C : list Z) : Prop := Z.shiftr (byte_at C 0) 4 = if v6 then 6 else 4.
Lemma ipHeaders_alike v6 A B : version_ok v6 A -> ipHeadersCanCoalesce A B = true -> ip_alike v6 A B.
Proof.
  unfold version_ok, ipHeadersCanCoalesce, ip_alike. intros Hv.
  destruct (_ || _); [done|]. rewrite Hv. destruct v6; cbn [Z.eqb Pos.eqb]; repeat case_match; try done; intros _; lia.
Qed.
Lemma ip_alike_hdr v6 A A' B : (forall j, 0 <= j < 9 -> byte_at A j = byte_at A' j) -> ip_alike v6 B A -> ip_alike v6 B A'.
Proof. intros E. unfold ip_alike. by destruct v6; rewrite !E by lia. Qed.

(** ** Groups *)

Section Group.
Context (P : Z -> list Z).

Record group (hl g : Z) (ids : list Z) (V : list Z) : Prop := {
  gp_ne : ids <> [];
  gp_hl : 0 <= hl <= Zlen V;
  gp_data : pay hl V = concat (map (fun x => pay hl (P x)) ids);
  gp_sizes : forall k x, ids !! k = Some x ->
    1 <= Zlen (pay hl (P x)) <= g /\ (S k < length ids -> Zlen (pay hl (P x)) = g)%nat
}.

Lemma sizes_total hl g ids x :
  (forall k y, (ids ++ [x]) !! k = Some y ->
     1 <= Zlen (pay hl (P y)) <= g /\ (S k < length (ids ++ [x]) -> Zlen (pay hl (P y)) = g)%nat) ->
  Zlen (concat (map (fun y => pay hl (P y)) (ids ++ [x]))) = Zlen ids * g + Zlen (pay hl (P x)).
Proof.
  induction ids as [|y ids IH]; intros Hs; cbn [map concat app].
  - rewrite app_nil_r. change (Zlen (@nil Z)) with 0. lia.
  - rewrite Zlen_app, IH.
    + destruct (Hs 0%nat y eq_refl) as [_ ->]; [|cbn; rewrite length_app; cbn; lia]. rewrite Zlen_cons. lia.
    + intros k z Hk. destruct (Hs (S k) z Hk) as [H1 H2]. split; [done|]. intros Hlt. apply H2. cbn. lia.
Qed.

(** The length of a group's data, through its last packet. *)
Lemma group_total hl g ids V : group hl g ids V ->
  exists l x, ids = l ++ [x] /\ Zlen V - hl = Zlen l * g + Zlen (pay hl (P x)) /\ 1 <= Zlen (pay hl (P x)) <= g.
Proof.
  intros [Hne Hhl Hd Hs]. destruct (exists_last Hne) as (l & x & ->). exists l, x. split; [done|].
  rewrite <- Zlen_pay by done. rewrite Hd, (sizes_total hl g) by done. split; [lia|].
  destruct (Hs (length l) x) as [H _]; [by apply list_lookup_middle|done].
Qed.

Lemma group_numMerged hl g ids V : group hl g ids V -> 1 <= Zlen ids <= Zlen V - hl /\ 1 <= g.
Proof.
  intros Hg. destruct (group_total _ _ _ _ Hg) as (l & x & -> & -> & Hx). rewrite Zlen_app, Zlen_cons, Zlen_nil.
  pose proof (Zlen_nonneg l). nia.
Qed.

(** A whole number of segments: every packet of the group has the full size. *)
Lemma group_full hl g ids V : group hl g ids V -> (Zlen V - hl) mod g = 0 ->
  Zlen V - hl = Zlen ids * g /\ forall k x, ids !! k = Some x -> Zlen (pay hl (P x)) = g.
Proof.
  intros Hg Hm. destruct (group_total _ _ _ _ Hg) as (l & x & -> & E & Hx).
  rewrite E, Z.add_comm, Z.mod_add in Hm by lia.
  assert (Zlen (pay hl (P x)) = g) as Eg.
  { destruct (decide (Zlen (pay hl (P x)) = g)) as [|Hne]; [done|]. rewrite Z.mod_small in Hm by lia. lia. }
  split; [rewrite E, Eg, Zlen_app, Zlen_cons, Zlen_nil; lia|].
  intros k y Hk. destruct Hg as [_ _ _ Hs]. destruct (Hs k y Hk) as [_ Hs'].
  apply lookup_app_Some in Hk as [Hk|[Hk Hk']].
  - apply Hs'. rewrite length_app. cbn. apply lookup_lt_Some in Hk. lia.
  - destruct (k - length l)%nat; [injection Hk' as <-; done|done].
Qed.

Lemma group_one hl C i : P i = C -> 0 <= hl < Zlen C -> group hl (Zlen C - hl) [i] C.
Proof.
  intros E Hhl. split; [done|lia| |].
  - cbn [map concat]. by rewrite E, app_nil_r.
  - intros [|k] x Hk; [|done]. injection Hk as <-. rewrite E, Zlen_pay by lia. split; [lia|cbn; lia].
Qed.
Lemma group_append hl g ids V C i : group hl g ids V -> P i = C -> (Zlen V - hl) mod g = 0 ->
  1 <= Zlen (pay hl C) <= g -> group hl g (ids ++ [i]) (V ++ pay hl C).
Proof.
  intros Hg E Hm Hc. destruct (group_full _ _ _ _ Hg Hm) as [_ Hfull]. destruct Hg as [Hne Hhl Hd Hs]. split.
  - by destruct ids.
  - rewrite Zlen_app. pose proof (Zlen_nonneg (pay hl C)). lia.
  - rewrite pay_app by done. rewrite Hd, map_app, concat_app. cbn [map concat]. by rewrite E, app_nil_r.
  - intros k x Hk. apply lookup_app_Some in Hk as [Hk|[Hk Hk']].
    + split; [by apply (Hs k)|intros _; by apply (Hfull k)].
    + destruct (k - length ids)%nat eqn:Ek; [|done]. injection Hk' as <-. rewrite E. split; [done|].
      rewrite length_app. cbn. lia.
Qed.
Lemma group_prepend hl g ids V C i g' : group hl g ids V -> P i = C -> 0 <= hl <= Zlen C ->
  Zlen (pay hl C) = g' -> g <= g' -> (g < g' -> Zlen ids = 1) -> group hl g' (i :: ids) (C ++ pay hl V).
Proof.
  intros Hg E Hhl' Hc Hle H1. pose proof (group_numMerged _ _ _ _ Hg) as [_ Hg1]. destruct Hg as [Hne Hhl Hd Hs]. split.
  - done.
  - rewrite Zlen_app. pose proof (Zlen_nonneg (pay hl V)). lia.
  - rewrite pay_app by done. rewrite Hd. cbn [map concat]. by rewrite E.
  - intros [|k] x Hk.
    + injection Hk as <-. rewrite E. split; [lia|done].
    + destruct (Hs k x Hk) as [Hx Hx']. split; [lia|]. cbn [length]. intros Hlt. rewrite Hx' by lia.
      destruct (decide (g < g')) as [Hl|]; [|lia]. specialize (H1 Hl). apply lookup_lt_Some in Hk. unfold Zlen in H1. lia.
Qed.

(** ** TCP *)

Definition head (ids : list Z) : list Z := P (hd 0 ids).
Abbreviation flags_at v6 C := (byte_at C (iph v6 + 13)).
Abbreviation seq_of v6 C := (get32 C (iph v6 + 4)).

(** The packets [ids] merged into [V]: segment size [g], the sequence number
    [s] of the first byte, [psh] when the last packet has PSH.  The header is
    that of the first packet, up to the flags. *)
Record tcp_group (v6 : bool) (th g s : Z) (psh : bool) (ids : list Z) (V : list Z) : Prop := {
  tg_th : 20 <= th <= 60;
  tg_group : group (iph v6 + th) g ids V;
  tg_alike : Forall (fun x => tcp_alike v6 th (head ids) (P x)) ids;
  tg_seq : forall k x, ids !! k = Some x -> seq_of v6 (P x) = u32 (s + Z.of_nat k * g);
  tg_psh : forall k x, ids !! k = Some x -> flags_at v6 (P x) = if (S k =? length ids)%nat && psh then 24 else 16;
  tg_hdr : forall j, 0 <= j < iph v6 + th -> j <> iph v6 + 13 -> byte_at V j = byte_at (head ids) j;
  tg_flags : flags_at v6 V = 16 \/ flags_at v6 V = 24 /\ psh = true
}.

Lemma iph_range v6 : 20 <= iph v6 <= 40.
Proof. unfold iph. destruct v6; lia. Qed.

Lemma tcp_group_one v6 cd C i : P i = C -> bytes C -> is_cand v6 C cd ->
  tcp_group v6 (cd_tcphLen cd) (cd_gsoSize cd) (cd_seq cd) (cd_psh cd) [i] C.
Proof.
  intros E Bc [Hi Ht [Hl _] Hg Hseq Hfl]. pose proof (iph_range v6) as Hr. split.
  - done.
  - replace (cd_gsoSize cd) with (Zlen C - (iph v6 + cd_tcphLen cd)) by lia. apply group_one; [done|lia].
  - constructor; [|done]. unfold head. done.
  - intros [|k] x Hk; [|done]. injection Hk as <-. rewrite E, Hseq, Z.add_0_r, u32_small; [done|]. by apply get32_range.
  - intros [|k] x Hk; [|done]. injection Hk as <-. rewrite E. exact Hfl.
  - intros j Hj Hne. unfold head. cbn [hd]. by rewrite E.
  - rewrite Hfl. destruct (cd_psh cd); auto.
Qed.

Lemma head_app ids i : ids <> [] -> head (ids ++ [i]) = head ids.
Proof. by destruct ids. Qed.

Lemma tcp_group_append v6 th g s ids V C cd i :
  tcp_group v6 th g s false ids V -> P i = C -> is_cand v6 C cd -> cd_tcphLen cd = th -> cd_gsoSize cd <= g ->
  tcp_alike v6 th C (head ids) -> (Zlen V - (iph v6 + th)) mod g = 0 -> cd_seq cd = u32 (s + Zlen ids * g) ->
  let V' := if cd_psh cd then upd V (iph v6 + 13) 24 else V in
  tcp_group v6 th g s (cd_psh cd) (ids ++ [i]) (V' ++ pay (iph v6 + th) C).
Proof.
  intros [Hth Hgr Hal Hsq Hps Hhd Hfl] E [Hi Ht [Hl _] Hg Hseq Hflc] Eth Hle Hac Hm Es. subst th.
  pose proof (iph_range v6) as Hr. pose proof (gp_ne _ _ _ _ Hgr) as Hne. pose proof (gp_hl _ _ _ _ Hgr) as Hhl. cbv zeta.
  set (hl := iph v6 + cd_tcphLen cd) in *. set (V' := if cd_psh cd then _ else V).
  assert (Zlen V' = Zlen V) as ZV' by (subst V'; destruct (cd_psh cd); rewrite ?Zlen_upd; done).
  assert (group hl g ids V') as Hgr'.
  { destruct Hgr as [H1 H2 H3 H4]. split; try done; [by rewrite ZV'|]. rewrite <- H3. subst V'. destruct (cd_psh cd); [|done].
    unfold pay, upd. apply drop_insert_lt. lia. }
  split.
  - done.
  - apply group_append; try done; [by rewrite ZV'|]. rewrite Zlen_pay by lia. lia.
  - rewrite head_app by done. apply Forall_app. split; [done|]. constructor; [|done]. rewrite E. by symmetry.
  - intros k x Hk. apply lookup_app_Some in Hk as [Hk|[Hk Hk']]; [by apply Hsq|].
    destruct (k - length ids)%nat eqn:Ek; [|done]. injection Hk' as <-. rewrite E, <- Hseq, Es.
    do 2 f_equal. unfold Zlen. f_equal. lia.
  - intros k x Hk. rewrite length_app. cbn [length]. apply lookup_app_Some in Hk as [Hk|[Hk Hk']].
    + rewrite (Hps k x Hk), andb_false_r. apply lookup_lt_Some in Hk.
      by replace (S k =? length ids + 1)%nat with false by (symmetry; apply Nat.eqb_neq; lia).
    + destruct (k - length ids)%nat eqn:Ek; [|done]. injection Hk' as <-. rewrite E, Hflc.
      by replace (S k =? length ids + 1)%nat with true by (symmetry; apply Nat.eqb_eq; lia).
  - intros j Hj Hj'. rewrite head_app by done. rewrite byte_at_app_l by lia. rewrite <- Hhd by done.
    subst V'. destruct (cd_psh cd); [|done]. apply byte_at_upd_ne; lia.
  - rewrite byte_at_app_l by lia. subst V'. destruct (cd_psh cd); [right; by rewrite byte_at_upd_eq by lia|].
    destruct Hfl as [|[? ?]]; [by left|done].
Qed.

Lemma tcp_group_prepend v6 th g s psh ids V C cd i :
  tcp_group v6 th g s psh ids V -> P i = C -> bytes C -> is_cand v6 C cd -> cd_tcphLen cd = th -> cd_psh cd = false ->
  g <= cd_gsoSize cd -> (g < cd_gsoSize cd -> Zlen ids = 1) ->
  tcp_alike v6 th C (head ids) -> u32 (cd_seq cd + cd_gsoSize cd) = s ->
  tcp_group v6 th (cd_gsoSize cd) (cd_seq cd) psh (i :: ids) (C ++ pay (iph v6 + th) V).
Proof.
  intros [Hth Hgr Hal Hsq Hps Hhd Hfl] E Bc [Hi Ht [Hl _] Hg Hseq Hflc] Eth Hp Hle H1 Hac Es. subst th.
  pose proof (iph_range v6) as Hr. pose proof (gp_ne _ _ _ _ Hgr) as Hne. rewrite Hp in Hflc.
  split.
  - done.
  - eapply group_prepend; try done; [lia|]. rewrite Zlen_pay by lia. lia.
  - change (head (i :: ids)) with (P i). rewrite E. constructor; [by rewrite E|].
    eapply Forall_impl; [exact Hal|]. intros x Hx. cbn beta. by rewrite Hac.
  - intros [|k] x Hk.
    + injection Hk as <-. rewrite E, Z.add_0_r, Hseq, u32_small; [done|]. by apply get32_range.
    + cbn in Hk. rewrite (Hsq k x Hk), <- Es.
      assert (Z.of_nat k * g = Z.of_nat k * cd_gsoSize cd) as ->.
      { destruct (decide (g < cd_gsoSize cd)) as [Hlt|]; [|f_equal; lia]. specialize (H1 Hlt).
        apply lookup_lt_Some in Hk. unfold Zlen in H1. replace k with 0%nat by lia. done. }
      unfold u32. rewrite Zplus_mod_idemp_l. f_equal. lia.
  - intros [|k] x Hk.
    + injection Hk as <-. rewrite E, Hflc. destruct ids; [done|]. done.
    + cbn in Hk. apply (Hps k x Hk).
  - intros j Hj _. rewrite byte_at_app_l by lia. change (head (i :: ids)) with (P i). by rewrite E.
  - left. rewrite byte_at_app_l by lia. done.
Qed.

(** ** UDP *)

Record udp_group (v6 : bool) (g : Z) (ids : list Z) (V : list Z) : Prop := {
  ug_group : group (iph v6 + 8) g ids V;
  ug_alike : Forall (fun x => udp_alike v6 (head ids) (P x)) ids;
  ug_sorted : StronglySorted Z.lt ids;
  ug_hdr : forall j, 0 <= j < iph v6 + 8 -> byte_at V j = byte_at (head ids) j
}.

Lemma udp_group_one v6 g C i : P i = C -> is_ucand v6 C g -> udp_group v6 g [i] C.
Proof.
  intros E [[Hl _] Hg]. pose proof (iph_range v6) as Hr. split.
  - replace g with (Zlen C - (iph v6 + 8)) by lia. apply group_one; [done|lia].
  - constructor; [|done]. unfold head. done.
  - repeat constructor.
  - intros j Hj. unfold head. cbn [hd]. by rewrite E.
Qed.
Lemma StronglySorted_snoc ids i : StronglySorted Z.lt ids -> Forall (fun x => x < i) ids -> StronglySorted Z.lt (ids ++ [i]).
Proof.
  induction 1 as [|x ids Hs IH Hx]; cbn [app]; intros Hi; [repeat constructor|].
  apply Forall_cons in Hi as [Hxi Hi]. constructor; [by apply IH|]. apply Forall_app. split; [done|]. by constructor.
Qed.
Lemma udp_group_append v6 g ids V C g' i :
  udp_group v6 g ids V -> P i = C -> is_ucand v6 C g' -> g' <= g -> Forall (fun x => x < i) ids ->
  udp_alike v6 C (head ids) -> (Zlen V - (iph v6 + 8)) mod g = 0 ->
  udp_group v6 g (ids ++ [i]) (V ++ pay (iph v6 + 8) C).
Proof.
  intros [Hgr Hal Hso Hhd] E [[Hl _] Hg] Hle Hlt Hac Hm. pose proof (iph_range v6) as Hr.
  pose proof (gp_ne _ _ _ _ Hgr) as Hne. pose proof (gp_hl _ _ _ _ Hgr) as Hhl. split.
  - apply group_append; try done. rewrite Zlen_pay by lia. lia.
  - rewrite head_app by done. apply Forall_app. split; [done|]. constructor; [|done]. rewrite E. by symmetry.
  - by apply StronglySorted_snoc.
  - intros j Hj. rewrite head_app by done. rewrite byte_at_app_l by lia. by apply Hhd.
Qed.
End Group.
