(* ===== verification/GroTcp.v ===== *)
(** * GRO of TCP packets

    The tests and the merging of [tcpGRO], against [tcp_group]: what each
    verdict of [tcpPacketsCanCoalesce] guarantees, and that
    [coalesceTCPPackets] turns the buffer of an item into that of a larger
    group or leaves every buffer alone. *)
From S2P Require Import Prelude Bytes GoMem Checksum TsChecksum Tcpip HdrChecksum UDP Offload Virtio Gro GroSpec GroBufs GroGroup.

(** ** Reading packets *)

Section Reads.
Context `{ChecksumImpl} (m : list Z) (s l cc : Z) (v6 : bool).
Context (Hs : 0 <= s) (Hl : l <= cc) (Hz : s + cc <= Zlen m).
Abbreviation C := (window m s l).
Abbreviation pkt := (Slice s l cc).
Abbreviation src_off := (if v6 then ipv6SrcAddrOffset else ipv4SrcAddrOffset).
Abbreviation addr_len := (if v6 then 16 else 4).

Lemma key_addrs_ok a n : 0 <= a -> 0 <= n -> a + 2 * n <= l ->
  runs (key_addrs pkt a (a + n)) m (tcpip.pad16 (window C a n), tcpip.pad16 (window C (a + n) n)) m.
Proof.
  intros Ha Hn Hh. unfold key_addrs. replace (a + n - a) with n by lia.
  eapply runs_eq; [go_run| |reflexivity].
  rewrite !window_window by lia. by replace (a + n - a) with n by lia; replace (a + n + n - (a + n)) with n by lia.
Qed.
Lemma newTCPFlowKey_ok : iph v6 + 20 <= l ->
  runs (newTCPFlowKey pkt src_off (src_off + addr_len) (iph v6)) m (tcp_key v6 C) m.
Proof.
  intros Hh. unfold newTCPFlowKey, tcp_key, iph, ipv6SrcAddrOffset, ipv4SrcAddrOffset in *.
  destruct v6; (eapply runs_bind; [apply key_addrs_ok; lia|]); (eapply runs_eq; [go_run| |reflexivity]).
  all: unfold get32; rewrite !get16_window by lia; cbn [fst snd]; rewrite ?Z.add_assoc; done.
Qed.
Lemma newUDPFlowKey_ok : iph v6 + 8 <= l ->
  runs (newUDPFlowKey pkt src_off (src_off + addr_len) (iph v6)) m (udp_key v6 C) m.
Proof.
  intros Hh. unfold newUDPFlowKey, udp_key, iph, ipv6SrcAddrOffset, ipv4SrcAddrOffset in *.
  destruct v6; (eapply runs_bind; [apply key_addrs_ok; lia|]); (eapply runs_eq; [go_run| |reflexivity]).
  all: rewrite !get16_window by lia; cbn [fst snd]; rewrite ?Z.add_assoc; done.
Qed.
Lemma checksumValid_ok proto : iph v6 + 8 <= l -> exists r, runs (checksumValid pkt (iph v6) proto v6) m r m.
Proof.
  intros Hh. unfold checksumValid, iph, ipv6SrcAddrOffset, ipv4SrcAddrOffset in *. destruct v6; eexists; go_run.
Qed.
End Reads.

(** ** The tests *)

Section Tcp.
Context `{ChecksumImpl} (P : Z -> list Z) (offset : Z).
Hypothesis offset_ok : 10 <= offset.
Abbreviation holds := (holds offset).
Abbreviation packet_slice := (packet_slice offset).

(** An item of the flow table describes a group. *)
Record tcp_item_ok (it : tcpGROItem) (ids V : list Z) : Prop := {
  to_iph : ti_iphLen it = iph (tk_isV6 (ti_key it));
  to_group : tcp_group P (tk_isV6 (ti_key it)) (ti_tcphLen it) (ti_gsoSize it) (ti_sentSeq it) (ti_pshSet it) ids V;
  to_num : ti_numMerged it = Zlen ids - 1;
  to_key : ti_key it = tcp_key (tk_isV6 (ti_key it)) (head P ids);
  to_len : Zlen V <= 65535
}.

(** The conditions under which a packet may join a group. *)
Definition can_append (v6 : bool) (cd : tcp_candidate) (it : tcpGROItem) (ids C V : list Z) : Prop :=
  cd_tcphLen cd = ti_tcphLen it /\ tcp_alike v6 (ti_tcphLen it) C (head P ids) /\ cd_gsoSize cd <= ti_gsoSize it /\
  (Zlen V - (iph v6 + ti_tcphLen it)) mod ti_gsoSize it = 0 /\
  cd_seq cd = u32 (ti_sentSeq it + Zlen ids * ti_gsoSize it) /\ ti_pshSet it = false.
Definition can_prepend (v6 : bool) (cd : tcp_candidate) (it : tcpGROItem) (ids C : list Z) : Prop :=
  cd_tcphLen cd = ti_tcphLen it /\ tcp_alike v6 (ti_tcphLen it) C (head P ids) /\ ti_gsoSize it <= cd_gsoSize cd /\
  (ti_gsoSize it < cd_gsoSize cd -> Zlen ids = 1) /\
  u32 (cd_seq cd + cd_gsoSize cd) = ti_sentSeq it /\ cd_psh cd = false.

Lemma group_head_len hl g ids V : group P hl g ids V -> hl < Zlen (head P ids).
Proof.
  intros [Hne Hhl _ Hs]. destruct ids as [|x ids]; [done|]. destruct (Hs 0%nat x eq_refl) as [[Hx _] _].
  unfold head. cbn [hd]. unfold pay in Hx. rewrite Zlen_drop in Hx. lia.
Qed.

(** The header of the group's buffer is that of its first packet. *)
Lemma group_options v6 th g s psh ids V : tcp_group P v6 th g s psh ids V ->
  window V (iph v6 + 20) (th - 20) = window (head P ids) (iph v6 + 20) (th - 20).
Proof.
  intros Hg. pose proof (tg_th _ _ _ _ _ _ _ _ Hg) as Hth. pose proof (tg_group _ _ _ _ _ _ _ _ Hg) as Hgr.
  pose proof (group_head_len _ _ _ _ Hgr) as Hh. pose proof (gp_hl _ _ _ _ _ Hgr) as Hhl. pose proof (iph_range v6) as Hr.
  apply window_ext; try lia. intros j Hj. apply (tg_hdr _ _ _ _ _ _ _ _ Hg); lia.
Qed.

(** Two buffers: the packet and the one of the item. *)
Context (st : gro) (i : Z) (b : bslice) (m C h : list Z) (bj : bslice) (mj V hj : list Z).
Context (it : tcpGROItem) (ids : list Z) (cd : tcp_candidate).
Abbreviation v6 := (tk_isV6 (ti_key it)).
Hypothesis Hi : holds st i b m C h.
Hypothesis Hj : holds st (ti_bufsIndex it) bj mj V hj.
Hypothesis Hit : tcp_item_ok it ids V.
Hypothesis Hcd : is_cand v6 C cd.
Hypothesis Hkey : tcp_key v6 C = ti_key it.
Hypothesis Hver : version_ok v6 C.

Lemma read_view k bk mk Vk hk lo n : holds st k bk mk Vk hk -> 0 <= lo -> 0 <= n -> lo + n <= Zlen Vk ->
  gruns (breslice (packet_slice bk) lo (lo + n)) st
    (BSlice (b_arr bk) (Slice (sl_off (b_sl bk) + offset + lo) n (sl_cap (b_sl bk) - offset - lo))) st /\
  gruns (bcontents (BSlice (b_arr bk) (Slice (sl_off (b_sl bk) + offset + lo) n (sl_cap (b_sl bk) - offset - lo)))) st
    (window Vk lo n) st.
Proof.
  intros (_ & _ & Hbuf & _ & -> & _) Hlo Hn Hle. rewrite (Zlen_view offset offset_ok _ _ _ Hbuf) in Hle.
  destruct Hbuf as (Hm & _ & H0 & H1 & H2 & H3 & _). split.
  - replace n with (lo + n - lo) at 2 by lia. eapply gruns_breslice; cbn; try lia. done.
  - unfold view. rewrite window_window by lia. by apply gruns_bcontents.
Qed.

Lemma options_test th : cd_tcphLen cd = th -> ti_tcphLen it = th ->
  gpost (if 20 <? th then
           o1 <-- breslice (packet_slice b) (u8 (iph v6 + 20)) (u8 (iph v6 + th)) ;; c1 <-- bcontents o1 ;;
           o2 <-- breslice (packet_slice bj) (u8 (iph v6 + 20)) (u8 (iph v6 + th)) ;; c2 <-- bcontents o2 ;;
           gret (bool_decide (c1 = c2))
         else gret true) st
    (fun r st' => st' = st /\ (r = true -> window C (iph v6 + 20) (th - 20) = window (head P ids) (iph v6 + 20) (th - 20))).
Proof.
  intros Eth Eth'. destruct Hcd as [_ Hth [Hl _] Hgso _ _]. destruct Hit as [_ Hg _ _]. pose proof (iph_range v6) as Hr.
  pose proof (gp_hl _ _ _ _ _ (tg_group _ _ _ _ _ _ _ _ Hg)) as Hhl. rewrite Eth' in *.
  rewrite <- (group_options _ _ _ _ _ _ _ Hg). destruct (Z.ltb_spec 20 th).
  2: { apply gpost_ret. split; [done|]. intros _. replace (th - 20) with 0 by lia. done. }
  rewrite (u8_small (iph v6 + 20)), (u8_small (iph v6 + th)) by lia.
  replace (iph v6 + th) with (iph v6 + 20 + (th - 20)) by lia.
  destruct (read_view i b m C h (iph v6 + 20) (th - 20) Hi) as [R1 R2]; try lia.
  destruct (read_view _ bj mj V hj (iph v6 + 20) (th - 20) Hj) as [R3 R4]; try lia.
  eapply gpost_step; [exact R1|]. eapply gpost_step; [exact R2|].
  eapply gpost_step; [exact R3|]. eapply gpost_step; [exact R4|].
  apply gpost_ret. split; [done|]. by intros ?%bool_decide_eq_true.
Qed.

Lemma item_bounds : 20 <= ti_tcphLen it <= 60 /\ iph v6 + ti_tcphLen it < Zlen V /\ Zlen V <= 65535 /\ 1 <= ti_gsoSize it.
Proof.
  destruct Hit as [_ Hg _ _ H65]. destruct (group_numMerged _ _ _ _ _ (tg_group _ _ _ _ _ _ _ _ Hg)) as [Hn Hg1].
  pose proof (tg_th _ _ _ _ _ _ _ _ Hg) as Hth. pose proof Hj as (_ & _ & Hbuf & _ & EV & _).
  pose proof (Zlen_view offset offset_ok _ _ _ Hbuf) as E. rewrite <- EV in E. destruct Hbuf as (_ & _ & H0 & H1 & H2 & H3 & H4).
  lia.
Qed.

(** The length the code computes for a group of full segments. *)
Lemma lhsLen_ok : (Zlen V - (iph v6 + ti_tcphLen it)) mod ti_gsoSize it = 0 ->
  u16 (ti_gsoSize it + u16 (ti_numMerged it * ti_gsoSize it)) = Zlen ids * ti_gsoSize it.
Proof.
  intros Hm. pose proof item_bounds as (Ht & Hh & HV & Hg1). destruct Hit as [_ Hg Hn _].
  destruct (group_full _ _ _ _ _ (tg_group _ _ _ _ _ _ _ _ Hg) Hm) as [E _]. pose proof (iph_range v6) as Hr.
  destruct (group_numMerged _ _ _ _ _ (tg_group _ _ _ _ _ _ _ _ Hg)) as [[Hn1 _] _].
  assert (ti_gsoSize it <= Zlen ids * ti_gsoSize it) as Hle by nia.
  replace (ti_numMerged it * ti_gsoSize it) with (Zlen ids * ti_gsoSize it - ti_gsoSize it) by lia.
  rewrite (u16_small (_ - _)) by lia. rewrite u16_small; lia.
Qed.

Lemma ip_test : ipHeadersCanCoalesce C V = true -> ip_alike v6 C (head P ids).
Proof.
  intros Ht. destruct Hit as [_ Hg _ _]. pose proof (iph_range v6) as Hr. pose proof (tg_th _ _ _ _ _ _ _ _ Hg) as Hth.
  apply (ip_alike_hdr v6 V); [|by apply ipHeaders_alike]. intros k Hk. apply (tg_hdr _ _ _ _ _ _ _ _ Hg); lia.
Qed.

Lemma tcpCan_ok :
  gpost (tcpPacketsCanCoalesce (packet_slice b) (u8 (cd_iphLen cd)) (u8 (cd_tcphLen cd)) (cd_seq cd) (cd_psh cd) (cd_gsoSize cd) it offset)
    st (fun r st' => st' = st /\ match r with
                     | coalesceUnavailable => True
                     | coalesceAppend => can_append v6 cd it ids C V
                     | coalescePrepend => can_prepend v6 cd it ids C
                     end).
Proof.
  pose proof item_bounds as (Ht & Hh & HV & Hg1). pose proof (iph_range v6) as Hr. pose proof Hcd as [Ei Hth [Hl _] Hgso _ _].
  pose proof Hit as [Eiph Hg Hnum Hk]. rewrite Ei, (u8_small (iph v6)), (u8_small (cd_tcphLen cd)) by lia.
  pose proof Hi as (_ & _ & Hbi & _ & EC & _). pose proof Hj as (_ & _ & Hbj & _ & EV & _).
  unfold tcpPacketsCanCoalesce. eapply gpost_step; [by eapply gruns_holds|]. eapply gpost_step; [by eapply gruns_packet|].
  destruct (Z.eqb_spec (cd_tcphLen cd) (ti_tcphLen it)) as [Eth|]; cbn [negb]; [|by apply gpost_ret].
  rewrite Eiph. eapply gpost_bind; [apply (options_test (cd_tcphLen cd)); congruence|].
  intros same st' [-> Hopt]. cbn beta. destruct same; cbn [negb]; [|by apply gpost_ret]. specialize (Hopt eq_refl). rewrite Eth in Hopt.
  eapply gpost_step; [by eapply gruns_view|]. eapply gpost_step; [by eapply gruns_view|]. rewrite <- EC, <- EV.
  destruct (ipHeadersCanCoalesce C V) eqn:Eip; cbn [negb]; [|by apply gpost_ret]. apply ip_test in Eip.
  assert (tcp_alike v6 (ti_tcphLen it) C (head P ids)) as Hal by (split; [congruence|done]).
  cbv zeta. destruct (Z.eqb_spec (cd_seq cd) (u32 (ti_sentSeq it + u16 (ti_gsoSize it + u16 (ti_numMerged it * ti_gsoSize it))))) as [Es|_].
  - destruct (ti_pshSet it) eqn:Epsh; [by apply gpost_ret|]. rewrite Eth, u8_small by lia.
    pose proof (Zlen_view offset offset_ok _ _ _ Hbj) as EZ. rewrite <- EV in EZ.
    destruct Hbj as (Hmj & _ & H0 & H1 & H2 & H3 & H4).
    eapply gpost_step; [eapply gruns_btail; [exact Hmj|..]; cbn; lia|]. unfold blen, gmod. cbn [b_sl sl_len packet_slice].
    replace (ti_gsoSize it =? 0) with false by lia. eapply gpost_step; [apply gruns_ret|]. cbn beta. rewrite <- EZ.
    destruct (Z.eqb_spec ((Zlen V - (iph v6 + ti_tcphLen it)) mod ti_gsoSize it) 0) as [Em|]; cbn [negb]; [|by apply gpost_ret].
    destruct (Z.ltb_spec (ti_gsoSize it) (cd_gsoSize cd)); [by apply gpost_ret|]. apply gpost_ret. split; [done|].
    rewrite (lhsLen_ok Em) in Es. unfold can_append. split_and!; done || lia.
  - destruct (Z.eqb_spec (u32 (cd_seq cd + cd_gsoSize cd)) (ti_sentSeq it)) as [Es|]; [|by apply gpost_ret].
    destruct (cd_psh cd) eqn:Epsh; [by apply gpost_ret|].
    destruct (Z.ltb_spec (cd_gsoSize cd) (ti_gsoSize it)); [by apply gpost_ret|].
    destruct ((ti_gsoSize it <? cd_gsoSize cd) && (0 <? ti_numMerged it)) eqn:E1; [by apply gpost_ret|].
    apply gpost_ret. split; [done|]. destruct (group_numMerged _ _ _ _ _ (tg_group _ _ _ _ _ _ _ _ Hg)) as [Hn _].
    unfold can_prepend. split_and!; done || lia.
Qed.

(** ** Merging *)

Hypothesis Hok : bufs_ok offset st.
Hypothesis Hne : i <> ti_bufsIndex it.
Hypothesis HP : P i = C.

Lemma csum_post skip k bk mk Vk hk proto : holds st k bk mk Vk hk -> iph v6 + 8 <= Zlen Vk ->
  gpost (csum_ok skip (packet_slice bk) (iph v6) proto v6) st (fun r st' => st' = st /\ (skip = true -> r = true)).
Proof.
  intros (_ & _ & Hbuf & _ & EV & _) Hle. unfold csum_ok. destruct skip; [by apply gpost_ret|].
  subst Vk. rewrite (Zlen_view offset offset_ok _ _ _ Hbuf) in Hle. pose proof Hbuf as (Hm & _ & H0 & H1 & H2 & H3 & _).
  destruct (checksumValid_ok mk (sl_off (b_sl bk) + offset) (sl_len (b_sl bk) - offset) (sl_cap (b_sl bk) - offset) v6
    ltac:(lia) proto Hle) as [r Hr].
  exists r, st. split; [|done]. eapply gruns_read; done.
Qed.

(** What merging reports. *)
Definition coalesce_post (skip : bool) (r : coalesceResult * tcpGROItem) (st' : gro) : Prop :=
  match r.1 with
  | coalesceSuccess =>
      exists V' ids', changed offset i (ti_bufsIndex it) st st' /\ pks offset st' !! Z.to_nat (ti_bufsIndex it) = Some V' /\
        tcp_item_ok r.2 ids' V' /\ ids' ≡ₚ i :: ids /\ ti_key r.2 = ti_key it /\ ti_bufsIndex r.2 = ti_bufsIndex it
  | coalesceItemInvalidCSum => st' = st /\ r.2 = it /\ Zlen ids = 1 /\ skip = false
  | coalescePktInvalidCSum => st' = st /\ skip = false
  | _ => st' = st
  end.

(** Setting PSH in the header of the group. *)
Lemma psh_step : byte_at V (iph v6 + 13) = 16 ->
  let V' := if cd_psh cd then upd V (iph v6 + 13) 24 else V in
  gpost (if cd_psh cd then
           at_slice (packet_slice bj) (fun s =>
             f <- idx s (u8 (iph v6 + tcpFlagsOffset)) ;; set_idx s (u8 (iph v6 + tcpFlagsOffset)) (Z.lor f tcpFlagPSH))
         else gret tt) st
    (fun _ st1 => bufs_ok offset st1 /\ same_tables st st1 /\ pks offset st1 = <[Z.to_nat (ti_bufsIndex it) := V']> (pks offset st) /\
       vhs offset st1 = vhs offset st /\ holds st1 i b m C h /\ exists m1, holds st1 (ti_bufsIndex it) bj m1 V' hj).
Proof.
  intros Hf V'. pose proof item_bounds as (Ht & Hh & _ & _). pose proof (iph_range v6) as Hr. subst V'.
  pose proof Hj as (_ & _ & Hbj & Em & EV & Eh). destruct (cd_psh cd).
  2: { apply gpost_ret. split_and!; try done. - symmetry. apply list_insert_id. by apply (holds_pks offset _ _ _ _ _ _ Hj). - by exists mj. }
  pose proof (Zlen_view offset offset_ok _ _ _ Hbj) as EZ. rewrite <- EV in EZ.
  destruct (put_byte offset offset_ok st (ti_bufsIndex it) bj mj V hj (iph v6 + 13) 24) as (Hok1 & Hsame & Hp & Hv); try done; try lia.
  set (m1 := upd mj (sl_off (b_sl bj) + offset + (iph v6 + 13)) 24) in *.
  exists tt, (put_buf st (ti_bufsIndex it) bj m1). split.
  - rewrite <- (put_same offset st _ bj mj V hj m1 Hj). destruct Hbj as (Hmj & _ & H0 & H1 & H2 & H3 & _).
    eapply (gruns_at (packet_slice bj)); [exact Hmj|]. unfold tcpFlagsOffset. rewrite u8_small by lia.
    eapply runs_bind; [apply runs_idx; lia|]. cbn beta.
    replace (byte_at mj _) with 16; [apply runs_set_idx; lia|].
    rewrite <- Hf, EV. unfold view. rewrite byte_at_window by lia. done.
  - split; [exact Hok1|]. split; [exact Hsame|]. split; [exact Hp|]. split; [exact Hv|]. split.
    + by apply (holds_put_other offset st i (ti_bufsIndex it) bj mj V hj).
    + exists m1. pose proof (holds_put offset st _ bj mj V hj bj m1 Hok1 Hj eq_refl) as Hh1.
      assert (view offset bj m1 = upd V (iph v6 + 13) 24 /\ vhdr offset bj m1 = hj) as [E1 E2]; [|by rewrite E1, E2 in Hh1].
      destruct (holds_pks offset _ _ _ _ _ _ Hh1) as [K1 K2]. destruct (holds_pks offset _ _ _ _ _ _ Hj) as [K3 K4].
      rewrite Hp, list_lookup_insert_eq in K1 by (by eapply lookup_lt_Some). rewrite Hv, K4 in K2. by simplify_eq.
Qed.

Lemma merged_num g psh s' : u16 (ti_numMerged it + 1) = ti_numMerged (merged_item it s' g psh).
Proof. done. Qed.

(** The bytes a buffer still has room for. *)
Lemma room k bk mk Vk hk : holds st k bk mk Vk hk -> Zlen Vk = sl_len (b_sl bk) - offset /\ bytes Vk.
Proof.
  intros (_ & _ & Hbuf & _ & -> & _). split; [by eapply Zlen_view|by eapply bytes_view].
Qed.

Lemma append_item V' : can_append v6 cd it ids C V -> Zlen (V' ++ pay (iph v6 + ti_tcphLen it) C) <= 65535 ->
  V' = (if cd_psh cd then upd V (iph v6 + 13) 24 else V) ->
  tcp_item_ok (merged_item it (ti_sentSeq it) (cd_gsoSize cd) (cd_psh cd || ti_pshSet it)) (ids ++ [i])
    (V' ++ pay (iph v6 + ti_tcphLen it) C).
Proof.
  intros (Eth & Hal & Hle & Hm & Es & Ep) H65 ->. pose proof Hit as [Hiph Hg Hnum Hk]. rewrite Ep in Hg.
  pose proof (tcp_group_append P v6 _ _ _ ids V C cd i Hg HP Hcd Eth Hle Hal Hm Es) as Hg'. cbv zeta in Hg'.
  destruct (group_numMerged _ _ _ _ _ (tg_group _ _ _ _ _ _ _ _ Hg')) as [[_ Hn] _]. pose proof (iph_range v6) as Hr.
  pose proof (tg_th _ _ _ _ _ _ _ _ Hg) as Hth. rewrite Zlen_app, Zlen_cons, Zlen_nil in Hn.
  pose proof (Zlen_nonneg ids) as Hz.
  unfold merged_item. split; cbn [ti_key ti_iphLen ti_tcphLen ti_gsoSize ti_sentSeq ti_pshSet ti_numMerged].
  - done.
  - replace (ti_gsoSize it <? cd_gsoSize cd) with false by lia. rewrite Ep, orb_false_r. exact Hg'.
  - rewrite Zlen_app, Zlen_cons, Zlen_nil, u16_small; lia.
  - rewrite head_app; [exact Hk|]. by apply (gp_ne _ _ _ _ _ (tg_group _ _ _ _ _ _ _ _ Hg)).
  - exact H65.
Qed.
Lemma prepend_item : can_prepend v6 cd it ids C -> bytes C -> Zlen (C ++ pay (iph v6 + ti_tcphLen it) V) <= 65535 ->
  tcp_item_ok (merged_item it (cd_seq cd) (cd_gsoSize cd) (ti_pshSet it)) (i :: ids) (C ++ pay (iph v6 + ti_tcphLen it) V).
Proof.
  intros (Eth & Hal & Hle & H1 & Es & Ep) Bc H65. pose proof Hit as [Hiph Hg Hnum Hk].
  pose proof (tcp_group_prepend P v6 _ _ _ _ ids V C cd i Hg HP Bc Hcd Eth Ep Hle H1 Hal Es) as Hg'.
  destruct (group_numMerged _ _ _ _ _ (tg_group _ _ _ _ _ _ _ _ Hg')) as [[_ Hn] _]. pose proof (iph_range v6) as Hr.
  pose proof (tg_th _ _ _ _ _ _ _ _ Hg) as Hth. rewrite Zlen_cons in Hn. pose proof (Zlen_nonneg ids) as Hz.
  unfold merged_item. split; cbn [ti_key ti_iphLen ti_tcphLen ti_gsoSize ti_sentSeq ti_pshSet ti_numMerged].
  - done.
  - replace (if ti_gsoSize it <? cd_gsoSize cd then _ else _) with (cd_gsoSize cd); [exact Hg'|].
    destruct (Z.ltb_spec (ti_gsoSize it) (cd_gsoSize cd)); lia.
  - rewrite Zlen_cons, u16_small; lia.
  - unfold head. cbn [hd]. by rewrite HP.
  - exact H65.
Qed.

(** The checksum tests that come before a merge. *)
Lemma checks_ok skip (k : GM (coalesceResult * tcpGROItem)) : iph v6 + 8 <= Zlen V -> iph v6 + 8 <= Zlen C ->
  gpost k st (coalesce_post skip) ->
  gpost (itemOk <-- (if ti_numMerged it =? 0 then csum_ok skip (packet_slice bj) (iph v6) ipProtoTCP v6 else gret true) ;;
         if negb itemOk then gret (coalesceItemInvalidCSum, it)
         else
           pktOk <-- csum_ok skip (packet_slice b) (iph v6) ipProtoTCP v6 ;;
           if negb pktOk then gret (coalescePktInvalidCSum, it) else k) st (coalesce_post skip).
Proof.
  intros HV HC Hk. pose proof Hit as [_ _ Hnum _].
  eapply (gpost_bind _ _ _ (fun r st' => st' = st /\ (r = false -> Zlen ids = 1 /\ skip = false))).
  { destruct (Z.eqb_spec (ti_numMerged it) 0); [|by apply gpost_ret].
    eapply gpost_mono; [by eapply csum_post|]. intros r st' [-> Hs]. split; [done|]. intros ->.
    split; [lia|]. destruct skip; [by specialize (Hs eq_refl)|done]. }
  intros r st' [-> Hr1]. cbn beta. destruct r; cbn [negb]; [|by apply gpost_ret; destruct (Hr1 eq_refl)].
  eapply gpost_bind; [by eapply csum_post|]. intros r st' [-> Hr2]. cbn beta.
  destruct r; cbn [negb]; [done|]. apply gpost_ret. split; [done|]. destruct skip; [by specialize (Hr2 eq_refl)|done].
Qed.

Lemma append_ok skip : can_append v6 cd it ids C V ->
  gpost (coalesceTCPPackets false (packet_slice b) i (cd_gsoSize cd) (cd_seq cd) (cd_psh cd) it offset v6 skip) st
    (coalesce_post skip).
Proof.
  intros Hcan. pose proof item_bounds as (Ht & Hh & HV & Hg1). pose proof (iph_range v6) as Hr. pose proof Hcd as [Ei Hth [Hl _] Hgso _ _].
  pose proof Hit as [Eiph Hg Hnum Hk]. destruct (room _ _ _ _ _ Hi) as [ZC BC]. destruct (room _ _ _ _ _ Hj) as [ZV BV].
  pose proof Hcan as (Eth & _ & _ & _ & _ & Ep).
  unfold coalesceTCPPackets. cbv zeta. rewrite Eiph, (u8_small (iph v6 + ti_tcphLen it)) by lia.
  eapply gpost_step; [by eapply gruns_holds|]. eapply gpost_step; [eapply gruns_packet; [done|apply Hj]|]. unfold blen.
  cbn [packet_slice b_sl sl_len sl_cap]. rewrite <- ZC, <- ZV.
  destruct (Z.ltb_spec (sl_cap (b_sl bj) - offset - offset) (Zlen V + Zlen C - (iph v6 + ti_tcphLen it))) as [|Hcap]; [by apply gpost_ret|].
  apply checks_ok; [lia|lia|].
  assert (byte_at V (iph v6 + 13) = 16) as Hf by (destruct (tg_flags _ _ _ _ _ _ _ _ Hg) as [|[_ ?]]; congruence).
  eapply gpost_bind; [apply (psh_step Hf)|]. set (V' := if cd_psh cd then _ else V).
  intros _ st1 (Hok1 & Hs1 & Hp1 & Hv1 & Hi1 & m1 & Hj1). cbn beta.
  assert (Zlen V' = Zlen V) as ZV' by (subst V'; destruct (cd_psh cd); rewrite ?Zlen_upd; done).
  set (D := pay (iph v6 + ti_tcphLen it) C). assert (Zlen D = Zlen C - (iph v6 + ti_tcphLen it)) as ZD by (apply Zlen_pay; lia).
  assert (bytes D) as BD by (by apply bytes_pay). rewrite <- ZD. pose proof (Zlen_nonneg D) as HD.
  eapply gpost_step; [eapply (gruns_extend offset offset_ok); [exact Hj1|lia|lia]|]. cbn beta. set (stx := with_bufs st1 _).
  destruct (read_pay offset offset_ok st1 stx i b m C h (iph v6 + ti_tcphLen it) Hi1 eq_refl ltac:(lia)) as (R1 & _ & R2).
  eapply gpost_step; [exact R1|]. eapply gpost_step; [exact R2|]. cbn beta. fold (pay (iph v6 + ti_tcphLen it) C). fold D.
  rewrite <- ZV'. eapply gpost_step; [eapply (gruns_copy offset offset_ok st1); [exact Hj1|done|lia]|]. apply gpost_ret.
  destruct (put_append offset offset_ok st1 _ bj m1 V' hj D Hok1 Hj1 BD ltac:(lia)) as (Hok2 & Hs2 & Hp2 & Hv2). set (st2 := put_buf _ _ _ _) in *.
  assert (Z.to_nat (ti_bufsIndex it) < length (pks offset st1))%nat as Hlt
    by (eapply lookup_lt_Some, (holds_pks offset _ _ _ _ _ _ Hj1)).
  exists (V' ++ D), (ids ++ [i]). cbn [fst snd]. split; [|split; [|split; [|split; [|done]]]].
  - split; [exact Hok2|]. split; [by etransitivity|]. split.
    + rewrite <- !(length_pks offset), Hp2, length_insert, Hp1, length_insert. done.
    + intros k Hk1 Hk2. rewrite Hp2, Hv2, Hv1, list_lookup_insert_ne, Hp1, list_lookup_insert_ne by done. done.
  - rewrite Hp2. by apply list_lookup_insert_eq.
  - apply append_item; [done| |done]. rewrite Zlen_app. pose proof Hj as (_ & _ & (_ & _ & _ & _ & _ & _ & H4) & _). fold D. lia.
  - by rewrite Permutation_app_comm.
Qed.

Lemma prepend_ok skip : can_prepend v6 cd it ids C ->
  gpost (coalesceTCPPackets true (packet_slice b) i (cd_gsoSize cd) (cd_seq cd) (cd_psh cd) it offset v6 skip) st
    (coalesce_post skip).
Proof.
  intros Hcan. pose proof item_bounds as (Ht & Hh & HV & Hg1). pose proof (iph_range v6) as Hr. pose proof Hcd as [Ei Hth [Hl _] Hgso _ _].
  pose proof Hit as [Eiph Hg Hnum Hk]. destruct (room _ _ _ _ _ Hi) as [ZC BC]. destruct (room _ _ _ _ _ Hj) as [ZV BV].
  pose proof Hcan as (Eth & _ & _ & _ & _ & Ep).
  unfold coalesceTCPPackets. cbv zeta. rewrite Eiph, (u8_small (iph v6 + ti_tcphLen it)) by lia.
  eapply gpost_step; [by eapply gruns_holds|]. eapply gpost_step; [eapply gruns_packet; [done|apply Hj]|]. unfold blen.
  cbn [packet_slice b_sl sl_len sl_cap]. rewrite <- ZC, <- ZV.
  destruct (Z.ltb_spec (sl_cap (b_sl b) - offset - offset) (Zlen V + Zlen C - (iph v6 + ti_tcphLen it))) as [|Hcap]; [by apply gpost_ret|].
  rewrite Ep. apply checks_ok; [lia|lia|].
  set (D := pay (iph v6 + ti_tcphLen it) V). assert (Zlen D = Zlen V - (iph v6 + ti_tcphLen it)) as ZD by (apply Zlen_pay; lia).
  assert (bytes D) as BD by (by apply bytes_pay). pose proof (Zlen_nonneg D) as HD.
  replace (Zlen V + Zlen C - _ - Zlen C) with (Zlen D) by lia.
  eapply gpost_step; [eapply (gruns_extend offset offset_ok); [exact Hi|lia|lia]|]. cbn beta. set (stx := with_bufs st _).
  assert (Z.to_nat i <> Z.to_nat (ti_bufsIndex it)) as Hnn.
  { intros E. apply Hne. apply Z2Nat.inj; [apply Hi|apply Hj|done]. }
  pose proof Hi as (Hi0 & Hbi & _). pose proof Hj as (Hj0 & Hbj & _).
  assert (forall m', gr_bufs (put_buf st i (longer b (Zlen D)) m') !! Z.to_nat (ti_bufsIndex it) = Some bj) as Hbj'
    by (intros; cbn; by rewrite list_lookup_insert_ne).
  eapply gpost_step; [apply gruns_buf_at; [done|]; apply (Hbj' [])|]. cbn beta.
  destruct (read_pay offset offset_ok st stx _ bj mj V hj (iph v6 + ti_tcphLen it) Hj eq_refl ltac:(lia)) as (_ & R1 & R2).
  eapply gpost_step; [exact R1|]. eapply gpost_step; [exact R2|]. cbn beta. fold (pay (iph v6 + ti_tcphLen it) V). fold D.
  eapply gpost_step; [eapply (gruns_copy offset offset_ok st); [exact Hi|done|lia]|]. cbn beta.
  destruct (put_append offset offset_ok st _ b m C h D Hok Hi BD ltac:(lia)) as (Hok2 & Hs2 & Hp2 & Hv2). set (m2 := write_at _ _ _) in *.
  assert (gr_bufs (put_buf st i (longer b (Zlen D)) m2) !! Z.to_nat i = Some (longer b (Zlen D))) as Hbi'
    by (apply list_lookup_insert_eq; by eapply lookup_lt_Some).
  eapply gpost_step; [by apply gruns_buf_at|]. eapply gpost_step; [by apply gruns_buf_at|]. cbn beta.
  set (st2 := put_buf _ _ _ _) in *.
  assert (Z.to_nat (ti_bufsIndex it) < length (gr_bufs st2))%nat as Hlj by exact (lookup_lt_Some _ _ _ (Hbj' m2)).
  assert (Z.to_nat i < length (gr_bufs st2))%nat as Hli by exact (lookup_lt_Some _ _ _ Hbi').
  eapply gpost_step; [apply gruns_set_buf; unfold Zlen; lia|].
  eapply gpost_step; [apply gruns_set_buf; unfold with_bufs, Zlen; cbn [gr_bufs]; rewrite length_insert; lia|].
  apply gpost_ret. cbn [with_bufs gr_arrays gr_bufs gr_tcp gr_udp gr_toWrite].
  destruct (swap_ok offset st2 _ _ _ _ Hok2 ltac:(by apply not_eq_sym) (Hbj' m2) Hbi') as (Hok3 & Hs3 & Hp3 & Hv3).
  assert (Z.to_nat i < length (pks offset st))%nat as Hlt by (eapply lookup_lt_Some, (holds_pks offset _ _ _ _ _ _ Hi)).
  destruct (holds_pks offset _ _ _ _ _ _ Hj) as [Kj1 Kj2]. destruct (holds_pks offset _ _ _ _ _ _ Hi) as [Ki1 Ki2].
  specialize (Hp3 V (C ++ D)). rewrite Hp2, list_lookup_insert_ne, list_lookup_insert_eq in Hp3 by done.
  specialize (Hp3 Kj1 eq_refl). rewrite Hv2 in Hv3. specialize (Hv3 _ _ Kj2 Ki2).
  exists (C ++ D), (i :: ids). cbn [fst snd]. split; [|split; [|split; [|split; [|done]]]].
  - split; [exact Hok3|]. split; [by etransitivity|]. split.
    + cbn. by rewrite !length_insert.
    + intros k Hk1 Hk2. unfold with_bufs in *. cbn in *. rewrite Hp3, Hv3, !list_lookup_insert_ne by done. done.
  - unfold with_bufs in *. cbn in *. rewrite Hp3, list_lookup_insert_ne by done. apply list_lookup_insert_eq.
    rewrite length_insert. by eapply lookup_lt_Some.
  - apply prepend_item; [done|done|]. rewrite Zlen_app. pose proof Hi as (_ & _ & (_ & _ & _ & _ & _ & _ & H4) & _). fold D. lia.
  - done.
Qed.
End Tcp.
