(* ===== verification/GroInv.v ===== *)
(** * The loop of handleGRO

    The invariant of the loop over the batch: every packet seen so far is part
    of exactly one group, every group is in a buffer that is written, and the
    two flow tables describe the groups that may still grow.  The ghost state
    [E] gives for each written buffer the packets it stands for. *)
From stdpp Require Import functions.
From S2P Require Import Prelude Bytes GoMem Checksum TsChecksum Tcpip HdrChecksum UDP Offload Virtio Gro GroSpec GroBufs GroGroup GroTcp.

(** ** Flow tables

    A flow table knows some of the buffers that are written: [table_ok] relates
    the table to a map from buffer index to item, and the lemmas follow the
    table's operations. *)

Section TableOk.
Context {K I : Type} `{Countable K} (key : I -> K) (idx : I -> Z).

(** [W]: the buffers that are written; [item_of j]: the item of buffer [j], if
    the table has one.  Within the list of a flow no buffer occurs twice. *)
Record table_ok (item_of : Z -> option I) (W : list Z) (t : gmap K (list I)) : Prop := {
  tk_items : forall k its, t !! k = Some its -> NoDup (idx <$> its) /\
    forall it, it ∈ its -> key it = k /\ idx it ∈ W /\ item_of (idx it) = Some it;
  tk_known : forall j it, j ∈ W -> item_of j = Some it -> idx it = j /\ exists its, t !! key it = Some its /\ it ∈ its
}.

Lemma table_ok_ext f g W t : (forall j, j ∈ W -> f j = g j) -> table_ok f W t -> table_ok g W t.
Proof.
  intros E [Hi Hk]. split.
  - intros k its Hl. destruct (Hi k its Hl) as [Hnd Hit]. split; [done|]. intros it Hin.
    destruct (Hit it Hin) as (? & ? & ?). split_and!; try done. by rewrite <- E.
  - intros j it Hj Hg. apply (Hk j); [done|]. by rewrite E.
Qed.

(** A buffer the table does not know. *)
Lemma table_ok_other f W t j : f j = None -> j ∉ W -> table_ok f W t -> table_ok f (W ++ [j]) t.
Proof.
  intros Hj Hn [Hi Hk]. split.
  - intros k its Hl. destruct (Hi k its Hl) as [Hnd Hit]. split; [done|]. intros it Hin.
    destruct (Hit it Hin) as (? & ? & ?). split_and!; try done. apply elem_of_app. by left.
  - intros j' it Hin Hf. apply elem_of_app in Hin as [Hin|Hin]; [by apply (Hk j')|].
    apply list_elem_of_singleton in Hin as ->. congruence.
Qed.

Lemma table_ok_insert f W t pool it : table_ok f W t -> idx it ∉ W -> f (idx it) = Some it -> (0 < pool)%nat ->
  exists t' pool', insert_item (mkTable t pool) (key it) it = Ok (mkTable t' pool') /\
    table_ok f (W ++ [idx it]) t' /\ (pool - 1 <= pool')%nat.
Proof.
  intros [Hi Hk] Hn Hf Hp. set (its0 := default [] (t !! key it)).
  assert (table_ok f (W ++ [idx it]) (<[key it := its0 ++ [it]]> t)) as Hok.
  { assert (NoDup (idx <$> its0) /\ forall x, x ∈ its0 -> key x = key it /\ idx x ∈ W /\ f (idx x) = Some x) as [Hnd0 Hi0].
    { subst its0. destruct (t !! key it) as [its|] eqn:El; cbn; [by apply Hi|]. split; [constructor|]. intros x Hx. by apply elem_of_nil in Hx. }
    split.
    - intros k its Hl. destruct (decide (k = key it)) as [->|Hne].
      + rewrite lookup_insert_eq in Hl. injection Hl as <-. split.
        * rewrite fmap_app. apply NoDup_app. split; [done|]. split; [|apply NoDup_singleton].
          intros x Hx Hx'. apply list_elem_of_singleton in Hx' as ->. apply Hn.
          apply list_elem_of_fmap in Hx as (y & -> & Hy). by apply Hi0.
        * intros x Hx. rewrite !elem_of_app. apply elem_of_app in Hx as [Hx|Hx].
          -- destruct (Hi0 x Hx) as (? & ? & ?). split_and!; try done. by left.
          -- apply list_elem_of_singleton in Hx as ->. split_and!; try done. right. by apply list_elem_of_singleton.
      + rewrite lookup_insert_ne in Hl by done. destruct (Hi k its Hl) as [Hnd Hit]. split; [done|]. intros x Hx.
        destruct (Hit x Hx) as (? & ? & ?). split_and!; try done. apply elem_of_app. by left.
    - intros j x Hin Hx. apply elem_of_app in Hin as [Hin|Hin].
      + destruct (Hk j x Hin Hx) as (Ej & its & Hl & Hxi). split; [done|]. destruct (decide (key x = key it)) as [E|Hne].
        * exists (its0 ++ [it]). rewrite E, lookup_insert_eq. split; [done|]. apply elem_of_app. left.
          subst its0. by rewrite <- E, Hl.
        * exists its. by rewrite lookup_insert_ne.
      + apply list_elem_of_singleton in Hin as ->. assert (x = it) as -> by congruence.
        split; [done|]. exists (its0 ++ [it]). rewrite lookup_insert_eq. split; [done|]. apply elem_of_app. right. by apply list_elem_of_singleton. }
  unfold insert_item. cbn [itemsByFlow itemsPool]. subst its0. destruct (t !! key it) as [its|]; cbn in Hok.
  - eexists _, _. split; [done|]. split; [done|lia].
  - destruct pool as [|n]; [lia|]. eexists _, _. split; [done|]. split; [done|lia].
Qed.

(** A new description of the item at position [p] of its flow. *)
Lemma table_ok_update f W t pool its p it it' : table_ok f W t -> t !! key it = Some its -> its !! p = Some it ->
  key it' = key it -> idx it' = idx it ->
  updateAt (mkTable t pool) (key it) it' p = Ok (mkTable (<[key it := <[p := it']> its]> t) pool) /\
  table_ok (<[idx it := Some it']> f) W (<[key it := <[p := it']> its]> t).
Proof.
  intros [Hi Hk] Hl Hp Ek Ei. pose proof (lookup_lt_Some _ _ _ Hp) as Hlt. split.
  { unfold updateAt. cbn [itemsByFlow itemsPool]. rewrite Hl. cbn. by rewrite decide_True. }
  destruct (Hi _ _ Hl) as [Hnd0 Hi0].
  assert (forall x q, its !! q = Some x -> q <> p -> idx x <> idx it) as Hdist.
  { intros x q Hq Hqp E. apply Hqp. eapply NoDup_lookup; [exact Hnd0| |].
    - rewrite list_lookup_fmap, Hq. cbn. by rewrite E.
    - by rewrite list_lookup_fmap, Hp. }
  assert (idx <$> <[p:=it']> its = idx <$> its) as Eidx.
  { rewrite list_fmap_insert, list_insert_id; [done|]. rewrite list_lookup_fmap, Hp. cbn. by rewrite Ei. }
  split.
  - intros k its' Hl'. destruct (decide (k = key it)) as [->|Hne].
    + rewrite lookup_insert_eq in Hl'. injection Hl' as <-. rewrite Eidx. split; [done|]. intros x Hx.
      apply list_elem_of_lookup in Hx as (q & Hq). destruct (decide (q = p)) as [->|Hqp].
      * rewrite list_lookup_insert_eq in Hq by done. injection Hq as <-. rewrite Ei, fn_lookup_insert.
        destruct (Hi0 it) as (? & ? & _); [by eapply list_elem_of_lookup_2|]. done.
      * rewrite list_lookup_insert_ne in Hq by done. destruct (Hi0 x) as (? & ? & ?); [by eapply list_elem_of_lookup_2|].
        split_and!; try done. rewrite fn_lookup_insert_ne; [done|]. symmetry. by eapply Hdist.
    + rewrite lookup_insert_ne in Hl' by done. destruct (Hi k its' Hl') as [Hnd Hit]. split; [done|]. intros x Hx.
      destruct (Hit x Hx) as (Hkx & ? & Hfx). split_and!; try done. rewrite fn_lookup_insert_ne; [done|]. intros E.
      destruct (Hi0 it) as (_ & _ & Hfi); [by eapply list_elem_of_lookup_2|]. rewrite E in Hfi. congruence.
  - intros j x Hj Hx. destruct (decide (j = idx it)) as [->|Hne].
    + rewrite fn_lookup_insert in Hx. injection Hx as <-. split; [done|]. rewrite Ek. eexists. rewrite lookup_insert_eq. split; [done|].
      apply list_elem_of_lookup. exists p. by apply list_lookup_insert_eq.
    + rewrite fn_lookup_insert_ne in Hx by done. destruct (Hk j x Hj Hx) as (Ej & its' & Hl' & Hx'). split; [done|].
      destruct (decide (key x = key it)) as [E|Hkne]; [|exists its'; by rewrite lookup_insert_ne].
      rewrite E in *. assert (its' = its) as -> by congruence. eexists. rewrite lookup_insert_eq. split; [done|].
      apply list_elem_of_lookup in Hx' as (q & Hq). apply list_elem_of_lookup. exists q.
      rewrite list_lookup_insert_ne; [done|]. intros <-. congruence.
Qed.

(** The item at position [p] is dropped. *)
Lemma table_ok_delete f W t pool its p it : table_ok f W t -> t !! key it = Some its -> its !! p = Some it ->
  deleteAt (mkTable t pool) (key it) p = Ok (mkTable (<[key it := delete p its]> t) pool) /\
  table_ok (<[idx it := None]> f) W (<[key it := delete p its]> t).
Proof.
  intros [Hi Hk] Hl Hp. pose proof (lookup_lt_Some _ _ _ Hp) as Hlt. split.
  { unfold deleteAt. cbn [itemsByFlow itemsPool]. rewrite Hl. cbn. by rewrite decide_True. }
  destruct (Hi _ _ Hl) as [Hnd0 Hi0]. pose proof (delete_Permutation its p it Hp) as Hperm.
  assert (NoDup (idx <$> it :: delete p its)) as Hnd by (by rewrite <- Hperm).
  cbn in Hnd. apply NoDup_cons in Hnd as [Hni Hnd].
  assert (forall x, x ∈ delete p its -> idx it <> idx x) as Hdist.
  { intros x Hx E. apply Hni. rewrite E. by apply list_elem_of_fmap_2. }
  split.
  - intros k its' Hl'. destruct (decide (k = key it)) as [->|Hne].
    + rewrite lookup_insert_eq in Hl'. injection Hl' as <-. split; [done|]. intros x Hx.
      rewrite fn_lookup_insert_ne by (by apply Hdist). apply Hi0. rewrite Hperm. by right.
    + rewrite lookup_insert_ne in Hl' by done. destruct (Hi k its' Hl') as [Hnd' Hit]. split; [done|]. intros x Hx.
      destruct (Hit x Hx) as (Hkx & ? & Hfx). split_and!; try done. rewrite fn_lookup_insert_ne; [done|]. intros E.
      destruct (Hi0 it) as (_ & _ & Hfi); [by eapply list_elem_of_lookup_2|]. rewrite E in Hfi. congruence.
  - intros j x Hj Hx. destruct (decide (j = idx it)) as [->|Hne]; [by rewrite fn_lookup_insert in Hx|].
    rewrite fn_lookup_insert_ne in Hx by done. destruct (Hk j x Hj Hx) as (Ej & its' & Hl' & Hx'). split; [done|].
    destruct (decide (key x = key it)) as [E|Hkne]; [|exists its'; by rewrite lookup_insert_ne].
    rewrite E in *. assert (its' = its) as -> by congruence. eexists. rewrite lookup_insert_eq. split; [done|].
    rewrite Hperm in Hx'. apply elem_of_cons in Hx' as [->|Hx']; [congruence|done].
Qed.

(** Different buffers, over all flows. *)
Lemma table_ok_nodup f W t l : table_ok f W t -> l ≡ₚ map_to_list t -> NoDup (idx <$> concat (map snd l)).
Proof.
  intros [Hi _] Hl. assert (NoDup (l.*1)) as Hnd by (rewrite Hl; apply NoDup_fst_map_to_list).
  assert (forall k its, (k, its) ∈ l -> t !! k = Some its) as Hin by (intros k its Hin; apply elem_of_map_to_list; by rewrite <- Hl).
  clear Hl. induction l as [|[k its] l IH]; cbn [map concat snd]; [constructor|]. cbn in Hnd. apply NoDup_cons in Hnd as [Hnk Hnd].
  destruct (Hi k its (Hin k its ltac:(by left))) as [Hnd1 Hit]. rewrite fmap_app. apply NoDup_app.
  split; [done|]. split; [|apply IH; [done|]; intros; apply Hin; by right].
  intros j Hj Hj'. apply list_elem_of_fmap in Hj as (x & -> & Hx). apply list_elem_of_fmap in Hj' as (y & E & Hy).
  apply list_elem_of_In, in_concat in Hy as (its' & Hits & Hy). apply in_map_iff in Hits as ([k' its''] & <- & Hkl).
  apply list_elem_of_In in Hkl. apply list_elem_of_In in Hy. cbn in Hy.
  destruct (Hit x Hx) as (Ek & _ & Ex). destruct (Hi k' its'' (Hin k' its'' ltac:(by right))) as [_ Hit'].
  destruct (Hit' y Hy) as (Ek' & _ & Ey). rewrite E, Ey in Ex. injection Ex as ->.
  apply Hnk. apply list_elem_of_fmap. exists (k', its''). split; [cbn; congruence|done].
Qed.

(** The items listed flow by flow are those of the table. *)
Lemma table_ok_list f W t l it : table_ok f W t -> l ≡ₚ map_to_list t ->
  it ∈ concat (map snd l) <-> exists its, t !! key it = Some its /\ it ∈ its.
Proof.
  intros [Hi _] Hl. rewrite list_elem_of_In, in_concat. split.
  - intros (its & Hits & Hin). apply in_map_iff in Hits as ([k its'] & <- & Hkl). cbn in Hin. apply list_elem_of_In in Hkl, Hin.
    rewrite Hl in Hkl. apply elem_of_map_to_list in Hkl. destruct (Hi _ _ Hkl) as [_ Hit]. destruct (Hit it Hin) as (-> & _). by exists its'.
  - intros (its & Hlk & Hin). exists its. split; [|by apply list_elem_of_In]. apply in_map_iff. exists (key it, its). split; [done|].
    apply list_elem_of_In. rewrite Hl. by apply elem_of_map_to_list.
Qed.
End TableOk.

(** ** The invariant *)

#[export] Instance Zlen_Permutation {A} : Proper (Permutation ==> eq) (@Zlen A).
Proof. intros l l' Hp. unfold Zlen. by rewrite Hp. Qed.

(** What a written buffer holds: a packet that is passed on with an empty
    virtio header; a packet whose checksum was found to be wrong; a group in a
    flow table. *)
Inductive kind := KPlain | KDropped | KTcp (it : tcpGROItem) | KUdp (it : udpGROItem).
Record entry := mkEntry { e_ids : list Z; e_kind : kind }.

Definition tcp_of (E : Z -> entry) (j : Z) : option tcpGROItem := match e_kind (E j) with KTcp it => Some it | _ => None end.
Definition udp_of (E : Z -> entry) (j : Z) : option udpGROItem := match e_kind (E j) with KUdp it => Some it | _ => None end.

(** The packets of the written buffers, in the order of writing. *)
Definition all_ids (E : Z -> entry) (W : list Z) : list Z := concat (map (fun j => e_ids (E j)) W).

Lemma all_ids_ext E E' W : (forall j, j ∈ W -> e_ids (E' j) = e_ids (E j)) -> all_ids E' W = all_ids E W.
Proof.
  intros H. unfold all_ids. f_equal. apply map_ext_in. intros j Hj. apply H. by apply list_elem_of_In.
Qed.
Lemma all_ids_grow E W j e x : NoDup W -> j ∈ W -> e_ids e ≡ₚ x :: e_ids (E j) ->
  all_ids (<[j := e]> E) W ≡ₚ x :: all_ids E W.
Proof.
  intros Hnd Hj He. induction W as [|k W IH]; [by apply elem_of_nil in Hj|]. apply NoDup_cons in Hnd as [Hk Hnd].
  unfold all_ids. cbn [map concat]. change (concat (map _ W)) with (all_ids (<[j := e]> E) W) at 1.
  change (concat (map _ W)) with (all_ids E W). destruct (decide (k = j)) as [->|Hne].
  - rewrite fn_lookup_insert, He. rewrite (all_ids_ext E (<[j:=e]> E) W); [done|].
    intros k Hk'. rewrite fn_lookup_insert_ne; [done|]. by intros ->.
  - apply elem_of_cons in Hj as [->|Hj]; [done|]. rewrite fn_lookup_insert_ne by done. rewrite (IH Hnd Hj).
    by rewrite Permutation_middle.
Qed.
Lemma all_ids_snoc E W j : all_ids E (W ++ [j]) = all_ids E W ++ e_ids (E j).
Proof. unfold all_ids. rewrite map_app, concat_app. cbn. by rewrite app_nil_r. Qed.

Section Inv.
Context `{ChecksumImpl} `{UnixVirtio} (big : bool) (P : Z -> list Z) (N offset : Z) (skip : bool).
Hypothesis offset_ok : 10 <= offset.
Hypothesis N_ok : N <= 65536.
Hypothesis P_bytes : forall k, 0 <= k < N -> bytes (P k).

Record udp_item_ok (it : udpGROItem) (ids V : list Z) : Prop := {
  uo_iph : ui_iphLen it = iph (uk_isV6 (ui_key it));
  uo_group : udp_group P (uk_isV6 (ui_key it)) (ui_gsoSize it) ids V;
  uo_num : ui_numMerged it = Zlen ids - 1;
  uo_key : ui_key it = udp_key (uk_isV6 (ui_key it)) (head P ids);
  uo_len : Zlen V <= 65535
}.

(** A group of one packet is that packet, where it was. *)
Definition alone (j : Z) (ids V : list Z) : Prop := Zlen ids = 1 -> ids = [j] /\ V = P j.

Definition entry_ok (e : entry) (j : Z) (V h : list Z) : Prop :=
  match e_kind e with
  | KPlain => e_ids e = [j] /\ V = P j /\ h = hdr_bytes big zero_hdr
  | KDropped => e_ids e = [j] /\ V = P j /\ skip = false
  | KTcp it => ti_bufsIndex it = j /\ tcp_item_ok P it (e_ids e) V /\ alone j (e_ids e) V
  | KUdp it => ui_bufsIndex it = j /\ udp_item_ok it (e_ids e) V /\ alone j (e_ids e) V
  end.

Record inv (i : Z) (st : gro) (E : Z -> entry) : Prop := {
  iv_i : 0 <= i <= N;
  iv_bufs : bufs_ok offset st;
  iv_len : Z.of_nat (length (gr_bufs st)) = N;
  iv_nodup : NoDup (gr_toWrite st);
  iv_range : forall j, j ∈ gr_toWrite st -> 0 <= j < i;
  iv_ids : all_ids E (gr_toWrite st) ≡ₚ seqZ 0 i;
  iv_rest : forall k, i <= k < N -> pks offset st !! Z.to_nat k = Some (P k);
  iv_entry : forall j, j ∈ gr_toWrite st -> exists V h,
    pks offset st !! Z.to_nat j = Some V /\ vhs offset st !! Z.to_nat j = Some h /\ entry_ok (E j) j V h;
  iv_tcp : table_ok ti_key ti_bufsIndex (tcp_of E) (gr_toWrite st) (itemsByFlow (gr_tcp st));
  iv_udp : table_ok ui_key ui_bufsIndex (udp_of E) (gr_toWrite st) (itemsByFlow (gr_udp st));
  iv_udp_ne : forall k its, itemsByFlow (gr_udp st) !! k = Some its -> its <> [];
  iv_pool : N - i <= Z.of_nat (itemsPool (gr_tcp st)) /\ N - i <= Z.of_nat (itemsPool (gr_udp st))
}.

Lemma iv_fresh i st E : inv i st E -> i ∉ gr_toWrite st.
Proof. intros Hv Hi. pose proof (iv_range _ _ _ Hv i Hi). lia. Qed.

Lemma seqZ_snoc i : 0 <= i -> seqZ 0 (i + 1) = seqZ 0 i ++ [i].
Proof. intros. rewrite seqZ_app by lia. by rewrite (seqZ_cons (0 + i)), (seqZ_nil (Z.succ (0 + i))) by lia. Qed.

(** The ghost state after an update, as seen by the tables. *)
Lemma tcp_of_insert E j e k : tcp_of (<[j := e]> E) k = (<[j := tcp_of (fun _ => e) j]> (tcp_of E)) k.
Proof. unfold tcp_of. destruct (decide (j = k)) as [->|]; [by rewrite !fn_lookup_insert|by rewrite !fn_lookup_insert_ne]. Qed.
Lemma udp_of_insert E j e k : udp_of (<[j := e]> E) k = (<[j := udp_of (fun _ => e) j]> (udp_of E)) k.
Proof. unfold udp_of. destruct (decide (j = k)) as [->|]; [by rewrite !fn_lookup_insert|by rewrite !fn_lookup_insert_ne]. Qed.

(** A table that is not concerned by the new entry of [j]. *)
Lemma table_keep {K I} `{Countable K} (key : I -> K) (idx : I -> Z) (f g : Z -> option I) W t j :
  (forall k, k <> j -> f k = g k) -> f j = None -> g j = None -> table_ok key idx f W t -> table_ok key idx g W t.
Proof.
  intros E Hf Hg Ht. eapply table_ok_ext; [|exact Ht]. intros k _. destruct (decide (k = j)) as [->|]; [congruence|auto].
Qed.
Lemma tcp_of_other E j e k : k <> j -> tcp_of E k = tcp_of (<[j := e]> E) k.
Proof. intros. unfold tcp_of. by rewrite fn_lookup_insert_ne. Qed.
Lemma udp_of_other E j e k : k <> j -> udp_of E k = udp_of (<[j := e]> E) k.
Proof. intros. unfold udp_of. by rewrite fn_lookup_insert_ne. Qed.

(** Packet [i] is written from its own buffer. *)
Lemma inv_push i st E e st' h :
  inv i st E -> i < N -> bufs_ok offset st' -> pks offset st' = pks offset st ->
  (forall k, k <> Z.to_nat i -> vhs offset st' !! k = vhs offset st !! k) -> vhs offset st' !! Z.to_nat i = Some h ->
  gr_toWrite st' = gr_toWrite st ++ [i] -> e_ids e = [i] -> entry_ok e i (P i) h ->
  table_ok ti_key ti_bufsIndex (tcp_of (<[i := e]> E)) (gr_toWrite st') (itemsByFlow (gr_tcp st')) ->
  table_ok ui_key ui_bufsIndex (udp_of (<[i := e]> E)) (gr_toWrite st') (itemsByFlow (gr_udp st')) ->
  (forall k its, itemsByFlow (gr_udp st') !! k = Some its -> its <> []) ->
  (itemsPool (gr_tcp st) - 1 <= itemsPool (gr_tcp st'))%nat -> (itemsPool (gr_udp st) - 1 <= itemsPool (gr_udp st'))%nat ->
  inv (i + 1) st' (<[i := e]> E).
Proof.
  intros Hv Hlt Hb Hp Hvh Hvi HW Hids He Ht Hu Hune Hp1 Hp2. pose proof (iv_fresh _ _ _ Hv) as Hfr.
  destruct Hv as [Hi Hbufs Hlen Hnd Hr Hperm Hrest Hent _ _ _ [Hpl1 Hpl2]].
  assert (forall j, j ∈ gr_toWrite st -> (<[i := e]> E) j = E j) as Hold.
  { intros j Hj. apply fn_lookup_insert_ne. intros ->. done. }
  split; try done; try lia.
  - by rewrite <- (length_pks offset), Hp, length_pks.
  - rewrite HW. apply NoDup_app. split; [done|]. split; [|apply NoDup_singleton].
    intros x Hx Hx'. apply list_elem_of_singleton in Hx' as ->. done.
  - intros j Hj. rewrite HW in Hj. apply elem_of_app in Hj as [Hj|Hj]; [specialize (Hr j Hj); lia|].
    apply list_elem_of_singleton in Hj as ->. lia.
  - rewrite HW, all_ids_snoc, fn_lookup_insert, Hids, seqZ_snoc by lia. rewrite (all_ids_ext E), Hperm; [done|].
    intros j Hj. by rewrite Hold.
  - intros k Hk. rewrite Hp. apply Hrest. lia.
  - intros j Hj. rewrite HW in Hj. apply elem_of_app in Hj as [Hj|Hj].
    + destruct (Hent j Hj) as (V & h' & H1 & H2 & H3). exists V, h'. rewrite Hold by done. split_and!; try done; [by rewrite Hp|].
      rewrite Hvh; [done|]. specialize (Hr j Hj). lia.
    + apply list_elem_of_singleton in Hj as ->. exists (P i), h. rewrite fn_lookup_insert. split_and!; try done.
      rewrite Hp. apply Hrest. lia.
Qed.

(** Packet [i] joins the group in buffer [j]. *)
Lemma inv_merge i st E j e st1 st' V :
  inv i st E -> i < N -> j ∈ gr_toWrite st -> changed offset i j st st1 -> pks offset st1 !! Z.to_nat j = Some V ->
  gr_arrays st' = gr_arrays st1 -> gr_bufs st' = gr_bufs st1 -> gr_toWrite st' = gr_toWrite st ->
  e_ids e ≡ₚ i :: e_ids (E j) -> (forall h, entry_ok e j V h) ->
  table_ok ti_key ti_bufsIndex (tcp_of (<[j := e]> E)) (gr_toWrite st') (itemsByFlow (gr_tcp st')) ->
  table_ok ui_key ui_bufsIndex (udp_of (<[j := e]> E)) (gr_toWrite st') (itemsByFlow (gr_udp st')) ->
  (forall k its, itemsByFlow (gr_udp st') !! k = Some its -> its <> []) ->
  itemsPool (gr_tcp st') = itemsPool (gr_tcp st) -> itemsPool (gr_udp st') = itemsPool (gr_udp st) ->
  inv (i + 1) st' (<[j := e]> E).
Proof.
  intros Hv Hlt Hj (Hb & _ & Hl & Hch) HV Ea Ebf HW Hids He Ht Hu Hune Hp1 Hp2. pose proof (iv_fresh _ _ _ Hv) as Hfr.
  destruct Hv as [Hi Hbufs Hlen Hnd Hr Hperm Hrest Hent _ _ _ [Hpl1 Hpl2]]. pose proof (Hr j Hj) as Hjr.
  assert (bufs_ok offset st' /\ pks offset st' = pks offset st1 /\ vhs offset st' = vhs offset st1) as (Hb' & Ep & Ev)
    by (unfold bufs_ok, pks, vhs in *; by rewrite Ea, Ebf).
  split; try done; try lia.
  - by rewrite Ebf, Hl.
  - by rewrite HW.
  - intros k Hk. rewrite HW in Hk. specialize (Hr k Hk). lia.
  - rewrite HW, seqZ_snoc by lia. rewrite (all_ids_grow E _ j e i) by done. rewrite Hperm. apply Permutation_cons_append.
  - intros k Hk. rewrite Ep. destruct (Hch (Z.to_nat k)) as [-> _]; [lia|lia|]. apply Hrest. lia.
  - intros k Hk. rewrite HW in Hk. rewrite Ep, Ev. destruct (decide (k = j)) as [->|Hne].
    + exists V. destruct (lookup_lt_is_Some_2 (vhs offset st1) (Z.to_nat j)) as [h Hh].
      { unfold vhs. rewrite length_fmap. apply lookup_lt_Some in HV. by rewrite length_pks in HV. }
      exists h. rewrite fn_lookup_insert. auto.
    + destruct (Hent k Hk) as (V' & h' & H1 & H2 & H3). exists V', h'. rewrite fn_lookup_insert_ne by done.
      specialize (Hr k Hk). destruct (Hch (Z.to_nat k)) as [-> ->]; [lia|lia|]. done.
Qed.

(** ** TCP *)

Lemma gruns_get_tcp st : gruns get_tcp st (gr_tcp st) st.
Proof. done. Qed.
Lemma gruns_set_tcp st t : gruns (set_tcp (Ok t)) st tt (with_tcp st t).
Proof. done. Qed.
Lemma table_eta {K I} `{Countable K} (t : groTable K I) : t = mkTable (itemsByFlow t) (itemsPool t).
Proof. by destruct t. Qed.

(** An item of the table, and the buffer it is about. *)
Lemma tcp_item_buffer i st E it its : inv i st E -> itemsByFlow (gr_tcp st) !! ti_key it = Some its -> it ∈ its ->
  ti_bufsIndex it ∈ gr_toWrite st /\ 0 <= ti_bufsIndex it < i /\ e_kind (E (ti_bufsIndex it)) = KTcp it /\
  exists b m V h, holds offset st (ti_bufsIndex it) b m V h /\ tcp_item_ok P it (e_ids (E (ti_bufsIndex it))) V /\
    alone (ti_bufsIndex it) (e_ids (E (ti_bufsIndex it))) V.
Proof.
  intros Hv Hl Hin. destruct (tk_items _ _ _ _ _ (iv_tcp _ _ _ Hv) _ _ Hl) as [_ Hit].
  destruct (Hit it Hin) as (_ & HW & Hof). pose proof (iv_range _ _ _ Hv _ HW) as Hr.
  assert (e_kind (E (ti_bufsIndex it)) = KTcp it) as Hk by (unfold tcp_of in Hof; destruct (e_kind _); simplify_eq; done).
  destruct (iv_entry _ _ _ Hv _ HW) as (V & h & Hp & _ & He). unfold entry_ok in He. rewrite Hk in He. destruct He as (_ & Hto & Ha).
  destruct (pks_lookup offset st (ti_bufsIndex it) V (iv_bufs _ _ _ Hv) ltac:(lia) Hp) as (b & m & h' & Hh & _).
  split_and!; try done; try lia. by exists b, m, V, h'.
Qed.

Lemma inv_drop i st E it its p : inv i st E -> skip = false ->
  itemsByFlow (gr_tcp st) !! ti_key it = Some its -> its !! p = Some it -> Zlen (e_ids (E (ti_bufsIndex it))) = 1 ->
  exists t', deleteAt (gr_tcp st) (ti_key it) p = Ok t' /\ itemsByFlow t' !! ti_key it = Some (delete p its) /\
    inv i (with_tcp st t') (<[ti_bufsIndex it := mkEntry [ti_bufsIndex it] KDropped]> E).
Proof.
  intros Hv Hs Hl Hp H1. pose proof (list_elem_of_lookup_2 _ _ _ Hp) as Hin.
  destruct (tcp_item_buffer i st E it its Hv Hl Hin) as (HW & Hr & Hk & b & m & V & h & Hh & Hto & Ha).
  destruct (Ha H1) as [Eids EV]. destruct (holds_pks offset _ _ _ _ _ _ Hh) as [Kp Kv].
  destruct (table_ok_delete _ _ _ _ _ (itemsPool (gr_tcp st)) _ _ _ (iv_tcp _ _ _ Hv) Hl Hp) as [Hdel Hok].
  rewrite <- table_eta in Hdel. eexists. split; [exact Hdel|]. split; [apply lookup_insert_eq|].
  set (j := ti_bufsIndex it) in *. set (e := mkEntry [j] KDropped).
  destruct Hv as [Hi Hbufs Hlen Hnd Hrg Hperm Hrest Hent Ht Hu Hune Hpl]. split; try done.
  - rewrite (all_ids_ext E); [done|]. intros k Hkk. destruct (decide (k = j)) as [->|Hne].
    + rewrite fn_lookup_insert. cbn. by rewrite Eids.
    + by rewrite fn_lookup_insert_ne.
  - intros k Hkk. destruct (decide (k = j)) as [->|Hne].
    + exists V, h. rewrite fn_lookup_insert. split_and!; try done.
    + rewrite fn_lookup_insert_ne by done. by apply Hent.
  - cbn. eapply table_ok_ext; [|exact Hok]. intros k _. by rewrite tcp_of_insert.
  - cbn. eapply (table_keep _ _ (udp_of E) _ _ _ j); [by apply udp_of_other| | |done].
    + unfold udp_of. by rewrite Hk.
    + unfold udp_of. by rewrite fn_lookup_insert.
Qed.

(** After a merge into an item of the table. *)
Lemma inv_tcp_merge i st E it it' its p st1 V ids' : inv i st E -> i < N ->
  itemsByFlow (gr_tcp st) !! ti_key it = Some its -> its !! p = Some it ->
  changed offset i (ti_bufsIndex it) st st1 -> pks offset st1 !! Z.to_nat (ti_bufsIndex it) = Some V ->
  tcp_item_ok P it' ids' V -> ids' ≡ₚ i :: e_ids (E (ti_bufsIndex it)) -> ti_key it' = ti_key it -> ti_bufsIndex it' = ti_bufsIndex it ->
  exists t', updateAt (gr_tcp st) (ti_key it) it' p = Ok t' /\
    inv (i + 1) (with_tcp st1 t') (<[ti_bufsIndex it := mkEntry ids' (KTcp it')]> E).
Proof.
  intros Hv Hlt Hl Hp Hch HV Hto Hids Ek Ei. pose proof (list_elem_of_lookup_2 _ _ _ Hp) as Hin.
  destruct (tcp_item_buffer i st E it its Hv Hl Hin) as (HW & Hr & Hk & b & m & V0 & h & Hh & Hto0 & _).
  destruct (table_ok_update _ _ _ _ _ (itemsPool (gr_tcp st)) _ _ _ it' (iv_tcp _ _ _ Hv) Hl Hp Ek Ei) as [Hup Hok].
  rewrite <- table_eta in Hup. eexists. split; [exact Hup|]. pose proof Hch as (_ & (Et & Eu & EW) & _).
  eapply (inv_merge i st E _ _ st1); cbn [with_tcp gr_toWrite gr_tcp gr_udp gr_arrays gr_bufs]; try done.
  - intros h'. split; [done|]. split; [done|]. intros H1. cbn in H1. rewrite Hids, Zlen_cons in H1.
    destruct (group_numMerged _ _ _ _ _ (tg_group _ _ _ _ _ _ _ _ (to_group _ _ _ _ Hto0))) as [[? _] _]. lia.
  - rewrite EW. eapply table_ok_ext; [|exact Hok]. intros k _. by rewrite tcp_of_insert.
  - rewrite EW, Eu. eapply (table_keep _ _ (udp_of E) _ _ _ (ti_bufsIndex it)); [by apply udp_of_other| | |by apply (iv_udp _ _ _ Hv)].
    + unfold udp_of. by rewrite Hk.
    + unfold udp_of. by rewrite fn_lookup_insert.
  - rewrite Eu. by apply (iv_udp_ne _ _ _ Hv).
  - by rewrite Eu.
Qed.

(** What the loop over the items of a flow leaves behind. *)
Definition items_post (i : Z) (b : bslice) (m h : list Z) (r : option groResult) (st' : gro) : Prop :=
  exists E', match r with
             | Some groResultCoalesced => inv (i + 1) st' E'
             | Some groResultTableInsert => False
             | _ => inv i st' E' /\ holds offset st' i b m (P i) h
             end.
(** A table whose list for the flow still starts with the first [n] items. *)
Definition flow_prefix (key : tcpFlowKey) (items : list tcpGROItem) (n : nat) (st : gro) : Prop :=
  exists its, itemsByFlow (gr_tcp st) !! key = Some its /\ (n <= length its)%nat /\ (forall p, p < n -> its !! p = items !! p)%nat.

Lemma after_coalesce i b m h st E it its n items next r st' :
  inv i st E -> i < N -> holds offset st i b m (P i) h ->
  itemsByFlow (gr_tcp st) !! ti_key it = Some its -> its !! n = Some it -> (forall p, p < n -> its !! p = items !! p)%nat ->
  coalesce_post P offset st i it (e_ids (E (ti_bufsIndex it))) skip r st' ->
  (forall st1 E1, inv i st1 E1 -> holds offset st1 i b m (P i) h -> flow_prefix (ti_key it) items n st1 ->
     gpost next st1 (items_post i b m h)) ->
  gpost (match r.1 with
         | coalesceSuccess => t <-- get_tcp ;; _ <-- set_tcp (updateAt t (ti_key r.2) r.2 n) ;; gret (Some groResultCoalesced)
         | coalesceItemInvalidCSum => t <-- get_tcp ;; _ <-- set_tcp (deleteAt t (ti_key r.2) n) ;; next
         | coalescePktInvalidCSum => gret (Some groResultNoop)
         | _ => next
         end) st' (items_post i b m h).
Proof.
  intros Hv Hlt Hh Hl Hit Hpre Hpost Hnext. pose proof (lookup_lt_Some _ _ _ Hit) as Hlen.
  assert (gpost next st (items_post i b m h)) as Hsame.
  { eapply Hnext; [exact Hv|done|]. exists its. split_and!; try done. lia. }
  destruct r as [r it']. unfold coalesce_post in Hpost. cbn [fst snd] in *. destruct r.
  - by subst st'.
  - by subst st'.
  - destruct Hpost as (-> & -> & H1 & Hs). destruct (inv_drop i st E it its n Hv Hs Hl Hit H1) as (t' & Hdel & Hlk & Hv').
    eapply gpost_step; [apply gruns_get_tcp|]. cbn beta. rewrite Hdel. eapply gpost_step; [apply gruns_set_tcp|].
    eapply Hnext; [exact Hv'|done|]. eexists. split; [exact Hlk|]. split.
    + rewrite length_delete by (by eexists). lia.
    + intros p Hp. rewrite list_lookup_delete_lt by done. by apply Hpre.
  - destruct Hpost as [-> Hs]. apply gpost_ret. by exists E.
  - destruct Hpost as (V' & ids' & Hch & HV & Hto' & Hids & Ek' & Ei'). pose proof Hch as (_ & (Et & _) & _).
    destruct (inv_tcp_merge i st E it it' its n st' V' ids' Hv Hlt Hl Hit Hch HV Hto' Hids Ek' Ei') as (t' & Hup & Hv').
    eapply gpost_step; [apply gruns_get_tcp|]. cbn beta. rewrite Et, Ek', Hup. eapply gpost_step; [apply gruns_set_tcp|].
    apply gpost_ret. eexists. exact Hv'.
Qed.

Lemma tcp_items_ok i v6 cd items b m h n st E :
  inv i st E -> i < N -> holds offset st i b m (P i) h -> is_cand v6 (P i) cd -> version_ok v6 (P i) ->
  (n <= length items)%nat -> flow_prefix (tcp_key v6 (P i)) items n st ->
  gpost (tcp_items n items (packet_slice offset b) i cd offset v6 skip) st (items_post i b m h).
Proof.
  intros Hv Hlt Hh Hcd Hver. revert st E Hv Hh.
  induction n as [|n IH]; intros st E Hv Hh Hn Hpre; cbn [tcp_items]; [apply gpost_ret; by exists E|].
  assert (forall st1 E1, inv i st1 E1 -> holds offset st1 i b m (P i) h -> flow_prefix (tcp_key v6 (P i)) items n st1 ->
    gpost (tcp_items n items (packet_slice offset b) i cd offset v6 skip) st1 (items_post i b m h)) as Hnext.
  { intros st1 E1 Hv1 Hh1 Hpre1. eapply IH; try done. lia. }
  clear IH. destruct Hpre as (its & Hl & Hn' & Hpre).
  destruct (lookup_lt_is_Some_2 its n) as [it Hit]; [lia|]. rewrite <- Hpre, Hit by lia.
  assert (tcp_key v6 (P i) = ti_key it) as Ek.
  { destruct (tk_items _ _ _ _ _ (iv_tcp _ _ _ Hv) _ _ Hl) as [_ Hits]. symmetry. apply Hits. by eapply list_elem_of_lookup_2. }
  assert (v6 = tk_isV6 (ti_key it)) as E6 by (by rewrite <- Ek). rewrite Ek in Hl, Hnext.
  destruct (tcp_item_buffer i st E it its Hv Hl ltac:(by eapply list_elem_of_lookup_2)) as (HW & Hr & Hk & bj & mj & V & hj & Hj & Hto & _).
  assert (i <> ti_bufsIndex it) as Hne by lia. rewrite E6 in Hcd, Hver, Ek. pose proof (iv_bufs _ _ _ Hv) as Hb.
  assert (forall p, p < n -> its !! p = items !! p)%nat as Hpre' by (intros p Hp; apply Hpre; lia).
  eapply gpost_bind; [by eapply (tcpCan_ok P offset offset_ok st i b m (P i) h bj mj V hj it)|].
  intros can st' [-> Hcan]. cbn beta zeta. rewrite E6 in *. destruct can.
  - eapply gpost_bind; [by eapply prepend_ok|]. intros r st' Hpost. by eapply after_coalesce.
  - eapply Hnext; try done. exists its. split_and!; try done. lia.
  - eapply gpost_bind; [by eapply append_ok|]. intros r st' Hpost. by eapply after_coalesce.
Qed.

Definition pushed (st : gro) (i : Z) : gro := mkGro (gr_arrays st) (gr_bufs st) (gr_tcp st) (gr_udp st) (gr_toWrite st ++ [i]).

(** What GRO of one packet leaves behind; the caller adds [i] to the buffers
    that are written. *)
Definition packet_post (i : Z) (r : groResult) (st' : gro) : Prop :=
  exists E', match r with
             | groResultNoop => inv i st' E'
             | groResultTableInsert => inv (i + 1) (pushed st' i) E'
             | groResultCoalesced => inv (i + 1) st' E'
             end.

Lemma new_tcp_item_ok v6 cd key i m s l cc : 0 <= s -> 0 <= l -> l <= cc -> s + cc <= Zlen m ->
  is_cand v6 (window m s l) cd -> 0 <= i < 65536 ->
  runs (new_tcp_item key (Slice s l cc) (cd_iphLen cd) (cd_tcphLen cd) i) m
    (mkTCPItem key (cd_seq cd) i 0 (cd_gsoSize cd) (iph v6) (cd_tcphLen cd) (cd_psh cd)) m.
Proof.
  intros Hs Hl0 Hl Hz [Ei Hth [Hlen H65] Hg Hseq Hfl] Hi. rewrite Zlen_window in * by lia. pose proof (iph_range v6) as Hr.
  rewrite Ei. unfold new_tcp_item, tcpFlagsOffset. eapply runs_eq; [go_run| |done]. cbn [sl_len].
  rewrite (u16_small i), u16_small, !u8_small by lia. f_equal.
  - rewrite Hseq. symmetry. unfold get32. rewrite !get16_window by lia. by rewrite !Z.add_assoc.
  - lia.
  - rewrite byte_at_window in Hfl by lia. rewrite Hfl. by destruct (cd_psh cd).
Qed.

Lemma packet_window st i b m C h : holds offset st i b m C h ->
  gr_arrays st !! b_arr b = Some m /\ 0 <= sl_off (b_sl b) + offset /\ 0 <= sl_len (b_sl b) - offset /\
  sl_len (b_sl b) - offset <= sl_cap (b_sl b) - offset /\
  sl_off (b_sl b) + offset + (sl_cap (b_sl b) - offset) <= Zlen m /\
  window m (sl_off (b_sl b) + offset) (sl_len (b_sl b) - offset) = C.
Proof. intros (_ & _ & (Hm & _ & B0 & B1 & B2 & B3 & _) & _ & -> & _). split_and!; done || lia. Qed.

Lemma tcp_insert_ok i st E b m h v6 cd :
  inv i st E -> i < N -> holds offset st i b m (P i) h -> is_cand v6 (P i) cd ->
  gpost (tcp_insert (tcp_key v6 (P i)) (packet_slice offset b) (cd_iphLen cd) (cd_tcphLen cd) i) st
    (fun _ st' => exists E', inv (i + 1) (pushed st' i) E').
Proof.
  intros Hv Hlt Hh Hcd. destruct (packet_window _ _ _ _ _ _ Hh) as (Hm & W0 & W1 & W2 & W3 & EW). pose proof (iv_i _ _ _ Hv) as Hi.
  set (it := mkTCPItem (tcp_key v6 (P i)) (cd_seq cd) i 0 (cd_gsoSize cd) (iph v6) (cd_tcphLen cd) (cd_psh cd)).
  unfold tcp_insert. eapply gpost_step.
  { eapply gruns_read; [exact Hm|]. apply (new_tcp_item_ok v6); try done; [by rewrite EW|lia]. }
  cbn beta. fold it. eapply gpost_step; [apply gruns_get_tcp|]. cbn beta. set (e := mkEntry [i] (KTcp it)).
  pose proof (iv_fresh _ _ _ Hv) as Hfr. destruct (iv_pool _ _ _ Hv) as [Hpl _].
  destruct (table_ok_insert ti_key ti_bufsIndex (tcp_of (<[i := e]> E)) (gr_toWrite st) (itemsByFlow (gr_tcp st)) (itemsPool (gr_tcp st)) it)
    as (t' & pool' & Hins & Hok & Hpool); try done.
  { eapply table_ok_ext; [|by apply (iv_tcp _ _ _ Hv)]. intros k Hk. apply tcp_of_other. by intros ->. }
  { unfold tcp_of. cbn [ti_bufsIndex it]. by rewrite fn_lookup_insert. }
  { lia. }
  rewrite <- table_eta in Hins. change (ti_key it) with (tcp_key v6 (P i)) in Hins. rewrite Hins.
  eexists tt, _. split; [apply gruns_set_tcp|]. exists (<[i := e]> E). destruct (holds_pks offset _ _ _ _ _ _ Hh) as [Kp Kv].
  eapply (inv_push i st E e _ h); try done.
  - by apply (iv_bufs _ _ _ Hv).
  - split; [done|]. split; [|done]. split; try done; [|by destruct Hcd as [_ _ [_ ?] _ _ _]]. apply (tcp_group_one P v6 cd); [done| |done]. apply P_bytes. lia.
  - cbn. apply table_ok_other; [unfold udp_of; by rewrite fn_lookup_insert|done|].
    eapply table_ok_ext; [|by apply (iv_udp _ _ _ Hv)]. intros k Hk. apply udp_of_other. by intros ->.
  - by apply (iv_udp_ne _ _ _ Hv).
  - cbn. lia.
Qed.

Lemma tcpGRO_ok i st E v6 : inv i st E -> i < N -> cand_guard v6 20 (P i) -> version_ok v6 (P i) ->
  gpost (tcpGRO offset i v6 skip) st (packet_post i).
Proof.
  intros Hv Hlt Hg Hver. pose proof (iv_i _ _ _ Hv) as Hi.
  destruct (pks_lookup offset st i (P i) (iv_bufs _ _ _ Hv) ltac:(lia) (iv_rest _ _ _ Hv i ltac:(lia))) as (b & m & h & Hh & _).
  destruct (packet_window _ _ _ _ _ _ Hh) as (Hm & W0 & W1 & W2 & W3 & EW). pose proof (iph_range v6) as Hr.
  unfold tcpGRO. eapply gpost_step; [by eapply gruns_holds|]. eapply gpost_step; [eapply gruns_packet; [done|apply Hh]|].
  destruct (tcp_check_ok m _ _ _ v6 W0 W2 W3 W1 ltac:(by rewrite EW)) as (r & Rr & Hrr). rewrite EW in Hrr.
  eapply gpost_step; [eapply gruns_read; [exact Hm|exact Rr]|]. cbn beta.
  destruct r as [cd|]; [|apply gpost_ret; by exists E]. pose proof Hrr as [Ei Hth [Hlen _] Hgso _ _].
  assert (runs (newTCPFlowKey (Slice (sl_off (b_sl b) + offset) (sl_len (b_sl b) - offset) (sl_cap (b_sl b) - offset))
    (if v6 then ipv6SrcAddrOffset else ipv4SrcAddrOffset)
    ((if v6 then ipv6SrcAddrOffset else ipv4SrcAddrOffset) + (if v6 then 16 else 4)) (iph v6)) m (tcp_key v6 (P i)) m) as Rk.
  { rewrite <- EW. apply newTCPFlowKey_ok; try lia. rewrite <- EW, Zlen_window in Hlen by lia. lia. }
  eapply gpost_step; [done|]. cbn beta. destruct (Z.eqb_spec (Zlen (gr_bufs st)) 1); [apply gpost_ret; by exists E|].
  unfold tcp_lookupOrInsert.
  destruct (itemsByFlow (gr_tcp st) !! tcp_key v6 (P i)) as [items|] eqn:Hl.
  - eapply gpost_step.
    { eapply gruns_bind; [eapply gruns_read; [exact Hm|]; rewrite Ei; exact Rk|]. cbn beta.
      eapply gruns_bind; [apply gruns_get_tcp|]. cbn beta. rewrite Hl. apply gruns_ret. }
    cbn beta iota. eapply gpost_bind.
    { eapply (tcp_items_ok i v6 cd items b m h); try done. exists items. split_and!; try done. }
    intros r st' [E' Hpost]. cbn beta. destruct r as [[]|].
    + apply gpost_ret. exists E'. by destruct Hpost.
    + done.
    + apply gpost_ret. by exists E'.
    + destruct Hpost as [Hv' Hh']. destruct (packet_window _ _ _ _ _ _ Hh') as (Hm' & _).
      eapply gpost_step; [eapply gruns_read; [exact Hm'|]; rewrite Ei; exact Rk|]. cbn beta.
      eapply gpost_bind; [by eapply tcp_insert_ok|]. intros _ st1 [E1 Hv1]. apply gpost_ret. by exists E1.
  - eapply (gpost_bind _ _ _ (fun r st' => r = None /\ exists E', inv (i + 1) (pushed st' i) E')).
    { eapply gpost_step; [eapply gruns_read; [exact Hm|]; rewrite Ei; exact Rk|]. cbn beta.
      eapply gpost_step; [apply gruns_get_tcp|]. cbn beta. rewrite Hl.
      eapply gpost_bind; [by eapply tcp_insert_ok|]. intros _ st1 [E1 Hv1]. apply gpost_ret. split; [done|]. by exists E1. }
    intros r st' [-> [E1 Hv1]]. apply gpost_ret. by exists E1.
Qed.
End Inv.
