(* ===== verification/GroUdp.v ===== *)
(** * GRO of UDP packets

    [udpGRO] against [udp_group]: a packet joins the last group of its flow or
    starts a new one. *)
From stdpp Require Import functions.
From S2P Require Import Prelude Bytes GoMem Checksum TsChecksum Tcpip HdrChecksum UDP Offload Virtio Gro GroSpec GroBufs GroGroup GroTcp GroInv.

Section Udp.
Context `{CI : ChecksumImpl} `{UV : UnixVirtio} (big : bool) (P : Z -> list Z) (N offset : Z) (skip : bool).
Hypothesis offset_ok : 10 <= offset.
Hypothesis N_ok : N <= 65536.
Abbreviation holds := (holds offset).
Abbreviation packet_slice := (packet_slice offset).
Abbreviation inv := (inv big P N offset skip).
Abbreviation udp_item_ok := (udp_item_ok P).

Section Merge.
Context (st : gro) (i : Z) (b : bslice) (m C h : list Z) (bj : bslice) (mj V hj : list Z).
Context (it : udpGROItem) (ids : list Z) (g : Z).
Abbreviation v6 := (uk_isV6 (ui_key it)).
Hypothesis Hi : holds st i b m C h.
Hypothesis Hj : holds st (ui_bufsIndex it) bj mj V hj.
Hypothesis Hit : udp_item_ok it ids V.
Hypothesis Hcd : is_ucand v6 C g.
Hypothesis Hkey : udp_key v6 C = ui_key it.
Hypothesis Hver : version_ok v6 C.

Definition can_append_udp : Prop :=
  udp_alike v6 C (head P ids) /\ g <= ui_gsoSize it /\ (Zlen V - (iph v6 + 8)) mod ui_gsoSize it = 0.

Lemma udp_bounds : iph v6 + 8 < Zlen V /\ Zlen V <= 65535 /\ 1 <= ui_gsoSize it /\ 1 <= Zlen ids.
Proof.
  destruct Hit as [_ Hg _ _ H65]. destruct (group_numMerged _ _ _ _ _ (ug_group _ _ _ _ _ Hg)) as [Hn Hg1].
  pose proof Hj as (_ & _ & Hbuf & _ & EV & _).
  pose proof (Zlen_view offset offset_ok _ _ _ Hbuf) as E. rewrite <- EV in E. destruct Hbuf as (_ & _ & H0 & H1 & H2 & H3 & H4).
  lia.
Qed.

Lemma udpCan_ok :
  gpost (udpPacketsCanCoalesce (packet_slice b) (u8 (iph v6)) g it offset) st
    (fun r st' => st' = st /\ match r with coalesceUnavailable => True | coalesceAppend => can_append_udp | coalescePrepend => False end).
Proof.
  pose proof udp_bounds as (Hh & HV & Hg1 & _). pose proof (iph_range v6) as Hr. pose proof Hcd as [[Hl _] Hgso].
  pose proof Hit as [Eiph Hg Hnum Hk]. pose proof Hi as (_ & _ & Hbi & _ & EC & _). pose proof Hj as (_ & _ & Hbj & _ & EV & _).
  unfold udpPacketsCanCoalesce. eapply gpost_step; [by eapply gruns_holds|]. eapply gpost_step; [by eapply gruns_packet|].
  eapply gpost_step; [by eapply gruns_view|]. eapply gpost_step; [by eapply gruns_view|]. rewrite <- EC, <- EV.
  destruct (ipHeadersCanCoalesce C V) eqn:Eip; cbn [negb]; [|by apply gpost_ret].
  assert (ip_alike v6 C (head P ids)) as Hal.
  { apply (ip_alike_hdr v6 V); [|by apply ipHeaders_alike]. intros k Hkk. apply (ug_hdr _ _ _ _ _ Hg); lia. }
  unfold udphLen. rewrite (u8_small (iph v6)), u8_small by lia.
  pose proof (Zlen_view offset offset_ok _ _ _ Hbj) as EZ. rewrite <- EV in EZ.
  destruct Hbj as (Hmj & _ & H0 & H1 & H2 & H3 & H4).
  eapply gpost_step; [eapply gruns_btail; [exact Hmj|..]; cbn; lia|]. unfold blen, gmod. cbn [b_sl sl_len GroSpec.packet_slice].
  replace (ui_gsoSize it =? 0) with false by lia. eapply gpost_step; [apply gruns_ret|]. cbn beta. rewrite <- EZ.
  destruct (Z.eqb_spec ((Zlen V - (iph v6 + 8)) mod ui_gsoSize it) 0) as [Em|]; cbn [negb]; [|by apply gpost_ret].
  destruct (Z.ltb_spec (ui_gsoSize it) g); [by apply gpost_ret|]. apply gpost_ret. split; [done|].
  split; [split; [congruence|done]|]. split; [lia|done].
Qed.

Hypothesis Hok : bufs_ok offset st.
Hypothesis Hne : i <> ui_bufsIndex it.
Hypothesis HP : P i = C.
Hypothesis Hlast : Forall (fun x => x < i) ids.

Definition coalesce_udp_post (r : coalesceResult * udpGROItem) (st' : gro) : Prop :=
  match r.1 with
  | coalesceSuccess =>
      exists V', changed offset i (ui_bufsIndex it) st st' /\ pks offset st' !! Z.to_nat (ui_bufsIndex it) = Some V' /\
        udp_item_ok r.2 (ids ++ [i]) V' /\ ui_key r.2 = ui_key it /\ ui_bufsIndex r.2 = ui_bufsIndex it
  | _ => st' = st
  end.

(** Reading the checksum field and verifying it changes nothing. *)
Lemma sum_test k bk mk Vk hk (inv : bool) : holds st k bk mk Vk hk -> iph v6 + 8 <= Zlen Vk ->
  gpost (if inv then gret false
         else
           x <-- at_slice (packet_slice bk) (fun s => s <- tail s (u8 (iph v6 + 6)) ;; Uint16 s) ;;
           if x =? 0 then gret false else csum_ok skip (packet_slice bk) (iph v6) ipProtoUDP v6) st (fun _ st' => st' = st).
Proof.
  intros Hh Hle. destruct inv; [by apply gpost_ret|]. pose proof (iph_range v6) as Hr.
  destruct (packet_window offset offset_ok _ _ _ _ _ _ Hh) as (Hm & W0 & W1 & W2 & W3 & EW).
  rewrite <- EW, Zlen_window in Hle by lia. rewrite u8_small by lia.
  eapply gpost_step; [eapply gruns_read; [exact Hm|]; cbn [b_sl GroSpec.packet_slice]; go_run|]. cbn beta.
  destruct (_ =? 0); [by apply gpost_ret|]. unfold csum_ok. destruct skip; [by apply gpost_ret|].
  destruct (checksumValid_ok mk (sl_off (b_sl bk) + offset) _ (sl_cap (b_sl bk) - offset) v6 W2 ipProtoUDP Hle) as [r Hrr].
  exists r, st. split; [|done]. eapply gruns_read; [exact Hm|exact Hrr].
Qed.

Lemma append_udp_item : can_append_udp -> Zlen (V ++ pay (iph v6 + 8) C) <= 65535 ->
  udp_item_ok (mkUDPItem (ui_key it) (ui_bufsIndex it) (u16 (ui_numMerged it + 1)) (ui_gsoSize it) (ui_iphLen it)
    (ui_cSumKnownInvalid it)) (ids ++ [i]) (V ++ pay (iph v6 + 8) C).
Proof.
  intros (Hal & Hle & Hm) H65. pose proof Hit as [Hiph Hg Hnum Hk].
  pose proof (udp_group_append P v6 _ ids V C g i Hg HP Hcd Hle Hlast Hal Hm) as Hg'.
  destruct (group_numMerged _ _ _ _ _ (ug_group _ _ _ _ _ Hg')) as [[_ Hn] _]. pose proof (iph_range v6) as Hr.
  rewrite Zlen_app, Zlen_cons, Zlen_nil in Hn. pose proof (Zlen_nonneg ids) as Hz.
  split; cbn [ui_key ui_iphLen ui_gsoSize ui_numMerged]; try done.
  - rewrite Zlen_app, Zlen_cons, Zlen_nil, u16_small; lia.
  - rewrite head_app; [exact Hk|]. by apply (gp_ne _ _ _ _ _ (ug_group _ _ _ _ _ Hg)).
Qed.

Lemma append_udp_ok : can_append_udp ->
  gpost (coalesceUDPPackets (packet_slice b) it offset v6 skip) st coalesce_udp_post.
Proof.
  intros Hcan. pose proof udp_bounds as (Hh & HV & Hg1 & _). pose proof (iph_range v6) as Hr. pose proof Hcd as [[Hl _] Hgso].
  pose proof Hit as [Eiph Hg Hnum Hk]. destruct (room offset offset_ok _ _ _ _ _ _ Hi) as [ZC BC]. destruct (room offset offset_ok _ _ _ _ _ _ Hj) as [ZV BV].
  unfold coalesceUDPPackets, udphLen. cbv zeta. rewrite Eiph, (u8_small (iph v6 + 8)) by lia.
  eapply gpost_step; [by eapply gruns_holds|]. eapply gpost_step; [eapply gruns_packet; [done|apply Hj]|]. unfold blen.
  cbn [GroSpec.packet_slice b_sl sl_len sl_cap]. rewrite <- ZC, <- ZV.
  destruct (Z.ltb_spec (sl_cap (b_sl bj) - offset - offset) (Zlen V + Zlen C - (iph v6 + 8))) as [|Hcap]; [by apply gpost_ret|].
  eapply (gpost_bind _ _ _ (fun _ st' => st' = st)).
  { destruct (ui_numMerged it =? 0); [|by apply gpost_ret]. eapply sum_test; [exact Hj|lia]. }
  intros r st' ->. cbn beta. destruct r; cbn [negb]; [|by apply gpost_ret].
  destruct (sum_test i b m C h false Hi ltac:(lia)) as (r & st' & Rr & ->). apply gruns_bind_inv in Rr as (x & stx & R1 & R2).
  assert (stx = st) as ->.
  { destruct (packet_window offset offset_ok _ _ _ _ _ _ Hi) as (Hm & W0 & W1 & W2 & W3 & EW). rewrite <- EW, Zlen_window in Hl by lia.
    eapply gruns_det; [exact R1|]. eapply gruns_read; [exact Hm|]. cbn [b_sl GroSpec.packet_slice]. rewrite u8_small by lia. go_run. }
  eapply gpost_step; [exact R1|]. cbn beta. eapply gpost_step; [exact R2|]. cbn beta. clear R1 R2.
  destruct r; cbn [negb]; [|by apply gpost_ret].
  set (D := pay (iph v6 + 8) C). assert (Zlen D = Zlen C - (iph v6 + 8)) as ZD by (apply Zlen_pay; lia).
  assert (bytes D) as BD by (by apply bytes_pay). rewrite <- ZD. pose proof (Zlen_nonneg D) as HD.
  eapply gpost_step; [eapply (gruns_extend offset offset_ok); [exact Hj|lia|lia]|]. cbn beta. set (stx := with_bufs st _).
  destruct (read_pay offset offset_ok st stx i b m C h (iph v6 + 8) Hi eq_refl ltac:(lia)) as (R1 & _ & R2).
  eapply gpost_step; [exact R1|]. eapply gpost_step; [exact R2|]. cbn beta. fold (pay (iph v6 + 8) C). fold D.
  eapply gpost_step; [eapply (gruns_copy offset offset_ok st); [exact Hj|done|lia]|]. apply gpost_ret.
  destruct (put_append offset offset_ok st _ bj mj V hj D Hok Hj BD ltac:(lia)) as (Hok2 & Hs2 & Hp2 & Hv2). set (st2 := put_buf _ _ _ _) in *.
  assert (Z.to_nat (ui_bufsIndex it) < length (pks offset st))%nat as Hlt
    by (eapply lookup_lt_Some, (holds_pks offset _ _ _ _ _ _ Hj)).
  exists (V ++ D). cbn [fst snd]. split; [|split; [|split; [|done]]].
  - split; [exact Hok2|]. split; [done|]. split.
    + by rewrite <- !(length_pks offset), Hp2, length_insert.
    + intros k Hk1 Hk2. rewrite Hp2, Hv2, list_lookup_insert_ne by done. done.
  - rewrite Hp2. by apply list_lookup_insert_eq.
  - rewrite <- Eiph at 1. apply append_udp_item; [done|]. rewrite Zlen_app. pose proof Hj as (_ & _ & (_ & _ & _ & _ & _ & _ & H4) & _). fold D. lia.
Qed.
End Merge.

(** ** The table *)

Hypothesis P_bytes : forall k, 0 <= k < N -> bytes (P k).
Abbreviation packet_post := (packet_post big P N offset skip).

Lemma gruns_get_udp st : gruns get_udp st (gr_udp st) st.
Proof. done. Qed.
Lemma gruns_set_udp st t : gruns (set_udp (Ok t)) st tt (with_udp st t).
Proof. done. Qed.

Lemma udp_item_buffer i st E it its : inv i st E -> itemsByFlow (gr_udp st) !! ui_key it = Some its -> it ∈ its ->
  ui_bufsIndex it ∈ gr_toWrite st /\ 0 <= ui_bufsIndex it < i /\ e_kind (E (ui_bufsIndex it)) = KUdp it /\
  exists b m V h, holds st (ui_bufsIndex it) b m V h /\ udp_item_ok it (e_ids (E (ui_bufsIndex it))) V.
Proof.
  intros Hv Hl Hin. destruct (tk_items _ _ _ _ _ (iv_udp _ _ _ _ _ _ _ _ Hv) _ _ Hl) as [_ Hit].
  destruct (Hit it Hin) as (_ & HW & Hof). pose proof (iv_range _ _ _ _ _ _ _ _ Hv _ HW) as Hr.
  assert (e_kind (E (ui_bufsIndex it)) = KUdp it) as Hk by (unfold udp_of in Hof; destruct (e_kind _); simplify_eq; done).
  destruct (iv_entry _ _ _ _ _ _ _ _ Hv _ HW) as (V & h & Hp & _ & He). unfold entry_ok in He. rewrite Hk in He. destruct He as (_ & Hto & Ha).
  destruct (pks_lookup offset st (ui_bufsIndex it) V (iv_bufs _ _ _ _ _ _ _ _ Hv) ltac:(lia) Hp) as (b & m & h' & Hh & _).
  split_and!; try done; try lia. by exists b, m, V, h'.
Qed.

(** The packets of a group have been seen before. *)
Lemma group_seen i st E j : inv i st E -> j ∈ gr_toWrite st -> Forall (fun x => x < i) (e_ids (E j)).
Proof.
  intros Hv Hj. apply Forall_forall. intros x Hx. assert (x ∈ all_ids E (gr_toWrite st)) as Hin.
  { apply list_elem_of_In, in_concat. exists (e_ids (E j)). split; [|by apply list_elem_of_In].
    apply in_map_iff. exists j. split; [done|by apply list_elem_of_In]. }
  rewrite (iv_ids _ _ _ _ _ _ _ _ Hv) in Hin. apply elem_of_seqZ in Hin. lia.
Qed.

Lemma inv_udp_merge i st E it it' its p st1 V : inv i st E -> i < N ->
  itemsByFlow (gr_udp st) !! ui_key it = Some its -> its !! p = Some it ->
  changed offset i (ui_bufsIndex it) st st1 -> pks offset st1 !! Z.to_nat (ui_bufsIndex it) = Some V ->
  udp_item_ok it' (e_ids (E (ui_bufsIndex it)) ++ [i]) V -> ui_key it' = ui_key it -> ui_bufsIndex it' = ui_bufsIndex it ->
  exists t', updateAt (gr_udp st) (ui_key it) it' p = Ok t' /\
    inv (i + 1) (with_udp st1 t') (<[ui_bufsIndex it := mkEntry (e_ids (E (ui_bufsIndex it)) ++ [i]) (KUdp it')]> E).
Proof.
  intros Hv Hlt Hl Hp Hch HV Hto Ek Ei. pose proof (list_elem_of_lookup_2 _ _ _ Hp) as Hin.
  destruct (udp_item_buffer i st E it its Hv Hl Hin) as (HW & Hr & Hk & b & m & V0 & h & Hh & Hto0).
  destruct (table_ok_update _ _ _ _ _ (itemsPool (gr_udp st)) _ _ _ it' (iv_udp _ _ _ _ _ _ _ _ Hv) Hl Hp Ek Ei) as [Hup Hok].
  rewrite <- table_eta in Hup. eexists. split; [exact Hup|]. pose proof Hch as (_ & (Et & Eu & EW) & _).
  eapply (inv_merge big P N offset skip i st E _ _ st1); cbn [with_udp gr_toWrite gr_tcp gr_udp gr_arrays gr_bufs]; try done.
  - cbn [e_ids]. by rewrite Permutation_app_comm.
  - intros h'. split; [done|]. split; [done|]. intros H1. cbn in H1. rewrite Zlen_app, Zlen_cons, Zlen_nil in H1.
    destruct (group_numMerged _ _ _ _ _ (ug_group _ _ _ _ _ (uo_group _ _ _ _ Hto0))) as [[? _] _]. lia.
  - rewrite EW, Et. eapply (table_keep _ _ (tcp_of E) _ _ _ (ui_bufsIndex it)); [by apply tcp_of_other| | |by apply (iv_tcp _ _ _ _ _ _ _ _ Hv)].
    + unfold tcp_of. by rewrite Hk.
    + unfold tcp_of. by rewrite fn_lookup_insert.
  - rewrite EW. eapply table_ok_ext; [|exact Hok]. intros k _. by rewrite udp_of_insert.
  - intros k its' Hl'. destruct (decide (k = ui_key it)) as [->|Hne].
    + cbn in Hl'. rewrite lookup_insert_eq in Hl'. injection Hl' as <-. intros E0.
      apply (f_equal length) in E0. rewrite length_insert in E0. apply lookup_lt_Some in Hp. cbn in E0. lia.
    + cbn in Hl'. rewrite lookup_insert_ne in Hl' by done. by eapply (iv_udp_ne _ _ _ _ _ _ _ _ Hv).
  - by rewrite Et.
Qed.

Lemma new_udp_item_ok v6 g key i inv m s l cc : 0 <= s -> 0 <= l -> l <= cc -> s + cc <= Zlen m ->
  is_ucand v6 (window m s l) g -> 0 <= i < 65536 ->
  runs (new_udp_item key (Slice s l cc) (iph v6) i inv) m (mkUDPItem key i 0 g (iph v6) inv) m.
Proof.
  intros Hs Hl0 Hl Hz [[Hlen H65] Hg] Hi. rewrite Zlen_window in * by lia. pose proof (iph_range v6) as Hr.
  unfold new_udp_item, udphLen. eapply runs_eq; [go_run| |done]. cbn [sl_len].
  rewrite (u16_small i), u16_small, !u8_small by lia. f_equal. lia.
Qed.

Lemma udp_insert_ok i st E b m h v6 g known :
  inv i st E -> i < N -> holds st i b m (P i) h -> is_ucand v6 (P i) g ->
  gpost (udp_insert (udp_key v6 (P i)) (packet_slice b) (iph v6) i known) st
    (fun _ st' => exists E', inv (i + 1) (pushed st' i) E').
Proof.
  intros Hv Hlt Hh Hcd. destruct (packet_window offset offset_ok _ _ _ _ _ _ Hh) as (Hm & W0 & W1 & W2 & W3 & EW).
  pose proof (iv_i _ _ _ _ _ _ _ _ Hv) as Hi. set (it := mkUDPItem (udp_key v6 (P i)) i 0 g (iph v6) known).
  unfold udp_insert. eapply gpost_step.
  { eapply gruns_read; [exact Hm|]. apply (new_udp_item_ok v6 g); try done; [by rewrite EW|lia]. }
  cbn beta. fold it. eapply gpost_step; [apply gruns_get_udp|]. cbn beta. set (e := mkEntry [i] (KUdp it)).
  pose proof (iv_fresh _ _ _ _ _ _ _ _ Hv) as Hfr. destruct (iv_pool _ _ _ _ _ _ _ _ Hv) as [_ Hpl].
  destruct (table_ok_insert ui_key ui_bufsIndex (udp_of (<[i := e]> E)) (gr_toWrite st) (itemsByFlow (gr_udp st)) (itemsPool (gr_udp st)) it)
    as (t' & pool' & Hins & Hok & Hpool); try done.
  { eapply table_ok_ext; [|by apply (iv_udp _ _ _ _ _ _ _ _ Hv)]. intros k Hk. apply udp_of_other. by intros ->. }
  { unfold udp_of. cbn [ui_bufsIndex it]. by rewrite fn_lookup_insert. }
  { lia. }
  assert (forall k its, t' !! k = Some its -> its <> []) as Hne.
  { unfold insert_item in Hins. cbn [itemsByFlow itemsPool] in Hins. intros k its Hl.
    assert (forall x l, t' = <[ui_key it := l ++ [x]]> (itemsByFlow (gr_udp st)) -> its <> []) as Hsnoc.
    { intros x l ->. destruct (decide (k = ui_key it)) as [->|]; [rewrite lookup_insert_eq in Hl; injection Hl as <-; by destruct l|].
      rewrite lookup_insert_ne in Hl by done. by eapply (iv_udp_ne _ _ _ _ _ _ _ _ Hv). }
    destruct (itemsByFlow (gr_udp st) !! ui_key it) as [l|]; [injection Hins as <- _; by eapply Hsnoc|].
    destruct (itemsPool (gr_udp st)); [done|]. injection Hins as <- _. by eapply (Hsnoc it []). }
  rewrite <- table_eta in Hins. change (ui_key it) with (udp_key v6 (P i)) in Hins. rewrite Hins.
  eexists tt, _. split; [apply gruns_set_udp|]. exists (<[i := e]> E). destruct (holds_pks offset _ _ _ _ _ _ Hh) as [Kp Kv].
  eapply (inv_push big P N offset skip i st E e _ h); try done.
  - by apply (iv_bufs _ _ _ _ _ _ _ _ Hv).
  - split; [done|]. split; [|done]. split; try done; [by apply (udp_group_one P v6 g)|by destruct Hcd as [[_ ?] _]].
  - cbn. apply table_ok_other; [unfold tcp_of; by rewrite fn_lookup_insert|done|].
    eapply table_ok_ext; [|by apply (iv_tcp _ _ _ _ _ _ _ _ Hv)]. intros k Hk. apply tcp_of_other. by intros ->.
  - cbn. lia.
Qed.

(** A new group for packet [i], with the key read from the packet. *)
Lemma udp_new_ok i st E b m h v6 g known :
  inv i st E -> i < N -> holds st i b m (P i) h -> is_ucand v6 (P i) g ->
  let a := if v6 then ipv6SrcAddrOffset else ipv4SrcAddrOffset in
  runs (newUDPFlowKey (b_sl (packet_slice b)) a (a + (if v6 then 16 else 4)) (iph v6)) m (udp_key v6 (P i)) m /\
  gpost (key <-- at_slice (packet_slice b) (fun s => newUDPFlowKey s a (a + (if v6 then 16 else 4)) (iph v6)) ;;
         _ <-- udp_insert key (packet_slice b) (iph v6) i known ;; gret groResultTableInsert) st (packet_post i).
Proof.
  intros Hv Hlt Hh Hcd a. destruct (packet_window offset offset_ok _ _ _ _ _ _ Hh) as (Hm & W0 & W1 & W2 & W3 & EW).
  assert (runs (newUDPFlowKey (b_sl (packet_slice b)) a (a + (if v6 then 16 else 4)) (iph v6)) m (udp_key v6 (P i)) m) as Rk.
  { rewrite <- EW. apply newUDPFlowKey_ok; try lia. destruct Hcd as [[Hlen _] Hg]. rewrite <- EW, Zlen_window in Hlen by lia. lia. }
  split; [exact Rk|]. eapply gpost_step; [eapply gruns_read; [exact Hm|exact Rk]|]. cbn beta.
  eapply gpost_bind; [by eapply udp_insert_ok|]. intros _ st1 [E1 Hv1]. apply gpost_ret. by exists E1.
Qed.

Lemma udpGRO_ok i st E v6 : inv i st E -> i < N -> cand_guard v6 8 (P i) -> version_ok v6 (P i) ->
  gpost (udpGRO offset i v6 skip) st (packet_post i).
Proof.
  intros Hv Hlt Hg Hver. pose proof (iv_i _ _ _ _ _ _ _ _ Hv) as Hi.
  destruct (pks_lookup offset st i (P i) (iv_bufs _ _ _ _ _ _ _ _ Hv) ltac:(lia) (iv_rest _ _ _ _ _ _ _ _ Hv i ltac:(lia))) as (b & m & h & Hh & _).
  destruct (packet_window offset offset_ok _ _ _ _ _ _ Hh) as (Hm & W0 & W1 & W2 & W3 & EW). pose proof (iph_range v6) as Hr.
  unfold udpGRO. eapply gpost_step; [by eapply gruns_holds|]. eapply gpost_step; [eapply gruns_packet; [done|apply Hh]|].
  destruct (udp_check_ok m _ _ _ v6 W0 W2 W3 W1 ltac:(by rewrite EW)) as (r & Rr & Hrr). rewrite EW in Hrr.
  eapply gpost_step; [eapply gruns_read; [exact Hm|exact Rr]|]. cbn beta.
  destruct r as [[n g]|]; [|apply gpost_ret; by exists E]. destruct Hrr as [-> Hcd].
  destruct (udp_new_ok i st E b m h v6 g false Hv Hlt Hh Hcd) as [Rk Hnew]. destruct (udp_new_ok i st E b m h v6 g true Hv Hlt Hh Hcd) as [_ Hnew'].
  cbv zeta in *. eapply gpost_step; [done|]. cbn beta. destruct (Z.eqb_spec (Zlen (gr_bufs st)) 1); [apply gpost_ret; by exists E|].
  unfold udp_lookupOrInsert. destruct (itemsByFlow (gr_udp st) !! udp_key v6 (P i)) as [items|] eqn:Hl.
  2: { eapply (gpost_bind _ _ _ (fun r st' => r = None /\ exists E', inv (i + 1) (pushed st' i) E')).
       { eapply gpost_step; [eapply gruns_read; [exact Hm|exact Rk]|]. cbn beta.
         eapply gpost_step; [apply gruns_get_udp|]. cbn beta. rewrite Hl.
         eapply gpost_bind; [by eapply udp_insert_ok|]. intros _ st1 [E1 Hv1]. apply gpost_ret. split; [done|]. by exists E1. }
       intros r st' [-> [E1 Hv1]]. apply gpost_ret. by exists E1. }
  eapply gpost_step.
  { eapply gruns_bind; [eapply gruns_read; [exact Hm|exact Rk]|]. cbn beta.
    eapply gruns_bind; [apply gruns_get_udp|]. cbn beta. rewrite Hl. apply gruns_ret. }
  cbn beta iota. pose proof (iv_udp_ne _ _ _ _ _ _ _ _ Hv _ _ Hl) as Hne.
  destruct (last items) as [it|] eqn:Hla; [|by apply last_None in Hla].
  assert (items !! (length items - 1)%nat = Some it) as Hit by (rewrite last_lookup in Hla; by rewrite Nat.sub_1_r).
  assert (udp_key v6 (P i) = ui_key it) as Ek.
  { destruct (tk_items _ _ _ _ _ (iv_udp _ _ _ _ _ _ _ _ Hv) _ _ Hl) as [_ Hits]. symmetry. apply Hits. by eapply list_elem_of_lookup_2. }
  assert (v6 = uk_isV6 (ui_key it)) as E6 by (by rewrite <- Ek). rewrite Ek in Hl.
  destruct (udp_item_buffer i st E it items Hv Hl ltac:(by eapply list_elem_of_lookup_2)) as (HW & Hr' & Hk & bj & mj & V & hj & Hj & Hto).
  pose proof (group_seen i st E _ Hv HW) as Hseen. assert (i <> ui_bufsIndex it) as Hnj by lia. pose proof (iv_bufs _ _ _ _ _ _ _ _ Hv) as Hb.
  rewrite E6 in Hcd, Hver, Ek. eapply gpost_bind; [rewrite E6; by eapply (udpCan_ok st i b m (P i) h bj mj V hj it)|].
  intros can st' [-> Hcan]. cbn beta. destruct can; [done|exact Hnew|].
  eapply gpost_bind; [rewrite E6; by eapply append_udp_ok|]. intros [r it'] st' Hpost. unfold coalesce_udp_post in Hpost. cbn [fst snd] in *.
  destruct r; try (subst st'; first [exact Hnew|exact Hnew']).
  destruct Hpost as (V' & Hch & HV & Hto' & Ek' & Ei'). pose proof Hch as (_ & (_ & Eu & _) & _).
  destruct (inv_udp_merge i st E it it' items _ st' V' Hv Hlt Hl Hit Hch HV Hto' Ek' Ei') as (t' & Hup & Hv').
  eapply gpost_step; [apply gruns_get_udp|]. cbn beta. rewrite Eu, Ek', Hup. eapply gpost_step; [apply gruns_set_udp|].
  apply gpost_ret. eexists. exact Hv'.
Qed.
End Udp.
