(* ===== verification/GroAccount.v ===== *)
(** * The headers of a merged packet

    [account_tcp] and [account_udp] (the bodies of
    applyTCPCoalesceAccounting and applyUDPCoalesceAccounting) on one buffer:
    the packet gets the lengths and checksums of the whole group and the virtio
    header that tells the kernel how to cut it. *)
From S2P Require Import Prelude Bytes GoMem Checksum TsChecksum Tcpip HdrChecksum UDP Offload Virtio Gro GroSpec GroBufs GroGroup GroTcp GroInv.

(** The bytes of the packet that are rewritten. *)
Definition account_field (v6 tcp : bool) (j : Z) : Prop :=
  (if v6 then 4 <= j < 6 else 2 <= j < 4 \/ 10 <= j < 12) \/
  (if tcp then iph v6 + 16 <= j < iph v6 + 18 else iph v6 + 4 <= j < iph v6 + 8).

(** The packet [V] with the headers of a packet of its length: [V'].  The
    transport checksum field has the sum of the pseudo-header, to which the
    kernel adds the rest. *)
Record accounted (v6 tcp : bool) (V V' : list Z) : Prop := {
  ac_len : Zlen V' = Zlen V;
  ac_same : forall j, 0 <= j < Zlen V -> ~ account_field v6 tcp j -> byte_at V' j = byte_at V j;
  ac_v4 : v6 = false -> get16 V' 2 = Zlen V /\ wsum (window V' 0 20) ≡₁ 0;
  ac_v6 : v6 = true -> get16 V' 4 = Zlen V - 40;
  ac_udp : tcp = false -> get16 V' (iph v6 + 4) = Zlen V - iph v6;
  ac_sum : let src := if v6 then window V 8 16 else window V 12 4 in
           let dst := if v6 then window V 24 16 else window V 16 4 in
           get16 V' (iph v6 + if tcp then 16 else 6) ≡₁ wsum src + wsum dst + (Zlen V - iph v6) + if tcp then 6 else 17
}.

Section Account.
Context `{CI : ChecksumImpl} `{UV : UnixVirtio} (big : bool).

Lemma Checksum_nil x : is_u16 x -> Checksum [] x = x.
Proof. intros Hx. rewrite Checksum_rfc1071; [done|constructor|done]. Qed.

Section Bytes.
Context (v6 : bool) (p L c : Z) (Hp : 0 <= p) (Hc : L <= c) (HL : iph v6 + 8 <= L) (HL' : L <= 65535).

(** The IP header is rewritten as that of a segment. *)
Lemma account_ip_ok m : bytes m -> p + c <= Zlen m ->
  exists m', runs (account_ip (Slice p L c) (iph v6) v6) m tt m' /\ bytes m' /\ Zlen m' = Zlen m /\
    (forall j, 0 <= j -> ~ (if v6 then 4 <= j - p < 6 else 2 <= j - p < 4 \/ 10 <= j - p < 12) -> byte_at m' j = byte_at m j) /\
    (v6 = false -> get16 m' (p + 2) = L /\ wsum (window m' p 20) ≡₁ 0) /\
    (v6 = true -> get16 m' (p + 4) = L - 40).
Proof.
  intros Bm Hz. pose proof (iph_range v6) as Hr. set (v := if v6 then 6 else 4).
  set (g := mkGSO (if v6 then GSOTCPv6 else GSOTCPv4) (iph v6 + 20) (iph v6) 16 1 true).
  assert (gso_ok g v true) as Hok by (subst g v; unfold iph; destruct v6; split; cbn; try done; auto; lia).
  destruct (ip_ok g v true Hok p L c m 0 L) as (m' & R & B' & Z' & F & V4 & V6); try done; try (cbn; lia).
  unfold segment_ip, ip_field in *. cbn [g_CsumStart g] in *. subst v. unfold account_ip, iph in *. destruct v6; cbn [Z.eqb Pos.eqb Z.ltb Z.compare when] in *.
  - exists m'. cbn [sl_len] in *. rewrite (u16_small L) by lia. specialize (V6 eq_refl). rewrite u16_small in V6 by lia. split_and!; try done.
  - apply runs_bind_inv in R as ([] & m1 & R1 & R). injection R1 as <-. exists m'. destruct (V4 eq_refl) as (E1 & E2 & E3).
    rewrite u16_small in E1 by lia. split_and!; try done. intros j Hj Hf.
    destruct (decide (4 <= j - p < 6)) as [Hin|]; [|apply F; lia].
    rewrite Z.add_0_r, u16_small in E2 by (by apply get16_range). unfold get16 in E2.
    pose proof (bytes_byte_at m' (p + 4) B'). pose proof (bytes_byte_at m' (p + 4 + 1) B').
    pose proof (bytes_byte_at m (p + 4) Bm). pose proof (bytes_byte_at m (p + 4 + 1) Bm).
    destruct (decide (j = p + 4)) as [->|]; [lia|]. replace j with (p + 4 + 1) by lia. lia.
Qed.

(** The pseudo-header sum is stored at [k]; [buf] is the whole buffer, the
    packet is [offset] bytes in. *)
Lemma account_csum_ok m o l cb offset proto k : bytes m -> is_u8 proto -> 0 <= o -> 0 <= offset -> p = o + offset ->
  L = l - offset -> l <= cb -> 0 <= k -> k + 2 <= L ->
  let src := if v6 then window m (p + 8) 16 else window m (p + 12) 4 in
  let dst := if v6 then window m (p + 24) 16 else window m (p + 16) 4 in
  exists x, runs (account_csum (Slice o l cb) (Slice p L c) offset (iph v6) proto k v6) m tt (put16 m (p + k) x) /\
    is_u16 x /\ x ≡₁ wsum src + wsum dst + (L - iph v6) + proto.
Proof.
  intros Bm Hpr Ho Hoff Ep El Hlc Hk HkL src dst. pose proof (iph_range v6) as Hr.
  assert (bytes src /\ bytes dst) as [Bs Bd] by (subst src dst; destruct v6; auto with gobytes).
  exists (PseudoHeaderChecksum proto src dst (L - iph v6)).
  pose proof (PseudoHeaderChecksum_range proto src dst (L - iph v6) Bs Bd Hpr ltac:(lia)) as Hx. split.
  - unfold account_csum, ipv6SrcAddrOffset, ipv4SrcAddrOffset. cbn [sl_len]. rewrite (u16_small (L - iph v6)) by lia.
    subst src dst. unfold iph in *. rewrite <- (Checksum_nil (PseudoHeaderChecksum _ _ _ _)) by done.
    destruct v6; (eapply runs_eq; [go_run|done|]).
    + replace (o + (offset + 8)) with (p + 8) by lia. replace (offset + 8 + 16 - (offset + 8)) with 16 by lia.
      replace (o + (offset + 8 + 16)) with (p + 24) by lia. replace (offset + 8 + 16 * 2 - (offset + 8 + 16)) with 16 by lia. done.
    + replace (o + (offset + 12)) with (p + 12) by lia. replace (offset + 12 + 4 - (offset + 12)) with 4 by lia.
      replace (o + (offset + 12 + 4)) with (p + 16) by lia. replace (offset + 12 + 4 * 2 - (offset + 12 + 4)) with 4 by lia. done.
  - split; [done|]. apply OC_cong_eq. by apply PseudoHeaderChecksum_OC; try lia.
Qed.

(** All the writes to one buffer. *)
Lemma account_mem (tcp : bool) (m m1 : list Z) (x : Z) (hdr : list Z) : bytes m -> p + c <= Zlen m -> 10 <= p -> Zlen hdr = 10 -> bytes hdr -> is_u16 x ->
  (if tcp then iph v6 + 18 <= L else True) ->
  bytes m1 -> Zlen m1 = Zlen m ->
  (forall j, 0 <= j -> ~ (if v6 then 4 <= j - p < 6 else 2 <= j - p < 4 \/ 10 <= j - p < 12) -> byte_at m1 j = byte_at m j) ->
  (v6 = false -> get16 m1 (p + 2) = L /\ wsum (window m1 p 20) ≡₁ 0) -> (v6 = true -> get16 m1 (p + 4) = L - 40) ->
  let m2 := write_at m1 (p - 10) hdr in
  let m3 := if tcp then m2 else put16 m2 (p + (iph v6 + 4)) (L - iph v6) in
  let m4 := put16 m3 (p + (iph v6 + if tcp then 16 else 6)) x in
  (let src := if v6 then window m3 (p + 8) 16 else window m3 (p + 12) 4 in
   let dst := if v6 then window m3 (p + 24) 16 else window m3 (p + 16) 4 in
   x ≡₁ wsum src + wsum dst + (L - iph v6) + if tcp then 6 else 17) ->
  accounted v6 tcp (window m p L) (window m4 p L) /\ window m4 (p - 10) 10 = hdr /\ bytes m4 /\ Zlen m4 = Zlen m.
Proof.
  intros Bm Hz Hp10 Lh Bh Hx Ht B1 Z1 F1 V4 V6 m2 m3 m4 Hs. pose proof (iph_range v6) as Hr.
  assert (bytes m3 /\ Zlen m3 = Zlen m) as [B3 Z3].
  { assert (bytes m2) as B2 by (by apply bytes_write_at). assert (Zlen m2 = Zlen m) as Z2 by (subst m2; by rewrite Zlen_write_at).
    subst m3. destruct tcp; [done|]. split; [by apply bytes_put16|by rewrite Zlen_put16]. }
  assert (Zlen m4 = Zlen m) as Z4 by (subst m4; by rewrite Zlen_put16).
  assert (forall j, p <= j -> ~ (if tcp then False else p + (iph v6 + 4) <= j < p + (iph v6 + 6)) -> byte_at m3 j = byte_at m1 j) as F3.
  { intros j Hj Hf. subst m3 m2. destruct tcp; by rd. }
  assert (forall j, p <= j -> ~ account_field v6 tcp (j - p) -> byte_at m4 j = byte_at m j) as F4.
  { intros j Hj Hf. unfold account_field in Hf. subst m4. rewrite byte_at_put16_ne by (destruct tcp; lia).
    rewrite F3 by (destruct tcp; [tauto|lia]). apply F1; [lia|tauto]. }
  assert (forall j, p <= j < p + iph v6 -> byte_at m4 j = byte_at m1 j) as F4'.
  { intros j Hj. subst m4. rewrite byte_at_put16_ne by (destruct tcp; lia). apply F3; [lia|destruct tcp; lia]. }
  assert (forall k n, 0 <= k -> 0 <= n -> k + n <= iph v6 -> (if v6 then 8 <= k else 12 <= k) -> window m3 (p + k) n = window m (p + k) n) as FA.
  { intros k n Hk Hn Hkn Hk8. apply window_agree; try lia. intros j Hj. rewrite F3 by (try destruct tcp; lia). apply F1; [lia|]. destruct v6; lia. }
  split; [|split; [|split; [subst m4; by apply bytes_put16|done]]].
  2: { subst m4 m3 m2. destruct tcp; by rd. }
  assert (Zlen (window m p L) = L) as ZV by (apply Zlen_window; lia).
  split; rewrite ?ZV.
  - by rewrite Zlen_window by lia.
  - intros j Hj Hf. rewrite !byte_at_window by lia. apply F4; [lia|]. by replace (p + j - p) with j by lia.
  - intros E. destruct (V4 E) as [E1 E2]. rewrite get16_window, window_window by lia. subst v6. unfold iph in *.
    rewrite (get16_agree m1), Z.add_0_r, (window_agree m1) by (first [lia|intros; apply F4'; lia|apply F4'; lia]). done.
  - intros E. specialize (V6 E). rewrite get16_window by lia. subst v6. unfold iph in *. by rewrite (get16_agree m1) by (apply F4'; lia).
  - intros ->. rewrite get16_window by lia. subst m4 m3 m2. by rd.
  - cbv zeta. rewrite get16_window by (destruct tcp; lia). subst m4. rewrite get16_put16_eq by (try destruct tcp; lia). rewrite Hs.
    apply cong_refl_eq. unfold iph in *. destruct v6; rewrite !window_window, !FA by lia; done.
Qed.
End Bytes.

(** ** One item *)

Context (P : Z -> list Z) (offset : Z).
Hypothesis offset_ok : 10 <= offset.

Definition tcp_hdr (it : tcpGROItem) : virtioNetHdr :=
  mkVirtio VIRTIO_NET_HDR_F_NEEDS_CSUM
    (if tk_isV6 (ti_key it) then VIRTIO_NET_HDR_GSO_TCPV6 else VIRTIO_NET_HDR_GSO_TCPV4)
    (iph (tk_isV6 (ti_key it)) + ti_tcphLen it) (ti_gsoSize it) (iph (tk_isV6 (ti_key it))) 16.
Definition udp_hdr (it : udpGROItem) : virtioNetHdr :=
  mkVirtio VIRTIO_NET_HDR_F_NEEDS_CSUM VIRTIO_NET_HDR_GSO_UDP_L4
    (iph (uk_isV6 (ui_key it)) + 8) (ui_gsoSize it) (iph (uk_isV6 (ui_key it))) 6.

(** The buffer of a group after accounting. *)
Definition done_tcp (it : tcpGROItem) (V V' h' : list Z) : Prop :=
  if 0 <? ti_numMerged it then accounted (tk_isV6 (ti_key it)) true V V' /\ h' = hdr_bytes big (tcp_hdr it)
  else V' = V /\ h' = hdr_bytes big zero_hdr.
Definition done_udp (it : udpGROItem) (V V' h' : list Z) : Prop :=
  if 0 <? ui_numMerged it then accounted (uk_isV6 (ui_key it)) false V V' /\ h' = hdr_bytes big (udp_hdr it)
  else V' = V /\ h' = hdr_bytes big zero_hdr.

Definition account_post (j : Z) (st : gro) (V : list Z) (Q : list Z -> list Z -> list Z -> Prop) (r : option gso_error) (st' : gro) : Prop :=
  r = None /\ bufs_ok offset st' /\ same_tables st st' /\
  exists V' h', pks offset st' = <[Z.to_nat j := V']> (pks offset st) /\ vhs offset st' = <[Z.to_nat j := h']> (vhs offset st) /\ Q V V' h'.

(** Code on the buffer of [j] that ends with packet [V'] and header [h']. *)
Lemma account_buf j st b m V h (c : slice -> M (option gso_error)) m' Q :
  bufs_ok offset st -> holds offset st j b m V h -> runs (c (b_sl b)) m None m' -> bytes m' -> Zlen m' = Zlen m ->
  Q V (view offset b m') (vhdr offset b m') ->
  gpost (b <-- buf_at j ;; at_slice b c) st (account_post j st V Q).
Proof.
  intros Hok Hh Hc B' Z' HQ. eapply gpost_step; [by eapply gruns_holds|]. cbn beta.
  destruct (put_head offset st j b m V h m' _ _ Hok Hh B' Z' eq_refl eq_refl) as (Hok' & Hs & Hp & Hv).
  exists None, (put_buf st j b m'). split; [by eapply gruns_buf|]. split; [done|]. split; [done|]. split; [done|]. by eexists _, _.
Qed.

Lemma zero_hdr_ok : hdr_ok zero_hdr.
Proof. split; cbn; lia. Qed.

Lemma account_zero j st b m V h Q : bufs_ok offset st -> holds offset st j b m V h ->
  (forall V' h', V' = V /\ h' = hdr_bytes big zero_hdr -> Q V V' h') ->
  gpost (b <-- buf_at j ;; at_slice b (fun buf => h <- tail buf (offset - virtioNetHdrLen) ;; encode big zero_hdr h)) st
    (account_post j st V Q).
Proof.
  intros Hok Hh HQ. pose proof Hh as (_ & _ & (Hm & Bm & B0 & B1 & B2 & B3 & _) & _ & EV & _).
  destruct b as [a [o l cb]]. cbn [b_sl sl_off sl_len sl_cap] in *. pose proof (Zlen_hdr_bytes big zero_hdr) as Lh.
  unfold virtioNetHdrLen. eapply (account_buf j st _ m V h); [done|done| | | |].
  - cbn [b_sl]. eapply runs_bind; [apply runs_tail; lia|]. cbn beta. apply runs_encode; lia.
  - apply bytes_write_at; [done|]. apply bytes_hdr_bytes, zero_hdr_ok.
  - apply Zlen_write_at.
  - apply HQ. unfold view, vhdr. cbn [b_sl sl_off sl_len]. rewrite EV. unfold view. cbn [b_sl sl_off sl_len]. split.
    + apply window_write_at_out; lia.
    + replace (o + (offset - 10)) with (o + offset - 10) by lia. apply window_write_at_eq'; lia.
Qed.

(** The virtio header of a group fits its fields. *)
Lemma group_hdr_ok t hl g cs co : is_u8 t -> is_u16 hl -> is_u16 g -> is_u16 cs -> is_u16 co ->
  hdr_ok (mkVirtio VIRTIO_NET_HDR_F_NEEDS_CSUM t hl g cs co).
Proof.
  intros. pose proof virtio_u8 as Hu. repeat rewrite Forall_cons in Hu. destruct Hu as (_ & _ & _ & _ & Hf & _). by split.
Qed.
Lemma tcp_hdr_ok it : 20 <= ti_tcphLen it <= 60 -> is_u16 (ti_gsoSize it) -> hdr_ok (tcp_hdr it).
Proof.
  intros. pose proof (iph_range (tk_isV6 (ti_key it))). pose proof virtio_u8 as Hu. repeat rewrite Forall_cons in Hu.
  apply group_hdr_ok; try lia. destruct (tk_isV6 _); apply Hu.
Qed.
Lemma udp_hdr_ok it : is_u16 (ui_gsoSize it) -> hdr_ok (udp_hdr it).
Proof.
  intros. pose proof (iph_range (uk_isV6 (ui_key it))). pose proof virtio_u8 as Hu. repeat rewrite Forall_cons in Hu.
  apply group_hdr_ok; lia.
Qed.

(** The segment size of a group is at most its length. *)
Lemma group_gso hl g ids V : group P hl g ids V -> g = Zlen (pay hl (P (hd 0 ids))) \/ Zlen ids = 1.
Proof.
  intros [Hne _ _ Hs]. destruct ids as [|x [|y ids]]; [done|by right|left]. destruct (Hs 0%nat x eq_refl) as [_ Hx]. symmetry. apply Hx. cbn. lia.
Qed.
Lemma group_gso_le hl g ids V : group P hl g ids V -> 1 < Zlen ids -> g <= Zlen V - hl.
Proof.
  intros Hg Hn. destruct (group_total _ _ _ _ _ Hg) as (l & x & -> & E & Hx). rewrite Zlen_app, Zlen_cons, Zlen_nil in Hn. nia.
Qed.

Lemma account_tcp_ok st it b m V h ids : bufs_ok offset st -> holds offset st (ti_bufsIndex it) b m V h -> tcp_item_ok P it ids V ->
  gpost (account_tcp big it offset) st (account_post (ti_bufsIndex it) st V (done_tcp it)).
Proof.
  intros Hok Hh Hit. pose proof (item_bounds P offset offset_ok st b m V h it ids Hh Hit) as (Ht & Hl & HV & Hg1).
  pose proof (to_num _ _ _ _ Hit) as Hnum. pose proof (to_iph _ _ _ _ Hit) as Eiph. unfold account_tcp, done_tcp. rewrite Eiph.
  destruct (Z.ltb_spec 0 (ti_numMerged it)) as [Hm0|]; [|by eapply account_zero].
  pose proof (group_gso_le _ _ _ _ (tg_group _ _ _ _ _ _ _ _ (to_group _ _ _ _ Hit)) ltac:(lia)) as Hg2.
  pose proof Hh as (_ & _ & Hbuf & _ & EV & _). pose proof (Zlen_view offset offset_ok _ _ _ Hbuf) as EZ. rewrite <- EV in EZ.
  destruct Hbuf as (Hm & Bm & B0 & B1 & B2 & B3 & B4). destruct b as [a [o l cb]]. cbn [b_sl sl_off sl_len sl_cap] in *.
  set (v6 := tk_isV6 (ti_key it)) in *. pose proof (iph_range v6) as Hr. cbv zeta.
  rewrite (u8_small (iph v6 + ti_tcphLen it)), (u16_small (iph v6 + 16)) by lia.
  destruct (account_ip_ok v6 (o + offset) (l - offset) (cb - offset) ltac:(lia) ltac:(lia) ltac:(lia) ltac:(lia) m Bm ltac:(lia))
    as (m1 & R1 & B1' & Z1 & F1 & V4 & V6).
  set (hdr := hdr_bytes big (tcp_hdr it)). pose proof (Zlen_hdr_bytes big (tcp_hdr it)) as Lh.
  assert (bytes hdr) as Bh by (apply bytes_hdr_bytes, tcp_hdr_ok; lia).
  set (m2 := write_at m1 (o + offset - 10) hdr). assert (bytes m2) as B2' by (by apply bytes_write_at).
  destruct (account_csum_ok v6 (o + offset) (l - offset) (cb - offset) ltac:(lia) ltac:(lia) ltac:(lia) m2 o l cb offset ipProtoTCP (iph v6 + 16) B2')
    as (x & R2 & Hx & Hs); try (unfold ipProtoTCP; lia).
  destruct (account_mem v6 (o + offset) (l - offset) (cb - offset) ltac:(lia) ltac:(lia) ltac:(lia) ltac:(lia) true m m1 x hdr) as (Hac & Hw & B4' & Z4);
    try done; try lia.
  eapply (account_buf _ st (BSlice a (Slice o l cb)) m V h); [done|done| | | |].
  - cbn [b_sl]. eapply runs_bind; [apply runs_tail; lia|]. cbn beta. eapply runs_bind; [exact R1|]. cbn beta.
    eapply runs_bind; [apply runs_tail; unfold virtioNetHdrLen; lia|]. cbn beta. unfold virtioNetHdrLen.
    eapply runs_bind; [apply runs_encode; lia|]. cbn beta iota. replace (o + (offset - 10)) with (o + offset - 10) by lia.
    eapply runs_bind; [exact R2|]. apply runs_ret.
  - exact B4'.
  - exact Z4.
  - unfold view, vhdr. cbn [b_sl sl_off sl_len]. rewrite EV. unfold view. cbn [b_sl sl_off sl_len]. done.
Qed.

Lemma account_udp_ok st it b m V h ids : bufs_ok offset st -> holds offset st (ui_bufsIndex it) b m V h -> udp_item_ok P it ids V ->
  gpost (account_udp big it offset) st (account_post (ui_bufsIndex it) st V (done_udp it)).
Proof.
  intros Hok Hh Hit. pose proof (uo_num _ _ _ _ Hit) as Hnum. pose proof (uo_len _ _ _ _ Hit) as H65. pose proof (uo_iph _ _ _ _ Hit) as Eiph.
  pose proof (ug_group _ _ _ _ _ (uo_group _ _ _ _ Hit)) as Hgr. destruct (group_numMerged _ _ _ _ _ Hgr) as [Hn Hg1].
  unfold account_udp, done_udp. rewrite Eiph. destruct (Z.ltb_spec 0 (ui_numMerged it)) as [Hm0|]; [|by eapply account_zero].
  pose proof (group_gso_le _ _ _ _ Hgr ltac:(lia)) as Hg2.
  pose proof Hh as (_ & _ & Hbuf & _ & EV & _). pose proof (Zlen_view offset offset_ok _ _ _ Hbuf) as EZ. rewrite <- EV in EZ.
  destruct Hbuf as (Hm & Bm & B0 & B1 & B2 & B3 & B4). destruct b as [a [o l cb]]. cbn [b_sl sl_off sl_len sl_cap] in *.
  set (v6 := uk_isV6 (ui_key it)) in *. pose proof (iph_range v6) as Hr. unfold udphLen. cbv zeta.
  rewrite (u8_small (iph v6 + 8)), (u16_small (iph v6 + 6)), (u8_small (iph v6 + 4)) by lia.
  destruct (account_ip_ok v6 (o + offset) (l - offset) (cb - offset) ltac:(lia) ltac:(lia) ltac:(lia) ltac:(lia) m Bm ltac:(lia))
    as (m1 & R1 & B1' & Z1 & F1 & V4 & V6).
  set (hdr := hdr_bytes big (udp_hdr it)). pose proof (Zlen_hdr_bytes big (udp_hdr it)) as Lh.
  assert (bytes hdr) as Bh by (apply bytes_hdr_bytes, udp_hdr_ok; lia).
  set (m2 := write_at m1 (o + offset - 10) hdr). assert (bytes m2) as B2' by (by apply bytes_write_at).
  set (m3 := put16 m2 (o + offset + (iph v6 + 4)) (l - offset - iph v6)). assert (bytes m3) as B3' by (by apply bytes_put16).
  destruct (account_csum_ok v6 (o + offset) (l - offset) (cb - offset) ltac:(lia) ltac:(lia) ltac:(lia) m3 o l cb offset ipProtoUDP (iph v6 + 6) B3')
    as (x & R2 & Hx & Hs); try (unfold ipProtoUDP; lia).
  destruct (account_mem v6 (o + offset) (l - offset) (cb - offset) ltac:(lia) ltac:(lia) ltac:(lia) ltac:(lia) false m m1 x hdr) as (Hac & Hw & B4' & Z4);
    try done; try lia.
  eapply (account_buf _ st (BSlice a (Slice o l cb)) m V h); [done|done| | | |].
  - cbn [b_sl]. eapply runs_bind; [apply runs_tail; lia|]. cbn beta. eapply runs_bind; [exact R1|]. cbn beta.
    eapply runs_bind; [apply runs_tail; unfold virtioNetHdrLen; lia|]. cbn beta. unfold virtioNetHdrLen.
    eapply runs_bind; [apply runs_encode; lia|]. cbn beta iota. replace (o + (offset - 10)) with (o + offset - 10) by lia.
    eapply runs_bind; [apply runs_tail; lia|]. cbn beta. eapply runs_bind; [apply runs_tail; lia|]. cbn beta. cbn [sl_len].
    rewrite (u16_small (l - offset - iph v6)) by lia. eapply runs_bind; [apply runs_PutUint16; lia|]. cbn beta.
    eapply runs_bind; [exact R2|]. apply runs_ret.
  - exact B4'.
  - exact Z4.
  - unfold view, vhdr. cbn [b_sl sl_off sl_len]. rewrite EV. unfold view. cbn [b_sl sl_off sl_len]. done.
Qed.

(** ** All items of a table *)

Section All.
Context {I : Type} (idx : I -> Z) (account : I -> Z -> GM (option gso_error)).
Context (item_ok : I -> list Z -> list Z -> Prop) (ids_of : Z -> list Z) (Q : I -> list Z -> list Z -> list Z -> Prop).
Hypothesis account_item : forall st it b m V h, bufs_ok offset st -> holds offset st (idx it) b m V h -> item_ok it (ids_of (idx it)) V ->
  gpost (account it offset) st (account_post (idx it) st V (Q it)).

(** Each item's buffer is rewritten once, no other buffer is touched. *)
Lemma account_all_ok items : forall st, bufs_ok offset st -> NoDup (idx <$> items) ->
  (forall it, it ∈ items -> 0 <= idx it) ->
  (forall it, it ∈ items -> exists V, pks offset st !! Z.to_nat (idx it) = Some V /\ item_ok it (ids_of (idx it)) V) ->
  gpost (account_all account items offset) st (fun r st' => r = None /\ bufs_ok offset st' /\ same_tables st st' /\
    (forall it V, it ∈ items -> pks offset st !! Z.to_nat (idx it) = Some V ->
       exists V' h', pks offset st' !! Z.to_nat (idx it) = Some V' /\ vhs offset st' !! Z.to_nat (idx it) = Some h' /\ Q it V V' h') /\
    (forall k, (forall it, it ∈ items -> k <> Z.to_nat (idx it)) -> pks offset st' !! k = pks offset st !! k /\ vhs offset st' !! k = vhs offset st !! k)).
Proof.
  induction items as [|it items IH]; intros st Hok Hnd Hpos Hit; cbn [account_all].
  { apply gpost_ret. split_and!; try done. intros it V Hin. by apply elem_of_nil in Hin. }
  cbn in Hnd. apply NoDup_cons in Hnd as [Hni Hnd].
  assert (forall x, x ∈ items -> Z.to_nat (idx x) <> Z.to_nat (idx it)) as Hd.
  { intros x Hx E. apply Hni. apply Z2Nat.inj in E; [|apply Hpos; by right|apply Hpos; by left]. rewrite <- E. by apply list_elem_of_fmap_2. }
  destruct (Hit it ltac:(by left)) as (V & HV & Hiok).
  destruct (pks_lookup offset st (idx it) V Hok ltac:(apply Hpos; by left) HV) as (b & m & h & Hh & Hvh).
  eapply gpost_bind; [by apply (account_item st it b m V h)|].
  intros r st1 (-> & Hok1 & Hs1 & V1 & h1 & Hp1 & Hv1 & HQ). cbn beta iota.
  assert (forall k, k <> Z.to_nat (idx it) -> pks offset st1 !! k = pks offset st !! k /\ vhs offset st1 !! k = vhs offset st !! k) as Hfr.
  { intros k Hk. by rewrite Hp1, Hv1, !list_lookup_insert_ne. }
  eapply gpost_mono; [apply (IH st1); try done|].
  - intros x Hx. apply Hpos. by right.
  - intros x Hx. destruct (Hfr _ (Hd x Hx)) as [-> _]. apply Hit. by right.
  - intros r st' (-> & Hok' & Hs' & Hall & Hrest). split; [done|]. split; [done|]. split; [by etransitivity|]. split.
    + intros x W Hx HW. apply elem_of_cons in Hx as [->|Hx].
      * assert (W = V) as -> by congruence. exists V1, h1. destruct (Hrest (Z.to_nat (idx it))) as [-> ->].
        { intros y Hy. apply not_eq_sym. by apply Hd. }
        rewrite Hp1, Hv1, !list_lookup_insert_eq; try done; by eapply lookup_lt_Some.
      * apply Hall; [done|]. by destruct (Hfr _ (Hd x Hx)) as [-> _].
    + intros k Hk. destruct (Hrest k) as [-> ->]; [intros x Hx; apply Hk; by right|]. apply Hfr. apply Hk. by left.
Qed.
End All.
End Account.
