(* ===== verification/GroHandle.v ===== *)
(** * handleGRO keeps every packet

    The loop over the batch, the accounting after it, and the theorem: every
    packet of the batch is in exactly one of the buffers that are written, as
    it was or as part of a group that segmentation takes apart again. *)
From stdpp Require Import functions.
From S2P Require Import Prelude Bytes GoMem Checksum TsChecksum Tcpip HdrChecksum UDP Offload Virtio Gro GroSpec GroBufs GroGroup GroTcp GroInv GroUdp GroAccount.

(** A candidate has the version its type says. *)
Lemma candidate_version C g :
  match packetIsGROCandidate C g with
  | notGROCandidate => True
  | tcp4GROCandidate | udp4GROCandidate => version_ok false C
  | tcp6GROCandidate | udp6GROCandidate => version_ok true C
  end.
Proof.
  unfold packetIsGROCandidate, version_ok. destruct (Zlen C <? 28); [done|].
  destruct (Z.eqb_spec (Z.shiftr (byte_at C 0) 4) 4) as [E4|]; [by repeat case_match|].
  destruct (Z.eqb_spec (Z.shiftr (byte_at C 0) 4) 6) as [E6|]; by repeat case_match.
Qed.

Section Loop.
Context `{CI : ChecksumImpl} `{UV : UnixVirtio} (big : bool) (P : Z -> list Z) (N offset : Z) (skip : bool) (flags : Z).
Hypothesis offset_ok : 10 <= offset.
Hypothesis N_ok : N <= 65536.
Hypothesis P_bytes : forall k, 0 <= k < N -> bytes (P k).
Abbreviation inv := (inv big P N offset skip).

(** A packet that is passed on as it is. *)
Lemma noop_ok i st E : inv i st E -> i < N ->
  gpost (b <-- buf_at i ;; h <-- btail b (offset - virtioNetHdrLen) ;;
         err <-- at_slice h (encode big zero_hdr) ;;
         match err with
         | Some e => gret (Some (ErrEncode e))
         | None => _ <-- push_toWrite i ;; gret None
         end) st (fun r st' => r = None /\ exists E', inv (i + 1) st' E').
Proof.
  intros Hv Hlt. pose proof (iv_i _ _ _ _ _ _ _ _ Hv) as Hi. pose proof (iv_bufs _ _ _ _ _ _ _ _ Hv) as Hb.
  destruct (pks_lookup offset st i (P i) Hb ltac:(lia) (iv_rest _ _ _ _ _ _ _ _ Hv i ltac:(lia))) as (b & m & h & Hh & Hvh).
  pose proof Hh as (_ & _ & (Hm & Bm & B0 & B1 & B2 & B3 & _) & _ & EV & _). pose proof (Zlen_hdr_bytes big zero_hdr) as Lh.
  assert (bytes (hdr_bytes big zero_hdr)) as Bh by apply bytes_hdr_bytes, zero_hdr_ok.
  set (m' := write_at m (sl_off (b_sl b) + offset - 10) (hdr_bytes big zero_hdr)).
  destruct (put_head offset st i b m (P i) h m' (P i) (hdr_bytes big zero_hdr) Hb Hh) as (Hok' & Hs & Hp & Hvv).
  { by apply bytes_write_at. }
  { apply Zlen_write_at. }
  { rewrite EV. apply window_write_at_out; lia. }
  { apply window_write_at_eq'; lia. }
  eapply gpost_step; [by eapply gruns_holds|]. cbn beta. unfold virtioNetHdrLen.
  eapply gpost_step; [eapply gruns_btail; [exact Hm|..]; lia|]. cbn beta.
  eapply gpost_step.
  { eapply (gruns_at (BSlice (b_arr b) _)); [exact Hm|]. cbn [b_sl]. apply runs_encode; lia. }
  cbn beta iota. cbn [b_arr]. replace (sl_off (b_sl b) + (offset - 10)) with (sl_off (b_sl b) + offset - 10) by lia. fold m'.
  rewrite (put_same offset st i b m (P i) h m' Hh). set (e := mkEntry [i] KPlain).
  eexists None, (pushed (put_buf st i b m') i). split; [done|]. split; [done|]. exists (<[i := e]> E).
  destruct (holds_pks offset _ _ _ _ _ _ Hh) as [Kp Kv]. pose proof (iv_fresh _ _ _ _ _ _ _ _ Hv) as Hfr.
  eapply (inv_push big P N offset skip i st E e _ (hdr_bytes big zero_hdr)); try done.
  - change (pks offset (pushed (put_buf st i b m') i)) with (pks offset (put_buf st i b m')). rewrite Hp. by apply list_insert_id.
  - intros k Hk. change (vhs offset (pushed (put_buf st i b m') i)) with (vhs offset (put_buf st i b m')).
    by rewrite Hvv, list_lookup_insert_ne.
  - change (vhs offset (pushed (put_buf st i b m') i)) with (vhs offset (put_buf st i b m')).
    rewrite Hvv. apply list_lookup_insert_eq. by eapply lookup_lt_Some.
  - cbn. apply table_ok_other; [unfold tcp_of; by rewrite fn_lookup_insert|done|].
    eapply table_ok_ext; [|by apply (iv_tcp _ _ _ _ _ _ _ _ Hv)]. intros k Hk. apply tcp_of_other. by intros ->.
  - cbn. apply table_ok_other; [unfold udp_of; by rewrite fn_lookup_insert|done|].
    eapply table_ok_ext; [|by apply (iv_udp _ _ _ _ _ _ _ _ Hv)]. intros k Hk. apply udp_of_other. by intros ->.
  - by apply (iv_udp_ne _ _ _ _ _ _ _ _ Hv).
  - cbn. lia.
  - cbn. lia.
Qed.

Lemma gro_packet_ok i st E : inv i st E -> i < N ->
  gpost (gro_packet big flags offset skip i) st (fun r st' => r = None /\ exists E', inv (i + 1) st' E').
Proof.
  intros Hv Hlt. pose proof (iv_i _ _ _ _ _ _ _ _ Hv) as Hi. pose proof (iv_bufs _ _ _ _ _ _ _ _ Hv) as Hb.
  destruct (pks_lookup offset st i (P i) Hb ltac:(lia) (iv_rest _ _ _ _ _ _ _ _ Hv i ltac:(lia))) as (b & m & h & Hh & Hvh).
  pose proof Hh as (_ & _ & Hbuf & _ & EV & _). pose proof Hbuf as (Hm & Bm & B0 & B1 & B2 & B3 & _).
  unfold gro_packet. eapply gpost_step; [by eapply gruns_holds|]. cbn beta. unfold virtioNetHdrLen, blen.
  replace (_ || _) with false by lia.
  eapply gpost_step; [by eapply gruns_packet|]. eapply gpost_step; [by eapply gruns_view|]. cbn beta. rewrite <- EV.
  pose proof (candidate_guard (P i) flags) as Hg. pose proof (candidate_version (P i) flags) as Hver.
  eapply (gpost_bind _ _ _ (packet_post big P N offset skip i)).
  { destruct (packetIsGROCandidate (P i) flags) in *; [apply gpost_ret; by exists E|..];
      first [by eapply tcpGRO_ok | by eapply udpGRO_ok]. }
  intros r st' [E' Hr]. cbn beta. destruct r.
  - by eapply noop_ok.
  - eexists None, (pushed st' i). split; [done|]. split; [done|]. by exists E'.
  - apply gpost_ret. split; [done|]. by exists E'.
Qed.

Lemma gro_loop_ok n : forall i st E, inv i st E -> i + Z.of_nat n = N ->
  gpost (gro_loop big flags offset skip n i) st (fun r st' => r = None /\ exists E', inv N st' E').
Proof.
  induction n as [|n IH]; intros i st E Hv Hn; cbn [gro_loop].
  - apply gpost_ret. split; [done|]. exists E. assert (i = N) as -> by lia. done.
  - eapply gpost_bind; [by apply (gro_packet_ok i st E); [|lia]|]. intros r st' (-> & E' & Hv'). cbn beta iota.
    apply (IH (i + 1) st' E'); [done|lia].
Qed.
End Loop.

(** ** The theorem *)

(** The contents of a buffer that is written, and of the ten bytes in front of
    it, when it stands for the packets [ids]: a packet as it was, or a merged
    packet with its headers.  A packet that was taken out of its flow because
    its checksum is wrong gets no virtio header. *)
Inductive written `{ChecksumImpl} `{UnixVirtio} (big skip : bool) (P : Z -> list Z) (j : Z) : list Z -> list Z -> list Z -> Prop :=
| written_packet : written big skip P j [j] (P j) (hdr_bytes big zero_hdr)
| written_unchecked h : skip = false -> written big skip P j [j] (P j) h
| written_tcp v6 th g s psh ids V V' : 1 < Zlen ids -> tcp_group P v6 th g s psh ids V -> accounted v6 true V V' ->
    written big skip P j ids V'
      (hdr_bytes big (mkVirtio VIRTIO_NET_HDR_F_NEEDS_CSUM (if v6 then VIRTIO_NET_HDR_GSO_TCPV6 else VIRTIO_NET_HDR_GSO_TCPV4)
                        (iph v6 + th) g (iph v6) 16))
| written_udp v6 g ids V V' : 1 < Zlen ids -> udp_group P v6 g ids V -> accounted v6 false V V' ->
    written big skip P j ids V'
      (hdr_bytes big (mkVirtio VIRTIO_NET_HDR_F_NEEDS_CSUM VIRTIO_NET_HDR_GSO_UDP_L4 (iph v6 + 8) g (iph v6) 6)).

Section Handle.
Context `{CI : ChecksumImpl} `{UV : UnixVirtio} (big : bool) (offset flags : Z) (skip : bool).
Context (tcp_range : gmap tcpFlowKey (list tcpGROItem) -> list (tcpFlowKey * list tcpGROItem)).
Context (udp_range : gmap udpFlowKey (list udpGROItem) -> list (udpFlowKey * list udpGROItem)).
(** Ranging over a map visits every flow once, in any order. *)
Hypothesis tcp_range_ok : forall t, tcp_range t ≡ₚ map_to_list t.
Hypothesis udp_range_ok : forall t, udp_range t ≡ₚ map_to_list t.
Hypothesis offset_ok : 10 <= offset.

(** The packets of the batch. *)
Definition packet_of (st : gro) (k : Z) : list Z := default [] (pks offset st !! Z.to_nat k).

Lemma inv_start st : bufs_ok offset st -> gr_toWrite st = [] -> itemsByFlow (gr_tcp st) = ∅ -> itemsByFlow (gr_udp st) = ∅ ->
  Zlen (gr_bufs st) <= Z.of_nat (itemsPool (gr_tcp st)) -> Zlen (gr_bufs st) <= Z.of_nat (itemsPool (gr_udp st)) ->
  inv big (packet_of st) (Zlen (gr_bufs st)) offset skip 0 st (fun _ => mkEntry [] KPlain).
Proof.
  intros Hb HW Ht Hu Hp1 Hp2. pose proof (Zlen_nonneg (gr_bufs st)) as Hn.
  split; rewrite ?HW, ?Ht, ?Hu; try done; try lia; try (by intros j Hj%elem_of_nil);
    try (by constructor); try (by split; [intros k its Hl; rewrite lookup_empty in Hl|intros j it Hj%elem_of_nil]).
  intros k Hk. unfold packet_of. destruct (lookup_lt_is_Some_2 (pks offset st) (Z.to_nat k)) as [V HV]; [|by rewrite HV].
  rewrite length_pks. unfold Zlen in Hk. lia.
Qed.

Section Final.
Context (P : Z -> list Z) (N : Z) (st : gro) (E : Z -> entry).
Hypothesis Hv : inv big P N offset skip N st E.
Abbreviation W := (gr_toWrite st).

(** The items of the tables, in the order of accounting. *)
Abbreviation tcp_list := (concat (map snd (tcp_range (itemsByFlow (gr_tcp st))))).
Abbreviation udp_list := (concat (map snd (udp_range (itemsByFlow (gr_udp st))))).

Lemma tcp_list_in it : it ∈ tcp_list <-> exists its, itemsByFlow (gr_tcp st) !! ti_key it = Some its /\ it ∈ its.
Proof. eapply table_ok_list; [exact (iv_tcp _ _ _ _ _ _ _ _ Hv)|apply tcp_range_ok]. Qed.
Lemma udp_list_in it : it ∈ udp_list <-> exists its, itemsByFlow (gr_udp st) !! ui_key it = Some its /\ it ∈ its.
Proof. eapply table_ok_list; [exact (iv_udp _ _ _ _ _ _ _ _ Hv)|apply udp_range_ok]. Qed.

Lemma written_of_tcp it j V V' h' : tcp_item_ok P it (e_ids (E j)) V -> alone P j (e_ids (E j)) V -> done_tcp big it V V' h' ->
  written big skip P j (e_ids (E j)) V' h'.
Proof.
  intros [_ Hg Hn _] Ha. unfold done_tcp. destruct (Z.ltb_spec 0 (ti_numMerged it)) as [Hlt|Hge].
  - intros [Hac ->]. eapply written_tcp; [lia|exact Hg|exact Hac].
  - intros [-> ->]. destruct (group_numMerged _ _ _ _ _ (tg_group _ _ _ _ _ _ _ _ Hg)) as [[? _] _].
    destruct Ha as [-> ->]; [lia|]. constructor.
Qed.
Lemma written_of_udp it j V V' h' : udp_item_ok P it (e_ids (E j)) V -> alone P j (e_ids (E j)) V -> done_udp big it V V' h' ->
  written big skip P j (e_ids (E j)) V' h'.
Proof.
  intros [_ Hg Hn _] Ha. unfold done_udp. destruct (Z.ltb_spec 0 (ui_numMerged it)) as [Hlt|Hge].
  - intros [Hac ->]. eapply written_udp; [lia|exact Hg|exact Hac].
  - intros [-> ->]. destruct (group_numMerged _ _ _ _ _ (ug_group _ _ _ _ _ Hg)) as [[? _] _].
    destruct Ha as [-> ->]; [lia|]. constructor.
Qed.

(** The kind of a buffer decides which table has it. *)
Lemma tcp_list_entry it : it ∈ tcp_list -> e_kind (E (ti_bufsIndex it)) = KTcp it /\ 0 <= ti_bufsIndex it /\
  exists V, pks offset st !! Z.to_nat (ti_bufsIndex it) = Some V /\ tcp_item_ok P it (e_ids (E (ti_bufsIndex it))) V.
Proof.
  intros (its & Hl & Hin)%tcp_list_in.
  destruct (tcp_item_buffer big P N offset skip N st E it its Hv Hl Hin) as (_ & Hr & Hk & b & m & V & h & Hh & Hto & _).
  split; [done|]. split; [lia|]. exists V. split; [|done]. by apply (holds_pks offset _ _ _ _ _ _ Hh).
Qed.
Lemma udp_list_entry it : it ∈ udp_list -> e_kind (E (ui_bufsIndex it)) = KUdp it /\ 0 <= ui_bufsIndex it /\
  exists V, pks offset st !! Z.to_nat (ui_bufsIndex it) = Some V /\ udp_item_ok P it (e_ids (E (ui_bufsIndex it))) V.
Proof.
  intros (its & Hl & Hin)%udp_list_in.
  destruct (udp_item_buffer big P N offset skip N st E it its Hv Hl Hin) as (_ & Hr & Hk & b & m & V & h & Hh & Hto).
  split; [done|]. split; [lia|]. exists V. split; [|done]. by apply (holds_pks offset _ _ _ _ _ _ Hh).
Qed.
Lemma tcp_untouched k it : 0 <= k -> it ∈ tcp_list -> (forall x, e_kind (E k) <> KTcp x) -> Z.to_nat k <> Z.to_nat (ti_bufsIndex it).
Proof.
  intros Hk Hin Hne Eq. destruct (tcp_list_entry it Hin) as (Hkd & Hp & _). apply Z2Nat.inj in Eq; [|lia|lia]. subst k. by eapply Hne.
Qed.
Lemma udp_untouched k it : 0 <= k -> it ∈ udp_list -> (forall x, e_kind (E k) <> KUdp x) -> Z.to_nat k <> Z.to_nat (ui_bufsIndex it).
Proof.
  intros Hk Hin Hne Eq. destruct (udp_list_entry it Hin) as (Hkd & Hp & _). apply Z2Nat.inj in Eq; [|lia|lia]. subst k. by eapply Hne.
Qed.

(** The buffers after both tables. *)
Lemma accounting_written st1 st2 j :
  (forall it V, it ∈ tcp_list -> pks offset st !! Z.to_nat (ti_bufsIndex it) = Some V -> exists V' h',
     pks offset st1 !! Z.to_nat (ti_bufsIndex it) = Some V' /\ vhs offset st1 !! Z.to_nat (ti_bufsIndex it) = Some h' /\ done_tcp big it V V' h') ->
  (forall k, (forall it, it ∈ tcp_list -> k <> Z.to_nat (ti_bufsIndex it)) ->
     pks offset st1 !! k = pks offset st !! k /\ vhs offset st1 !! k = vhs offset st !! k) ->
  (forall it V, it ∈ udp_list -> pks offset st1 !! Z.to_nat (ui_bufsIndex it) = Some V -> exists V' h',
     pks offset st2 !! Z.to_nat (ui_bufsIndex it) = Some V' /\ vhs offset st2 !! Z.to_nat (ui_bufsIndex it) = Some h' /\ done_udp big it V V' h') ->
  (forall k, (forall it, it ∈ udp_list -> k <> Z.to_nat (ui_bufsIndex it)) ->
     pks offset st2 !! k = pks offset st1 !! k /\ vhs offset st2 !! k = vhs offset st1 !! k) ->
  j ∈ W -> exists V' h', pks offset st2 !! Z.to_nat j = Some V' /\ vhs offset st2 !! Z.to_nat j = Some h' /\
    written big skip P j (e_ids (E j)) V' h'.
Proof.
  intros HT HT' HU HU' Hj. pose proof (iv_range _ _ _ _ _ _ _ _ Hv j Hj) as Hr.
  destruct (iv_entry _ _ _ _ _ _ _ _ Hv j Hj) as (V & h & HV & Hh & He). unfold entry_ok in He.
  assert ((forall x, e_kind (E j) <> KTcp x) -> pks offset st1 !! Z.to_nat j = Some V /\ vhs offset st1 !! Z.to_nat j = Some h) as KT.
  { intros Hne. destruct (HT' (Z.to_nat j)) as [-> ->]; [|done]. intros it Hin. by apply tcp_untouched; try lia. }
  assert ((forall x, e_kind (E j) <> KUdp x) -> pks offset st2 !! Z.to_nat j = pks offset st1 !! Z.to_nat j /\
    vhs offset st2 !! Z.to_nat j = vhs offset st1 !! Z.to_nat j) as KU.
  { intros Hne. apply HU'. intros it Hin. by apply udp_untouched; try lia. }
  destruct (e_kind (E j)) as [| |it|it] eqn:Hk.
  - destruct KU as [-> ->]; [done|]. destruct KT as [-> ->]; [done|]. destruct He as (-> & -> & ->). exists (P j), (hdr_bytes big zero_hdr).
    split_and!; try done. constructor.
  - destruct KU as [-> ->]; [done|]. destruct KT as [-> ->]; [done|]. destruct He as (-> & -> & Hs). exists (P j), h.
    split_and!; try done. by constructor.
  - destruct KU as [-> ->]; [done|]. destruct He as (<- & Hto & Ha).
    destruct (HT it V) as (V' & h' & -> & -> & Hd); [|done|].
    { apply tcp_list_in. apply (tk_known _ _ _ _ _ (iv_tcp _ _ _ _ _ _ _ _ Hv) _ it Hj). unfold tcp_of. by rewrite Hk. }
    exists V', h'. split_and!; try done. by eapply written_of_tcp.
  - destruct KT as [Kp Kv]; [done|]. destruct He as (<- & Hto & Ha).
    destruct (HU it V) as (V' & h' & -> & -> & Hd); [|done|].
    { apply udp_list_in. apply (tk_known _ _ _ _ _ (iv_udp _ _ _ _ _ _ _ _ Hv) _ it Hj). unfold udp_of. by rewrite Hk. }
    exists V', h'. split_and!; try done. by eapply written_of_udp.
Qed.

Lemma accounting_ok :
  gpost (errTCP <-- applyTCPCoalesceAccounting big tcp_range offset ;;
         errUDP <-- applyUDPCoalesceAccounting big udp_range offset ;;
         gret (match errTCP, errUDP with None, None => None | _, _ => Some (ErrJoin errTCP errUDP) end)) st
    (fun r st' => r = None /\ gr_toWrite st' = W /\ bufs_ok offset st' /\
       forall j, j ∈ W -> exists V' h', pks offset st' !! Z.to_nat j = Some V' /\ vhs offset st' !! Z.to_nat j = Some h' /\
         written big skip P j (e_ids (E j)) V' h').
Proof.
  pose proof (iv_bufs _ _ _ _ _ _ _ _ Hv) as Hb.
  unfold applyTCPCoalesceAccounting, applyUDPCoalesceAccounting.
  eapply gpost_bind.
  { eapply gpost_step; [apply gruns_get_tcp|]. cbn beta.
    apply (account_all_ok offset ti_bufsIndex (account_tcp big) (tcp_item_ok P) (fun j => e_ids (E j)) (done_tcp big)); [|done|..].
    - intros st0 it b m V h Hok0 Hh0 Hit0. by eapply account_tcp_ok.
    - eapply table_ok_nodup; [exact (iv_tcp _ _ _ _ _ _ _ _ Hv)|apply tcp_range_ok].
    - intros it Hin. by apply tcp_list_entry.
    - intros it Hin. by apply tcp_list_entry. }
  intros r st1 (-> & Hb1 & (Et & Eu & EW) & HT & HT'). cbn beta.
  eapply gpost_bind.
  { eapply gpost_step; [apply gruns_get_udp|]. cbn beta. rewrite Eu.
    apply (account_all_ok offset ui_bufsIndex (account_udp big) (udp_item_ok P) (fun j => e_ids (E j)) (done_udp big)); [|done|..].
    - intros st0 it b m V h Hok0 Hh0 Hit0. by eapply account_udp_ok.
    - eapply table_ok_nodup; [exact (iv_udp _ _ _ _ _ _ _ _ Hv)|apply udp_range_ok].
    - intros it Hin. by apply udp_list_entry.
    - intros it Hin. destruct (udp_list_entry it Hin) as (Hk & Hp & V & HV & Hit). exists V. split; [|done].
      destruct (HT' (Z.to_nat (ui_bufsIndex it))) as [-> _]; [|done]. intros it' Hin'. apply tcp_untouched; try done. intros x. congruence. }
  intros r st2 (-> & Hb2 & (_ & _ & EW2) & HU & HU'). apply gpost_ret. split; [done|]. split; [congruence|]. split; [done|].
  intros j Hj. by eapply accounting_written.
Qed.
End Final.

(** handleGRO neither loses nor duplicates a packet.  For a batch of at most
    65536 packets, each in a buffer of its own, and fresh flow tables, it returns
    no error (and does not panic), and the packets that the written buffers stand
    for are exactly the packets of the batch.  A buffer holds one packet as it
    was, or the payloads of several packets of one flow in order, all of the
    segment size but the last, with consecutive TCP sequence numbers, lengths and
    checksums of the whole, and a virtio header with which it can be cut again. *)
Lemma handleGRO_ok st :
  bufs_ok offset st -> gr_toWrite st = [] -> itemsByFlow (gr_tcp st) = ∅ -> itemsByFlow (gr_udp st) = ∅ ->
  Zlen (gr_bufs st) <= Z.of_nat (itemsPool (gr_tcp st)) -> Zlen (gr_bufs st) <= Z.of_nat (itemsPool (gr_udp st)) ->
  Zlen (gr_bufs st) <= 65536 ->
  exists st' (ids : Z -> list Z),
    handleGRO big tcp_range udp_range offset flags skip st = Ok (None, st') /\ bufs_ok offset st' /\
    NoDup (gr_toWrite st') /\ concat (map ids (gr_toWrite st')) ≡ₚ seqZ 0 (Zlen (gr_bufs st)) /\
    forall j, j ∈ gr_toWrite st' -> 0 <= j < Zlen (gr_bufs st) /\ exists V h,
      pks offset st' !! Z.to_nat j = Some V /\ vhs offset st' !! Z.to_nat j = Some h /\
      written big skip (packet_of st) j (ids j) V h.
Proof.
  intros Hb HW Ht Hu Hp1 Hp2 HN. pose proof (inv_start st Hb HW Ht Hu Hp1 Hp2) as Hv0.
  set (P := packet_of st) in *. set (N := Zlen (gr_bufs st)) in *.
  assert (forall k, 0 <= k < N -> bytes (P k)) as HPb.
  { intros k Hk. destruct (pks_lookup offset st k (P k) Hb ltac:(lia) (iv_rest _ _ _ _ _ _ _ _ Hv0 k Hk)) as (b & m & h & Hh & _).
    destruct Hh as (_ & _ & Hbuf & _ & -> & _). by eapply bytes_view. }
  assert (gpost (handleGRO big tcp_range udp_range offset flags skip) st (fun r st' => r = None /\ exists st1 E,
    inv big P N offset skip N st1 E /\ gr_toWrite st' = gr_toWrite st1 /\ bufs_ok offset st' /\ forall j, j ∈ gr_toWrite st1 -> exists V h,
      pks offset st' !! Z.to_nat j = Some V /\ vhs offset st' !! Z.to_nat j = Some h /\ written big skip P j (e_ids (E j)) V h))
    as (r & st' & Hrun & -> & st1 & E & Hv & EW & Hb' & Hwr).
  { unfold handleGRO. eapply gpost_step; [done|]. cbn beta. fold N.
    eapply gpost_bind; [eapply (gro_loop_ok big P N offset skip flags offset_ok HN HPb); [exact Hv0|subst N; unfold Zlen; lia]|].
    intros r st1 (-> & E & Hv). cbn beta iota. eapply gpost_mono; [by apply (accounting_ok P N st1 E)|].
    intros r st' (-> & EW & Hb' & Hwr). split; [done|]. by exists st1, E. }
  exists st', (fun j => e_ids (E j)). rewrite EW. split; [exact Hrun|]. split; [exact Hb'|]. split; [by apply (iv_nodup _ _ _ _ _ _ _ _ Hv)|].
  split; [by apply (iv_ids _ _ _ _ _ _ _ _ Hv)|]. intros j Hj. split; [by apply (iv_range _ _ _ _ _ _ _ _ Hv)|by apply Hwr].
Qed.
End Handle.

(** ** A batch

    Two TCP packets of one flow with four bytes of data each, and a packet that
    is not TCP or UDP; the bytes in front of the packets are 255. *)
Definition gro_tcp_packet (seq : Z) : list Z :=
  [69;0;0;44; 0;0;64;0; 64;6;0;0; 10;0;0;1; 10;0;0;2;
   0;80;156;64; 0;0;0;seq; 0;0;0;1; 80;16;16;0; 0;0;0;0; 1;2;3;4].
Definition gro_buffer (p : list Z) : list Z := repeat 255 10 ++ p ++ repeat 0 (100 - length p).
Definition gro_batch : gro :=
  mkGro [gro_buffer (gro_tcp_packet 0); gro_buffer (gro_tcp_packet 4); gro_buffer [0; 1; 2; 3]]
    [BSlice 0 (Slice 0 54 110); BSlice 1 (Slice 0 54 110); BSlice 2 (Slice 0 14 110)]
    newTCPGROTable newUDPGROTable [].

(** On this batch, two packets of one flow with wrong checksums and one that is
    not merged, the packet that tcpGRO takes out of its flow is written without a
    virtio header: the ten bytes in front of it are the old ones of the buffer,
    while the second and the unrelated packet get the zero header. *)
Example handleGRO_stale_header :
  match @handleGRO (tschecksum.ts_impl false 64) linux_virtio false map_to_list map_to_list 10 0 false gro_batch with
  | Ok (None, st') => gr_toWrite st' = [0; 1; 2] /\
      vhs 10 st' = [repeat 255 10; hdr_bytes false zero_hdr; hdr_bytes false zero_hdr]
  | _ => False
  end.
Proof. vm_compute. by split. Qed.
