(* ===== verification/GroPool.v ===== *)
(** * The slices of the flow tables are not lost

    A table takes the list of a new flow from its pool and [reset] gives all
    lists back: [pool + flows] is constant, so a table can be used again for the
    next batch. *)
From S2P Require Import Prelude Bytes GoMem Checksum TsChecksum Tcpip HdrChecksum UDP Offload Virtio Gro GroSpec.

Section Slices.
Context {K I : Type} `{Countable K}.

Definition slices (t : groTable K I) : nat := (itemsPool t + size (itemsByFlow t))%nat.

Lemma slices_insert (t t' : groTable K I) key item : insert_item t key item = Ok t' -> slices t' = slices t.
Proof.
  unfold insert_item, slices. destruct (itemsByFlow t !! key) eqn:El.
  - intros [= <-]. cbn. by rewrite map_size_insert_Some by (by eexists).
  - destruct (itemsPool t); [done|]. intros [= <-]. cbn. rewrite map_size_insert_None by done. lia.
Qed.
Lemma slices_present (t : groTable K I) key (its : list I) : (0 < length (default [] (itemsByFlow t !! key)))%nat ->
  slices (mkTable (<[key := its]> (itemsByFlow t)) (itemsPool t)) = slices t.
Proof.
  intros Hl. unfold slices. cbn. destruct (itemsByFlow t !! key) eqn:El; [by rewrite map_size_insert_Some by (by eexists)|].
  cbn in Hl. lia.
Qed.
Lemma slices_update (t t' : groTable K I) key item i : updateAt t key item i = Ok t' -> slices t' = slices t.
Proof. unfold updateAt. case_decide; [|done]. intros [= <-]. apply slices_present. lia. Qed.
Lemma slices_delete (t t' : groTable K I) key i : deleteAt t key i = Ok t' -> slices t' = slices t.
Proof. unfold deleteAt. case_decide; [|done]. intros [= <-]. apply slices_present. lia. Qed.
Lemma reset_fresh (t : groTable K I) : reset t = mkTable ∅ (slices t).
Proof. done. Qed.
End Slices.

(** ** Code that keeps both tables' slices *)

Definition both (st : gro) : nat * nat := (slices (gr_tcp st), slices (gr_udp st)).
Definition keeps {A} (c : GM A) : Prop := forall st a st', c st = Ok (a, st') -> both st' = both st.

Lemma keeps_ret {A} (a : A) : keeps (gret a).
Proof. by intros st b st' [= <- <-]. Qed.
Lemma keeps_panic {A} : keeps (@gpanic A).
Proof. by intros st b st' ?. Qed.
Lemma keeps_bind {A B} (c : GM A) (k : A -> GM B) : keeps c -> (forall a, keeps (k a)) -> keeps (gbind c k).
Proof.
  intros Hc Hk st b st'. unfold gbind. destruct (c st) as [[a st1]|] eqn:E; [|done]. intros E'.
  rewrite (Hk a st1 b st' E'). by apply (Hc st a).
Qed.
Lemma keeps_at {A} b (c : slice -> M A) : keeps (at_slice b c).
Proof. intros st a st'. unfold at_slice. repeat case_match; try done. by intros [= <- <-]. Qed.
Lemma keeps_buf_at i : keeps (buf_at i).
Proof. intros st a st'. unfold buf_at. repeat case_match; try done. by intros [= <- <-]. Qed.
Lemma keeps_set_buf i b : keeps (set_buf i b).
Proof. intros st a st'. unfold set_buf. repeat case_match; try done. by intros [= <- <-]. Qed.
Lemma keeps_push i : keeps (push_toWrite i).
Proof. by intros st a st' [= <- <-]. Qed.
Lemma keeps_num : keeps num_bufs.
Proof. by intros st a st' [= <- <-]. Qed.
(** Reading a table, then writing a table with as many slices. *)
Lemma keeps_tcp {A} (f : tcpGROTable -> res tcpGROTable) (k : GM A) :
  (forall t t', f t = Ok t' -> slices t' = slices t) -> keeps k -> keeps (t <-- get_tcp ;; _ <-- set_tcp (f t) ;; k).
Proof.
  intros Hf Hk st a st'. unfold gbind, get_tcp, set_tcp. destruct (f (gr_tcp st)) as [t|] eqn:E; [|done]. intros E'.
  rewrite (Hk _ _ _ E'). unfold both. cbn. by rewrite (Hf _ _ E).
Qed.
Lemma keeps_udp {A} (f : udpGROTable -> res udpGROTable) (k : GM A) :
  (forall t t', f t = Ok t' -> slices t' = slices t) -> keeps k -> keeps (t <-- get_udp ;; _ <-- set_udp (f t) ;; k).
Proof.
  intros Hf Hk st a st'. unfold gbind, get_udp, set_udp. destruct (f (gr_udp st)) as [t|] eqn:E; [|done]. intros E'.
  rewrite (Hk _ _ _ E'). unfold both. cbn. by rewrite (Hf _ _ E).
Qed.
Lemma keeps_get_tcp {A} (k : tcpGROTable -> GM A) : (forall t, keeps (k t)) -> keeps (gbind get_tcp k).
Proof. intros Hk st a st'. unfold gbind, get_tcp. apply Hk. Qed.
Lemma keeps_get_udp {A} (k : udpGROTable -> GM A) : (forall t, keeps (k t)) -> keeps (gbind get_udp k).
Proof. intros Hk st a st'. unfold gbind, get_udp. apply Hk. Qed.

Create HintDb keeps.
#[export] Hint Resolve keeps_ret keeps_panic keeps_at keeps_buf_at keeps_set_buf keeps_push keeps_num : keeps.
#[export] Hint Resolve slices_insert slices_update slices_delete : keeps.

(** Follow the code; what remains are the table updates. *)
Ltac keep_step :=
  lazymatch goal with
  | |- keeps (gbind _ _) => first [ apply keeps_tcp | apply keeps_udp | apply keeps_get_tcp | apply keeps_get_udp | apply keeps_bind ]
  | |- keeps _ => first [ solve [eauto with keeps] | case_match ]
  | |- forall _, _ => intros
  | |- slices _ = slices _ => eauto with keeps
  end.
Ltac keep := repeat keep_step.

Lemma keeps_btail b lo : keeps (btail b lo).
Proof. unfold btail. keep. Qed.
Lemma keeps_breslice b lo hi : keeps (breslice b lo hi).
Proof. unfold breslice. keep. Qed.
Lemma keeps_bcontents b : keeps (bcontents b).
Proof. unfold bcontents. keep. Qed.
Lemma keeps_gmod a b : keeps (gmod a b).
Proof. unfold gmod. keep. Qed.
#[export] Hint Resolve keeps_btail keeps_breslice keeps_bcontents keeps_gmod : keeps.
Lemma keeps_extend i n : keeps (extend_buf i n).
Proof. unfold extend_buf. keep. Qed.
Lemma keeps_copy i n d : keeps (copy_into i n d).
Proof. unfold copy_into. keep. Qed.
#[export] Hint Resolve keeps_extend keeps_copy : keeps.

Section Keeps.
Context `{CI : ChecksumImpl}.

Lemma keeps_csum skip b n p v : keeps (csum_ok skip b n p v).
Proof. unfold csum_ok. keep. Qed.
#[local] Hint Resolve keeps_csum : keeps.
Lemma keeps_canTCP a b c d e f g h : keeps (tcpPacketsCanCoalesce a b c d e f g h).
Proof. unfold tcpPacketsCanCoalesce. keep. Qed.
Lemma keeps_canUDP a b c d e : keeps (udpPacketsCanCoalesce a b c d e).
Proof. unfold udpPacketsCanCoalesce. keep. Qed.
Lemma keeps_coTCP a b c d e f g h i j : keeps (coalesceTCPPackets a b c d e f g h i j).
Proof. unfold coalesceTCPPackets. cbv zeta. keep. Qed.
Lemma keeps_coUDP a b c d e : keeps (coalesceUDPPackets a b c d e).
Proof. unfold coalesceUDPPackets. cbv zeta. keep. Qed.
#[local] Hint Resolve keeps_canTCP keeps_canUDP keeps_coTCP keeps_coUDP : keeps.

Lemma keeps_set_last_tcp (f : tcpGROTable -> res tcpGROTable) :
  (forall t t', f t = Ok t' -> slices t' = slices t) -> keeps (t <-- get_tcp ;; set_tcp (f t)).
Proof.
  intros Hf st a st'. unfold gbind, get_tcp, set_tcp. destruct (f (gr_tcp st)) as [t|] eqn:E; [|done]. intros [= <- <-].
  unfold both. cbn. by rewrite (Hf _ _ E).
Qed.
Lemma keeps_set_last_udp (f : udpGROTable -> res udpGROTable) :
  (forall t t', f t = Ok t' -> slices t' = slices t) -> keeps (t <-- get_udp ;; set_udp (f t)).
Proof.
  intros Hf st a st'. unfold gbind, get_udp, set_udp. destruct (f (gr_udp st)) as [t|] eqn:E; [|done]. intros [= <- <-].
  unfold both. cbn. by rewrite (Hf _ _ E).
Qed.
Lemma keeps_tcp_insert a b c d e : keeps (tcp_insert a b c d e).
Proof. unfold tcp_insert. apply keeps_bind; [auto with keeps|]. intros it. apply keeps_set_last_tcp. eauto with keeps. Qed.
Lemma keeps_udp_insert a b c d e : keeps (udp_insert a b c d e).
Proof. unfold udp_insert. apply keeps_bind; [auto with keeps|]. intros it. apply keeps_set_last_udp. eauto with keeps. Qed.
#[local] Hint Resolve keeps_tcp_insert keeps_udp_insert : keeps.

Lemma keeps_tcp_items n items pkt i cd off v skip : keeps (tcp_items n items pkt i cd off v skip).
Proof. induction n as [|n IH]; cbn [tcp_items]; cbv zeta; keep. Qed.
#[local] Hint Resolve keeps_tcp_items : keeps.
Lemma keeps_tcpGRO off i v skip : keeps (tcpGRO off i v skip).
Proof. unfold tcpGRO, tcp_lookupOrInsert. cbv zeta. keep. Qed.
Lemma keeps_udpGRO off i v skip : keeps (udpGRO off i v skip).
Proof. unfold udpGRO, udp_lookupOrInsert. cbv zeta. keep. Qed.
#[local] Hint Resolve keeps_tcpGRO keeps_udpGRO : keeps.

Context `{UV : UnixVirtio} (big : bool).
Lemma keeps_account {I} (acc : I -> Z -> GM (option gso_error)) items off : (forall it o, keeps (acc it o)) -> keeps (account_all acc items off).
Proof. intros Ha. induction items as [|it items IH]; cbn [account_all]; keep. Qed.
Lemma keeps_packet fl off skip i : keeps (gro_packet big fl off skip i).
Proof. unfold gro_packet. keep. Qed.
#[local] Hint Resolve keeps_packet : keeps.
Lemma keeps_loop fl off skip n : forall i, keeps (gro_loop big fl off skip n i).
Proof. induction n as [|n IH]; intros i; cbn [gro_loop]; keep. Qed.
#[local] Hint Resolve keeps_loop : keeps.

Lemma keeps_handleGRO r1 r2 off fl skip : keeps (handleGRO big r1 r2 off fl skip).
Proof.
  unfold handleGRO, applyTCPCoalesceAccounting, applyUDPCoalesceAccounting.
  assert (forall it o, keeps (account_tcp big it o)) by (intros; unfold account_tcp; keep).
  assert (forall it o, keeps (account_udp big it o)) by (intros; unfold account_udp; keep).
  keep; by apply keeps_account.
Qed.
End Keeps.
