(* ===== verification/TunLinux.v ===== *)
(** * tun_linux.go: reading and writing batches

    The read and write operations of the Linux [NativeTun].  The device file is
    a parameter: [file_Write k data] is the kernel's answer to the [k]-th write
    of a batch and [read] the result of a read (into the write buffer).  The offload tables exist
    only when the device has virtio headers ([enableGSO]).  The deferred
    [reset] of BatchWrite is part of the model: it runs on every return, and it
    panics when there are no tables. *)
From stdpp Require Import functions.
From S2P Require Import Prelude Bytes GoMem Checksum TsChecksum Tcpip HdrChecksum UDP Offload Virtio Gro GroSpec GroBufs GroGroup GroTcp GroInv GroUdp GroAccount GroHandle GroPool.

Definition gsoMaxSize : Z := 65536.

(** The fields the data path uses. *)
Record NativeTun := mkNativeTun {
  vnetHdr : bool;
  writeBuffer : bslice;
  gsoToWrite : list Z;
  groTables : option (tcpGROTable * udpGROTable);
  nt_gro : Z;
  nt_txChecksumOffload : bool
}.

Inductive errno := EBADFD | Errno (code : Z).
(** The results of the file's Read and Write: the count, or the count so far and
    the error. *)
Inductive read_result := ReadData (n : Z) | ReadFailed (n : Z) (e : errno).
Inductive write_result := Wrote (n : Z) | WriteFailed (n : Z) (e : errno).
Inductive tun_read_error := ReadClosed | ReadErrno (e : errno) | ReadGSO (e : gso_error).
Inductive batch_error := BatchGRO (e : gro_error) | BatchClosed | BatchErrors (errs : list errno).

Definition FrontHeadroom (t : NativeTun) : Z := if vnetHdr t then virtioNetHdrLen else 0.
Definition BatchSize (t : NativeTun) : Z := if negb (vnetHdr t) then 1 else Z.of_nat idealBatchSize.

Section Tun.
Context `{CI : ChecksumImpl} `{UV : UnixVirtio} (IsBigEndian : bool).
Context (tcp_range : gmap tcpFlowKey (list tcpGROItem) -> list (tcpFlowKey * list tcpGROItem)).
Context (udp_range : gmap udpFlowKey (list udpGROItem) -> list (udpFlowKey * list udpGROItem)).

(** ** Reading *)

(** [t.writeBuffer[:n]] through the virtio code. *)
Definition virtio_input (t : NativeTun) (n : Z) (buffers : list bslice) (offset : Z) : OM (Z * option gso_error) :=
  inp <=- on (b_arr (writeBuffer t)) (reslice (b_sl (writeBuffer t)) 0 n) ;;
  handleVirtioRead IsBigEndian (BSlice (b_arr (writeBuffer t)) inp) buffers offset.

(** After the file answered; the sizes of the store are [readN]. *)
Definition BatchRead (t : NativeTun) (buffers : list bslice) (offset : Z) (read : read_result) : OM (Z * option tun_read_error) :=
  match read with
  | ReadFailed n e => oret (n, Some (ReadErrno e))
  | ReadData n =>
      r <=- virtio_input t n buffers offset ;;
      oret (r.1, match r.2 with Some e => Some (ReadGSO e) | None => None end)
  end.

(** [Read] into [p]; [sizes] is a local array. *)
Definition Read (t : NativeTun) (p : bslice) (read : read_result) : OM (Z * option tun_read_error) :=
  if vnetHdr t then
    match read with
    | ReadFailed n EBADFD => oret (n, Some ReadClosed)
    | ReadFailed n e => oret (n, Some (ReadErrno e))
    | ReadData n => fun st =>
        match virtio_input t n [p] 0 (mkStore (arrays st) [0]) with
        | Panic => Panic
        | Ok ((k, e), st') =>
            Ok (match e with
                | Some e => (k, Some (ReadGSO e))
                | None => (if k =? 0 then 0 else byte_at (sizes st') 0, None)
                end, mkStore (arrays st') (sizes st))
        end
    end
  else oret (match read with ReadData n => (n, None) | ReadFailed n e => (n, Some (ReadErrno e)) end).

(** ** Writing *)

Context (file_Write : nat -> list Z -> write_result).

(** The loop over [gsoToWrite]; [frames] is what was handed to the file. *)
Fixpoint write_loop (toWrite : list Z) (offset : Z) (k : nat) (total : Z) (errs : list errno) (frames : list (list Z))
    : GM (Z * option batch_error * list (list Z)) :=
  match toWrite with
  | [] => gret (total, match errs with [] => None | _ => Some (BatchErrors errs) end, frames)
  | j :: toWrite' =>
      b <-- buf_at j ;; s <-- btail b offset ;; data <-- bcontents s ;;
      match file_Write k data with
      | WriteFailed _ EBADFD => gret (total, Some BatchClosed, frames ++ [data])
      | WriteFailed _ e => write_loop toWrite' offset (S k) total (errs ++ [e]) (frames ++ [data])
      | Wrote n => write_loop toWrite' offset (S k) (total + n) errs (frames ++ [data])
      end
  end.

Definition get_toWrite : GM (list Z) := fun st => Ok (gr_toWrite st, st).

(** [for i := range buffers { gsoToWrite = append(gsoToWrite, i) }] *)
Fixpoint push_all (n : nat) (i : Z) : GM unit :=
  match n with O => gret tt | S n' => _ <-- push_toWrite i ;; push_all n' (i + 1) end.

Definition batch_body (t : NativeTun) (offset : Z) : GM (Z * option batch_error * list (list Z)) :=
  if vnetHdr t then
    err <-- handleGRO IsBigEndian tcp_range udp_range offset (nt_gro t) (negb (nt_txChecksumOffload t)) ;;
    match err with
    | Some e => gret (0, Some (BatchGRO e), [])
    | None => w <-- get_toWrite ;; write_loop w (offset - virtioNetHdrLen) 0 0 [] []
    end
  else
    n <-- num_bufs ;; _ <-- push_all (Z.to_nat n) 0 ;;
    w <-- get_toWrite ;; write_loop w offset 0 0 [] [].

Definition BatchWrite (t : NativeTun) (arrays : list (list Z)) (buffers : list bslice) (offset : Z)
    : res ((Z * option batch_error * list (list Z)) * NativeTun * list (list Z)) :=
  match groTables t with
  | None => Panic
  | Some (tcp, udp) =>
      match batch_body t offset (mkGro arrays buffers tcp udp []) with
      | Panic => Panic
      | Ok (r, st) =>
          Ok (r, mkNativeTun (vnetHdr t) (writeBuffer t) (gr_toWrite st) (Some (reset (gr_tcp st), reset (gr_udp st)))
                   (nt_gro t) (nt_txChecksumOffload t), gr_arrays st)
      end
  end.

(** [Write] of one packet; without virtio headers the file gets it directly. *)
Definition Write (t : NativeTun) (arrays : list (list Z)) (p : bslice) : res (Z * option batch_error * NativeTun) :=
  if vnetHdr t then
    match BatchWrite t arrays [p] virtioNetHdrLen with
    | Panic => Panic
    | Ok ((_, Some e, _), t', _) => Ok (0, Some e, t')
    | Ok ((_, None, _), t', _) => Ok (sl_len (b_sl p), None, t')
    end
  else
    match arrays !! b_arr p with
    | None => Panic
    | Some m =>
        Ok (match file_Write 0 (window m (sl_off (b_sl p)) (sl_len (b_sl p))) with
            | Wrote n => (n, None, t)
            | WriteFailed n e => (n, Some (BatchErrors [e]), t)
            end)
    end.

(** ** What a batch write does *)

Hypothesis tcp_range_ok : forall t, tcp_range t ≡ₚ map_to_list t.
Hypothesis udp_range_ok : forall t, udp_range t ≡ₚ map_to_list t.

(** Empty tables with all their slices, as [enableGSO] makes them. *)
Definition fresh (t : NativeTun) : Prop := groTables t = Some (newTCPGROTable, newUDPGROTable).

(** A buffer from its virtio header on. *)
Lemma frame_read offset st j V h : 10 <= offset -> bufs_ok offset st -> 0 <= j ->
  pks offset st !! Z.to_nat j = Some V -> vhs offset st !! Z.to_nat j = Some h ->
  exists b s, gruns (buf_at j) st b st /\ gruns (btail b (offset - virtioNetHdrLen)) st s st /\ gruns (bcontents s) st (h ++ V) st.
Proof.
  intros Hoff Hok Hj HV Hh. destruct (pks_lookup offset st j V Hok Hj HV) as (b & m & h' & Hb & Hh').
  assert (h' = h) as -> by congruence. pose proof Hb as (_ & _ & (Hm & _ & B0 & B1 & B2 & B3 & _) & _ & EV & Eh).
  exists b. eexists. split; [by eapply gruns_holds|]. unfold virtioNetHdrLen. split.
  { eapply gruns_btail; [exact Hm|..]; lia. }
  replace (h ++ V) with (window m (sl_off (b_sl b) + (offset - 10)) (sl_len (b_sl b) - (offset - 10))); [by apply gruns_bcontents|].
  replace (sl_len (b_sl b) - (offset - 10)) with (10 + (sl_len (b_sl b) - offset)) by lia.
  rewrite window_app by lia. rewrite EV, Eh. unfold view, vhdr. f_equal; f_equal; lia.
Qed.

(** When the file takes every frame, every buffer of the list is written. *)
Lemma write_loop_ok (Q : Z -> list Z -> list Z -> Prop) offset st : 10 <= offset -> bufs_ok offset st -> (forall k d, file_Write k d = Wrote (Zlen d)) ->
  forall W k total frames,
  (forall j, j ∈ W -> 0 <= j /\ exists V h, pks offset st !! Z.to_nat j = Some V /\ vhs offset st !! Z.to_nat j = Some h /\ Q j V h) ->
  exists fs, gruns (write_loop W (offset - virtioNetHdrLen) k total [] frames) st (total + Zlen (concat fs), None, frames ++ fs) st /\
    Forall2 (fun j f => exists V h, f = h ++ V /\ Q j V h) W fs.
Proof.
  intros Hoff Hok Hw. induction W as [|j W IH]; intros k total frames HW; cbn [write_loop].
  - exists []. split; [|constructor]. cbn. change (Zlen (@nil Z)) with 0. rewrite Z.add_0_r, app_nil_r. apply gruns_ret.
  - destruct (HW j ltac:(by left)) as (Hj & V & h & HV & Hh & HQ).
    destruct (frame_read offset st j V h Hoff Hok Hj HV Hh) as (b & s & R1 & R2 & R3).
    destruct (IH (S k) (total + Zlen (h ++ V)) (frames ++ [h ++ V])) as (fs & R & HF).
    { intros j' Hj'. apply HW. by right. }
    exists ((h ++ V) :: fs). split.
    + eapply gruns_bind; [exact R1|]. cbn beta. eapply gruns_bind; [exact R2|]. eapply gruns_bind; [exact R3|]. cbn beta.
      rewrite Hw. cbn [concat]. rewrite (Zlen_app (h ++ V)), Z.add_assoc. rewrite <- app_assoc in R. exact R.
    + constructor; [|done]. by exists V, h.
Qed.

Lemma BatchWrite_ok t arrays buffers offset :
  let st := mkGro arrays buffers newTCPGROTable newUDPGROTable [] in
  vnetHdr t = true -> fresh t -> 10 <= offset -> bufs_ok offset st -> Zlen buffers <= 128 ->
  (forall k d, file_Write k d = Wrote (Zlen d)) ->
  exists frames t' arrays' (ids : Z -> list Z),
    BatchWrite t arrays buffers offset = Ok ((Zlen (concat frames), None, frames), t', arrays') /\ fresh t' /\
    NoDup (gsoToWrite t') /\ concat (map ids (gsoToWrite t')) ≡ₚ seqZ 0 (Zlen buffers) /\
    Forall2 (fun j f => exists V h, f = h ++ V /\
      written IsBigEndian (negb (nt_txChecksumOffload t)) (packet_of offset st) j (ids j) V h) (gsoToWrite t') frames.
Proof.
  intros st Hvn Hfr Hoff Hok HN Hw.
  destruct (handleGRO_ok IsBigEndian offset (nt_gro t) (negb (nt_txChecksumOffload t)) tcp_range udp_range tcp_range_ok udp_range_ok Hoff st)
    as (st' & ids & Hrun & Hok' & Hnd & Hperm & Hwr); try done; try (cbn; lia).
  pose proof (keeps_handleGRO IsBigEndian _ _ _ _ _ _ _ _ Hrun) as Hkeep. injection Hkeep as Ht Hu.
  destruct (write_loop_ok (fun j => written IsBigEndian (negb (nt_txChecksumOffload t)) (packet_of offset st) j (ids j)) offset st' Hoff Hok' Hw (gr_toWrite st') 0 0 []) as (fs & R & HF).
  { intros j Hj. destruct (Hwr j Hj) as ([? _] & V & h & HV & Hh & Hj'). split; [done|]. by exists V, h. }
  unfold BatchWrite. unfold fresh in Hfr. rewrite Hfr. fold st.
  assert (batch_body t offset st = Ok ((Zlen (concat fs), None, fs), st')) as ->.
  { unfold batch_body. rewrite Hvn. unfold gbind. rewrite Hrun. exact R. }
  eexists fs, _, _, ids. split; [reflexivity|]. cbn [gsoToWrite]. split_and!; try done.
  unfold fresh. cbn [groTables]. by rewrite !reset_fresh, Ht, Hu.
Qed.

(** C3: BatchWrite on a device with virtio headers loses no packet.  For a batch
    of at most 128 packets, each in a buffer of its own, when the kernel takes
    every frame, the frames written are virtio header and packet of some buffers;
    the packets these stand for are exactly the packets of the batch, each as it
    was or in a group of one flow: the payloads in order, all of the segment size
    but the last, consecutive TCP sequence numbers, lengths and checksums of the
    whole, and the virtio header with which the kernel can cut it again.
    Afterwards the flow tables are as new, so that the next batch can be written. *)
Theorem BatchWrite_conserves t arrays buffers offset :
  let st := mkGro arrays buffers newTCPGROTable newUDPGROTable [] in
  vnetHdr t = true -> fresh t -> 10 <= offset -> bufs_ok offset st -> Zlen buffers <= 128 ->
  (forall k d, file_Write k d = Wrote (Zlen d)) ->
  exists frames t' arrays' (ids : Z -> list Z),
    BatchWrite t arrays buffers offset = Ok ((Zlen (concat frames), None, frames), t', arrays') /\ fresh t' /\
    NoDup (gsoToWrite t') /\ concat (map ids (gsoToWrite t')) ≡ₚ seqZ 0 (Zlen buffers) /\
    Forall2 (fun j f => exists V h, f = h ++ V /\
      written IsBigEndian (negb (nt_txChecksumOffload t)) (packet_of offset st) j (ids j) V h) (gsoToWrite t') frames.
Proof. exact (BatchWrite_ok t arrays buffers offset). Qed.
End Tun.

(** A device that takes every frame; the batch of GroHandle. *)
Definition sample_tun : NativeTun :=
  mkNativeTun true (BSlice 0 (Slice 0 0 0)) [] (Some (newTCPGROTable, newUDPGROTable)) 0 false.

Lemma BatchWrite_conserves_witness :
  exists frames t' arrays' (ids : Z -> list Z),
    @BatchWrite (tschecksum.ts_impl false 64) linux_virtio false map_to_list map_to_list (fun _ d => Wrote (Zlen d)) sample_tun
      (gr_arrays gro_batch) (gr_bufs gro_batch) 10 = Ok ((Zlen (concat frames), None, frames), t', arrays') /\
    concat (map ids (gsoToWrite t')) ≡ₚ [0; 1; 2].
Proof.
  destruct (@BatchWrite_conserves (tschecksum.ts_impl false 64) linux_virtio false map_to_list map_to_list (fun _ d => Wrote (Zlen d))
    ltac:(done) ltac:(done) sample_tun (gr_arrays gro_batch) (gr_bufs gro_batch) 10) as (fs & t' & arrs & ids & Hrun & _ & _ & Hids & _).
  - done.
  - done.
  - lia.
  - split; [refine (bool_decide_unpack (NoDup _) _); vm_compute; exact I|].
    intros j b Hj. destruct j as [|[|[|j]]]; cbn in Hj; simplify_eq; (split; [reflexivity|]); (split; [concrete|]);
      vm_compute; repeat split; congruence.
  - vm_compute. congruence.
  - done.
  - exists fs, t', arrs, ids. split; [exact Hrun|exact Hids].
Defined.
