(* ===== verification/TcpNat.v ===== *)
(** * stack_system_nat.go: the TCP NAT table of the system stack

    [TCPNat] maps a connection (source, destination) to a local port in
    [10000, 65535] and back.  Sessions are shared mutable objects, so the table
    holds pointers into a heap of sessions.  The critical sections of the
    source are the atomic operations; [step] interleaves them (packet loops,
    accept loops and the timeout goroutine) and the table invariant is proved
    for every reachable state. *)
From S2P Require Import Prelude Bytes Netip.

(** Times are nanoseconds on the monotonic clock. *)
Definition Second : Z := 1000000000.

Record tcpNatKey := mkKey { k_Source : netip.AddrPort; k_Destination : netip.AddrPort }.
#[global] Instance tcpNatKey_eq_dec : EqDecision tcpNatKey.
Proof. solve_decision. Defined.
#[global] Instance tcpNatKey_countable : Countable tcpNatKey.
Proof.
  refine (inj_countable' (fun k => (k_Source k, k_Destination k)) (fun p => mkKey p.1 p.2) _).
  by intros [].
Defined.

Record TCPSession := mkSession {
  s_Source : netip.AddrPort;
  s_Destination : netip.AddrPort;
  s_LastActive : Z
}.
Definition session_key (s : TCPSession) : tcpNatKey := mkKey (s_Source s) (s_Destination s).

(** [heap] holds the sessions ever allocated; [portMap] points into it. *)
Record TCPNat := mkNat {
  timeout : Z;
  portIndex : Z;
  addrMap : gmap tcpNatKey Z;
  portMap : gmap Z positive;
  heap : gmap positive TCPSession
}.

Definition NewNat (timeout : Z) : TCPNat := mkNat timeout 10000 ∅ ∅ ∅.

(** ** Operations *)

(** [allocatePortLocked]: 65535-10000+1 attempts; returns the new port index
    and the port. *)
Fixpoint alloc_loop (fuel : nat) (pm : gmap Z positive) (index : Z) : Z * option Z :=
  match fuel with
  | O => (index, None)
  | S fuel' =>
      let nextPort := if index =? 0 then 10000 else index in
      let index := if index =? 0 then 10001 else u16 (index + 1) in
      match pm !! nextPort with
      | None => (index, Some nextPort)
      | Some _ => alloc_loop fuel' pm index
      end
  end.
Definition allocatePortLocked (n : TCPNat) : Z * option Z :=
  alloc_loop (Z.to_nat (65535 - 10000 + 1)) (portMap n) (portIndex n).

(** [session.refresh()] at time [now]. *)
Definition session_refresh (now : Z) (s : TCPSession) : TCPSession :=
  if Second <? now - s_LastActive s then mkSession (s_Source s) (s_Destination s) now else s.

Definition with_heap (n : TCPNat) (h : gmap positive TCPSession) : TCPNat :=
  mkNat (timeout n) (portIndex n) (addrMap n) (portMap n) h.
Definition refresh_loc (n : TCPNat) (now : Z) (l : positive) : TCPNat :=
  with_heap n (alter (session_refresh now) l (heap n)).

Definition refresh (n : TCPNat) (now port : Z) : TCPNat :=
  match portMap n !! port with Some l => refresh_loc n now l | None => n end.

(** [LookupBack]: the session, read after its refresh (the caller gets the
    pointer). *)
Definition LookupBack (n : TCPNat) (now port : Z) : option TCPSession * TCPNat :=
  match portMap n !! port with
  | None => (None, n)
  | Some l => let n' := refresh_loc n now l in (heap n' !! l, n')
  end.

(** The slow path of [Lookup]: allocate a port and insert the session. *)
Definition insert_session (n : TCPNat) (now : Z) (key : tcpNatKey) : option Z * TCPNat :=
  let '(index, port) := allocatePortLocked n in
  match port with
  | None => (None, mkNat (timeout n) index (addrMap n) (portMap n) (heap n))
  | Some p =>
      let l := fresh (dom (heap n)) in
      (Some p,
       mkNat (timeout n) index (<[key := p]> (addrMap n)) (<[p := l]> (portMap n))
         (<[l := mkSession (k_Source key) (k_Destination key) now]> (heap n)))
  end.

(** [Lookup] run without interference; [None] is the error "NAT port space
    exhausted".  The second test under the write lock repeats the first. *)
Definition Lookup (n : TCPNat) (now : Z) (source destination : netip.AddrPort) : option Z * TCPNat :=
  let key := mkKey source destination in
  match addrMap n !! key with
  | Some port => (Some port, refresh n now port)
  | None => insert_session n now key
  end.

(** [checkTimeout]: the sessions found expired under the read lock, and their
    removal under both write locks with a second test. *)
Definition timed_out (n : TCPNat) (now : Z) (s : TCPSession) : bool := timeout n <? now - s_LastActive s.
Definition scan (n : TCPNat) (now : Z) : list (Z * positive) :=
  filter (fun e => match heap n !! e.2 with Some s => timed_out n now s | None => false end = true)
    (map_to_list (portMap n)).
Definition sweep_one (now : Z) (n : TCPNat) (e : Z * positive) : TCPNat :=
  match heap n !! e.2 with
  | Some s =>
      if timed_out n now s
      then mkNat (timeout n) (portIndex n) (delete (session_key s) (addrMap n)) (delete e.1 (portMap n)) (heap n)
      else n
  | None => n
  end.
Definition sweep (now : Z) (n : TCPNat) (expired : list (Z * positive)) : TCPNat :=
  fold_left (sweep_one now) expired n.
Definition checkTimeout (n : TCPNat) (now : Z) : TCPNat :=
  match scan n now with
  | [] => n
  | expired => sweep now n expired
  end.

(** ** Invariant *)

Definition port_ok (p : Z) : Prop := 10000 <= p <= 65535.
(** The two maps are inverse to each other through the sessions. *)
Record Inv (n : TCPNat) : Prop := {
  inv_index : portIndex n = 0 \/ port_ok (portIndex n);
  inv_back : forall p l, portMap n !! p = Some l ->
    exists s, heap n !! l = Some s /\ addrMap n !! session_key s = Some p;
  inv_fwd : forall k p, addrMap n !! k = Some p ->
    port_ok p /\ exists l s, portMap n !! p = Some l /\ heap n !! l = Some s /\ session_key s = k
}.

Lemma Inv_NewNat t : Inv (NewNat t).
Proof.
  split; simpl; [unfold port_ok; lia| |]; intros ?? H; by rewrite lookup_empty in H.
Qed.

(** *** Port allocation *)

(** [k] ports after [s] on the circle of ports. *)
Definition cyc (s k : Z) : Z := 10000 + (s - 10000 + k) mod 55536.

Lemma alloc_loop_spec fuel pm index :
  index = 0 \/ port_ok index ->
  let s := if index =? 0 then 10000 else index in
  let '(index', r) := alloc_loop fuel pm index in
  (index' = 0 \/ port_ok index') /\
  match r with
  | Some p => port_ok p /\ pm !! p = None
  | None => forall k, 0 <= k < Z.of_nat fuel -> is_Some (pm !! cyc s k)
  end.
Proof.
  revert index. induction fuel as [|fuel IH]; intros index Hi; cbn [alloc_loop].
  - split; [done|]. intros k Hk. lia.
  - set (s := if index =? 0 then 10000 else index).
    set (i' := if index =? 0 then 10001 else u16 (index + 1)).
    assert (port_ok s) as Hs by (subst s; unfold port_ok in *; destruct (Z.eqb_spec index 0); lia).
    assert ((i' = 0 \/ port_ok i') /\ (if i' =? 0 then 10000 else i') = cyc s 1) as [Hi' Hn].
    { subst i' s. unfold port_ok, cyc, u16 in *. destruct (Z.eqb_spec index 0) as [->|]; [split; [lia|done]|].
      destruct (Z.eqb_spec ((index + 1) mod 65536) 0); split; zdm. }
    destruct (pm !! s) as [l|] eqn:E; [|done].
    specialize (IH i' Hi'). cbv zeta in IH. rewrite Hn in IH. destruct (alloc_loop fuel pm i') as [i'' r].
    destruct IH as [H1 H2]. split; [done|]. destruct r as [p|]; [done|].
    intros k Hk. destruct (Z.eqb_spec k 0) as [->|].
    + replace (cyc s 0) with s by (unfold cyc, port_ok in *; rewrite Z.mod_small by lia; lia). by exists l.
    + replace (cyc s k) with (cyc (cyc s 1) (k - 1)); [apply H2; lia|].
      unfold cyc, port_ok in *. f_equal. zdm.
Qed.
Lemma cyc_onto s p : port_ok s -> port_ok p -> exists k, 0 <= k < 55536 /\ cyc s k = p.
Proof. intros. exists ((p - s) mod 55536). unfold cyc, port_ok in *. split; zdm. Qed.

Lemma allocatePortLocked_spec n :
  portIndex n = 0 \/ port_ok (portIndex n) ->
  let '(index, r) := allocatePortLocked n in
  (index = 0 \/ port_ok index) /\
  match r with
  | Some p => port_ok p /\ portMap n !! p = None
  | None => forall p, port_ok p -> is_Some (portMap n !! p)
  end.
Proof.
  intros Hi. unfold allocatePortLocked.
  pose proof (alloc_loop_spec (Z.to_nat (65535 - 10000 + 1)) (portMap n) (portIndex n) Hi) as H.
  cbv zeta in H. destruct (alloc_loop _ _ _) as [index [p|]]; [done|]. destruct H as [H1 H2]. split; [done|].
  intros p Hp. set (s := if portIndex n =? 0 then 10000 else portIndex n) in *.
  assert (port_ok s) as Hs by (subst s; unfold port_ok in *; destruct (Z.eqb_spec (portIndex n) 0); lia).
  destruct (cyc_onto s p Hs Hp) as (k & Hk & <-). apply H2. rewrite Z2Nat.id; lia.
Qed.

(** *** Preservation *)

Lemma session_key_refresh now s : session_key (session_refresh now s) = session_key s.
Proof. unfold session_refresh. by destruct (_ <? _). Qed.
Lemma lookup_refresh_loc n now l l' :
  heap (refresh_loc n now l) !! l'
    = if decide (l = l') then session_refresh now <$> heap n !! l' else heap n !! l'.
Proof.
  simpl. case_decide as E; [subst; by rewrite lookup_alter_eq|by rewrite lookup_alter_ne].
Qed.
Lemma refresh_loc_key n now l l' s :
  heap n !! l' = Some s ->
  exists s', heap (refresh_loc n now l) !! l' = Some s' /\ session_key s' = session_key s.
Proof.
  intros E. rewrite lookup_refresh_loc, E. case_decide; simpl; eexists; (split; [done|]);
    [apply session_key_refresh|done].
Qed.
Lemma Inv_refresh_loc n now l : Inv n -> Inv (refresh_loc n now l).
Proof.
  intros [H1 H2 H3]. split; [done| |].
  - intros p l' Hp. destruct (H2 p l' Hp) as (s & Hs & Ha).
    destruct (refresh_loc_key n now l l' s Hs) as (s' & Hs' & Hk). exists s'. by rewrite Hk.
  - intros k p Hk. destruct (H3 k p Hk) as (Hp & l' & s & E1 & E2 & E3). split; [done|].
    destruct (refresh_loc_key n now l l' s E2) as (s' & Hs' & Hk'). exists l', s'. by rewrite Hk'.
Qed.
Lemma Inv_refresh n now port : Inv n -> Inv (refresh n now port).
Proof. unfold refresh. destruct (portMap n !! port); [apply Inv_refresh_loc|done]. Qed.

Lemma fresh_heap n : heap n !! fresh (dom (heap n)) = None.
Proof. apply not_elem_of_dom, is_fresh. Qed.

Lemma insert_session_Some n now key p n' :
  Inv n -> addrMap n !! key = None -> insert_session n now key = (Some p, n') ->
  Inv n' /\ port_ok p /\ portMap n !! p = None /\
  addrMap n' = <[key := p]> (addrMap n) /\
  (exists l, portMap n' = <[p := l]> (portMap n) /\
     heap n' = <[l := mkSession (k_Source key) (k_Destination key) now]> (heap n) /\ heap n !! l = None).
Proof.
  intros HI Hk. unfold insert_session. pose proof (allocatePortLocked_spec n (inv_index n HI)) as Ha.
  destruct (allocatePortLocked n) as [index [q|]]; [|done]. intros [= -> <-]. destruct Ha as (Hidx & Hp & Hn).
  set (l := fresh (dom (heap n))). pose proof (fresh_heap n) as Hl. fold l in Hl.
  split_and!; try done; [|by exists l]. destruct HI as [H1 H2 H3]. split; [done| |]; simpl.
  - intros p' l' Hp'. destruct (decide (p = p')) as [<-|Hne].
    + rewrite lookup_insert_eq in Hp'. injection Hp' as <-. eexists. rewrite lookup_insert_eq. split; [done|].
      unfold session_key. simpl. destruct key. by rewrite lookup_insert_eq.
    + rewrite lookup_insert_ne in Hp' by done. destruct (H2 p' l' Hp') as (s & Hs & Has). exists s.
      assert (l <> l') by (intros ->; by rewrite Hs in Hl). rewrite lookup_insert_ne by done. split; [done|].
      rewrite lookup_insert_ne; [done|]. intros ->. by rewrite Has in Hk.
  - intros k' p' Hk'. destruct (decide (key = k')) as [<-|Hne].
    + rewrite lookup_insert_eq in Hk'. injection Hk' as <-. split; [done|]. eexists l, _.
      rewrite !lookup_insert_eq. split; [done|]. split; [done|]. by destruct key.
    + rewrite lookup_insert_ne in Hk' by done. destruct (H3 k' p' Hk') as (Hp' & l' & s & E1 & E2 & E3).
      split; [done|]. exists l', s. assert (l <> l') by (intros ->; by rewrite E2 in Hl).
      assert (p <> p') by (intros ->; by rewrite E1 in Hn). by rewrite !lookup_insert_ne.
Qed.
Lemma insert_session_None n now key n' :
  Inv n -> insert_session n now key = (None, n') ->
  Inv n' /\ (forall p, port_ok p -> is_Some (portMap n !! p)) /\
  addrMap n' = addrMap n /\ portMap n' = portMap n /\ heap n' = heap n.
Proof.
  intros HI. unfold insert_session. pose proof (allocatePortLocked_spec n (inv_index n HI)) as Ha.
  destruct (allocatePortLocked n) as [index [q|]]; [done|]. intros [= <-]. destruct Ha as (Hidx & Hall).
  destruct HI as [H1 H2 H3]. split_and!; try done.
Qed.

(** Removal of one expired session. *)
Lemma sweep_one_spec now n p l s :
  Inv n -> portMap n !! p = Some l -> heap n !! l = Some s -> timed_out n now s = true ->
  Inv (sweep_one now n (p, l)) /\
  addrMap (sweep_one now n (p, l)) = delete (session_key s) (addrMap n) /\
  portMap (sweep_one now n (p, l)) = delete p (portMap n).
Proof.
  intros HI Hp Hs Ht. unfold sweep_one. cbn [fst snd]. rewrite Hs, Ht. split; [|done].
  destruct HI as [H1 H2 H3]. destruct (H2 p l Hp) as (s0 & Hs0 & Ha). rewrite Hs in Hs0. injection Hs0 as <-.
  split; [done| |]; simpl.
  - intros p' l' Hp'. apply lookup_delete_Some in Hp' as [Hne Hp'].
    destruct (H2 p' l' Hp') as (s' & Hs' & Ha'). exists s'. split; [done|].
    rewrite lookup_delete_ne; [done|]. intros E. rewrite E, Ha' in Ha. by injection Ha.
  - intros k' p' Hk'. apply lookup_delete_Some in Hk' as [Hne Hk'].
    destruct (H3 k' p' Hk') as (Hpo & l' & s' & E1 & E2 & E3). split; [done|]. exists l', s'.
    rewrite lookup_delete_ne; [done|]. intros ->. rewrite Hp in E1. injection E1 as <-.
    rewrite Hs in E2. injection E2 as <-. done.
Qed.

Definition entries_in (n : TCPNat) (expired : list (Z * positive)) : Prop :=
  NoDup expired.*1 /\ Forall (fun e => portMap n !! e.1 = Some e.2) expired.

Lemma sweep_one_frame now n e :
  heap (sweep_one now n e) = heap n /\ timeout (sweep_one now n e) = timeout n.
Proof. unfold sweep_one. destruct (heap n !! e.2); [|done]. by destruct (timed_out n now t). Qed.

Lemma sweep_one_entries now n e expired :
  Inv n -> entries_in n (e :: expired) ->
  Inv (sweep_one now n e) /\ entries_in (sweep_one now n e) expired.
Proof.
  destruct e as [p l]. intros HI [Hnd Hf]. simpl in Hnd. apply NoDup_cons in Hnd as [Hni Hnd].
  apply Forall_cons in Hf as [Hp Hf]. simpl in Hp. destruct (inv_back n HI p l Hp) as (s & Hs & Ha).
  destruct (timed_out n now s) eqn:Et.
  - destruct (sweep_one_spec now n p l s HI Hp Hs Et) as (HI' & _ & HP). split; [done|]. split; [done|].
    apply Forall_forall. intros e He. rewrite Forall_forall in Hf. specialize (Hf e He).
    rewrite HP, lookup_delete_ne; [done|]. intros ->. apply Hni, list_elem_of_fmap. by exists e.
  - assert (sweep_one now n (p, l) = n) as -> by (unfold sweep_one; cbn [fst snd]; by rewrite Hs, Et). done.
Qed.

(** The sweep removes exactly the entries of its list that are (still) timed
    out. *)
Lemma sweep_spec now expired n :
  Inv n -> entries_in n expired ->
  Inv (sweep now n expired) /\ heap (sweep now n expired) = heap n /\
  (forall p, portMap (sweep now n expired) !! p =
     match portMap n !! p with
     | Some l => if bool_decide (p ∈ expired.*1) && match heap n !! l with Some s => timed_out n now s | None => false end
                 then None else Some l
     | None => None
     end).
Proof.
  revert n. induction expired as [|[p l] expired IH]; intros n HI [Hnd Hf].
  - split; [done|]. split; [done|]. intros p. simpl. by destruct (portMap n !! p).
  - simpl in Hnd. apply NoDup_cons in Hnd as [Hni Hnd]. apply Forall_cons in Hf as [Hp Hf]. simpl in Hp.
    destruct (inv_back n HI p l Hp) as (s & Hs & Ha).
    unfold sweep. cbn [fold_left]. fold (sweep now (sweep_one now n (p, l)) expired).
    destruct (sweep_one_frame now n (p, l)) as [Hh Ht].
    destruct (timed_out n now s) eqn:Et.
    + destruct (sweep_one_spec now n p l s HI Hp Hs Et) as (HI' & _ & HP).
      destruct (IH (sweep_one now n (p, l))) as (H1 & H2 & H3); [done| |].
      { apply sweep_one_entries; [done|]. split; [by apply NoDup_cons|by apply Forall_cons]. }
      split; [done|]. split; [congruence|]. intros q. rewrite H3, HP, Hh.
      assert (forall s', timed_out (sweep_one now n (p, l)) now s' = timed_out n now s') as Etm
        by (intros; unfold timed_out; by rewrite Ht).
      destruct (decide (p = q)) as [<-|Hne].
      * rewrite lookup_delete_eq, Hp, Hs, Et. cbn [fmap list_fmap fst]. rewrite bool_decide_eq_true_2; [done|].
        apply list_elem_of_here.
      * rewrite lookup_delete_ne by done. destruct (portMap n !! q) as [l'|]; [|done].
        replace (bool_decide (q ∈ ((p, l) :: expired).*1)) with (bool_decide (q ∈ expired.*1)).
        -- destruct (heap n !! l'); [by rewrite Etm|done].
        -- apply bool_decide_ext. cbn [fmap list_fmap fst]. rewrite elem_of_cons.
           split; [by right|intros [->|?]; done].
    + assert (sweep_one now n (p, l) = n) as -> by (unfold sweep_one; cbn [fst snd]; by rewrite Hs, Et).
      destruct (IH n HI) as (H1 & H2 & H3); [done|]. split; [done|]. split; [done|]. intros q. rewrite H3.
      destruct (decide (p = q)) as [<-|Hne].
      * rewrite Hp, Hs, Et. by rewrite !andb_false_r.
      * destruct (portMap n !! q) as [l'|]; [|done].
        replace (bool_decide (q ∈ ((p, l) :: expired).*1)) with (bool_decide (q ∈ expired.*1)); [done|].
        apply bool_decide_ext. cbn [fmap list_fmap fst]. rewrite elem_of_cons.
           split; [by right|intros [->|?]; done].
Qed.

Lemma scan_entries n now : entries_in n (scan n now).
Proof.
  unfold scan. split.
  - eapply sublist_NoDup; [apply (NoDup_fst_map_to_list (portMap n))|]. apply fmap_sublist, sublist_filter.
  - apply Forall_forall. intros [p l] He. apply list_elem_of_filter in He as [_ He].
    by apply elem_of_map_to_list in He.
Qed.

Lemma checkTimeout_sweep n now : checkTimeout n now = sweep now n (scan n now).
Proof. unfold checkTimeout. by destruct (scan n now). Qed.

(** Two connections never share a port. *)
Lemma Inv_inj n k1 k2 p : Inv n -> addrMap n !! k1 = Some p -> addrMap n !! k2 = Some p -> k1 = k2.
Proof.
  intros HI H1 H2. destruct (inv_fwd n HI k1 p H1) as (_ & l1 & s1 & E1 & E2 & <-).
  destruct (inv_fwd n HI k2 p H2) as (_ & l2 & s2 & E3 & E4 & <-). congruence.
Qed.

(** What a table answers for a port: [nat_maps n p k]. *)
Definition nat_maps (n : TCPNat) (p : Z) (k : tcpNatKey) : Prop := addrMap n !! k = Some p.

Lemma LookupBack_maps n now p k :
  Inv n -> nat_maps n p k ->
  exists s n', LookupBack n now p = (Some s, n') /\ session_key s = k /\ Inv n' /\ addrMap n' = addrMap n.
Proof.
  intros HI Hk. destruct (inv_fwd n HI k p Hk) as (_ & l & s & E1 & E2 & <-).
  unfold LookupBack. rewrite E1. destruct (refresh_loc_key n now l l s E2) as (s' & Hs' & Hkey).
  exists s', (refresh_loc n now l). split; [by rewrite Hs'|]. split; [done|]. split; [by apply Inv_refresh_loc|done].
Qed.
Lemma LookupBack_sound n now p s n' :
  Inv n -> LookupBack n now p = (Some s, n') -> nat_maps n p (session_key s) /\ Inv n' /\ addrMap n' = addrMap n.
Proof.
  intros HI. unfold LookupBack. destruct (portMap n !! p) as [l|] eqn:E; [|done].
  destruct (inv_back n HI p l E) as (s0 & Hs0 & Ha). destruct (refresh_loc_key n now l l s0 Hs0) as (s' & Hs' & Hkey).
  rewrite Hs'. intros [= <- <-]. split; [by unfold nat_maps; rewrite Hkey|]. split; [by apply Inv_refresh_loc|done].
Qed.
Lemma LookupBack_None n now p n' : LookupBack n now p = (None, n') -> Inv n -> forall k, ~ nat_maps n p k.
Proof.
  unfold LookupBack. intros H HI k Hk. destruct (inv_fwd n HI k p Hk) as (_ & l & s & E1 & E2 & E3).
  rewrite E1 in H. destruct (refresh_loc_key n now l l s E2) as (s' & Hs' & _). by rewrite Hs' in H.
Qed.

Lemma Lookup_spec n now src dst r n' :
  Inv n -> Lookup n now src dst = (r, n') ->
  Inv n' /\
  match r with
  | Some p => port_ok p /\ nat_maps n' p (mkKey src dst) /\
      (forall k q, nat_maps n q k -> nat_maps n' q k)
  | None => addrMap n !! mkKey src dst = None /\ (forall p, port_ok p -> is_Some (portMap n !! p)) /\
      addrMap n' = addrMap n
  end.
Proof.
  intros HI. unfold Lookup. destruct (addrMap n !! mkKey src dst) as [p|] eqn:E.
  - intros [= <- <-]. split; [by apply Inv_refresh|]. destruct (inv_fwd n HI _ _ E) as [Hp _].
    unfold nat_maps, refresh. destruct (portMap n !! p); done.
  - intros H. destruct r as [p|].
    + destruct (insert_session_Some n now _ p n' HI E H) as (HI' & Hp & Hn & Ha & _).
      split; [done|]. split; [done|]. unfold nat_maps. rewrite Ha. split; [by rewrite lookup_insert_eq|].
      intros k q Hk. rewrite lookup_insert_ne; [done|]. intros <-. by rewrite E in Hk.
    + destruct (insert_session_None n now _ n' HI H) as (HI' & Hall & Ha & _). done.
Qed.

(** A lookup adds its own connection at most. *)
Lemma Lookup_only n now src dst p n' :
  Inv n -> Lookup n now src dst = (Some p, n') ->
  forall q k, nat_maps n' q k -> nat_maps n q k \/ k = mkKey src dst.
Proof.
  intros HI. unfold Lookup, nat_maps. destruct (addrMap n !! mkKey src dst) as [p'|] eqn:E.
  - intros [= <- <-] q k. unfold refresh. destruct (portMap n !! p'); by left.
  - intros H q k. destruct (insert_session_Some n now _ p n' HI E H) as (_ & _ & _ & -> & _).
    rewrite lookup_insert_Some. intros [[<- _]|[_ ?]]; [by right|by left].
Qed.

(** ** Interleavings *)

(** The table and the timeout goroutine: idle, or holding the time and the
    sessions of its scan. *)
Record config := mkConfig { c_nat : TCPNat; c_pending : option (Z * list (Z * positive)) }.

(** One critical section.  The refresh of a session happens at any time after
    a lookup has read its pointer, so any session may be refreshed at any time;
    the scan takes the sessions' locks one by one, so it may collect any
    subset of the table; the sweep locks one session at a time, so refreshes may
    come between its removals (the source keeps insertions out until it ends). *)
Inductive step : config -> config -> Prop :=
| step_refresh n pd now l : step (mkConfig n pd) (mkConfig (refresh_loc n now l) pd)
| step_insert n pd now key :
    addrMap n !! key = None -> step (mkConfig n pd) (mkConfig (insert_session n now key).2 pd)
| step_scan n now expired :
    entries_in n expired -> step (mkConfig n None) (mkConfig n (Some (now, expired)))
| step_sweep n now e expired :
    step (mkConfig n (Some (now, e :: expired))) (mkConfig (sweep_one now n e) (Some (now, expired)))
| step_sweep_end n now : step (mkConfig n (Some (now, []))) (mkConfig n None).

Definition CInv (c : config) : Prop :=
  Inv (c_nat c) /\ match c_pending c with Some (_, expired) => entries_in (c_nat c) expired | None => True end.

Lemma entries_in_weaken n n' expired :
  entries_in n expired -> (forall p l, portMap n !! p = Some l -> portMap n' !! p = Some l) ->
  entries_in n' expired.
Proof. intros [H1 H2] H. split; [done|]. eapply Forall_impl; [done|]. intros e. apply H. Qed.

Lemma step_CInv c c' : step c c' -> CInv c -> CInv c'.
Proof.
  intros Hs [HI HP].
  destruct Hs as [n pd now l|n pd now key Hk|n now expired He|n now e expired|n now]; simpl in *.
  - split; [by apply Inv_refresh_loc|]. done.
  - destruct (insert_session n now key) as [[p|] n'] eqn:E; simpl.
    + destruct (insert_session_Some n now key p n' HI Hk E) as (HI' & _ & Hn & _ & l & Hp & _).
      split; [done|]. destruct pd as [[t ex]|]; [|done]. eapply entries_in_weaken; [done|].
      intros q l' Hq. simpl. rewrite Hp, lookup_insert_ne; [done|]. intros ->. by rewrite Hq in Hn.
    + destruct (insert_session_None n now key n' HI E) as (HI' & _ & _ & Hp & _).
      split; [done|]. destruct pd as [[t ex]|]; [|done]. eapply entries_in_weaken; [done|]. simpl. by rewrite Hp.
  - done.
  - by apply sweep_one_entries.
  - done.
Qed.

(** C8: in every state reachable by any interleaving of lookups, session
    refreshes and the two phases of the timeout goroutine, the table is a
    bijection: each connection has one port in [10000, 65535], LookupBack of
    that port returns the session of that connection, and no two connections
    share a port. *)
Theorem TCPNat_reachable_bijection t c :
  rtc step (mkConfig (NewNat t) None) c ->
  forall k p, addrMap (c_nat c) !! k = Some p ->
    10000 <= p <= 65535 /\
    (forall now, exists s n', LookupBack (c_nat c) now p = (Some s, n') /\ session_key s = k) /\
    (forall k', addrMap (c_nat c) !! k' = Some p -> k' = k).
Proof.
  intros Hr. assert (CInv c) as [HI _].
  { assert (CInv (mkConfig (NewNat t) None)) as H0 by (split; [apply Inv_NewNat|done]).
    revert H0. induction Hr as [|c1 c2 c3 Hs _ IH]; [done|]. intros. by apply IH, (step_CInv c1). }
  intros k p Hk. destruct (inv_fwd _ HI k p Hk) as (Hp & _). split; [done|]. split.
  - intros now. destruct (LookupBack_maps _ now p k HI Hk) as (s & n' & E & Hkey & _). by exists s, n'.
  - intros k' Hk'. by apply (Inv_inj (c_nat c) k' k p).
Qed.

(** Lookup returns a port whose LookupBack is the connection itself, keeps
    every other connection's port, and returns the same port again; it fails
    only when the connection is new and all 55536 ports are occupied, and then
    it leaves the table unchanged. *)
Lemma Lookup_LookupBack n now src dst r n' :
  Inv n -> Lookup n now src dst = (r, n') ->
  Inv n' /\
  match r with
  | Some p => 10000 <= p <= 65535 /\
      (forall now', exists s n'', LookupBack n' now' p = (Some s, n'') /\ s_Source s = src /\ s_Destination s = dst) /\
      (forall now', (Lookup n' now' src dst).1 = Some p) /\
      (forall k q, addrMap n !! k = Some q -> addrMap n' !! k = Some q)
  | None => addrMap n !! mkKey src dst = None /\
      (forall p, 10000 <= p <= 65535 -> is_Some (portMap n !! p)) /\ addrMap n' = addrMap n
  end.
Proof.
  intros HI H. destruct (Lookup_spec n now src dst r n' HI H) as [HI' Hr]. split; [done|].
  destruct r as [p|]; [|done]. destruct Hr as (Hp & Hm & Hkeep). split; [done|]. split_and!.
  - intros now'. destruct (LookupBack_maps n' now' p _ HI' Hm) as (s & n'' & E & Hkey & _).
    exists s, n''. unfold session_key in Hkey. injection Hkey as -> ->. done.
  - intros now'. unfold Lookup. by rewrite Hm.
  - exact Hkeep.
Qed.

(** One run of checkTimeout removes from both maps exactly the sessions
    that have been inactive for longer than the timeout, and keeps the table
    consistent. *)
Lemma checkTimeout_exact n now k p s l :
  Inv n -> addrMap n !! k = Some p -> portMap n !! p = Some l -> heap n !! l = Some s ->
  Inv (checkTimeout n now) /\
  (addrMap (checkTimeout n now) !! k = Some p <-> now - s_LastActive s <= timeout n) /\
  (portMap (checkTimeout n now) !! p = Some l <-> now - s_LastActive s <= timeout n).
Proof.
  intros HI Hk Hp Hs. rewrite checkTimeout_sweep.
  destruct (sweep_spec now (scan n now) n HI (scan_entries n now)) as (HI' & Hh & HP).
  assert (portMap (sweep now n (scan n now)) !! p = Some l <-> now - s_LastActive s <= timeout n) as HPl.
  { rewrite HP, Hp, Hs. unfold timed_out. destruct (Z.ltb_spec (timeout n) (now - s_LastActive s)).
    - rewrite bool_decide_eq_true_2; [split; [done|lia]|].
      apply list_elem_of_fmap. exists (p, l). split; [done|]. unfold scan. apply list_elem_of_filter.
      rewrite elem_of_map_to_list. cbn [snd]. rewrite Hs. unfold timed_out. split; [lia|done].
    - rewrite andb_false_r. split; [lia|done]. }
  split; [done|]. split; [|done]. rewrite <- HPl. split.
  - intros H. destruct (inv_fwd _ HI' k p H) as (_ & l' & s' & E & _). rewrite HP, Hp in E.
    rewrite HP, Hp. destruct (_ && _); [done|done].
  - intros H. destruct (inv_back _ HI' p l H) as (s' & E1 & E2). rewrite Hh, Hs in E1. injection E1 as <-.
    destruct (inv_fwd n HI k p Hk) as (_ & l' & s' & E3 & E4 & <-). congruence.
Qed.

(** ** Witnesses *)

Definition ex_src : netip.AddrPort := netip.AddrPortFrom (netip.Addr4 [10; 0; 0; 2]) 40000.
Definition ex_dst : netip.AddrPort := netip.AddrPortFrom (netip.Addr4 [93; 184; 216; 34]) 443.
Definition ex_key : tcpNatKey := mkKey ex_src ex_dst.
(** The table after one connection. *)
Definition ex_nat : TCPNat := (insert_session (NewNat 300) 5 ex_key).2.

Lemma TCPNat_reachable_bijection_witness :
  10000 <= 10000 <= 65535 /\
  (forall now, exists s n', LookupBack ex_nat now 10000 = (Some s, n') /\ session_key s = ex_key) /\
  (forall k', addrMap ex_nat !! k' = Some 10000 -> k' = ex_key).
Proof.
  apply (TCPNat_reachable_bijection 300 (mkConfig ex_nat None)); [|vm_compute; reflexivity].
  eapply rtc_l; [|apply rtc_refl]. apply (step_insert (NewNat 300) None 5 ex_key). vm_compute. reflexivity.
Defined.

Lemma Lookup_LookupBack_witness :
  Inv (Lookup (NewNat 300) 5 ex_src ex_dst).2.
Proof.
  apply (Lookup_LookupBack (NewNat 300) 5 ex_src ex_dst (Some 10000) (Lookup (NewNat 300) 5 ex_src ex_dst).2
           (Inv_NewNat 300)).
  vm_compute. reflexivity.
Defined.

Lemma checkTimeout_exact_witness :
  addrMap (checkTimeout ex_nat 306) !! ex_key = Some 10000 <-> 306 - 5 <= 300.
Proof.
  apply (checkTimeout_exact ex_nat 306 ex_key 10000 (mkSession ex_src ex_dst 5) 1%positive);
    [|vm_compute; reflexivity..].
  apply (insert_session_Some (NewNat 300) 5 ex_key 10000 ex_nat (Inv_NewNat 300)); vm_compute; reflexivity.
Defined.

(** ** The interface the system stack relies on *)

(** A NAT table: [nt_maps t p k] says that connection [k] has port [p]. *)
Class NatTable (T : Type) := {
  nt_inv : T -> Prop;
  nt_maps : T -> Z -> tcpNatKey -> Prop;
  nt_Lookup : T -> Z -> netip.AddrPort -> netip.AddrPort -> option Z * T;
  nt_LookupBack : T -> Z -> Z -> option TCPSession * T;
  nt_Lookup_Some : forall t now src dst p t',
    nt_inv t -> nt_Lookup t now src dst = (Some p, t') ->
    nt_inv t' /\ port_ok p /\ nt_maps t' p (mkKey src dst) /\ (forall q k, nt_maps t q k -> nt_maps t' q k);
  nt_Lookup_None : forall t now src dst t',
    nt_inv t -> nt_Lookup t now src dst = (None, t') ->
    nt_inv t' /\ (forall q k, nt_maps t q k <-> nt_maps t' q k);
  nt_LookupBack_maps : forall t now p k,
    nt_inv t -> nt_maps t p k ->
    exists s t', nt_LookupBack t now p = (Some s, t') /\ session_key s = k /\ nt_inv t' /\
      (forall q k, nt_maps t q k <-> nt_maps t' q k);
  nt_LookupBack_None : forall t now p t',
    nt_inv t -> nt_LookupBack t now p = (None, t') ->
    t' = t /\ forall k, ~ nt_maps t p k;
  nt_Lookup_only : forall t now src dst p t',
    nt_inv t -> nt_Lookup t now src dst = (Some p, t') ->
    forall q k, nt_maps t' q k -> nt_maps t q k \/ k = mkKey src dst;
  nt_LookupBack_Some : forall t now p s t',
    nt_inv t -> nt_LookupBack t now p = (Some s, t') ->
    nt_inv t' /\ nt_maps t p (session_key s) /\ (forall q k, nt_maps t q k <-> nt_maps t' q k)
}.

#[global] Instance TCPNat_NatTable : NatTable TCPNat.
Proof.
  refine {| nt_inv := Inv; nt_maps := nat_maps; nt_Lookup := Lookup; nt_LookupBack := LookupBack |}.
  - intros t now src dst p t' HI H. destruct (Lookup_spec t now src dst _ t' HI H) as (HI' & Hp & Hm & Hk). auto.
  - intros t now src dst t' HI H. destruct (Lookup_spec t now src dst _ t' HI H) as (HI' & _ & _ & Ha).
    split; [done|]. intros. unfold nat_maps. by rewrite Ha.
  - intros t now p k HI Hm. destruct (LookupBack_maps t now p k HI Hm) as (s & t' & E & Hk & HI' & Ha).
    exists s, t'. split_and!; try done. intros. unfold nat_maps. by rewrite Ha.
  - intros t now p t' HI H. split; [|by apply (LookupBack_None t now p t')]. unfold LookupBack in H.
    destruct (portMap t !! p) as [l|] eqn:E; [|by injection H].
    destruct (inv_back t HI p l E) as (s0 & Hs0 & _). destruct (refresh_loc_key t now l l s0 Hs0) as (s' & Hs' & _).
    by rewrite Hs' in H.
  - intros t now src dst p t' HI H q k. by apply (Lookup_only t now src dst p t').
  - intros t now p s t' HI H. destruct (LookupBack_sound t now p s t' HI H) as (Hm & HI' & Ha).
    split_and!; try done. intros. unfold nat_maps. by rewrite Ha.
Defined.
