(* ===== verification/TcpNatSpec.v ===== *)
(** * The NAT table as a finite map: specification and refinement

    To its callers the table of src/stack_system_nat.go is one finite map from
    connections to a port and the time of the last activity.  [spec_step] says
    what each operation may answer and does to that map; which free port a new
    connection gets is left open.  [abs] reads the map off the two hash maps and
    the shared sessions of [TcpNat], and every run of the table is a run of the
    specification. *)
From S2P Require Import Prelude Bytes Netip TcpNat.

(** ** Runs of the table *)

Inductive op :=
| OpLookup (now : Z) (source destination : netip.AddrPort)
| OpLookupBack (now port : Z)
| OpTimeout (now : Z).
Inductive answer :=
| APort (r : option Z)
| ASession (r : option TCPSession)
| ADone.

Definition exec (n : TCPNat) (o : op) : answer * TCPNat :=
  match o with
  | OpLookup now src dst => let '(r, n') := Lookup n now src dst in (APort r, n')
  | OpLookupBack now p => let '(r, n') := LookupBack n now p in (ASession r, n')
  | OpTimeout now => (ADone, checkTimeout n now)
  end.
Fixpoint run (n : TCPNat) (ops : list op) : list answer * TCPNat :=
  match ops with
  | [] => ([], n)
  | o :: ops => let '(a, n1) := exec n o in let '(l, n2) := run n1 ops in (a :: l, n2)
  end.

(** ** The specification *)

(** A connection's port and the time of its last activity. *)
Abbreviation spec_nat := (gmap tcpNatKey (Z * Z)).

(** The recorded time moves only when it is more than a second old. *)
Definition touch (now t : Z) : Z := if Second <? now - t then now else t.
Definition spec_free (A : spec_nat) (p : Z) : Prop := forall k la, A !! k <> Some (p, la).

Inductive spec_step (t : Z) (A : spec_nat) : op -> answer -> spec_nat -> Prop :=
| spec_hit now src dst p la :
    A !! mkKey src dst = Some (p, la) ->
    spec_step t A (OpLookup now src dst) (APort (Some p)) (<[mkKey src dst := (p, touch now la)]> A)
| spec_new now src dst p :
    A !! mkKey src dst = None -> port_ok p -> spec_free A p ->
    spec_step t A (OpLookup now src dst) (APort (Some p)) (<[mkKey src dst := (p, now)]> A)
| spec_full now src dst :
    A !! mkKey src dst = None -> (forall p, port_ok p -> exists k la, A !! k = Some (p, la)) ->
    spec_step t A (OpLookup now src dst) (APort None) A
| spec_back now p k la :
    A !! k = Some (p, la) ->
    spec_step t A (OpLookupBack now p)
      (ASession (Some (mkSession (k_Source k) (k_Destination k) (touch now la)))) (<[k := (p, touch now la)]> A)
| spec_noback now p : spec_free A p -> spec_step t A (OpLookupBack now p) (ASession None) A
| spec_timeout now :
    spec_step t A (OpTimeout now) ADone (filter (fun e : tcpNatKey * (Z * Z) => now - e.2.2 <= t) A).

Inductive spec_run (t : Z) : spec_nat -> list op -> list answer -> spec_nat -> Prop :=
| spec_run_nil A : spec_run t A [] [] A
| spec_run_cons A A1 A2 o a ops l :
    spec_step t A o a A1 -> spec_run t A1 ops l A2 -> spec_run t A (o :: ops) (a :: l) A2.

(** ** Abstraction *)

Definition abs (n : TCPNat) : spec_nat :=
  omap (fun p => l ← portMap n !! p; s ← heap n !! l; Some (p, s_LastActive s)) (addrMap n).

(** The session behind a connection. *)
Definition session_of (n : TCPNat) (k : tcpNatKey) (p : Z) (l : positive) (s : TCPSession) : Prop :=
  addrMap n !! k = Some p /\ portMap n !! p = Some l /\ heap n !! l = Some s /\ session_key s = k.

Section AbsLemmas.
Context (n : TCPNat) (HI : Inv n).

Lemma session_of_key k p : addrMap n !! k = Some p -> exists l s, session_of n k p l s.
Proof using HI. intros H. destruct (inv_fwd n HI k p H) as (_ & l & s & ? & ? & ?). by exists l, s. Qed.
Lemma session_of_port p l : portMap n !! p = Some l -> exists s, session_of n (session_key s) p l s.
Proof using HI. intros H. destruct (inv_back n HI p l H) as (s & ? & ?). by exists s. Qed.

Lemma abs_session k p l s : session_of n k p l s -> abs n !! k = Some (p, s_LastActive s).
Proof using. intros (H1 & H2 & H3 & _). unfold abs. rewrite lookup_omap, H1. simpl. by rewrite H2; simpl; rewrite H3. Qed.
Lemma abs_Some k p la :
  abs n !! k = Some (p, la) <-> exists l s, session_of n k p l s /\ la = s_LastActive s.
Proof using HI.
  split.
  - unfold abs. rewrite lookup_omap. destruct (addrMap n !! k) as [q|] eqn:E; [|done]. simpl.
    destruct (session_of_key k q E) as (l & s & (H1 & H2 & H3 & H4)). rewrite H2. simpl. rewrite H3. simpl.
    intros [= -> <-]. by exists l, s.
  - intros (l & s & H & ->). by apply abs_session with l.
Qed.
Lemma abs_None k : abs n !! k = None <-> addrMap n !! k = None.
Proof using HI.
  destruct (addrMap n !! k) as [p|] eqn:E.
  - destruct (session_of_key k p E) as (l & s & H). by rewrite (abs_session k p l s H).
  - unfold abs. by rewrite lookup_omap, E.
Qed.

(** A port is in use in the map exactly when it is in the port table. *)
Lemma abs_port p : is_Some (portMap n !! p) <-> exists k la, abs n !! k = Some (p, la).
Proof using HI.
  split.
  - intros [l H]. destruct (session_of_port p l H) as (s & Hs). exists (session_key s), (s_LastActive s).
    by apply abs_session with l.
  - intros (k & la & H). apply abs_Some in H as (l & s & (_ & H & _) & _). by exists l.
Qed.
Lemma abs_free p : portMap n !! p = None -> spec_free (abs n) p.
Proof using HI.
  intros H k la Hk. assert (is_Some (portMap n !! p)) as [l Hl] by (apply abs_port; by exists k, la). congruence.
Qed.

(** Sessions are not shared between connections. *)
Lemma session_of_inj k k' p p' l s s' : session_of n k p l s -> session_of n k' p' l s' -> k = k' /\ p = p'.
Proof using. intros (? & ? & ? & <-) (? & ? & ? & <-). split; congruence. Qed.
End AbsLemmas.

(** *** Each operation on the abstraction *)

Lemma refresh_LastActive now s : s_LastActive (session_refresh now s) = touch now (s_LastActive s).
Proof. unfold session_refresh, touch. by destruct (_ <? _). Qed.

Lemma abs_refresh_loc n now k p l s :
  Inv n -> session_of n k p l s -> abs (refresh_loc n now l) = <[k := (p, touch now (s_LastActive s))]> (abs n).
Proof.
  intros HI Hs. apply map_eq. intros k'. destruct (decide (k = k')) as [<-|Hne].
  - rewrite lookup_insert_eq, <- refresh_LastActive. apply abs_session with l. destruct Hs as (H1 & H2 & H3 & H4).
    split_and!; try done; [rewrite lookup_refresh_loc, decide_True, H3 by done; done|by rewrite session_key_refresh].
  - rewrite lookup_insert_ne by done. unfold abs. rewrite !lookup_omap. simpl.
    destruct (addrMap n !! k') as [p'|] eqn:E; [|done]. simpl.
    destruct (session_of_key n HI k' p' E) as (l' & s' & Hs'). destruct Hs' as (H1 & H2 & H3 & H4). rewrite H2. simpl.
    rewrite lookup_alter_ne; [done|]. intros <-. apply Hne.
    eapply (session_of_inj n k k' p p' l s s'); [done|]. done.
Qed.

Lemma abs_insert n n' now key p :
  Inv n -> addrMap n !! key = None -> insert_session n now key = (Some p, n') ->
  abs n' = <[key := (p, now)]> (abs n).
Proof.
  intros HI Hk E. destruct (insert_session_Some n now key p n' HI Hk E) as (HI' & _ & Hn & Ha & l & Hp & Hh & Hl).
  apply map_eq. intros k. unfold abs. rewrite lookup_omap, Ha. destruct (decide (key = k)) as [<-|Hne].
  - rewrite !lookup_insert_eq. simpl. rewrite Hp, lookup_insert_eq. simpl. by rewrite Hh, lookup_insert_eq.
  - rewrite !lookup_insert_ne by done. rewrite lookup_omap. destruct (addrMap n !! k) as [q|] eqn:Eq; [|done]. simpl.
    destruct (session_of_key n HI k q Eq) as (l' & s' & H1 & H2 & H3 & H4).
    rewrite Hp, lookup_insert_ne, H2 by congruence. simpl. by rewrite Hh, lookup_insert_ne by congruence.
Qed.

Lemma scan_elem n now p l s :
  portMap n !! p = Some l -> heap n !! l = Some s -> timed_out n now s = true -> p ∈ (scan n now).*1.
Proof.
  intros Hp Hs Ht. apply list_elem_of_fmap. exists (p, l). split; [done|]. apply list_elem_of_filter.
  rewrite elem_of_map_to_list. cbn [snd]. by rewrite Hs.
Qed.

Lemma checkTimeout_spec n now :
  Inv n ->
  Inv (checkTimeout n now) /\ heap (checkTimeout n now) = heap n /\
  forall p, portMap (checkTimeout n now) !! p
    = match portMap n !! p with
      | Some l => if match heap n !! l with Some s => timed_out n now s | None => false end then None else Some l
      | None => None
      end.
Proof.
  intros HI. rewrite checkTimeout_sweep.
  destruct (sweep_spec now (scan n now) n HI (scan_entries n now)) as (HI' & Hh & HP).
  split_and!; try done. intros p. rewrite HP. destruct (portMap n !! p) as [l|] eqn:E; [|done].
  destruct (heap n !! l) as [s|] eqn:Es; [|by rewrite andb_false_r].
  destruct (timed_out n now s) eqn:Et; [|by rewrite andb_false_r].
  by rewrite bool_decide_eq_true_2 by (by eapply scan_elem).
Qed.

Lemma abs_checkTimeout n now :
  Inv n -> abs (checkTimeout n now) = filter (fun e : tcpNatKey * (Z * Z) => now - e.2.2 <= timeout n) (abs n).
Proof.
  intros HI. destruct (checkTimeout_spec n now HI) as (HI' & Hh & HP). apply map_eq. intros k.
  apply option_eq. intros [p la]. rewrite map_lookup_filter_Some, (abs_Some _ HI'), (abs_Some _ HI). cbn [snd]. split.
  - intros (l & s & (H1 & H2 & H3 & H4) & ->). rewrite Hh in H3. rewrite HP in H2.
    destruct (portMap n !! p) as [l'|] eqn:E; [|done]. destruct (heap n !! l') as [s'|] eqn:Es; [|].
    + destruct (timed_out n now s') eqn:Et; [done|]. injection H2 as ->. rewrite H3 in Es. injection Es as <-.
      unfold timed_out in Et. split; [|lia]. exists l, s. split; [|done]. split_and!; try done.
      destruct (session_of_port n HI p l E) as (s' & (H5 & H6 & H7 & H8)). congruence.
    + injection H2 as ->. congruence.
  - intros [(l & s & (H1 & H2 & H3 & H4) & ->) Hle]. exists l, s. split; [|done].
    assert (portMap (checkTimeout n now) !! p = Some l) as HPl.
    { rewrite HP, H2, H3. unfold timed_out. by rewrite (proj2 (Z.ltb_ge _ _) Hle). }
    split_and!; try done; [|by rewrite Hh]. destruct (session_of_port _ HI' p l HPl) as (s' & (H5 & H6 & H7 & H8)).
    rewrite Hh in H7. congruence.
Qed.

(** ** Simulation *)

Lemma timeout_exec n o : timeout (exec n o).2 = timeout n.
Proof.
  destruct o as [now src dst|now p|now]; simpl.
  - unfold Lookup, refresh, insert_session, allocatePortLocked. destruct (addrMap n !! _) as [p|].
    + by destruct (portMap n !! p).
    + destruct (alloc_loop _ _ _) as [i [p|]]; done.
  - unfold LookupBack. by destruct (portMap n !! p).
  - rewrite checkTimeout_sweep. unfold sweep. generalize (scan n now). intros l. revert n.
    induction l as [|e l IH]; intros n; [done|]. simpl. rewrite IH. apply sweep_one_frame.
Qed.

Lemma exec_sim n o : Inv n -> Inv (exec n o).2 /\ spec_step (timeout n) (abs n) o (exec n o).1 (abs (exec n o).2).
Proof.
  intros HI. destruct o as [now src dst|now p|now]; simpl.
  - pose proof (Lookup_spec n now src dst) as HL. destruct (Lookup n now src dst) as [r n'] eqn:E.
    destruct (HL r n' HI eq_refl) as [HI' _]. split; [done|]. simpl. revert E. unfold Lookup.
    destruct (addrMap n !! mkKey src dst) as [p|] eqn:Ek.
    + intros [= <- <-]. destruct (session_of_key n HI _ p Ek) as (l & s & Hs).
      unfold refresh. replace (portMap n !! p) with (Some l) by (symmetry; apply Hs).
      rewrite (abs_refresh_loc n now _ p l s HI Hs). apply spec_hit. by apply abs_session with l.
    + intros E. destruct r as [p|].
      * destruct (insert_session_Some n now _ p n' HI Ek E) as (_ & Hp & Hn & _).
        rewrite (abs_insert n n' now _ p HI Ek E). apply spec_new; [by apply abs_None|done|by apply abs_free].
      * destruct (insert_session_None n now _ n' HI E) as (_ & Hall & Ha & Hp & Hh).
        replace (abs n') with (abs n) by (unfold abs; by rewrite Ha, Hp, Hh).
        apply spec_full; [by apply abs_None|]. intros p Hpo. by apply abs_port, Hall.
  - unfold LookupBack. destruct (portMap n !! p) as [l|] eqn:Ep; simpl.
    + destruct (session_of_port n HI p l Ep) as (s & Hs). pose proof Hs as (_ & _ & H3 & _).
      split; [by apply Inv_refresh_loc|]. rewrite lookup_alter_eq, H3. simpl.
      rewrite (abs_refresh_loc n now _ p l s HI Hs).
      replace (session_refresh now s) with (mkSession (k_Source (session_key s)) (k_Destination (session_key s))
        (touch now (s_LastActive s))).
      { apply spec_back. by apply abs_session with l. }
      unfold session_refresh, touch. destruct s; simpl. by destruct (_ <? _).
    + split; [done|]. apply spec_noback. by apply abs_free.
  - split; [by apply checkTimeout_spec|]. rewrite abs_checkTimeout by done. apply spec_timeout.
Qed.

Lemma run_sim ops n :
  Inv n -> Inv (run n ops).2 /\ timeout (run n ops).2 = timeout n /\
  spec_run (timeout n) (abs n) ops (run n ops).1 (abs (run n ops).2).
Proof.
  revert n. induction ops as [|o ops IH]; intros n HI; simpl; [split_and!; try done; constructor|].
  destruct (exec_sim n o HI) as [HI1 Hst]. pose proof (timeout_exec n o) as Ht.
  destruct (exec n o) as [a n1]. simpl in *. destruct (IH n1 HI1) as (HI2 & Ht2 & Hr). rewrite Ht in *.
  destruct (run n1 ops) as [l n2]. simpl in *. split_and!; try done. by eapply spec_run_cons.
Qed.

Lemma run_app ops ops' n :
  run n (ops ++ ops') = ((run n ops).1 ++ (run (run n ops).2 ops').1, (run (run n ops).2 ops').2).
Proof.
  revert n. induction ops as [|o ops IH]; intros n; simpl; [by destruct (run n ops')|].
  destruct (exec n o) as [a n1]. rewrite IH. by destruct (run n1 ops).
Qed.

(** ** Properties *)

(** C4: whatever sequence of lookups, reverse lookups and timeouts is run on a
    new table, its answers and its final contents are those of a finite map from
    connections to port and last activity: a known connection keeps its port, a
    new one gets a port that no other connection has, lookups fail only when all
    55536 ports are taken, a reverse lookup returns the connection of the port,
    and the timeout removes exactly the connections idle for longer than the
    timeout. *)
Theorem TCPNat_refines t ops :
  spec_run t ∅ ops (run (NewNat t) ops).1 (abs (run (NewNat t) ops).2).
Proof. exact (proj2 (proj2 (run_sim ops (NewNat t) (Inv_NewNat t)))). Qed.

(** C27: the port space recovers.  After any history, once a connection has been
    idle for longer than the timeout, the next run of checkTimeout frees it: the
    connection is in neither map any more, its port has no session, every
    connection that is not idle keeps its port, and the lookup that follows
    succeeds for every connection. *)
Theorem TCPNat_recovers t ops k p la now now' src dst :
  abs (run (NewNat t) ops).2 !! k = Some (p, la) -> t < now - la ->
  let n := (run (NewNat t) (ops ++ [OpTimeout now])).2 in
  addrMap n !! k = None /\ portMap n !! p = None /\
  (forall k' p' la', abs (run (NewNat t) ops).2 !! k' = Some (p', la') -> now - la' <= t -> abs n !! k' = Some (p', la')) /\
  exists q, last (run (NewNat t) (ops ++ [OpTimeout now; OpLookup now' src dst])).1 = Some (APort (Some q)).
Proof.
  intros Hk Hla. rewrite !run_app. cbn [fst snd]. destruct (run_sim ops (NewNat t) (Inv_NewNat t)) as (HI & Ht & _).
  set (n0 := (run (NewNat t) ops).2) in *. simpl in Ht. cbn [run exec snd]. destruct (checkTimeout_spec n0 now HI) as (HI' & Hh & HP).
  assert (portMap (checkTimeout n0 now) !! p = None) as Hfree.
  { apply (abs_Some n0 HI) in Hk as (l & s & (_ & H2 & H3 & _) & ->). rewrite HP, H2, H3. unfold timed_out. by rewrite (proj2 (Z.ltb_lt _ _)) by lia. }
  pose proof (abs_checkTimeout n0 now HI) as HA. split_and!; [|done| |].
  - destruct (addrMap (checkTimeout n0 now) !! k) as [p'|] eqn:E; [|done]. destruct (session_of_key _ HI' k p' E) as (l & s & HS).
    assert (abs (checkTimeout n0 now) !! k = Some (p', s_LastActive s)) as Ha by by apply abs_session with l. rewrite HA in Ha. apply map_lookup_filter_Some in Ha as [Ha Hle]. cbn in Hle. rewrite Hk in Ha. injection Ha as _ Ela. lia.
  - intros k' p' la' Hk' Hla'. rewrite HA. apply map_lookup_filter_Some. split; [done|]. cbn. lia.
  - pose proof (Lookup_spec (checkTimeout n0 now) now' src dst) as HL.
    destruct (Lookup (checkTimeout n0 now) now' src dst) as [r n'] eqn:E. rewrite last_app. cbn [fst last].
    destruct r as [q|]; [by exists q|]. destruct (HL None n' HI' eq_refl) as (_ & _ & Hall & _).
    apply (abs_Some n0 HI) in Hk as (l & s & (H1 & _) & _). destruct (inv_fwd n0 HI k p H1) as (Hp & _). destruct (Hall p Hp) as [l' Hl']. congruence.
Qed.

(** ** Witness *)

Lemma TCPNat_recovers_witness :
  addrMap (run (NewNat 300) ([OpLookup 5 ex_src ex_dst] ++ [OpTimeout 306])).2 !! ex_key = None /\
  exists q, last (run (NewNat 300) ([OpLookup 5 ex_src ex_dst] ++ [OpTimeout 306; OpLookup 307 ex_dst ex_src])).1
    = Some (APort (Some q)).
Proof.
  destruct (TCPNat_recovers 300 [OpLookup 5 ex_src ex_dst] ex_key 10000 5 306 307 ex_dst ex_src) as (H1 & _ & _ & H2);
    [vm_compute; reflexivity|lia|]. by split.
Defined.
