(* ===== verification/Rewrite.v ===== *)
(** * stack_system.go: rewriteIPv4TCP and rewriteIPv6TCP

    The NAT rewrites a TCP packet in place: new addresses in the IP header, new
    ports in the TCP header, both checksums updated incrementally (or the TCP
    checksum cleared when the device computes it).  The two functions differ in
    the address setters only; [rewrite_body] is their common part and its
    effect is proved once. *)
From S2P Require Import Prelude Bytes GoMem Checksum TsChecksum Tcpip Netip HdrChecksum IPv4 IPv6 TCP.

Definition neqb (a b : tcpip.Address) : bool := negb (bool_decide (a = b)).

Definition rewriteIPv4TCP (ipHdr tcpHdr : slice) (txChecksumOffload : bool)
    (newSource : netip.Addr) (newSourcePort : Z) (rewriteSourcePort : bool)
    (newDestination : netip.Addr) (newDestinationPort : Z) (rewriteDestinationPort : bool) : M unit :=
  oldSource <- IPv4.SourceAddress ipHdr ;;
  oldDestination <- IPv4.DestinationAddress ipHdr ;;
  s4 <- lift (netip.As4 newSource) ;;
  d4 <- lift (netip.As4 newDestination) ;;
  let newSourceAddr := tcpip.AddrFrom4 s4 in
  let newDestinationAddr := tcpip.AddrFrom4 d4 in
  when (neqb newSourceAddr oldSource)
    (IPv4.SetSourceAddressWithChecksumUpdate ipHdr newSourceAddr ;;;
     when (negb txChecksumOffload)
       (TCP.UpdateChecksumPseudoHeaderAddress tcpHdr oldSource newSourceAddr true)) ;;;
  when (neqb newDestinationAddr oldDestination)
    (IPv4.SetDestinationAddressWithChecksumUpdate ipHdr newDestinationAddr ;;;
     when (negb txChecksumOffload)
       (TCP.UpdateChecksumPseudoHeaderAddress tcpHdr oldDestination newDestinationAddr true)) ;;;
  if txChecksumOffload then
    when rewriteSourcePort (TCP.SetSourcePort tcpHdr newSourcePort) ;;;
    when rewriteDestinationPort (TCP.SetDestinationPort tcpHdr newDestinationPort) ;;;
    TCP.SetChecksum tcpHdr 0
  else
    when rewriteSourcePort (TCP.SetSourcePortWithChecksumUpdate tcpHdr newSourcePort) ;;;
    when rewriteDestinationPort (TCP.SetDestinationPortWithChecksumUpdate tcpHdr newDestinationPort).

Definition rewriteIPv6TCP (ipHdr tcpHdr : slice) (txChecksumOffload : bool)
    (newSource : netip.Addr) (newSourcePort : Z) (rewriteSourcePort : bool)
    (newDestination : netip.Addr) (newDestinationPort : Z) (rewriteDestinationPort : bool) : M unit :=
  oldSource <- IPv6.SourceAddress ipHdr ;;
  oldDestination <- IPv6.DestinationAddress ipHdr ;;
  let newSourceAddr := tcpip.AddrFrom16 (netip.As16 newSource) in
  let newDestinationAddr := tcpip.AddrFrom16 (netip.As16 newDestination) in
  when (neqb newSourceAddr oldSource)
    (IPv6.SetSourceAddress ipHdr newSourceAddr ;;;
     when (negb txChecksumOffload)
       (TCP.UpdateChecksumPseudoHeaderAddress tcpHdr oldSource newSourceAddr true)) ;;;
  when (neqb newDestinationAddr oldDestination)
    (IPv6.SetDestinationAddress ipHdr newDestinationAddr ;;;
     when (negb txChecksumOffload)
       (TCP.UpdateChecksumPseudoHeaderAddress tcpHdr oldDestination newDestinationAddr true)) ;;;
  if txChecksumOffload then
    when rewriteSourcePort (TCP.SetSourcePort tcpHdr newSourcePort) ;;;
    when rewriteDestinationPort (TCP.SetDestinationPort tcpHdr newDestinationPort) ;;;
    TCP.SetChecksum tcpHdr 0
  else
    when rewriteSourcePort (TCP.SetSourcePortWithChecksumUpdate tcpHdr newSourcePort) ;;;
    when rewriteDestinationPort (TCP.SetDestinationPortWithChecksumUpdate tcpHdr newDestinationPort).

(** ** The common body *)

Definition rewrite_addr (set : tcpip.Address -> M unit) (tcpHdr : slice) (off : bool)
    (old new : tcpip.Address) : M unit :=
  when (neqb new old)
    (set new ;;; when (negb off) (TCP.UpdateChecksumPseudoHeaderAddress tcpHdr old new true)).
Definition rewrite_ports (tcpHdr : slice) (off : bool) (sp : Z) (rsp : bool) (dp : Z) (rdp : bool) : M unit :=
  if off then
    when rsp (TCP.SetSourcePort tcpHdr sp) ;;;
    when rdp (TCP.SetDestinationPort tcpHdr dp) ;;;
    TCP.SetChecksum tcpHdr 0
  else
    when rsp (TCP.SetSourcePortWithChecksumUpdate tcpHdr sp) ;;;
    when rdp (TCP.SetDestinationPortWithChecksumUpdate tcpHdr dp).

(** [m'] agrees with [m] below [hi]. *)
Definition agree_below (m m' : list Z) (hi : Z) : Prop :=
  Zlen m' = Zlen m /\ forall j, 0 <= j < hi -> byte_at m' j = byte_at m j.

Lemma agree_window m m' hi off len :
  agree_below m m' hi -> 0 <= off -> 0 <= len -> off + len <= hi -> window m' off len = window m off len.
Proof. intros [HZ Hj] Ho Hl Hh. apply window_agree; try done. intros. apply Hj. lia. Qed.

Section Body.
Context (o t tl tc al slo dlo flo fhi : Z) (off : bool).
Context (setSrc setDst : tcpip.Address -> M unit) (hdr_ok ip_ok : list Z -> Prop).
Abbreviation tcpHdr := (Slice t tl tc).
Abbreviation src_of m := (window m (o + slo) al).
Abbreviation dst_of m := (window m (o + dlo) al).

(** What a setter of one address does to the IP header. *)
Definition sets (set : tcpip.Address -> M unit) (lo olo : Z) : Prop :=
  forall m new, bytes m -> hdr_ok m -> tcpip.wf_Address new -> tcpip.Len new = al ->
  exists m', runs (set new) m tt m' /\ bytes m' /\ Zlen m' = Zlen m /\
    window m' (o + lo) al = tcpip.AsSlice new /\ window m' (o + olo) al = window m (o + olo) al /\
    (forall j, 0 <= j -> ~ (flo <= j < fhi) -> byte_at m' j = byte_at m j) /\
    hdr_ok m' /\ (ip_ok m -> ip_ok m').

Hypothesis layout : 0 <= o /\ 0 <= slo /\ 0 <= dlo /\ 0 <= al /\ o + slo + al <= t /\ o + dlo + al <= t /\
  0 <= flo /\ fhi <= t /\ 18 <= tl /\ tl <= tc.
Hypothesis hdr_room : forall m, hdr_ok m -> t + tc <= Zlen m.
Hypothesis hdr_local : forall m m', agree_below m m' t -> hdr_ok m -> hdr_ok m'.
Hypothesis ip_local : forall m m', agree_below m m' t -> hdr_ok m -> ip_ok m -> ip_ok m'.
Hypothesis setSrc_ok : sets setSrc slo dlo.
Hypothesis setDst_ok : sets setDst dlo slo.

(** Where the rewrite of [m0] may write. *)
Definition touched (j : Z) : Prop := flo <= j < fhi \/ t <= j < t + 4 \/ t + 16 <= j < t + 18.

(** A stage of the rewrite of [m0]: the addresses and ports now in the packet
    and what is known of the checksums. *)
Record stage (m0 m : list Z) (src dst : list Z) (sp dp : Z) : Prop := {
  st_bytes : bytes m;
  st_len : Zlen m = Zlen m0;
  st_hdr : hdr_ok m;
  st_src : src_of m = src;
  st_dst : dst_of m = dst;
  st_sp : get16 m t = sp;
  st_dp : get16 m (t + 2) = dp;
  st_frame : forall j, 0 <= j -> ~ touched j -> byte_at m j = byte_at m0 j;
  st_ip : ip_ok m0 -> ip_ok m;
  st_tcp : off = false -> TCP.checksum_ok m0 t tl (src_of m0) (dst_of m0) -> TCP.checksum_ok m t tl src dst
}.

Lemma stage_init m : bytes m -> hdr_ok m -> stage m m (src_of m) (dst_of m) (get16 m t) (get16 m (t + 2)).
Proof. by split. Qed.

(** A write into the TCP header. *)
Lemma stage_tcp m0 m m' src dst sp dp sp' dp' :
  stage m0 m src dst sp dp ->
  bytes m' -> Zlen m' = Zlen m -> (forall j, 0 <= j -> ~ (t <= j < t + 4 \/ t + 16 <= j < t + 18) -> byte_at m' j = byte_at m j) ->
  get16 m' t = sp' -> get16 m' (t + 2) = dp' ->
  (off = false -> wsum (window m' t tl) ≡₁ wsum (window m t tl)) ->
  stage m0 m' src dst sp' dp'.
Proof.
  intros [S1 S2 S3 S4 S5 S6 S7 S8 S9 S10] Hb HZ Hj Hs Hd Hc.
  assert (agree_below m m' t) as HA by (split; [done|]; intros j ?; apply Hj; lia).
  split; try done.
  - lia.
  - by apply (hdr_local m).
  - rewrite (agree_window m m' t) by (done || lia). done.
  - rewrite (agree_window m m' t) by (done || lia). done.
  - intros j Hj0 Hn. rewrite Hj; [by apply S8|done|]. intros H. apply Hn. unfold touched. tauto.
  - intros H. apply (ip_local m); auto.
  - intros E H. unfold TCP.checksum_ok in *. rewrite Hc by done. by apply S10.
Qed.

Ltac stage_tcp :=
  eapply stage_tcp;
    [eassumption
    |repeat apply bytes_put16; eauto using st_bytes
    |by autorewrite with golen
    |intros j ??; rewrite !byte_at_put16_ne by (autorewrite with golen; lia); done
    | | | ].

Lemma port_step m0 m src dst sp dp new i :
  i = 0 \/ i = 2 -> is_u16 new -> off = false -> stage m0 m src dst sp dp ->
  exists m', runs (if i =? 0 then TCP.SetSourcePortWithChecksumUpdate tcpHdr new
                   else TCP.SetDestinationPortWithChecksumUpdate tcpHdr new) m tt m' /\
    stage m0 m' src dst (if i =? 0 then new else sp) (if i =? 0 then dp else new).
Proof.
  intros Hi Hn Hoff S. pose proof (st_bytes _ _ _ _ _ _ S) as Hb.
  pose proof (hdr_room m (st_hdr _ _ _ _ _ _ S)) as Hr.
  pose proof (st_sp _ _ _ _ _ _ S) as Hsp. pose proof (st_dp _ _ _ _ _ _ S) as Hdp.
  destruct Hi as [-> | ->]; cbn [Z.eqb].
  - eexists. split; [apply TCP.runs_tcp_SetSourcePortWithChecksumUpdate; try done; lia|].
    stage_tcp; [by rd|by rd|].
    intros _. apply field_update_cong; try done; try lia; [exists 0|exists 8]; lia.
  - eexists. split; [apply TCP.runs_tcp_SetDestinationPortWithChecksumUpdate; try done; lia|].
    stage_tcp; [by rd|by rd|].
    intros _. apply field_update_cong; try done; try lia; [exists 1|exists 8]; lia.
Qed.

(** One address, with the pseudo-header part of the TCP checksum; [src] is the
    replaced address when [b]. *)
Lemma addr_step (b : bool) m0 m src dst sp dp old new :
  stage m0 m src dst sp dp -> tcpip.wf_Address old -> tcpip.wf_Address new ->
  tcpip.Len old = al -> tcpip.Len new = al -> tcpip.AsSlice old = (if b then src else dst) ->
  exists m', runs (rewrite_addr (if b then setSrc else setDst) tcpHdr off old new) m tt m' /\
    stage m0 m' (if b then tcpip.AsSlice new else src) (if b then dst else tcpip.AsSlice new) sp dp.
Proof.
  intros S Hwo Hwn Hlo Hln Hold. unfold rewrite_addr, neqb.
  case_bool_decide as E; cbn [negb when].
  { exists m. split; [done|]. subst new. rewrite Hold. by destruct b. }
  destruct S as [S1 S2 S3 S4 S5 S6 S7 S8 S9 S10].
  assert (exists m1, runs ((if b then setSrc else setDst) new) m tt m1 /\ bytes m1 /\ Zlen m1 = Zlen m /\
    src_of m1 = (if b then tcpip.AsSlice new else src) /\ dst_of m1 = (if b then dst else tcpip.AsSlice new) /\
    (forall j, 0 <= j -> ~ (flo <= j < fhi) -> byte_at m1 j = byte_at m j) /\
    hdr_ok m1 /\ (ip_ok m -> ip_ok m1)) as (m1 & R1 & B1 & Z1 & A1 & D1 & F1 & H1 & I1).
  { destruct b.
    - destruct (setSrc_ok m new) as (m1 & ?&?&?&?&E2&?&?&?); auto. exists m1. rewrite E2. by split_and!.
    - destruct (setDst_ok m new) as (m1 & ?&?&?&?&E2&?&?&?); auto. exists m1. rewrite E2. by split_and!. }
  assert (get16 m1 t = sp /\ get16 m1 (t + 2) = dp) as [P1 P2]
    by (unfold get16 in *; split; rewrite !F1 by lia; done).
  assert (forall j, 0 <= j -> ~ touched j -> byte_at m1 j = byte_at m0 j) as F0.
  { intros j Hj Hn. rewrite F1; [by apply S8|done|]. intros ?. apply Hn. by left. }
  assert (window m1 t tl = window m t tl) as W1.
  { apply bytes_ext; [pose proof (hdr_room m S3); rewrite !Zlen_window by lia; done|].
    intros j Hj. pose proof (hdr_room m S3). rewrite Zlen_window in Hj by lia.
    rewrite !byte_at_window by lia. apply F1; lia. }
  destruct off eqn:Eoff; cbn [negb when].
  - exists m1. split; [eapply runs_bind; [done|apply runs_ret]|]. split; try done; try lia; try congruence; auto.
  - pose proof (hdr_room m S3).
    destruct (TCP.runs_UpdateChecksumPseudoHeaderAddress t tl tc m1 old new) as (x & Hx & R2 & Hc);
      try done; try lia.
    exists (put16 m1 (t + 16) (not16 x)). split; [by eapply runs_bind|].
    assert (agree_below m1 (put16 m1 (t + 16) (not16 x)) t) as HA
      by (split; [apply Zlen_put16|intros j ?; apply byte_at_put16_ne; lia]).
    split; try (rd; done).
    + by apply bytes_put16.
    + rewrite Zlen_put16. lia.
    + by apply (hdr_local m1).
    + intros j Hj Hn. unfold touched in Hn. rewrite byte_at_put16_ne by lia. apply F0; done.
    + intros H0. apply (ip_local m1); auto.
    + intros _ H0. specialize (S10 eq_refl H0). unfold TCP.checksum_ok in *.
      pose proof (pseudo_update_cong m1 t tl (t + 16) x (wsum (tcpip.AsSlice old)) (wsum (tcpip.AsSlice new))) as HP.
      rewrite W1 in HP. specialize (HP B1 ltac:(lia) ltac:(lia) ltac:(lia) ltac:(lia) ltac:(by exists 8; lia) Hx Hc).
      rewrite Hold in HP. destruct b.
      * transitivity (wsum dst + tl + 6 + (wsum (tcpip.AsSlice new) + wsum (window (put16 m1 (t + 16) (not16 x)) t tl)));
          [apply cong_refl_eq; lia|]. rewrite HP. etransitivity; [apply cong_refl_eq|exact S10]. lia.
      * transitivity (wsum src + tl + 6 + (wsum (tcpip.AsSlice new) + wsum (window (put16 m1 (t + 16) (not16 x)) t tl)));
          [apply cong_refl_eq; lia|]. rewrite HP. etransitivity; [apply cong_refl_eq|exact S10]. lia.
Qed.

Lemma ports_step m0 m src dst sp0 dp0 sp rsp dp rdp :
  stage m0 m src dst sp0 dp0 -> is_u16 sp -> is_u16 dp ->
  exists m', runs (rewrite_ports tcpHdr off sp rsp dp rdp) m tt m' /\
    stage m0 m' src dst (if rsp then sp else sp0) (if rdp then dp else dp0) /\
    (off = true -> get16 m' (t + 16) = 0).
Proof.
  intros S Hsp Hdp. unfold rewrite_ports. pose proof (hdr_room m (st_hdr _ _ _ _ _ _ S)) as Hr.
  pose proof (st_sp _ _ _ _ _ _ S). pose proof (st_dp _ _ _ _ _ _ S).
  destruct off eqn:Eoff.
  - set (m1 := if rsp then put16 m t sp else m). set (m2 := if rdp then put16 m1 (t + 2) dp else m1).
    exists (put16 m2 (t + 16) 0).
    assert (Zlen m1 = Zlen m) by (subst m1; destruct rsp; by autorewrite with golen).
    assert (Zlen m2 = Zlen m) by (subst m2; destruct rdp; by autorewrite with golen).
    split.
    { eapply (runs_bind _ _ _ tt m1); [subst m1; destruct rsp; cbn [when]; [apply TCP.runs_tcp_SetSourcePort; lia|done]|].
      eapply (runs_bind _ _ _ tt m2); [subst m2; destruct rdp; cbn [when]; [apply TCP.runs_tcp_SetDestinationPort; lia|done]|].
      apply TCP.runs_tcp_SetChecksum; lia. }
    split; [|intros _; by rd].
    eapply stage_tcp; [exact S| | | | | |congruence].
    + subst m2 m1. destruct rsp, rdp; repeat apply bytes_put16; eauto using st_bytes.
    + autorewrite with golen. lia.
    + intros j ??. rewrite byte_at_put16_ne by lia. subst m2 m1. destruct rsp, rdp; by rewrite ?byte_at_put16_ne by (autorewrite with golen; lia).
    + subst m2 m1. destruct rsp, rdp; by rd.
    + subst m2 m1. destruct rsp, rdp; by rd.
  - destruct (port_step m0 m src dst sp0 dp0 sp 0) as (m1 & R1 & S1); auto. cbn [Z.eqb] in R1, S1.
    assert (exists m1', runs (when rsp (TCP.SetSourcePortWithChecksumUpdate tcpHdr sp)) m tt m1' /\
      stage m0 m1' src dst (if rsp then sp else sp0) dp0) as (m1' & R1' & S1')
      by (destruct rsp; [by exists m1|by exists m]).
    destruct (port_step m0 m1' src dst (if rsp then sp else sp0) dp0 dp 2) as (m2 & R2 & S2); auto.
    cbn [Z.eqb] in R2, S2.
    destruct rdp; [exists m2|exists m1']; (split; [eapply runs_bind; [done|]; done|]); done.
Qed.

Lemma rewrite_body_ok m olds oldd news newd sp rsp dp rdp :
  bytes m -> hdr_ok m ->
  tcpip.wf_Address olds -> tcpip.wf_Address oldd -> tcpip.wf_Address news -> tcpip.wf_Address newd ->
  tcpip.Len olds = al -> tcpip.Len oldd = al -> tcpip.Len news = al -> tcpip.Len newd = al ->
  tcpip.AsSlice olds = src_of m -> tcpip.AsSlice oldd = dst_of m -> is_u16 sp -> is_u16 dp ->
  exists m', runs (rewrite_addr setSrc tcpHdr off olds news ;;;
                   rewrite_addr setDst tcpHdr off oldd newd ;;;
                   rewrite_ports tcpHdr off sp rsp dp rdp) m tt m' /\
    stage m m' (tcpip.AsSlice news) (tcpip.AsSlice newd)
      (if rsp then sp else get16 m t) (if rdp then dp else get16 m (t + 2)) /\
    (off = true -> get16 m' (t + 16) = 0).
Proof.
  intros Hb Hh W1 W2 W3 W4 L1 L2 L3 L4 A1 A2 P1 P2.
  destruct (addr_step true m m _ _ _ _ olds news (stage_init m Hb Hh)) as (m1 & R1 & S1); try done.
  destruct (addr_step false m m1 _ _ _ _ oldd newd S1) as (m2 & R2 & S2); try done.
  destruct (ports_step m m2 _ _ _ _ sp rsp dp rdp S2) as (m3 & R3 & S3 & C3); try done.
  exists m3. split; [|done]. eapply runs_bind; [exact R1|]. eapply runs_bind; [exact R2|]. exact R3.
Qed.
End Body.

(** ** IPv4 *)

Definition hdr4 (o h c : Z) (m : list Z) : Prop := IPv4.hlen m o = h /\ o + c <= Zlen m.

Lemma hlen_agree o h m m' : agree_below m m' (o + h) -> 0 <= o -> 0 < h -> IPv4.hlen m' o = IPv4.hlen m o.
Proof. intros [_ Hj] ??. unfold IPv4.hlen. rewrite Hj by lia. done. Qed.
Lemma hdr4_local o h c m m' : 0 <= o -> 0 < h -> agree_below m m' (o + h) -> hdr4 o h c m -> hdr4 o h c m'.
Proof.
  intros ?? HA [H1 H2]. split; [by rewrite (hlen_agree o h m)|]. destruct HA. lia.
Qed.
Lemma checksum_local4 o h c m m' : 0 <= o -> 0 < h -> agree_below m m' (o + h) -> hdr4 o h c m ->
  IPv4.checksum_ok m o -> IPv4.checksum_ok m' o.
Proof.
  intros ?? HA [H1 H2]. unfold IPv4.checksum_ok. rewrite (hlen_agree o h m m') by done. rewrite H1.
  by rewrite (agree_window m m' (o + h)) by (done || lia).
Qed.

Lemma set4_ok o l c h (b : bool) :
  0 <= o -> 20 <= h -> h <= l -> l <= c ->
  sets o 4 (o + 10) (o + 20) (hdr4 o h c) (fun m => IPv4.checksum_ok m o)
    (if b then IPv4.SetSourceAddressWithChecksumUpdate (Slice o l c)
     else IPv4.SetDestinationAddressWithChecksumUpdate (Slice o l c))
    (if b then 12 else 16) (if b then 16 else 12).
Proof.
  intros Ho Hh Hl Hc m new Hb [Hhl Hm] Hwf Hlen.
  pose proof (tcpip.Zlen_AsSlice _ Hwf) as HL. rewrite Hlen in HL. pose proof (tcpip.bytes_AsSlice _ Hwf) as HB.
  set (lo := if b then 12 else 16).
  assert (exists x, is_u16 x /\
    runs ((if b then IPv4.SetSourceAddressWithChecksumUpdate (Slice o l c)
           else IPv4.SetDestinationAddressWithChecksumUpdate (Slice o l c)) new) m tt
      (write_at (put16 m (o + 10) (not16 x)) (o + lo) (tcpip.AsSlice new)) /\
    x ≡₁ not16 (get16 m (o + 10)) - wsum (window m (o + lo) 4) + wsum (tcpip.AsSlice new)) as (x & Hx & R & Hcong).
  { subst lo. destruct b; [apply IPv4.runs_SetSourceAddressWithChecksumUpdate|
                           apply IPv4.runs_SetDestinationAddressWithChecksumUpdate]; done || lia. }
  assert (lo = 12 \/ lo = 16) as Hlo by (subst lo; destruct b; auto).
  eexists. split; [exact R|]. split; [auto with gobytes|]. split; [by autorewrite with golen|].
  split; [by rd|]. split; [subst lo; destruct b; by rd|].
  split; [intros j ??; by rd|].
  split; [split; [rewrite IPv4.hlen_write_at, IPv4.hlen_put16 by lia; done|by autorewrite with golen]|].
  intros Hok. apply IPv4.address_update_ok; try done; lia.
Qed.

Lemma rewriteIPv4TCP_ok o l c m off sb sp rsp db dp rdp :
  bytes m -> 0 <= o -> l <= c -> o + c <= Zlen m -> IPv4.valid_header m o l l ->
  IPv4.hlen m o + 18 <= get16 m (o + 2) ->
  bytes sb -> length sb = 4%nat -> bytes db -> length db = 4%nat -> is_u16 sp -> is_u16 dp ->
  let h := IPv4.hlen m o in let n := get16 m (o + 2) - h in
  exists m', runs (rewriteIPv4TCP (Slice o l c) (Slice (o + h) n (c - h)) off
      (netip.Addr4 sb) sp rsp (netip.Addr4 db) dp rdp) m tt m' /\
    stage o (o + h) n 4 12 16 (o + 10) (o + 20) off (hdr4 o h c) (fun m => IPv4.checksum_ok m o)
      m m' sb db (if rsp then sp else get16 m (o + h)) (if rdp then dp else get16 m (o + h + 2)) /\
    (off = true -> get16 m' (o + h + 16) = 0).
Proof.
  intros Hb Ho Hl Hm (V1 & V2 & V3 & V4 & V5) Hn Hsb Lsb Hdb Ldb Hsp Hdp h n.
  assert (length (window m (o + 12) 4) = 4%nat /\ length (window m (o + 16) 4) = 4%nat) as [W1 W2].
  { pose proof (Zlen_window m (o + 12) 4). pose proof (Zlen_window m (o + 16) 4). unfold Zlen in *. lia. }
  assert (bytes (window m (o + 12) 4) /\ bytes (window m (o + 16) 4)) as [B1 B2] by auto with gobytes.
  pose proof (set4_ok o l c h true) as HS. pose proof (set4_ok o l c h false) as HD.
  edestruct (rewrite_body_ok o (o + h) n (c - h) 4 12 16 (o + 10) (o + 20) off
    (IPv4.SetSourceAddressWithChecksumUpdate (Slice o l c)) (IPv4.SetDestinationAddressWithChecksumUpdate (Slice o l c))
    (hdr4 o h c) (fun m => IPv4.checksum_ok m o)) with (m := m) (olds := tcpip.AddrFrom4 (window m (o + 12) 4))
    (oldd := tcpip.AddrFrom4 (window m (o + 16) 4)) (news := tcpip.AddrFrom4 sb) (newd := tcpip.AddrFrom4 db)
    (sp := sp) (rsp := rsp) (dp := dp) (rdp := rdp) as (m' & R & S & C); try (by apply tcpip.wf_AddrFrom4);
    try (by apply tcpip.AsSlice_AddrFrom4); try done.
  - lia.
  - intros m1 [_ ?]. lia.
  - intros. apply (hdr4_local o h c m0); done || lia.
  - intros. apply (checksum_local4 o h c m0); done || lia.
  - apply HS; lia.
  - apply HD; lia.
  - exists m'. rewrite !tcpip.AsSlice_AddrFrom4 in S by done. split; [|done].
    unfold rewriteIPv4TCP. cbn [netip.As4]. go_step. go_step.
    eapply runs_bind; [by apply IPv4.runs_lift|]. eapply runs_bind; [by apply IPv4.runs_lift|]. exact R.
Qed.

(** RewriteIPv4TCP puts the new addresses and (where asked) ports into the
    packet and touches nothing but the two addresses, the two ports and the two
    checksum fields; a valid IPv4 header checksum stays valid, and a valid TCP
    checksum is again valid for the new pseudo header, or is cleared when the
    device computes checksums. *)
Lemma rewriteIPv4TCP_correct o l c m off sb sp rsp db dp rdp :
  bytes m -> 0 <= o -> l <= c -> o + c <= Zlen m -> IPv4.valid_header m o l l ->
  IPv4.hlen m o + 18 <= get16 m (o + 2) ->
  bytes sb -> length sb = 4%nat -> bytes db -> length db = 4%nat -> is_u16 sp -> is_u16 dp ->
  let ip := Slice o l c in
  let t := o + IPv4.hlen m o in let n := get16 m (o + 2) - IPv4.hlen m o in
  let tcp := Slice t n (c - IPv4.hlen m o) in
  exists m', runs (rewriteIPv4TCP ip tcp off (netip.Addr4 sb) sp rsp (netip.Addr4 db) dp rdp) m tt m' /\
    runs (IPv4.SourceAddr ip) m' (netip.Addr4 sb) m' /\ runs (IPv4.DestinationAddr ip) m' (netip.Addr4 db) m' /\
    runs (TCP.SourcePort tcp) m' (if rsp then sp else get16 m t) m' /\
    runs (TCP.DestinationPort tcp) m' (if rdp then dp else get16 m (t + 2)) m' /\
    (IPv4.checksum_ok m o -> IPv4.checksum_ok m' o) /\
    (off = false -> TCP.checksum_ok m t n (window m (o + 12) 4) (window m (o + 16) 4) ->
       TCP.checksum_ok m' t n sb db) /\
    (off = true -> runs (TCP.Checksum_ tcp) m' 0 m') /\
    (forall j, 0 <= j -> ~ (o + 10 <= j < o + 20) -> ~ (t <= j < t + 4) -> ~ (t + 16 <= j < t + 18) ->
       byte_at m' j = byte_at m j).
Proof.
  intros Hb Ho Hl Hm HV Hn Hsb Lsb Hdb Ldb Hsp Hdp ip t n tcp.
  destruct (rewriteIPv4TCP_ok o l c m off sb sp rsp db dp rdp) as (m' & R & S & C); try done.
  destruct HV as (V1 & V2 & V3 & V4 & V5).
  exists m'. split; [exact R|]. destruct S as [S1 S2 S3 S4 S5 S6 S7 S8 S9 S10].
  split_and!.
  - eapply runs_eq; [apply IPv4.runs4_SourceAddr; lia|by rewrite S4|done].
  - eapply runs_eq; [apply IPv4.runs4_DestinationAddr; lia|by rewrite S5|done].
  - eapply runs_eq; [apply TCP.runs_tcp_SourcePort; lia|done|done].
  - eapply runs_eq; [apply TCP.runs_tcp_DestinationPort; lia|done|done].
  - done.
  - done.
  - intros E. eapply runs_eq; [apply TCP.runs_tcp_Checksum_; lia|by apply C|done].
  - intros j ????. apply S8; [done|]. unfold touched. subst t. lia.
Qed.

(** ** IPv6 *)

Definition hdr6 (o c : Z) (m : list Z) : Prop := o + c <= Zlen m.

Lemma set6_ok o l c (b : bool) :
  0 <= o -> 40 <= l -> l <= c ->
  sets o 16 (o + 8) (o + 40) (hdr6 o c) (fun _ => True)
    (if b then IPv6.SetSourceAddress (Slice o l c) else IPv6.SetDestinationAddress (Slice o l c))
    (if b then 8 else 24) (if b then 24 else 8).
Proof.
  intros Ho Hl Hc m new Hb Hm Hwf Hlen. unfold hdr6 in Hm.
  pose proof (tcpip.Zlen_AsSlice _ Hwf) as HL. rewrite Hlen in HL. pose proof (tcpip.bytes_AsSlice _ Hwf) as HB.
  exists (write_at m (o + if b then 8 else 24) (tcpip.AsSlice new)).
  split; [destruct b; [apply IPv6.runs6_SetSourceAddress|apply IPv6.runs6_SetDestinationAddress]; lia|].
  split; [auto with gobytes|]. split; [by autorewrite with golen|].
  split; [destruct b; by rd|]. split; [destruct b; by rd|]. split; [intros j ??; destruct b; by rd|].
  unfold hdr6. by autorewrite with golen.
Qed.

Lemma rewriteIPv6TCP_ok o l c m off sb sp rsp db dp rdp :
  bytes m -> 0 <= o -> l <= c -> o + c <= Zlen m -> IPv6.valid_header m o l l -> 18 <= get16 m (o + 4) ->
  bytes sb -> length sb = 16%nat -> bytes db -> length db = 16%nat -> is_u16 sp -> is_u16 dp ->
  let t := o + 40 in let n := get16 m (o + 4) in
  exists m', runs (rewriteIPv6TCP (Slice o l c) (Slice t n (c - 40)) off
      (netip.Addr6 sb) sp rsp (netip.Addr6 db) dp rdp) m tt m' /\
    stage o t n 16 8 24 (o + 8) (o + 40) off (hdr6 o c) (fun _ => True)
      m m' sb db (if rsp then sp else get16 m t) (if rdp then dp else get16 m (t + 2)) /\
    (off = true -> get16 m' (t + 16) = 0).
Proof.
  intros Hb Ho Hl Hm (V1 & V2 & V3) Hn Hsb Lsb Hdb Ldb Hsp Hdp t n.
  assert (length (window m (o + 8) 16) = 16%nat /\ length (window m (o + 24) 16) = 16%nat) as [W1 W2].
  { pose proof (Zlen_window m (o + 8) 16). pose proof (Zlen_window m (o + 24) 16). unfold Zlen in *. lia. }
  assert (bytes (window m (o + 8) 16) /\ bytes (window m (o + 24) 16)) as [B1 B2] by auto with gobytes.
  pose proof (set6_ok o l c true) as HS. pose proof (set6_ok o l c false) as HD.
  edestruct (rewrite_body_ok o t n (c - 40) 16 8 24 (o + 8) (o + 40) off
    (IPv6.SetSourceAddress (Slice o l c)) (IPv6.SetDestinationAddress (Slice o l c))
    (hdr6 o c) (fun _ => True)) with (m := m) (olds := tcpip.AddrFrom16 (window m (o + 8) 16))
    (oldd := tcpip.AddrFrom16 (window m (o + 24) 16)) (news := tcpip.AddrFrom16 sb) (newd := tcpip.AddrFrom16 db)
    (sp := sp) (rsp := rsp) (dp := dp) (rdp := rdp) as (m' & R & S & C); try (by apply tcpip.wf_AddrFrom16);
    try (by apply tcpip.AsSlice_AddrFrom16); try done; unfold hdr6 in *.
  - lia.
  - intros m1 ?. lia.
  - intros m1 m2 [??] ?. lia.
  - apply HS; lia.
  - apply HD; lia.
  - exists m'. rewrite !tcpip.AsSlice_AddrFrom16 in S by done. split; [|done].
    unfold rewriteIPv6TCP. cbn [netip.As16]. go_step. go_step. exact R.
Qed.

(** RewriteIPv6TCP puts the new addresses and (where asked) ports into the
    packet and touches nothing but the addresses, the ports and the TCP
    checksum; a valid TCP checksum is again valid for the new pseudo header, or
    is cleared when the device computes checksums. *)
Lemma rewriteIPv6TCP_correct o l c m off sb sp rsp db dp rdp :
  bytes m -> 0 <= o -> l <= c -> o + c <= Zlen m -> IPv6.valid_header m o l l -> 18 <= get16 m (o + 4) ->
  bytes sb -> length sb = 16%nat -> bytes db -> length db = 16%nat -> is_u16 sp -> is_u16 dp ->
  let ip := Slice o l c in
  let t := o + 40 in let n := get16 m (o + 4) in let tcp := Slice t n (c - 40) in
  exists m', runs (rewriteIPv6TCP ip tcp off (netip.Addr6 sb) sp rsp (netip.Addr6 db) dp rdp) m tt m' /\
    runs (IPv6.SourceAddr ip) m' (netip.Addr6 sb) m' /\ runs (IPv6.DestinationAddr ip) m' (netip.Addr6 db) m' /\
    runs (TCP.SourcePort tcp) m' (if rsp then sp else get16 m t) m' /\
    runs (TCP.DestinationPort tcp) m' (if rdp then dp else get16 m (t + 2)) m' /\
    (off = false -> TCP.checksum_ok m t n (window m (o + 8) 16) (window m (o + 24) 16) ->
       TCP.checksum_ok m' t n sb db) /\
    (off = true -> runs (TCP.Checksum_ tcp) m' 0 m') /\
    (forall j, 0 <= j -> ~ (o + 8 <= j < o + 40) -> ~ (t <= j < t + 4) -> ~ (t + 16 <= j < t + 18) ->
       byte_at m' j = byte_at m j).
Proof.
  intros Hb Ho Hl Hm HV Hn Hsb Lsb Hdb Ldb Hsp Hdp ip t n tcp.
  destruct (rewriteIPv6TCP_ok o l c m off sb sp rsp db dp rdp) as (m' & R & S & C); try done.
  destruct HV as (V1 & V2 & V3). exists m'. split; [exact R|]. destruct S as [S1 S2 S3 S4 S5 S6 S7 S8 S9 S10].
  split_and!.
  - eapply runs_eq; [apply IPv6.runs6_SourceAddr; lia|by rewrite S4|done].
  - eapply runs_eq; [apply IPv6.runs6_DestinationAddr; lia|by rewrite S5|done].
  - eapply runs_eq; [apply TCP.runs_tcp_SourcePort; lia|done|done].
  - eapply runs_eq; [apply TCP.runs_tcp_DestinationPort; lia|done|done].
  - done.
  - intros E. eapply runs_eq; [apply TCP.runs_tcp_Checksum_; lia|by apply C|done].
  - intros j ????. apply S8; [done|]. unfold touched. lia.
Qed.

(** ** Witnesses *)

(** A TCP segment with valid checksums, from 10.0.0.2:40000 to
    93.184.216.34:443. *)
Definition sample_tcp4 : list Z :=
  [69; 0; 0; 40; 0; 0; 64; 0; 64; 6; 250; 243; 10; 0; 0; 2; 93; 184; 216; 34;
   156; 64; 1; 187; 0; 0; 0; 1; 0; 0; 0; 2; 80; 16; 4; 0; 205; 249; 0; 0].
Definition sample_tcp6 : list Z :=
  [96; 0; 0; 0; 0; 20; 6; 64; 32; 1; 13; 184; 0; 0; 0; 0; 0; 0; 0; 0; 0; 0; 0; 1;
   32; 1; 13; 184; 0; 0; 0; 0; 0; 0; 0; 0; 0; 0; 0; 2;
   156; 64; 1; 187; 0; 0; 0; 1; 0; 0; 0; 2; 80; 16; 4; 0; 0; 0; 0; 0].

Lemma rewriteIPv4TCP_correct_witness :
  exists m', runs (rewriteIPv4TCP (Slice 0 40 40) (Slice 20 20 20) false
      (netip.Addr4 [172; 19; 0; 2]) 10000 true (netip.Addr4 [172; 19; 0; 1]) 8080 true) sample_tcp4 tt m' /\
    IPv4.checksum_ok m' 0 /\ TCP.checksum_ok m' 20 20 [172; 19; 0; 2] [172; 19; 0; 1].
Proof.
  destruct (rewriteIPv4TCP_correct 0 40 40 sample_tcp4 false [172; 19; 0; 2] 10000 true [172; 19; 0; 1] 8080 true)
    as (m' & R & _ & _ & _ & _ & H1 & H2 & _); [concrete..|].
  exists m'. split; [exact R|]. split.
  - apply H1. exists 3. vm_compute. reflexivity.
  - apply H2; [reflexivity|]. exists 3. vm_compute. reflexivity.
Defined.
Lemma rewriteIPv6TCP_correct_witness :
  exists m', runs (rewriteIPv6TCP (Slice 0 60 60) (Slice 40 20 20) true
      (netip.Addr6 (repeat 1 16)) 10000 true (netip.Addr6 (repeat 2 16)) 8080 false) sample_tcp6 tt m' /\
    runs (TCP.Checksum_ (Slice 40 20 20)) m' 0 m'.
Proof.
  destruct (rewriteIPv6TCP_correct 0 60 60 sample_tcp6 true (repeat 1 16) 10000 true (repeat 2 16) 8080 false)
    as (m' & R & _ & _ & _ & _ & _ & H & _); [concrete..|].
  exists m'. split; [exact R|]. by apply H.
Defined.
