(* ===== verification/System.v ===== *)
(** * stack.go, stack_system.go and stack_system_packet.go: the system stack

    [System] turns packets read from the device into TCP connections to a local
    listener (by rewriting addresses and ports through the NAT tables), UDP
    packets for the handler and ICMP echo replies.  A handler works on the
    packet's array in place and on the [world]: the NAT tables, the direct
    route cache and the log of effects (packets written to the device, data
    given to the handler).

    Parameters: the packages buf and cache, the device, the Handler and the
    direct route destinations it creates. *)
From S2P Require Import Prelude Bytes GoMem Checksum TsChecksum Tcpip Netip HdrChecksum IPv4Options IPv4 IPv6 TCP UDP ICMP TcpNat Rewrite.

(** ** github.com/metacubex/sing/common/buf *)

(** A [Buffer] is a window (start, end) of a pooled array with a capacity; the
    contents of a fresh buffer are whatever the pool held. *)
Class BufPackage := {
  Buffer : Type;
  buf_start : Buffer -> Z;
  buf_end : Buffer -> Z;
  buf_capacity : Buffer -> Z;
  NewSize : Z -> Buffer * list Z;
  Resize : Buffer -> Z -> Z -> Buffer;
  Advance : Buffer -> Z -> Buffer;
  Bytes : Buffer -> M slice;
  ExtendHeader : Buffer -> Z -> M (slice * Buffer);
  BWrite : Buffer -> list Z -> M Buffer;
  NewSize_ok : forall n, 0 <= n ->
    buf_capacity (NewSize n).1 = n /\ n <= Zlen (NewSize n).2 /\ bytes (NewSize n).2;
  Resize_ok : forall b s n,
    buf_start (Resize b s n) = s /\ buf_end (Resize b s n) = s + n /\ buf_capacity (Resize b s n) = buf_capacity b;
  Advance_ok : forall b n,
    buf_start (Advance b n) = buf_start b + n /\ buf_end (Advance b n) = buf_end b /\
    buf_capacity (Advance b n) = buf_capacity b;
  Bytes_ok : forall b m, 0 <= buf_start b <= buf_end b -> buf_end b <= Zlen m ->
    runs (Bytes b) m (Slice (buf_start b) (buf_end b - buf_start b) (Zlen m - buf_start b)) m;
  ExtendHeader_ok : forall b n m, 0 <= n <= buf_start b -> buf_start b <= Zlen m ->
    exists b', runs (ExtendHeader b n) m (Slice (buf_start b - n) n (Zlen m - (buf_start b - n)), b') m /\
      buf_start b' = buf_start b - n /\ buf_end b' = buf_end b /\ buf_capacity b' = buf_capacity b;
  BWrite_ok : forall b d m, buf_end b + Zlen d <= buf_capacity b ->
    exists b', runs (BWrite b d) m b' (write_at m (buf_end b) d) /\
      buf_start b' = buf_start b /\ buf_end b' = buf_end b + Zlen d /\ buf_capacity b' = buf_capacity b
}.

(** ** stack.go *)

(** [net.CIDRMask(ones, 32)] as a number, for [0 <= ones <= 32]. *)
Definition CIDRMask32 (ones : Z) : Z := 4294967296 - 2 ^ (32 - ones).
Definition not32 (x : Z) : Z := Z.lxor x 4294967295.
(** [Uint32] panics on a slice shorter than 4 bytes: an invalid prefix, or the
    nil mask that [CIDRMask] returns for a length over 32. *)
Definition BroadcastAddr (inet4Address : list netip.Prefix) : res netip.Addr :=
  match inet4Address with
  | [] => Ok netip.AddrInvalid
  | prefix :: _ =>
      let b := netip.AsSlice (netip.MaskedAddr prefix) in
      if (4 <=? Zlen b) && (0 <=? netip.pf_bits prefix) && (netip.pf_bits prefix <=? 32)
      then Ok (netip.AddrFrom4 (put32 [0; 0; 0; 0] 0
             (Z.lor (get32 b 0) (not32 (CIDRMask32 (netip.pf_bits prefix))))))
      else Panic
  end.

(** ** System *)

Record TunOptions := mkTunOptions {
  to_MTU : Z;
  to_Inet4Address : list netip.Prefix;
  to_Inet6Address : list netip.Prefix;
  to_Inet4LoopbackAddress : list netip.Addr;
  to_Inet6LoopbackAddress : list netip.Addr
}.

(** The fields of [System] that the packet path reads; the listener ports and
    the device properties are set by [start] and [tunLoop]. *)
Record System := mkSystem {
  mtu : Z;
  inet4Address : netip.Addr;
  inet4NextAddress : netip.Addr;
  inet6Address : netip.Addr;
  inet6NextAddress : netip.Addr;
  broadcastAddr : netip.Addr;
  inet4LoopbackAddress : list netip.Addr;
  inet6LoopbackAddress : list netip.Addr;
  tcpPort : Z;
  tcpPort6 : Z;
  frontHeadroom : Z;
  txChecksumOffload : bool
}.

Inductive error :=
| ErrNeedIPv4 | ErrNeedIPv6 | ErrMissingAddress
| ErrInvalidIPv4 | ErrInvalidIPv6 | ErrUnknownVersion (v : Z)
| ErrSessionNotFound4 (port : Z) | ErrSessionNotFound6 (port : Z)
| ErrFragment | ErrUDPFragment
| ErrTunWrite | ErrAction.

(** The ports and device properties are not known yet. *)
Definition NewSystem (options : TunOptions) : res (error + System) :=
  match BroadcastAddr (to_Inet4Address options) with
  | Panic => Panic
  | Ok broadcast =>
      let first (l : list netip.Prefix) := match l with [] => None | p :: _ => Some p end in
      let addr (o : option netip.Prefix) := match o with Some p => netip.pf_addr p | None => netip.AddrInvalid end in
      let ok (o : option netip.Prefix) := match o with Some p => HasNextAddress p 1 | None => true end in
      let p4 := first (to_Inet4Address options) in
      let p6 := first (to_Inet6Address options) in
      if negb (ok p4) then Ok (inl ErrNeedIPv4)
      else if negb (ok p6) then Ok (inl ErrNeedIPv6)
      else
        let next4 := netip.Next (addr p4) in
        let next6 := netip.Next (addr p6) in
        if negb (netip.IsValid next4) && negb (netip.IsValid next6) then Ok (inl ErrMissingAddress)
        else Ok (inr (mkSystem (to_MTU options) (addr p4) next4 (addr p6) next6 broadcast
               (to_Inet4LoopbackAddress options) (to_Inet6LoopbackAddress options) 0 0 0 false))
  end.

(** ** The environment *)

Inductive route_error := ErrReset | ErrDrop | OtherError.

(** The device's [Write], the Handler's [PrepareConnection], the LRU cache of
    direct routes, and the destinations stored in it.  [LoadOrStoreEx] gets the
    constructor's result and says whether it loaded an entry (the constructor
    then was not called) and whether there is one. *)
Class Environment := {
  action : Type;
  route_cache : Type;
  tun_Write : list Z -> option error;
  action_WritePacket : action -> list Z -> option error;
  PrepareConnection : netip.Addr -> netip.Addr -> option action * option route_error;
  LoadOrStoreEx : route_cache -> netip.Addr * netip.Addr -> option action * bool ->
    (option action * bool * bool) * route_cache
}.

Inductive event `{Environment} :=
| TunWrite (packet : list Z)
| TunBatchWrite (packets : list (list Z))
| NewPacket (source destination : netip.AddrPort) (data header : list Z)
| ActionWrite (a : action) (packet : list Z).

Section World.
Context `{ChecksumImpl} `{SingCommon} `{BufPackage} `{Environment} {T : Type} `{NatTable T}.
(** GOOS = darwin *)
Context (darwin : bool).

Record world := mkWorld {
  tcpNat4 : option T;
  tcpNat6 : option T;
  directNat : route_cache;
  log : list event
}.

Definition SM (A : Type) : Type := world -> list Z -> res (A * world * list Z).
Definition sret {A} (a : A) : SM A := fun w m => Ok (a, w, m).
Definition sbind {A B} (c : SM A) (k : A -> SM B) : SM B :=
  fun w m => match c w m with Ok (a, w', m') => k a w' m' | Panic => Panic end.
(** Packet code, and code on an array of its own. *)
Definition mem {A} (c : M A) : SM A :=
  fun w m => match c m with Ok (a, m') => Ok (a, w, m') | Panic => Panic end.
Definition pure_res {A} (r : res A) : SM A :=
  fun w m => match r with Ok a => Ok (a, w, m) | Panic => Panic end.
Definition emit (e : event) : SM unit :=
  fun w m => Ok (tt, mkWorld (tcpNat4 w) (tcpNat6 w) (directNat w) (log w ++ [e]), m).
Notation "x <== c ;; k" := (sbind c (fun x => k)) (at level 100, c at next level, right associativity).

(** ** stack_system_packet.go *)

(** tun_darwin.go and tun_nondarwin.go *)
Definition PacketOffset : Z := if darwin then 4 else 0.
Definition AF_INET : Z := 2.
Definition AF_INET6 : Z := if darwin then 30 else 10.

Definition PacketFillHeader (packet : slice) (ipVersion : Z) : M unit :=
  when (0 <? PacketOffset)
    (s <- reslice packet 0 3 ;;
     ClearArray s ;;;
     if ipVersion =? IPv4Version then set_idx packet 3 AF_INET
     else when (ipVersion =? IPv6Version) (set_idx packet 3 AF_INET6)).

Definition PacketDestination (packet : slice) : M netip.Addr :=
  v <- IPVersion packet ;;
  if v =? IPv4Version then IPv4.DestinationAddr packet
  else if v =? IPv6Version then IPv6.DestinationAddr packet
  else ret netip.AddrInvalid.

(** ** Packets of the stack's own *)

(** The end of every constructor of a packet: the link header or the headroom,
    and the bytes given to [tun.Write]. *)
Definition finish (newPacket : Buffer) (headroom ipVersion : Z) : M (list Z) :=
  if 0 <? PacketOffset then
    x <- ExtendHeader newPacket PacketOffset ;;
    PacketFillHeader x.1 ipVersion ;;;
    b <- Bytes x.2 ;; contents b
  else
    b <- Bytes (Advance newPacket (- headroom)) ;; contents b.

(** Run [build] in a fresh buffer of [n] bytes. *)
Definition in_new {A} (n : Z) (build : Buffer -> M A) : res A :=
  let '(newPacket, a) := NewSize n in
  match build newPacket a with Ok (x, _) => Ok x | Panic => Panic end.

(** [return common.Error(s.tun.Write(packet))] *)
Definition write_tun (packet : list Z) : SM (option error) :=
  _ <== emit (TunWrite packet) ;; sret (tun_Write packet).

(** The fields of the reset that answers [origTCPHdr]. *)
Definition reset_fields (origTCPHdr : slice) : M TCP.TCPFields :=
  srcPort <- TCP.DestinationPort origTCPHdr ;;
  dstPort <- TCP.SourcePort origTCPHdr ;;
  flags <- TCP.Flags origTCPHdr ;;
  if negb (Z.land flags TCP.TCPFlagAck =? 0) then
    seq <- TCP.AckNumber origTCPHdr ;;
    ret (TCP.mkFields srcPort dstPort seq 0 TCP.TCPMinimumSize TCP.TCPFlagRst 0 0 0)
  else
    seq <- TCP.SequenceNumber origTCPHdr ;;
    payload <- TCP.Payload origTCPHdr ;;
    let ackNum := u32 (seq + u32 (sl_len payload)) in
    let ackNum := if negb (Z.land flags TCP.TCPFlagSyn =? 0) then u32 (ackNum + 1) else ackNum in
    let ackNum := if negb (Z.land flags TCP.TCPFlagFin =? 0) then u32 (ackNum + 1) else ackNum in
    ret (TCP.mkFields srcPort dstPort 0 ackNum TCP.TCPMinimumSize (Z.lor TCP.TCPFlagRst TCP.TCPFlagAck) 0 0 0).

Section Handlers.
Context (s : System).

Definition build_reset4 (src dst : netip.Addr) (fields : TCP.TCPFields) (newPacket : Buffer) : M (list Z) :=
  let headroom := frontHeadroom s + PacketOffset in
  let newPacket := Resize newPacket headroom (IPv4MinimumSize + TCP.TCPMinimumSize) in
  ipHdr <- Bytes newPacket ;;
  IPv4.Encode ipHdr (IPv4.mkFields 0 (u16 (sl_len ipHdr)) 0 0 0 0 TCP.TCPProtocolNumber 0 src dst []) ;;;
  tcpHdr <- IPv4.Payload ipHdr ;;
  TCP.Encode tcpHdr fields ;;;
  when (negb (txChecksumOffload s))
    (ss <- IPv4.SourceAddressSlice ipHdr ;;
     ds <- IPv4.DestinationAddressSlice ipHdr ;;
     x <- TCP.CalculateChecksum tcpHdr (PseudoHeaderChecksum TCP.TCPProtocolNumber ss ds TCP.TCPMinimumSize) ;;
     TCP.SetChecksum tcpHdr (not16 x)) ;;;
  x <- IPv4.CalculateChecksum ipHdr ;;
  IPv4.SetChecksum ipHdr (not16 x) ;;;
  finish newPacket (frontHeadroom s) IPv4Version.

Definition resetIPv4TCP (origIPHdr origTCPHdr : slice) : SM (option error) :=
  src <== mem (IPv4.DestinationAddr origIPHdr) ;;
  dst <== mem (IPv4.SourceAddr origIPHdr) ;;
  fields <== mem (reset_fields origTCPHdr) ;;
  packet <== pure_res (in_new (frontHeadroom s + PacketOffset + IPv4MinimumSize + TCP.TCPMinimumSize)
                         (build_reset4 src dst fields)) ;;
  write_tun packet.

Definition build_reset6 (src dst : netip.Addr) (fields : TCP.TCPFields) (newPacket : Buffer) : M (list Z) :=
  let headroom := frontHeadroom s + PacketOffset in
  let newPacket := Resize newPacket headroom (IPv6MinimumSize + TCP.TCPMinimumSize) in
  ipHdr <- Bytes newPacket ;;
  IPv6.Encode ipHdr (IPv6.mkFields 0 0 (u16 TCP.TCPMinimumSize) TCP.TCPProtocolNumber 0 src dst []) ;;;
  tcpHdr <- IPv6.Payload ipHdr ;;
  TCP.Encode tcpHdr fields ;;;
  when (negb (txChecksumOffload s))
    (ss <- IPv6.SourceAddressSlice ipHdr ;;
     ds <- IPv6.DestinationAddressSlice ipHdr ;;
     x <- TCP.CalculateChecksum tcpHdr (PseudoHeaderChecksum TCP.TCPProtocolNumber ss ds TCP.TCPMinimumSize) ;;
     TCP.SetChecksum tcpHdr (not16 x)) ;;;
  finish newPacket (frontHeadroom s) IPv6Version.

Definition resetIPv6TCP (origIPHdr origTCPHdr : slice) : SM (option error) :=
  src <== mem (IPv6.DestinationAddr origIPHdr) ;;
  dst <== mem (IPv6.SourceAddr origIPHdr) ;;
  fields <== mem (reset_fields origTCPHdr) ;;
  packet <== pure_res (in_new (frontHeadroom s + PacketOffset + IPv6MinimumSize + TCP.TCPMinimumSize)
                         (build_reset6 src dst fields)) ;;
  write_tun packet.

(** ** TCP *)

Definition set_nat4 (n : T) : SM unit :=
  fun w m => Ok (tt, mkWorld (Some n) (tcpNat6 w) (directNat w) (log w), m).
Definition set_nat6 (n : T) : SM unit :=
  fun w m => Ok (tt, mkWorld (tcpNat4 w) (Some n) (directNat w) (log w), m).
Definition get_world : SM world := fun w m => Ok (w, w, m).

Definition processIPv4TCP (now : Z) (ipHdr tcpHdr : slice) : SM (bool * option error) :=
  w <== get_world ;;
  match tcpNat4 w with
  | None => sret (false, None)
  | Some nat =>
      sa <== mem (IPv4.SourceAddr ipHdr) ;;
      sp <== mem (TCP.SourcePort tcpHdr) ;;
      da <== mem (IPv4.DestinationAddr ipHdr) ;;
      dp <== mem (TCP.DestinationPort tcpHdr) ;;
      if negb (netip.IsGlobalUnicast da) then sret (false, None)
      else if bool_decide (sa = inet4Address s) && (sp =? tcpPort s) then
        let '(session, nat') := nt_LookupBack nat now dp in
        _ <== set_nat4 nat' ;;
        match session with
        | None => sret (false, Some (ErrSessionNotFound4 dp))
        | Some ss =>
            _ <== mem (rewriteIPv4TCP ipHdr tcpHdr (txChecksumOffload s)
                   (netip.ap_addr (s_Destination ss)) (netip.ap_port (s_Destination ss)) true
                   (netip.ap_addr (s_Source ss)) (netip.ap_port (s_Source ss)) true) ;;
            sret (true, None)
        end
      else
        match list_find (fun a => da = a) (inet4LoopbackAddress s) with
        | Some (_, loopback) =>
            _ <== mem (rewriteIPv4TCP ipHdr tcpHdr (txChecksumOffload s) loopback 0 false sa 0 false) ;;
            sret (true, None)
        | None =>
            let '(natPort, nat') := nt_Lookup nat now (netip.AddrPortFrom sa sp) (netip.AddrPortFrom da dp) in
            _ <== set_nat4 nat' ;;
            match natPort with
            | None => e <== resetIPv4TCP ipHdr tcpHdr ;; sret (false, e)
            | Some p =>
                _ <== mem (rewriteIPv4TCP ipHdr tcpHdr (txChecksumOffload s)
                       (inet4NextAddress s) p true (inet4Address s) (tcpPort s) true) ;;
                sret (true, None)
            end
        end
  end.

Definition processIPv6TCP (now : Z) (ipHdr tcpHdr : slice) : SM (bool * option error) :=
  w <== get_world ;;
  match tcpNat6 w with
  | None => sret (false, None)
  | Some nat =>
      sa <== mem (IPv6.SourceAddr ipHdr) ;;
      sp <== mem (TCP.SourcePort tcpHdr) ;;
      da <== mem (IPv6.DestinationAddr ipHdr) ;;
      dp <== mem (TCP.DestinationPort tcpHdr) ;;
      if negb (netip.IsGlobalUnicast da) then sret (false, None)
      else if bool_decide (sa = inet6Address s) && (sp =? tcpPort6 s) then
        let '(session, nat') := nt_LookupBack nat now dp in
        _ <== set_nat6 nat' ;;
        match session with
        | None => sret (false, Some (ErrSessionNotFound6 dp))
        | Some ss =>
            _ <== mem (rewriteIPv6TCP ipHdr tcpHdr (txChecksumOffload s)
                   (netip.ap_addr (s_Destination ss)) (netip.ap_port (s_Destination ss)) true
                   (netip.ap_addr (s_Source ss)) (netip.ap_port (s_Source ss)) true) ;;
            sret (true, None)
        end
      else
        match list_find (fun a => da = a) (inet6LoopbackAddress s) with
        | Some (_, loopback) =>
            _ <== mem (rewriteIPv6TCP ipHdr tcpHdr (txChecksumOffload s) loopback 0 false sa 0 false) ;;
            sret (true, None)
        | None =>
            let '(natPort, nat') := nt_Lookup nat now (netip.AddrPortFrom sa sp) (netip.AddrPortFrom da dp) in
            _ <== set_nat6 nat' ;;
            match natPort with
            | None => e <== resetIPv6TCP ipHdr tcpHdr ;; sret (false, e)
            | Some p =>
                _ <== mem (rewriteIPv6TCP ipHdr tcpHdr (txChecksumOffload s)
                       (inet6NextAddress s) p true (inet6Address s) (tcpPort6 s) true) ;;
                sret (true, None)
            end
        end
  end.

(** ** UDP *)

(** The handler is given the payload and a constructor of the packet writer of
    the session; the header the constructor copies is read while the handler
    runs, before the packet's array is reused. *)
Definition processIPv4UDP (ipHdr udpHdr : slice) : SM (option error) :=
  flags <== mem (IPv4.Flags ipHdr) ;;
  if negb (Z.land flags IPv4FlagMoreFragments =? 0) then sret (Some ErrFragment) else
  fo <== mem (IPv4.FragmentOffset ipHdr) ;;
  if negb (fo =? 0) then sret (Some ErrUDPFragment) else
  sa <== mem (IPv4.SourceAddr ipHdr) ;;
  sp <== mem (UDP.SourcePort udpHdr) ;;
  da <== mem (IPv4.DestinationAddr ipHdr) ;;
  dp <== mem (UDP.DestinationPort udpHdr) ;;
  if negb (netip.IsGlobalUnicast da) then sret None else
  payload <== mem (UDP.Payload udpHdr) ;;
  data <== mem (contents payload) ;;
  if Zlen data =? 0 then sret None else
  hl <== mem (IPv4.HeaderLength ipHdr) ;;
  hs <== mem (reslice ipHdr 0 (hl + UDP.UDPMinimumSize)) ;;
  header <== mem (contents hs) ;;
  _ <== emit (NewPacket (netip.AddrPortFrom sa sp) (netip.AddrPortFrom da dp) data header) ;;
  sret None.

Definition processIPv6UDP (ipHdr udpHdr : slice) : SM (option error) :=
  sa <== mem (IPv6.SourceAddr ipHdr) ;;
  sp <== mem (UDP.SourcePort udpHdr) ;;
  da <== mem (IPv6.DestinationAddr ipHdr) ;;
  dp <== mem (UDP.DestinationPort udpHdr) ;;
  if negb (netip.IsGlobalUnicast da) then sret None else
  payload <== mem (UDP.Payload udpHdr) ;;
  data <== mem (contents payload) ;;
  if Zlen data =? 0 then sret None else
  pl <== mem (IPv6.PayloadLength ipHdr) ;;
  hs <== mem (reslice ipHdr 0 (sl_len ipHdr - pl + UDP.UDPMinimumSize)) ;;
  header <== mem (contents hs) ;;
  _ <== emit (NewPacket (netip.AddrPortFrom sa sp) (netip.AddrPortFrom da dp) data header) ;;
  sret None.

(** ** route_direct.go *)

(** [DirectRouteMapping.Lookup]: [err] is set only when the constructor ran. *)
Definition DirectLookup (src dst : netip.Addr) : SM (option action * option route_error) :=
  fun w m =>
    let '(created, err) := PrepareConnection src dst in
    let built := match err with None => true | Some _ => false end in
    let '((a, loaded, ok), cache') := LoadOrStoreEx (directNat w) (src, dst) (created, built) in
    let r := if ok then (a, None) else (None, if loaded then None else err) in
    Ok (r, mkWorld (tcpNat4 w) (tcpNat6 w) cache' (log w), m).

(** ** ICMP *)

Definition maxIPData : Z := IPv4MinimumProcessableDatagramSize - IPv4MinimumSize.
Definition maxIPv6Data : Z := IPv6MinimumMTU - IPv6MinimumSize.

(** [payload] is the quoted packet, [rest] the payload of the original IP
    packet. *)
Definition build_reject4 (src dst : netip.Addr) (code : Z) (payload rest : list Z) (newPacket : Buffer) : M (list Z) :=
  let headroom := frontHeadroom s + PacketOffset in
  let newPacket := Resize newPacket headroom (IPv4MinimumSize + ICMPv4.ICMPv4MinimumSize + Zlen payload) in
  newIPHdr <- Bytes newPacket ;;
  IPv4.Encode newIPHdr
    (IPv4.mkFields 0 (u16 (sl_len newIPHdr)) 0 0 0 0 ICMPv4.ICMPv4ProtocolNumber 0 src dst []) ;;;
  x <- IPv4.CalculateChecksum newIPHdr ;;
  IPv4.SetChecksum newIPHdr (not16 x) ;;;
  icmpHdr <- IPv4.Payload newIPHdr ;;
  ICMPv4.SetType icmpHdr ICMPv4.ICMPv4DstUnreachable ;;;
  ICMPv4.SetCode icmpHdr code ;;;
  h <- reslice icmpHdr 0 ICMPv4.ICMPv4MinimumSize ;;
  x <- ICMPv4.ICMPv4Checksum h (Checksum rest 0) ;;
  ICMPv4.SetChecksum icmpHdr x ;;;
  p <- ICMPv4.Payload icmpHdr ;;
  copy_to p payload ;;;
  finish newPacket (frontHeadroom s) IPv4Version.

Definition rejectIPv4WithICMP (ipHdr : slice) (code : Z) : SM (option error) :=
  let mtu := Z.min (mtu s) maxIPData in
  let available := mtu - ICMPv4.ICMPv4MinimumSize in
  if available <? sl_len ipHdr + ICMPv4.ICMPv4MinimumErrorPayloadSize then sret None else
  payload <== (if available <? sl_len ipHdr then mem (reslice ipHdr 0 available) else sret ipHdr) ;;
  src <== mem (IPv4.DestinationAddr ipHdr) ;;
  dst <== mem (IPv4.SourceAddr ipHdr) ;;
  ipPayload <== mem (IPv4.Payload ipHdr) ;;
  rest <== mem (contents ipPayload) ;;
  quoted <== mem (contents payload) ;;
  packet <== pure_res (in_new (frontHeadroom s + PacketOffset + IPv4MinimumSize + ICMPv4.ICMPv4MinimumSize + Zlen quoted)
                         (build_reject4 src dst code quoted rest)) ;;
  write_tun packet.

Definition build_reject6 (src dst : netip.Addr) (code : Z) (payload : list Z) (newPacket : Buffer) : M (list Z) :=
  let headroom := frontHeadroom s + PacketOffset in
  let newPacket := Resize newPacket headroom
    (IPv6MinimumSize + ICMPv6.ICMPv6DstUnreachableMinimumSize + Zlen payload) in
  newIPHdr <- Bytes newPacket ;;
  IPv6.Encode newIPHdr
    (IPv6.mkFields 0 0 (u16 (ICMPv6.ICMPv6DstUnreachableMinimumSize + Zlen payload))
       ICMPv6.ICMPv6ProtocolNumber 0 src dst []) ;;;
  icmpHdr <- IPv6.Payload newIPHdr ;;
  ICMPv6.SetType icmpHdr ICMPv6.ICMPv6DstUnreachable ;;;
  ICMPv6.SetCode icmpHdr code ;;;
  h <- reslice icmpHdr 0 ICMPv6.ICMPv6DstUnreachableMinimumSize ;;
  ss <- IPv6.SourceAddressSlice newIPHdr ;;
  ds <- IPv6.DestinationAddressSlice newIPHdr ;;
  x <- ICMPv6.ICMPv6Checksum h ss ds (Checksum payload 0) (Zlen payload) ;;
  ICMPv6.SetChecksum icmpHdr x ;;;
  p <- ICMPv6.Payload icmpHdr ;;
  copy_to p payload ;;;
  finish newPacket (frontHeadroom s) IPv6Version.

Definition rejectIPv6WithICMP (ipHdr : slice) (code : Z) : SM (option error) :=
  let mtu := Z.min (mtu s) maxIPv6Data in
  let available := mtu - ICMPv6.ICMPv6ErrorHeaderSize in
  if available <? IPv6MinimumSize then sret None else
  payload <== (if available <? sl_len ipHdr then mem (reslice ipHdr 0 available) else sret ipHdr) ;;
  src <== mem (IPv6.DestinationAddr ipHdr) ;;
  dst <== mem (IPv6.SourceAddr ipHdr) ;;
  quoted <== mem (contents payload) ;;
  packet <== pure_res (in_new (frontHeadroom s + PacketOffset + IPv6MinimumSize
                               + ICMPv6.ICMPv6DstUnreachableMinimumSize + Zlen quoted)
                         (build_reject6 src dst code quoted)) ;;
  write_tun packet.

(** The reply, in place. *)
Definition echo_reply4 (ipHdr icmpHdr : slice) : M unit :=
  ICMPv4.SetType icmpHdr ICMPv4.ICMPv4EchoReply ;;;
  sourceAddress <- IPv4.SourceAddr ipHdr ;;
  d <- IPv4.DestinationAddr ipHdr ;;
  IPv4.SetSourceAddr ipHdr d ;;;
  IPv4.SetDestinationAddr ipHdr sourceAddress ;;;
  x <- ICMPv4.ICMPv4Checksum icmpHdr 0 ;;
  ICMPv4.SetChecksum icmpHdr x ;;;
  x <- IPv4.CalculateChecksum ipHdr ;;
  IPv4.SetChecksum ipHdr (not16 x).
Definition echo_reply6 (ipHdr icmpHdr : slice) : M unit :=
  ICMPv6.SetType icmpHdr ICMPv6.ICMPv6EchoReply ;;;
  sourceAddress <- IPv6.SourceAddr ipHdr ;;
  d <- IPv6.DestinationAddr ipHdr ;;
  IPv6.SetSourceAddr ipHdr d ;;;
  IPv6.SetDestinationAddr ipHdr sourceAddress ;;;
  ss <- IPv6.SourceAddressSlice ipHdr ;;
  ds <- IPv6.DestinationAddressSlice ipHdr ;;
  x <- ICMPv6.ICMPv6Checksum icmpHdr ss ds 0 0 ;;
  ICMPv6.SetChecksum icmpHdr x.

(** The two handlers test the error of the lookup in the same order; the IPv6
    one inside [if err != nil]. *)
Definition processIPv4ICMP (ipHdr icmpHdr : slice) : SM (bool * option error) :=
  ty <== mem (ICMPv4.Type_ icmpHdr) ;;
  code <== (if ty =? ICMPv4.ICMPv4Echo then mem (ICMPv4.Code icmpHdr) else sret 0) ;;
  if negb (ty =? ICMPv4.ICMPv4Echo) || negb (code =? 0) then sret (false, None) else
  sourceAddr <== mem (IPv4.SourceAddr ipHdr) ;;
  destinationAddr <== mem (IPv4.DestinationAddr ipHdr) ;;
  let reply := _ <== mem (echo_reply4 ipHdr icmpHdr) ;; sret (true, None) in
  if bool_decide (destinationAddr = inet4Address s) then reply
  else
    r <== DirectLookup sourceAddr destinationAddr ;;
    match r with
    | (_, Some ErrReset) =>
        e <== rejectIPv4WithICMP ipHdr ICMPv4.ICMPv4HostUnreachable ;; sret (false, e)
    | (_, Some ErrDrop) => sret (false, None)
    | (Some a, _) =>
        p <== mem (contents ipHdr) ;;
        _ <== emit (ActionWrite a p) ;;
        sret (false, action_WritePacket a p)
    | (None, _) => reply
    end.

Definition processIPv6ICMP (ipHdr icmpHdr : slice) : SM (bool * option error) :=
  ty <== mem (ICMPv6.Type_ icmpHdr) ;;
  code <== (if ty =? ICMPv6.ICMPv6EchoRequest then mem (ICMPv6.Code icmpHdr) else sret 0) ;;
  if negb (ty =? ICMPv6.ICMPv6EchoRequest) || negb (code =? 0) then sret (false, None) else
  sourceAddr <== mem (IPv6.SourceAddr ipHdr) ;;
  destinationAddr <== mem (IPv6.DestinationAddr ipHdr) ;;
  let reply := _ <== mem (echo_reply6 ipHdr icmpHdr) ;; sret (true, None) in
  if bool_decide (destinationAddr = inet6Address s) then reply
  else
    r <== DirectLookup sourceAddr destinationAddr ;;
    match r with
    | (_, Some ErrReset) =>
        e <== rejectIPv6WithICMP ipHdr ICMPv6.ICMPv6AddressUnreachable ;; sret (false, e)
    | (_, Some ErrDrop) => sret (false, None)
    | (Some a, _) =>
        p <== mem (contents ipHdr) ;;
        _ <== emit (ActionWrite a p) ;;
        sret (false, action_WritePacket a p)
    | (None, _) => reply
    end.

(** ** Dispatch *)

Definition drop_on_error (r : bool * option error) : bool * option error :=
  match r with (wb, None) => (wb, None) | (_, Some e) => (false, Some e) end.

Definition processIPv4 (now : Z) (ipHdr : slice) : SM (bool * option error) :=
  destination <== mem (IPv4.DestinationAddr ipHdr) ;;
  if bool_decide (destination = broadcastAddr s) || negb (netip.IsGlobalUnicast destination)
  then sret (false, None) else
  proto <== mem (IPv4.TransportProtocol ipHdr) ;;
  r <== (if proto =? TCP.TCPProtocolNumber then
           payload <== mem (IPv4.Payload ipHdr) ;; processIPv4TCP now ipHdr payload
         else if proto =? UDP.UDPProtocolNumber then
           payload <== mem (IPv4.Payload ipHdr) ;;
           e <== processIPv4UDP ipHdr payload ;; sret (false, e)
         else if proto =? ICMPv4.ICMPv4ProtocolNumber then
           payload <== mem (IPv4.Payload ipHdr) ;; processIPv4ICMP ipHdr payload
         else sret (true, None)) ;;
  sret (drop_on_error r).

Definition processIPv6 (now : Z) (ipHdr : slice) : SM (bool * option error) :=
  destination <== mem (IPv6.DestinationAddr ipHdr) ;;
  if negb (netip.IsGlobalUnicast destination) then sret (false, None) else
  proto <== mem (IPv6.TransportProtocol ipHdr) ;;
  r <== (if proto =? TCP.TCPProtocolNumber then
           payload <== mem (IPv6.Payload ipHdr) ;; processIPv6TCP now ipHdr payload
         else if proto =? UDP.UDPProtocolNumber then
           payload <== mem (IPv6.Payload ipHdr) ;;
           e <== processIPv6UDP ipHdr payload ;; sret (false, e)
         else if proto =? ICMPv6.ICMPv6ProtocolNumber then
           payload <== mem (IPv6.Payload ipHdr) ;; processIPv6ICMP ipHdr payload
         else sret (true, None)) ;;
  sret (drop_on_error r).

Definition processPacket (now : Z) (packet : slice) : SM bool :=
  ipVersion <== mem (IPVersion packet) ;;
  r <== (if ipVersion =? IPv4Version then
           v <== mem (IPv4.IsValid packet (sl_len packet)) ;;
           if negb v then sret (false, Some ErrInvalidIPv4) else processIPv4 now packet
         else if ipVersion =? IPv6Version then
           v <== mem (IPv6.IsValid packet (sl_len packet)) ;;
           if negb v then sret (false, Some ErrInvalidIPv6) else processIPv6 now packet
         else sret (false, Some (ErrUnknownVersion ipVersion))) ;;
  sret (match r with (_, Some _) => false | (writeBack, None) => writeBack end).

(** One iteration of [tunLoop] after [Read] put [n] bytes in the packet
    buffer (the array). *)
Definition tunLoop_iter (now n : Z) : SM unit :=
  m <== mem (fun m => Ok (m, m)) ;;
  let packetBuffer := Slice 0 (mtu s + PacketOffset) (Zlen m) in
  if n <? IPv4MinimumSize then sret tt else
  rawPacket <== mem (reslice packetBuffer 0 n) ;;
  packet <== mem (reslice packetBuffer PacketOffset n) ;;
  wb <== processPacket now packet ;;
  if (wb : bool) then
    raw <== mem (contents rawPacket) ;; _ <== emit (TunWrite raw) ;; sret tt
  else sret tt.

(** [acceptLoop] after [Accept] returned a connection from [connPort]: the
    source and destination given to the handler. *)
Definition acceptLoop_iter (now connPort : Z) (nat : T) : option (netip.AddrPort * netip.AddrPort) * T :=
  let '(session, nat') := nt_LookupBack nat now connPort in
  (match session with Some ss => Some (s_Source ss, s_Destination ss) | None => None end, nat').
End Handlers.

(** ** Packet writers *)

Record systemUDPPacketWriter := mkUDPWriter {
  w_frontHeadroom : Z;
  w_header : list Z;
  w_source : netip.AddrPort;
  w_txChecksumOffload : bool
}.

Definition udp_checksum (w : systemUDPPacketWriter) (ss ds : list Z) (udpHdr : slice) (payloadLength : Z) : M unit :=
  if negb (w_txChecksumOffload w) then
    p <- UDP.Payload udpHdr ;;
    d <- contents p ;;
    x <- UDP.CalculateChecksum udpHdr (PseudoHeaderChecksum UDP.UDPProtocolNumber ss ds payloadLength) ;;
    UDP.SetChecksum udpHdr (UDP.NormalizeUDPChecksum (not16 (Checksum d x)))
  else UDP.SetChecksum udpHdr 0.

Definition UDPWriter4_build (w : systemUDPPacketWriter) (buffer : list Z) (addr : netip.Addr) (port : Z)
    (newPacket : Buffer) : M (list Z) :=
  let newPacket := Resize newPacket (w_frontHeadroom w) 0 in
  newPacket <- BWrite newPacket (w_header w) ;;
  newPacket <- BWrite newPacket buffer ;;
  ipHdr <- Bytes newPacket ;;
  IPv4.SetTotalLength ipHdr (u16 (sl_len ipHdr)) ;;;
  sa <- IPv4.SourceAddress ipHdr ;;
  IPv4.SetDestinationAddress ipHdr sa ;;;
  IPv4.SetSourceAddr ipHdr addr ;;;
  udpHdr <- IPv4.Payload ipHdr ;;
  sp <- UDP.SourcePort udpHdr ;;
  UDP.SetDestinationPort udpHdr sp ;;;
  UDP.SetSourcePort udpHdr port ;;;
  UDP.SetLength udpHdr (u16 (Zlen buffer + UDP.UDPMinimumSize)) ;;;
  ss <- IPv4.SourceAddressSlice ipHdr ;;
  ds <- IPv4.DestinationAddressSlice ipHdr ;;
  pl <- IPv4.PayloadLength ipHdr ;;
  udp_checksum w ss ds udpHdr pl ;;;
  x <- IPv4.CalculateChecksum ipHdr ;;
  IPv4.SetChecksum ipHdr (not16 x) ;;;
  finish newPacket (w_frontHeadroom w) IPv4Version.

Definition UDPWriter4_WritePacket (w : systemUDPPacketWriter) (buffer : list Z) (addr : netip.Addr) (port : Z)
    : res (list Z) :=
  in_new (w_frontHeadroom w + Zlen (w_header w) + Zlen buffer) (UDPWriter4_build w buffer addr port).

Definition UDPWriter6_build (w : systemUDPPacketWriter) (buffer : list Z) (addr : netip.Addr) (port : Z)
    (newPacket : Buffer) : M (list Z) :=
  let newPacket := Resize newPacket (w_frontHeadroom w) 0 in
  newPacket <- BWrite newPacket (w_header w) ;;
  newPacket <- BWrite newPacket buffer ;;
  ipHdr <- Bytes newPacket ;;
  let udpLen := u16 (UDP.UDPMinimumSize + Zlen buffer) in
  IPv6.SetPayloadLength ipHdr udpLen ;;;
  sa <- IPv6.SourceAddress ipHdr ;;
  IPv6.SetDestinationAddress ipHdr sa ;;;
  IPv6.SetSourceAddr ipHdr addr ;;;
  udpHdr <- IPv6.Payload ipHdr ;;
  sp <- UDP.SourcePort udpHdr ;;
  UDP.SetDestinationPort udpHdr sp ;;;
  UDP.SetSourcePort udpHdr port ;;;
  UDP.SetLength udpHdr udpLen ;;;
  ss <- IPv6.SourceAddressSlice ipHdr ;;
  ds <- IPv6.DestinationAddressSlice ipHdr ;;
  pl <- IPv6.PayloadLength ipHdr ;;
  udp_checksum w ss ds udpHdr pl ;;;
  finish newPacket (w_frontHeadroom w) IPv6Version.

Definition UDPWriter6_WritePacket (w : systemUDPPacketWriter) (buffer : list Z) (addr : netip.Addr) (port : Z)
    : res (list Z) :=
  in_new (w_frontHeadroom w + Zlen (w_header w) + Zlen buffer) (UDPWriter6_build w buffer addr port).

(** systemICMPDirectPacketWriter4 and 6 *)
Definition ICMPWriter4_build (headroom : Z) (source : netip.Addr) (p : list Z) (newPacket : Buffer) : M (list Z) :=
  let newPacket := Resize newPacket headroom 0 in
  newPacket <- BWrite newPacket p ;;
  ipHdr <- Bytes newPacket ;;
  IPv4.SetDestinationAddr ipHdr source ;;;
  x <- IPv4.CalculateChecksum ipHdr ;;
  IPv4.SetChecksum ipHdr (not16 x) ;;;
  finish newPacket headroom IPv4Version.
Definition ICMPWriter4_WritePacket (headroom : Z) (source : netip.Addr) (p : list Z) : res (list Z) :=
  in_new (headroom + Zlen p) (ICMPWriter4_build headroom source p).
Definition ICMPWriter6_build (headroom : Z) (source : netip.Addr) (p : list Z) (newPacket : Buffer) : M (list Z) :=
  let newPacket := Resize newPacket headroom 0 in
  newPacket <- BWrite newPacket p ;;
  ipHdr <- Bytes newPacket ;;
  IPv6.SetDestinationAddr ipHdr source ;;;
  finish newPacket headroom IPv6Version.
Definition ICMPWriter6_WritePacket (headroom : Z) (source : netip.Addr) (p : list Z) : res (list Z) :=
  in_new (headroom + Zlen p) (ICMPWriter6_build headroom source p).
End World.

(** ** Instances *)

(** A pool whose arrays are filled with one byte value. *)
Record simple_buffer := mkBuffer { sb_start : Z; sb_end : Z; sb_capacity : Z }.
Definition simple_buf (fill : Z) (Hf : is_u8 fill) : BufPackage.
Proof.
  refine {|
    Buffer := simple_buffer; buf_start := sb_start; buf_end := sb_end; buf_capacity := sb_capacity;
    NewSize := fun n => (mkBuffer 0 0 n, repeat fill (Z.to_nat n));
    Resize := fun b s n => mkBuffer s (s + n) (sb_capacity b);
    Advance := fun b n => mkBuffer (sb_start b + n) (sb_end b) (sb_capacity b);
    Bytes := fun b m => reslice (Slice 0 (Zlen m) (Zlen m)) (sb_start b) (sb_end b) m;
    ExtendHeader := fun b n =>
      if sb_start b <? n then panic
      else fun m => bind (reslice (Slice 0 (Zlen m) (Zlen m)) (sb_start b - n) (sb_start b))
                      (fun h => ret (h, mkBuffer (sb_start b - n) (sb_end b) (sb_capacity b))) m;
    BWrite := fun b d m =>
      let n := Z.to_nat (sb_capacity b - sb_end b) in
      Ok (mkBuffer (sb_start b) (sb_end b + Zlen (take n d)) (sb_capacity b), write_at m (sb_end b) (take n d))
  |}.
  - intros n Hn. simpl. split; [done|]. split; [unfold Zlen; rewrite repeat_length; lia|].
    apply Forall_forall. intros x Hx. apply list_elem_of_In, repeat_spec in Hx. by subst.
  - done.
  - done.
  - intros b m Hs He. eapply runs_eq; [apply runs_reslice; lia|f_equal; lia|done].
  - intros b n m Hn Hs. replace (sb_start b <? n) with false by lia.
    exists (mkBuffer (sb_start b - n) (sb_end b) (sb_capacity b)). split; [|done].
    eapply runs_eq; [eapply (runs_bind _ _ m); [apply runs_reslice; lia|apply runs_ret]| |done].
    do 2 f_equal; lia.
  - intros b d m Hd. cbv zeta. assert (take (Z.to_nat (sb_capacity b - sb_end b)) d = d) as ->
      by (apply firstn_all2; unfold Zlen in *; lia). eexists. split; [done|]. done.
Defined.

(** A device that accepts every packet and a handler that routes nothing. *)
Definition null_environment : Environment :=
  {| action := unit; route_cache := unit; tun_Write := fun _ => None;
     action_WritePacket := fun _ _ => None; PrepareConnection := fun _ _ => (None, None);
     LoadOrStoreEx := fun c _ b => ((b.1, false, b.2), c) |}.

Definition ts64 : ChecksumImpl := tschecksum.ts_impl false 64.
Lemma zero_u8 : is_u8 0.
Proof. lia. Qed.
Definition zero_pool : BufPackage := simple_buf 0 zero_u8.
