(* ===== verification/SystemNat.v ===== *)
(** * The TCP NAT path of the system stack, end to end *)
From S2P Require Import Prelude Bytes GoMem Checksum TsChecksum Tcpip Netip HdrChecksum IPv4 IPv6 TCP UDP ICMP TcpNat Rewrite System.

Section Runs.
Context `{ChecksumImpl} `{SingCommon} `{BufPackage} `{Environment} {T : Type} `{NatTable T}.

(** [sruns c w m a w' m']: [c] returns [a]. *)
Definition sruns {A} (c : SM (T := T) A) (w : world) (m : list Z) (a : A) (w' : world) (m' : list Z) : Prop :=
  c w m = Ok (a, w', m').

Lemma sruns_bind {A B} (c : SM A) (k : A -> SM B) w m a w' m' b w'' m'' :
  sruns c w m a w' m' -> sruns (k a) w' m' b w'' m'' -> sruns (sbind c k) w m b w'' m''.
Proof. unfold sruns, sbind. by intros ->. Qed.
Lemma sruns_mem {A} (c : M A) w m a m' : runs c m a m' -> sruns (mem c) w m a w m'.
Proof. unfold sruns, mem. by intros ->. Qed.
Lemma sruns_ret {A} (a : A) w m : sruns (sret a) w m a w m.
Proof. done. Qed.
Lemma sruns_pure {A} (r : res A) w m a : r = Ok a -> sruns (pure_res r) w m a w m.
Proof. unfold sruns, pure_res. by intros ->. Qed.

(** A TCP packet at the start of [m]: a valid IPv4 header and 20 bytes of
    payload at least. *)
Record tcp4_packet (m : list Z) (l : Z) (src : list Z) (sp : Z) (dst : list Z) (dp : Z) : Prop := {
  p4_bytes : bytes m;
  p4_room : l <= Zlen m;
  p4_valid : IPv4.valid_header m 0 l l;
  p4_len : IPv4.hlen m 0 + 20 <= get16 m 2;
  p4_proto : byte_at m 9 = TCP.TCPProtocolNumber;
  p4_src : window m 12 4 = src;
  p4_dst : window m 16 4 = dst;
  p4_sp : get16 m (IPv4.hlen m 0) = sp;
  p4_dp : get16 m (IPv4.hlen m 0 + 2) = dp
}.
Definition ip4 (m : list Z) (l : Z) : slice := Slice 0 l (Zlen m).
Definition tcp4 (m : list Z) : slice :=
  Slice (IPv4.hlen m 0) (get16 m 2 - IPv4.hlen m 0) (Zlen m - IPv4.hlen m 0).

(** The checksums of such a packet. *)
Definition sums4 (m : list Z) : Prop :=
  IPv4.checksum_ok m 0 /\
  TCP.checksum_ok m (IPv4.hlen m 0) (get16 m 2 - IPv4.hlen m 0) (window m 12 4) (window m 16 4).

Lemma rewrite4_packet m l off src sp dst dp sb sp' db dp' :
  tcp4_packet m l src sp dst dp ->
  bytes sb -> length sb = 4%nat -> bytes db -> length db = 4%nat -> is_u16 sp' -> is_u16 dp' ->
  exists m', runs (rewriteIPv4TCP (ip4 m l) (tcp4 m) off (netip.Addr4 sb) sp' true (netip.Addr4 db) dp' true) m tt m' /\
    tcp4_packet m' l sb sp' db dp' /\ Zlen m' = Zlen m /\
    (off = false -> sums4 m -> sums4 m') /\
    (off = true -> IPv4.checksum_ok m 0 -> IPv4.checksum_ok m' 0).
Proof.
  intros [P1 P2 P3 P4 PP P5 P6 P7 P8] Hsb Lsb Hdb Ldb Hsp Hdp.
  destruct (rewriteIPv4TCP_ok 0 l (Zlen m) m off sb sp' true db dp' true) as (m' & R & S & C);
    try done; try lia; [change (0 + 2) with 2; lia|].
  change (0 + 12) with 12 in *. change (0 + 16) with 16 in *. rewrite !Z.add_0_l in R, S, C.
  destruct P3 as (V1 & V2 & V3 & V4 & V5). destruct S as [S1 S2 S3 S4 S5 S6 S7 S8 S9 S10].
  change (0 + 12) with 12 in *. change (0 + 16) with 16 in *. destruct S3 as [Hh _]. set (h := IPv4.hlen m 0) in *.
  assert (get16 m' 2 = get16 m 2) as Hlen
    by (unfold get16; rewrite !S8; [done|lia|unfold touched; lia|lia|unfold touched; lia]).
  assert (byte_at m' 0 = byte_at m 0) as Hb0 by (apply S8; [lia|unfold touched; lia]).
  exists m'. split; [exact R|]. split; [|split; [done|]].
  - split; rewrite ?Hh; try done; try lia; [|rewrite S8; [done|lia|unfold touched; lia]]. unfold IPv4.valid_header. change (0 + 2) with 2 in *. rewrite Hh, Hb0, Hlen. done.
  - unfold sums4. rewrite Hh, Hlen. split.
    + intros E [I1 I2]. split; [by apply S9|]. rewrite S4, S5. by apply S10.
    + intros _ I1. by apply S9.
Qed.

Lemma read4 m l src sp dst dp :
  tcp4_packet m l src sp dst dp ->
  runs (IPv4.SourceAddr (ip4 m l)) m (netip.Addr4 src) m /\
  runs (IPv4.DestinationAddr (ip4 m l)) m (netip.Addr4 dst) m /\
  runs (TCP.SourcePort (tcp4 m)) m sp m /\ runs (TCP.DestinationPort (tcp4 m)) m dp m.
Proof.
  intros [P1 P2 P3 P4 PP P5 P6 P7 P8]. destruct P3 as (V1 & V2 & V3 & V4 & V5). change (0 + 2) with 2 in *.
  unfold ip4, tcp4. split_and!.
  - eapply runs_eq; [apply IPv4.runs4_SourceAddr; lia|by rewrite <- P5|done].
  - eapply runs_eq; [apply IPv4.runs4_DestinationAddr; lia|by rewrite <- P6|done].
  - eapply runs_eq; [apply TCP.runs_tcp_SourcePort; lia|done|done].
  - eapply runs_eq; [apply TCP.runs_tcp_DestinationPort; lia|done|done].
Qed.

(** The dispatch of [processPacket] on a valid IPv4 packet. *)
Lemma dispatch4 (darwin : bool) s now w m l b w' m' :
  bytes m -> l <= Zlen m -> IPv4.valid_header m 0 l l ->
  netip.IsGlobalUnicast (netip.Addr4 (window m 16 4)) = true -> netip.Addr4 (window m 16 4) <> broadcastAddr s ->
  (if byte_at m 9 =? TCP.TCPProtocolNumber then
     sruns (processIPv4TCP darwin s now (ip4 m l) (tcp4 m)) w m (b, None) w' m'
   else if byte_at m 9 =? UDP.UDPProtocolNumber then
     b = false /\ sruns (processIPv4UDP (ip4 m l) (tcp4 m)) w m None w' m'
   else if byte_at m 9 =? ICMPv4.ICMPv4ProtocolNumber then
     sruns (processIPv4ICMP darwin s (ip4 m l) (tcp4 m)) w m (b, None) w' m'
   else b = true /\ w' = w /\ m' = m) ->
  sruns (processPacket darwin s now (ip4 m l)) w m b w' m'.
Proof.
  intros Hb Hl HV Hg Hd Hr. pose proof HV as (V1 & V2 & V3 & V4 & V5). change (0 + 2) with 2 in *.
  pose proof (IPv4.runs4_Payload 0 l (Zlen m) m Hb ltac:(lia) ltac:(lia) V3 V4) as RP. rewrite Z.add_0_l in RP.
  unfold processPacket, ip4, tcp4 in *. change (0 + 2) with 2 in *.
  eapply sruns_bind; [apply sruns_mem, IPv4.runs_IPVersion; lia|].
  replace (_ =? IPv4Version) with true
    by (symmetry; apply Z.eqb_eq; rewrite Z.shiftr_div_pow2 by lia; exact V5).
  eapply (sruns_bind _ _ _ _ (b, None)); [|done].
  destruct (IPv4.runs4_IsValid 0 l (Zlen m) l m) as (v & Rv & Hv); [done|].
  eapply sruns_bind; [apply sruns_mem; exact Rv|]. assert (v = true) as -> by by apply Hv. cbn [negb].
  unfold processIPv4. eapply sruns_bind; [apply sruns_mem, IPv4.runs4_DestinationAddr; lia|].
  rewrite Z.add_0_l, bool_decide_eq_false_2, Hg by done. cbn [negb orb].
  eapply sruns_bind; [apply sruns_mem, IPv4.runs4_TransportProtocol; lia|]. rewrite Z.add_0_l.
  eapply (sruns_bind _ _ _ _ (b, None)); [|done].
  destruct (_ =? TCP.TCPProtocolNumber); [eapply sruns_bind; [by apply sruns_mem|exact Hr]|].
  destruct (_ =? UDP.UDPProtocolNumber).
  { destruct Hr as [-> Hr]. eapply sruns_bind; [by apply sruns_mem|]. eapply sruns_bind; [exact Hr|done]. }
  destruct (_ =? ICMPv4.ICMPv4ProtocolNumber); [eapply sruns_bind; [by apply sruns_mem|exact Hr]|].
  destruct Hr as (-> & -> & ->). done.
Qed.

(** ** Outbound and return packets *)

Context (s : System) (w : world (T := T)) (nat : T) (now : Z).
Context (me next : list Z).
Hypothesis Hnat : tcpNat4 w = Some nat.
Hypothesis Hinv : nt_inv nat.
Hypothesis Hme : inet4Address s = netip.Addr4 me /\ bytes me /\ length me = 4%nat.
Hypothesis Hnext : inet4NextAddress s = netip.Addr4 next /\ bytes next /\ length next = 4%nat.
Hypothesis Hport : is_u16 (tcpPort s).

Definition with_nat4 (w : world) (n : T) : world := mkWorld (Some n) (tcpNat6 w) (directNat w) (log w).

(** A connection of a client behind the device. *)
Definition outbound (src : list Z) (sp : Z) (dst : list Z) : Prop :=
  netip.IsGlobalUnicast (netip.Addr4 dst) = true /\ ~ (src = me /\ sp = tcpPort s) /\
  netip.Addr4 dst ∉ inet4LoopbackAddress s.

Lemma not_loopback (l : list netip.Addr) a : a ∉ l -> list_find (fun x => a = x) l = None.
Proof. intros Hn. apply list_find_None, Forall_forall. intros x Hx ->. done. Qed.

Lemma outbound_step (darwin : bool) m l src sp dst dp p nat' :
  tcp4_packet m l src sp dst dp -> outbound src sp dst ->
  nt_Lookup nat now (netip.AddrPortFrom (netip.Addr4 src) sp) (netip.AddrPortFrom (netip.Addr4 dst) dp)
    = (Some p, nat') ->
  exists m', sruns (processIPv4TCP darwin s now (ip4 m l) (tcp4 m)) w m (true, None) (with_nat4 w nat') m' /\
    tcp4_packet m' l next p me (tcpPort s) /\ Zlen m' = Zlen m /\
    (txChecksumOffload s = false -> sums4 m -> sums4 m').
Proof.
  intros P (O1 & O2 & O3) HL. destruct (read4 _ _ _ _ _ _ P) as (R1 & R2 & R3 & R4).
  destruct (nt_Lookup_Some _ _ _ _ _ _ Hinv HL) as (_ & Hp & _). unfold port_ok in Hp.
  destruct Hme as (Eme & Bme & Lme). destruct Hnext as (Enext & Bnext & Lnext).
  destruct (rewrite4_packet m l (txChecksumOffload s) src sp dst dp next p me (tcpPort s))
    as (m' & R & P' & HZ & HS & _); try done; [lia|].
  exists m'. split; [|done]. unfold processIPv4TCP. eapply sruns_bind; [done|]. rewrite Hnat.
  do 4 (eapply sruns_bind; [apply sruns_mem; eassumption|]). rewrite O1. cbn [negb].
  replace (bool_decide _ && _) with false.
  - rewrite not_loopback, HL by done. eapply sruns_bind; [done|]. cbn iota beta.
    rewrite Enext, Eme. eapply sruns_bind; [apply sruns_mem; exact R|]. apply sruns_ret.
  - symmetry. apply andb_false_iff. rewrite Eme. destruct (Z.eqb_spec sp (tcpPort s)); [left|by right].
    apply bool_decide_eq_false. intros [= ->]. by apply O2.
Qed.

Lemma return_step (darwin : bool) m l p src sp dst dp :
  tcp4_packet m l me (tcpPort s) next p -> netip.IsGlobalUnicast (netip.Addr4 next) = true ->
  bytes src -> length src = 4%nat -> bytes dst -> length dst = 4%nat -> is_u16 sp -> is_u16 dp ->
  nt_maps nat p (mkKey (netip.AddrPortFrom (netip.Addr4 src) sp) (netip.AddrPortFrom (netip.Addr4 dst) dp)) ->
  exists m' nat', sruns (processIPv4TCP darwin s now (ip4 m l) (tcp4 m)) w m (true, None) (with_nat4 w nat') m' /\
    nt_inv nat' /\ tcp4_packet m' l dst dp src sp /\
    (txChecksumOffload s = false -> sums4 m -> sums4 m').
Proof.
  intros P Hg Bs Ls Bd Ld Hsp Hdp Hm. destruct (read4 _ _ _ _ _ _ P) as (R1 & R2 & R3 & R4).
  destruct Hme as (Eme & Bme & Lme).
  destruct (nt_LookupBack_maps nat now p _ Hinv Hm) as (ss & nat' & HB & Hk & HI & _).
  unfold session_key in Hk. injection Hk as Ks Kd.
  destruct (rewrite4_packet m l (txChecksumOffload s) me (tcpPort s) next p dst dp src sp)
    as (m' & R & P' & _ & HS & _); try done.
  exists m', nat'. split; [|done]. unfold processIPv4TCP. eapply sruns_bind; [done|]. rewrite Hnat.
  do 4 (eapply sruns_bind; [apply sruns_mem; eassumption|]). rewrite Hg. cbn [negb].
  rewrite bool_decide_eq_true_2, Z.eqb_refl by done. cbn [andb]. rewrite HB.
  eapply sruns_bind; [done|]. rewrite Ks, Kd. cbn [netip.ap_addr netip.ap_port].
  eapply sruns_bind; [apply sruns_mem; exact R|]. apply sruns_ret.
Qed.

(** The dispatch of [processPacket] for a TCP packet. *)
Lemma processPacket_tcp4 (darwin : bool) m l src sp dst dp b w' m' :
  tcp4_packet m l src sp dst dp -> netip.IsGlobalUnicast (netip.Addr4 dst) = true ->
  netip.Addr4 dst <> broadcastAddr s ->
  sruns (processIPv4TCP darwin s now (ip4 m l) (tcp4 m)) w m (b, None) w' m' ->
  sruns (processPacket darwin s now (ip4 m l)) w m b w' m'.
Proof.
  intros [P1 P2 P3 P4 PP P5 P6 P7 P8] Hg Hb Hr. subst dst. apply dispatch4; try done. by rewrite PP.
Qed.
End Runs.

(** C1: the NAT of the system stack, end to end.  A TCP packet of a client
    (src:sp to dst:dp) is rewritten to go from the second address of the
    interface, at the port the NAT table gives, to the stack's listener; in the
    state that leaves, every packet the listener sends back to that port comes
    out as one from dst:dp to src:sp.  Both packets are written back with valid
    checksums when they came with valid checksums.  Proved against the
    interface of the NAT table. *)
Theorem system_nat4_round_trip `{ChecksumImpl} `{SingCommon} `{BufPackage} `{Environment} {T} `{NatTable T}
    (darwin : bool) s (w : world (T := T)) nat now me next m l src sp dst dp p nat' :
  tcpNat4 w = Some nat -> nt_inv nat ->
  inet4Address s = netip.Addr4 me /\ bytes me /\ length me = 4%nat ->
  inet4NextAddress s = netip.Addr4 next /\ bytes next /\ length next = 4%nat -> is_u16 (tcpPort s) ->
  netip.IsGlobalUnicast (netip.Addr4 next) = true -> netip.Addr4 next <> broadcastAddr s ->
  tcp4_packet m l src sp dst dp -> outbound s me src sp dst -> netip.Addr4 dst <> broadcastAddr s ->
  nt_Lookup nat now (netip.AddrPortFrom (netip.Addr4 src) sp) (netip.AddrPortFrom (netip.Addr4 dst) dp)
    = (Some p, nat') ->
  let w1 := with_nat4 w nat' in
  (exists m1, sruns (processPacket darwin s now (ip4 m l)) w m true w1 m1 /\
     tcp4_packet m1 l next p me (tcpPort s) /\ (txChecksumOffload s = false -> sums4 m -> sums4 m1)) /\
  (forall m2 l2 now2, tcp4_packet m2 l2 me (tcpPort s) next p ->
     exists m3 nat2, sruns (processPacket darwin s now2 (ip4 m2 l2)) w1 m2 true (with_nat4 w nat2) m3 /\
       tcp4_packet m3 l2 dst dp src sp /\ (txChecksumOffload s = false -> sums4 m2 -> sums4 m3)).
Proof.
  intros Hnat Hinv Hme Hnext Hport Hg Hbc P HO Hd HL w1.
  destruct (nt_Lookup_Some _ _ _ _ _ _ Hinv HL) as (HI' & Hp & Hm & _). split.
  - destruct (outbound_step s w nat now me next Hnat Hinv Hme Hnext Hport darwin m l src sp dst dp p nat')
      as (m1 & R & P1 & _ & S1); try done.
    exists m1. split; [|done]. eapply processPacket_tcp4; try done. apply HO.
  - intros m2 l2 now2 P2. pose proof P as [B1 _ _ _ _ E5 E6 E7 E8].
    assert (bytes src /\ bytes dst /\ is_u16 sp /\ is_u16 dp) as (Bs & Bd & Us & Ud)
      by (subst; split_and!; auto with gobytes; apply get16_range; done).
    assert (length src = 4%nat /\ length dst = 4%nat) as [Ls Ld].
    { destruct (p4_valid _ _ _ _ _ _ P) as (V1 & _). pose proof (p4_room _ _ _ _ _ _ P).
      subst src dst. pose proof (Zlen_window m 12 4). pose proof (Zlen_window m 16 4). unfold Zlen in *. lia. }
    destruct (return_step s w1 nat' now2 me next eq_refl HI' Hme darwin m2 l2 p src sp dst dp)
      as (m3 & nat2 & R & _ & P3 & S3); try done.
    exists m3, nat2. split; [|done]. eapply processPacket_tcp4; done.
Qed.

(** ** IPv6 *)

Section Runs6.
Context `{ChecksumImpl} `{SingCommon} `{BufPackage} `{Environment} {T : Type} `{NatTable T}.

Record tcp6_packet (m : list Z) (l : Z) (src : list Z) (sp : Z) (dst : list Z) (dp : Z) : Prop := {
  p6_bytes : bytes m;
  p6_room : l <= Zlen m;
  p6_valid : IPv6.valid_header m 0 l l;
  p6_len : 20 <= get16 m 4;
  p6_proto : byte_at m 6 = TCP.TCPProtocolNumber;
  p6_src : window m 8 16 = src;
  p6_dst : window m 24 16 = dst;
  p6_sp : get16 m 40 = sp;
  p6_dp : get16 m 42 = dp
}.
Definition ip6 (m : list Z) (l : Z) : slice := Slice 0 l (Zlen m).
Definition tcp6 (m : list Z) : slice := Slice 40 (get16 m 4) (Zlen m - 40).
Definition sums6 (m : list Z) : Prop :=
  TCP.checksum_ok m 40 (get16 m 4) (window m 8 16) (window m 24 16).

Lemma rewrite6_packet m l off src sp dst dp sb sp' db dp' :
  tcp6_packet m l src sp dst dp ->
  bytes sb -> length sb = 16%nat -> bytes db -> length db = 16%nat -> is_u16 sp' -> is_u16 dp' ->
  exists m', runs (rewriteIPv6TCP (ip6 m l) (tcp6 m) off (netip.Addr6 sb) sp' true (netip.Addr6 db) dp' true) m tt m' /\
    tcp6_packet m' l sb sp' db dp' /\ (off = false -> sums6 m -> sums6 m').
Proof.
  intros [P1 P2 P3 P4 PP P5 P6 P7 P8] Hsb Lsb Hdb Ldb Hsp Hdp.
  destruct (rewriteIPv6TCP_ok 0 l (Zlen m) m off sb sp' true db dp' true) as (m' & R & S & C);
    try done; try lia; [change (0 + 4) with 4; lia|].
  destruct P3 as (V1 & V2 & V3). destruct S as [S1 S2 S3 S4 S5 S6 S7 S8 S9 S10].
  change (0 + 8) with 8 in *. change (0 + 24) with 24 in *. change (0 + 40) with 40 in *. change (0 + 4) with 4 in *.
  assert (get16 m' 4 = get16 m 4) as Hlen
    by (unfold get16; rewrite !S8; [done|lia|unfold touched; lia|lia|unfold touched; lia]).
  exists m'. split; [exact R|]. split.
  - split; try done; try lia.
    + split; [done|]. change (0 + 4) with 4. rewrite Hlen, (S8 0); [done|lia|unfold touched; lia].
    + rewrite S8; [done|lia|unfold touched; lia].
  - unfold sums6. rewrite Hlen. intros E I. rewrite S4, S5. by apply S10.
Qed.

Lemma read6 m l src sp dst dp :
  tcp6_packet m l src sp dst dp ->
  runs (IPv6.SourceAddr (ip6 m l)) m (netip.Addr6 src) m /\
  runs (IPv6.DestinationAddr (ip6 m l)) m (netip.Addr6 dst) m /\
  runs (TCP.SourcePort (tcp6 m)) m sp m /\ runs (TCP.DestinationPort (tcp6 m)) m dp m.
Proof.
  intros [P1 P2 P3 P4 PP P5 P6 P7 P8]. destruct P3 as (V1 & V2 & V3). change (0 + 4) with 4 in *.
  unfold ip6, tcp6. split_and!.
  - eapply runs_eq; [apply IPv6.runs6_SourceAddr; lia|by rewrite <- P5|done].
  - eapply runs_eq; [apply IPv6.runs6_DestinationAddr; lia|by rewrite <- P6|done].
  - eapply runs_eq; [apply TCP.runs_tcp_SourcePort; lia|done|done].
  - eapply runs_eq; [apply TCP.runs_tcp_DestinationPort; lia|done|done].
Qed.

Lemma dispatch6 (darwin : bool) s now w m l b w' m' :
  bytes m -> l <= Zlen m -> IPv6.valid_header m 0 l l ->
  netip.IsGlobalUnicast (netip.Addr6 (window m 24 16)) = true ->
  (if byte_at m 6 =? TCP.TCPProtocolNumber then
     sruns (processIPv6TCP darwin s now (ip6 m l) (tcp6 m)) w m (b, None) w' m'
   else if byte_at m 6 =? UDP.UDPProtocolNumber then
     b = false /\ sruns (processIPv6UDP (ip6 m l) (tcp6 m)) w m None w' m'
   else if byte_at m 6 =? ICMPv6.ICMPv6ProtocolNumber then
     sruns (processIPv6ICMP darwin s (ip6 m l) (tcp6 m)) w m (b, None) w' m'
   else b = true /\ w' = w /\ m' = m) ->
  sruns (processPacket darwin s now (ip6 m l)) w m b w' m'.
Proof.
  intros Hb Hl HV Hg Hr. pose proof HV as (V1 & V2 & V3). change (0 + 4) with 4 in *.
  pose proof (IPv6.runs6_Payload 0 l (Zlen m) m Hb ltac:(lia) ltac:(lia) V2) as RP. rewrite Z.add_0_l in RP.
  unfold processPacket, ip6, tcp6 in *. change (0 + 4) with 4 in *.
  eapply sruns_bind; [apply sruns_mem, IPv4.runs_IPVersion; lia|].
  replace (Z.shiftr (byte_at m 0) 4) with IPv6Version
    by (rewrite Z.shiftr_div_pow2 by lia; symmetry; exact V3).
  eapply (sruns_bind _ _ _ _ (b, None)); [|done]. cbn [Z.eqb Pos.eqb IPv6Version IPv4Version].
  destruct (IPv6.runs6_IsValid 0 l (Zlen m) l m) as (v & Rv & Hv); [done|].
  eapply sruns_bind; [apply sruns_mem; exact Rv|]. assert (v = true) as -> by by apply Hv. cbn [negb].
  unfold processIPv6. eapply sruns_bind; [apply sruns_mem, IPv6.runs6_DestinationAddr; lia|].
  rewrite Z.add_0_l, Hg. cbn [negb].
  eapply sruns_bind; [apply sruns_mem, IPv6.runs6_TransportProtocol; lia|]. rewrite Z.add_0_l.
  eapply (sruns_bind _ _ _ _ (b, None)); [|done].
  destruct (_ =? TCP.TCPProtocolNumber); [eapply sruns_bind; [by apply sruns_mem|exact Hr]|].
  destruct (_ =? UDP.UDPProtocolNumber).
  { destruct Hr as [-> Hr]. eapply sruns_bind; [by apply sruns_mem|]. eapply sruns_bind; [exact Hr|done]. }
  destruct (_ =? ICMPv6.ICMPv6ProtocolNumber); [eapply sruns_bind; [by apply sruns_mem|exact Hr]|].
  destruct Hr as (-> & -> & ->). done.
Qed.

Context (s : System) (w : world (T := T)) (nat : T) (now : Z).
Context (me next : list Z).
Hypothesis Hnat : tcpNat6 w = Some nat.
Hypothesis Hinv : nt_inv nat.
Hypothesis Hme : inet6Address s = netip.Addr6 me /\ bytes me /\ length me = 16%nat.
Hypothesis Hnext : inet6NextAddress s = netip.Addr6 next /\ bytes next /\ length next = 16%nat.
Hypothesis Hport : is_u16 (tcpPort6 s).

Definition with_nat6 (w : world) (n : T) : world := mkWorld (tcpNat4 w) (Some n) (directNat w) (log w).

Definition outbound6 (src : list Z) (sp : Z) (dst : list Z) : Prop :=
  netip.IsGlobalUnicast (netip.Addr6 dst) = true /\ ~ (src = me /\ sp = tcpPort6 s) /\
  netip.Addr6 dst ∉ inet6LoopbackAddress s.

Lemma outbound_step6 (darwin : bool) m l src sp dst dp p nat' :
  tcp6_packet m l src sp dst dp -> outbound6 src sp dst ->
  nt_Lookup nat now (netip.AddrPortFrom (netip.Addr6 src) sp) (netip.AddrPortFrom (netip.Addr6 dst) dp)
    = (Some p, nat') ->
  exists m', sruns (processIPv6TCP darwin s now (ip6 m l) (tcp6 m)) w m (true, None) (with_nat6 w nat') m' /\
    tcp6_packet m' l next p me (tcpPort6 s) /\ (txChecksumOffload s = false -> sums6 m -> sums6 m').
Proof.
  intros P (O1 & O2 & O3) HL. destruct (read6 _ _ _ _ _ _ P) as (R1 & R2 & R3 & R4).
  destruct (nt_Lookup_Some _ _ _ _ _ _ Hinv HL) as (_ & Hp & _). unfold port_ok in Hp.
  destruct Hme as (Eme & Bme & Lme). destruct Hnext as (Enext & Bnext & Lnext).
  destruct (rewrite6_packet m l (txChecksumOffload s) src sp dst dp next p me (tcpPort6 s))
    as (m' & R & P' & HS); try done; [lia|].
  exists m'. split; [|done]. unfold processIPv6TCP. eapply sruns_bind; [done|]. rewrite Hnat.
  do 4 (eapply sruns_bind; [apply sruns_mem; eassumption|]). rewrite O1. cbn [negb].
  replace (bool_decide _ && _) with false.
  - rewrite not_loopback, HL by done. eapply sruns_bind; [done|]. cbn iota beta.
    rewrite Enext, Eme. eapply sruns_bind; [apply sruns_mem; exact R|]. apply sruns_ret.
  - symmetry. apply andb_false_iff. rewrite Eme. destruct (Z.eqb_spec sp (tcpPort6 s)); [left|by right].
    apply bool_decide_eq_false. intros [= ->]. by apply O2.
Qed.

Lemma return_step6 (darwin : bool) m l p src sp dst dp :
  tcp6_packet m l me (tcpPort6 s) next p -> netip.IsGlobalUnicast (netip.Addr6 next) = true ->
  bytes src -> length src = 16%nat -> bytes dst -> length dst = 16%nat -> is_u16 sp -> is_u16 dp ->
  nt_maps nat p (mkKey (netip.AddrPortFrom (netip.Addr6 src) sp) (netip.AddrPortFrom (netip.Addr6 dst) dp)) ->
  exists m' nat', sruns (processIPv6TCP darwin s now (ip6 m l) (tcp6 m)) w m (true, None) (with_nat6 w nat') m' /\
    nt_inv nat' /\ tcp6_packet m' l dst dp src sp /\ (txChecksumOffload s = false -> sums6 m -> sums6 m').
Proof.
  intros P Hg Bs Ls Bd Ld Hsp Hdp Hm. destruct (read6 _ _ _ _ _ _ P) as (R1 & R2 & R3 & R4).
  destruct Hme as (Eme & Bme & Lme).
  destruct (nt_LookupBack_maps nat now p _ Hinv Hm) as (ss & nat' & HB & Hk & HI & _).
  unfold session_key in Hk. injection Hk as Ks Kd.
  destruct (rewrite6_packet m l (txChecksumOffload s) me (tcpPort6 s) next p dst dp src sp)
    as (m' & R & P' & HS); try done.
  exists m', nat'. split; [|done]. unfold processIPv6TCP. eapply sruns_bind; [done|]. rewrite Hnat.
  do 4 (eapply sruns_bind; [apply sruns_mem; eassumption|]). rewrite Hg. cbn [negb].
  rewrite bool_decide_eq_true_2, Z.eqb_refl by done. cbn [andb]. rewrite HB.
  eapply sruns_bind; [done|]. rewrite Ks, Kd. cbn [netip.ap_addr netip.ap_port].
  eapply sruns_bind; [apply sruns_mem; exact R|]. apply sruns_ret.
Qed.

Lemma processPacket_tcp6 (darwin : bool) m l src sp dst dp b w' m' :
  tcp6_packet m l src sp dst dp -> netip.IsGlobalUnicast (netip.Addr6 dst) = true ->
  sruns (processIPv6TCP darwin s now (ip6 m l) (tcp6 m)) w m (b, None) w' m' ->
  sruns (processPacket darwin s now (ip6 m l)) w m b w' m'.
Proof.
  intros [P1 P2 P3 P4 PP P5 P6 P7 P8] Hg Hr. subst dst. apply dispatch6; try done. by rewrite PP.
Qed.
End Runs6.

(** C2: the same for IPv6: a client's TCP packet goes out to the listener under
    its NAT port, and what the listener sends back to that port comes out from
    the client's destination to the client, with valid checksums. *)
Theorem system_nat6_round_trip `{ChecksumImpl} `{SingCommon} `{BufPackage} `{Environment} {T} `{NatTable T}
    (darwin : bool) s (w : world (T := T)) nat now me next m l src sp dst dp p nat' :
  tcpNat6 w = Some nat -> nt_inv nat ->
  inet6Address s = netip.Addr6 me /\ bytes me /\ length me = 16%nat ->
  inet6NextAddress s = netip.Addr6 next /\ bytes next /\ length next = 16%nat -> is_u16 (tcpPort6 s) ->
  netip.IsGlobalUnicast (netip.Addr6 next) = true ->
  tcp6_packet m l src sp dst dp -> outbound6 s me src sp dst ->
  nt_Lookup nat now (netip.AddrPortFrom (netip.Addr6 src) sp) (netip.AddrPortFrom (netip.Addr6 dst) dp)
    = (Some p, nat') ->
  let w1 := with_nat6 w nat' in
  (exists m1, sruns (processPacket darwin s now (ip6 m l)) w m true w1 m1 /\
     tcp6_packet m1 l next p me (tcpPort6 s) /\ (txChecksumOffload s = false -> sums6 m -> sums6 m1)) /\
  (forall m2 l2 now2, tcp6_packet m2 l2 me (tcpPort6 s) next p ->
     exists m3 nat2, sruns (processPacket darwin s now2 (ip6 m2 l2)) w1 m2 true (with_nat6 w nat2) m3 /\
       tcp6_packet m3 l2 dst dp src sp /\ (txChecksumOffload s = false -> sums6 m2 -> sums6 m3)).
Proof.
  intros Hnat Hinv Hme Hnext Hport Hg P HO HL w1.
  destruct (nt_Lookup_Some _ _ _ _ _ _ Hinv HL) as (HI' & Hp & Hm & _). split.
  - destruct (outbound_step6 s w nat now me next Hnat Hinv Hme Hnext Hport darwin m l src sp dst dp p nat')
      as (m1 & R & P1 & S1); try done.
    exists m1. split; [|done]. eapply processPacket_tcp6; try done. apply HO.
  - intros m2 l2 now2 P2. pose proof P as [B1 _ _ _ _ E5 E6 E7 E8].
    assert (bytes src /\ bytes dst /\ is_u16 sp /\ is_u16 dp) as (Bs & Bd & Us & Ud)
      by (subst; split_and!; auto with gobytes; apply get16_range; done).
    assert (length src = 16%nat /\ length dst = 16%nat) as [Ls Ld].
    { destruct (p6_valid _ _ _ _ _ _ P) as (V1 & _). pose proof (p6_room _ _ _ _ _ _ P).
      subst src dst. pose proof (Zlen_window m 8 16). pose proof (Zlen_window m 24 16). unfold Zlen in *. lia. }
    destruct (return_step6 s w1 nat' now2 me next eq_refl HI' Hme darwin m2 l2 p src sp dst dp)
      as (m3 & nat2 & R & _ & P3 & S3); try done.
    exists m3, nat2. split; [|done]. eapply processPacket_tcp6; done.
Qed.

(** ** Witnesses *)

Definition sample_system : System :=
  mkSystem 1500 (netip.Addr4 [172; 19; 0; 1]) (netip.Addr4 [172; 19; 0; 2])
    (netip.Addr6 (repeat 32 15 ++ [1])) (netip.Addr6 (repeat 32 15 ++ [2])) (netip.Addr4 [172; 19; 0; 3])
    [] [] 8080 8080 0 false.
#[local] Existing Instance null_environment.
#[local] Existing Instance sing_common_loop.
#[local] Existing Instance ts64.
#[local] Existing Instance zero_pool.
Definition sample_world : world (T := TCPNat) := mkWorld (Some (NewNat 300)) (Some (NewNat 300)) tt [].

Lemma system_nat4_round_trip_witness :
  exists m1, sruns (processPacket false sample_system 7 (ip4 sample_tcp4 40)) sample_world sample_tcp4 true
      (with_nat4 sample_world (Lookup (NewNat 300) 7 ex_src ex_dst).2) m1 /\ sums4 m1.
Proof.
  edestruct (system_nat4_round_trip false sample_system sample_world (NewNat 300) 7
    [172; 19; 0; 1] [172; 19; 0; 2] sample_tcp4 40 [10; 0; 0; 2] 40000 [93; 184; 216; 34] 443 10000
    (Lookup (NewNat 300) 7 ex_src ex_dst).2) as [(m1 & R & _ & S) _];
    [reflexivity|apply Inv_NewNat|concrete..| |concrete|concrete|].
  - split; [concrete|]. split; [intros [H _]; discriminate H|]. intros H. inversion H.
  - exists m1. split; [exact R|]. apply S; [reflexivity|]. split; [exists 3|exists 3]; vm_compute; reflexivity.
Defined.

Definition ex_src6 : netip.AddrPort := netip.AddrPortFrom (netip.Addr6 [32; 1; 13; 184; 0; 0; 0; 0; 0; 0; 0; 0; 0; 0; 0; 1]) 40000.
Definition ex_dst6 : netip.AddrPort := netip.AddrPortFrom (netip.Addr6 [32; 1; 13; 184; 0; 0; 0; 0; 0; 0; 0; 0; 0; 0; 0; 2]) 443.
Lemma system_nat6_round_trip_witness :
  exists m1, sruns (processPacket false sample_system 7 (ip6 sample_tcp6 60)) sample_world sample_tcp6 true
      (with_nat6 sample_world (Lookup (NewNat 300) 7 ex_src6 ex_dst6).2) m1.
Proof.
  edestruct (system_nat6_round_trip false sample_system sample_world (NewNat 300) 7
    (repeat 32 15 ++ [1]) (repeat 32 15 ++ [2]) sample_tcp6 60 (netip.AsSlice (netip.ap_addr ex_src6)) 40000
    (netip.AsSlice (netip.ap_addr ex_dst6)) 443 10000
    (Lookup (NewNat 300) 7 ex_src6 ex_dst6).2) as [(m1 & R & _) _];
    [reflexivity|apply Inv_NewNat|concrete..| |concrete|].
  - split; [concrete|]. split; [intros [H _]; discriminate H|]. intros H. inversion H.
  - exists m1. exact R.
Defined.
