(* ===== verification/SystemPackets.v ===== *)
(** * The packets the system stack makes itself

    Resets for connections the NAT has no port for, UDP replies, echo replies
    and unreachable messages: each is a well-formed packet with valid
    checksums, whatever the buffer pool held. *)
From S2P Require Import Prelude Bytes GoMem Checksum TsChecksum Tcpip Netip HdrChecksum IPv4Options IPv4 IPv6 TCP UDP ICMP TcpNat Rewrite System SystemNat.

(** ** A packet cut out of an array *)

Lemma byte_at_cut a st n i : 0 <= i < n -> 0 <= st -> byte_at (window a st n) i = byte_at a (st + i).
Proof. intros. rewrite byte_at_window by lia. done. Qed.
Lemma get16_cut a st n i : 0 <= i -> i + 2 <= n -> 0 <= st -> get16 (window a st n) i = get16 a (st + i).
Proof. intros. rewrite get16_window by lia. done. Qed.
Lemma get32_cut a st n i : 0 <= i -> i + 4 <= n -> 0 <= st -> get32 (window a st n) i = get32 a (st + i).
Proof. intros. unfold get32. rewrite !get16_cut by lia. by rewrite Z.add_assoc. Qed.
Lemma window_cut a st n i k : 0 <= i -> 0 <= k -> i + k <= n -> 0 <= st -> window (window a st n) i k = window a (st + i) k.
Proof. intros. rewrite window_window by lia. done. Qed.
Lemma hlen_cut a st n : 0 < n -> 0 <= st -> IPv4.hlen (window a st n) 0 = IPv4.hlen a st.
Proof. intros. unfold IPv4.hlen. rewrite byte_at_cut by lia. by rewrite Z.add_0_r. Qed.
Lemma ip4_checksum_cut a st n :
  0 < n -> 0 <= st -> IPv4.hlen a st <= n -> IPv4.checksum_ok a st -> IPv4.checksum_ok (window a st n) 0.
Proof.
  intros. unfold IPv4.checksum_ok in *. destruct (IPv4.hlen_range a st) as [? _].
  rewrite hlen_cut, window_cut, Z.add_0_r by lia. done.
Qed.
Lemma tcp_checksum_cut a st n i l src dst :
  0 <= i -> 0 <= l -> i + l <= n -> 0 <= st ->
  TCP.checksum_ok a (st + i) l src dst -> TCP.checksum_ok (window a st n) i l src dst.
Proof. intros. unfold TCP.checksum_ok in *. rewrite window_cut by lia. done. Qed.
Lemma udp_checksum_cut a st n i l src dst :
  0 <= i -> 0 <= l -> i + l <= n -> 0 <= st ->
  UDP.checksum_ok a (st + i) l src dst -> UDP.checksum_ok (window a st n) i l src dst.
Proof. intros. unfold UDP.checksum_ok in *. rewrite window_cut by lia. done. Qed.

Section Finish.
Context `{SingCommon} `{BufPackage} (darwin : bool).

(** What [tun.Write] gets: the link header or the headroom, then the packet. *)
Lemma finish_ok b a headroom v :
  0 <= headroom -> buf_start b = headroom + (if darwin then 4 else 0) \/ (buf_start b = headroom /\ (darwin = true -> 4 <= headroom)) ->
  buf_start b <= buf_end b -> buf_end b <= Zlen a ->
  exists prefix a', runs (finish darwin b headroom v) a
      (prefix ++ window a (buf_start b) (buf_end b - buf_start b)) a' /\
    Zlen prefix = (if darwin then 4 else headroom).
Proof.
  intros Hh Hs He Hz. unfold finish, PacketOffset. destruct darwin eqn:Ed; cbn [Z.ltb Z.compare].
  - set (st := buf_start b) in *. assert (4 <= st) as Hst by (destruct Hs as [?|[? Hx]]; [lia|specialize (Hx eq_refl); lia]).
    destruct (ExtendHeader_ok b 4 a) as (b' & R & Hs' & He' & _); [lia|lia|]. fold st in R, Hs'.
    assert (exists a1, runs (PacketFillHeader true (Slice (st - 4) 4 (Zlen a - (st - 4))) v) a tt a1 /\
      Zlen a1 = Zlen a /\ forall off len, st <= off -> window a1 off len = window a off len) as (a1 & R1 & Z1 & W1).
    { unfold PacketFillHeader, PacketOffset. cbn [Z.ltb Z.compare when].
      set (a0 := write_at a (st - 4 + 0) (repeat 0 (Z.to_nat (3 - 0)))).
      assert (Zlen a0 = Zlen a) as Z0 by (subst a0; by rewrite Zlen_write_at).
      assert (forall off len, st <= off -> window a0 off len = window a off len) as W0.
      { intros. subst a0. apply window_write_at_out; unfold Zlen; rewrite ?repeat_length; lia. }
      assert (forall x, runs (set_idx (Slice (st - 4) 4 (Zlen a - (st - 4))) 3 x) a0 tt (upd a0 (st - 4 + 3) x)) as RS
        by (intros; apply runs_set_idx; lia).
      destruct (v =? IPv4Version) eqn:E4; [|destruct (v =? IPv6Version) eqn:E6].
      - exists (upd a0 (st - 4 + 3) AF_INET). split; [|split; [by rewrite Zlen_upd|]].
        + eapply runs_bind; [apply runs_reslice; lia|]. eapply runs_bind; [apply ClearArray_zeroes; split_and!; simpl; lia|].
          apply RS.
        + intros. rewrite window_upd_out by lia. auto.
      - exists (upd a0 (st - 4 + 3) (AF_INET6 true)). split; [|split; [by rewrite Zlen_upd|]].
        + eapply runs_bind; [apply runs_reslice; lia|]. eapply runs_bind; [apply ClearArray_zeroes; split_and!; simpl; lia|].
          apply RS.
        + intros. rewrite window_upd_out by lia. auto.
      - exists a0. split; [|done].
        eapply runs_bind; [apply runs_reslice; lia|]. eapply runs_bind; [apply ClearArray_zeroes; split_and!; simpl; lia|].
        apply runs_ret. }
    exists (window a1 (st - 4) 4), a1. split; [|apply Zlen_window; lia].
    eapply runs_bind; [exact R|]. cbn [fst snd]. eapply runs_bind; [exact R1|].
    eapply runs_bind; [apply Bytes_ok; lia|]. eapply runs_eq; [apply runs_contents| |done].
    rewrite Hs', He'. replace (buf_end b - (st - 4)) with (4 + (buf_end b - st)) by lia.
    rewrite window_app by lia. replace (st - 4 + 4) with st by lia. f_equal. apply W1. lia.
  - assert (buf_start b = headroom) as Es by lia. destruct (Advance_ok b (- headroom)) as (A1 & A2 & _).
    exists (window a 0 headroom), a. split; [|apply Zlen_window; lia].
    eapply runs_bind; [apply Bytes_ok; lia|]. eapply runs_eq; [apply runs_contents| |done].
    rewrite A1, A2, Es. replace (buf_end b - (headroom + - headroom)) with (headroom + (buf_end b - headroom)) by lia.
    replace (headroom + - headroom) with 0 by lia. rewrite window_app by lia. done.
Qed.
End Finish.

Lemma write_at_nil m o : write_at m o [] = m.
Proof. done. Qed.

(** ** Resets *)

Section Reset.
Context `{ChecksumImpl} `{SingCommon} `{BufPackage} (darwin : bool) (s : System).
Hypothesis Hroom : 0 <= frontHeadroom s.

(** The header part: 20 bytes of IPv4 header for a packet of [n] bytes. *)
Definition fields4 (n proto : Z) (sb db : list Z) : IPv4.IPv4Fields :=
  IPv4.mkFields 0 n 0 0 0 0 proto 0 (netip.Addr4 sb) (netip.Addr4 db) [].
Lemma fields4_ok n proto sb db :
  is_u16 n -> is_u8 proto -> bytes sb -> length sb = 4%nat -> bytes db -> length db = 4%nat ->
  IPv4.fields_ok (fields4 n proto sb db).
Proof.
  intros. unfold IPv4.fields_ok, fields4. cbn. split_and!; try lia; try done; unfold Zlen; simpl; lia.
Qed.
Definition header4 (a : list Z) (st n proto : Z) (sb db : list Z) : list Z :=
  IPv4.encoded a st 0 (fields4 n proto sb db).
Lemma runs_header4 a st c n proto sb db :
  0 <= st -> 20 <= n -> n <= c -> st + c <= Zlen a -> n <= 65535 -> is_u8 proto ->
  bytes sb -> length sb = 4%nat -> bytes db -> length db = 4%nat ->
  runs (IPv4.Encode (Slice st n c) (fields4 n proto sb db)) a tt (header4 a st n proto sb db).
Proof.
  intros. pose proof (IPv4.runs4_Encode st n c a (fields4 n proto sb db)) as R.
  cbn [fields4 IPv4.f_Options] in R. apply R.
  - split_and!; cbn; lia.
  - apply fields4_ok; done || lia.
  - change (20 + 0 <= n). lia.
Qed.

Record is_header4 (a : list Z) (st n proto : Z) (sb db : list Z) : Prop := {
  h4_b0 : byte_at a st = 69;
  h4_len : get16 a (st + 2) = n;
  h4_proto : byte_at a (st + 9) = proto;
  h4_src : window a (st + 12) 4 = sb;
  h4_dst : window a (st + 16) 4 = db
}.
Lemma h4_hlen a st n proto sb db : is_header4 a st n proto sb db -> IPv4.hlen a st = 20.
Proof. intros [E _ _ _ _]. unfold IPv4.hlen. by rewrite E. Qed.
Lemma header4_ok a st n proto sb db :
  0 <= st -> st + 20 <= Zlen a -> is_u16 n -> is_u8 proto -> bytes sb -> Zlen sb = 4 -> bytes db -> Zlen db = 4 ->
  is_header4 (header4 a st n proto sb db) st n proto sb db.
Proof.
  intros. unfold header4, IPv4.encoded, fields4. cbn [IPv4.f_TOS IPv4.f_TotalLength IPv4.f_ID IPv4.f_Flags
    IPv4.f_FragmentOffset IPv4.f_TTL IPv4.f_Protocol IPv4.f_Checksum IPv4.f_SrcAddr IPv4.f_DstAddr netip.AsSlice].
  split; by rd.
Qed.
Lemma header4_bytes a st n proto sb db :
  bytes a -> is_u8 proto -> bytes sb -> bytes db -> bytes (header4 a st n proto sb db).
Proof.
  intros. unfold header4, IPv4.encoded, fields4. cbn [IPv4.f_TOS IPv4.f_TotalLength IPv4.f_ID IPv4.f_Flags
    IPv4.f_FragmentOffset IPv4.f_TTL IPv4.f_Protocol IPv4.f_Checksum IPv4.f_SrcAddr IPv4.f_DstAddr netip.AsSlice].
  repeat first [apply bytes_write_at | apply bytes_put16 | apply bytes_upd]; try done; cbn; lia.
Qed.
Lemma header4_len a st n proto sb db : Zlen (header4 a st n proto sb db) = Zlen a.
Proof. unfold header4, IPv4.encoded. by autorewrite with golen. Qed.

(** A 16-bit write outside the fixed fields keeps the header. *)
Lemma is_header4_agree a a' st n proto sb db :
  is_header4 a st n proto sb db -> 0 <= st -> Zlen a' = Zlen a ->
  (forall j, st <= j < st + 20 -> ~ (st + 10 <= j < st + 12) -> byte_at a' j = byte_at a j) ->
  is_header4 a' st n proto sb db.
Proof.
  intros [E1 E2 E3 E4 E5] Hs HZ Hj.
  assert (forall k, k = 12 \/ k = 16 -> window a' (st + k) 4 = window a (st + k) 4) as HW.
  { intros k Hk. apply bytes_ext; [unfold Zlen, window in *; rewrite !length_take, !length_drop; lia|].
    intros i Hi. pose proof (Zlen_window_le a' (st + k) 4 ltac:(lia)). rewrite !byte_at_window by lia. apply Hj; lia. }
  split; unfold get16 in *; rewrite ?HW by auto; rewrite ?Hj by lia; done.
Qed.

Lemma tcp_fields_agree a t f :
  0 <= t -> t + 20 <= Zlen a -> TCP.fields_ok f ->
  get16 (TCP.encoded a t f) t = TCP.f_SrcPort f /\ get16 (TCP.encoded a t f) (t + 2) = TCP.f_DstPort f /\
  get32 (TCP.encoded a t f) (t + 4) = TCP.f_SeqNum f /\ get32 (TCP.encoded a t f) (t + 8) = TCP.f_AckNum f /\
  byte_at (TCP.encoded a t f) (t + 12) = TCP.f_DataOffset f / 4 * 16 /\ byte_at (TCP.encoded a t f) (t + 13) = TCP.f_Flags f.
Proof. intros ?? (?&?&?&?&[??]&?&?&?&?). unfold TCP.encoded. split_and!; by rd. Qed.
Lemma tcp_encoded_frame a t f j : 0 <= t -> t + 20 <= Zlen a -> 0 <= j -> j < t \/ t + 20 <= j -> byte_at (TCP.encoded a t f) j = byte_at a j.
Proof. intros. unfold TCP.encoded. by rd. Qed.
Lemma tcp_encoded_len a t f : Zlen (TCP.encoded a t f) = Zlen a.
Proof. unfold TCP.encoded. by autorewrite with golen. Qed.
Lemma tcp_encoded_bytes a t f : bytes a -> TCP.fields_ok f -> bytes (TCP.encoded a t f).
Proof.
  intros Hb (?&?&?&?&[??]&?&?&?&?). unfold TCP.encoded.
  repeat first [apply bytes_put16 | apply bytes_put32 | apply bytes_upd]; auto; zdm.
Qed.

(** A TCP header with the given fields. *)
Record bare_tcp (p : list Z) (t : Z) (f : TCP.TCPFields) : Prop := {
  bt_sp : get16 p t = TCP.f_SrcPort f;
  bt_dp : get16 p (t + 2) = TCP.f_DstPort f;
  bt_seq : get32 p (t + 4) = TCP.f_SeqNum f;
  bt_ack : get32 p (t + 8) = TCP.f_AckNum f;
  bt_doff : TCP.doff p t = TCP.f_DataOffset f;
  bt_flags : byte_at p (t + 13) = TCP.f_Flags f
}.
Lemma bare_tcp_encoded a t f :
  0 <= t -> t + 20 <= Zlen a -> TCP.fields_ok f -> bare_tcp (TCP.encoded a t f) t f.
Proof.
  intros Ht Hz Hf. destruct (tcp_fields_agree a t f Ht Hz Hf) as (?&?&?&?&E&?). split; try done.
  destruct Hf as (?&?&?&?&[??]&_). unfold TCP.doff. rewrite E. zdm.
Qed.
Lemma bare_tcp_agree a a' t f :
  bare_tcp a t f -> (forall j, t <= j < t + 14 -> byte_at a' j = byte_at a j) -> bare_tcp a' t f.
Proof.
  intros [E1 E2 E3 E4 E5 E6] Hj. split; unfold get32, get16, TCP.doff in *; rewrite !Hj by lia; done.
Qed.
Lemma bare_tcp_cut a st n i f :
  0 <= st -> 0 <= i -> i + 14 <= n -> bare_tcp a (st + i) f -> bare_tcp (window a st n) i f.
Proof.
  intros ??? [E1 E2 E3 E4 E5 E6].
  split; unfold TCP.doff in *; rewrite ?byte_at_cut, ?get16_cut, ?get32_cut, ?Z.add_assoc by lia; done.
Qed.
Lemma is_header4_cut a st n proto sb db :
  0 <= st -> 20 <= n -> is_header4 a st n proto sb db -> is_header4 (window a st n) 0 n proto sb db.
Proof.
  intros ?? [E1 E2 E3 E4 E5]. split; rewrite ?byte_at_cut, ?get16_cut, ?window_cut by lia; rewrite ?Z.add_0_r; done.
Qed.
Lemma header4_valid p n proto sb db :
  is_header4 p 0 n proto sb db -> 20 <= n -> IPv4.valid_header p 0 n n /\ IPv4.hlen p 0 = 20.
Proof.
  intros Hh Hn. pose proof (h4_hlen _ _ _ _ _ _ Hh) as E. destruct Hh as [E1 E2 _ _ _].
  split; [|done]. split; [done|]. rewrite E, E2, E1. split; [done|]. split; [lia|]. split; [lia|done].
Qed.
Lemma tcp4_of_header p n f sb db :
  bytes p -> Zlen p = n -> 40 <= n -> is_header4 p 0 n 6 sb db -> bare_tcp p 20 f ->
  tcp4_packet p n sb (TCP.f_SrcPort f) db (TCP.f_DstPort f).
Proof.
  intros Hb Hz Hn Hh [B1 B2 _ _ _ _]. destruct (header4_valid p n 6 sb db Hh ltac:(lia)) as [HV E].
  destruct Hh as [E1 E2 E3 E4 E5]. change (0 + 2) with 2 in E2.
  split; rewrite ?E; try done; try lia.
Qed.

(** The TCP checksum of a bare header. *)
Lemma reset_sum (off : bool) (getS getD : M (list Z)) t c a sb db :
  runs getS a sb a -> runs getD a db a -> bytes a -> bytes sb -> bytes db ->
  0 <= t -> 20 <= c -> t + c <= Zlen a -> TCP.doff a t = 20 ->
  exists a', runs (when (negb off)
      (ss <- getS ;; ds <- getD ;;
       x <- TCP.CalculateChecksum (Slice t 20 c) (PseudoHeaderChecksum TCP.TCPProtocolNumber ss ds TCP.TCPMinimumSize) ;;
       TCP.SetChecksum (Slice t 20 c) (not16 x))) a tt a' /\
    bytes a' /\ Zlen a' = Zlen a /\ (forall j, 0 <= j -> ~ (t + 16 <= j < t + 18) -> byte_at a' j = byte_at a j) /\
    (off = false -> TCP.checksum_ok a' t 20 sb db).
Proof.
  intros RS RD Ba Bs Bd Ht Hc Hz Hd. unfold TCP.TCPMinimumSize.
  destruct off; cbn [negb when]; [by exists a|].
  pose proof (PseudoHeaderChecksum_OC TCP.TCPProtocolNumber sb db 20 Bs Bd ltac:(unfold TCP.TCPProtocolNumber; lia) ltac:(lia)) as HP.
  destruct (TCP.runs_tcp_CalculateChecksum t 20 c a (PseudoHeaderChecksum TCP.TCPProtocolNumber sb db 20))
    as (x & Rx & Hx & Cx); try done; try lia; [by eapply OC_range|].
  exists (put16 a (t + 16) (not16 x)). split_and!.
  - eapply runs_bind; [exact RS|]. eapply runs_bind; [exact RD|]. eapply runs_bind; [exact Rx|].
    apply TCP.runs_tcp_SetChecksum; lia.
  - by apply bytes_put16.
  - by rewrite Zlen_put16.
  - intros j ??. apply byte_at_put16_ne; lia.
  - intros _. unfold TCP.checksum_ok. apply store_sum; try done; try lia; [exists 8; lia|].
    rewrite Cx, Hd, (OC_cong_eq _ _ HP). unfold TCP.TCPProtocolNumber. apply cong_refl_eq. lia.
Qed.

(** [finish] of a buffer resized to [n] bytes after the headroom. *)
Lemma finish_resized b a n v :
  0 <= n -> frontHeadroom s + PacketOffset darwin + n <= Zlen a ->
  exists prefix a', runs (finish darwin (Resize b (frontHeadroom s + PacketOffset darwin) n) (frontHeadroom s) v) a
      (prefix ++ window a (frontHeadroom s + PacketOffset darwin) n) a' /\
    Zlen prefix = (if darwin then 4 else frontHeadroom s).
Proof.
  intros Hn Hz. set (st := frontHeadroom s + PacketOffset darwin) in *.
  destruct (Resize_ok b st n) as (Q1 & Q2 & _).
  destruct (finish_ok darwin (Resize b st n) a (frontHeadroom s) v) as (prefix & a' & R & Zp);
    [done|left; rewrite Q1; subst st; unfold PacketOffset; by destruct darwin|lia|lia|].
  rewrite Q1, Q2 in R. replace (st + n - st) with n in R by lia. by exists prefix, a'.
Qed.
Lemma room_nonneg : 0 <= frontHeadroom s + PacketOffset darwin.
Proof. unfold PacketOffset. destruct darwin; lia. Qed.
Lemma runs_Bytes_resized b st n a :
  0 <= st -> 0 <= n -> st + n <= Zlen a -> runs (Bytes (Resize b st n)) a (Slice st n (Zlen a - st)) a.
Proof.
  intros. destruct (Resize_ok b st n) as (Q1 & Q2 & _).
  eapply runs_eq; [apply Bytes_ok; lia|rewrite Q1, Q2; f_equal; lia|done].
Qed.

Lemma build_reset4_ok sb db f (Hf : TCP.fields_ok f) (Hd : TCP.f_DataOffset f = 20) :
  bytes sb -> length sb = 4%nat -> bytes db -> length db = 4%nat ->
  exists prefix p,
    in_new (frontHeadroom s + PacketOffset darwin + IPv4MinimumSize + TCP.TCPMinimumSize)
      (build_reset4 darwin s (netip.Addr4 sb) (netip.Addr4 db) f) = Ok (prefix ++ p) /\
    Zlen prefix = (if darwin then 4 else frontHeadroom s) /\ Zlen p = 40 /\
    tcp4_packet p 40 sb (TCP.f_SrcPort f) db (TCP.f_DstPort f) /\ bare_tcp p 20 f /\
    IPv4.checksum_ok p 0 /\ (txChecksumOffload s = false -> sums4 p).
Proof.
  intros Bs Ls Bd Ld. unfold in_new, IPv4MinimumSize, TCP.TCPMinimumSize. pose proof room_nonneg as Hst.
  destruct (NewSize_ok (frontHeadroom s + PacketOffset darwin + 20 + 20)) as (_ & Hlen & Hb); [lia|].
  destruct (NewSize _) as [b a]. cbn [fst snd] in Hlen, Hb.
  unfold build_reset4, IPv4MinimumSize, TCP.TCPMinimumSize. change (20 + 20) with 40.
  pose proof (finish_resized b) as RF. set (st := frontHeadroom s + PacketOffset darwin) in *.
  pose proof (runs_header4 a st (Zlen a - st) 40 6 sb db ltac:(lia) ltac:(lia) ltac:(lia) ltac:(lia) ltac:(lia) ltac:(lia) Bs Ls Bd Ld) as R1.
  pose proof (header4_ok a st 40 6 sb db ltac:(lia) ltac:(lia) ltac:(lia) ltac:(lia) Bs ltac:(unfold Zlen; lia) Bd ltac:(unfold Zlen; lia)) as H1h.
  set (a1 := header4 a st 40 6 sb db) in *.
  assert (Zlen a1 = Zlen a) as Z1 by apply header4_len.
  assert (bytes a1) as B1 by (apply header4_bytes; done || lia).
  pose proof (h4_hlen _ _ _ _ _ _ H1h) as Hh1. pose proof (h4_len _ _ _ _ _ _ H1h) as Hl1.
  pose proof (bare_tcp_encoded a1 (st + 20) f ltac:(lia) ltac:(lia) Hf) as T2.
  pose proof (tcp_encoded_frame a1 (st + 20) f) as J2. pose proof (tcp_encoded_len a1 (st + 20) f) as Z2.
  pose proof (tcp_encoded_bytes a1 (st + 20) f B1 Hf) as B2.
  pose proof (TCP.runs_tcp_Encode (st + 20) 20 (Zlen a - st - 20) a1 f ltac:(lia) ltac:(lia) Hf) as R2.
  set (a2 := TCP.encoded a1 (st + 20) f) in *.
  assert (is_header4 a2 st 40 6 sb db) as H2h
    by (apply (is_header4_agree a1); [done|lia|lia|]; intros j ??; apply J2; lia).
  destruct (reset_sum (txChecksumOffload s) (IPv4.SourceAddressSlice (Slice st 40 (Zlen a - st)))
    (IPv4.DestinationAddressSlice (Slice st 40 (Zlen a - st))) (st + 20) (Zlen a - st - 20) a2 sb db)
    as (a3 & R3 & B3 & Z3 & J3 & C3); try done; try lia.
  { eapply runs_eq; [apply IPv4.runs4_SourceAddressSlice; lia|by apply H2h|done]. }
  { eapply runs_eq; [apply IPv4.runs4_DestinationAddressSlice; lia|by apply H2h|done]. }
  { by rewrite (bt_doff _ _ _ T2). }
  assert (is_header4 a3 st 40 6 sb db) as H3h
    by (apply (is_header4_agree a2); [done|lia|lia|]; intros j ??; apply J3; lia).
  pose proof (bare_tcp_agree a2 a3 (st + 20) f T2 ltac:(intros; apply J3; lia)) as T3.
  pose proof (h4_hlen _ _ _ _ _ _ H3h) as Hh3.
  destruct (IPv4.runs4_CalculateChecksum st 40 (Zlen a - st) a3) as (y & Ry & Hy & Cy); try done; try lia.
  pose proof (IPv4.store_checksum st 40 (Zlen a - st) a3 y B3 ltac:(lia) ltac:(lia) ltac:(lia) ltac:(lia) ltac:(lia) Hy Cy) as C4.
  set (a4 := put16 a3 (st + 10) (not16 y)) in *.
  assert (Zlen a4 = Zlen a) as Z4 by (subst a4; rewrite Zlen_put16; lia).
  assert (is_header4 a4 st 40 6 sb db) as H4h
    by (apply (is_header4_agree a3); [done|lia|lia|]; intros j ??; apply byte_at_put16_ne; lia).
  pose proof (bare_tcp_agree a3 a4 (st + 20) f T3 ltac:(intros; apply byte_at_put16_ne; lia)) as T4.
  destruct (RF a4 40 IPv4Version ltac:(lia) ltac:(lia)) as (prefix & a5 & R5 & Zp).
  exists prefix, (window a4 st 40). split; [|split; [done|split; [apply Zlen_window; lia|]]].
  - erewrite (runs_bind _ _ a); [reflexivity|apply runs_Bytes_resized; lia|]. cbn [sl_len]. rewrite u16_small by lia.
    eapply runs_bind; [exact R1|].
    eapply runs_bind; [apply IPv4.runs4_Payload; rewrite ?Hh1, ?Hl1; done || lia|]. rewrite Hh1, Hl1.
    eapply runs_bind; [exact R2|]. eapply runs_bind; [exact R3|]. eapply runs_bind; [exact Ry|].
    eapply runs_bind; [apply IPv4.runs4_SetChecksum; lia|]. exact R5.
  - pose proof (is_header4_cut a4 st 40 6 sb db ltac:(lia) ltac:(lia) H4h) as HP.
    pose proof (bare_tcp_cut a4 st 40 20 f ltac:(lia) ltac:(lia) ltac:(lia) T4) as TP.
    assert (IPv4.checksum_ok (window a4 st 40) 0) as CP
      by (apply ip4_checksum_cut; rewrite ?(h4_hlen _ _ _ _ _ _ H4h); done || lia).
    split_and!; try done.
    + apply tcp4_of_header; try done; [|apply Zlen_window; lia]. apply bytes_window. by apply bytes_put16.
    + intros E. split; [done|]. rewrite (h4_hlen _ _ _ _ _ _ HP). destruct HP as [_ E2 _ E4 E5].
      change (0 + 2) with 2 in E2. change (0 + 12) with 12 in E4. change (0 + 16) with 16 in E5. rewrite E2, E4, E5.
      apply tcp_checksum_cut; try lia. unfold TCP.checksum_ok. subst a4. rewrite window_put16_out by lia. by apply C3.
Qed.

(** *** IPv6 *)

Definition fields6 (n proto : Z) (sb db : list Z) : IPv6.IPv6Fields :=
  IPv6.mkFields 0 0 n proto 0 (netip.Addr6 sb) (netip.Addr6 db) [].
Definition header6 (a : list Z) (st n proto : Z) (sb db : list Z) : list Z :=
  IPv6.encoded a st (fields6 n proto sb db).
Record is_header6 (a : list Z) (st n proto : Z) (sb db : list Z) : Prop := {
  h6_b0 : byte_at a st = 96;
  h6_len : get16 a (st + 4) = n;
  h6_proto : byte_at a (st + 6) = proto;
  h6_src : window a (st + 8) 16 = sb;
  h6_dst : window a (st + 24) 16 = db
}.
Lemma runs_header6 a st l c n proto sb db :
  0 <= st -> 40 <= l -> l <= c -> st + c <= Zlen a -> is_u16 n -> is_u8 proto ->
  bytes sb -> length sb = 16%nat -> bytes db -> length db = 16%nat ->
  runs (IPv6.Encode (Slice st l c) (fields6 n proto sb db)) a tt (header6 a st n proto sb db).
Proof.
  intros. apply IPv6.runs6_Encode; [split_and!; cbn; lia|lia| |done].
  unfold IPv6.fields_ok, fields6. cbn. split_and!; try lia; done.
Qed.
Lemma header6_len a st n proto sb db : Zlen (header6 a st n proto sb db) = Zlen a.
Proof. unfold header6, IPv6.encoded. by autorewrite with golen. Qed.
Lemma header6_bytes a st n proto sb db :
  bytes a -> is_u8 proto -> bytes sb -> bytes db -> bytes (header6 a st n proto sb db).
Proof.
  intros. unfold header6, IPv6.encoded, fields6. cbn [IPv6.f_TrafficClass IPv6.f_FlowLabel IPv6.f_PayloadLength
    IPv6.f_TransportProtocol IPv6.f_HopLimit IPv6.f_SrcAddr IPv6.f_DstAddr netip.AsSlice].
  repeat first [apply bytes_write_at | apply bytes_put16 | apply bytes_put32 | apply bytes_upd]; try done; cbn; lia.
Qed.
Lemma header6_ok a st n proto sb db :
  0 <= st -> st + 40 <= Zlen a -> is_u16 n -> Zlen sb = 16 -> Zlen db = 16 ->
  is_header6 (header6 a st n proto sb db) st n proto sb db.
Proof.
  intros. unfold header6, IPv6.encoded, fields6. cbn [IPv6.f_TrafficClass IPv6.f_FlowLabel IPv6.f_PayloadLength
    IPv6.f_TransportProtocol IPv6.f_HopLimit IPv6.f_SrcAddr IPv6.f_DstAddr netip.AsSlice].
  split; rd; try done. unfold put32. rd. rewrite byte_at_put16 by lia. by rewrite Z.eqb_refl.
Qed.
Lemma is_header6_agree a a' st n proto sb db :
  is_header6 a st n proto sb db -> 0 <= st -> Zlen a' = Zlen a ->
  (forall j, st <= j < st + 40 -> byte_at a' j = byte_at a j) -> is_header6 a' st n proto sb db.
Proof.
  intros [E1 E2 E3 E4 E5] Hs HZ Hj.
  assert (forall k, k = 8 \/ k = 24 -> window a' (st + k) 16 = window a (st + k) 16) as HW.
  { intros k Hk. apply bytes_ext; [unfold Zlen, window in *; rewrite !length_take, !length_drop; lia|].
    intros i Hi. pose proof (Zlen_window_le a' (st + k) 16 ltac:(lia)). rewrite !byte_at_window by lia. apply Hj; lia. }
  split; unfold get16 in *; rewrite ?HW by auto; rewrite ?Hj by lia; done.
Qed.
Lemma is_header6_cut a st l n proto sb db :
  0 <= st -> 40 <= l -> is_header6 a st n proto sb db -> is_header6 (window a st l) 0 n proto sb db.
Proof.
  intros ?? [E1 E2 E3 E4 E5]. split; rewrite ?byte_at_cut, ?get16_cut, ?window_cut by lia; rewrite ?Z.add_0_r; done.
Qed.
Lemma tcp6_of_header p n f sb db :
  bytes p -> Zlen p = 40 + n -> 20 <= n -> is_header6 p 0 n 6 sb db -> bare_tcp p 40 f ->
  tcp6_packet p (40 + n) sb (TCP.f_SrcPort f) db (TCP.f_DstPort f).
Proof.
  intros Hb Hz Hn [E1 E2 E3 E4 E5] [B1 B2 _ _ _ _].
  change (0 + 4) with 4 in E2. split; try done; try lia.
  unfold IPv6.valid_header. change (0 + 4) with 4. rewrite E1, E2. split; [lia|]. split; [lia|done].
Qed.

Lemma build_reset6_ok sb db f (Hf : TCP.fields_ok f) (Hd : TCP.f_DataOffset f = 20) :
  bytes sb -> length sb = 16%nat -> bytes db -> length db = 16%nat ->
  exists prefix p,
    in_new (frontHeadroom s + PacketOffset darwin + IPv6MinimumSize + TCP.TCPMinimumSize)
      (build_reset6 darwin s (netip.Addr6 sb) (netip.Addr6 db) f) = Ok (prefix ++ p) /\
    Zlen prefix = (if darwin then 4 else frontHeadroom s) /\ Zlen p = 60 /\
    tcp6_packet p 60 sb (TCP.f_SrcPort f) db (TCP.f_DstPort f) /\ bare_tcp p 40 f /\
    (txChecksumOffload s = false -> sums6 p).
Proof.
  intros Bs Ls Bd Ld. unfold in_new, IPv6MinimumSize, TCP.TCPMinimumSize. pose proof room_nonneg as Hst.
  destruct (NewSize_ok (frontHeadroom s + PacketOffset darwin + 40 + 20)) as (_ & Hlen & Hb); [lia|].
  destruct (NewSize _) as [b a]. cbn [fst snd] in Hlen, Hb.
  unfold build_reset6, IPv6MinimumSize, TCP.TCPMinimumSize. change (40 + 20) with 60.
  pose proof (finish_resized b) as RF. set (st := frontHeadroom s + PacketOffset darwin) in *.
  pose proof (runs_header6 a st 60 (Zlen a - st) 20 6 sb db ltac:(lia) ltac:(lia) ltac:(lia) ltac:(lia) ltac:(lia) ltac:(lia) Bs Ls Bd Ld) as R1.
  pose proof (header6_ok a st 20 6 sb db ltac:(lia) ltac:(lia) ltac:(lia) ltac:(unfold Zlen; lia) ltac:(unfold Zlen; lia)) as H1h.
  set (a1 := header6 a st 20 6 sb db) in *.
  assert (Zlen a1 = Zlen a) as Z1 by apply header6_len.
  assert (bytes a1) as B1 by (apply header6_bytes; done || lia).
  pose proof (h6_len _ _ _ _ _ _ H1h) as Hl1.
  pose proof (bare_tcp_encoded a1 (st + 40) f ltac:(lia) ltac:(lia) Hf) as T2.
  pose proof (tcp_encoded_frame a1 (st + 40) f) as J2. pose proof (tcp_encoded_len a1 (st + 40) f) as Z2.
  pose proof (tcp_encoded_bytes a1 (st + 40) f B1 Hf) as B2.
  pose proof (TCP.runs_tcp_Encode (st + 40) 20 (Zlen a - st - 40) a1 f ltac:(lia) ltac:(lia) Hf) as R2.
  set (a2 := TCP.encoded a1 (st + 40) f) in *.
  assert (is_header6 a2 st 20 6 sb db) as H2h
    by (apply (is_header6_agree a1); [done|lia|lia|]; intros j ?; apply J2; lia).
  destruct (reset_sum (txChecksumOffload s) (IPv6.SourceAddressSlice (Slice st 60 (Zlen a - st)))
    (IPv6.DestinationAddressSlice (Slice st 60 (Zlen a - st))) (st + 40) (Zlen a - st - 40) a2 sb db)
    as (a3 & R3 & B3 & Z3 & J3 & C3); try done; try lia.
  { eapply runs_eq; [apply IPv6.runs6_SourceAddressSlice; lia|by apply H2h|done]. }
  { eapply runs_eq; [apply IPv6.runs6_DestinationAddressSlice; lia|by apply H2h|done]. }
  { by rewrite (bt_doff _ _ _ T2). }
  assert (is_header6 a3 st 20 6 sb db) as H3h
    by (apply (is_header6_agree a2); [done|lia|lia|]; intros j ?; apply J3; lia).
  pose proof (bare_tcp_agree a2 a3 (st + 40) f T2 ltac:(intros; apply J3; lia)) as T3.
  destruct (RF a3 60 IPv6Version ltac:(lia) ltac:(lia)) as (prefix & a5 & R5 & Zp).
  exists prefix, (window a3 st 60). split; [|split; [done|split; [apply Zlen_window; lia|]]].
  - erewrite (runs_bind _ _ a); [reflexivity|apply runs_Bytes_resized; lia|]. rewrite u16_small by lia.
    eapply runs_bind; [exact R1|].
    eapply runs_bind; [apply IPv6.runs6_Payload; rewrite ?Hl1; done || lia|]. rewrite Hl1.
    eapply runs_bind; [exact R2|]. eapply runs_bind; [exact R3|]. exact R5.
  - pose proof (is_header6_cut a3 st 60 20 6 sb db ltac:(lia) ltac:(lia) H3h) as HP.
    pose proof (bare_tcp_cut a3 st 60 40 f ltac:(lia) ltac:(lia) ltac:(lia) T3) as TP.
    split_and!; try done.
    + apply (tcp6_of_header _ 20); try done; [|apply Zlen_window; lia]. by apply bytes_window.
    + intros E. unfold sums6. destruct HP as [_ E2 _ E4 E5].
      change (0 + 4) with 4 in E2. change (0 + 8) with 8 in E4. change (0 + 24) with 24 in E5. rewrite E2, E4, E5.
      apply tcp_checksum_cut; try lia. by apply C3.
Qed.

(** *** The fields of a reset *)

(** RFC 793: the reset of a segment with ACK takes its sequence number from
    the acknowledgement, any other acknowledges the whole segment. *)
Definition rfc793_reset (m : list Z) (t n : Z) : TCP.TCPFields :=
  let flags := byte_at m (t + 13) in
  let sp := get16 m (t + 2) in
  let dp := get16 m t in
  if Z.testbit flags 4 then TCP.mkFields sp dp (get32 m (t + 8)) 0 20 4 0 0 0
  else TCP.mkFields sp dp 0
         (u32 (get32 m (t + 4) + (n - TCP.doff m t) + Z.b2z (Z.testbit flags 1) + Z.b2z (Z.testbit flags 0)))
         20 20 0 0 0.

Lemma land_bit x k : 0 <= k -> negb (Z.land x (2 ^ k) =? 0) = Z.testbit x k.
Proof.
  intros Hk. rewrite <- (Z.shiftl_1_l k). destruct (Z.testbit x k) eqn:E.
  - apply negb_true_iff, Z.eqb_neq. intros E0. apply (f_equal (fun z => Z.testbit z k)) in E0.
    rewrite Z.land_spec, E, Z.shiftl_spec, Z.sub_diag, Z.bits_0 in E0 by done. done.
  - apply negb_false_iff, Z.eqb_eq. apply Z.bits_inj'. intros i Hi.
    rewrite Z.land_spec, Z.shiftl_spec, Z.bits_0 by done.
    destruct (Z.eq_dec i k) as [->|Hne]; [by rewrite E|].
    destruct (Z.ltb_spec (i - k) 0); [rewrite (Z.testbit_neg_r 1) by lia; by rewrite andb_false_r|].
    rewrite (Z.bits_above_log2 1) by (simpl; lia). by rewrite andb_false_r.
Qed.

Lemma reset_fields_ok t n c m :
  bytes m -> 0 <= t -> 20 <= n -> TCP.doff m t <= n -> n <= c -> n <= 65535 ->
  runs (reset_fields (Slice t n c)) m (rfc793_reset m t n) m /\ TCP.fields_ok (rfc793_reset m t n) /\
  TCP.f_DataOffset (rfc793_reset m t n) = 20.
Proof.
  intros Hb Ht Hn Hd Hc Hl. unfold reset_fields, rfc793_reset.
  pose proof (land_bit (byte_at m (t + 13)) 4 ltac:(lia)) as B4. pose proof (land_bit (byte_at m (t + 13)) 1 ltac:(lia)) as B1.
  pose proof (land_bit (byte_at m (t + 13)) 0 ltac:(lia)) as B0.
  change (2 ^ 4) with TCP.TCPFlagAck in B4. change (2 ^ 1) with TCP.TCPFlagSyn in B1. change (2 ^ 0) with TCP.TCPFlagFin in B0.
  pose proof (get16_range m t Hb). pose proof (get16_range m (t + 2) Hb).
  pose proof (get32_range m (t + 4) Hb). pose proof (get32_range m (t + 8) Hb).
  destruct (Z.testbit (byte_at m (t + 13)) 4); (split; [|split; [|done]]).
  - go_step. go_step. go_step. rewrite B4. go_run.
  - unfold TCP.fields_ok. cbn. split_and!; done || lia.
  - go_step. go_step. go_step. rewrite B4, B1, B0. go_step. go_step.
    eapply runs_eq; [apply runs_ret| |done]. cbn [sl_len]. f_equal.
    destruct (Z.testbit _ 1), (Z.testbit _ 0); unfold u32; cbn [Z.b2z]; zdm.
  - unfold TCP.fields_ok. cbn. split_and!; try (done || lia); apply u32_range.
Qed.
End Reset.

Definition log_write `{Environment} {T} (w : world (T := T)) (packet : list Z) : world :=
  mkWorld (tcpNat4 w) (tcpNat6 w) (directNat w) (log w ++ [TunWrite packet]).

(** C16: when the NAT has no free port, resetIPv4TCP and resetIPv6TCP write to
    the device exactly one packet: after the link header or headroom, a TCP
    packet from the client's destination to the client with the RST of RFC 793
    (sequence number taken from the acknowledgement, or RST+ACK acknowledging
    the whole segment) and valid checksums, whatever the buffer pool held. *)
Theorem resetTCP_correct `{ChecksumImpl} `{SingCommon} `{BufPackage} `{Environment} {T} `{NatTable T}
    (darwin : bool) s (w : world (T := T)) :
  0 <= frontHeadroom s ->
  (forall m l src sp dst dp, tcp4_packet m l src sp dst dp ->
     let t := IPv4.hlen m 0 in let n := get16 m 2 - t in TCP.doff m t <= n ->
     exists prefix p, sruns (resetIPv4TCP darwin s (ip4 m l) (tcp4 m)) w m (tun_Write (prefix ++ p)) (log_write w (prefix ++ p)) m /\
       Zlen prefix = (if darwin then 4 else frontHeadroom s) /\ tcp4_packet p 40 dst dp src sp /\
       bare_tcp p 20 (rfc793_reset m t n) /\ (txChecksumOffload s = false -> sums4 p)) /\
  (forall m l src sp dst dp, tcp6_packet m l src sp dst dp -> TCP.doff m 40 <= get16 m 4 ->
     exists prefix p, sruns (resetIPv6TCP darwin s (ip6 m l) (tcp6 m)) w m (tun_Write (prefix ++ p)) (log_write w (prefix ++ p)) m /\
       Zlen prefix = (if darwin then 4 else frontHeadroom s) /\ tcp6_packet p 60 dst dp src sp /\
       bare_tcp p 40 (rfc793_reset m 40 (get16 m 4)) /\ (txChecksumOffload s = false -> sums6 p)).
Proof.
  intros Hroom. split.
  - intros m l src sp dst dp P t n Hd. destruct (read4 _ _ _ _ _ _ P) as (R1 & R2 & _).
    destruct P as [P1 P2 P3 P4 PP P5 P6 P7 P8]. destruct P3 as (V1 & V2 & V3 & V4 & V5). change (0 + 2) with 2 in *.
    pose proof (get16_range m 2 P1).
    destruct (reset_fields_ok t n (Zlen m - t) m) as (RF & HF & HD); try done; try lia.
    pose proof (Zlen_window m 16 4). pose proof (Zlen_window m 12 4). unfold Zlen in *.
    destruct (build_reset4_ok darwin s Hroom dst src (rfc793_reset m t n) HF HD) as (prefix & p & B & Zp & _ & T1 & T2 & _ & S);
      try (subst; auto with gobytes; lia).
    assert (TCP.f_SrcPort (rfc793_reset m t n) = dp /\ TCP.f_DstPort (rfc793_reset m t n) = sp) as [E1 E2]
      by (unfold rfc793_reset; destruct (Z.testbit _ _); done).
    rewrite E1, E2 in T1. exists prefix, p. split; [|done].
    unfold resetIPv4TCP. eapply sruns_bind; [by apply sruns_mem|]. eapply sruns_bind; [by apply sruns_mem|].
    eapply sruns_bind; [apply sruns_mem; exact RF|]. eapply sruns_bind; [by apply sruns_pure|].
    unfold write_tun. eapply sruns_bind; [done|]. done.
  - intros m l src sp dst dp P Hd. destruct (read6 _ _ _ _ _ _ P) as (R1 & R2 & _).
    destruct P as [P1 P2 P3 P4 PP P5 P6 P7 P8]. destruct P3 as (V1 & V2 & V3). change (0 + 4) with 4 in *.
    pose proof (get16_range m 4 P1).
    destruct (reset_fields_ok 40 (get16 m 4) (Zlen m - 40) m) as (RF & HF & HD); try done; try lia.
    pose proof (Zlen_window m 8 16). pose proof (Zlen_window m 24 16). unfold Zlen in *.
    destruct (build_reset6_ok darwin s Hroom dst src (rfc793_reset m 40 (get16 m 4)) HF HD) as (prefix & p & B & Zp & _ & T1 & T2 & S);
      try (subst; auto with gobytes; lia).
    assert (TCP.f_SrcPort (rfc793_reset m 40 (get16 m 4)) = dp /\ TCP.f_DstPort (rfc793_reset m 40 (get16 m 4)) = sp) as [E1 E2]
      by (unfold rfc793_reset; destruct (Z.testbit _ _); done).
    rewrite E1, E2 in T1. exists prefix, p. split; [|done].
    unfold resetIPv6TCP. eapply sruns_bind; [by apply sruns_mem|]. eapply sruns_bind; [by apply sruns_mem|].
    eapply sruns_bind; [apply sruns_mem; exact RF|]. eapply sruns_bind; [by apply sruns_pure|].
    unfold write_tun. eapply sruns_bind; [done|]. done.
Qed.

(** ** Witness *)

#[local] Existing Instance null_environment.
#[local] Existing Instance sing_common_loop.
#[local] Existing Instance ts64.
#[local] Existing Instance zero_pool.

Lemma resetTCP_correct_witness :
  exists prefix p, sruns (resetIPv4TCP false sample_system (ip4 sample_tcp4 40) (tcp4 sample_tcp4)) sample_world sample_tcp4
      None (log_write sample_world (prefix ++ p)) sample_tcp4 /\
    tcp4_packet p 40 [93; 184; 216; 34] 443 [10; 0; 0; 2] 40000 /\ sums4 p.
Proof.
  destruct (resetTCP_correct false sample_system sample_world) as [H4 _]; [concrete|].
  destruct (H4 sample_tcp4 40 [10; 0; 0; 2] 40000 [93; 184; 216; 34] 443) as (prefix & p & R & _ & P & _ & S); [concrete..|].
  exists prefix, p. split; [exact R|]. split; [exact P|]. by apply S.
Defined.
