(* ===== verification/SystemUdp.v ===== *)
(** * The UDP packet writers of the system stack

    A reply of the remote side is put behind a copy of the client packet's IP
    and UDP headers, with addresses and ports swapped, lengths updated and both
    checksums recomputed. *)
From S2P Require Import Prelude Bytes GoMem Checksum TsChecksum Tcpip Netip HdrChecksum IPv4Options IPv4 IPv6 UDP System SystemPackets.

Section UDPReply.
Context `{ChecksumImpl} `{SingCommon} `{BufPackage} (darwin : bool) (w : systemUDPPacketWriter).

(** The checksum of the datagram at [t], stored or cleared. *)
Lemma udp_sum t n c a ss ds :
  bytes a -> bytes ss -> bytes ds -> 0 <= t -> 8 <= n -> n <= 65535 -> n <= c -> t + c <= Zlen a ->
  exists v, is_u16 v /\ runs (udp_checksum w ss ds (Slice t n c) n) a tt (put16 a (t + 6) v) /\
    (w_txChecksumOffload w = true -> v = 0) /\
    (w_txChecksumOffload w = false -> 0 < v /\ UDP.checksum_ok (put16 a (t + 6) v) t n ss ds).
Proof.
  intros Ba Bs Bd Ht Hn Hn' Hc Hz. unfold udp_checksum. destruct (w_txChecksumOffload w) eqn:Eo; cbn [negb].
  { exists 0. split; [lia|]. split; [apply UDP.runs_udp_SetChecksum; lia|]. by split. }
  pose proof (PseudoHeaderChecksum_OC UDP.UDPProtocolNumber ss ds n Bs Bd ltac:(unfold UDP.UDPProtocolNumber; lia) ltac:(lia)) as HP.
  destruct (UDP.runs_udp_CalculateChecksum t n c a (PseudoHeaderChecksum UDP.UDPProtocolNumber ss ds n))
    as (x & Rx & Hx & Cx); try done; [by eapply OC_range|].
  set (d := window a (t + 8) (n - 8)). set (y := Checksum d x).
  assert (bytes d) as Bdd by (subst d; auto with gobytes).
  assert (is_u16 y) as Hy by (by apply Checksum_range).
  exists (UDP.NormalizeUDPChecksum (not16 y)). split; [auto with gobytes|]. split; [|split; [done|]].
  - eapply runs_bind; [apply UDP.runs_udp_Payload; lia|]. eapply runs_bind; [apply runs_contents|].
    eapply runs_bind; [exact Rx|]. apply UDP.runs_udp_SetChecksum; lia.
  - intros _. split; [apply UDP.Normalize_nonzero; auto with gobytes|]. unfold UDP.checksum_ok.
    rewrite wsum_window_put16; auto with gobytes; try lia; [|exists 3; lia].
    rewrite UDP.Normalize_cong, not16_cong by done. subst y.
    rewrite Checksum_cong, Cx, (OC_cong_eq _ _ HP) by (try done; subst d; auto with gobytes).
    assert (window a t n = window a t 8 ++ d) as -> by (subst d; rewrite <- window_app by lia; f_equal; lia).
    rewrite wsum_app by (rewrite Zlen_window by lia; by exists 4).
    apply cong_refl_eq. unfold UDP.UDPProtocolNumber. lia.
Qed.

Lemma write_two l o a b : write_at l o (a ++ b) = write_at (write_at l o a) (o + Zlen a) b.
Proof.
  revert l o. induction a as [|x a IH]; intros l o; cbn [app write_at]; [by rewrite Zlen_nil, Z.add_0_r|].
  rewrite IH, Zlen_cons. f_equal. lia.
Qed.

(** Two writes into a fresh buffer, and [Bytes] of it. *)
Lemma two_writes b a st h d :
  0 <= st -> buf_capacity b = st + Zlen h + Zlen d -> st + Zlen h + Zlen d <= Zlen a ->
  exists b', (forall B (k : Buffer -> M B) r a', runs (k b') (write_at a st (h ++ d)) r a' ->
      runs (b1 <- BWrite (Resize b st 0) h ;; b2 <- BWrite b1 d ;; k b2) a r a') /\
    buf_start b' = st /\ buf_end b' = st + Zlen h + Zlen d.
Proof.
  intros Hs Hc Hz. destruct (Resize_ok b st 0) as (Q1 & Q2 & Q3). pose proof (Zlen_nonneg d).
  destruct (BWrite_ok (Resize b st 0) h a) as (b1 & R1 & S1 & E1 & C1); [lia|].
  rewrite Q2, Z.add_0_r in R1.
  destruct (BWrite_ok b1 d (write_at a st h)) as (b2 & R2 & S2 & E2 & C2); [lia|].
  exists b2. split; [|lia]. intros B k r a' Hk.
  eapply runs_bind; [exact R1|]. eapply runs_bind; [exact R2|].
  replace (buf_end b1) with (st + Zlen h) by lia. by rewrite <- write_two.
Qed.

(** The writer's header: the IPv4 header and UDP header of the client's
    packet. *)
Record writer4_ok (h n : Z) (addr : list Z) (port : Z) : Prop := {
  w4_bytes : bytes (w_header w);
  w4_room : 0 <= w_frontHeadroom w /\ (darwin = true -> 4 <= w_frontHeadroom w);
  w4_version : byte_at (w_header w) 0 / 16 = 4;
  w4_hlen : IPv4.hlen (w_header w) 0 = h /\ 20 <= h;
  w4_len : Zlen (w_header w) = h + 8;
  w4_total : 0 <= n /\ h + 8 + n <= 65535;
  w4_addr : bytes addr /\ length addr = 4%nat;
  w4_port : is_u16 port
}.

(** The reply [p] to [addr:port]. *)
Record udp4_reply (h n : Z) (addr : list Z) (port : Z) (buffer p : list Z) : Prop := {
  u4_valid : IPv4.valid_header p 0 (h + 8 + n) (h + 8 + n);
  u4_hlen : IPv4.hlen p 0 = h;
  u4_sum : IPv4.checksum_ok p 0;
  u4_src : window p 12 4 = addr;
  u4_dst : window p 16 4 = window (w_header w) 12 4;
  u4_sp : get16 p h = port;
  u4_dp : get16 p (h + 2) = get16 (w_header w) h;
  u4_ulen : get16 p (h + 4) = 8 + n;
  u4_data : window p (h + 8) n = buffer;
  u4_proto : byte_at p 9 = byte_at (w_header w) 9;
  u4_off : w_txChecksumOffload w = true -> get16 p (h + 6) = 0;
  u4_usum : w_txChecksumOffload w = false ->
    get16 p (h + 6) <> 0 /\ UDP.checksum_ok p h (8 + n) (window p 12 4) (window p 16 4)
}.

Lemma cut_write a st d i len :
  0 <= st -> st + Zlen d <= Zlen a -> 0 <= i -> 0 <= len -> i + len <= Zlen d ->
  window (write_at a st d) (st + i) len = window d i len.
Proof. intros. rewrite <- (window_cut _ st (Zlen d)) by lia. by rewrite window_write_at_eq. Qed.
Lemma byte_write a st d i : 0 <= st -> st + Zlen d <= Zlen a -> 0 <= i < Zlen d -> byte_at (write_at a st d) (st + i) = byte_at d i.
Proof. intros. rewrite <- (byte_at_cut _ st (Zlen d)) by lia. by rewrite window_write_at_eq. Qed.
Lemma get16_write a st d i : 0 <= st -> st + Zlen d <= Zlen a -> 0 <= i -> i + 2 <= Zlen d -> get16 (write_at a st d) (st + i) = get16 d i.
Proof. intros. rewrite <- (get16_cut _ st (Zlen d)) by lia. by rewrite window_write_at_eq. Qed.
Lemma window_app_l d e i len : 0 <= i -> 0 <= len -> i + len <= Zlen d -> window (d ++ e) i len = window d i len.
Proof.
  intros. unfold window, Zlen in *. rewrite skipn_app, firstn_app.
  replace (Z.to_nat len - length (drop (Z.to_nat i) d))%nat with 0%nat by (rewrite length_drop; lia).
  by rewrite take_0, app_nil_r.
Qed.
Lemma window_app_r d e : window (d ++ e) (Zlen d) (Zlen e) = e.
Proof.
  unfold window, Zlen. rewrite !Nat2Z.id, drop_app_length. by rewrite take_ge.
Qed.

(** The header rewritten in the array: lengths, addresses and ports. *)
Definition readdressed4 (a : list Z) (st h n : Z) (src addr : list Z) (sp port : Z) : list Z :=
  put16 (put16 (put16 (write_at (write_at (put16 a (st + 2) (h + 8 + n)) (st + 16) src) (st + 12) addr)
    (st + h + 2) sp) (st + h) port) (st + h + 4) (8 + n).

Lemma readdressed4_ok a st h n src addr sp port :
  bytes a -> 0 <= st -> 20 <= h -> 0 <= n -> h + 8 + n <= 65535 -> st + h + 8 + n <= Zlen a ->
  bytes src -> Zlen src = 4 -> bytes addr -> Zlen addr = 4 -> is_u16 sp -> is_u16 port ->
  IPv4.hlen a st = h ->
  let a' := readdressed4 a st h n src addr sp port in
  bytes a' /\ Zlen a' = Zlen a /\ byte_at a' st = byte_at a st /\ IPv4.hlen a' st = h /\
  get16 a' (st + 2) = h + 8 + n /\ window a' (st + 12) 4 = addr /\ window a' (st + 16) 4 = src /\
  byte_at a' (st + 9) = byte_at a (st + 9) /\
  get16 a' (st + h) = port /\ get16 a' (st + h + 2) = sp /\ get16 a' (st + h + 4) = 8 + n /\
  window a' (st + h + 8) n = window a (st + h + 8) n.
Proof.
  intros Ba Hs Hh Hn Ht Hz Bs Ls Bd Ld Hsp Hp Hhl a'. subst a'. unfold readdressed4.
  split; [repeat first [apply bytes_put16 | apply bytes_write_at]; done|].
  split; [by autorewrite with golen|]. unfold IPv4.hlen in *. split_and!; by rd.
Qed.

(** The statements of the writer up to the UDP length. *)
Lemma readdress4_runs {B} (k : slice -> M B) a st h n c addr port r a' :
  bytes a -> 0 <= st -> 20 <= h -> 0 <= n -> h + 8 + n <= 65535 -> h + 8 + n <= c -> st + c <= Zlen a ->
  bytes addr -> Zlen addr = 4 -> is_u16 port -> IPv4.hlen a st = h ->
  runs (k (Slice (st + h) (8 + n) (c - h)))
    (readdressed4 a st h n (window a (st + 12) 4) addr (get16 a (st + h)) port) r a' ->
  let ipHdr := Slice st (h + 8 + n) c in
  runs (IPv4.SetTotalLength ipHdr (u16 (h + 8 + n)) ;;;
        sa <- IPv4.SourceAddress ipHdr ;;
        IPv4.SetDestinationAddress ipHdr sa ;;;
        IPv4.SetSourceAddr ipHdr (netip.Addr4 addr) ;;;
        udpHdr <- IPv4.Payload ipHdr ;;
        sp <- UDP.SourcePort udpHdr ;;
        UDP.SetDestinationPort udpHdr sp ;;;
        UDP.SetSourcePort udpHdr port ;;;
        UDP.SetLength udpHdr (u16 (n + UDP.UDPMinimumSize)) ;;;
        k udpHdr) a r a'.
Proof.
  intros Ba Hs Hh Hn Ht Hc Hz Bd La Hp Hhl Hk ipHdr. subst ipHdr. rewrite (u16_small (h + 8 + n)) by lia.
  set (src := window a (st + 12) 4) in *. assert (Zlen src = 4) as Lsrc by (subst src; apply Zlen_window; lia).
  assert (bytes src) as Bsrc by (subst src; auto with gobytes).
  eapply runs_bind; [apply IPv4.runs_SetTotalLength; lia|].
  eapply runs_bind; [apply IPv4.runs4_SourceAddress; lia|]. rewrite window_put16_out by lia. fold src.
  assert (tcpip.AsSlice (tcpip.AddrFrom4 src) = src) as Esrc by (apply tcpip.AsSlice_AddrFrom4; unfold Zlen in *; lia).
  eapply runs_bind; [apply IPv4.runs4_SetDestinationAddress; rewrite ?Esrc; lia|]. rewrite Esrc.
  eapply runs_bind; [apply IPv4.runs4_SetSourceAddr; cbn [netip.AsSlice]; lia|]. cbn [netip.AsSlice].
  set (a0 := write_at (write_at (put16 a (st + 2) (h + 8 + n)) (st + 16) src) (st + 12) addr).
  assert (IPv4.hlen a0 st = h /\ get16 a0 (st + 2) = h + 8 + n /\ bytes a0 /\ get16 a0 (st + h) = get16 a (st + h))
    as (G1 & G2 & G3 & G4).
  { subst a0. unfold IPv4.hlen in *. split_and!; [by rd|by rd|auto with gobytes|by rd]. }
  eapply runs_bind; [apply IPv4.runs4_Payload; rewrite ?G1, ?G2; done || lia|]. rewrite G1, G2.
  replace (h + 8 + n - h) with (8 + n) by lia.
  eapply runs_bind; [apply UDP.runs_udp_SourcePort; lia|]. rewrite G4.
  eapply runs_bind; [apply UDP.runs_udp_SetDestinationPort; lia|]. eapply runs_bind; [apply UDP.runs_udp_SetSourcePort; lia|].
  unfold UDP.UDPMinimumSize. rewrite (u16_small (n + 8)) by lia. replace (n + 8) with (8 + n) by lia.
  eapply runs_bind; [apply UDP.runs_SetLength; lia|]. exact Hk.
Qed.

(** The array holding the header and the data, and the packet cut out of it. *)
Record loaded (a : list Z) (st h n : Z) (buffer : list Z) : Prop := {
  ld_bytes : bytes a;
  ld_room : 0 <= st /\ st + h + 8 + n <= Zlen a;
  ld_hdr : forall i, 0 <= i < h + 8 -> byte_at a (st + i) = byte_at (w_header w) i;
  ld_src : forall i len, 0 <= i -> 0 <= len -> i + len <= h + 8 -> window a (st + i) len = window (w_header w) i len;
  ld_data : window a (st + h + 8) n = buffer
}.
Lemma loaded_write a st h n buffer :
  bytes a -> bytes (w_header w) -> bytes buffer -> 0 <= st -> Zlen (w_header w) = h + 8 -> Zlen buffer = n ->
  st + h + 8 + n <= Zlen a -> loaded (write_at a st (w_header w ++ buffer)) st h n buffer.
Proof.
  intros Ba Bh Bb Hs Hh Hn Hz. assert (Zlen (w_header w ++ buffer) = h + 8 + n) by (rewrite Zlen_app; lia).
  pose proof (Zlen_nonneg buffer). pose proof (Zlen_nonneg (w_header w)). split.
  - apply bytes_write_at; [done|by apply bytes_app].
  - rewrite Zlen_write_at. lia.
  - intros i Hi. rewrite byte_write by lia. apply byte_at_app_l; lia.
  - intros i len ???. rewrite cut_write by lia. apply window_app_l; lia.
  - replace (st + h + 8) with (st + (h + 8)) by lia. rewrite cut_write by lia. rewrite <- Hh, <- Hn. apply window_app_r.
Qed.
Lemma loaded_hlen a st h n buffer : 0 < h + 8 -> loaded a st h n buffer -> IPv4.hlen a st = IPv4.hlen (w_header w) 0.
Proof. intros ? [_ _ J _ _]. unfold IPv4.hlen. by rewrite <- (Z.add_0_r st), J by lia. Qed.
Lemma loaded_sp a st h n buffer : 0 <= h -> loaded a st h n buffer -> get16 a (st + h) = get16 (w_header w) h.
Proof. intros ? [_ _ J _ _]. unfold get16. by rewrite <- Z.add_assoc, !J by lia. Qed.

Lemma reply4_cut h n addr port buffer a st v y :
  writer4_ok h n addr port -> Zlen buffer = n -> loaded a st h n buffer ->
  let a2 := readdressed4 a st h n (window (w_header w) 12 4) addr (get16 (w_header w) h) port in
  let a4 := put16 (put16 a2 (st + h + 6) v) (st + 10) y in
  is_u16 v -> (w_txChecksumOffload w = true -> v = 0) ->
  (w_txChecksumOffload w = false ->
     0 < v /\ UDP.checksum_ok (put16 a2 (st + h + 6) v) (st + h) (8 + n) addr (window (w_header w) 12 4)) ->
  IPv4.checksum_ok a4 st -> udp4_reply h n addr port buffer (window a4 st (h + 8 + n)).
Proof.
  intros [W1 W2 W3 [W4 W4'] W5 [W6 W6'] [W7 W7'] W8] Hn Hld a2 a4 Hv Ov Sv C4.
  destruct Hld as [L1 [L2 L2'] L3 L4 L5] eqn:HL. clear HL. set (src := window (w_header w) 12 4) in *.
  assert (Zlen src = 4) as Lsrc by (subst src; apply Zlen_window; lia).
  destruct (readdressed4_ok a st h n src addr (get16 (w_header w) h) port)
    as (B2 & Z2 & E0 & Hh2 & El & Wa & Ws & Ep & F1 & F2 & F3 & F4); try done; try lia;
    [subst src; auto with gobytes|unfold Zlen; lia|by apply get16_range|by rewrite (loaded_hlen a st h n buffer) by (done || lia)|].
  fold a2 in B2, Z2, E0, Hh2, El, Wa, Ws, Ep, F1, F2, F3, F4.
  assert (IPv4.hlen a4 st = h) as Hh4 by (subst a4; rewrite !IPv4.hlen_put16; lia).
  split; rewrite ?hlen_cut, ?Hh4 by lia; rewrite ?byte_at_cut, ?get16_cut, ?window_cut by lia; rewrite ?Z.add_assoc.
  - unfold IPv4.valid_header. rewrite hlen_cut, get16_cut, byte_at_cut, Hh4, Z.add_0_r by lia. change (0 + 2) with 2.
    subst a4. rd. rewrite El, E0, <- (Z.add_0_r st), L3 by lia. split_and!; done || lia.
  - done.
  - apply ip4_checksum_cut; rewrite ?Hh4; done || lia.
  - subst a4. by rd.
  - subst a4. by rd.
  - subst a4. by rd.
  - subst a4. by rd.
  - subst a4. by rd.
  - subst a4. rd. by rewrite F4.
  - subst a4. rd. by rewrite Ep, L3 by lia.
  - intros E. subst a4. rd. auto.
  - intros E. destruct (Sv E) as [Sv1 Sv2]. subst a4. split; [rd; lia|].
    apply udp_checksum_cut; try lia. unfold UDP.checksum_ok in *. rd. by rewrite Wa, Ws.
Qed.

Lemma UDPWriter4_build_ok h n addr port buffer b a :
  writer4_ok h n addr port -> Zlen buffer = n -> bytes buffer -> bytes a ->
  buf_capacity b = w_frontHeadroom w + (h + 8) + n -> w_frontHeadroom w + (h + 8) + n <= Zlen a ->
  exists prefix p a', runs (UDPWriter4_build darwin w buffer (netip.Addr4 addr) port b) a (prefix ++ p) a' /\
    Zlen prefix = (if darwin then 4 else w_frontHeadroom w) /\ Zlen p = h + 8 + n /\
    udp4_reply h n addr port buffer p.
Proof.
  intros W Hbuf Bbuf Ba Hcap Hz. pose proof W as [W1 [W2 W2'] W3 [W4 W4'] W5 [W6 W6'] [W7 W7'] W8].
  set (st := w_frontHeadroom w) in *. assert (Zlen addr = 4) as La by (unfold Zlen; lia).
  destruct (two_writes b a st (w_header w) buffer) as (b' & Hk & S' & E'); [done|lia|lia|].
  pose proof (loaded_write a st h n buffer Ba W1 Bbuf W2 W5 Hbuf ltac:(lia)) as Hld.
  set (a1 := write_at a st (w_header w ++ buffer)) in *.
  assert (Zlen a1 = Zlen a) as Z1 by apply Zlen_write_at.
  pose proof (loaded_hlen a1 st h n buffer ltac:(lia) Hld) as Hh1. pose proof (loaded_sp a1 st h n buffer ltac:(lia) Hld) as Esp.
  pose proof (ld_src _ _ _ _ _ Hld 12 4 ltac:(lia) ltac:(lia) ltac:(lia)) as Wsrc.
  assert (bytes (window (w_header w) 12 4)) as Bsrc by auto with gobytes.
  destruct (readdressed4_ok a1 st h n (window (w_header w) 12 4) addr (get16 (w_header w) h) port)
    as (B2 & Z2 & _ & Hh2 & El & Wa & Ws & _); try done; try lia;
    [by apply Hld|apply Zlen_window; lia|by apply get16_range|].
  set (a2 := readdressed4 a1 st h n _ addr _ port) in *. set (c := Zlen a - st).
  destruct (udp_sum (st + h) (8 + n) (c - h) a2 addr (window (w_header w) 12 4)) as (v & Hv & Rv & Ov & Sv); try done; try lia.
  assert (bytes (put16 a2 (st + h + 6) v)) as B3 by by apply bytes_put16.
  assert (IPv4.hlen (put16 a2 (st + h + 6) v) st = h) as Hh3 by (rewrite IPv4.hlen_put16; lia).
  pose proof (Zlen_put16 a2 (st + h + 6) v) as Z3.
  destruct (IPv4.runs4_CalculateChecksum st (h + 8 + n) c (put16 a2 (st + h + 6) v)) as (y & Ry & Hy & Cy); try done; try lia.
  pose proof (IPv4.store_checksum st (h + 8 + n) c _ y B3 ltac:(lia) ltac:(lia) ltac:(lia) ltac:(lia) ltac:(lia) Hy Cy) as C4.
  pose proof (reply4_cut h n addr port buffer a1 st v (not16 y) W Hbuf Hld Hv Ov Sv C4) as HR.
  set (a4 := put16 (put16 a2 (st + h + 6) v) (st + 10) (not16 y)) in *.
  assert (Zlen a4 = Zlen a) as Z4 by (subst a4; rewrite !Zlen_put16; lia).
  destruct (finish_ok darwin b' a4 (w_frontHeadroom w) IPv4Version) as (prefix & a5 & RF & Zp); [done|by right|lia|lia|].
  rewrite S', E' in RF. replace (st + Zlen (w_header w) + Zlen buffer - st) with (h + 8 + n) in RF by lia.
  exists prefix, (window a4 st (h + 8 + n)), a5. split; [|split; [done|split; [apply Zlen_window; lia|exact HR]]].
  unfold UDPWriter4_build. fold st. apply Hk. cbv beta.
  eapply runs_bind; [apply Bytes_ok; lia|]. rewrite S', E', Z1, Hbuf. cbn [sl_len]. fold c.
  replace (st + Zlen (w_header w) + n - st) with (h + 8 + n) by lia.
  apply (readdress4_runs (fun udpHdr => ss <- IPv4.SourceAddressSlice (Slice st (h + 8 + n) c) ;; _));
    try done; try lia; [apply Hld|]. rewrite Wsrc, Esp. fold a2.
  eapply runs_bind; [apply IPv4.runs4_SourceAddressSlice; lia|]. eapply runs_bind; [apply IPv4.runs4_DestinationAddressSlice; lia|].
  rewrite Wa, Ws. eapply runs_bind; [apply IPv4.runs4_PayloadLength; lia|]. rewrite El, Hh2.
  replace (h + 8 + n - h) with (8 + n) by lia. rewrite u16_small by lia.
  eapply runs_bind; [exact Rv|]. eapply runs_bind; [exact Ry|]. eapply runs_bind; [apply IPv4.runs4_SetChecksum; lia|].
  exact RF.
Qed.
End UDPReply.

(** C15: the packet systemUDPPacketWriter4 writes for a reply of addr:port is a
    valid IPv4 packet from addr:port to the client's address and port, carrying
    exactly the reply's bytes, with correct lengths, a valid header checksum
    and a valid, non-zero UDP checksum (zero when the device computes it). *)
Theorem UDPWriter4_correct `{ChecksumImpl} `{SingCommon} `{BufPackage} (darwin : bool) w h addr port buffer :
  writer4_ok darwin w h (Zlen buffer) addr port -> bytes buffer ->
  exists prefix p, UDPWriter4_WritePacket darwin w buffer (netip.Addr4 addr) port = Ok (prefix ++ p) /\
    Zlen prefix = (if darwin then 4 else w_frontHeadroom w) /\ Zlen p = h + 8 + Zlen buffer /\
    udp4_reply w h (Zlen buffer) addr port buffer p.
Proof.
  intros W Hb. unfold UDPWriter4_WritePacket, in_new. pose proof W as [_ [? _] _ [_ ?] E [? _] _ _]. rewrite E.
  destruct (NewSize_ok (w_frontHeadroom w + (h + 8) + Zlen buffer)) as (Hc & Hl & Ba); [lia|].
  destruct (NewSize _) as [b a]. cbn [fst snd] in *.
  destruct (UDPWriter4_build_ok darwin w h (Zlen buffer) addr port buffer b a W eq_refl Hb Ba Hc Hl)
    as (prefix & p & a' & R & HR). exists prefix, p. by rewrite R.
Qed.

(** ** IPv6 *)

Section UDPReply6.
Context `{ChecksumImpl} `{SingCommon} `{BufPackage} (darwin : bool) (w : systemUDPPacketWriter).

Record writer6_ok (n : Z) (addr : list Z) (port : Z) : Prop := {
  w6_bytes : bytes (w_header w);
  w6_room : 0 <= w_frontHeadroom w /\ (darwin = true -> 4 <= w_frontHeadroom w);
  w6_version : byte_at (w_header w) 0 / 16 = 6;
  w6_len : Zlen (w_header w) = 48;
  w6_total : 0 <= n /\ 8 + n <= 65535;
  w6_addr : bytes addr /\ length addr = 16%nat;
  w6_port : is_u16 port
}.
Record udp6_reply (n : Z) (addr : list Z) (port : Z) (buffer p : list Z) : Prop := {
  u6_valid : IPv6.valid_header p 0 (48 + n) (48 + n);
  u6_src : window p 8 16 = addr;
  u6_dst : window p 24 16 = window (w_header w) 8 16;
  u6_len : get16 p 4 = 8 + n;
  u6_proto : byte_at p 6 = byte_at (w_header w) 6;
  u6_sp : get16 p 40 = port;
  u6_dp : get16 p 42 = get16 (w_header w) 40;
  u6_ulen : get16 p 44 = 8 + n;
  u6_data : window p 48 n = buffer;
  u6_off : w_txChecksumOffload w = true -> get16 p 46 = 0;
  u6_usum : w_txChecksumOffload w = false ->
    get16 p 46 <> 0 /\ UDP.checksum_ok p 40 (8 + n) (window p 8 16) (window p 24 16)
}.

Definition readdressed6 (a : list Z) (st n : Z) (src addr : list Z) (sp port : Z) : list Z :=
  put16 (put16 (put16 (write_at (write_at (put16 a (st + 4) (8 + n)) (st + 24) src) (st + 8) addr)
    (st + 40 + 2) sp) (st + 40) port) (st + 40 + 4) (8 + n).
Lemma readdressed6_ok a st n src addr sp port :
  bytes a -> 0 <= st -> 0 <= n -> 8 + n <= 65535 -> st + 48 + n <= Zlen a ->
  bytes src -> Zlen src = 16 -> bytes addr -> Zlen addr = 16 -> is_u16 sp -> is_u16 port ->
  let a' := readdressed6 a st n src addr sp port in
  bytes a' /\ Zlen a' = Zlen a /\ byte_at a' st = byte_at a st /\
  get16 a' (st + 4) = 8 + n /\ window a' (st + 8) 16 = addr /\ window a' (st + 24) 16 = src /\
  byte_at a' (st + 6) = byte_at a (st + 6) /\
  get16 a' (st + 40) = port /\ get16 a' (st + 40 + 2) = sp /\ get16 a' (st + 40 + 4) = 8 + n /\
  window a' (st + 48) n = window a (st + 48) n.
Proof.
  intros Ba Hs Hn Ht Hz Bs Ls Bd Ld Hsp Hp a'. subst a'. unfold readdressed6.
  split; [repeat first [apply bytes_put16 | apply bytes_write_at]; done|].
  split; [by autorewrite with golen|]. split_and!; by rd.
Qed.

Lemma readdress6_runs {B} (k : slice -> M B) a st n c addr port r a' :
  bytes a -> 0 <= st -> 0 <= n -> 8 + n <= 65535 -> 48 + n <= c -> st + c <= Zlen a ->
  bytes addr -> Zlen addr = 16 -> is_u16 port ->
  runs (k (Slice (st + 40) (8 + n) (c - 40)))
    (readdressed6 a st n (window a (st + 8) 16) addr (get16 a (st + 40)) port) r a' ->
  let ipHdr := Slice st (48 + n) c in
  runs (IPv6.SetPayloadLength ipHdr (8 + n) ;;;
        sa <- IPv6.SourceAddress ipHdr ;;
        IPv6.SetDestinationAddress ipHdr sa ;;;
        IPv6.SetSourceAddr ipHdr (netip.Addr6 addr) ;;;
        udpHdr <- IPv6.Payload ipHdr ;;
        sp <- UDP.SourcePort udpHdr ;;
        UDP.SetDestinationPort udpHdr sp ;;;
        UDP.SetSourcePort udpHdr port ;;;
        UDP.SetLength udpHdr (8 + n) ;;;
        k udpHdr) a r a'.
Proof.
  intros Ba Hs Hn Ht Hc Hz Bd La Hp Hk ipHdr. subst ipHdr.
  set (src := window a (st + 8) 16) in *. assert (Zlen src = 16) as Lsrc by (subst src; apply Zlen_window; lia).
  assert (bytes src) as Bsrc by (subst src; auto with gobytes).
  eapply runs_bind; [apply IPv6.runs_SetPayloadLength; lia|].
  eapply runs_bind; [apply IPv6.runs6_SourceAddress; lia|]. rewrite window_put16_out by lia. fold src.
  assert (tcpip.AsSlice (tcpip.AddrFrom16 src) = src) as Esrc by (apply tcpip.AsSlice_AddrFrom16; unfold Zlen in *; lia).
  eapply runs_bind; [apply IPv6.runs6_SetDestinationAddress; rewrite ?Esrc; lia|]. rewrite Esrc.
  eapply runs_bind; [apply IPv6.runs6_SetSourceAddr; cbn [netip.AsSlice]; lia|]. cbn [netip.AsSlice].
  set (a0 := write_at (write_at (put16 a (st + 4) (8 + n)) (st + 24) src) (st + 8) addr).
  assert (get16 a0 (st + 4) = 8 + n /\ bytes a0 /\ get16 a0 (st + 40) = get16 a (st + 40)) as (G2 & G3 & G4).
  { subst a0. split_and!; [by rd|auto with gobytes|by rd]. }
  eapply runs_bind; [apply IPv6.runs6_Payload; rewrite ?G2; done || lia|]. rewrite G2.
  eapply runs_bind; [apply UDP.runs_udp_SourcePort; lia|]. rewrite G4.
  eapply runs_bind; [apply UDP.runs_udp_SetDestinationPort; lia|]. eapply runs_bind; [apply UDP.runs_udp_SetSourcePort; lia|].
  eapply runs_bind; [apply UDP.runs_SetLength; lia|]. exact Hk.
Qed.

Lemma reply6_cut n addr port buffer a st v :
  writer6_ok n addr port -> Zlen buffer = n -> loaded w a st 40 n buffer ->
  let a2 := readdressed6 a st n (window (w_header w) 8 16) addr (get16 (w_header w) 40) port in
  let a3 := put16 a2 (st + 40 + 6) v in
  is_u16 v -> (w_txChecksumOffload w = true -> v = 0) ->
  (w_txChecksumOffload w = false ->
     0 < v /\ UDP.checksum_ok a3 (st + 40) (8 + n) addr (window (w_header w) 8 16)) ->
  udp6_reply n addr port buffer (window a3 st (48 + n)).
Proof.
  intros [W1 W2 W3 W5 [W6 W6'] [W7 W7'] W8] Hn Hld a2 a3 Hv Ov Sv.
  destruct Hld as [L1 [L2 L2'] L3 L4 L5]. set (src := window (w_header w) 8 16) in *.
  assert (Zlen src = 16) as Lsrc by (subst src; apply Zlen_window; lia).
  destruct (readdressed6_ok a st n src addr (get16 (w_header w) 40) port)
    as (B2 & Z2 & E0 & El & Wa & Ws & Ep & F1 & F2 & F3 & F4); try done; try lia;
    [subst src; auto with gobytes|unfold Zlen; lia|by apply get16_range|].
  fold a2 in B2, Z2, E0, El, Wa, Ws, Ep, F1, F2, F3, F4.
  split; rewrite ?byte_at_cut, ?get16_cut, ?window_cut by lia.
  - unfold IPv6.valid_header. rewrite get16_cut, byte_at_cut, Z.add_0_r by lia. change (0 + 4) with 4.
    subst a3. rd. rewrite El, E0, <- (Z.add_0_r st), L3 by lia. split_and!; done || lia.
  - subst a3. by rd.
  - subst a3. by rd.
  - subst a3. by rd.
  - subst a3. rd. by rewrite Ep, L3 by lia.
  - subst a3. by rd.
  - subst a3. replace (st + 42) with (st + 40 + 2) by lia. by rd.
  - subst a3. replace (st + 44) with (st + 40 + 4) by lia. by rd.
  - subst a3. rd. rewrite F4. by replace (st + 48) with (st + 40 + 8) by lia.
  - intros E. subst a3. replace (st + 46) with (st + 40 + 6) by lia. rd. auto.
  - intros E. destruct (Sv E) as [Sv1 Sv2]. subst a3. split; [replace (st + 46) with (st + 40 + 6) by lia; rd; lia|].
    apply udp_checksum_cut; try lia. unfold UDP.checksum_ok in *. rd. by rewrite Wa, Ws.
Qed.

Lemma UDPWriter6_build_ok n addr port buffer b a :
  writer6_ok n addr port -> Zlen buffer = n -> bytes buffer -> bytes a ->
  buf_capacity b = w_frontHeadroom w + 48 + n -> w_frontHeadroom w + 48 + n <= Zlen a ->
  exists prefix p a', runs (UDPWriter6_build darwin w buffer (netip.Addr6 addr) port b) a (prefix ++ p) a' /\
    Zlen prefix = (if darwin then 4 else w_frontHeadroom w) /\ Zlen p = 48 + n /\
    udp6_reply n addr port buffer p.
Proof.
  intros W Hbuf Bbuf Ba Hcap Hz. pose proof W as [W1 [W2 W2'] W3 W5 [W6 W6'] [W7 W7'] W8].
  set (st := w_frontHeadroom w) in *. assert (Zlen addr = 16) as La by (unfold Zlen; lia).
  destruct (two_writes b a st (w_header w) buffer) as (b' & Hk & S' & E'); [done|lia|lia|].
  pose proof (loaded_write w a st 40 n buffer Ba W1 Bbuf W2 W5 Hbuf ltac:(lia)) as Hld.
  set (a1 := write_at a st (w_header w ++ buffer)) in *.
  assert (Zlen a1 = Zlen a) as Z1 by apply Zlen_write_at.
  pose proof (loaded_sp w a1 st 40 n buffer ltac:(lia) Hld) as Esp.
  pose proof (ld_src _ _ _ _ _ _ Hld 8 16 ltac:(lia) ltac:(lia) ltac:(lia)) as Wsrc.
  assert (bytes (window (w_header w) 8 16)) as Bsrc by auto with gobytes.
  destruct (readdressed6_ok a1 st n (window (w_header w) 8 16) addr (get16 (w_header w) 40) port)
    as (B2 & Z2 & _ & El & Wa & Ws & _); try done; try lia;
    [by apply Hld|apply Zlen_window; lia|by apply get16_range|].
  set (a2 := readdressed6 a1 st n _ addr _ port) in *. set (c := Zlen a - st).
  destruct (udp_sum w (st + 40) (8 + n) (c - 40) a2 addr (window (w_header w) 8 16)) as (v & Hv & Rv & Ov & Sv); try done; try lia.
  pose proof (reply6_cut n addr port buffer a1 st v W Hbuf Hld Hv Ov Sv) as HR. fold a2 in HR.
  pose proof (Zlen_put16 a2 (st + 40 + 6) v) as Z3.
  destruct (finish_ok darwin b' (put16 a2 (st + 40 + 6) v) (w_frontHeadroom w) IPv6Version)
    as (prefix & a5 & RF & Zp); [done|by right|lia|lia|].
  rewrite S', E' in RF. replace (st + Zlen (w_header w) + Zlen buffer - st) with (48 + n) in RF by lia.
  exists prefix, (window (put16 a2 (st + 40 + 6) v) st (48 + n)), a5.
  split; [|split; [done|split; [apply Zlen_window; lia|exact HR]]].
  unfold UDPWriter6_build. fold st. apply Hk. cbv beta.
  eapply runs_bind; [apply Bytes_ok; lia|]. rewrite S', E', Z1, Hbuf. fold c.
  replace (st + Zlen (w_header w) + n - st) with (48 + n) by lia. unfold UDP.UDPMinimumSize. rewrite u16_small by lia.
  apply (readdress6_runs (fun udpHdr => ss <- IPv6.SourceAddressSlice (Slice st (48 + n) c) ;; _));
    try done; try lia; [by apply Hld|]. rewrite Wsrc, Esp. fold a2.
  eapply runs_bind; [apply IPv6.runs6_SourceAddressSlice; lia|]. eapply runs_bind; [apply IPv6.runs6_DestinationAddressSlice; lia|].
  rewrite Wa, Ws. eapply runs_bind; [apply IPv6.runs6_PayloadLength; lia|]. rewrite El.
  eapply runs_bind; [exact Rv|]. exact RF.
Qed.
End UDPReply6.

(** The packet systemUDPPacketWriter6 writes for a reply of addr:port is a
    valid IPv6 packet from addr:port to the client's address and port, carrying
    exactly the reply's bytes, with correct lengths and a valid, non-zero UDP
    checksum (zero when the device computes it). *)
Lemma UDPWriter6_correct `{ChecksumImpl} `{SingCommon} `{BufPackage} (darwin : bool) w addr port buffer :
  writer6_ok darwin w (Zlen buffer) addr port -> bytes buffer ->
  exists prefix p, UDPWriter6_WritePacket darwin w buffer (netip.Addr6 addr) port = Ok (prefix ++ p) /\
    Zlen prefix = (if darwin then 4 else w_frontHeadroom w) /\ Zlen p = 48 + Zlen buffer /\
    udp6_reply w (Zlen buffer) addr port buffer p.
Proof.
  intros W Hb. unfold UDPWriter6_WritePacket, in_new. pose proof W as [_ [? _] _ E [? _] _ _]. rewrite E.
  destruct (NewSize_ok (w_frontHeadroom w + 48 + Zlen buffer)) as (Hc & Hl & Ba); [lia|].
  destruct (NewSize _) as [b a]. cbn [fst snd] in *.
  destruct (UDPWriter6_build_ok darwin w (Zlen buffer) addr port buffer b a W eq_refl Hb Ba Hc Hl)
    as (prefix & p & a' & R & HR). exists prefix, p. by rewrite R.
Qed.

(** ** Witnesses *)

#[local] Existing Instance sing_common_loop.
#[local] Existing Instance ts64.
#[local] Existing Instance zero_pool.

Definition sample_writer4 : systemUDPPacketWriter :=
  mkUDPWriter 4 ([69; 0; 0; 32; 0; 0; 64; 0; 64; 17; 0; 0; 10; 0; 0; 2; 8; 8; 8; 8] ++ [156; 64; 0; 53; 0; 12; 0; 0])
    (netip.AddrPortFrom (netip.Addr4 [10; 0; 0; 2]) 40000) false.
Lemma UDPWriter4_correct_witness :
  exists prefix p, UDPWriter4_WritePacket true sample_writer4 [1; 2; 3] (netip.Addr4 [8; 8; 8; 8]) 53 = Ok (prefix ++ p) /\
    udp4_reply sample_writer4 20 3 [8; 8; 8; 8] 53 [1; 2; 3] p.
Proof.
  destruct (UDPWriter4_correct true sample_writer4 20 [8; 8; 8; 8] 53 [1; 2; 3]) as (prefix & p & E & _ & _ & HR);
    [concrete..|]. exists prefix, p. by split.
Defined.
Definition sample_writer6 : systemUDPPacketWriter :=
  mkUDPWriter 10 ([96; 0; 0; 0; 0; 12; 17; 64] ++ repeat 32 16 ++ repeat 33 16 ++ [156; 64; 0; 53; 0; 12; 0; 0])
    (netip.AddrPortFrom (netip.Addr6 (repeat 32 16)) 40000) false.
Lemma UDPWriter6_correct_witness :
  exists prefix p, UDPWriter6_WritePacket false sample_writer6 [1; 2; 3] (netip.Addr6 (repeat 33 16)) 53 = Ok (prefix ++ p) /\
    udp6_reply sample_writer6 3 (repeat 33 16) 53 [1; 2; 3] p.
Proof.
  destruct (UDPWriter6_correct false sample_writer6 (repeat 33 16) 53 [1; 2; 3]) as (prefix & p & E & _ & _ & HR);
    [concrete..|]. exists prefix, p. by split.
Defined.
