(* ===== verification/SystemIcmp.v ===== *)
(** * ICMP in the system stack: echo replies, unreachable messages, and what
    happens to truncated packets *)
From S2P Require Import Prelude Bytes GoMem Checksum TsChecksum Tcpip Netip HdrChecksum IPv4Options IPv4 IPv6 TCP UDP ICMP TcpNat Rewrite System SystemNat SystemPackets.

Section Echo.
Context `{ChecksumImpl}.

Lemma echo_reply4_ok m l :
  bytes m -> l <= Zlen m -> IPv4.valid_header m 0 l l -> IPv4.hlen m 0 + 8 <= get16 m 2 ->
  let t := IPv4.hlen m 0 in let n := get16 m 2 - t in
  exists m', runs (echo_reply4 (ip4 m l) (Slice t n (Zlen m - t))) m tt m' /\
    bytes m' /\ Zlen m' = Zlen m /\ IPv4.valid_header m' 0 l l /\ IPv4.checksum_ok m' 0 /\ icmp_ok m' t n 0 /\
    window m' 12 4 = window m 16 4 /\ window m' 16 4 = window m 12 4 /\ byte_at m' t = 0 /\
    (forall j, 0 <= j -> ~ (10 <= j < 20) -> j <> t -> ~ (t + 2 <= j < t + 4) -> byte_at m' j = byte_at m j).
Proof.
  intros Hb Hl (V1 & V2 & V3 & V4 & V5) Hn t n. change (0 + 2) with 2 in *. unfold ip4.
  set (src := window m 12 4). set (dst := window m 16 4).
  assert (Zlen src = 4 /\ Zlen dst = 4) as [Ls Ld] by (subst src dst; rewrite !Zlen_window; lia).
  assert (bytes src /\ bytes dst) as [Bs Bd] by (subst src dst; auto with gobytes).
  set (m3 := write_at (write_at (upd m t 0) 12 dst) 16 src).
  assert (bytes m3) as B3 by (subst m3; repeat apply bytes_write_at; try done; apply bytes_upd; done || lia).
  assert (Zlen m3 = Zlen m) as Z3 by (subst m3; by autorewrite with golen).
  destruct (runs_ICMPv4Checksum t n (Zlen m - t) m3 0) as (y & Hy & Ry & Cy); try done; try lia.
  pose proof (store_icmp m3 t n y 0 B3 ltac:(lia) ltac:(lia) ltac:(lia) Hy Cy) as I4.
  set (m4 := put16 m3 (t + 2) (not16 y)) in *.
  assert (bytes m4) as B4 by by apply bytes_put16.
  assert (Zlen m4 = Zlen m) as Z4 by (subst m4; by rewrite Zlen_put16).
  assert (IPv4.hlen m4 0 = t) as Hh4 by (subst m4 m3; unfold IPv4.hlen in *; by rd).
  destruct (IPv4.runs4_CalculateChecksum 0 l (Zlen m) m4) as (x & Rx & Hx & Cx); try done; try lia.
  pose proof (IPv4.store_checksum 0 l (Zlen m) m4 x B4 ltac:(lia) ltac:(lia) ltac:(lia) ltac:(lia) ltac:(lia) Hx Cx) as C5.
  exists (put16 m4 (0 + 10) (not16 x)). split; [|split_and!].
  - unfold echo_reply4, ICMPv4.SetType, ICMPv4.ICMPv4EchoReply. eapply runs_bind; [apply runs_set_idx; lia|]. rewrite Z.add_0_r.
    eapply runs_bind; [apply IPv4.runs4_SourceAddr; lia|]. eapply runs_bind; [apply IPv4.runs4_DestinationAddr; lia|].
    rewrite !Z.add_0_l, !window_upd_out by lia. fold src dst.
    eapply runs_bind; [apply IPv4.runs4_SetSourceAddr; cbn [netip.AsSlice]; lia|].
    eapply runs_bind; [apply IPv4.runs4_SetDestinationAddr; cbn [netip.AsSlice]; lia|].
    cbn [netip.AsSlice]. rewrite !Z.add_0_l. fold m3. eapply runs_bind; [exact Ry|].
    eapply runs_bind; [apply runs_SetChecksum4; lia|]. eapply runs_bind; [exact Rx|].
    apply IPv4.runs4_SetChecksum; lia.
  - by apply bytes_put16.
  - by rewrite Zlen_put16.
  - unfold IPv4.valid_header. rewrite IPv4.hlen_put16, Hh4 by lia. change (0 + 2) with 2. subst m4 m3. rd. done.
  - done.
  - unfold icmp_ok. rewrite window_put16_out by lia. exact I4.
  - subst m4 m3. by rd.
  - subst m4 m3. by rd.
  - subst m4 m3. by rd.
  - intros j ????. subst m4 m3. by rd.
Qed.

Lemma echo_reply6_ok m l :
  bytes m -> l <= Zlen m -> IPv6.valid_header m 0 l l -> 8 <= get16 m 4 ->
  let n := get16 m 4 in
  exists m', runs (echo_reply6 (ip6 m l) (Slice 40 n (Zlen m - 40))) m tt m' /\
    bytes m' /\ Zlen m' = Zlen m /\ IPv6.valid_header m' 0 l l /\
    icmp_ok m' 40 n (wsum (window m' 8 16) + wsum (window m' 24 16) + n + 58) /\
    window m' 8 16 = window m 24 16 /\ window m' 24 16 = window m 8 16 /\ byte_at m' 40 = 129 /\
    (forall j, 0 <= j -> ~ (8 <= j < 41) -> ~ (42 <= j < 44) -> byte_at m' j = byte_at m j).
Proof.
  intros Hb Hl (V1 & V2 & V3) Hn n. change (0 + 4) with 4 in *. unfold ip6.
  set (src := window m 8 16). set (dst := window m 24 16).
  assert (Zlen src = 16 /\ Zlen dst = 16) as [Ls Ld] by (subst src dst; rewrite !Zlen_window; lia).
  assert (bytes src /\ bytes dst) as [Bs Bd] by (subst src dst; auto with gobytes).
  pose proof (get16_range m 4 Hb).
  set (m3 := write_at (write_at (upd m 40 129) 8 dst) 24 src).
  assert (bytes m3) as B3 by (subst m3; repeat apply bytes_write_at; try done; apply bytes_upd; done || lia).
  assert (Zlen m3 = Zlen m) as Z3 by (subst m3; by autorewrite with golen).
  assert (window m3 8 16 = dst /\ window m3 24 16 = src) as [W1 W2] by (subst m3; split; by rd).
  destruct (runs_ICMPv6Checksum 40 n (Zlen m - 40) m3 dst src 0 0) as (y & Hy & Ry & Cy); try done; try lia.
  pose proof (store_icmp m3 40 n y (wsum dst + wsum src + (n + 0) + 58 + 0) B3 ltac:(lia) ltac:(lia) ltac:(lia) Hy Cy) as I4.
  exists (put16 m3 (40 + 2) (not16 y)). split; [|split_and!].
  - unfold echo_reply6, ICMPv6.SetType, ICMPv6.ICMPv6EchoReply. eapply runs_bind; [apply runs_set_idx; lia|]. rewrite Z.add_0_r.
    eapply runs_bind; [apply IPv6.runs6_SourceAddr; lia|]. eapply runs_bind; [apply IPv6.runs6_DestinationAddr; lia|].
    rewrite !Z.add_0_l, !window_upd_out by lia. fold src dst.
    eapply runs_bind; [apply IPv6.runs6_SetSourceAddr; cbn [netip.AsSlice]; lia|].
    eapply runs_bind; [apply IPv6.runs6_SetDestinationAddr; cbn [netip.AsSlice]; lia|].
    cbn [netip.AsSlice]. rewrite !Z.add_0_l. fold m3.
    eapply runs_bind; [apply IPv6.runs6_SourceAddressSlice; lia|]. eapply runs_bind; [apply IPv6.runs6_DestinationAddressSlice; lia|].
    rewrite !Z.add_0_l, W1, W2. eapply runs_bind; [exact Ry|]. apply runs_SetChecksum6; lia.
  - by apply bytes_put16.
  - by rewrite Zlen_put16.
  - unfold IPv6.valid_header. change (0 + 4) with 4. subst m3. rd. done.
  - rewrite !window_put16_out, W1, W2 by lia. unfold icmp_ok in *. etransitivity; [apply cong_refl_eq|exact I4]. lia.
  - subst m3. by rd.
  - subst m3. by rd.
  - subst m3. by rd.
  - intros j ???. subst m3. by rd.
Qed.
End Echo.

(** An ICMP packet for the interface's own address. *)
Definition echo4_packet (s : System) (m : list Z) (l : Z) : Prop :=
  bytes m /\ l <= Zlen m /\ IPv4.valid_header m 0 l l /\ IPv4.hlen m 0 + 8 <= get16 m 2 /\
  byte_at m 9 = ICMPv4.ICMPv4ProtocolNumber /\ inet4Address s = netip.Addr4 (window m 16 4) /\
  byte_at m (IPv4.hlen m 0) = ICMPv4.ICMPv4Echo /\ byte_at m (IPv4.hlen m 0 + 1) = 0.
Definition echo6_packet (s : System) (m : list Z) (l : Z) : Prop :=
  bytes m /\ l <= Zlen m /\ IPv6.valid_header m 0 l l /\ 8 <= get16 m 4 /\
  byte_at m 6 = ICMPv6.ICMPv6ProtocolNumber /\ inet6Address s = netip.Addr6 (window m 24 16) /\
  byte_at m 40 = ICMPv6.ICMPv6EchoRequest /\ byte_at m 41 = 0.

(** C37: an echo request (type echo, code 0, at least 8 bytes of payload in a
    valid packet) for the interface's own address, which is global unicast and for
    IPv4 not the broadcast address, is answered in place: processPacket returns
    true and the packet is the reply, with source and destination exchanged, the
    type changed, a valid ICMP checksum (and IPv4 header checksum), and every
    other byte (identifier, sequence number and data) as it was. *)
Theorem echo_reply_correct `{ChecksumImpl} `{SingCommon} `{BufPackage} `{Environment} {T} `{NatTable T}
    (darwin : bool) s (w : world (T := T)) now :
  (forall m l, echo4_packet s m l -> netip.IsGlobalUnicast (inet4Address s) = true -> inet4Address s <> broadcastAddr s ->
     let t := IPv4.hlen m 0 in let n := get16 m 2 - t in
     exists m', sruns (processPacket darwin s now (ip4 m l)) w m true w m' /\
       IPv4.valid_header m' 0 l l /\ IPv4.checksum_ok m' 0 /\ icmp_ok m' t n 0 /\
       window m' 12 4 = window m 16 4 /\ window m' 16 4 = window m 12 4 /\ byte_at m' t = ICMPv4.ICMPv4EchoReply /\
       (forall j, 0 <= j -> ~ (10 <= j < 20) -> j <> t -> ~ (t + 2 <= j < t + 4) -> byte_at m' j = byte_at m j)) /\
  (forall m l, echo6_packet s m l -> netip.IsGlobalUnicast (inet6Address s) = true ->
     let n := get16 m 4 in
     exists m', sruns (processPacket darwin s now (ip6 m l)) w m true w m' /\ IPv6.valid_header m' 0 l l /\
       icmp_ok m' 40 n (wsum (window m' 8 16) + wsum (window m' 24 16) + n + 58) /\
       window m' 8 16 = window m 24 16 /\ window m' 24 16 = window m 8 16 /\ byte_at m' 40 = ICMPv6.ICMPv6EchoReply /\
       (forall j, 0 <= j -> ~ (8 <= j < 41) -> ~ (42 <= j < 44) -> byte_at m' j = byte_at m j)).
Proof.
  split.
  - intros m l (Hb & Hl & HV & Hn & Hp & Ha & Ht & Hc) Hg Hbc t n.
    destruct (echo_reply4_ok m l Hb Hl HV Hn) as (m' & R & _ & _ & HR).
    exists m'. split; [|exact HR]. rewrite Ha in Hg, Hbc. apply dispatch4; try done. rewrite Hp.
    change (sruns (processIPv4ICMP darwin s (ip4 m l) (tcp4 m)) w m (true, None) w m').
    pose proof HV as (V1 & V2 & V3 & V4 & V5). change (0 + 2) with 2 in *.
    unfold processIPv4ICMP, ICMPv4.Type_, ICMPv4.Code. eapply sruns_bind; [apply sruns_mem, runs_idx; lia|].
    rewrite Z.add_0_r, Ht, Z.eqb_refl. eapply sruns_bind; [apply sruns_mem, runs_idx; lia|].
    rewrite Hc. cbn [negb orb Z.eqb]. unfold ip4 in *.
    eapply sruns_bind; [apply sruns_mem, IPv4.runs4_SourceAddr; lia|].
    eapply sruns_bind; [apply sruns_mem, IPv4.runs4_DestinationAddr; lia|].
    rewrite Z.add_0_l, Ha, bool_decide_eq_true_2 by done.
    eapply sruns_bind; [apply sruns_mem; exact R|]. apply sruns_ret.
  - intros m l (Hb & Hl & HV & Hn & Hp & Ha & Ht & Hc) Hg n.
    destruct (echo_reply6_ok m l Hb Hl HV Hn) as (m' & R & _ & _ & HR).
    exists m'. split; [|exact HR]. rewrite Ha in Hg. apply dispatch6; try done. rewrite Hp.
    change (sruns (processIPv6ICMP darwin s (ip6 m l) (tcp6 m)) w m (true, None) w m').
    pose proof HV as (V1 & V2 & V3). change (0 + 4) with 4 in *.
    unfold processIPv6ICMP, ICMPv6.Type_, ICMPv6.Code. eapply sruns_bind; [apply sruns_mem, runs_idx; lia|].
    rewrite Z.add_0_r, Ht, Z.eqb_refl. eapply sruns_bind; [apply sruns_mem, runs_idx; lia|].
    replace (byte_at m (40 + 1)) with 0 by done. cbn [negb orb Z.eqb]. unfold ip6 in *.
    eapply sruns_bind; [apply sruns_mem, IPv6.runs6_SourceAddr; lia|].
    eapply sruns_bind; [apply sruns_mem, IPv6.runs6_DestinationAddr; lia|].
    rewrite Z.add_0_l, Ha, bool_decide_eq_true_2 by done.
    eapply sruns_bind; [apply sruns_mem; exact R|]. apply sruns_ret.
Qed.

(** ** Destination unreachable *)

(** An ICMP error in the array: type, code, checksum and the quoted packet; the
    four bytes in between keep what the pool held. *)
Definition icmp_error (a : list Z) (t ty code x : Z) (q : list Z) : list Z :=
  write_at (put16 (upd (upd a t ty) (t + 1) code) (t + 2) x) (t + 8) q.

Lemma icmp_error_sum a t ty code y q s ps :
  bytes a -> is_u8 ty -> is_u8 code -> 0 <= t -> t + 8 + Zlen q <= Zlen a -> is_u16 y ->
  y ≡₁ s + ps + wsum (window (upd (upd a t ty) (t + 1) code) t 8) - get16 (upd (upd a t ty) (t + 1) code) (t + 2) ->
  s + wsum (window (icmp_error a t ty code (not16 y) q) t (8 + Zlen q)) ≡₁ wsum q - ps.
Proof.
  intros Ba Hty Hco Ht Hz Hy Hc. unfold icmp_error. set (a3 := upd (upd a t ty) (t + 1) code) in *.
  assert (bytes a3) as B3 by (subst a3; repeat apply bytes_upd; done).
  assert (Zlen a3 = Zlen a) as Z3 by (subst a3; by autorewrite with golen). pose proof (Zlen_nonneg q).
  rewrite window_app by lia. rewrite window_write_at_out by (rewrite ?Zlen_put16; lia).
  rewrite window_write_at_eq by (rewrite ?Zlen_put16; lia).
  rewrite wsum_app by (rewrite Zlen_window by (rewrite ?Zlen_put16; lia); by exists 4).
  rewrite wsum_window_put16; auto with gobytes; try lia; [|exists 1; lia].
  rewrite not16_cong, Hc by done. apply cong_refl_eq. lia.
Qed.
Lemma icmp_error_frame a t ty code x q j :
  0 <= j -> j < t -> t + 8 + Zlen q <= Zlen a -> byte_at (icmp_error a t ty code x q) j = byte_at a j.
Proof. intros. pose proof (Zlen_nonneg q). unfold icmp_error. by rd. Qed.
Lemma icmp_error_fields a t ty code x q :
  0 <= t -> t + 8 + Zlen q <= Zlen a ->
  byte_at (icmp_error a t ty code x q) t = ty /\ byte_at (icmp_error a t ty code x q) (t + 1) = code /\
  window (icmp_error a t ty code x q) (t + 8) (Zlen q) = q /\ Zlen (icmp_error a t ty code x q) = Zlen a.
Proof.
  intros. pose proof (Zlen_nonneg q). unfold icmp_error. split_and!; [by rd|by rd|by rd|by autorewrite with golen].
Qed.
Lemma icmp_error_bytes a t ty code x q :
  bytes a -> is_u8 ty -> is_u8 code -> bytes q -> bytes (icmp_error a t ty code x q).
Proof. intros. unfold icmp_error. auto with gobytes. Qed.

Section Reject.
Context `{ChecksumImpl} `{SingCommon} `{BufPackage} (darwin : bool) (s : System).
Hypothesis Hroom : 0 <= frontHeadroom s.

(** The message: an IPv6 packet from [sb] to [db] with the quoted packet. *)
Record unreachable6 (p sb db q : list Z) (code : Z) : Prop := {
  r6_hdr : is_header6 p 0 (8 + Zlen q) ICMPv6.ICMPv6ProtocolNumber sb db;
  r6_len : Zlen p = 48 + Zlen q;
  r6_type : byte_at p 40 = ICMPv6.ICMPv6DstUnreachable;
  r6_code : byte_at p 41 = code;
  r6_quote : window p 48 (Zlen q) = q;
  r6_sum : icmp_ok p 40 (8 + Zlen q) (wsum sb + wsum db + (8 + Zlen q) + 58)
}.

Lemma build_reject6_ok sb db code q :
  bytes sb -> length sb = 16%nat -> bytes db -> length db = 16%nat -> is_u8 code -> bytes q -> Zlen q <= 1232 ->
  exists prefix p,
    in_new (frontHeadroom s + PacketOffset darwin + IPv6MinimumSize + ICMPv6.ICMPv6DstUnreachableMinimumSize + Zlen q)
      (build_reject6 darwin s (netip.Addr6 sb) (netip.Addr6 db) code q) = Ok (prefix ++ p) /\
    Zlen prefix = (if darwin then 4 else frontHeadroom s) /\ unreachable6 p sb db q code.
Proof.
  intros Bs Ls Bd Ld Hco Bq Hq. pose proof (Zlen_nonneg q) as Hq0. pose proof (room_nonneg darwin s Hroom) as Hst.
  unfold in_new, IPv6MinimumSize, ICMPv6.ICMPv6DstUnreachableMinimumSize, ICMPv6.ICMPv6MinimumSize.
  destruct (NewSize_ok (frontHeadroom s + PacketOffset darwin + 40 + 8 + Zlen q)) as (_ & Hlen & Hb); [lia|].
  destruct (NewSize _) as [b a]. cbn [fst snd] in Hlen, Hb.
  unfold build_reject6, IPv6MinimumSize, ICMPv6.ICMPv6DstUnreachableMinimumSize, ICMPv6.ICMPv6MinimumSize.
  pose proof (finish_resized darwin s Hroom b) as RF. set (st := frontHeadroom s + PacketOffset darwin) in *.
  set (n := 8 + Zlen q). replace (40 + 8 + Zlen q) with (40 + n) by lia. set (c := Zlen a - st).
  pose proof (runs_header6 a st (40 + n) c n 58 sb db ltac:(lia) ltac:(lia) ltac:(lia) ltac:(lia) ltac:(lia) ltac:(lia) Bs Ls Bd Ld) as R1.
  pose proof (header6_ok a st n 58 sb db ltac:(lia) ltac:(lia) ltac:(lia) ltac:(unfold Zlen; lia) ltac:(unfold Zlen; lia)) as H1h.
  set (a1 := header6 a st n 58 sb db) in *.
  assert (Zlen a1 = Zlen a) as Z1 by apply header6_len.
  assert (bytes a1) as B1 by (apply header6_bytes; done || lia).
  pose proof (h6_len _ _ _ _ _ _ H1h) as Hl1.
  set (a3 := upd (upd a1 (st + 40) 1) (st + 40 + 1) code).
  assert (bytes a3) as B3 by (subst a3; do 2 (apply bytes_upd; [|lia]); done).
  assert (Zlen a3 = Zlen a) as Z3 by (subst a3; by autorewrite with golen).
  assert (is_u16 (Checksum q 0)) as Uq by (apply Checksum_range; done).
  destruct (runs_ICMPv6Checksum (st + 40) 8 (c - 40) a3 sb db (Checksum q 0) (Zlen q)) as (y & Hy & Ry & Cy); try done; try lia.
  assert (is_u8 1) as U1 by lia.
  pose proof (icmp_error_sum a1 (st + 40) 1 code y q (wsum sb + wsum db + n + 58) (Checksum q 0) B1 U1 Hco ltac:(lia) ltac:(lia) Hy Cy) as HS.
  destruct (icmp_error_fields a1 (st + 40) 1 code (not16 y) q) as (F1 & F2 & F3 & F4); [lia|lia|].
  pose proof (fun j H0 H1 => icmp_error_frame a1 (st + 40) 1 code (not16 y) q j H0 H1 ltac:(lia)) as J4.
  set (a4 := icmp_error a1 (st + 40) 1 code (not16 y) q) in *.
  assert (is_header6 a4 st n 58 sb db) as H4h by (apply (is_header6_agree a1); [done|lia|lia|]; intros; apply J4; lia).
  destruct (RF a4 (40 + n) IPv6Version ltac:(lia) ltac:(lia)) as (prefix & a5 & R5 & Zp).
  exists prefix, (window a4 st (40 + n)). split; [|split; [done|]].
  - erewrite (runs_bind _ _ a); [reflexivity|apply runs_Bytes_resized; lia|]. fold c. rewrite (u16_small n) by lia.
    eapply runs_bind; [exact R1|]. eapply runs_bind; [apply IPv6.runs6_Payload; rewrite ?Hl1; done || lia|]. rewrite Hl1.
    unfold ICMPv6.SetType, ICMPv6.SetCode. eapply runs_bind; [apply runs_set_idx; lia|]. rewrite Z.add_0_r.
    eapply runs_bind; [apply runs_set_idx; lia|]. eapply runs_bind; [apply runs_reslice; lia|].
    change ICMPv6.ICMPv6DstUnreachable with 1. fold a3. rewrite Z.add_0_r.
    assert (is_header6 a3 st n 58 sb db) as H3h.
    { apply (is_header6_agree a1); [done|lia|lia|]. intros j ?. subst a3. by rd. }
    eapply runs_bind; [apply IPv6.runs6_SourceAddressSlice; lia|]. eapply runs_bind; [apply IPv6.runs6_DestinationAddressSlice; lia|].
    rewrite (h6_src _ _ _ _ _ _ H3h), (h6_dst _ _ _ _ _ _ H3h). change (8 - 0) with 8. replace (c - 40 - 0) with (c - 40) by lia.
    eapply runs_bind; [exact Ry|]. eapply runs_bind; [apply runs_SetChecksum6; lia|].
    unfold ICMPv6.Payload. eapply runs_bind; [apply runs_tail; lia|]. eapply runs_bind; [apply runs_copy_to; lia|]. exact R5.
  - split.
    + replace (8 + Zlen q) with n by done. apply is_header6_cut; done || lia.
    + rewrite Zlen_window; lia.
    + rewrite byte_at_cut by lia. done.
    + rewrite byte_at_cut by lia. by replace (st + 41) with (st + 40 + 1) by lia.
    + rewrite window_cut by lia. by replace (st + 48) with (st + 40 + 8) by lia.
    + unfold icmp_ok. rewrite window_cut by lia. etransitivity; [exact HS|]. rewrite Checksum_cong by done. apply cong_refl_eq. lia.
Qed.

(** The IPv4 message, without its ICMP checksum. *)
Record unreachable4 (p sb db q : list Z) (code : Z) : Prop := {
  r4_hdr : is_header4 p 0 (28 + Zlen q) ICMPv4.ICMPv4ProtocolNumber sb db;
  r4_len : Zlen p = 28 + Zlen q;
  r4_sum : IPv4.checksum_ok p 0;
  r4_type : byte_at p 20 = ICMPv4.ICMPv4DstUnreachable;
  r4_code : byte_at p 21 = code;
  r4_quote : window p 28 (Zlen q) = q
}.

Lemma build_reject4_ok sb db code q rest :
  bytes sb -> length sb = 4%nat -> bytes db -> length db = 4%nat -> is_u8 code -> bytes q -> Zlen q <= 548 -> bytes rest ->
  exists prefix p,
    in_new (frontHeadroom s + PacketOffset darwin + IPv4MinimumSize + ICMPv4.ICMPv4MinimumSize + Zlen q)
      (build_reject4 darwin s (netip.Addr4 sb) (netip.Addr4 db) code q rest) = Ok (prefix ++ p) /\
    Zlen prefix = (if darwin then 4 else frontHeadroom s) /\ unreachable4 p sb db q code /\
    wsum (window p 20 (8 + Zlen q)) ≡₁ wsum q - wsum rest.
Proof.
  intros Bs Ls Bd Ld Hco Bq Hq Br. pose proof (Zlen_nonneg q) as Hq0. pose proof (room_nonneg darwin s Hroom) as Hst.
  unfold in_new, IPv4MinimumSize, ICMPv4.ICMPv4MinimumSize.
  destruct (NewSize_ok (frontHeadroom s + PacketOffset darwin + 20 + 8 + Zlen q)) as (_ & Hlen & Hb); [lia|].
  destruct (NewSize _) as [b a]. cbn [fst snd] in Hlen, Hb.
  unfold build_reject4, IPv4MinimumSize, ICMPv4.ICMPv4MinimumSize.
  pose proof (finish_resized darwin s Hroom b) as RF. set (st := frontHeadroom s + PacketOffset darwin) in *.
  set (n := 20 + 8 + Zlen q). set (c := Zlen a - st).
  pose proof (runs_header4 a st c n 1 sb db ltac:(lia) ltac:(lia) ltac:(lia) ltac:(lia) ltac:(lia) ltac:(lia) Bs Ls Bd Ld) as R1.
  pose proof (header4_ok a st n 1 sb db ltac:(lia) ltac:(lia) ltac:(lia) ltac:(lia) Bs ltac:(unfold Zlen; lia) Bd ltac:(unfold Zlen; lia)) as H1h.
  set (a1 := header4 a st n 1 sb db) in *.
  assert (Zlen a1 = Zlen a) as Z1 by apply header4_len.
  assert (bytes a1) as B1 by (apply header4_bytes; done || lia).
  pose proof (h4_hlen _ _ _ _ _ _ H1h) as Hh1.
  destruct (IPv4.runs4_CalculateChecksum st n c a1) as (x & Rx & Hx & Cx); try done; try lia.
  pose proof (IPv4.store_checksum st n c a1 x B1 ltac:(lia) ltac:(lia) ltac:(lia) ltac:(lia) ltac:(lia) Hx Cx) as C2.
  set (a2 := put16 a1 (st + 10) (not16 x)) in *.
  assert (bytes a2) as B2 by by apply bytes_put16.
  assert (Zlen a2 = Zlen a) as Z2 by (subst a2; by rewrite Zlen_put16).
  assert (is_header4 a2 st n 1 sb db) as H2h
    by (apply (is_header4_agree a1); [done|lia|lia|]; intros; subst a2; apply byte_at_put16_ne; lia).
  pose proof (h4_hlen _ _ _ _ _ _ H2h) as Hh2. pose proof (h4_len _ _ _ _ _ _ H2h) as Hl2.
  set (a3 := upd (upd a2 (st + 20) 3) (st + 20 + 1) code).
  assert (bytes a3) as B3 by (subst a3; do 2 (apply bytes_upd; [|lia]); done).
  assert (Zlen a3 = Zlen a) as Z3 by (subst a3; by autorewrite with golen).
  assert (is_u16 (Checksum rest 0)) as Ur by (apply Checksum_range; done).
  destruct (runs_ICMPv4Checksum (st + 20) 8 (c - 20) a3 (Checksum rest 0)) as (y & Hy & Ry & Cy); try done; try lia.
  assert (is_u8 3) as U1 by lia.
  pose proof (icmp_error_sum a2 (st + 20) 3 code y q 0 (Checksum rest 0) B2 U1 Hco ltac:(lia) ltac:(lia) Hy Cy) as HS.
  destruct (icmp_error_fields a2 (st + 20) 3 code (not16 y) q) as (F1 & F2 & F3 & F4); [lia|lia|].
  pose proof (fun j G0 G1 => icmp_error_frame a2 (st + 20) 3 code (not16 y) q j G0 G1 ltac:(lia)) as J4.
  set (a4 := icmp_error a2 (st + 20) 3 code (not16 y) q) in *.
  assert (is_header4 a4 st n 1 sb db) as H4h by (apply (is_header4_agree a2); [done|lia|lia|]; intros; apply J4; lia).
  destruct (RF a4 n IPv4Version ltac:(lia) ltac:(lia)) as (prefix & a5 & R5 & Zp).
  exists prefix, (window a4 st n). split; [|split; [done|split]].
  - erewrite (runs_bind _ _ a); [reflexivity|apply runs_Bytes_resized; lia|]. fold c. cbn [sl_len]. rewrite (u16_small n) by lia.
    eapply runs_bind; [exact R1|]. eapply runs_bind; [exact Rx|]. eapply runs_bind; [apply IPv4.runs4_SetChecksum; lia|]. fold a2.
    eapply runs_bind; [apply IPv4.runs4_Payload; rewrite ?Hh2, ?Hl2; done || lia|]. rewrite Hh2, Hl2.
    unfold ICMPv4.SetType, ICMPv4.SetCode. eapply runs_bind; [apply runs_set_idx; lia|]. rewrite Z.add_0_r.
    eapply runs_bind; [apply runs_set_idx; lia|]. eapply runs_bind; [apply runs_reslice; lia|].
    change ICMPv4.ICMPv4DstUnreachable with 3. fold a3. rewrite Z.add_0_r. change (8 - 0) with 8. replace (c - 20 - 0) with (c - 20) by lia.
    eapply runs_bind; [exact Ry|]. eapply runs_bind; [apply runs_SetChecksum4; lia|].
    unfold ICMPv4.Payload. eapply runs_bind; [apply runs_tail; lia|]. eapply runs_bind; [apply runs_copy_to; lia|]. exact R5.
  - assert (window a4 st 20 = window a2 st 20) as W20.
    { apply bytes_ext; [rewrite !Zlen_window; lia|]. intros i Hi. rewrite Zlen_window in Hi by lia.
      rewrite !byte_at_window by lia. apply J4; lia. }
    split.
    + replace (28 + Zlen q) with n by lia. apply is_header4_cut; done || lia.
    + rewrite Zlen_window; lia.
    + apply ip4_checksum_cut; rewrite ?(h4_hlen _ _ _ _ _ _ H4h); try lia. unfold IPv4.checksum_ok in *.
      rewrite (h4_hlen _ _ _ _ _ _ H4h), W20. by rewrite Hh2 in C2.
    + rewrite byte_at_cut by lia. done.
    + rewrite byte_at_cut by lia. by replace (st + 21) with (st + 20 + 1) by lia.
    + rewrite window_cut by lia. by replace (st + 28) with (st + 20 + 8) by lia.
  - rewrite window_cut by lia. rewrite Checksum_cong in HS by done.
    etransitivity; [|etransitivity; [exact HS|]]; apply cong_refl_eq; lia.
Qed.
End Reject.

(** When the handler resets an IPv6 echo request, rejectIPv6WithICMP writes
    one ICMPv6 destination-unreachable message from the destination back to the
    client, quoting the packet (cut to fit the minimum MTU), with a valid
    checksum whatever the buffer pool held. *)
Lemma rejectIPv6_correct `{ChecksumImpl} `{SingCommon} `{BufPackage} `{Environment} {T} `{NatTable T}
    (darwin : bool) s (w : world (T := T)) m l code :
  0 <= frontHeadroom s -> bytes m -> l <= Zlen m -> IPv6.valid_header m 0 l l -> is_u8 code -> 48 <= mtu s ->
  let q := window m 0 (Z.min l (Z.min (mtu s) 1240 - 8)) in
  exists prefix p,
    sruns (rejectIPv6WithICMP darwin s (ip6 m l) code) w m (tun_Write (prefix ++ p)) (log_write w (prefix ++ p)) m /\
    Zlen prefix = (if darwin then 4 else frontHeadroom s) /\
    unreachable6 p (window m 24 16) (window m 8 16) q code.
Proof.
  intros Hr Hb Hl (V1 & V2 & V3) Hco Hmtu q. pose proof (get16_range m (0 + 4) Hb).
  assert (Zlen q = Z.min l (Z.min (mtu s) 1240 - 8)) as Lq by (subst q; apply Zlen_window; lia).
  pose proof (Zlen_window m 24 16). pose proof (Zlen_window m 8 16).
  destruct (build_reject6_ok darwin s Hr (window m 24 16) (window m 8 16) code q) as (prefix & p & B & Zp & HU);
    auto with gobytes; try (unfold Zlen in *; lia); [subst q; auto with gobytes|].
  exists prefix, p. split; [|done]. unfold rejectIPv6WithICMP, ip6. change maxIPv6Data with 1240.
  unfold ICMPv6.ICMPv6ErrorHeaderSize, IPv6MinimumSize. cbn [sl_len].
  replace (Z.min (mtu s) 1240 - 8 <? 40) with false by lia.
  eapply (sruns_bind _ _ _ _ (Slice 0 (Z.min l (Z.min (mtu s) 1240 - 8)) (Zlen m))).
  { destruct (Z.ltb_spec (Z.min (mtu s) 1240 - 8) l).
    - rewrite (Z.min_r l) by lia. apply sruns_mem. eapply runs_eq; [apply runs_reslice; lia|f_equal; lia|done].
    - rewrite (Z.min_l l) by lia. apply sruns_ret. }
  eapply sruns_bind; [apply sruns_mem, IPv6.runs6_DestinationAddr; lia|].
  eapply sruns_bind; [apply sruns_mem, IPv6.runs6_SourceAddr; lia|].
  eapply sruns_bind; [apply sruns_mem, runs_contents|]. fold q. rewrite !Z.add_0_l.
  eapply sruns_bind; [apply sruns_pure; exact B|]. unfold write_tun. eapply sruns_bind; [done|]. done.
Qed.

(** C36: rejectIPv4WithICMP writes a destination-unreachable message that quotes
    the whole packet, with a valid IPv4 header checksum; but its ICMP checksum
    is taken over the payload of the packet instead of the quoted packet, so
    the message verifies exactly when the header checksum of the client's own
    packet was valid. *)
Theorem rejectIPv4_checksum `{ChecksumImpl} `{SingCommon} `{BufPackage} `{Environment} {T} `{NatTable T}
    (darwin : bool) s (w : world (T := T)) m l code :
  0 <= frontHeadroom s -> bytes m -> l <= Zlen m -> IPv4.valid_header m 0 l l -> get16 m 2 = l -> is_u8 code ->
  l + 16 <= Z.min (mtu s) 556 ->
  exists prefix p,
    sruns (rejectIPv4WithICMP darwin s (ip4 m l) code) w m (tun_Write (prefix ++ p)) (log_write w (prefix ++ p)) m /\
    Zlen prefix = (if darwin then 4 else frontHeadroom s) /\
    unreachable4 p (window m 16 4) (window m 12 4) (window m 0 l) code /\
    (icmp_ok p 20 (8 + l) 0 <-> IPv4.checksum_ok m 0).
Proof.
  intros Hr Hb Hl (V1 & V2 & V3 & V4 & V5) Hlen Hco Hmtu. change (0 + 2) with 2 in *.
  set (h := IPv4.hlen m 0) in *. set (q := window m 0 l). set (rest := window m h (l - h)).
  assert (Zlen q = l) as Lq by (subst q; apply Zlen_window; lia).
  pose proof (Zlen_window m 12 4). pose proof (Zlen_window m 16 4).
  destruct (build_reject4_ok darwin s Hr (window m 16 4) (window m 12 4) code q rest) as (prefix & p & B & Zp & HU & HC);
    auto with gobytes; try (unfold Zlen in *; lia); try (subst q rest; auto with gobytes; fail).
  exists prefix, p. split; [|split; [done|split; [done|]]].
  - unfold rejectIPv4WithICMP, ip4. change maxIPData with 556.
    unfold ICMPv4.ICMPv4MinimumSize, ICMPv4.ICMPv4MinimumErrorPayloadSize. cbn [sl_len].
    replace (Z.min (mtu s) 556 - 8 <? l + 8) with false by lia. replace (Z.min (mtu s) 556 - 8 <? l) with false by lia.
    eapply sruns_bind; [apply sruns_ret|]. eapply sruns_bind; [apply sruns_mem, IPv4.runs4_DestinationAddr; lia|].
    eapply sruns_bind; [apply sruns_mem, IPv4.runs4_SourceAddr; lia|].
    eapply sruns_bind; [apply sruns_mem, IPv4.runs4_Payload; change (0 + 2) with 2; done || lia|].
    change (0 + 2) with 2. rewrite Hlen. fold h. rewrite !Z.add_0_l.
    eapply sruns_bind; [apply sruns_mem, runs_contents|]. eapply sruns_bind; [apply sruns_mem, runs_contents|]. fold q rest.
    eapply sruns_bind; [apply sruns_pure; exact B|]. unfold write_tun. eapply sruns_bind; [done|]. done.
  - assert (q = window m 0 h ++ rest) as Eq by (subst q rest; replace l with (h + (l - h)) at 1 by lia; by rewrite window_app by lia).
    assert (wsum q - wsum rest = wsum (window m 0 h)) as Ew.
    { rewrite Eq, wsum_app; [lia|]. rewrite Zlen_window by lia. destruct (IPv4.hlen_range m 0) as [_ ?]. exists (h / 2). subst h. zdm. }
    rewrite Lq, Ew in HC. unfold icmp_ok, IPv4.checksum_ok. fold h. rewrite Z.add_0_l. by rewrite HC.
Qed.

(** ** Truncated packets *)

Lemma spanics_bind {A B} `{Environment} {T} (c : SM (T := T) A) (k : A -> SM B) w m :
  c w m = Panic -> sbind c k w m = Panic.
Proof. unfold sbind. by intros ->. Qed.
Lemma spanics_bind_r {A B} `{Environment} {T} (c : SM (T := T) A) (k : A -> SM B) w m a w' m' :
  sruns c w m a w' m' -> k a w' m' = Panic -> sbind c k w m = Panic.
Proof. unfold sruns, sbind. by intros ->. Qed.
Lemma spanics_mem {A} `{Environment} {T} (c : M A) (w : world (T := T)) m : panics c m -> mem c w m = Panic.
Proof. unfold panics, mem. by intros ->. Qed.

(** C38: the packet path does not test the length of the transport header.
    processPacket panics (index out of range in the port accessor) on every IPv4
    packet that IsValid accepts, whose payload has fewer than 2 bytes and whose
    destination is global unicast and not the broadcast address of the interface,
    when the protocol is TCP and the stack has an IPv4 NAT table, or when the
    protocol is UDP and the flags and the fragment offset are all zero. *)
Theorem processPacket_truncated_panics `{ChecksumImpl} `{SingCommon} `{BufPackage} `{Environment} {T} `{NatTable T}
    (darwin : bool) s (w : world (T := T)) now m l :
  bytes m -> l <= Zlen m -> IPv4.valid_header m 0 l l -> get16 m 2 - IPv4.hlen m 0 < 2 ->
  netip.IsGlobalUnicast (netip.Addr4 (window m 16 4)) = true -> netip.Addr4 (window m 16 4) <> broadcastAddr s ->
  (byte_at m 9 = TCP.TCPProtocolNumber /\ is_Some (tcpNat4 w)) \/ (byte_at m 9 = UDP.UDPProtocolNumber /\ get16 m 6 = 0) ->
  processPacket darwin s now (ip4 m l) w m = Panic.
Proof.
  intros Hb Hl HV Hn Hg Hd Hp. pose proof HV as (V1 & V2 & V3 & V4 & V5). change (0 + 2) with 2 in *.
  pose proof (IPv4.runs4_Payload 0 l (Zlen m) m Hb ltac:(lia) ltac:(lia) V3 V4) as RP. rewrite Z.add_0_l in RP.
  unfold processPacket, ip4. change (0 + 2) with 2 in *.
  eapply spanics_bind_r; [apply sruns_mem, IPv4.runs_IPVersion; lia|].
  replace (_ =? IPv4Version) with true
    by (symmetry; apply Z.eqb_eq; rewrite Z.shiftr_div_pow2 by lia; exact V5).
  apply spanics_bind. destruct (IPv4.runs4_IsValid 0 l (Zlen m) l m) as (v & Rv & Hv); [done|].
  eapply spanics_bind_r; [apply sruns_mem; exact Rv|]. assert (v = true) as -> by by apply Hv. cbn [negb].
  unfold processIPv4. eapply spanics_bind_r; [apply sruns_mem, IPv4.runs4_DestinationAddr; lia|].
  rewrite Z.add_0_l, bool_decide_eq_false_2, Hg by done. cbn [negb orb].
  eapply spanics_bind_r; [apply sruns_mem, IPv4.runs4_TransportProtocol; lia|]. rewrite Z.add_0_l. apply spanics_bind.
  destruct Hp as [[-> [nat Hnat]]|[-> Hz]].
  - rewrite Z.eqb_refl. eapply spanics_bind_r; [by apply sruns_mem|]. unfold processIPv4TCP.
    eapply spanics_bind_r; [done|]. rewrite Hnat.
    eapply spanics_bind_r; [apply sruns_mem, IPv4.runs4_SourceAddr; lia|].
    apply spanics_bind, spanics_mem. unfold TCP.SourcePort.
    eapply panics_bind_r; [apply runs_tail; lia|]. apply panics_Uint16. lia.
  - change (UDP.UDPProtocolNumber =? TCP.TCPProtocolNumber) with false. rewrite Z.eqb_refl. cbn iota.
    eapply spanics_bind_r; [by apply sruns_mem|]. apply spanics_bind. unfold processIPv4UDP.
    eapply spanics_bind_r; [apply sruns_mem, IPv4.runs4_Flags; lia|]. rewrite Z.add_0_l, Hz.
    change (negb (Z.land (u8 (Z.shiftr 0 13)) IPv4FlagMoreFragments =? 0)) with false. cbn iota.
    eapply spanics_bind_r; [apply sruns_mem, IPv4.runs_FragmentOffset; lia|]. rewrite Z.add_0_l, Hz.
    change (negb (u16 (Z.shiftl 0 3) =? 0)) with false. cbn iota.
    eapply spanics_bind_r; [apply sruns_mem, IPv4.runs4_SourceAddr; lia|].
    apply spanics_bind, spanics_mem. unfold UDP.SourcePort.
    eapply panics_bind_r; [apply runs_tail; lia|]. apply panics_Uint16. lia.
Qed.

(** ** Witnesses *)

#[local] Existing Instance null_environment.
#[local] Existing Instance sing_common_loop.
#[local] Existing Instance ts64.
#[local] Existing Instance zero_pool.

Definition sample_ping4 : list Z :=
  [69; 0; 0; 30; 0; 0; 64; 0; 64; 1; 0; 0; 10; 0; 0; 2; 172; 19; 0; 1; 8; 0; 0; 0; 0; 1; 0; 1; 97; 98].
Lemma echo_reply_correct_witness :
  exists m', sruns (processPacket false sample_system 7 (ip4 sample_ping4 30)) sample_world sample_ping4 true sample_world m' /\
    IPv4.checksum_ok m' 0 /\ icmp_ok m' 20 10 0.
Proof.
  destruct (proj1 (echo_reply_correct false sample_system sample_world 7) sample_ping4 30)
    as (m' & R & _ & C & I & _); [concrete..|].
  exists m'. split; [exact R|]. by split.
Defined.

Definition sample_ping6 : list Z :=
  [96; 0; 0; 0; 0; 10; 58; 64] ++ repeat 32 16 ++ repeat 33 16 ++ [128; 0; 0; 0; 0; 1; 0; 1; 97; 98].
Lemma rejectIPv6_correct_witness :
  exists prefix p,
    sruns (rejectIPv6WithICMP false sample_system (ip6 sample_ping6 50) 3) sample_world sample_ping6
      None (log_write sample_world (prefix ++ p)) sample_ping6 /\
    unreachable6 p (repeat 33 16) (repeat 32 16) sample_ping6 3.
Proof.
  destruct (rejectIPv6_correct false sample_system sample_world sample_ping6 50 3) as (prefix & p & R & _ & HU); [concrete..|].
  exists prefix, p. split; [exact R|exact HU].
Defined.

Lemma rejectIPv4_checksum_witness :
  exists prefix p,
    sruns (rejectIPv4WithICMP false sample_system (ip4 sample_ping4 30) 1) sample_world sample_ping4
      None (log_write sample_world (prefix ++ p)) sample_ping4 /\
    (icmp_ok p 20 38 0 <-> IPv4.checksum_ok sample_ping4 0).
Proof.
  destruct (rejectIPv4_checksum false sample_system sample_world sample_ping4 30 1) as (prefix & p & R & _ & _ & HU); [concrete..|].
  exists prefix, p. split; [exact R|exact HU].
Defined.

(** A bare IPv4 header with protocol TCP. *)
Definition sample_truncated : list Z := [69; 0; 0; 20; 0; 0; 64; 0; 64; 6; 0; 0; 10; 0; 0; 2; 93; 184; 216; 34].
Lemma processPacket_truncated_panics_witness :
  processPacket false sample_system 7 (ip4 sample_truncated 20) sample_world sample_truncated = Panic.
Proof.
  apply (processPacket_truncated_panics false sample_system sample_world 7 sample_truncated 20); [concrete..|].
  left. split; [reflexivity|]. eexists. reflexivity.
Defined.
