(* ===== verification/SystemSafe.v ===== *)
(** * The packet path does not panic

    [world_ok] is the invariant of a running stack: the NAT table of a family
    exists only when the interface has addresses of that family, and the
    sessions it holds are between addresses of that family.  Every handler keeps
    it and returns, for a packet anywhere in its buffer, when the transport
    header the IP header announces is complete. *)
From S2P Require Import Prelude Bytes GoMem Checksum TsChecksum Tcpip Netip HdrChecksum IPv4Options IPv4 IPv6 TCP UDP ICMP TcpNat Rewrite System SystemNat SystemPackets SystemIcmp.

(** ** Complete packets *)

(** The transport header of the IPv4 packet at [o] is complete (vacuous when
    the IP header is not valid, since such a packet is refused first). *)
Definition complete4 (m : list Z) (o l : Z) : Prop :=
  IPv4.valid_header m o l l ->
  let t := o + IPv4.hlen m o in let n := get16 m (o + 2) - IPv4.hlen m o in
  if byte_at m (o + 9) =? TCP.TCPProtocolNumber then 20 <= n /\ TCP.doff m t <= n
  else if byte_at m (o + 9) =? UDP.UDPProtocolNumber then 8 <= n
  else if byte_at m (o + 9) =? ICMPv4.ICMPv4ProtocolNumber then 8 <= n
  else True.
Definition complete6 (m : list Z) (o l : Z) : Prop :=
  IPv6.valid_header m o l l ->
  let n := get16 m (o + 4) in
  if byte_at m (o + 6) =? TCP.TCPProtocolNumber then 20 <= n /\ TCP.doff m (o + 40) <= n
  else if byte_at m (o + 6) =? UDP.UDPProtocolNumber then 8 <= n
  else if byte_at m (o + 6) =? ICMPv6.ICMPv6ProtocolNumber then 8 <= n
  else True.
Definition complete (m : list Z) (o l : Z) : Prop := complete4 m o l /\ complete6 m o l.

(** ** The invariant *)

Definition is4 (a : netip.Addr) : Prop := exists b, a = netip.Addr4 b /\ bytes b /\ length b = 4%nat.
Definition is6 (a : netip.Addr) : Prop := exists b, a = netip.Addr6 b /\ bytes b /\ length b = 16%nat.
Definition end_in (fam : netip.Addr -> Prop) (a : netip.AddrPort) : Prop := fam (netip.ap_addr a) /\ is_u16 (netip.ap_port a).
Definition key_in (fam : netip.Addr -> Prop) (k : tcpNatKey) : Prop := end_in fam (k_Source k) /\ end_in fam (k_Destination k).

Lemma end_in_pair (fam : netip.Addr -> Prop) a p : fam a -> is_u16 p -> end_in fam (netip.AddrPortFrom a p).
Proof. by split. Qed.
Lemma is4_window m o : bytes m -> 0 <= o -> o + 4 <= Zlen m -> is4 (netip.Addr4 (window m o 4)).
Proof. intros. eexists. split; [done|]. split; [by apply bytes_window|]. pose proof (Zlen_window m o 4). unfold Zlen in *. lia. Qed.
Lemma is6_window m o : bytes m -> 0 <= o -> o + 16 <= Zlen m -> is6 (netip.Addr6 (window m o 16)).
Proof. intros. eexists. split; [done|]. split; [by apply bytes_window|]. pose proof (Zlen_window m o 16). unfold Zlen in *. lia. Qed.

Definition system_ok (s : System) : Prop := 0 <= frontHeadroom s /\ is_u16 (tcpPort s) /\ is_u16 (tcpPort6 s).

Section Safe.
Context `{CI : ChecksumImpl} `{SC : SingCommon} `{BP : BufPackage} `{EN : Environment} {T : Type} `{NT : NatTable T}.
Context (darwin : bool) (s : System).

Definition nat_ok (fam : netip.Addr -> Prop) (t : T) : Prop := nt_inv t /\ forall p k, nt_maps t p k -> key_in fam k.
Definition family_ok (fam : netip.Addr -> Prop) (me next : netip.Addr) (nat : option T) : Prop :=
  forall t, nat = Some t -> nat_ok fam t /\ fam me /\ fam next.
Definition world_ok (w : world (T := T)) : Prop :=
  family_ok is4 (inet4Address s) (inet4NextAddress s) (tcpNat4 w) /\
  family_ok is6 (inet6Address s) (inet6NextAddress s) (tcpNat6 w).

(** The computation returns, keeps the invariant and the shape of the array. *)
Definition safe {A} (c : SM (T := T) A) (w : world) (m : list Z) : Prop :=
  exists a w' m', sruns c w m a w' m' /\ world_ok w' /\ bytes m' /\ Zlen m' = Zlen m.

Lemma safe_ret {A} (a : A) w m : world_ok w -> bytes m -> safe (sret a) w m.
Proof. intros. by exists a, w, m. Qed.
Lemma safe_run {A B} (c : SM A) (k : A -> SM B) w m a w' m' :
  sruns c w m a w' m' -> Zlen m' = Zlen m -> safe (k a) w' m' -> safe (sbind c k) w m.
Proof.
  intros R HL (b & w'' & m'' & R' & ? & ? & ?). exists b, w'', m''. split_and!; try done; [by eapply sruns_bind|congruence].
Qed.
Lemma safe_mem {A B} (c : M A) (k : A -> SM B) w m a m' :
  runs c m a m' -> Zlen m' = Zlen m -> safe (k a) w m' -> safe (sbind (mem c) k) w m.
Proof. intros R. by apply safe_run, sruns_mem. Qed.
Lemma safe_read {A B} (c : M A) (k : A -> SM B) w m a : runs c m a m -> safe (k a) w m -> safe (sbind (mem c) k) w m.
Proof. intros R. by apply (safe_mem c k w m a m). Qed.
Lemma safe_bind {A B} (c : SM A) (k : A -> SM B) w m :
  safe c w m -> (forall a w' m', world_ok w' -> bytes m' -> Zlen m' = Zlen m -> safe (k a) w' m') -> safe (sbind c k) w m.
Proof. intros (a & w' & m' & R & Hw & Hb & HL) Hk. eapply safe_run; [exact R|done|]. by apply Hk. Qed.

Lemma safe_write_tun w m p : world_ok w -> bytes m -> safe (write_tun p) w m.
Proof. intros. by exists (tun_Write p), (mkWorld (tcpNat4 w) (tcpNat6 w) (directNat w) (log w ++ [TunWrite p])), m. Qed.
Lemma safe_emit {A} (e : event) (k : unit -> SM A) w m :
  (forall w', tcpNat4 w' = tcpNat4 w -> tcpNat6 w' = tcpNat6 w -> safe (k tt) w' m) -> safe (sbind (emit e) k) w m.
Proof. intros Hk. eapply safe_run; [done|done|]. by apply Hk. Qed.
Lemma world_ok_frame w w' : tcpNat4 w' = tcpNat4 w -> tcpNat6 w' = tcpNat6 w -> world_ok w -> world_ok w'.
Proof. unfold world_ok. by intros -> ->. Qed.

(** *** The NAT tables *)

Lemma nat_ok_Lookup fam t now src dst r t' :
  nat_ok fam t -> end_in fam src -> end_in fam dst -> nt_Lookup t now src dst = (r, t') ->
  nat_ok fam t' /\ match r with Some p => port_ok p | None => True end.
Proof.
  intros [HI Hk] Hs Hd E. destruct r as [p|].
  - destruct (nt_Lookup_Some t now src dst p t' HI E) as (HI' & Hp & _). split; [|done]. split; [done|].
    intros q k Hm. destruct (nt_Lookup_only t now src dst p t' HI E q k Hm) as [?| ->]; [by apply (Hk q)|done].
  - destruct (nt_Lookup_None t now src dst t' HI E) as [HI' Hm]. split; [|done]. split; [done|].
    intros q k ?. by apply (Hk q), Hm.
Qed.
Lemma nat_ok_LookupBack fam t now p r t' :
  nat_ok fam t -> nt_LookupBack t now p = (r, t') ->
  nat_ok fam t' /\ match r with Some ss => key_in fam (session_key ss) | None => True end.
Proof.
  intros [HI Hk] E. destruct r as [ss|].
  - destruct (nt_LookupBack_Some t now p ss t' HI E) as (HI' & Hm & Hiff).
    split; [|by apply (Hk p)]. split; [done|]. intros q k ?. by apply (Hk q), Hiff.
  - by destruct (nt_LookupBack_None t now p t' HI E) as [-> _].
Qed.

Context (Hs : system_ok s).

(** *** TCP over IPv4 *)

Section Packet.
Context (o l c : Z) (m : list Z) (w : world (T := T)).
Hypothesis Hb : bytes m.
Hypothesis Ho : 0 <= o.
Hypothesis Hc : l <= c.
Hypothesis Hz : o + c <= Zlen m.
Hypothesis Hw : world_ok w.

Section V4.
Hypothesis HV : IPv4.valid_header m o l l.
Let h := IPv4.hlen m o.
Let t := o + h.
Let n := get16 m (o + 2) - h.

Lemma v4_bounds : 20 <= l /\ 20 <= h /\ h + n <= l /\ h <= 60 /\ 0 <= n <= 65535.
Proof.
  destruct HV as (V1 & V2 & V3 & V4 & V5). pose proof (get16_range m (o + 2) Hb). subst h t n.
  destruct (IPv4.hlen_range m o) as [? _]. split_and!; lia.
Qed.

Lemma rewrite4_safe {A} (k : unit -> SM A) w' off src sp rsp dst dp rdp :
  18 <= n -> is4 src -> is_u16 sp -> is4 dst -> is_u16 dp ->
  (forall m', bytes m' -> Zlen m' = Zlen m -> safe (k tt) w' m') ->
  safe (sbind (mem (rewriteIPv4TCP (Slice o l c) (Slice t n (c - h)) off src sp rsp dst dp rdp)) k) w' m.
Proof.
  intros Hn (sb & -> & B1 & L1) Hsp (db & -> & B2 & L2) Hdp Hk. destruct v4_bounds as (? & ? & ? & ? & ?).
  destruct (rewriteIPv4TCP_ok o l c m off sb sp rsp db dp rdp) as (m' & R & S & _); try done; [subst n h; lia|].
  destruct S as [Sb Sl _ _ _ _ _ _ _ _]. eapply safe_mem; [exact R|done|]. by apply Hk.
Qed.

Lemma reset4_safe : 20 <= n -> TCP.doff m t <= n -> forall w', world_ok w' ->
  safe (resetIPv4TCP darwin s (Slice o l c) (Slice t n (c - h))) w' m.
Proof.
  intros Hn Hd w' Hw'. destruct v4_bounds as (? & ? & ? & ? & ?). destruct Hs as (Hr & _). unfold resetIPv4TCP.
  eapply safe_read; [apply IPv4.runs4_DestinationAddr; lia|]. eapply safe_read; [apply IPv4.runs4_SourceAddr; lia|].
  destruct (reset_fields_ok t n (c - h) m) as (RF & HF & HD); try done; try (subst t; lia).
  eapply safe_read; [exact RF|]. set (f := rfc793_reset m t n) in *.
  destruct (is4_window m (o + 16) Hb) as (sb & E1 & B1 & L1); try lia. destruct (is4_window m (o + 12) Hb) as (db & E2 & B2 & L2); try lia.
  rewrite E1, E2. destruct (build_reset4_ok darwin s Hr sb db f HF HD) as (prefix & p & R & _); try done.
  eapply safe_run; [apply sruns_pure; exact R|done|]. by apply safe_write_tun.
Qed.
Lemma port_ok_u16 p : port_ok p -> is_u16 p.
Proof. unfold port_ok. lia. Qed.
Lemma set_nat4_safe {A} (k : unit -> SM A) w' t' :
  world_ok w' -> family_ok is4 (inet4Address s) (inet4NextAddress s) (Some t') ->
  (forall w'', world_ok w'' -> safe (k tt) w'' m) -> safe (sbind (set_nat4 t') k) w' m.
Proof. intros [_ H6] H4 Hk. eapply safe_run; [done|done|]. apply Hk. by split. Qed.

Lemma processIPv4TCP_safe now : 20 <= n -> TCP.doff m t <= n ->
  safe (processIPv4TCP darwin s now (Slice o l c) (Slice t n (c - h))) w m.
Proof.
  intros Hn Hd. destruct v4_bounds as (? & ? & ? & ? & ?). pose proof Hs as (_ & Hp4 & _). unfold processIPv4TCP.
  eapply safe_run; [done|done|]. destruct (tcpNat4 w) as [nat|] eqn:En; [|by apply safe_ret].
  destruct (proj1 Hw nat En) as (Hnat & Hme & Hnext).
  pose proof (is4_window m (o + 12) Hb ltac:(lia) ltac:(lia)) as Hsa. pose proof (is4_window m (o + 16) Hb ltac:(lia) ltac:(lia)) as Hda.
  pose proof (get16_range m t Hb) as Hsp. pose proof (get16_range m (t + 2) Hb) as Hdp.
  eapply safe_read; [apply IPv4.runs4_SourceAddr; lia|]. eapply safe_read; [apply TCP.runs_tcp_SourcePort; lia|].
  eapply safe_read; [apply IPv4.runs4_DestinationAddr; lia|]. eapply safe_read; [apply TCP.runs_tcp_DestinationPort; lia|].
  destruct (negb _); [by apply safe_ret|]. destruct (_ && _).
  - destruct (nt_LookupBack nat now _) as [session nat'] eqn:EL. destruct (nat_ok_LookupBack _ _ _ _ _ _ Hnat EL) as [Hnat' Hr].
    apply set_nat4_safe; [done|by intros ? [= <-]|]. intros w' Hw'. destruct session as [ss|]; [|by apply safe_ret].
    destruct Hr as [[Hr1 Hr2] [Hr3 Hr4]]. apply rewrite4_safe; try done; [lia|]. intros. by apply safe_ret.
  - destruct (list_find _ _) as [[i loopback]|] eqn:EF.
    + apply list_find_Some in EF as (_ & <- & _). apply rewrite4_safe; try done; [lia|]. intros. by apply safe_ret.
    + destruct (nt_Lookup nat now _ _) as [r nat'] eqn:EL.
      destruct (nat_ok_Lookup is4 nat now _ _ r nat' Hnat (end_in_pair _ _ _ Hsa Hsp) (end_in_pair _ _ _ Hda Hdp) EL) as [Hnat' Hr].
      apply set_nat4_safe; [done|by intros ? [= <-]|]. intros w' Hw'. destruct r as [p|].
      * apply rewrite4_safe; try done; [lia|by apply port_ok_u16|]. intros. by apply safe_ret.
      * apply safe_bind; [by apply reset4_safe|]. intros. by apply safe_ret.
Qed.

(** *** UDP over IPv4 *)

Lemma processIPv4UDP_safe : 8 <= n -> safe (processIPv4UDP (Slice o l c) (Slice t n (c - h))) w m.
Proof.
  intros Hn. destruct v4_bounds as (? & ? & ? & ? & ?). unfold processIPv4UDP.
  eapply safe_read; [apply IPv4.runs4_Flags; lia|]. destruct (negb _); [by apply safe_ret|].
  eapply safe_read; [apply IPv4.runs_FragmentOffset; lia|]. destruct (negb _); [by apply safe_ret|].
  eapply safe_read; [apply IPv4.runs4_SourceAddr; lia|]. eapply safe_read; [apply UDP.runs_udp_SourcePort; lia|].
  eapply safe_read; [apply IPv4.runs4_DestinationAddr; lia|]. eapply safe_read; [apply UDP.runs_udp_DestinationPort; lia|].
  destruct (negb _); [by apply safe_ret|]. eapply safe_read; [apply UDP.runs_udp_Payload; lia|].
  eapply safe_read; [apply runs_contents|]. destruct (_ =? 0); [by apply safe_ret|].
  eapply safe_read; [apply IPv4.runs_HeaderLength; lia|]. unfold UDP.UDPMinimumSize.
  eapply safe_read; [apply runs_reslice; subst n h; lia|]. eapply safe_read; [apply runs_contents|].
  apply safe_emit. intros w' E4 E6. apply safe_ret; [|done]. by apply (world_ok_frame w).
Qed.

(** *** ICMPv4 *)

Lemma DirectLookup_safe {A} src dst (k : option action * option route_error -> SM A) m' w' :
  (forall r w'', tcpNat4 w'' = tcpNat4 w' -> tcpNat6 w'' = tcpNat6 w' -> safe (k r) w'' m') ->
  safe (sbind (DirectLookup src dst) k) w' m'.
Proof.
  intros Hk. destruct (PrepareConnection src dst) as [created err] eqn:EP.
  destruct (LoadOrStoreEx (directNat w') (src, dst) (created, match err with None => true | Some _ => false end))
    as [[[a loaded] ok] cache'] eqn:EL.
  eapply safe_run; [unfold sruns, DirectLookup; rewrite EP, EL; reflexivity|done|]. by apply Hk.
Qed.

Lemma echo_reply4_safe {A} (k : unit -> SM A) w' : 8 <= n ->
  (forall m', bytes m' -> Zlen m' = Zlen m -> safe (k tt) w' m') ->
  safe (sbind (mem (echo_reply4 (Slice o l c) (Slice t n (c - h)))) k) w' m.
Proof.
  intros Hn Hk. destruct v4_bounds as (? & ? & ? & ? & ?).
  set (src := window (upd m t 0) (o + 12) 4). set (dst := window (upd m t 0) (o + 16) 4).
  assert (bytes (upd m t 0)) as B0 by (apply bytes_upd; done || lia).
  assert (Zlen src = 4 /\ Zlen dst = 4) as [Ls Ld] by (subst src dst; rewrite !Zlen_window; rewrite ?Zlen_upd; lia).
  assert (bytes src /\ bytes dst) as [Bs Bd] by (subst src dst; split; by apply bytes_window).
  set (m3 := write_at (write_at (upd m t 0) (o + 12) dst) (o + 16) src).
  assert (bytes m3) as B3 by (subst m3; repeat apply bytes_write_at; done).
  assert (Zlen m3 = Zlen m) as Z3 by (subst m3; by autorewrite with golen).
  destruct (runs_ICMPv4Checksum t n (c - h) m3 0) as (y & Hy & Ry & _); try done; try (subst t; lia).
  set (m4 := put16 m3 (t + 2) (not16 y)). assert (bytes m4) as B4 by by apply bytes_put16.
  assert (Zlen m4 = Zlen m) as Z4 by (subst m4; by rewrite Zlen_put16).
  assert (IPv4.hlen m4 o = h) as Hh4 by (subst m4 m3 t; unfold h, IPv4.hlen in *; by rd).
  destruct (IPv4.runs4_CalculateChecksum o l c m4) as (x & Rx & _ & _); try done; try lia.
  eapply (safe_mem _ _ _ _ tt (put16 m4 (o + 10) (not16 x))); [|by rewrite Zlen_put16|apply Hk; [by apply bytes_put16|by rewrite Zlen_put16]].
  unfold echo_reply4, ICMPv4.SetType, ICMPv4.ICMPv4EchoReply. eapply runs_bind; [apply runs_set_idx; lia|]. rewrite Z.add_0_r.
  eapply runs_bind; [apply IPv4.runs4_SourceAddr; lia|]. eapply runs_bind; [apply IPv4.runs4_DestinationAddr; lia|].
  fold src dst. eapply runs_bind; [apply IPv4.runs4_SetSourceAddr; cbn [netip.AsSlice]; lia|].
  eapply runs_bind; [apply IPv4.runs4_SetDestinationAddr; cbn [netip.AsSlice]; lia|].
  cbn [netip.AsSlice]. fold m3. eapply runs_bind; [exact Ry|].
  eapply runs_bind; [apply runs_SetChecksum4; lia|]. eapply runs_bind; [exact Rx|].
  apply IPv4.runs4_SetChecksum; lia.
Qed.

Lemma reject4_safe code w' : is_u8 code -> world_ok w' -> safe (rejectIPv4WithICMP darwin s (Slice o l c) code) w' m.
Proof.
  intros Hcode Hw'. destruct v4_bounds as (? & ? & ? & ? & ?). pose proof Hs as (Hr & _). unfold rejectIPv4WithICMP. cbn [sl_len].
  set (av := Z.min (mtu s) maxIPData - ICMPv4.ICMPv4MinimumSize).
  assert (av <= 548) by (subst av; unfold maxIPData, IPv4MinimumProcessableDatagramSize, IPv4MinimumSize, ICMPv4.ICMPv4MinimumSize; lia).
  destruct (Z.ltb_spec av (l + ICMPv4.ICMPv4MinimumErrorPayloadSize)) as [|Hav]; [by apply safe_ret|].
  unfold ICMPv4.ICMPv4MinimumErrorPayloadSize in Hav.
  destruct (Z.ltb_spec av l) as [|_]; [lia|]. eapply safe_run; [done|done|].
  eapply safe_read; [apply IPv4.runs4_DestinationAddr; lia|]. eapply safe_read; [apply IPv4.runs4_SourceAddr; lia|].
  eapply safe_read; [apply IPv4.runs4_Payload; try done; subst n h; lia|].
  eapply safe_read; [apply runs_contents|]. eapply safe_read; [apply runs_contents|].
  destruct (is4_window m (o + 16) Hb) as (sb & E1 & B1 & L1); try lia. destruct (is4_window m (o + 12) Hb) as (db & E2 & B2 & L2); try lia.
  rewrite E1, E2. edestruct (build_reject4_ok darwin s Hr sb db code (window m o l) (window m (o + h) n)) as (prefix & p & R & _);
    try done; try (by apply bytes_window); [rewrite Zlen_window by lia; lia|].
  eapply safe_run; [apply sruns_pure; exact R|done|]. by apply safe_write_tun.
Qed.

Lemma processIPv4ICMP_safe : 8 <= n -> safe (processIPv4ICMP darwin s (Slice o l c) (Slice t n (c - h))) w m.
Proof.
  intros Hn. destruct v4_bounds as (? & ? & ? & ? & ?). unfold processIPv4ICMP.
  eapply safe_read; [apply runs_idx; lia|].
  eapply (safe_run _ _ _ _ (if byte_at m (t + 0) =? ICMPv4.ICMPv4Echo then byte_at m (t + 1) else 0) w m); [|done|].
  { destruct (_ =? _); [apply sruns_mem, runs_idx; lia|done]. }
  destruct (_ || _); [by apply safe_ret|].
  eapply safe_read; [apply IPv4.runs4_SourceAddr; lia|]. eapply safe_read; [apply IPv4.runs4_DestinationAddr; lia|].
  assert (forall w', world_ok w' -> safe (sbind (mem (echo_reply4 (Slice o l c) (Slice t n (c - h)))) (fun _ => sret (true, @None error))) w' m) as Hrep.
  { intros w' Hw'. apply echo_reply4_safe; [done|]. intros. by apply safe_ret. }
  destruct (bool_decide _); [by apply Hrep|]. apply DirectLookup_safe. intros r w' E4 E6.
  assert (world_ok w') as Hw' by by apply (world_ok_frame w).
  destruct r as [[a|] [[| |]|]]; try (by apply Hrep); try (by apply safe_ret).
  all: apply safe_bind; [apply reject4_safe; [by unfold ICMPv4.ICMPv4HostUnreachable; lia|done]|intros; by apply safe_ret].
Qed.
End V4.

(** *** IPv6 *)

Section V6.
Hypothesis HV : IPv6.valid_header m o l l.
Let n := get16 m (o + 4).

Lemma v6_bounds : 40 <= l /\ 40 + n <= l /\ 0 <= n <= 65535.
Proof. destruct HV as (V1 & V2 & V3). pose proof (get16_range m (o + 4) Hb). subst n. split_and!; lia. Qed.

Lemma rewrite6_safe {A} (k : unit -> SM A) w' off src sp rsp dst dp rdp :
  18 <= n -> is6 src -> is_u16 sp -> is6 dst -> is_u16 dp ->
  (forall m', bytes m' -> Zlen m' = Zlen m -> safe (k tt) w' m') ->
  safe (sbind (mem (rewriteIPv6TCP (Slice o l c) (Slice (o + 40) n (c - 40)) off src sp rsp dst dp rdp)) k) w' m.
Proof.
  intros Hn (sb & -> & B1 & L1) Hsp (db & -> & B2 & L2) Hdp Hk.
  destruct (rewriteIPv6TCP_ok o l c m off sb sp rsp db dp rdp) as (m' & R & S & _); try done.
  destruct S as [Sb Sl _ _ _ _ _ _ _ _]. eapply safe_mem; [exact R|done|]. by apply Hk.
Qed.

Lemma reset6_safe : 20 <= n -> TCP.doff m (o + 40) <= n -> forall w', world_ok w' ->
  safe (resetIPv6TCP darwin s (Slice o l c) (Slice (o + 40) n (c - 40))) w' m.
Proof.
  intros Hn Hd w' Hw'. destruct v6_bounds as (? & ? & ?). destruct Hs as (Hr & _). unfold resetIPv6TCP.
  eapply safe_read; [apply IPv6.runs6_DestinationAddr; lia|]. eapply safe_read; [apply IPv6.runs6_SourceAddr; lia|].
  destruct (reset_fields_ok (o + 40) n (c - 40) m) as (RF & HF & HD); try done; try lia.
  eapply safe_read; [exact RF|]. set (f := rfc793_reset m (o + 40) n) in *.
  destruct (is6_window m (o + 24) Hb) as (sb & E1 & B1 & L1); try lia. destruct (is6_window m (o + 8) Hb) as (db & E2 & B2 & L2); try lia.
  rewrite E1, E2. destruct (build_reset6_ok darwin s Hr sb db f HF HD) as (prefix & p & R & _); try done.
  eapply safe_run; [apply sruns_pure; exact R|done|]. by apply safe_write_tun.
Qed.

Lemma set_nat6_safe {A} (k : unit -> SM A) w' t' :
  world_ok w' -> family_ok is6 (inet6Address s) (inet6NextAddress s) (Some t') ->
  (forall w'', world_ok w'' -> safe (k tt) w'' m) -> safe (sbind (set_nat6 t') k) w' m.
Proof. intros [H4 _] H6 Hk. eapply safe_run; [done|done|]. apply Hk. by split. Qed.

Lemma processIPv6TCP_safe now : 20 <= n -> TCP.doff m (o + 40) <= n ->
  safe (processIPv6TCP darwin s now (Slice o l c) (Slice (o + 40) n (c - 40))) w m.
Proof.
  intros Hn Hd. destruct v6_bounds as (? & ? & ?). pose proof Hs as (_ & _ & Hp6). unfold processIPv6TCP.
  eapply safe_run; [done|done|]. destruct (tcpNat6 w) as [nat|] eqn:En; [|by apply safe_ret].
  destruct (proj2 Hw nat En) as (Hnat & Hme & Hnext).
  pose proof (is6_window m (o + 8) Hb ltac:(lia) ltac:(lia)) as Hsa. pose proof (is6_window m (o + 24) Hb ltac:(lia) ltac:(lia)) as Hda.
  pose proof (get16_range m (o + 40) Hb) as Hsp. pose proof (get16_range m (o + 40 + 2) Hb) as Hdp.
  eapply safe_read; [apply IPv6.runs6_SourceAddr; lia|]. eapply safe_read; [apply TCP.runs_tcp_SourcePort; lia|].
  eapply safe_read; [apply IPv6.runs6_DestinationAddr; lia|]. eapply safe_read; [apply TCP.runs_tcp_DestinationPort; lia|].
  destruct (negb _); [by apply safe_ret|]. destruct (_ && _).
  - destruct (nt_LookupBack nat now _) as [session nat'] eqn:EL. destruct (nat_ok_LookupBack _ _ _ _ _ _ Hnat EL) as [Hnat' Hr].
    apply set_nat6_safe; [done|by intros ? [= <-]|]. intros w' Hw'. destruct session as [ss|]; [|by apply safe_ret].
    destruct Hr as [[Hr1 Hr2] [Hr3 Hr4]]. apply rewrite6_safe; try done; [lia|]. intros. by apply safe_ret.
  - destruct (list_find _ _) as [[i loopback]|] eqn:EF.
    + apply list_find_Some in EF as (_ & <- & _). apply rewrite6_safe; try done; [lia|]. intros. by apply safe_ret.
    + destruct (nt_Lookup nat now _ _) as [r nat'] eqn:EL.
      destruct (nat_ok_Lookup is6 nat now _ _ r nat' Hnat (end_in_pair _ _ _ Hsa Hsp) (end_in_pair _ _ _ Hda Hdp) EL) as [Hnat' Hr].
      apply set_nat6_safe; [done|by intros ? [= <-]|]. intros w' Hw'. destruct r as [p|].
      * apply rewrite6_safe; try done; [lia|by apply port_ok_u16|]. intros. by apply safe_ret.
      * apply safe_bind; [by apply reset6_safe|]. intros. by apply safe_ret.
Qed.

Lemma processIPv6UDP_safe : 8 <= n -> safe (processIPv6UDP (Slice o l c) (Slice (o + 40) n (c - 40))) w m.
Proof.
  intros Hn. destruct v6_bounds as (? & ? & ?). unfold processIPv6UDP.
  eapply safe_read; [apply IPv6.runs6_SourceAddr; lia|]. eapply safe_read; [apply UDP.runs_udp_SourcePort; lia|].
  eapply safe_read; [apply IPv6.runs6_DestinationAddr; lia|]. eapply safe_read; [apply UDP.runs_udp_DestinationPort; lia|].
  destruct (negb _); [by apply safe_ret|]. eapply safe_read; [apply UDP.runs_udp_Payload; lia|].
  eapply safe_read; [apply runs_contents|]. destruct (_ =? 0); [by apply safe_ret|].
  eapply safe_read; [apply IPv6.runs6_PayloadLength; lia|]. unfold UDP.UDPMinimumSize. cbn [sl_len]. fold n.
  eapply safe_read; [apply runs_reslice; lia|]. eapply safe_read; [apply runs_contents|].
  apply safe_emit. intros w' E4 E6. apply safe_ret; [|done]. by apply (world_ok_frame w).
Qed.

Lemma echo_reply6_safe {A} (k : unit -> SM A) w' : 8 <= n ->
  (forall m', bytes m' -> Zlen m' = Zlen m -> safe (k tt) w' m') ->
  safe (sbind (mem (echo_reply6 (Slice o l c) (Slice (o + 40) n (c - 40)))) k) w' m.
Proof.
  intros Hn Hk. destruct v6_bounds as (? & ? & ?). set (m0 := upd m (o + 40) 129).
  set (src := window m0 (o + 8) 16). set (dst := window m0 (o + 24) 16).
  assert (bytes m0) as B0 by (apply bytes_upd; done || lia).
  assert (Zlen src = 16 /\ Zlen dst = 16) as [Ls Ld] by (subst src dst m0; rewrite !Zlen_window; rewrite ?Zlen_upd; lia).
  assert (bytes src /\ bytes dst) as [Bs Bd] by (subst src dst; split; by apply bytes_window).
  set (m3 := write_at (write_at m0 (o + 8) dst) (o + 24) src).
  assert (bytes m3) as B3 by (subst m3; repeat apply bytes_write_at; done).
  assert (Zlen m3 = Zlen m) as Z3 by (subst m3 m0; by autorewrite with golen).
  destruct (runs_ICMPv6Checksum (o + 40) n (c - 40) m3 (window m3 (o + 8) 16) (window m3 (o + 24) 16) 0 0) as (y & Hy & Ry & _);
    try done; try (by apply bytes_window); try lia.
  eapply (safe_mem _ _ _ _ tt (put16 m3 (o + 40 + 2) (not16 y))); [|by rewrite Zlen_put16|apply Hk; [by apply bytes_put16|by rewrite Zlen_put16]].
  unfold echo_reply6, ICMPv6.SetType, ICMPv6.ICMPv6EchoReply. eapply runs_bind; [apply runs_set_idx; lia|]. rewrite Z.add_0_r. fold m0.
  eapply runs_bind; [apply IPv6.runs6_SourceAddr; lia|]. eapply runs_bind; [apply IPv6.runs6_DestinationAddr; lia|].
  fold src dst. eapply runs_bind; [apply IPv6.runs6_SetSourceAddr; cbn [netip.AsSlice]; lia|].
  eapply runs_bind; [apply IPv6.runs6_SetDestinationAddr; cbn [netip.AsSlice]; lia|].
  cbn [netip.AsSlice]. fold m3.
  eapply runs_bind; [apply IPv6.runs6_SourceAddressSlice; lia|]. eapply runs_bind; [apply IPv6.runs6_DestinationAddressSlice; lia|].
  eapply runs_bind; [exact Ry|]. apply runs_SetChecksum6; lia.
Qed.

Lemma reject6_safe code w' : is_u8 code -> world_ok w' -> safe (rejectIPv6WithICMP darwin s (Slice o l c) code) w' m.
Proof.
  intros Hcode Hw'. destruct v6_bounds as (? & ? & ?). pose proof Hs as (Hr & _). unfold rejectIPv6WithICMP. cbn [sl_len].
  set (av := Z.min (mtu s) maxIPv6Data - ICMPv6.ICMPv6ErrorHeaderSize).
  assert (av <= 1232) by (subst av; unfold maxIPv6Data, IPv6MinimumMTU, IPv6MinimumSize, ICMPv6.ICMPv6ErrorHeaderSize; lia).
  destruct (Z.ltb_spec av IPv6MinimumSize) as [|Hav]; [by apply safe_ret|]. unfold IPv6MinimumSize in Hav.
  set (q := Z.min av l).
  eapply (safe_run _ _ _ _ (Slice o q c) w' m); [|done|].
  { destruct (Z.ltb_spec av l).
    - apply sruns_mem. eapply runs_eq; [apply runs_reslice; lia| |done]. f_equal; subst q; lia.
    - replace q with l by (subst q; lia). done. }
  eapply safe_read; [apply IPv6.runs6_DestinationAddr; lia|]. eapply safe_read; [apply IPv6.runs6_SourceAddr; lia|].
  eapply safe_read; [apply runs_contents|].
  destruct (is6_window m (o + 24) Hb) as (sb & E1 & B1 & L1); try lia. destruct (is6_window m (o + 8) Hb) as (db & E2 & B2 & L2); try lia.
  rewrite E1, E2. edestruct (build_reject6_ok darwin s Hr sb db code (window m o q)) as (prefix & p & R & _);
    try done; try (by apply bytes_window); [rewrite Zlen_window by lia; lia|].
  eapply safe_run; [apply sruns_pure; exact R|done|]. by apply safe_write_tun.
Qed.

Lemma processIPv6ICMP_safe : 8 <= n -> safe (processIPv6ICMP darwin s (Slice o l c) (Slice (o + 40) n (c - 40))) w m.
Proof.
  intros Hn. destruct v6_bounds as (? & ? & ?). unfold processIPv6ICMP.
  eapply safe_read; [apply runs_idx; lia|].
  eapply (safe_run _ _ _ _ (if byte_at m (o + 40 + 0) =? ICMPv6.ICMPv6EchoRequest then byte_at m (o + 40 + 1) else 0) w m); [|done|].
  { destruct (_ =? _); [apply sruns_mem, runs_idx; lia|done]. }
  destruct (_ || _); [by apply safe_ret|].
  eapply safe_read; [apply IPv6.runs6_SourceAddr; lia|]. eapply safe_read; [apply IPv6.runs6_DestinationAddr; lia|].
  assert (forall w', world_ok w' -> safe (sbind (mem (echo_reply6 (Slice o l c) (Slice (o + 40) n (c - 40)))) (fun _ => sret (true, @None error))) w' m) as Hrep.
  { intros w' Hw'. apply echo_reply6_safe; [done|]. intros. by apply safe_ret. }
  destruct (bool_decide _); [by apply Hrep|]. apply DirectLookup_safe. intros r w' E4 E6.
  assert (world_ok w') as Hw' by by apply (world_ok_frame w).
  destruct r as [[a|] [[| |]|]]; try (by apply Hrep); try (by apply safe_ret).
  all: apply safe_bind; [apply reject6_safe; [by unfold ICMPv6.ICMPv6AddressUnreachable; lia|done]|intros; by apply safe_ret].
Qed.
End V6.

(** *** Dispatch *)

Lemma processIPv4_safe now : IPv4.valid_header m o l l -> complete4 m o l -> safe (processIPv4 darwin s now (Slice o l c)) w m.
Proof.
  intros HV HC. pose proof (v4_bounds HV) as (? & ? & ? & ? & ?). specialize (HC HV). cbv zeta in HC. unfold processIPv4.
  eapply safe_read; [apply IPv4.runs4_DestinationAddr; lia|]. destruct (_ || _); [by apply safe_ret|].
  eapply safe_read; [apply IPv4.runs4_TransportProtocol; lia|].
  assert (runs (IPv4.Payload (Slice o l c)) m (Slice (o + IPv4.hlen m o) (get16 m (o + 2) - IPv4.hlen m o) (c - IPv4.hlen m o)) m) as RP
    by (apply IPv4.runs4_Payload; try done; lia).
  apply safe_bind; [|intros; by apply safe_ret].
  destruct (_ =? TCP.TCPProtocolNumber); [eapply safe_read; [exact RP|]; destruct HC; by apply processIPv4TCP_safe|].
  destruct (_ =? UDP.UDPProtocolNumber).
  { eapply safe_read; [exact RP|]. apply safe_bind; [by apply processIPv4UDP_safe|]. intros. by apply safe_ret. }
  destruct (_ =? ICMPv4.ICMPv4ProtocolNumber); [|by apply safe_ret].
  eapply safe_read; [exact RP|]. by apply processIPv4ICMP_safe.
Qed.

Lemma processIPv6_safe now : IPv6.valid_header m o l l -> complete6 m o l -> safe (processIPv6 darwin s now (Slice o l c)) w m.
Proof.
  intros HV HC. pose proof (v6_bounds HV) as (? & ? & ?). specialize (HC HV). cbv zeta in HC. unfold processIPv6.
  eapply safe_read; [apply IPv6.runs6_DestinationAddr; lia|]. destruct (negb _); [by apply safe_ret|].
  eapply safe_read; [apply IPv6.runs6_TransportProtocol; lia|].
  assert (runs (IPv6.Payload (Slice o l c)) m (Slice (o + 40) (get16 m (o + 4)) (c - 40)) m) as RP
    by (apply IPv6.runs6_Payload; try done; lia).
  apply safe_bind; [|intros; by apply safe_ret].
  destruct (_ =? TCP.TCPProtocolNumber); [eapply safe_read; [exact RP|]; destruct HC; by apply processIPv6TCP_safe|].
  destruct (_ =? UDP.UDPProtocolNumber).
  { eapply safe_read; [exact RP|]. apply safe_bind; [by apply processIPv6UDP_safe|]. intros. by apply safe_ret. }
  destruct (_ =? ICMPv6.ICMPv6ProtocolNumber); [|by apply safe_ret].
  eapply safe_read; [exact RP|]. by apply processIPv6ICMP_safe.
Qed.

Lemma processPacket_safe now : 0 < l -> complete m o l -> safe (processPacket darwin s now (Slice o l c)) w m.
Proof.
  intros Hl [HC4 HC6]. unfold processPacket. eapply safe_read; [apply IPv4.runs_IPVersion; lia|].
  apply safe_bind; [|intros; by apply safe_ret]. cbn [sl_len]. destruct (_ =? IPv4Version).
  - destruct (IPv4.runs4_IsValid o l c l m Hc) as (v & Rv & Hv). eapply safe_read; [exact Rv|].
    destruct v; [|by apply safe_ret]. apply processIPv4_safe; [by apply Hv|done].
  - destruct (_ =? IPv6Version); [|by apply safe_ret].
    destruct (IPv6.runs6_IsValid o l c l m Hc) as (v & Rv & Hv). eapply safe_read; [exact Rv|].
    destruct v; [|by apply safe_ret]. apply processIPv6_safe; [by apply Hv|done].
Qed.
End Packet.
End Safe.
