(* ===== verification/SystemLoops.v ===== *)
(** * Starting the system stack, and its read loops

    [start] of src/stack_system.go with the operating system's answers as
    parameters, and the four loops that read packets from a device and write the
    rewritten ones back: one packet at a time, the Wintun ring, and the batches
    of Linux and Darwin.  The Linux loop is composed with BatchWrite of
    src/tun_linux.go.  A started stack satisfies [world_ok], and no loop panics
    on packets with complete headers. *)
From Stdlib Require Import String.
From S2P Require Import Prelude Bytes GoMem Checksum TsChecksum Tcpip Netip HdrChecksum IPv4Options IPv4 IPv6 TCP UDP ICMP Offload Virtio Gro GroSpec GroBufs GroHandle GroPool TunLinux TcpNat Rewrite System SystemNat SystemPackets SystemIcmp SystemSafe.

(** ** start *)

Inductive listen_error := EADDRNOTAVAIL | OtherListenError.
Definition retryableListenError (err : listen_error) : bool :=
  match err with EADDRNOTAVAIL => true | OtherListenError => false end.

(** The address given to Listen: the interface's own with port 0, or a literal. *)
Inductive listen_address := JoinHostPort (a : netip.Addr) | Literal (s : string).

Section Start.
(** [Listen network address i]: the answer to the [i]-th call, the port or the error. *)
Context (Listen : string -> listen_address -> nat -> listen_error + Z).

(** [for i := 0; i < 3; i++] with its break. *)
Fixpoint listen_loop (network : string) (address : listen_address) (k i : nat) : listen_error + Z :=
  match Listen network address i, k with
  | inl e, S k' => if retryableListenError e then listen_loop network address k' (S i) else inl e
  | r, _ => r
  end.
Definition listen (network : string) (address : listen_address) : listen_error + Z :=
  listen_loop network address 2 0.

Definition with_ports (s : System) (p4 p6 : Z) : System :=
  mkSystem (mtu s) (inet4Address s) (inet4NextAddress s) (inet6Address s) (inet6NextAddress s) (broadcastAddr s)
    (inet4LoopbackAddress s) (inet6LoopbackAddress s) p4 p6 (frontHeadroom s) (txChecksumOffload s).

Definition start `{Environment} (s : System) (enforceBind : bool) (udpTimeout : Z) (NewDirectRouteMapping : route_cache)
    : listen_error + System * world (T := TCPNat) :=
  let r4 :=
    if netip.IsValid (inet4NextAddress s) then
      match listen "tcp4" (if enforceBind then Literal "0.0.0.0:0" else JoinHostPort (inet4Address s)) with
      | inl e => inl e
      | inr port => inr (port, Some (NewNat udpTimeout))
      end
    else inr (tcpPort s, None) in
  match r4 with
  | inl e => inl e
  | inr (p4, nat4) =>
      let r6 :=
        if netip.IsValid (inet6NextAddress s) then
          match listen "tcp6" (if enforceBind then Literal "[:]:0" else JoinHostPort (inet6Address s)) with
          | inl e => inl e
          | inr port => inr (port, Some (NewNat udpTimeout))
          end
        else inr (tcpPort6 s, None) in
      match r6 with
      | inl e => inl e
      | inr (p6, nat6) => inr (with_ports s p4 p6, mkWorld nat4 nat6 NewDirectRouteMapping [])
      end
  end.
End Start.

(** ** The choice of the loop *)

(** What the type switches of tunLoop find: a WinTun, a LinuxTUN with its
    properties, a DarwinTUN, or none of them. *)
Inductive tun_kind := KWinTun | KLinuxTUN (headroom : Z) (txOffload : bool) (batchSize : Z) | KDarwinTUN | KTun.
Inductive loop_kind := WintunLoop | BatchLoopLinux (batchSize : Z) | BatchLoopDarwin | PacketLoop.

Definition with_device (s : System) (headroom : Z) (off : bool) : System :=
  mkSystem (mtu s) (inet4Address s) (inet4NextAddress s) (inet6Address s) (inet6NextAddress s) (broadcastAddr s)
    (inet4LoopbackAddress s) (inet6LoopbackAddress s) (tcpPort s) (tcpPort6 s) headroom off.

Definition tunLoop_select (s : System) (tun : tun_kind) (recvMsgX : bool) : System * loop_kind :=
  match tun with
  | KWinTun => (s, WintunLoop)
  | KLinuxTUN headroom off batchSize =>
      (with_device s headroom off, if 1 <? batchSize then BatchLoopLinux batchSize else PacketLoop)
  | KDarwinTUN => (s, if recvMsgX then BatchLoopDarwin else PacketLoop)
  | KTun => (s, PacketLoop)
  end.

(** ** The loops *)

Section Loops.
Context `{CI : ChecksumImpl} `{SC : SingCommon} `{BP : BufPackage} `{EN : Environment} {T : Type} `{NT : NatTable T}.
Context (darwin : bool) (s : System).

(** A read at some time: data, an error after some data, or the closed device. *)
Inductive read_outcome := RData (data : list Z) | RError (data : list Z) | RClosed.

(** [tunLoop] over the reads of one buffer (the array). *)
Fixpoint tunLoop (reads : list (Z * read_outcome)) : SM (T := T) unit :=
  match reads with
  | [] => sret tt
  | (_, RClosed) :: _ => sret tt
  | (now, RData d) :: reads' | (now, RError d) :: reads' =>
      sbind (mem (fun m => Ok (tt, write_at m 0 d))) (fun _ =>
      sbind (tunLoop_iter darwin s now (Zlen d)) (fun _ => tunLoop reads'))
  end.

(** [wintunLoop]: every packet is a slice of the ring of its own. *)
Fixpoint wintunLoop (packets : list (Z * list Z)) (w : world (T := T)) : res world :=
  match packets with
  | [] => Ok w
  | (now, p) :: packets' =>
      if Zlen p <? IPv4MinimumSize then wintunLoop packets' w
      else match processPacket darwin s now (Slice 0 (Zlen p) (Zlen p)) w p with
           | Panic => Panic
           | Ok (writeBack, w', p') =>
               wintunLoop packets'
                 (if (writeBack : bool) then mkWorld (tcpNat4 w') (tcpNat6 w') (directNat w') (log w' ++ [TunWrite p']) else w')
           end
  end.

(** The packets of a batch, each in an array of its own with the place where it
    starts and its size: the arrays afterwards, and the packets to write back as
    index, start and size. *)
Fixpoint batch_packets (clock : nat -> Z) (i : nat) (batch : list (list Z * Z * Z)) (w : world (T := T))
    : res (list (list Z) * list (nat * Z * Z) * world) :=
  match batch with
  | [] => Ok ([], [], w)
  | (m, off, packetSize) :: batch' =>
      let rest m' keep w' :=
        match batch_packets clock (S i) batch' w' with
        | Panic => Panic
        | Ok (ms, out, w'') => Ok (m' :: ms, if (keep : bool) then (i, off, packetSize) :: out else out, w'')
        end in
      if packetSize <? IPv4MinimumSize then rest m false w
      else match sbind (mem (reslice (Slice 0 (Zlen m) (Zlen m)) off (off + packetSize)))
                   (fun packet => processPacket darwin s (clock i) packet) w m with
           | Panic => Panic
           | Ok (writeBack, w', m') => rest m' writeBack w'
           end
  end.

(** One turn of [batchLoopDarwin]: the buffers are windows of pooled arrays. *)
Definition batchLoopDarwin_iter (clock : nat -> Z) (buffers : list (list Z * Z * Z)) (w : world (T := T)) : res world :=
  match batch_packets clock 0 buffers w with
  | Panic => Panic
  | Ok (ms, out, w') =>
      Ok (match out with
          | [] => w'
          | _ => mkWorld (tcpNat4 w') (tcpNat6 w') (directNat w')
                   (log w' ++ [TunBatchWrite (map (fun '(i, off, n) => window (default [] (ms !! i)) off n) out)])
          end)
  end.

(** [packetBuffer[:s.frontHeadroom+packetSize]], for [writeBuffers] *)
Definition write_buffer (ms : list (list Z)) (e : nat * Z * Z) : bslice :=
  let '(i, off, n) := e in BSlice i (Slice 0 (off + n) (Zlen (default [] (ms !! i)))).

(** One turn of [batchLoopLinux] after BatchRead stored the packets of
    [batch] in the first buffers; [BatchWrite] is the device's. *)
Definition batchLoopLinux_iter {D R : Type} (BatchWrite : D -> list (list Z) -> list bslice -> Z -> res (R * D * list (list Z)))
    (clock : nat -> Z) (batch : list (list Z * Z)) (w : world (T := T)) (t : D)
    : res (world * option R * D * list (list Z)) :=
  match batch_packets clock 0 (map (fun e => (e.1, frontHeadroom s, e.2)) batch) w with
  | Panic => Panic
  | Ok (ms, [], w') => Ok (w', None, t, ms)
  | Ok (ms, out, w') =>
      match BatchWrite t ms (map (write_buffer ms) out) (frontHeadroom s) with
      | Panic => Panic
      | Ok (r, t', ms') => Ok (w', Some r, t', ms')
      end
  end.

(** ** Safety of the loops *)

Context (Hs : system_ok s).
Abbreviation safe := (safe s).

Lemma complete_write m d o l :
  bytes d -> 0 <= o -> o + l <= Zlen d -> Zlen d <= Zlen m -> complete d o l -> complete (write_at m 0 d) o l.
Proof.
  intros Hb Ho Hl Hm [H4 H6].
  assert (forall j, 0 <= j < Zlen d -> byte_at (write_at m 0 d) j = byte_at d j) as E 
    by (intros j Hj; rewrite byte_at_write_at, Z.sub_0_r by lia; by destruct (Z.leb_spec 0 j), (Z.ltb_spec j (0 + Zlen d)); try lia).
  assert (forall j, 0 <= j -> j + 2 <= Zlen d -> get16 (write_at m 0 d) j = get16 d j) as E16
    by (intros j ??; unfold get16; rewrite !E by lia; done).
  split.
  - intros (V1 & V2 & V3 & V4 & V5). unfold IPv4.hlen, TCP.doff in *. rewrite !E, !E16 in * by lia.
    assert (IPv4.valid_header d o l l) as HV by done. specialize (H4 HV). cbv zeta in *. unfold IPv4.hlen, TCP.doff in H4.
    destruct (_ =? TCP.TCPProtocolNumber); [|done]. destruct H4 as [H4 H4']. split; [done|]. by rewrite E by lia.
  - intros (V1 & V2 & V3). unfold TCP.doff in *. rewrite !E, !E16 in * by lia.
    assert (IPv6.valid_header d o l l) as HV by done. specialize (H6 HV). cbv zeta in *. unfold TCP.doff in H6.
    destruct (_ =? TCP.TCPProtocolNumber); [|done]. destruct H6 as [H6 H6']. split; [done|]. by rewrite E by lia.
Qed.

Lemma tunLoop_iter_safe now n m w :
  world_ok s w -> bytes m -> Zlen m = mtu s + PacketOffset darwin -> n <= Zlen m ->
  (IPv4MinimumSize <= n -> complete m (PacketOffset darwin) (n - PacketOffset darwin)) ->
  safe (tunLoop_iter darwin s now n) w m.
Proof.
  intros Hw Hb Hm Hn HC. unfold tunLoop_iter. eapply safe_read; [done|]. cbv zeta.
  destruct (Z.ltb_spec n IPv4MinimumSize) as [|H20]; [by apply safe_ret|]. specialize (HC H20). unfold IPv4MinimumSize in H20.
  assert (0 <= PacketOffset darwin <= 4) by (unfold PacketOffset; destruct darwin; lia).
  eapply safe_read; [apply runs_reslice; lia|]. eapply safe_read; [apply runs_reslice; lia|]. rewrite Z.add_0_l.
  apply safe_bind; [apply processPacket_safe; try done; lia|]. intros wb w' m' Hw' Hb' _.
  destruct wb; [|by apply safe_ret]. eapply safe_read; [apply runs_contents|]. apply safe_emit. intros w'' E4 E6.
  apply safe_ret; [|done]. by apply (world_ok_frame s w').
Qed.

(** A read is acceptable when its data fits the buffer and, if it is long enough
    to be looked at, carries a packet with a complete transport header. *)
Definition read_ok (r : read_outcome) : Prop :=
  match r with
  | RClosed => True
  | RData d | RError d =>
      bytes d /\ Zlen d <= mtu s + PacketOffset darwin /\
      (IPv4MinimumSize <= Zlen d -> complete d (PacketOffset darwin) (Zlen d - PacketOffset darwin))
  end.

Lemma tunLoop_safe reads m w :
  world_ok s w -> bytes m -> Zlen m = mtu s + PacketOffset darwin -> Forall (fun r => read_ok r.2) reads ->
  safe (tunLoop reads) w m.
Proof.
  revert m w. induction reads as [|[now r] reads IH]; intros m w Hw Hb Hm HF; [by apply safe_ret|].
  apply Forall_cons in HF as [Hr HF]. cbn [snd] in Hr.
  assert (forall d, bytes d -> Zlen d <= Zlen m ->
    (IPv4MinimumSize <= Zlen d -> complete d (PacketOffset darwin) (Zlen d - PacketOffset darwin)) ->
    safe (sbind (mem (fun m => Ok (tt, write_at m 0 d))) (fun _ =>
      sbind (tunLoop_iter darwin s now (Zlen d)) (fun _ => tunLoop reads))) w m) as Hd.
  { intros d Hd Hl HC. assert (bytes (write_at m 0 d)) by (by apply bytes_write_at).
    assert (Zlen (write_at m 0 d) = Zlen m) as HL by (by autorewrite with golen).
    eapply safe_mem; [unfold runs; reflexivity|done|]. apply safe_bind.
    - apply tunLoop_iter_safe; try done; [lia..|]. intros H20. apply complete_write; try done; [|lia|by apply HC].
      unfold PacketOffset; destruct darwin; lia.
    - intros _ w' m' Hw' Hb' Hm'. apply IH; try done. congruence. }
  destruct r as [d|d|]; cbn [tunLoop]; [| |by apply safe_ret]; destruct Hr as (? & ? & ?); apply Hd; done || lia.
Qed.

(** *** Batches *)

Definition slot_ok (e : list Z * Z * Z) : Prop :=
  let '(m, off, n) := e in
  bytes m /\ 0 <= off /\ off + n <= Zlen m /\ (IPv4MinimumSize <= n -> complete m off n).

(** What is written back: packets of the batch, in order, each at most once. *)
Definition out_ok (i : nat) (batch : list (list Z * Z * Z)) (out : list (nat * Z * Z)) : Prop :=
  NoDup (map (fun e => e.1.1) out) /\
  forall j off n, (j, off, n) ∈ out -> (i <= j)%nat /\ exists m, batch !! (j - i)%nat = Some (m, off, n) /\ IPv4MinimumSize <= n.

Lemma out_ok_skip i e batch out : out_ok (S i) batch out -> out_ok i (e :: batch) out.
Proof.
  intros [H1 H2]. split; [done|]. intros j off n Hj. destruct (H2 j off n Hj) as (Hle & m & Hm & Hn). split; [lia|].
  exists m. replace (j - i)%nat with (S (j - S i)) by lia. done.
Qed.
Lemma out_ok_keep i m off n batch out :
  IPv4MinimumSize <= n -> out_ok (S i) batch out -> out_ok i ((m, off, n) :: batch) ((i, off, n) :: out).
Proof.
  intros Hn Ho. pose proof Ho as [H1 H2]. split.
  - cbn [map fst]. apply NoDup_cons. split; [|done]. intros Hin. apply list_elem_of_fmap in Hin as ([[j o] k] & E & Hj). cbn in E. subst j.
    destruct (H2 i o k Hj). lia.
  - intros j o k Hj. apply elem_of_cons in Hj as [[= -> -> ->]|Hj]; [|by apply (out_ok_skip i _ batch out Ho)].
    split; [lia|]. exists m. by rewrite Nat.sub_diag.
Qed.

Lemma batch_packets_ok clock i batch w :
  world_ok s w -> Forall slot_ok batch ->
  exists ms out w', batch_packets clock i batch w = Ok (ms, out, w') /\ world_ok s w' /\
    Forall2 (fun e m' => bytes m' /\ Zlen m' = Zlen e.1.1) batch ms /\ out_ok i batch out.
Proof.
  revert i w. induction batch as [|[[m off] n] batch IH]; intros i w Hw HF; cbn [batch_packets].
  { exists [], [], w. do 2 (split; [done|]). split; [constructor|]. split; [constructor|]. by intros ??? ?%elem_of_nil. }
  apply Forall_cons in HF as [(Hb & Ho & Hn & HC) HF]. destruct (Z.ltb_spec n IPv4MinimumSize) as [|H20].
  - destruct (IH (S i) w Hw HF) as (ms & out & w' & -> & Hw' & Hms & Hout). eexists _, _, _.
    split; [reflexivity|]. split_and!; try done; [by constructor|by apply out_ok_skip].
  - specialize (HC H20). unfold IPv4MinimumSize in H20.
    assert (safe (sbind (mem (reslice (Slice 0 (Zlen m) (Zlen m)) off (off + n)))
      (fun packet => processPacket darwin s (clock i) packet)) w m) as (wb & w1 & m1 & R & Hw1 & Hb1 & Hl1).
    { eapply safe_read; [apply runs_reslice; lia|]. replace (off + n - off) with n by lia. rewrite Z.add_0_l.
      apply processPacket_safe; try done; lia. }
    unfold sruns in R. rewrite R. destruct (IH (S i) w1 Hw1 HF) as (ms & out & w' & -> & Hw' & Hms & Hout).
    eexists _, _, _. split; [reflexivity|]. split_and!; try done; [by constructor|].
    destruct wb; [by apply out_ok_keep|by apply out_ok_skip].
Qed.

Lemma wintunLoop_safe packets w :
  world_ok s w -> Forall (fun e => bytes e.2 /\ (IPv4MinimumSize <= Zlen e.2 -> complete e.2 0 (Zlen e.2))) packets ->
  exists w', wintunLoop packets w = Ok w' /\ world_ok s w'.
Proof.
  revert w. induction packets as [|[now p] packets IH]; intros w Hw HF; [by exists w|].
  apply Forall_cons in HF as [[Hb HC] HF]. cbn [snd] in *. cbn [wintunLoop].
  destruct (Z.ltb_spec (Zlen p) IPv4MinimumSize) as [|H20]; [by apply IH|]. specialize (HC H20). unfold IPv4MinimumSize in H20.
  destruct (processPacket_safe darwin s Hs 0 (Zlen p) (Zlen p) p w Hb) with (now := now) as (wb & w' & p' & R & Hw' & _); try done; try lia.
  unfold sruns in R. rewrite R. apply IH; [|done]. destruct wb; [|done]. by apply (world_ok_frame s w').
Qed.
Lemma batchLoopDarwin_safe clock buffers w :
  world_ok s w -> Forall slot_ok buffers -> exists w', batchLoopDarwin_iter clock buffers w = Ok w' /\ world_ok s w'.
Proof.
  intros Hw HF. destruct (batch_packets_ok clock 0 buffers w Hw HF) as (ms & out & w' & E & Hw' & _).
  unfold batchLoopDarwin_iter. rewrite E. eexists. split; [reflexivity|]. destruct out; [done|]. by apply (world_ok_frame s w').
Qed.
End Loops.

(** ** A started stack is well formed *)

Definition prefix4_ok (p : netip.Prefix) : Prop := is4 (netip.pf_addr p) /\ 0 <= netip.pf_bits p <= 32.
Definition prefix6_ok (p : netip.Prefix) : Prop := is6 (netip.pf_addr p) /\ 0 <= netip.pf_bits p <= 128.
Definition options_ok (options : TunOptions) : Prop :=
  Forall prefix4_ok (to_Inet4Address options) /\ Forall prefix6_ok (to_Inet6Address options).

Lemma Next_is4 a : is4 a -> netip.IsValid (netip.Next a) = true -> is4 (netip.Next a).
Proof.
  intros (b & -> & _). unfold netip.Next. destruct (_ =? _); [done|]. intros _. eexists. split; [reflexivity|].
  split; [apply netip.bytes_be_bytes|apply netip.length_be_bytes].
Qed.
Lemma Next_is6 a : is6 a -> netip.IsValid (netip.Next a) = true -> is6 (netip.Next a).
Proof.
  intros (b & -> & _). unfold netip.Next. destruct (_ =? _); [done|]. intros _. eexists. split; [reflexivity|].
  split; [apply netip.bytes_be_bytes|apply netip.length_be_bytes].
Qed.
Lemma BroadcastAddr_total ps : Forall prefix4_ok ps -> exists a, BroadcastAddr ps = Ok a.
Proof.
  intros HF. destruct ps as [|p ps]; [by eexists|]. apply Forall_cons in HF as [[(b & E & Hb) Hbits] _].
  unfold BroadcastAddr, netip.MaskedAddr. rewrite E. cbn [netip.AsSlice].
  assert (forall v, Zlen (netip.be_bytes 4 v) = 4) as -> by (intros v; unfold Zlen; by rewrite netip.length_be_bytes).
  rewrite (proj2 (Z.leb_le 0 _)), (proj2 (Z.leb_le _ 32)) by lia. by eexists.
Qed.

(** A new table is fit for any family. *)
Lemma family_ok_NewNat `{Environment} fam me next timeout : fam me -> fam next -> family_ok fam me next (Some (NewNat timeout)).
Proof.
  intros ??. intros t [= <-]. split; [|done]. split; [apply Inv_NewNat|]. intros p k Hm. exfalso.
  cbn in Hm. unfold nat_maps in Hm. cbn in Hm. by rewrite lookup_empty in Hm.
Qed.

(** The address pair of a family, as NewSystem fills it. *)
Definition pair_ok (fam : netip.Addr -> Prop) (configured : bool) (me next : netip.Addr) : Prop :=
  netip.IsValid next = configured /\ (configured = true -> fam me /\ fam next).

Definition configured (l : list netip.Prefix) : bool := match l with [] => false | _ => true end.

Lemma NewSystem_total options : options_ok options -> exists r, NewSystem options = Ok r.
Proof.
  intros [H4 _]. unfold NewSystem. destruct (BroadcastAddr_total _ H4) as (broadcast & ->). cbv zeta.
  repeat (match goal with |- exists r, (if ?b then _ else _) = Ok r => destruct b; [by eexists|] end). by eexists.
Qed.
Lemma NewSystem_ok options s : options_ok options -> NewSystem options = Ok (inr s) ->
  system_ok s /\
  pair_ok is4 (configured (to_Inet4Address options)) (inet4Address s) (inet4NextAddress s) /\
  pair_ok is6 (configured (to_Inet6Address options)) (inet6Address s) (inet6NextAddress s) /\
  (configured (to_Inet4Address options) || configured (to_Inet6Address options)) = true.
Proof.
  intros [H4 H6]. unfold NewSystem. destruct (BroadcastAddr_total _ H4) as (broadcast & ->). cbv zeta.
  assert (forall p l, Forall prefix4_ok (p :: l) -> HasNextAddress p 1 = true ->
    pair_ok is4 true (netip.pf_addr p) (netip.Next (netip.pf_addr p))) as P4.
  { intros p l [[H _] _]%Forall_cons E%HasNextAddress_valid. split; [done|]. intros _. split; [done|by apply Next_is4]. }
  assert (forall p l, Forall prefix6_ok (p :: l) -> HasNextAddress p 1 = true ->
    pair_ok is6 true (netip.pf_addr p) (netip.Next (netip.pf_addr p))) as P6.
  { intros p l [[H _] _]%Forall_cons E%HasNextAddress_valid. split; [done|]. intros _. split; [done|by apply Next_is6]. }
  assert (system_ok (mkSystem 0 netip.AddrInvalid netip.AddrInvalid netip.AddrInvalid netip.AddrInvalid netip.AddrInvalid [] [] 0 0 0 false))
    as HS by (split_and!; cbn; lia).
  destruct (to_Inet4Address options) as [|p4 l4], (to_Inet6Address options) as [|p6 l6]; [done|..];
    repeat (match goal with |- context [HasNextAddress ?p 1] => destruct (HasNextAddress p 1) eqn:?; [cbn [negb]|done] end);
    match goal with |- (if ?b then _ else _) = _ -> _ => destruct b; [done|] end; intros [= <-]; cbn;
    (split; [exact HS|]); split_and!; eauto; done.
Qed.

(** C26: NewSystem never panics on valid prefixes; the stack it returns has, for
    each family that is configured and for no other, an interface address and a
    next address of that family.  When start then succeeds the stack is well
    formed: the ports of the listeners are in range, the NAT table of a family
    exists exactly when the family is configured, and it is empty and
    consistent. *)
Theorem NewSystem_start_well_formed `{Environment} Listen options enforceBind udpTimeout cache :
  options_ok options -> (forall net a i p, Listen net a i = inr p -> is_u16 p) ->
  exists r, NewSystem options = Ok r /\
    forall s, r = inr s ->
      pair_ok is4 (configured (to_Inet4Address options)) (inet4Address s) (inet4NextAddress s) /\
      pair_ok is6 (configured (to_Inet6Address options)) (inet6Address s) (inet6NextAddress s) /\
      forall s' w, start Listen s enforceBind udpTimeout cache = inr (s', w) ->
        system_ok s' /\ world_ok s' w /\
        tcpNat4 w = (if configured (to_Inet4Address options) then Some (NewNat udpTimeout) else None) /\
        tcpNat6 w = (if configured (to_Inet6Address options) then Some (NewNat udpTimeout) else None).
Proof.
  intros HO HL. destruct (NewSystem_total options HO) as (r & E). exists r. split; [done|]. intros s ->.
  destruct (NewSystem_ok options s HO E) as (HS & P4 & P6 & _). split; [done|]. split; [done|]. intros s' w.
  destruct P4 as [V4 F4], P6 as [V6 F6]. destruct HS as (S1 & S2 & S3). unfold start. rewrite V4, V6.
  assert (forall net a p, listen Listen net a = inr p -> is_u16 p) as HL'.
  { intros net a p. unfold listen, listen_loop. repeat case_match; intros [= <-]; eauto. }
  destruct (configured (to_Inet4Address options)), (configured (to_Inet6Address options));
    repeat (match goal with |- context [listen Listen ?n ?a] => destruct (listen Listen n a) eqn:?; [done|] end);
    intros [= <- <-]; (split; [split; [done|split; cbn; eauto]|]); (split; [|done]); split; cbn;
    try (by intros ? [=]); apply family_ok_NewNat; by (apply F4 || apply F6).
Qed.

(** ** The loops *)

(** C5: no read loop of the stack panics.  From a well-formed stack, whatever
    sequence of packets with complete transport headers is read, tunLoop (on one
    reused buffer, with or without a link header), wintunLoop and a batch of
    batchLoopDarwin return, and the stack is well formed again: its NAT tables are
    consistent and hold only connections of their own address family. *)
Theorem loops_never_panic `{CI : ChecksumImpl} `{SC : SingCommon} `{BP : BufPackage} `{EN : Environment} {T} `{NT : NatTable T}
    (darwin : bool) s (w : world (T := T)) :
  system_ok s -> world_ok s w ->
  (forall reads m, bytes m -> Zlen m = mtu s + PacketOffset darwin -> Forall (fun r => read_ok darwin s r.2) reads ->
     exists w' m', tunLoop darwin s reads w m = Ok (tt, w', m') /\ world_ok s w') /\
  (forall packets, Forall (fun e => bytes e.2 /\ (IPv4MinimumSize <= Zlen e.2 -> complete e.2 0 (Zlen e.2))) packets ->
     exists w', wintunLoop darwin s packets w = Ok w' /\ world_ok s w') /\
  (forall clock buffers, Forall slot_ok buffers ->
     exists w', batchLoopDarwin_iter darwin s clock buffers w = Ok w' /\ world_ok s w').
Proof.
  intros Hs Hw. split; [|split].
  - intros reads m Hb Hm HF. destruct (tunLoop_safe darwin s Hs reads m w Hw Hb Hm HF) as ([] & w' & m' & R & Hw' & _).
    by exists w', m'.
  - intros packets. by apply wintunLoop_safe.
  - intros clock buffers. by apply batchLoopDarwin_safe.
Qed.

Section LinuxBatch.
Context `{CI : ChecksumImpl} `{SC : SingCommon} `{BP : BufPackage} `{EN : Environment} {T : Type} `{NT : NatTable T}.
Context `{UV : UnixVirtio} (IsBigEndian : bool).
Context (tcp_range : gmap tcpFlowKey (list tcpGROItem) -> list (tcpFlowKey * list tcpGROItem)).
Context (udp_range : gmap udpFlowKey (list udpGROItem) -> list (udpFlowKey * list udpGROItem)).
Context (file_Write : nat -> list Z -> write_result).
Hypothesis tcp_range_ok : forall t, tcp_range t ≡ₚ map_to_list t.
Hypothesis udp_range_ok : forall t, udp_range t ≡ₚ map_to_list t.

Definition batch_state (ms : list (list Z)) (out : list (nat * Z * Z)) : gro :=
  mkGro ms (map (write_buffer ms) out) newTCPGROTable newUDPGROTable [].

(** The buffers to write back are fit for BatchWrite. *)
Lemma write_buffers_ok batch ms out off size :
  Forall2 (fun e m' => bytes m' /\ Zlen m' = Zlen e.1.1) batch ms -> out_ok 0 batch out ->
  Forall (fun e => e.1.2 = off /\ Zlen e.1.1 = size /\ off + e.2 <= size) batch -> 0 <= off -> size <= 65535 ->
  bufs_ok off (batch_state ms out).
Proof.
  intros H2 [Hnd Hout] HF Hoff Hsize. split.
  - cbn [gr_bufs batch_state]. replace (b_arr <$> map (write_buffer ms) out) with (map (fun e : nat * Z * Z => e.1.1) out); [done|].
    rewrite <- list_fmap_compose. apply map_ext. by intros [[i o] n].
  - cbn [gr_bufs gr_arrays batch_state]. intros j b Hj. apply list_lookup_fmap_Some in Hj as ([[i o] n] & -> & Hj).
    destruct (Hout i o n) as (_ & m & Hm & Hn); [by eapply list_elem_of_lookup_2|]. rewrite Nat.sub_0_r in Hm.
    rewrite Forall_forall in HF. destruct (HF (m, o, n)) as (E1 & E2 & E3); [by eapply list_elem_of_lookup_2|]. cbn in E1, E2, E3. subst o.
    destruct (Forall2_lookup_l _ _ _ _ _ H2 Hm) as (m' & Hm' & Hb' & Hl'). cbn in Hl'. unfold IPv4MinimumSize in Hn.
    unfold buf_ok, array_of. cbn [write_buffer b_arr b_sl sl_off sl_len sl_cap]. rewrite Hm'. cbn [default].
    unfold default, id. split_and!; try done; lia.
Qed.

Lemma packet_of_batch ms out off k i n :
  out !! k = Some (i, off, n) ->
  packet_of off (batch_state ms out) (Z.of_nat k) = window (default [] (ms !! i)) off n.
Proof.
  intros Hk. unfold packet_of, pks. cbn [gr_bufs gr_arrays batch_state].
  rewrite Nat2Z.id, list_lookup_fmap. change (map (write_buffer ms) out) with (write_buffer ms <$> out). rewrite list_lookup_fmap, Hk.
  cbn. unfold view, array_of. cbn. f_equal; lia.
Qed.

(** C6: one turn of batchLoopLinux on a device with virtio headers.  For a batch
    of at most 128 packets with complete headers in buffers of the size the loop
    allocates, the turn does not panic and leaves the stack well formed; when
    some packet is to be written back and the kernel takes every frame, the
    packets written back (as processPacket left them) are exactly those the
    frames stand for, each alone or in a group the kernel can cut again, and the
    offload tables are as new. *)
Theorem batchLoopLinux_conserves (darwin : bool) s (w : world (T := T)) (t : NativeTun) clock batch :
  system_ok s -> world_ok s w -> vnetHdr t = true -> fresh t -> frontHeadroom s = FrontHeadroom t ->
  mtu s + FrontHeadroom t <= 65535 -> Zlen batch <= 128 -> (forall k d, file_Write k d = Wrote (Zlen d)) ->
  Forall (fun e => bytes e.1 /\ Zlen e.1 = mtu s + frontHeadroom s /\ e.2 <= mtu s /\
                   (IPv4MinimumSize <= e.2 -> complete e.1 (frontHeadroom s) e.2)) batch ->
  exists ms out w',
    batch_packets darwin s clock 0 (map (fun e => (e.1, frontHeadroom s, e.2)) batch) w = Ok (ms, out, w') /\ world_ok s w' /\
    exists r t' ms',
      batchLoopLinux_iter darwin s (BatchWrite IsBigEndian tcp_range udp_range file_Write) clock batch w t = Ok (w', r, t', ms') /\
      fresh t' /\
      match r with
      | None => out = []
      | Some (total, err, frames) =>
          total = Zlen (concat frames) /\ err = None /\
          exists (packets : Z -> list Z) (ids : Z -> list Z),
            (forall k i off n, out !! k = Some (i, off, n) -> packets (Z.of_nat k) = window (default [] (ms !! i)) off n) /\
            concat (map ids (gsoToWrite t')) ≡ₚ seqZ 0 (Zlen out) /\
            Forall2 (fun j f => exists V h, f = h ++ V /\
              written IsBigEndian (negb (nt_txChecksumOffload t)) packets j (ids j) V h) (gsoToWrite t') frames
      end.
Proof.
  intros Hs Hw Hvn Hfr Hroom Hmtu HN Hwr HF. pose proof Hs as (Hr0 & _).
  assert (frontHeadroom s = 10) as E10 by (rewrite Hroom; unfold FrontHeadroom; by rewrite Hvn). rewrite <- Hroom in Hmtu.
  set (slots := map (fun e : list Z * Z => (e.1, frontHeadroom s, e.2)) batch).
  assert (Forall slot_ok slots) as HS.
  { apply Forall_fmap. eapply Forall_impl; [exact HF|]. intros [m n] (H1 & H2 & H3 & H4). cbn in *. split_and!; try done; lia. }
  assert (Forall (fun e => e.1.2 = frontHeadroom s /\ Zlen e.1.1 = mtu s + frontHeadroom s /\ frontHeadroom s + e.2 <= mtu s + frontHeadroom s) slots) as HS2.
  { apply Forall_fmap. eapply Forall_impl; [exact HF|]. intros [m n] (H1 & H2 & H3 & H4). cbn in *. split_and!; try done; lia. }
  destruct (batch_packets_ok darwin s Hs clock 0 slots w Hw HS) as (ms & out & w' & E & Hw' & H2 & Hout).
  exists ms, out, w'. split; [done|]. split; [done|]. unfold batchLoopLinux_iter. fold slots. rewrite E.
  destruct out as [|e out]; [by exists None, t, ms|]. set (out' := e :: out) in *.
  pose proof (write_buffers_ok slots ms out' (frontHeadroom s) _ H2 Hout HS2 ltac:(lia) ltac:(lia)) as Hok.
  assert (Zlen (map (write_buffer ms) out') <= 128) as HN'.
  { unfold Zlen in *. rewrite length_map. destruct Hout as [Hnd Hout].
    assert (length (map (fun e : nat * Z * Z => e.1.1) out') <= length (seq 0 (length batch)))%nat as Hle.
    { apply submseteq_length, NoDup_submseteq; [done|]. intros i Hi. apply list_elem_of_fmap in Hi as ([[j o] n] & -> & Hj).
      destruct (Hout j o n Hj) as (_ & m & Hm & _). apply elem_of_seq. rewrite Nat.sub_0_r in Hm.
      apply lookup_lt_Some in Hm. subst slots. rewrite length_map in Hm. cbn. lia. }
    rewrite length_map, length_seq in Hle. lia. }
  destruct (BatchWrite_ok IsBigEndian tcp_range udp_range file_Write tcp_range_ok udp_range_ok t ms
    (map (write_buffer ms) out') (frontHeadroom s)) as (frames & t' & ms' & ids & R & Hf' & _ & Hp & Hfr'); try done; [lia|].
  rewrite R. exists (Some (Zlen (concat frames), None, frames)), t', ms'. split; [done|]. split; [done|]. split; [done|]. split; [done|].
  exists (packet_of (frontHeadroom s) (batch_state ms out')), ids. split_and!; try done.
  - intros k i off n Hk. assert (off = frontHeadroom s) as ->.
    { destruct Hout as [_ Hout]. destruct (Hout i off n) as (_ & m & Hm & _); [by eapply list_elem_of_lookup_2|].
      rewrite Forall_forall in HS2. by destruct (HS2 (m, off, n)) as (? & _); [eapply list_elem_of_lookup_2|]. }
    by apply packet_of_batch.
  - rewrite Hp. unfold Zlen. by rewrite length_map.
Qed.
End LinuxBatch.

(** ** Witnesses *)

#[local] Existing Instance null_environment.
#[local] Existing Instance sing_common_loop.
#[local] Existing Instance ts64.
#[local] Existing Instance zero_pool.

Definition no_routes : @route_cache null_environment := tt.
Definition sample_options : TunOptions :=
  mkTunOptions 1500 [netip.PrefixFrom (netip.Addr4 [172; 19; 0; 1]) 30] [] [] [].
Lemma NewSystem_start_well_formed_witness :
  exists s, NewSystem sample_options = Ok (inr s) /\
    forall s' w, start (fun _ _ _ => inr 8080) s false 300 no_routes = inr (s', w) -> system_ok s' /\ world_ok s' w.
Proof.
  destruct (NewSystem_start_well_formed (fun _ _ _ => inr 8080) sample_options false 300 no_routes) as (r & E & H).
  - split; [|by constructor]. constructor; [|by constructor]. split; [|cbn; lia]. eexists. split; [reflexivity|concrete].
  - intros net a i p [= <-]. lia.
  - vm_compute in E. injection E as <-. eexists. split; [vm_compute; reflexivity|].
    intros s' w Hst. destruct (H _ eq_refl) as (_ & _ & H'). by destruct (H' s' w Hst) as (? & ? & _).
Defined.

Definition small_system : System :=
  mkSystem 60 (netip.Addr4 [172; 19; 0; 1]) (netip.Addr4 [172; 19; 0; 2]) netip.AddrInvalid netip.AddrInvalid
    (netip.Addr4 [172; 19; 0; 3]) [] [] 8080 0 10 false.
Definition small_world : world (T := TCPNat) := mkWorld (Some (NewNat 300)) None tt [].
Lemma small_world_ok : world_ok small_system small_world.
Proof.
  split; [|by intros ? [=]]. apply family_ok_NewNat; (eexists; split; [reflexivity|concrete]).
Defined.
Lemma sample_tcp4_complete : complete sample_tcp4 0 (Zlen sample_tcp4).
Proof. split; [intros _; vm_compute; split; congruence|]. intros (_ & _ & H). by vm_compute in H. Defined.

Lemma loops_never_panic_witness :
  (exists w' m', tunLoop false small_system [(7, RData sample_tcp4); (8, RClosed)] small_world (repeat 0 60) = Ok (tt, w', m')) /\
  (exists w', wintunLoop false small_system [(7, sample_tcp4)] small_world = Ok w').
Proof.
  destruct (loops_never_panic false small_system small_world) as (H1 & H2 & _); [split_and!; cbn; lia|exact small_world_ok|]. split.
  - destruct (H1 [(7, RData sample_tcp4); (8, RClosed)] (repeat 0 60)) as (w' & m' & R & _); [concrete|reflexivity| |by exists w', m'].
    constructor; [|by repeat constructor]. split; [concrete|]. split; [vm_compute; congruence|]. intros _. exact sample_tcp4_complete.
  - destruct (H2 [(7, sample_tcp4)]) as (w' & R & _); [|by exists w'].
    constructor; [|by constructor]. split; [concrete|]. intros _. exact sample_tcp4_complete.
Defined.

(** A buffer of batchLoopLinux: headroom, packet, unused room. *)
Definition sample_slot : list Z * Z := (repeat 0 10 ++ sample_tcp4 ++ repeat 0 20, 40).
Lemma batchLoopLinux_conserves_witness :
  exists w' r t' ms',
    batchLoopLinux_iter false small_system
      (@BatchWrite ts64 linux_virtio false map_to_list map_to_list (fun _ d => Wrote (Zlen d)))
      (fun _ => 7) [sample_slot] small_world sample_tun = Ok (w', r, t', ms') /\ fresh t' /\ world_ok small_system w'.
Proof.
  destruct (@batchLoopLinux_conserves ts64 _ _ _ TCPNat _ linux_virtio false map_to_list map_to_list
    (fun _ d => Wrote (Zlen d)) ltac:(done) ltac:(done) false small_system small_world sample_tun (fun _ => 7) [sample_slot])
    as (ms & out & w' & _ & Hw' & r & t' & ms' & R & Hf & _).
  - split_and!; cbn; lia.
  - exact small_world_ok.
  - done.
  - done.
  - done.
  - vm_compute. congruence.
  - vm_compute. congruence.
  - done.
  - constructor; [|by constructor]. split; [concrete|]. split; [reflexivity|]. split; [vm_compute; congruence|]. intros _.
    split; [intros _; vm_compute; split; congruence|]. intros (_ & _ & H). by vm_compute in H.
  - exists w', r, t', ms'. split; [exact R|]. split; [exact Hf|exact Hw'].
Defined.
