(* ===== verification/Mixed.v ===== *)
(** * The mixed stack: src/stack_mixed.go, and the choice of a stack in src/stack.go

    [Mixed] handles TCP and ICMP as the system stack does, and gives UDP to a
    network stack of gVisor through an endpoint.  The packets injected into the
    endpoint are recorded beside the state of the system stack. *)
From Stdlib Require Import String.
From S2P Require Import Prelude Bytes GoMem Checksum TsChecksum Tcpip Netip HdrChecksum IPv4Options IPv4 IPv6 TCP UDP ICMP Offload TcpNat Rewrite System SystemNat SystemPackets SystemIcmp SystemSafe SystemLoops.
(** ** NewStack *)

Inductive stack_kind := Mipstack | GVisor | MixedStack | SystemStack.
Inductive stack_error := ErrIncludeAllNetworks | ErrUnknownStack (name : string).
Definition NewStack (stack : string) (IncludeAllNetworks : bool) : stack_error + stack_kind :=
  if String.eqb stack "" || String.eqb stack "mips" then inr Mipstack
  else if String.eqb stack "gvisor" then inr GVisor
  else if String.eqb stack "mixed" then if IncludeAllNetworks then inl ErrIncludeAllNetworks else inr MixedStack
  else if String.eqb stack "system" then if IncludeAllNetworks then inl ErrIncludeAllNetworks else inr SystemStack
  else inl (ErrUnknownStack stack).

Module Mixed.
Section Mixed.
Context `{CI : ChecksumImpl} `{SC : SingCommon} `{BP : BufPackage} `{EN : Environment} {T : Type} `{NT : NatTable T}.
Context (darwin : bool) (s : System).

(** The state of the embedded System, and the packets given to
    endpoint.InjectInbound with their network protocols. *)
Record state := mkMixed { mx_system : world (T := T); mx_inbound : list (Z * list Z) }.
Definition MM (A : Type) : Type := state -> list Z -> res (A * state * list Z).
Definition mret {A} (a : A) : MM A := fun x m => Ok (a, x, m).
Definition mbind {A B} (c : MM A) (k : A -> MM B) : MM B :=
  fun x m => match c x m with Ok (a, x', m') => k a x' m' | Panic => Panic end.
(** A method of the embedded System. *)
Definition system {A} (c : SM (T := T) A) : MM A :=
  fun x m => match c (mx_system x) m with Ok (a, w, m') => Ok (a, mkMixed w (mx_inbound x), m') | Panic => Panic end.
#[local] Notation "x <<= c ;; k" := (mbind c (fun x => k)) (at level 100, c at next level, right associativity).

(** gVisor's header.IPv4ProtocolNumber and IPv6ProtocolNumber. *)
Definition IPv4ProtocolNumber : Z := 2048.
Definition IPv6ProtocolNumber : Z := 34525.
Definition InjectInbound (protocol : Z) (packet : slice) : MM unit := fun x m =>
  match contents packet m with
  | Ok (data, m') => Ok (tt, mkMixed (mx_system x) (mx_inbound x ++ [(protocol, data)]), m')
  | Panic => Panic
  end.

Definition processIPv4 (now : Z) (ipHdr : slice) : MM (bool * option error) :=
  destination <<= system (mem (IPv4.DestinationAddr ipHdr)) ;;
  if bool_decide (destination = broadcastAddr s) || negb (netip.IsGlobalUnicast destination) then mret (true, None) else
  proto <<= system (mem (IPv4.TransportProtocol ipHdr)) ;;
  if proto =? TCP.TCPProtocolNumber then
    payload <<= system (mem (IPv4.Payload ipHdr)) ;; system (System.processIPv4TCP darwin s now ipHdr payload)
  else if proto =? UDP.UDPProtocolNumber then
    _ <<= InjectInbound IPv4ProtocolNumber ipHdr ;; mret (false, None)
  else if proto =? ICMPv4.ICMPv4ProtocolNumber then
    payload <<= system (mem (IPv4.Payload ipHdr)) ;; system (System.processIPv4ICMP darwin s ipHdr payload)
  else mret (true, None).
Definition processIPv6 (now : Z) (ipHdr : slice) : MM (bool * option error) :=
  destination <<= system (mem (IPv6.DestinationAddr ipHdr)) ;;
  if negb (netip.IsGlobalUnicast destination) then mret (true, None) else
  proto <<= system (mem (IPv6.TransportProtocol ipHdr)) ;;
  if proto =? TCP.TCPProtocolNumber then
    payload <<= system (mem (IPv6.Payload ipHdr)) ;; system (System.processIPv6TCP darwin s now ipHdr payload)
  else if proto =? UDP.UDPProtocolNumber then
    _ <<= InjectInbound IPv6ProtocolNumber ipHdr ;; mret (false, None)
  else if proto =? ICMPv6.ICMPv6ProtocolNumber then
    payload <<= system (mem (IPv6.Payload ipHdr)) ;; system (System.processIPv6ICMP darwin s ipHdr payload)
  else mret (true, None).
Definition processPacket (now : Z) (packet : slice) : MM bool :=
  ipVersion <<= system (mem (IPVersion packet)) ;;
  r <<= (if ipVersion =? IPv4Version then
           v <<= system (mem (IPv4.IsValid packet (sl_len packet))) ;;
           if negb v then mret (false, Some ErrInvalidIPv4) else processIPv4 now packet
         else if ipVersion =? IPv6Version then
           v <<= system (mem (IPv6.IsValid packet (sl_len packet))) ;;
           if negb v then mret (false, Some ErrInvalidIPv6) else processIPv6 now packet
         else mret (false, Some (ErrUnknownVersion ipVersion))) ;;
  mret (match r with (_, Some _) => false | (writeBack, None) => writeBack end).

(** ** The loops *)

Definition mx_emit (x : state) (e : event) : state :=
  let w := mx_system x in mkMixed (mkWorld (tcpNat4 w) (tcpNat6 w) (directNat w) (log w ++ [e])) (mx_inbound x).

Definition tunLoop_iter (now n : Z) : MM unit :=
  m <<= system (mem (fun m => Ok (m, m))) ;;
  let packetBuffer := Slice 0 (mtu s + PacketOffset darwin) (Zlen m) in
  if n <? IPv4MinimumSize then mret tt else
  rawPacket <<= system (mem (reslice packetBuffer 0 n)) ;;
  packet <<= system (mem (reslice packetBuffer (PacketOffset darwin) n)) ;;
  wb <<= processPacket now packet ;;
  if (wb : bool) then
    raw <<= system (mem (contents rawPacket)) ;; _ <<= system (emit (TunWrite raw)) ;; mret tt
  else mret tt.
Fixpoint tunLoop (reads : list (Z * read_outcome)) : MM unit :=
  match reads with
  | [] => mret tt
  | (_, RClosed) :: _ => mret tt
  | (now, RData d) :: reads' | (now, RError d) :: reads' =>
      _ <<= system (mem (fun m => Ok (tt, write_at m 0 d))) ;;
      _ <<= tunLoop_iter now (Zlen d) ;; tunLoop reads'
  end.
Fixpoint wintunLoop (packets : list (Z * list Z)) (x : state) : res state :=
  match packets with
  | [] => Ok x
  | (now, p) :: packets' =>
      if Zlen p <? IPv4MinimumSize then wintunLoop packets' x
      else match processPacket now (Slice 0 (Zlen p) (Zlen p)) x p with
           | Panic => Panic
           | Ok (writeBack, x', p') => wintunLoop packets' (if (writeBack : bool) then mx_emit x' (TunWrite p') else x')
           end
  end.
Fixpoint batch_packets (clock : nat -> Z) (i : nat) (batch : list (list Z * Z * Z)) (x : state)
    : res (list (list Z) * list (nat * Z * Z) * state) :=
  match batch with
  | [] => Ok ([], [], x)
  | (m, off, packetSize) :: batch' =>
      let rest m' keep x' :=
        match batch_packets clock (S i) batch' x' with
        | Panic => Panic
        | Ok (ms, out, x'') => Ok (m' :: ms, if (keep : bool) then (i, off, packetSize) :: out else out, x'')
        end in
      if packetSize <? IPv4MinimumSize then rest m false x
      else match (packet <<= system (mem (reslice (Slice 0 (Zlen m) (Zlen m)) off (off + packetSize))) ;; processPacket (clock i) packet) x m with
           | Panic => Panic
           | Ok (writeBack, x', m') => rest m' writeBack x'
           end
  end.
Definition batchLoopDarwin_iter (clock : nat -> Z) (buffers : list (list Z * Z * Z)) (x : state) : res state :=
  match batch_packets clock 0 buffers x with
  | Panic => Panic
  | Ok (ms, out, x') =>
      Ok (match out with
          | [] => x'
          | _ => mx_emit x' (TunBatchWrite (map (fun '(i, off, n) => window (default [] (ms !! i)) off n) out))
          end)
  end.
Definition batchLoopLinux_iter {D R : Type} (BatchWrite : D -> list (list Z) -> list bslice -> Z -> res (R * D * list (list Z)))
    (clock : nat -> Z) (batch : list (list Z * Z)) (x : state) (t : D) : res (state * option R * D * list (list Z)) :=
  match batch_packets clock 0 (map (fun e => (e.1, frontHeadroom s, e.2)) batch) x with
  | Panic => Panic
  | Ok (ms, [], x') => Ok (x', None, t, ms)
  | Ok (ms, out, x') =>
      match BatchWrite t ms (map (write_buffer ms) out) (frontHeadroom s) with
      | Panic => Panic
      | Ok (r, t', ms') => Ok (x', Some r, t', ms')
      end
  end.
(** The packets ReadContext gives until it gives none; [WritePacket] is the
    device's. *)
Fixpoint packetLoop {D P : Type} (WritePacket : D -> P -> D) (packets : list (option P)) (t : D) : D :=
  match packets with
  | Some pkt :: packets' => packetLoop WritePacket packets' (WritePacket t pkt)
  | _ => t
  end.
End Mixed.

(** ** NewMixed and Start *)

(** The device must be a GVisorTun: the type assertion panics otherwise. *)
Definition NewMixed (options : TunOptions) (isGVisorTun : bool) : res (error + System) :=
  match NewSystem options with
  | Panic => Panic
  | Ok (inl e) => Ok (inl e)
  | Ok (inr system) => if isGVisorTun then Ok (inr system) else Panic
  end.
(** [NewGVisorStack] is the answer for an endpoint with the MTU of the device. *)
Inductive start_error (E : Type) := ListenError (e : listen_error) | GVisorError (e : E).
Arguments ListenError {E} e.
Arguments GVisorError {E} e.
Definition Start `{Environment} {E : Type} (Listen : string -> listen_address -> nat -> listen_error + Z) (NewGVisorStack : Z -> option E)
    (s : System) (enforceBind : bool) (udpTimeout : Z) (NewDirectRouteMapping : route_cache) : start_error E + System * state (T := TCPNat) :=
  match start Listen s enforceBind udpTimeout NewDirectRouteMapping with
  | inl e => inl (ListenError e)
  | inr (s', w) => match NewGVisorStack (u32 (mtu s')) with Some e => inl (GVisorError e) | None => inr (s', mkMixed w []) end
  end.
End Mixed.

(** ** The mixed stack is the system stack with UDP taken out

    What happens to each packet, and how a loop over packets is the loop of the
    system stack over the packets that are not UDP. *)

#[export] Instance valid_header4_dec m o l n : Decision (IPv4.valid_header m o l n).
Proof. unfold IPv4.valid_header. apply _. Defined.
#[export] Instance valid_header6_dec m o l n : Decision (IPv6.valid_header m o l n).
Proof. unfold IPv6.valid_header. apply _. Defined.

(** What the mixed stack does with a packet. *)
Inductive packet_class := WrittenBack | ToEndpoint (protocol : Z) | AsSystem.

Section Spec.
Context `{CI : ChecksumImpl} `{SC : SingCommon} `{BP : BufPackage} `{EN : Environment} {T : Type} `{NT : NatTable T}.
Context (darwin : bool) (s : System).
Import Mixed.

(** By the fields of its header. *)
Definition classify (m : list Z) (o l : Z) : packet_class :=
  if decide (IPv4.valid_header m o l l) then
    let destination := netip.Addr4 (window m (o + 16) 4) in
    if bool_decide (destination = broadcastAddr s) || negb (netip.IsGlobalUnicast destination) then WrittenBack
    else if byte_at m (o + 9) =? UDP.UDPProtocolNumber then ToEndpoint IPv4ProtocolNumber else AsSystem
  else if decide (IPv6.valid_header m o l l) then
    if negb (netip.IsGlobalUnicast (netip.Addr6 (window m (o + 24) 16))) then WrittenBack
    else if byte_at m (o + 6) =? UDP.UDPProtocolNumber then ToEndpoint IPv6ProtocolNumber else AsSystem
  else AsSystem.

Definition inject (x : state (T := T)) (protocol : Z) (data : list Z) : state (T := T) := mkMixed (mx_system x) (mx_inbound x ++ [(protocol, data)]).
Lemma mbind_mem {A B} (c : M A) (k : A -> MM (T := T) B) x m a : runs c m a m -> mbind (system (mem c)) k x m = k a x m.
Proof. unfold runs, mbind, system, mem. intros ->. by destruct x. Qed.
Lemma sbind_mem {A B} (c : M A) (k : A -> SM (T := T) B) w m a : runs c m a m -> sbind (mem c) k w m = k a w m.
Proof. unfold runs, sbind, mem. by intros ->. Qed.
Lemma mbind_system {A B} (c : SM (T := T) A) (k : A -> MM (T := T) B) k' x m :
  (forall a, k a = system (k' a)) -> mbind (system c) k x m = system (sbind c k') x m.
Proof. intros Hk. unfold mbind, system, sbind. destruct (c _ m) as [[[a w] m']|]; [|done]. by rewrite Hk. Qed.
(** The system stack drops the result of a handler that failed, at once or later. *)
Lemma finish_system (c : SM (T := T) (bool * option error)) x m :
  mbind (system c) (fun r => mret (match r with (_, Some _) => false | (wb, None) => wb end)) x m =
  system (sbind (sbind c (fun r => sret (drop_on_error r))) (fun r => sret (match r with (_, Some _) => false | (wb, None) => wb end))) x m.
Proof. unfold mbind, system, sbind, sret, mret. destruct (c _ m) as [[[[wb [e|]] w] m']|]; done. Qed.

Context (o l c : Z) (m : list Z) (Hl : 0 < l) (Hc : l <= c).
Let packet := Slice o l c.

Abbreviation written := (fun r : bool * option error => match r with (_, Some _) => false | (wb, None) => wb end).
(** A handler of the system stack in both. *)
Lemma handled (f : SM (T := T) (bool * option error)) (k : SM (T := T) (bool * option error)) (g : MM (T := T) (bool * option error)) x :
  (forall w, f w m = sbind k (fun r => sret (drop_on_error r)) w m) -> g x m = system k x m ->
  mbind g (fun r => mret (written r)) x m = system (sbind f (fun r => sret (written r))) x m.
Proof. intros Hf Hg. unfold mbind. rewrite Hg. etransitivity; [exact (finish_system k x m)|]. unfold system. unfold sbind at 1 3. by rewrite Hf. Qed.

(** Both stacks take the same steps up to the handler. *)
Ltac stepped := intros; unfold System.processIPv4, System.processIPv6, processIPv4, processIPv6;
  repeat match goal with
  | R : runs ?f _ _ _ |- context [mbind (system (mem ?f))] => rewrite (mbind_mem _ _ _ _ _ R)
  | R : runs ?f _ _ _ |- context [sbind (mem ?f)] => rewrite (sbind_mem _ _ _ _ _ R)
  | E : ?b = _ |- context [if ?b then _ else _] => rewrite E
  end; reflexivity.
Lemma mixed_v4 now x : IPv4.valid_header m o l l ->
  mbind (processIPv4 darwin s now packet) (fun r => mret (written r)) x m =
  match classify m o l with
  | WrittenBack => Ok (true, x, m)
  | ToEndpoint protocol => Ok (false, inject x protocol (window m o l), m)
  | AsSystem => system (sbind (System.processIPv4 darwin s now packet) (fun r => sret (written r))) x m
  end.
Proof.
  intros HV. pose proof HV as (H20 & _). pose proof (IPv4.runs4_DestinationAddr o l c m ltac:(lia)) as RD. pose proof (IPv4.runs4_TransportProtocol o l c m ltac:(lia)) as RP. unfold classify. rewrite decide_True by done.
  destruct (_ || negb _) eqn:EB; [unfold mbind at 1, processIPv4; rewrite (mbind_mem _ _ _ _ _ RD), EB; done|].
  assert (forall (k : SM (T := T) (bool * option error)) g, (forall w, System.processIPv4 darwin s now packet w m = sbind k (fun r => sret (drop_on_error r)) w m) -> processIPv4 darwin s now packet x m = g x m -> g x m = system k x m ->
    mbind (processIPv4 darwin s now packet) (fun r => mret (written r)) x m = system (sbind (System.processIPv4 darwin s now packet) (fun r => sret (written r))) x m) as HK.
  { intros k g Hk Hg Hs. apply (handled _ k); [done|congruence]. }
  destruct (byte_at m (o + 9) =? TCP.TCPProtocolNumber) eqn:ET; [|destruct (byte_at m (o + 9) =? UDP.UDPProtocolNumber) eqn:EU; [|destruct (byte_at m (o + 9) =? ICMPv4.ICMPv4ProtocolNumber) eqn:EI]].
  - replace (byte_at m (o + 9) =? UDP.UDPProtocolNumber) with false by (apply Z.eqb_eq in ET; rewrite ET; done). eapply HK; [stepped|stepped|by apply mbind_system].
  - unfold mbind at 1, processIPv4. rewrite (mbind_mem _ _ _ _ _ RD), EB, (mbind_mem _ _ _ _ _ RP), ET, EU. done.
  - eapply HK; [stepped|stepped|by apply mbind_system].
  - eapply (HK (sret (true, None))); [stepped|stepped|by destruct x].
Qed.
Lemma mixed_v6 now x : IPv6.valid_header m o l l -> ~ IPv4.valid_header m o l l ->
  mbind (processIPv6 darwin s now packet) (fun r => mret (written r)) x m =
  match classify m o l with
  | WrittenBack => Ok (true, x, m)
  | ToEndpoint protocol => Ok (false, inject x protocol (window m o l), m)
  | AsSystem => system (sbind (System.processIPv6 darwin s now packet) (fun r => sret (written r))) x m
  end.
Proof.
  intros HV HN. pose proof HV as (H40 & _). pose proof (IPv6.runs6_DestinationAddr o l c m ltac:(lia) ltac:(lia)) as RD. pose proof (IPv6.runs6_TransportProtocol o l c m ltac:(lia)) as RP. unfold classify. rewrite decide_False, decide_True by done.
  destruct (negb _) eqn:EB; [unfold mbind at 1, processIPv6; rewrite (mbind_mem _ _ _ _ _ RD), EB; done|].
  assert (forall (k : SM (T := T) (bool * option error)) g, (forall w, System.processIPv6 darwin s now packet w m = sbind k (fun r => sret (drop_on_error r)) w m) -> processIPv6 darwin s now packet x m = g x m -> g x m = system k x m ->
    mbind (processIPv6 darwin s now packet) (fun r => mret (written r)) x m = system (sbind (System.processIPv6 darwin s now packet) (fun r => sret (written r))) x m) as HK.
  { intros k g Hk Hg Hs. apply (handled _ k); [done|congruence]. }
  destruct (byte_at m (o + 6) =? TCP.TCPProtocolNumber) eqn:ET; [|destruct (byte_at m (o + 6) =? UDP.UDPProtocolNumber) eqn:EU; [|destruct (byte_at m (o + 6) =? ICMPv6.ICMPv6ProtocolNumber) eqn:EI]].
  - replace (byte_at m (o + 6) =? UDP.UDPProtocolNumber) with false by (apply Z.eqb_eq in ET; rewrite ET; done). eapply HK; [stepped|stepped|by apply mbind_system].
  - unfold mbind at 1, processIPv6. rewrite (mbind_mem _ _ _ _ _ RD), EB, (mbind_mem _ _ _ _ _ RP), ET, EU. done.
  - eapply HK; [stepped|stepped|by apply mbind_system].
  - eapply (HK (sret (true, None))); [stepped|stepped|by destruct x].
Qed.

Lemma mixed_packet now x :
  processPacket darwin s now packet x m =
  match classify m o l with
  | WrittenBack => Ok (true, x, m)
  | ToEndpoint protocol => Ok (false, inject x protocol (window m o l), m)
  | AsSystem => system (System.processPacket darwin s now packet) x m
  end.
Proof.
  pose proof (IPv4.runs_IPVersion o l c m ltac:(lia)) as RV. destruct (IPv4.runs4_IsValid o l c l m Hc) as (v4 & R4 & H4). destruct (IPv6.runs6_IsValid o l c l m Hc) as (v6 & R6 & H6).
  assert (forall w, System.processPacket darwin s now packet w m = (sbind (if Z.shiftr (byte_at m o) 4 =? IPv4Version then (if negb v4 then sret (false, Some ErrInvalidIPv4) else System.processIPv4 darwin s now packet)
    else if Z.shiftr (byte_at m o) 4 =? IPv6Version then (if negb v6 then sret (false, Some ErrInvalidIPv6) else System.processIPv6 darwin s now packet) else sret (false, Some (ErrUnknownVersion (Z.shiftr (byte_at m o) 4)))) (fun r => sret (written r))) w m) as HS.
  { intros w. unfold System.processPacket. rewrite (sbind_mem _ _ _ _ _ RV). cbn [sl_len packet]. destruct (_ =? IPv4Version); [unfold sbind at 1; by rewrite (sbind_mem _ _ _ _ _ R4)|]. destruct (_ =? IPv6Version); [unfold sbind at 1; by rewrite (sbind_mem _ _ _ _ _ R6)|done]. }
  assert (system (System.processPacket darwin s now packet) x m = system (sbind (if Z.shiftr (byte_at m o) 4 =? IPv4Version then (if negb v4 then sret (false, Some ErrInvalidIPv4) else System.processIPv4 darwin s now packet)
    else if Z.shiftr (byte_at m o) 4 =? IPv6Version then (if negb v6 then sret (false, Some ErrInvalidIPv6) else System.processIPv6 darwin s now packet) else sret (false, Some (ErrUnknownVersion (Z.shiftr (byte_at m o) 4)))) (fun r => sret (written r))) x m) as ->
    by (unfold system; by rewrite HS).
  unfold processPacket. rewrite (mbind_mem _ _ _ _ _ RV). cbn [sl_len packet]. unfold IPv4Version, IPv6Version in *. rewrite Z.shiftr_div_pow2 by lia. change (2 ^ 4) with 16.
  assert (~ (IPv4.valid_header m o l l /\ IPv6.valid_header m o l l)) as HN by (intros [(_ & _ & _ & _ & E4) (_ & _ & E6)]; congruence).
  destruct (Z.eqb_spec (byte_at m o / 16) 4) as [E4|N4]; [|destruct (Z.eqb_spec (byte_at m o / 16) 6) as [E6|N6]].
  - unfold mbind at 1. rewrite (mbind_mem _ _ _ _ _ R4). destruct v4; cbn [negb]; [by apply mixed_v4, H4|]. unfold classify. rewrite decide_False by (intros HV%H4; done). rewrite decide_False by (intros (_ & _ & ?); lia). by destruct x.
  - unfold mbind at 1. rewrite (mbind_mem _ _ _ _ _ R6). assert (~ IPv4.valid_header m o l l) as HN4 by (intros (_ & _ & _ & _ & ?); done). destruct v6; cbn [negb]; [apply mixed_v6; [by apply H6|done]|].
    unfold classify. rewrite decide_False by done. rewrite decide_False by (intros HV%H6; done). by destruct x.
  - unfold classify. rewrite !decide_False by (intros HV; destruct_and? HV; unfold IPv4.valid_header, IPv6.valid_header in *; tauto). by destruct x.
Qed.
(** The system stack neither answers nor writes back what is not for one host. *)
Lemma system_not_unicast now w : classify m o l = WrittenBack -> System.processPacket darwin s now packet w m = Ok (false, w, m).
Proof.
  unfold classify. pose proof (IPv4.runs_IPVersion o l c m ltac:(lia)) as RV. destruct (IPv4.runs4_IsValid o l c l m Hc) as (v4 & R4 & H4). destruct (IPv6.runs6_IsValid o l c l m Hc) as (v6 & R6 & H6). unfold System.processPacket. rewrite (sbind_mem _ _ _ _ _ RV). cbn [sl_len packet].
  rewrite Z.shiftr_div_pow2 by lia. change (2 ^ 4) with 16. destruct (decide (IPv4.valid_header m o l l)) as [HV|_]; [|destruct (decide (IPv6.valid_header m o l l)) as [HV|_]; [|done]].
  - destruct (_ || negb _) eqn:EB; [|by destruct (_ =? UDP.UDPProtocolNumber)]. intros _. pose proof HV as (H20 & _ & _ & _ & E4). rewrite E4. change (4 =? IPv4Version) with true. cbv iota. unfold sbind at 1. rewrite (sbind_mem _ _ _ _ _ R4). apply H4 in HV as ->. cbn [negb].
    unfold System.processIPv4. rewrite (sbind_mem _ _ _ _ _ (IPv4.runs4_DestinationAddr o l c m ltac:(lia))). by rewrite EB.
  - destruct (negb _) eqn:EB; [|by destruct (_ =? UDP.UDPProtocolNumber)]. intros _. pose proof HV as (H40 & _ & E6). rewrite E6. change (6 =? IPv4Version) with false. change (6 =? IPv6Version) with true. cbv iota. unfold sbind at 1. rewrite (sbind_mem _ _ _ _ _ R6). apply H6 in HV as ->. cbn [negb].
    unfold System.processIPv6. rewrite (sbind_mem _ _ _ _ _ (IPv6.runs6_DestinationAddr o l c m ltac:(lia) ltac:(lia))). by rewrite EB.
Qed.
End Spec.

(** ** The loops *)

Section Loops.
Context `{CI : ChecksumImpl} `{SC : SingCommon} `{BP : BufPackage} `{EN : Environment} {T : Type} `{NT : NatTable T}.
Context (darwin : bool) (s : System) (Hs : system_ok s).
Import Mixed.

(** The datagrams among the packets of a ring, and the rest. *)
Definition datagram (p : list Z) : option Z :=
  if Zlen p <? IPv4MinimumSize then None else match classify s p 0 (Zlen p) with ToEndpoint protocol => Some protocol | _ => None end.
Definition datagrams (packets : list (Z * list Z)) : list (Z * list Z) :=
  flat_map (fun e => match datagram e.2 with Some protocol => [(protocol, e.2)] | None => [] end) packets.
Definition others (packets : list (Z * list Z)) : list (Z * list Z) := List.filter (fun e => match datagram e.2 with Some _ => false | None => true end) packets.
Definition packet_ok (p : list Z) : Prop := bytes p /\ (IPv4MinimumSize <= Zlen p -> complete p 0 (Zlen p) /\ classify s p 0 (Zlen p) <> WrittenBack).

Lemma wintun_splits packets (w : world (T := T)) : world_ok s w -> Forall (fun e => packet_ok e.2) packets ->
  exists w', SystemLoops.wintunLoop darwin s (others packets) w = Ok w' /\ world_ok s w' /\
    forall inbound, wintunLoop darwin s packets (mkMixed w inbound) = Ok (mkMixed w' (inbound ++ datagrams packets)).
Proof.
  revert w. induction packets as [|[now p] packets IH]; intros w Hw HF; [exists w; split_and!; [done|done|intros; cbn; by rewrite app_nil_r]|].
  apply Forall_cons in HF as [[Hb HC] HF]. cbn [snd] in *. unfold others, datagrams. cbn [flat_map List.filter wintunLoop snd]. fold (others packets). fold (datagrams packets). unfold datagram.
  destruct (Z.ltb_spec (Zlen p) IPv4MinimumSize) as [Hlt|H20].
  { cbn [SystemLoops.wintunLoop]. replace (Zlen p <? IPv4MinimumSize) with true by lia. by apply IH. }
  destruct (HC H20) as [HP HW]. unfold IPv4MinimumSize in H20. assert (0 < Zlen p) as Hpos by lia. pose proof (mixed_packet darwin s 0 (Zlen p) (Zlen p) p Hpos ltac:(lia) now) as HM.
  destruct (classify s p 0 (Zlen p)) as [|protocol|] eqn:EC; [done| |].
  - destruct (IH w Hw HF) as (w' & E & Hw' & HL). exists w'. split_and!; [done|done|]. intros inbound. rewrite HM. unfold inject. cbn [mx_system mx_inbound]. rewrite window_all. rewrite HL. by rewrite <- app_assoc.
  - cbn [SystemLoops.wintunLoop]. replace (Zlen p <? IPv4MinimumSize) with false by (unfold IPv4MinimumSize; lia).
    destruct (processPacket_safe darwin s Hs 0 (Zlen p) (Zlen p) p w Hb) with (now := now) as (wb & w1 & p1 & R & Hw1 & _); try done; try lia. unfold sruns in R. rewrite R.
    set (w2 := if wb then _ else w1). assert (world_ok s w2) as Hw2 by (unfold w2; destruct wb; [by apply (world_ok_frame s w1)|done]). destruct (IH w2 Hw2 HF) as (w' & E & Hw' & HL). exists w'. split_and!; [done|done|]. intros inbound.
    rewrite HM. unfold system. cbn [mx_system mx_inbound]. rewrite R. etransitivity; [|exact (HL inbound)]. unfold w2. by destruct wb.
Qed.

(** *** No loop panics *)

Definition msafe {A} (c : MM (T := T) A) (x : state) (m : list Z) : Prop :=
  exists a x' m', c x m = Ok (a, x', m') /\ world_ok s (mx_system x') /\ bytes m' /\ Zlen m' = Zlen m.
Lemma msafe_ret {A} (a : A) x m : world_ok s (mx_system x) -> bytes m -> msafe (mret a) x m.
Proof. intros. by exists a, x, m. Qed.
Lemma msafe_system {A} (c : SM (T := T) A) x m : safe s c (mx_system x) m -> msafe (system c) x m.
Proof. intros (a & w' & m' & R & Hw & Hb & Hl). unfold sruns in R. exists a, (mkMixed w' (mx_inbound x)), m'. unfold system. by rewrite R. Qed.
Lemma msafe_bind {A B} (c : MM A) (k : A -> MM B) x m :
  msafe c x m -> (forall a x' m', world_ok s (mx_system x') -> bytes m' -> Zlen m' = Zlen m -> msafe (k a) x' m') -> msafe (mbind c k) x m.
Proof.
  intros (a & x' & m' & R & Hw & Hb & Hl) Hk. destruct (Hk a x' m' Hw Hb Hl) as (b & x2 & m2 & R2 & Hw2 & Hb2 & Hl2). exists b, x2, m2. unfold mbind. rewrite R, R2. split_and!; try done. congruence.
Qed.
Lemma msafe_read {A B} (c : M A) (k : A -> MM B) x m a : runs c m a m -> msafe (k a) x m -> msafe (mbind (system (mem c)) k) x m.
Proof. intros R. unfold msafe. by rewrite (mbind_mem c k x m a R). Qed.
Lemma msafe_mem {A B} (c : M A) (k : A -> MM B) x m a m' : runs c m a m' -> Zlen m' = Zlen m -> msafe (k a) x m' -> msafe (mbind (system (mem c)) k) x m.
Proof.
  intros R HL (b & x2 & m2 & R2 & ? & ? & ?). exists b, x2, m2. unfold runs in R. unfold mbind, system, mem. rewrite R. destruct x. split_and!; try done. congruence.
Qed.
Lemma packet_msafe now o l c m x : world_ok s (mx_system x) -> bytes m -> 0 <= o -> 0 < l -> l <= c -> o + c <= Zlen m -> complete m o l -> msafe (processPacket darwin s now (Slice o l c)) x m.
Proof.
  intros Hw Hb Ho Hl Hc Hm HC. unfold msafe. rewrite (mixed_packet darwin s o l c m Hl Hc). destruct (classify s m o l) as [|protocol|].
  - by exists true, x, m.
  - by exists false, (inject x protocol (window m o l)), m.
  - apply msafe_system, processPacket_safe; done || lia.
Qed.
Lemma mixed_iter_safe now n m x : world_ok s (mx_system x) -> bytes m -> Zlen m = mtu s + PacketOffset darwin -> n <= Zlen m ->
  (IPv4MinimumSize <= n -> complete m (PacketOffset darwin) (n - PacketOffset darwin)) -> msafe (tunLoop_iter darwin s now n) x m.
Proof.
  intros Hw Hb Hm Hn HC. unfold tunLoop_iter. eapply msafe_read; [done|]. cbv zeta. destruct (Z.ltb_spec n IPv4MinimumSize) as [|H20]; [by apply msafe_ret|]. specialize (HC H20). unfold IPv4MinimumSize in H20.
  assert (0 <= PacketOffset darwin <= 4) by (unfold PacketOffset; destruct darwin; lia). eapply msafe_read; [apply runs_reslice; lia|]. eapply msafe_read; [apply runs_reslice; lia|]. rewrite Z.add_0_l.
  apply msafe_bind; [apply packet_msafe; try done; lia|]. intros wb x' m' Hw' Hb' _. destruct wb; [|by apply msafe_ret]. eapply msafe_read; [apply runs_contents|].
  eexists _, _, _. split; [reflexivity|]. split_and!; try done.
Qed.
Lemma mixed_tunLoop_safe reads m x : world_ok s (mx_system x) -> bytes m -> Zlen m = mtu s + PacketOffset darwin -> Forall (fun r => read_ok darwin s r.2) reads -> msafe (tunLoop darwin s reads) x m.
Proof.
  revert m x. induction reads as [|[now r] reads IH]; intros m x Hw Hb Hm HF; [by apply msafe_ret|]. apply Forall_cons in HF as [Hr HF]. cbn [snd] in Hr.
  assert (forall d, bytes d -> Zlen d <= Zlen m -> (IPv4MinimumSize <= Zlen d -> complete d (PacketOffset darwin) (Zlen d - PacketOffset darwin)) ->
    msafe (mbind (system (mem (fun m => Ok (tt, write_at m 0 d)))) (fun _ => mbind (tunLoop_iter darwin s now (Zlen d)) (fun _ => tunLoop darwin s reads))) x m) as Hd.
  { intros d Hd Hl HC. assert (bytes (write_at m 0 d)) by (by apply bytes_write_at). assert (Zlen (write_at m 0 d) = Zlen m) as HL by (by autorewrite with golen).
    eapply msafe_mem; [unfold runs; reflexivity|done|]. apply msafe_bind.
    - apply mixed_iter_safe; try done; [lia..|]. intros H20. apply complete_write; try done; [|lia|by apply HC]. unfold PacketOffset; destruct darwin; lia.
    - intros _ x' m' Hw' Hb' Hm'. apply IH; try done. congruence. }
  destruct r as [d|d|]; cbn [tunLoop]; [| |by apply msafe_ret]; destruct Hr as (? & ? & ?); apply Hd; done || lia.
Qed.
Lemma mixed_batch_safe clock i batch x : world_ok s (mx_system x) -> Forall slot_ok batch ->
  exists ms out x', batch_packets darwin s clock i batch x = Ok (ms, out, x') /\ world_ok s (mx_system x') /\ Forall2 (fun e m' => bytes m' /\ Zlen m' = Zlen e.1.1) batch ms /\ out_ok i batch out.
Proof.
  revert i x. induction batch as [|[[m off] n] batch IH]; intros i x Hw HF; cbn [batch_packets].
  { exists [], [], x. do 2 (split; [done|]). split; [constructor|]. split; [constructor|]. by intros ??? ?%elem_of_nil. }
  apply Forall_cons in HF as [(Hb & Ho & Hn & HC) HF]. destruct (Z.ltb_spec n IPv4MinimumSize) as [|H20].
  - destruct (IH (S i) x Hw HF) as (ms & out & x' & -> & Hw' & Hms & Hout). eexists _, _, _. split; [reflexivity|]. split_and!; try done; [by constructor|by apply out_ok_skip].
  - specialize (HC H20). unfold IPv4MinimumSize in H20.
    assert (msafe (mbind (system (mem (reslice (Slice 0 (Zlen m) (Zlen m)) off (off + n)))) (fun packet => processPacket darwin s (clock i) packet)) x m) as (wb & x1 & m1 & R & Hw1 & Hb1 & Hl1).
    { eapply msafe_read; [apply runs_reslice; lia|]. replace (off + n - off) with n by lia. rewrite Z.add_0_l. apply packet_msafe; try done; lia. }
    rewrite R. destruct (IH (S i) x1 Hw1 HF) as (ms & out & x' & -> & Hw' & Hms & Hout). eexists _, _, _. split; [reflexivity|]. split_and!; try done; [by constructor|]. destruct wb; [by apply out_ok_keep|by apply out_ok_skip].
Qed.
Lemma mixed_darwin_safe clock buffers x : world_ok s (mx_system x) -> Forall slot_ok buffers -> exists x', batchLoopDarwin_iter darwin s clock buffers x = Ok x' /\ world_ok s (mx_system x').
Proof.
  intros Hw HF. destruct (mixed_batch_safe clock 0 buffers x Hw HF) as (ms & out & x' & E & Hw' & _). unfold batchLoopDarwin_iter. rewrite E. eexists. split; [reflexivity|]. destruct out; [done|]. by apply (world_ok_frame s (mx_system x')).
Qed.
End Loops.

(** C25: what the mixed stack does with a packet.  A packet that is not for one
    host (broadcast or not global unicast) is written back to the device as it
    is, while the system stack drops it; a UDP packet is injected into the
    endpoint of gVisor whole, under its network protocol, and neither changed
    nor written back; with any other packet the mixed stack does exactly what
    the system stack does, and injects nothing. *)
Theorem Mixed_processPacket_splits `{CI : ChecksumImpl} `{SC : SingCommon} `{BP : BufPackage} `{EN : Environment} {T : Type} `{NT : NatTable T}
    (darwin : bool) (s : System) (now o l c : Z) (m : list Z) (w : world (T := T)) (inbound : list (Z * list Z)) : 0 < l -> l <= c ->
  match classify s m o l with
  | WrittenBack => Mixed.processPacket darwin s now (Slice o l c) (Mixed.mkMixed w inbound) m = Ok (true, Mixed.mkMixed w inbound, m) /\
                   processPacket darwin s now (Slice o l c) w m = Ok (false, w, m)
  | ToEndpoint protocol => Mixed.processPacket darwin s now (Slice o l c) (Mixed.mkMixed w inbound) m = Ok (false, Mixed.mkMixed w (inbound ++ [(protocol, window m o l)]), m)
  | AsSystem => Mixed.processPacket darwin s now (Slice o l c) (Mixed.mkMixed w inbound) m =
                match processPacket darwin s now (Slice o l c) w m with Ok (wb, w', m') => Ok (wb, Mixed.mkMixed w' inbound, m') | Panic => Panic end
  end.
Proof.
  intros Hl Hc. pose proof (mixed_packet darwin s o l c m Hl Hc now (Mixed.mkMixed w inbound)) as HM. pose proof (system_not_unicast darwin s o l c m Hl Hc now w) as HS.
  destruct (classify s m o l); [split; [exact HM|by apply HS]|exact HM|exact HM].
Qed.
(** C23: the loop of the mixed stack over the packets of a ring, none of which
    is broadcast or otherwise not global unicast (those are written back, which
    [Mixed_processPacket_splits] states) and all of which have complete headers
    or are shorter than an IPv4 header, is two things at once: the UDP datagrams
    go to the endpoint, each whole and in the order of their arrival, and the
    system stack ends exactly as its own loop does over the packets that are not
    UDP.  Neither loop panics, and the invariant of the system stack is kept. *)
Theorem Mixed_loop_splits `{CI : ChecksumImpl} `{SC : SingCommon} `{BP : BufPackage} `{EN : Environment} {T : Type} `{NT : NatTable T}
    (darwin : bool) (s : System) (packets : list (Z * list Z)) (w : world (T := T)) (inbound : list (Z * list Z)) :
  system_ok s -> world_ok s w -> Forall (fun e => packet_ok s e.2) packets ->
  exists w', wintunLoop darwin s (others s packets) w = Ok w' /\ world_ok s w' /\
    Mixed.wintunLoop darwin s packets (Mixed.mkMixed w inbound) = Ok (Mixed.mkMixed w' (inbound ++ datagrams s packets)).
Proof. intros Hs Hw HF. destruct (wintun_splits darwin s Hs packets w Hw HF) as (w' & E & Hw' & HL). by exists w'. Qed.

(** ** Samples *)

#[local] Existing Instance null_environment.
#[local] Existing Instance sing_common_loop.
#[local] Existing Instance zero_pool.
#[local] Existing Instance ts64.
Definition sample_udp4 : list Z := [69; 0; 0; 28; 0; 0; 0; 0; 64; 17; 0; 0; 172; 19; 0; 2; 1; 1; 1; 1; 4; 0; 0; 53; 0; 8; 0; 0].
Definition sample_multicast4 : list Z := [69; 0; 0; 28; 0; 0; 0; 0; 1; 17; 0; 0; 172; 19; 0; 2; 224; 0; 0; 251; 20; 233; 20; 233; 0; 8; 0; 0].
Lemma sample_udp4_complete : complete sample_udp4 0 (Zlen sample_udp4).
Proof. split; [intros _; vm_compute; congruence|]. intros (_ & _ & H). by vm_compute in H. Defined.
Lemma Mixed_processPacket_splits_witness :
  (Mixed.processPacket false small_system 7 (Slice 0 28 28) (Mixed.mkMixed small_world []) sample_udp4 = Ok (false, Mixed.mkMixed small_world [(2048, sample_udp4)], sample_udp4)) /\
  (Mixed.processPacket false small_system 7 (Slice 0 28 28) (Mixed.mkMixed small_world []) sample_multicast4 = Ok (true, Mixed.mkMixed small_world [], sample_multicast4) /\
   processPacket false small_system 7 (Slice 0 28 28) small_world sample_multicast4 = Ok (false, small_world, sample_multicast4)).
Proof.
  split.
  - exact (Mixed_processPacket_splits false small_system 7 0 28 28 sample_udp4 small_world [] ltac:(lia) ltac:(lia)).
  - exact (Mixed_processPacket_splits false small_system 7 0 28 28 sample_multicast4 small_world [] ltac:(lia) ltac:(lia)).
Defined.
Lemma Mixed_loop_splits_witness : exists w',
  wintunLoop false small_system [(7, sample_tcp4)] small_world = Ok w' /\
  Mixed.wintunLoop false small_system [(7, sample_tcp4); (8, sample_udp4)] (Mixed.mkMixed small_world []) = Ok (Mixed.mkMixed w' [(2048, sample_udp4)]).
Proof.
  destruct (Mixed_loop_splits false small_system [(7, sample_tcp4); (8, sample_udp4)] small_world []) as (w' & E & _ & HL); [split_and!; cbn; lia|exact small_world_ok| |by exists w'].
  constructor; [|constructor; [|constructor]]; (split; [concrete|intros _; split; [|vm_compute; congruence]]); [exact sample_tcp4_complete|exact sample_udp4_complete].
Defined.
